(* ===== verification/_CoqProject ===== *)
-Q . S2P
Prelude.v
PyFloat.v
PyRound.v
PyDiv.v
PyNum.v
PyQuot.v
PyVal.v
PyEnv.v
PyJson.v
PySort.v
PyStr.v
PyTime.v
SqlText.v
PyStats.v
JsonFacts.v
PlanText.v
Session.v
EventRisk.v
Contracts.v
EventSource.v
EventCalendar.v
EventFacts.v
Regime.v
RelativeStrength.v
OptionsBias.v
Sha256.v
TradeManager.v
TradeManagerFacts.v
Validator.v
ValidatorFacts.v
Debate.v
DebateFacts.v
Opportunity.v
OpportunityFacts.v
JournalTags.v
MarketTools.v
OrderFlow.v
VolumeProfile.v
FlowTools.v
Options.v
Forecaster.v
OptionsChain.v
OptionsTool.v
Journal.v
JournalFacts.v
Attribution.v
AttributionFacts.v
Calibration.v
HashChain.v
HashChainFacts.v
SessionStore.v
SessionStoreFacts.v
SessionReconcile.v
SessionPages.v
StreamPersist.v
StreamPersistFacts.v
InternalIdentity.v
InternalIdentityFacts.v
Entitlements.v
SessionApi.v
SessionApiFacts.v
TradeTools.v
GraphMessages.v
GraphEvidence.v
GraphRecord.v
StreamEvents.v
StreamEventsFacts.v
RunStream.v
RunStreamFacts.v
Server.v
ServerFacts.v
Graph.v
GraphNodes.v
GraphDebate.v
GraphFlow.v
GraphFacts.v
GraphFlowFacts.v
GraphRunFacts.v
GraphEvidenceFacts.v
TradeToolsFacts.v
