(* ===== verification/Prelude.v ===== *)
(** * Verification of the Deep Quant decision core

    The repository is an AI trading system: Rust services gather market data, and a
    Python agent ([src/agents/deep-quant-loop/]) lets a language model analyse a
    symbol with tools and commit, at most, one trade decision per run.  This library
    models the part of the Python agent that decides what is allowed to happen: which
    trades pass the risk rules, how a committed plan is simulated and scored, what is
    recorded and how the record can be checked, how the agent graph moves from node to
    node, and how the service around it identifies its callers, opens runs for them,
    streams and stores what a run says, and serves it again.

    ** How the program's parts map to the files

    Python and its standard library, as far as the agent uses them:
    - [Prelude]: exceptions, the result monad [res], tactics, list lemmas;
    - [PyFloat], [PyRound], [PyDiv], [PyNum], [PyQuot]: binary64 arithmetic on primitive
      floats, [round], division (with the bounds every rounded quotient obeys),
      midpoints, the shortest decimal that [repr] prints, mixed int/float comparison and
      arithmetic (with their [OverflowError] and [ZeroDivisionError]);
    - [PyVal], [PyEnv], [PyJson]: dynamic values ([None], numbers, strings, lists,
      dictionaries in insertion order, objects), environment parsing, [json.dumps] and
      [json.loads] with UTF-8; [PyStr]: string methods; [PySort]: sorted lists, the order
      of strings and of pairs; [PyTime]: the calendar of [datetime], zones and
      timestamps; [PyStats]: [sum] of floats, means, [x ** 2] as the rounded
      square, windows and clamping; [SqlText]: the escaping of SQL literals and a reader of
      them; [Sha256]: [hashlib.sha256] and [hmac]; [JsonFacts]: what [json.dumps]
      writes is what [json.loads] reads, for the values the claims of a token hold, and
      the text of a float from 1 up to [2 ^ 53] is read back as that float, which is what
      timestamps and cursors need.

    The agent:
    - [TradeManager] = [trade_manager.py]: management plans, their payload, the
      bar-by-bar simulation [simulate_plan] ([sim_loop] over [sim_step]);
    - [Validator] = [validator.py]: [validate_trade], [_validate_management_plan];
    - [Debate] = [debate.py]: stances, consensus, conviction, bias;
    - [Opportunity] = [opportunity.py]: tier ladder, bounded hunt, invalidation
      post-mortem, heartbeats, context pruning;
    - [JournalTags], [Journal] = [journal.py]: setup fingerprint; the trades table as
      rows with column affinities, recording, scoring, statistics, deduplication;
    - [Attribution] = [attribution.py] and the weight-map consultation of [graph.py]:
      statistics per setup dimension, ranking, recommendations, conviction scaling;
    - [Calibration] = [calibration.py]: conviction bins, reliability, consensus classes;
    - [Regime] = [regime.py], [RelativeStrength] = [rs.py], [OptionsBias] =
      [options_bias.py]: the classifiers of a market, of a symbol against its benchmark
      and of option positioning; [MarketTools] = the candle tools of [tools.py] that call
      the first two and [Session];
    - [OrderFlow] = [order_flow.py]: buying and selling pressure from candles and ticks;
      [VolumeProfile] = the volume-profile arithmetic of [tools.py]; [FlowTools] = the two
      tools that call them and the read of live ticks;
    - [Forecaster] = [forecaster.py] and [get_forecast] of [tools.py]: a probability and a
      direction from the drift and the volatility of a candle sequence;
    - [Options] = the pure core of [options.py]: Black-Scholes, implied volatility by
      bisection, Greeks, put-call ratios, max pain, skew, build-up, walls, basis;
      [OptionsChain] = the rest of it: the queries, the chain from the tick store or the
      exchange, the assembled result, [compute_options_analytics]; [OptionsTool] =
      [get_options_analytics] of [tools.py] and the options snapshot route of [main.py];
    - [Session] = [session.py]: phases, minutes, expiry, favourability of a timestamp;
    - [EventRisk] = [events.py], [EventSource] = the event tool of [tools.py] (files, CSV,
      API shapes, [get_event_risk]), [EventCalendar] = [event_calendar.py] and its route
      in [main.py];
    - [Contracts] = [validate_contract] of [tools.py];
    - [HashChain] = [hashchain.py], [reco_store.py], [interaction_log.py]: canonical
      JSON, the hash chain, verification, the two append-only stores;
    - [TradeTools] = [watch_price_condition], [declare_trade] and [get_trade_performance]
      of [tools.py]: watch registration and what a resume turns into, the plan gate, the
      tool server's answer, the track record with the scoring pass that precedes it;
    - [PlanText], [GraphEvidence], [GraphRecord] = the evidence part of [graph.py]: levels
      read from prose, the entry of each tool, VERIFY checks, management and debate
      entries, [_stamp_opportunity_tier], [build_defensibility_record];
    - [GraphMessages], [Graph], [GraphNodes], [GraphDebate], [GraphFlow] =
      [graph.py]: messages and tool-call extraction; the state and the finalize
      chokepoint [_finalize_decision]; [call_model]; [tool_node] with its four gates and
      the forced terminals; the debate roles and the judge; Q&A, the routers, and the
      compiled graph as the step function [step] with its runs [steps].
    The service around the agent:
    - [SessionStore] = [session_store.py]: sessions, runs, frames and messages as four
      finite maps with their keys, checks and cascades ([db]), each operation a
      transaction on it; [SessionReconcile] and [SessionPages] hold the theorems on
      [reconcile_stale_runs] and on cursor pages;
    - [InternalIdentity] = [internal_identity.py]: signed assertions, [resolve_user],
      [require_service]; [Entitlements] = [entitlements.py]: the research gate;
    - [SessionApi] = [session_api.py]: the routes, in the module [Api], as functions from
      a call and the store to a reply (a value, an HTTP status or an exception);
    - [StreamEvents] = [stream_events.py]: a node update as frames; [StreamPersist] =
      [stream_persist.py]: the transcript of a run; [RunStream] = [event_generator] of
      [main.py]: the frames of a run, its ending and what is stored of it;
    - [Server] = the routes [/run], [/resume], [/qa], [/cancel] and [/stream] of [main.py]
      and the fan-out hub, as steps of a state monad over the store, the entitlement
      cache, the interaction log and the set of cancelled threads.
    The theorems about [X] are at the end of [X] or in [XFacts]; [GraphRunFacts] those about whole
    runs, [TradeToolsFacts] those that join [declare_trade] to [tool_node].

    The components interact as in the code: the graph calls the validator through the
    [declare_trade] tool ([TradeToolsFacts.executor] puts [TradeTools.declare_trade] and
    [TradeTools.get_trade_performance] in the place of the tool executor that [tool_node]
    takes; an executor is given the journal and gives it back, since the track record
    scores the open trades while a tool runs), the opportunity engine for
    every termination and re-arm decision, the debate core for stances and verdicts, and
    writes the journal and the recommendation store in [_finalize_decision]; the journal
    reuses the trade manager to score managed plans.  A route resolves its caller
    ([InternalIdentity]), opens or finds a run ([SessionStore]), passes the gate
    ([Entitlements]) and streams it ([RunStream], which takes the graph's updates as a
    [graph_run]); every frame goes to the caller, to the persister ([StreamPersist], over
    the class [Store], which [SessionStore] implements) and to the hub.

    ** What the theorems show

    - Trade manager: the active stop only ever moves with the trade, fills and residual
      account for the position, fills are legs of the plan, candle order is irrelevant,
      a plan survives persistence.
    - Validator: the verdict equals an independent specification; a pass is safe for
      brackets and for plans; BUY and SELL mirror; the one way the code can divide by
      zero.
    - Debate: stances are normalised and round-trip, conviction is attenuated and
      monotone, a directional bias is earned.
    - Opportunity: pruning is bounded and keeps whole groups, tiers are sound, the
      termination predicate is exactly the documented one, heartbeats are bounded.
    - Journal: the invariant of every reachable journal, one row per thread under any
      interleaving, what a scoring pass settles, equivalence of the legacy walk with the
      simulator, what deduplication keeps.
    - Attribution: the report counts exactly the scored rows, acts only on a sufficient
      sample, weights only attenuate, the map never touches a trade's levels.
    - Session and events ([Session], [EventFacts]): labels are consistent and their
      minutes exact; risk grows as an event nears; what the calendar adapter serves is a
      genuine, recent payload and the gate reads exactly its dates; a date-only event is
      invisible on its own day; the classifiers meet the tool contracts.
    - Market classifiers ([Regime], [RelativeStrength], [OptionsBias]): what
      each label says of its input, on every branch; bounded measures are in their bands;
      the alignment of two candle sequences pairs exactly the last valid candles of their
      common times; the one way the options bias raises.  What the tools answer is sound
      and is the label of the candles fetched ([MarketTools], [FlowTools]).
    - Order flow and volume profile ([OrderFlow], [VolumeProfile]): the label of
      every input, with its bounded ratios; the profile's rows, its point of control, its
      contiguous value area and where the price lies.
    - Forecast ([Forecaster]): direction, probability and confidence agree with each other
      and with the standardised drift; the tool's answers are sound.
    - Options ([Options], [OptionsChain], [OptionsTool]): an implied
      volatility is the bound or the midpoint that the halvings of a bracket of its price
      reach; max pain, walls
      and build-up are what they claim, ties included; every query names exactly what was
      asked for, whatever quotes a name holds; the chain that is analysed is that of the
      request, ascending and finite, the latest capture before the earlier; the analytics
      answer with the numbers of that chain, finite ones, or an honest marker; the tool's
      answers are sound and the route's rows are those of the chain at the nearest expiry.
    - Calibration: the bins partition the scored debates; when a win rate exists; what the
      reliability flag says.
    - Stores: verification decides exactly the well-linked chains, the tip binds the
      history, an edit is located; the recommendation store always verifies; two
      concurrent appends can fork the interaction log.
    - Graph: every tool call is answered exactly once, a trade is committed only through
      open gates, a tool writes the journal only to settle open trades when its executor
      does, Q&A never touches the trade and ends ([GraphFacts], [GraphFlowFacts]); a
      run commits exactly once, a debate lasts its rounds, reasoning without acting is
      bounded while tool turns are not ([GraphRunFacts]).
    - Trade tools: [declare_trade] answers without the rejection marker exactly when the
      trade was validated, so a committed BUY or SELL was; the aliases LONG and SHORT
      escape; the first registration attempt that is not a failure decides a watch.
    - Evidence ([GraphEvidenceFacts]): the record cites only what tools returned, states
      an opposition exactly when there is one, and its VERIFY checks agree with the
      validator; a plan that is not text aborts the commit.
    - Session store: the invariant of every reachable store (keys, owners, dense
      sequences, one ending per run), an ending is final, the transcript is read back
      gap-free, payloads included, reconciliation leaves nothing that pretends to be live, the pages of a
      listing cover it once.
    - Identity and entitlement: a signed assertion is accepted, an accepted one carries
      the MAC of its payload, with enforcement on nothing but a valid assertion names a
      caller; every failure of the gate denies.
    - Routes: a reply is computed from the caller's own rows, a write changes only them,
      what the caller does not own is not found; a question is grounded in a run of its
      session; a reader gets its own run's frames in the order they were published.
    - Streams: a run's frames are ordered, verification steps are complete, what is
      stored of a run is what was sent of it; a paused run is recorded as
      truncated.

    ** Conventions and bounds

    A fallible Python call is [res]: [Ok] or [Raise] with the exception class.  Python
    integers are [Z]; floats are primitive binary64, so rounding, NaN and infinities are
    those of the code.  Recursion is structural, or on fuel that is the length of the
    text being scanned ([loads], the markup scanner, the number printers), which every
    step shortens.  Strings are UTF-8 bytes; [str.upper], [str.lower] and [str.strip] act
    on ASCII.  [sorted] by a key that is NaN is modelled as an insertion sort, which
    agrees with the code on comparable keys.

    Inputs of the model, not definitions: the language model's responses, the clock,
    [math.log10], [math.log], [math.exp], [math.erf] and [**] on floats (parameters; Python's own range
    errors around them are in the model), the tick store and the exchange proxy ([exec],
    [kite]: an answer per query, the same for a repeated query within one call; the
    snapshot route, which reads the chain twice, has one of each per read),
    what the tool executor returns (LangGraph's [ToolNode]; hypothesis [answering] in
    [GraphFacts] is its documented contract, one tool message per call in order; likewise
    [exp_ordered] in [Forecaster] for [math.exp]),
    [ast.literal_eval], [datetime.fromisoformat], the tz database ([tzdata]), file contents
    and HTTP answers ([outside], [upstream]), and what SQLite keeps of a bound value ([stored], with the
    documented affinity conversions as hypotheses).  A node that raises leaves the
    graph's state and the journal as they were: a run is modelled alone against its
    stores, and where a node is suspended in a tool and resumed, its executor stands for
    both attempts.  What other processes write between the steps of a commit is in
    [JournalFacts] only.

    ** Not modelled

    Prompt text, model bindings and provider retries; the HTTP calls of [tools.py]; the
    start-up, health and key routes of [main.py]; metrics and telemetry; the schema
    migration of the session store and its thread-pool twins; the backtest; the Rust and JavaScript services.  Process context
    (the run's user id, the prompt identifiers) is the record [provenance].  The plan
    regular expressions are modelled on ASCII text: a non-ASCII digit, space or word
    character counts as none of them. *)

From stdpp Require Import base list strings.
From Stdlib Require Import ZArith Lia.

(** ** Python exceptions and the result monad *)

(** The exception classes the modelled code can raise or catches by name. *)
Inductive exn :=
  | ValueError
  | TypeError
  | OverflowError
  | ZeroDivisionError
  | KeyError
  | IndexError
  | AttributeError
  | SqliteError
  | ImmutableFieldError
  | IdentityError.

#[export] Instance exn_eq_dec : EqDecision exn.
Proof. solve_decision. Defined.

(** A Python expression either yields a value or raises. *)
Inductive res (A : Type) : Type :=
  | Ok (a : A)
  | Raise (e : exn).
Arguments Ok {A} a.
Arguments Raise {A} e.

#[export] Instance res_ret : MRet res := fun A a => Ok a.
#[export] Instance res_bind : MBind res := fun A B f m =>
  match m with Ok a => f a | Raise e => Raise e end.
#[export] Instance res_fmap : FMap res := fun A B f m =>
  match m with Ok a => Ok (f a) | Raise e => Raise e end.

(** [try m except (handles) k]: the handler [k] runs when [handles] accepts the
    exception class, any other exception propagates. *)
Definition catch {A} (m : res A) (handles : exn -> bool) (k : A) : res A :=
  match m with
  | Ok a => Ok a
  | Raise e => if handles e then Ok k else Raise e
  end.

(** [for x in l: acc = f acc x], stopping at the first exception. *)
Fixpoint foldM {A B} (f : B -> A -> res B) (acc : B) (l : list A) : res B :=
  match l with
  | [] => Ok acc
  | x :: l' => f acc x ≫= fun acc' => foldM f acc' l'
  end.

Fixpoint mapM_res {A B} (f : A -> res B) (l : list A) : res (list B) :=
  match l with
  | [] => Ok []
  | x :: l' => y ← f x; ys ← mapM_res f l'; Ok (y :: ys)
  end.

Definition is_ok {A} (m : res A) : bool :=
  match m with Ok _ => true | Raise _ => false end.

(** Short-circuit [and], [or] and [not] over conditions that may raise. *)
Definition andM (a b : res bool) : res bool := x ← a; if x : bool then b else Ok false.
Definition orM (a b : res bool) : res bool := x ← a; if x : bool then Ok true else b.
Definition notM (a : res bool) : res bool := x ← a; Ok (negb x).

Declare Scope res_scope.
Delimit Scope res_scope with res.
Notation "a 'and?' b" := (andM a b) (at level 42, right associativity) : res_scope.
Notation "a 'or?' b" := (orM a b) (at level 43, right associativity) : res_scope.
Notation "'not?' a" := (notM a) (at level 41, right associativity) : res_scope.

(** ** Lemmas on the monad *)

Lemma Ok_inj {A} (a b : A) : Ok a = Ok b -> a = b.
Proof. congruence. Qed.

Lemma bind_Ok {A B} (m : res A) (f : A -> res B) (b : B) :
  (m ≫= f) = Ok b -> exists a, m = Ok a /\ f a = Ok b.
Proof. destruct m as [a|e]; simpl; intros H; [by exists a | discriminate]. Qed.

Lemma fmap_Ok {A B} (f : A -> B) (m : res A) (b : B) :
  (f <$> m) = Ok b -> exists a, m = Ok a /\ b = f a.
Proof. destruct m as [a|e]; cbn; intros H; [exists a; by inversion H | discriminate]. Qed.

Lemma bind_Ok_eq {A B} (a : A) (f : A -> res B) : (Ok a ≫= f) = f a.
Proof. done. Qed.

Lemma andM_true a b : andM a b = Ok true <-> a = Ok true /\ b = Ok true.
Proof. destruct a as [[]|]; simpl; split; try tauto; intros H; try discriminate; by destruct H. Qed.

Lemma orM_false a b : orM a b = Ok false <-> a = Ok false /\ b = Ok false.
Proof. destruct a as [[]|]; simpl; split; try tauto; intros H; try discriminate; by destruct H. Qed.

Lemma notM_true a : notM a = Ok true <-> a = Ok false.
Proof. destruct a as [[]|]; simpl; split; congruence. Qed.

Lemma notM_false a : notM a = Ok false <-> a = Ok true.
Proof. destruct a as [[]|]; simpl; split; congruence. Qed.

Lemma catch_total {A} (m : res A) (k : A) :
  exists a, catch m (fun _ => true) k = Ok a.
Proof. destruct m; simpl; eauto. Qed.

Lemma foldM_Ok_inv {A B} (P : B -> Prop) (f : B -> A -> res B) l acc r :
  P acc ->
  (forall b x b', In x l -> P b -> f b x = Ok b' -> P b') ->
  foldM f acc l = Ok r -> P r.
Proof.
  revert acc. induction l as [|x l IH]; simpl; intros acc Hacc Hstep H.
  - injection H as <-. done.
  - apply bind_Ok in H as (acc' & H1 & H2).
    eapply IH; [| |exact H2]; eauto.
Qed.

Lemma foldM_app {A B} (f : B -> A -> res B) l1 l2 acc :
  foldM f acc (l1 ++ l2) = foldM f acc l1 ≫= fun b => foldM f b l2.
Proof.
  revert acc. induction l1 as [|x l1 IH]; intros acc; simpl; [done|].
  destruct (f acc x); simpl; auto.
Qed.

(** ** Automation *)

(** Splits a hypothesis [m ≫= f = Ok b] into its steps, and cleans up the
    resulting equations. *)
Ltac mbind H :=
  let a := fresh "a" in let Ha := fresh "E" in
  apply bind_Ok in H as (a & Ha & H).

(** Case analysis on the innermost [match]/[if] of a hypothesis or the goal,
    discharging contradictory branches at once. *)
Ltac case_hyp H :=
  match type of H with
  | context [match ?x with _ => _ end] =>
      lazymatch x with
      | context [match _ with _ => _ end] => fail
      | _ => let E := fresh "E" in destruct x eqn:E; try discriminate H; try congruence
      end
  end.

Ltac case_goal :=
  match goal with
  | |- context [match ?x with _ => _ end] =>
      lazymatch x with
      | context [match _ with _ => _ end] => fail
      | _ => let E := fresh "E" in destruct x eqn:E; try discriminate; try congruence
      end
  end.

(** Booleans to propositions, in every hypothesis. *)
Ltac bools :=
  repeat match goal with
  | H : (_ && _)%bool = true |- _ => apply andb_true_iff in H as [? ?]
  | H : (_ || _)%bool = false |- _ => apply orb_false_iff in H as [? ?]
  | H : negb _ = true |- _ => apply negb_true_iff in H
  | H : negb _ = false |- _ => apply negb_false_iff in H
  | H : (_ <? _)%Z = true |- _ => apply Z.ltb_lt in H
  | H : (_ <? _)%Z = false |- _ => apply Z.ltb_ge in H
  | H : (_ <=? _)%Z = true |- _ => apply Z.leb_le in H
  | H : (_ <=? _)%Z = false |- _ => apply Z.leb_gt in H
  | H : (_ =? _)%Z = true |- _ => apply Z.eqb_eq in H
  | H : (_ =? _)%Z = false |- _ => apply Z.eqb_neq in H
  | H : (_ >=? _)%Z = true |- _ => apply Z.geb_le in H
  | H : (_ >? _)%Z = true |- _ => apply Z.gtb_lt in H
  | H : String.eqb _ _ = true |- _ => apply String.eqb_eq in H
  | H : String.eqb _ _ = false |- _ => apply String.eqb_neq in H
  end.

(** ** Lists *)

(** [sub_of k l]: [k] is [l] with some elements removed, in order. *)
Definition sub_of {A} (k l : list A) : Prop := sublist k l.

Lemma Forall_filter {A} (P : A -> Prop) (f : A -> bool) l :
  Forall P l -> Forall P (List.filter f l).
Proof.
  induction 1; simpl; [constructor|]. destruct (f x); [by constructor|done].
Qed.

Lemma existsb_false {A} (f : A -> bool) l :
  existsb f l = false <-> forall x, In x l -> f x = false.
Proof.
  induction l as [|a l IH]; simpl; [split; [tauto|done]|].
  rewrite orb_false_iff, IH. split.
  - intros [Ha Hl] x [<-|Hx]; auto.
  - intros H; split; intros; apply H; auto.
Qed.

(** Every integer of [[lo, lo + n)], for exhaustive checks by computation. *)
Definition zrange (lo : Z) (n : nat) : list Z :=
  map (fun i => lo + Z.of_nat i)%Z (seq 0 n).

Lemma zrange_In lo n z : (lo <= z < lo + Z.of_nat n)%Z -> In z (zrange lo n).
Proof.
  intros H. unfold zrange. apply in_map_iff. exists (Z.to_nat (z - lo)).
  split; [lia|]. apply in_seq. lia.
Qed.

Lemma zrange_forallb lo n (f : Z -> bool) :
  forallb f (zrange lo n) = true ->
  forall z, (lo <= z < lo + Z.of_nat n)%Z -> f z = true.
Proof.
  intros H z Hz. rewrite forallb_forall in H. by apply H, zrange_In.
Qed.

(** ** Mapping a fallible function over a list *)

Lemma mapM_res_In {A B} (f : A -> res B) l ys y :
  mapM_res f l = Ok ys -> y ∈ ys -> exists x, x ∈ l /\ f x = Ok y.
Proof.
  revert ys. induction l as [|x l IH]; simpl; intros ys H Hy.
  - injection H as <-. by apply elem_of_nil in Hy.
  - mbind H. mbind H. injection H as <-. apply elem_of_cons in Hy as [->|Hy].
    + exists x. split; [left|done].
    + destruct (IH _ E0 Hy) as (x' & ? & ?). exists x'. split; [by right|done].
Qed.

Lemma mapM_res_Forall2 {A B} (f : A -> res B) l ys : mapM_res f l = Ok ys -> Forall2 (fun a y => f a = Ok y) l ys.
Proof.
  revert ys. induction l as [|a l IH]; intros ys H; cbn in H; [by injection H as <-|]. do 2 mbind H. injection H as <-.
  constructor; [done|by apply IH].
Qed.

Lemma mapM_res_app {A B} (f : A -> res B) l1 l2 :
  mapM_res f (l1 ++ l2) = (a ← mapM_res f l1; b ← mapM_res f l2; Ok (a ++ b)).
Proof.
  induction l1 as [|x l1 IH]; cbn [mapM_res app].
  - cbn. by destruct (mapM_res f l2).
  - rewrite IH. destruct (f x); [|done]. cbn. destruct (mapM_res f l1); [|done]. cbn. by destruct (mapM_res f l2).
Qed.

Lemma mapM_res_perm {A B} (f : A -> res B) l1 l2 ys1 :
  l1 ≡ₚ l2 -> mapM_res f l1 = Ok ys1 -> exists ys2, mapM_res f l2 = Ok ys2 /\ ys1 ≡ₚ ys2.
Proof.
  intros Hp. revert ys1. induction Hp as [|x l1 l2 Hp IH|x y l|l1 l2 l3 H1 IH1 H2 IH2]; intros ys1 H.
  - exists ys1. by split.
  - simpl in H |- *. mbind H. mbind H. injection H as <-.
    destruct (IH _ E0) as (ys2 & -> & Hys). rewrite E. exists (a :: ys2). split; [done|]. by constructor.
  - simpl in H |- *. mbind H. mbind H. mbind E0. mbind E0. injection E0 as <-. injection H as <-.
    rewrite E, E1, E2. eexists. split; [reflexivity|]. apply perm_swap.
  - destruct (IH1 _ H) as (ys2 & E2 & P2). destruct (IH2 _ E2) as (ys3 & E3 & P3).
    exists ys3. split; [done|]. by rewrite P2.
Qed.

Lemma mapM_res_raise {A B} (f : A -> res B) l1 l2 e :
  l1 ≡ₚ l2 -> mapM_res f l1 = Raise e -> exists e', mapM_res f l2 = Raise e'.
Proof.
  intros Hp H. destruct (mapM_res f l2) as [ys|e'] eqn:E; [|eauto].
  symmetry in Hp. destruct (mapM_res_perm _ _ _ _ Hp E) as (ys' & E' & _). congruence.
Qed.
