(* ===== verification/PyFloat.v ===== *)
(** * Python floats

    A Python [float] is an IEEE 754 binary64 number: Rocq's primitive [float].
    Comparisons, [+ - * /] and [abs] are the kernel's primitives; conversions
    to and from integers, [round] and decimal literals are written out here on
    exact integers.

    Reasoning goes through [frank]: the exact value of a float scaled by
    [2^1074], an integer.  Every comparison of floats that are not NaN is the
    comparison of their ranks ([ltb_rank], [leb_rank], [eqb_rank]), so order
    facts are left to [lia] (tactic [forder]). *)

From stdpp Require Import base list.
From Stdlib Require Import ZArith Lia Floats.
From S2P Require Import Prelude.

Declare Scope pyf_scope.
Delimit Scope pyf_scope with pyf.

(** ** Exact values *)

(** Value of a [spec_float] times [2^1074]; infinities sit beyond every finite
    value, NaN (which has no value) is mapped to 0 and always guarded. *)
Definition sf_rank (x : spec_float) : Z :=
  match x with
  | S754_zero _ => 0
  | S754_nan => 0
  | S754_infinity s => if s then - 2 ^ 2098 else 2 ^ 2098
  | S754_finite s m e => cond_Zopp s (Z.pos m * 2 ^ (e + 1074))
  end%Z.

Definition frank (x : float) : Z := sf_rank (Prim2SF x).

(** [math.isfinite] on a float. *)
Definition fin (x : float) : bool := is_finite x.

Definition sf_nan (x : spec_float) : bool :=
  match x with S754_nan => true | _ => false end.

Definition sf_inf (x : spec_float) : bool :=
  match x with S754_infinity _ => true | _ => false end.

(** ** Ranks and comparisons *)

Lemma digits2_bounds (p : positive) :
  (2 ^ (Z.pos (digits2_pos p) - 1) <= Z.pos p < 2 ^ Z.pos (digits2_pos p))%Z.
Proof.
  induction p as [p IH|p IH|]; cbn [digits2_pos].
  - change (Z.pos p~1) with (2 * Z.pos p + 1)%Z. rewrite Pos2Z.inj_succ, Z.pow_succ_r by lia.
    replace (Z.succ (Z.pos (digits2_pos p)) - 1)%Z
      with (Z.succ (Z.pos (digits2_pos p) - 1)) by lia.
    rewrite Z.pow_succ_r by lia. lia.
  - change (Z.pos p~0) with (2 * Z.pos p)%Z. rewrite Pos2Z.inj_succ, Z.pow_succ_r by lia.
    replace (Z.succ (Z.pos (digits2_pos p)) - 1)%Z
      with (Z.succ (Z.pos (digits2_pos p) - 1)) by lia.
    rewrite Z.pow_succ_r by lia. lia.
  - simpl. lia.
Qed.

Lemma bounded_spec m e :
  SpecFloat.bounded 53 1024 m e = true ->
  (Z.pos m < 2 ^ 53 /\ -1074 <= e <= 971 /\ (e = -1074 \/ 2 ^ 52 <= Z.pos m))%Z.
Proof.
  unfold SpecFloat.bounded, canonical_mantissa, fexp, SpecFloat.emin.
  intros H. apply andb_true_iff in H as [H1 H2].
  apply Z.eqb_eq in H1. apply Z.leb_le in H2.
  pose proof (digits2_bounds m) as Hd. set (d := Z.pos (digits2_pos m)) in *.
  assert (d <= 53)%Z as Hle by lia.
  split; [|split; [lia|]].
  - pose proof (Z.pow_le_mono_r 2 d 53 ltac:(lia) Hle). lia.
  - destruct (Z.eq_dec e (-1074)) as [|Hne]; [by left|right].
    replace d with 53%Z in Hd by lia. simpl in Hd. lia.
Qed.

Lemma pow2_pos k : (0 <= k -> 0 < 2 ^ k)%Z.
Proof. intros. apply Z.pow_pos_nonneg; lia. Qed.

(** The scaled value of a bounded finite float is below that of infinity. *)
Lemma finite_rank_lt m e :
  SpecFloat.bounded 53 1024 m e = true ->
  (0 < Z.pos m * 2 ^ (e + 1074) < 2 ^ 2098)%Z.
Proof.
  intros Hb. apply bounded_spec in Hb as (Hm & He & _).
  pose proof (pow2_pos (e + 1074) ltac:(lia)). split; [lia|].
  assert (2 ^ (e + 1074) <= 2 ^ 2045)%Z by (apply Z.pow_le_mono_r; lia).
  replace (2 ^ 2098)%Z with (2 ^ 53 * 2 ^ 2045)%Z by (rewrite <- Z.pow_add_r; [reflexivity|lia|lia]).
  nia.
Qed.

(** Bounded floats of different exponents are ordered by exponent. *)
Lemma exp_lt_rank_lt m1 e1 m2 e2 :
  SpecFloat.bounded 53 1024 m1 e1 = true ->
  SpecFloat.bounded 53 1024 m2 e2 = true ->
  (e1 < e2)%Z -> (Z.pos m1 * 2 ^ (e1 + 1074) < Z.pos m2 * 2 ^ (e2 + 1074))%Z.
Proof.
  intros H1 H2 Hlt. apply bounded_spec in H1 as (Hm1 & He1 & _).
  apply bounded_spec in H2 as (_ & He2 & [->|Hm2]); [lia|].
  pose proof (pow2_pos (e1 + 1074) ltac:(lia)).
  assert (2 ^ (e1 + 1075) <= 2 ^ (e2 + 1074))%Z as Hp by (apply Z.pow_le_mono_r; lia).
  replace (e1 + 1075)%Z with (Z.succ (e1 + 1074)) in Hp by lia.
  rewrite Z.pow_succ_r in Hp by lia.
  assert (Z.pos m1 * 2 ^ (e1 + 1074) < 2 ^ 53 * 2 ^ (e1 + 1074))%Z by nia.
  change (2 ^ 53)%Z with (2 ^ 52 * 2)%Z in *. nia.
Qed.

Lemma finite_compare_rank m1 e1 m2 e2 :
  SpecFloat.bounded 53 1024 m1 e1 = true ->
  SpecFloat.bounded 53 1024 m2 e2 = true ->
  match Z.compare e1 e2 with
  | Lt => Lt | Gt => Gt | Eq => Pos.compare_cont Eq m1 m2
  end = Z.compare (Z.pos m1 * 2 ^ (e1 + 1074)) (Z.pos m2 * 2 ^ (e2 + 1074)).
Proof.
  intros H1 H2. destruct (Z.compare_spec e1 e2) as [->|Hlt|Hgt].
  - pose proof (bounded_spec _ _ H2) as (_ & He & _).
    rewrite <- Zmult_compare_compat_r by (pose proof (pow2_pos (e2 + 1074)); lia).
    reflexivity.
  - symmetry. apply Z.compare_lt_iff. by apply exp_lt_rank_lt.
  - symmetry. apply Z.compare_gt_iff. by apply exp_lt_rank_lt.
Qed.

Lemma SFcompare_rank x y :
  valid_binary x = true -> valid_binary y = true ->
  sf_nan x = false -> sf_nan y = false ->
  SFcompare x y = Some (Z.compare (sf_rank x) (sf_rank y)).
Proof.
  assert (0 < 2 ^ 2098)%Z as Hbig by (apply pow2_pos; lia).
  destruct x as [[]|[]| |[] m1 e1], y as [[]|[]| |[] m2 e2];
    cbn [sf_nan valid_binary SpecFloat.valid_binary]; intros V1 V2 N1 N2;
    try discriminate; cbn [SFcompare sf_rank cond_Zopp];
    try reflexivity; f_equal; symmetry;
    try pose proof (finite_rank_lt _ _ V1); try pose proof (finite_rank_lt _ _ V2);
    try (apply Z.compare_lt_iff; lia); try (apply Z.compare_gt_iff; lia).
  - rewrite Z.compare_opp, <- finite_compare_rank by done.
    rewrite (Z.compare_antisym e1 e2). destruct (Z.compare e1 e2) eqn:E; try reflexivity.
    simpl. change (CompOpp (m1 ?= m2)%positive) with (CompOpp (Pos.compare m1 m2)).
    by rewrite <- Pos.compare_antisym.
  - by rewrite <- finite_compare_rank.
Qed.

Lemma is_nan_sf x : is_nan x = sf_nan (Prim2SF x).
Proof.
  unfold is_nan. rewrite eqb_spec. unfold SFeqb.
  destruct (Prim2SF x) as [s|s| |s m e] eqn:E; try reflexivity.
  - by destruct s.
  - rewrite SFcompare_rank; [|rewrite <- E; apply Prim2SF_valid..|done|done].
    by rewrite Z.compare_refl.
Qed.

Lemma fcompare_rank x y :
  is_nan x = false -> is_nan y = false ->
  SFcompare (Prim2SF x) (Prim2SF y) = Some (Z.compare (frank x) (frank y)).
Proof.
  rewrite !is_nan_sf. intros. by apply SFcompare_rank; [apply Prim2SF_valid..| |].
Qed.

Lemma nan_compare_l x y : is_nan x = true -> SFcompare (Prim2SF x) (Prim2SF y) = None.
Proof. rewrite is_nan_sf. by destruct (Prim2SF x). Qed.

Lemma nan_compare_r x y : is_nan y = true -> SFcompare (Prim2SF x) (Prim2SF y) = None.
Proof. rewrite is_nan_sf. by destruct (Prim2SF x), (Prim2SF y). Qed.

Lemma ltb_rank x y :
  PrimFloat.ltb x y = (negb (is_nan x) && negb (is_nan y) && (frank x <? frank y)%Z)%bool.
Proof.
  rewrite ltb_spec. unfold SFltb.
  destruct (is_nan x) eqn:Ex; [by rewrite nan_compare_l|].
  destruct (is_nan y) eqn:Ey; [by rewrite nan_compare_r|].
  rewrite fcompare_rank by done. unfold Z.ltb. by destruct (_ ?= _)%Z.
Qed.

Lemma leb_rank x y :
  PrimFloat.leb x y = (negb (is_nan x) && negb (is_nan y) && (frank x <=? frank y)%Z)%bool.
Proof.
  rewrite leb_spec. unfold SFleb.
  destruct (is_nan x) eqn:Ex; [by rewrite nan_compare_l|].
  destruct (is_nan y) eqn:Ey; [by rewrite nan_compare_r|].
  rewrite fcompare_rank by done. unfold Z.leb. by destruct (_ ?= _)%Z.
Qed.

Lemma eqb_rank x y :
  PrimFloat.eqb x y = (negb (is_nan x) && negb (is_nan y) && (frank x =? frank y)%Z)%bool.
Proof.
  rewrite eqb_spec. unfold SFeqb.
  destruct (is_nan x) eqn:Ex; [by rewrite nan_compare_l|].
  destruct (is_nan y) eqn:Ey; [by rewrite nan_compare_r|].
  rewrite fcompare_rank by done. rewrite Z.eqb_compare. by destruct (_ ?= _)%Z.
Qed.

(** ** Finite floats are determined by their rank, up to the sign of zero *)

Definition neg_zerob (x : float) : bool :=
  match Prim2SF x with S754_zero true => true | _ => false end.

Lemma sf_rank_inj x y :
  valid_binary x = true -> valid_binary y = true -> sf_nan x = false -> sf_nan y = false ->
  x <> S754_zero true -> y <> S754_zero true -> sf_rank x = sf_rank y -> x = y.
Proof.
  intros Vx Vy Nx Ny Zx Zy E.
  pose proof (SFcompare_rank x y Vx Vy Nx Ny) as C. rewrite E, Z.compare_refl in C.
  destruct x as [[]|[]| |[] m1 e1], y as [[]|[]| |[] m2 e2]; try discriminate; try congruence;
    cbn [SFcompare] in C; injection C as C; destruct (Z.compare_spec e1 e2) as [->| |]; try discriminate;
    f_equal; apply Pos.compare_eq; change (m1 ?= m2)%positive with (Pos.compare_cont Eq m1 m2);
    destruct (Pos.compare_cont Eq m1 m2); done.
Qed.

Lemma frank_inj x y :
  is_nan x = false -> is_nan y = false -> neg_zerob x = false -> neg_zerob y = false ->
  frank x = frank y -> x = y.
Proof.
  rewrite !is_nan_sf. unfold neg_zerob. intros Nx Ny Zx Zy E. apply Prim2SF_inj.
  apply sf_rank_inj; try apply Prim2SF_valid; try done; intros H.
  - by rewrite H in Zx.
  - by rewrite H in Zy.
Qed.
