(* ===== verification/PyRound.v ===== *)
(** * Correct rounding of float addition and subtraction

    [rnd z] is the rank of the binary64 number nearest to the real [z / 2^1074]
    (ties to even), infinity past the largest float.  The primitive addition and
    subtraction round the exact result ([fadd_rank], [fsub_rank]), and [rnd] is
    odd, monotone and the identity on ranks of floats, which is all the models
    need to reason about differences of prices and position sizes. *)

From stdpp Require Import base list.
From Stdlib Require Import ZArith Lia Floats.
From S2P Require Import Prelude PyFloat.

(** ** Rounding an integer to 53 significant bits *)

(** Excess bits of a nonnegative integer over the 53-bit significand. *)
Definition excess (m : Z) : Z := Z.max 0 (Z.log2 m - 52).

(** The tie-breaking location of [r] in [[0, 2^d)]. *)
Definition rem_loc (r d : Z) : location :=
  if (r =? 0)%Z then loc_Exact else loc_Inexact (Z.compare (2 * r) (2 ^ d)).

Definition rnd_pos (m : Z) : Z :=
  let d := excess m in
  let q := round_nearest_even (m / 2 ^ d) (rem_loc (m mod 2 ^ d) d) in
  Z.min (2 ^ 2098) (q * 2 ^ d).

Definition rnd (z : Z) : Z :=
  if (z <? 0)%Z then - rnd_pos (- z) else rnd_pos z.

(** ** Bounds on the rounded value *)

Lemma excess_nonneg m : (0 <= excess m)%Z.
Proof. unfold excess. lia. Qed.

Lemma excess_bounds m :
  (0 < excess m -> 2 ^ (52 + excess m) <= m < 2 ^ (53 + excess m))%Z.
Proof.
  unfold excess. intros H. pose proof (Z.log2_spec m) as Hs.
  assert (0 < m)%Z as Hm by (destruct (Z.le_gt_cases m 0); [rewrite Z.log2_nonpos in H; lia|lia]).
  rewrite (Z.max_r 0 (Z.log2 m - 52)) by lia.
  replace (52 + (Z.log2 m - 52))%Z with (Z.log2 m) by lia.
  replace (53 + (Z.log2 m - 52))%Z with (Z.succ (Z.log2 m)) by lia. auto.
Qed.

Lemma excess_zero_lt m : (excess m = 0 -> m < 2 ^ 53)%Z.
Proof.
  unfold excess. intros H. destruct (Z.le_gt_cases m 0); [lia|].
  apply Z.log2_lt_pow2; lia.
Qed.

(** Rounding moves a value by at most half a unit of the last kept bit. *)
Lemma rne_error m d :
  (0 <= m -> 0 <= d ->
   2 * Z.abs (round_nearest_even (m / 2 ^ d) (rem_loc (m mod 2 ^ d) d) * 2 ^ d - m) <= 2 ^ d)%Z.
Proof.
  intros Hm Hd. pose proof (pow2_pos d Hd) as Hp.
  pose proof (Z.div_mod m (2 ^ d) ltac:(lia)) as Hdm.
  pose proof (Z.mod_pos_bound m (2 ^ d) Hp) as Hr.
  set (q := (m / 2 ^ d)%Z) in *. set (r := (m mod 2 ^ d)%Z) in *.
  unfold rem_loc. destruct (Z.eqb_spec r 0) as [E|E]; cbn [round_nearest_even]; [nia|].
  destruct (Z.compare_spec (2 * r) (2 ^ d)) as [C|C|C]; [destruct (Z.even q)|..]; nia.
Qed.

Lemma rne_exact m d :
  (0 <= d -> m mod 2 ^ d = 0 ->
   round_nearest_even (m / 2 ^ d) (rem_loc (m mod 2 ^ d) d) * 2 ^ d = m)%Z.
Proof.
  intros Hd Hr. pose proof (pow2_pos d Hd). rewrite Hr. unfold rem_loc. simpl.
  pose proof (Z.div_mod m (2 ^ d) ltac:(lia)). lia.
Qed.

Definition rne (m : Z) : Z :=
  let d := excess m in
  (round_nearest_even (m / 2 ^ d) (rem_loc (m mod 2 ^ d) d) * 2 ^ d)%Z.

Lemma rnd_pos_rne m : rnd_pos m = Z.min (2 ^ 2098) (rne m).
Proof. done. Qed.

Lemma rne_small m : (excess m = 0 -> rne m = m)%Z.
Proof.
  intros H. unfold rne. rewrite H. apply rne_exact; [lia|]. by rewrite Z.pow_0_r, Z.mod_1_r.
Qed.

Lemma rne_lower m : (0 < excess m -> 2 ^ (52 + excess m) <= rne m)%Z.
Proof.
  intros H. pose proof (excess_bounds m H) as [Hlo _]. unfold rne. set (d := excess m) in *.
  pose proof (pow2_pos d ltac:(lia)) as Hp.
  rewrite Z.pow_add_r in Hlo |- * by lia.
  assert (2 ^ 52 <= m / 2 ^ d)%Z as Hq by (apply Z.div_le_lower_bound; lia).
  assert (m / 2 ^ d <= round_nearest_even (m / 2 ^ d) (rem_loc (m mod 2 ^ d) d))%Z.
  { unfold rem_loc. destruct (_ =? 0)%Z; simpl; [lia|].
    destruct (_ ?= _)%Z; [destruct (Z.even _)|..]; lia. }
  nia.
Qed.

Lemma rne_upper m : (0 < excess m -> rne m <= 2 ^ (53 + excess m))%Z.
Proof.
  intros H. pose proof (excess_bounds m H) as [_ Hhi]. unfold rne. set (d := excess m) in *.
  pose proof (pow2_pos d ltac:(lia)) as Hp.
  rewrite Z.pow_add_r in Hhi |- * by lia.
  assert (m / 2 ^ d < 2 ^ 53)%Z as Hq by (apply Z.div_lt_upper_bound; lia).
  assert (round_nearest_even (m / 2 ^ d) (rem_loc (m mod 2 ^ d) d) <= m / 2 ^ d + 1)%Z.
  { unfold rem_loc. destruct (_ =? 0)%Z; simpl; [lia|].
    destruct (_ ?= _)%Z; [destruct (Z.even _)|..]; lia. }
  nia.
Qed.

Lemma rne_multiple m : exists k, rne m = (k * 2 ^ excess m)%Z.
Proof. eexists. reflexivity. Qed.

Lemma rne_nonneg m : (0 <= m -> 0 <= rne m)%Z.
Proof.
  intros Hm. destruct (Z.eq_dec (excess m) 0) as [E|E]; [by rewrite rne_small|].
  pose proof (excess_nonneg m). pose proof (rne_lower m ltac:(lia)).
  pose proof (pow2_pos (52 + excess m)). lia.
Qed.

Lemma rne_mono a b : (0 <= a <= b -> rne a <= rne b)%Z.
Proof.
  intros [Ha Hab]. destruct (Z.eq_dec a 0) as [->|Hnz].
  { rewrite rne_small by reflexivity. apply rne_nonneg. lia. }
  assert (excess a <= excess b)%Z as Hex
    by (unfold excess; pose proof (Z.log2_le_mono a b Hab); lia).
  pose proof (excess_nonneg a) as Hda. destruct (Z.eq_dec (excess b) 0) as [Eb|Eb].
  { rewrite !rne_small by lia. done. }
  destruct (Z.eq_dec (excess a) (excess b)) as [E|E].
  - destruct (Z.le_gt_cases (rne a) (rne b)) as [|Hgt]; [done|exfalso].
    destruct (Z.eq_dec a b) as [->|Hne]; [lia|].
    pose proof (rne_error a (excess a) Ha Hda) as H1. fold (rne a) in H1.
    pose proof (rne_error b (excess b) ltac:(lia) ltac:(lia)) as H2. fold (rne b) in H2.
    destruct (rne_multiple a) as [ka Hka], (rne_multiple b) as [kb Hkb].
    rewrite E in *. pose proof (pow2_pos (excess b) ltac:(lia)).
    assert (kb < ka)%Z by nia. assert (rne b + 2 ^ excess b <= rne a)%Z by nia. lia.
  - assert (rne a <= 2 ^ (53 + excess a))%Z as Hu.
    { destruct (Z.eq_dec (excess a) 0) as [Z0|Z0].
      - rewrite rne_small, Z0 by done. pose proof (excess_zero_lt a Z0). simpl. lia.
      - apply rne_upper. lia. }
    pose proof (rne_lower b ltac:(lia)).
    pose proof (Z.pow_le_mono_r 2 (53 + excess a) (52 + excess b)). lia.
Qed.

(** ** The three laws of [rnd] *)

Lemma rnd_mono a b : (a <= b -> rnd a <= rnd b)%Z.
Proof.
  intros H. unfold rnd. pose proof (pow2_pos 2098 ltac:(lia)).
  destruct (Z.ltb_spec a 0), (Z.ltb_spec b 0); rewrite ?rnd_pos_rne; try lia.
  - pose proof (rne_mono (- b) (- a)). lia.
  - pose proof (rne_nonneg (- a)). pose proof (rne_nonneg b). lia.
  - pose proof (rne_mono a b). lia.
Qed.

Lemma rnd_opp z : rnd (- z) = (- rnd z)%Z.
Proof.
  unfold rnd. destruct (Z.eq_dec z 0) as [->|]; [reflexivity|].
  destruct (Z.ltb_spec (- z) 0), (Z.ltb_spec z 0); rewrite ?Z.opp_involutive; lia.
Qed.

Lemma rnd_0 : rnd 0 = 0%Z.
Proof. reflexivity. Qed.

Lemma rnd_nonneg z : (0 <= z -> 0 <= rnd z)%Z.
Proof. intros H. rewrite <- rnd_0. by apply rnd_mono. Qed.

(** ** [rnd] is the identity on ranks of floats *)

Lemma rne_fix m k : (0 < m < 2 ^ 53 -> 0 <= k -> rne (m * 2 ^ k) = m * 2 ^ k)%Z.
Proof.
  intros Hm Hk. unfold rne. pose proof (excess_nonneg (m * 2 ^ k)) as Hd.
  apply rne_exact; [done|].
  assert (excess (m * 2 ^ k) <= k)%Z as Hle.
  { unfold excess. rewrite Z.log2_mul_pow2 by lia.
    assert (Z.log2 m < 53)%Z by (apply Z.log2_lt_pow2; lia). lia. }
  set (d := excess (m * 2 ^ k)) in *.
  replace k with (k - d + d)%Z by lia. rewrite Z.pow_add_r by lia.
  rewrite Z.mul_assoc. apply Z.mod_mul. pose proof (pow2_pos d Hd). lia.
Qed.

Lemma rnd_frank x : is_nan x = false -> rnd (frank x) = frank x.
Proof.
  intros Hn. unfold frank. rewrite is_nan_sf in Hn. pose proof (Prim2SF_valid x) as V.
  assert (forall m e, SpecFloat.bounded 53 1024 m e = true ->
            rnd_pos (Z.pos m * 2 ^ (e + 1074)) = (Z.pos m * 2 ^ (e + 1074)))%Z as Hfin.
  { intros m e Hb. pose proof (finite_rank_lt m e Hb). apply bounded_spec in Hb as (? & ? & _).
    rewrite rnd_pos_rne, rne_fix by lia. lia. }
  assert (rnd_pos (2 ^ 2098) = 2 ^ 2098)%Z as Hinf.
  { rewrite rnd_pos_rne. replace (2 ^ 2098)%Z with (1 * 2 ^ 2098)%Z at 2 by lia.
    rewrite rne_fix by lia. lia. }
  destruct (Prim2SF x) as [s|s| |s m e]; [done|..|done|].
  - pose proof (pow2_pos 2098 ltac:(lia)). unfold sf_rank, rnd.
    destruct s; [destruct (Z.ltb_spec (- 2 ^ 2098) 0)|destruct (Z.ltb_spec (2 ^ 2098) 0)]; try lia.
    rewrite Z.opp_involutive. lia.
  - cbn [valid_binary SpecFloat.valid_binary] in V. cbn [sf_rank].
    pose proof (finite_rank_lt m e V). unfold rnd. destruct s; cbn [cond_Zopp].
    + destruct (Z.ltb_spec (- (Z.pos m * 2 ^ (e + 1074))) 0); [|lia].
      rewrite Z.opp_involutive, Hfin; [lia|done].
    + destruct (Z.ltb_spec (Z.pos m * 2 ^ (e + 1074)) 0); [lia|]. by apply Hfin.
Qed.

(** Scaling by a power of two commutes with rounding. *)
Lemma rne_scale m k : (0 < m -> 0 <= k -> rne (m * 2 ^ k) = rne m * 2 ^ k)%Z.
Proof.
  intros Hm Hk. destruct (Z.eq_dec (excess m) 0) as [E|E].
  - rewrite (rne_small m E). apply rne_fix; [|done]. pose proof (excess_zero_lt m E). lia.
  - pose proof (excess_nonneg m) as Hd. unfold rne.
    assert (excess (m * 2 ^ k) = excess m + k)%Z as ->
      by (unfold excess in *; rewrite Z.log2_mul_pow2 by lia; lia).
    set (d := excess m) in *. pose proof (pow2_pos d Hd). pose proof (pow2_pos k Hk).
    rewrite Z.pow_add_r by lia.
    rewrite Z.div_mul_cancel_r, Z.mul_mod_distr_r by lia.
    assert (rem_loc (m mod 2 ^ d * 2 ^ k) (d + k) = rem_loc (m mod 2 ^ d) d) as ->; [|lia].
    unfold rem_loc. pose proof (Z.mod_pos_bound m (2 ^ d) ltac:(lia)).
    destruct (Z.eqb_spec (m mod 2 ^ d * 2 ^ k) 0), (Z.eqb_spec (m mod 2 ^ d) 0); try nia; [done|].
    rewrite Z.pow_add_r, Z.mul_assoc by lia.
    by rewrite <- Zmult_compare_compat_r by lia.
Qed.

(** ** The kernel's shift-and-round computes [rne] *)

(** [mrs] is [m] shifted right by [k] bits, with its sticky information. *)
Definition shr_repr (m k : Z) (mrs : shr_record) : Prop :=
  shr_m mrs = (m / 2 ^ k)%Z /\ loc_of_shr_record mrs = rem_loc (m mod 2 ^ k) k.

Lemma shr_1_step m k mrs :
  (0 <= m -> 0 <= k -> shr_repr m k mrs -> shr_repr m (Z.succ k) (shr_1 mrs))%Z.
Proof.
  intros Hm Hk [Hq Hl]. unfold shr_repr. rewrite Z.pow_succ_r by done.
  pose proof (pow2_pos k Hk) as Hp. pose proof (Z.div_pos m (2 ^ k) Hm Hp) as Hq0.
  pose proof (Z.mod_pos_bound m (2 ^ k) Hp) as Hr.
  rewrite (Z.mul_comm 2). rewrite <- Z.div_div, Z.rem_mul_r by lia.
  set (q := (m / 2 ^ k)%Z) in *. set (r := (m mod 2 ^ k)%Z) in *.
  destruct mrs as [q' rb sb]. cbn [shr_m] in Hq. subst q'.
  assert (rb || sb = negb (r =? 0)%Z)%bool as Hs.
  { unfold rem_loc in Hl. destruct (r =? 0)%Z, rb, sb; try done; discriminate. }
  unfold rem_loc. rewrite Z.pow_succ_r by done.
  destruct q as [|[p|p|]|p] eqn:Eq; [..|lia]; cbn [shr_1 shr_m loc_of_shr_record]; rewrite Hs.
  - split; [done|]. change (0 mod 2)%Z with 0%Z. rewrite Z.mul_0_r, Z.add_0_r.
    destruct (Z.eqb_spec r 0); [done|]. simpl. f_equal. symmetry. apply Z.compare_lt_iff. lia.
  - split; [by rewrite <- Z.div2_div|].
    assert (Z.pos p~1 mod 2 = 1)%Z as -> by (rewrite Zmod_odd; done).
    destruct (Z.eqb_spec (r + 2 ^ k * 1) 0); [lia|].
    destruct (Z.eqb_spec r 0) as [->|]; simpl; f_equal; symmetry;
      [apply Z.compare_eq_iff|apply Z.compare_gt_iff]; lia.
  - split; [by rewrite <- Z.div2_div|].
    assert (Z.pos p~0 mod 2 = 0)%Z as -> by (rewrite Zmod_odd; done).
    rewrite Z.mul_0_r, Z.add_0_r.
    destruct (Z.eqb_spec r 0); [done|]. simpl. f_equal. symmetry. apply Z.compare_lt_iff. lia.
  - split; [done|]. change (1 mod 2)%Z with 1%Z.
    destruct (Z.eqb_spec (r + 2 ^ k * 1) 0); [lia|].
    destruct (Z.eqb_spec r 0) as [->|]; simpl; f_equal; symmetry;
      [apply Z.compare_eq_iff|apply Z.compare_gt_iff]; lia.
Qed.

Lemma iter_pos_nat {A} (f : A -> A) n x :
  SpecFloat.iter_pos f n x = Nat.iter (Pos.to_nat n) f x.
Proof.
  revert x. induction n as [n IH|n IH|]; intros x; cbn [SpecFloat.iter_pos]; rewrite ?IH.
  - rewrite <- Nat.iter_add, <- Nat.iter_succ_r. f_equal. lia.
  - rewrite <- Nat.iter_add. f_equal. lia.
  - done.
Qed.

Lemma shr_iter m n :
  (0 <= m)%Z ->
  shr_repr m (Z.of_nat n) (Nat.iter n shr_1 (Build_shr_record m false false)).
Proof.
  intros Hm. induction n as [|n IH].
  - split; simpl; [by rewrite Z.div_1_r|by rewrite Z.mod_1_r].
  - rewrite Nat2Z.inj_succ. cbn [Nat.iter nat_rect]. apply shr_1_step; [done|lia|exact IH].
Qed.

Lemma Zdigits2_log2 m : (0 < m -> Zdigits2 m = Z.log2 m + 1)%Z.
Proof.
  destruct m as [|p|p]; [lia| |lia]. intros _. cbn [Zdigits2].
  pose proof (digits2_bounds p).
  rewrite (Z.log2_unique (Z.pos p) (Z.pos (digits2_pos p) - 1)); [lia|lia|].
  replace (Z.succ (Z.pos (digits2_pos p) - 1)) with (Z.pos (digits2_pos p)) by lia. done.
Qed.

(** Above the subnormal exponent, the shift is exactly the excess. *)
Lemma shr_fexp_excess m e :
  (0 < m -> -1074 <= e ->
   exists mrs, shr_fexp 53 1024 m e loc_Exact = (mrs, e + excess m) /\ shr_repr m (excess m) mrs)%Z.
Proof.
  intros Hm He. unfold shr_fexp, SpecFloat.fexp, SpecFloat.emin. cbn [shr_record_of_loc].
  rewrite Zdigits2_log2 by done. unfold excess, shr.
  pose proof (Z.log2_nonneg m).
  destruct (Z.max (Z.log2 m + 1 + e - 53) (3 - 1024 - 53) - e)%Z as [|p|p] eqn:E.
  - eexists. replace (Z.max 0 (Z.log2 m - 52)) with 0%Z by lia.
    rewrite Z.add_0_r. split; [done|]. by apply (shr_iter m 0); lia.
  - exists (Nat.iter (Pos.to_nat p) shr_1 (Build_shr_record m false false)).
    rewrite iter_pos_nat. replace (Z.max 0 (Z.log2 m - 52)) with (Z.pos p) by lia.
    split; [done|]. rewrite <- positive_nat_Z. apply shr_iter. lia.
  - eexists. replace (Z.max 0 (Z.log2 m - 52)) with 0%Z by lia.
    rewrite Z.add_0_r. split; [done|]. by apply (shr_iter m 0); lia.
Qed.

Lemma excess_small q : (0 < q < 2 ^ 53 -> excess q = 0)%Z.
Proof.
  intros H. unfold excess. assert (Z.log2 q < 53)%Z by (apply Z.log2_lt_pow2; lia). lia.
Qed.

(** The significand after the first rounding, shifted once more if it reached
    [2^53], is unchanged in value. *)
Lemma renormalise q :
  (0 < q <= 2 ^ 53 -> 0 < q / 2 ^ excess q < 2 ^ 53 /\ q / 2 ^ excess q * 2 ^ excess q = q)%Z.
Proof.
  intros Hq. destruct (Z.eq_dec q (2 ^ 53)) as [->|Hne]; [vm_compute; intuition congruence|].
  rewrite excess_small by lia. rewrite Z.div_1_r. lia.
Qed.

Lemma rne_quot m :
  (0 < m)%Z ->
  exists q, (0 < q <= 2 ^ 53 /\ (0 < excess m -> 2 ^ 52 <= q) /\
    q = round_nearest_even (m / 2 ^ excess m) (rem_loc (m mod 2 ^ excess m) (excess m)) /\
    rne m = q * 2 ^ excess m)%Z.
Proof.
  intros Hm. eexists. split; [|split; [|split; reflexivity]];
    set (q := round_nearest_even _ _);
    assert (rne m = q * 2 ^ excess m)%Z as Hr by reflexivity;
    pose proof (excess_nonneg m) as Hd; pose proof (pow2_pos _ Hd).
  - destruct (Z.eq_dec (excess m) 0) as [E|E].
    + rewrite rne_small, E in Hr by done. pose proof (excess_zero_lt m E). lia.
    + pose proof (rne_lower m ltac:(lia)) as H1. pose proof (rne_upper m ltac:(lia)) as H2.
      rewrite Z.pow_add_r in H1, H2 by lia. nia.
  - intros Hp. pose proof (rne_lower m Hp) as H1. rewrite Z.pow_add_r in H1 by lia. nia.
Qed.

Lemma binary_round_aux_rank s m e :
  (0 < m -> -1074 <= e <= 971 ->
   sf_rank (binary_round_aux 53 1024 s m e loc_Exact)
     = cond_Zopp s (rnd_pos (m * 2 ^ (e + 1074))) /\
   sf_nan (binary_round_aux 53 1024 s m e loc_Exact) = false)%Z.
Proof.
  intros Hm He. unfold binary_round_aux.
  destruct (shr_fexp_excess m e Hm ltac:(lia)) as (mrs & -> & Hq & Hl). rewrite Hq, Hl.
  destruct (rne_quot m Hm) as (q & Hqb & Hq52 & <- & Hrne).
  pose proof (excess_nonneg m) as Hd. pose proof (excess_nonneg q) as Hdq.
  destruct (shr_fexp_excess q (e + excess m) ltac:(lia) ltac:(lia)) as (mrs' & -> & Hq' & _).
  rewrite Hq'. destruct (renormalise q Hqb) as [Hb Hval].
  rewrite rnd_pos_rne, rne_scale, Hrne by lia.
  set (m' := (q / 2 ^ excess q)%Z) in *. destruct m' as [|p|p] eqn:Em; [lia| |lia].
  assert (q * 2 ^ excess m * 2 ^ (e + 1074)
          = Z.pos p * 2 ^ (e + excess m + excess q + 1074))%Z as ->.
  { rewrite <- Hval at 1. rewrite <- !Z.mul_assoc, <- !Z.pow_add_r by lia. do 2 f_equal. lia. }
  set (f := (e + excess m + excess q)%Z) in *.
  destruct (Z.leb_spec f (1024 - 53)) as [Hf|Hf].
  - split; [|done]. cbn [sf_rank]. f_equal.
    assert (2 ^ (f + 1074) <= 2 ^ 2045)%Z by (apply Z.pow_le_mono_r; lia).
    assert (2 ^ 2098 = 2 ^ 53 * 2 ^ 2045)%Z as -> by (rewrite <- Z.pow_add_r; [reflexivity|lia|lia]).
    pose proof (pow2_pos (f + 1074) ltac:(lia)). nia.
  - split; [|done]. cbn [sf_rank].
    assert (2 ^ 52 <= Z.pos p)%Z.
    { destruct (Z.eq_dec q (2 ^ 53)) as [->|Hne]; [by rewrite <- Em|].
      pose proof (excess_small q ltac:(clear -Hqb Hne; lia)) as E0.
      rewrite <- Em. unfold m'. rewrite E0, Z.div_1_r. apply Hq52. subst f. lia. }
    assert (2 ^ 2046 <= 2 ^ (f + 1074))%Z by (apply Z.pow_le_mono_r; lia).
    assert (2 ^ 2098 = 2 ^ 52 * 2 ^ 2046)%Z as Hb2 by (rewrite <- Z.pow_add_r; [reflexivity|lia|lia]).
    rewrite Z.min_l by nia. by destruct s.
Qed.

Lemma iter_xO p d : Z.pos (Pos.iter xO p d) = (Z.pos p * 2 ^ Z.pos d)%Z.
Proof.
  induction d as [|d IH] using Pos.peano_ind; [simpl; lia|].
  rewrite Pos.iter_succ, Pos2Z.inj_succ, Z.pow_succ_r by lia.
  change (Z.pos (xO (Pos.iter xO p d))) with (2 * Z.pos (Pos.iter xO p d))%Z. lia.
Qed.

Lemma binary_round_rank s p e :
  (-1074 <= e <= 971 ->
   sf_rank (binary_round 53 1024 s p e) = cond_Zopp s (rnd_pos (Z.pos p * 2 ^ (e + 1074))) /\
   sf_nan (binary_round 53 1024 s p e) = false)%Z.
Proof.
  intros He. unfold binary_round, shl_align, SpecFloat.fexp, SpecFloat.emin.
  set (t := (Z.max (Z.pos (digits2_pos p) + e - 53) (3 - 1024 - 53))%Z).
  destruct (t - e)%Z as [|d|d] eqn:E; try (apply binary_round_aux_rank; lia).
  pose proof (iter_xO p d) as Hs.
  pose proof (binary_round_aux_rank s (Z.pos (Pos.iter xO p d)) t ltac:(lia) ltac:(lia)) as [H1 H2].
  split; [|done]. rewrite H1, Hs. do 2 f_equal.
  rewrite <- Z.mul_assoc, <- Z.pow_add_r by lia. do 2 f_equal. lia.
Qed.

Lemma binary_normalize_rank z e sz :
  (-1074 <= e <= 971 ->
   sf_rank (binary_normalize 53 1024 z e sz) = rnd (z * 2 ^ (e + 1074)) /\
   sf_nan (binary_normalize 53 1024 z e sz) = false)%Z.
Proof.
  intros He. pose proof (pow2_pos (e + 1074) ltac:(lia)).
  destruct z as [|p|p]; cbn [binary_normalize]; [done|..]; unfold rnd.
  - destruct (binary_round_rank false p e He) as [-> ->]. split; [|done].
    destruct (Z.ltb_spec (Z.pos p * 2 ^ (e + 1074)) 0); [nia|]. done.
  - destruct (binary_round_rank true p e He) as [-> ->]. split; [|done].
    destruct (Z.ltb_spec (Z.neg p * 2 ^ (e + 1074)) 0); [|nia]. cbn [cond_Zopp].
    do 2 f_equal. lia.
Qed.

(** ** Addition and subtraction of finite floats *)

Definition sf_fin (x : spec_float) : bool :=
  match x with S754_zero _ | S754_finite _ _ _ => true | _ => false end.

Lemma shl_align_val m e e' :
  (e' <= e -> Z.pos (fst (shl_align m e e')) = Z.pos m * 2 ^ (e - e'))%Z.
Proof.
  intros H. unfold shl_align. destruct (e' - e)%Z as [|d|d] eqn:E; [|lia|].
  - replace (e - e')%Z with 0%Z by lia. simpl. lia.
  - replace (e - e')%Z with (Z.pos d) by lia. cbn [fst].
    apply iter_xO.
Qed.

Lemma cond_Zopp_mul s a b : cond_Zopp s (a * b)%Z = (cond_Zopp s a * b)%Z.
Proof. destruct s; simpl; lia. Qed.

(** Both operands aligned to the smaller exponent, as the kernel does. *)
Lemma aligned_rank s m e e' :
  (-1074 <= e' <= e ->
   cond_Zopp s (Z.pos (fst (shl_align m e e'))) * 2 ^ (e' + 1074)
   = sf_rank (S754_finite s m e))%Z.
Proof.
  intros H. cbn [sf_rank]. rewrite shl_align_val by lia.
  rewrite <- !cond_Zopp_mul, <- Z.mul_assoc, <- Z.pow_add_r by lia. do 3 f_equal. lia.
Qed.

Lemma sf_rank_fix x :
  valid_binary x = true -> sf_nan x = false -> rnd (sf_rank x) = sf_rank x.
Proof.
  intros V N. rewrite <- (Prim2SF_SF2Prim x V). apply rnd_frank.
  by rewrite is_nan_sf, (Prim2SF_SF2Prim x V).
Qed.

Lemma SFadd_rank x y :
  valid_binary x = true -> valid_binary y = true -> sf_fin x = true -> sf_fin y = true ->
  sf_rank (SF64add x y) = rnd (sf_rank x + sf_rank y) /\ sf_nan (SF64add x y) = false.
Proof.
  intros Vx Vy Fx Fy.
  destruct x as [sx| | |sx mx ex], y as [sy| | |sy my ey]; try discriminate.
  - by destruct sx, sy.
  - cbn [SF64add SFadd]. change (sf_rank (S754_zero sx)) with 0%Z.
    rewrite Z.add_0_l. split; [|done]. symmetry. by apply sf_rank_fix.
  - cbn [SF64add SFadd]. change (sf_rank (S754_zero sy)) with 0%Z.
    rewrite Z.add_0_r. split; [|done]. symmetry. by apply sf_rank_fix.
  - cbn [valid_binary SpecFloat.valid_binary] in Vx, Vy.
    apply bounded_spec in Vx as (_ & Hex & _). apply bounded_spec in Vy as (_ & Hey & _).
    unfold SF64add, SFadd.
    edestruct binary_normalize_rank as [H1 H2]; [|split; [etransitivity; [exact H1|]|exact H2]]; [lia|].
    f_equal. rewrite Z.mul_add_distr_r, !aligned_rank by lia. done.
Qed.

Lemma SFsub_rank x y :
  valid_binary x = true -> valid_binary y = true -> sf_fin x = true -> sf_fin y = true ->
  sf_rank (SF64sub x y) = rnd (sf_rank x - sf_rank y) /\ sf_nan (SF64sub x y) = false.
Proof.
  intros Vx Vy Fx Fy.
  destruct x as [sx| | |sx mx ex], y as [sy| | |sy my ey]; try discriminate.
  - by destruct sx, sy.
  - cbn [SF64sub SFsub]. change (sf_rank (S754_zero sx)) with 0%Z. split; [|done].
    rewrite Z.sub_0_l, rnd_opp, sf_rank_fix by done. by destruct sy; cbn; lia.
  - cbn [SF64sub SFsub]. change (sf_rank (S754_zero sy)) with 0%Z.
    rewrite Z.sub_0_r. split; [|done]. symmetry. by apply sf_rank_fix.
  - cbn [valid_binary SpecFloat.valid_binary] in Vx, Vy.
    apply bounded_spec in Vx as (_ & Hex & _). apply bounded_spec in Vy as (_ & Hey & _).
    unfold SF64sub, SFsub.
    edestruct binary_normalize_rank as [H1 H2]; [|split; [etransitivity; [exact H1|]|exact H2]]; [lia|].
    f_equal. rewrite Z.mul_sub_distr_r, !aligned_rank by lia. done.
Qed.

(** ** Finite floats *)

Lemma fin_sf x : fin x = sf_fin (Prim2SF x).
Proof.
  unfold fin, is_finite, is_infinity. rewrite is_nan_sf, eqb_spec, abs_spec.
  change (Prim2SF infinity) with (S754_infinity false). unfold SFeqb.
  by destruct (Prim2SF x) as [s|s| |s m e].
Qed.

Lemma fin_not_nan x : fin x = true -> is_nan x = false.
Proof. rewrite fin_sf, is_nan_sf. by destruct (Prim2SF x). Qed.

(** The order of finite floats is that of their ranks. *)
Lemma ltb_fin x y : fin x = true -> fin y = true -> PrimFloat.ltb x y = (frank x <? frank y)%Z.
Proof. intros Fx Fy. by rewrite ltb_rank, (fin_not_nan x Fx), (fin_not_nan y Fy). Qed.

Lemma leb_fin x y : fin x = true -> fin y = true -> PrimFloat.leb x y = (frank x <=? frank y)%Z.
Proof. intros Fx Fy. by rewrite leb_rank, (fin_not_nan x Fx), (fin_not_nan y Fy). Qed.

Lemma ltb_leb x y : PrimFloat.ltb x y = true -> PrimFloat.leb x y = true.
Proof. rewrite ltb_rank, leb_rank, !andb_true_iff, Z.ltb_lt, Z.leb_le. intros [? ?]. split; [done|lia]. Qed.

Lemma fin_rank x :
  fin x = (negb (is_nan x) && (- 2 ^ 2098 <? frank x)%Z && (frank x <? 2 ^ 2098)%Z)%bool.
Proof.
  rewrite fin_sf, is_nan_sf. unfold frank. pose proof (Prim2SF_valid x) as V.
  destruct (Prim2SF x) as [s|[]| |s m e]; try reflexivity. cbn [sf_fin sf_nan negb andb sf_rank].
  pose proof (finite_rank_lt m e V). symmetry. apply andb_true_iff.
  destruct s; cbn [cond_Zopp]; split; apply Z.ltb_lt; lia.
Qed.

Theorem fadd_rank x y :
  fin x = true -> fin y = true ->
  frank (x + y)%float = rnd (frank x + frank y) /\ is_nan (x + y)%float = false.
Proof.
  rewrite !fin_sf, is_nan_sf. intros. unfold frank. rewrite add_spec.
  apply SFadd_rank; try done; apply Prim2SF_valid.
Qed.

Theorem fsub_rank x y :
  fin x = true -> fin y = true ->
  frank (x - y)%float = rnd (frank x - frank y) /\ is_nan (x - y)%float = false.
Proof.
  rewrite !fin_sf, is_nan_sf. intros. unfold frank. rewrite sub_spec.
  apply SFsub_rank; try done; apply Prim2SF_valid.
Qed.

Lemma fabs_rank x : frank (abs x) = Z.abs (frank x) /\ is_nan (abs x) = is_nan x.
Proof.
  rewrite !is_nan_sf. unfold frank. rewrite abs_spec. pose proof (Prim2SF_valid x) as V.
  pose proof (pow2_pos 2098 ltac:(lia)).
  destruct (Prim2SF x) as [s|[]| |s m e]; split; try done; cbn [SFabs sf_rank cond_Zopp]; try lia.
  pose proof (finite_rank_lt m e V). destruct s; cbn [cond_Zopp]; lia.
Qed.

(** ** Consequences used by the models *)

(** A difference has the sign of the comparison, and is zero only for equal
    operands (gradual underflow). *)
Lemma rnd_pos_strict z : (0 < z -> 0 < rnd z)%Z.
Proof.
  intros H. pose proof (rnd_mono 1 z ltac:(lia)). assert (rnd 1 = 1)%Z by reflexivity. lia.
Qed.

Lemma fsub_pos x y :
  fin x = true -> fin y = true -> (frank y < frank x)%Z ->
  (0 < frank (x - y)%float)%Z /\ is_nan (x - y)%float = false.
Proof.
  intros Hx Hy H. destruct (fsub_rank x y Hx Hy) as [-> ->]. split; [|done].
  apply rnd_pos_strict. lia.
Qed.

(** Subtracting a nonnegative amount no larger than [x] stays in [[0, x]]. *)
Lemma fsub_bounds x y :
  fin x = true -> fin y = true -> (0 <= frank y <= frank x)%Z ->
  (0 <= frank (x - y)%float <= frank x)%Z /\ fin (x - y)%float = true.
Proof.
  intros Hx Hy H. destruct (fsub_rank x y Hx Hy) as [E N].
  assert (0 <= frank (x - y)%float <= frank x)%Z as Hb.
  { rewrite E. split; [apply rnd_nonneg; lia|].
    rewrite <- (rnd_frank x) at 2 by (by apply fin_not_nan). apply rnd_mono. lia. }
  split; [done|]. rewrite fin_rank in Hx |- *. rewrite N.
  apply andb_true_iff in Hx as [Hx H2]. apply Z.ltb_lt in H2. simpl.
  pose proof (pow2_pos 2098 ltac:(lia)).
  apply andb_true_iff; split; apply Z.ltb_lt; lia.
Qed.

Lemma fsub_le x y :
  fin x = true -> fin y = true -> (0 <= frank y)%Z ->
  (frank (x - y)%float <= frank x)%Z /\ is_nan (x - y)%float = false.
Proof.
  intros Hx Hy H. destruct (fsub_rank x y Hx Hy) as [-> ->]. split; [|done].
  rewrite <- (rnd_frank x) at 2 by (by apply fin_not_nan). apply rnd_mono. lia.
Qed.

Lemma fadd_ge x y :
  fin x = true -> fin y = true -> (0 <= frank y)%Z ->
  (frank x <= frank (x + y)%float)%Z /\ is_nan (x + y)%float = false.
Proof.
  intros Hx Hy H. destruct (fadd_rank x y Hx Hy) as [-> ->]. split; [|done].
  rewrite <- (rnd_frank x) at 1 by (by apply fin_not_nan). apply rnd_mono. lia.
Qed.
