(* ===== verification/PyDiv.v ===== *)
(** * Division, negation and the largest finite float

    When a quotient is a number, the sign of a quotient and of a product, exact
    negation, and the fact that two adjacent gaps of a finite interval cannot
    both overflow: what the reward-to-risk arithmetic of the models relies on. *)

From stdpp Require Import base list tactics.
From Stdlib Require Import ZArith Lia Floats.
From S2P Require Import Prelude PyFloat PyRound.

(** ** Rounding a nonnegative significand never yields NaN *)

Lemma shr_1_nonneg mrs : (0 <= shr_m mrs -> 0 <= shr_m (shr_1 mrs))%Z.
Proof. destruct mrs as [[|[]|[]] r s]; simpl; lia. Qed.

Lemma shr_nonneg mrs e n : (0 <= shr_m mrs -> 0 <= shr_m (fst (shr mrs e n)))%Z.
Proof.
  intros H. destruct n as [|p|p]; simpl; try done. rewrite iter_pos_nat.
  induction (Pos.to_nat p) as [|k IH]; [done|]. simpl. by apply shr_1_nonneg.
Qed.

Lemma shr_fexp_nonneg m e l : (0 <= m -> 0 <= shr_m (fst (shr_fexp 53 1024 m e l)))%Z.
Proof. intros H. unfold shr_fexp. apply shr_nonneg. by destruct l as [|[]]. Qed.

Lemma round_nearest_even_nonneg m l : (0 <= m -> 0 <= round_nearest_even m l)%Z.
Proof. intros H. destruct l as [|[]]; simpl; try lia. destruct (Z.even m); lia. Qed.

(** The result is a number of the requested sign. *)
Definition sf_sign (x : spec_float) : option bool :=
  match x with
  | S754_zero s | S754_infinity s | S754_finite s _ _ => Some s
  | S754_nan => None
  end.

Lemma binary_round_aux_sign s m e l :
  (0 <= m)%Z -> sf_sign (binary_round_aux 53 1024 s m e l) = Some s.
Proof.
  intros H. unfold binary_round_aux.
  pose proof (shr_fexp_nonneg m e l H) as H1. destruct (shr_fexp 53 1024 m e l) as [mrs e1]. simpl in H1.
  pose proof (shr_fexp_nonneg _ e1 loc_Exact (round_nearest_even_nonneg _ (loc_of_shr_record mrs) H1)) as H2.
  destruct (shr_fexp _ _ _ e1 loc_Exact) as [mrs' e2]. simpl in H2.
  destruct (shr_m mrs') as [|p|p]; [done| |lia]. by destruct (_ <=? _)%Z.
Qed.

Lemma div_core_nonneg m1 e1 m2 e2 :
  (0 <= (SFdiv_core_binary 53 1024 (Z.pos m1) e1 (Z.pos m2) e2).1.1)%Z.
Proof.
  unfold SFdiv_core_binary.
  set (s := (e1 - e2 - _)%Z). set (m' := match s with Zpos _ => _ | Z0 => _ | Zneg _ => _ end).
  assert (0 <= m')%Z as Hm.
  { subst m'. destruct s; try lia. apply Z.shiftl_nonneg. lia. }
  pose proof (Z_div_mod m' (Z.pos m2) ltac:(lia)) as Hd.
  destruct (Z.div_eucl m' (Z.pos m2)) as [q r]. simpl. nia.
Qed.

Lemma sf_nan_sign x : sf_nan x = match sf_sign x with None => true | Some _ => false end.
Proof. by destruct x. Qed.

(** Sign of a quotient whose operands are neither NaN, nor both infinite, nor
    over zero. *)
Lemma SFdiv_sign x y sx sy :
  sf_sign x = Some sx -> sf_sign y = Some sy ->
  (sf_inf x && sf_inf y)%bool = false -> sf_rank y <> 0%Z ->
  sf_sign (SFdiv 53 1024 x y) = Some (xorb sx sy).
Proof.
  intros Hx Hy Hi Hz.
  destruct x as [s1|s1| |s1 m1 e1], y as [s2|s2| |s2 m2 e2]; simpl in Hx, Hy, Hi, Hz |- *; try done; simplify_eq; try done.
  pose proof (div_core_nonneg m1 e1 m2 e2) as Hm.
  destruct (SFdiv_core_binary _ _ _ _ _ _) as [[mz ez] lz]. by apply binary_round_aux_sign.
Qed.

Lemma rank_sign x : sf_nan x = false -> (0 < sf_rank x)%Z -> sf_sign x = Some false.
Proof.
  pose proof (pow2_pos 2098 ltac:(lia)).
  destruct x as [|[]| |s m e]; cbn; intros; try done; try lia. destruct s; [|done].
  cbn in *. pose proof (Z.pow_nonneg 2 (e + 1074) ltac:(lia)). nia.
Qed.

Lemma sign_rank x : sf_sign x = Some false -> (0 <= sf_rank x)%Z.
Proof.
  destruct x as [|[]| |s m e]; cbn; intros; simplify_eq; try lia.
  cbn. pose proof (Z.pow_nonneg 2 (e + 1074) ltac:(lia)). nia.
Qed.

Lemma sf_sign_nonneg x : sf_nan x = false -> (0 <= sf_rank x)%Z ->
  exists s, sf_sign x = Some s /\ (s = true -> sf_rank x = 0%Z).
Proof.
  pose proof (pow2_pos 2098 ltac:(lia)).
  destruct x as [s|[]| |s m e]; cbn; intros Hn Hr; try done; try lia; try (eexists; split; [reflexivity|done]).
  exists s. split; [done|]. intros ->. cbn in *.
  pose proof (Z.pow_nonneg 2 (e + 1074) ltac:(lia)). nia.
Qed.

(** A nonnegative number over a positive one is a nonnegative number, unless
    both are infinite. *)
Lemma fdiv_nonneg x y :
  is_nan x = false -> is_nan y = false -> (0 <= frank x)%Z -> (0 < frank y)%Z ->
  fin x = true \/ fin y = true ->
  is_nan (x / y)%float = false /\ (0 <= frank (x / y)%float)%Z.
Proof.
  rewrite !is_nan_sf, !fin_sf. unfold frank. rewrite div_spec. intros Nx Ny Rx Ry Hf.
  destruct (sf_sign_nonneg _ Nx Rx) as (s & Hs & Hz). pose proof (rank_sign _ Ny Ry) as Hy.
  assert ((sf_inf (Prim2SF x) && sf_inf (Prim2SF y))%bool = false) as Hi.
  { destruct (Prim2SF x), (Prim2SF y); simpl in *; try done; destruct Hf; discriminate. }
  pose proof (SFdiv_sign _ _ _ _ Hs Hy Hi ltac:(lia)) as Hd.
  change (SF64div (Prim2SF x) (Prim2SF y)) with (SFdiv 53 1024 (Prim2SF x) (Prim2SF y)).
  rewrite sf_nan_sign, Hd. split; [done|].
  destruct s; [|apply sign_rank; by rewrite Hd].
  specialize (Hz eq_refl).
  destruct (Prim2SF x) as [|[]| |s1 m1 e1] eqn:Ex; simpl in Hz, Hs; try done.
  - destruct (Prim2SF y); simpl in *; done.
  - simplify_eq. pose proof (Prim2SF_valid x) as V. rewrite Ex in V.
    apply bounded_spec in V. pose proof (pow2_pos (e1 + 1074) ltac:(lia)). cbn in Hz. nia.
Qed.

(** ** The largest finite float *)

(** Scaled value of the largest finite float, [(2^53 - 1) * 2^971]. *)
Definition max_rank : Z := ((2 ^ 53 - 1) * 2 ^ 2045)%Z.

Lemma max_rank_rnd : rnd max_rank = max_rank.
Proof. vm_compute. reflexivity. Qed.

Lemma fin_max x : fin x = true -> (- max_rank <= frank x <= max_rank)%Z.
Proof.
  rewrite fin_sf. unfold frank. pose proof (Prim2SF_valid x) as V.
  assert (0 < max_rank)%Z by (vm_compute; reflexivity).
  destruct (Prim2SF x) as [|[]| |s m e]; try done; cbn [sf_rank]; intros _.
  apply bounded_spec in V as (Hm & He & _).
  assert (2 ^ (e + 1074) <= 2 ^ 2045)%Z by (apply Z.pow_le_mono_r; lia).
  pose proof (pow2_pos (e + 1074) ltac:(lia)).
  assert (Z.pos m * 2 ^ (e + 1074) <= max_rank)%Z by (unfold max_rank; nia).
  destruct s; cbn [cond_Zopp]; nia.
Qed.

(** A difference overflows only when the exact gap exceeds the largest float. *)
Lemma fsub_fin_small x y :
  fin x = true -> fin y = true -> (- max_rank <= frank x - frank y <= max_rank)%Z ->
  fin (x - y)%float = true.
Proof.
  intros Hx Hy [Hl Hu]. destruct (fsub_rank x y Hx Hy) as [E N]. rewrite fin_rank, N, E.
  apply rnd_mono in Hl, Hu. rewrite rnd_opp in Hl. rewrite max_rank_rnd in Hl, Hu.
  assert (max_rank < 2 ^ 2098)%Z by (vm_compute; reflexivity).
  apply andb_true_iff; split; [apply andb_true_iff; split; [done|]|]; apply Z.ltb_lt; lia.
Qed.

(** The gaps on the two sides of a level inside a finite interval cannot both
    overflow. *)
Lemma adjacent_gaps_fin a b c :
  fin a = true -> fin b = true -> fin c = true -> (frank a <= frank b <= frank c)%Z ->
  fin (b - a)%float = true \/ fin (c - b)%float = true.
Proof.
  intros Ha Hb Hc H. pose proof (fin_max _ Ha). pose proof (fin_max _ Hc).
  destruct (Z_le_gt_dec (frank b - frank a) max_rank).
  - left. apply fsub_fin_small; [done|done|lia].
  - right. apply fsub_fin_small; [done|done|lia].
Qed.

(** ** Negation *)

Lemma fopp_rank x : frank (- x)%float = (- frank x)%Z /\ is_nan (- x)%float = is_nan x /\ fin (- x)%float = fin x.
Proof.
  rewrite !is_nan_sf, !fin_sf. unfold frank. rewrite opp_spec.
  destruct (Prim2SF x) as [|[]| |[] m e]; repeat split; try done; cbn [SFopp sf_rank cond_Zopp negb]; lia.
Qed.

Lemma abs_neg_zero x : neg_zerob (abs x) = false.
Proof. unfold neg_zerob. rewrite abs_spec. by destruct (Prim2SF x). Qed.

(** Floats of equal exact magnitude have equal absolute values. *)
Lemma abs_ext x y :
  is_nan x = false -> is_nan y = false -> Z.abs (frank x) = Z.abs (frank y) -> abs x = abs y.
Proof.
  intros Hx Hy H. destruct (fabs_rank x) as [Rx Nx], (fabs_rank y) as [Ry Ny].
  apply frank_inj; rewrite ?Nx, ?Ny, ?Rx, ?Ry; auto using abs_neg_zero.
Qed.

(** Mirroring both operands leaves the size of a difference unchanged. *)
Lemma abs_sub_mirror x y :
  fin x = true -> fin y = true -> abs (- x - - y)%float = abs (x - y)%float.
Proof.
  intros Hx Hy. destruct (fopp_rank x) as (Rx & _ & Fx), (fopp_rank y) as (Ry & _ & Fy).
  rewrite <- Fx in Hx. rewrite <- Fy in Hy.
  destruct (fsub_rank (PrimFloat.opp x) (PrimFloat.opp y) Hx Hy) as [E1 N1]. rewrite Fx in Hx. rewrite Fy in Hy.
  destruct (fsub_rank x y Hx Hy) as [E2 N2]. apply abs_ext; [done|done|].
  rewrite E1, E2, Rx, Ry. replace (- frank x - - frank y)%Z with (- (frank x - frank y))%Z by lia.
  rewrite rnd_opp. apply Z.abs_opp.
Qed.

(** ** Exact products and quotients *)

Lemma digits2_shift p k : digits2_pos (Pos.iter xO p k) = (digits2_pos p + k)%positive.
Proof.
  induction k as [|k IH] using Pos.peano_ind; [simpl; lia|]. rewrite Pos.iter_succ. simpl. rewrite IH. lia.
Qed.

Lemma shr_1_shift p k :
  SpecFloat.iter_pos shr_1 k {| shr_m := Z.pos (Pos.iter xO p k); shr_r := false; shr_s := false |}
  = {| shr_m := Z.pos p; shr_r := false; shr_s := false |}.
Proof.
  rewrite iter_pos_nat. induction k as [|k IH] using Pos.peano_ind; [done|].
  rewrite Pos.iter_succ, Pos2Nat.inj_succ, Nat.iter_succ_r. simpl. exact IH.
Qed.

(** One times a number is that number. *)
Lemma fmul_one x : is_nan x = false -> (1 * x)%float = x.
Proof.
  rewrite is_nan_sf. intros N. apply Prim2SF_inj. rewrite mul_spec.
  change (Prim2SF 1) with (S754_finite false 4503599627370496 (-52)).
  pose proof (Prim2SF_valid x) as V. destruct (Prim2SF x) as [s|s| |s m e]; try done.
  unfold SF64mul, SFmul. cbn [xorb].
  replace (4503599627370496 * m)%positive with (Pos.iter xO m 52)
    by (apply Pos2Z.inj; rewrite iter_xO; lia).
  assert (canonical_mantissa 53 1024 m e = true /\ (e <=? 971)%Z = true) as [Hc He].
  { unfold valid_binary, SpecFloat.bounded in V. apply andb_true_iff in V as [? ?]. done. }
  unfold canonical_mantissa in Hc. apply Z.eqb_eq in Hc.
  unfold binary_round_aux, shr_fexp. cbn [Zdigits2]. rewrite digits2_shift.
  replace (Z.pos (digits2_pos m + 52) + (-52 + e))%Z with (Z.pos (digits2_pos m) + e)%Z by lia.
  change prec with 53%Z. change emax with 1024%Z.
  rewrite Hc. replace (e - (-52 + e))%Z with 52%Z by lia. cbn [shr_record_of_loc shr].
  rewrite shr_1_shift. cbn [shr_m loc_of_shr_record round_nearest_even Zdigits2].
  replace (-52 + e + 52)%Z with e by lia. rewrite Hc, Z.sub_diag. cbn [shr shr_record_of_loc shr_m].
  change (1024 - 53)%Z with 971%Z. by rewrite He.
Qed.

(** Zero plus a number that is not a negative zero is that number. *)
Lemma fadd_zero x : is_nan x = false -> neg_zerob x = false -> (0 + x)%float = x.
Proof.
  rewrite is_nan_sf. unfold neg_zerob. intros N Z. apply Prim2SF_inj. rewrite add_spec.
  change (Prim2SF 0) with (S754_zero false). by destruct (Prim2SF x) as [[]|s| |s m e].
Qed.

Lemma div_core_self m e : SFdiv_core_binary 53 1024 (Z.pos m) e (Z.pos m) e = (2 ^ 53, -53, loc_Exact)%Z.
Proof.
  unfold SFdiv_core_binary. rewrite !Z.sub_diag. change (Z.min (SpecFloat.fexp 53 1024 0) 0) with (-53)%Z.
  change (0 - -53)%Z with 53%Z. cbv iota.
  pose proof (Z_div_mod (Z.shiftl (Z.pos m) 53) (Z.pos m) ltac:(lia)) as H.
  destruct (Z.div_eucl _ _) as [q r]. destruct H as [H1 H2]. rewrite Z.shiftl_mul_pow2 in H1 by lia.
  destruct (Z.div_mod_unique (Z.pos m) (2 ^ 53) q 0 r) as [<- <-]; [lia|lia|lia|].
  unfold new_location, new_location_even, new_location_odd. by destruct (Z.even _).
Qed.

(** A finite nonzero float over itself, and over its opposite. *)
Lemma fdiv_self x : fin x = true -> frank x <> 0%Z -> (x / x)%float = 1%float /\ (- x / x)%float = (-1)%float.
Proof.
  rewrite fin_sf. unfold frank. intros F R. split; apply Prim2SF_inj; rewrite div_spec, ?opp_spec;
    destruct (Prim2SF x) as [s|s| |s m e]; try done; unfold SF64div, SFdiv; cbn [SFopp];
    rewrite div_core_self; destruct s; vm_compute; reflexivity.
Qed.

(** Mirroring a difference of distinct finite floats. *)
Lemma fsub_swap x y : fin x = true -> fin y = true -> frank x <> frank y -> (y - x)%float = (- (x - y))%float.
Proof.
  intros Hx Hy H. destruct (fsub_rank x y Hx Hy) as [E N], (fsub_rank y x Hy Hx) as [E' N'].
  destruct (fopp_rank (x - y)) as (Ro & No & _).
  assert (frank (y - x)%float = frank (- (x - y))%float) as Hr.
  { rewrite Ro, E, E', <- rnd_opp. f_equal. lia. }
  assert (frank (y - x)%float <> 0)%Z as Hz.
  { rewrite E'. destruct (Z_lt_le_dec (frank x) (frank y)).
    - pose proof (rnd_pos_strict (frank y - frank x) ltac:(lia)). lia.
    - pose proof (rnd_pos_strict (frank x - frank y) ltac:(lia)).
      replace (frank y - frank x)%Z with (- (frank x - frank y))%Z by lia. rewrite rnd_opp. lia. }
  assert (forall z, frank z <> 0%Z -> neg_zerob z = false) as Hnz.
  { intros z. unfold frank, neg_zerob. by destruct (Prim2SF z) as [[]|s| |s m e]. }
  apply frank_inj; [done|by rewrite No|by apply Hnz|apply Hnz; by rewrite <- Hr|done].
Qed.

(** The absolute value of a positive number is itself. *)
Lemma fabs_pos x : is_nan x = false -> (0 < frank x)%Z -> abs x = x.
Proof.
  rewrite is_nan_sf. unfold frank. intros N H. apply Prim2SF_inj. rewrite abs_spec.
  apply rank_sign in H; [|done]. destruct (Prim2SF x); simpl in *; congruence.
Qed.

(** The absolute difference of two finite floats, whichever way it is taken. *)
Lemma abs_sub_pos x y :
  fin x = true -> fin y = true -> (frank y < frank x)%Z ->
  abs (x - y) = (x - y)%float /\ abs (y - x) = (x - y)%float.
Proof.
  intros Hx Hy H. destruct (fsub_rank x y Hx Hy) as [E N], (fsub_rank y x Hy Hx) as [E' N'].
  assert (abs (x - y) = (x - y)%float) as Ha by (apply fabs_pos; [done|rewrite E; apply rnd_pos_strict; lia]).
  split; [exact Ha|]. rewrite <- Ha at 1. apply abs_ext; [done|done|].
  rewrite E, E', <- (Z.opp_involutive (frank y - frank x)), rnd_opp, Z.abs_opp. do 2 f_equal. lia.
Qed.

(** A positive quotient is a number, and not the negative zero. *)
Lemma fdiv_pos x y :
  is_nan x = false -> (0 < frank x)%Z -> fin y = true -> (0 < frank y)%Z ->
  is_nan (x / y)%float = false /\ neg_zerob (x / y)%float = false.
Proof.
  intros Nx Rx Fy Ry. pose proof (fin_not_nan _ Fy) as Ny. rewrite fin_sf in Fy.
  rewrite !is_nan_sf in *. unfold neg_zerob, frank in *. rewrite div_spec.
  assert (sf_sign (SFdiv 53 1024 (Prim2SF x) (Prim2SF y)) = Some false) as H.
  { apply (SFdiv_sign _ _ false false); [by apply rank_sign|by apply rank_sign| |lia].
    apply andb_false_iff. right. by destruct (Prim2SF y). }
  change (SF64div (Prim2SF x) (Prim2SF y)) with (SFdiv 53 1024 (Prim2SF x) (Prim2SF y)).
  by destruct (SFdiv 53 1024 (Prim2SF x) (Prim2SF y)) as [[]| | |].
Qed.

(** * Halving

    Half of a finite float is within half a unit of the exact half, so the midpoint of two
    floats lies between them. *)

Open Scope Z_scope.

Lemma half_normal s m e :
  canonical_mantissa 53 1024 m e = true -> (e <=? 971) = true -> -1074 < e ->
  SF64mul (S754_finite false 4503599627370496 (-53)) (S754_finite s m e) = S754_finite s m (e - 1).
Proof.
  intros Hc He Hlt. unfold SF64mul, SFmul. cbn [xorb].
  replace (4503599627370496 * m)%positive with (Pos.iter xO m 52) by (apply Pos2Z.inj; rewrite iter_xO; lia).
  unfold canonical_mantissa in Hc. apply Z.eqb_eq in Hc.
  unfold binary_round_aux, shr_fexp. cbn [Zdigits2]. rewrite digits2_shift.
  replace (Z.pos (digits2_pos m + 52) + (-53 + e)) with (Z.pos (digits2_pos m) + e - 1) by lia.
  change prec with 53. change emax with 1024.
  assert (fexp 53 1024 (Z.pos (digits2_pos m) + e - 1) = e - 1) as Hf.
  { unfold fexp, emin in *. lia. }
  rewrite Hf. replace (e - 1 - (-53 + e)) with 52 by lia. cbn [shr_record_of_loc shr].
  rewrite shr_1_shift. cbn [shr_m loc_of_shr_record round_nearest_even Zdigits2].
  replace (-53 + e + 52) with (e - 1) by lia.
  replace (Z.pos (digits2_pos m) + (e - 1)) with (Z.pos (digits2_pos m) + e - 1) by lia. rewrite Hf, Z.sub_diag.
  cbn [shr shr_record_of_loc shr_m]. change (1024 - 53) with 971. destruct (Z.leb_spec (e - 1) 971); [reflexivity|]. apply Z.leb_le in He. lia.
Qed.

Lemma shr_53 p :
  SpecFloat.iter_pos shr_1 53 {| shr_m := Z.pos (Pos.iter xO p 52); shr_r := false; shr_s := false |}
  = shr_1 {| shr_m := Z.pos p; shr_r := false; shr_s := false |}.
Proof.
  rewrite <- (shr_1_shift p 52). rewrite !iter_pos_nat. change 53%positive with (Pos.succ 52). by rewrite Pos2Nat.inj_succ.
Qed.

(** Of the smallest exponent, the significand is halved to the nearest even. *)
Lemma half_subnormal s m :
  Z.pos m < 2 ^ 53 ->
  exists y, SF64mul (S754_finite false 4503599627370496 (-53)) (S754_finite s m (-1074)) = y /\ sf_nan y = false /\
    Z.abs (2 * sf_rank y - sf_rank (S754_finite s m (-1074))) <= 1.
Proof.
  intros Hm. eexists. split; [reflexivity|]. unfold SF64mul, SFmul. cbn [xorb].
  replace (4503599627370496 * m)%positive with (Pos.iter xO m 52) by (apply Pos2Z.inj; rewrite iter_xO; lia).
  assert (Z.pos (digits2_pos m) <= 53) as Hd.
  { pose proof (digits2_bounds m) as [B _]. destruct (Z.le_gt_cases (Z.pos (digits2_pos m)) 53) as [|G]; [done|exfalso].
    pose proof (Z.pow_le_mono_r 2 53 (Z.pos (digits2_pos m) - 1) ltac:(lia) ltac:(lia)). lia. }
  unfold binary_round_aux, shr_fexp. cbn [Zdigits2]. rewrite digits2_shift. change prec with 53. change emax with 1024.
  assert (fexp 53 1024 (Z.pos (digits2_pos m + 52) + (-53 + -1074)) = -1074) as -> by (unfold fexp, emin; lia).
  change (-1074 - (-53 + -1074)) with 53. cbn [shr_record_of_loc shr]. rewrite shr_53. change (-53 + -1074 + 53) with (-1074).
  change (sf_rank (S754_finite s m (-1074))) with (cond_Zopp s (Z.pos m * 1)).
  set (q := round_nearest_even _ _).
  assert (0 <= q /\ Z.abs (2 * q - Z.pos m) <= 1 /\ q < 2 ^ 53) as (Q0 & Q1 & Q2).
  { subst q. destruct m as [m|m|]; cbn [shr_1 shr_m loc_of_shr_record shr_r shr_s round_nearest_even orb]; [|lia|by vm_compute].
    destruct (Z.even (Z.pos m)); cbn; lia. }
  clearbody q. destruct q as [|q|q]; [|shelve|lia].
  - assert (m = 1%positive) as -> by lia. destruct s; split; by vm_compute.
  Unshelve. cbn [Zdigits2].
  assert (Z.pos (digits2_pos q) <= 53) as Hq.
  { pose proof (digits2_bounds q) as [B _]. destruct (Z.le_gt_cases (Z.pos (digits2_pos q)) 53) as [|G]; [done|exfalso].
    pose proof (Z.pow_le_mono_r 2 53 (Z.pos (digits2_pos q) - 1) ltac:(lia) ltac:(lia)). lia. }
  assert (fexp 53 1024 (Z.pos (digits2_pos q) + -1074) = -1074) as -> by (unfold fexp, emin; lia).
  rewrite Z.sub_diag. cbn [shr shr_record_of_loc shr_m]. change (-1074 <=? 1024 - 53) with true. cbn iota.
  split; [done|]. cbn [sf_rank]. change (2 ^ (-1074 + 1074)) with 1. destruct s; cbn [cond_Zopp]; lia.
Qed.

Lemma fhalf_rank x : fin x = true -> is_nan (0.5 * x)%float = false /\ Z.abs (2 * frank (0.5 * x)%float - frank x) <= 1.
Proof.
  rewrite fin_sf, is_nan_sf. unfold frank. rewrite mul_spec. change (Prim2SF 0.5) with (S754_finite false 4503599627370496 (-53)).
  pose proof (Prim2SF_valid x) as V. destruct (Prim2SF x) as [s|s| |s m e]; try done. intros _.
  destruct (bounded_spec m e V) as (Hm & He & _). destruct (Z.eq_dec e (-1074)) as [->|N].
  - destruct (half_subnormal s m Hm) as (y & -> & Hy & Hr). done.
  - unfold valid_binary, SpecFloat.bounded in V. apply andb_true_iff in V as [Vc Ve]. rewrite half_normal by (done || lia).
    split; [done|]. cbn [sf_rank]. replace (e + 1074) with (Z.succ (e - 1 + 1074)) by lia. rewrite Z.pow_succ_r by lia.
    destruct s; cbn [cond_Zopp]; lia.
Qed.

Lemma rnd_double z : 0 <= z < 2 ^ 2098 -> rnd z = z -> rnd (2 * z) = Z.min (2 ^ 2098) (2 * z).
Proof.
  intros B R. destruct (Z.eq_dec z 0) as [->|N]; [by vm_compute|]. unfold rnd in *.
  destruct (Z.ltb_spec z 0); [lia|]. destruct (Z.ltb_spec (2 * z) 0); [lia|]. rewrite rnd_pos_rne in *. f_equal.
  replace (2 * z) with (z * 2 ^ 1) by lia. rewrite rne_scale by lia. lia.
Qed.

(** The midpoint of two floats that are not negative is between them, unless their sum
    overflows. *)
Lemma midpoint_between lo hi :
  fin lo = true -> fin hi = true -> fin (lo + hi)%float = true -> PrimFloat.leb 0 lo = true -> PrimFloat.leb lo hi = true ->
  PrimFloat.leb lo (0.5 * (lo + hi))%float = true /\ PrimFloat.leb (0.5 * (lo + hi))%float hi = true.
Proof.
  intros Fl Fh Fs P L. pose proof (fin_not_nan _ Fl) as Nl. pose proof (fin_not_nan _ Fh) as Nh. pose proof (fin_not_nan _ Fs) as Ns.
  destruct (fhalf_rank _ Fs) as [Nm B]. destruct (fadd_rank lo hi Fl Fh) as [S _].
  rewrite leb_rank, Nl, Nh in L. rewrite leb_rank, Nl in P. cbn in L, P. apply Z.leb_le in L, P.
  rewrite fin_rank in Fl, Fh, Fs. rewrite !andb_true_iff, !Z.ltb_lt in Fl, Fh, Fs.
  pose proof (rnd_mono (2 * frank lo) (frank lo + frank hi) ltac:(lia)) as M1.
  pose proof (rnd_mono (frank lo + frank hi) (2 * frank hi) ltac:(lia)) as M2. rewrite <- S in M1, M2.
  rewrite rnd_double in M1, M2 by (lia || by apply rnd_frank).
  rewrite !leb_rank, Nl, Nh, Nm. cbn. rewrite !Z.leb_le. lia.
Qed.
