(* ===== verification/PyNum.v ===== *)
(** * Python numbers

    Python integers are unbounded ([Z]), floats are binary64.  This file holds
    the conversions between the two ([float(int)], [int(float)], [round], true
    division of integers), decimal literals and their printing, and the mixed
    arithmetic and comparisons of Python's numeric tower. *)

From stdpp Require Import base list strings.
From Stdlib Require Import ZArith Lia Floats Ascii.
From S2P Require Import Prelude PyFloat.

#[local] Set Warnings "-inexact-float".
Open Scope Z_scope.

(** ** Rationals to floats *)

(** The float nearest to [n / d] (ties to even): [SFdiv] on exact integers,
    which rounds once whatever the size of [n] and [d]. *)
Definition Q2F (n : Z) (d : positive) : float :=
  match n with
  | Z0 => 0%float
  | Z.pos p | Z.neg p =>
      let '(m, e, l) := SFdiv_core_binary 53 1024 (Z.pos p) 0 (Z.pos d) 0 in
      SF2Prim (binary_round_aux 53 1024 (n <? 0) m e l)
  end.

(** [float(z)]: the nearest float, [OverflowError] past the largest one. *)
Definition int_to_float (z : Z) : res float :=
  let f := Q2F z 1 in
  if is_finite f then Ok f else Raise OverflowError.

(** [a / b] for integers: correctly rounded. *)
Definition int_truediv (a b : Z) : res float :=
  match b with
  | Z0 => Raise ZeroDivisionError
  | Z.pos d => let f := Q2F a d in if is_finite f then Ok f else Raise OverflowError
  | Z.neg d => let f := Q2F (- a) d in if is_finite f then Ok f else Raise OverflowError
  end.

(** ** Floats to integers *)

Definition two1074 : Z := 2 ^ 1074.

(** [int(x)] truncates toward zero. *)
Definition f_int (x : float) : res Z :=
  if is_nan x then Raise ValueError
  else if is_infinity x then Raise OverflowError
  else Ok (Z.quot (frank x) two1074).

(** The integer nearest to [n / d], ties to even. *)
Definition div_half_even (n d : Z) : Z :=
  let q := n / d in
  let r := n mod d in
  match Z.compare (2 * r) d with
  | Lt => q
  | Gt => q + 1
  | Eq => if Z.even q then q else q + 1
  end.

(** [round(x)] with no digits argument: an integer. *)
Definition f_round (x : float) : res Z :=
  if is_nan x then Raise ValueError
  else if is_infinity x then Raise OverflowError
  else Ok (div_half_even (frank x) two1074).

Definition copy_sign (x y : float) : float := if get_sign y then (- x)%float else x.

(** [round(x, nd)] for [nd > 0]: the decimal nearest to the exact value of [x],
    read back as a float. *)
Definition f_round_nd (x : float) (nd : nat) : float :=
  if negb (is_finite x) then x
  else
    let k := div_half_even (Z.abs (frank x) * 10 ^ Z.of_nat nd) two1074 in
    copy_sign (Q2F k (Pos.pow 10 (Pos.of_nat nd))) x.

(** ** Decimal text *)

Definition digit_char (d : Z) : ascii := Ascii.ascii_of_N (Z.to_N (48 + d)).

Fixpoint Z_digits_aux (fuel : nat) (z : Z) (acc : string) : string :=
  match fuel with
  | O => acc
  | S fuel' =>
      let acc' := String (digit_char (z mod 10)) acc in
      if z / 10 =? 0 then acc' else Z_digits_aux fuel' (z / 10) acc'
  end.

(** Decimal digits of a nonnegative integer; a number of [n] bits has at most
    [n + 1] digits, so the fuel is never exhausted. *)
Definition Z_digits (z : Z) : string := Z_digits_aux (S (Z.to_nat (Z.log2 z))) z "".

Definition Z_str (z : Z) : string :=
  if z <? 0 then String "-" (Z_digits (- z)) else Z_digits z.

Fixpoint str_repeat (c : ascii) (n : nat) : string :=
  match n with O => "" | S n' => String c (str_repeat c n') end.

(** [f"{x:.2f}"]: the decimal with two digits nearest to the exact value. *)
Definition fmt_2f (x : float) : string :=
  if is_nan x then "nan"
  else if is_infinity x then (if get_sign x then "-inf" else "inf")%string
  else
    let k := div_half_even (Z.abs (frank x) * 100) two1074 in
    let frac := k mod 100 in
    ((if get_sign x then "-" else "") ++ Z_digits (k / 100) ++ "."
       ++ (if (frac <? 10)%Z then "0" else "") ++ Z_digits frac)%string.

(** [f"{x:.2f}"] is used for confidences; [repr(x)] below is the shortest
    decimal that reads back as [x]. *)
Definition pow10 (k : Z) : Z * positive :=
  match k with
  | Z.neg p => (1, Pos.pow 10 p)
  | _ => (10 ^ k, 1%positive)
  end.

(** The float denoted by the decimal [c * 10^k]. *)
Definition dec_to_float (c k : Z) : float :=
  let '(n, d) := pow10 k in Q2F (c * n) d.

(** Among the two [n]-digit decimals around [num/den], the nearest one that
    reads back as [x]. *)
Definition repr_candidate (x : float) (num den k : Z) (n : Z) : option (Z * Z) :=
  let e := k - n in
  let '(a, b) := match e with Z.neg p => (num * 10 ^ Z.pos p, den) | _ => (num, den * 10 ^ e) end in
  let lo := a / b in
  let near_lo := 2 * (a mod b) <=? b in
  let ok c := PrimFloat.eqb (dec_to_float c e) x in
  let c1 := if near_lo then lo else lo + 1 in
  let c2 := if near_lo then lo + 1 else lo in
  if ok c1 then Some (c1, e) else if ok c2 then Some (c2, e) else None.

Fixpoint repr_search (fuel : nat) (x : float) (num den k n : Z) : Z * Z :=
  match fuel with
  | O => (num * 10 ^ 17 / den, - 17)
  | S fuel' =>
      match repr_candidate x num den k n with
      | Some r => r
      | None => repr_search fuel' x num den k (n + 1)
      end
  end.

(** Decimal exponent: the least [k] with [num / den < 10^k], near the estimate. *)
Fixpoint dec_exponent (fuel : nat) (num den k : Z) : Z :=
  match fuel with
  | O => k
  | S fuel' =>
      let '(n, d) := pow10 k in
      if num * Z.pos d <? den * n then k else dec_exponent fuel' num den (k + 1)
  end.

Fixpoint strip_zeros (fuel : nat) (c k : Z) : Z * Z :=
  match fuel with
  | O => (c, k)
  | S fuel' => if (c mod 10 =? 0) && negb (c =? 0) then strip_zeros fuel' (c / 10) (k + 1) else (c, k)
  end%bool.

(** Shortest decimal [(c, k)] with [c * 10^k = |x|] after rounding. *)
Definition shortest (x : float) : Z * Z :=
  let r := Z.abs (frank x) in
  let est := (Z.log2 r - 1074) * 30103 / 100000 - 1 in
  let k := dec_exponent 5 r two1074 est in
  let '(c, e) := repr_search 17 (abs x) r two1074 k 1 in
  strip_zeros 20 c e.

Definition str_take (n : nat) (s : string) : string := String.substring 0 n s.
Definition str_drop (n : nat) (s : string) : string := String.substring n (String.length s - n) s.

(** [repr(x)]: fixed notation for decimal points in [(-4, 16]], exponent
    notation otherwise. *)
Definition float_repr (x : float) : string :=
  if is_nan x then "nan"
  else
    let sign := (if get_sign x then "-" else "")%string in
    if is_infinity x then (sign ++ "inf")%string
    else if is_zero x then (sign ++ "0.0")%string
    else
      let '(c, k) := shortest x in
      let ds := Z_digits c in
      let n := Z.of_nat (String.length ds) in
      let point := n + k in
      let body :=
        if (point <=? -4) || (16 <? point) then
          let ex := point - 1 in
          let exs := Z_digits (Z.abs ex) in
          (str_take 1 ds
             ++ (if (n =? 1)%Z then "" else "." ++ str_drop 1 ds)
             ++ "e" ++ (if (ex <? 0)%Z then "-" else "+")
             ++ (if (Z.abs ex <? 10)%Z then "0" else "") ++ exs)%string
        else if point <=? 0 then
          ("0." ++ str_repeat "0" (Z.to_nat (- point)) ++ ds)%string
        else if n <=? point then
          (ds ++ str_repeat "0" (Z.to_nat (point - n)) ++ ".0")%string
        else (str_take (Z.to_nat point) ds ++ "." ++ str_drop (Z.to_nat point) ds)%string in
      (sign ++ body)%string.

Example float_repr_tests :
  map float_repr [1%float; 0.1%float; (-2.5)%float; 1e16%float; 123456789.125%float; 1e-5%float;
    0.0001%float; 0.30000000000000004%float; 100%float]
  = ["1.0"; "0.1"; "-2.5"; "1e+16"; "123456789.125"; "1e-05"; "0.0001";
     "0.30000000000000004"; "100.0"]%string.
Proof. vm_compute. reflexivity. Qed.

(** ** The numeric tower *)

Inductive num :=
  | NInt (z : Z)
  | NFlt (f : float).

(** Exact comparison of any two numbers; [None] when one is NaN. *)
Definition ncompare (a b : num) : option comparison :=
  match a, b with
  | NInt x, NInt y => Some (Z.compare x y)
  | NFlt x, NFlt y =>
      if is_nan x || is_nan y then None else Some (Z.compare (frank x) (frank y))
  | NInt z, NFlt f =>
      if is_nan f then None
      else if is_infinity f then Some (if get_sign f then Gt else Lt)
      else Some (Z.compare (z * two1074) (frank f))
  | NFlt f, NInt z =>
      if is_nan f then None
      else if is_infinity f then Some (if get_sign f then Lt else Gt)
      else Some (Z.compare (frank f) (z * two1074))
  end%bool.

Definition nltb (a b : num) : bool := match ncompare a b with Some Lt => true | _ => false end.
Definition nleb (a b : num) : bool := match ncompare a b with Some (Lt | Eq) => true | _ => false end.
Definition neqb (a b : num) : bool := match ncompare a b with Some Eq => true | _ => false end.

Definition n_float (a : num) : res float :=
  match a with NInt z => int_to_float z | NFlt f => Ok f end.

(** Arithmetic: exact on integers, in floats as soon as one operand is a float. *)
Definition narith (iop : Z -> Z -> Z) (fop : float -> float -> float) (a b : num) : res num :=
  match a, b with
  | NInt x, NInt y => Ok (NInt (iop x y))
  | _, _ => x ← n_float a; y ← n_float b; Ok (NFlt (fop x y))
  end.

Definition nadd := narith Z.add PrimFloat.add.
Definition nsub := narith Z.sub PrimFloat.sub.
Definition nmul := narith Z.mul PrimFloat.mul.

Definition ndiv (a b : num) : res num :=
  match a, b with
  | NInt x, NInt y => NFlt <$> int_truediv x y
  | _, _ =>
      x ← n_float a; y ← n_float b;
      if is_zero y then Raise ZeroDivisionError else Ok (NFlt (x / y)%float)
  end.

Definition nabs (a : num) : num :=
  match a with NInt z => NInt (Z.abs z) | NFlt f => NFlt (PrimFloat.abs f) end.

(** [math.isfinite]: integers are converted to float first. *)
Definition n_isfinite (a : num) : res bool :=
  match a with
  | NInt z => _ ← int_to_float z; Ok true
  | NFlt f => Ok (is_finite f)
  end.

(** ** Order lemmas *)

Lemma nltb_flt x y : nltb (NFlt x) (NFlt y) = PrimFloat.ltb x y.
Proof.
  unfold nltb, ncompare. rewrite ltb_rank. destruct (is_nan x), (is_nan y); try done.
Qed.

Lemma nleb_flt x y : nleb (NFlt x) (NFlt y) = PrimFloat.leb x y.
Proof.
  unfold nleb, ncompare. rewrite leb_rank. destruct (is_nan x), (is_nan y); try done.
Qed.

Lemma neqb_flt x y : neqb (NFlt x) (NFlt y) = PrimFloat.eqb x y.
Proof.
  unfold neqb, ncompare. rewrite eqb_rank. destruct (is_nan x), (is_nan y); try done.
  cbn. rewrite Z.eqb_compare. by destruct (_ ?= _).
Qed.

(** Finite numbers compare by their exact value scaled by [2^1074]. *)
Definition nrank (a : num) : Z :=
  match a with NInt z => z * two1074 | NFlt f => frank f end.

Definition nfin (a : num) : bool :=
  match a with NInt _ => true | NFlt f => is_finite f end.

Lemma two1074_pos : 0 < two1074.
Proof. apply pow2_pos. lia. Qed.

Lemma ncompare_rank a b :
  nfin a = true -> nfin b = true -> ncompare a b = Some (Z.compare (nrank a) (nrank b)).
Proof.
  assert (forall f, is_finite f = true -> is_nan f = false /\ is_infinity f = false) as Hf.
  { intros f H. unfold is_finite in H. apply negb_true_iff, orb_false_iff in H. tauto. }
  pose proof two1074_pos.
  destruct a as [x|x], b as [y|y]; cbn [nfin ncompare nrank]; intros Ha Hb.
  - by rewrite <- Zmult_compare_compat_r by lia.
  - by apply Hf in Hb as [-> ->].
  - by apply Hf in Ha as [-> ->].
  - by apply Hf in Ha as [-> _]; apply Hf in Hb as [-> _].
Qed.

Lemma nltb_rank a b :
  nfin a = true -> nfin b = true -> nltb a b = (nrank a <? nrank b).
Proof. intros. unfold nltb. rewrite ncompare_rank by done. unfold Z.ltb. by destruct (_ ?= _). Qed.

Lemma nleb_rank a b :
  nfin a = true -> nfin b = true -> nleb a b = (nrank a <=? nrank b).
Proof. intros. unfold nleb. rewrite ncompare_rank by done. unfold Z.leb. by destruct (_ ?= _). Qed.

Lemma div_half_even_bounds n d k :
  0 < d -> 0 <= n <= k * d -> 0 <= div_half_even n d <= k.
Proof.
  intros Hd Hn. unfold div_half_even. pose proof (Z.div_mod n d ltac:(lia)) as E.
  pose proof (Z.mod_pos_bound n d Hd) as Hr.
  assert (0 <= n / d) by (apply Z.div_pos; lia).
  assert (n / d <= k) by (apply Z.div_le_upper_bound; lia).
  assert (n / d = k -> n mod d = 0) by nia.
  destruct (Z.compare_spec (2 * (n mod d)) d); [destruct (Z.even _)|..]; lia.
Qed.

Create Rewrite HintDb pynum.
#[export] Hint Rewrite nltb_flt nleb_flt neqb_flt : pynum.
