(* ===== verification/PyQuot.v ===== *)
(** * Bounds on rounded quotients

    Division of integers and of positive floats rounds the exact quotient: a float that
    bounds the quotient bounds the result.  [SFdiv] truncates and remembers a location;
    two extra bits carry that location, so the result is [rnd] of a nearby value.  Hence
    quotients of equal value are one float, a quotient near enough to a float is that
    float, and the decimal that [repr] prints of a float names that float. *)

From stdpp Require Import base list.
From Stdlib Require Import ZArith Lia Floats.
From S2P Require Import Prelude PyFloat PyRound PyDiv PyNum.

Open Scope Z_scope.

(** ** The location as two more bits *)

Definition sticky (l : location) : Z :=
  match l with loc_Exact => 0 | loc_Inexact Lt => 1 | loc_Inexact Eq => 2 | loc_Inexact Gt => 3 end.

Lemma sticky_bounds l : 0 <= sticky l <= 3.
Proof. destruct l as [|[]]; cbn; lia. Qed.

Lemma shr_sticky m l :
  0 < m -> Nat.iter 2 shr_1 (Build_shr_record (4 * m + sticky l) false false) = shr_record_of_loc m l.
Proof. intros H. destruct m as [|p|p]; [lia| |lia]. by destruct l as [|[]]. Qed.

Lemma digits_sticky m l : 0 < m -> Zdigits2 (4 * m + sticky l) = Zdigits2 m + 2.
Proof.
  intros H. destruct m as [|p|p]; [lia| |lia].
  assert (forall p, Z.pos (digits2_pos p~1) = Z.pos (digits2_pos p) + 1) as D1 by (intros; simpl; lia).
  assert (forall p, Z.pos (digits2_pos p~0) = Z.pos (digits2_pos p) + 1) as D0 by (intros; simpl; lia).
  destruct l as [|[]]; cbn [sticky];
    [change (4 * Z.pos p + 0) with (Z.pos p~0~0)|change (4 * Z.pos p + 2) with (Z.pos p~1~0)
    |change (4 * Z.pos p + 1) with (Z.pos p~0~1)|change (4 * Z.pos p + 3) with (Z.pos p~1~1)];
    cbn [Zdigits2]; rewrite ?D1, ?D0, ?D1; lia.
Qed.

Lemma shr_iter_eq mrs e n :
  0 <= n -> shr mrs e n = (Nat.iter (Z.to_nat n) shr_1 mrs, e + n).
Proof.
  intros H. destruct n as [|p|p]; cbn [shr]; [by rewrite Z.add_0_r| |lia]. by rewrite iter_pos_nat.
Qed.

Lemma shr_fexp_sticky m e l :
  0 < m -> 0 <= SpecFloat.fexp 53 1024 (Zdigits2 m + e) - e ->
  shr_fexp 53 1024 (4 * m + sticky l) (e - 2) loc_Exact = shr_fexp 53 1024 m e l.
Proof.
  intros Hm Hn. unfold shr_fexp. rewrite digits_sticky by done. cbn [shr_record_of_loc].
  replace (Zdigits2 m + 2 + (e - 2)) with (Zdigits2 m + e) by lia.
  set (t := SpecFloat.fexp 53 1024 (Zdigits2 m + e)) in *. rewrite !shr_iter_eq by lia. f_equal; [|lia].
  replace (Z.to_nat (t - (e - 2))) with (Z.to_nat (t - e) + 2)%nat by lia.
  rewrite Nat.iter_add. by rewrite shr_sticky.
Qed.

Lemma round_aux_sticky s m e l :
  0 < m -> 0 <= SpecFloat.fexp 53 1024 (Zdigits2 m + e) - e ->
  binary_round_aux 53 1024 s m e l = binary_round_aux 53 1024 s (4 * m + sticky l) (e - 2) loc_Exact.
Proof. intros Hm Hn. unfold binary_round_aux. by rewrite (shr_fexp_sticky m e l). Qed.

(** ** The division core *)

(** What the core computes: quotient, exponent, location. *)
Definition core_spec (n d : positive) (e1 e2 q e : Z) (l : location) : Prop :=
  exists r, Z.pos n * 2 ^ (e1 - e2 - e) = q * Z.pos d + r /\ 0 <= r < Z.pos d /\ (sticky l = 0 <-> r = 0) /\
  2 ^ 52 <= q /\ e <= e1 - e2 /\ 0 <= SpecFloat.fexp 53 1024 (Zdigits2 q + e) - e.

Lemma new_location_sticky d r : 0 <= r -> sticky (new_location d r) = 0 <-> r = 0.
Proof.
  intros H. unfold new_location, new_location_even, new_location_odd.
  destruct (Z.even d), (Z.eqb_spec r 0) as [->|]; try (split; done); split; intros E; try lia;
    destruct (_ ?= _); discriminate.
Qed.

Lemma digits_bounds p : 2 ^ (Zdigits2 (Z.pos p) - 1) <= Z.pos p < 2 ^ Zdigits2 (Z.pos p).
Proof. cbn [Zdigits2]. apply digits2_bounds. Qed.

Lemma core_ok n d e1 e2 :
  -1000 <= Zdigits2 (Z.pos n) + e1 - (Zdigits2 (Z.pos d) + e2) - 53 -> -1000 <= e1 - e2 ->
  exists q e l, SFdiv_core_binary 53 1024 (Z.pos n) e1 (Z.pos d) e2 = (q, e, l) /\ core_spec n d e1 e2 q e l /\
  e = Z.min (Zdigits2 (Z.pos n) + e1 - (Zdigits2 (Z.pos d) + e2) - 53) (e1 - e2).
Proof.
  intros Hr He. unfold SFdiv_core_binary. set (d1 := Zdigits2 (Z.pos n)) in *. set (d2 := Zdigits2 (Z.pos d)) in *.
  assert (SpecFloat.fexp 53 1024 (d1 + e1 - (d2 + e2)) = d1 + e1 - (d2 + e2) - 53) as ->
    by (unfold SpecFloat.fexp, SpecFloat.emin; lia).
  set (e := Z.min (d1 + e1 - (d2 + e2) - 53) (e1 - e2)). set (s := e1 - e2 - e).
  assert (match s with Z0 => Z.pos n | Z.pos _ => Z.shiftl (Z.pos n) s | Z.neg _ => 0 end = Z.pos n * 2 ^ s) as ->.
  { destruct s eqn:Es; [by rewrite Z.mul_1_r|by rewrite Z.shiftl_mul_pow2|lia]. }
  pose proof (Z_div_mod (Z.pos n * 2 ^ s) (Z.pos d) ltac:(lia)) as D.
  destruct (Z.div_eucl (Z.pos n * 2 ^ s) (Z.pos d)) as [q r]. destruct D as [D Hd].
  pose proof (digits_bounds n) as Bn. pose proof (digits_bounds d) as Bd. fold d1 in Bn. fold d2 in Bd.
  assert (0 < d1) by (unfold d1; cbn; lia). assert (0 < d2) by (unfold d2; cbn; lia).
  assert (2 ^ 52 <= q) as Hq.
  { assert (2 ^ (52 + d2) <= Z.pos n * 2 ^ s) as L.
    { etransitivity; [|apply Z.mul_le_mono_nonneg_r; [apply Z.pow_nonneg; lia|exact (proj1 Bn)]].
      rewrite <- Z.pow_add_r by lia. apply Z.pow_le_mono_r; lia. }
    rewrite Z.pow_add_r in L by lia. nia. }
  eexists q, e, _. split; [done|]. split; [|done]. exists r. fold s. split_and!; try lia.
  - apply new_location_sticky. lia.
  - assert (53 <= Zdigits2 q).
    { rewrite Zdigits2_log2 by lia. pose proof (Z.log2_le_mono (2 ^ 52) q Hq). rewrite Z.log2_pow2 in *; lia. }
    unfold SpecFloat.fexp, SpecFloat.emin. lia.
Qed.

(** ** Representable bounds *)

(** A positive rank of a float: an integer with at most 53 significant bits. *)
Lemma rank_split x : is_nan x = false -> 0 < frank x -> exists k, frank x = k * 2 ^ excess (frank x).
Proof.
  intros N H. pose proof (rnd_frank x N) as R. unfold rnd in R. rewrite (proj2 (Z.ltb_ge _ 0)) in R by lia.
  rewrite rnd_pos_rne in R. destruct (rne_multiple (frank x)) as [k Hk]. 
  destruct (Z.le_gt_cases (2 ^ 2098) (rne (frank x))) as [L|L].
  - rewrite Z.min_l in R by done. rewrite <- R. exists (2 ^ 52). by vm_compute.
  - rewrite Z.min_r in R by lia. exists k. congruence.
Qed.

Lemma rank_small x E : 0 < frank x -> excess (frank x) < E -> frank x < 2 ^ (52 + E).
Proof.
  intros H L. destruct (Z.eq_dec (excess (frank x)) 0) as [Z|Z].
  - pose proof (excess_zero_lt _ Z). pose proof (excess_nonneg (frank x)).
    pose proof (Z.pow_le_mono_r 2 53 (52 + E)). lia.
  - pose proof (excess_nonneg (frank x)). pose proof (excess_bounds (frank x) ltac:(lia)).
    pose proof (Z.pow_le_mono_r 2 (53 + excess (frank x)) (52 + E)). lia.
Qed.

Lemma rank_aligned x E :
  is_nan x = false -> 0 < frank x -> 0 <= E -> E <= excess (frank x) -> exists j, frank x = j * 2 ^ E.
Proof.
  intros N H HE L. destruct (rank_split x N H) as [k Hk]. exists (k * 2 ^ (excess (frank x) - E)).
  rewrite <- Z.mul_assoc, <- Z.pow_add_r by lia. rewrite Hk at 1. do 2 f_equal. lia.
Qed.

Section Core.
Variables (n d : positive) (e1 e2 q e : Z) (l : location).
Hypothesis C : core_spec n d e1 e2 q e l.
Hypothesis He : -1000 <= e.

(** The value whose rounding the division returns. *)
Definition near : Z := (4 * q + sticky l) * 2 ^ (e - 2 + 1074).

Lemma near_split : near = (4 * q + sticky l) * 2 ^ (e + 1072).
Proof. unfold near. f_equal. f_equal. lia. Qed.

(** The exact quotient, scaled: [n * 2^e1 / (d * 2^e2)]. *)
Lemma core_lower a :
  is_nan a = false -> frank a * Z.pos d <= Z.pos n * 2 ^ (e1 - e2 + 1074) -> frank a <= near.
Proof.
  intros N H. destruct C as (r & D & Hr & Hl & Hq & Hee & _). rewrite near_split. pose proof (sticky_bounds l).
  pose proof (pow2_pos (e + 1072) ltac:(lia)) as P.
  destruct (Z.le_gt_cases (frank a) 0); [nia|].
  assert (2 ^ (e + 1074) = 4 * 2 ^ (e + 1072)) as P4.
  { replace (e + 1074) with (2 + (e + 1072)) by lia. rewrite Z.pow_add_r by lia. done. }
  destruct (Z.le_gt_cases (e + 1074) (excess (frank a))) as [L|L].
  - destruct (rank_aligned a (e + 1074) N ltac:(lia) ltac:(lia) L) as [j K].
    replace (e1 - e2 + 1074) with (e1 - e2 - e + (e + 1074)) in H by lia. rewrite Z.pow_add_r in H by lia.
    rewrite Z.mul_assoc, D, K in H. rewrite K. assert (j * Z.pos d <= q * Z.pos d + r) as J by nia.
    assert (j <= q) by nia. nia.
  - pose proof (rank_small a _ ltac:(lia) L) as S. rewrite Z.pow_add_r, P4 in S by lia. nia.
Qed.

Lemma core_upper b :
  is_nan b = false -> Z.pos n * 2 ^ (e1 - e2 + 1074) <= frank b * Z.pos d -> near <= frank b.
Proof.
  intros N H. destruct C as (r & D & Hr & Hl & Hq & Hee & _). rewrite near_split. pose proof (sticky_bounds l).
  pose proof (pow2_pos (e + 1072) ltac:(lia)) as P. pose proof (pow2_pos (e1 - e2 + 1074) ltac:(lia)) as P0.
  assert (0 < frank b) by nia.
  assert (2 ^ (e + 1074) = 4 * 2 ^ (e + 1072)) as P4.
  { replace (e + 1074) with (2 + (e + 1072)) by lia. rewrite Z.pow_add_r by lia. done. }
  replace (e1 - e2 + 1074) with (e1 - e2 - e + (e + 1074)) in H by lia. rewrite Z.pow_add_r in H by lia.
  rewrite Z.mul_assoc, D in H.
  destruct (Z.le_gt_cases (e + 1074) (excess (frank b))) as [L|L].
  - destruct (rank_aligned b (e + 1074) N ltac:(lia) ltac:(lia) L) as [j K]. rewrite K in *.
    assert (q * Z.pos d + r <= j * Z.pos d) as J by nia.
    destruct (Z.eq_dec r 0) as [Er|Er].
    + assert (sticky l = 0) as -> by tauto. assert (q <= j) by nia. nia.
    + assert (q + 1 <= j) by nia. nia.
  - pose proof (rank_small b _ ltac:(lia) L) as S. rewrite Z.pow_add_r, P4 in S by lia. nia.
Qed.

Lemma core_rank s :
  e <= 971 ->
  sf_rank (binary_round_aux 53 1024 s q e l) = cond_Zopp s (rnd near) /\
  sf_nan (binary_round_aux 53 1024 s q e l) = false.
Proof.
  intros Hu. destruct C as (r & D & Hr & Hl & Hq & Hee & Hf). pose proof (sticky_bounds l).
  rewrite round_aux_sticky by lia.
  destruct (binary_round_aux_rank s (4 * q + sticky l) (e - 2) ltac:(lia) ltac:(lia)) as [R N]. rewrite R. split; [|done].
  f_equal. unfold rnd, near. pose proof (pow2_pos (e - 2 + 1074) ltac:(lia)).
  by rewrite (proj2 (Z.ltb_ge _ 0)) by nia.
Qed.

End Core.

(** ** The result is a float *)

Lemma round_aux_valid s m e :
  0 < excess m -> -1074 <= e -> valid_binary (binary_round_aux 53 1024 s m e loc_Exact) = true.
Proof.
  intros Hx He. assert (0 < m) as Hm.
  { unfold excess in Hx. destruct (Z.le_gt_cases m 0); [rewrite Z.log2_nonpos in Hx; lia|lia]. }
  unfold binary_round_aux. destruct (shr_fexp_excess m e Hm He) as (mrs & -> & Hq & Hl). rewrite Hq, Hl.
  destruct (rne_quot m Hm) as (q & Hqb & Hq52 & <- & Hrne). specialize (Hq52 Hx).
  pose proof (excess_nonneg m). pose proof (excess_nonneg q).
  destruct (shr_fexp_excess q (e + excess m) ltac:(lia) ltac:(lia)) as (mrs' & -> & Hq' & _). rewrite Hq'.
  destruct (renormalise q Hqb) as [Hb Hval]. set (m' := q / 2 ^ excess q) in *.
  assert (2 ^ 52 <= m') as Hlow.
  { destruct (Z.eq_dec q (2 ^ 53)) as [E|E]; [subst m'; rewrite E; by vm_compute|].
    subst m'. rewrite (excess_small q), Z.div_1_r by (clear -Hqb E; lia). done. }
  destruct m' as [|p|p] eqn:Em; [lia| |lia]. destruct (Z.leb_spec (e + excess m + excess q) (1024 - 53)) as [Hf|Hf]; [|done].
  cbn [valid_binary]. unfold SpecFloat.bounded, canonical_mantissa, SpecFloat.fexp, SpecFloat.emin.
  assert (Z.pos (digits2_pos p) = 53) as ->.
  { change (Z.pos (digits2_pos p)) with (Zdigits2 (Z.pos p)). rewrite Zdigits2_log2 by lia.
    rewrite (Z.log2_unique (Z.pos p) 52); [lia|lia|]. change (Z.succ 52) with 53. lia. }
  unfold prec, emax. apply andb_true_iff. split; [apply Z.eqb_eq|apply Z.leb_le]; lia.
Qed.

Lemma frank_round s m e :
  0 < excess m -> -1074 <= e -> frank (SF2Prim (binary_round_aux 53 1024 s m e loc_Exact))
    = sf_rank (binary_round_aux 53 1024 s m e loc_Exact).
Proof. intros H He. unfold frank. by rewrite Prim2SF_SF2Prim by by apply round_aux_valid. Qed.

Lemma nan_round s m e :
  0 < excess m -> -1074 <= e -> is_nan (SF2Prim (binary_round_aux 53 1024 s m e loc_Exact))
    = sf_nan (binary_round_aux 53 1024 s m e loc_Exact).
Proof. intros H He. rewrite is_nan_sf. by rewrite Prim2SF_SF2Prim by by apply round_aux_valid. Qed.

(** ** Quotients of integers *)

(** A float at least (at most) the exact quotient [n / d] is at least (at most) the
    rounded one. *)
Definition rounds_quotient (n : Z) (d : positive) (x : float) : Prop :=
  is_nan x = false /\
  (forall a, is_nan a = false -> frank a * Z.pos d <= n * two1074 -> frank a <= frank x) /\
  (forall b, is_nan b = false -> n * two1074 <= frank b * Z.pos d -> frank x <= frank b).

Lemma log2_digits p : Zdigits2 (Z.pos p) = Z.log2 (Z.pos p) + 1.
Proof. apply Zdigits2_log2. lia. Qed.

Lemma Q2F_rounds n d :
  0 <= n < 2 ^ 900 -> Z.pos d < 2 ^ 900 -> rounds_quotient n d (Q2F n d).
Proof.
  intros Hn Hd. destruct n as [|n|n]; [| |lia].
  { split_and!; [done| |]; intros x Nx; change (frank (Q2F 0 d)) with 0; nia. }
  unfold Q2F. assert (Z.log2 (Z.pos d) < 900) by (apply Z.log2_lt_pow2; lia).
  assert (Z.log2 (Z.pos n) < 900) by (apply Z.log2_lt_pow2; lia).
  pose proof (Z.log2_nonneg (Z.pos n)). pose proof (Z.log2_nonneg (Z.pos d)).
  destruct (core_ok n d 0 0) as (q & e & l & -> & C & Ee); rewrite ?log2_digits in *; [lia|lia|].
  change (Z.pos n <? 0) with false. pose proof C as (r & _ & Hr & _ & Hq & _ & Hf). pose proof (sticky_bounds l).
  assert (-1000 <= e) as He by lia.
  destruct (core_rank n d 0 0 q e l C He false ltac:(lia)) as [R N].
  rewrite round_aux_sticky in * by lia.
  assert (0 < excess (4 * q + sticky l)) as Hx.
  { unfold excess. pose proof (Z.log2_le_mono (2 ^ 54) (4 * q + sticky l) ltac:(lia)). rewrite Z.log2_pow2 in *; lia. }
  unfold rounds_quotient. rewrite frank_round, nan_round, R, N by lia. cbn [cond_Zopp]. split_and!; [done| |].
  - intros a Na Ha. rewrite <- (rnd_frank a Na). apply rnd_mono. eapply (core_lower n d 0 0); done.
  - intros b Nb Hb. rewrite <- (rnd_frank b Nb). apply rnd_mono. eapply (core_upper n d 0 0); done.
Qed.

Lemma int_truediv_rounds a b :
  0 <= a < 2 ^ 900 -> 0 < b < 2 ^ 900 -> exists x, int_truediv a b = Ok x /\ fin x = true /\ rounds_quotient a (Z.to_pos b) x.
Proof.
  intros Ha Hb. destruct b as [|d|d]; [lia| |lia]. cbn [int_truediv Z.to_pos].
  pose proof (Q2F_rounds a d Ha ltac:(lia)) as R. exists (Q2F a d).
  assert (fin (Q2F a d) = true) as F; [|unfold fin in F; by rewrite F].
  destruct R as (N & Hl & Hu). rewrite fin_rank, N. cbn [negb andb].
  pose proof (Hl 0%float eq_refl ltac:(change (frank 0) with 0; pose proof two1074_pos; nia)) as L. change (frank 0) with 0 in L.
  pose proof (Hu (Q2F (2 ^ 900) 1) eq_refl) as U.
  assert (frank (Q2F (2 ^ 900) 1) = 2 ^ 900 * two1074) as E by (vm_compute; reflexivity). rewrite E in U.
  assert (2 ^ 900 * two1074 < 2 ^ 2098) by (vm_compute; reflexivity).
  apply andb_true_iff. split; apply Z.ltb_lt; [assert (- 2 ^ 2098 < 0) by (vm_compute; reflexivity); lia|].
  eapply Z.le_lt_trans; [apply U|done].
  assert (0 < two1074) by apply two1074_pos. generalize dependent two1074. intros t. intros. nia.
Qed.

(** ** Quotients of floats *)

Definition comparable_ranks (x y : float) : Prop :=
  0 < frank x -> Z.abs (Z.log2 (frank x) - Z.log2 (frank y)) <= 900.

(** The same for the division of two floats. *)
Definition rounds_fdiv (x y z : float) : Prop :=
  is_nan z = false /\
  (forall a, is_nan a = false -> frank a * frank y <= frank x * two1074 -> frank a <= frank z) /\
  (forall b, is_nan b = false -> frank x * two1074 <= frank b * frank y -> frank z <= frank b).

Lemma log2_rank n e : -1074 <= e -> Z.log2 (Z.pos n * 2 ^ (e + 1074)) = Zdigits2 (Z.pos n) - 1 + (e + 1074).
Proof. intros H. rewrite Z.log2_mul_pow2 by lia. rewrite log2_digits. lia. Qed.

Lemma bounded_digits n e : SpecFloat.bounded 53 1024 n e = true -> Zdigits2 (Z.pos n) <= 53.
Proof.
  intros B. apply bounded_spec in B as (? & ? & _). rewrite log2_digits.
  assert (Z.log2 (Z.pos n) < 53) by (apply Z.log2_lt_pow2; lia). lia.
Qed.

(** A positive finite float is a significand and an exponent. *)
Lemma positive_float x :
  fin x = true -> 0 < frank x -> exists n e, Prim2SF x = S754_finite false n e /\ SpecFloat.bounded 53 1024 n e = true.
Proof.
  rewrite fin_sf. unfold frank. pose proof (Prim2SF_valid x) as V. destruct (Prim2SF x) as [|[]| |[] n e]; cbn; try done.
  - intros _ H. apply bounded_spec in V. pose proof (pow2_pos (e + 1074) ltac:(lia)). nia.
  - intros _ _. by exists n, e.
Qed.

Lemma fdiv_rounds x y :
  fin x = true -> fin y = true -> 0 <= frank x -> 0 < frank y -> comparable_ranks x y -> rounds_fdiv x y (x / y)%float.
Proof.
  intros Fx Fy Rx Ry Cxy. destruct (positive_float y Fy Ry) as (d & e2 & Ey & Vy).
  pose proof (bounded_spec _ _ Vy) as (_ & B2 & _). pose proof (bounded_digits _ _ Vy) as G2.
  destruct (Z.eq_dec (frank x) 0) as [Zx|Zx].
  - assert (frank (x / y)%float = 0 /\ is_nan (x / y)%float = false) as [R N].
    { rewrite is_nan_sf. revert Fx Zx. rewrite fin_sf. unfold frank. rewrite div_spec, Ey.
      pose proof (Prim2SF_valid x) as V. destruct (Prim2SF x) as [|[]| |s n e]; cbn; try done.
      apply bounded_spec in V. pose proof (pow2_pos (e + 1074) ltac:(lia)). destruct s; cbn; nia. }
    unfold rounds_fdiv. rewrite R, Zx. split_and!; [done| |]; intros; nia.
  - specialize (Cxy ltac:(lia)). destruct (positive_float x Fx ltac:(lia)) as (n & e1 & Ex & Vx).
    pose proof (bounded_spec _ _ Vx) as (_ & B1 & _). pose proof (bounded_digits _ _ Vx) as G1.
    assert (frank x = Z.pos n * 2 ^ (e1 + 1074)) as X by (unfold frank; by rewrite Ex).
    assert (frank y = Z.pos d * 2 ^ (e2 + 1074)) as Y by (unfold frank; by rewrite Ey).
    rewrite X, Y, !log2_rank in Cxy by lia.
    destruct (core_ok n d e1 e2) as (q & e & l & Core & C & Ee); [lia| |].
    { assert (0 < Zdigits2 (Z.pos n)) by (cbn; lia). assert (0 < Zdigits2 (Z.pos d)) by (cbn; lia). lia. }
    assert (0 < Zdigits2 (Z.pos n)) by (cbn; lia). assert (0 < Zdigits2 (Z.pos d)) by (cbn; lia).
    assert (-1000 <= e) as He by lia. pose proof C as (r & _ & Hr & _ & Hq & Hee & Hf).
    destruct (core_rank n d e1 e2 q e l C He false ltac:(lia)) as [R N].
    assert (frank (x / y)%float = rnd (near q e l) /\ is_nan (x / y)%float = false) as [R' N'].
    { rewrite is_nan_sf. unfold frank. rewrite div_spec, Ex, Ey.
      change (SF64div (S754_finite false n e1) (S754_finite false d e2))
        with (SFdiv 53 1024 (S754_finite false n e1) (S754_finite false d e2)).
      unfold SFdiv. rewrite Core. cbn [xorb]. by rewrite R, N. }
    unfold rounds_fdiv. rewrite R', N'.
    assert (frank x * two1074 = Z.pos n * 2 ^ (e1 - e2 + 1074) * 2 ^ (e2 + 1074)) as S.
    { rewrite X. unfold two1074. rewrite <- !Z.mul_assoc, <- !Z.pow_add_r by lia. do 2 f_equal. lia. }
    pose proof (pow2_pos (e2 + 1074) ltac:(lia)). rewrite S, Y. split_and!; [done| |].
    + intros a Na Ha. rewrite <- (rnd_frank a Na). apply rnd_mono. eapply (core_lower n d e1 e2); [done..|]. nia.
    + intros b Nb Hb. rewrite <- (rnd_frank b Nb). apply rnd_mono. eapply (core_upper n d e1 e2); [done..|]. nia.
Qed.

(** ** Exact quotients *)

(** A dyadic fraction with at most 53 significant bits is represented exactly. *)
Lemma Q2F_dyadic z j :
  0 <= z < 2 ^ 53 -> 0 <= j <= 800 -> frank (Q2F z (Z.to_pos (2 ^ j))) = z * 2 ^ (1074 - j) /\ fin (Q2F z (Z.to_pos (2 ^ j))) = true.
Proof.
  intros Hz Hj. pose proof (pow2_pos j ltac:(lia)) as Pj. set (d := Z.to_pos (2 ^ j)).
  assert (Z.pos d = 2 ^ j) as Ed by (apply Z2Pos.id; lia). destruct z as [|n|n]; [done| |lia].
  assert (Z.log2 (Z.pos d) = j) as Ld by (rewrite Ed; apply Z.log2_pow2; lia).
  assert (Z.log2 (Z.pos n) < 53) by (apply Z.log2_lt_pow2; lia). pose proof (Z.log2_nonneg (Z.pos n)).
  unfold Q2F. change (Z.pos n <? 0) with false.
  destruct (core_ok n d 0 0) as (q & e & l & -> & C & Ee); rewrite ?log2_digits in *; [lia|lia|].
  pose proof C as (r & D & Hr & Hl & Hq & _ & Hf). pose proof (sticky_bounds l).
  assert (-1000 <= e) as He by lia. destruct (core_rank n d 0 0 q e l C He false ltac:(lia)) as [R N].
  assert (r = 0) as Er.
  { assert ((Z.pos n * 2 ^ (0 - 0 - e)) mod Z.pos d = 0) as M.
    { rewrite Ed. replace (0 - 0 - e) with (- e - j + j) by lia. rewrite Z.pow_add_r, Z.mul_assoc by lia.
      apply Z.mod_mul. lia. }
    rewrite D, Z.add_comm, Z_mod_plus_full, Z.mod_small in M by lia. done. }
  assert (sticky l = 0) as S by tauto. rewrite round_aux_sticky in * by lia.
  assert (0 < excess (4 * q + sticky l)) as Hx.
  { unfold excess. pose proof (Z.log2_le_mono (2 ^ 54) (4 * q + sticky l) ltac:(lia)). rewrite Z.log2_pow2 in *; lia. }
  assert (near q e l = Z.pos n * 2 ^ (1074 - j)) as E.
  { unfold near. rewrite S, Z.add_0_r. apply (Z.mul_reg_r _ _ (2 ^ j)); [lia|]. rewrite Er, Z.add_0_r in D.
    assert (Z.pos n * 2 ^ (1074 - j) * 2 ^ j = Z.pos n * 2 ^ (0 - 0 - e) * 2 ^ (e + 1074)) as ->
      by (rewrite <- !Z.mul_assoc, <- !Z.pow_add_r by lia; do 2 f_equal; lia).
    rewrite D, Ed. replace (e + 1074) with (2 + (e - 2 + 1074)) by lia. rewrite (Z.pow_add_r 2 2) by lia. lia. }
  rewrite E in R. pose proof (pow2_pos (1074 - j) ltac:(lia)).
  assert (Z.pos n * 2 ^ (1074 - j) < 2 ^ 2098) as Small.
  { apply (Z.lt_le_trans _ (2 ^ 53 * 2 ^ 1074)); [|by vm_compute].
    pose proof (Z.pow_le_mono_r 2 (1074 - j) 1074). nia. }
  assert (rnd (Z.pos n * 2 ^ (1074 - j)) = Z.pos n * 2 ^ (1074 - j)) as F.
  { unfold rnd. rewrite (proj2 (Z.ltb_ge _ 0)), rnd_pos_rne, rne_fix, Z.min_r by lia. done. }
  rewrite F in R. cbn [cond_Zopp] in R. rewrite fin_rank, frank_round, nan_round, R, N by lia. split; [done|].
  cbn [negb andb]. apply andb_true_iff. split; apply Z.ltb_lt; [pose proof (pow2_pos 2098 ltac:(lia)); lia|done].
Qed.

Lemma Q2F_int z : 0 <= z < 2 ^ 53 -> frank (Q2F z 1) = z * two1074 /\ fin (Q2F z 1) = true.
Proof. intros H. apply (Q2F_dyadic z 0 H). lia. Qed.

Lemma int_to_float_small z : 0 <= z < 2 ^ 53 -> int_to_float z = Ok (Q2F z 1).
Proof. intros H. destruct (Q2F_int z H) as [_ F]. unfold int_to_float. unfold fin in F. by rewrite F. Qed.

(** ** Quotients of equal value *)

(** Values on the same side of every multiple of [2^g] round alike. *)
Lemma rne_cell g m1 m2 :
  0 <= g -> 0 < m2 -> g + 1 <= excess m2 -> (forall h, (m1 ?= h * 2 ^ g) = (m2 ?= h * 2 ^ g)) -> rne m1 = rne m2.
Proof.
  intros Hg H2 He C. assert (forall k h, g <= k -> (m1 ?= h * 2 ^ k) = (m2 ?= h * 2 ^ k)) as Ck.
  { intros k h Hk. replace (h * 2 ^ k) with (h * 2 ^ (k - g) * 2 ^ g); [apply C|]. rewrite <- Z.mul_assoc, <- Z.pow_add_r by lia. do 2 f_equal. lia. }
  assert (excess m1 = excess m2) as Ex.
  { unfold excess in *. pose proof (Z.log2_spec m2 H2) as S. set (L := Z.log2 m2) in *. rewrite (Z.log2_unique m1 L); [done|lia|].
    pose proof (Ck L 1 ltac:(lia)) as A. pose proof (Ck (Z.succ L) 1 ltac:(lia)) as B. rewrite !Z.mul_1_l in A, B.
    destruct (Z.compare_spec m2 (2 ^ L)), (Z.compare_spec m2 (2 ^ Z.succ L)), (Z.compare_spec m1 (2 ^ L)), (Z.compare_spec m1 (2 ^ Z.succ L)); try discriminate; lia. }
  unfold rne. rewrite Ex. set (E := excess m2) in *. pose proof (pow2_pos E ltac:(lia)) as P.
  pose proof (Z.div_mod m1 (2 ^ E) ltac:(lia)) as D1. pose proof (Z.mod_pos_bound m1 (2 ^ E) P) as R1.
  pose proof (Z.div_mod m2 (2 ^ E) ltac:(lia)) as D2. pose proof (Z.mod_pos_bound m2 (2 ^ E) P) as R2.
  set (q1 := m1 / 2 ^ E) in *. set (r1 := m1 mod 2 ^ E) in *. set (q2 := m2 / 2 ^ E) in *. set (r2 := m2 mod 2 ^ E) in *.
  pose proof (Ck E q2 ltac:(lia)) as A. pose proof (Ck E (q2 + 1) ltac:(lia)) as B. pose proof (Ck (E - 1) (2 * q2 + 1) ltac:(lia)) as M.
  assert (2 ^ E = 2 * 2 ^ (E - 1)) as P2 by (rewrite <- Z.pow_succ_r by lia; f_equal; lia).
  assert (q1 = q2) as Q.
  { destruct (Z.compare_spec m2 (q2 * 2 ^ E)), (Z.compare_spec m2 ((q2 + 1) * 2 ^ E)), (Z.compare_spec m1 (q2 * 2 ^ E)), (Z.compare_spec m1 ((q2 + 1) * 2 ^ E));
      try discriminate; nia. }
  clearbody q1 q2 r1 r2 E. subst q1. do 2 f_equal. unfold rem_loc.
  assert ((r1 =? 0) = (r2 =? 0)) as ->.
  { destruct (Z.eqb_spec r1 0), (Z.eqb_spec r2 0), (Z.compare_spec m2 (q2 * 2 ^ E)), (Z.compare_spec m1 (q2 * 2 ^ E)); try discriminate; lia. }
  destruct (r2 =? 0); [done|]. f_equal.
  destruct (Z.compare_spec (2 * r1) (2 ^ E)), (Z.compare_spec (2 * r2) (2 ^ E)), (Z.compare_spec m2 ((2 * q2 + 1) * 2 ^ (E - 1))),
    (Z.compare_spec m1 ((2 * q2 + 1) * 2 ^ (E - 1))); try discriminate; try done; lia.
Qed.

Lemma sticky_half d r :
  0 <= r < d -> let s := sticky (new_location d r) in
  (s = 0 <-> r = 0) /\ (s = 1 <-> 0 < r /\ 2 * r < d) /\ (s = 2 <-> 0 < r /\ 2 * r = d) /\ (s = 3 <-> 0 < r /\ d < 2 * r).
Proof.
  intros H. cbv zeta. unfold new_location, new_location_even, new_location_odd. destruct (Z.even d) eqn:Ev; destruct (Z.eqb_spec r 0) as [->|N]; try (cbn; lia).
  - destruct (Z.compare_spec (2 * r) d); cbn; lia.
  - assert (2 * r <> d) by (intros <-; by rewrite Z.even_mul in Ev). destruct (Z.compare_spec (2 * r + 1) d); cbn; lia.
Qed.

(** The core's quotient, remainder and location of two integers. *)
Lemma core_value n d q e l :
  SFdiv_core_binary 53 1024 (Z.pos n) 0 (Z.pos d) 0 = (q, e, l) ->
  e <= 0 /\ q = Z.pos n * 2 ^ (- e) / Z.pos d /\ l = new_location (Z.pos d) (Z.pos n * 2 ^ (- e) mod Z.pos d).
Proof.
  unfold SFdiv_core_binary. set (e' := Z.min _ _). set (s := 0 - 0 - e').
  assert (e' <= 0) as He by (unfold e'; lia).
  assert (match s with Z0 => Z.pos n | Z.pos _ => Z.shiftl (Z.pos n) s | Z.neg _ => 0 end = Z.pos n * 2 ^ (- e')) as ->.
  { replace (- e') with s by (unfold s; lia). destruct s eqn:Es; [by rewrite Z.mul_1_r|by rewrite Z.shiftl_mul_pow2|lia]. }
  unfold Z.div, Z.modulo. clearbody e'. clear s. intros H. destruct (Z.div_eucl (Z.pos n * 2 ^ (- e')) (Z.pos d)) as [q' r'] eqn:E. injection H as <- <- <-. by rewrite E.
Qed.

(** The integer whose rounding the float of a quotient is: on the side of the quotient
    of every multiple of a power of two that is small beside it. *)
Definition stands_for (n : Z) (d : positive) (m g : Z) : Prop :=
  0 < m /\ 0 <= g /\ g + 1 <= excess m /\ forall h, (m ?= h * 2 ^ g) = (n * two1074 ?= h * 2 ^ g * Z.pos d).

Lemma Q2F_stands n d :
  0 < n < 2 ^ 900 -> Z.pos d < 2 ^ 900 -> exists m g, stands_for n d m g /\ frank (Q2F n d) = rnd m /\ is_nan (Q2F n d) = false.
Proof.
  intros Hn Hd. destruct n as [|n|n]; [lia| |lia]. unfold Q2F. assert (Z.log2 (Z.pos d) < 900) by (apply Z.log2_lt_pow2; lia).
  assert (Z.log2 (Z.pos n) < 900) by (apply Z.log2_lt_pow2; lia).
  pose proof (Z.log2_nonneg (Z.pos n)). pose proof (Z.log2_nonneg (Z.pos d)).
  destruct (core_ok n d 0 0) as (q & e & l & Ec & C & Ee); rewrite ?log2_digits in *; [lia|lia|]. rewrite Ec.
  change (Z.pos n <? 0) with false. pose proof C as (r & _ & Hr & _ & Hq & _ & Hf). pose proof (sticky_bounds l) as Hs.
  assert (-1000 <= e) as He by lia. destruct (core_rank n d 0 0 q e l C He false ltac:(lia)) as [R N].
  rewrite round_aux_sticky in * by lia.
  assert (54 <= Z.log2 (4 * q + sticky l)) as L4.
  { pose proof (Z.log2_le_mono (2 ^ 54) (4 * q + sticky l) ltac:(lia)). rewrite Z.log2_pow2 in *; lia. }
  assert (0 < excess (4 * q + sticky l)) as Hx by (unfold excess; lia).
  rewrite frank_round, nan_round, R, N by lia. cbn [cond_Zopp]. exists (near q e l), (e + 1073). split; [|done].
  apply core_value in Ec as (_ & Eq & El). rewrite near_split. pose proof (pow2_pos (e + 1072) ltac:(lia)) as P.
  split_and!; [nia|lia|unfold excess; rewrite Z.log2_mul_pow2 by lia; lia|]. intros h.
  pose proof (Z.div_mod (Z.pos n * 2 ^ (- e)) (Z.pos d) ltac:(lia)) as D. pose proof (Z.mod_pos_bound (Z.pos n * 2 ^ (- e)) (Z.pos d) ltac:(lia)) as B.
  rewrite <- Eq in D. set (t := (Z.pos n * 2 ^ (- e)) mod Z.pos d) in *. destruct (sticky_half _ _ B) as (S0 & S1 & S2 & S3). rewrite <- El in *.
  assert (2 ^ (e + 1073) = 2 * 2 ^ (e + 1072)) as P2 by (rewrite <- Z.pow_succ_r by lia; f_equal; lia).
  assert (Z.pos n * two1074 = 2 * (Z.pos n * 2 ^ (- e)) * 2 ^ (e + 1073)) as ->.
  { unfold two1074. rewrite (Z.mul_comm 2), <- !Z.mul_assoc, <- Z.pow_succ_r, <- Z.pow_add_r by lia. do 2 f_equal. lia. }
  rewrite D. replace (h * 2 ^ (e + 1073) * Z.pos d) with (h * Z.pos d * 2 ^ (e + 1073)) by lia.
  replace (h * 2 ^ (e + 1073)) with (2 * h * 2 ^ (e + 1072)) by lia. rewrite <- !Zmult_compare_compat_r by lia.
  assert (forall a b c d, (a < b <-> c < d) -> (a = b <-> c = d) -> (a ?= b) = (c ?= d)) as Same.
  { intros a b c c'. destruct (Z.compare_spec a b), (Z.compare_spec c c'); try done; lia. }
  apply Same; clear -S0 S1 S2 S3 B Hs; (destruct (Z.lt_trichotomy h (2 * q + 1)) as [H|[->|H]]; [|nia|]); nia.
Qed.

Lemma Q2F_same n1 d1 n2 d2 :
  0 < n1 < 2 ^ 900 -> 0 < n2 < 2 ^ 900 -> Z.pos d1 < 2 ^ 900 -> Z.pos d2 < 2 ^ 900 -> n1 * Z.pos d2 = n2 * Z.pos d1 -> Q2F n1 d1 = Q2F n2 d2.
Proof.
  intros A1 A2 B1 B2 E. destruct (Q2F_stands n1 d1 A1 B1) as (m1 & g1 & (P1 & G1 & X1 & C1) & F1 & N1).
  destruct (Q2F_stands n2 d2 A2 B2) as (m2 & g2 & (P2 & G2 & X2 & C2) & F2 & N2).
  assert (forall g h, g1 <= g -> g2 <= g -> (m1 ?= h * 2 ^ g) = (m2 ?= h * 2 ^ g)) as C.
  { intros g h H1 H2. assert (forall k, 0 <= k <= g -> h * 2 ^ g = h * 2 ^ (g - k) * 2 ^ k) as S by (intros k Hk; rewrite <- Z.mul_assoc, <- Z.pow_add_r by lia; do 2 f_equal; lia).
    rewrite (S g1) at 1 by lia. rewrite C1. rewrite <- S by lia. rewrite (S g2) at 2 by lia. rewrite C2. rewrite <- S by lia.
    rewrite (Zmult_compare_compat_r _ _ (Z.pos d2)) by lia. rewrite (Zmult_compare_compat_r (n2 * two1074) _ (Z.pos d1)) by lia.
    f_equal; [|lia]. replace (n1 * two1074 * Z.pos d2) with (n1 * Z.pos d2 * two1074) by lia. rewrite E. lia. }
  assert (rne m1 = rne m2) as R.
  { destruct (Z.le_ge_cases g1 g2); [apply (rne_cell g2)|symmetry; apply (rne_cell g1)]; try done; intros h; [|symmetry]; apply C; lia. }
  assert (rnd m1 = rnd m2) as Er.
  { unfold rnd. rewrite !(proj2 (Z.ltb_ge _ 0)) by lia. by rewrite !rnd_pos_rne, R. }
  assert (forall x, 0 < frank x -> neg_zerob x = false) as NZ by (intros x; unfold frank, neg_zerob; destruct (Prim2SF x) as [[]| | |]; cbn; lia || done).
  pose proof (rnd_pos_strict m1 P1). pose proof (rnd_pos_strict m2 P2). apply frank_inj; try done; [apply NZ; lia..|congruence].
Qed.

(** A float above the least ones: its significand and its unit of the last place, with
    the half and the quarter of it. *)
Lemma significand R :
  2 <= excess R -> (exists k, R = k * 2 ^ excess R) ->
  exists k u, R = k * (4 * u) /\ 0 < u /\ 2 ^ 52 <= k < 2 ^ 53 /\ 2 ^ excess R = 4 * u /\ 2 ^ (excess R - 1) = 2 * u /\ 2 ^ (excess R - 2) = u.
Proof.
  intros HE [k Hk]. pose proof (excess_bounds R ltac:(lia)) as [B1 B2]. set (E := excess R) in *.
  assert (2 ^ E = 4 * 2 ^ (E - 2)) as P2 by (rewrite <- (Z.pow_add_r 2 2) by lia; f_equal; lia).
  assert (2 ^ (E - 1) = 2 * 2 ^ (E - 2)) as P1 by (rewrite <- Z.pow_succ_r by lia; f_equal; lia).
  pose proof (pow2_pos (E - 2) ltac:(lia)) as P. rewrite Z.pow_add_r in B1, B2 by lia.
  exists k, (2 ^ (E - 2)). split_and!; [lia|done| | |done|done|done].
  - rewrite Hk in B1. apply Z.mul_le_mono_pos_r in B1; lia.
  - rewrite Hk in B2. apply Z.mul_lt_mono_pos_r in B2; lia.
Qed.

Lemma excess_unique m E : 0 < E -> 2 ^ 52 * 2 ^ E <= m < 2 ^ 53 * 2 ^ E -> excess m = E.
Proof.
  intros H B. unfold excess. rewrite (Z.log2_unique m (52 + E)); [lia|lia|]. replace (Z.succ (52 + E)) with (53 + E) by lia. by rewrite !Z.pow_add_r by lia.
Qed.

(** The multiple of the unit within half of it is the rounded one. *)
Lemma rne_unit m E j : 0 <= m -> excess m = E -> 2 * Z.abs (m - j * 2 ^ E) < 2 ^ E -> rne m = j * 2 ^ E.
Proof.
  intros Hm Em H. destruct (rne_multiple m) as [i Hi]. pose proof (rne_error m (excess m) Hm (excess_nonneg m)) as Er. fold (rne m) in Er. rewrite Em in *.
  pose proof (pow2_pos E ltac:(pose proof (excess_nonneg m); lia)). assert (i = j); [|congruence]. generalize dependent (2 ^ E). intros u **. nia.
Qed.

(** A rank within half a unit of the last place of a float, or a quarter of it below a
    power of two, rounds to the float. *)
Lemma rne_nearest m R :
  2 <= excess R -> (exists k, R = k * 2 ^ excess R) -> m < R + 2 ^ (excess R - 1) ->
  (if R =? 2 ^ 52 * 2 ^ excess R then R - 2 ^ (excess R - 2) < m else R - 2 ^ (excess R - 1) < m) -> rne m = R.
Proof.
  intros HE HR. destruct (significand R HE HR) as (k & u & Hk & Hu & Bk & E2 & E1 & E0). set (E := excess R) in *. rewrite E2, E1, E0. intros U L.
  assert (2 ^ (E - 1) * 2 = 2 ^ E) as Eh by lia.
  destruct (Z.le_gt_cases (2 ^ 52 * (4 * u)) m) as [G|G].
  - assert (k * (4 * u) <= (2 ^ 53 - 1) * (4 * u)) by (apply Z.mul_le_mono_nonneg_r; lia).
    assert (rne m = k * 2 ^ E) as ->; [|lia]. apply rne_unit; [lia|apply excess_unique; lia|]. rewrite E2. destruct (R =? _); lia.
  - destruct (Z.eqb_spec R (2 ^ 52 * (4 * u))) as [ER|NR].
    + assert (rne m = 2 ^ 53 * 2 ^ (E - 1)) as ->; [|lia]. apply rne_unit; [lia|apply excess_unique; lia|]. rewrite E1. lia.
    + assert (k <> 2 ^ 52) by congruence. assert ((2 ^ 52 + 1) * (4 * u) <= k * (4 * u)) by (apply Z.mul_le_mono_nonneg_r; lia). lia.
Qed.

Lemma stands_compare n d m g t h : stands_for n d m g -> g <= t -> (m ?= h * 2 ^ t) = (n * two1074 ?= h * 2 ^ t * Z.pos d).
Proof.
  intros (_ & Hg & _ & C) Ht. replace (h * 2 ^ t) with (h * 2 ^ (t - g) * 2 ^ g); [apply C|].
  rewrite <- Z.mul_assoc, <- Z.pow_add_r by lia. do 2 f_equal. lia.
Qed.

Lemma positive_sign x : 0 < frank x -> neg_zerob x = false.
Proof. unfold frank, neg_zerob. by destruct (Prim2SF x) as [[]| | |]. Qed.

(** A quotient whose distance to a float is less than the float's [2^54]th part rounds to
    the float. *)
Lemma Q2F_nearest n d x :
  fin x = true -> 0 < n < 2 ^ 900 -> Z.pos d < 2 ^ 900 -> 2 <= excess (frank x) ->
  2 ^ 54 * Z.abs (n * two1074 - frank x * Z.pos d) < frank x * Z.pos d -> Q2F n d = x.
Proof.
  intros Fx Hn Hd HE C. pose proof (fin_not_nan x Fx) as Nx.
  assert (0 < frank x) as HR by (unfold excess in HE; destruct (Z.le_gt_cases (frank x) 0); [rewrite Z.log2_nonpos in HE; lia|done]).
  destruct (Q2F_stands n d Hn Hd) as (m & g & S & Fm & Nm). pose proof S as (Pm & Pg & Xm & _).
  destruct (significand (frank x) HE (rank_split x Nx HR)) as (k & u & Hk & Hu & Bk & E2 & E1 & E0).
  set (R := frank x) in *. set (E := excess R) in *. set (V := n * two1074) in *.
  assert (R <= (2 ^ 53 - 1) * (4 * u)) as Ru by (rewrite Hk; apply Z.mul_le_mono_nonneg_r; lia).
  assert (R * Z.pos d <= 2 ^ 55 * u * Z.pos d) as Rd by (apply Z.mul_le_mono_nonneg_r; lia).
  assert (V < (R + 2 * u) * Z.pos d) as VU by lia.
  assert (g + 1 <= E) as Hg.
  { destruct (Z.le_gt_cases (g + 1) E) as [|L]; [done|exfalso]. pose proof (excess_bounds m ltac:(lia)) as [M1 _].
    assert (2 ^ 53 * 2 ^ g <= m) as M2 by (etransitivity; [|exact M1]; rewrite <- Z.pow_add_r by lia; apply Z.pow_le_mono_r; lia).
    pose proof (stands_compare n d m g g (2 ^ 53) S ltac:(lia)) as Cg. fold V in Cg.
    assert (2 ^ E <= 2 ^ g) as Eg by (apply Z.pow_le_mono_r; lia). rewrite E2 in Eg.
    assert (2 ^ 53 * (4 * u) * Z.pos d <= 2 ^ 53 * 2 ^ g * Z.pos d) by (apply Z.mul_le_mono_nonneg_r; lia).
    assert ((R + 2 * u) * Z.pos d <= 2 ^ 53 * (4 * u) * Z.pos d) by (apply Z.mul_le_mono_nonneg_r; lia).
    destruct (Z.compare_spec m (2 ^ 53 * 2 ^ g)), (Z.compare_spec V (2 ^ 53 * 2 ^ g * Z.pos d)); try discriminate; lia. }
  assert (rne m = R) as Rm.
  { apply rne_nearest; [done|by apply rank_split|..]; fold E.
    - pose proof (stands_compare n d m g (E - 1) (2 * k + 1) S ltac:(lia)) as Cg. fold V in Cg. rewrite E1 in *.
      replace ((2 * k + 1) * (2 * u)) with (R + 2 * u) in Cg by lia.
      destruct (Z.compare_spec m (R + 2 * u)), (Z.compare_spec V ((R + 2 * u) * Z.pos d)); try discriminate; lia.
    - destruct (Z.eqb_spec R (2 ^ 52 * 2 ^ E)) as [ER|NR].
      + rewrite E0. destruct (Z.le_gt_cases R m) as [|Lm]; [lia|].
        assert (g <= E - 2) as Hg2.
        { destruct (Z.le_gt_cases g (E - 2)) as [|L]; [done|exfalso]. pose proof (excess_bounds m ltac:(lia)) as [M1 _].
          assert (2 ^ (52 + E) <= m) as M2 by (etransitivity; [|exact M1]; apply Z.pow_le_mono_r; lia). rewrite Z.pow_add_r in M2 by lia. lia. }
        pose proof (stands_compare n d m g (E - 2) (4 * k - 1) S Hg2) as Cg. fold V in Cg. rewrite E0 in *.
        replace ((4 * k - 1) * u) with (R - u) in Cg by lia.
        assert (R * Z.pos d = 2 ^ 54 * u * Z.pos d) by (rewrite ER, E2; lia).
        destruct (Z.compare_spec m (R - u)), (Z.compare_spec V ((R - u) * Z.pos d)); try discriminate; lia.
      + pose proof (stands_compare n d m g (E - 1) (2 * k - 1) S ltac:(lia)) as Cg. fold V in Cg. rewrite E1 in *.
        replace ((2 * k - 1) * (2 * u)) with (R - 2 * u) in Cg by lia.
        destruct (Z.compare_spec m (R - 2 * u)), (Z.compare_spec V ((R - 2 * u) * Z.pos d)); try discriminate; lia. }
  assert (rnd m = R) as Er.
  { unfold rnd. rewrite (proj2 (Z.ltb_ge _ 0)) by lia. rewrite rnd_pos_rne, Rm. apply Z.min_r. rewrite fin_rank in Fx. fold R in Fx.
    rewrite !andb_true_iff, !Z.ltb_lt in Fx. lia. }
  apply frank_inj; try done; [apply positive_sign; lia..|by rewrite Fm].
Qed.

(** ** Signs of products *)

Lemma sf_sign_rank x s : sf_sign x = Some s -> if s then sf_rank x <= 0 else 0 <= sf_rank x.
Proof.
  pose proof (pow2_pos 2098 ltac:(lia)).
  destruct x as [s'|s'| |s' m e]; cbn; intros; simplify_eq; destruct s; cbn; try lia;
    pose proof (Z.pow_nonneg 2 (e + 1074) ltac:(lia)); nia.
Qed.

(** A product of finite floats is a number, whose sign is that of its factors. *)
Lemma fmul_sign x y :
  fin x = true -> fin y = true ->
  is_nan (x * y)%float = false /\
  (frank x <= 0 -> frank y <= 0 -> 0 <= frank (x * y)%float) /\ (frank x <= 0 -> 0 <= frank y -> frank (x * y)%float <= 0).
Proof.
  rewrite !fin_sf, is_nan_sf. unfold frank. rewrite mul_spec. change (SF64mul (Prim2SF x) (Prim2SF y)) with (SFmul 53 1024 (Prim2SF x) (Prim2SF y)).
  pose proof (Prim2SF_valid x) as Vx. pose proof (Prim2SF_valid y) as Vy.
  destruct (Prim2SF x) as [s|s| |s m e], (Prim2SF y) as [s'|s'| |s' m' e']; try done. intros _ _.
  apply bounded_spec in Vx as (_ & Hx & _). apply bounded_spec in Vy as (_ & Hy & _).
  pose proof (pow2_pos (e + 1074) ltac:(lia)) as Px. pose proof (pow2_pos (e' + 1074) ltac:(lia)) as Py. cbn [SFmul].
  pose proof (binary_round_aux_sign (xorb s s') (Z.pos (m * m')) (e + e') loc_Exact ltac:(lia)) as S.
  rewrite sf_nan_sign, S. apply sf_sign_rank in S. split; [done|].
  cbn [sf_rank]. destruct s, s'; cbn [cond_Zopp xorb] in *; split; intros; try done; nia.
Qed.

(** ** Small quotients *)

Lemma shr_1_halves r : 0 <= shr_m r -> 2 * shr_m (shr_1 r) <= shr_m r.
Proof. destruct r as [[|[p|p|]|[]] ? ?]; cbn; lia. Qed.

Lemma shr_value r e n : 0 <= shr_m r -> e <= (shr r e n).2 /\ (shr r e n).2 = e + Z.max 0 n /\ shr_m (shr r e n).1 * 2 ^ Z.max 0 n <= shr_m r.
Proof.
  intros H. destruct n as [|p|p]; cbn [shr fst snd]; [change (Z.max 0 0) with 0; lia| |change (Z.max 0 (Z.neg p)) with 0; lia].
  split; [lia|]. split; [lia|].
  rewrite iter_pos_nat. replace (Z.max 0 (Z.pos p)) with (Z.of_nat (Pos.to_nat p)) by lia. induction (Pos.to_nat p) as [|k IH]; [change (shr_m r * 1 <= shr_m r); lia|].
  cbn [Nat.iter]. set (r' := Nat.iter k shr_1 r) in *.
  assert (0 <= shr_m r') as H'.
  { subst r'. clear IH. induction k as [|k IH]; [done|]. cbn. by apply shr_1_nonneg. }
  pose proof (shr_1_halves r' H'). rewrite Nat2Z.inj_succ, Z.pow_succ_r by lia. pose proof (Z.pow_nonneg 2 (Z.of_nat k) ltac:(lia)).
  etransitivity; [|exact IH]. rewrite Z.mul_assoc. apply Z.mul_le_mono_nonneg_r; [lia|]. change (Nat.iter (S k) shr_1 r) with (shr_1 r'). lia.
Qed.

Lemma digits_small m k : 0 <= m < 2 ^ k -> 0 <= k -> Zdigits2 m <= k.
Proof.
  intros H Hk. destruct m as [|p|p]; [done| |lia]. rewrite Zdigits2_log2 by lia.
  assert (Z.log2 (Z.pos p) < k) by (apply Z.log2_lt_pow2; lia). lia.
Qed.

Lemma shr_fexp_small m e l :
  0 <= m <= 2 ^ 54 -> e <= -800 ->
  let r := shr_fexp 53 1024 m e l in 0 <= shr_m r.1 <= m /\ r.2 <= Z.max (e + 2) (-1074) /\ shr_m r.1 * 2 ^ (r.2 - e) <= m /\ e <= r.2.
Proof.
  intros Hm He. unfold shr_fexp. set (n := fexp 53 1024 (Zdigits2 m + e) - e).
  assert (shr_m (shr_record_of_loc m l) = m) as R by (by destruct l as [|[]]).
  destruct (shr_value (shr_record_of_loc m l) e n ltac:(lia)) as (A & B & C). rewrite R in C.
  pose proof (shr_nonneg (shr_record_of_loc m l) e n ltac:(lia)) as D. cbn zeta.
  assert (n <= Z.max 2 (-1074 - e)) as N.
  { subst n. unfold fexp, emin. pose proof (digits_small m 55 ltac:(lia) ltac:(lia)). lia. }
  rewrite B. replace (e + Z.max 0 n - e) with (Z.max 0 n) by lia. pose proof (Z.pow_pos_nonneg 2 (Z.max 0 n) ltac:(lia) ltac:(lia)).
  split_and!; [done|nia|lia|done|lia].
Qed.

Lemma round_even_up m l : round_nearest_even m l <= m + 1.
Proof. destruct l as [|[]]; cbn; try lia. destruct (Z.even m); lia. Qed.

(** A significand of few digits at a small exponent rounds to a small number. *)
Lemma round_small q e l : 0 <= q <= 2 ^ 53 -> e <= -900 -> sf_rank (binary_round_aux 53 1024 false q e l) <= 2 ^ 1000.
Proof.
  intros Hq He. unfold binary_round_aux. destruct (shr_fexp_small q e l ltac:(lia) ltac:(lia)) as (A & B & C & D).
  destruct (shr_fexp 53 1024 q e l) as [mrs e']. cbn [fst snd] in *.
  pose proof (round_even_up (shr_m mrs) (loc_of_shr_record mrs)) as U.
  pose proof (round_nearest_even_nonneg (shr_m mrs) (loc_of_shr_record mrs) ltac:(lia)) as U0.
  set (m := round_nearest_even (shr_m mrs) (loc_of_shr_record mrs)) in *. clearbody m.
  destruct (shr_fexp_small m e' loc_Exact ltac:(lia) ltac:(lia)) as (A' & B' & _ & D').
  destruct (shr_fexp 53 1024 m e' loc_Exact) as [mrs' e'']. cbn [fst snd] in *.
  destruct (shr_m mrs') as [|p|p] eqn:E; [cbn; lia| |lia]. destruct (Z.leb_spec e'' (1024 - 53)); [|lia].
  cbn [sf_rank cond_Zopp]. transitivity (2 ^ 54 * 2 ^ (e'' + 1074)).
  - apply Z.mul_le_mono_nonneg_r; [apply Z.pow_nonneg; lia|]. lia.
  - destruct (Z.le_gt_cases 0 (e'' + 1074)); [|rewrite (Z.pow_neg_r 2 (e'' + 1074)); lia].
    rewrite <- Z.pow_add_r by lia. apply Z.pow_le_mono_r; lia.
Qed.

Lemma reciprocal_small y : fin y = true -> 2 ^ 1974 <= frank y -> is_nan (1 / y)%float = false /\ 0 <= frank (1 / y)%float <= 2 ^ 1000.
Proof.
  intros F R. destruct (fdiv_nonneg 1 y eq_refl (fin_not_nan _ F) ltac:(by vm_compute) ltac:(lia) (or_introl eq_refl)) as [N P].
  split; [done|]. split; [done|]. clear N P. destruct (positive_float y F ltac:(lia)) as (d & e2 & Ey & V).
  pose proof (bounded_spec _ _ V) as (Hd & He & Hn).
  revert R. unfold frank. rewrite div_spec, Ey. change (Prim2SF 1) with (S754_finite false 4503599627370496 (-52)). cbn [sf_rank cond_Zopp]. intros R.
  assert (847 <= e2) as He2.
  { destruct (Z.le_gt_cases 847 e2) as [|G]; [done|exfalso]. pose proof (Z.pow_le_mono_r 2 (e2 + 1074) 1920 ltac:(lia) ltac:(lia)).
    pose proof (pow2_pos (e2 + 1074) ltac:(lia)). nia. }
  assert (2 ^ 52 <= Z.pos d < 2 ^ 53) as Hd' by lia.
  assert (Zdigits2 (Z.pos d) = 53) as Dd.
  { rewrite Zdigits2_log2 by lia. assert (Z.log2 (Z.pos d) = 52) by (apply Z.log2_unique; lia). lia. }
  change (SF64div ?a ?b) with (SFdiv 53 1024 a b). cbn [SFdiv]. unfold SFdiv_core_binary. rewrite Dd.
  change (Zdigits2 4503599627370496) with 53.
  set (e' := Z.min _ _). set (s := -52 - e2 - e'). set (m' := match s with Z.pos _ => _ | Z0 => _ | Z.neg _ => _ end).
  assert (0 <= s <= 53 /\ e' <= -900) as [Hs He'].
  { subst s e'. unfold fexp, emin. lia. }
  assert (0 <= m' <= 2 ^ 105) as Hm.
  { subst m'. destruct s as [|p|p]; [lia| |lia]. rewrite Z.shiftl_mul_pow2 by lia.
    pose proof (Z.pow_le_mono_r 2 (Z.pos p) 53 ltac:(lia) ltac:(lia)). pose proof (Z.pow_nonneg 2 (Z.pos p) ltac:(lia)). nia. }
  pose proof (Z_div_mod m' (Z.pos d) ltac:(lia)) as Q. destruct (Z.div_eucl m' (Z.pos d)) as [q r]. destruct Q as [Q1 Q2].
  apply round_small; [nia|done].
Qed.

(** ** The shortest decimal of a float

    The text of a float names a decimal that reads back as the float: shown for the
    floats from 1 up to [2 ^ 53], whose text has no exponent. *)

Definition plain_range (x : float) : Prop := fin x = true /\ two1074 <= frank x < 2 ^ 53 * two1074.

(** The float of [w / 10^17]. *)
Definition scaled (w : Z) : float := Q2F w (Pos.pow 10 17).

Lemma pow10_pos p : Z.pos (Pos.pow 10 p) = 10 ^ Z.pos p.
Proof. by rewrite Pos2Z.inj_pow. Qed.

Lemma ten_pow k : 0 <= k -> 0 < 10 ^ k.
Proof. intros. by apply Z.pow_pos_nonneg. Qed.

Lemma ten_add a b : 0 <= a -> 0 <= b -> 10 ^ (a + b) = 10 ^ a * 10 ^ b.
Proof. intros. by apply Z.pow_add_r. Qed.

(** Decimals of one value are one float. *)
Lemma dec_scaled c k : 0 < c <= 10 ^ 40 -> -17 <= k <= 17 -> dec_to_float c k = scaled (c * 10 ^ (k + 17)).
Proof.
  intros Hc Hk. unfold dec_to_float, pow10, scaled. pose proof (ten_pow (k + 17) ltac:(lia)) as P.
  pose proof (Z.pow_le_mono_r 10 (k + 17) 34 ltac:(lia) ltac:(lia)) as P'. assert (10 ^ 40 * 10 ^ 34 < 2 ^ 900) as Big by (by vm_compute).
  assert (Z.pos (Pos.pow 10 17) < 2 ^ 900) as D17 by (by vm_compute).
  assert (c * 10 ^ (k + 17) <= 10 ^ 40 * 10 ^ 34) by (apply Z.mul_le_mono_nonneg; lia).
  assert (0 < c * 10 ^ (k + 17)) by (apply Z.mul_pos_pos; lia).
  destruct k as [|p|p].
  - apply Q2F_same; [lia..|done|rewrite pow10_pos; lia].
  - pose proof (ten_pow (Z.pos p) ltac:(lia)). assert (10 ^ Z.pos p <= 10 ^ (Z.pos p + 17)) by (apply Z.pow_le_mono_r; lia).
    assert (c * 10 ^ Z.pos p <= c * 10 ^ (Z.pos p + 17)) by (apply Z.mul_le_mono_nonneg_l; lia).
    apply Q2F_same; [split; [apply Z.mul_pos_pos; lia|lia]|lia|done|done|]. rewrite pow10_pos, ten_add by lia. lia.
  - rewrite Z.mul_1_r. assert (c < 2 ^ 900) by (assert (10 ^ 40 < 2 ^ 900) by (by vm_compute); lia).
    assert (Z.pos (Pos.pow 10 p) < 2 ^ 900).
    { rewrite pow10_pos. eapply Z.le_lt_trans; [apply (Z.pow_le_mono_r 10 (Z.pos p) 17); lia|by vm_compute]. }
    apply Q2F_same; [lia|lia|done|done|]. rewrite !pow10_pos, <- Z.mul_assoc, <- ten_add by lia. do 2 f_equal. lia.
Qed.

(** Stripping the zeros of a decimal keeps its value. *)
Lemma strip_zeros_value fuel c k : 0 < c -> let r := strip_zeros fuel c k in 0 < r.1 <= c /\ k <= r.2 /\ c = r.1 * 10 ^ (r.2 - k).
Proof.
  revert c k. induction fuel as [|fuel IH]; intros c k Hc; cbn [strip_zeros].
  { cbn. rewrite Z.sub_diag. lia. }
  destruct (Z.eqb_spec (c mod 10) 0) as [E|E]; [|cbn; rewrite Z.sub_diag; lia]. rewrite (proj2 (Z.eqb_neq c 0)) by lia. cbn [andb negb].
  pose proof (Z.div_mod c 10 ltac:(lia)) as D. destruct (IH (c / 10) (k + 1) ltac:(lia)) as (A & B & C). cbn zeta in *.
  destruct (strip_zeros fuel (c / 10) (k + 1)) as [c' k']. cbn [fst snd] in *. split_and!; [lia..|].
  replace (k' - k) with (1 + (k' - (k + 1))) by lia. rewrite ten_add by lia. lia.
Qed.

Section shortest.
Variable x : float.
Hypothesis range : plain_range x.

Lemma range_excess : 2 <= excess (frank x).
Proof.
  destruct range as [_ [B _]]. unfold excess. pose proof (Z.log2_le_mono _ _ B) as L. unfold two1074 in L. rewrite Z.log2_pow2 in L by lia. lia.
Qed.

(** The first power of ten above the float, from a place not above it. *)
Lemma exponent_up fuel k :
  0 <= k -> two1074 * 10 ^ k <= 10 * frank x -> frank x < two1074 * 10 ^ (k + Z.of_nat fuel) ->
  let r := dec_exponent fuel (frank x) two1074 k in 0 <= r /\ two1074 * 10 ^ r <= 10 * frank x /\ frank x < two1074 * 10 ^ r.
Proof.
  revert k. induction fuel as [|fuel IH]; intros k Hk Hl Hu; cbn [dec_exponent]; [rewrite Z.add_0_r in Hu; by cbn|].
  assert (pow10 k = (10 ^ k, 1%positive)) as -> by (destruct k; [done..|lia]). rewrite Z.mul_1_r.
  destruct (Z.ltb_spec (frank x) (two1074 * 10 ^ k)); [by cbn|]. apply IH; [lia| |].
  - rewrite ten_add by lia. lia.
  - replace (k + 1 + Z.of_nat fuel) with (k + Z.of_nat (S fuel)) by lia. done.
Qed.

(** The estimate of the exponent, of each binary exponent in the range. *)
Definition estimate (L : Z) : Z := L * 30103 / 100000 - 1.

Definition estimate_ok (L : Z) : bool :=
  let e := estimate L in
  if e <? 0 then (e =? -1) && (2 ^ (L + 1) <=? 10 ^ 4) else (10 ^ e <=? 10 * 2 ^ L) && (2 ^ (L + 1) <=? 10 ^ (e + 5)).

Lemma estimates : forallb estimate_ok (zrange 0 53) = true.
Proof. by vm_compute. Qed.

Lemma decimal_exponent :
  let k := dec_exponent 5 (frank x) two1074 ((Z.log2 (frank x) - 1074) * 30103 / 100000 - 1) in
  1 <= k <= 16 /\ two1074 * 10 ^ k <= 10 * frank x /\ frank x < two1074 * 10 ^ k.
Proof.
  destruct range as [_ [B1 B2]]. pose proof two1074_pos as T. set (L := Z.log2 (frank x) - 1074). change (L * 30103 / 100000 - 1) with (estimate L).
  assert (two1074 * 2 ^ L <= frank x < two1074 * 2 ^ (L + 1) /\ 0 <= L < 53) as (BL & HL).
  { pose proof (Z.log2_spec (frank x) ltac:(lia)) as S. pose proof (Z.log2_le_mono _ _ B1) as L1. unfold two1074 in L1. rewrite Z.log2_pow2 in L1 by lia.
    assert (Z.log2 (frank x) < 1127) by (apply Z.log2_lt_pow2; [lia|]; eapply Z.lt_le_trans; [exact B2|by vm_compute]).
    unfold two1074. rewrite <- !Z.pow_add_r by (unfold L; lia). unfold L. replace (1074 + (Z.log2 (frank x) - 1074)) with (Z.log2 (frank x)) by lia.
    replace (1074 + (Z.log2 (frank x) - 1074 + 1)) with (Z.succ (Z.log2 (frank x))) by lia. lia. }
  pose proof (zrange_forallb 0 53 estimate_ok estimates L HL) as E. unfold estimate_ok in E.
  pose proof (pow2_pos L ltac:(lia)). pose proof (pow2_pos (L + 1) ltac:(lia)).
  assert (let r := dec_exponent 5 (frank x) two1074 (estimate L) in 0 <= r /\ two1074 * 10 ^ r <= 10 * frank x /\ frank x < two1074 * 10 ^ r) as (K0 & K1 & K2).
  { destruct (Z.ltb_spec (estimate L) 0) as [N|N].
    - apply andb_true_iff in E as [E1%Z.eqb_eq E2%Z.leb_le]. rewrite E1. 
      change (dec_exponent 5 (frank x) two1074 (-1)) with (if frank x * 10 <? two1074 * 1 then -1 else dec_exponent 4 (frank x) two1074 0).
      rewrite (proj2 (Z.ltb_ge _ _)) by lia. apply exponent_up; [lia|change (10 ^ 0) with 1; lia|]. change (0 + Z.of_nat 4) with 4.
      eapply Z.lt_le_trans; [exact (proj2 BL)|]. apply Z.mul_le_mono_nonneg_l; lia.
    - apply andb_true_iff in E as [E1%Z.leb_le E2%Z.leb_le]. apply exponent_up; [done| |].
      + assert (two1074 * 10 ^ estimate L <= two1074 * (10 * 2 ^ L)) by (apply Z.mul_le_mono_nonneg_l; lia). lia.
      + eapply Z.lt_le_trans; [exact (proj2 BL)|]. apply Z.mul_le_mono_nonneg_l; [lia|done]. }
  cbn zeta. set (k := dec_exponent 5 (frank x) two1074 (estimate L)) in *. split; [|done]. split.
  - destruct (Z.le_gt_cases 1 k); [done|]. replace k with 0 in K2 by lia. change (10 ^ 0) with 1 in K2. lia.
  - destruct (Z.le_gt_cases k 16) as [|G]; [done|]. pose proof (Z.pow_le_mono_r 10 17 k ltac:(lia) ltac:(lia)).
    assert (two1074 * 10 ^ 17 <= two1074 * 10 ^ k) by (apply Z.mul_le_mono_nonneg_l; lia).
    assert (10 * (2 ^ 53 * two1074) < two1074 * 10 ^ 17) by lia. lia.
Qed.
End shortest.

(** What a candidate is: a decimal next to the float, that reads back as it. *)
Lemma candidate_spec x k n c e :
  plain_range x -> 1 <= k <= 16 -> two1074 * 10 ^ k <= 10 * frank x -> frank x < two1074 * 10 ^ k -> 1 <= n <= 17 ->
  repr_candidate x (frank x) two1074 k n = Some (c, e) -> e = k - n /\ dec_to_float c e = x /\ 10 ^ (n - 1) <= c <= 10 ^ n.
Proof.
  intros [Fx [B1 B2]] Hk K1 K2 Hn. pose proof two1074_pos as T. unfold repr_candidate.
  assert (forall c e, PrimFloat.eqb (dec_to_float c e) x = true -> dec_to_float c e = x) as Same.
  { intros c' e' H. rewrite eqb_rank, !andb_true_iff, !negb_true_iff, Z.eqb_eq in H. destruct H as [[N1 N2] E].
    apply frank_inj; try done; apply positive_sign; lia. }
  assert (exists a b, match k - n with Z.neg p => (frank x * 10 ^ Z.pos p, two1074) | _ => (frank x, two1074 * 10 ^ (k - n)) end = (a, b) /\
    0 < b /\ b * 10 ^ (n - 1) <= a < b * 10 ^ n) as (a & b & -> & Hb & Ha).
  { assert (two1074 * 10 ^ (k - 1) <= frank x) as K1' by (replace k with (k - 1 + 1) in K1 by lia; rewrite ten_add in K1 by lia; lia).
    destruct (Z.le_gt_cases 0 (k - n)) as [P|P].
    - exists (frank x), (two1074 * 10 ^ (k - n)). pose proof (ten_pow (k - n) P). rewrite <- !Z.mul_assoc, <- !ten_add by lia.
      replace (k - n + (n - 1)) with (k - 1) by lia. replace (k - n + n) with k by lia. split; [by destruct (k - n)|]. lia.
    - exists (frank x * 10 ^ (n - k)), two1074. pose proof (ten_pow (n - k) ltac:(lia)) as Pn. split; [|split; [done|]].
      + destruct (k - n) as [|p|p] eqn:E; [lia..|]. by replace (n - k) with (Z.pos p) by lia.
      + assert (10 ^ (n - 1) = 10 ^ (k - 1) * 10 ^ (n - k)) as -> by (rewrite <- ten_add by lia; f_equal; lia).
        assert (10 ^ n = 10 ^ k * 10 ^ (n - k)) as -> by (rewrite <- ten_add by lia; f_equal; lia). rewrite !Z.mul_assoc.
        split; [apply Z.mul_le_mono_nonneg_r; lia|apply Z.mul_lt_mono_pos_r; lia]. }
  assert (10 ^ (n - 1) <= a / b < 10 ^ n) as Q. { split. apply Z.div_le_lower_bound; lia. apply Z.div_lt_upper_bound; lia. }
  cbv zeta. set (c1 := if _ <=? b then _ else _). set (c2 := if _ <=? b then _ else _).
  assert (10 ^ (n - 1) <= c1 <= 10 ^ n /\ 10 ^ (n - 1) <= c2 <= 10 ^ n) as [Q1 Q2] by (unfold c1, c2; destruct (_ <=? b); lia).
  destruct (PrimFloat.eqb (dec_to_float c1 (k - n)) x) eqn:E1; [|destruct (PrimFloat.eqb (dec_to_float c2 (k - n)) x) eqn:E2; [|done]];
    intros [= <- <-]; (split_and!; [done|by apply Same|lia..]).
Qed.

(** Seventeen digits always do. *)
Lemma seventeen_digits x k :
  plain_range x -> 1 <= k <= 16 -> two1074 * 10 ^ k <= 10 * frank x -> frank x < two1074 * 10 ^ k ->
  repr_candidate x (frank x) two1074 k 17 <> None.
Proof.
  intros R Hk K1 K2. pose proof R as [Fx [B1 B2]]. pose proof two1074_pos as T. unfold repr_candidate.
  assert (match k - 17 with Z.neg p => (frank x * 10 ^ Z.pos p, two1074) | _ => (frank x, two1074 * 10 ^ (k - 17)) end = (frank x * 10 ^ (17 - k), two1074)) as ->.
  { destruct (k - 17) as [|p|p] eqn:E; [lia..|]. by replace (17 - k) with (Z.pos p) by lia. }
  set (a := frank x * 10 ^ (17 - k)). set (lo := a / two1074). set (near_lo := 2 * (a mod two1074) <=? two1074).
  assert (PrimFloat.eqb (dec_to_float (if near_lo then lo else lo + 1) (k - 17)) x = true) as ->; [|done].
  set (c := if near_lo then lo else lo + 1). pose proof (ten_pow (17 - k) ltac:(lia)) as P17.
  assert (two1074 * 10 ^ 16 <= a /\ a < two1074 * 10 ^ 17) as [A1 A2].
  { unfold a. split.
    - assert (10 * 10 ^ 16 = 10 ^ k * 10 ^ (17 - k)) as T16 by (rewrite <- ten_add by lia; replace (k + (17 - k)) with (1 + 16) by lia; by rewrite ten_add by lia).
      assert (two1074 * 10 ^ k * 10 ^ (17 - k) <= 10 * frank x * 10 ^ (17 - k)) by (apply Z.mul_le_mono_nonneg_r; lia).
      assert (two1074 * 10 ^ k * 10 ^ (17 - k) = two1074 * (10 * 10 ^ 16)) by (rewrite T16; apply eq_sym, Z.mul_assoc).
      assert (10 * frank x * 10 ^ (17 - k) = 10 * (frank x * 10 ^ (17 - k))) by (apply eq_sym, Z.mul_assoc). lia.
    - assert (10 ^ 17 = 10 ^ k * 10 ^ (17 - k)) as -> by (rewrite <- ten_add by lia; f_equal; lia). rewrite Z.mul_assoc. apply Z.mul_lt_mono_pos_r; lia. }
  pose proof (Z.div_mod a two1074 ltac:(lia)) as D. pose proof (Z.mod_pos_bound a two1074 T) as M. fold lo in D.
  assert (2 * Z.abs (c * two1074 - a) <= two1074) as N.
  { unfold c, near_lo. destruct (Z.leb_spec (2 * (a mod two1074)) two1074); lia. }
  assert (10 ^ 16 <= lo < 10 ^ 17) as L by (unfold lo; split; [by apply Z.div_le_lower_bound; lia|by apply Z.div_lt_upper_bound; lia]).
  assert (10 ^ 16 <= c <= 10 ^ 17) as Bc by (unfold c; destruct near_lo; lia).
  assert (dec_to_float c (k - 17) = x) as ->; [|rewrite eqb_rank, (fin_not_nan _ Fx), Z.eqb_refl; done].
  unfold dec_to_float, pow10. destruct (k - 17) as [|p|p] eqn:E; [lia..|]. assert (17 - k = Z.pos p) as Ep by lia.
  rewrite Z.mul_1_r. apply Q2F_nearest; [done| | |by apply range_excess|].
  - assert (10 ^ 17 < 2 ^ 900) by (by vm_compute). lia.
  - rewrite pow10_pos. eapply Z.le_lt_trans; [apply (Z.pow_le_mono_r 10 (Z.pos p) 17); lia|by vm_compute].
  - rewrite pow10_pos. rewrite <- Ep. fold a. clearbody a c lo. assert (2 ^ 53 < 10 ^ 16) by (by vm_compute).
    assert (two1074 * 2 ^ 53 < two1074 * 10 ^ 16) by (by apply Z.mul_lt_mono_pos_l). lia.
Qed.

(** The search ends with a candidate when there is one on its way. *)
Lemma search_finds fuel x num den k n n0 :
  n <= n0 < n + Z.of_nat fuel -> repr_candidate x num den k n0 <> None ->
  exists n', n <= n' <= n0 /\ repr_candidate x num den k n' = Some (repr_search fuel x num den k n).
Proof.
  revert n. induction fuel as [|fuel IH]; intros n Hn C; [lia|]. cbn [repr_search]. destruct (repr_candidate x num den k n) as [r|] eqn:E.
  - exists n. split; [lia|done].
  - destruct (Z.eq_dec n n0) as [->|]; [done|]. destruct (IH (n + 1)) as (n' & B & F); [lia|done|]. exists n'. split; [lia|done].
Qed.

(** A quotient of [2^53] and more is a float of as much. *)
Lemma scaled_large w : 2 ^ 53 * 10 ^ 17 <= w < 2 ^ 900 -> 2 ^ 53 * two1074 <= frank (scaled w).
Proof.
  intros H. unfold scaled. destruct (Q2F_rounds w (Pos.pow 10 17) ltac:(lia) ltac:(by vm_compute)) as (_ & L & _).
  specialize (L (Q2F (2 ^ 53) 1) eq_refl). assert (frank (Q2F (2 ^ 53) 1) = 2 ^ 53 * two1074) as E by (by vm_compute). rewrite E in L. apply L.
  rewrite pow10_pos. pose proof two1074_pos. replace (2 ^ 53 * two1074 * 10 ^ 17) with (2 ^ 53 * 10 ^ 17 * two1074) by lia.
  apply Z.mul_le_mono_nonneg_r; lia.
Qed.

(** The shortest decimal of a float in the range: its value, scaled, is in the range too,
    and its float is the float. *)
Lemma shortest_value x c k :
  plain_range x -> shortest x = (c, k) ->
  0 < c /\ -16 <= k /\ 10 ^ 17 <= c * 10 ^ (k + 17) < 2 ^ 53 * 10 ^ 17 /\ scaled (c * 10 ^ (k + 17)) = x.
Proof.
  intros R H. pose proof R as [Fx [B1 B2]]. pose proof two1074_pos as T. unfold shortest in H.
  assert (abs x = x) as Ax.
  { destruct (fabs_rank x) as [A N]. rewrite (fin_not_nan x Fx) in N. apply frank_inj; [done|by apply fin_not_nan|apply positive_sign; lia..|lia]. }
  rewrite Ax, Z.abs_eq in H by lia. cbv zeta in H. destruct (decimal_exponent x R) as (Hk & K1 & K2). cbn zeta in *.
  set (k0 := dec_exponent 5 _ _ _) in *. destruct (search_finds 17 x (frank x) two1074 k0 1 17 ltac:(lia) (seventeen_digits x k0 R Hk K1 K2)) as (n & Bn & S).
  destruct (repr_search 17 x (frank x) two1074 k0 1) as [c0 e]. destruct (candidate_spec x k0 n c0 e R Hk K1 K2 Bn S) as (-> & V & Bc).
  pose proof (ten_pow (n - 1) ltac:(lia)) as P1. pose proof (Z.pow_le_mono_r 10 n 17 ltac:(lia) ltac:(lia)) as P2.
  pose proof (strip_zeros_value 20 c0 (k0 - n) ltac:(lia)) as Z. rewrite H in Z. cbn zeta in Z. cbn [fst snd] in Z. destruct Z as (C1 & C2 & C3).
  assert (10 ^ 17 <= 10 ^ 40) by (apply Z.pow_le_mono_r; lia). rewrite dec_scaled in V by lia.
  assert (c * 10 ^ (k + 17) = c0 * 10 ^ (k0 - n + 17)) as W.
  { rewrite C3. replace (k + 17) with (k - (k0 - n) + (k0 - n + 17)) by lia. rewrite ten_add by lia. lia. }
  rewrite W. split_and!; [lia|lia| | |done].
  - transitivity (10 ^ (n - 1) * 10 ^ (k0 - n + 17)); [rewrite <- ten_add by lia; apply Z.pow_le_mono_r; lia|].
    apply Z.mul_le_mono_nonneg_r; [|lia]. pose proof (ten_pow (k0 - n + 17) ltac:(lia)). lia.
  - apply Z.nle_gt. intros L. assert (c0 * 10 ^ (k0 - n + 17) < 2 ^ 900).
    { eapply Z.le_lt_trans; [apply (Z.mul_le_mono_nonneg c0 (10 ^ 17) (10 ^ (k0 - n + 17)) (10 ^ 33))|by vm_compute]; [lia..| |apply Z.pow_le_mono_r; lia].
      pose proof (ten_pow (k0 - n + 17) ltac:(lia)). lia. }
    pose proof (scaled_large _ (conj L H1)) as S'. rewrite V in S'. lia.
Qed.
