(* ===== verification/PyVal.v ===== *)
(** * Python values

    The dynamically typed values the code receives and returns, with the
    built-in operations it applies to them: [isinstance] tests, truth value,
    [dict.get], [getattr], iteration, comparison and arithmetic with the
    [TypeError] of a wrong operand, string methods on ASCII text, [str] and
    [repr].

    Strings are byte strings holding UTF-8 text; case mapping and stripping act
    on ASCII characters. *)

From stdpp Require Import base list strings.
From Stdlib Require Import ZArith Lia Floats Ascii.
From S2P Require Import Prelude PyFloat PyNum.

Open Scope Z_scope.

Unset Elimination Schemes.
Inductive val :=
  | VNone
  | VBool (b : bool)
  | VInt (z : Z)
  | VFloat (f : float)
  | VStr (s : string)
  | VBytes (s : string)
  | VList (l : list val)
  | VTuple (l : list val)
  | VSet (l : list val)
  (** insertion-ordered dictionary *)
  | VDict (kvs : list (val * val))
  (** any other object: its attributes and its [str()] *)
  | VObj (attrs : list (string * val)) (shown : string).
Set Elimination Schemes.

Section val_ind.
Variable P : val -> Prop.
Hypothesis HNone : P VNone.
Hypothesis HBool : forall b, P (VBool b).
Hypothesis HInt : forall z, P (VInt z).
Hypothesis HFloat : forall f, P (VFloat f).
Hypothesis HStr : forall s, P (VStr s).
Hypothesis HBytes : forall s, P (VBytes s).
Hypothesis HList : forall l, Forall P l -> P (VList l).
Hypothesis HTuple : forall l, Forall P l -> P (VTuple l).
Hypothesis HSet : forall l, Forall P l -> P (VSet l).
Hypothesis HDict : forall l, Forall (fun kv => P kv.1 /\ P kv.2) l -> P (VDict l).
Hypothesis HObj : forall l s, Forall (fun kv => P kv.2) l -> P (VObj l s).

(** Structural induction that reaches inside containers. *)
Fixpoint val_ind (v : val) : P v :=
  let fix go l : Forall P l :=
    match l with
    | [] => @List.Forall_nil _ _
    | x :: l' => @List.Forall_cons _ _ x l' (val_ind x) (go l')
    end in
  let fix go_dict l : Forall (fun kv => P kv.1 /\ P kv.2) l :=
    match l with
    | [] => @List.Forall_nil _ _
    | kv :: l' => @List.Forall_cons _ _ kv l' (conj (val_ind kv.1) (val_ind kv.2)) (go_dict l')
    end in
  let fix go_attrs l : Forall (fun kv => P kv.2) l :=
    match l with
    | [] => @List.Forall_nil _ _
    | kv :: l' => @List.Forall_cons _ _ kv l' (val_ind kv.2) (go_attrs l')
    end in
  match v with
  | VNone => HNone
  | VBool b => HBool b
  | VInt z => HInt z
  | VFloat f => HFloat f
  | VStr s => HStr s
  | VBytes s => HBytes s
  | VList l => HList l (go l)
  | VTuple l => HTuple l (go l)
  | VSet l => HSet l (go l)
  | VDict l => HDict l (go_dict l)
  | VObj l s => HObj l s (go_attrs l)
  end.
End val_ind.

(** ** Strings *)

Definition is_space (c : ascii) : bool :=
  let n := Ascii.N_of_ascii c in
  ((9 <=? n) && (n <=? 13) || (28 <=? n) && (n <=? 32))%N%bool.

Fixpoint lstrip (s : string) : string :=
  match s with
  | String c s' => if is_space c then lstrip s' else s
  | EmptyString => EmptyString
  end.

Fixpoint rstrip (s : string) : string :=
  match s with
  | String c s' =>
      match rstrip s' with
      | EmptyString => if is_space c then EmptyString else String c EmptyString
      | t => String c t
      end
  | EmptyString => EmptyString
  end.

(** [s.strip()] *)
Definition strip (s : string) : string := rstrip (lstrip s).

Definition upper_char (c : ascii) : ascii :=
  let n := Ascii.N_of_ascii c in
  if ((97 <=? n) && (n <=? 122))%N%bool then Ascii.ascii_of_N (n - 32) else c.
Definition lower_char (c : ascii) : ascii :=
  let n := Ascii.N_of_ascii c in
  if ((65 <=? n) && (n <=? 90))%N%bool then Ascii.ascii_of_N (n + 32) else c.

Fixpoint str_map (f : ascii -> ascii) (s : string) : string :=
  match s with EmptyString => EmptyString | String c s' => String (f c) (str_map f s') end.

(** [s.upper()], [s.lower()] *)
Definition upper := str_map upper_char.
Definition lower := str_map lower_char.

Definition nonempty (s : string) : bool := match s with EmptyString => false | _ => true end.

(** [s in (t1, t2, ...)] *)
Definition str_in (s : string) (l : list string) : bool := existsb (String.eqb s) l.

Fixpoint str_contains_char (c : ascii) (s : string) : bool :=
  match s with EmptyString => false | String d s' => Ascii.eqb c d || str_contains_char c s' end.

Definition str_join (sep : string) (l : list string) : string := String.concat sep l.

(** ** Type tests, truth value, lookups *)

Definition is_str (v : val) : bool := match v with VStr _ => true | _ => false end.
Definition is_bool (v : val) : bool := match v with VBool _ => true | _ => false end.
Definition is_dict (v : val) : bool := match v with VDict _ => true | _ => false end.
Definition is_none (v : val) : bool := match v with VNone => true | _ => false end.
(** [isinstance(v, (int, float))]: a [bool] is an [int]. *)
Definition is_int_or_float (v : val) : bool :=
  match v with VBool _ | VInt _ | VFloat _ => true | _ => false end.

Definition as_num (v : val) : option num :=
  match v with
  | VBool b => Some (NInt (if b then 1 else 0))
  | VInt z => Some (NInt z)
  | VFloat f => Some (NFlt f)
  | _ => None
  end.

Definition of_num (n : num) : val :=
  match n with NInt z => VInt z | NFlt f => VFloat f end.

Definition truthy (v : val) : bool :=
  match v with
  | VNone => false
  | VBool b => b
  | VInt z => negb (z =? 0)
  | VFloat f => negb (PrimFloat.eqb f 0)
  | VStr s | VBytes s => nonempty s
  | VList l | VTuple l | VSet l => match l with [] => false | _ => true end
  | VDict l => match l with [] => false | _ => true end
  | VObj _ _ => true
  end.

(** [v or d] *)
Definition py_or (v d : val) : val := if truthy v then v else d.

Fixpoint assoc_str {A} (k : string) (l : list (string * A)) : option A :=
  match l with
  | [] => None
  | (k', v) :: l' => if String.eqb k k' then Some v else assoc_str k l'
  end.

(** The value bound to a string key. *)
Fixpoint dict_find (k : string) (l : list (val * val)) : option val :=
  match l with
  | [] => None
  | (VStr k', v) :: l' => if String.eqb k k' then Some v else dict_find k l'
  | _ :: l' => dict_find k l'
  end.

(** [d.get(k)] on a dictionary. *)
Definition dict_get (l : list (val * val)) (k : string) : val := default VNone (dict_find k l).

(** [d.get(k)] with [d = v if isinstance(v, dict) else {}]. *)
Definition vget (v : val) (k : string) : val :=
  match v with VDict l => dict_get l k | _ => VNone end.

(** [getattr(v, k, None)] *)
Definition vattr (v : val) (k : string) : val :=
  match v with VObj l _ => default VNone (assoc_str k l) | _ => VNone end.

Definition dict_set (l : list (val * val)) (k : string) (v : val) : list (val * val) :=
  (fix go l :=
     match l with
     | [] => [(VStr k, v)]
     | (VStr k', v') :: l' => if String.eqb k k' then (VStr k', v) :: l' else (VStr k', v') :: go l'
     | kv :: l' => kv :: go l'
     end) l.

(** [iter(v)]: the elements; a dictionary yields its keys, a string its
    characters. *)
Fixpoint str_chars (s : string) : list val :=
  match s with EmptyString => [] | String c s' => VStr (String c EmptyString) :: str_chars s' end.
Fixpoint byte_ints (s : string) : list val :=
  match s with
  | EmptyString => []
  | String c s' => VInt (Z.of_N (Ascii.N_of_ascii c)) :: byte_ints s'
  end.

Definition py_iter (v : val) : res (list val) :=
  match v with
  | VList l | VTuple l | VSet l => Ok l
  | VDict l => Ok (map fst l)
  | VStr s => Ok (str_chars s)
  | VBytes s => Ok (byte_ints s)
  | _ => Raise TypeError
  end.

(** ** Comparison and arithmetic on values *)

Definition str_ltb (s t : string) : bool :=
  match String.compare s t with Lt => true | _ => false end.
Definition str_leb (s t : string) : bool :=
  match String.compare s t with Gt => false | _ => true end.

(** [a < b], [a <= b] where one side is a number: any other operand raises. *)
Definition py_lt (a b : val) : res bool :=
  match as_num a, as_num b with
  | Some x, Some y => Ok (nltb x y)
  | _, _ => match a, b with VStr s, VStr t => Ok (str_ltb s t) | _, _ => Raise TypeError end
  end.
Definition py_le (a b : val) : res bool :=
  match as_num a, as_num b with
  | Some x, Some y => Ok (nleb x y)
  | _, _ => match a, b with VStr s, VStr t => Ok (str_leb s t) | _, _ => Raise TypeError end
  end.
Definition py_gt (a b : val) : res bool := py_lt b a.
Definition py_ge (a b : val) : res bool := py_le b a.

Definition py_arith (op : num -> num -> res num) (a b : val) : res val :=
  match as_num a, as_num b with
  | Some x, Some y => of_num <$> op x y
  | _, _ => Raise TypeError
  end.
Definition py_sub := py_arith nsub.
Definition py_mul := py_arith nmul.
Definition py_div := py_arith ndiv.
Definition py_add := py_arith nadd.

Definition py_abs (a : val) : res val :=
  match as_num a with Some x => Ok (of_num (nabs x)) | None => Raise TypeError end.

(** [math.isfinite(v)] *)
Definition py_isfinite (v : val) : res bool :=
  match as_num v with Some x => n_isfinite x | None => Raise TypeError end.

(** [float(v)] on a number. *)
Definition py_float (v : val) : res float :=
  match as_num v with Some x => n_float x | None => Raise TypeError end.

(** [int(v)] on a number. *)
Definition py_int (v : val) : res Z :=
  match as_num v with
  | Some (NInt z) => Ok z
  | Some (NFlt f) => f_int f
  | None => Raise TypeError
  end.

(** ** [repr] and [str] *)

Definition hex_digit (n : N) : ascii :=
  Ascii.ascii_of_N (if (n <? 10)%N then 48 + n else 87 + n)%N.

Definition hex2 (c : ascii) : string :=
  let n := Ascii.N_of_ascii c in
  String (hex_digit (n / 16)%N) (String (hex_digit (n mod 16)%N) EmptyString).

(** [bytes.hex()] *)
Fixpoint hex (s : string) : string :=
  match s with EmptyString => EmptyString | String c s' => hex2 c ++ hex s' end.

Fixpoint repr_body (quote : ascii) (in_bytes : bool) (s : string) : string :=
  match s with
  | EmptyString => EmptyString
  | String c s' =>
      let n := Ascii.N_of_ascii c in
      let e :=
        if Ascii.eqb c quote then String "\" (String c EmptyString)
        else if Ascii.eqb c "\" then "\\"%string
        else if (n =? 10)%N then "\n"%string
        else if (n =? 13)%N then "\r"%string
        else if (n =? 9)%N then "\t"%string
        else if ((n <? 32) || (n =? 127) || (in_bytes && (127 <? n)))%N%bool then ("\x" ++ hex2 c)%string
        else String c EmptyString in
      (e ++ repr_body quote in_bytes s')%string
  end.

Definition dquote : ascii := Ascii.ascii_of_N 34.

Definition repr_quoted (in_bytes : bool) (s : string) : string :=
  let q : ascii := if str_contains_char "'" s && negb (str_contains_char dquote s) then dquote else "'"%char in
  String q (repr_body q in_bytes s ++ String q EmptyString).

Fixpoint py_repr (v : val) : string :=
  match v with
  | VNone => "None"
  | VBool b => if b then "True" else "False"
  | VInt z => Z_str z
  | VFloat f => float_repr f
  | VStr s => repr_quoted false s
  | VBytes s => "b" ++ repr_quoted true s
  | VList l => "[" ++ str_join ", " (map py_repr l) ++ "]"
  | VTuple [x] => "(" ++ py_repr x ++ ",)"
  | VTuple l => "(" ++ str_join ", " (map py_repr l) ++ ")"
  | VSet [] => "set()"
  | VSet l => "{" ++ str_join ", " (map py_repr l) ++ "}"
  | VDict l => "{" ++ str_join ", " (map (fun kv => py_repr kv.1 ++ ": " ++ py_repr kv.2) l) ++ "}"
  | VObj _ s => s
  end%string.

Definition py_str (v : val) : string :=
  match v with VStr s => s | _ => py_repr v end.

(** ** Lemmas *)

Lemma py_lt_Ok a b r :
  py_lt a b = Ok r -> is_str a = false ->
  exists x y, as_num a = Some x /\ as_num b = Some y /\ r = nltb x y.
Proof.
  unfold py_lt. destruct (as_num a) eqn:Ea, (as_num b) eqn:Eb; intros H Hs;
    try (inv H; eauto; fail);
    destruct a; try discriminate; destruct b; discriminate.
Qed.

(** Comparing two floats. *)
Lemma py_le_flt x y : py_le (VFloat x) (VFloat y) = Ok (PrimFloat.leb x y).
Proof. unfold py_le. cbn [as_num]. by rewrite nleb_flt. Qed.

Lemma py_lt_flt x y : py_lt (VFloat x) (VFloat y) = Ok (PrimFloat.ltb x y).
Proof. unfold py_lt. cbn [as_num]. by rewrite nltb_flt. Qed.

Lemma str_in_In s l : str_in s l = true <-> In s l.
Proof.
  unfold str_in. rewrite existsb_exists. split.
  - intros (x & Hx & ->%String.eqb_eq). done.
  - intros H. exists s. split; [done|]. by apply String.eqb_refl.
Qed.

Lemma lstrip_idemp s : lstrip (lstrip s) = lstrip s.
Proof. induction s as [|c s IH]; [done|]. simpl. destruct (is_space c) eqn:E; [done|]. simpl. by rewrite E. Qed.

Lemma rstrip_nil_space c s : rstrip (String c s) = EmptyString -> is_space c = true.
Proof. simpl. destruct (rstrip s), (is_space c); intros H; congruence. Qed.

Lemma rstrip_idemp s : rstrip (rstrip s) = rstrip s.
Proof.
  induction s as [|c s IH]; [done|]. simpl. destruct (rstrip s) as [|d t] eqn:E.
  - destruct (is_space c) eqn:Ec; [done|]. simpl. by rewrite Ec.
  - cbn [rstrip]. cbn [rstrip] in IH. by rewrite IH.
Qed.

Lemma lstrip_rstrip_comm s : lstrip (rstrip (lstrip s)) = rstrip (lstrip s).
Proof.
  induction s as [|c s IH]; [done|]. cbn [lstrip]. destruct (is_space c) eqn:E; [done|].
  cbn [rstrip]. destruct (rstrip s) as [|d t]; rewrite ?E; simpl; by rewrite E.
Qed.

(** Stripping twice is stripping once. *)
Lemma strip_idemp s : strip (strip s) = strip s.
Proof. unfold strip. by rewrite lstrip_rstrip_comm, rstrip_idemp. Qed.

Lemma str_map_idemp f s : (forall c, f (f c) = f c) -> str_map f (str_map f s) = str_map f s.
Proof. intros Hf. induction s as [|c s IH]; [done|]. simpl. by rewrite Hf, IH. Qed.

Lemma upper_idemp s : upper (upper s) = upper s.
Proof. apply str_map_idemp. intros c. destruct c as [[] [] [] [] [] [] [] []]; reflexivity. Qed.

Lemma lower_idemp s : lower (lower s) = lower s.
Proof. apply str_map_idemp. intros c. destruct c as [[] [] [] [] [] [] [] []]; reflexivity. Qed.

Lemma lower_space c : is_space (lower_char c) = is_space c.
Proof. destruct c as [[] [] [] [] [] [] [] []]; reflexivity. Qed.
Lemma upper_space c : is_space (upper_char c) = is_space c.
Proof. destruct c as [[] [] [] [] [] [] [] []]; reflexivity. Qed.

Lemma strip_map f s :
  (forall c, is_space (f c) = is_space c) -> strip (str_map f s) = str_map f (strip s).
Proof.
  intros Hf. unfold strip. assert (lstrip (str_map f s) = str_map f (lstrip s)) as ->.
  { induction s as [|c s IH]; [done|]. simpl. rewrite Hf. by destruct (is_space c). }
  induction (lstrip s) as [|c t IH]; [done|]. simpl. rewrite IH, Hf.
  destruct (rstrip t); simpl; [by destruct (is_space c)|done].
Qed.

Create Rewrite HintDb pystr.
#[export] Hint Rewrite strip_idemp upper_idemp lower_idemp String.eqb_refl : pystr.

(** ** Dictionaries *)

Lemma dict_find_set l k v k' :
  dict_find k' (dict_set l k v) = if String.eqb k' k then Some v else dict_find k' l.
Proof.
  induction l as [|[x w] l IH].
  - unfold dict_set. cbn [dict_find]. done.
  - unfold dict_set in *. destruct x as [| | | |s| | | | | |]; cbn [dict_find]; try exact IH.
    destruct (String.eqb_spec k s) as [->|Hne]; cbn [dict_find].
    + by destruct (String.eqb k' s).
    + rewrite IH. destruct (String.eqb k' k) eqn:E; [|done].
      apply String.eqb_eq in E. subst k'. by rewrite (proj2 (String.eqb_neq _ _) Hne).
Qed.

Lemma dict_get_set_eq l k v : dict_get (dict_set l k v) k = v.
Proof. unfold dict_get. by rewrite dict_find_set, String.eqb_refl. Qed.

Lemma dict_get_set_ne l k v k' : k' <> k -> dict_get (dict_set l k v) k' = dict_get l k'.
Proof. intros H. unfold dict_get. rewrite dict_find_set. by rewrite (proj2 (String.eqb_neq _ _) H). Qed.

Lemma dict_set_nonempty l k v : dict_set l k v <> [].
Proof. destruct l as [|[[] ?] ?]; unfold dict_set; try done. by destruct (String.eqb k s). Qed.

(** A dictionary that binds a key is true. *)
Lemma truthy_dict_find l k v : dict_find k l = Some v -> truthy (VDict l) = true.
Proof. by destruct l. Qed.
