(* ===== verification/PyEnv.v ===== *)
(** * The process environment and its parsing

    [os.getenv] is a function from names to optional strings.  [int(s)] and
    [float(s)] on text are written out (signs, single underscores between
    digits, fractions, exponents, [inf]/[nan] spellings, the 4300-digit limit on
    integers), and the three resolvers every configuration of the service is
    built from are defined over them. *)

From stdpp Require Import base list strings.
From Stdlib Require Import ZArith Lia Floats Ascii.
From S2P Require Import Prelude PyFloat PyNum PyVal.

Open Scope Z_scope.

Definition env := string -> option string.

(** ** [int(s)] and [float(s)] *)

Definition digit_val (c : ascii) : option Z :=
  let n := Z.of_N (Ascii.N_of_ascii c) in
  if (48 <=? n) && (n <=? 57) then Some (n - 48) else None.

(** Reads a digit group [d(_?d)*] left to right: value, number of digits, rest.
    [prev] says whether the previous character was a digit. *)
Fixpoint read_digits (s : string) (acc : Z) (n : Z) (prev : bool) : Z * Z * bool * string :=
  match s with
  | EmptyString => (acc, n, prev, s)
  | String c s' =>
      match digit_val c with
      | Some d => read_digits s' (10 * acc + d) (n + 1) true
      | None =>
          if Ascii.eqb c "_" && prev then
            match s' with
            | String c' _ =>
                match digit_val c' with
                | Some _ => read_digits s' acc n false
                | None => (acc, n, false, s)
                end
            | EmptyString => (acc, n, false, s)
            end
          else (acc, n, prev, s)
      end
  end.

Definition split_sign (s : string) : bool * string :=
  match s with
  | String "-" s' => (true, s')
  | String "+" s' => (false, s')
  | _ => (false, s)
  end.

(** [int(s)] *)
Definition parse_int (s : string) : res Z :=
  let '(neg, body) := split_sign (strip s) in
  let '(v, n, _, rest) := read_digits body 0 0 false in
  if (n =? 0) || nonempty rest || (4300 <? n) then Raise ValueError
  else Ok (if neg then - v else v).

Definition float_special (s : string) : option float :=
  let t := lower s in
  if str_in t ["inf"; "infinity"]%string then Some infinity
  else if String.eqb t "nan" then Some nan
  else None.

(** The optional exponent part: [None] when malformed. *)
Definition parse_exponent (s : string) : option Z :=
  match s with
  | EmptyString => Some 0
  | String c s' =>
      if Ascii.eqb c "e" || Ascii.eqb c "E" then
        let '(neg, body) := split_sign s' in
        let '(v, n, _, rest) := read_digits body 0 0 false in
        if (n =? 0) || nonempty rest then None else Some (if neg then - v else v)
      else None
  end.

(** Significand and exponent of a finite literal. *)
Definition parse_decimal (s : string) : option (Z * Z) :=
  let '(v, n, _, rest) := read_digits s 0 0 false in
  match rest with
  | String "." rest' =>
      let '(v', n', _, rest'') := read_digits rest' v 0 false in
      if n + n' =? 0 then None
      else match parse_exponent rest'' with Some e => Some (v', e - n') | None => None end
  | _ =>
      if n =? 0 then None
      else match parse_exponent rest with Some e => Some (v, e) | None => None end
  end.

(** The float denoted by [c * 10^k], with the decimal exponent cut where every
    result is already zero or infinite. *)
Definition dec_literal (c k : Z) : float :=
  if c =? 0 then 0%float
  else if 400 <? k then infinity
  else if Z.log2 c + 3 * k <? - 1100 then 0%float
  else dec_to_float c k.

(** [float(s)] *)
Definition parse_float (s : string) : res float :=
  let '(neg, body) := split_sign (strip s) in
  let signed f := if neg then PrimFloat.opp f else f in
  match float_special body with
  | Some f => Ok (signed f)
  | None =>
      match parse_decimal body with
      | Some (c, k) => Ok (signed (dec_literal c k))
      | None => Raise ValueError
      end
  end.

Example parse_float_tests :
  map parse_float [" 1.5 "; "-2e3"; ".5"; "1_000.25"; "1e-3"; "nan"; "-Infinity"; "1e400"; "5."]%string
  = [Ok 1.5%float; Ok (-2000)%float; Ok 0.5%float; Ok 1000.25%float; Ok (Q2F 1 1000); Ok nan;
     Ok neg_infinity; Ok infinity; Ok 5%float].
Proof. vm_compute. reflexivity. Qed.

Example parse_bad_tests :
  (map parse_float ["abc"; ""; "1__0"; "1e"; "."; "_1"]%string,
   map parse_int ["12"; " -7 "; "+3"; "1_0"; "1.0"; ""; "1_"; "x"]%string)
  = (replicate 6 (Raise ValueError),
     [Ok 12; Ok (-7); Ok 3; Ok 10; Raise ValueError; Raise ValueError; Raise ValueError; Raise ValueError]).
Proof. vm_compute. reflexivity. Qed.

(** ** Resolvers *)

(** The stripped value of a variable, [None] when unset or blank. *)
Definition env_text (e : env) (name : string) : option string :=
  match e name with
  | None => None
  | Some raw => let t := strip raw in if nonempty t then Some t else None
  end.

(** [_resolve_int(env_name, default, low)] *)
Definition resolve_int_min (e : env) (name : string) (default low : Z) : Z :=
  match env_text e name with
  | None => default
  | Some t =>
      match parse_int t with
      | Raise _ => default
      | Ok v => if v <? low then default else v
      end
  end.

(** [_resolve_int_in_range(env_name, default, low, high)] *)
Definition resolve_int_range (e : env) (name : string) (default low high : Z) : Z :=
  match env_text e name with
  | None => default
  | Some t =>
      match parse_int t with
      | Raise _ => default
      | Ok v => if (v <? low) || (high <? v) then default else v
      end
  end.

(** [_resolve_float(env_name, default, low, high)]: unparseable, non-finite and
    out-of-band values fall back. *)
Definition resolve_float_band (e : env) (name : string) (default low high : float) : float :=
  match env_text e name with
  | None => default
  | Some t =>
      match parse_float t with
      | Raise _ => default
      | Ok v =>
          if negb (is_finite v) then default
          else if PrimFloat.ltb v low || PrimFloat.ltb high v then default
          else v
      end
  end%bool.

Definition true_tokens : list string := ["1"; "true"; "yes"; "on"]%string.
Definition false_tokens : list string := ["0"; "false"; "no"; "off"]%string.

(** [_resolve_bool(env_name, default)] *)
Definition resolve_bool_flag (e : env) (name : string) (default : bool) : bool :=
  match env_text e name with
  | None => default
  | Some t =>
      let token := lower t in
      if str_in token true_tokens then true
      else if str_in token false_tokens then false
      else default
  end.

(** ** The resolved value is always in its band *)

Lemma resolve_int_min_ge e name d low : low <= d -> low <= resolve_int_min e name d low.
Proof.
  intros H. unfold resolve_int_min. destruct (env_text e name) as [t|]; [|done].
  destruct (parse_int t) as [v|]; [|done]. destruct (Z.ltb_spec v low); lia.
Qed.

Lemma resolve_int_range_bounds e name d low high :
  low <= d <= high -> low <= resolve_int_range e name d low high <= high.
Proof.
  intros H. unfold resolve_int_range. destruct (env_text e name) as [t|]; [|done].
  destruct (parse_int t) as [v|]; [|done].
  destruct (Z.ltb_spec v low), (Z.ltb_spec high v); simpl; lia.
Qed.

(** Membership in a closed band of finite floats. *)
Definition in_band (low high x : float) : bool :=
  (fin x && PrimFloat.leb low x && PrimFloat.leb x high)%bool.

Lemma ltb_false_leb x y :
  is_nan x = false -> is_nan y = false -> PrimFloat.ltb x y = false -> PrimFloat.leb y x = true.
Proof.
  intros Hx Hy. rewrite ltb_rank, leb_rank, Hx, Hy. simpl.
  destruct (Z.ltb_spec (frank x) (frank y)); [discriminate|]. intros _. apply Z.leb_le. lia.
Qed.

Lemma is_finite_not_nan x : is_finite x = true -> is_nan x = false.
Proof. unfold is_finite. by destruct (is_nan x). Qed.

Lemma resolve_float_band_in e name d low high :
  is_nan low = false -> is_nan high = false ->
  in_band low high d = true -> in_band low high (resolve_float_band e name d low high) = true.
Proof.
  intros Hl Hh Hd. unfold resolve_float_band. destruct (env_text e name) as [t|]; [|done].
  destruct (parse_float t) as [v|]; [|done].
  destruct (is_finite v) eqn:Ef; [|done]. cbn [negb].
  destruct (PrimFloat.ltb v low) eqn:E1, (PrimFloat.ltb high v) eqn:E2; try done.
  cbn [orb]. unfold in_band, fin. pose proof (is_finite_not_nan v Ef).
  rewrite Ef. apply ltb_false_leb in E1, E2; try done. by rewrite E1, E2.
Qed.
