(* ===== verification/PyJson.v ===== *)
(** * JSON text: [json.dumps] and [json.loads]

    The standard library's encoder (separators, [sort_keys], [ensure_ascii],
    [default=str]) and decoder, as the code calls them.  Text is UTF-8; a lone
    surrogate, which a Python string may hold, is kept in its three-byte form.
    The interpreter's recursion limit is not modelled. *)

From stdpp Require Import base list strings.
From Stdlib Require Import ZArith Lia Floats Ascii.
From S2P Require Import Prelude PyFloat PyNum PyVal PyEnv.

#[local] Set Warnings "-inexact-float".
Open Scope Z_scope.

(** ** Code points *)

Definition byte_of (z : Z) : ascii := Ascii.ascii_of_N (Z.to_N z).
Definition code_of (c : ascii) : Z := Z.of_N (Ascii.N_of_ascii c).

(** UTF-8 bytes of a code point. *)
Definition utf8_encode (cp : Z) : string :=
  if cp <? 128 then String (byte_of cp) EmptyString
  else if cp <? 2048 then
    String (byte_of (192 + Z.shiftr cp 6)) (String (byte_of (128 + Z.land cp 63)) EmptyString)
  else if cp <? 65536 then
    String (byte_of (224 + Z.shiftr cp 12))
      (String (byte_of (128 + Z.land (Z.shiftr cp 6) 63)) (String (byte_of (128 + Z.land cp 63)) EmptyString))
  else
    String (byte_of (240 + Z.shiftr cp 18))
      (String (byte_of (128 + Z.land (Z.shiftr cp 12) 63))
        (String (byte_of (128 + Z.land (Z.shiftr cp 6) 63)) (String (byte_of (128 + Z.land cp 63)) EmptyString))).

(** The code points of a UTF-8 string; a malformed byte stands for itself. *)
Fixpoint utf8_decode (s : string) : list Z :=
  match s with
  | EmptyString => []
  | String a s1 =>
      let x := code_of a in
      if x <? 128 then x :: utf8_decode s1
      else match s1 with
      | EmptyString => [x]
      | String b s2 =>
          let y := Z.land (code_of b) 63 in
          if x <? 224 then Z.lor (Z.shiftl (Z.land x 31) 6) y :: utf8_decode s2
          else match s2 with
          | EmptyString => [x]
          | String c s3 =>
              let z := Z.land (code_of c) 63 in
              if x <? 240 then
                Z.lor (Z.shiftl (Z.land x 15) 12) (Z.lor (Z.shiftl y 6) z) :: utf8_decode s3
              else match s3 with
              | EmptyString => [x]
              | String d s4 =>
                  Z.lor (Z.shiftl (Z.land x 7) 18)
                    (Z.lor (Z.shiftl y 12) (Z.lor (Z.shiftl z 6) (Z.land (code_of d) 63)))
                    :: utf8_decode s4
              end
          end
      end
  end.

(** [len(s)] of a Python string. *)
Definition str_len (s : string) : Z := Z.of_nat (length (utf8_decode s)).

(** [s[:n]] *)
Definition str_take (n : nat) (s : string) : string := String.concat "" (map utf8_encode (take n (utf8_decode s))).

(** ** Encoding *)

Definition backslash : ascii := Ascii.ascii_of_N 92.

Definition hex4 (z : Z) : string :=
  let h i := hex_digit (Z.to_N (Z.land (Z.shiftr z i) 15)) in
  String (h 12) (String (h 8) (String (h 4) (String (h 0) EmptyString))).

Definition u_escape (z : Z) : string := String backslash (String "u" (hex4 z)).

Definition json_char (ascii_only : bool) (cp : Z) : string :=
  let esc c := String backslash (String c EmptyString) in
  if cp =? 34 then esc dquote
  else if cp =? 92 then esc backslash
  else if cp =? 10 then esc "n"%char
  else if cp =? 13 then esc "r"%char
  else if cp =? 9 then esc "t"%char
  else if cp =? 12 then esc "f"%char
  else if cp =? 8 then esc "b"%char
  else if cp <? 32 then u_escape cp
  else if negb ascii_only || (cp <? 127) then utf8_encode cp
  else if cp <? 65536 then u_escape cp
  else
    let v := cp - 65536 in
    (u_escape (Z.lor 55296 (Z.land (Z.shiftr v 10) 1023)) ++ u_escape (Z.lor 56320 (Z.land v 1023)))%string.

Definition json_str (ascii_only : bool) (s : string) : string :=
  String dquote (String.concat "" (map (json_char ascii_only) (utf8_decode s)) ++ String dquote EmptyString).

Definition json_float (f : float) : string :=
  if is_nan f then "NaN"
  else if is_infinity f then (if get_sign f then "-Infinity" else "Infinity")
  else float_repr f.

(** [int.__repr__], with the interpreter's 4300-digit limit. *)
Definition json_int (z : Z) : res string :=
  if 10 ^ 4300 <=? Z.abs z then Raise ValueError else Ok (Z_str z).

Record dumps_opts := {
  item_sep : string;
  key_sep : string;
  sort_keys : bool;
  ensure_ascii : bool;
  default_str : bool;
}.

Definition dumps_default : dumps_opts :=
  {| item_sep := ", "; key_sep := ": "; sort_keys := false; ensure_ascii := true; default_str := false |}.

Definition json_key (k : val) : res string :=
  match k with
  | VStr s => Ok s
  | VFloat f => Ok (json_float f)
  | VBool b => Ok (if b then "true" else "false")%string
  | VNone => Ok "null"%string
  | VInt z => json_int z
  | _ => Raise TypeError
  end.

Fixpoint insert_by {A} (ltb : A -> A -> bool) (x : A) (l : list A) : list A :=
  match l with
  | [] => [x]
  | y :: l' => if ltb x y then x :: l else y :: insert_by ltb x l'
  end.

(** Stable insertion sort, standing for [sorted]. *)
Definition sort_by {A} (ltb : A -> A -> bool) (l : list A) : list A :=
  fold_left (fun acc x => insert_by ltb x acc) l [].

Lemma insert_by_perm {A} (ltb : A -> A -> bool) x l : insert_by ltb x l ≡ₚ x :: l.
Proof.
  induction l as [|y l IH]; cbn [insert_by]; [done|]. destruct (ltb x y); [done|]. rewrite IH. constructor.
Qed.

Lemma sort_by_perm {A} (ltb : A -> A -> bool) l : sort_by ltb l ≡ₚ l.
Proof.
  unfold sort_by. rewrite <- (app_nil_r l) at 2. generalize (@nil A) as acc.
  induction l as [|x l IH]; intros acc; cbn [fold_left]; [done|]. rewrite IH, insert_by_perm. symmetry.
  apply Permutation_middle.
Qed.

Definition str_keys (l : list (val * val)) : bool := forallb (fun kv => is_str kv.1) l.

Definition key_ltb (a b : string * string) : bool := str_ltb a.1 b.1.

(** [json.dumps].  Entries of a dictionary are rendered first and ordered by
    key after; [sort_keys] with keys that do not compare raises. *)
Fixpoint dumps (o : dumps_opts) (v : val) : res string :=
  match v with
  | VNone => Ok "null"%string
  | VBool b => Ok (if b then "true" else "false")%string
  | VInt z => json_int z
  | VFloat f => Ok (json_float f)
  | VStr s => Ok (json_str (ensure_ascii o) s)
  | VList l | VTuple l =>
      items ← (fix go l := match l with
                | [] => Ok []
                | x :: l' => s ← dumps o x; ss ← go l'; Ok (s :: ss)
                end) l;
      Ok ("[" ++ String.concat (item_sep o) items ++ "]")%string
  | VDict l =>
      if sort_keys o && negb (str_keys l) then Raise TypeError
      else
        items ← (fix go l := match l with
                  | [] => Ok []
                  | (k, x) :: l' =>
                      k ← json_key k; s ← dumps o x; ss ← go l'; Ok ((k, s) :: ss)
                  end) l;
        let items := if sort_keys o then sort_by key_ltb items else items in
        Ok ("{" ++ String.concat (item_sep o)
              (map (fun '(k, s) => json_str (ensure_ascii o) k ++ key_sep o ++ s) items) ++ "}")%string
  | VBytes _ | VSet _ | VObj _ _ =>
      if default_str o then Ok (json_str (ensure_ascii o) (py_str v)) else Raise TypeError
  end.

Example dumps_tests :
  (dumps dumps_default (VDict [(VStr "b", VList [VInt 1; VFloat 0.5; VNone]); (VStr "a", VBool true)]),
   dumps {| item_sep := ","; key_sep := ":"; sort_keys := true; ensure_ascii := false; default_str := false |}
     (VDict [(VStr "b", VTuple []); (VStr "a", VFloat infinity)]))
  = (Ok (String "{" (json_str true "b" ++ ": [1, 0.5, null], " ++ json_str true "a" ++ ": true}")),
     Ok (String "{" (json_str true "a" ++ ":Infinity," ++ json_str true "b" ++ ":[]}")))%string.
Proof. vm_compute. reflexivity. Qed.

Example json_str_tests :
  (json_str true (String (byte_of 226) (String (byte_of 130) (String (byte_of 185) EmptyString))),
   json_str true (utf8_encode 128512))
  = (String dquote (String backslash ("u20b9" ++ String dquote EmptyString)),
     String dquote (String backslash ("ud83d" ++ String backslash ("ude00" ++ String dquote EmptyString))))%string.
Proof. vm_compute. reflexivity. Qed.

(** ** Decoding *)

Definition is_ws (c : ascii) : bool :=
  let n := Ascii.N_of_ascii c in ((n =? 32) || (n =? 9) || (n =? 10) || (n =? 13))%N.

Fixpoint skip_ws (s : string) : string :=
  match s with String c s' => if is_ws c then skip_ws s' else s | EmptyString => s end.

Definition hex_val (c : ascii) : option Z :=
  let n := code_of c in
  if (48 <=? n) && (n <=? 57) then Some (n - 48)
  else if (97 <=? n) && (n <=? 102) then Some (n - 87)
  else if (65 <=? n) && (n <=? 70) then Some (n - 55)
  else None.

(** Four hexadecimal digits. *)
Definition read_hex4 (s : string) : option (Z * string) :=
  match s with
  | String a (String b (String c (String d s'))) =>
      match hex_val a, hex_val b, hex_val c, hex_val d with
      | Some w, Some x, Some y, Some z => Some (4096 * w + 256 * x + 16 * y + z, s')
      | _, _, _, _ => None
      end
  | _ => None
  end.

Definition simple_escape (c : ascii) : option ascii :=
  if Ascii.eqb c dquote then Some dquote
  else if Ascii.eqb c backslash then Some backslash
  else if Ascii.eqb c "/" then Some "/"%char
  else if Ascii.eqb c "b" then Some (byte_of 8)
  else if Ascii.eqb c "f" then Some (byte_of 12)
  else if Ascii.eqb c "n" then Some (byte_of 10)
  else if Ascii.eqb c "r" then Some (byte_of 13)
  else if Ascii.eqb c "t" then Some (byte_of 9)
  else None.

(** A low surrogate escape right after a high one. *)
Definition read_low_surrogate (s : string) : option (Z * string) :=
  match s with
  | String a (String b s') =>
      if Ascii.eqb a backslash && Ascii.eqb b "u" then
        match read_hex4 s' with
        | Some (lo, s'') => if (56320 <=? lo) && (lo <=? 57343) then Some (lo, s'') else None
        | None => None
        end
      else None
  | _ => None
  end.

(** The rest of a string literal, after its opening quote. *)
Fixpoint read_string (fuel : nat) (s : string) : option (string * string) :=
  match fuel with
  | O => None
  | S fuel =>
      let push (t : string) (rest : string) :=
        match read_string fuel rest with Some (u, r) => Some ((t ++ u)%string, r) | None => None end in
      match s with
      | EmptyString => None
      | String c s' =>
          if Ascii.eqb c dquote then Some (EmptyString, s')
          else if Ascii.eqb c backslash then
            match s' with
            | EmptyString => None
            | String e s'' =>
                if Ascii.eqb e "u" then
                  match read_hex4 s'' with
                  | None => None
                  | Some (hi, rest) =>
                      if (55296 <=? hi) && (hi <=? 56319) then
                        match read_low_surrogate rest with
                        | Some (lo, rest') => push (utf8_encode (65536 + (Z.shiftl (hi - 55296) 10) + (lo - 56320))) rest'
                        | None => push (utf8_encode hi) rest
                        end
                      else push (utf8_encode hi) rest
                  end
                else match simple_escape e with
                     | Some d => push (String d EmptyString) s''
                     | None => None
                     end
            end
          else if code_of c <? 32 then None
          else push (String c EmptyString) s'
      end
  end.

(** Leading ASCII digits: value, count, rest. *)
Fixpoint read_plain_digits (s : string) (acc n : Z) : Z * Z * string :=
  match s with
  | String c s' =>
      match digit_val c with
      | Some d => read_plain_digits s' (10 * acc + d) (n + 1)
      | None => (acc, n, s)
      end
  | EmptyString => (acc, n, s)
  end.

(** A number literal: an optional minus sign, an integer part without leading
    zeros, an optional fraction and an optional exponent; a fraction or an
    exponent that does not fit the grammar is left unread. *)
Definition read_number (s : string) : res (option (val * string)) :=
  let '(neg, body) := match s with String "-" s' => (true, s') | _ => (false, s) end in
  let int_part :=
    match body with
    | String "0" r => Some (0, 1, r)
    | _ => let '(v, n, r) := read_plain_digits body 0 0 in if n =? 0 then None else Some (v, n, r)
    end in
  match int_part with
  | None => Ok None
  | Some (v, n, r) =>
      let '(c, k, frac, r1) :=
        match r with
        | String "." r' =>
            let '(v', n', r'') := read_plain_digits r' v 0 in
            if n' =? 0 then (v, 0, false, r) else (v', n', true, r'')
        | _ => (v, 0, false, r)
        end in
      let '(ex, has_ex, r2) :=
        match r1 with
        | String e r' =>
            if Ascii.eqb e "e" || Ascii.eqb e "E" then
              let '(eneg, eb) := split_sign r' in
              let '(ev, en, r'') := read_plain_digits eb 0 0 in
              if en =? 0 then (0, false, r1) else (if eneg then - ev else ev, true, r'')
            else (0, false, r1)
        | EmptyString => (0, false, r1)
        end in
      if frac || has_ex then
        let f := dec_literal c (ex - k) in
        Ok (Some (VFloat (if neg then PrimFloat.opp f else f), r2))
      else if 4300 <? n then Raise ValueError
      else Ok (Some (VInt (if neg then - v else v), r2))
  end.

Fixpoint strip_prefix (p s : string) : option string :=
  match p, s with
  | EmptyString, _ => Some s
  | String a p', String b s' => if Ascii.eqb a b then strip_prefix p' s' else None
  | _, _ => None
  end.

Definition json_words : list (string * val) :=
  [("null", VNone); ("true", VBool true); ("false", VBool false); ("NaN", VFloat nan);
   ("Infinity", VFloat infinity); ("-Infinity", VFloat neg_infinity)]%string.

Fixpoint read_word (ws : list (string * val)) (s : string) : option (val * string) :=
  match ws with
  | [] => None
  | (w, v) :: ws' => match strip_prefix w s with Some r => Some (v, r) | None => read_word ws' s end
  end.

(** One value and the text after it; every failure is a [ValueError]. *)
Fixpoint read_value (fuel : nat) (s : string) : res (val * string) :=
  match fuel with
  | O => Raise ValueError
  | S fuel =>
      match s with
      | EmptyString => Raise ValueError
      | String c s' =>
          if Ascii.eqb c dquote then
            match read_string (S (String.length s')) s' with
            | Some (t, r) => Ok (VStr t, r)
            | None => Raise ValueError
            end
          else if Ascii.eqb c "[" then
            match skip_ws s' with
            | String "]" r => Ok (VList [], r)
            | s1 => '(l, r) ← read_items fuel s1; Ok (VList l, r)
            end
          else if Ascii.eqb c "{" then
            match skip_ws s' with
            | String "}" r => Ok (VDict [], r)
            | s1 => '(l, r) ← read_members fuel s1 []; Ok (VDict l, r)
            end
          else match read_word json_words s with
               | Some vr => Ok vr
               | None =>
                   n ← read_number s;
                   match n with Some vr => Ok vr | None => Raise ValueError end
               end
      end
  end
with read_items (fuel : nat) (s : string) : res (list val * string) :=
  match fuel with
  | O => Raise ValueError
  | S fuel =>
      '(v, r) ← read_value fuel s;
      match skip_ws r with
      | String "," r' => '(l, r'') ← read_items fuel (skip_ws r'); Ok (v :: l, r'')
      | String "]" r' => Ok ([v], r')
      | _ => Raise ValueError
      end
  end
with read_members (fuel : nat) (s : string) (acc : list (val * val)) : res (list (val * val) * string) :=
  match fuel with
  | O => Raise ValueError
  | S fuel =>
      match s with
      | String q s' =>
          if Ascii.eqb q dquote then
            match read_string (S (String.length s')) s' with
            | None => Raise ValueError
            | Some (k, r) =>
                match skip_ws r with
                | String ":" r' =>
                    '(v, r'') ← read_value fuel (skip_ws r');
                    let acc' := dict_set acc k v in
                    match skip_ws r'' with
                    | String "," t => read_members fuel (skip_ws t) acc'
                    | String "}" t => Ok (acc', t)
                    | _ => Raise ValueError
                    end
                | _ => Raise ValueError
                end
            end
          else Raise ValueError
      | EmptyString => Raise ValueError
      end
  end.

(** [json.loads(s)]: every nested call consumes a character or ends a
    container, so twice the length is enough fuel. *)
Definition loads (s : string) : res val :=
  '(v, r) ← read_value (2 * String.length s + 2) (skip_ws s);
  if nonempty (skip_ws r) then Raise ValueError else Ok v.

Definition q (s : string) : string := json_str false s.

Example loads_tests :
  map loads [" {" ++ q "a" ++ ": [1, -2.5e1, true, null] , " ++ q "b" ++ ":{}, " ++ q "a" ++ ": 7}";
             "[1,]"; "01"; "1.5"; "NaN"; q "x" ++ " y"; "{" ++ q "a" ++ "}"; ""; "[[], [0]]"]%string
  = [Ok (VDict [(VStr "a", VInt 7); (VStr "b", VDict [])]); Raise ValueError; Raise ValueError;
     Ok (VFloat 1.5); Ok (VFloat nan); Raise ValueError; Raise ValueError; Raise ValueError;
     Ok (VList [VList []; VList [VInt 0]])].
Proof. vm_compute. reflexivity. Qed.

Example loads_dumps_test :
  let v := VDict [(VStr (utf8_encode 8377 ++ "x" ++ String (byte_of 10) EmptyString), VList [VInt (-12); VBool false]);
                  (VStr "k", VFloat 0.1)] in
  (s ← dumps dumps_default v; loads s) = Ok v.
Proof. vm_compute. reflexivity. Qed.
