(* ===== verification/PySort.v ===== *)
(** * Sorting

    What [sort_by] (Python's [sorted], SQL's [ORDER BY]) gives, for orders that are
    total on the elements at hand, and lists of consecutive integers. *)

From stdpp Require Import base list sorting strings.
From Stdlib Require Import ZArith Lia Ascii.
From S2P Require Import Prelude PyVal PyJson.

Open Scope Z_scope.

(** ** Strings, by code point *)

Lemma str_compare_refl s : String.compare s s = Eq.
Proof. pose proof (String.compare_antisym s s) as H. by destruct (String.compare s s). Qed.

Lemma str_ltb_irrefl s : str_ltb s s = false.
Proof. unfold str_ltb. by rewrite str_compare_refl. Qed.

Lemma str_ltb_total s t : str_ltb s t = false -> str_ltb t s = false -> s = t.
Proof.
  unfold str_ltb. rewrite (String.compare_antisym s t). destruct (String.compare t s) eqn:E; cbn; try done.
  intros _ _. by apply String.compare_eq_iff in E.
Qed.

Lemma ascii_compare_lt a b : Ascii.compare a b = Lt <-> (Ascii.N_of_ascii a < Ascii.N_of_ascii b)%N.
Proof. unfold Ascii.compare. by rewrite N.compare_lt_iff. Qed.

Lemma str_ltb_trans s t u : str_ltb s t = true -> str_ltb t u = true -> str_ltb s u = true.
Proof.
  unfold str_ltb. revert t u. induction s as [|a s IH]; intros [|b t] [|c u]; cbn [String.compare]; try done.
  destruct (Ascii.compare a b) eqn:E1, (Ascii.compare b c) eqn:E2; try done.
  - apply Ascii.compare_eq_iff in E1 as ->. rewrite E2. apply IH.
  - apply Ascii.compare_eq_iff in E1 as ->. by rewrite E2.
  - apply Ascii.compare_eq_iff in E2 as ->. by rewrite E1.
  - intros _ _. apply ascii_compare_lt in E1, E2. assert (Ascii.compare a c = Lt) as ->; [|done].
    apply ascii_compare_lt. by eapply N.lt_trans.
Qed.

(** ** Sorted lists *)

Section sort.
Context {A : Type} (ltb : A -> A -> bool) (P : A -> Prop).

(** [a] may stand before [b]. *)
Definition not_after (a b : A) : Prop := ltb b a = false.

Context (asym : forall a b, P a -> P b -> ltb a b = true -> ltb b a = false).
Context (le_trans : forall a b c, P a -> P b -> P c -> not_after a b -> not_after b c -> not_after a c).

Lemma insert_by_sorted_on x l :
  P x -> Forall P l -> StronglySorted not_after l -> StronglySorted not_after (insert_by ltb x l).
Proof.
  intros Px Pl H. induction H as [|y l Hl IH Hy]; [by repeat constructor|]. inversion Pl as [|? ? Py Pl']; subst. cbn [insert_by].
  destruct (ltb x y) eqn:E.
  - constructor; [by constructor|]. assert (not_after x y) as L by (by apply asym). constructor; [done|].
    rewrite Forall_forall in *. intros z Hz. by eapply le_trans; eauto.
  - constructor; [by apply IH|]. rewrite insert_by_perm. by constructor.
Qed.

Lemma sort_by_sorted_on l : Forall P l -> StronglySorted not_after (sort_by ltb l).
Proof.
  intros Pl. unfold sort_by.
  assert (forall acc, Forall P acc -> StronglySorted not_after acc ->
    StronglySorted not_after (fold_left (fun acc x => insert_by ltb x acc) l acc)) as H; [|apply H; constructor].
  induction Pl as [|x l Px Pl IH]; intros acc Pa Ha; [done|]. cbn. apply IH.
  - rewrite insert_by_perm. by constructor.
  - by apply insert_by_sorted_on.
Qed.

(** Sorting forgets the order of its input when no two different elements tie. *)
Lemma sort_by_unique l1 l2 :
  Forall P l1 -> l1 ≡ₚ l2 -> (forall x y, x ∈ l1 -> y ∈ l1 -> not_after x y -> not_after y x -> x = y) ->
  sort_by ltb l1 = sort_by ltb l2.
Proof.
  intros F E U. apply (StronglySorted_unique_strong not_after).
  - intros x y Hx Hy. rewrite (sort_by_perm ltb l1) in Hx. rewrite (sort_by_perm ltb l2), <- E in Hy. by apply U.
  - by apply sort_by_sorted_on.
  - apply sort_by_sorted_on. by rewrite <- E.
  - by rewrite !sort_by_perm.
Qed.
End sort.

(** The order by a number, then by a text. *)
Section lex.
Context {A : Type} (rank : A -> Z) (key : A -> string).

Definition lex_ltb (a b : A) : bool := (rank a <? rank b) || ((rank a =? rank b) && str_ltb (key a) (key b)).

Lemma lex_asym a b : lex_ltb a b = true -> lex_ltb b a = false.
Proof.
  unfold lex_ltb. rewrite orb_true_iff, orb_false_iff, andb_true_iff, Z.ltb_lt, Z.ltb_ge, Z.eqb_eq. intros [H|[H1 H2]]; split; try lia.
  destruct (str_ltb (key b) (key a)) eqn:E; [|by rewrite andb_false_r].
    pose proof (str_ltb_trans _ _ _ H2 E) as X. by rewrite str_ltb_irrefl in X.
Qed.

Lemma lex_le_trans a b c : not_after lex_ltb a b -> not_after lex_ltb b c -> not_after lex_ltb a c.
Proof.
  unfold not_after, lex_ltb. rewrite !orb_false_iff, !Z.ltb_ge. intros [H1 H2] [H3 H4]. split; [lia|].
  destruct (Z.eqb_spec (rank c) (rank a)) as [E|]; [|done]. replace (rank b) with (rank a) in * by lia. rewrite E, Z.eqb_refl in *. cbn in *.
  destruct (str_ltb (key c) (key a)) eqn:X; [|done]. destruct (str_ltb (key a) (key b)) eqn:Y.
  - by rewrite (str_ltb_trans _ _ _ X Y) in H4.
  - pose proof (str_ltb_total _ _ H2 Y) as K. congruence.
Qed.

Lemma lex_tie a b : not_after lex_ltb a b -> not_after lex_ltb b a -> key a = key b.
Proof.
  unfold not_after, lex_ltb. rewrite !orb_false_iff, !Z.ltb_ge. intros [H1 H2] [H3 H4]. replace (rank b) with (rank a) in * by lia.
  rewrite Z.eqb_refl in *. by apply str_ltb_total.
Qed.
End lex.

Lemma filter_sorted {A} (R : A -> A -> Prop) (p : A -> bool) l : StronglySorted R l -> StronglySorted R (List.filter p l).
Proof.
  induction 1 as [|x l Hl IH Hx]; [constructor|]. cbn. destruct (p x); [|done]. constructor; [done|].
  rewrite Forall_forall in *. intros y Hy. apply Hx. apply list_elem_of_In, filter_In in Hy as [Hy _]. by apply list_elem_of_In.
Qed.

Lemma map_sorted {A B} (R : A -> A -> Prop) (S : B -> B -> Prop) (f : A -> B) l :
  (forall a b, R a b -> S (f a) (f b)) -> StronglySorted R l -> StronglySorted S (map f l).
Proof.
  intros H. induction 1 as [|x l Hl IH Hx]; cbn; constructor; [done|]. apply Forall_map. by eapply Forall_impl; [exact Hx|auto].
Qed.

Lemma zrange_lookup lo n i z : zrange lo n !! i = Some z <-> z = lo + Z.of_nat i /\ (i < n)%nat.
Proof.
  unfold zrange. rewrite list_lookup_fmap. split.
  - destruct (seq 0 n !! i) eqn:E; [|done]. cbn. intros [= <-]. apply lookup_seq in E as [-> ?]. by split.
  - intros [-> H]. rewrite (proj2 (lookup_seq 0 n i i)); [done|]. by split.
Qed.

Lemma zrange_S lo n : zrange lo (S n) = lo :: zrange (lo + 1) n.
Proof.
  apply list_eq. intros i. destruct (zrange lo (S n) !! i) as [z|] eqn:E; symmetry.
  - apply zrange_lookup in E as [-> H]. destruct i as [|i]; cbn; [f_equal; lia|]. apply zrange_lookup. split; lia.
  - destruct i as [|i]; cbn.
    + assert (zrange lo (S n) !! 0%nat = Some lo) by (apply zrange_lookup; split; lia). congruence.
    + destruct (zrange (lo + 1) n !! i) as [z|] eqn:E2; [|done]. apply zrange_lookup in E2 as [-> H2].
      assert (zrange lo (S n) !! S i = Some (lo + Z.of_nat (S i))) by (apply zrange_lookup; split; lia). congruence.
Qed.

(** A strictly increasing list of the integers of an interval lists them all in order. *)
Lemma sorted_interval lo hi l :
  StronglySorted Z.lt l -> (forall n, In n l <-> lo < n <= hi) -> l = zrange (lo + 1) (Z.to_nat (hi - lo)).
Proof.
  revert lo. induction l as [|x l IH]; intros lo Hs Hl.
  - destruct (Z.leb_spec hi lo) as [L|L]; [by replace (Z.to_nat (hi - lo)) with O by lia|].
    exfalso. apply (proj2 (Hl (lo + 1))). lia.
  - inversion Hs as [|? ? Hs' Hx]; subst. assert (lo < x <= hi) as Bx by (apply Hl; by left).
    assert (x = lo + 1) as ->.
    { destruct (proj2 (Hl (lo + 1))) as [->|Hin]; [lia|done|]. rewrite Forall_forall in Hx.
      specialize (Hx (lo + 1) (proj2 (list_elem_of_In _ _) Hin)). lia. }
    replace (Z.to_nat (hi - lo)) with (S (Z.to_nat (hi - (lo + 1)))) by lia. rewrite zrange_S. f_equal.
    apply IH; [done|]. intros n. split.
    + intros Hin. assert (lo < n <= hi) by (apply Hl; by right). rewrite Forall_forall in Hx.
      specialize (Hx n (proj2 (list_elem_of_In _ _) Hin)). lia.
    + intros Hn. destruct (proj2 (Hl n)) as [<-|?]; [lia|lia|done].
Qed.

Lemma take_zrange k lo n : take k (zrange lo n) = zrange lo (Nat.min k n).
Proof.
  apply list_eq. intros i. destruct (zrange lo (Nat.min k n) !! i) as [z|] eqn:E.
  - apply zrange_lookup in E as [-> H]. rewrite lookup_take_lt by lia. apply zrange_lookup. split; [done|lia].
  - apply lookup_ge_None in E. apply lookup_ge_None. unfold zrange in *. rewrite length_map, length_seq in E.
    rewrite length_take, length_map, length_seq. lia.
Qed.

(** Lists in strictly increasing order of a number are equal when they have the same elements. *)
Lemma strictly_sorted_same {A} (f : A -> Z) l1 l2 :
  StronglySorted Z.lt (map f l1) -> StronglySorted Z.lt (map f l2) -> (forall x, In x l1 <-> In x l2) -> l1 = l2.
Proof.
  assert (forall l, StronglySorted Z.lt (map f l) -> NoDup l /\ StronglySorted (fun x y => f x < f y) l) as H.
  { induction l as [|x l IH]; [split; constructor|]. intros S. inversion S as [|? ? Sl Fl]; subst. destruct (IH Sl) as [N T].
    rewrite Forall_forall in Fl. assert (forall y, y ∈ l -> f x < f y) as B by (intros y Hy; by apply Fl, list_elem_of_fmap_2).
    split; constructor; [|done|done|by apply Forall_forall]. intros Hx. specialize (B x Hx). lia. }
  intros [N1 S1]%H [N2 S2]%H E. apply (StronglySorted_unique_strong (fun x y => f x < f y)); [lia|done|done|].
  apply NoDup_Permutation; [done|done|]. intros x. by rewrite !list_elem_of_In.
Qed.
