(* ===== verification/PyStr.v ===== *)
(** * Python string methods

    [str.split], [str.partition], [str.replace] and the character classes the agent's
    text handling uses, on UTF-8 bytes with ASCII classes. *)

From stdpp Require Import base list strings.
From Stdlib Require Import ZArith Lia Ascii.
From S2P Require Import Prelude PyVal PyJson.

Open Scope Z_scope.

(** [s.split(c)] on a one-character separator. *)
Fixpoint split_char (c : ascii) (s : string) : list string :=
  match s with
  | EmptyString => [EmptyString]
  | String x s' =>
      if Ascii.eqb x c then EmptyString :: split_char c s'
      else match split_char c s' with
           | w :: ws => String x w :: ws
           | [] => [String x EmptyString]
           end
  end.

(** [s.partition(c)]: before, whether the separator occurs, after. *)
Fixpoint partition_char (c : ascii) (s : string) : string * bool * string :=
  match s with
  | EmptyString => (EmptyString, false, EmptyString)
  | String x s' =>
      if Ascii.eqb x c then (EmptyString, true, s')
      else let '(a, found, b) := partition_char c s' in (String x a, found, b)
  end.

Definition is_digit (c : ascii) : bool := let n := code_of c in (48 <=? n) && (n <=? 57).
Definition is_upper (c : ascii) : bool := let n := code_of c in (65 <=? n) && (n <=? 90).
Definition is_lower (c : ascii) : bool := let n := code_of c in (97 <=? n) && (n <=? 122).
Definition is_letter (c : ascii) : bool := is_upper c || is_lower c.

Fixpoint str_all (p : ascii -> bool) (s : string) : bool :=
  match s with EmptyString => true | String c s' => p c && str_all p s' end.

(** The string without the occurrences of [c]. *)
Fixpoint drop_char (c : ascii) (s : string) : string :=
  match s with
  | EmptyString => EmptyString
  | String d s' => if Ascii.eqb c d then drop_char c s' else String d (drop_char c s')
  end.

(** Dictionaries with string keys, in insertion order. *)
Fixpoint upsert {A} (k : string) (f : option A -> A) (l : list (string * A)) : list (string * A) :=
  match l with
  | [] => [(k, f None)]
  | (k', v) :: l' => if String.eqb k k' then (k', f (Some v)) :: l' else (k', v) :: upsert k f l'
  end.

Lemma upsert_assoc {A} k (f : option A -> A) l k' :
  assoc_str k' (upsert k f l) = if String.eqb k' k then Some (f (assoc_str k l)) else assoc_str k' l.
Proof.
  induction l as [|[x v] l IH]; cbn [upsert assoc_str].
  - by destruct (String.eqb k' k).
  - destruct (String.eqb k x) eqn:E; cbn [assoc_str].
    + apply String.eqb_eq in E. subst x. by destruct (String.eqb k' k).
    + destruct (String.eqb k' x) eqn:E2; [|exact IH]. apply String.eqb_eq in E2. subst x.
      destruct (String.eqb k' k) eqn:E3; [|done]. apply String.eqb_eq in E3. subst k'. by rewrite String.eqb_refl in E.
Qed.

Lemma upsert_keys {A} k (f : option A -> A) l :
  map fst (upsert k f l) = if str_in k (map fst l) then map fst l else map fst l ++ [k].
Proof.
  unfold str_in. induction l as [|[x v] l IH]; [done|]. cbn [upsert map fst existsb].
  destruct (String.eqb k x) eqn:E; cbn [map fst orb]; [done|]. rewrite IH. by destruct (existsb (String.eqb k) (map fst l)).
Qed.

Lemma upsert_nodup {A} k (f : option A -> A) l : NoDup (map fst l) -> NoDup (map fst (upsert k f l)).
Proof.
  intros H. rewrite upsert_keys. destruct (str_in k (map fst l)) eqn:E; [done|].
  apply NoDup_app. split_and!; [done| |apply NoDup_singleton].
  intros x Hx ->%list_elem_of_singleton. apply list_elem_of_In, str_in_In in Hx. congruence.
Qed.

Lemma assoc_str_In {A} k (v : A) l : assoc_str k l = Some v -> In (k, v) l.
Proof.
  induction l as [|[x w] l IH]; cbn [assoc_str]; [done|]. destruct (String.eqb k x) eqn:E.
  - apply String.eqb_eq in E. subst x. intros [= ->]. by left.
  - intros H. right. by apply IH.
Qed.

Lemma assoc_str_nodup {A} k (v : A) l : NoDup (map fst l) -> In (k, v) l -> assoc_str k l = Some v.
Proof.
  induction l as [|[x w] l IH]; cbn [assoc_str map fst]; [done|]. intros [Hx Hl]%NoDup_cons [[= -> ->]|Hin].
  - by rewrite String.eqb_refl.
  - destruct (String.eqb k x) eqn:E; [|by apply IH]. apply String.eqb_eq in E. subst x.
    destruct Hx. apply list_elem_of_In. by apply (in_map fst) in Hin.
Qed.

Lemma assoc_str_None {A} k (l : list (string * A)) : assoc_str k l = None <-> ~ In k (map fst l).
Proof.
  induction l as [|[x w] l IH]; cbn [assoc_str map fst]; [split; [by intros _ []|done]|].
  destruct (String.eqb k x) eqn:E.
  - apply String.eqb_eq in E. subst x. split; [done|]. intros []. by left.
  - apply String.eqb_neq in E. rewrite IH. cbn. split; [intros H [->|?]; tauto|tauto].
Qed.

(** ** Lengths *)

Lemma str_length_app (s t : string) : String.length (s ++ t)%string = (String.length s + String.length t)%nat.
Proof. induction s as [|c s IH]; [done|]. exact (f_equal S IH). Qed.

Lemma concat_cons x l : String.concat "" (x :: l) = (x ++ String.concat "" l)%string.
Proof.
  destruct l as [|y l]; [|done]. induction x as [|c x IH]; [done|]. exact (f_equal (String c) IH).
Qed.

Lemma str_app_nil (s : string) : (s ++ "")%string = s.
Proof. induction s as [|c s IH]; [done|]. exact (f_equal (String c) IH). Qed.

Lemma str_app_assoc (s t u : string) : (s ++ (t ++ u))%string = ((s ++ t) ++ u)%string.
Proof. induction s as [|c s IH]; [done|]. exact (f_equal (String c) IH). Qed.

Lemma concat_app l1 l2 : String.concat "" (l1 ++ l2) = (String.concat "" l1 ++ String.concat "" l2)%string.
Proof. induction l1 as [|x l1 IH]; [done|]. cbn [app]. by rewrite !concat_cons, IH, str_app_assoc. Qed.

Lemma drop_char_app c (s t : string) : drop_char c (s ++ t)%string = (drop_char c s ++ drop_char c t)%string.
Proof.
  induction s as [|d s IH]; [done|]. change (String d s ++ t)%string with (String d (s ++ t)). cbn [drop_char]. rewrite IH.
  by destruct (Ascii.eqb c d).
Qed.

Lemma drop_char_length c s : (String.length (drop_char c s) <= String.length s)%nat.
Proof. induction s as [|d s IH]; [done|]. cbn [drop_char]. destruct (Ascii.eqb c d); cbn; lia. Qed.

(** A string has at most one code point per byte. *)
Lemma str_len_bytes s : str_len s <= Z.of_nat (String.length s).
Proof.
  unfold str_len. assert (forall n s, (String.length s <= n)%nat -> (length (utf8_decode s) <= String.length s)%nat) as H.
  { clear s. induction n as [|n IH]; intros s L; [by destruct s; cbn in *; lia|].
    destruct s as [|a s1]; [done|]. cbn [utf8_decode String.length] in *. cbv zeta.
    destruct (_ <? 128); [cbn [length]; specialize (IH s1); lia|].
    destruct s1 as [|b s2]; [done|]. cbn [String.length] in *. destruct (_ <? 224); [cbn [length]; specialize (IH s2); lia|].
    destruct s2 as [|c s3]; [cbn; lia|]. cbn [String.length] in *. destruct (_ <? 240); [cbn [length]; specialize (IH s3); lia|].
    destruct s3 as [|d s4]; [cbn; lia|]. cbn [String.length length] in *. specialize (IH s4). lia. }
  specialize (H _ s (le_n _)). lia.
Qed.
