(* ===== verification/PyTime.v ===== *)
(** * Dates, timestamps and time zones

    The proleptic Gregorian calendar of [datetime.date] as a bijection with day numbers
    (days since 1970-01-01), ISO dates, [datetime.fromtimestamp] and
    [datetime.timestamp] for an aware datetime.  A datetime is its wall clock in
    microseconds since 1970-01-01T00:00; a zone is the offsets the tz database gives. *)

From stdpp Require Import base list strings.
From Stdlib Require Import ZArith Lia Floats Ascii.
From S2P Require Import Prelude PyFloat PyNum PyVal PyEnv.

#[local] Set Warnings "-inexact-float".
Open Scope Z_scope.
Open Scope res_scope.

(** ** The civil calendar *)

Definition is_leap (y : Z) : bool := (y mod 4 =? 0) && (negb (y mod 100 =? 0) || (y mod 400 =? 0)).

Definition days_in_month (y m : Z) : Z :=
  if m =? 2 then (if is_leap y then 29 else 28)
  else if (m =? 4) || (m =? 6) || (m =? 9) || (m =? 11) then 30 else 31.

(** What [datetime.date(y, m, d)] accepts. *)
Definition valid_date (y m d : Z) : bool :=
  (1 <=? y) && (y <=? 9999) && (1 <=? m) && (m <=? 12) && (1 <=? d) && (d <=? days_in_month y m).

Definition era_days : Z := 146097.
Definition epoch_shift : Z := 719468.

(** Years and days of a 400-year era that starts on a first of March. *)
Definition year_start (yoe : Z) : Z := yoe * 365 + yoe / 4 - yoe / 100.
Definition day_of_year (m d : Z) : Z := (153 * ((m + 9) mod 12) + 2) / 5 + d - 1.

Definition days_from_civil (y m d : Z) : Z :=
  let y' := if m <=? 2 then y - 1 else y in y' / 400 * era_days + (year_start (y' mod 400) + day_of_year m d) - epoch_shift.

Definition flat_days (doe : Z) : Z := doe - doe / 1460 + doe / 36524 - doe / 146096.
Definition year_of_doe (doe : Z) : Z := flat_days doe / 365.

Definition month_day (doy : Z) : Z * Z :=
  let mp := (5 * doy + 2) / 153 in (if mp <? 10 then mp + 3 else mp - 9, doy - (153 * mp + 2) / 5 + 1).

Definition civil_from_days (z : Z) : Z * Z * Z :=
  let z := z + epoch_shift in
  let doe := z mod era_days in
  let yoe := year_of_doe doe in
  let '(m, d) := month_day (doe - year_start yoe) in
  let y := yoe + z / era_days * 400 in ((if m <=? 2 then y + 1 else y), m, d).

(** Monday is 0, as in [date.weekday()]. *)
Definition weekday (day : Z) : Z := (day + 3) mod 7.

(** Every year of an era, at its first and last day. *)
Definition year_ok (yoe : Z) : bool :=
  let last := if is_leap (yoe + 1) then 365 else 364 in
  (0 <=? year_start yoe) && (year_start yoe + last <? era_days) &&
  (year_of_doe (year_start yoe) =? yoe) && (year_of_doe (year_start yoe + last) =? yoe).

(** Every month and day. *)
Definition month_day_ok (m d : Z) : bool :=
  let doy := day_of_year m d in
  (days_in_month 4 m <? d) ||
  ((0 <=? doy) && (doy <=? 365) && ((doy <? 365) || ((m =? 2) && (d =? 29))) &&
   ((month_day doy).1 =? m) && ((month_day doy).2 =? d)).

Lemma years_checked : forallb year_ok (zrange 0 400) = true.
Proof. vm_compute. reflexivity. Qed.

Lemma months_checked : forallb (fun m => forallb (month_day_ok m) (zrange 1 31)) (zrange 1 12) = true.
Proof. vm_compute. reflexivity. Qed.

Lemma flat_days_step x : 0 <= x -> x + 1 < era_days -> flat_days x <= flat_days (x + 1).
Proof.
  unfold flat_days, era_days. intros H1 H2. destruct (Z.eq_dec (x + 1) 146096) as [E|E].
  - assert (x = 146095) as -> by lia. by vm_compute.
  - rewrite !(Z.div_small _ 146096) by lia.
    pose proof (Z.div_mod x 1460 ltac:(lia)). pose proof (Z.mod_pos_bound x 1460 ltac:(lia)).
    pose proof (Z.div_mod (x + 1) 1460 ltac:(lia)). pose proof (Z.mod_pos_bound (x + 1) 1460 ltac:(lia)).
    pose proof (Z.div_le_mono x (x + 1) 36524 ltac:(lia) ltac:(lia)). lia.
Qed.

Lemma flat_days_mono a n : 0 <= a -> a + Z.of_nat n < era_days -> flat_days a <= flat_days (a + Z.of_nat n).
Proof.
  induction n as [|n IH]; intros Ha Hn; [by rewrite Z.add_0_r|].
  etransitivity; [apply IH; lia|]. replace (a + Z.of_nat (S n)) with (a + Z.of_nat n + 1) by lia. apply flat_days_step; lia.
Qed.

(** A day between the first and the last of a year is in that year. *)
Lemma year_of_doe_between yoe doy :
  0 <= yoe < 400 -> 0 <= doy -> doy <= (if is_leap (yoe + 1) then 365 else 364) ->
  0 <= year_start yoe + doy < era_days /\ year_of_doe (year_start yoe + doy) = yoe.
Proof.
  intros Hy Hd Hl. pose proof years_checked as C. apply (zrange_forallb 0 400) with (z := yoe) in C; [|lia].
  unfold year_ok in C. set (last := if is_leap (yoe + 1) then 365 else 364) in *. bools. split; [lia|].
  unfold year_of_doe in *.
  pose proof (flat_days_mono (year_start yoe) (Z.to_nat doy) ltac:(lia) ltac:(lia)) as M1.
  pose proof (flat_days_mono (year_start yoe + doy) (Z.to_nat (last - doy)) ltac:(lia) ltac:(lia)) as M2.
  rewrite Z2Nat.id in M1, M2 by lia. replace (year_start yoe + doy + (last - doy)) with (year_start yoe + last) in M2 by lia.
  apply (Z.div_le_mono _ _ 365 ltac:(lia)) in M1, M2. lia.
Qed.

Lemma days_in_month_era y k m : days_in_month (y + k * 400) m = days_in_month y m.
Proof.
  unfold days_in_month, is_leap.
  replace (y + k * 400) with (y + (k * 100) * 4) at 1 by lia. rewrite Z_mod_plus_full.
  replace (y + k * 400) with (y + (k * 4) * 100) at 1 by lia. rewrite Z_mod_plus_full.
  by rewrite Z_mod_plus_full.
Qed.

Lemma days_in_month_le y m : days_in_month y m <= 31.
Proof. unfold days_in_month. repeat case_match; lia. Qed.

Lemma month_day_inverse y m d :
  1 <= m <= 12 -> 1 <= d <= days_in_month y m ->
  0 <= day_of_year m d /\ day_of_year m d <= (if is_leap (if m <=? 2 then y else y + 1) then 365 else 364) /\
  month_day (day_of_year m d) = (m, d).
Proof.
  intros Hm Hd. pose proof (days_in_month_le y m).
  assert (days_in_month y m <= days_in_month 4 m /\ (days_in_month y m = 29 -> is_leap y = true)) as [L1 L2].
  { unfold days_in_month. change (is_leap 4) with true. destruct (m =? 2), (is_leap y); split; try lia; try done;
      destruct ((m =? 4) || (m =? 6) || (m =? 9) || (m =? 11)); lia. }
  pose proof months_checked as C. apply (zrange_forallb 1 12) with (z := m) in C; [|lia].
  apply (zrange_forallb 1 31) with (z := d) in C; [|lia]. unfold month_day_ok in C.
  rewrite (proj2 (Z.ltb_ge _ d)) in C by lia. cbn [orb] in C. destruct (month_day (day_of_year m d)) as [a b].
  cbn [fst snd] in C. bools. split_and!; [lia| |f_equal; lia].
  destruct (day_of_year m d <? 365) eqn:E; [destruct (is_leap (if m <=? 2 then y else y + 1)); lia|]. cbn [orb] in *. bools.
  assert (m = 2) as -> by lia. change (2 <=? 2) with true. cbn iota.
  rewrite L2; [lia|]. unfold days_in_month in *. cbn [Z.eqb Pos.eqb] in *. destruct (is_leap y); lia.
Qed.

(** A valid date is the date of its day. *)
Lemma civil_roundtrip y m d : valid_date y m d = true -> civil_from_days (days_from_civil y m d) = (y, m, d).
Proof.
  intros H. unfold valid_date in H. bools. unfold days_from_civil. set (y' := if m <=? 2 then y - 1 else y).
  pose proof (Z.mod_pos_bound y' 400 ltac:(lia)) as By. pose proof (Z.div_mod y' 400 ltac:(lia)) as Dy.
  assert (days_in_month (if m <=? 2 then y' mod 400 + 1 else y' mod 400) m = days_in_month y m) as E.
  { rewrite <- (days_in_month_era _ (y' / 400) m). f_equal. subst y'. destruct (m <=? 2); lia. }
  destruct (month_day_inverse (if m <=? 2 then y' mod 400 + 1 else y' mod 400) m d) as (D1 & D2 & D3); [lia|lia|].
  replace (if m <=? 2 then if m <=? 2 then y' mod 400 + 1 else y' mod 400 else (if m <=? 2 then y' mod 400 + 1 else y' mod 400) + 1)
    with (y' mod 400 + 1) in D2 by (destruct (m <=? 2); lia).
  destruct (year_of_doe_between _ _ By D1 D2) as (B & Y).
  unfold civil_from_days.
  replace (y' / 400 * era_days + (year_start (y' mod 400) + day_of_year m d) - epoch_shift + epoch_shift)
    with (year_start (y' mod 400) + day_of_year m d + y' / 400 * era_days) by lia.
  rewrite Z_mod_plus_full, Z.div_add, Z.mod_small, Z.div_small, Y by (unfold era_days in *; lia).
  replace (year_start (y' mod 400) + day_of_year m d - year_start (y' mod 400)) with (day_of_year m d) by lia. rewrite D3.
  subst y'. destruct (m <=? 2); f_equal; f_equal; lia.
Qed.

Example civil_tests :
  (days_from_civil 1970 1 1, days_from_civil 2025 1 15, civil_from_days 20103, weekday 20103) = (0, 20103, (2025, 1, 15), 2).
Proof. reflexivity. Qed.

(** ** ISO dates *)

(** [f"{z:0nd}"] for a non-negative [z]. *)
Definition pad_zeros (n : nat) (z : Z) : string :=
  let s := Z_digits z in (str_repeat "0" (n - String.length s) ++ s)%string.

Definition iso_date (y m d : Z) : string := (pad_zeros 4 y ++ "-" ++ pad_zeros 2 m ++ "-" ++ pad_zeros 2 d)%string.

(** ** Zones and timestamps *)

(** What the tz database says of a zone: the offset, in seconds, at a UTC second and at
    a wall-clock second. *)
Record zone := { off_utc : Z -> Z; off_wall : Z -> Z }.

Definition fixed_zone (offset : Z) : zone := {| off_utc := fun _ => offset; off_wall := fun _ => offset |}.

Definition us_per_second : Z := 1000000.
Definition us_per_day : Z := 86400 * us_per_second.

(** The wall clocks a datetime can hold: years 1 to 9999. *)
Definition in_datetime_range (us : Z) : bool :=
  (days_from_civil 1 1 1 * us_per_day <=? us) && (us <? days_from_civil 10000 1 1 * us_per_day).

(** [datetime.fromtimestamp(x, tz)]: the fraction is rounded half to even to a
    microsecond; every failure is one of the classes the callers catch together. *)
Definition fromtimestamp (z : zone) (x : float) : res Z :=
  seconds ← f_int x;
  fraction ← f_round ((x - Q2F seconds 1) * 1000000)%float;
  let utc := seconds * us_per_second + fraction in
  if negb (in_datetime_range utc) then Raise ValueError
  else
    let wall := utc + off_utc z (utc / us_per_second) * us_per_second in
    if in_datetime_range wall then Ok wall else Raise OverflowError.

(** [dt.timestamp()] of a wall clock and its offset, in microseconds. *)
Definition timestamp (wall offset : Z) : res float := int_truediv (wall - offset) us_per_second.

Definition wall_offset (z : zone) (wall : Z) : Z := off_wall z (wall / us_per_second) * us_per_second.

Definition day_of (wall : Z) : Z := wall / us_per_day.
Definition us_of_day (wall : Z) : Z := wall mod us_per_day.
Definition second_of_day (wall : Z) : Z := us_of_day wall / us_per_second.

Lemma us_of_day_bounds wall : 0 <= us_of_day wall < us_per_day.
Proof. unfold us_of_day. by apply Z.mod_pos_bound. Qed.

Lemma weekday_bounds day : 0 <= weekday day < 7.
Proof. unfold weekday. by apply Z.mod_pos_bound. Qed.

(** Midnight in Kolkata on 15 January 2025, and half past nine. *)
Example fromtimestamp_tests :
  (timestamp (20103 * us_per_day) (19800 * us_per_second), fromtimestamp (fixed_zone 19800) 1736913600%float) =
  (Ok 1736879400%float, Ok (20103 * us_per_day + 34200 * us_per_second)).
Proof. vm_compute. reflexivity. Qed.

(** ** The text of an ISO date *)

Definition no_space (c : ascii) : bool := negb (is_space c).

Fixpoint all_chars (p : ascii -> bool) (s : string) : bool :=
  match s with EmptyString => true | String c s' => p c && all_chars p s' end.

Lemma strip_id s : all_chars no_space s = true -> strip s = s.
Proof.
  intros H. unfold strip. assert (lstrip s = s) as ->.
  { destruct s as [|c s]; [done|]. cbn in H |- *. bools. unfold no_space in *. bools. by rewrite H. }
  induction s as [|c s IH]; [done|]. cbn in H |- *. unfold no_space in H. bools. rewrite IH by done.
  destruct s; [by rewrite H|done].
Qed.

Definition is_digit_char (c : ascii) : bool := match digit_val c with Some _ => true | None => false end.

(** *** Text without a character *)

Lemma char_app c s t : str_contains_char c (s ++ t) = str_contains_char c s || str_contains_char c t.
Proof.
  induction s as [|d s IH]; [done|]. change (String d s ++ t)%string with (String d (s ++ t)).
  cbn [str_contains_char]. by rewrite IH, orb_assoc.
Qed.

Lemma digits_lack_letters c fuel z acc :
  is_digit_char c = false -> str_contains_char c acc = false -> str_contains_char c (Z_digits_aux fuel z acc) = false.
Proof.
  intros Hc. revert z acc. induction fuel as [|fuel IH]; intros z acc Ha; [done|]. cbn [Z_digits_aux].
  assert (str_contains_char c (String (digit_char (z mod 10)) acc) = false) as Hd.
  { cbn. rewrite Ha, orb_false_r. apply Ascii.eqb_neq. intros ->. revert Hc.
    pose proof (Z.mod_pos_bound z 10 eq_refl) as B. set (d := z mod 10) in *. clearbody d.
    assert (d = 0 \/ d = 1 \/ d = 2 \/ d = 3 \/ d = 4 \/ d = 5 \/ d = 6 \/ d = 7 \/ d = 8 \/ d = 9) as
      [->|[->|[->|[->|[->|[->|[->|[->|[->| ->]]]]]]]]] by lia; done. }
  destruct (z / 10 =? 0); [exact Hd|by apply IH].
Qed.

Lemma Z_str_lacks c z : is_digit_char c = false -> Ascii.eqb c "-" = false -> str_contains_char c (Z_str z) = false.
Proof.
  intros Hc Hm. unfold Z_str, Z_digits. destruct (z <? 0); cbn [str_contains_char]; [rewrite Hm; cbn [orb]|];
    by apply digits_lack_letters.
Qed.


(** The printed field has its width, only digits, and reads back. *)
Definition field_ok (n : nat) (z : Z) : bool :=
  let s := pad_zeros n z in
  Nat.eqb (String.length s) n && all_chars is_digit_char s &&
  match parse_int s with Ok v => v =? z | Raise _ => false end.

Lemma years_printed : forallb (field_ok 4) (zrange 1970 (Z.to_nat 1030)) = true.
Proof. vm_compute. reflexivity. Qed.

Lemma days_printed : forallb (field_ok 2) (zrange 1 31) = true.
Proof. vm_compute. reflexivity. Qed.

Lemma digit_no_space c : is_digit_char c = true -> no_space c = true.
Proof. destruct c as [[] [] [] [] [] [] [] []]; vm_compute; done. Qed.

Lemma field_ok_spec n z : field_ok n z = true ->
  String.length (pad_zeros n z) = n /\ all_chars is_digit_char (pad_zeros n z) = true /\ parse_int (pad_zeros n z) = Ok z.
Proof.
  unfold field_ok. intros H. bools. split_and!; [by apply Nat.eqb_eq|done|].
  destruct (parse_int _); [|done]. bools. congruence.
Qed.

Lemma length2 s : String.length s = 2%nat -> exists a b, s = String a (String b EmptyString).
Proof. destruct s as [|a [|b [|]]]; try done. by exists a, b. Qed.

Lemma length4 s : String.length s = 4%nat -> exists a b c d, s = String a (String b (String c (String d EmptyString))).
Proof. destruct s as [|a [|b [|c [|d [|]]]]]; try done. by exists a, b, c, d. Qed.

(** An ISO date is ten characters, its fields read back and nothing is stripped. *)
Lemma iso_date_shape y m d :
  valid_date y m d = true -> 1970 <= y < 3000 ->
  strip (iso_date y m d) = iso_date y m d /\ String.length (iso_date y m d) = 10%nat /\
  String.substring 4 1 (iso_date y m d) = "-"%string /\ String.substring 7 1 (iso_date y m d) = "-"%string /\
  parse_int (String.substring 0 4 (iso_date y m d)) = Ok y /\
  parse_int (String.substring 5 2 (iso_date y m d)) = Ok m /\
  parse_int (String.substring 8 2 (iso_date y m d)) = Ok d.
Proof.
  intros V Hy. unfold valid_date in V. bools. pose proof (days_in_month_le y m).
  pose proof years_printed as Y. apply (zrange_forallb 1970 (Z.to_nat 1030)) with (z := y) in Y; [|lia].
  pose proof days_printed as D. pose proof D as M. apply (zrange_forallb 1 31) with (z := d) in D; [|lia].
  apply (zrange_forallb 1 31) with (z := m) in M; [|lia].
  apply field_ok_spec in Y as (Ly & Ay & Py), D as (Ld & Ad & Pd), M as (Lm & Am & Pm).
  unfold iso_date.
  destruct (length4 _ Ly) as (a & b & c & e & Ey), (length2 _ Lm) as (f & g & Em), (length2 _ Ld) as (h & i & Ed).
  rewrite Ey, Em, Ed in *. cbn [all_chars] in *. bools. split_and!; try done.
  apply strip_id.
  change (all_chars no_space (String a (String b (String c (String e (String "-" (String f (String g (String "-"
    (String h (String i EmptyString)))))))))) = true). cbn [all_chars].
  repeat match goal with H : is_digit_char ?c = true |- context [no_space ?c] => rewrite (digit_no_space c H) end.
  reflexivity.
Qed.
