(* ===== verification/SqlText.v ===== *)
(** * SQL text

    The escaping of [agents/deep-quant-loop/options.py] and [tools.py], which put values
    into single-quoted SQL literals, and a reader of the literals of a query. *)

From stdpp Require Import base list strings.
From Stdlib Require Import ZArith Lia Floats Ascii.
From S2P Require Import Prelude PyNum PyVal PyEnv PyTime.

Open Scope string_scope.

(** [s.replace(q, qq)] of the single quote. *)
Fixpoint escape_quotes (s : string) : string :=
  match s with
  | EmptyString => EmptyString
  | String c s' => if Ascii.eqb c "'" then String "'" (String "'" (escape_quotes s')) else String c (escape_quotes s')
  end.

Definition _escape_sql_literal : string -> string := escape_quotes.

Definition literal (s : string) : string := "'" ++ _escape_sql_literal s ++ "'".

(** ** Reading a query *)

(** Between literals, in one that holds [text] so far, or behind a quote that ends it
    unless another follows. *)
Inductive reading := Outside | Inside (text : string) | AtQuote (text : string).

(** The texts of the literals, in order; a literal that is not closed is none. *)
Fixpoint literals_from (r : reading) (s : string) : option (list string) :=
  match s, r with
  | EmptyString, Outside => Some []
  | EmptyString, AtQuote text => Some [text]
  | EmptyString, Inside _ => None
  | String c s', Outside => literals_from (if Ascii.eqb c "'" then Inside "" else Outside) s'
  | String c s', Inside text => literals_from (if Ascii.eqb c "'" then AtQuote text else Inside (text ++ String c "")) s'
  | String c s', AtQuote text =>
      if Ascii.eqb c "'" then literals_from (Inside (text ++ String c "")) s'
      else option_map (cons text) (literals_from Outside s')
  end.

Definition literals : string -> option (list string) := literals_from Outside.

Definition starts_quote (s : string) : bool := match s with String c _ => Ascii.eqb c "'" | EmptyString => false end.

Lemma app_char a c b : (a ++ String c "") ++ b = a ++ String c b.
Proof. induction a as [|d a IH]; [done|]. change (String d ((a ++ String c "") ++ b) = String d (a ++ String c b)). by rewrite IH. Qed.

Lemma app_nil a : a ++ "" = a.
Proof. induction a as [|d a IH]; [done|]. change (String d (a ++ "") = String d a). by rewrite IH. Qed.

Lemma literals_plain s rest : str_contains_char "'" s = false -> literals (s ++ rest) = literals rest.
Proof.
  unfold literals. induction s as [|c s IH]; [done|]. cbn [str_contains_char]. rewrite orb_false_iff, Ascii.eqb_sym. intros [Hc Hs].
  change (literals_from (if Ascii.eqb c "'" then Inside "" else Outside) (s ++ rest) = literals_from Outside rest). rewrite Hc. by apply IH.
Qed.

Lemma read_escaped text s rest : literals_from (Inside text) (escape_quotes s ++ String "'" rest) = literals_from (AtQuote (text ++ s)) rest.
Proof.
  revert text. induction s as [|c s IH]; intros text.
  - by rewrite app_nil.
  - cbn [escape_quotes]. destruct (Ascii.eqb_spec c "'") as [->|N].
    + change (literals_from (Inside (text ++ String "'" "")) (escape_quotes s ++ String "'" rest) = literals_from (AtQuote (text ++ String "'" s)) rest).
      by rewrite IH, app_char.
    + apply Ascii.eqb_neq in N.
      change (literals_from (if Ascii.eqb c "'" then AtQuote text else Inside (text ++ String c "")) (escape_quotes s ++ String "'" rest)
        = literals_from (AtQuote (text ++ String c s)) rest). by rewrite N, IH, app_char.
Qed.

Lemma app_assoc_str a b c : (a ++ b) ++ c = a ++ (b ++ c).
Proof. induction a as [|d a IH]; [done|]. change (String d ((a ++ b) ++ c) = String d (a ++ (b ++ c))). by rewrite IH. Qed.

(** A literal is read back as the text it was made of. *)
Lemma literals_literal s rest : starts_quote rest = false -> literals (literal s ++ rest) = option_map (cons s) (literals rest).
Proof.
  intros H. unfold literals, literal, _escape_sql_literal. rewrite !app_assoc_str.
  change (literals_from (Inside "") (escape_quotes s ++ String "'" rest) = option_map (cons s) (literals_from Outside rest)).
  rewrite read_escaped. destruct rest as [|c rest]; [done|]. cbn [starts_quote] in H. cbn [literals_from]. by rewrite H.
Qed.

(** A query that ends with its literal. *)
Lemma literals_last s : literals (literal s) = Some [s].
Proof. rewrite <- (app_nil (literal s)). by rewrite literals_literal. Qed.

Lemma literals_number z rest : literals (Z_str z ++ rest) = literals rest.
Proof. apply literals_plain. by apply Z_str_lacks. Qed.

Lemma literals_end s : str_contains_char "'" s = false -> literals s = Some [].
Proof. intros H. rewrite <- (app_nil s). by rewrite literals_plain. Qed.
