(* ===== verification/PyStats.v ===== *)
(** * Statistics over floats

    What the numeric modules share: CPython's [sum] of floats, the mean, [max] and
    [min] of a list, [x ** 2] and division with their exceptions, the trailing window
    of a list, finiteness tests, and the optional entries of a payload. *)

From stdpp Require Import base list strings.
From Stdlib Require Import ZArith Lia Floats.
From S2P Require Import Prelude PyFloat PyNum PyVal.

Open Scope Z_scope.
Open Scope res_scope.

(** ** [sum] *)

(** [sum()] over floats: CPython 3.12 keeps Neumaier's running compensation. *)
Fixpoint neumaier (s c : float) (l : list float) : float :=
  match l with
  | [] =>
      if negb (PrimFloat.eqb c 0) && fin c then (s + c)%float else s
  | x :: l' =>
      let t := (s + x)%float in
      let c' :=
        if PrimFloat.leb (PrimFloat.abs x) (PrimFloat.abs s)
        then (c + ((s - t) + x))%float
        else (c + ((x - t) + s))%float in
      neumaier t c' l'
  end.

Definition py_sum (l : list float) : val :=
  match l with
  | [] => VInt 0
  | x :: l' => VFloat (neumaier (0 + x)%float 0 l')
  end.

(** [sum(terms)] of a non-empty list of floats. *)
Definition float_sum (l : list float) : float := match py_sum l with VFloat f => f | _ => 0%float end.

(** [float(n)] of a length. *)
Definition f_of_nat (n : nat) : float := Q2F (Z.of_nat n) 1.

(** [sum(l) / len(l)] *)
Definition mean (l : list float) : float := (float_sum l / f_of_nat (length l))%float.

(** ** Elementwise operations *)

(** [x ** 2] *)
Definition square (x : float) : res float :=
  let y := (x * x)%float in if fin x && negb (fin y) then Raise OverflowError else Ok y.

(** [x / y] *)
Definition f_div (x y : float) : res float :=
  if PrimFloat.eqb y 0 then Raise ZeroDivisionError else Ok (x / y)%float.

(** [max(a, b)], [min(a, b)]: the first argument unless the second is beyond it. *)
Definition fmax2 (a b : float) : float := if PrimFloat.ltb a b then b else a.
Definition fmin2 (a b : float) : float := if PrimFloat.ltb b a then b else a.

Definition fmax_list (x : float) (l : list float) : float := fold_left fmax2 l x.
Definition fmin_list (x : float) (l : list float) : float := fold_left fmin2 l x.

(** [l[-n:]] for a positive [n]. *)
Definition last_n {A} (n : nat) (l : list A) : list A := drop (length l - n) l.

(** The values there are. *)
Definition somes {A} (l : list (option A)) : list A := omap id l.

(** A number that is neither a bool nor non-finite; an integer beyond the floats raises. *)
Definition finite_number (v : val) : res bool :=
  if is_int_or_float v && negb (is_bool v) then py_isfinite v else Ok false.

Definition clamp (value low high : float) : float :=
  if PrimFloat.ltb value low then low else if PrimFloat.ltb high value then high else value.

(** ** Payload entries *)

Definition exn_name (ex : exn) : string :=
  match ex with
  | ValueError => "ValueError" | TypeError => "TypeError" | OverflowError => "OverflowError"
  | ZeroDivisionError => "ZeroDivisionError" | KeyError => "KeyError" | IndexError => "IndexError"
  | AttributeError => "AttributeError" | SqliteError => "Error"
  | ImmutableFieldError => "ImmutableFieldError" | IdentityError => "IdentityError"
  end.

Definition opt_float (f : option float) : val := match f with Some x => VFloat x | None => VNone end.

Definition opt_field (k : string) (v : option string) : list (val * val) :=
  match v with Some s => [(VStr k, VStr s)] | None => [] end.

(** ** Facts *)

Lemma last_n_length {A} n (l : list A) : (n <= length l)%nat -> length (last_n n l) = n.
Proof. intros H. unfold last_n. rewrite length_drop. lia. Qed.

Lemma last_n_nonempty {A} n (l : list A) : (0 < n)%nat -> l <> [] -> last_n n l <> [].
Proof. intros Hn Hl E. apply (f_equal length) in E. unfold last_n in E. rewrite length_drop in E. destruct l; [done|]. cbn in E. lia. Qed.

Lemma last_n_In {A} n (l : list A) x : In x (last_n n l) -> In x l.
Proof. intros H. rewrite <- (firstn_skipn (length l - n) l). apply in_or_app. by right. Qed.

(** A clamped value is in its band, or is not a number. *)
Lemma clamp_in value low high :
  PrimFloat.leb low high = true -> is_nan (clamp value low high) = true \/
  (PrimFloat.leb low (clamp value low high) = true /\ PrimFloat.leb (clamp value low high) high = true).
Proof.
  intros Hlh. pose proof Hlh as Hr. rewrite leb_rank in Hr. apply andb_true_iff in Hr as [Hr Rk]. apply andb_true_iff in Hr as [Nl Nh].
  apply negb_true_iff in Nl, Nh.
  assert (PrimFloat.leb low low = true /\ PrimFloat.leb high high = true) as [Ll Lh].
  { rewrite !leb_rank, Nl, Nh. cbn. split; apply Z.leb_le; lia. }
  unfold clamp. destruct (PrimFloat.ltb value low) eqn:E1; [right; split; assumption|].
  destruct (PrimFloat.ltb high value) eqn:E2; [right; split; assumption|].
  destruct (is_nan value) eqn:Nv; [by left|right].
  rewrite ltb_rank in E1, E2. rewrite !leb_rank, Nl, Nh, Nv in *. cbn in *.
  apply Z.ltb_ge in E1, E2. split; apply Z.leb_le; lia.
Qed.

(** A bounded measure: absent, not a number, or in its band. *)
Definition in_band (low high : float) (o : option float) : Prop :=
  match o with Some x => is_nan x = true \/ (PrimFloat.leb low x = true /\ PrimFloat.leb x high = true) | None => True end.

Lemma clamp_band value low high : PrimFloat.leb low high = true -> in_band low high (Some (clamp value low high)).
Proof. apply clamp_in. Qed.

Lemma eqb_symm x y : PrimFloat.eqb x y = true -> PrimFloat.eqb y x = true.
Proof. rewrite !eqb_rank, !andb_true_iff, !Z.eqb_eq. intros [[? ?] ?]. by repeat split. Qed.

Lemma eqb_trans x y z : PrimFloat.eqb x y = true -> PrimFloat.eqb y z = true -> PrimFloat.eqb x z = true.
Proof. rewrite !eqb_rank, !andb_true_iff, !Z.eqb_eq. intros [[? ?] ?] [[? ?] ?]. repeat split; [done|done|lia]. Qed.
