(* ===== verification/JsonFacts.v ===== *)
(** * Reading back what was written

    Plain strings, integers and floats that [json.dumps] writes are read back by
    [json.loads]: the lemmas a round trip through JSON text needs, member by member.  The
    text of a float from 1 up to [2 ^ 53] is also read back by [float]. *)

From stdpp Require Import base list strings.
From Stdlib Require Import ZArith Lia Ascii Floats.
From S2P Require Import Prelude PyFloat PyRound PyNum PyQuot PyVal PyEnv PyJson PyStr.

#[local] Open Scope Z_scope.

(** ** Text of one byte per character *)

(** A printable ASCII character that needs no escape. *)
Definition plain (c : ascii) : bool :=
  let n := code_of c in (32 <=? n) && (n <? 127) && negb (n =? 34) && negb (n =? 92).

Definition is_ascii (c : ascii) : bool := code_of c <? 128.

Lemma byte_of_code c : byte_of (code_of c) = c.
Proof. unfold byte_of, code_of. by rewrite N2Z.id, ascii_N_embedding. Qed.

Lemma str_all_app p s t : str_all p (s ++ t)%string = str_all p s && str_all p t.
Proof. induction s as [|c s IH]; [done|]. change (String c s ++ t)%string with (String c (s ++ t)). cbn [str_all]. by rewrite IH, andb_assoc. Qed.

Lemma str_all_impl (p q : ascii -> bool) s : (forall c, p c = true -> q c = true) -> str_all p s = true -> str_all q s = true.
Proof. intros H. induction s as [|c s IH]; [done|]. cbn [str_all]. intros [Hc Hs]%andb_prop. by rewrite (H c Hc), IH. Qed.

Lemma plain_ascii c : plain c = true -> is_ascii c = true.
Proof. unfold plain, is_ascii. rewrite !andb_true_iff, !Z.ltb_lt. lia. Qed.

Lemma utf8_decode_ascii c s : is_ascii c = true -> utf8_decode (String c s) = code_of c :: utf8_decode s.
Proof. unfold is_ascii. intros H. cbn [utf8_decode]. cbv zeta. by rewrite H. Qed.

Lemma utf8_encode_ascii c : is_ascii c = true -> utf8_encode (code_of c) = String c "".
Proof. unfold is_ascii, utf8_encode. intros ->. by rewrite byte_of_code. Qed.

Lemma ascii_recoded s : str_all is_ascii s = true ->
  String.concat "" (map utf8_encode (utf8_decode s)) = s /\ forallb (fun cp => cp <? 128) (utf8_decode s) = true.
Proof.
  induction s as [|c s IH]; [done|]. cbn [str_all]. intros [Hc [E F]%IH]%andb_prop.
  rewrite utf8_decode_ascii by done. cbn [map forallb]. by rewrite concat_cons, E, F, utf8_encode_ascii, andb_true_r.
Qed.

Lemma json_char_plain c : plain c = true -> json_char true (code_of c) = String c "".
Proof. destruct c as [[] [] [] [] [] [] [] []]; vm_compute; done. Qed.

(** A plain string is written as it is, between quotes. *)
Lemma json_str_plain s : str_all plain s = true -> json_str true s = String dquote (s ++ String dquote "").
Proof.
  intros H. unfold json_str. f_equal. f_equal. induction s as [|c s IH]; [done|]. cbn [str_all] in H.
  apply andb_prop in H as [Hc Hs]. rewrite utf8_decode_ascii by by apply plain_ascii.
  cbn [map]. by rewrite concat_cons, json_char_plain, IH.
Qed.

Lemma json_str_ascii s : str_all plain s = true -> str_all is_ascii (json_str true s) = true.
Proof.
  intros H. rewrite json_str_plain by done. cbn [str_all]. rewrite str_all_app. cbn.
  by rewrite (str_all_impl plain is_ascii) by (done || apply plain_ascii).
Qed.

Lemma plain_reads c : plain c = true -> Ascii.eqb c dquote = false /\ Ascii.eqb c backslash = false /\ (code_of c <? 32) = false.
Proof. destruct c as [[] [] [] [] [] [] [] []]; vm_compute; done. Qed.

Lemma read_string_plain s r fuel :
  str_all plain s = true -> (String.length s < fuel)%nat -> read_string fuel (s ++ String dquote r) = Some (s, r).
Proof.
  revert fuel. induction s as [|c s IH]; intros fuel H L; (destruct fuel as [|fuel]; [cbn in L; lia|]); [done|].
  cbn [str_all String.length] in *. apply andb_prop in H as [(E1 & E2 & E3)%plain_reads Hs].
  change (String c s ++ String dquote r)%string with (String c (s ++ String dquote r)). cbn [read_string]. cbv zeta.
  rewrite E1, E2, E3, IH by (done || lia). done.
Qed.

(** ** Decimal digits *)

Lemma digit_val_char d : 0 <= d < 10 -> digit_val (digit_char d) = Some d.
Proof.
  intros H. apply (zrange_In 0 10) in H. cbn in H. by repeat (destruct H as [<-|H]; [done|]).
Qed.

Definition is_digit (d : Z) : Prop := 0 <= d < 10.

(** A text of digits, and the number it names. *)
Fixpoint digits (l : list Z) : string := match l with [] => "" | d :: l => String (digit_char d) (digits l) end.

Definition named_by (acc : Z) (l : list Z) : Z := fold_left (fun a d => 10 * a + d) l acc.

Lemma digits_app l l' : digits (l ++ l') = (digits l ++ digits l')%string.
Proof. induction l as [|d l IH]; [done|]. cbn. by rewrite IH. Qed.

Lemma digits_length l : String.length (digits l) = length l.
Proof. induction l as [|d l IH]; [done|]. cbn. by rewrite IH. Qed.

Lemma digits_zeros n : str_repeat "0" n = digits (replicate n 0).
Proof. induction n as [|n IH]; [done|]. cbn. by rewrite IH. Qed.

Lemma digits_take n l : PyNum.str_take n (digits l) = digits (take n l).
Proof. unfold PyNum.str_take. revert l. induction n as [|n IH]; intros [|d l]; try done. cbn. by rewrite IH. Qed.

Lemma digits_all l : String.substring 0 (String.length (digits l)) (digits l) = digits l.
Proof. induction l as [|d l IH]; [done|]. cbn. by rewrite IH. Qed.

Lemma digits_drop n l : str_drop n (digits l) = digits (drop n l).
Proof.
  unfold str_drop. revert l. induction n as [|n IH]; intros l; [rewrite Nat.sub_0_r; apply digits_all|]. destruct l as [|d l]; [done|]. apply IH.
Qed.

Lemma named_by_acc acc l : named_by acc l = acc * 10 ^ Z.of_nat (length l) + named_by 0 l.
Proof.
  revert acc. induction l as [|d l IH]; intros acc; [cbn; lia|]. cbn [named_by fold_left length]. change (fold_left _ l ?a) with (named_by a l).
  rewrite IH, (IH (10 * 0 + d)), Nat2Z.inj_succ, Z.pow_succ_r by lia. lia.
Qed.

Lemma named_by_app acc l l' : named_by acc (l ++ l') = named_by (named_by acc l) l'.
Proof. apply fold_left_app. Qed.

Lemma named_by_zeros acc n : named_by acc (replicate n 0) = acc * 10 ^ Z.of_nat n.
Proof.
  revert acc. induction n as [|n IH]; intros acc; [cbn; lia|]. cbn [replicate named_by fold_left]. change (fold_left _ ?l ?a) with (named_by a l).
  rewrite IH, Nat2Z.inj_succ, Z.pow_succ_r by lia. lia.
Qed.

Lemma named_by_bound l : Forall is_digit l -> 0 <= named_by 0 l < 10 ^ Z.of_nat (length l).
Proof.
  induction 1 as [|d l Hd _ IH]; [done|]. cbn [named_by fold_left length]. change (fold_left _ l ?a) with (named_by a l).
  rewrite named_by_acc, Nat2Z.inj_succ, Z.pow_succ_r by lia. unfold is_digit in Hd. nia.
Qed.

(** A number of digits whose first is not zero is not below the power they reach. *)
Lemma named_by_head h l : Forall is_digit (h :: l) -> h <> 0 -> 10 ^ Z.of_nat (length l) <= named_by 0 (h :: l).
Proof.
  intros H N. inversion H as [|? ? Hh Hl]; subst. cbn [named_by fold_left]. change (fold_left _ l ?a) with (named_by a l).
  rewrite named_by_acc. pose proof (named_by_bound l Hl). unfold is_digit in Hh. nia.
Qed.

Lemma Z_digits_aux_named fuel z acc :
  0 <= z < 2 ^ Z.of_nat fuel -> (0 < fuel)%nat ->
  exists h l, Z_digits_aux fuel z acc = (digits (h :: l) ++ acc)%string /\ Forall is_digit (h :: l) /\ named_by 0 (h :: l) = z /\ (h = 0 -> l = []).
Proof.
  revert z acc. induction fuel as [|fuel IH]; intros z acc Hz Hf; [lia|]. cbn [Z_digits_aux]. pose proof (Z.mod_pos_bound z 10 ltac:(lia)) as B.
  destruct (Z.eqb_spec (z / 10) 0) as [E|E].
  - assert (z < 10) by (apply Z.div_small_iff in E; lia). rewrite Z.mod_small in * by lia. exists z, []. split_and!; [done|by constructor|cbn; lia|done].
  - assert (0 <= z / 10 < 2 ^ Z.of_nat fuel) as Bd.
    { split; [apply Z.div_pos; lia|]. rewrite Nat2Z.inj_succ, Z.pow_succ_r in Hz by lia. apply Z.div_lt_upper_bound; lia. }
    assert (0 < fuel)%nat by (destruct fuel; [cbn in Bd; lia|lia]).
    destruct (IH (z / 10) (String (digit_char (z mod 10)) acc) Bd) as (h & l & -> & F & V & Hh); [lia|].
    exists h, (l ++ [z mod 10]). change (h :: l ++ [z mod 10]) with ((h :: l) ++ [z mod 10]). split_and!.
    + rewrite digits_app, <- str_app_assoc. done.
    + apply Forall_app. split; [done|by constructor].
    + rewrite named_by_app, V. cbn. pose proof (Z.div_mod z 10 ltac:(lia)). lia.
    + intros ->. rewrite (Hh eq_refl) in V. cbn in V. lia.
Qed.

Lemma Z_digits_named z :
  0 <= z -> exists h l, Z_digits z = digits (h :: l) /\ Forall is_digit (h :: l) /\ named_by 0 (h :: l) = z /\ (h = 0 -> l = []).
Proof.
  intros Hz. unfold Z_digits. destruct (Z_digits_aux_named (S (Z.to_nat (Z.log2 z))) z "") as (h & l & E & H); [|lia|].
  - split; [done|]. rewrite Nat2Z.inj_succ, Z2Nat.id by apply Z.log2_nonneg. destruct (Z.eq_dec z 0) as [->|]; [done|]. apply Z.log2_spec. lia.
  - exists h, l. by rewrite E, str_app_nil.
Qed.

Lemma read_plain_named l acc n rest :
  Forall is_digit l -> read_plain_digits (digits l ++ rest) acc n = read_plain_digits rest (named_by acc l) (n + Z.of_nat (length l)).
Proof.
  intros H. revert acc n. induction H as [|d l Hd _ IH]; intros acc n; [cbn; by rewrite Z.add_0_r|].
  change (digits (d :: l) ++ rest)%string with (String (digit_char d) (digits l ++ rest)). cbn [read_plain_digits]. rewrite digit_val_char, IH by done.
  cbn [length]. f_equal. lia.
Qed.

Lemma read_digits_named l acc n prev rest :
  Forall is_digit l ->
  read_digits (digits l ++ rest) acc n prev = read_digits rest (named_by acc l) (n + Z.of_nat (length l)) (match l with [] => prev | _ => true end).
Proof.
  intros H. revert acc n prev. induction H as [|d l Hd _ IH]; intros acc n prev; [cbn; by rewrite Z.add_0_r|].
  change (digits (d :: l) ++ rest)%string with (String (digit_char d) (digits l ++ rest)). cbn [read_digits]. rewrite digit_val_char, IH by done.
  replace (n + 1 + Z.of_nat (length l)) with (n + Z.of_nat (length (d :: l))) by (cbn [length]; lia). by destruct l.
Qed.

(** What follows a number in a document: neither a digit nor a sign of a fraction or an exponent. *)
Definition ends_number (s : string) : bool :=
  match s with
  | EmptyString => true
  | String c _ => Ascii.eqb c "," || Ascii.eqb c "}" || Ascii.eqb c "]"
  end.

(** The digits of [z] read back: their value, their number and what follows. *)
Lemma Z_digits_reads z :
  0 <= z -> exists h D k, Z_digits z = String (digit_char h) D /\ 0 <= h < 10 /\ (h = 0 -> z = 0) /\
    1 <= k /\ (k = 1 \/ 10 ^ (k - 1) <= z) /\
    forall rest, read_plain_digits (String (digit_char h) D ++ rest) 0 0 = read_plain_digits rest z k.
Proof.
  intros Hz. destruct (Z_digits_named z Hz) as (h & l & E & F & V & Hh). exists h, (digits l), (Z.of_nat (length (h :: l))).
  pose proof (Forall_inv F : 0 <= h < 10).
  split_and!; [done|lia|lia| |cbn [length]; lia| |].
  - intros ->. rewrite (Hh eq_refl) in V. by cbn in V.
  - destruct l as [|d l]; [by left|right]. replace (Z.of_nat (length (h :: d :: l)) - 1) with (Z.of_nat (length (d :: l))) by (cbn [length]; lia).
    assert (h <> 0) by (intros ->; by specialize (Hh eq_refl)). rewrite <- V. by apply named_by_head.
  - intros rest. rewrite <- V. exact (read_plain_named (h :: l) 0 0 rest F).
Qed.

Lemma ends_number_cases s :
  ends_number s = true -> s = EmptyString \/ exists c s', s = String c s' /\ (c = ","%char \/ c = "}"%char \/ c = "]"%char).
Proof.
  destruct s as [|c s]; [by left|]. cbn. rewrite !orb_true_iff, !Ascii.eqb_eq. intros H. right. exists c, s. tauto.
Qed.

Lemma ends_number_digits s v k : ends_number s = true -> read_plain_digits s v k = (v, k, s).
Proof. by intros [->|(c & t & -> & [->|[->| ->]])]%ends_number_cases. Qed.

Definition leading_digit (c : ascii) : bool := (49 <=? code_of c) && (code_of c <=? 57).

Lemma leading_digit_char h : 0 <= h < 10 -> h <> 0 -> leading_digit (digit_char h) = true.
Proof. intros H H0. apply (zrange_In 0 10) in H. cbn in H. by repeat (destruct H as [<-|H]; [done|]). Qed.

(** What [read_number] does with the digits of an integer that ends there. *)
Lemma read_int_tail (v n : Z) (neg : bool) rest :
  ends_number rest = true ->
  (let '(c, k, frac, r1) :=
     match rest with
     | String "." r' =>
         let '(v', n', r'') := read_plain_digits r' v 0 in
         if n' =? 0 then (v, 0, false, rest) else (v', n', true, r'')
     | _ => (v, 0, false, rest)
     end in
   let '(ex, has_ex, r2) :=
     match r1 with
     | String e r' =>
         if Ascii.eqb e "e" || Ascii.eqb e "E" then
           let '(eneg, eb) := split_sign r' in
           let '(ev, en, r'') := read_plain_digits eb 0 0 in
           if en =? 0 then (0, false, r1) else (if eneg then - ev else ev, true, r'')
         else (0, false, r1)
     | EmptyString => (0, false, r1)
     end in
   if frac || has_ex then
     let f := dec_literal c (ex - k) in
     Ok (Some (VFloat (if neg then PrimFloat.opp f else f), r2))
   else if 4300 <? n then Raise ValueError
   else Ok (Some (VInt (if neg then - v else v), r2)))
  = if 4300 <? n then Raise ValueError else Ok (Some (VInt (if neg then - v else v), rest)).
Proof. by intros [->|(c & t & -> & [->|[->| ->]])]%ends_number_cases. Qed.

Lemma read_number_digits neg c D z k rest :
  leading_digit c = true -> 1 <= k <= 4300 -> ends_number rest = true ->
  read_plain_digits (String c (D ++ rest)) 0 0 = (z, k, rest) ->
  read_number (if neg : bool then String "-" (String c (D ++ rest)) else String c (D ++ rest))
  = Ok (Some (VInt (if neg then - z else z), rest)).
Proof.
  intros Hc Hk He R. unfold read_number.
  assert (forall body, body = String c (D ++ rest)%string ->
    (match body with String "0" r => Some (0, 1, r) | _ => let '(v, n, r) := read_plain_digits body 0 0 in if n =? 0 then None else Some (v, n, r) end)
    = Some (z, k, rest)) as B.
  { intros body ->. replace (k =? 0) with false in * by (symmetry; apply Z.eqb_neq; lia).
    assert ((k =? 0) = false) as K by (apply Z.eqb_neq; lia).
    destruct c as [[] [] [] [] [] [] [] []]; try discriminate Hc; by rewrite R, K. }
  assert ((4300 <? k) = false) as K by (apply Z.ltb_ge; lia).
  destruct neg; [|replace (match String c (D ++ rest) with String "-" s' => (true, s') | _ => (false, String c (D ++ rest)) end)
    with (false, String c (D ++ rest)%string) by (destruct c as [[] [] [] [] [] [] [] []]; done || discriminate Hc)];
    cbv iota beta; rewrite (B _ eq_refl);
    [etransitivity; [exact (read_int_tail z k true rest He)|]|etransitivity; [exact (read_int_tail z k false rest He)|]];
    by rewrite K.
Qed.

(** A value that is none of the words and opens no container is a number. *)
Lemma read_value_number fuel neg c s :
  leading_digit c = true ->
  read_value (S fuel) (if neg : bool then String "-" (String c s) else String c s)
  = (read_number (if neg then String "-" (String c s) else String c s) ≫=
       fun n => match n with Some vr => Ok vr | None => Raise ValueError end).
Proof. destruct neg, c as [[] [] [] [] [] [] [] []]; (discriminate 1 || reflexivity). Qed.

Lemma read_value_int fuel z rest t :
  json_int z = Ok t -> ends_number rest = true -> read_value (S fuel) (t ++ rest) = Ok (VInt z, rest).
Proof.
  unfold json_int. destruct (Z.leb_spec (10 ^ 4300) (Z.abs z)) as [|Hz]; [done|]. intros [= <-] He.
  destruct (Z.eq_dec z 0) as [->|Hz0].
  { change (Z_str 0 ++ rest)%string with (String "0" rest).
    by apply ends_number_cases in He as [->|(c & s & -> & [->|[->| ->]])]. }
  destruct (Z_digits_reads (Z.abs z)) as (h & D & k & E & Hh & H0 & Hk & Hlow & R); [lia|].
  assert (k <= 4300).
  { destruct Hlow as [->|Hlow]; [lia|]. apply Z.nlt_ge. intros L.
    apply (Z.lt_irrefl (10 ^ 4300)), (Z.le_lt_trans _ (Z.abs z)); [|done].
    apply (Z.le_trans _ (10 ^ (k - 1))); [apply Z.pow_le_mono_r; lia|done]. }
  clear Hz.
  specialize (R rest). rewrite (ends_number_digits rest) in R by done.
  assert (leading_digit (digit_char h) = true) as Hd by (apply leading_digit_char; lia).
  assert (Z_str z ++ rest = if (z <? 0)%Z then String "-" (String (digit_char h) (D ++ rest)) else String (digit_char h) (D ++ rest))%string as ->.
  { unfold Z_str. destruct (Z.ltb_spec z 0); [rewrite <- Z.abs_neq by lia|rewrite <- (Z.abs_eq z) by lia]; by rewrite E. }
  rewrite read_value_number by done. rewrite (read_number_digits _ _ _ (Z.abs z) k) by (done || lia).
  cbn. do 3 f_equal. destruct (Z.ltb_spec z 0); lia.
Qed.

(** ** The text of a float *)

(** The text of a decimal with a point: the digits before it, which start with no zero,
    and those after it. *)
Record decimal_text (x : float) (before after : list Z) : Prop := {
  dt_text : float_repr x = (digits before ++ String "." (digits after))%string;
  dt_digits : Forall is_digit (before ++ after);
  dt_head : exists h t, before = h :: t /\ h <> 0;
  dt_after : after <> [];
  dt_number : 0 < named_by 0 (before ++ after) <= 10 ^ 40;
  dt_short : Z.of_nat (length after) <= 16;
  dt_value : dec_to_float (named_by 0 (before ++ after)) (- Z.of_nat (length after)) = x }.

Lemma float_repr_shortest x c k :
  plain_range x -> shortest x = (c, k) -> 1 <= Z.of_nat (String.length (Z_digits c)) + k <= 16 ->
  float_repr x =
    let ds := Z_digits c in
    let point := Z.to_nat (Z.of_nat (String.length ds) + k) in
    if 0 <=? k then (ds ++ str_repeat "0" (Z.to_nat k) ++ ".0")%string else (PyNum.str_take point ds ++ "." ++ str_drop point ds)%string.
Proof.
  intros [Fx [B1 B2]] S P. pose proof two1074_pos as T. unfold float_repr. rewrite (fin_not_nan _ Fx), S.
  assert (is_infinity x = false) as -> by (unfold fin, is_finite in Fx; by destruct (is_nan x), (is_infinity x)).
  assert (is_zero x = false) as Zx.
  { unfold is_zero. rewrite eqb_rank. change (frank zero) with 0. rewrite (proj2 (Z.eqb_neq _ 0)) by lia. by rewrite andb_false_r. }
  assert (get_sign x = false) as ->.
  { unfold get_sign. rewrite Zx, ltb_rank. change (frank zero) with 0. rewrite (proj2 (Z.ltb_ge _ 0)) by lia. by rewrite andb_false_r. }
  rewrite Zx. cbv zeta. set (n := Z.of_nat (String.length (Z_digits c))) in *.
  rewrite (proj2 (Z.leb_gt (n + k) (-4))), (proj2 (Z.ltb_ge 16 (n + k))), (proj2 (Z.leb_gt (n + k) 0)) by lia. cbn [orb].
  replace (n + k - n) with k by lia. destruct (Z.leb_spec n (n + k)), (Z.leb_spec 0 k); try lia; done.
Qed.

(** The place of the point in the digits of a shortest decimal. *)
Lemma point_place c k N :
  10 ^ (N - 1) <= c < 10 ^ N -> 1 <= N -> -16 <= k -> 10 ^ 17 <= c * 10 ^ (k + 17) < 2 ^ 53 * 10 ^ 17 -> 1 <= N + k <= 16.
Proof.
  intros Hc HN Hk [W1 W2]. pose proof (ten_pow (k + 17) ltac:(lia)) as P. split.
  - assert (10 ^ 17 < 10 ^ (N + (k + 17))) as L by (rewrite ten_add by lia; eapply Z.le_lt_trans; [exact W1|]; apply Z.mul_lt_mono_pos_r; lia).
    apply Z.pow_lt_mono_r_iff in L; lia.
  - assert (10 ^ (N - 1 + (k + 17)) < 10 ^ 33) as L.
    { rewrite ten_add by lia. eapply Z.le_lt_trans; [apply Z.mul_le_mono_nonneg_r; [lia|exact (proj1 Hc)]|]. eapply Z.lt_trans; [exact W2|by vm_compute]. }
    apply Z.pow_lt_mono_r_iff in L; lia.
Qed.

Lemma decimal_of_scaled v j w x :
  0 <= j <= 16 -> 0 < v -> v * 10 ^ (17 - j) = w -> w < 2 ^ 53 * 10 ^ 17 -> scaled w = x -> 0 < v <= 10 ^ 40 /\ dec_to_float v (- j) = x.
Proof.
  intros Hj Hv E W <-. pose proof (ten_pow (17 - j) ltac:(lia)). assert (2 ^ 53 * 10 ^ 17 <= 10 ^ 40) by (by vm_compute).
  assert (v * 1 <= v * 10 ^ (17 - j)) by (apply Z.mul_le_mono_nonneg_l; lia). assert (v <= 10 ^ 40) by lia. split; [done|].
  rewrite dec_scaled by lia. f_equal. rewrite <- E. do 2 f_equal. lia.
Qed.

(** A float in the range is written as such a decimal. *)
Lemma float_repr_decimal x : plain_range x -> exists before after, decimal_text x before after.
Proof.
  intros R. destruct (shortest x) as [c k] eqn:S. destruct (shortest_value x c k R S) as (Hc & Hk & W & V).
  destruct (Z_digits_named c ltac:(lia)) as (h & l & E & F & N & Hh). assert (h <> 0) as Hn by (intros ->; rewrite (Hh eq_refl) in N; by cbn in N; lia).
  pose proof (named_by_bound _ F) as B. pose proof (named_by_head h l F Hn) as B'. rewrite N in B, B'.
  assert (1 <= Z.of_nat (length (h :: l)) + k <= 16) as P.
  { apply (point_place c); [|cbn [length]; lia|done|done]. replace (Z.of_nat (length (h :: l)) - 1) with (Z.of_nat (length l)) by (cbn [length]; lia). lia. }
  pose proof (float_repr_shortest x c k R S) as T. rewrite E, digits_length in T. specialize (T P). cbv zeta in T. rewrite ?digits_length in T.
  set (point := Z.to_nat (Z.of_nat (length (h :: l)) + k)) in *. destruct (Z.leb_spec 0 k).
  - exists ((h :: l) ++ replicate (Z.to_nat k) 0), [0].
    assert (named_by 0 (((h :: l) ++ replicate (Z.to_nat k) 0) ++ [0]) = c * 10 ^ (k + 1)) as V'.
    { rewrite !named_by_app, N, named_by_zeros, Z2Nat.id, ten_add by lia. cbn. lia. }
    destruct (decimal_of_scaled (c * 10 ^ (k + 1)) 1 (c * 10 ^ (k + 17)) x) as [D1 D2]; try done; [apply Z.mul_pos_pos; [lia|apply ten_pow; lia]| |lia|].
    { rewrite <- Z.mul_assoc, <- ten_add by lia. do 2 f_equal. lia. }
    split; rewrite ?V'; try done; [|apply Forall_app; split; [apply Forall_app; split; [done|by apply Forall_replicate]|by constructor]|by exists h, (l ++ replicate (Z.to_nat k) 0)].
    rewrite T, digits_app, <- digits_zeros, <- str_app_assoc. done.
  - exists (take point (h :: l)), (drop point (h :: l)). assert (point < length (h :: l))%nat as Hp by (unfold point; lia). assert (0 < point)%nat by (unfold point; lia).
    assert (Z.of_nat (length (drop point (h :: l))) = - k) as Hd by (rewrite length_drop; unfold point; lia).
    destruct (decimal_of_scaled c (- k) (c * 10 ^ (k + 17)) x) as [D1 D2]; try done; [lia|do 2 f_equal; lia|lia|].
    split; rewrite ?take_drop, ?Hd, ?N; try done; [|destruct point as [|p]; [lia|]; by exists h, (take p l)|intros E0; apply (f_equal length) in E0; rewrite length_drop in E0; cbn [length] in *; lia|lia].
    by rewrite T, digits_take, digits_drop.
Qed.

(** ** Reading it back *)

(** Text of characters that are not white space is its own strip. *)
Lemma strip_solid s : str_all (fun c => negb (is_space c)) s = true -> strip s = s.
Proof.
  intros H. unfold strip. assert (rstrip s = s) as R.
  { induction s as [|c s IH]; [done|]. cbn [str_all rstrip] in *. apply andb_prop in H as [Hc Hs].
    rewrite (IH Hs). apply negb_true_iff in Hc. destruct s; by rewrite ?Hc. }
  destruct s as [|c s]; [done|]. cbn [lstrip str_all] in *. apply andb_prop in H as [Hc%negb_true_iff _]. by rewrite Hc.
Qed.

Lemma digits_solid l : Forall is_digit l -> str_all (fun c => negb (is_space c)) (digits l) = true.
Proof.
  induction 1 as [|d l Hd _ IH]; [done|]. cbn [digits str_all]. rewrite IH, andb_true_r. unfold is_digit in Hd. apply (zrange_In 0 10) in Hd.
  cbn in Hd. by repeat (destruct Hd as [<-|Hd]; [done|]).
Qed.

Lemma dec_literal_decimal x before after :
  decimal_text x before after -> dec_literal (named_by 0 (before ++ after)) (0 - Z.of_nat (length after)) = x.
Proof.
  intros [_ _ _ _ Hn Hs Hv]. rewrite Z.sub_0_l. set (v := named_by 0 (before ++ after)) in *. unfold dec_literal.
  rewrite (proj2 (Z.eqb_neq v 0)), (proj2 (Z.ltb_ge 400 _)) by lia. pose proof (Z.log2_nonneg v). by rewrite (proj2 (Z.ltb_ge _ (-1100))) by lia.
Qed.

(** The text of a float in the range reads back as the float. *)
Lemma parse_float_repr x : plain_range x -> parse_float (float_repr x) = Ok x.
Proof.
  intros R. destruct (float_repr_decimal x R) as (before & after & D). pose proof (dec_literal_decimal _ _ _ D) as V.
  destruct D as [-> F (h & t & -> & Hh) Ha _ _ _]. apply Forall_app in F as [Fb Fa].
  unfold parse_float. rewrite strip_solid.
  2: { rewrite str_all_app, digits_solid by done. change (str_all ?p (String "." ?s)) with (true && str_all p s). by rewrite digits_solid. }
  assert (forall s, split_sign (String (digit_char h) s) = (false, String (digit_char h) s) /\ float_special (String (digit_char h) s) = None) as Hs.
  { intros s. pose proof (Forall_inv Fb : 0 <= h < 10) as Bh. apply (zrange_In 0 10) in Bh. cbn in Bh. by repeat (destruct Bh as [<-|Bh]; [done|]). }
  change (digits (h :: t) ++ ?s)%string with (String (digit_char h) (digits t ++ s)). destruct (Hs (digits t ++ String "." (digits after))%string) as [-> ->].
  assert (parse_decimal (String (digit_char h) (digits t ++ String "." (digits after))) = Some (named_by 0 ((h :: t) ++ after), 0 - Z.of_nat (length after))) as ->; [|by rewrite V].
  unfold parse_decimal. change (String (digit_char h) (digits t ++ ?s))%string with (digits (h :: t) ++ s)%string.
  rewrite (read_digits_named (h :: t) 0 0 false _ Fb). change (read_digits (String "." ?s) ?a ?n ?p) with (a, n, p, String "." s). cbv iota beta.
  replace (digits after) with (digits after ++ "")%string at 1 by apply str_app_nil. rewrite (read_digits_named after _ 0 false "" Fa).
  cbn [read_digits]. rewrite (proj2 (Z.eqb_neq _ 0)) by (cbn [length]; lia). cbn [nonempty parse_exponent]. by rewrite <- named_by_app.
Qed.

(** What [read_number] does after the digits before a point. *)
Lemma read_number_point c s v n after rest :
  leading_digit c = true -> read_plain_digits (String c s) 0 0 = (v, n, String "." (digits after ++ rest)) -> n <> 0 ->
  Forall is_digit after -> after <> [] -> ends_number rest = true ->
  read_number (String c s) = Ok (Some (VFloat (dec_literal (named_by v after) (0 - Z.of_nat (length after))), rest)).
Proof.
  intros Hc R Hn Fa Ha He. unfold read_number.
  replace (match String c s with String "-" s' => (true, s') | _ => (false, String c s) end) with (false, String c s)
    by (destruct c as [[] [] [] [] [] [] [] []]; done || discriminate Hc).
  assert ((match String c s with String "0" r => Some (0, 1, r) | _ => let '(v, n, r) := read_plain_digits (String c s) 0 0 in if n =? 0 then None else Some (v, n, r) end)
    = Some (v, n, String "." (digits after ++ rest))) as B.
  { rewrite <- (proj2 (Z.eqb_neq n 0) Hn) in R. assert ((n =? 0) = false) as N by (by apply Z.eqb_neq). rewrite N in R.
    destruct c as [[] [] [] [] [] [] [] []]; try discriminate Hc; by rewrite R, N. }
  cbv iota beta. rewrite B. cbv iota beta. rewrite (read_plain_named after v 0 rest Fa), ends_number_digits by done. cbv iota beta.
  assert ((0 + Z.of_nat (length after) =? 0) = false) as -> by (destruct after; [done|apply Z.eqb_neq; cbn [length]; lia]).
  assert (match rest with
     | String e r' => if Ascii.eqb e "e" || Ascii.eqb e "E" then
           let '(eneg, eb) := split_sign r' in let '(ev, en, r'') := read_plain_digits eb 0 0 in
           if en =? 0 then (0, false, rest) else (if eneg then - ev else ev, true, r'')
         else (0, false, rest)
     | EmptyString => (0, false, rest) end = (0, false, rest)) as ->; [|done].
  by apply ends_number_cases in He as [->|(d & t & -> & [->|[->| ->]])].
Qed.

Lemma read_value_float fuel x rest :
  plain_range x -> ends_number rest = true -> read_value (S fuel) (float_repr x ++ rest) = Ok (VFloat x, rest).
Proof.
  intros R He. destruct (float_repr_decimal x R) as (before & after & D). pose proof (dec_literal_decimal _ _ _ D) as V.
  destruct D as [-> F (h & t & -> & Hh) Ha _ _ _]. apply Forall_app in F as [Fb Fa].
  pose proof (leading_digit_char h (Forall_inv Fb) Hh) as Hd. rewrite <- str_app_assoc.
  change (String "." ?s ++ rest)%string with (String "." (s ++ rest)).
  change (digits (h :: t) ++ ?s)%string with (String (digit_char h) (digits t ++ s)).
  rewrite (read_value_number fuel false _ _ Hd).
  rewrite (read_number_point _ _ (named_by 0 (h :: t)) (0 + Z.of_nat (length (h :: t))) after rest Hd); [|exact (read_plain_named (h :: t) 0 0 _ Fb)|cbn [length]; lia|done..].
  rewrite <- named_by_app, V. done.
Qed.

(** ** Members *)

(** [text] is one JSON value, [v], wherever it stands in a document. *)
Definition reads_as (text : string) (v : val) : Prop :=
  forall fuel rest, ends_number rest = true -> read_value (S fuel) (skip_ws (text ++ rest)) = Ok (v, rest).

Lemma reads_str s : str_all plain s = true -> reads_as (json_str true s) (VStr s).
Proof.
  intros H fuel rest _. rewrite json_str_plain by done.
  change (String dquote (s ++ String dquote "") ++ rest)%string with (String dquote ((s ++ String dquote "") ++ rest)).
  rewrite <- str_app_assoc. change (String dquote "" ++ rest)%string with (String dquote rest). cbn [skip_ws].
  change (is_ws dquote) with false. cbn [read_value]. change (Ascii.eqb dquote dquote) with true. cbv iota.
  rewrite read_string_plain; [done..|]. rewrite str_length_app. lia.
Qed.

Lemma reads_int z t : json_int z = Ok t -> reads_as t (VInt z).
Proof.
  intros H fuel rest He. assert (skip_ws (t ++ rest) = t ++ rest)%string as ->; [|by apply read_value_int].
  unfold json_int in H. destruct (10 ^ 4300 <=? Z.abs z); [done|]. injection H as <-. unfold Z_str.
  destruct (Z.ltb_spec z 0); [done|]. destruct (Z_digits_reads z) as (h & D & k & -> & Hh & _); [done|].
  apply (zrange_In 0 10) in Hh. cbn in Hh. by repeat (destruct Hh as [<-|Hh]; [done|]).
Qed.

Lemma reads_float x : plain_range x -> reads_as (float_repr x) (VFloat x).
Proof.
  intros R fuel rest He. assert (skip_ws (float_repr x ++ rest) = float_repr x ++ rest)%string as ->; [|by apply read_value_float].
  destruct (float_repr_decimal x R) as (before & after & [-> F (h & t & -> & _) _ _ _ _]). apply Forall_app in F as [Fb _].
  pose proof (Forall_inv Fb : 0 <= h < 10) as Bh. apply (zrange_In 0 10) in Bh. cbn in Bh. by repeat (destruct Bh as [<-|Bh]; [done|]).
Qed.

Lemma digits_ascii l : Forall is_digit l -> str_all is_ascii (digits l) = true.
Proof.
  induction 1 as [|d l Hd _ IH]; [done|]. cbn [digits str_all]. rewrite IH, andb_true_r. unfold is_digit in Hd. apply (zrange_In 0 10) in Hd.
  cbn in Hd. by repeat (destruct Hd as [<-|Hd]; [done|]).
Qed.

Lemma float_repr_ascii x : plain_range x -> str_all is_ascii (float_repr x) = true.
Proof.
  intros R. destruct (float_repr_decimal x R) as (before & after & [-> F _ _ _ _ _]). apply Forall_app in F as [Fb Fa].
  rewrite str_all_app, digits_ascii by done. change (str_all ?p (String "." ?s)) with (true && str_all p s). by rewrite digits_ascii.
Qed.

(** A member of an object: its key, its value's text and its value. *)
Definition member := (string * string * val)%type.
Definition member_text (m : member) : string := (json_str true m.1.1 ++ ":" ++ m.1.2)%string.
Definition member_ok (m : member) : Prop := str_all plain m.1.1 = true /\ reads_as m.1.2 m.2.
Definition set_member (acc : list (val * val)) (m : member) : list (val * val) := dict_set acc m.1.1 m.2.

Lemma read_members_step fuel k t v acc c rest :
  str_all plain k = true -> reads_as t v -> ends_number (String c rest) = true ->
  read_members (S (S fuel)) (member_text (k, t, v) ++ String c rest) acc
  = match String c rest with
    | String "," t' => read_members (S fuel) (skip_ws t') (dict_set acc k v)
    | String "}" t' => Ok (dict_set acc k v, t')
    | _ => Raise ValueError
    end.
Proof.
  intros Hk Ht He. unfold member_text. cbn [fst snd]. rewrite json_str_plain by done.
  change ((String dquote (k ++ String dquote "") ++ ":" ++ t) ++ String c rest)%string
    with (String dquote (((k ++ String dquote "") ++ String ":" t) ++ String c rest)).
  rewrite <- !str_app_assoc. change (String dquote "" ++ (String ":" t ++ String c rest))%string with (String dquote (String ":" (t ++ String c rest))).
  cbn [read_members]. change (Ascii.eqb dquote dquote) with true. cbv iota.
  rewrite read_string_plain; [|done|rewrite str_length_app; lia]. change (skip_ws (String ":" ?x)) with (String ":" x). cbv iota.
  rewrite (Ht fuel (String c rest) He). cbn [mbind res_bind].
  apply ends_number_cases in He as [|(c' & s & [= <- <-] & [->|[->| ->]])]; done.
Qed.

Lemma skip_ws_members m ms rest :
  skip_ws (String.concat "," (map member_text (m :: ms)) ++ rest) = (String.concat "," (map member_text (m :: ms)) ++ rest)%string.
Proof. by destruct ms. Qed.

Lemma read_members_flat ms acc fuel rest :
  ms <> [] -> Forall member_ok ms -> (length ms < fuel)%nat ->
  read_members fuel (String.concat "," (map member_text ms) ++ String "}" rest) acc = Ok (fold_left set_member ms acc, rest).
Proof.
  revert acc fuel. induction ms as [|[[k t] v] ms IH]; intros acc fuel Hne Hok Hf; [done|].
  apply Forall_cons in Hok as [[Hk Ht] Hok]. destruct fuel as [|[|fuel]]; cbn [length] in Hf; [lia..|].
  destruct ms as [|m ms].
  - cbn [map String.concat fold_left]. by rewrite read_members_step.
  - change (String.concat "," (map member_text ((k, t, v) :: m :: ms)))
      with (member_text (k, t, v) ++ ("," ++ String.concat "," (map member_text (m :: ms))))%string.
    rewrite <- str_app_assoc. change (("," ++ ?x) ++ ?y)%string with (String "," (x ++ y)). rewrite read_members_step by done.
    rewrite skip_ws_members. cbn [fold_left]. apply IH; [done..|cbn [length] in *; lia].
Qed.

Lemma member_text_length m : (1 <= String.length (member_text m))%nat.
Proof. unfold member_text, json_str. rewrite str_length_app. cbn [String.length]. lia. Qed.

Lemma members_length ms : (length ms <= String.length (String.concat "," (map member_text ms)))%nat.
Proof.
  induction ms as [|m ms IH]; [cbn; lia|]. pose proof (member_text_length m). destruct ms as [|m' ms]; [cbn; lia|].
  change (String.concat "," (map member_text (m :: m' :: ms)))
    with (member_text m ++ ("," ++ String.concat "," (map member_text (m' :: ms))))%string.
  rewrite !str_length_app. cbn [length] in *. lia.
Qed.

Lemma read_value_object fuel t :
  read_value (S fuel) (String "{" (String dquote t)) = (read_members fuel (String dquote t) [] ≫= fun '(l, r) => Ok (VDict l, r)).
Proof. reflexivity. Qed.

(** An object of plain members is read back, its members set in their order. *)
Lemma loads_flat ms :
  ms <> [] -> Forall member_ok ms ->
  loads ("{" ++ String.concat "," (map member_text ms) ++ "}") = Ok (VDict (fold_left set_member ms [])).
Proof.
  intros Hne Hok. unfold loads. change (skip_ws ("{" ++ ?x)) with (String "{" x).
  change (String.length ("{" ++ ?x)) with (S (String.length x)). rewrite str_length_app.
  pose proof (members_length ms) as L. set (n := String.length (String.concat "," (map member_text ms))) in *.
  replace (2 * S (n + String.length "}") + 2)%nat with (S (2 * n + 5))%nat by (cbn; lia).
  destruct ms as [|m ms]; [done|].
  assert (exists t, String.concat "," (map member_text (m :: ms)) ++ "}" = String dquote t)%string as [t E].
  { destruct ms; eexists; reflexivity. }
  rewrite E, read_value_object, <- E. change "}"%string with (String "}" "").
  rewrite (read_members_flat (m :: ms) [] _ "" Hne Hok) by lia. done.
Qed.
