(* ===== verification/PlanText.v ===== *)
(** * Price levels in the prose of a plan

    Models [_parse_levels_from_text] of [agents/deep-quant-loop/graph.py] and the
    three regular expressions it searches with.  After the keyword every part of an
    expression is determined by the text: the gap runs to the first digit or minus
    sign, the number is taken whole, and the lookahead skips the digits and dots
    that backtracking could give back; so each search is a scan for the first
    keyword whose continuation matches.  Of [\s] and [\b] only ASCII is modelled:
    the bytes of other characters count as neither spaces nor word characters. *)

From stdpp Require Import base list strings.
From Stdlib Require Import ZArith Lia Floats Ascii.
From S2P Require Import Prelude PyFloat PyNum PyVal PyEnv PyStr.

#[local] Set Warnings "-inexact-float".
Open Scope Z_scope.

(** ** Characters *)

Definition word_char (c : ascii) : bool := is_letter c || is_digit c || Ascii.eqb c "_".
Definition number_char (c : ascii) : bool := is_digit c || Ascii.eqb c ".".
Definition gap_char (c : ascii) : bool := negb (is_digit c || Ascii.eqb c "-").

(** The text from the first character on that does not satisfy [p], and what was
    passed over. *)
Fixpoint skip (p : ascii -> bool) (s : string) : string :=
  match s with String c s' => if p c then skip p s' else s | EmptyString => EmptyString end.

Fixpoint taken (p : ascii -> bool) (s : string) : string :=
  match s with String c s' => if p c then String c (taken p s') else EmptyString | EmptyString => EmptyString end.

(** ** The parts of the expressions *)

(** [keyword] in any case: the text after it. *)
Fixpoint keyword (k s : string) : option string :=
  match k, s with
  | EmptyString, _ => Some s
  | String a k', String b s' => if Ascii.eqb (lower_char b) a then keyword k' s' else None
  | _, EmptyString => None
  end.

(** [\b] after a letter. *)
Definition boundary (s : string) : bool := match s with String c _ => negb (word_char c) | EmptyString => true end.

(** [([0-9]+(?:\.[0-9]+)?)]: the number and the text after it. *)
Definition level_num (s : string) : option (string * string) :=
  let whole := taken is_digit s in
  let rest := skip is_digit s in
  if negb (nonempty whole) then None
  else
    match rest with
    | String "." rest' =>
        if nonempty (taken is_digit rest') then
          Some (whole ++ "." ++ taken is_digit rest', skip is_digit rest')%string
        else Some (whole, rest)
    | _ => Some (whole, rest)
    end.

Definition times_sign : string := String (ascii_of_nat 195) (String (ascii_of_nat 151) EmptyString).

(** The lookahead: whether what follows makes the number a multiplier. *)
Definition is_multiplier (s : string) : bool :=
  let s := skip is_space (skip number_char s) in
  match keyword "x" s, keyword "atr" s with
  | None, None => match s with
                  | String a (String b _) => String.eqb (String a (String b EmptyString)) times_sign
                  | _ => false
                  end
  | _, _ => true
  end.

(** The gap, the number and the lookahead. *)
Definition price_after (s : string) : option string :=
  match level_num (skip gap_char s) with
  | Some (n, rest) => if is_multiplier rest then None else Some n
  | None => None
  end.

(** The atomic ordinal of a target, when there is one: at most two digits and a
    delimiter are passed over. *)
Definition ordinal_delimiter (c : ascii) : bool :=
  Ascii.eqb c ":" || Ascii.eqb c "." || Ascii.eqb c ")" || Ascii.eqb c "-".

Definition skip_ordinal (s : string) : string :=
  let after_space := skip is_space s in
  let digits := taken is_digit after_space in
  if (1 <=? String.length digits)%nat && (String.length digits <=? 2)%nat then
    match skip is_space (skip is_digit after_space) with
    | String c rest => if ordinal_delimiter c then rest else s
    | EmptyString => s
    end
  else s.

(** ** The searches *)

(** The texts that follow a stop keyword at the start of [s], in the order the
    alternatives are tried. *)
Definition stop_keywords (s : string) : list string :=
  let joined := match keyword "stop" s with
                | Some (String c rest as after) =>
                    (if is_space c || Ascii.eqb c "-" then [keyword "loss" rest] else []) ++ [keyword "loss" after]
                | Some EmptyString | None => []
                end in
  omap id (joined ++ [keyword "stop" s; keyword "sl" s]).

Definition entry_keywords (s : string) : list string := omap id [keyword "entry" s].

Definition target_keywords (s : string) : list string :=
  let joined := match keyword "take" s with
                | Some (String c rest as after) =>
                    (if is_space c || Ascii.eqb c "-" then [keyword "profit" rest] else []) ++ [keyword "profit" after]
                | Some EmptyString | None => []
                end in
  omap id (joined ++ [keyword "target" s; keyword "tp" s]).

(** The first alternative that matches at the start of the text. *)
Fixpoint first_match (after : string -> option string) (alternatives : list string) : option string :=
  match alternatives with
  | [] => None
  | s :: rest => match (if boundary s then after s else None) with Some n => Some n | None => first_match after rest end
  end.

(** [re.search]: the number of the leftmost match. *)
Fixpoint search (keywords : string -> list string) (after : string -> option string) (s : string) : option string :=
  match first_match after (keywords s) with
  | Some n => Some n
  | None => match s with EmptyString => None | String _ s' => search keywords after s' end
  end.

Definition _ENTRY_RE : string -> option string := search entry_keywords price_after.
Definition _SL_RE : string -> option string := search stop_keywords price_after.
Definition _TP_RE : string -> option string := search target_keywords (fun s => price_after (skip_ordinal s)).

(** ** The levels *)

Definition level_of (key : string) (found : option string) : res (list (val * val)) :=
  match found with
  | Some n => f ← parse_float n; Ok [(VStr key, VFloat f)]
  | None => Ok []
  end.

(** [_parse_levels_from_text]: the levels that were found, [None] when none was. *)
Definition _parse_levels_from_text (text : string) : res (option (list (val * val))) :=
  if negb (nonempty text) then Ok None
  else
    e ← level_of "entry" (_ENTRY_RE text);
    s ← level_of "stop_loss" (_SL_RE text);
    t ← level_of "take_profit" (_TP_RE text);
    Ok (match e ++ s ++ t with [] => None | levels => Some levels end).

Example levels_read :
  _parse_levels_from_text "Entry: 24350.5, stop-loss 24200 (>= 1.5x ATR); Target 1: 24650"
  = Ok (Some [(VStr "entry", VFloat 24350.5); (VStr "stop_loss", VFloat 24200); (VStr "take_profit", VFloat 24650)]).
Proof. vm_compute. reflexivity. Qed.

Example multiplier_passed_over : _SL_RE "stop >= 1.5x ATR, stop at 98" = Some "98"%string.
Proof. vm_compute. reflexivity. Qed.

(** A target below one hundred with decimals loses its whole part to the ordinal. *)
Example small_target_misread : _TP_RE "target 98.5" = Some "5"%string.
Proof. vm_compute. reflexivity. Qed.
