(* ===== verification/Session.v ===== *)
(** * The session classifier

    Models [agents/deep-quant-loop/session.py]: the configuration, the phase of a
    trading session, the minutes since the open and until the close, the weekly expiry
    and the time favourability of a candle timestamp. *)

From stdpp Require Import base list strings.
From Stdlib Require Import ZArith Lia Floats Ascii.
From S2P Require Import Prelude PyFloat PyRound PyNum PyQuot PyVal PyEnv PyStr PyTime PyStats.

#[local] Set Warnings "-inexact-float".
Open Scope Z_scope.
Open Scope res_scope.

(** ** Zones *)

(** The installed tz database: [None] is a zone [ZoneInfo] cannot load. *)
Definition tzdata := string -> option zone.

Definition _FIXED_TZ_OFFSETS : list (string * Z) :=
  [("Asia/Kolkata", 19800); ("Asia/Calcutta", 19800); ("UTC", 0); ("Etc/UTC", 0)]%string.

Definition _resolve_tzinfo (tz : tzdata) (name : string) : zone :=
  match tz name with
  | Some z => z
  | None => fixed_zone (default 0 (assoc_str name _FIXED_TZ_OFFSETS))
  end.

(** ** Configuration *)

Record dtime := { hour : Z; minute : Z; second : Z }.

Definition clock (h m : Z) : dtime := {| hour := h; minute := m; second := 0 |}.

Definition _seconds_of_day (t : dtime) : Z := hour t * 3600 + minute t * 60 + second t.

Definition DEFAULT_SESSION_TIMEZONE : string := "Asia/Kolkata".
Definition DEFAULT_SESSION_OPEN := clock 9 15.
Definition DEFAULT_SESSION_CLOSE := clock 15 30.
Definition DEFAULT_OPENING_MINUTES := 15.
Definition DEFAULT_CLOSING_MINUTES := 30.
Definition DEFAULT_MIDDAY_START := clock 11 30.
Definition DEFAULT_MIDDAY_END := clock 13 30.
Definition DEFAULT_EXPIRY_WEEKDAY := 3.
Definition _MINUTES_MIN := 0.
Definition _WEEKDAY_MIN := 0.
Definition _WEEKDAY_MAX := 6.

Record SessionConfig := {
  timezone : string;
  open_time : dtime;
  close_time : dtime;
  opening_minutes : Z;
  closing_minutes : Z;
  midday_start : dtime;
  midday_end : dtime;
  expiry_weekday : Z;
}.

Definition _resolve_timezone (tz : tzdata) (e : env) (name default : string) : string :=
  match env_text e name with
  | None => default
  | Some candidate => match tz candidate with Some _ => candidate | None => default end
  end.

(** [s.isdigit()] *)
Definition isdigit (s : string) : bool := nonempty s && str_all is_digit s.

Definition _resolve_time (e : env) (name : string) (default : dtime) : dtime :=
  match env_text e name with
  | None => default
  | Some text =>
      match split_char ":" text with
      | [hh; mm] =>
          let hh := strip hh in
          let mm := strip mm in
          if negb (isdigit hh && isdigit mm) then default
          else
            match parse_int hh, parse_int mm with
            | Ok h, Ok m => if (0 <=? h) && (h <=? 23) && (0 <=? m) && (m <=? 59) then clock h m else default
            | _, _ => default
            end
      | _ => default
      end
  end.

Definition resolve_session_config (tz : tzdata) (e : env) : SessionConfig :=
  let opens := _resolve_time e "SESSION_OPEN" DEFAULT_SESSION_OPEN in
  let closes := _resolve_time e "SESSION_CLOSE" DEFAULT_SESSION_CLOSE in
  let ordered := _seconds_of_day opens <? _seconds_of_day closes in
  {| timezone := _resolve_timezone tz e "SESSION_TIMEZONE" DEFAULT_SESSION_TIMEZONE;
     open_time := if ordered then opens else DEFAULT_SESSION_OPEN;
     close_time := if ordered then closes else DEFAULT_SESSION_CLOSE;
     opening_minutes := resolve_int_min e "SESSION_OPENING_MINUTES" DEFAULT_OPENING_MINUTES _MINUTES_MIN;
     closing_minutes := resolve_int_min e "SESSION_CLOSING_MINUTES" DEFAULT_CLOSING_MINUTES _MINUTES_MIN;
     midday_start := _resolve_time e "SESSION_MIDDAY_START" DEFAULT_MIDDAY_START;
     midday_end := _resolve_time e "SESSION_MIDDAY_END" DEFAULT_MIDDAY_END;
     expiry_weekday := resolve_int_range e "SESSION_EXPIRY_WEEKDAY" DEFAULT_EXPIRY_WEEKDAY _WEEKDAY_MIN _WEEKDAY_MAX |}.

(** ** Phases and favourability *)

Inductive phase := PRE_OPEN | OPENING | MORNING | MIDDAY | AFTERNOON | CLOSING | POST_CLOSE.

#[export] Instance phase_eq_dec : EqDecision phase.
Proof. solve_decision. Defined.

Definition phase_name (p : phase) : string :=
  match p with
  | PRE_OPEN => "pre_open" | OPENING => "opening" | MORNING => "morning" | MIDDAY => "midday"
  | AFTERNOON => "afternoon" | CLOSING => "closing" | POST_CLOSE => "post_close"
  end.

Inductive favorability := FAVORABLE | UNFAVORABLE | NEUTRAL.

#[export] Instance favorability_eq_dec : EqDecision favorability.
Proof. solve_decision. Defined.

Definition favorability_name (f : favorability) : string :=
  match f with FAVORABLE => "favorable" | UNFAVORABLE => "unfavorable" | NEUTRAL => "neutral" end.

Definition _BASE_FAVORABILITY (p : phase) : favorability :=
  match p with OPENING => UNFAVORABLE | MORNING | AFTERNOON => FAVORABLE | _ => NEUTRAL end.

Definition _EXPIRY_OVERRIDE_PHASES : list phase := [AFTERNOON; CLOSING].

Definition _SECONDS_PER_MINUTE := 60.

(** ** Classification of a local datetime *)

Definition _is_finite_number (v : val) : res bool :=
  if is_int_or_float v && negb (is_bool v) then py_isfinite v else Ok false.

(** The wall clock of a timestamp, [None] for what cannot be a datetime.  The finiteness
    test is outside the [try]. *)
Definition to_local_datetime (tz : tzdata) (timestamp_ms : val) (config : SessionConfig) : res (option Z) :=
  finite ← _is_finite_number timestamp_ms;
  if negb finite then Ok None
  else
    catch (seconds ← py_div timestamp_ms (VFloat 1000);
           x ← py_float seconds;
           wall ← fromtimestamp (_resolve_tzinfo tz (timezone config)) x;
           Ok (Some wall))
      (fun ex => bool_decide (ex = OverflowError) || bool_decide (ex = ValueError)) None.

Definition classify_session_phase (local_dt : Z) (config : SessionConfig) : phase :=
  let t := second_of_day local_dt in
  let open_s := _seconds_of_day (open_time config) in
  let close_s := _seconds_of_day (close_time config) in
  let opening_end := open_s + opening_minutes config * _SECONDS_PER_MINUTE in
  let closing_start := close_s - closing_minutes config * _SECONDS_PER_MINUTE in
  let midday_start_s := _seconds_of_day (midday_start config) in
  let midday_end_s := _seconds_of_day (midday_end config) in
  if t <? open_s then PRE_OPEN
  else if close_s <? t then POST_CLOSE
  else if t <? opening_end then OPENING
  else if closing_start <=? t then CLOSING
  else if (midday_start_s <=? t) && (t <? midday_end_s) then MIDDAY
  else if (opening_end <=? t) && (t <? midday_start_s) then MORNING
  else AFTERNOON.

(** [local_dt.replace(hour=..., microsecond=0)] *)
Definition at_time (local_dt : Z) (t : dtime) : Z := day_of local_dt * us_per_day + _seconds_of_day t * us_per_second.

Definition _session_open_close_dts (local_dt : Z) (config : SessionConfig) : Z * Z :=
  (at_time local_dt (open_time config), at_time local_dt (close_time config)).

(** [math.floor(delta.total_seconds() / 60)] of a non-negative difference. *)
Definition whole_minutes (us : Z) : res (option float) :=
  seconds ← int_truediv us us_per_second;
  let minutes := (seconds / 60)%float in
  m ← f_int minutes;
  if m <? 0 then Ok None else f ← int_to_float m; Ok (Some f).

Definition compute_minutes_since_open (local_dt : Z) (config : SessionConfig) : res (option float) :=
  let '(open_dt, close_dt) := _session_open_close_dts local_dt config in
  if (local_dt <? open_dt) || (close_dt <? local_dt) then Ok None else whole_minutes (local_dt - open_dt).

Definition compute_minutes_until_close (local_dt : Z) (config : SessionConfig) : res (option float) :=
  let '(open_dt, close_dt) := _session_open_close_dts local_dt config in
  if (local_dt <? open_dt) || (close_dt <? local_dt) then Ok None else whole_minutes (close_dt - local_dt).

Record expiry_context := { is_expiry_day : bool; days_until_expiry : Z }.

Definition compute_expiry_context (local_dt : Z) (config : SessionConfig) : expiry_context :=
  let wd := weekday (day_of local_dt) in
  {| is_expiry_day := wd =? expiry_weekday config; days_until_expiry := (expiry_weekday config - wd) mod 7 |}.

Definition derive_time_favorability (session_phase : phase) (expiry : expiry_context) : favorability :=
  if is_expiry_day expiry && bool_decide (session_phase ∈ _EXPIRY_OVERRIDE_PHASES) then UNFAVORABLE
  else _BASE_FAVORABILITY session_phase.

(** ** The label *)

Record session_label := {
  sl_phase : phase;
  sl_since_open : option float;
  sl_until_close : option float;
  sl_expiry : expiry_context;
  sl_favorability : favorability;
}.

Definition label_of (local_dt : Z) (config : SessionConfig) : res session_label :=
  since ← compute_minutes_since_open local_dt config;
  until ← compute_minutes_until_close local_dt config;
  let session_phase := classify_session_phase local_dt config in
  let expiry := compute_expiry_context local_dt config in
  Ok {| sl_phase := session_phase; sl_since_open := since; sl_until_close := until; sl_expiry := expiry;
        sl_favorability := derive_time_favorability session_phase expiry |}.

(** A label, or the reason there is none. *)
Inductive session_result :=
  | Label (l : session_label)
  | Unavailable (reason : string).

Definition classify_session (tz : tzdata) (timestamp_ms : val) (config : SessionConfig) : session_result :=
  match (local ← to_local_datetime tz timestamp_ms config;
         match local with
         | None => Ok (Unavailable ("invalid timestamp: expected a finite epoch-millisecond number, got " ++ py_repr timestamp_ms))
         | Some local_dt => label ← label_of local_dt config; Ok (Label label)
         end) with
  | Ok r => r
  | Raise ex => Unavailable ("session classification error: " ++ exn_name ex)
  end.

(** [_unavailable]: the caller's context first. *)
Definition _unavailable (reason : string) (symbol timeframe : option string) : val :=
  VDict (opt_field "symbol" symbol ++ opt_field "timeframe" timeframe ++
         [(VStr "unavailable", VBool true); (VStr "reason", VStr reason)]).

(** The dictionary [classify_session] returns. *)
Definition session_payload (r : session_result) (symbol timeframe : option string) : val :=
  match r with
  | Unavailable reason => _unavailable reason symbol timeframe
  | Label l =>
      VDict ([(VStr "session_phase", VStr (phase_name (sl_phase l)));
              (VStr "minutes_since_open", opt_float (sl_since_open l));
              (VStr "minutes_until_close", opt_float (sl_until_close l));
              (VStr "expiry_context",
               VDict [(VStr "is_expiry_day", VBool (is_expiry_day (sl_expiry l)));
                      (VStr "days_until_expiry", VInt (days_until_expiry (sl_expiry l)))]);
              (VStr "time_favorability", VStr (favorability_name (sl_favorability l)))]
             ++ opt_field "symbol" symbol ++ opt_field "timeframe" timeframe)
  end.

(** * The session classifier: labels are consistent

    Every valid timestamp gets a label whose phase, minutes, expiry and favourability
    agree; the minutes are exact; the phases of a day come in order. *)

(** ** Minutes are exact *)

Lemma f_int_floor x k :
  fin x = true -> 0 <= k -> k * two1074 <= frank x < (k + 1) * two1074 -> f_int x = Ok k.
Proof.
  intros F Hk Hx. unfold f_int. pose proof (fin_not_nan x F) as N. rewrite N.
  assert (is_infinity x = false) as -> by (unfold fin, is_finite in F; rewrite N in F; by destruct (is_infinity x)).
  f_equal. pose proof two1074_pos. rewrite Z.quot_div_nonneg by nia. symmetry. apply (Z.div_unique_pos _ _ _ (frank x - k * two1074)); lia.
Qed.

Lemma us_positive us x : 0 < us -> rounds_quotient us (Z.to_pos us_per_second) x -> 2 ^ 1054 <= frank x.
Proof.
  intros H (_ & Hl & _). destruct (Q2F_dyadic 1 20 ltac:(lia) ltac:(lia)) as [R F].
  etransitivity; [|apply (Hl (Q2F 1 (Z.to_pos (2 ^ 20))) (fin_not_nan _ F))]; rewrite R; [done|].
  change (Z.pos (Z.to_pos us_per_second)) with 1000000. unfold two1074. change (1074 - 20) with 1054.
  change (2 ^ 1074) with (2 ^ 1054 * 2 ^ 20). pose proof (pow2_pos 1054 ltac:(lia)). nia.
Qed.

Lemma seconds_bounds us x k :
  0 <= us <= us_per_day -> k = us / 60000000 -> rounds_quotient us (Z.to_pos us_per_second) x ->
  60 * k * two1074 <= frank x <= (60 * (k + 1) * 2 ^ 20 - 1) * 2 ^ 1054.
Proof.
  intros Hus Hk (_ & Hl & Hu). pose proof (Z.div_mod us 60000000 ltac:(lia)) as D. rewrite <- Hk in D.
  pose proof (Z.mod_pos_bound us 60000000 ltac:(lia)) as M. unfold us_per_day, us_per_second in Hus.
  destruct (Q2F_int (60 * k) ltac:(lia)) as [R1 F1].
  destruct (Q2F_dyadic (60 * (k + 1) * 2 ^ 20 - 1) 20 ltac:(lia) ltac:(lia)) as [R2 F2].
  change (1074 - 20) with 1054 in R2. change (Z.pos (Z.to_pos us_per_second)) with 1000000 in *.
  pose proof two1074_pos. pose proof (pow2_pos 1054 ltac:(lia)). rewrite <- R1, <- R2. split.
  - apply Hl; [by apply fin_not_nan|]. rewrite R1. nia.
  - apply Hu; [by apply fin_not_nan|]. rewrite R2. change two1074 with (2 ^ 20 * 2 ^ 1054).
    generalize dependent (2 ^ 1054). intros t. change (2 ^ 20) with 1048576. intros. nia.
Qed.

Lemma seconds_comparable us x :
  0 <= us <= us_per_day -> rounds_quotient us (Z.to_pos us_per_second) x -> comparable_ranks x 60.
Proof.
  intros Hus R Rx. destruct (seconds_bounds us x _ Hus eq_refl R) as [_ U].
  assert (0 < us) as Hpos.
  { destruct (Z.eq_dec us 0) as [->|]; [|lia]. destruct R as (_ & _ & Hu).
    specialize (Hu 0%float eq_refl). change (frank 0) with 0 in Hu. lia. }
  pose proof (us_positive us x Hpos R) as Hp. unfold us_per_day, us_per_second in Hus.
  change (Z.log2 (frank 60)) with 1079. apply Z.log2_le_mono in Hp. rewrite Z.log2_pow2 in Hp by lia.
  assert (us / 60000000 <= 1440) by (apply Z.div_le_upper_bound; lia).
  assert (frank x <= 2 ^ 40 * 2 ^ 1054) as U' by (pose proof (pow2_pos 1054 ltac:(lia)); nia).
  rewrite <- Z.pow_add_r in U' by lia. apply Z.log2_le_mono in U'. rewrite Z.log2_pow2 in U' by lia. lia.
Qed.

(** The code's two float divisions and floor give the exact quotient. *)
Lemma whole_minutes_exact us :
  0 <= us <= us_per_day -> whole_minutes us = Ok (Some (Q2F (us / 60000000) 1)).
Proof.
  intros Hus. set (k := us / 60000000). assert (0 <= k <= 1440) as Hk.
  { unfold us_per_day, us_per_second in Hus. subst k. split; [apply Z.div_pos; lia|apply Z.div_le_upper_bound; lia]. }
  unfold whole_minutes. destruct (int_truediv_rounds us us_per_second) as (x & -> & Fx & R);
    [unfold us_per_day, us_per_second in Hus; lia|by vm_compute|].
  destruct (seconds_bounds us x k Hus eq_refl R) as [L U].
  pose proof two1074_pos. pose proof (pow2_pos 1054 ltac:(lia)).
  assert (frank 60 = 60 * two1074) as R60 by by vm_compute.
  destruct (fdiv_rounds x 60 Fx eq_refl) as (N & Dl & Du); [nia|rewrite R60; lia|by eapply seconds_comparable|].
  destruct (Q2F_int k ltac:(lia)) as [Rk Fk].
  destruct (Q2F_dyadic ((k + 1) * 2 ^ 26 - 1) 26 ltac:(lia) ltac:(lia)) as [Rb Fb]. change (1074 - 26) with 1048 in Rb.
  assert (k * two1074 <= frank (x / 60)%float) as DL.
  { rewrite <- Rk. apply Dl; [by apply fin_not_nan|]. rewrite Rk, R60. nia. }
  assert (frank (x / 60)%float <= ((k + 1) * 2 ^ 26 - 1) * 2 ^ 1048) as DU.
  { rewrite <- Rb. apply Du; [by apply fin_not_nan|]. rewrite Rb, R60.
    change (2 ^ 1054) with (2 ^ 6 * 2 ^ 1048) in U. pose proof (pow2_pos 1048 ltac:(lia)).
    generalize dependent two1074. generalize dependent (2 ^ 1048). intros t. intros. nia. }
  cbn [mbind res_bind]. rewrite (f_int_floor _ k).
  - cbn [mbind res_bind]. rewrite (proj2 (Z.ltb_ge _ 0)) by lia. by rewrite int_to_float_small by lia.
  - rewrite fin_rank, N. cbn [negb andb]. apply andb_true_iff. pose proof (pow2_pos 2098 ltac:(lia)).
    assert (1441 * 2 ^ 26 * 2 ^ 1048 < 2 ^ 2098) by by vm_compute. pose proof (pow2_pos 1048 ltac:(lia)).
    split; apply Z.ltb_lt; [nia|]. eapply Z.le_lt_trans; [exact DU|]. nia.
  - lia.
  - split; [done|]. eapply Z.le_lt_trans; [exact DU|]. change two1074 with (2 ^ 26 * 2 ^ 1048).
    pose proof (pow2_pos 1048 ltac:(lia)). nia.
Qed.

(** ** Resolved configurations *)

Record config_ok (c : SessionConfig) : Prop := {
  ok_open : 0 <= _seconds_of_day (open_time c);
  ok_order : _seconds_of_day (open_time c) < _seconds_of_day (close_time c);
  ok_close : _seconds_of_day (close_time c) < 86400;
  ok_opening : 0 <= opening_minutes c;
  ok_closing : 0 <= closing_minutes c;
  ok_weekday : 0 <= expiry_weekday c < 7;
}.

Lemma resolve_time_bounds e name d :
  0 <= _seconds_of_day d < 86400 -> 0 <= _seconds_of_day (_resolve_time e name d) < 86400.
Proof.
  intros H. unfold _resolve_time. destruct (env_text e name); [|done]. destruct (split_char ":" s) as [|hh [|mm []]]; try done.
  destruct (negb _); [done|]. destruct (parse_int (strip hh)) as [h|]; [|done]. destruct (parse_int (strip mm)) as [m|]; [|done].
  destruct (_ && _) eqn:E; [|done]. bools. unfold _seconds_of_day, clock. cbn. lia.
Qed.

Lemma resolved_config_ok tz e : config_ok (resolve_session_config tz e).
Proof.
  unfold resolve_session_config.
  pose proof (resolve_time_bounds e "SESSION_OPEN" DEFAULT_SESSION_OPEN ltac:(by vm_compute)).
  pose proof (resolve_time_bounds e "SESSION_CLOSE" DEFAULT_SESSION_CLOSE ltac:(by vm_compute)).
  pose proof (resolve_int_range_bounds e "SESSION_EXPIRY_WEEKDAY" DEFAULT_EXPIRY_WEEKDAY _WEEKDAY_MIN _WEEKDAY_MAX ltac:(by vm_compute)) as W.
  unfold _WEEKDAY_MIN, _WEEKDAY_MAX in *.
  constructor; cbn [open_time close_time opening_minutes closing_minutes expiry_weekday];
    try (destruct (_ <? _) eqn:L; bools; [lia|by vm_compute]); try (by apply resolve_int_min_ge). lia.
Qed.

(** ** Labels *)

Lemma at_time_shift local t : (local <? at_time local t) = (us_of_day local <? _seconds_of_day t * us_per_second).
Proof.
  unfold at_time, us_of_day, day_of. pose proof (Z.div_mod local us_per_day ltac:(done)).
  apply eq_true_iff_eq. rewrite !Z.ltb_lt. lia.
Qed.

Lemma at_time_shift_r local t : (at_time local t <? local) = (_seconds_of_day t * us_per_second <? us_of_day local).
Proof.
  unfold at_time, us_of_day, day_of. pose proof (Z.div_mod local us_per_day ltac:(done)).
  apply eq_true_iff_eq. rewrite !Z.ltb_lt. lia.
Qed.

(** What the minute fields are: whole minutes inside the closed session, else nothing. *)
Definition exact_minutes (inside : bool) (us : Z) : option float := if inside then Some (Q2F (us / 60000000) 1) else None.

Definition inside_session (config : SessionConfig) (local : Z) : bool :=
  (_seconds_of_day (open_time config) * us_per_second <=? us_of_day local) &&
  (us_of_day local <=? _seconds_of_day (close_time config) * us_per_second).

Lemma minutes_exact config local :
  config_ok config ->
  compute_minutes_since_open local config =
    Ok (exact_minutes (inside_session config local) (us_of_day local - _seconds_of_day (open_time config) * us_per_second)) /\
  compute_minutes_until_close local config =
    Ok (exact_minutes (inside_session config local) (_seconds_of_day (close_time config) * us_per_second - us_of_day local)).
Proof.
  intros [? ? ? ? ? ?]. unfold compute_minutes_since_open, compute_minutes_until_close, _session_open_close_dts, inside_session.
  rewrite at_time_shift, at_time_shift_r. pose proof (us_of_day_bounds local) as B.
  assert (local = day_of local * us_per_day + us_of_day local) as D.
  { unfold day_of, us_of_day. pose proof (Z.div_mod local us_per_day ltac:(done)). lia. }
  destruct (us_of_day local <? _) eqn:E1; [rewrite (proj2 (Z.leb_gt _ _)) by lia; done|].
  destruct (_ <? us_of_day local) eqn:E2; cbn [orb].
  { rewrite (proj2 (Z.leb_gt (us_of_day local) _)) by lia. by rewrite andb_false_r. }
  bools. rewrite !(proj2 (Z.leb_le _ _)) by lia. cbn [andb]. unfold at_time, exact_minutes.
  unfold us_per_second in *. assert (us_per_day = 86400000000) as U by done. rewrite U in *.
  rewrite !whole_minutes_exact by (rewrite U; lia). split; do 4 f_equal; lia.
Qed.

Lemma expiry_exact config local :
  config_ok config ->
  let x := compute_expiry_context local config in
  0 <= days_until_expiry x < 7 /\ (is_expiry_day x = true <-> days_until_expiry x = 0) /\
  weekday (day_of local + days_until_expiry x) = expiry_weekday config.
Proof.
  intros [? ? ? ? ? W]. cbn [compute_expiry_context days_until_expiry is_expiry_day].
  pose proof (weekday_bounds (day_of local)) as B. set (w := weekday (day_of local)) in *.
  pose proof (Z.mod_pos_bound (expiry_weekday config - w) 7 ltac:(lia)).
  pose proof (Z.div_mod (expiry_weekday config - w) 7 ltac:(lia)). split_and!; [lia|lia| |].
  - rewrite Z.eqb_eq. split; intros; [rewrite H1, Z.sub_diag; done|lia].
  - subst w. unfold weekday in *. pose proof (Z.div_mod (day_of local + 3) 7 ltac:(lia)).
    replace (day_of local + _ + 3) with
      (expiry_weekday config + ((day_of local + 3) / 7 - (expiry_weekday config - (day_of local + 3) mod 7) / 7) * 7) by lia.
    rewrite Z_mod_plus_full. by apply Z.mod_small.
Qed.

Lemma second_us local s : (second_of_day local < s <-> us_of_day local < s * us_per_second) /\
  (s < second_of_day local <-> s * us_per_second + us_per_second <= us_of_day local).
Proof.
  unfold second_of_day. assert (us_per_second = 1000000) as -> by done.
  pose proof (Z.div_mod (us_of_day local) 1000000 ltac:(lia)). pose proof (Z.mod_pos_bound (us_of_day local) 1000000 ltac:(lia)).
  lia.
Qed.

Lemma phase_pre_open config local :
  classify_session_phase local config = PRE_OPEN <-> us_of_day local < _seconds_of_day (open_time config) * us_per_second.
Proof.
  rewrite <- (proj1 (second_us local _)). unfold classify_session_phase.
  destruct (_ <? _seconds_of_day (open_time config)) eqn:E; bools; [done|].
  split; [|lia]. repeat case_match; done.
Qed.

Lemma phase_post_close config local :
  config_ok config ->
  classify_session_phase local config = POST_CLOSE <->
  _seconds_of_day (close_time config) * us_per_second + us_per_second <= us_of_day local.
Proof.
  intros [? ? ? ? ? ?]. rewrite <- (proj2 (second_us local _)). unfold classify_session_phase.
  destruct (_ <? _seconds_of_day (open_time config)) eqn:E; bools; [split; [done|lia]|].
  destruct (_seconds_of_day (close_time config) <? _) eqn:E2; bools; [done|].
  split; [|lia]. repeat case_match; done.
Qed.

Lemma favorability_exact p x :
  derive_time_favorability p x = UNFAVORABLE <-> p = OPENING \/ is_expiry_day x = true /\ (p = AFTERNOON \/ p = CLOSING).
Proof.
  unfold derive_time_favorability. destruct (is_expiry_day x), p; cbn;
    (split; [intros E; try discriminate E; auto|intros [E|[E [E'|E']]]; try discriminate; reflexivity]).
Qed.

(** With any environment, a timestamp gets a label exactly when it is a datetime, and
    then the label's fields agree: the phase is before the open exactly before the open
    and after the close exactly from the second after it; the minute fields are the exact
    whole minutes from the open and to the close when the instant lies between them, and
    absent otherwise (so within the closing second the phase is still in session but the
    minutes are absent); the expiry day is the next configured weekday, at most six days
    ahead; the label is unfavourable exactly in the opening and in the afternoon and
    closing of an expiry day. *)
Theorem session_label_exact tz e ts :
  let config := resolve_session_config tz e in
  let opens := _seconds_of_day (open_time config) * us_per_second in
  let closes := _seconds_of_day (close_time config) * us_per_second in
  (forall l, classify_session tz ts config = Label l ->
   exists local, to_local_datetime tz ts config = Ok (Some local) /\
     let t := us_of_day local in
     (sl_phase l = PRE_OPEN <-> t < opens) /\ (sl_phase l = POST_CLOSE <-> closes + us_per_second <= t) /\
     sl_since_open l = exact_minutes (inside_session config local) (t - opens) /\
     sl_until_close l = exact_minutes (inside_session config local) (closes - t) /\
     0 <= days_until_expiry (sl_expiry l) < 7 /\
     (is_expiry_day (sl_expiry l) = true <-> days_until_expiry (sl_expiry l) = 0) /\
     weekday (day_of local + days_until_expiry (sl_expiry l)) = expiry_weekday config /\
     (sl_favorability l = UNFAVORABLE <->
      sl_phase l = OPENING \/ is_expiry_day (sl_expiry l) = true /\ (sl_phase l = AFTERNOON \/ sl_phase l = CLOSING))) /\
  (forall local, to_local_datetime tz ts config = Ok (Some local) -> exists l, classify_session tz ts config = Label l).
Proof.
  pose proof (resolved_config_ok tz e) as K. revert K. generalize (resolve_session_config tz e). intros config K. cbn zeta.
  assert (forall local, exists l, label_of local config = Ok l) as Total.
  { intros local. unfold label_of. destruct (minutes_exact config local K) as [-> ->]. by eexists. }
  unfold classify_session. destruct (to_local_datetime tz ts config) as [[local|]|ex]; cbn [mbind res_bind].
  2,3: split; [done|intros ? ?; discriminate].
  split; [|intros l [= <-]; destruct (Total local) as [l ->]; by exists l].
  intros l. destruct (label_of local config) as [l'|] eqn:E; [|done]. intros [= ->]. exists local. split; [done|].
  unfold label_of in E. destruct (minutes_exact config local K) as [Ms Mu]. rewrite Ms, Mu in E. injection E as <-.
  cbn [sl_phase sl_since_open sl_until_close sl_expiry sl_favorability].
  pose proof (expiry_exact config local K) as X. cbn zeta in X. split_and!; try tauto.
  - by apply phase_pre_open.
  - by apply phase_post_close.
  - apply favorability_exact.
Qed.

(** Half past nine on 15 January 2025 in Kolkata: the opening drive is over at 9:30. *)
Lemma session_label_exact_witness :
  exists l, classify_session (fun _ => None) (VInt 1736913600000) (resolve_session_config (fun _ => None) (fun _ => None)) = Label l /\
  sl_phase l = MORNING /\ sl_since_open l = Some 15%float /\ days_until_expiry (sl_expiry l) = 1 /\
  (is_expiry_day (sl_expiry l) = true <-> days_until_expiry (sl_expiry l) = 0).
Proof.
  destruct (session_label_exact (fun _ => None) (fun _ => None) (VInt 1736913600000)) as [S T]. cbn zeta in S.
  destruct (T (20103 * us_per_day + 34200 * us_per_second)) as [l E]; [by vm_compute|]. exists l. split; [exact E|].
  destruct (S l E) as (local & H & _ & _ & _ & _ & _ & X & _). split_and!; [| | |exact X];
    vm_compute in E; injection E as <-; reflexivity.
Defined.

(** ** The phases of a day come in order *)

Definition phase_rank (p : phase) : Z :=
  match p with
  | PRE_OPEN => 0 | OPENING => 1 | MORNING => 2 | MIDDAY => 3 | AFTERNOON => 4 | CLOSING => 5 | POST_CLOSE => 6
  end.

(** The windows do not overlap: opening, midday and closing in this order. *)
Definition windows_ordered (c : SessionConfig) : bool :=
  (_seconds_of_day (open_time c) + opening_minutes c * 60 <=? _seconds_of_day (midday_start c)) &&
  (_seconds_of_day (midday_start c) <=? _seconds_of_day (midday_end c)) &&
  (_seconds_of_day (midday_end c) <=? _seconds_of_day (close_time c) - closing_minutes c * 60).

(** When the configured windows do not overlap, as with the defaults, the phases of a
    day only move forward: a later instant of the same day is never in an earlier phase. *)
Theorem session_phases_in_order tz e t1 t2 :
  let config := resolve_session_config tz e in
  windows_ordered config = true -> day_of t1 = day_of t2 -> t1 <= t2 ->
  phase_rank (classify_session_phase t1 config) <= phase_rank (classify_session_phase t2 config).
Proof.
  cbn zeta. pose proof (resolved_config_ok tz e) as K. revert K.
  generalize (resolve_session_config tz e). intros c [? ? ? ? ? ?] W D L. unfold windows_ordered in W. bools.
  assert (second_of_day t1 <= second_of_day t2) as S.
  { unfold second_of_day, us_of_day. apply Z.div_le_mono; [done|]. unfold day_of in D.
    pose proof (Z.div_mod t1 us_per_day ltac:(done)). pose proof (Z.div_mod t2 us_per_day ltac:(done)). lia. }
  unfold classify_session_phase, _SECONDS_PER_MINUTE. revert S. generalize (second_of_day t1) (second_of_day t2).
  intros s1 s2 S.
  repeat (match goal with |- context [if ?b then _ else _] => destruct b eqn:? end; cbn [phase_rank]; try lia; bools; try lia).
Qed.

Lemma session_phases_in_order_witness :
  windows_ordered (resolve_session_config (fun _ => None) (fun _ => None)) = true /\
  phase_rank (classify_session_phase (34200 * us_per_second) (resolve_session_config (fun _ => None) (fun _ => None))) <=
  phase_rank (classify_session_phase (55800 * us_per_second) (resolve_session_config (fun _ => None) (fun _ => None))).
Proof. split; [by vm_compute|]. apply session_phases_in_order; by vm_compute. Defined.
