(* ===== verification/EventRisk.v ===== *)
(** * Event risk

    Models [agents/deep-quant-loop/events.py]: the configuration, the choice of the
    nearest future event, the calendar-day distance, the risk class and the
    recommendation.  Zones and timestamps are those of [PyTime]; the timezone resolver
    and the finiteness test are the ones of [Session]. *)

From stdpp Require Import base list strings.
From Stdlib Require Import ZArith Lia Floats Ascii.
From S2P Require Import Prelude PyFloat PyNum PyVal PyEnv PyStats PyStr PyTime Session.

#[local] Set Warnings "-inexact-float".
Open Scope Z_scope.
Open Scope res_scope.

(** ** Configuration *)

Definition DEFAULT_EVENT_GATE_ENABLED := true.
Definition DEFAULT_EVENT_MARKET_TIMEZONE : string := "Asia/Kolkata".
Definition DEFAULT_EVENT_DEFAULT_HOLDING_HORIZON : string := "multi_session".
Definition DEFAULT_EVENT_IMMINENT_WINDOW_DAYS := 5.
Definition DEFAULT_EVENT_THROUGH_EVENT_WINDOW_DAYS := 2.
Definition DEFAULT_EVENT_SOURCE_TIMEOUT_S : float := 10%float.
Definition HOLDING_HORIZONS : list string := ["intraday"; "multi_session"]%string.
Definition _WINDOW_MIN := 0.
Definition _BOOL_TRUE : list string := ["1"; "true"; "yes"]%string.
Definition _BOOL_FALSE : list string := ["0"; "false"; "no"]%string.

Record EventConfig := {
  ev_enabled : bool;
  ev_timezone : string;
  default_holding_horizon : string;
  imminent_window_days : Z;
  through_event_window_days : Z;
  source_timeout_s : float;
  calendar_api_url : option string;
  calendar_file_path : option string;
}.

Definition _resolve_bool (e : env) (name : string) (default : bool) : bool :=
  match env_text e name with
  | None => default
  | Some t =>
      let text := lower t in
      if str_in text _BOOL_TRUE then true else if str_in text _BOOL_FALSE then false else default
  end.

Definition _resolve_horizon (e : env) (name default : string) : string :=
  match env_text e name with
  | None => default
  | Some candidate => if str_in candidate HOLDING_HORIZONS then candidate else default
  end.

Definition _resolve_float_exclusive (e : env) (name : string) (default low_exclusive : float) : float :=
  match env_text e name with
  | None => default
  | Some t =>
      match parse_float t with
      | Raise _ => default
      | Ok value => if negb (fin value) || PrimFloat.leb value low_exclusive then default else value
      end
  end.

Definition _resolve_optional_str (e : env) (name : string) : option string := env_text e name.

Definition resolve_event_config (tz : tzdata) (e : env) : EventConfig :=
  let imminent := resolve_int_min e "EVENT_IMMINENT_WINDOW_DAYS" DEFAULT_EVENT_IMMINENT_WINDOW_DAYS _WINDOW_MIN in
  let through :=
    resolve_int_min e "EVENT_THROUGH_EVENT_WINDOW_DAYS" DEFAULT_EVENT_THROUGH_EVENT_WINDOW_DAYS _WINDOW_MIN in
  {| ev_enabled := _resolve_bool e "EVENT_GATE_ENABLED" DEFAULT_EVENT_GATE_ENABLED;
     ev_timezone := _resolve_timezone tz e "EVENT_MARKET_TIMEZONE" DEFAULT_EVENT_MARKET_TIMEZONE;
     default_holding_horizon :=
       _resolve_horizon e "EVENT_DEFAULT_HOLDING_HORIZON" DEFAULT_EVENT_DEFAULT_HOLDING_HORIZON;
     imminent_window_days := if imminent <? through then DEFAULT_EVENT_IMMINENT_WINDOW_DAYS else imminent;
     through_event_window_days := if imminent <? through then DEFAULT_EVENT_THROUGH_EVENT_WINDOW_DAYS else through;
     source_timeout_s := _resolve_float_exclusive e "EVENT_SOURCE_TIMEOUT_S" DEFAULT_EVENT_SOURCE_TIMEOUT_S 0;
     calendar_api_url := _resolve_optional_str e "EVENT_CALENDAR_API_URL";
     calendar_file_path := _resolve_optional_str e "EVENT_CALENDAR_FILE" |}.

(** ** Risk and recommendation *)

Inductive risk := CLEAR | IMMINENT | THROUGH_EVENT.
Inductive recommendation := PROCEED | SIZE_DOWN | SHORTEN_HORIZON | STAND_ASIDE.

#[export] Instance risk_eq_dec : EqDecision risk.
Proof. solve_decision. Defined.
#[export] Instance recommendation_eq_dec : EqDecision recommendation.
Proof. solve_decision. Defined.

Definition risk_name (r : risk) : string :=
  match r with CLEAR => "clear" | IMMINENT => "imminent" | THROUGH_EVENT => "through_event" end.

Definition recommendation_name (r : recommendation) : string :=
  match r with
  | PROCEED => "proceed" | SIZE_DOWN => "size_down" | SHORTEN_HORIZON => "shorten_horizon" | STAND_ASIDE => "stand_aside"
  end.

Definition normalize_holding_horizon (value : val) (config : EventConfig) : string :=
  match value with
  | VStr s => if str_in s HOLDING_HORIZONS then s else default_holding_horizon config
  | _ => default_holding_horizon config
  end.

(** One candidate of the scan. *)
Definition consider (reference : val) (best : option float) (candidate : val) : res (option float) :=
  finite ← _is_finite_number candidate;
  if negb finite then Ok best
  else
    past ← py_le candidate reference;
    if past : bool then Ok best
    else
      match best with
      | None => x ← py_float candidate; Ok (Some x)
      | Some b =>
          nearer ← py_lt candidate (VFloat b);
          if nearer : bool then x ← py_float candidate; Ok (Some x) else Ok best
      end.

Definition select_next_event (candidates : list val) (reference_ms : val) : res (option float) :=
  finite ← _is_finite_number reference_ms;
  if negb finite then Ok None else foldM (consider reference_ms) None candidates.

(** [datetime.fromtimestamp(ms / 1000.0, tz).date()] as a day number. *)
Definition local_day (z : zone) (ms : val) : res Z :=
  seconds ← py_div ms (VFloat 1000); x ← py_float seconds; wall ← fromtimestamp z x; Ok (day_of wall).

Definition compute_days_until_event (tz : tzdata) (reference_ms event_ms : val) (config : EventConfig)
  : res (option Z) :=
  usable ← (_is_finite_number reference_ms and? _is_finite_number event_ms);
  if negb usable then Ok None
  else
    match tz (ev_timezone config) with
    | None => Ok None
    | Some z =>
        catch (reference_date ← local_day z reference_ms;
               event_date ← local_day z event_ms;
               let days := event_date - reference_date in
               Ok (if days <? 0 then None else Some days))
          (fun ex => bool_decide (ex = OverflowError) || bool_decide (ex = ValueError)) None
    end.

Definition classify_event_risk (days : Z) (holding_horizon : string) (config : EventConfig) : risk :=
  if days <? 0 then CLEAR
  else if String.eqb holding_horizon "intraday" then (if days =? 0 then THROUGH_EVENT else CLEAR)
  else if days <=? through_event_window_days config then THROUGH_EVENT
  else if days <=? imminent_window_days config then IMMINENT
  else CLEAR.

Definition derive_event_recommendation (event_risk : risk) (holding_horizon : string) : recommendation :=
  match event_risk with
  | IMMINENT => SIZE_DOWN
  | THROUGH_EVENT => if String.eqb holding_horizon "intraday" then STAND_ASIDE else SHORTEN_HORIZON
  | CLEAR => PROCEED
  end.

(** ** The assessment *)

Record assessment := {
  as_days : Z;
  as_risk : risk;
  as_recommendation : recommendation;
  as_horizon : string;
}.

(** An assessment, or the reason and the horizon of the marker. *)
Inductive event_result :=
  | Assessment (a : assessment)
  | NoAssessment (reason horizon : string).

Definition assess_event_risk (tz : tzdata) (reference_ms event_ms holding_horizon : val) (config : EventConfig)
  : event_result :=
  let horizon := normalize_holding_horizon holding_horizon config in
  match compute_days_until_event tz reference_ms event_ms config with
  | Raise ex => NoAssessment ("event classification error: " ++ exn_name ex) horizon
  | Ok None =>
      NoAssessment ("invalid event timing: expected finite epoch-millisecond reference/event timestamps, got reference="
                    ++ py_repr reference_ms ++ ", event=" ++ py_repr event_ms) horizon
  | Ok (Some days) =>
      let event_risk := classify_event_risk days horizon config in
      Assessment {| as_days := days; as_risk := event_risk;
                    as_recommendation := derive_event_recommendation event_risk horizon; as_horizon := horizon |}
  end.

(** The dictionary [assess_event_risk] returns. *)
Definition event_payload (r : event_result) (symbol event_date : val) : val :=
  match r with
  | Assessment a =>
      VDict [(VStr "days_until_event", VInt (as_days a)); (VStr "event_risk", VStr (risk_name (as_risk a)));
             (VStr "event_recommendation", VStr (recommendation_name (as_recommendation a)));
             (VStr "holding_horizon", VStr (as_horizon a)); (VStr "event_date", event_date); (VStr "symbol", symbol)]
  | NoAssessment reason horizon =>
      VDict ((if is_none symbol then [] else [(VStr "symbol", symbol)]) ++ [(VStr "holding_horizon", VStr horizon)] ++
             (if is_none event_date then [] else [(VStr "event_date", event_date)]) ++
             [(VStr "unavailable", VBool true); (VStr "reason", VStr reason)])
  end.
