(* ===== verification/Contracts.v ===== *)
(** * Tool result contracts

    Models the consumer-side revalidation of [agents/deep-quant-loop/tools.py]:
    [validate_contract] with the contract of every tool.  A payload either passes
    through unchanged or is replaced by a structured violation. *)

From stdpp Require Import base list strings.
From Stdlib Require Import ZArith Lia Floats Ascii.
From S2P Require Import Prelude PyFloat PyNum PyVal PyJson.

#[local] Set Warnings "-inexact-float".
Open Scope Z_scope.

(** ** Field names and enumerations *)

Definition _CONSENSUS_REQUIRED_FIELDS : list string :=
  ["current_price"; "rsi_14"; "ema_9"; "ema_21"; "sma_50"; "macd_line"; "macd_signal"; "macd_histogram"; "bb_upper";
   "bb_mid"; "bb_lower"; "atr_14"; "vwap"; "obv"; "cmf"]%string.
Definition _SR_REQUIRED_FIELDS : list string := ["pivot"; "s1"; "s2"; "s3"; "r1"; "r2"; "r3"]%string.
Definition _MULTI_TF_REQUIRED_FIELDS : list string := ["trend_1h"; "trend_4h"; "trend_1d"]%string.
Definition _PATTERN_REQUIRED_FIELDS : list string := ["pattern_type"; "sentiment"; "confidence"; "description"]%string.
Definition _VALID_PROJECTION_DIRECTIONS : list string := ["Up"; "Down"; "Flat"]%string.
Definition REGIME_TREND_STATES : list string := ["trending"; "ranging"; "transitional"]%string.
Definition REGIME_VOLATILITY_STATES : list string := ["low"; "normal"; "high"]%string.
Definition REGIME_FAVORABILITY : list string := ["favorable"; "unfavorable"; "neutral"]%string.
Definition _REGIME_MEASURE_FIELDS : list string :=
  ["directional_strength"; "choppiness"; "efficiency_ratio"; "atr_percentile"; "bb_width"]%string.
Definition INDEX_DIRECTIONS : list string := ["up"; "down"; "flat"]%string.
Definition RELATIVE_STRENGTH_STATES : list string := ["leader"; "inline"; "laggard"]%string.
Definition ALIGNMENT_VALUES : list string := ["aligned"; "misaligned"; "neutral"]%string.
Definition _RS_MEASURE_FIELDS : list string :=
  ["rs_ratio"; "rs_ratio_slope"; "relative_return"; "correlation"; "beta"]%string.
Definition ORDER_FLOW_STATES : list string := ["buying"; "selling"; "balanced"]%string.
Definition _OF_MEASURE_FIELDS : list string :=
  ["candle_delta"; "cvd_proxy"; "up_volume"; "down_volume"; "buying_pressure_ratio"]%string.
Definition FORECAST_DIRECTIONS : list string := ["up"; "down"; "flat"]%string.
Definition _FORECAST_MEASURE_FIELDS : list string := ["drift"; "volatility"; "standardized_drift"; "atr"]%string.
Definition SESSION_PHASES : list string :=
  ["pre_open"; "opening"; "morning"; "midday"; "afternoon"; "closing"; "post_close"]%string.
Definition TIME_FAVORABILITY : list string := ["favorable"; "unfavorable"; "neutral"]%string.
Definition EVENT_RISK_STATES : list string := ["clear"; "imminent"; "through_event"]%string.
Definition EVENT_RECOMMENDATIONS : list string := ["proceed"; "size_down"; "shorten_horizon"; "stand_aside"]%string.
Definition OPTIONS_BIAS_STATES : list string := ["bullish"; "bearish"; "neutral"]%string.
Definition OPTIONS_CHAIN_CONTEXTS : list string := ["own-chain"; "broad-market"]%string.
Definition _OPTIONS_NUMERIC_OR_NULL_FIELDS : list string := ["pcr_oi"; "pcr_volume"; "max_pain"; "futures_basis"]%string.

(** ** Checks *)

Definition _is_number (v : val) : bool := is_int_or_float v && negb (is_bool v).
Definition _is_number_or_null (v : val) : bool := is_none v || _is_number v.

Definition has_key (k : string) (d : list (val * val)) : bool := match dict_find k d with Some _ => true | None => false end.

Definition status_is (v : val) (names : list string) : bool :=
  match v with VStr s => str_in (lower (strip s)) names | _ => false end.

Definition _has_honest_marker (payload : val) : bool :=
  match payload with
  | VDict d =>
      has_key "error" d ||
      (match dict_get d "unavailable" with VBool true => true | _ => false end) ||
      status_is (dict_get d "sentiment_summary") ["unavailable"%string] ||
      status_is (dict_get d "status") ["unavailable"; "watch_registration_failed"]%string
  | VList items => existsb (fun item => match item with VDict d => has_key "error" d | _ => false end) items
  | _ => false
  end.

Definition _contract_error (detail : string) : val :=
  VDict [(VStr "error", VStr ("Tool result failed contract validation: " ++ detail)); (VStr "contract_violation", VStr detail)].

Definition type_name (v : val) : string :=
  match v with
  | VNone => "NoneType" | VBool _ => "bool" | VInt _ => "int" | VFloat _ => "float" | VStr _ => "str" | VBytes _ => "bytes"
  | VList _ => "list" | VTuple _ => "tuple" | VSet _ => "set" | VDict _ => "dict" | VObj _ _ => "object"
  end.

(** What a contract says of a payload; looking an unhashable value up in a set raises. *)
Inductive verdict :=
  | Conforms
  | Violates (detail : string)
  | Raises (message : string).

Definition both (a : verdict) (b : verdict) : verdict := match a with Conforms => b | _ => a end.

Declare Scope contract_scope.
Notation "a 'also' b" := (both a b) (at level 66, right associativity) : contract_scope.
#[local] Open Scope contract_scope.
#[local] Open Scope string_scope.

Definition require (b : bool) (detail : string) : verdict := if b then Conforms else Violates detail.

Definition for_each {A} (check : A -> verdict) (l : list A) : verdict := fold_right (fun x v => both (check x) v) Conforms l.

(** [v in {...}] of a set of strings. *)
Definition in_enum (v : val) (names : list string) (detail : string) : verdict :=
  match v with
  | VStr s => require (str_in s names) detail
  | VList _ | VDict _ | VSet _ => Raises ("unhashable type: '" ++ type_name v ++ "'")
  | _ => Violates detail
  end.

Definition unit_interval (v : val) : bool :=
  match as_num v with Some n => nleb (NFlt 0) n && nleb n (NFlt 1) | None => false end.

Definition expected_object (tool : string) (payload : val) : string :=
  tool ++ " expected an object, got " ++ type_name payload.

(** [payload] must be an object. *)
Definition object (tool : string) (payload : val) (check : list (val * val) -> verdict) : verdict :=
  match payload with VDict d => check d | _ => Violates (expected_object tool payload) end.

Definition present (d : list (val * val)) (fields : list string) (missing : string -> string) : verdict :=
  for_each (fun f => require (has_key f d) (missing f)) fields.

Definition number_or_null (d : list (val * val)) (missing wrong : string -> string) (f : string) : verdict :=
  require (has_key f d) (missing f) also require (_is_number_or_null (dict_get d f)) (wrong f).

Definition quoted (f : string) : string := "'" ++ f ++ "'".

(** The measures object of a label. *)
Definition measures_ok (label measures_of measure : string) (fields : list string) (d : list (val * val)) : verdict :=
  match dict_get d "measures" with
  | VDict m =>
      for_each (number_or_null m (fun f => measures_of ++ " missing field " ++ quoted f)
                                 (fun f => measure ++ " " ++ quoted f ++ " is neither numeric nor null")) fields
  | _ => Violates (label ++ " 'measures' field is not an object")
  end.

(** ** The contracts *)

Definition index_text (what : string) (i : Z) : string := what ++ "[" ++ Z_str i ++ "]".

Fixpoint for_each_from {A} (check : Z -> A -> verdict) (i : Z) (l : list A) : verdict :=
  match l with [] => Conforms | x :: l' => check i x also for_each_from check (i + 1) l' end.

Definition contract_candles (payload : val) : verdict :=
  match payload with
  | VList candles =>
      for_each_from (fun i candle =>
          match candle with
          | VDict c =>
              for_each (fun f =>
                  require (has_key f c) (index_text "candle" i ++ " missing field " ++ quoted f) also
                  require (_is_number (dict_get c f)) (index_text "candle" i ++ "." ++ f ++ " is not numeric"))
                ["timestamp_ms"; "open"; "high"; "low"; "close"; "volume"]%string
          | _ => Violates (index_text "candle" i ++ " is not an object")
          end) 0 candles
  | _ => Violates ("get_candles expected a list of candles, got " ++ type_name payload)
  end.

Definition contract_consensus (payload : val) : verdict :=
  object "get_consensus_report" payload (fun d =>
    for_each (number_or_null d (fun f => "consensus report missing field " ++ quoted f)
                               (fun f => "consensus field " ++ quoted f ++ " is neither numeric nor null"))
      _CONSENSUS_REQUIRED_FIELDS).

Definition contract_support_resistance (payload : val) : verdict :=
  object "get_support_resistance" payload (fun d =>
    for_each (fun f =>
        require (has_key f d) ("support/resistance missing field " ++ quoted f) also
        require (_is_number (dict_get d f)) ("support/resistance field " ++ quoted f ++ " is not numeric"))
      _SR_REQUIRED_FIELDS).

Definition contract_news (payload : val) : verdict :=
  object "get_news_context" payload (fun d =>
    require (has_key "sentiment_summary" d) "news context missing 'sentiment_summary'").

Definition contract_prediction (payload : val) : verdict :=
  object "get_prediction" payload (fun d =>
    let direction := dict_get d "projected_direction" in
    in_enum direction _VALID_PROJECTION_DIRECTIONS
      ("projected_direction '" ++ py_str direction ++ "' not in {Up, Down, Flat}") also
    require (_is_number (dict_get d "projected_value")) "prediction missing numeric 'projected_value'" also
    require (_is_number (dict_get d "confidence")) "prediction missing numeric 'confidence'").

Definition contract_volume_profile (payload : val) : verdict :=
  object "get_volume_profile" payload (fun d =>
    for_each (number_or_null d (fun f => "volume profile missing field " ++ quoted f)
                               (fun f => "volume profile field " ++ quoted f ++ " is neither numeric nor null"))
      ["poc"; "vah"; "val"]%string also
    require (_is_number (dict_get d "total_volume")) "volume profile missing numeric 'total_volume'").

Definition contract_multi_tf (payload : val) : verdict :=
  object "get_multi_tf_trend" payload (fun d =>
    present d _MULTI_TF_REQUIRED_FIELDS (fun f => "multi-tf trend missing field " ++ quoted f)).

Definition contract_patterns (payload : val) : verdict :=
  object "get_chart_patterns" payload (fun d =>
    match dict_get d "patterns" with
    | VList patterns =>
        for_each_from (fun i p =>
            match p with
            | VDict pd =>
                present pd _PATTERN_REQUIRED_FIELDS (fun f => index_text "pattern" i ++ " missing field " ++ quoted f) also
                require (_is_number (dict_get pd "confidence") && unit_interval (dict_get pd "confidence"))
                  (index_text "pattern" i ++ ".confidence is not a number in [0.0, 1.0]")
            | _ => Violates (index_text "pattern" i ++ " is not an object")
            end) 0 patterns
    | _ => Violates "chart patterns 'patterns' field is not a list"
    end).

Definition contract_regime (payload : val) : verdict :=
  object "get_market_regime" payload (fun d =>
    let trend_state := dict_get d "trend_state" in
    let volatility_state := dict_get d "volatility_state" in
    let favorability := dict_get d "favorability" in
    in_enum trend_state REGIME_TREND_STATES
      ("trend_state '" ++ py_str trend_state ++ "' not in {trending, ranging, transitional}") also
    in_enum volatility_state REGIME_VOLATILITY_STATES
      ("volatility_state '" ++ py_str volatility_state ++ "' not in {low, normal, high}") also
    in_enum favorability REGIME_FAVORABILITY
      ("favorability '" ++ py_str favorability ++ "' not in {favorable, unfavorable, neutral}") also
    measures_ok "regime" "regime measures" "regime measure" _REGIME_MEASURE_FIELDS d).

Definition alignment_ok (key : string) (d : list (val * val)) : verdict :=
  let alignment := dict_get d key in
  in_enum alignment ALIGNMENT_VALUES (key ++ " '" ++ py_str alignment ++ "' not in {aligned, misaligned, neutral}").

Definition contract_relative_strength (payload : val) : verdict :=
  object "get_relative_strength" payload (fun d =>
    let index_direction := dict_get d "index_direction" in
    let state := dict_get d "relative_strength_state" in
    in_enum index_direction INDEX_DIRECTIONS
      ("index_direction '" ++ py_str index_direction ++ "' not in {up, down, flat}") also
    in_enum state RELATIVE_STRENGTH_STATES
      ("relative_strength_state '" ++ py_str state ++ "' not in {leader, inline, laggard}") also
    alignment_ok "alignment" d also
    require (is_str (dict_get d "benchmark")) "relative strength missing 'benchmark' string" also
    measures_ok "relative strength" "relative strength measures" "relative strength measure" _RS_MEASURE_FIELDS d).

Definition contract_order_flow (payload : val) : verdict :=
  object "get_order_flow" payload (fun d =>
    let state := dict_get d "order_flow_state" in
    in_enum state ORDER_FLOW_STATES ("order_flow_state '" ++ py_str state ++ "' not in {buying, selling, balanced}") also
    alignment_ok "alignment" d also
    measures_ok "order flow" "order flow measures" "order flow measure" _OF_MEASURE_FIELDS d also
    number_or_null d (fun f => "order flow missing field " ++ quoted f)
      (fun f => "order flow " ++ quoted f ++ " is neither numeric nor null") "tick_ofi" also
    require (is_bool (dict_get d "live_tick_contributed")) "order flow 'live_tick_contributed' is not a boolean").

Definition unit_number (d : list (val * val)) (f : string) : verdict :=
  require (_is_number (dict_get d f) && unit_interval (dict_get d f))
    ("forecast " ++ quoted f ++ " is not a number in [0.0, 1.0]").

Definition contract_forecast (payload : val) : verdict :=
  object "get_forecast" payload (fun d =>
    let direction := dict_get d "projected_direction" in
    in_enum direction FORECAST_DIRECTIONS ("projected_direction '" ++ py_str direction ++ "' not in {up, down, flat}") also
    unit_number d "up_probability" also
    number_or_null d (fun f => "forecast missing field " ++ quoted f)
      (fun f => "forecast " ++ quoted f ++ " is neither numeric nor null") "expected_move_atr" also
    unit_number d "forecast_confidence" also
    alignment_ok "forecast_alignment" d also
    measures_ok "forecast" "forecast measures" "forecast measure" _FORECAST_MEASURE_FIELDS d).

Definition contract_session (payload : val) : verdict :=
  object "get_session_context" payload (fun d =>
    let session_phase := dict_get d "session_phase" in
    let minutes f := number_or_null d (fun f => "session missing field " ++ quoted f)
                       (fun f => "session " ++ quoted f ++ " is neither numeric nor null") f in
    let favorability := dict_get d "time_favorability" in
    in_enum session_phase SESSION_PHASES
      ("session_phase '" ++ py_str session_phase ++
       "' not in {pre_open, opening, morning, midday, afternoon, closing, post_close}") also
    minutes "minutes_since_open" also
    minutes "minutes_until_close" also
    match dict_get d "expiry_context" with
    | VDict x =>
        require (is_bool (dict_get x "is_expiry_day")) "session 'expiry_context.is_expiry_day' is not a boolean" also
        require (has_key "days_until_expiry" x) "session 'expiry_context' missing field 'days_until_expiry'" also
        require (_is_number (dict_get x "days_until_expiry")) "session 'expiry_context.days_until_expiry' is not numeric"
    | _ => Violates "session 'expiry_context' field is not an object"
    end also
    in_enum favorability TIME_FAVORABILITY
      ("time_favorability '" ++ py_str favorability ++ "' not in {favorable, unfavorable, neutral}")).

Definition contract_event_risk (payload : val) : verdict :=
  object "get_event_risk" payload (fun d =>
    let event_risk := dict_get d "event_risk" in
    let event_recommendation := dict_get d "event_recommendation" in
    in_enum event_risk EVENT_RISK_STATES
      ("event_risk '" ++ py_str event_risk ++ "' not in {clear, imminent, through_event}") also
    in_enum event_recommendation EVENT_RECOMMENDATIONS
      ("event_recommendation '" ++ py_str event_recommendation ++
       "' not in {proceed, size_down, shorten_horizon, stand_aside}") also
    number_or_null d (fun f => "event missing field " ++ quoted f)
      (fun f => "event " ++ quoted f ++ " is neither numeric nor null") "days_until_event" also
    require (is_str (dict_get d "event_date")) "event missing 'event_date' string").

Definition contract_options (payload : val) : verdict :=
  object "get_options_analytics" payload (fun d =>
    let bias := dict_get d "options_bias_state" in
    let context := dict_get d "chain_context" in
    in_enum bias OPTIONS_BIAS_STATES
      ("options_bias_state '" ++ py_str bias ++ "' not in {bullish, bearish, neutral}") also
    alignment_ok "alignment" d also
    in_enum context OPTIONS_CHAIN_CONTEXTS ("chain_context '" ++ py_str context ++ "' not in {own-chain, broad-market}") also
    for_each (number_or_null d (fun f => "options analytics missing field " ++ quoted f)
                               (fun f => "options analytic " ++ quoted f ++ " is neither numeric nor null"))
      _OPTIONS_NUMERIC_OR_NULL_FIELDS also
    match dict_get d "oi_buildup" with
    | VDict b => present b ["call"; "put"]%string (fun f => "options 'oi_buildup' missing field " ++ quoted f)
    | _ => Violates "options 'oi_buildup' field is not an object"
    end also
    match dict_get d "oi_walls" with
    | VDict w =>
        for_each (number_or_null w (fun f => "options 'oi_walls' missing field " ++ quoted f)
                                   (fun f => "options 'oi_walls." ++ f ++ "' is neither numeric nor null"))
          ["support"; "resistance"]%string
    | _ => Violates "options 'oi_walls' field is not an object"
    end also
    let iv_skew := dict_get d "iv_skew" in
    require (is_none iv_skew || is_dict iv_skew) "options 'iv_skew' is neither an object nor null").

(** The tools with a contract; any other payload passes. *)
Definition CONTRACTS : list (string * (val -> verdict)) :=
  [("get_candles", contract_candles); ("get_consensus_report", contract_consensus);
   ("get_support_resistance", contract_support_resistance); ("get_news_context", contract_news);
   ("get_prediction", contract_prediction); ("get_volume_profile", contract_volume_profile);
   ("get_multi_tf_trend", contract_multi_tf); ("get_chart_patterns", contract_patterns);
   ("get_market_regime", contract_regime); ("get_relative_strength", contract_relative_strength);
   ("get_order_flow", contract_order_flow); ("get_forecast", contract_forecast);
   ("get_session_context", contract_session); ("get_event_risk", contract_event_risk);
   ("get_options_analytics", contract_options)]%string.

Definition contract_of (tool_name : string) : val -> verdict := default (fun _ => Conforms) (assoc_str tool_name CONTRACTS).

Definition validate_contract (tool_name : string) (payload : val) : val :=
  if _has_honest_marker payload then payload
  else
    match contract_of tool_name payload with
    | Conforms => payload
    | Violates detail => _contract_error detail
    | Raises message => _contract_error ("unexpected error validating " ++ tool_name ++ ": " ++ message)
    end.
