(* ===== verification/EventSource.v ===== *)
(** * The event source and the event-risk tool

    Models the event part of [agents/deep-quant-loop/tools.py]: event dates to
    timestamps, the shapes a calendar file or API may have, the CSV reader, the two
    sources, and the tool [get_event_risk].  What the file system and the HTTP endpoint
    answer, and [datetime.fromisoformat], are inputs. *)

From stdpp Require Import base list strings.
From Stdlib Require Import ZArith Lia Floats Ascii.
From S2P Require Import Prelude PyFloat PyNum PyVal PyEnv PyStats PyJson PyStr PyTime Session EventRisk Contracts.

#[local] Set Warnings "-inexact-float".
Open Scope Z_scope.
Open Scope res_scope.

(** ** What is outside *)

(** [datetime.fromisoformat]: wall clock and, for an aware datetime, its offset, both in
    microseconds; [None] is [ValueError]. *)
Definition iso_parser := string -> option (Z * option Z).

Inductive file_state :=
  | Missing
  | Unreadable (exception : string)
  | Contents (text : string).

Inductive api_response :=
  | RequestFailed (exception : string)
  | Response (status : Z) (body : option val).

Record outside := {
  o_tz : tzdata;
  o_iso : iso_parser;
  o_file : string -> file_state;
  o_api : string -> api_response;
  o_now : float;
}.

(** ** Dates *)

Definition _EVENT_SYMBOL_KEYS : list string := ["symbol"; "ticker"; "scrip"; "code"]%string.
Definition _EVENT_DATE_KEYS : list string :=
  ["date"; "dates"; "event_date"; "eventDate"; "event_dates"; "earnings_date"; "earningsDate"; "earnings_dates";
   "results_date"; "resultsDate"]%string.

Definition char_at (n : nat) (s : string) : string := String.substring n 1 s.

Definition date_only (text : string) : bool :=
  (Nat.eqb (String.length text) 10) && String.eqb (char_at 4 text) "-" && String.eqb (char_at 7 text) "-".

Definition ends_with_Z (s : string) : bool :=
  match String.length s with O => false | S n => String.eqb (char_at n s) "Z" end.

(** Wall clock and offset of an event-date text. *)
Definition event_datetime (iso : iso_parser) (z : zone) (text : string) : option (Z * Z) :=
  if date_only text then
    match parse_int (String.substring 0 4 text), parse_int (String.substring 5 2 text),
          parse_int (String.substring 8 2 text) with
    | Ok y, Ok m, Ok d =>
        if valid_date y m d then let wall := days_from_civil y m d * us_per_day in Some (wall, wall_offset z wall)
        else None
    | _, _, _ => None
    end
  else
    let text := if ends_with_Z text then (String.substring 0 (String.length text - 1) text ++ "+00:00")%string else text in
    match iso text with
    | Some (wall, Some offset) => Some (wall, offset)
    | Some (wall, None) => Some (wall, wall_offset z wall)
    | None => None
    end.

Definition _parse_event_date_to_ms (o : outside) (config : EventConfig) (value : val) : res (option float) :=
  match value with
  | VBool _ => Ok None
  | VInt _ | VFloat _ =>
      finite ← py_isfinite value; if finite : bool then x ← py_float value; Ok (Some x) else Ok None
  | VStr s =>
      let text := strip s in
      if negb (nonempty text) then Ok None
      else
        match o_tz o (ev_timezone config) with
        | None => Ok None
        | Some z =>
            match event_datetime (o_iso o) z text with
            | None => Ok None
            | Some (wall, offset) =>
                match timestamp wall offset with
                | Ok seconds => Ok (Some (seconds * 1000)%float)
                | Raise _ => Ok None
                end
            end
        end
  | _ => Ok None
  end.

Definition is_date_value (v : val) : bool :=
  match v with VStr _ | VInt _ | VFloat _ => true | _ => false end.

Definition _coerce_date_values (value : val) : list val :=
  if is_date_value value then [value]
  else match value with VList l | VTuple l => List.filter is_date_value l | _ => [] end.

Definition norm_symbol (v : val) : string := match v with VStr s => lower (strip s) | _ => EmptyString end.

(** The dates of the date-bearing keys of a mapping. *)
Definition keyed_dates (d : list (val * val)) : list val :=
  concat (map (fun dk => match dict_find dk d with Some v => _coerce_date_values v | None => [] end) _EVENT_DATE_KEYS).

Definition first_str (d : list (val * val)) (keys : list string) : option string :=
  match List.find (fun k => is_str (dict_get d k)) keys with
  | Some k => match dict_get d k with VStr s => Some s | _ => None end
  | None => None
  end.

Definition _collect_symbol_dates (data symbol : val) : list val :=
  let target := norm_symbol symbol in
  if negb (nonempty target) then []
  else
    match data with
    | VDict d =>
        concat (map (fun '(k, v) => if is_str k && String.eqb (norm_symbol k) target then _coerce_date_values v else []) d)
    | VList records =>
        concat (map (fun r =>
            match r with
            | VDict d =>
                match first_str d _EVENT_SYMBOL_KEYS with
                | Some sym => if String.eqb (lower (strip sym)) target then keyed_dates d else []
                | None => []
                end
            | _ => []
            end) records)
    | _ => []
    end.

(** The dates of one item of a list of dates or events. *)
Definition item_dates (item : val) : list val :=
  match item with VStr _ => [item] | VDict d => keyed_dates d | _ => [] end.

Definition _collect_api_dates (body : val) : list val :=
  match body with
  | VList items => concat (map item_dates items)
  | VDict d =>
      (match dict_get d "events" with VList items => concat (map item_dates items) | _ => [] end) ++ keyed_dates d
  | _ => []
  end.

Definition _dates_to_ms (o : outside) (config : EventConfig) (raw_values : list val) : res (list val) :=
  parsed ← mapM_res (_parse_event_date_to_ms o config) raw_values;
  Ok (map VFloat (omap id parsed)).

(** ** CSV *)

Definition is_line_end (c : ascii) : bool :=
  let n := code_of c in (n =? 10) || (n =? 11) || (n =? 12) || (n =? 13) || (n =? 28) || (n =? 29) || (n =? 30).

(** [s.splitlines()]; [cr] says that the previous character was a carriage return. *)
Fixpoint splitlines_from (cr : bool) (s : string) : list string :=
  match s with
  | EmptyString => []
  | String c s' =>
      if cr && (code_of c =? 10) then splitlines_from false s'
      else if is_line_end c then EmptyString :: splitlines_from (code_of c =? 13) s'
      else
        match s' with
        | String c' _ =>
            if is_line_end c' then
              match splitlines_from false s' with
              | _ :: rest => String c EmptyString :: rest
              | [] => [String c EmptyString]
              end
            else
              match splitlines_from false s' with
              | w :: rest => String c w :: rest
              | [] => [String c EmptyString]
              end
        | EmptyString => [String c EmptyString]
        end
  end.

Definition splitlines (s : string) : list string := splitlines_from false s.

(** The states of the reader of [csv] with the default dialect. *)
Inductive csv_state := START_FIELD | IN_FIELD | IN_QUOTED_FIELD | QUOTE_IN_QUOTED_FIELD.

Record csv_reader := { cs_state : csv_state; cs_field : string; cs_fields : list string }.

Definition csv_start : csv_reader := {| cs_state := START_FIELD; cs_field := EmptyString; cs_fields := [] |}.

Definition save_field (r : csv_reader) : csv_reader :=
  {| cs_state := START_FIELD; cs_field := EmptyString; cs_fields := cs_fields r ++ [cs_field r] |}.

Definition add_char (c : ascii) (st : csv_state) (r : csv_reader) : csv_reader :=
  {| cs_state := st; cs_field := (cs_field r ++ String c EmptyString)%string; cs_fields := cs_fields r |}.

Definition csv_char (r : csv_reader) (c : ascii) : csv_reader :=
  let quote := Ascii.eqb c dquote in
  let comma := Ascii.eqb c "," in
  match cs_state r with
  | START_FIELD =>
      if quote then {| cs_state := IN_QUOTED_FIELD; cs_field := cs_field r; cs_fields := cs_fields r |}
      else if comma then save_field r
      else add_char c IN_FIELD r
  | IN_FIELD => if comma then save_field r else add_char c IN_FIELD r
  | IN_QUOTED_FIELD =>
      if quote then {| cs_state := QUOTE_IN_QUOTED_FIELD; cs_field := cs_field r; cs_fields := cs_fields r |}
      else add_char c IN_QUOTED_FIELD r
  | QUOTE_IN_QUOTED_FIELD =>
      if quote then add_char c IN_QUOTED_FIELD r
      else if comma then save_field r
      else add_char c IN_FIELD r
  end.

Fixpoint csv_chars (r : csv_reader) (s : string) : csv_reader :=
  match s with EmptyString => r | String c s' => csv_chars (csv_char r c) s' end.

(** Rows of the lines: an empty line is an empty row, a quoted field goes on. *)
Fixpoint csv_rows (r : csv_reader) (fresh : bool) (lines : list string) : list (list string) :=
  match lines with
  | [] =>
      if nonempty (cs_field r) || (match cs_state r with IN_QUOTED_FIELD => true | _ => false end)
      then [cs_fields r ++ [cs_field r]] else []
  | line :: rest =>
      if fresh && negb (nonempty line) then [] :: csv_rows csv_start true rest
      else
        let r := csv_chars r line in
        match cs_state r with
        | IN_QUOTED_FIELD => csv_rows r false rest
        | _ => (cs_fields r ++ [cs_field r]) :: csv_rows csv_start true rest
        end
  end.

Definition has_date (s : string) : bool :=
  match String.index 0 "date" s with Some _ => true | None => false end.

Fixpoint index_of (p : string -> bool) (i : nat) (l : list string) : option nat :=
  match l with [] => None | x :: l' => if p x then Some i else index_of p (S i) l' end.

Fixpoint indices_of (p : string -> bool) (i : nat) (l : list string) : list nat :=
  match l with [] => [] | x :: l' => (if p x then [i] else []) ++ indices_of p (S i) l' end.

Definition row_dates (sym_idx : nat) (date_idxs : list nat) (target : string) (row : list string) : list val :=
  match nth_error row sym_idx with
  | None => []
  | Some sym =>
      if negb (String.eqb (lower (strip sym)) target) then []
      else
        concat (map (fun di =>
            match nth_error row di with
            | Some cell => let value := strip cell in if nonempty value then [VStr value] else []
            | None => []
            end) date_idxs)
  end.

Definition _extract_dates_from_csv (raw : string) (symbol : val) : list val :=
  let target := norm_symbol symbol in
  if negb (nonempty target) then []
  else
    let rows := List.filter (fun row => existsb (fun c => nonempty (strip c)) row)
                  (csv_rows csv_start true (splitlines raw)) in
    match rows with
    | [] => []
    | first :: others =>
        let header := map (fun c => lower (strip c)) first in
        let is_symbol h := str_in h _EVENT_SYMBOL_KEYS in
        if existsb is_symbol header || existsb has_date header then
          let sym_idx := default 0%nat (index_of is_symbol 0 header) in
          let date_idxs :=
            match indices_of has_date 0 header with
            | [] => if Nat.ltb 1 (length header) then [1%nat] else []
            | l => l
            end in
          concat (map (row_dates sym_idx date_idxs target) others)
        else concat (map (row_dates 0 [1%nat] target) rows)
    end.

(** ** The two sources *)

(** Candidates, or why there are none. *)
Definition source_result := (list val + string)%type.

Definition has_suffix (suffix s : string) : bool :=
  String.eqb (String.substring (String.length s - String.length suffix) (String.length suffix) s) suffix && Nat.leb (String.length suffix) (String.length s).

Definition file_dates (file_path raw : string) (symbol : val) : list val + string :=
  let path := lower file_path in
  if has_suffix ".csv" path then inl (_extract_dates_from_csv raw symbol)
  else
    match loads raw with
    | Ok data => inl (_collect_symbol_dates data symbol)
    | Raise _ =>
        if has_suffix ".json" path then inr "calendar file is malformed (unparseable JSON)"%string
        else inl (_extract_dates_from_csv raw symbol)
    end.

Definition _read_event_file (o : outside) (symbol : val) (file_path : string) (config : EventConfig) : source_result :=
  match o_file o file_path with
  | Missing => inr ("calendar file not found: " ++ file_path)%string
  | Unreadable exception => inr ("calendar file read error: " ++ exception)%string
  | Contents raw =>
      if negb (nonempty (strip raw)) then inr "calendar file is empty"%string
      else
        match file_dates file_path raw symbol with
        | inr reason => inr reason
        | inl raw_dates =>
            match _dates_to_ms o config raw_dates with
            | Ok ms => inl ms
            | Raise ex => inr ("calendar file read error: " ++ exn_name ex)%string
            end
        end
  end.

Definition _read_event_api (o : outside) (symbol : val) (api_url : string) (config : EventConfig) : source_result :=
  match o_api o api_url with
  | RequestFailed exception => inr ("calendar API request failed: " ++ exception)%string
  | Response status body =>
      if (status <? 200) || (300 <=? status) then inr ("calendar API returned HTTP " ++ Z_str status)%string
      else
        match body with
        | None => inr "calendar API returned an unparseable body"%string
        | Some body =>
            match _dates_to_ms o config (_collect_symbol_dates body symbol ++ _collect_api_dates body) with
            | Ok ms => inl ms
            | Raise ex => inr ("calendar API request failed: " ++ exn_name ex)%string
            end
        end
  end.

Record source := {
  s_candidates : list val;
  s_configured : bool;
  s_failed : option string;
}.

Definition no_source : source := {| s_candidates := []; s_configured := false; s_failed := None |}.

Definition add_source (s : source) (r : source_result) : source :=
  match r with
  | inl cands => {| s_candidates := s_candidates s ++ cands; s_configured := true; s_failed := s_failed s |}
  | inr reason => {| s_candidates := s_candidates s; s_configured := true; s_failed := Some reason |}
  end.

Definition given (path : option string) : option string :=
  match path with Some p => if nonempty (strip p) then Some p else None | None => None end.

Definition _load_event_candidates (o : outside) (symbol : val) (config : EventConfig) : source :=
  let s := match given (calendar_file_path config) with
           | Some path => add_source no_source (_read_event_file o symbol path config)
           | None => no_source
           end in
  match given (calendar_api_url config) with
  | Some url => add_source s (_read_event_api o symbol url config)
  | None => s
  end.

(** ** The tool *)

Definition _event_unavailable (symbol holding_horizon : val) (reason : string) : val :=
  VDict [(VStr "symbol", symbol); (VStr "holding_horizon", holding_horizon); (VStr "unavailable", VBool true);
         (VStr "reason", VStr reason)].

(** [datetime.fromtimestamp(event_ms / 1000.0, tz).date().isoformat()], or [None]. *)
Definition event_date_of (o : outside) (event_ms : float) (config : EventConfig) : val :=
  match o_tz o (ev_timezone config) with
  | None => VNone
  | Some z =>
      match local_day z (VFloat event_ms) with
      | Ok day => let '(y, m, d) := civil_from_days day in VStr (iso_date y m d)
      | Raise _ => VNone
      end
  end.

Definition get_event_risk (o : outside) (e : env) (symbol holding_horizon : string) : val :=
  let config := resolve_event_config (o_tz o) e in
  if negb (ev_enabled config) then
    _event_unavailable (VStr symbol) (VStr holding_horizon) "event risk gate disabled by configuration"
  else if negb (nonempty (strip symbol)) then VDict [(VStr "error", VStr "get_event_risk requires a non-empty symbol")]
  else
    let horizon := normalize_holding_horizon (VStr holding_horizon) config in
    let reference_ms := VFloat (o_now o * 1000)%float in
    let s := _load_event_candidates o (VStr symbol) config in
    if negb (s_configured s) then _event_unavailable (VStr symbol) (VStr horizon) "no event source configured"
    else
      match select_next_event (s_candidates s) reference_ms with
      | Raise ex => _event_unavailable (VStr symbol) (VStr holding_horizon) ("event processing error: " ++ exn_name ex)
      | Ok None =>
          match s_failed s, s_candidates s with
          | Some reason, [] => _event_unavailable (VStr symbol) (VStr horizon) ("event source retrieval failed: " ++ reason)
          | _, _ => _event_unavailable (VStr symbol) (VStr horizon) "no upcoming scheduled event known for symbol"
          end
      | Ok (Some event_ms) =>
          let event_date := event_date_of o event_ms config in
          validate_contract "get_event_risk"
            (event_payload (assess_event_risk (o_tz o) reference_ms (VFloat event_ms) (VStr horizon) config)
               (VStr symbol) event_date)
      end.
