(* ===== verification/EventCalendar.v ===== *)
(** * The event calendar adapter

    Models [agents/deep-quant-loop/event_calendar.py]: dates to ISO, the projection of the
    upstream payload, the symbol filter, and the cached read with its refresh and its
    stale grace.  The upstream response and the monotonic clock are inputs; a request
    under the lock sees the cache as the previous holder left it. *)

From stdpp Require Import base list strings.
From Stdlib Require Import ZArith Lia Floats Ascii.
From S2P Require Import Prelude PyFloat PyNum PyVal PyEnv PyJson PyStr PyTime.

#[local] Set Warnings "-inexact-float".
Open Scope Z_scope.
Open Scope res_scope.

(** ** Configuration *)

Definition DEFAULT_TTL_SECONDS : float := 1800%float.
Definition DEFAULT_TIMEOUT_SECONDS : float := 15%float.
Definition DEFAULT_STALE_GRACE_SECONDS : float := 21600%float.
Definition DEFAULT_PURPOSES : list string := ["result"%string].

Definition _MONTHS : list (string * Z) :=
  [("jan", 1); ("feb", 2); ("mar", 3); ("apr", 4); ("may", 5); ("jun", 6); ("jul", 7); ("aug", 8); ("sep", 9); ("oct", 10);
   ("nov", 11); ("dec", 12)]%string.

Definition _env_float (e : env) (name : string) (default minimum : float) : float :=
  match env_text e name with
  | None => default
  | Some t => match parse_float t with Raise _ => default | Ok value => if PrimFloat.ltb minimum value then value else default end
  end.

Definition resolve_purposes (e : env) : list string :=
  match e "EVENT_CALENDAR_PURPOSES"%string with
  | None => DEFAULT_PURPOSES
  | Some raw =>
      if negb (nonempty (strip raw)) then DEFAULT_PURPOSES
      else if String.eqb (strip raw) "*" then []
      else
        match map (fun p => lower (strip p)) (List.filter (fun p => nonempty (strip p)) (split_char "," raw)) with
        | [] => DEFAULT_PURPOSES
        | parts => parts
        end
  end.

(** ** Dates *)

Definition _iso_or_none (year month day : Z) : option string :=
  if negb ((1 <=? month) && (month <=? 12)) || negb ((1 <=? day) && (day <=? 31)) || negb ((1970 <=? year) && (year <=? 2999))
  then None
  else if valid_date year month day then Some (iso_date year month day) else None.

Definition char_is (n : nat) (c s : string) : bool := String.eqb (String.substring n 1 s) c.

Definition to_iso_date (value : val) : option string :=
  match value with
  | VStr s =>
      let text := strip s in
      if negb (nonempty text) then None
      else if Nat.leb 10 (String.length text) && char_is 4 "-" text && char_is 7 "-" text then
        match parse_int (String.substring 0 4 text), parse_int (String.substring 5 2 text),
              parse_int (String.substring 8 2 text) with
        | Ok year, Ok month, Ok day => _iso_or_none year month day
        | _, _, _ => None
        end
      else
        match split_char "-" text with
        | [day_s; mon_s; year_s] =>
            match assoc_str (String.substring 0 3 (lower (strip mon_s))) _MONTHS with
            | None => None
            | Some month =>
                match parse_int (strip day_s), parse_int (strip year_s) with
                | Ok day, Ok year => _iso_or_none year month day
                | _, _ => None
                end
            end
        | _ => None
        end
  | _ => None
  end.

(** ** Rows *)

(** [p in text] *)
Definition contains (p text : string) : bool := match String.index 0 p text with Some _ => true | None => false end.

Definition purpose_matches (purpose : val) (purposes : list string) : bool :=
  match purposes with
  | [] => true
  | _ => match purpose with VStr s => existsb (fun p => contains p (lower s)) purposes | _ => false end
  end.

Record row := { r_symbol : string; r_date : string; r_purpose : string; r_company : string }.

Definition normalise_row (purposes : list string) (v : val) : option row :=
  match v with
  | VDict d =>
      match dict_get d "symbol" with
      | VStr symbol =>
          if negb (nonempty (strip symbol)) then None
          else
            match to_iso_date (dict_get d "date") with
            | None => None
            | Some iso =>
                let purpose := dict_get d "purpose" in
                if negb (purpose_matches purpose purposes) then None
                else
                  Some {| r_symbol := upper (strip symbol); r_date := iso;
                          r_purpose := match purpose with VStr p => strip p | _ => EmptyString end;
                          r_company := match dict_get d "company" with VStr c => c | _ => EmptyString end |}
            end
      | _ => None
      end
  | _ => None
  end.

Definition normalise_rows (raw : val) (purposes : list string) : list row :=
  match raw with VList rows => omap (normalise_row purposes) rows | _ => [] end.

Definition rows_for_symbol (rows : list row) (symbol : val) : list row :=
  match symbol with
  | VStr s =>
      if negb (nonempty (strip s)) then []
      else List.filter (fun r => String.eqb (upper (r_symbol r)) (upper (strip s))) rows
  | _ => []
  end.

(** The record the endpoint sends. *)
Definition row_payload (r : row) : val :=
  VDict [(VStr "symbol", VStr (r_symbol r)); (VStr "date", VStr (r_date r)); (VStr "purpose", VStr (r_purpose r));
         (VStr "company", VStr (r_company r))].

(** ** The cached read *)

(** What is cached, when, and under which filter. *)
Record cache := { c_rows : option (list row); c_at : float; c_purposes : list string }.

Definition empty_cache : cache := {| c_rows := None; c_at := 0%float; c_purposes := [] |}.

(** The upstream: a payload, or the text of what it raised. *)
Definition upstream := (val + string)%type.

(** One request's readings: the monotonic clock before the lock, under the lock, and when
    the upstream has answered. *)
Record reading := { t_first : float; t_locked : float; t_answered : float; answer : upstream; force_refresh : bool }.

Inductive calendar :=
  | Calendar (rows : list row) (stale : bool)
  | EventCalendarUnavailable (cause : string).

Definition _fresh_enough (c : cache) (purposes : list string) (ttl now : float) (force : bool) : bool :=
  match c_rows c with
  | None => false
  | Some _ => bool_decide (c_purposes c = purposes) && PrimFloat.ltb (now - c_at c) ttl && negb force
  end.

Definition cached_rows (c : cache) : list row := default [] (c_rows c).

(** The part under the lock. *)
Definition refresh (e : env) (c : cache) (r : reading) : calendar * cache :=
  let ttl := _env_float e "EVENT_CALENDAR_TTL_SECS" DEFAULT_TTL_SECONDS 0 in
  let grace := _env_float e "EVENT_CALENDAR_STALE_GRACE_SECS" DEFAULT_STALE_GRACE_SECONDS 0 in
  let purposes := resolve_purposes e in
  if _fresh_enough c purposes ttl (t_locked r) (force_refresh r) then (Calendar (cached_rows c) false, c)
  else
    match answer r with
    | inr cause =>
        let age := (t_answered r - c_at c)%float in
        match c_rows c with
        | Some rows =>
            if bool_decide (c_purposes c = purposes) && PrimFloat.leb age grace then (Calendar rows true, c)
            else (EventCalendarUnavailable cause, c)
        | None => (EventCalendarUnavailable cause, c)
        end
    | inl raw =>
        let rows := normalise_rows raw purposes in
        (Calendar rows false, {| c_rows := Some rows; c_at := t_answered r; c_purposes := purposes |})
    end.

(** [before] is the cache at the first check, [c] the cache under the lock. *)
Definition get_calendar (e : env) (before c : cache) (r : reading) : calendar * cache :=
  let ttl := _env_float e "EVENT_CALENDAR_TTL_SECS" DEFAULT_TTL_SECONDS 0 in
  if _fresh_enough before (resolve_purposes e) ttl (t_first r) (force_refresh r)
  then (Calendar (cached_rows before) false, c)
  else refresh e c r.

Definition reset_cache (c : cache) : cache := empty_cache.

(** [events_for_symbol]: the endpoint's answer. *)
Definition events_for_symbol (e : env) (before c : cache) (r : reading) (symbol : val) : calendar * cache :=
  match get_calendar e before c r with
  | (Calendar rows stale, c') => (Calendar (rows_for_symbol rows symbol) stale, c')
  | (EventCalendarUnavailable cause, c') => (EventCalendarUnavailable cause, c')
  end.

(** The route of [main.py]: status and JSON body. *)
Definition error_body (detail : string) : val := VDict [(VStr "detail", VStr detail)].

Definition event_calendar_route (e : env) (before c : cache) (r : reading) (symbol : string) : (Z * val) * cache :=
  let requested := strip symbol in
  if negb (nonempty requested) then ((422, error_body "symbol query parameter is required"), c)
  else
    match events_for_symbol e before c r (VStr requested) with
    | (Calendar rows _, c') => ((200, VList (map row_payload rows)), c')
    | (EventCalendarUnavailable cause, c') => ((503, error_body ("event calendar unavailable: " ++ cause)), c')
    end.
