(* ===== verification/EventFacts.v ===== *)
(** * Event risk: the gate, its sources and the calendar adapter

    The nearest future event is chosen, risk only grows as the event nears, dates the
    adapter emits are the dates the gate reads, a cached calendar is never older than its
    bounds, the classifiers' payloads conform to the tool contracts, and a date-only event
    is invisible on its own day. *)

From stdpp Require Import base list strings.
From Stdlib Require Import ZArith Lia Floats Ascii.
From S2P Require Import Prelude PyFloat PyRound PyNum PyQuot PyVal PyEnv PyJson PyStr PyTime PyStats Session EventRisk Contracts EventSource EventCalendar.

#[local] Set Warnings "-inexact-float".
Open Scope Z_scope.
Open Scope res_scope.

(** ** The nearest future event *)

(** The usable candidates: finite and after the reference. *)
Definition upcoming (reference x : float) : bool := fin x && PrimFloat.ltb reference x.

Lemma finite_number_float x : _is_finite_number (VFloat x) = Ok (fin x).
Proof. done. Qed.

Lemma consider_float r best x :
  fin r = true ->
  consider (VFloat r) best (VFloat x) =
  Ok (if upcoming r x then
        match best with None => Some x | Some b => if PrimFloat.ltb x b then Some x else Some b end
      else best).
Proof.
  intros Fr. unfold consider, upcoming. rewrite finite_number_float. cbn [mbind res_bind].
  destruct (fin x) eqn:Fx; cbn [negb andb]; [|done]. rewrite py_le_flt. cbn [mbind res_bind].
  assert (PrimFloat.leb x r = negb (PrimFloat.ltb r x)) as ->.
  { rewrite leb_rank, ltb_rank, (fin_not_nan _ Fr), (fin_not_nan _ Fx). cbn [negb andb].
    destruct (Z.leb_spec (frank x) (frank r)), (Z.ltb_spec (frank r) (frank x)); try done; lia. }
  destruct (PrimFloat.ltb r x); cbn [negb]; [|done]. destruct best as [b|]; [|done].
  rewrite py_lt_flt. cbn [mbind res_bind]. by destruct (PrimFloat.ltb x b).
Qed.

(** The nearest of the candidates so far. *)
Definition nearest_of (r : float) (xs : list float) (best : option float) : Prop :=
  match best with
  | None => forall x, In x xs -> upcoming r x = false
  | Some b => In b xs /\ upcoming r b = true /\ forall x, In x xs -> upcoming r x = true -> PrimFloat.leb b x = true
  end.

Lemma leb_trans_fin a b c : PrimFloat.leb a b = true -> PrimFloat.leb b c = true -> PrimFloat.leb a c = true.
Proof. rewrite !leb_rank, !andb_true_iff, !Z.leb_le. intuition lia. Qed.

Lemma leb_refl_fin a : fin a = true -> PrimFloat.leb a a = true.
Proof. intros F. rewrite leb_rank, (fin_not_nan _ F). cbn. lia. Qed.

Lemma ltb_negb_leb a b : fin a = true -> fin b = true -> PrimFloat.ltb a b = false -> PrimFloat.leb b a = true.
Proof. intros Fa Fb. rewrite ltb_rank, leb_rank, (fin_not_nan _ Fa), (fin_not_nan _ Fb). cbn. lia. Qed.

Lemma consider_nearest r xs best x :
  nearest_of r xs best ->
  nearest_of r (xs ++ [x])
    (if upcoming r x then match best with None => Some x | Some b => if PrimFloat.ltb x b then Some x else Some b end else best).
Proof.
  intros H. destruct (upcoming r x) eqn:U.
  - assert (fin x = true) as Fx by (unfold upcoming in U; by bools).
    destruct best as [b|]; [destruct H as (Hin & Ub & Hb)|].
    + assert (fin b = true) as Fb by (unfold upcoming in Ub; by bools).
      destruct (PrimFloat.ltb x b) eqn:L; split_and!; try done; try (apply in_app_iff; cbn; tauto).
      * intros y [Hy|[<-|[]]]%in_app_iff Uy; [|by apply leb_refl_fin].
        eapply leb_trans_fin; [by apply ltb_leb|by apply Hb].
      * intros y [Hy|[<-|[]]]%in_app_iff Uy; [by apply Hb|by apply ltb_negb_leb].
    + split_and!; [apply in_app_iff; cbn; tauto|done|].
      intros y [Hy|[<-|[]]]%in_app_iff Uy; [by rewrite (H y Hy) in Uy|by apply leb_refl_fin].
  - destruct best as [b|].
    + destruct H as (Hin & Ub & Hb). split_and!; [apply in_app_iff; tauto|done|].
      intros y [Hy|[<-|[]]]%in_app_iff Uy; [by apply Hb|congruence].
    + intros y [Hy|[<-|[]]]%in_app_iff; [by apply H|done].
Qed.

Lemma select_fold r xs ys best :
  fin r = true -> nearest_of r xs best ->
  exists b, foldM (consider (VFloat r)) best (map VFloat ys) = Ok b /\ nearest_of r (xs ++ ys) b.
Proof.
  intros Fr. revert xs best. induction ys as [|y ys IH]; intros xs best H; cbn [map foldM].
  - exists best. by rewrite app_nil_r.
  - rewrite (consider_float r best y Fr). cbn [mbind res_bind].
    destruct (IH (xs ++ [y]) _ (consider_nearest r xs best y H)) as (b & E & Hb). exists b. split; [exact E|].
    by rewrite <- app_assoc in Hb.
Qed.

Lemma select_nearest r xs : fin r = true ->
  exists b, select_next_event (map VFloat xs) (VFloat r) = Ok b /\ nearest_of r xs b.
Proof.
  intros Fr. unfold select_next_event. rewrite finite_number_float, Fr. cbn [mbind res_bind negb].
  apply (select_fold r [] xs None Fr). by intros x [].
Qed.

(** ** Risk *)

Definition risk_rank (r : risk) : Z := match r with CLEAR => 0 | IMMINENT => 1 | THROUGH_EVENT => 2 end.

Lemma resolved_windows tz e :
  let c := resolve_event_config tz e in 0 <= through_event_window_days c <= imminent_window_days c.
Proof.
  cbn zeta. unfold resolve_event_config. cbn [through_event_window_days imminent_window_days].
  pose proof (resolve_int_min_ge e "EVENT_THROUGH_EVENT_WINDOW_DAYS" DEFAULT_EVENT_THROUGH_EVENT_WINDOW_DAYS _WINDOW_MIN ltac:(done)).
  unfold _WINDOW_MIN in *. destruct (_ <? _) eqn:L; bools; [by vm_compute|lia].
Qed.

Lemma horizon_cases tz e value :
  let h := normalize_holding_horizon value (resolve_event_config tz e) in h = "intraday"%string \/ h = "multi_session"%string.
Proof.
  cbn zeta. assert (forall s, str_in s HOLDING_HORIZONS = true -> s = "intraday"%string \/ s = "multi_session"%string) as K.
  { intros s H. apply str_in_In in H. destruct H as [<-|[<-|[]]]; tauto. }
  assert (str_in (default_holding_horizon (resolve_event_config tz e)) HOLDING_HORIZONS = true) as D.
  { cbn [resolve_event_config default_holding_horizon]. unfold _resolve_horizon. destruct (env_text e _); [|done].
    by destruct (str_in s HOLDING_HORIZONS) eqn:E. }
  unfold normalize_holding_horizon. destruct value; try by apply K.
  destruct (str_in s HOLDING_HORIZONS) eqn:E; by apply K.
Qed.

(** With any environment: fewer days to the event never lower the risk; holding
    several sessions is never less risky than holding intraday; the recommendation is to
    proceed exactly when the risk is clear; and shortening a position to intraday clears
    the risk of every event it is advised for except an event on the same day, for which
    the intraday class is still through-event and its advice to stand aside. *)
Theorem event_risk_monotone tz e d1 d2 h :
  let config := resolve_event_config tz e in
  0 <= d1 <= d2 ->
  risk_rank (classify_event_risk d2 h config) <= risk_rank (classify_event_risk d1 h config) /\
  risk_rank (classify_event_risk d1 "intraday" config) <= risk_rank (classify_event_risk d1 "multi_session" config) /\
  (derive_event_recommendation (classify_event_risk d1 h config) h = PROCEED <-> classify_event_risk d1 h config = CLEAR) /\
  (derive_event_recommendation (classify_event_risk d1 "multi_session" config) "multi_session" = SHORTEN_HORIZON ->
   if d1 =? 0
   then derive_event_recommendation (classify_event_risk d1 "intraday" config) "intraday" = STAND_ASIDE
   else classify_event_risk d1 "intraday" config = CLEAR).
Proof.
  cbn zeta. pose proof (resolved_windows tz e) as W. cbn zeta in W. revert W. generalize (resolve_event_config tz e).
  intros c W Hd. unfold classify_event_risk. rewrite !(proj2 (Z.ltb_ge _ 0)) by lia.
  change (String.eqb "intraday" "intraday") with true. change (String.eqb "multi_session" "intraday") with false.
  cbn iota. split; [|split; [|split]].
  - destruct (String.eqb h "intraday"); [|destruct (d2 <=? through_event_window_days c) eqn:?, (d1 <=? through_event_window_days c) eqn:?,
      (d2 <=? imminent_window_days c) eqn:?, (d1 <=? imminent_window_days c) eqn:?; cbn; lia].
    destruct (d2 =? 0) eqn:?, (d1 =? 0) eqn:?; cbn; lia.
  - destruct (d1 =? 0) eqn:?, (d1 <=? through_event_window_days c) eqn:?, (d1 <=? imminent_window_days c) eqn:?; cbn; lia.
  - destruct (String.eqb h "intraday") eqn:H; [destruct (d1 =? 0)|destruct (d1 <=? through_event_window_days c), (d1 <=? imminent_window_days c)];
      cbn; rewrite ?H; done.
  - destruct (d1 =? 0); done.
Qed.

Lemma event_risk_monotone_witness :
  0 <= 0 <= 3 /\
  classify_event_risk 0 "multi_session" (resolve_event_config (fun _ => None) (fun _ => None)) = THROUGH_EVENT /\
  risk_rank (classify_event_risk 3 "multi_session" (resolve_event_config (fun _ => None) (fun _ => None))) <=
  risk_rank (classify_event_risk 0 "multi_session" (resolve_event_config (fun _ => None) (fun _ => None))).
Proof.
  split; [lia|]. split; [reflexivity|].
  refine (proj1 (event_risk_monotone (fun _ => None) (fun _ => None) 0 3 "multi_session" _)). lia.
Defined.

(** ** What the adapter emits, the gate reads *)

Lemma iso_or_none_spec y m d s :
  _iso_or_none y m d = Some s -> valid_date y m d = true /\ 1970 <= y < 3000 /\ s = iso_date y m d.
Proof.
  unfold _iso_or_none. destruct (_ || _) eqn:E; [done|]. destruct (valid_date y m d); [|done]. intros [= <-]. bools.
  split_and!; [done|lia|lia|done].
Qed.

Lemma to_iso_date_spec v s :
  to_iso_date v = Some s -> exists y m d, valid_date y m d = true /\ 1970 <= y < 3000 /\ s = iso_date y m d.
Proof.
  unfold to_iso_date. destruct v as [|?|?|?|t|?|?|?|?|?|? ?]; try done. destruct (negb _); [done|]. intros H.
  assert (exists y m d, _iso_or_none y m d = Some s) as (y & m & d & E); [|exists y, m, d; by apply iso_or_none_spec].
  revert H. repeat (case_match; try done); eauto.
Qed.

Lemma iso_date_nonempty y m d : valid_date y m d = true -> 1970 <= y < 3000 -> nonempty (iso_date y m d) = true.
Proof. intros V Y. destruct (iso_date_shape y m d V Y) as (_ & L & _). by destruct (iso_date y m d). Qed.

Lemma to_iso_date_id y m d : valid_date y m d = true -> 1970 <= y < 3000 -> to_iso_date (VStr (iso_date y m d)) = Some (iso_date y m d).
Proof.
  intros V Y. destruct (iso_date_shape y m d V Y) as (S & L & C4 & C7 & Py & Pm & Pd).
  unfold to_iso_date, char_is. rewrite S, L, C4, C7, Py, Pm, Pd, iso_date_nonempty by done.
  cbn [negb Nat.leb andb String.eqb Ascii.eqb Bool.eqb]. unfold _iso_or_none. rewrite V. unfold valid_date in V. bools.
  pose proof (days_in_month_le y m). rewrite !(proj2 (Z.leb_le _ _)) by lia. done.
Qed.

Lemma event_datetime_iso iso z y m d :
  valid_date y m d = true -> 1970 <= y < 3000 ->
  event_datetime iso z (iso_date y m d) =
  Some (days_from_civil y m d * us_per_day, wall_offset z (days_from_civil y m d * us_per_day)).
Proof.
  intros V Y. destruct (iso_date_shape y m d V Y) as (S & L & C4 & C7 & Py & Pm & Pd).
  unfold event_datetime, date_only, char_at. by rewrite L, C4, C7, Py, Pm, Pd, V.
Qed.

(** ** The adapter's answer, read by the gate *)

(** Local midnight of a day, as the gate computes it. *)
Definition midnight_ms (z : zone) (day : Z) : option float :=
  match timestamp (day * us_per_day) (wall_offset z (day * us_per_day)) with
  | Ok seconds => Some (seconds * 1000)%float
  | Raise _ => None
  end.

Definition day_of_row (r : row) (day : Z) : Prop :=
  exists y m d, valid_date y m d = true /\ 1970 <= y < 3000 /\ r_date r = iso_date y m d /\ day = days_from_civil y m d.

Lemma parse_row_date o config z r day :
  o_tz o (ev_timezone config) = Some z -> day_of_row r day ->
  _parse_event_date_to_ms o config (VStr (r_date r)) = Ok (midnight_ms z day).
Proof.
  intros Hz (y & m & d & V & Y & E & ->). unfold _parse_event_date_to_ms. rewrite E.
  destruct (iso_date_shape y m d V Y) as (S & _). rewrite S, iso_date_nonempty, Hz, event_datetime_iso by done.
  unfold midnight_ms. cbn [negb]. by destruct (timestamp _ _).
Qed.

Lemma lower_upper_char c d : upper_char c = upper_char d -> lower_char c = lower_char d.
Proof.
  intros H. assert (forall c, lower_char (upper_char c) = lower_char c) as K.
  { intros x. destruct x as [[] [] [] [] [] [] [] []]; reflexivity. }
  by rewrite <- (K c), H, K.
Qed.

Lemma lower_of_upper s t : upper s = upper t -> lower s = lower t.
Proof.
  revert t. induction s as [|c s IH]; intros [|d t] H; try done. unfold upper, lower in *. cbn [str_map] in *.
  injection H as H1 H2. rewrite (lower_upper_char _ _ H1). f_equal. by apply IH.
Qed.

(** A row as the adapter sends it for a symbol. *)
Definition row_for (symbol : string) (r : row) : Prop :=
  strip (r_symbol r) = r_symbol r /\ upper (r_symbol r) = upper (strip symbol) /\ exists day, day_of_row r day.

Lemma row_keyed_dates r : nonempty (r_date r) = true ->
  keyed_dates [(VStr "symbol", VStr (r_symbol r)); (VStr "date", VStr (r_date r)); (VStr "purpose", VStr (r_purpose r));
               (VStr "company", VStr (r_company r))] = [VStr (r_date r)].
Proof. done. Qed.

Lemma day_of_row_nonempty r day : day_of_row r day -> nonempty (r_date r) = true.
Proof. intros (y & m & d & V & Y & -> & _). by apply iso_date_nonempty. Qed.

Lemma adapter_dates symbol rows :
  nonempty (strip symbol) = true -> Forall (row_for symbol) rows ->
  _collect_symbol_dates (VList (map row_payload rows)) (VStr symbol) = map (fun r => VStr (r_date r)) rows /\
  _collect_api_dates (VList (map row_payload rows)) = map (fun r => VStr (r_date r)) rows.
Proof.
  intros Hs H. unfold _collect_symbol_dates, _collect_api_dates. cbn [norm_symbol].
  assert (nonempty (lower (strip symbol)) = true) as -> by (by destruct (strip symbol)). cbn [negb].
  induction H as [|r rows (S & U & day & D) _ [IH1 IH2]]; [done|]. pose proof (day_of_row_nonempty _ _ D) as N.
  cbn [map concat]. rewrite IH1, IH2. unfold row_payload. cbn [item_dates]. rewrite row_keyed_dates by done.
  unfold first_str. cbn [_EVENT_SYMBOL_KEYS List.find]. cbn [is_str dict_get dict_find String.eqb Ascii.eqb Bool.eqb from_option id].
  rewrite S, (lower_of_upper _ _ U), String.eqb_refl. done.
Qed.

Lemma dates_to_ms_rows o config z rows (days : row -> Z) :
  o_tz o (ev_timezone config) = Some z -> (forall r, In r rows -> day_of_row r (days r)) ->
  _dates_to_ms o config (map (fun r => VStr (r_date r)) rows) = Ok (map VFloat (omap (fun r => midnight_ms z (days r)) rows)).
Proof.
  intros Hz H. unfold _dates_to_ms.
  assert (mapM_res (_parse_event_date_to_ms o config) (map (fun r => VStr (r_date r)) rows) = Ok (map (fun r => midnight_ms z (days r)) rows)) as ->.
  { induction rows as [|r rows IH]; [done|]. cbn [map mapM_res]. rewrite (parse_row_date o config z r (days r)) by (try done; apply H; by left).
    rewrite IH by (intros; apply H; by right). done. }
  cbn [mbind res_bind]. do 2 f_equal. clear. induction rows as [|r rows IH]; [done|]. cbn [map omap list_omap id].
  destruct (midnight_ms z (days r)); cbn [id]; by rewrite IH.
Qed.

(** The day a row's ISO date names. *)
Definition row_day (r : row) : Z :=
  match parse_int (String.substring 0 4 (r_date r)), parse_int (String.substring 5 2 (r_date r)),
        parse_int (String.substring 8 2 (r_date r)) with
  | Ok y, Ok m, Ok d => days_from_civil y m d
  | _, _, _ => 0
  end.

Lemma row_day_spec r day : day_of_row r day -> row_day r = day /\ day_of_row r (row_day r).
Proof.
  intros H. assert (row_day r = day) as E; [|by rewrite E]. destruct H as (y & m & d & V & Y & E & ->). unfold row_day.
  rewrite E. destruct (iso_date_shape y m d V Y) as (_ & _ & _ & _ & -> & -> & ->). done.
Qed.

Lemma normalised_row purposes v r :
  normalise_row purposes v = Some r ->
  strip (r_symbol r) = r_symbol r /\ upper (r_symbol r) = r_symbol r /\ day_of_row r (row_day r).
Proof.
  unfold normalise_row. destruct v as [|?|?|?|?|?|?|?|?|d|? ?]; try done. destruct (dict_get d "symbol"); try done.
  destruct (negb _); [done|]. destruct (to_iso_date _) as [iso|] eqn:D; [|done]. destruct (negb _); [done|]. intros [= <-].
  apply to_iso_date_spec in D as (y & m & dd & V & Y & ->). cbn [r_symbol].
  split_and!; [|by autorewrite with pystr|].
  - assert (forall t, strip (upper t) = upper (strip t)) as ->; [|by autorewrite with pystr].
    intros t. unfold upper. apply strip_map. apply upper_space.
  - apply (row_day_spec _ (days_from_civil y m dd)). by exists y, m, dd.
Qed.

Lemma rows_for_symbol_spec raw purposes symbol :
  Forall (row_for symbol) (rows_for_symbol (normalise_rows raw purposes) (VStr symbol)).
Proof.
  unfold rows_for_symbol. destruct (negb _); [constructor|]. apply Forall_forall. intros r Hr. apply list_elem_of_In in Hr.
  apply filter_In in Hr as [Hr E]. apply String.eqb_eq in E. unfold normalise_rows in Hr. destruct raw; try done.
  apply list_elem_of_In, list_elem_of_omap in Hr as (v & _ & Hv). destruct (normalised_row _ _ _ Hv) as (S & U & D).
  split_and!; [done|by rewrite E|by eexists].
Qed.

Lemma adapter_rows_days rows symbol :
  Forall (row_for symbol) rows -> forall r, In r rows -> day_of_row r (row_day r).
Proof.
  rewrite Forall_forall. intros F r Hr%list_elem_of_In. destruct (F r Hr) as (_ & _ & day & Hd).
  by destruct (row_day_spec _ _ Hd).
Qed.

Lemma adapter_candidates o config z url symbol raw purposes :
  let rows := rows_for_symbol (normalise_rows raw purposes) (VStr symbol) in
  nonempty (strip symbol) = true -> o_tz o (ev_timezone config) = Some z ->
  o_api o url = Response 200 (Some (VList (map row_payload rows))) ->
  _read_event_api o (VStr symbol) url config =
    inl (map VFloat (omap (fun r => midnight_ms z (row_day r)) rows) ++ map VFloat (omap (fun r => midnight_ms z (row_day r)) rows)).
Proof.
  cbn zeta. pose proof (rows_for_symbol_spec raw purposes symbol) as F. revert F.
  generalize (rows_for_symbol (normalise_rows raw purposes) (VStr symbol)). intros rows F Hs Hz Ha.
  pose proof (adapter_rows_days _ _ F) as D. unfold _read_event_api. rewrite Ha.
  cbn [Z.ltb Z.leb Z.compare Pos.compare Pos.compare_cont orb].
  destruct (adapter_dates symbol rows Hs F) as [-> ->]. rewrite <- map_app.
  rewrite (dates_to_ms_rows o config z _ row_day Hz) by (intros r [|]%in_app_iff; by apply D). by rewrite omap_app, map_app.
Qed.

(** C27: When the endpoint answers with the adapter's rows for a symbol, the gate reads
    exactly those rows' dates: its candidates are the local midnights of the rows' dates,
    each twice (once per collector) and nothing else, so no row of another symbol and no
    invented date ever reaches the choice of the next event. *)
Theorem adapter_feeds_gate o config z url symbol raw purposes :
  let rows := rows_for_symbol (normalise_rows raw purposes) (VStr symbol) in
  let midnights := map VFloat (omap (fun r => midnight_ms z (row_day r)) rows) in
  nonempty (strip symbol) = true -> o_tz o (ev_timezone config) = Some z ->
  o_api o url = Response 200 (Some (VList (map row_payload rows))) ->
  _read_event_api o (VStr symbol) url config = inl (midnights ++ midnights) /\
  (forall r, In r rows -> upper (r_symbol r) = upper (strip symbol) /\
     exists y m d, valid_date y m d = true /\ r_date r = iso_date y m d /\ row_day r = days_from_civil y m d).
Proof.
  cbn zeta. intros Hs Hz Ha. split; [by apply adapter_candidates|]. intros r Hr.
  pose proof (rows_for_symbol_spec raw purposes symbol) as F.
  destruct (adapter_rows_days _ _ F r Hr) as (y & m & d & V & Y & E & E2). rewrite Forall_forall in F.
  apply list_elem_of_In in Hr. destruct (F r Hr) as (_ & U & _). split; [done|]. by exists y, m, d.
Qed.

Definition demo_payload : val :=
  VList [VDict [(VStr "symbol", VStr "infy"); (VStr "date", VStr "15-Jan-2025"); (VStr "purpose", VStr "Financial Results")];
         VDict [(VStr "symbol", VStr "TCS"); (VStr "date", VStr "10-Jan-2025"); (VStr "purpose", VStr "Results")]].

Definition kolkata : tzdata := fun name => if String.eqb name "Asia/Kolkata" then Some (fixed_zone 19800) else None.

Definition demo_outside (now : float) (symbol : string) : outside :=
  {| o_tz := kolkata; o_iso := fun _ => None; o_file := fun _ => Missing;
     o_api := fun _ => Response 200 (Some (VList (map row_payload
       (rows_for_symbol (normalise_rows demo_payload DEFAULT_PURPOSES) (VStr symbol)))));
     o_now := now |}.

Lemma adapter_feeds_gate_witness :
  exists rows, rows_for_symbol (normalise_rows demo_payload DEFAULT_PURPOSES) (VStr "INFY") = rows /\ length rows = 1%nat /\
  _read_event_api (demo_outside 0 "INFY") (VStr "INFY") "u" (resolve_event_config kolkata (fun _ => None)) =
    inl (map VFloat (omap (fun r => midnight_ms (fixed_zone 19800) (row_day r)) rows) ++
         map VFloat (omap (fun r => midnight_ms (fixed_zone 19800) (row_day r)) rows)).
Proof.
  eexists. split; [reflexivity|]. split; [reflexivity|].
  apply (adapter_feeds_gate (demo_outside 0 "INFY") _ (fixed_zone 19800)); reflexivity.
Defined.

(** ** The cached calendar *)

(** Whether a request asks the upstream. *)
Definition fetches (e : env) (before c : cache) (r : reading) : bool :=
  let ttl := _env_float e "EVENT_CALENDAR_TTL_SECS" DEFAULT_TTL_SECONDS 0 in
  negb (_fresh_enough before (resolve_purposes e) ttl (t_first r) (force_refresh r)) &&
  negb (_fresh_enough c (resolve_purposes e) ttl (t_locked r) (force_refresh r)).

(** The payloads the upstream has delivered, with their times. *)
Definition delivered := list (val * float).

Definition received (e : env) (before c : cache) (r : reading) : delivered :=
  match fetches e before c r, answer r with true, inl raw => [(raw, t_answered r)] | _, _ => [] end.

(** The caches a sequence of requests (and resets) can leave; the first check of a
    request may see the cache of an earlier moment. *)
Inductive reachable : delivered -> cache -> Prop :=
  | reach_start : reachable [] empty_cache
  | reach_reset log c : reachable log c -> reachable log (reset_cache c)
  | reach_request log log0 c before e r ans c' :
      reachable log c -> reachable log0 before -> (forall p, In p log0 -> In p log) ->
      get_calendar e before c r = (ans, c') -> reachable (log ++ received e before c r) c'.

(** A cached calendar is the projection of a payload the upstream delivered then. *)
Definition cache_genuine (log : delivered) (c : cache) : Prop :=
  match c_rows c with
  | None => True
  | Some rows => exists raw, In (raw, c_at c) log /\ rows = normalise_rows raw (c_purposes c)
  end.

Lemma cache_genuine_weaken log log' c : (forall p, In p log -> In p log') -> cache_genuine log c -> cache_genuine log' c.
Proof. unfold cache_genuine. intros H. destruct (c_rows c); [|done]. intros (raw & Hin & E). exists raw. split; [by apply H|done]. Qed.

(** How old an answer may be. *)
Definition answer_age_ok (e : env) (before c : cache) (r : reading) (stale : bool) (t : float) : Prop :=
  let ttl := _env_float e "EVENT_CALENDAR_TTL_SECS" DEFAULT_TTL_SECONDS 0 in
  let grace := _env_float e "EVENT_CALENDAR_STALE_GRACE_SECS" DEFAULT_STALE_GRACE_SECONDS 0 in
  if stale then (exists cause, answer r = inr cause) /\ PrimFloat.leb (t_answered r - t) grace = true
  else t = t_answered r \/ (force_refresh r = false /\
         (PrimFloat.ltb (t_first r - t) ttl = true \/ PrimFloat.ltb (t_locked r - t) ttl = true)).

Lemma fresh_genuine log c purposes ttl now force :
  cache_genuine log c -> _fresh_enough c purposes ttl now force = true ->
  exists raw, In (raw, c_at c) log /\ cached_rows c = normalise_rows raw purposes /\ force = false /\
              PrimFloat.ltb (now - c_at c) ttl = true.
Proof.
  unfold cache_genuine, _fresh_enough, cached_rows. destruct (c_rows c); [|done]. intros (raw & Hin & E) H. bools.
  apply bool_decide_eq_true in H. subst. by exists raw.
Qed.

Lemma refresh_genuine e before log c r ans c' :
  cache_genuine log c ->
  _fresh_enough before (resolve_purposes e) (_env_float e "EVENT_CALENDAR_TTL_SECS" DEFAULT_TTL_SECONDS 0) (t_first r) (force_refresh r) = false ->
  refresh e c r = (ans, c') ->
  cache_genuine (log ++ received e before c r) c' /\
  match ans with
  | Calendar rows stale => exists raw t, In (raw, t) (log ++ received e before c r) /\
      rows = normalise_rows raw (resolve_purposes e) /\ answer_age_ok e before c r stale t
  | EventCalendarUnavailable cause => answer r = inr cause
  end.
Proof.
  intros G Hb H. unfold refresh in H. unfold received, fetches. rewrite Hb. cbn [negb andb].
  destruct (_fresh_enough c _ _ (t_locked r) _) eqn:F; cbn [negb].
  - injection H as <- <-. destruct (fresh_genuine _ _ _ _ _ _ G F) as (raw & Hin & E & Hf & Ha). rewrite app_nil_r. split; [done|].
    exists raw, (c_at c). split; [done|]. split; [done|]. right. split; [done|by right].
  - destruct (answer r) as [raw|cause] eqn:A.
    + injection H as <- <-. split.
      * exists raw. split; [apply in_app_iff; right; by left|done].
      * exists raw, (t_answered r). split; [apply in_app_iff; right; by left|]. split; [done|by left].
    + rewrite app_nil_r. destruct (c_rows c) as [rows|] eqn:R; [|by injection H as <- <-].
      destruct (bool_decide _ && _) eqn:B; injection H as <- <-; [|done]. split; [done|]. bools.
      apply bool_decide_eq_true in H. unfold cache_genuine in G. rewrite R in G. destruct G as (raw & Hin & E).
      exists raw, (c_at c). split; [done|]. split; [by rewrite <- H|]. split; [by exists cause|done].
Qed.

Lemma get_calendar_genuine e log before c r ans c' :
  cache_genuine log before -> cache_genuine log c -> get_calendar e before c r = (ans, c') ->
  cache_genuine (log ++ received e before c r) c' /\
  match ans with
  | Calendar rows stale => exists raw t, In (raw, t) (log ++ received e before c r) /\
      rows = normalise_rows raw (resolve_purposes e) /\ answer_age_ok e before c r stale t
  | EventCalendarUnavailable cause => answer r = inr cause
  end.
Proof.
  intros Gb G H. unfold get_calendar in H. destruct (_fresh_enough before _ _ _ _) eqn:F.
  - injection H as <- <-. unfold received, fetches. rewrite F. cbn [negb andb]. rewrite app_nil_r. split; [done|].
    destruct (fresh_genuine _ _ _ _ _ _ Gb F) as (raw & Hin & E & Hf & Ha).
    exists raw, (c_at before). split; [done|]. split; [done|]. right. split; [done|by left].
  - by apply refresh_genuine.
Qed.

Lemma reachable_genuine log c : reachable log c -> cache_genuine log c.
Proof.
  induction 1 as [| |log log0 c before e r ans c' _ IH _ IH0 Sub H]; [done|done|].
  destruct (get_calendar_genuine e log before c r ans c'); try done. by eapply cache_genuine_weaken.
Qed.

(** After any sequence of requests, under any interleaving of first checks, what the
    calendar endpoint answers is the projection, under the filter now configured, of a
    payload the upstream really delivered: just now, or less than the time to live ago, or
    (when the upstream has just failed) at most the stale grace ago; with neither, the
    answer is an error and the gate reports a failed retrieval, never an empty calendar. *)
Theorem calendar_answer_is_genuine log log0 c before e r ans c' o config url symbol body status :
  reachable log c -> reachable log0 before -> (forall p, In p log0 -> In p log) ->
  get_calendar e before c r = (ans, c') ->
  event_calendar_route e before c r symbol = ((status, body), c') -> nonempty (strip symbol) = true ->
  o_api o url = Response status (Some body) ->
  match ans with
  | Calendar rows stale =>
      status = 200 /\ body = VList (map row_payload (rows_for_symbol rows (VStr (strip symbol)))) /\
      exists raw t, In (raw, t) (log ++ received e before c r) /\ rows = normalise_rows raw (resolve_purposes e) /\
                    answer_age_ok e before c r stale t
  | EventCalendarUnavailable cause =>
      answer r = inr cause /\ _read_event_api o (VStr symbol) url config = inr "calendar API returned HTTP 503"%string
  end.
Proof.
  intros R R0 Sub H Hr Hs Ha. pose proof (reachable_genuine _ _ R) as G. pose proof (reachable_genuine _ _ R0) as G0.
  destruct (get_calendar_genuine e log before c r ans c' (cache_genuine_weaken _ _ _ Sub G0) G H) as [_ A].
  unfold event_calendar_route, events_for_symbol in Hr. rewrite Hs, H in Hr. cbn [negb] in Hr. destruct ans as [rows stale|cause].
  - injection Hr as <- <-. by split_and!.
  - injection Hr as <- <-. split; [done|]. unfold _read_event_api. by rewrite Ha.
Qed.

(** A failed upstream with nothing cached: 503, and the gate says it could not read. *)
Lemma calendar_answer_is_genuine_witness :
  exists r, event_calendar_route (fun _ => None) empty_cache empty_cache r "INFY" =
    ((503, error_body "event calendar unavailable: timeout"), empty_cache) /\
  answer r = inr "timeout"%string /\
  _read_event_api {| o_tz := kolkata; o_iso := fun _ => None; o_file := fun _ => Missing;
                     o_api := fun _ => Response 503 (Some (error_body "event calendar unavailable: timeout")); o_now := 0%float |}
    (VStr "INFY") "u" (resolve_event_config kolkata (fun _ => None)) = inr "calendar API returned HTTP 503"%string.
Proof.
  exists {| t_first := 1; t_locked := 1; t_answered := 2; answer := inr "timeout"%string; force_refresh := false |}%float.
  split; [by vm_compute|].
  eapply (calendar_answer_is_genuine [] [] empty_cache empty_cache (fun _ => None)
    {| t_first := 1; t_locked := 1; t_answered := 2; answer := inr "timeout"%string; force_refresh := false |}%float
    (EventCalendarUnavailable "timeout") empty_cache
    {| o_tz := kolkata; o_iso := fun _ => None; o_file := fun _ => Missing;
       o_api := fun _ => Response 503 (Some (error_body "event calendar unavailable: timeout")); o_now := 0%float |}
    (resolve_event_config kolkata (fun _ => None)) "u" "INFY");
    [apply reach_start|apply reach_start|done|by vm_compute..].
Defined.

(** ** A date-only event on its own day *)

Lemma past_candidates_unselected now ms :
  fin now = true -> (forall x, In x ms -> PrimFloat.leb x now = true) ->
  select_next_event (map VFloat ms) (VFloat now) = Ok None.
Proof.
  intros Fn H. destruct (select_nearest now ms Fn) as ([b|] & -> & Hb); [|done]. destruct Hb as (Hin & U & _).
  specialize (H b Hin). unfold upcoming in U. bools. rewrite ltb_rank in *. rewrite leb_rank in H. bools. lia.
Qed.

(** From the local midnight of a scheduled event's date on, so during all of the
    event's own day, the gate fed by the calendar adapter reports that no upcoming event
    is known for the symbol: the adapter's dates are anchored at midnight and the choice
    of the next event drops everything at or before now, so the day-zero classes of the
    classifier (through-event, stand aside) cannot be reached from such a source. *)
Theorem event_day_is_invisible o e symbol horizon url z ms raw purposes day :
  let config := resolve_event_config (o_tz o) e in
  let rows := rows_for_symbol (normalise_rows raw purposes) (VStr symbol) in
  ev_enabled config = true -> calendar_file_path config = None -> given (calendar_api_url config) = Some url ->
  nonempty (strip symbol) = true -> o_tz o (ev_timezone config) = Some z ->
  o_api o url = Response 200 (Some (VList (map row_payload rows))) ->
  (forall r, In r rows -> row_day r = day) ->
  midnight_ms z day = Some ms -> fin (o_now o * 1000)%float = true -> PrimFloat.leb ms (o_now o * 1000) = true ->
  get_event_risk o e symbol horizon =
    _event_unavailable (VStr symbol) (VStr (normalize_holding_horizon (VStr horizon) config))
      "no upcoming scheduled event known for symbol".
Proof.
  cbn zeta. intros He Hf Hu Hs Hz Ha Hd Hm Fn Hle. unfold get_event_risk. rewrite He, Hs. cbn [negb].
  pose proof (adapter_candidates o (resolve_event_config (o_tz o) e) z url symbol raw purposes Hs Hz Ha) as C.
  unfold _load_event_candidates. rewrite Hf, Hu, C. cbn [given add_source no_source s_candidates s_configured s_failed negb].
  cbn [app]. rewrite <- map_app, past_candidates_unselected; [done|done|].
  intros x [Hx|Hx]%in_app_iff; apply list_elem_of_In, list_elem_of_omap in Hx as (r & Hr & Hx); apply list_elem_of_In in Hr;
    rewrite (Hd r Hr), Hm in Hx; by injection Hx as <-.
Qed.

(** Ten in the morning of 15 January 2025, the day of the announced results. *)
Definition api_env : env := fun n => if String.eqb n "EVENT_CALENDAR_API_URL" then Some "u"%string else None.

Lemma event_day_is_invisible_witness :
  get_event_risk (demo_outside 1736915400 "INFY") api_env "INFY" "intraday" =
    _event_unavailable (VStr "INFY") (VStr (normalize_holding_horizon (VStr "intraday") (resolve_event_config kolkata api_env)))
      "no upcoming scheduled event known for symbol" /\
  vget (get_event_risk (demo_outside 1736829000 "INFY") api_env "INFY" "intraday") "event_risk" = VStr "clear".
Proof.
  split; [|by vm_compute].
  refine (event_day_is_invisible (demo_outside 1736915400 "INFY") api_env "INFY" "intraday" "u" (fixed_zone 19800) 1736879400000
           demo_payload DEFAULT_PURPOSES 20103 _ _ _ _ _ _ _ _ _ _).
  7: { intros r Hr. vm_compute in Hr. destruct Hr as [<-|[]]. by vm_compute. }
  all: vm_compute; reflexivity.
Defined.

(** ** Payloads and contracts *)

Lemma phase_in_enum p : str_in (phase_name p) SESSION_PHASES = true.
Proof. by destruct p. Qed.

Lemma favorability_in_enum f : str_in (favorability_name f) TIME_FAVORABILITY = true.
Proof. by destruct f. Qed.

Lemma opt_float_number o : _is_number_or_null (opt_float o) = true.
Proof. by destruct o. Qed.

(** What the classifiers return passes the contract of its tool unchanged. *)
Lemma session_payload_conforms r symbol timeframe :
  validate_contract "get_session_context" (session_payload r symbol timeframe) = session_payload r symbol timeframe.
Proof.
  destruct r as [l|reason]; [|by destruct symbol, timeframe].
  unfold validate_contract. destruct (_has_honest_marker _); [done|].
  assert (contract_of "get_session_context" (session_payload (Label l) symbol timeframe) = Conforms) as ->; [|done].
  change (contract_of "get_session_context") with contract_session. unfold contract_session, object, session_payload.
  pose proof (phase_in_enum (sl_phase l)) as P. pose proof (favorability_in_enum (sl_favorability l)) as F.
  pose proof (opt_float_number (sl_since_open l)) as M1. pose proof (opt_float_number (sl_until_close l)) as M2.
  unfold number_or_null. cbn -[str_in SESSION_PHASES TIME_FAVORABILITY _is_number_or_null opt_field] in *.
  by rewrite P, F, M1, M2.
Qed.

Lemma event_payload_conforms r symbol date :
  validate_contract "get_event_risk" (event_payload r symbol (VStr date)) = event_payload r symbol (VStr date).
Proof.
  destruct r as [a|reason h]; [|by destruct symbol].
  unfold event_payload. destruct (as_risk a), (as_recommendation a); reflexivity.
Qed.

(** What the classifiers return, the consumer accepts: every session label and
    marker, and every event assessment with a date and every event marker, passes the
    contract of its tool unchanged. *)
Theorem classifier_payloads_conform tz ts config symbol timeframe reference event horizon event_config event_symbol date :
  validate_contract "get_session_context" (session_payload (classify_session tz ts config) symbol timeframe) =
    session_payload (classify_session tz ts config) symbol timeframe /\
  validate_contract "get_event_risk"
    (event_payload (assess_event_risk tz reference event horizon event_config) event_symbol (VStr date)) =
    event_payload (assess_event_risk tz reference event horizon event_config) event_symbol (VStr date).
Proof. split; [apply session_payload_conforms|apply event_payload_conforms]. Qed.
