(* ===== verification/Regime.v ===== *)
(** * The market regime of a candle sequence

    Models [agents/deep-quant-loop/regime.py]: the thresholds from the environment, the
    candles that count, the five measures, and the trend, volatility and favourability
    states they are read as.

    A candle is a dictionary; floats are binary64, so sums, quotients, [NaN] and
    infinities are those of the code.  [math.log10], which the choppiness measure takes,
    is the parameter [log10] on positive arguments. *)

From stdpp Require Import base list strings.
From Stdlib Require Import ZArith Lia Floats.
From S2P Require Import Prelude PyFloat PyNum PyVal PyEnv PyStats.

#[local] Set Warnings "-inexact-float".
Open Scope Z_scope.
Open Scope res_scope.

(** ** Thresholds *)

Definition DEFAULT_ADX_TREND_CUTOFF : float := 25.
Definition DEFAULT_CHOP_RANGING_CUTOFF : float := 61.8.
Definition DEFAULT_VOL_LOW_PCTL : float := 25.
Definition DEFAULT_VOL_HIGH_PCTL : float := 75.
Definition DEFAULT_MIN_CANDLES := 50.
Definition DEFAULT_ADX_PERIOD := 14.
Definition DEFAULT_CHOP_PERIOD := 14.
Definition DEFAULT_VOL_PERIOD := 14.
Definition DEFAULT_VOL_PCTL_WINDOW := 100.
Definition DEFAULT_BB_PERIOD := 20.
Definition _PERIOD_MIN := 1.

Record RegimeConfig := {
  adx_period : Z; chop_period : Z; vol_period : Z; vol_pctl_window : Z; bb_period : Z;
  adx_trend_cutoff : float; chop_ranging_cutoff : float; vol_low_pctl : float; vol_high_pctl : float;
  min_candles : Z;
}.

Definition largest_lookback (c : RegimeConfig) : Z :=
  Z.max (adx_period c) (Z.max (chop_period c) (Z.max (vol_period c) (Z.max (bb_period c) (vol_period c + vol_pctl_window c)))).

Definition resolve_regime_config (e : env) : RegimeConfig :=
  let period name default := resolve_int_min e name default _PERIOD_MIN in
  let percent name default := resolve_float_band e name default 0 100 in
  let low := percent "REGIME_VOL_LOW_PCTL"%string DEFAULT_VOL_LOW_PCTL in
  let high := percent "REGIME_VOL_HIGH_PCTL"%string DEFAULT_VOL_HIGH_PCTL in
  let swapped := PrimFloat.leb high low in
  {| adx_period := period "REGIME_ADX_PERIOD"%string DEFAULT_ADX_PERIOD;
     chop_period := period "REGIME_CHOP_PERIOD"%string DEFAULT_CHOP_PERIOD;
     vol_period := period "REGIME_VOL_PERIOD"%string DEFAULT_VOL_PERIOD;
     vol_pctl_window := period "REGIME_VOL_PCTL_WINDOW"%string DEFAULT_VOL_PCTL_WINDOW;
     bb_period := period "REGIME_BB_PERIOD"%string DEFAULT_BB_PERIOD;
     adx_trend_cutoff := percent "REGIME_ADX_TREND_CUTOFF"%string DEFAULT_ADX_TREND_CUTOFF;
     chop_ranging_cutoff := percent "REGIME_CHOP_RANGING_CUTOFF"%string DEFAULT_CHOP_RANGING_CUTOFF;
     vol_low_pctl := if swapped then DEFAULT_VOL_LOW_PCTL else low;
     vol_high_pctl := if swapped then DEFAULT_VOL_HIGH_PCTL else high;
     min_candles := period "REGIME_MIN_CANDLES"%string DEFAULT_MIN_CANDLES |}.

(** ** Candles *)

(** The validated prices of one candle. *)
Record bar := { b_open : float; b_high : float; b_low : float; b_close : float }.

Definition _is_finite_number : val -> res bool := finite_number.

Definition _parse_ohlc (candle : val) : res (option bar) :=
  match candle with
  | VDict d =>
      let o := dict_get d "open" in
      let h := dict_get d "high" in
      let low := dict_get d "low" in
      let c := dict_get d "close" in
      let v := dict_get d "volume" in
      priced ← andM (_is_finite_number o) (andM (_is_finite_number h) (andM (_is_finite_number low) (_is_finite_number c)));
      if negb priced then Ok None
      else
        counted ← (if is_none v then Ok true else _is_finite_number v);
        if negb counted then Ok None
        else
          o ← py_float o; h ← py_float h; low ← py_float low; c ← py_float c;
          Ok (Some {| b_open := o; b_high := h; b_low := low; b_close := c |})
  | _ => Ok None
  end.

(** What cannot be iterated holds no candle. *)
Definition _valid_ohlc_rows (candles : val) : res (list bar) :=
  match py_iter candles with
  | Raise _ => Ok []
  | Ok l => parsed ← mapM_res _parse_ohlc l; Ok (somes parsed)
  end.

Definition _valid_period (period : Z) : bool := 1 <=? period.

Definition _clamp : float -> float -> float -> float := clamp.

Definition true_range (prev r : bar) : float :=
  fmax2 (fmax2 (b_high r - b_low r) (PrimFloat.abs (b_high r - b_close prev))) (PrimFloat.abs (b_low r - b_close prev)).

(** [f] on each row but the first and the one before it. *)
Fixpoint consecutive {A B} (f : A -> A -> B) (prev : A) (rows : list A) : list B :=
  match rows with [] => [] | r :: rows' => f prev r :: consecutive f r rows' end.

Definition pairwise {A B} (f : A -> A -> B) (rows : list A) : list B :=
  match rows with [] => [] | r :: rows' => consecutive f r rows' end.

Definition _true_ranges (rows : list bar) : list float := pairwise true_range rows.

(** ** Measures *)

Definition up_move (prev r : bar) : float := (b_high r - b_high prev)%float.
Definition down_move (prev r : bar) : float := (b_low prev - b_low r)%float.

(** The larger move, when it is upward; when it is downward. *)
Definition plus_dm (prev r : bar) : float :=
  let up := up_move prev r in
  if PrimFloat.ltb (down_move prev r) up && PrimFloat.ltb 0 up then up else 0%float.
Definition minus_dm (prev r : bar) : float :=
  let down := down_move prev r in
  if PrimFloat.ltb (up_move prev r) down && PrimFloat.ltb 0 down then down else 0%float.

Fixpoint smooth (p running : float) (values : list float) : list float :=
  match values with
  | [] => []
  | v :: values' => let running := ((running - running / p) + v)%float in running :: smooth p running values'
  end.

Definition _wilder (values : list float) (p : nat) : list float :=
  let running := float_sum (take p values) in running :: smooth (f_of_nat p) running (drop p values).

(** The directional index of one smoothed point, [None] where it is undefined. *)
Definition directional_index (tr_s plus_s minus_s : float) : option float :=
  if PrimFloat.eqb tr_s 0 then None
  else
    let plus_di := (100 * plus_s / tr_s)%float in
    let minus_di := (100 * minus_s / tr_s)%float in
    let di_sum := (plus_di + minus_di)%float in
    if PrimFloat.eqb di_sum 0 then None else Some (100 * PrimFloat.abs (plus_di - minus_di) / di_sum)%float.

Fixpoint directional_indices (trs plus minus : list float) : list float :=
  match trs, plus, minus with
  | t :: trs', p :: plus', m :: minus' =>
      match directional_index t p m with
      | Some dx => dx :: directional_indices trs' plus' minus'
      | None => directional_indices trs' plus' minus'
      end
  | _, _, _ => []
  end.

Definition directional_strength (rows : list bar) (p : nat) : option float :=
  let dxs := directional_indices (_wilder (_true_ranges rows) p) (_wilder (pairwise plus_dm rows) p)
               (_wilder (pairwise minus_dm rows) p) in
  match dxs with [] => None | _ => Some (_clamp (mean (last_n p dxs)) 0 100) end.

Definition compute_directional_strength (candles : val) (period : Z) : res (option float) :=
  if negb (_valid_period period) then Ok None
  else
    rows ← _valid_ohlc_rows candles;
    if Z.of_nat (length rows) <? period + 1 then Ok None
    else Ok (directional_strength rows (Z.to_nat period)).

Section measures.
Variable log10 : float -> float.

(** [math.log10(x)] *)
Definition py_log10 (x : float) : res float :=
  if PrimFloat.ltb 0 x then Ok (log10 x) else if is_nan x then Ok x else Raise ValueError.

Definition max_of (l : list float) : float := match l with x :: l' => fmax_list x l' | [] => nan end.
Definition min_of (l : list float) : float := match l with x :: l' => fmin_list x l' | [] => nan end.

Definition compute_choppiness (candles : val) (period : Z) : res (option float) :=
  if negb (_valid_period period) || (period <? 2) then Ok None
  else
    rows ← _valid_ohlc_rows candles;
    if Z.of_nat (length rows) <? period + 1 then Ok None
    else
      let sub := last_n (Z.to_nat (period + 1)) rows in
      let sum_tr := float_sum (_true_ranges sub) in
      let price_range := (max_of (map b_high (drop 1 sub)) - min_of (map b_low (drop 1 sub)))%float in
      if PrimFloat.leb price_range 0 || PrimFloat.leb sum_tr 0 then Ok None
      else
        q ← f_div sum_tr price_range;
        n ← int_to_float period;
        a ← py_log10 q; b ← py_log10 n;
        ci ← f_div (100 * a)%float b;
        Ok (Some (_clamp ci 0 100)).

Definition compute_efficiency_ratio (candles : val) (period : Z) : res (option float) :=
  if negb (_valid_period period) then Ok None
  else
    rows ← _valid_ohlc_rows candles;
    if Z.of_nat (length rows) <? period + 1 then Ok None
    else
      let closes := map b_close (last_n (Z.to_nat (period + 1)) rows) in
      let path := float_sum (pairwise (fun a b => PrimFloat.abs (b - a)) closes) in
      if PrimFloat.eqb path 0 then Ok None
      else Ok (Some (_clamp (PrimFloat.abs (default nan (last closes) - default nan (head closes)) / path)%float 0 1)).

(** The means of every [n] consecutive values. *)
Definition rolling_means (n : nat) (l : list float) : list float :=
  map (fun i => (float_sum (take n (drop i l)) / f_of_nat n)%float) (seq 0 (S (length l - n))).

Definition compute_atr_percentile (candles : val) (atr_period window : Z) : res (option float) :=
  if negb (_valid_period atr_period) || negb (_valid_period window) then Ok None
  else
    rows ← _valid_ohlc_rows candles;
    let trs := _true_ranges rows in
    if Z.of_nat (length trs) <? atr_period then Ok None
    else
      let atrs := rolling_means (Z.to_nat atr_period) trs in
      let sample := last_n (Z.to_nat window) atrs in
      if forallb (fun v => PrimFloat.eqb v 0) sample then Ok None
      else
        let latest := default nan (last sample) in
        let count_le := length (List.filter (fun v => PrimFloat.leb v latest) sample) in
        Ok (Some (_clamp (100 * f_of_nat count_le / f_of_nat (length sample))%float 0 100)).

Definition compute_bb_width (candles : val) (period : Z) : res (option float) :=
  if negb (_valid_period period) then Ok None
  else
    rows ← _valid_ohlc_rows candles;
    if Z.of_nat (length rows) <? period then Ok None
    else
      let closes := map b_close (last_n (Z.to_nat period) rows) in
      if PrimFloat.eqb (max_of closes) (min_of closes) then Ok None
      else
        let mid := mean closes in
        if PrimFloat.eqb mid 0 then Ok None
        else
          squares ← mapM_res (fun x => square (x - mid)%float) closes;
          let std := PrimFloat.sqrt (mean squares) in
          width ← f_div ((mid + 2 * std) - (mid - 2 * std))%float mid;
          Ok (Some width).

(** ** States *)

Inductive trend_state := TRENDING | RANGING | TRANSITIONAL.
Inductive volatility_state := LOW | NORMAL | HIGH.
Inductive favorability := FAVORABLE | UNFAVORABLE | NEUTRAL.

Definition trend_name (t : trend_state) : string :=
  match t with TRENDING => "trending" | RANGING => "ranging" | TRANSITIONAL => "transitional" end.
Definition volatility_name (v : volatility_state) : string := match v with LOW => "low" | NORMAL => "normal" | HIGH => "high" end.
Definition favorability_name (f : favorability) : string :=
  match f with FAVORABLE => "favorable" | UNFAVORABLE => "unfavorable" | NEUTRAL => "neutral" end.

Definition _FAVORABILITY_TABLE (t : trend_state) (v : volatility_state) : favorability :=
  match t, v with
  | TRENDING, LOW => NEUTRAL | TRENDING, NORMAL => FAVORABLE | TRENDING, HIGH => UNFAVORABLE
  | RANGING, _ => UNFAVORABLE
  | TRANSITIONAL, HIGH => UNFAVORABLE | TRANSITIONAL, _ => NEUTRAL
  end.

Definition classify_trend_state (adx chop : option float) (config : RegimeConfig) : trend_state :=
  match adx, chop with
  | Some adx, Some chop =>
      let strong_direction := PrimFloat.leb (adx_trend_cutoff config) adx in
      let choppy := PrimFloat.leb (chop_ranging_cutoff config) chop in
      if strong_direction && negb choppy then TRENDING
      else if negb strong_direction && choppy then RANGING
      else TRANSITIONAL
  | _, _ => TRANSITIONAL
  end.

Definition classify_volatility_state (atr_pctl : option float) (config : RegimeConfig) : volatility_state :=
  match atr_pctl with
  | None => NORMAL
  | Some p => if PrimFloat.ltb p (vol_low_pctl config) then LOW else if PrimFloat.ltb (vol_high_pctl config) p then HIGH else NORMAL
  end.

Definition derive_favorability := _FAVORABILITY_TABLE.

(** ** The label *)

Record measures := {
  m_directional_strength : option float;
  m_choppiness : option float;
  m_efficiency_ratio : option float;
  m_atr_percentile : option float;
  m_bb_width : option float;
}.

Record regime_label := {
  rl_trend : trend_state;
  rl_volatility : volatility_state;
  rl_favorability : favorability;
  rl_measures : measures;
  rl_candles_used : Z;
}.

Inductive regime_result := Label (l : regime_label) | Unavailable (reason : string).

Definition measures_of (candles : val) (config : RegimeConfig) : res measures :=
  directional_strength ← compute_directional_strength candles (adx_period config);
  choppiness ← compute_choppiness candles (chop_period config);
  efficiency_ratio ← compute_efficiency_ratio candles (chop_period config);
  atr_percentile ← compute_atr_percentile candles (vol_period config) (vol_pctl_window config);
  bb_width ← compute_bb_width candles (bb_period config);
  Ok {| m_directional_strength := directional_strength; m_choppiness := choppiness; m_efficiency_ratio := efficiency_ratio;
        m_atr_percentile := atr_percentile; m_bb_width := bb_width |}.

Definition no_measure (m : measures) : bool :=
  match m with {| m_directional_strength := None; m_choppiness := None; m_efficiency_ratio := None; m_atr_percentile := None; m_bb_width := None |} => true
  | _ => false end.

Definition label_of (m : measures) (received : Z) (config : RegimeConfig) : regime_label :=
  let trend := classify_trend_state (m_directional_strength m) (m_choppiness m) config in
  let volatility := classify_volatility_state (m_atr_percentile m) config in
  {| rl_trend := trend; rl_volatility := volatility; rl_favorability := derive_favorability trend volatility;
     rl_measures := m; rl_candles_used := received |}.

Definition required_candles (config : RegimeConfig) : Z := Z.max (min_candles config) (largest_lookback config).

Definition classify_regime (candles : val) (config : RegimeConfig) : regime_result :=
  match (valid_rows ← _valid_ohlc_rows candles;
         let received := Z.of_nat (length valid_rows) in
         if received <? required_candles config then
           Ok (Unavailable ("insufficient data: " ++ Z_str received ++ " valid candles received, " ++ Z_str (required_candles config)
                            ++ " required"))
         else
           m ← measures_of candles config;
           if no_measure m then Ok (Unavailable "no regime measure could be computed")
           else Ok (Label (label_of m received config))) with
  | Ok r => r
  | Raise ex => Unavailable ("regime classification error: " ++ exn_name ex)
  end.
End measures.

Definition _unavailable (reason : string) (symbol timeframe : option string) : val :=
  VDict (opt_field "symbol" symbol ++ opt_field "timeframe" timeframe ++
         [(VStr "unavailable", VBool true); (VStr "reason", VStr reason)]).

Definition measures_payload (m : measures) : val :=
  VDict [(VStr "directional_strength", opt_float (m_directional_strength m)); (VStr "choppiness", opt_float (m_choppiness m));
         (VStr "efficiency_ratio", opt_float (m_efficiency_ratio m)); (VStr "atr_percentile", opt_float (m_atr_percentile m));
         (VStr "bb_width", opt_float (m_bb_width m))].

(** The dictionary the classifier returns. *)
Definition regime_payload (r : regime_result) (symbol timeframe : option string) : val :=
  match r with
  | Unavailable reason => _unavailable reason symbol timeframe
  | Label l =>
      VDict ([(VStr "trend_state", VStr (trend_name (rl_trend l))); (VStr "volatility_state", VStr (volatility_name (rl_volatility l)));
              (VStr "favorability", VStr (favorability_name (rl_favorability l))); (VStr "measures", measures_payload (rl_measures l))]
             ++ opt_field "symbol" symbol ++ opt_field "timeframe" timeframe ++ [(VStr "candles_used", VInt (rl_candles_used l))])
  end.

(** * The market regime: properties

    What a regime label says of its candles: the gate, the bands of the measures, and
    when a market is trending and favourable; broken candles change nothing.  Examples
    show a steady market read as one of high volatility and a measure that is not a
    number. *)

(** ** Only the valid rows count *)

Section rows.
Variable log10 : float -> float.

Lemma measures_of_rows a b config : _valid_ohlc_rows a = _valid_ohlc_rows b -> measures_of log10 a config = measures_of log10 b config.
Proof.
  intros H. unfold measures_of, compute_directional_strength, compute_choppiness, compute_efficiency_ratio, compute_atr_percentile,
    compute_bb_width. by rewrite H.
Qed.

Lemma classify_rows a b config : _valid_ohlc_rows a = _valid_ohlc_rows b -> classify_regime log10 a config = classify_regime log10 b config.
Proof. intros H. unfold classify_regime. by rewrite H, (measures_of_rows a b config H). Qed.

(** A candle that does not parse can be dropped. *)
Lemma rows_drop_broken l1 x l2 : _parse_ohlc x = Ok None -> _valid_ohlc_rows (VList (l1 ++ x :: l2)) = _valid_ohlc_rows (VList (l1 ++ l2)).
Proof.
  intros Hx. unfold _valid_ohlc_rows. cbn [py_iter]. rewrite !mapM_res_app. cbn [mapM_res]. rewrite Hx.
  destruct (mapM_res _parse_ohlc l1) as [a|]; [|done]. cbn. destruct (mapM_res _parse_ohlc l2) as [b|]; [|done]. cbn.
  unfold somes. by rewrite !omap_app.
Qed.

(** ** The measures are in their bands *)

Ltac step H := apply bind_Ok in H as (? & ? & H).

Lemma directional_band candles p o : compute_directional_strength candles p = Ok o -> in_band 0 100 o.
Proof.
  unfold compute_directional_strength. destruct (negb _); [by intros [= <-]|]. intros H. step H. revert H.
  destruct (_ <? _); intros [= <-]; [done|]. unfold directional_strength. destruct (directional_indices _ _ _); [done|]. by apply clamp_band.
Qed.

Lemma choppiness_band candles p o : compute_choppiness log10 candles p = Ok o -> in_band 0 100 o.
Proof.
  unfold compute_choppiness. destruct (_ || _); [by intros [= <-]|]. intros H. step H. revert H.
  destruct (_ <? _); [by intros [= <-]|]. destruct (_ || _); [by intros [= <-]|]. intros H. do 5 step H.
  apply Ok_inj in H as <-. by apply clamp_band.
Qed.

Lemma efficiency_band candles p o : compute_efficiency_ratio candles p = Ok o -> in_band 0 1 o.
Proof.
  unfold compute_efficiency_ratio. destruct (negb _); [by intros [= <-]|]. intros H. step H. revert H.
  destruct (_ <? _); [by intros [= <-]|]. destruct (PrimFloat.eqb _ _); intros [= <-]; [done|]. by apply clamp_band.
Qed.

Lemma percentile_band candles p w o : compute_atr_percentile candles p w = Ok o -> in_band 0 100 o.
Proof.
  unfold compute_atr_percentile. destruct (_ || _); [by intros [= <-]|]. intros H. step H. revert H. cbn zeta.
  destruct (_ <? _); [by intros [= <-]|]. destruct (forallb _ _); intros [= <-]; [done|]. by apply clamp_band.
Qed.

Definition in_bands (m : measures) : Prop :=
  in_band 0 100 (m_directional_strength m) /\ in_band 0 100 (m_choppiness m) /\ in_band 0 1 (m_efficiency_ratio m) /\
  in_band 0 100 (m_atr_percentile m).

Lemma measures_in_bands candles config m : measures_of log10 candles config = Ok m -> in_bands m.
Proof.
  unfold measures_of. intros H. apply bind_Ok in H as (a & Ha & H). apply bind_Ok in H as (b & Hb & H).
  apply bind_Ok in H as (c & Hc & H). apply bind_Ok in H as (d & Hd & H). step H. apply Ok_inj in H as <-.
  split_and!; cbn;
    [by apply directional_band in Ha|by apply choppiness_band in Hb|by apply efficiency_band in Hc|by apply percentile_band in Hd].
Qed.
End rows.

(** ** The states *)

Definition directed (m : measures) (config : RegimeConfig) : Prop :=
  exists adx chop, m_directional_strength m = Some adx /\ m_choppiness m = Some chop /\
    PrimFloat.leb (adx_trend_cutoff config) adx = true /\ PrimFloat.leb (chop_ranging_cutoff config) chop = false.

(** The percentile is missing, or beyond neither cutoff. *)
Definition ordinary (m : measures) (config : RegimeConfig) : Prop :=
  forall p, m_atr_percentile m = Some p -> PrimFloat.ltb p (vol_low_pctl config) = false /\ PrimFloat.ltb (vol_high_pctl config) p = false.

Lemma trending_iff m n config : rl_trend (label_of m n config) = TRENDING <-> directed m config.
Proof.
  unfold label_of, classify_trend_state, directed. cbn [rl_trend].
  destruct (m_directional_strength m) as [a|], (m_choppiness m) as [c|]; try (split; [done|by intros (? & ? & ? & ? & _)]).
  destruct (PrimFloat.leb (adx_trend_cutoff config) a) eqn:E1, (PrimFloat.leb (chop_ranging_cutoff config) c) eqn:E2; cbn;
    split; try done; try (by intros (? & ? & [= <-] & [= <-] & ? & ?); congruence).
  intros _. by exists a, c.
Qed.

Lemma normal_iff m n config : rl_volatility (label_of m n config) = NORMAL <-> ordinary m config.
Proof.
  unfold label_of, classify_volatility_state, ordinary. cbn [rl_volatility]. destruct (m_atr_percentile m) as [p|]; [|done].
  destruct (PrimFloat.ltb p (vol_low_pctl config)) eqn:E1; [split; [done|by intros H; destruct (H p eq_refl); congruence]|].
  destruct (PrimFloat.ltb (vol_high_pctl config) p) eqn:E2; [split; [done|by intros H; destruct (H p eq_refl); congruence]|].
  split; [|done]. by intros _ q [= <-].
Qed.

Lemma favourable_iff m n config : rl_favorability (label_of m n config) = FAVORABLE <-> directed m config /\ ordinary m config.
Proof.
  rewrite <- (trending_iff m n), <- (normal_iff m n). unfold label_of. cbn.
  by destruct (classify_trend_state _ _ _), (classify_volatility_state _ _); cbn; split; try done; intros [? ?].
Qed.

(** The trend is ranging, or the percentile is above its high cutoff. *)
Definition adverse (m : measures) (config : RegimeConfig) : Prop :=
  (exists adx chop, m_directional_strength m = Some adx /\ m_choppiness m = Some chop /\
     PrimFloat.leb (adx_trend_cutoff config) adx = false /\ PrimFloat.leb (chop_ranging_cutoff config) chop = true) \/
  (exists p, m_atr_percentile m = Some p /\ PrimFloat.ltb p (vol_low_pctl config) = false /\ PrimFloat.ltb (vol_high_pctl config) p = true).

Lemma unfavourable_iff m n config : rl_favorability (label_of m n config) = UNFAVORABLE <-> adverse m config.
Proof.
  unfold label_of, adverse, classify_trend_state, classify_volatility_state, derive_favorability. cbn [rl_favorability].
  destruct (m_atr_percentile m) as [p|]; [destruct (PrimFloat.ltb p _) eqn:E3, (PrimFloat.ltb (vol_high_pctl config) p) eqn:E4|];
    (destruct (m_directional_strength m) as [a|], (m_choppiness m) as [c|];
     [destruct (PrimFloat.leb (adx_trend_cutoff config) a) eqn:E1, (PrimFloat.leb (chop_ranging_cutoff config) c) eqn:E2|..]);
    cbn; split; try done; intros; try (by left; exists a, c); try (by right; exists p);
    match goal with H : _ \/ _ |- _ => destruct H as [(? & ? & ? & ? & ? & ?)|(? & ? & ? & ?)]; simplify_eq; congruence end.
Qed.

(** Resolved volatility cutoffs are in order. *)
Lemma cutoffs_ordered e :
  PrimFloat.leb (vol_high_pctl (resolve_regime_config e)) (vol_low_pctl (resolve_regime_config e)) = false.
Proof.
  unfold resolve_regime_config. cbn [vol_high_pctl vol_low_pctl]. 
  match goal with |- context [if ?b then _ else _] => by destruct b eqn:E end.
Qed.

(** C39: Under any environment, candles get a regime label exactly when they hold as many
    valid candles as the configuration requires, no measure raises and some measure
    exists.  The label then counts the valid candles, each of its bounded measures is null,
    in its band or not a number (which prices that overflow make it), and it calls the market favourable exactly when the directional strength
    reaches its cutoff, the choppiness does not, and the volatility percentile is missing
    or inside its cutoffs, which are in order; unfavourable exactly when the market is
    directionless and choppy, or the percentile is above its high cutoff. *)
Theorem regime_label_exact log10 candles e :
  let config := resolve_regime_config e in
  PrimFloat.leb (vol_high_pctl config) (vol_low_pctl config) = false /\
  match classify_regime log10 candles config with
  | Label l =>
      exists rows, _valid_ohlc_rows candles = Ok rows /\ required_candles config <= Z.of_nat (length rows) /\
        rl_candles_used l = Z.of_nat (length rows) /\
        measures_of log10 candles config = Ok (rl_measures l) /\ no_measure (rl_measures l) = false /\ in_bands (rl_measures l) /\
        (rl_favorability l = FAVORABLE <-> directed (rl_measures l) config /\ ordinary (rl_measures l) config) /\
        (rl_favorability l = UNFAVORABLE <-> adverse (rl_measures l) config)
  | Unavailable _ =>
      forall rows m, _valid_ohlc_rows candles = Ok rows -> measures_of log10 candles config = Ok m ->
        Z.of_nat (length rows) < required_candles config \/ no_measure m = true
  end.
Proof.
  intros config. split; [apply cutoffs_ordered|]. unfold classify_regime.
  destruct (_valid_ohlc_rows candles) as [rows|ex]; [|by intros ? ? [=]]. cbn beta iota delta [mbind res_bind]. cbn zeta.
  destruct (Z.ltb_spec (Z.of_nat (length rows)) (required_candles config)) as [L|L]; [by intros ? ? [= <-] _; left|].
  destruct (measures_of log10 candles config) as [m|ex] eqn:M; [|by intros ? ? ? [=]]. cbn beta iota delta [mbind res_bind].
  destruct (no_measure m) eqn:N; [by intros ? ? _ [= <-]; right|].
  exists rows. split_and!; try done; [by apply measures_in_bands in M|apply favourable_iff|apply unfavourable_iff].
Qed.

(** A candle that does not parse changes nothing, wherever it stands. *)
Theorem broken_candle_changes_nothing log10 l1 x l2 config :
  _parse_ohlc x = Ok None -> classify_regime log10 (VList (l1 ++ x :: l2)) config = classify_regime log10 (VList (l1 ++ l2)) config.
Proof. intros H. by apply classify_rows, rows_drop_broken. Qed.

(** ** Examples *)

Definition candle (o h l c : float) : val :=
  VDict [(VStr "open", VFloat o); (VStr "high", VFloat h); (VStr "low", VFloat l); (VStr "close", VFloat c); (VStr "volume", VInt 1)].

Lemma broken_candle_changes_nothing_witness :
  classify_regime (fun _ => 1%float) (VList [candle 1 2 1 nan; candle 1 2 1 2]) (resolve_regime_config (fun _ => None)) =
  classify_regime (fun _ => 1%float) (VList [candle 1 2 1 2]) (resolve_regime_config (fun _ => None)).
Proof. apply (broken_candle_changes_nothing _ [] (candle 1 2 1 nan) [candle 1 2 1 2]). by vm_compute. Defined.

(** A market that rises by one point a candle, each candle two points wide. *)
Definition steady_rise (n : nat) : val :=
  VList (map (fun i => let p := (100 + f_of_nat i)%float in candle p (p + 1) (p - 1) p) (seq 0 n)).

Lemma steady_choppiness log10 :
  compute_choppiness log10 (steady_rise 114) 14 =
    (ci ← f_div (100 * log10 (28 / 15))%float (log10 14%float); Ok (Some (_clamp ci 0 100))).
Proof. vm_compute. reflexivity. Qed.

(** Where every range is the same, the latest ranks highest: the steadiest rise has a
    volatility percentile of 100, so the default configuration reads it as one of high
    volatility, and calls a perfectly directional market unfavourable. *)
Theorem steady_market_is_volatile log10 :
  PrimFloat.eqb (log10 14%float) 0 = false ->
  exists l, classify_regime log10 (steady_rise 114) (resolve_regime_config (fun _ => None)) = Label l /\
    m_atr_percentile (rl_measures l) = Some 100%float /\ m_directional_strength (rl_measures l) = Some 100%float /\
    rl_volatility l = HIGH /\ rl_favorability l = UNFAVORABLE.
Proof.
  intros H. set (config := resolve_regime_config _). unfold classify_regime, measures_of.
  assert (_valid_ohlc_rows (steady_rise 114) = Ok (map (fun i => let p := (100 + f_of_nat i)%float in
    {| b_open := p; b_high := p + 1; b_low := p - 1; b_close := p |}) (seq 0 114))) as -> by by vm_compute.
  change (chop_period config) with 14. rewrite steady_choppiness. unfold f_div. rewrite H. cbn beta iota delta [mbind res_bind].
  assert (compute_directional_strength (steady_rise 114) (adx_period config) = Ok (Some 100%float)) as -> by by vm_compute.
  assert (compute_efficiency_ratio (steady_rise 114) 14 = Ok (Some 1%float)) as -> by by vm_compute.
  assert (compute_atr_percentile (steady_rise 114) (vol_period config) (vol_pctl_window config) = Ok (Some 100%float)) as ->
    by by vm_compute.
  destruct (compute_bb_width (steady_rise 114) (bb_period config)) as [w|] eqn:W; [|by vm_compute in W].
  rewrite length_map, length_seq. assert (required_candles config = 114) as -> by by vm_compute.
  cbn beta iota zeta delta [mbind res_bind no_measure m_directional_strength].
  eexists. split; [reflexivity|]. split_and!; [reflexivity..|].
  match goal with |- rl_favorability ?l = _ => change (derive_favorability (rl_trend l) HIGH = UNFAVORABLE); by destruct (rl_trend l) end.
Qed.

Lemma steady_market_is_volatile_witness :
  exists l, classify_regime (fun _ => 1%float) (steady_rise 114) (resolve_regime_config (fun _ => None)) = Label l /\
    m_atr_percentile (rl_measures l) = Some 100%float /\ m_directional_strength (rl_measures l) = Some 100%float /\
    rl_volatility l = HIGH /\ rl_favorability l = UNFAVORABLE.
Proof. apply (steady_market_is_volatile (fun _ => 1%float)). reflexivity. Defined.

(** Finite prices whose sums overflow: the measure is not a number. *)
Theorem huge_prices_width :
  exists w, compute_bb_width (VList [candle 1 1 1 1e308; candle 1 1 1 1.2e308; candle 1 1 1 1.5e308]) 3 = Ok (Some w) /\ is_nan w = true.
Proof. eexists. split; [by vm_compute|]. by vm_compute. Qed.

(** Candles that fall from one end of the floats to the other: every measure but the
    percentile is not a number, and the candles have a label. *)
Definition split_market : val :=
  VList (map (fun i => let p := if Nat.leb i 112 then (-1e308)%float else 1e308%float in candle p p p p) (seq 0 120)).

Example split_market_measures :
  match classify_regime (fun x => x) split_market (resolve_regime_config (fun _ => None)) with
  | Label l =>
      let m := rl_measures l in
      m_directional_strength m = Some nan /\ m_choppiness m = Some nan /\ m_efficiency_ratio m = Some nan /\ m_bb_width m = Some nan
  | Unavailable _ => False
  end.
Proof. vm_compute. by split_and!. Qed.

(** The gate lets through exactly as many candles as the directional measure cannot use. *)
Theorem gate_misses_directional log10 candles config rows l :
  _valid_ohlc_rows candles = Ok rows -> adx_period config = Z.of_nat (length rows) ->
  classify_regime log10 candles config = Label l -> m_directional_strength (rl_measures l) = None /\ rl_trend l = TRANSITIONAL.
Proof.
  intros Hr Ha. unfold classify_regime. rewrite Hr. cbn beta iota delta [mbind res_bind]. cbn zeta.
  destruct (_ <? _); [done|]. destruct (measures_of log10 candles config) as [m|] eqn:M; [|done]. cbn beta iota delta [mbind res_bind].
  destruct (no_measure m); [done|]. intros [= <-]. cbn [label_of rl_measures rl_trend].
  assert (m_directional_strength m = None) as E; [|by rewrite E].
  unfold measures_of in M. apply bind_Ok in M as (a & Hd & M). do 4 (apply bind_Ok in M as (? & ? & M)). apply Ok_inj in M as <-. cbn.
  unfold compute_directional_strength in Hd. rewrite Hr in Hd. cbn in Hd. rewrite Ha in Hd. destruct (negb _); [by apply Ok_inj in Hd|].
  destruct (Z.ltb_spec (Z.of_nat (length rows)) (Z.of_nat (length rows) + 1)); [|lia]. by apply Ok_inj in Hd.
Qed.
