(* ===== verification/RelativeStrength.v ===== *)
(** * Relative strength against a benchmark

    Models [agents/deep-quant-loop/rs.py]: its parameters and benchmark map, the
    alignment of two candle sequences by timestamp, the five measures, and the
    direction, state and alignment they are read as. *)

From stdpp Require Import base list strings sorting.
From Stdlib Require Import ZArith Lia Floats Ascii.
From S2P Require Import Prelude PyFloat PyRound PyNum PyVal PyEnv PyJson PySort PyStr PyStats.

#[local] Set Warnings "-inexact-float".
Open Scope Z_scope.
Open Scope res_scope.

(** ** Parameters *)

Definition DEFAULT_RS_LOOKBACK := 20.
Definition DEFAULT_RS_CORR_WINDOW := 30.
Definition DEFAULT_RS_LEADER_CUTOFF : float := 0.02.
Definition DEFAULT_RS_LAGGARD_CUTOFF : float := -0.02.
Definition DEFAULT_RS_INDEX_FLAT_BAND : float := 0.005.
Definition DEFAULT_RS_MIN_CANDLES := 30.
Definition _PERIOD_MIN := 2.

Record RSConfig := {
  lookback : Z; corr_window : Z; leader_cutoff : float; laggard_cutoff : float; index_flat_band : float; min_candles : Z;
}.

Definition largest_lookback (c : RSConfig) : Z := Z.max (lookback c) (corr_window c) + 1.

Definition resolve_rs_config (e : env) : RSConfig :=
  let leader := resolve_float_band e "RS_LEADER_CUTOFF" DEFAULT_RS_LEADER_CUTOFF (-1) 1 in
  let laggard := resolve_float_band e "RS_LAGGARD_CUTOFF" DEFAULT_RS_LAGGARD_CUTOFF (-1) 1 in
  let swapped := PrimFloat.leb leader laggard in
  {| lookback := resolve_int_min e "RS_LOOKBACK" DEFAULT_RS_LOOKBACK _PERIOD_MIN;
     corr_window := resolve_int_min e "RS_CORR_WINDOW" DEFAULT_RS_CORR_WINDOW _PERIOD_MIN;
     leader_cutoff := if swapped then DEFAULT_RS_LEADER_CUTOFF else leader;
     laggard_cutoff := if swapped then DEFAULT_RS_LAGGARD_CUTOFF else laggard;
     index_flat_band := resolve_float_band e "RS_INDEX_FLAT_BAND" DEFAULT_RS_INDEX_FLAT_BAND 0 1;
     min_candles := resolve_int_min e "RS_MIN_CANDLES" DEFAULT_RS_MIN_CANDLES _PERIOD_MIN |}.

(** ** Benchmarks *)

Definition DEFAULT_BENCHMARK : string := "NIFTY 50".

Definition DEFAULT_BENCHMARK_MAP : list (string * string) :=
  map (fun bank => (bank, "BANKNIFTY"%string))
    ["HDFCBANK"; "ICICIBANK"; "SBIN"; "AXISBANK"; "KOTAKBANK"; "INDUSINDBK"; "BANKBARODA"; "PNB"; "FEDERALBNK"; "AUBANK"]%string.

Definition _BENCHMARK_CANDLE_NAME : list (string * string) :=
  [("NIFTY", "NIFTY 50"); ("BANKNIFTY", "NIFTY BANK"); ("FINNIFTY", "NIFTY FIN SERVICE"); ("MIDCPNIFTY", "NIFTY MIDCAP SELECT")]%string.

Definition benchmark_candle_name (benchmark : string) : string :=
  if negb (nonempty (strip benchmark)) then benchmark
  else default (strip benchmark) (assoc_str (upper (strip benchmark)) _BENCHMARK_CANDLE_NAME).

(** One entry of the override text. *)
Definition override_entry (entry : string) : option (string * string) :=
  let '(sym, found, bench) := partition_char ":"%char entry in
  let sym := upper (strip sym) in
  let bench := strip bench in
  if found && nonempty sym && nonempty bench then Some (sym, bench) else None.

Definition _parse_benchmark_overrides (raw : option string) : list (string * string) :=
  match raw with
  | Some raw => fold_left (fun acc kv => upsert kv.1 (fun _ => kv.2) acc) (omap override_entry (split_char ","%char raw)) []
  | None => []
  end.

Definition resolve_benchmark (e : env) (symbol : string) (explicit : option string) : string :=
  let given := strip (default "" explicit) in
  if nonempty given then given
  else
    let default_benchmark := default DEFAULT_BENCHMARK (env_text e "RS_DEFAULT_BENCHMARK") in
    let key := upper (strip symbol) in
    if negb (nonempty key) then default_benchmark
    else
      match assoc_str key (_parse_benchmark_overrides (e "RS_BENCHMARK_MAP")) with
      | Some bench => bench
      | None => default default_benchmark (assoc_str key DEFAULT_BENCHMARK_MAP)
      end.

(** ** Candles *)

(** The validated fields of one candle. *)
Record row := { r_ts : float; r_open : float; r_high : float; r_low : float; r_close : float }.

Definition _is_finite_number : val -> res bool := finite_number.

Definition _parse_row (candle : val) : res (option row) :=
  match candle with
  | VDict d =>
      let ts := dict_get d "timestamp_ms" in
      let o := dict_get d "open" in
      let h := dict_get d "high" in
      let low := dict_get d "low" in
      let c := dict_get d "close" in
      let v := dict_get d "volume" in
      stated ← andM (_is_finite_number ts) (andM (_is_finite_number o)
                 (andM (_is_finite_number h) (andM (_is_finite_number low) (_is_finite_number c))));
      if negb stated then Ok None
      else
        counted ← (if is_none v then Ok true else _is_finite_number v);
        if negb counted then Ok None
        else
          ts ← py_float ts; o ← py_float o; h ← py_float h; low ← py_float low; c ← py_float c;
          Ok (Some {| r_ts := ts; r_open := o; r_high := h; r_low := low; r_close := c |})
  | _ => Ok None
  end.

(** What cannot be iterated yields nothing. *)
Definition _iter_candles (candles : val) : list val := match py_iter candles with Ok l => l | Raise _ => [] end.

(** The rows of the candles by timestamp: a later candle of a timestamp replaces the
    earlier one. *)
Fixpoint put_row (r : row) (rows : list row) : list row :=
  match rows with
  | [] => [r]
  | x :: rows' => if PrimFloat.eqb (r_ts x) (r_ts r) then r :: rows' else x :: put_row r rows'
  end.

Definition by_timestamp (rows : list (option row)) : list row :=
  fold_left (fun acc o => match o with Some r => put_row r acc | None => acc end) rows [].

Definition row_at (ts : float) (rows : list row) : option row := List.find (fun r => PrimFloat.eqb (r_ts r) ts) rows.

Definition held (rows : list row) (ts : float) : bool := existsb (fun r => PrimFloat.eqb (r_ts r) ts) rows.

Definition time_align (symbol_candles benchmark_candles : val) : res (list row * list row) :=
  sym ← mapM_res _parse_row (_iter_candles symbol_candles);
  bench ← mapM_res _parse_row (_iter_candles benchmark_candles);
  let sym_by_ts := by_timestamp sym in
  let bench_by_ts := by_timestamp bench in
  let common := sort_by PrimFloat.ltb (List.filter (held bench_by_ts) (map r_ts sym_by_ts)) in
  Ok (omap (fun ts => row_at ts sym_by_ts) common, omap (fun ts => row_at ts bench_by_ts) common).

(** ** Measures *)

Definition _valid_period (period : Z) : bool := _PERIOD_MIN <=? period.

Definition _clamp : float -> float -> float -> float := clamp.

(** [sum((a - mean_a) * (b - mean_b))] *)
Definition products (mean_a mean_b : float) (l : list (float * float)) : float :=
  float_sum (map (fun p => ((p.1 - mean_a) * (p.2 - mean_b))%float) l).

(** [sum((x - mean) ** 2)] *)
Definition deviations (m : float) (l : list float) : res float :=
  squares ← mapM_res (fun x => square (x - m)%float) l; Ok (float_sum squares).

Definition _linreg_slope (ys : list float) : res (option float) :=
  let n := length ys in
  if (n <? 2)%nat then Ok None
  else
    let xs := map f_of_nat (seq 0 n) in
    mean_x ← int_truediv (Z.of_nat (n * (n - 1) / 2)) (Z.of_nat n);
    let mean_y := mean ys in
    denom ← deviations mean_x xs;
    if PrimFloat.eqb denom 0 then Ok None
    else Ok (Some (products mean_x mean_y (combine xs ys) / denom)%float).

(** The simple return of a bar on the one before it. *)
Definition bar_return (prev r : row) : float := ((r_close r - r_close prev) / r_close prev)%float.

(** The returns of both rows at each pair of bars whose base prices are not zero. *)
Fixpoint paired_returns (sp bp : row) (sym bench : list row) : list (float * float) :=
  match sym, bench with
  | s :: sym', b :: bench' =>
      if PrimFloat.eqb (r_close sp) 0 || PrimFloat.eqb (r_close bp) 0 then paired_returns s b sym' bench'
      else (bar_return sp s, bar_return bp b) :: paired_returns s b sym' bench'
  | _, _ => []
  end.

Definition _aligned_returns (symbol_rows benchmark_rows : list row) (window : Z) : option (list (float * float)) :=
  if Z.of_nat (Nat.min (length symbol_rows) (length benchmark_rows)) <? window + 1 then None
  else
    match last_n (Z.to_nat (window + 1)) symbol_rows, last_n (Z.to_nat (window + 1)) benchmark_rows with
    | s :: sym, b :: bench => Some (paired_returns s b sym bench)
    | _, _ => Some []
    end.

(** The ratios of the closes where the benchmark's is not zero. *)
Definition ratios (symbol_rows benchmark_rows : list row) : list float :=
  omap (fun p => if PrimFloat.eqb (r_close p.2) 0 then None else Some (r_close p.1 / r_close p.2)%float)
    (combine symbol_rows benchmark_rows).

Definition compute_rs_ratio_slope (symbol_rows benchmark_rows : list row) (lookback : Z) : res (option float * option float) :=
  if negb (_valid_period lookback) then Ok (None, None)
  else
    let n := Nat.min (length symbol_rows) (length benchmark_rows) in
    match symbol_rows !! (n - 1)%nat, benchmark_rows !! (n - 1)%nat with
    | Some s, Some b =>
        let latest := if PrimFloat.eqb (r_close b) 0 then None else Some (r_close s / r_close b)%float in
        slope ← _linreg_slope (ratios (last_n (Z.to_nat lookback) symbol_rows) (last_n (Z.to_nat lookback) benchmark_rows));
        Ok (latest, slope)
    | _, _ => Ok (None, None)
    end.

(** The row [k] places from the end, the last one, and the return between them. *)
Definition total_return (rows : list row) (k : Z) : option float :=
  match rows !! (length rows - Z.to_nat k)%nat, last rows with
  | Some base, Some latest => if PrimFloat.eqb (r_close base) 0 then None else Some (bar_return base latest)
  | _, _ => None
  end.

Definition compute_relative_return (symbol_rows benchmark_rows : list row) (lookback : Z) : option float :=
  if negb (_valid_period lookback) then None
  else if (Z.of_nat (length symbol_rows) <? lookback + 1) || (Z.of_nat (length benchmark_rows) <? lookback + 1) then None
  else
    match total_return symbol_rows (lookback + 1), total_return benchmark_rows (lookback + 1) with
    | Some s, Some b => Some (s - b)%float
    | _, _ => None
    end.

Definition compute_correlation (symbol_rows benchmark_rows : list row) (window : Z) : res (option float) :=
  if negb (_valid_period window) then Ok None
  else
    match _aligned_returns symbol_rows benchmark_rows window with
    | Some returns =>
        if (length returns <? 2)%nat then Ok None
        else
          let mean_s := mean (map fst returns) in
          let mean_b := mean (map snd returns) in
          var_s ← deviations mean_s (map fst returns);
          var_b ← deviations mean_b (map snd returns);
          if PrimFloat.leb var_s 0 || PrimFloat.leb var_b 0 then Ok None
          else
            corr ← f_div (products mean_s mean_b returns) (PrimFloat.sqrt (var_s * var_b));
            Ok (Some (_clamp corr (-1) 1))
    | None => Ok None
    end.

Definition compute_beta (symbol_rows benchmark_rows : list row) (window : Z) : res (option float) :=
  if negb (_valid_period window) then Ok None
  else
    match _aligned_returns symbol_rows benchmark_rows window with
    | Some returns =>
        if (length returns <? 2)%nat then Ok None
        else
          let mean_s := mean (map fst returns) in
          let mean_b := mean (map snd returns) in
          var_b ← deviations mean_b (map snd returns);
          if PrimFloat.leb var_b 0 then Ok None
          else beta ← f_div (products mean_s mean_b returns) var_b; Ok (Some beta)
    | None => Ok None
    end.

Definition compute_index_return (benchmark_rows : list row) (lookback : Z) : option float :=
  if negb (_valid_period lookback) || (Z.of_nat (length benchmark_rows) <? lookback + 1) then None
  else total_return benchmark_rows (lookback + 1).

(** ** Direction, state, alignment *)

Inductive index_direction := UP | DOWN | FLAT.
Inductive rs_state := LEADER | INLINE | LAGGARD.
Inductive alignment := ALIGNED | MISALIGNED | NEUTRAL.

Definition direction_name (d : index_direction) : string := match d with UP => "up" | DOWN => "down" | FLAT => "flat" end.
Definition state_name (s : rs_state) : string := match s with LEADER => "leader" | INLINE => "inline" | LAGGARD => "laggard" end.
Definition alignment_name (a : alignment) : string :=
  match a with ALIGNED => "aligned" | MISALIGNED => "misaligned" | NEUTRAL => "neutral" end.

Definition classify_index_direction (index_return : option float) (config : RSConfig) : index_direction :=
  match index_return with
  | None => FLAT
  | Some r =>
      if PrimFloat.ltb (index_flat_band config) r then UP
      else if PrimFloat.ltb r (- index_flat_band config) then DOWN
      else FLAT
  end.

Definition classify_relative_strength_state (relative_return : option float) (config : RSConfig) : rs_state :=
  match relative_return with
  | None => INLINE
  | Some r =>
      if PrimFloat.leb (leader_cutoff config) r then LEADER
      else if PrimFloat.leb r (laggard_cutoff config) then LAGGARD
      else INLINE
  end.

Definition _ALIGNMENT_BUY (d : index_direction) (s : rs_state) : alignment :=
  match d, s with UP, LEADER => ALIGNED | DOWN, LAGGARD => MISALIGNED | _, _ => NEUTRAL end.
Definition _ALIGNMENT_SELL (d : index_direction) (s : rs_state) : alignment :=
  match d, s with UP, LEADER => MISALIGNED | DOWN, LAGGARD => ALIGNED | _, _ => NEUTRAL end.

Definition derive_alignment (d : index_direction) (s : rs_state) (proposed_direction : option string) : alignment :=
  let direction := upper (strip (default ""%string proposed_direction)) in
  if String.eqb direction "BUY" then _ALIGNMENT_BUY d s
  else if String.eqb direction "SELL" then _ALIGNMENT_SELL d s
  else NEUTRAL.

(** ** The label *)

Record rs_measures := {
  m_rs_ratio : option float;
  m_rs_ratio_slope : option float;
  m_relative_return : option float;
  m_correlation : option float;
  m_beta : option float;
}.

Record rs_label := {
  rs_direction : index_direction;
  rs_strength : rs_state;
  rs_alignment : alignment;
  rs_measured : rs_measures;
  rs_aligned_candles : Z;
}.

Inductive rs_result := Label (l : rs_label) | Unavailable (reason : string).

Definition measures_of (symbol_rows benchmark_rows : list row) (config : RSConfig) : res rs_measures :=
  ratio ← compute_rs_ratio_slope symbol_rows benchmark_rows (lookback config);
  correlation ← compute_correlation symbol_rows benchmark_rows (corr_window config);
  beta ← compute_beta symbol_rows benchmark_rows (corr_window config);
  Ok {| m_rs_ratio := ratio.1; m_rs_ratio_slope := ratio.2;
        m_relative_return := compute_relative_return symbol_rows benchmark_rows (lookback config);
        m_correlation := correlation; m_beta := beta |}.

Definition no_measure (m : rs_measures) : bool :=
  match m with {| m_rs_ratio := None; m_rs_ratio_slope := None; m_relative_return := None; m_correlation := None; m_beta := None |} => true
  | _ => false end.

Definition required_candles (config : RSConfig) : Z := Z.max (min_candles config) (largest_lookback config).

Definition label_of (m : rs_measures) (index_return : option float) (aligned : Z) (proposed_direction : option string)
    (config : RSConfig) : rs_label :=
  let direction := classify_index_direction index_return config in
  let state := classify_relative_strength_state (m_relative_return m) config in
  {| rs_direction := direction; rs_strength := state; rs_alignment := derive_alignment direction state proposed_direction;
     rs_measured := m; rs_aligned_candles := aligned |}.

Definition classify_relative_strength (symbol_candles benchmark_candles : val) (config : RSConfig)
    (proposed_direction : option string) : rs_result :=
  match (rows ← time_align symbol_candles benchmark_candles;
         let aligned := Z.of_nat (length rows.1) in
         if aligned <? required_candles config then
           Ok (Unavailable ("insufficient aligned data: " ++ Z_str aligned ++ " aligned candles available, "
                            ++ Z_str (required_candles config) ++ " required"))
         else
           m ← measures_of rows.1 rows.2 config;
           if no_measure m then Ok (Unavailable "no relative-strength measure could be computed")
           else Ok (Label (label_of m (compute_index_return rows.2 (lookback config)) aligned proposed_direction config))) with
  | Ok r => r
  | Raise ex => Unavailable ("relative-strength classification error: " ++ exn_name ex)
  end.

Definition _rs_unavailable (reason : string) (symbol timeframe benchmark : option string) : val :=
  VDict (opt_field "symbol" symbol ++ opt_field "timeframe" timeframe ++ opt_field "benchmark" benchmark ++
         [(VStr "unavailable", VBool true); (VStr "reason", VStr reason)]).

Definition measures_payload (m : rs_measures) : val :=
  VDict [(VStr "rs_ratio", opt_float (m_rs_ratio m)); (VStr "rs_ratio_slope", opt_float (m_rs_ratio_slope m));
         (VStr "relative_return", opt_float (m_relative_return m)); (VStr "correlation", opt_float (m_correlation m));
         (VStr "beta", opt_float (m_beta m))].

(** The dictionary the calculator returns. *)
Definition rs_payload (r : rs_result) (symbol timeframe benchmark : option string) : val :=
  match r with
  | Unavailable reason => _rs_unavailable reason symbol timeframe benchmark
  | Label l =>
      VDict ([(VStr "index_direction", VStr (direction_name (rs_direction l)));
              (VStr "relative_strength_state", VStr (state_name (rs_strength l)));
              (VStr "alignment", VStr (alignment_name (rs_alignment l))); (VStr "measures", measures_payload (rs_measured l))]
             ++ opt_field "benchmark" benchmark ++ opt_field "symbol" symbol ++ opt_field "timeframe" timeframe
             ++ [(VStr "aligned_candles", VInt (rs_aligned_candles l))])
  end.

(** * Relative strength: properties

    What the alignment of two candle sequences is, when their relative strength gets a
    label, and that a benchmark measured against itself is neither leader nor laggard. *)

(** ** The rows by timestamp *)

(** The last valid candle with the timestamp. *)
Definition last_at (ts : float) (parsed : list (option row)) : option row :=
  fold_left (fun acc o => match o with Some r => if PrimFloat.eqb (r_ts r) ts then Some r else acc | None => acc end) parsed None.

Lemma row_at_put ts r rows :
  row_at ts (put_row r rows) = if PrimFloat.eqb (r_ts r) ts then Some r else row_at ts rows.
Proof.
  induction rows as [|x rows IH]; cbn; [done|]. destruct (PrimFloat.eqb (r_ts x) (r_ts r)) eqn:E; cbn.
  - destruct (PrimFloat.eqb (r_ts r) ts) eqn:R; [done|]. destruct (PrimFloat.eqb (r_ts x) ts) eqn:X; [|done].
    pose proof (eqb_trans _ _ _ (eqb_symm _ _ E) X). congruence.
  - unfold row_at in *. rewrite IH. destruct (PrimFloat.eqb (r_ts x) ts) eqn:X, (PrimFloat.eqb (r_ts r) ts) eqn:R; try done.
    pose proof (eqb_trans _ _ _ X (eqb_symm _ _ R)). congruence.
Qed.

Lemma row_at_by_timestamp ts parsed : row_at ts (by_timestamp parsed) = last_at ts parsed.
Proof.
  unfold by_timestamp, last_at. change (@None row) with (row_at ts []) at 1. generalize (@nil row) as acc.
  induction parsed as [|[r|] parsed IH]; intros acc; cbn [fold_left]; [done| |apply IH].
  rewrite IH, row_at_put. done.
Qed.

(** No two rows have the same timestamp. *)
Definition apart (x y : row) : Prop := PrimFloat.eqb (r_ts x) (r_ts y) = false.

Lemma put_row_In r rows x : In x (put_row r rows) -> x = r \/ In x rows.
Proof.
  induction rows as [|y rows IH]; cbn; [intros [<-|[]]; by left|]. destruct (PrimFloat.eqb _ _); cbn; [intros [<-|H]; tauto|].
  intros [<-|H]; [by right; left|]. destruct (IH H); tauto.
Qed.

Lemma apart_symm x y : apart x y -> apart y x.
Proof. unfold apart. intros H. destruct (PrimFloat.eqb (r_ts y) (r_ts x)) eqn:E; [|done]. apply eqb_symm in E. congruence. Qed.

Lemma put_row_apart r rows : StronglySorted apart rows -> StronglySorted apart (put_row r rows).
Proof.
  induction 1 as [|x rows Hs IH Hx]; cbn; [by repeat constructor|].
  destruct (PrimFloat.eqb (r_ts x) (r_ts r)) eqn:E; constructor; try done.
  - eapply Forall_impl; [exact Hx|]. intros y Hy. unfold apart in *.
    destruct (PrimFloat.eqb (r_ts r) (r_ts y)) eqn:F; [|done]. pose proof (eqb_trans _ _ _ E F). congruence.
  - apply Forall_forall. intros y Hy. apply list_elem_of_In, put_row_In in Hy as [->|Hy]; [done|].
    rewrite Forall_forall in Hx. apply Hx. by apply list_elem_of_In.
Qed.

Lemma by_timestamp_apart parsed : StronglySorted apart (by_timestamp parsed).
Proof.
  unfold by_timestamp. assert (StronglySorted apart []) as H by constructor. revert H. generalize (@nil row) as acc.
  induction parsed as [|[r|] parsed IH]; intros acc H; cbn [fold_left]; [done|apply IH; by apply put_row_apart|by apply IH].
Qed.

(** Every row of the table was parsed. *)
Lemma by_timestamp_In parsed x : In x (by_timestamp parsed) -> In (Some x) parsed.
Proof.
  unfold by_timestamp. assert (forall acc, In x (fold_left (fun acc o => match o with Some r => put_row r acc | None => acc end) parsed acc) ->
    In x acc \/ In (Some x) parsed) as H; [|intros Hx; by destruct (H [] Hx)].
  induction parsed as [|[r|] parsed IH]; intros acc H; cbn in *; [by left| |].
  - destruct (IH _ H) as [K|K]; [apply put_row_In in K as [->|K]|]; tauto.
  - destruct (IH _ H) as [K|K]; tauto.
Qed.

Lemma row_at_In rows x : In x rows -> is_nan (r_ts x) = false -> StronglySorted apart rows -> row_at (r_ts x) rows = Some x.
Proof.
  intros Hx Hn. induction 1 as [|y rows Hs IH Hy]; [done|]. cbn. destruct Hx as [->|Hx].
  - by rewrite eqb_rank, Hn, Z.eqb_refl.
  - rewrite Forall_forall in Hy. assert (apart y x) as -> by (apply Hy; by apply list_elem_of_In). by apply IH.
Qed.

Lemma row_at_Some ts rows x : row_at ts rows = Some x -> In x rows /\ PrimFloat.eqb (r_ts x) ts = true.
Proof. apply find_some. Qed.

Lemma held_iff rows ts : held rows ts = true <-> is_Some (row_at ts rows).
Proof.
  unfold held, row_at, is_Some. induction rows as [|x rows IH]; cbn; [split; [done|by intros [? ?]]|].
  destruct (PrimFloat.eqb (r_ts x) ts); cbn; [split; eauto|apply IH].
Qed.

Lemma row_at_same rows a b : PrimFloat.eqb a b = true -> row_at a rows = row_at b rows.
Proof.
  intros E. unfold row_at. induction rows as [|x rows IH]; cbn; [done|]. rewrite IH.
  destruct (PrimFloat.eqb (r_ts x) a) eqn:A, (PrimFloat.eqb (r_ts x) b) eqn:B; try done.
  - pose proof (eqb_trans _ _ _ A E). congruence.
  - pose proof (eqb_trans _ _ _ B (eqb_symm _ _ E)). congruence.
Qed.

(** ** Timestamps are numbers *)

Lemma n_float_fin v f : _is_finite_number v = Ok true -> py_float v = Ok f -> is_nan f = false.
Proof.
  unfold _is_finite_number, finite_number, py_isfinite, py_float. destruct v as [| |z|x| | | | | | |]; cbn; try done.
  - unfold int_to_float. intros _. destruct (is_finite (Q2F z 1)) eqn:F; [|done]. intros [= <-]. by apply fin_not_nan.
  - intros [= F] [= <-]. by apply fin_not_nan.
Qed.

Lemma parsed_numbers candle r : _parse_row candle = Ok (Some r) -> is_nan (r_ts r) = false.
Proof.
  destruct candle as [| | | | | | | | |d|]; try done. cbn [_parse_row]. intros H. apply bind_Ok in H as (stated & Hs & H).
  destruct stated; [|done]. cbn [negb] in H. apply bind_Ok in H as (counted & _ & H). destruct counted; [|done]. cbn [negb] in H.
  apply bind_Ok in H as (ts & Ht & H). do 4 (apply bind_Ok in H as (? & _ & H)). injection H as <-. cbn.
  apply andM_true in Hs as [Hs _]. by eapply n_float_fin.
Qed.

Lemma rows_are_numbers l parsed x : mapM_res _parse_row l = Ok parsed -> In x (by_timestamp parsed) -> is_nan (r_ts x) = false.
Proof. intros H Hx%by_timestamp_In%list_elem_of_In. destruct (mapM_res_In _ _ _ _ H Hx) as (c & _ & Hc). by eapply parsed_numbers. Qed.

(** ** The alignment *)

Definition earlier (x y : row) : Prop := PrimFloat.ltb (r_ts x) (r_ts y) = true.
Definition same_time (x y : row) : Prop := PrimFloat.eqb (r_ts x) (r_ts y) = true.

Definition number (x : float) : Prop := is_nan x = false.

Lemma float_sorted l : Forall number l -> StronglySorted (not_after PrimFloat.ltb) (sort_by PrimFloat.ltb l).
Proof.
  apply (sort_by_sorted_on PrimFloat.ltb number); unfold number, not_after.
  - intros a b Ha Hb. rewrite !ltb_rank, Ha, Hb. cbn. rewrite Z.ltb_lt, Z.ltb_ge. lia.
  - intros a b c Ha Hb Hc. rewrite !ltb_rank, Ha, Hb, Hc. cbn. rewrite !Z.ltb_ge. lia.
Qed.

(** Distinct sorted timestamps are strictly sorted. *)
Lemma strictly_sorted l :
  Forall number l -> NoDup (map frank l) -> StronglySorted (not_after PrimFloat.ltb) l ->
  StronglySorted (fun a b => PrimFloat.ltb a b = true) l.
Proof.
  intros Hn Hd Hs. induction Hs as [|x l Hs IH Hx]; [constructor|]. inversion Hn as [|? ? Nx Nl]; subst.
  cbn in Hd. apply NoDup_cons in Hd as [Dx Dl]. constructor; [by apply IH|]. rewrite Forall_forall in *. intros y Hy.
  specialize (Hx y Hy). specialize (Nl y Hy). unfold not_after, number in *. rewrite ltb_rank, Nx, Nl in *. cbn in *.
  apply Z.ltb_lt. apply Z.ltb_ge in Hx. assert (frank y <> frank x); [|lia]. intros E. apply Dx. rewrite <- E.
  by apply list_elem_of_fmap_2.
Qed.

Lemma apart_ranks rows : Forall (fun x => number (r_ts x)) rows -> StronglySorted apart rows -> NoDup (map frank (map r_ts rows)).
Proof.
  intros Hn. induction 1 as [|x rows Hs IH Hx]; cbn; [constructor|]. inversion Hn as [|? ? Nx Nl]; subst. apply NoDup_cons.
  split; [|by apply IH]. rewrite map_map. intros (y & E & Hy)%list_elem_of_fmap. rewrite Forall_forall in Hx, Nl.
  specialize (Hx y Hy). specialize (Nl y Hy). unfold apart, number in *. rewrite eqb_rank, Nx, Nl, E, Z.eqb_refl in Hx. done.
Qed.

Lemma filter_sublist {A} (p : A -> bool) (l : list A) : sublist (List.filter p l) l.
Proof. induction l as [|x l IH]; cbn; [constructor|]. destruct (p x); by constructor. Qed.

Lemma omap_matches {A B} (f : A -> option B) (c : list A) :
  Forall (fun a => is_Some (f a)) c -> Forall2 (fun a x => f a = Some x) c (omap f c).
Proof. induction 1 as [|a c [x Hx] Hc IH]; cbn; [constructor|]. rewrite Hx. by constructor. Qed.

Lemma combine_omap_In {A B C} (f : A -> option B) (g : A -> option C) (c : list A) x y :
  Forall (fun a => is_Some (f a) /\ is_Some (g a)) c ->
  In (x, y) (combine (omap f c) (omap g c)) <-> exists a, In a c /\ f a = Some x /\ g a = Some y.
Proof.
  induction 1 as [|a c [[x' Hx] [y' Hy]] Hc IH]; cbn; [split; [done|by intros (? & ? & _)]|]. rewrite Hx, Hy. cbn. rewrite IH. split.
  - intros [[= <- <-]|(b & Hb & Hf & Hg)]; [exists a; tauto|exists b; tauto].
  - intros (b & [<-|Hb] & Hf & Hg); [left; congruence|right; by exists b].
Qed.

Lemma ltb_same x y x' y' :
  PrimFloat.eqb x' x = true -> PrimFloat.eqb y' y = true -> PrimFloat.ltb x y = true -> PrimFloat.ltb x' y' = true.
Proof.
  rewrite !eqb_rank, !ltb_rank, !andb_true_iff, !Z.eqb_eq, !Z.ltb_lt. intros [[? ?] ?] [[? ?] ?] [[? ?] ?]. repeat split; [done..|lia].
Qed.

Lemma sorted_transfer c l :
  Forall2 (fun ts x => PrimFloat.eqb (r_ts x) ts = true) c l -> StronglySorted (fun a b => PrimFloat.ltb a b = true) c ->
  StronglySorted earlier l.
Proof.
  induction 1 as [|ts x c l Hx H IH]; [constructor|]. intros S; inversion S as [|? ? Sc Hc]; subst. constructor; [by apply IH|]. clear IH Sc S.
  induction H as [|ts' x' c l Hx' H IH]; [constructor|]. inversion Hc; subst. constructor; [|by apply IH].
  by eapply ltb_same.
Qed.

Section align.
Context (s b : val) (sym bench : list (option row)).
Context (Hsym : mapM_res _parse_row (_iter_candles s) = Ok sym) (Hbench : mapM_res _parse_row (_iter_candles b) = Ok bench).

Let common := sort_by PrimFloat.ltb (List.filter (held (by_timestamp bench)) (map r_ts (by_timestamp sym))).

Lemma sym_numbers : Forall (fun x => number (r_ts x)) (by_timestamp sym).
Proof. apply List.Forall_forall. intros x Hx. exact (rows_are_numbers _ _ _ Hsym Hx). Qed.

Lemma common_In ts : In ts common <-> held (by_timestamp bench) ts = true /\ In ts (map r_ts (by_timestamp sym)).
Proof. unfold common. rewrite <- list_elem_of_In, sort_by_perm, list_elem_of_In, filter_In. tauto. Qed.

Lemma common_sorted : StronglySorted (fun a b => PrimFloat.ltb a b = true) common.
Proof.
  assert (Forall number (map r_ts (by_timestamp sym))) as N by (apply List.Forall_forall; intros ts (x & <- & Hx)%in_map_iff; exact (rows_are_numbers _ _ _ Hsym Hx)).
  pose proof (apart_ranks _ sym_numbers (by_timestamp_apart sym)) as D.
  assert (Forall number (List.filter (held (by_timestamp bench)) (map r_ts (by_timestamp sym)))) as F.
  { apply List.Forall_forall. intros x [Hx _]%filter_In. rewrite List.Forall_forall in N. exact (N x Hx). }
  apply strictly_sorted; [unfold common; by rewrite sort_by_perm| |by apply float_sorted].
  unfold common. rewrite sort_by_perm. eapply sublist_NoDup; [exact D|]. apply fmap_sublist, filter_sublist.
Qed.

Lemma common_found : Forall (fun ts => is_Some (row_at ts (by_timestamp sym)) /\ is_Some (row_at ts (by_timestamp bench))) common.
Proof.
  apply List.Forall_forall. intros ts [Hb Hs]%common_In. split; [|by apply held_iff].
  apply in_map_iff in Hs as (x & <- & Hx). exists x. apply row_at_In; [done| |apply by_timestamp_apart]. exact (rows_are_numbers _ _ _ Hsym Hx).
Qed.

Lemma aligned_spec :
  let l1 := omap (fun ts => row_at ts (by_timestamp sym)) common in
  let l2 := omap (fun ts => row_at ts (by_timestamp bench)) common in
  Forall2 same_time l1 l2 /\ StronglySorted earlier l1 /\
  forall x y, In (x, y) (combine l1 l2) <-> same_time x y /\ last_at (r_ts x) sym = Some x /\ last_at (r_ts y) bench = Some y.
Proof.
  intros l1 l2. pose proof common_found as F. split_and!.
  - assert (forall c, Forall (fun ts => is_Some (row_at ts (by_timestamp sym)) /\ is_Some (row_at ts (by_timestamp bench))) c ->
      Forall2 same_time (omap (fun ts => row_at ts (by_timestamp sym)) c) (omap (fun ts => row_at ts (by_timestamp bench)) c)) as H;
      [|by apply H].
    induction 1 as [|ts c [[x Hx] [y Hy]] Hc IH]; cbn; [constructor|]. rewrite Hx, Hy. constructor; [|done].
    apply row_at_Some in Hx as [_ Hx], Hy as [_ Hy]. by eapply eqb_trans, eqb_symm.
  - eapply sorted_transfer; [|exact common_sorted]. eapply Forall2_impl.
    + apply omap_matches. eapply Forall_impl; [exact F|]. by intros ts [? _].
    + by intros ts x [_ ?]%row_at_Some.
  - intros x y. subst l1 l2. rewrite (combine_omap_In _ _ common x y F), <- !row_at_by_timestamp. split.
    + intros (ts & _ & Hx & Hy). apply row_at_Some in Hx as [Hx Ex], Hy as [Hy Ey]. split_and!.
      * by eapply eqb_trans, eqb_symm.
      * apply row_at_In; [done|exact (rows_are_numbers _ _ _ Hsym Hx)|apply by_timestamp_apart].
      * apply row_at_In; [done|exact (rows_are_numbers _ _ _ Hbench Hy)|apply by_timestamp_apart].
    + intros (E & Hx & Hy). exists (r_ts x). split_and!; [|done|by rewrite (row_at_same _ _ _ E)].
      apply common_In. split; [apply held_iff; rewrite (row_at_same _ _ _ E); by eexists|].
      apply row_at_Some in Hx as [Hx _]. by apply in_map.
Qed.
End align.

(** The alignment is exact: the two sequences it gives pair up candles of the same time,
    strictly in time order, and the pairs are all there are: a candle of the symbol and
    one of the benchmark are a pair exactly when they have the same timestamp and each is
    the last valid candle its own sequence has there. *)
Theorem time_align_exact s b sym bench :
  mapM_res _parse_row (_iter_candles s) = Ok sym -> mapM_res _parse_row (_iter_candles b) = Ok bench ->
  exists l1 l2, time_align s b = Ok (l1, l2) /\ Forall2 same_time l1 l2 /\ StronglySorted earlier l1 /\
    forall x y, In (x, y) (combine l1 l2) <-> same_time x y /\ last_at (r_ts x) sym = Some x /\ last_at (r_ts y) bench = Some y.
Proof.
  intros Hs Hb. pose proof (aligned_spec s b sym bench Hs Hb) as H. do 2 eexists. split; [|exact H].
  unfold time_align. by rewrite Hs, Hb.
Qed.

Definition candle (ts : Z) (close : float) : val :=
  VDict [(VStr "timestamp_ms", VInt ts); (VStr "open", VFloat close); (VStr "high", VFloat close); (VStr "low", VFloat close);
         (VStr "close", VFloat close)].

(** Out of order, a duplicate, a candle of one sequence alone and one that is broken. *)
Definition demo_symbol : val := VList [candle 3 30; candle 1 10; candle 2 nan; candle 3 31; candle 5 50].
Definition demo_benchmark : val := VList [candle 1 1; candle 2 2; candle 3 3].

Lemma time_align_exact_witness :
  exists l1 l2, time_align demo_symbol demo_benchmark = Ok (l1, l2) /\ Forall2 same_time l1 l2 /\
    map r_close l1 = [10; 31]%float /\ map r_close l2 = [1; 3]%float.
Proof.
  destruct (time_align_exact demo_symbol demo_benchmark
    (match mapM_res _parse_row (_iter_candles demo_symbol) with Ok l => l | Raise _ => [] end)
    (match mapM_res _parse_row (_iter_candles demo_benchmark) with Ok l => l | Raise _ => [] end)) as (l1 & l2 & E & T & _);
    [vm_compute; reflexivity..|].
  exists l1, l2. split; [exact E|]. split; [exact T|].
  assert (match time_align demo_symbol demo_benchmark with Ok (a, c) => (map r_close a, map r_close c) | Raise _ => ([], []) end =
          ([10; 31], [1; 3])%float) as C by (vm_compute; reflexivity).
  rewrite E in C. split; [exact (f_equal fst C)|exact (f_equal snd C)].
Defined.

(** ** The label *)

Lemma sub_self x : is_nan (x - x)%float = true \/ (is_nan (x - x)%float = false /\ frank (x - x)%float = 0).
Proof.
  destruct (fin x) eqn:F; [right|left].
  - destruct (fsub_rank x x F F) as [R N]. split; [done|]. by rewrite R, Z.sub_diag, rnd_0.
  - rewrite is_nan_sf, sub_spec. rewrite fin_sf in F. by destruct (Prim2SF x) as [[]|[]| |[] ? ?].
Qed.

Lemma align_self c l1 l2 : time_align c c = Ok (l1, l2) -> l1 = l2.
Proof.
  unfold time_align. destruct (mapM_res _ _) as [p|]; [|done]. cbn. by intros [= <- <-].
Qed.

Lemma return_self rows k r : compute_relative_return rows rows k = Some r -> is_nan r = true \/ (is_nan r = false /\ frank r = 0).
Proof.
  unfold compute_relative_return. destruct (negb _); [done|]. destruct (_ || _); [done|]. destruct (total_return _ _) as [s|]; [|done].
  intros [= <-]. apply sub_self.
Qed.

(** Which way the label's alignment goes, of a proposed direction. *)
Definition with_direction (l : rs_label) (proposed : option string) (buy sell : string) : Prop :=
  let direction := upper (strip (default ""%string proposed)) in
  (direction = buy /\ rs_direction l = UP /\ rs_strength l = LEADER) \/
  (direction = sell /\ rs_direction l = DOWN /\ rs_strength l = LAGGARD).

Lemma alignment_iff d s proposed :
  let direction := upper (strip (default ""%string proposed)) in
  (derive_alignment d s proposed = ALIGNED <-> (direction = "BUY"%string /\ d = UP /\ s = LEADER) \/ (direction = "SELL"%string /\ d = DOWN /\ s = LAGGARD)) /\
  (derive_alignment d s proposed = MISALIGNED <-> (direction = "SELL"%string /\ d = UP /\ s = LEADER) \/ (direction = "BUY"%string /\ d = DOWN /\ s = LAGGARD)).
Proof.
  cbn zeta. unfold derive_alignment. destruct (String.eqb_spec (upper (strip (default ""%string proposed))) "BUY") as [->|N1];
    [|destruct (String.eqb_spec (upper (strip (default ""%string proposed))) "SELL") as [->|N2]];
    destruct d, s; cbn; intuition congruence.
Qed.

(** Two candle sequences get a label exactly when they align over as many candles as the
    configuration requires, no measure raises and some measure exists.  A proposed trade
    is aligned exactly when it buys a leader in a rising index or sells a laggard in a
    falling one, and misaligned exactly when it does the opposite; and a sequence measured
    against itself, under cutoffs on the two sides of zero, is in line and favours
    neither. *)
Theorem relative_strength_exact s b config proposed :
  match classify_relative_strength s b config proposed with
  | Label l =>
      exists rows, time_align s b = Ok rows /\ required_candles config <= Z.of_nat (length rows.1) /\
        rs_aligned_candles l = Z.of_nat (length rows.1) /\
        measures_of rows.1 rows.2 config = Ok (rs_measured l) /\ no_measure (rs_measured l) = false /\
        (rs_alignment l = ALIGNED <-> with_direction l proposed "BUY" "SELL") /\
        (rs_alignment l = MISALIGNED <-> with_direction l proposed "SELL" "BUY") /\
        (s = b -> PrimFloat.ltb 0 (leader_cutoff config) = true -> PrimFloat.ltb (laggard_cutoff config) 0 = true ->
           rs_strength l = INLINE /\ rs_alignment l = NEUTRAL)
  | Unavailable _ =>
      forall rows m, time_align s b = Ok rows -> measures_of rows.1 rows.2 config = Ok m ->
        Z.of_nat (length rows.1) < required_candles config \/ no_measure m = true
  end.
Proof.
  unfold classify_relative_strength. destruct (time_align s b) as [rows|ex] eqn:A; [|by intros ? ? [=]].
  cbn beta iota delta [mbind res_bind]. cbn zeta.
  destruct (Z.ltb_spec (Z.of_nat (length rows.1)) (required_candles config)) as [L|L]; [by intros ? ? [= <-] _; left|].
  destruct (measures_of rows.1 rows.2 config) as [m|ex] eqn:M; [|by intros ? ? [= <-] ?; congruence]. cbn beta iota delta [mbind res_bind].
  destruct (no_measure m) eqn:N; [by intros ? ? [= <-] ?; right; congruence|].
  exists rows. split_and!; try done; try apply alignment_iff. intros <- H1 H2. destruct rows as [l1 l2]. cbn [fst snd] in *.
  pose proof (align_self _ _ _ A) as <-.
  assert (classify_relative_strength_state (m_relative_return m) config = INLINE) as E.
  { assert (m_relative_return m = compute_relative_return l1 l1 (lookback config)) as ->.
    { unfold measures_of in M. do 3 (apply bind_Ok in M as (? & ? & M)). by apply Ok_inj in M as <-. }
    destruct (compute_relative_return _ _ _) as [r|] eqn:R; [|done]. cbn.
    rewrite !leb_rank, !ltb_rank in *. rewrite !andb_true_iff, !negb_true_iff, !Z.ltb_lt in H1, H2.
    destruct H1 as [[_ Hl] H1], H2 as [[Hg _] H2]. change (frank 0) with 0 in *. rewrite Hl, Hg.
    destruct (return_self _ _ _ R) as [->|[-> ->]]; [by rewrite andb_false_r|]. cbn.
    destruct (Z.leb_spec (frank (leader_cutoff config)) 0); [lia|]. destruct (Z.leb_spec 0 (frank (laggard_cutoff config))); [lia|done]. }
  cbn [label_of rs_strength rs_alignment]. rewrite E. split; [done|].
  match goal with |- derive_alignment ?d _ _ = _ => generalize d end. intros d. by destruct d; unfold derive_alignment; repeat case_match.
Qed.
