(* ===== verification/OptionsBias.v ===== *)
(** * The options-positioning bias

    Models [agents/deep-quant-loop/options_bias.py]: its thresholds, the vote of each
    signal of an options analytics result, the bias the votes form, and its alignment
    with a proposed direction. *)

From stdpp Require Import base list strings.
From Stdlib Require Import ZArith Lia Floats.
From S2P Require Import Prelude PyFloat PyNum PyVal PyEnv PyStats.

#[local] Set Warnings "-inexact-float".
Open Scope Z_scope.
Open Scope res_scope.

(** ** Thresholds *)

Definition DEFAULT_PCR_BULLISH_CUTOFF : float := 1.3.
Definition DEFAULT_PCR_BEARISH_CUTOFF : float := 0.7.
Definition DEFAULT_OI_WALL_PROXIMITY_PCT : float := 0.01.
Definition DEFAULT_IV_SKEW_THRESHOLD : float := 0.
Definition DEFAULT_FUTURES_BASIS_THRESHOLD : float := 0.
Definition MIN_SIGNALS_FOR_BIAS := 2.

Record OptionsBiasConfig := {
  pcr_bullish_cutoff : float;
  pcr_bearish_cutoff : float;
  oi_wall_proximity_pct : float;
  iv_skew_threshold : float;
  futures_basis_threshold : float;
}.

(** [low_exclusive] makes the lower bound open; [high] may be infinite. *)
Definition _resolve_float (e : env) (name : string) (default low high : float) (low_exclusive : bool) : float :=
  match env_text e name with
  | None => default
  | Some t =>
      match parse_float t with
      | Raise _ => default
      | Ok v =>
          if negb (is_finite v) then default
          else if (if low_exclusive then PrimFloat.leb v low else PrimFloat.ltb v low) then default
          else if PrimFloat.ltb high v then default
          else v
      end
  end.

Definition resolve_options_bias_config (e : env) : OptionsBiasConfig :=
  let bullish := _resolve_float e "OPTIONS_BIAS_PCR_BULLISH_CUTOFF" DEFAULT_PCR_BULLISH_CUTOFF 0 infinity true in
  let bearish := _resolve_float e "OPTIONS_BIAS_PCR_BEARISH_CUTOFF" DEFAULT_PCR_BEARISH_CUTOFF 0 infinity true in
  let ordered := PrimFloat.ltb bearish bullish in
  {| pcr_bullish_cutoff := if ordered then bullish else DEFAULT_PCR_BULLISH_CUTOFF;
     pcr_bearish_cutoff := if ordered then bearish else DEFAULT_PCR_BEARISH_CUTOFF;
     oi_wall_proximity_pct := _resolve_float e "OPTIONS_BIAS_OI_WALL_PROXIMITY_PCT" DEFAULT_OI_WALL_PROXIMITY_PCT 0 1 false;
     iv_skew_threshold := _resolve_float e "OPTIONS_BIAS_IV_SKEW_THRESHOLD" DEFAULT_IV_SKEW_THRESHOLD 0 infinity false;
     futures_basis_threshold :=
       _resolve_float e "OPTIONS_BIAS_FUTURES_BASIS_THRESHOLD" DEFAULT_FUTURES_BASIS_THRESHOLD 0 infinity false |}.

(** ** Votes *)

(** One signal's vote: for, against, or none. *)
Inductive vote := Bullish | Bearish | NoVote.

#[export] Instance vote_eq_dec : EqDecision vote.
Proof. solve_decision. Defined.

Definition BUILDUP_LONG : string := "long_buildup".
Definition BUILDUP_SHORT : string := "short_buildup".
Definition BUILDUP_SHORT_COVERING : string := "short_covering".
Definition BUILDUP_LONG_UNWINDING : string := "long_unwinding".

Definition _OI_BULLISH_COMBOS : list (string * string) :=
  [("put", BUILDUP_LONG); ("put", BUILDUP_SHORT_COVERING); ("call", BUILDUP_SHORT); ("call", BUILDUP_LONG_UNWINDING)]%string.
Definition _OI_BEARISH_COMBOS : list (string * string) :=
  [("call", BUILDUP_LONG); ("call", BUILDUP_SHORT); ("put", BUILDUP_LONG_UNWINDING); ("put", BUILDUP_SHORT)]%string.

Definition _is_number : val -> res bool := finite_number.

Definition both_numbers (a b : val) : res bool := andM (_is_number a) (_is_number b).

(** [v == 0] of a number *)
Definition is_zero (v : val) : bool := match as_num v with Some x => neqb x (NInt 0) | None => false end.

Definition _pcr_vote (pcr_oi : val) (config : OptionsBiasConfig) : res vote :=
  known ← _is_number pcr_oi;
  if negb known then Ok NoVote
  else
    up ← py_ge pcr_oi (VFloat (pcr_bullish_cutoff config));
    if up : bool then Ok Bullish
    else down ← py_le pcr_oi (VFloat (pcr_bearish_cutoff config)); Ok (if down : bool then Bearish else NoVote).

Definition combo_in (side : string) (label : val) (combos : list (string * string)) : bool :=
  match label with VStr l => existsb (fun c => String.eqb c.1 side && String.eqb c.2 l) combos | _ => false end.

(** How many of the two sides read as a member of the set. *)
Definition readings (d : list (val * val)) (combos : list (string * string)) : nat :=
  length (List.filter (fun side => combo_in side (dict_get d side) combos) ["call"; "put"]%string).

Definition _oi_buildup_vote (oi_buildup : val) : vote :=
  match oi_buildup with
  | VDict d =>
      let bullish := readings d _OI_BULLISH_COMBOS in
      let bearish := readings d _OI_BEARISH_COMBOS in
      if (bearish <? bullish)%nat then Bullish else if (bullish <? bearish)%nat then Bearish else NoVote
  | _ => NoVote
  end.

(** [abs(level - spot) / abs(spot) <= pct] *)
Definition within (level spot : val) (pct : float) : res bool :=
  gap ← py_sub level spot; gap ← py_abs gap; base ← py_abs spot; ratio ← py_div gap base; py_le ratio (VFloat pct).

Definition _max_pain_vote (max_pain spot : val) (config : OptionsBiasConfig) : res vote :=
  known ← both_numbers max_pain spot;
  if negb known || is_zero spot then Ok NoVote
  else
    pinned ← within max_pain spot (oi_wall_proximity_pct config);
    if pinned : bool then Ok NoVote
    else
      above ← py_gt max_pain spot;
      if above : bool then Ok Bullish else below ← py_lt max_pain spot; Ok (if below : bool then Bearish else NoVote).

(** Whether a wall is a number within the band around the spot. *)
Definition near_wall (wall spot : val) (pct : float) : res bool := andM (_is_number wall) (within wall spot pct).

Definition _oi_walls_vote (oi_walls spot : val) (config : OptionsBiasConfig) : res vote :=
  match oi_walls return res vote with
  | VDict d =>
      known ← _is_number spot;
      if negb known || is_zero spot then Ok NoVote
      else
        support_near ← near_wall (dict_get d "support") spot (oi_wall_proximity_pct config);
        resistance_near ← near_wall (dict_get d "resistance") spot (oi_wall_proximity_pct config);
        Ok (if support_near && negb resistance_near then Bullish
            else if resistance_near && negb support_near then Bearish
            else NoVote)
  | _ => Ok NoVote
  end.

(** The vote of a number against a symmetric band: [over] beyond it, [under] below it. *)
Definition band_vote (v : val) (threshold : float) (over under : vote) : res vote :=
  known ← _is_number v;
  if negb known then Ok NoVote
  else
    high ← py_gt v (VFloat threshold);
    if high : bool then Ok over else low ← py_lt v (VFloat (- threshold)%float); Ok (if low : bool then under else NoVote).

Definition _iv_skew_vote (iv_skew : val) (config : OptionsBiasConfig) : res vote :=
  match iv_skew with
  | VDict d => band_vote (dict_get d "put_minus_call") (iv_skew_threshold config) Bearish Bullish
  | _ => Ok NoVote
  end.

Definition _futures_basis_vote (futures_basis : val) (config : OptionsBiasConfig) : res vote :=
  band_vote futures_basis (futures_basis_threshold config) Bullish Bearish.

(** ** The label *)

Inductive bias_state := BULLISH | BEARISH | NEUTRAL.
Inductive alignment := ALIGNED | MISALIGNED | UNALIGNED.

Definition bias_name (s : bias_state) : string := match s with BULLISH => "bullish" | BEARISH => "bearish" | NEUTRAL => "neutral" end.
Definition alignment_name (a : alignment) : string :=
  match a with ALIGNED => "aligned" | MISALIGNED => "misaligned" | UNALIGNED => "neutral" end.

Definition direction_of (proposed_direction : val) : string :=
  match proposed_direction with VStr s => upper (strip s) | _ => "" end.

Definition derive_alignment (state : bias_state) (proposed_direction : val) : alignment :=
  let direction := direction_of proposed_direction in
  match state with
  | BULLISH => if String.eqb direction "BUY" then ALIGNED else if String.eqb direction "SELL" then MISALIGNED else UNALIGNED
  | BEARISH => if String.eqb direction "BUY" then MISALIGNED else if String.eqb direction "SELL" then ALIGNED else UNALIGNED
  | NEUTRAL => UNALIGNED
  end.

Definition _max_pain_vs_spot (max_pain spot : val) : res val :=
  known ← both_numbers max_pain spot;
  if negb known then Ok VNone
  else
    above ← py_gt max_pain spot;
    if above : bool then Ok (VStr "above")
    else below ← py_lt max_pain spot; Ok (VStr (if below : bool then "below" else "at")).

Definition signals_of (pcr_oi oi_buildup max_pain spot position oi_walls skew basis : val) : val :=
  VDict [(VStr "pcr_oi", pcr_oi); (VStr "oi_buildup", oi_buildup); (VStr "max_pain", max_pain); (VStr "spot", spot);
         (VStr "max_pain_vs_spot", position); (VStr "oi_walls", oi_walls); (VStr "iv_skew_put_minus_call", skew);
         (VStr "futures_basis", basis)].

Definition _build_signals (d : list (val * val)) : res val :=
  position ← _max_pain_vs_spot (dict_get d "max_pain") (dict_get d "spot");
  Ok (signals_of (dict_get d "pcr_oi") (dict_get d "oi_buildup") (dict_get d "max_pain") (dict_get d "spot") position
        (dict_get d "oi_walls") (if is_dict (dict_get d "iv_skew") then vget (dict_get d "iv_skew") "put_minus_call" else VNone)
        (dict_get d "futures_basis")).

Record bias_label := { bl_state : bias_state; bl_alignment : alignment; bl_signals : val }.

Definition label_of (state : bias_state) (proposed_direction signals : val) : bias_label :=
  {| bl_state := state; bl_alignment := derive_alignment state proposed_direction; bl_signals := signals |}.

Definition _neutral_label (analytics proposed_direction : val) : res bias_label :=
  match analytics with
  | VDict d => signals ← _build_signals d; Ok (label_of NEUTRAL proposed_direction signals)
  | _ => Ok (label_of NEUTRAL proposed_direction (signals_of VNone VNone VNone VNone VNone VNone VNone VNone))
  end.

Definition votes_of (d : list (val * val)) (config : OptionsBiasConfig) : res (list vote) :=
  pcr ← _pcr_vote (dict_get d "pcr_oi") config;
  pain ← _max_pain_vote (dict_get d "max_pain") (dict_get d "spot") config;
  walls ← _oi_walls_vote (dict_get d "oi_walls") (dict_get d "spot") config;
  skew ← _iv_skew_vote (dict_get d "iv_skew") config;
  basis ← _futures_basis_vote (dict_get d "futures_basis") config;
  Ok [pcr; _oi_buildup_vote (dict_get d "oi_buildup"); pain; walls; skew; basis].

Definition count_votes (v : vote) (votes : list vote) : Z := Z.of_nat (length (List.filter (fun w => bool_decide (w = v)) votes)).

Definition bias_of (votes : list vote) : bias_state :=
  let bullish_votes := count_votes Bullish votes in
  let bearish_votes := count_votes Bearish votes in
  let enough := MIN_SIGNALS_FOR_BIAS <=? bullish_votes + bearish_votes in
  if enough && (bearish_votes <? bullish_votes) then BULLISH
  else if enough && (bullish_votes <? bearish_votes) then BEARISH
  else NEUTRAL.

(** What raises on the way is caught and read as neutral; the neutral label echoes the
    signals, and what raises there is not caught. *)
Definition classify_options_bias (analytics : val) (config : OptionsBiasConfig) (proposed_direction : val) : res bias_label :=
  match analytics with
  | VDict d =>
      match (votes ← votes_of d config;
             signals ← _build_signals d;
             Ok (label_of (bias_of votes) proposed_direction signals)) with
      | Ok l => Ok l
      | Raise _ => _neutral_label analytics proposed_direction
      end
  | _ => _neutral_label analytics proposed_direction
  end.

Definition bias_payload (l : bias_label) : val :=
  VDict [(VStr "options_bias_state", VStr (bias_name (bl_state l))); (VStr "alignment", VStr (alignment_name (bl_alignment l)));
         (VStr "signals", bl_signals l)].

(** * The options-positioning bias: properties

    When the bias has a direction, how it aligns with a proposed trade, and the only way
    the classification raises: a level that is an integer beyond the floats. *)

(** ** Numbers *)

(** An integer beyond the floats. *)
Definition huge (v : val) : Prop := exists z, v = VInt z /\ int_to_float z = Raise OverflowError.

Lemma is_number_known v : _is_number v = Ok true -> exists x, as_num v = Some x.
Proof. unfold _is_number, finite_number. destruct v; cbn; try done; eauto. Qed.

Lemma is_number_raises v ex : _is_number v = Raise ex <-> ex = OverflowError /\ huge v.
Proof.
  unfold _is_number, finite_number, huge. destruct v as [| |z|x| | | | | | |]; cbn; try (split; [done|by intros [_ (? & ? & _)]]).
  unfold int_to_float. destruct (is_finite (Q2F z 1)) eqn:F; cbn; split.
  - done.
  - intros [_ (? & [= <-] & H)]. by rewrite F in H.
  - intros [= <-]. split; [done|]. exists z. by rewrite F.
  - by intros [-> _].
Qed.

Lemma both_numbers_raises a b ex :
  both_numbers a b = Raise ex <-> ex = OverflowError /\ (huge a \/ (_is_number a = Ok true /\ huge b)).
Proof.
  unfold both_numbers, andM. destruct (_is_number a) as [[]|e] eqn:A; cbn.
  - rewrite is_number_raises. split; [intros [? ?]; split; auto|]. intros [-> [H|[_ H]]]; [|done].
    assert (_is_number a = Raise OverflowError) by (by apply is_number_raises). congruence.
  - split; [done|]. intros [-> [H|[? _]]]; [|done].
    assert (_is_number a = Raise OverflowError) by (by apply is_number_raises). congruence.
  - apply is_number_raises in A as [-> H]. split; [intros [= <-]; by split; [|left]|by intros [-> _]].
Qed.

(** The echoed signals exist unless a level is beyond the floats. *)
Lemma signals_raise d ex : _build_signals d = Raise ex <-> both_numbers (dict_get d "max_pain") (dict_get d "spot") = Raise ex.
Proof.
  unfold _build_signals, _max_pain_vs_spot.
  destruct (both_numbers (dict_get d "max_pain") (dict_get d "spot")) as [[]|e] eqn:B; cbn beta iota delta [mbind res_bind negb]; [|done|].
  - split; [|done]. unfold both_numbers in B. apply andM_true in B as [A B].
    apply is_number_known in A as [x A], B as [y B]. unfold py_gt, py_lt. rewrite A, B. cbn beta iota delta [mbind res_bind].
    by destruct (nltb y x), (nltb x y).
  - by split; intros [= <-].
Qed.

(** ** The bias *)

Definition votes_for (v w : vote) (d : list (val * val)) (config : OptionsBiasConfig) : Prop :=
  exists votes, votes_of d config = Ok votes /\ MIN_SIGNALS_FOR_BIAS <= count_votes v votes + count_votes w votes /\
    count_votes w votes < count_votes v votes.

Lemma bias_bullish votes :
  bias_of votes = BULLISH <-> MIN_SIGNALS_FOR_BIAS <= count_votes Bullish votes + count_votes Bearish votes /\
    count_votes Bearish votes < count_votes Bullish votes.
Proof.
  unfold bias_of. destruct (Z.leb_spec MIN_SIGNALS_FOR_BIAS (count_votes Bullish votes + count_votes Bearish votes));
  destruct (Z.ltb_spec (count_votes Bearish votes) (count_votes Bullish votes)); cbn; try (split; [done|lia]);
  destruct (Z.ltb_spec (count_votes Bullish votes) (count_votes Bearish votes)); split; try done; lia.
Qed.

Lemma bias_bearish votes :
  bias_of votes = BEARISH <-> MIN_SIGNALS_FOR_BIAS <= count_votes Bearish votes + count_votes Bullish votes /\
    count_votes Bullish votes < count_votes Bearish votes.
Proof.
  unfold bias_of. destruct (Z.leb_spec MIN_SIGNALS_FOR_BIAS (count_votes Bullish votes + count_votes Bearish votes));
  destruct (Z.ltb_spec (count_votes Bearish votes) (count_votes Bullish votes)); cbn; try (split; [done|lia]);
  destruct (Z.ltb_spec (count_votes Bullish votes) (count_votes Bearish votes)); split; try done; lia.
Qed.

Lemma bias_alignment_iff s dir :
  (derive_alignment s dir = ALIGNED <-> (s = BULLISH /\ direction_of dir = "BUY"%string) \/ (s = BEARISH /\ direction_of dir = "SELL"%string)) /\
  (derive_alignment s dir = MISALIGNED <-> (s = BULLISH /\ direction_of dir = "SELL"%string) \/ (s = BEARISH /\ direction_of dir = "BUY"%string)).
Proof.
  unfold derive_alignment. destruct (String.eqb_spec (direction_of dir) "BUY") as [->|];
    [|destruct (String.eqb_spec (direction_of dir) "SELL") as [->|]]; destruct s; intuition congruence.
Qed.

(** C40: The votes carry the bias: a classification is bullish exactly when its analytics are
    an object whose signals all read without raising, at least two of them vote, and the
    bullish votes outnumber the bearish ones; bearish the other way round.  It is aligned
    with a trade exactly when the trade goes its way, and misaligned when against it.  It
    raises exactly when the maximum pain is an integer beyond the floats, or is a number
    and the spot is such an integer; the exception is then [OverflowError]. *)
Theorem options_bias_exact analytics config dir :
  match classify_options_bias analytics config dir with
  | Ok l =>
      (bl_state l = BULLISH <-> exists d, analytics = VDict d /\ votes_for Bullish Bearish d config) /\
      (bl_state l = BEARISH <-> exists d, analytics = VDict d /\ votes_for Bearish Bullish d config) /\
      (bl_alignment l = ALIGNED <->
        (bl_state l = BULLISH /\ direction_of dir = "BUY"%string) \/ (bl_state l = BEARISH /\ direction_of dir = "SELL"%string)) /\
      (bl_alignment l = MISALIGNED <->
        (bl_state l = BULLISH /\ direction_of dir = "SELL"%string) \/ (bl_state l = BEARISH /\ direction_of dir = "BUY"%string)) /\
      (forall d, analytics = VDict d -> _build_signals d = Ok (bl_signals l))
  | Raise ex =>
      ex = OverflowError /\
      exists d, analytics = VDict d /\ let pain := dict_get d "max_pain" in
        huge pain \/ (_is_number pain = Ok true /\ huge (dict_get d "spot"))
  end.
Proof.
  destruct analytics as [| | | | | | | | |d|];
    try (cbn; split_and!; solve [done | split; [done|by intros (? & ? & _)] | intuition congruence]).
  unfold classify_options_bias, _neutral_label. destruct (_build_signals d) as [sg|ex] eqn:S.
  - destruct (votes_of d config) as [votes|e] eqn:V; cbn beta iota delta [mbind res_bind]; cbn [label_of bl_state bl_alignment bl_signals].
    + split_and!; try apply bias_alignment_iff; [rewrite bias_bullish|rewrite bias_bearish|by intros ? [= <-]].
      * split; [intros H; exists d; split; [done|]; by exists votes|]. intros (? & [= <-] & v & Hv & H). rewrite V in Hv. by injection Hv as <-.
      * split; [intros H; exists d; split; [done|]; by exists votes|]. intros (? & [= <-] & v & Hv & H). rewrite V in Hv. by injection Hv as <-.
    + split_and!; try apply bias_alignment_iff; [| |by intros ? [= <-]]; (split; [done|]);
        intros (? & [= <-] & v & Hv & _); by rewrite V in Hv.
  - apply signals_raise, both_numbers_raises in S as B. destruct B as [-> B].
    destruct (votes_of d config) as [votes|e]; cbn beta iota delta [mbind res_bind]; (split; [done|]); by exists d.
Qed.

(** A level beyond the floats escapes the handler. *)
Theorem huge_level_escapes d config dir :
  huge (dict_get d "max_pain") -> classify_options_bias (VDict d) config dir = Raise OverflowError.
Proof.
  intros H. unfold classify_options_bias, _neutral_label.
  assert (_build_signals d = Raise OverflowError) as -> by (apply signals_raise, both_numbers_raises; split; [done|by left]).
  by destruct (votes_of d config).
Qed.

Lemma huge_level_escapes_witness :
  classify_options_bias (VDict [(VStr "max_pain", VInt (2 ^ 1024))]) (resolve_options_bias_config (fun _ => None)) VNone = Raise OverflowError.
Proof. apply huge_level_escapes. exists (2 ^ 1024). split; vm_compute; reflexivity. Defined.
