(* ===== verification/Sha256.v ===== *)
(** * SHA-256

    [hashlib.sha256(data).hexdigest()] of the standard library, executable: the
    padding, the message schedule and the compression function over 32-bit
    words, for the hash chain of the compliance records. *)

From stdpp Require Import base list strings.
From Stdlib Require Import ZArith Lia Ascii.
From S2P Require Import Prelude PyVal PyJson PyStr.

Open Scope Z_scope.

Definition w32 (z : Z) : Z := Z.land z 4294967295.
Definition add32 (a b : Z) : Z := w32 (a + b).
Definition rotr (n x : Z) : Z := Z.lor (Z.shiftr x n) (w32 (Z.shiftl x (32 - n))).
Definition xor3 (a b c : Z) : Z := Z.lxor a (Z.lxor b c).

Definition ch (x y z : Z) : Z := Z.lxor (Z.land x y) (Z.land (Z.lxor x 4294967295) z).
Definition maj (x y z : Z) : Z := xor3 (Z.land x y) (Z.land x z) (Z.land y z).
Definition big_sigma0 (x : Z) : Z := xor3 (rotr 2 x) (rotr 13 x) (rotr 22 x).
Definition big_sigma1 (x : Z) : Z := xor3 (rotr 6 x) (rotr 11 x) (rotr 25 x).
Definition small_sigma0 (x : Z) : Z := xor3 (rotr 7 x) (rotr 18 x) (Z.shiftr x 3).
Definition small_sigma1 (x : Z) : Z := xor3 (rotr 17 x) (rotr 19 x) (Z.shiftr x 10).

(** The constants are derived, as the standard defines them: the first 32 bits of
    the fractional parts of the cube roots of the first 64 primes, and of the square
    roots of the first eight. *)
Definition is_prime (p : Z) : bool := forallb (fun d => negb (p mod d =? 0)) (zrange 2 (Z.to_nat (p - 2))).
Definition first_primes : list Z := Eval vm_compute in List.filter is_prime (zrange 2 310).

(** The largest [r < 2 ^ bits] with [r ^ 3 <= n], bit by bit. *)
Fixpoint cube_root (bits : nat) (r n : Z) : Z :=
  match bits with
  | O => r
  | S b => let r' := r + 2 ^ Z.of_nat b in cube_root b (if r' * r' * r' <=? n then r' else r) n
  end.

Definition round_constants : list Z :=
  Eval vm_compute in map (fun p => w32 (cube_root 40 0 (p * 2 ^ 96))) (take 64 first_primes).

Definition initial_hash : list Z := Eval vm_compute in map (fun p => w32 (Z.sqrt (p * 2 ^ 64))) (take 8 first_primes).

Fixpoint str_bytes (s : string) : list Z :=
  match s with EmptyString => [] | String c s' => code_of c :: str_bytes s' end.

(** Big-endian digits of a number, [n] bytes of it. *)
Fixpoint be_bytes (n : nat) (z : Z) : list Z :=
  match n with O => [] | S n' => Z.land (Z.shiftr z (8 * Z.of_nat n')) 255 :: be_bytes n' z end.

Fixpoint of_be (acc : Z) (l : list Z) : Z :=
  match l with [] => acc | b :: l' => of_be (acc * 256 + b) l' end.

Definition pad (bytes : list Z) : list Z :=
  let n := Z.of_nat (length bytes) in
  bytes ++ [128] ++ replicate (Z.to_nat ((55 - n) mod 64)) 0 ++ be_bytes 8 (8 * n).

(** Consecutive chunks of [k] elements. *)
Fixpoint chunks {A} (fuel k : nat) (l : list A) : list (list A) :=
  match fuel, l with
  | S fuel', _ :: _ => take k l :: chunks fuel' k (drop k l)
  | _, _ => []
  end.

(** The message schedule, latest word first. *)
Fixpoint extend (n : nat) (ws : list Z) : list Z :=
  match n with
  | O => ws
  | S n' =>
      let w i := nth i ws 0 in
      extend n' (w32 (small_sigma1 (w 1%nat) + w 6%nat + small_sigma0 (w 14%nat) + w 15%nat) :: ws)
  end.

Definition round (h : list Z) (kw : Z * Z) : list Z :=
  match h with
  | [a; b; c; d; e; f; g; hh] =>
      let t1 := w32 (hh + big_sigma1 e + ch e f g + kw.1 + kw.2) in
      let t2 := w32 (big_sigma0 a + maj a b c) in
      [add32 t1 t2; a; b; c; add32 d t1; e; f; g]
  | _ => h
  end.

Definition compress (h : list Z) (block : list Z) : list Z :=
  let words := map (of_be 0) (chunks 16 4 block) in
  let schedule := rev (extend 48 (rev words)) in
  zip_with add32 h (fold_left round (zip round_constants schedule) h).

Definition hex_byte (z : Z) : string :=
  String (hex_digit (Z.to_N (Z.shiftr z 4))) (String (hex_digit (Z.to_N (Z.land z 15))) EmptyString).

Definition hex_string (bytes : list Z) : string := String.concat "" (map hex_byte bytes).

(** [hashlib.sha256(data).digest()] *)
Definition digest (bytes : list Z) : list Z :=
  let bytes := pad bytes in
  let h := fold_left compress (chunks (length bytes) 64 bytes) initial_hash in
  concat (map (be_bytes 4) h).

(** [hashlib.sha256(data).hexdigest()] *)
Definition sha256 (s : string) : string := hex_string (digest (str_bytes s)).

(** [hmac.new(key, msg, hashlib.sha256).digest()] *)
Definition hmac_sha256 (key msg : list Z) : list Z :=
  let key := if (64 <? length key)%nat then digest key else key in
  let key := key ++ replicate (64 - length key) 0 in
  digest (map (Z.lxor 92) key ++ digest (map (Z.lxor 54) key ++ msg)).

Example hmac_vectors :
  (hex_string (hmac_sha256 (replicate 20 11) (str_bytes "Hi There")),
   hex_string (hmac_sha256 (str_bytes "Jefe") (str_bytes "what do ya want for nothing?")),
   hex_string (hmac_sha256 (replicate 131 170) (str_bytes "Test Using Larger Than Block-Size Key - Hash Key First")))
  = ("b0344c61d8db38535ca8afceaf0bf12b881dc200c9833da726e9376c2e32cff7",
     "5bdcc146bf60754e6a042426089575c75a003f089d2739839dec58b964ec3843",
     "60e431591ee0b67f0d8a26aacbf5b77f8e0bc6213728c5140546040f0ee37f54")%string.
Proof. vm_compute. reflexivity. Qed.

Example sha256_vectors :
  (sha256 "", sha256 "abc", sha256 "abcdbcdecdefdefgefghfghighijhijkijkljklmklmnlmnomnopnopq")
  = ("e3b0c44298fc1c149afbf4c8996fb92427ae41e4649b934ca495991b7852b855",
     "ba7816bf8f01cfea414140de5dae2223b00361a396177a9cb410ff61f20015ad",
     "248d6a61d20638b8e5c026930c3e6039a33ce45964ff2167f6ecedd419db06c1")%string.
Proof. vm_compute. reflexivity. Qed.

(** ** The digest is always 64 hexadecimal digits *)

Lemma fold_left_length {A} (f : list Z -> A -> list Z) n :
  (forall h x, length h = n -> length (f h x) = n) -> forall l h, length h = n -> length (fold_left f l h) = n.
Proof. intros Hf. induction l as [|x l IH]; intros h Hh; [done|]. cbn [fold_left]. by apply IH, Hf. Qed.

Lemma round_length h kw : length h = 8%nat -> length (round h kw) = 8%nat.
Proof. by do 9 (destruct h as [|? h]; [done|]). Qed.

Lemma compress_length h block : length h = 8%nat -> length (compress h block) = 8%nat.
Proof.
  intros H. unfold compress. rewrite length_zip_with, fold_left_length with (n := 8%nat); [lia|exact round_length|done].
Qed.

Lemma hex_string_length bytes : String.length (hex_string bytes) = (2 * length bytes)%nat.
Proof.
  unfold hex_string. induction bytes as [|b bytes IH]; [done|]. cbn [map]. rewrite concat_cons, str_length_app, IH.
  cbn. lia.
Qed.

Lemma digest_length bytes : length (digest bytes) = 32%nat.
Proof.
  unfold digest. cbv zeta. pose proof (fold_left_length compress 8 compress_length (chunks (length (pad bytes)) 64 (pad bytes)) initial_hash eq_refl) as H.
  destruct (fold_left _ _ _) as [|a [|b [|c [|d [|e [|f [|g [|h [|]]]]]]]]]; try discriminate. done.
Qed.

Lemma sha256_length s : String.length (sha256 s) = 64%nat.
Proof. unfold sha256. by rewrite hex_string_length, digest_length. Qed.
