(* ===== verification/TradeManager.v ===== *)
(** * Trade manager: multi-leg exit plans and their simulation

    Models [agents/deep-quant-loop/trade_manager.py]: the configuration, the
    plan data model and its builders, the payload a plan is persisted as, the
    management-style tag, and [simulate_plan] with its candle cleaning, sorting
    and per-candle state machine.

    Plan fields are Python values: a plan read back from the journal is not
    validated before it is simulated. *)

From stdpp Require Import base list strings sorting.
From Stdlib Require Import ZArith Lia Floats Ascii Permutation.
From S2P Require Import Prelude PyFloat PyRound PyNum PyVal PyEnv PyStats PyJson.

#[local] Set Warnings "-inexact-float".
Open Scope Z_scope.

(** ** Configuration *)

Definition DEFAULT_FIRST_TARGET_R : float := 1.0%float.
Definition DEFAULT_FIRST_TARGET_FRACTION : float := 0.5%float.
Definition DEFAULT_BREAKEVEN_TRIGGER_R : float := 1.0%float.
Definition DEFAULT_TRAIL_ATR_MULTIPLE : float := 1.5%float.
Definition DEFAULT_MIN_BLENDED_REWARD_TO_RISK : float := 2.0%float.

Record TradeManagerConfig := {
  default_first_target_r : float;
  default_first_target_fraction : float;
  default_breakeven_trigger_r : float;
  default_trail_atr_multiple : float;
  cfg_min_blended_reward_to_risk : float;
}.

(** [regime._resolve_float], which the resolver borrows. *)
Definition regime_resolve_float (e : env) (name : string) (default low high : float) : float :=
  resolve_float_band e name default low high.

(** A value on the excluded lower bound 0 reverts to the default. *)
Definition exclusive_zero (x default : float) : float :=
  if PrimFloat.leb x 0 then default else x.

Definition resolve_trade_manager_config (e : env) : TradeManagerConfig := {|
  default_first_target_r :=
    exclusive_zero
      (regime_resolve_float e "TM_DEFAULT_FIRST_TARGET_R" DEFAULT_FIRST_TARGET_R 0 100)
      DEFAULT_FIRST_TARGET_R;
  default_first_target_fraction :=
    exclusive_zero
      (regime_resolve_float e "TM_DEFAULT_FIRST_TARGET_FRACTION" DEFAULT_FIRST_TARGET_FRACTION 0 1)
      DEFAULT_FIRST_TARGET_FRACTION;
  default_breakeven_trigger_r :=
    exclusive_zero
      (regime_resolve_float e "TM_DEFAULT_BREAKEVEN_TRIGGER_R" DEFAULT_BREAKEVEN_TRIGGER_R 0 100)
      DEFAULT_BREAKEVEN_TRIGGER_R;
  default_trail_atr_multiple :=
    regime_resolve_float e "TM_DEFAULT_TRAIL_ATR_MULTIPLE" DEFAULT_TRAIL_ATR_MULTIPLE 0 100;
  cfg_min_blended_reward_to_risk :=
    regime_resolve_float e "TM_MIN_BLENDED_REWARD_TO_RISK" DEFAULT_MIN_BLENDED_REWARD_TO_RISK 0 100;
|}.

(** ** Plans *)

Record ScaleOutLeg := { leg_target : val; leg_fraction : val }.
Record BreakevenTrigger := { be_price : val; be_r_multiple : val }.
Record TrailingStop := { ts_atr_multiple : val; ts_r_increment : val }.

Record ManagementPlan := {
  mp_action : val;
  mp_entry : val;
  mp_initial_stop : val;
  mp_legs : list ScaleOutLeg;
  mp_breakeven : option BreakevenTrigger;
  mp_trailing : option TrailingStop;
  mp_atr_14 : val;
}.

Definition single_target_plan (entry stop_loss take_profit : val) : res ManagementPlan :=
  up ← py_ge take_profit entry;
  Ok {|
    mp_action := VStr (if up : bool then "BUY" else "SELL");
    mp_entry := entry;
    mp_initial_stop := stop_loss;
    mp_legs := [{| leg_target := take_profit; leg_fraction := VFloat 1 |}];
    mp_breakeven := None;
    mp_trailing := None;
    mp_atr_14 := VNone;
  |}.

Definition default_management_plan (action entry stop_loss atr_14 : val) (config : TradeManagerConfig)
  : res ManagementPlan :=
  let side := if String.eqb (upper (py_str action)) "SELL" then "SELL"%string else "BUY"%string in
  diff ← py_sub entry stop_loss;
  stop_distance ← py_abs diff;
  offset ← py_mul (VFloat config.(default_first_target_r)) stop_distance;
  first_target ← (if String.eqb side "BUY" then py_add entry offset else py_sub entry offset);
  Ok {|
    mp_action := VStr side;
    mp_entry := entry;
    mp_initial_stop := stop_loss;
    mp_legs := [{| leg_target := first_target; leg_fraction := VFloat config.(default_first_target_fraction) |}];
    mp_breakeven := Some {| be_price := VNone; be_r_multiple := VFloat config.(default_breakeven_trigger_r) |};
    mp_trailing := Some {| ts_atr_multiple := VFloat config.(default_trail_atr_multiple); ts_r_increment := VNone |};
    mp_atr_14 := atr_14;
  |}.

(** ** Persistence *)

Definition leg_payload (leg : ScaleOutLeg) : val :=
  VDict [(VStr "target", leg_target leg); (VStr "fraction", leg_fraction leg)].

(** The nested dictionary [plan_to_json] serialises. *)
Definition plan_to_payload (plan : ManagementPlan) : val :=
  VDict [
    (VStr "action", mp_action plan);
    (VStr "entry", mp_entry plan);
    (VStr "initial_stop", mp_initial_stop plan);
    (VStr "legs", VList (map leg_payload (mp_legs plan)));
    (VStr "breakeven",
      match mp_breakeven plan with
      | None => VNone
      | Some be => VDict [(VStr "price", be_price be); (VStr "r_multiple", be_r_multiple be)]
      end);
    (VStr "trailing",
      match mp_trailing plan with
      | None => VNone
      | Some tr => VDict [(VStr "atr_multiple", ts_atr_multiple tr); (VStr "r_increment", ts_r_increment tr)]
      end);
    (VStr "atr_14", mp_atr_14 plan)
  ].

(** [d[k]] *)
Definition subscript (d : val) (k : string) : res val :=
  match d with
  | VDict l => match dict_find k l with Some v => Ok v | None => Raise KeyError end
  | _ => Raise TypeError
  end.

Definition leg_from_payload (leg : val) : res ScaleOutLeg :=
  t ← subscript leg "target"; f ← subscript leg "fraction";
  Ok {| leg_target := t; leg_fraction := f |}.

Definition plan_from_payload_impl (payload : val) : res (option ManagementPlan) :=
  raw_legs ← subscript payload "legs";
  match raw_legs with
  | VList ls | VTuple ls =>
      legs ← mapM_res leg_from_payload ls;
      let raw_be := vget payload "breakeven" in
      let breakeven :=
        if is_dict raw_be
        then Some {| be_price := vget raw_be "price"; be_r_multiple := vget raw_be "r_multiple" |}
        else None in
      let raw_trail := vget payload "trailing" in
      let trailing :=
        if is_dict raw_trail
        then Some {| ts_atr_multiple := vget raw_trail "atr_multiple"; ts_r_increment := vget raw_trail "r_increment" |}
        else None in
      action ← subscript payload "action";
      entry ← subscript payload "entry";
      initial_stop ← subscript payload "initial_stop";
      Ok (Some {|
        mp_action := action; mp_entry := entry; mp_initial_stop := initial_stop;
        mp_legs := legs; mp_breakeven := breakeven; mp_trailing := trailing;
        mp_atr_14 := vget payload "atr_14" |})
  | _ => Ok None
  end.

(** The decoded-payload half of [plan_from_json]: a non-dictionary is no plan,
    and so is a payload with a missing or misshapen field. *)
Definition plan_from_payload (payload : val) : res (option ManagementPlan) :=
  if is_dict payload then
    catch (plan_from_payload_impl payload)
      (fun e => match e with AttributeError | KeyError | TypeError | ValueError => true | _ => false end)
      None
  else Ok None.

(** [plan_to_json]: [None] when the payload is not serialisable. *)
Definition plan_to_json (plan : option ManagementPlan) : res val :=
  match plan with
  | None => Ok VNone
  | Some p =>
      catch (s ← dumps dumps_default (plan_to_payload p); Ok (VStr s))
        (fun e => match e with AttributeError | TypeError | ValueError => true | _ => false end) VNone
  end.

(** [plan_from_json]: absent, malformed and misshapen text are all no plan. *)
Definition plan_from_json (text : val) : res (option ManagementPlan) :=
  match text with
  | VStr s =>
      payload ← catch (v ← loads s; Ok (Some v))
                  (fun e => match e with TypeError | ValueError => true | _ => false end) None;
      match payload with Some v => plan_from_payload v | None => Ok None end
  | _ => Ok None
  end.

(** ** Management-style tag *)

Definition MANAGEMENT_STYLE_TAGS : list string :=
  ["single"; "scale"; "scale-be"; "scale-trail"; "scale-be-trail"; "be"; "trail"; "unknown"]%string.

Definition _has_breakeven (plan : ManagementPlan) : bool :=
  match mp_breakeven plan with
  | None => false
  | Some be => negb (is_none (be_price be)) || negb (is_none (be_r_multiple be))
  end.

Definition _has_trailing (plan : ManagementPlan) : bool :=
  match mp_trailing plan with
  | None => false
  | Some tr => negb (is_none (ts_atr_multiple tr)) || negb (is_none (ts_r_increment tr))
  end.

(** [any(leg.fraction < 1.0 for leg in legs)] *)
Fixpoint any_partial (legs : list ScaleOutLeg) : res bool :=
  match legs with
  | [] => Ok false
  | leg :: rest =>
      p ← py_lt (leg_fraction leg) (VFloat 1);
      if p : bool then Ok true else any_partial rest
  end.

Definition _is_scaling (plan : ManagementPlan) : res bool :=
  if (1 <? length (mp_legs plan))%nat then Ok true else any_partial (mp_legs plan).

Definition management_style_tag (plan : option ManagementPlan) : res string :=
  match plan with
  | None => Ok "unknown"%string
  | Some p =>
      catch
        (let has_be := _has_breakeven p in
         let has_trail := _has_trailing p in
         scaling ← _is_scaling p;
         Ok (if scaling : bool then
               if has_be && has_trail then "scale-be-trail"
               else if has_be then "scale-be"
               else if has_trail then "scale-trail"
               else "scale"
             else if has_trail then "trail"
             else if has_be then "be"
             else "single")%string)
        (fun e => match e with AttributeError | TypeError => true | _ => false end)
        "unknown"%string
  end.

(** ** Candle cleaning *)

Definition _SIZE_TOL : float := 1e-9%float.
Definition _TIMESTAMP_KEYS : list string := ["timestamp_ms"; "timestamp"; "time"]%string.

(** [float(value)] of a finite real number, [None] otherwise. The conversion of
    an integer past the float range raises inside [math.isfinite]. *)
Definition _finite_num (v : val) : res (option float) :=
  match v with
  | VInt z => f ← int_to_float z; Ok (Some f)
  | VFloat f => Ok (if fin f then Some f else None)
  | _ => Ok None
  end.

Fixpoint candle_timestamp_from (keys : list string) (c : list (val * val)) : res (option float) :=
  match keys with
  | [] => Ok None
  | k :: keys' =>
      match dict_find k c with
      | None => candle_timestamp_from keys' c
      | Some v =>
          ts ← _finite_num v;
          match ts with Some t => Ok (Some t) | None => candle_timestamp_from keys' c end
      end
  end.

Definition _candle_timestamp (c : list (val * val)) : res (option float) :=
  candle_timestamp_from _TIMESTAMP_KEYS c.

(** A cleaned candle: timestamp, open, high, low, close. *)
Record row := { r_ts : float; r_open : float; r_high : float; r_low : float; r_close : float }.

(** One candle of the input: [None] when it is skipped. *)
Definition clean_candle (c : val) : res (option row) :=
  match c with
  | VDict d =>
      o ← _finite_num (dict_get d "open");
      h ← _finite_num (dict_get d "high");
      lo ← _finite_num (dict_get d "low");
      cl ← _finite_num (dict_get d "close");
      match o, h, lo, cl with
      | Some o, Some h, Some lo, Some cl =>
          vol_ok ← (match dict_find "volume" d with
                    | None => Ok true
                    | Some v => x ← _finite_num v; Ok (match x with Some _ => true | None => false end)
                    end);
          if vol_ok : bool then
            ts ← _candle_timestamp d;
            Ok (match ts with
                | Some t => Some {| r_ts := t; r_open := o; r_high := h; r_low := lo; r_close := cl |}
                | None => None
                end)
          else Ok None
      | _, _, _, _ => Ok None
      end
  | _ => Ok None
  end.

(** Lexicographic order on float keys, as tuples compare in Python: the first
    position that is not [==] decides by [<]. *)
Fixpoint lex_ltb (a b : list float) : bool :=
  match a, b with
  | x :: a', y :: b' => if PrimFloat.eqb x y then lex_ltb a' b' else PrimFloat.ltb x y
  | [], _ :: _ => true
  | _, [] => false
  end.

Definition row_key (r : row) : list float := [r_ts r; r_open r; r_high r; r_low r; r_close r].
Definition row_ltb (a b : row) : bool := lex_ltb (row_key a) (row_key b).

(** [list.sort] is stable: a row goes after every row it does not precede. *)
Fixpoint row_insert (x : row) (l : list row) : list row :=
  match l with
  | [] => [x]
  | y :: l' => if row_ltb x y then x :: l else y :: row_insert x l'
  end.

Definition row_sort (l : list row) : list row := fold_left (fun acc x => row_insert x acc) l [].

Definition _clean_candles (candles : val) : res (list row) :=
  cs ← py_iter candles;
  rows ← mapM_res clean_candle cs;
  Ok (row_sort (omap id rows)).

(** ** Simulation *)

Inductive fill_kind := KTarget | KStop | KBreakevenStop | KTrailStop.

Record LegFill := {
  fill_index : Z;
  fill_price : float;
  fill_fraction : val;
  fill_leg_r : float;
  fill_timestamp_ms : Z;
  fill_kind_of : fill_kind;
}.

Inductive sim_status := StResolved | StOpen | StInvalid.

Record SimulationResult := {
  sr_status : sim_status;
  sr_realized_r : val;
  sr_fills : list LegFill;
  sr_residual_fraction : float;
  sr_breakeven_moved_at : option Z;
  sr_trailed : bool;
}.

Definition _realized_r (fills : list LegFill) : res val :=
  terms ← mapM_res (fun f => v ← py_mul (fill_fraction f) (VFloat (fill_leg_r f)); py_float v) fills;
  Ok (py_sum terms).

(** The plan-level constants of one simulation. *)
Record sim_ctx := {
  cx_is_buy : bool;
  cx_entry : float;
  cx_stop : float;
  cx_stop_distance : float;
  cx_legs : list ScaleOutLeg;
  cx_be_level : option float;
  cx_trail_distance : option float;
}.

(** The loop-carried variables. *)
Record sim_state := {
  s_fills : list LegFill;
  s_filled : list nat;
  s_remaining : float;
  s_active_stop : float;
  s_stop_origin : fill_kind;
  s_breakeven_moved : bool;
  s_breakeven_moved_at : option Z;
  s_trailed : bool;
}.

Definition sim_init (cx : sim_ctx) : sim_state := {|
  s_fills := []; s_filled := []; s_remaining := 1; s_active_stop := cx_stop cx;
  s_stop_origin := KStop; s_breakeven_moved := false; s_breakeven_moved_at := None;
  s_trailed := false |}.

Definition r_of (cx : sim_ctx) (price : float) : float :=
  if cx_is_buy cx then ((price - cx_entry cx) / cx_stop_distance cx)%float
  else ((cx_entry cx - price) / cx_stop_distance cx)%float.

Definition stop_hit (cx : sim_ctx) (s : sim_state) (c : row) : bool :=
  if cx_is_buy cx then PrimFloat.leb (r_low c) (s_active_stop s)
  else PrimFloat.leb (s_active_stop s) (r_high c).

Definition reaches (cx : sim_ctx) (c : row) (level : float) : bool :=
  if cx_is_buy cx then PrimFloat.leb level (r_high c) else PrimFloat.leb (r_low c) level.

Definition resolved (s : sim_state) (fills : list LegFill) (residual : float) : res SimulationResult :=
  rr ← _realized_r fills;
  Ok {| sr_status := StResolved; sr_realized_r := rr; sr_fills := fills;
        sr_residual_fraction := residual; sr_breakeven_moved_at := s_breakeven_moved_at s;
        sr_trailed := s_trailed s |}.

(** Step 1: the stop closes the whole remaining size. *)
Definition close_at_stop (cx : sim_ctx) (s : sim_state) (ts_ms : Z) : res SimulationResult :=
  resolved s
    (s_fills s ++
      [{| fill_index := -1; fill_price := s_active_stop s; fill_fraction := VFloat (s_remaining s);
          fill_leg_r := r_of cx (s_active_stop s); fill_timestamp_ms := ts_ms;
          fill_kind_of := s_stop_origin s |}])
    (s_remaining s).

(** Step 2, one leg. *)
Definition fill_leg (cx : sim_ctx) (c : row) (ts_ms : Z) (s : sim_state) (il : nat * ScaleOutLeg)
  : res sim_state :=
  let '(i, leg) := il in
  if bool_decide (i ∈ s_filled s) || PrimFloat.leb (s_remaining s) _SIZE_TOL then Ok s
  else
    target ← _finite_num (leg_target leg);
    match target with
    | None => Ok s
    | Some t =>
        if reaches cx c t then
          within ← py_le (leg_fraction leg) (VFloat (s_remaining s));
          let frac := if within : bool then leg_fraction leg else VFloat (s_remaining s) in
          empty ← py_le frac (VFloat 0);
          if empty : bool then
            Ok {| s_fills := s_fills s; s_filled := i :: s_filled s; s_remaining := s_remaining s;
                  s_active_stop := s_active_stop s; s_stop_origin := s_stop_origin s;
                  s_breakeven_moved := s_breakeven_moved s;
                  s_breakeven_moved_at := s_breakeven_moved_at s; s_trailed := s_trailed s |}
          else
            rem ← py_sub (VFloat (s_remaining s)) frac;
            remf ← py_float rem;
            Ok {| s_fills := s_fills s ++
                    [{| fill_index := Z.of_nat i; fill_price := t; fill_fraction := frac;
                        fill_leg_r := r_of cx t; fill_timestamp_ms := ts_ms; fill_kind_of := KTarget |}];
                  s_filled := i :: s_filled s; s_remaining := remf;
                  s_active_stop := s_active_stop s; s_stop_origin := s_stop_origin s;
                  s_breakeven_moved := s_breakeven_moved s;
                  s_breakeven_moved_at := s_breakeven_moved_at s; s_trailed := s_trailed s |}
        else Ok s
    end.

Definition enumerate {A} (l : list A) : list (nat * A) := zip (seq 0 (length l)) l.

Definition fill_targets (cx : sim_ctx) (c : row) (ts_ms : Z) (s : sim_state) : res sim_state :=
  foldM (fill_leg cx c ts_ms) s (enumerate (cx_legs cx)).

Definition set_stop (s : sim_state) (stop : float) (origin : fill_kind) (tr : bool) : sim_state :=
  {| s_fills := s_fills s; s_filled := s_filled s; s_remaining := s_remaining s;
     s_active_stop := stop; s_stop_origin := origin;
     s_breakeven_moved := s_breakeven_moved s;
     s_breakeven_moved_at := s_breakeven_moved_at s; s_trailed := tr |}.

(** [candidate] is a strictly better stop than the active one. *)
Definition improves (cx : sim_ctx) (s : sim_state) (candidate : float) : bool :=
  if cx_is_buy cx then PrimFloat.ltb (s_active_stop s) candidate
  else PrimFloat.ltb candidate (s_active_stop s).

(** Step 3a: breakeven. *)
Definition advance_breakeven (cx : sim_ctx) (c : row) (ts_ms : Z) (s : sim_state) : sim_state :=
  match cx_be_level cx with
  | Some be_level =>
      if negb (s_breakeven_moved s) && reaches cx c be_level then
        let s' := if improves cx s (cx_entry cx) then set_stop s (cx_entry cx) KBreakevenStop (s_trailed s) else s in
        {| s_fills := s_fills s'; s_filled := s_filled s'; s_remaining := s_remaining s';
           s_active_stop := s_active_stop s'; s_stop_origin := s_stop_origin s';
           s_breakeven_moved := true; s_breakeven_moved_at := Some ts_ms; s_trailed := s_trailed s' |}
      else s
  | None => s
  end.

Definition trailing_active (cx : sim_ctx) (s : sim_state) : bool :=
  match cx_trail_distance cx with
  | None => false
  | Some _ => match cx_be_level cx with Some _ => s_breakeven_moved s | None => true end
  end.

(** Step 3b: trailing. *)
Definition advance_trailing (cx : sim_ctx) (c : row) (s : sim_state) : sim_state :=
  if trailing_active cx s then
    match cx_trail_distance cx with
    | None => s
    | Some dist =>
        let candidate := if cx_is_buy cx then (r_close c - dist)%float else (r_close c + dist)%float in
        if fin candidate && improves cx s candidate then set_stop s candidate KTrailStop true else s
    end
  else s.

(** One iteration of the candle loop: a result, or the next state. *)
Definition sim_step (cx : sim_ctx) (s : sim_state) (c : row) : res (SimulationResult + sim_state) :=
  ts_ms ← f_int (r_ts c);
  if stop_hit cx s c then inl <$> close_at_stop cx s ts_ms
  else
    s1 ← fill_targets cx c ts_ms s;
    if PrimFloat.leb (s_remaining s1) _SIZE_TOL then inl <$> resolved s1 (s_fills s1) 0%float
    else Ok (inr (advance_trailing cx c (advance_breakeven cx c ts_ms s1))).

Fixpoint sim_loop (cx : sim_ctx) (s : sim_state) (cs : list row) : res SimulationResult :=
  match cs with
  | [] =>
      Ok {| sr_status := StOpen; sr_realized_r := VNone; sr_fills := s_fills s;
            sr_residual_fraction := s_remaining s;
            sr_breakeven_moved_at := s_breakeven_moved_at s; sr_trailed := s_trailed s |}
  | c :: cs' =>
      r ← sim_step cx s c;
      match r with inl out => Ok out | inr s' => sim_loop cx s' cs' end
  end.

Definition invalid_result : SimulationResult :=
  {| sr_status := StInvalid; sr_realized_r := VNone; sr_fills := []; sr_residual_fraction := 0;
     sr_breakeven_moved_at := None; sr_trailed := false |}.

Definition open_backstop : SimulationResult :=
  {| sr_status := StOpen; sr_realized_r := VNone; sr_fills := []; sr_residual_fraction := 1;
     sr_breakeven_moved_at := None; sr_trailed := false |}.

Definition opt_finite (o : option val) : res (option float) :=
  match o with None => Ok None | Some v => _finite_num v end.

Definition be_level_of (is_buy : bool) (entry_f stop_distance : float) (be : option BreakevenTrigger)
  : res (option float) :=
  match be with
  | None => Ok None
  | Some b =>
      price ← _finite_num (be_price b);
      rmult ← _finite_num (be_r_multiple b);
      Ok (match price, rmult with
          | Some p, _ => Some p
          | None, Some r =>
              Some (if is_buy then (entry_f + r * stop_distance)%float
                    else (entry_f - r * stop_distance)%float)
          | None, None => None
          end)
  end.

Definition trail_distance_of (stop_distance : float) (mult incr atr : option float) : option float :=
  let dist :=
    match mult, atr, incr with
    | Some m, Some a, _ => Some (m * a)%float
    | _, _, Some r => Some (r * stop_distance)%float
    | _, _, None => None
    end in
  match dist with
  | Some d => if negb (fin d) || PrimFloat.ltb d 0 then None else Some d
  | None => None
  end.

(** Everything before the loop: [None] is the [invalid] verdict. *)
Definition sim_context (plan : ManagementPlan) : res (option sim_ctx) :=
  let is_buy := negb (String.eqb (upper (py_str (mp_action plan))) "SELL") in
  entry ← _finite_num (mp_entry plan);
  stop ← _finite_num (mp_initial_stop plan);
  match entry, stop with
  | Some entry_f, Some stop_f =>
      let stop_distance := PrimFloat.abs (entry_f - stop_f) in
      if PrimFloat.eqb stop_distance 0 || negb (fin stop_distance) then Ok None
      else
        be ← be_level_of is_buy entry_f stop_distance (mp_breakeven plan);
        atr ← _finite_num (mp_atr_14 plan);
        mult ← opt_finite (ts_atr_multiple <$> mp_trailing plan);
        incr ← opt_finite (ts_r_increment <$> mp_trailing plan);
        Ok (Some {| cx_is_buy := is_buy; cx_entry := entry_f; cx_stop := stop_f;
                    cx_stop_distance := stop_distance; cx_legs := mp_legs plan;
                    cx_be_level := be;
                    cx_trail_distance := trail_distance_of stop_distance mult incr atr |})
  | _, _ => Ok None
  end.

Definition _simulate_plan_impl (plan : ManagementPlan) (candles : val) : res SimulationResult :=
  cx ← sim_context plan;
  match cx with
  | None => Ok invalid_result
  | Some cx =>
      rows ← _clean_candles candles;
      sim_loop cx (sim_init cx) rows
  end.

(** [except Exception]: any exception becomes the unresolved result. *)
Definition simulate_plan (plan : ManagementPlan) (candles : val) : SimulationResult :=
  match _simulate_plan_impl plan candles with
  | Ok r => r
  | Raise _ => open_backstop
  end.

Definition num_candle (ts o h l c : Z) : val :=
  VDict [(VStr "timestamp_ms", VInt ts); (VStr "open", VInt o); (VStr "high", VInt h);
         (VStr "low", VInt l); (VStr "close", VInt c)].

Example sim_scale_trail :
  let plan := {| mp_action := VStr "buy"; mp_entry := VInt 100; mp_initial_stop := VInt 90;
                 mp_legs := [{| leg_target := VInt 110; leg_fraction := VFloat 0.5 |}];
                 mp_breakeven := Some {| be_price := VNone; be_r_multiple := VFloat 1 |};
                 mp_trailing := Some {| ts_atr_multiple := VFloat 1.5; ts_r_increment := VNone |};
                 mp_atr_14 := VInt 4 |} in
  let r := simulate_plan plan (VList [num_candle 3 112 120 111 119; num_candle 1 100 105 95 101;
                                      num_candle 2 101 111 100 109; num_candle 4 119 120 112 113]) in
  (sr_status r, sr_realized_r r, map fill_price (sr_fills r), map fill_kind_of (sr_fills r),
   sr_breakeven_moved_at r)
  = (StResolved, VFloat 1.15, [110%float; 113%float], [KTarget; KTrailStop], Some 2).
Proof. vm_compute. reflexivity. Qed.
