(* ===== verification/TradeManagerFacts.v ===== *)
(** * Trade manager: correctness of the exit simulation

    The candle loop preserves [sim_inv]: the stop only moves in the trade's
    favour, the open size stays in [[0, 1]] and is what the recorded target
    fills leave, and every leg fills at most once, at its own target.  From it
    follow the theorems about whole simulations.  The result does not depend on
    the order of the candles, and a persisted plan is read back unchanged. *)

From stdpp Require Import base list strings sorting.
From Stdlib Require Import ZArith Lia Floats Permutation.
From S2P Require Import Prelude PyFloat PyRound PyNum PyVal PyEnv TradeManager.

#[local] Set Warnings "-inexact-float".
Open Scope Z_scope.

(** ** Ordering of cleaned candles *)

Definition row_fin (r : row) : bool := forallb fin (row_key r).
Definition row_no_neg_zero (r : row) : bool := forallb (fun x => negb (neg_zerob x)) (row_key r).

Fixpoint lexZ (a b : list Z) : bool :=
  match a, b with
  | x :: a', y :: b' => if x =? y then lexZ a' b' else x <? y
  | [], _ :: _ => true
  | _, [] => false
  end.

Lemma lex_ltb_rank a b :
  forallb fin a = true -> forallb fin b = true -> lex_ltb a b = lexZ (map frank a) (map frank b).
Proof.
  revert b. induction a as [|x a IH]; intros [|y b] Ha Hb; try done.
  simpl in *. bools. rewrite eqb_rank, ltb_rank, !fin_not_nan by done. simpl.
  destruct (frank x =? frank y); auto.
Qed.

Lemma lexZ_irrefl a : lexZ a a = false.
Proof. induction a; simpl; [done|]. by rewrite Z.eqb_refl. Qed.

Lemma lexZ_trans a b c :
  length a = length b -> length b = length c ->
  lexZ b a = false -> lexZ c b = false -> lexZ c a = false.
Proof.
  revert b c. induction a as [|x a IH]; intros [|y b] [|z c]; simpl; try done; try lia.
  intros L1 L2. destruct (Z.eqb_spec y x), (Z.eqb_spec z y), (Z.eqb_spec z x);
    rewrite ?Z.ltb_ge; subst; try lia; intros; eauto.
Qed.

Lemma lexZ_total a b : lexZ a b = true -> lexZ b a = false.
Proof.
  revert b. induction a as [|x a IH]; intros [|y b]; simpl; try done.
  destruct (Z.eqb_spec x y) as [->|Hne].
  - rewrite Z.eqb_refl. auto.
  - destruct (Z.eqb_spec y x); [congruence|]. rewrite Z.ltb_lt, Z.ltb_ge. lia.
Qed.

Lemma lexZ_antisym a b :
  length a = length b -> lexZ a b = false -> lexZ b a = false -> a = b.
Proof.
  revert b. induction a as [|x a IH]; intros [|y b]; simpl; try done.
  intros [= L]. destruct (Z.eqb_spec x y) as [->|Hne].
  - rewrite Z.eqb_refl. intros. f_equal. auto.
  - destruct (Z.eqb_spec y x); [congruence|]. rewrite !Z.ltb_ge. lia.
Qed.

(** [row_le a b]: [b] does not sort before [a]. *)
Definition row_le (a b : row) : Prop := row_ltb b a = false.

Definition zkey (r : row) : list Z := map frank (row_key r).

Lemma row_ltb_zkey a b :
  row_fin a = true -> row_fin b = true -> row_ltb a b = lexZ (zkey a) (zkey b).
Proof. intros. by apply lex_ltb_rank. Qed.

Lemma row_insert_perm x l : row_insert x l ≡ₚ x :: l.
Proof.
  induction l as [|y l IH]; simpl; [done|]. destruct (row_ltb x y); [done|].
  rewrite IH. constructor.
Qed.

Lemma row_sort_perm l : row_sort l ≡ₚ l.
Proof.
  unfold row_sort. rewrite <- (app_nil_r l) at 2. generalize (@nil row) as acc.
  induction l as [|x l IH]; intros acc; simpl; [done|].
  rewrite IH, row_insert_perm. symmetry. apply Permutation_middle.
Qed.

Lemma row_insert_sorted x l :
  row_fin x = true -> Forall (fun r => row_fin r = true) l ->
  StronglySorted row_le l -> StronglySorted row_le (row_insert x l).
Proof.
  intros Hx Hl Hs. induction Hs as [|y l Hs IH Hy]; simpl; [by repeat constructor|].
  apply Forall_cons in Hl as [Fy Fl]. destruct (row_ltb x y) eqn:E.
  - assert (row_le x y) as Hxy.
    { unfold row_le. rewrite row_ltb_zkey in * by done. by apply lexZ_total. }
    constructor; [by constructor|]. constructor; [done|].
    rewrite Forall_forall in Fl, Hy |- *. intros z Hz. unfold row_le in *.
    rewrite row_ltb_zkey in Hxy |- * by auto. specialize (Hy z Hz).
    rewrite row_ltb_zkey in Hy by auto. by eapply lexZ_trans; [..|exact Hxy|exact Hy].
  - constructor; [by apply IH|]. rewrite row_insert_perm. by constructor.
Qed.

Lemma row_sort_sorted l :
  Forall (fun r => row_fin r = true) l -> StronglySorted row_le (row_sort l).
Proof.
  unfold row_sort. intros Hl.
  assert (forall acc, Forall (fun r => row_fin r = true) acc -> StronglySorted row_le acc ->
            StronglySorted row_le (fold_left (fun acc x => row_insert x acc) l acc)) as H.
  { induction Hl as [|x l Hx Hl IH]; intros acc Ha Hs; simpl; [done|].
    apply IH; [|by apply row_insert_sorted]. rewrite row_insert_perm. by constructor. }
  apply H; constructor.
Qed.

Lemma row_le_antisym a b :
  row_fin a = true -> row_fin b = true ->
  row_no_neg_zero a = true -> row_no_neg_zero b = true ->
  row_le a b -> row_le b a -> a = b.
Proof.
  intros Fa Fb Za Zb H1 H2. unfold row_le in *. rewrite row_ltb_zkey in H1, H2 by done.
  assert (zkey a = zkey b) as E by (by apply lexZ_antisym).
  destruct a, b. unfold row_fin, row_no_neg_zero, zkey, row_key in *. simpl in *. bools.
  injection E as E1 E2 E3 E4 E5.
  f_equal; apply frank_inj; auto using fin_not_nan.
Qed.

(** Sorting erases the input order. *)
Lemma row_sort_confluent l1 l2 :
  Forall (fun r => row_fin r = true /\ row_no_neg_zero r = true) l1 ->
  l1 ≡ₚ l2 -> row_sort l1 = row_sort l2.
Proof.
  intros Hl Hp.
  assert (Forall (fun r => row_fin r = true /\ row_no_neg_zero r = true) l2) as Hl2 by (by rewrite <- Hp).
  apply (StronglySorted_unique_strong row_le).
  - intros x y Hx Hy. rewrite row_sort_perm in Hx, Hy.
    rewrite Forall_forall in Hl, Hl2. destruct (Hl x Hx), (Hl2 y Hy). by apply row_le_antisym.
  - apply row_sort_sorted. eapply Forall_impl; [exact Hl|]. by intros r [? _].
  - apply row_sort_sorted. eapply Forall_impl; [exact Hl2|]. by intros r [? _].
  - by rewrite !row_sort_perm.
Qed.

(** ** What cleaning keeps *)

Lemma _finite_num_fin v f : _finite_num v = Ok (Some f) -> fin f = true.
Proof.
  destruct v as [| |z|g| | | | | | |]; cbn; try discriminate.
  - unfold int_to_float. destruct (is_finite (Q2F z 1)) eqn:E; cbn; [|discriminate].
    by intros [= <-].
  - destruct (fin g) eqn:E; [|discriminate]. by intros [= <-].
Qed.

Lemma candle_timestamp_fin keys c t :
  candle_timestamp_from keys c = Ok (Some t) -> fin t = true.
Proof.
  induction keys as [|k keys IH]; simpl; [discriminate|].
  destruct (dict_find k c); [|done]. intros H. mbind H.
  destruct a as [f|]; [|auto]. injection H as <-. by eapply _finite_num_fin.
Qed.

Lemma clean_candle_fin c r : clean_candle c = Ok (Some r) -> row_fin r = true.
Proof.
  unfold clean_candle. destruct c as [| | | | | | | | |d|]; try discriminate.
  intros H. mbind H. mbind H. mbind H. mbind H.
  destruct a as [o|], a0 as [h|], a1 as [l|], a2 as [cl|]; try discriminate.
  mbind H. destruct a; [|discriminate]. mbind H. destruct a as [t|]; [|discriminate].
  injection H as <-. unfold row_fin, row_key. simpl.
  apply candle_timestamp_fin in E4.
  repeat match goal with E : _finite_num _ = Ok (Some _) |- _ => apply _finite_num_fin in E end.
  by rewrite E, E0, E1, E2, E4.
Qed.

Lemma clean_rows_fin cs rows :
  mapM_res clean_candle cs = Ok rows -> Forall (fun r => row_fin r = true) (omap id rows).
Proof.
  intros H. apply Forall_forall. intros r Hr.
  apply list_elem_of_omap in Hr as (o & Ho & Hid). unfold id in Hid. subst o.
  eapply mapM_res_In in Ho as (c & _ & Hc); [|exact H]. by eapply clean_candle_fin.
Qed.

(** ** Confluence: the candle order does not matter *)

Definition no_neg_zero_rows (cs : list val) : bool :=
  match mapM_res clean_candle cs with
  | Ok rows => forallb row_no_neg_zero (omap id rows)
  | Raise _ => true
  end.

Lemma clean_candles_confluent cs1 cs2 rows :
  cs1 ≡ₚ cs2 -> no_neg_zero_rows cs1 = true ->
  _clean_candles (VList cs1) = Ok rows -> _clean_candles (VList cs2) = Ok rows.
Proof.
  intros Hp Hz H. unfold _clean_candles in *. simpl in H |- *. mbind H. injection H as <-.
  unfold no_neg_zero_rows in Hz. rewrite E in Hz.
  destruct (mapM_res_perm _ _ _ _ Hp E) as (ys2 & -> & Hys). simpl. f_equal. symmetry.
  apply row_sort_confluent; [|by rewrite Hys].
  apply Forall_and. split; [by eapply clean_rows_fin|].
  apply Forall_forall. rewrite forallb_forall in Hz. intros r Hr. apply Hz. by apply list_elem_of_In.
Qed.

(** ** The loop invariant *)

(** The size a fill closes, as a float. *)
Definition frac_of (f : LegFill) : float :=
  match py_float (fill_fraction f) with Ok x => x | Raise _ => nan end.

(** The size left after the fills, subtracting in order from 1.0. *)
Definition left_open (fills : list LegFill) : float :=
  fold_left (fun rem f => (rem - frac_of f)%float) fills 1%float.

(** [b] is at least as favourable a stop as [a]. *)
Definition no_worse (cx : sim_ctx) (a b : float) : Prop :=
  fin b = true /\ if cx_is_buy cx then frank a <= frank b else frank b <= frank a.

(** A target fill is one of the plan's legs, filled at that leg's target for a
    positive size. *)
Definition target_fill_ok (cx : sim_ctx) (f : LegFill) : Prop :=
  fill_kind_of f = KTarget /\ 0 <= fill_index f /\
  (exists leg, cx_legs cx !! Z.to_nat (fill_index f) = Some leg /\
     _finite_num (leg_target leg) = Ok (Some (fill_price f))) /\
  fin (frac_of f) = true /\ 0 < frank (frac_of f) <= frank 1.

Record sim_inv (cx : sim_ctx) (s : sim_state) : Prop := {
  inv_stop : no_worse cx (cx_stop cx) (s_active_stop s);
  inv_origin : s_stop_origin s <> KTarget;
  inv_rem_fin : fin (s_remaining s) = true;
  inv_rem : 0 <= frank (s_remaining s) <= frank 1;
  inv_left : s_remaining s = left_open (s_fills s);
  inv_fills : Forall (target_fill_ok cx) (s_fills s);
  inv_nodup : NoDup (map fill_index (s_fills s));
  inv_filled : forall f, f ∈ s_fills s -> Z.to_nat (fill_index f) ∈ s_filled s;
}.

Lemma frank_one : frank 1 = two1074.
Proof. vm_compute. reflexivity. Qed.

Lemma left_open_app fills f : left_open (fills ++ [f]) = (left_open fills - frac_of f)%float.
Proof. unfold left_open. by rewrite fold_left_app. Qed.

Lemma py_le_Ok_l a f r :
  py_le a (VFloat f) = Ok r -> exists n, as_num a = Some n /\ r = nleb n (NFlt f).
Proof. unfold py_le. destruct a; simpl; intros H; inv H; eauto. Qed.

(** The size taken at a target: finite, positive, and within the open size. *)
Lemma taken_size rem frac r :
  fin rem = true -> 0 <= frank rem <= frank 1 ->
  (exists n, as_num frac = Some n /\ nleb n (NFlt rem) = true) ->
  py_le frac (VFloat 0) = Ok false ->
  py_sub (VFloat rem) frac = Ok r ->
  exists x, py_float frac = Ok x /\ fin x = true /\ 0 < frank x <= frank rem /\ r = VFloat (rem - x).
Proof.
  intros Hf Hr (n & Hn & Hle) H0 Hs. pose proof two1074_pos as Hp.
  apply py_le_Ok_l in H0 as (n' & Hn' & H0). rewrite Hn in Hn'. injection Hn' as <-.
  unfold py_sub, py_arith, py_float in *. rewrite Hn in *. cbn [as_num] in *. destruct n as [z|x].
  - rewrite nleb_rank in Hle, H0 by done. symmetry in H0. cbn [nrank] in *.
    change (frank 0) with 0 in H0. rewrite frank_one in Hr. bools.
    assert (z = 1) as -> by nia. replace (int_to_float 1) with (Ok 1%float) in * by reflexivity.
    exists 1%float. cbn in Hs. injection Hs as <-. split; [done|]. split; [done|]. split; [rewrite frank_one; lia|done].
  - exists x. rewrite nleb_flt, leb_rank in Hle, H0. symmetry in H0.
    rewrite (fin_not_nan rem) in Hle by done. change (is_nan 0) with false in H0.
    change (frank 0) with 0 in H0. destruct (is_nan x) eqn:Ex; [discriminate|]. cbn in Hle, H0.
    bools. cbn in Hs. injection Hs as <-. split; [done|]. rewrite fin_rank in Hf. bools.
    split; [|split; [lia|done]]. rewrite fin_rank, Ex. simpl.
    apply andb_true_iff; split; apply Z.ltb_lt; lia.
Qed.

Lemma size_tol_pos : 0 < frank _SIZE_TOL.
Proof. vm_compute. reflexivity. Qed.

Lemma above_tol rem :
  fin rem = true -> PrimFloat.leb rem _SIZE_TOL = false -> 0 < frank rem.
Proof.
  intros Hf H. rewrite leb_rank, (fin_not_nan rem) in H by done.
  change (is_nan _SIZE_TOL) with false in H. cbn in H. bools. pose proof size_tol_pos. lia.
Qed.

Lemma fill_leg_inv cx c ts s il s' :
  sim_inv cx s -> cx_legs cx !! il.1 = Some il.2 ->
  fill_leg cx c ts s il = Ok s' -> sim_inv cx s'.
Proof.
  destruct il as [i leg]. simpl. intros I Hleg. unfold fill_leg.
  destruct (bool_decide_reflect (i ∈ s_filled s)) as [|Hni]; [by intros [= <-]|].
  destruct (PrimFloat.leb (s_remaining s) _SIZE_TOL) eqn:Etol; [by intros [= <-]|]. cbn [orb].
  intros H. mbind H. destruct a as [t|]; [|by injection H as <-].
  destruct (reaches cx c t); [|by injection H as <-]. mbind H. mbind H.
  destruct I as [I1 I1' I2 I3 I4 I5 I6 I7]. destruct a0.
  { injection H as <-. constructor; simpl; try done. intros f Hf. right. auto. }
  mbind H. mbind H. injection H as <-.
  set (frac := if a then leg_fraction leg else VFloat (s_remaining s)) in *.
  assert (exists n, as_num frac = Some n /\ nleb n (NFlt (s_remaining s)) = true) as Hn.
  { destruct a; subst frac.
    - apply py_le_Ok_l in E0 as (n & ? & ?). eauto.
    - exists (NFlt (s_remaining s)). split; [done|].
      rewrite nleb_flt, leb_rank, fin_not_nan by done. simpl. apply Z.leb_refl. }
  destruct (taken_size _ _ _ I2 I3 Hn E1 E2) as (x & Hx & Fx & Bx & ->). cbn in E3. injection E3 as <-.
  destruct (fsub_bounds (s_remaining s) x) as [Hb Hfin]; [done|done|lia|].
  set (f := {| fill_index := Z.of_nat i; fill_price := t; fill_fraction := frac;
               fill_leg_r := r_of cx t; fill_timestamp_ms := ts; fill_kind_of := KTarget |}).
  assert (frac_of f = x) as Hfx by (unfold frac_of; simpl; by rewrite Hx).
  constructor; simpl; try done.
  - lia.
  - by rewrite left_open_app, Hfx, I4.
  - apply Forall_app; split; [done|]. apply Forall_singleton. unfold target_fill_ok.
    rewrite Hfx. simpl. rewrite Nat2Z.id. repeat split; try lia; eauto.
  - rewrite map_app. simpl. apply NoDup_app. split; [done|]. split; [|apply NoDup_singleton].
    intros z Hz Hi. apply list_elem_of_singleton in Hi. subst z.
    apply list_elem_of_fmap in Hz as (g & Hg & Hin). apply Hni.
    rewrite <- (Nat2Z.id i), Hg. auto.
  - intros g Hg. apply elem_of_app in Hg as [Hg|Hg%list_elem_of_singleton]; [right; auto|].
    subst g. simpl. rewrite Nat2Z.id. left.
Qed.

Lemma enumerate_lookup {A} (l : list A) i x : (i, x) ∈ enumerate l -> l !! i = Some x.
Proof.
  unfold enumerate. intros H. apply list_elem_of_lookup in H as (k & Hk).
  apply lookup_zip_Some in Hk as [H1 H2]. apply lookup_seq in H1 as [-> _]. done.
Qed.

Lemma fill_targets_inv cx c ts s s' :
  sim_inv cx s -> fill_targets cx c ts s = Ok s' -> sim_inv cx s'.
Proof.
  intros I H. unfold fill_targets in H. eapply foldM_Ok_inv; [exact I| |exact H].
  intros b [i leg] b' Hin Hb Hf. eapply fill_leg_inv; [exact Hb| |exact Hf].
  by apply enumerate_lookup, list_elem_of_In.
Qed.

(** Target fills leave the stop and its origin alone. *)
Lemma fill_targets_stop cx c ts s s' :
  fill_targets cx c ts s = Ok s' ->
  s_active_stop s' = s_active_stop s /\ s_stop_origin s' = s_stop_origin s /\
  s_breakeven_moved s' = s_breakeven_moved s.
Proof.
  intros H. unfold fill_targets in H.
  eapply (foldM_Ok_inv (fun b => s_active_stop b = s_active_stop s /\ s_stop_origin b = s_stop_origin s /\
            s_breakeven_moved b = s_breakeven_moved s)); [done| |exact H].
  intros b [i leg] b' _ Hb Hf. unfold fill_leg in Hf.
  destruct (_ || _); [by injection Hf as <-|]. mbind Hf. destruct a; [|by injection Hf as <-].
  destruct (reaches _ _ _); [|by injection Hf as <-]. mbind Hf. mbind Hf.
  destruct a0; [by injection Hf as <-|]. mbind Hf. mbind Hf. by injection Hf as <-.
Qed.

Lemma ltb_frank_lt x y : PrimFloat.ltb x y = true -> frank x < frank y.
Proof. rewrite ltb_rank. intros H. bools. done. Qed.

Lemma improves_active cx s x : improves cx s x = true -> fin x = true -> no_worse cx (s_active_stop s) x.
Proof.
  unfold improves, no_worse. intros H Hx. split; [done|]. destruct (cx_is_buy cx); apply ltb_frank_lt in H; lia.
Qed.

Lemma no_worse_refl cx a : fin a = true -> no_worse cx a a.
Proof. intros H. split; [done|]. destruct (cx_is_buy cx); lia. Qed.

Lemma no_worse_trans cx a b c : no_worse cx a b -> no_worse cx b c -> no_worse cx a c.
Proof. intros [_ H1] [Hc H2]. split; [done|]. destruct (cx_is_buy cx); lia. Qed.

Lemma improves_no_worse cx s x :
  improves cx s x = true -> fin x = true ->
  no_worse cx (cx_stop cx) (s_active_stop s) -> no_worse cx (cx_stop cx) x.
Proof. intros H Hx Hs. eapply no_worse_trans; [exact Hs|by apply improves_active]. Qed.

Lemma set_stop_inv cx s x k tr :
  sim_inv cx s -> k <> KTarget -> no_worse cx (cx_stop cx) x -> sim_inv cx (set_stop s x k tr).
Proof. intros [] Hk Hx. by constructor. Qed.

Lemma advance_breakeven_inv cx c ts s :
  fin (cx_entry cx) = true -> sim_inv cx s -> sim_inv cx (advance_breakeven cx c ts s).
Proof.
  intros He I. unfold advance_breakeven. destruct (cx_be_level cx); [|done].
  destruct (_ && _)%bool; [|done].
  assert (sim_inv cx (if improves cx s (cx_entry cx)
            then set_stop s (cx_entry cx) KBreakevenStop (s_trailed s) else s)) as I'.
  { destruct (improves cx s (cx_entry cx)) eqn:E; [|done].
    apply set_stop_inv; [done|done|]. eapply improves_no_worse; eauto. apply I. }
  destruct I'. by constructor.
Qed.

Lemma advance_trailing_inv cx c s : sim_inv cx s -> sim_inv cx (advance_trailing cx c s).
Proof.
  intros I. unfold advance_trailing. destruct (trailing_active cx s); [|done].
  destruct (cx_trail_distance cx) as [d|]; [|done]. set (x := if cx_is_buy cx then _ else _).
  destruct (fin x) eqn:F; [|done]. destruct (improves cx s x) eqn:E; [|done]. simpl.
  apply set_stop_inv; [done|done|]. eapply improves_no_worse; eauto. apply I.
Qed.

Lemma sim_step_inv cx s c s' :
  fin (cx_entry cx) = true -> sim_inv cx s -> sim_step cx s c = Ok (inr s') -> sim_inv cx s'.
Proof.
  intros He I H. unfold sim_step in H. mbind H. destruct (stop_hit cx s c).
  { apply fmap_Ok in H as (r & _ & H). discriminate. }
  mbind H. destruct (PrimFloat.leb _ _).
  { apply fmap_Ok in H as (r & _ & H). discriminate. }
  injection H as <-. apply advance_trailing_inv, advance_breakeven_inv; [done|].
  by eapply fill_targets_inv.
Qed.

(** A candle never moves the active stop against the trade. *)
Lemma breakeven_stop cx c ts s :
  fin (cx_entry cx) = true -> fin (s_active_stop s) = true -> no_worse cx (s_active_stop s) (s_active_stop (advance_breakeven cx c ts s)).
Proof.
  intros He Hs. unfold advance_breakeven. destruct (cx_be_level cx); [|by apply no_worse_refl].
  destruct (_ && _)%bool; [|by apply no_worse_refl]. cbn [s_active_stop].
  destruct (improves cx s (cx_entry cx)) eqn:E; [by apply improves_active|by apply no_worse_refl].
Qed.

Lemma trailing_stop cx c s : fin (s_active_stop s) = true -> no_worse cx (s_active_stop s) (s_active_stop (advance_trailing cx c s)).
Proof.
  intros Hs. unfold advance_trailing. destruct (trailing_active cx s); [|by apply no_worse_refl].
  destruct (cx_trail_distance cx) as [d|]; [|by apply no_worse_refl]. cbv zeta. set (x := if cx_is_buy cx then _ else _).
  destruct (fin x) eqn:F; [|by apply no_worse_refl]. destruct (improves cx s x) eqn:E; [|by apply no_worse_refl].
  by apply improves_active.
Qed.

Lemma sim_step_stop cx s c s' :
  fin (cx_entry cx) = true -> sim_inv cx s -> sim_step cx s c = Ok (inr s') -> no_worse cx (s_active_stop s) (s_active_stop s').
Proof.
  intros He I H. unfold sim_step in H. mbind H. destruct (stop_hit cx s c).
  { apply fmap_Ok in H as (r & _ & H). discriminate. }
  mbind H. destruct (PrimFloat.leb _ _).
  { apply fmap_Ok in H as (r & _ & H). discriminate. }
  injection H as <-. pose proof (proj1 (inv_stop _ _ I)) as Hs.
  destruct (fill_targets_stop _ _ _ _ _ E0) as (Es & _). rewrite <- Es in *.
  pose proof (breakeven_stop cx c a a0 He Hs) as B. eapply no_worse_trans; [exact B|].
  apply trailing_stop, B.
Qed.

(** The candles a plan is carried through without an end. *)
Inductive walks (cx : sim_ctx) : sim_state -> list row -> sim_state -> Prop :=
  | walks_nil s : walks cx s [] s
  | walks_cons s c s' cs s'' : sim_step cx s c = Ok (inr s') -> walks cx s' cs s'' -> walks cx s (c :: cs) s''.

Lemma walks_inv cx s cs s' :
  fin (cx_entry cx) = true -> walks cx s cs s' -> sim_inv cx s ->
  sim_inv cx s' /\ no_worse cx (s_active_stop s) (s_active_stop s').
Proof.
  intros He. induction 1 as [s|s c s1 cs s2 H W IH]; intros I; [split; [done|apply no_worse_refl, I]|].
  destruct (IH (sim_step_inv _ _ _ _ He I H)) as [I2 N]. split; [done|].
  eapply no_worse_trans; [by eapply sim_step_stop|exact N].
Qed.

(** A size not closed at a target is closed on a candle that hits the stop then active. *)
Lemma sim_loop_stopped cx s cs r f :
  fin (cx_entry cx) = true -> sim_inv cx s -> sim_loop cx s cs = Ok r -> f ∈ sr_fills r -> fill_kind_of f <> KTarget ->
  exists pre c post s', cs = pre ++ c :: post /\ walks cx s pre s' /\ stop_hit cx s' c = true /\
    fill_price f = s_active_stop s' /\ fill_kind_of f = s_stop_origin s'.
Proof.
  intros He. assert (forall s fs, sim_inv cx s -> fs = s_fills s -> f ∈ fs -> fill_kind_of f <> KTarget -> False) as Ht.
  { intros s0 fs I -> Hf. pose proof (inv_fills _ _ I) as HF. rewrite Forall_forall in HF. by destruct (HF _ Hf). }
  revert s. induction cs as [|c cs IH]; intros s I H Hf Hk; cbn [sim_loop] in H.
  - injection H as <-. by destruct (Ht s _ I eq_refl Hf Hk).
  - mbind H. destruct a as [out|s1].
    + injection H as <-. unfold sim_step in E. mbind E. destruct (stop_hit cx s c) eqn:Sh.
      * apply fmap_Ok in E as (r & E & [= ->]). unfold close_at_stop, resolved in E. mbind E. injection E as <-. cbn in Hf.
        apply elem_of_app in Hf as [Hf|Hf%list_elem_of_singleton]; [by destruct (Ht s _ I eq_refl Hf Hk)|].
        exists [], c, cs, s. split; [done|]. split; [constructor|]. by subst f.
      * mbind E. destruct (PrimFloat.leb _ _); [|done]. apply fmap_Ok in E as (r & E & [= ->]).
        unfold resolved in E. mbind E. injection E as <-. cbn in Hf.
        by destruct (Ht a0 _ (fill_targets_inv _ _ _ _ _ I E1) eq_refl Hf Hk).
    + destruct (IH s1 (sim_step_inv _ _ _ _ He I E) H Hf Hk) as (pre & c' & post & s' & -> & W & R).
      exists (c :: pre), c', post, s'. split; [done|]. split; [by eapply walks_cons|done].
Qed.

Lemma sim_init_inv cx : fin (cx_stop cx) = true -> sim_inv cx (sim_init cx).
Proof.
  intros H. pose proof frank_one. pose proof two1074_pos.
  constructor; simpl; [|done|done|lia|done|constructor|constructor|].
  - split; [done|]. destruct (cx_is_buy cx); lia.
  - intros f Hf. by apply elem_of_nil in Hf.
Qed.

(** ** How a simulation ends *)

(** Induction over the candle loop: what holds of the ends holds of the result. *)
Lemma sim_loop_ind (cx : sim_ctx) (I : sim_state -> Prop) (Q : SimulationResult -> Prop) :
  (forall s c r, I s -> sim_step cx s c = Ok (inl r) -> Q r) ->
  (forall s c s', I s -> sim_step cx s c = Ok (inr s') -> I s') ->
  (forall s r, I s -> sim_loop cx s [] = Ok r -> Q r) ->
  forall cs s r, I s -> sim_loop cx s cs = Ok r -> Q r.
Proof.
  intros Hend Hstep Hopen cs. induction cs as [|c cs IH]; intros s r Hs H; [by eapply Hopen|].
  simpl in H. mbind H. destruct a as [r'|s'].
  - injection H as <-. by eapply Hend.
  - eapply IH; [|exact H]. by eapply Hstep.
Qed.

(** The shape of every result of a started simulation. *)
Inductive sim_outcome (cx : sim_ctx) : SimulationResult -> Prop :=
  | out_stop s r ts :
      sim_inv cx s -> close_at_stop cx s ts = Ok r -> sim_outcome cx r
  | out_targets s r :
      sim_inv cx s -> PrimFloat.leb (s_remaining s) _SIZE_TOL = true ->
      resolved s (s_fills s) 0%float = Ok r -> sim_outcome cx r
  | out_open s r :
      sim_inv cx s -> sim_loop cx s [] = Ok r -> sim_outcome cx r.

Lemma sim_loop_outcome cx cs s r :
  fin (cx_entry cx) = true -> sim_inv cx s -> sim_loop cx s cs = Ok r -> sim_outcome cx r.
Proof.
  intros He. apply (sim_loop_ind cx (sim_inv cx) (sim_outcome cx)).
  - intros s0 c r0 I H. unfold sim_step in H. mbind H. destruct (stop_hit cx s0 c).
    + apply fmap_Ok in H as (r' & H & [= ->]). by eapply out_stop.
    + mbind H. destruct (PrimFloat.leb _ _) eqn:Et; [|discriminate].
      apply fmap_Ok in H as (r' & H & [= ->]). eapply out_targets; [|exact Et|exact H].
      by eapply fill_targets_inv.
  - intros. by eapply sim_step_inv.
  - intros. by eapply out_open.
Qed.

Lemma sim_context_fin plan cx :
  sim_context plan = Ok (Some cx) ->
  fin (cx_entry cx) = true /\ fin (cx_stop cx) = true /\ cx_legs cx = mp_legs plan /\
  _finite_num (mp_entry plan) = Ok (Some (cx_entry cx)) /\
  _finite_num (mp_initial_stop plan) = Ok (Some (cx_stop cx)) /\
  cx_is_buy cx = negb (String.eqb (upper (py_str (mp_action plan))) "SELL").
Proof.
  unfold sim_context. intros H. mbind H. mbind H. destruct a as [e|], a0 as [st|]; try discriminate.
  destruct (_ || _)%bool; [discriminate|]. mbind H. mbind H. mbind H. mbind H. injection H as <-. simpl.
  split; [by eapply _finite_num_fin|]. split; [by eapply _finite_num_fin|]. done.
Qed.

(** A result with a fill, or a resolved one, comes out of the loop. *)
Lemma simulate_plan_outcome plan candles :
  (sr_status (simulate_plan plan candles) = StResolved \/ sr_fills (simulate_plan plan candles) <> []) ->
  exists cx, sim_context plan = Ok (Some cx) /\ sim_outcome cx (simulate_plan plan candles).
Proof.
  unfold simulate_plan, _simulate_plan_impl.
  destruct (sim_context plan) as [[cx|]|] eqn:Ec; cbn; [|by intros [|]..].
  destruct (_clean_candles candles) as [rows|] eqn:Er; cbn; [|by intros [|]].
  destruct (sim_loop cx (sim_init cx) rows) as [r|] eqn:El; cbn; [|by intros [|]].
  intros _. exists cx. split; [done|]. apply sim_context_fin in Ec as (? & ? & _).
  eapply sim_loop_outcome; [done| |exact El]. by apply sim_init_inv.
Qed.

Lemma leb_frank x y :
  is_nan x = false -> is_nan y = false -> frank x <= frank y -> PrimFloat.leb x y = true.
Proof. intros Hx Hy H. rewrite leb_rank, Hx, Hy. simpl. by apply Z.leb_le. Qed.

Lemma realized_float fills r : fills <> [] -> _realized_r fills = Ok r -> exists x, r = VFloat x.
Proof.
  unfold _realized_r. intros Hne H. mbind H. injection H as <-.
  destruct fills as [|f fs]; [done|]. simpl in E. mbind E. mbind E. injection E as <-. eexists. reflexivity.
Qed.

(** ** Theorems *)

(** [b] is a stop at least as favourable as [a], on the side of the trade. *)
Definition at_least (cx : sim_ctx) (a b : float) : bool := if cx_is_buy cx then PrimFloat.leb a b else PrimFloat.leb b a.

Lemma no_worse_at_least cx a b : fin a = true -> no_worse cx a b -> at_least cx a b = true.
Proof. intros Ha [Hb H]. unfold at_least. destruct (cx_is_buy cx); apply leb_frank; auto using fin_not_nan. Qed.

(** C12: The active stop is never moved against the trade.  Along the candles of a
    simulation, whatever the plan, the candles and their order, the active stop starts
    at the plan's initial stop and after any further candles is at least as favourable
    as it was before them: a stop that has risen (fallen, for a SELL) never goes back.
    A size that is not closed at a target is closed on a candle that hits the stop then
    active, at that stop, initial, breakeven or trailed, so never worse than the
    declared initial stop. *)
Theorem simulate_plan_stop_never_adverse plan :
  (forall cx before after s1 s2, sim_context plan = Ok (Some cx) ->
     walks cx (sim_init cx) before s1 -> walks cx s1 after s2 -> at_least cx (s_active_stop s1) (s_active_stop s2) = true) /\
  (forall candles f, f ∈ sr_fills (simulate_plan plan candles) -> fill_kind_of f <> KTarget ->
     exists cx rows before c after s,
       sim_context plan = Ok (Some cx) /\ cx_is_buy cx = negb (String.eqb (upper (py_str (mp_action plan))) "SELL") /\
       _finite_num (mp_initial_stop plan) = Ok (Some (s_active_stop (sim_init cx))) /\
       _clean_candles candles = Ok rows /\ rows = before ++ c :: after /\ walks cx (sim_init cx) before s /\
       stop_hit cx s c = true /\ fill_price f = s_active_stop s /\ fill_kind_of f = s_stop_origin s /\
       at_least cx (s_active_stop (sim_init cx)) (fill_price f) = true).
Proof.
  split.
  - intros cx before after s1 s2 Hc W1 W2. apply sim_context_fin in Hc as (He & Hs & _).
    destruct (walks_inv _ _ _ _ He W1 (sim_init_inv _ Hs)) as [I1 _]. destruct (walks_inv _ _ _ _ He W2 I1) as [_ N].
    apply no_worse_at_least; [apply I1|done].
  - intros candles f. unfold simulate_plan, _simulate_plan_impl.
    destruct (sim_context plan) as [[cx|]|] eqn:Ec; cbn; [|by intros H%elem_of_nil..].
    destruct (_clean_candles candles) as [rows|] eqn:Er; cbn; [|by intros H%elem_of_nil].
    destruct (sim_loop cx (sim_init cx) rows) as [r|] eqn:El; cbn; [|by intros H%elem_of_nil].
    intros Hf Hk. apply sim_context_fin in Ec as (He & Hs & _ & _ & Hstop & Hbuy).
    destruct (sim_loop_stopped _ _ _ _ _ He (sim_init_inv _ Hs) El Hf Hk) as (pre & c & post & s & Hr & W & Sh & Hp & Ho).
    destruct (walks_inv _ _ _ _ He W (sim_init_inv _ Hs)) as [_ N].
    exists cx, rows, pre, c, post, s. split_and!; try done. rewrite Hp. by apply no_worse_at_least.
Qed.

(** C13: conservation of the position.  The fills of a resolved plan are target
    fills, each of a positive size at most 1, followed by at most one closing
    fill at the stop.  What the targets leave open stays in [[0, 1]]; it is
    exactly what the stop closes and what is reported as the residual, or, when
    the plan resolves through its targets, at most the size tolerance. *)
Theorem simulate_plan_conservation plan candles :
  sr_status (simulate_plan plan candles) = StResolved ->
  exists targets x,
    let r := simulate_plan plan candles in
    sr_realized_r r = VFloat x /\
    Forall (fun f => fill_kind_of f = KTarget /\
              PrimFloat.ltb 0 (frac_of f) = true /\ PrimFloat.leb (frac_of f) 1 = true) targets /\
    PrimFloat.leb 0 (left_open targets) = true /\ PrimFloat.leb (left_open targets) 1 = true /\
    ((exists last, sr_fills r = targets ++ [last] /\ fill_kind_of last <> KTarget /\
        fill_fraction last = VFloat (left_open targets) /\ sr_residual_fraction r = left_open targets) \/
     (sr_fills r = targets /\ sr_residual_fraction r = 0%float /\
      PrimFloat.leb (left_open targets) _SIZE_TOL = true)).
Proof.
  intros Hst. destruct (simulate_plan_outcome plan candles) as (cx & _ & Hout); [by left|].
  assert (forall s, sim_inv cx s ->
    Forall (fun f => fill_kind_of f = KTarget /\
              PrimFloat.ltb 0 (frac_of f) = true /\ PrimFloat.leb (frac_of f) 1 = true) (s_fills s) /\
    PrimFloat.leb 0 (left_open (s_fills s)) = true /\ PrimFloat.leb (left_open (s_fills s)) 1 = true) as Hinv.
  { intros s I. rewrite <- (inv_left _ _ I). pose proof (inv_rem _ _ I) as Hr.
    pose proof (fin_not_nan _ (inv_rem_fin _ _ I)).
    split; [|split; apply leb_frank; try done; change (frank 0) with 0; lia].
    eapply Forall_impl; [apply (inv_fills _ _ I)|]. intros f (Hk & _ & _ & Hf & Hb).
    pose proof (fin_not_nan _ Hf) as Hn. split; [done|]. split; [|apply leb_frank; [done|done|lia]].
    rewrite ltb_rank, Hn. change (frank 0) with 0. apply Z.ltb_lt. lia. }
  destruct Hout as [s r ts I H|s r I Htol H|s r I H].
  - unfold close_at_stop, resolved in H. mbind H. injection H as <-.
    apply realized_float in E as [x ->]; [|by destruct (s_fills s)].
    exists (s_fills s), x. destruct (Hinv s I) as (? & ? & ?). split; [done|]. split; [done|].
    split; [done|]. split; [done|]. left. eexists. rewrite <- (inv_left _ _ I).
    split; [reflexivity|]. split; [apply I|]. done.
  - unfold resolved in H. mbind H. injection H as <-.
    assert (s_fills s <> []) as Hne.
    { intros E0. rewrite (inv_left _ _ I), E0 in Htol. by vm_compute in Htol. }
    destruct (realized_float _ _ Hne E) as [x ->].
    exists (s_fills s), x. destruct (Hinv s I) as (? & ? & ?). split; [done|]. split; [done|].
    split; [done|]. split; [done|]. right. rewrite <- (inv_left _ _ I). done.
  - injection H as <-. discriminate.
Qed.

(** Every leg of the plan fills at most once, at its own target price, and
    at most one fill is the residual close (index -1). *)
Theorem simulate_plan_fills_are_legs plan candles :
  NoDup (map fill_index (sr_fills (simulate_plan plan candles))) /\
  forall f, f ∈ sr_fills (simulate_plan plan candles) ->
    (fill_index f = -1 /\ fill_kind_of f <> KTarget) \/
    (fill_kind_of f = KTarget /\ exists leg, mp_legs plan !! Z.to_nat (fill_index f) = Some leg /\
       _finite_num (leg_target leg) = Ok (Some (fill_price f))).
Proof.
  destruct (decide (sr_fills (simulate_plan plan candles) = [])) as [->|Hne].
  { split; [constructor|]. intros f Hf. by apply elem_of_nil in Hf. }
  destruct (simulate_plan_outcome plan candles) as (cx & Hcx & Hout); [by right|].
  apply sim_context_fin in Hcx as (_ & _ & <- & _).
  assert (forall s f, sim_inv cx s -> f ∈ s_fills s ->
    fill_kind_of f = KTarget /\ 0 <= fill_index f /\ exists leg, cx_legs cx !! Z.to_nat (fill_index f) = Some leg /\
       _finite_num (leg_target leg) = Ok (Some (fill_price f))) as Hleg.
  { intros s f I Hf. pose proof (inv_fills _ _ I) as HF. rewrite Forall_forall in HF.
    by destruct (HF _ Hf) as (? & ? & ? & _). }
  destruct Hout as [s r ts I H|s r I _ H|s r I H].
  - unfold close_at_stop, resolved in H. mbind H. injection H as <-. simpl. split.
    + rewrite map_app. apply NoDup_app. split; [apply I|]. split; [|apply NoDup_singleton].
      intros z Hz Hi. apply list_elem_of_singleton in Hi. apply list_elem_of_fmap in Hz as (g & Hg & Hin).
      destruct (Hleg s g I Hin) as (_ & ? & _). simpl in Hi. lia.
    + intros f Hf. apply elem_of_app in Hf as [Hf|Hf%list_elem_of_singleton].
      * right. destruct (Hleg s f I Hf) as (? & _ & ?). done.
      * left. subst f. split; [done|apply I].
  - unfold resolved in H. mbind H. injection H as <-. simpl. split; [apply I|].
    intros f Hf. right. destruct (Hleg s f I Hf) as (? & _ & ?). done.
  - injection H as <-. simpl. split; [apply I|].
    intros f Hf. right. destruct (Hleg s f I Hf) as (? & _ & ?). done.
Qed.

(** The simulation is a function of the set of candles: reordering the input
    never changes the result.  (Prices that are a negative zero, which sort equal
    to zero, are the one exception and are excluded.) *)
Theorem simulate_plan_confluent plan cs1 cs2 :
  cs1 ≡ₚ cs2 -> no_neg_zero_rows cs1 = true ->
  simulate_plan plan (VList cs1) = simulate_plan plan (VList cs2).
Proof.
  intros Hp Hz. unfold simulate_plan, _simulate_plan_impl.
  destruct (_clean_candles (VList cs1)) as [rows|e] eqn:E.
  - rewrite (clean_candles_confluent cs1 cs2 rows) by done. done.
  - assert (exists e', _clean_candles (VList cs2) = Raise e') as [e' ->].
    { unfold _clean_candles in *. simpl in E |- *.
      destruct (mapM_res clean_candle cs1) eqn:E1; [discriminate|].
      destruct (mapM_res_raise _ _ _ _ Hp E1) as [e' ->]. by exists e'. }
    by destruct (sim_context plan) as [[cx|]|].
Qed.

(** A plan that is not resolved reports no realised R and invents no exit:
    its only fills are genuine target fills, none at all when it is invalid. *)
Theorem simulate_plan_unresolved plan candles :
  let r := simulate_plan plan candles in
  sr_status r <> StResolved ->
  sr_realized_r r = VNone /\ Forall (fun f => fill_kind_of f = KTarget) (sr_fills r) /\
  (sr_status r = StInvalid -> sr_fills r = []).
Proof.
  simpl. destruct (decide (sr_fills (simulate_plan plan candles) = [])) as [E|Hne].
  - intros Hst. rewrite E. split; [|by repeat constructor]. clear E. revert Hst.
    unfold simulate_plan. destruct (_simulate_plan_impl plan candles) as [r|] eqn:Ei; [|done].
    unfold _simulate_plan_impl in Ei. mbind Ei. destruct a as [cx|]; [|by injection Ei as <-].
    mbind Ei. apply sim_context_fin in E as (? & ? & _).
    apply sim_loop_outcome in Ei; [|done|by apply sim_init_inv].
    destruct Ei as [s r ts I H1|s r I _ H1|s r I H1].
    + unfold close_at_stop, resolved in H1. mbind H1. by injection H1 as <-.
    + unfold resolved in H1. mbind H1. by injection H1 as <-.
    + by injection H1 as <-.
  - intros Hst. destruct (simulate_plan_outcome plan candles) as (cx & Hcx & Hout); [by right|].
    destruct Hout as [s r ts I H1|s r I _ H1|s r I H1].
    + unfold close_at_stop, resolved in H1. mbind H1. by injection H1 as <-.
    + unfold resolved in H1. mbind H1. by injection H1 as <-.
    + injection H1 as <-. simpl. split; [done|]. split; [|done].
      eapply Forall_impl; [apply (inv_fills _ _ I)|]. by intros f [? _].
Qed.

Lemma mapM_leg_payload legs : mapM_res leg_from_payload (map leg_payload legs) = Ok legs.
Proof. induction legs as [|[t f] legs IH]; [done|]. simpl. by rewrite IH. Qed.

(** A plan survives persistence: the payload [plan_to_json] serialises is
    read back by [plan_from_json] as the same plan, whatever its fields hold. *)
Theorem plan_payload_roundtrip plan : plan_from_payload (plan_to_payload plan) = Ok (Some plan).
Proof.
  destruct plan as [act en st legs be tr atr]. unfold plan_from_payload, plan_from_payload_impl.
  cbn. rewrite mapM_leg_payload. cbn. destruct be as [[]|], tr as [[]|]; reflexivity.
Qed.

(** A tag says exactly which mechanics the plan has; a non-scaling trailing plan
    is a ["trail"] whether or not it also declares a breakeven. *)
Definition tag_scales (t : string) : bool := str_in t ["scale"; "scale-be"; "scale-trail"; "scale-be-trail"].
Definition tag_trails (t : string) : bool := str_in t ["scale-trail"; "scale-be-trail"; "trail"].
Definition tag_breakeven (t : string) : bool := str_in t ["scale-be"; "scale-be-trail"; "be"].

(** Every plan gets a tag of the fixed vocabulary, an unclassifiable one
    ["unknown"], and the tag of a classifiable plan states its mechanics. *)
Theorem management_style_tag_total plan :
  exists t, management_style_tag (Some plan) = Ok t /\ In t MANAGEMENT_STYLE_TAGS /\
    match _is_scaling plan with
    | Raise _ => t = "unknown"%string
    | Ok scaling =>
        tag_scales t = scaling /\ tag_trails t = _has_trailing plan /\
        tag_breakeven t = (_has_breakeven plan && (scaling || negb (_has_trailing plan)))%bool
    end.
Proof.
  unfold management_style_tag.
  assert (forall legs e, any_partial legs = Raise e -> e = TypeError) as Hty.
  { induction legs as [|l legs IH]; intros e H; [discriminate|]. simpl in H.
    destruct (py_lt (leg_fraction l) (VFloat 1)) as [b|e'] eqn:E; simpl in H.
    - destruct b; [discriminate|auto].
    - injection H as <-. unfold py_lt in E.
      destruct (leg_fraction l); simpl in E; congruence. }
  destruct (_is_scaling plan) as [sc|e] eqn:E.
  - destruct sc, (_has_breakeven plan), (_has_trailing plan); simpl; eexists;
      (split; [reflexivity|]); split; try (by vm_compute); simpl; tauto.
  - assert (e = TypeError) as ->.
    { unfold _is_scaling in E. destruct (_ <? _)%nat; [discriminate|]. by eapply Hty. }
    exists "unknown"%string. simpl. tauto.
Qed.

Lemma exclusive_zero_pos x d high :
  PrimFloat.ltb 0 d = true -> in_band 0 high d = true -> in_band 0 high x = true ->
  PrimFloat.ltb 0 (exclusive_zero x d) = true /\ in_band 0 high (exclusive_zero x d) = true.
Proof.
  intros Hd Bd Bx. unfold exclusive_zero. destruct (PrimFloat.leb x 0) eqn:E; [done|]. split; [|done].
  unfold in_band in Bx. bools. pose proof (fin_not_nan x ltac:(done)) as Hn.
  rewrite leb_rank, Hn in E. rewrite ltb_rank, Hn. change (is_nan 0) with false in *. cbn in *.
  bools. apply Z.ltb_lt. lia.
Qed.

(** Whatever the environment holds, every field of the resolved configuration
    is in its documented range: the R multiples in (0, 100], the fraction in
    (0, 1], the trail multiple and the blended minimum in [[0, 100]]. *)
Theorem resolve_trade_manager_config_in_range e :
  let c := resolve_trade_manager_config e in
  let pos high x := (PrimFloat.ltb 0 x && in_band 0 high x)%bool in
  pos 100%float (default_first_target_r c) = true /\
  pos 1%float (default_first_target_fraction c) = true /\
  pos 100%float (default_breakeven_trigger_r c) = true /\
  in_band 0 100 (default_trail_atr_multiple c) = true /\
  in_band 0 100 (cfg_min_blended_reward_to_risk c) = true.
Proof.
  cbv zeta. unfold resolve_trade_manager_config, regime_resolve_float; simpl.
  assert (forall n d high, is_nan high = false -> PrimFloat.ltb 0 d = true -> in_band 0 high d = true ->
    (PrimFloat.ltb 0 (exclusive_zero (resolve_float_band e n d 0 high) d) &&
     in_band 0 high (exclusive_zero (resolve_float_band e n d 0 high) d))%bool = true) as Hpos.
  { intros n d high Hh Hd Bd. apply andb_true_iff, exclusive_zero_pos; [done|done|].
    by apply resolve_float_band_in. }
  split; [by apply Hpos|]. split; [by apply Hpos|]. split; [by apply Hpos|].
  split; by apply resolve_float_band_in.
Qed.

(** ** Witnesses *)

Definition demo_plan : ManagementPlan :=
  {| mp_action := VStr "buy"; mp_entry := VInt 100; mp_initial_stop := VInt 90;
     mp_legs := [{| leg_target := VInt 110; leg_fraction := VFloat 0.5 |}];
     mp_breakeven := Some {| be_price := VNone; be_r_multiple := VFloat 1 |};
     mp_trailing := Some {| ts_atr_multiple := VFloat 1.5; ts_r_increment := VNone |};
     mp_atr_14 := VInt 4 |}.

Definition demo_candles : list val :=
  [num_candle 3 112 120 111 119; num_candle 1 100 105 95 101;
   num_candle 2 101 111 100 109; num_candle 4 119 120 112 113].

(** The residual half of [demo_plan], stopped out on the trailed stop. *)
Definition demo_exit : LegFill :=
  {| fill_index := -1; fill_price := 113; fill_fraction := VFloat 0.5; fill_leg_r := 1.3;
     fill_timestamp_ms := 4; fill_kind_of := KTrailStop |}.

(** The states after one and after three candles, and the stop that trailed. *)
Definition demo_ctx : sim_ctx :=
  match sim_context demo_plan with
  | Ok (Some cx) => cx
  | _ => {| cx_is_buy := true; cx_entry := 0; cx_stop := 0; cx_stop_distance := 0; cx_legs := []; cx_be_level := None; cx_trail_distance := None |}
  end.

Definition demo_rows : list row := match _clean_candles (VList demo_candles) with Ok rows => rows | Raise _ => [] end.

Fixpoint walk (cx : sim_ctx) (s : sim_state) (cs : list row) : sim_state :=
  match cs with
  | [] => s
  | c :: cs => match sim_step cx s c with Ok (inr s') => walk cx s' cs | _ => s end
  end.

Definition demo_early : sim_state := walk demo_ctx (sim_init demo_ctx) (take 1 demo_rows).
Definition demo_late : sim_state := walk demo_ctx demo_early (take 2 (drop 1 demo_rows)).

Lemma simulate_plan_stop_never_adverse_witness :
  (s_active_stop demo_early, s_active_stop demo_late) = (90%float, 113%float) /\
  at_least demo_ctx (s_active_stop demo_early) (s_active_stop demo_late) = true /\
  exists cx, sim_context demo_plan = Ok (Some cx) /\ at_least cx (s_active_stop (sim_init cx)) (fill_price demo_exit) = true.
Proof.
  destruct (simulate_plan_stop_never_adverse demo_plan) as [Hs Hf]. split; [vm_compute; reflexivity|]. split.
  - apply (Hs demo_ctx (take 1 demo_rows) (take 2 (drop 1 demo_rows))); [vm_compute; reflexivity|..].
    + eapply walks_cons; [vm_compute; reflexivity|constructor].
    + eapply walks_cons; [vm_compute; reflexivity|]. eapply walks_cons; [vm_compute; reflexivity|constructor].
  - destruct (Hf (VList demo_candles) demo_exit) as (cx & rows & before & c & after & s & Hc & _ & _ & _ & _ & _ & _ & _ & _ & Ha).
    + apply list_elem_of_In. vm_compute. right. left. reflexivity.
    + discriminate.
    + exists cx. split; [exact Hc|exact Ha].
Defined.

Lemma simulate_plan_conservation_witness :
  exists targets x, sr_realized_r (simulate_plan demo_plan (VList demo_candles)) = VFloat x /\
    PrimFloat.leb (left_open targets) 1 = true.
Proof.
  assert (sr_status (simulate_plan demo_plan (VList demo_candles)) = StResolved) as H by (vm_compute; reflexivity).
  destruct (simulate_plan_conservation _ _ H) as (ts & x & Hx & _ & _ & H1 & _).
  exists ts, x. exact (conj Hx H1).
Defined.

Lemma simulate_plan_confluent_witness :
  simulate_plan demo_plan (VList demo_candles) = simulate_plan demo_plan (VList (reverse demo_candles)).
Proof. apply simulate_plan_confluent; [symmetry; apply reverse_Permutation | vm_compute; reflexivity]. Defined.

Lemma simulate_plan_unresolved_witness :
  sr_realized_r (simulate_plan demo_plan (VList (firstn 2 demo_candles))) = VNone.
Proof.
  apply (simulate_plan_unresolved demo_plan (VList (firstn 2 demo_candles))).
  vm_compute. discriminate.
Defined.
