(* ===== verification/Validator.v ===== *)
(** * Trade validator: the hard risk rules

    Models [agents/deep-quant-loop/validator.py]: the profile minimum, the action
    parser, [validate_trade] with its four rules in order, and
    [_validate_management_plan], the multi-leg rules that replace the
    single-target reward-to-risk check.  Levels and plans are Python values:
    nothing has checked their types before the validator runs. *)

From stdpp Require Import base list strings.
From Stdlib Require Import ZArith Lia Floats.
From S2P Require Import Prelude PyFloat PyRound PyNum PyVal PyEnv TradeManager.

#[local] Set Warnings "-inexact-float".
Open Scope Z_scope.
Open Scope res_scope.

(** ** Constants and data *)

Definition MIN_RISK_REWARD : float := 2.0%float.
Definition MIN_RISK_REWARD_INTRADAY : float := 1.3%float.
Definition MIN_STOP_ATR_MULTIPLE : float := 1.5%float.
Definition LEG_FRACTION_SUM_TOLERANCE : float := 1e-9%float.

(** [min_risk_reward_for_profile(profile)] *)
Definition min_risk_reward_for_profile (profile : val) : float :=
  match profile with
  | VStr s => if String.eqb (upper (strip s)) "INTRADAY" then MIN_RISK_REWARD_INTRADAY else MIN_RISK_REWARD
  | _ => MIN_RISK_REWARD
  end.

Inductive Action := BUY | SELL | HOLD.

#[export] Instance Action_eq_dec : EqDecision Action.
Proof. solve_decision. Defined.

(** [Action.from_str_lenient] *)
Definition from_str_lenient (s : option string) : Action :=
  match s with
  | None => HOLD
  | Some s =>
      let normalized := upper (strip s) in
      if String.eqb normalized "BUY" then BUY
      else if String.eqb normalized "SELL" then SELL
      else HOLD
  end.

Record ExecutionLevels := { entry : val; stop_loss : val; take_profit : val }.

Inductive ValidatorReason :=
  | MISSING_LEVELS
  | RISK_REWARD_TOO_LOW
  | STOP_TOO_TIGHT
  | DIRECTION_INCONSISTENT
  | LEG_FRACTION_OUT_OF_RANGE
  | TARGET_ORDERING_INCONSISTENT
  | BREAKEVEN_OUT_OF_RANGE
  | BLENDED_RR_TOO_LOW.

(** [ValidatorReason.tag]: the enumeration's values. *)
Definition reason_tag (r : ValidatorReason) : string :=
  match r with
  | MISSING_LEVELS => "missing-levels"
  | RISK_REWARD_TOO_LOW => "risk-reward-too-low"
  | STOP_TOO_TIGHT => "stop-too-tight"
  | DIRECTION_INCONSISTENT => "direction-inconsistent"
  | LEG_FRACTION_OUT_OF_RANGE => "leg-fraction-out-of-range"
  | TARGET_ORDERING_INCONSISTENT => "target-ordering-inconsistent"
  | BREAKEVEN_OUT_OF_RANGE => "breakeven-out-of-range"
  | BLENDED_RR_TOO_LOW => "blended-rr-too-low"
  end.

(** [passed(risk_reward)] or [failed(reason)]. *)
Inductive ValidatorOutcome :=
  | Passed (risk_reward : val)
  | Failed (reason : ValidatorReason).

Definition is_pass (o : ValidatorOutcome) : bool :=
  match o with Passed _ => true | Failed _ => false end.

(** ** Helpers *)

(** [_is_finite]: a wrong type is not finite; the [OverflowError] of an integer
    past the float range is not caught. *)
Definition _is_finite (x : val) : res bool :=
  catch (py_isfinite x) (fun e => match e with TypeError | ValueError => true | _ => false end) false.

(** [_field(obj, name)] *)
Definition _field (obj : val) (name : string) : val :=
  match obj with
  | VNone => VNone
  | VDict l => dict_get l name
  | _ => vattr obj name
  end.

(** [len(v)] *)
Definition py_len (v : val) : res Z :=
  match v with
  | VStr s | VBytes s => Ok (Z.of_nat (String.length s))
  | VList l | VTuple l | VSet l => Ok (Z.of_nat (length l))
  | VDict l => Ok (Z.of_nat (length l))
  | _ => Raise TypeError
  end.

(** [a < b < c] *)
Definition py_between (a b c : val) : res bool := py_lt a b and? py_lt b c.

(** ** The multi-leg rules *)

(** [fraction is None or not finite or fraction <= 0.0 or fraction > 1.0] *)
Definition bad_fraction (fraction : val) : res bool :=
  Ok (is_none fraction) or? not? (_is_finite fraction) or?
  py_le fraction (VFloat 0) or? py_gt fraction (VFloat 1).

(** The fraction loop: the running sum, [None] at the first bad leg. *)
Fixpoint sum_fractions (legs : list val) (acc : val) : res (option val) :=
  match legs with
  | [] => Ok (Some acc)
  | leg :: legs' =>
      let fraction := _field leg "fraction" in
      bad ← bad_fraction fraction;
      if bad : bool then Ok None
      else acc' ← py_add acc fraction; sum_fractions legs' acc'
  end.

(** The target loop of R5.2. *)
Fixpoint targets_ordered (is_buy : bool) (entry previous : val) (targets : list val) : res bool :=
  match targets with
  | [] => Ok true
  | target :: targets' =>
      usable ← (Ok (negb (is_none target)) and? _is_finite target);
      if usable : bool then
        ok ← (if is_buy then py_gt target entry and? py_ge target previous
              else py_lt target entry and? py_le target previous);
        if ok : bool then targets_ordered is_buy entry target targets' else Ok false
      else Ok false
  end.

(** R5.3: whether a present trigger is placed between entry and first target. *)
Definition breakeven_placed (is_buy : bool) (entry first_target stop_distance breakeven : val) : res bool :=
  let be_price := _field breakeven "price" in
  let be_r := _field breakeven "r_multiple" in
  if negb (is_none be_price) then
    if is_buy then _is_finite be_price and? py_between entry be_price first_target
    else _is_finite be_price and? py_between first_target be_price entry
  else if negb (is_none be_r) then
    diff ← py_sub first_target entry;
    reward ← py_abs diff;
    first_target_r ← py_div reward stop_distance;
    _is_finite be_r and? py_between (VFloat 0) be_r first_target_r
  else Ok true.

(** R5.4: the fraction-weighted reward-to-risk. *)
Fixpoint blend (entry stop_distance : val) (legs : list (val * val)) (acc : val) : res val :=
  match legs with
  | [] => Ok acc
  | (fraction, target) :: legs' =>
      diff ← py_sub target entry;
      reward ← py_abs diff;
      r ← py_div reward stop_distance;
      w ← py_mul fraction r;
      acc' ← py_add acc w;
      blend entry stop_distance legs' acc'
  end.

Definition _validate_management_plan (e : env) (action : Action) (plan entry initial_stop : val)
    (min_blended_reward_to_risk : val) : res ValidatorOutcome :=
  let is_buy := bool_decide (action = BUY) in
  let raw_legs := _field plan "legs" in
  let legs_val := if truthy raw_legs then raw_legs else VTuple [] in
  n ← py_len legs_val;
  if n =? 0 then Ok (Failed TARGET_ORDERING_INCONSISTENT)
  else
    legs ← py_iter legs_val;
    sum ← sum_fractions legs (VFloat 0);
    match sum with
    | None => Ok (Failed LEG_FRACTION_OUT_OF_RANGE)
    | Some fraction_sum =>
        over ← py_gt fraction_sum (VFloat (1 + LEG_FRACTION_SUM_TOLERANCE));
        if over : bool then Ok (Failed LEG_FRACTION_OUT_OF_RANGE)
        else
          let targets := map (fun leg => _field leg "target") legs in
          fin ← (_is_finite entry and? _is_finite initial_stop);
          if negb fin then Ok (Failed TARGET_ORDERING_INCONSISTENT)
          else
            stop_ok ← (if is_buy then py_lt initial_stop entry else py_gt initial_stop entry);
            legs_ok ← targets_ordered is_buy entry entry targets;
            if negb (stop_ok && legs_ok) then Ok (Failed TARGET_ORDERING_INCONSISTENT)
            else
              let first_target := default VNone (head targets) in
              diff ← py_sub entry initial_stop;
              stop_distance ← py_abs diff;
              let breakeven := _field plan "breakeven" in
              placed ← (if is_none breakeven then Ok true
                        else breakeven_placed is_buy entry first_target stop_distance breakeven);
              if negb placed then Ok (Failed BREAKEVEN_OUT_OF_RANGE)
              else
                blended ← blend entry stop_distance
                            (zip (map (fun leg => _field leg "fraction") legs) targets) (VFloat 0);
                let minimum :=
                  if is_none min_blended_reward_to_risk
                  then VFloat (cfg_min_blended_reward_to_risk (resolve_trade_manager_config e))
                  else min_blended_reward_to_risk in
                low ← py_lt blended minimum;
                Ok (if low : bool then Failed BLENDED_RR_TOO_LOW else Passed blended)
    end.

(** ** The base rules *)

(** [isinstance(m, (int, float)) and not isinstance(m, bool) and m > 0.0] *)
Definition effective_min_rr (min_risk_reward : val) : res val :=
  usable ← (Ok (is_int_or_float min_risk_reward && negb (is_bool min_risk_reward)) and?
            py_gt min_risk_reward (VFloat 0));
  Ok (if usable : bool then min_risk_reward else VFloat MIN_RISK_REWARD).

(** R6.3, when the ATR is known: whether the stop is tighter than 1.5 ATR. *)
Definition stop_too_tight (risk atr_14 : val) : res bool :=
  known ← (Ok (negb (is_none atr_14)) and? _is_finite atr_14 and? py_gt atr_14 (VFloat 0));
  if known : bool then
    floor ← py_mul (VFloat MIN_STOP_ATR_MULTIPLE) atr_14; py_lt risk floor
  else Ok false.

Definition validate_trade (e : env) (action : Action) (levels : option ExecutionLevels) (atr_14 plan : val)
    (min_blended_reward_to_risk min_risk_reward : val) : res ValidatorOutcome :=
  match action with
  | HOLD => Ok (Passed (VFloat 0))
  | _ =>
      match levels with
      | None => Ok (Failed MISSING_LEVELS)
      | Some lv =>
          missing ← (not? (_is_finite (entry lv)) or? not? (_is_finite (stop_loss lv)) or?
                     not? (_is_finite (take_profit lv)));
          if missing : bool then Ok (Failed MISSING_LEVELS)
          else
            direction_ok ← (match action with
                            | BUY => py_between (stop_loss lv) (entry lv) (take_profit lv)
                            | _ => py_between (take_profit lv) (entry lv) (stop_loss lv)
                            end);
            if negb direction_ok then Ok (Failed DIRECTION_INCONSISTENT)
            else
              d1 ← py_sub (entry lv) (stop_loss lv); risk ← py_abs d1;
              d2 ← py_sub (take_profit lv) (entry lv); reward ← py_abs d2;
              degenerate ← py_le risk (VFloat 0);
              if degenerate : bool then Ok (Failed DIRECTION_INCONSISTENT)
              else
                tight ← stop_too_tight risk atr_14;
                if tight : bool then Ok (Failed STOP_TOO_TIGHT)
                else if negb (is_none plan) then
                  let plan_entry := _field plan "entry" in
                  let plan_entry := if is_none plan_entry then entry lv else plan_entry in
                  let plan_stop := _field plan "initial_stop" in
                  let plan_stop := if is_none plan_stop then stop_loss lv else plan_stop in
                  _validate_management_plan e action plan plan_entry plan_stop min_blended_reward_to_risk
                else
                  minimum ← effective_min_rr min_risk_reward;
                  risk_reward ← py_div reward risk;
                  low ← py_lt risk_reward minimum;
                  Ok (if low : bool then Failed RISK_REWARD_TOO_LOW else Passed risk_reward)
      end
  end.

(** A [ManagementPlan] dataclass instance, as the validator receives it. *)
Definition leg_obj (leg : ScaleOutLeg) : val :=
  VObj [("target"%string, leg_target leg); ("fraction"%string, leg_fraction leg)] "ScaleOutLeg".
Definition plan_obj (p : ManagementPlan) : val :=
  VObj [
    ("action"%string, mp_action p);
    ("entry"%string, mp_entry p);
    ("initial_stop"%string, mp_initial_stop p);
    ("legs"%string, VTuple (map leg_obj (mp_legs p)));
    ("breakeven"%string,
      match mp_breakeven p with
      | None => VNone
      | Some be => VObj [("price"%string, be_price be); ("r_multiple"%string, be_r_multiple be)] "BreakevenTrigger"
      end);
    ("trailing"%string,
      match mp_trailing p with
      | None => VNone
      | Some t => VObj [("atr_multiple"%string, ts_atr_multiple t); ("r_increment"%string, ts_r_increment t)] "TrailingStop"
      end);
    ("atr_14"%string, mp_atr_14 p)
  ] "ManagementPlan".

Example validate_buy :
  validate_trade (fun _ => None) BUY (Some {| entry := VInt 100; stop_loss := VInt 95; take_profit := VFloat 110 |})
    (VFloat 3) VNone VNone VNone = Ok (Passed (VFloat 2)).
Proof. vm_compute. reflexivity. Qed.
