(* ===== verification/ValidatorFacts.v ===== *)
(** * Trade validator: correctness

    On float levels, the types the signature declares, [validate_trade] without a
    plan is total and computes [spec_outcome], the four rules on exact values; with a
    plan the first three rules decide before the plan's own.  A single-target pass
    guarantees the ordering, the stop floor and the minimum reward-to-risk.
    Mirroring a BUY bracket gives the same verdict for the SELL.  The multi-leg
    rules are stated for plans of any shape, and do not depend on whether the
    plan is a dataclass or its persisted dictionary. *)

From stdpp Require Import base list strings.
From Stdlib Require Import ZArith Lia Floats.
From S2P Require Import Prelude PyFloat PyRound PyDiv PyNum PyVal PyEnv PyStats TradeManager Validator.

#[local] Set Warnings "-inexact-float".
Open Scope Z_scope.

(** ** The rules on exact values *)

Definition float_levels (e s t : float) : ExecutionLevels :=
  {| entry := VFloat e; stop_loss := VFloat s; take_profit := VFloat t |}.

(** The stop rule, when the ATR is known, finite and positive. *)
Definition atr_violated (risk : float) (atr : option float) : bool :=
  match atr with
  | Some a => fin a && (0 <? frank a) && PrimFloat.ltb risk (MIN_STOP_ATR_MULTIPLE * a)
  | None => false
  end.

Definition spec_outcome (a : Action) (e s t : float) (atr : option float) (minimum : float) : ValidatorOutcome :=
  if negb (fin e && fin s && fin t) then Failed MISSING_LEVELS
  else
    let '(lo, hi) := match a with BUY => (s, t) | _ => (t, s) end in
    if negb ((frank lo <? frank e) && (frank e <? frank hi)) then Failed DIRECTION_INCONSISTENT
    else
      let risk := PrimFloat.abs (e - s) in
      let rr := (PrimFloat.abs (t - e) / risk)%float in
      if atr_violated risk atr then Failed STOP_TOO_TIGHT
      else if PrimFloat.ltb rr minimum then Failed RISK_REWARD_TOO_LOW
      else Passed (VFloat rr).

(** The rules before the ratio: why the bracket is refused, if it is. *)
Definition spec_refusal (a : Action) (e s t : float) (atr : option float) : option ValidatorReason :=
  if negb (fin e && fin s && fin t) then Some MISSING_LEVELS
  else
    let '(lo, hi) := match a with BUY => (s, t) | _ => (t, s) end in
    if negb ((frank lo <? frank e) && (frank e <? frank hi)) then Some DIRECTION_INCONSISTENT
    else if atr_violated (PrimFloat.abs (e - s)) atr then Some STOP_TOO_TIGHT
    else None.

(** The ratio of a single target, against the minimum. *)
Definition spec_ratio (e s t minimum : float) : ValidatorOutcome :=
  let rr := (PrimFloat.abs (t - e) / PrimFloat.abs (e - s))%float in
  if PrimFloat.ltb rr minimum then Failed RISK_REWARD_TOO_LOW else Passed (VFloat rr).

(** A level of the plan, or the trade's when the plan names none. *)
Definition declared (plan : val) (name : string) (level : float) : val :=
  if is_none (_field plan name) then VFloat level else _field plan name.

Definition resolved_minimum (m : option float) : float :=
  match m with
  | Some m => if PrimFloat.ltb 0 m then m else MIN_RISK_REWARD
  | None => MIN_RISK_REWARD
  end.

(** ** Lemmas *)

Lemma fin_is_finite f : _is_finite (VFloat f) = Ok (fin f).
Proof. reflexivity. Qed.

Create Rewrite HintDb pyops.
#[local] Hint Rewrite py_lt_flt py_le_flt fin_is_finite : pyops.

(** The gap between distinct finite levels is a positive number. *)
Lemma gap_pos x y :
  fin x = true -> fin y = true -> frank x <> frank y ->
  0 < frank (PrimFloat.abs (x - y)) /\ is_nan (PrimFloat.abs (x - y)) = false.
Proof.
  intros Hx Hy H. destruct (fsub_rank x y Hx Hy) as [E N].
  destruct (fabs_rank (x - y)) as [Ra Na]. rewrite Ra, Na. split; [|done].
  rewrite E. destruct (Z_lt_le_dec (frank y) (frank x)).
  - pose proof (rnd_pos_strict (frank x - frank y) ltac:(lia)). lia.
  - pose proof (rnd_pos_strict (frank y - frank x) ltac:(lia)).
    replace (frank x - frank y) with (- (frank y - frank x)) by lia. rewrite rnd_opp. lia.
Qed.

Lemma pos_not_zero x : is_nan x = false -> 0 < frank x -> is_zero x = false.
Proof.
  intros N H. unfold is_zero. rewrite eqb_rank, N. change (frank zero) with 0. simpl.
  apply Z.eqb_neq. lia.
Qed.

Lemma py_div_flt x y :
  is_nan y = false -> 0 < frank y -> py_div (VFloat x) (VFloat y) = Ok (VFloat (x / y)).
Proof. intros N H. unfold py_div, py_arith. simpl. by rewrite pos_not_zero. Qed.

Lemma effective_min_rr_flt m : effective_min_rr (opt_float m) = Ok (VFloat (resolved_minimum m)).
Proof.
  unfold effective_min_rr, py_gt, resolved_minimum. destruct m as [m|]; [|done].
  simpl opt_float. rewrite py_lt_flt. simpl.
  by destruct (PrimFloat.ltb 0 m).
Qed.

Lemma stop_too_tight_flt risk atr :
  stop_too_tight (VFloat risk) (opt_float atr) = Ok (atr_violated risk atr).
Proof.
  unfold stop_too_tight, py_gt. destruct atr as [a|]; [|done]. simpl opt_float.
  rewrite fin_is_finite, py_lt_flt. cbn. destruct (fin a) eqn:F; [|done]. cbn.
  rewrite ltb_fin by done. change (frank 0) with 0.
  destruct (0 <? frank a); [|done].
  change (py_lt (VFloat risk) (VFloat (MIN_STOP_ATR_MULTIPLE * a)) = Ok (PrimFloat.ltb risk (MIN_STOP_ATR_MULTIPLE * a))).
  apply py_lt_flt.
Qed.

(** The two gaps around the entry are positive numbers, and not both infinite. *)
Lemma bracket_gaps e s t :
  fin e = true -> fin s = true -> fin t = true ->
  (frank s < frank e < frank t \/ frank t < frank e < frank s) ->
  (0 < frank (PrimFloat.abs (e - s)) /\ is_nan (PrimFloat.abs (e - s)) = false) /\
  (0 < frank (PrimFloat.abs (t - e)) /\ is_nan (PrimFloat.abs (t - e)) = false) /\
  (fin (PrimFloat.abs (t - e)) = true \/ fin (PrimFloat.abs (e - s)) = true).
Proof.
  intros He Hs Ht H. split; [apply gap_pos; [done|done|lia]|]. split; [apply gap_pos; [done|done|lia]|].
  assert (forall x y, fin x = true -> fin y = true ->
    fin (PrimFloat.abs (x - y)) = true <-> -2^2098 < rnd (frank x - frank y) < 2 ^ 2098) as Hfa.
  { intros x y Hx Hy. rewrite fin_rank. destruct (fabs_rank (x - y)) as [-> ->].
    destruct (fsub_rank x y Hx Hy) as [-> ->]. simpl. rewrite andb_true_iff, !Z.ltb_lt.
    pose proof (pow2_pos 2098 ltac:(lia)). lia. }
  assert (forall x y, fin x = true -> fin y = true -> fin (x - y)%float = true ->
    -2^2098 < rnd (frank x - frank y) < 2 ^ 2098) as Hf.
  { intros x y Hx Hy Hxy. rewrite fin_rank in Hxy. destruct (fsub_rank x y Hx Hy) as [E _].
    rewrite E in Hxy. bools. lia. }
  rewrite !Hfa by done. destruct H as [H|H].
  - destruct (adjacent_gaps_fin s e t) as [F|F]; [done|done|done|lia|right|left]; by apply Hf.
  - assert (forall a b, rnd (a - b) = - rnd (b - a)) as Hswap.
    { intros a b. rewrite <- rnd_opp. f_equal. lia. }
    rewrite (Hswap (frank t)), (Hswap (frank e) (frank s)).
    destruct (adjacent_gaps_fin t e s) as [F|F]; [done|done|done|lia|left|right]; apply Hf in F; try done; lia.
Qed.

(** ** The single-target rules *)

Lemma validate_trade_on_floats env a e s t atr plan mb m :
  a <> HOLD ->
  validate_trade env a (Some (float_levels e s t)) (opt_float atr) plan mb (opt_float m) =
  match spec_refusal a e s t atr with
  | Some why => Ok (Failed why)
  | None =>
      if is_none plan then Ok (spec_ratio e s t (resolved_minimum m))
      else _validate_management_plan env a plan (declared plan "entry" e) (declared plan "initial_stop" s) mb
  end.
Proof.
  intros Ha. unfold validate_trade, spec_refusal, spec_ratio. cbn [float_levels entry stop_loss take_profit].
  rewrite !fin_is_finite. destruct a; [| |done].
  all: destruct (fin e) eqn:Fe, (fin s) eqn:Fs, (fin t) eqn:Ft; try done; cbn [notM orM negb andb mbind res_bind].
  all: unfold py_between; rewrite !py_lt_flt, !ltb_fin by done; cbn [andM mbind res_bind].
  all: match goal with |- context [if ?b then Ok ?c else Ok false] =>
         destruct b eqn:E1; [destruct c eqn:E2; [|done]|done] end;
       cbn [mbind res_bind negb andb]; bools.
  all: destruct (bracket_gaps e s t) as ((R1 & N1) & (R2 & N2) & Hfin); [done|done|done|lia|].
  all: cbn [py_sub py_arith as_num nsub narith n_float mbind res_bind fmap res_fmap of_num py_abs nabs];
       rewrite py_le_flt.
  all: assert (PrimFloat.leb (PrimFloat.abs (e - s)) 0 = false) as ->
         by (rewrite leb_rank, N1; change (frank 0) with 0; apply Z.leb_gt; lia).
  all: cbn [mbind res_bind]; rewrite stop_too_tight_flt; cbn [mbind res_bind];
       (destruct (atr_violated _ _); [done|]); (destruct (is_none plan); [|done]); cbn [negb].
  all: rewrite effective_min_rr_flt; cbn [mbind res_bind]; rewrite py_div_flt by done;
       cbn [mbind res_bind]; by rewrite py_lt_flt.
Qed.

Lemma validate_trade_refines_spec_aux env a e s t atr mb m :
  a <> HOLD ->
  validate_trade env a (Some (float_levels e s t)) (opt_float atr) VNone mb (opt_float m)
  = Ok (spec_outcome a e s t atr (resolved_minimum m)).
Proof.
  intros Ha. rewrite validate_trade_on_floats by done. unfold spec_refusal, spec_outcome, spec_ratio. cbn [is_none].
  destruct (negb (fin e && fin s && fin t)); [done|]. destruct (match a with BUY => _ | _ => _ end) as [lo hi].
  destruct (negb _); [done|]. by destruct (atr_violated _ _).
Qed.

(** C14: On float levels [validate_trade] decides as specified.  A HOLD passes, with a
    ratio of zero, whatever its levels.  For a BUY or a SELL the first three rules on the
    exact values of the levels decide first and in order: finiteness, strict ordering
    for the direction, the 1.5 ATR stop floor (the zero-risk guard never decides).  When
    they hold, a trade without a plan always gets an answer: refused below the effective
    minimum reward-to-risk, passed with its own ratio otherwise; a trade with a plan is
    exactly what [_validate_management_plan] makes of the plan, at the plan's entry and
    initial stop or, where it names none, the trade's, which may raise. *)
Theorem validate_trade_refines_spec env a e s t atr plan mb m :
  validate_trade env a (Some (float_levels e s t)) (opt_float atr) plan mb (opt_float m) =
  match a, spec_refusal a e s t atr with
  | HOLD, _ => Ok (Passed (VFloat 0))
  | _, Some why => Ok (Failed why)
  | _, None =>
      if is_none plan then Ok (spec_ratio e s t (resolved_minimum m))
      else _validate_management_plan env a plan (declared plan "entry" e) (declared plan "initial_stop" s) mb
  end.
Proof. destruct a; [by apply validate_trade_on_floats..|done]. Qed.

(** A strict comparison that fails between numbers bounds the other way. *)
Lemma not_ltb_leb x y :
  is_nan x = false -> is_nan y = false -> PrimFloat.ltb x y = false -> PrimFloat.leb y x = true.
Proof.
  intros Nx Ny. rewrite ltb_rank, leb_rank, Nx, Ny. simpl. intros H. apply Z.ltb_ge in H. by apply Z.leb_le.
Qed.

Lemma ltb_not_nan x y : PrimFloat.ltb x y = true -> is_nan x = false /\ is_nan y = false.
Proof. rewrite ltb_rank. by destruct (is_nan x), (is_nan y). Qed.

Lemma resolved_minimum_not_nan m : is_nan (resolved_minimum m) = false.
Proof.
  unfold resolved_minimum. destruct m as [m|]; [|done]. destruct (PrimFloat.ltb 0 m) eqn:E; [|reflexivity].
  by apply ltb_not_nan in E as [_ ?].
Qed.

(** A single-target pass is safe.  The levels are finite and strictly
    ordered for the direction, the reported reward-to-risk is a number and at
    least the effective minimum, and the stop is at least 1.5 ATR away whenever
    a finite positive ATR is known. *)
Theorem validate_trade_pass_safe env a e s t atr mb m rr :
  a <> HOLD ->
  validate_trade env a (Some (float_levels e s t)) (opt_float atr) VNone mb (opt_float m) = Ok (Passed rr) ->
  fin e && fin s && fin t = true /\
  (match a with BUY => frank s < frank e < frank t | _ => frank t < frank e < frank s end) /\
  (exists q, rr = VFloat q /\ PrimFloat.leb (resolved_minimum m) q = true) /\
  (forall A, atr = Some A -> fin A = true -> PrimFloat.ltb 0 A = true ->
     PrimFloat.leb (MIN_STOP_ATR_MULTIPLE * A) (PrimFloat.abs (e - s)) = true).
Proof.
  intros Ha H. rewrite validate_trade_refines_spec_aux in H by done. unfold spec_outcome in H.
  destruct (fin e) eqn:Fe, (fin s) eqn:Fs, (fin t) eqn:Ft; try discriminate. cbn [negb andb] in H.
  set (lh := match a with BUY => (s, t) | _ => (t, s) end) in H.
  assert (frank (fst lh) < frank e < frank (snd lh) /\
          atr_violated (PrimFloat.abs (e - s)) atr = false /\
          PrimFloat.ltb (PrimFloat.abs (t - e) / PrimFloat.abs (e - s)) (resolved_minimum m) = false /\
          rr = VFloat (PrimFloat.abs (t - e) / PrimFloat.abs (e - s))) as (Ho & Hatr & Hmin & ->).
  { destruct lh as [lo hi]. simpl. destruct (_ <? _) eqn:E1 in H; [|discriminate].
    destruct (_ <? _) eqn:E2 in H; [|discriminate]. cbn [negb andb] in H. bools.
    destruct (atr_violated _ _); [discriminate|]. destruct (PrimFloat.ltb _ _); [discriminate|].
    injection H as <-. done. }
  assert (frank s < frank e < frank t \/ frank t < frank e < frank s) as Hor.
  { subst lh. destruct a; simpl in Ho; [by left|by right|done]. }
  destruct (bracket_gaps e s t) as ((R1 & N1) & (R2 & N2) & Hfin); [done..|].
  split; [done|]. split; [by subst lh; destruct a|]. split.
  - eexists. split; [reflexivity|].
    destruct (fdiv_nonneg (PrimFloat.abs (t - e)) (PrimFloat.abs (e - s))) as [Nq _]; try done; [lia|].
    apply not_ltb_leb; auto using resolved_minimum_not_nan.
  - intros A -> FA PA. unfold atr_violated in Hatr. rewrite FA in Hatr.
    rewrite ltb_fin in PA by done. change (frank 0) with 0 in PA. rewrite PA in Hatr. cbn [andb] in Hatr.
    apply not_ltb_leb; [done| |done].
    rewrite is_nan_sf, mul_spec. rewrite fin_sf in FA.
    destruct (Prim2SF A) as [| | |sA mA eA]; try discriminate; [done|].
    clear. vm_compute (Prim2SF MIN_STOP_ATR_MULTIPLE). unfold SF64mul, SFmul.
    rewrite sf_nan_sign, binary_round_aux_sign by lia. done.
Qed.

(** Mirror symmetry.  Negating every level of a BUY bracket gives a SELL
    bracket with exactly the same outcome, the reported reward-to-risk included. *)
Theorem validate_trade_mirror env e s t atr mb m :
  validate_trade env SELL (Some (float_levels (- e) (- s) (- t))) (opt_float atr) VNone mb (opt_float m)
  = validate_trade env BUY (Some (float_levels e s t)) (opt_float atr) VNone mb (opt_float m).
Proof.
  rewrite !validate_trade_refines_spec_aux by done. f_equal. unfold spec_outcome.
  destruct (fopp_rank e) as (Re & _ & ->), (fopp_rank s) as (Rs & _ & ->), (fopp_rank t) as (Rt & _ & ->).
  destruct (fin e) eqn:Fe, (fin s) eqn:Fs, (fin t) eqn:Ft; try done. cbn [negb andb].
  rewrite Re, Rs, Rt, !abs_sub_mirror by done.
  assert (forall x y, (- x <? - y) = (y <? x)) as Hopp.
  { intros x y. destruct (Z.ltb_spec (- x) (- y)), (Z.ltb_spec y x); try done; lia. }
  rewrite !Hopp, andb_comm. done.
Qed.

(** ** The multi-leg rules *)

(** [a < b] and [a <= b] as facts about Python values. *)
Definition plt (a b : val) : Prop := py_lt a b = Ok true.
Definition ple (a b : val) : Prop := py_le a b = Ok true.

(** [ahead is_buy x y]: [y] is strictly further in the trade's favour. *)
Definition ahead (is_buy : bool) (x y : val) : Prop := if is_buy then plt x y else plt y x.
Definition ahead_eq (is_buy : bool) (x y : val) : Prop := if is_buy then ple x y else ple y x.

Definition fraction_of (leg : val) : val := _field leg "fraction".
Definition target_of (leg : val) : val := _field leg "target".

(** A leg size in (0, 1], as a finite number. *)
Definition fraction_ok (f : val) : Prop :=
  _is_finite f = Ok true /\ py_le f (VFloat 0) = Ok false /\ py_lt (VFloat 1) f = Ok false.

(** The targets run monotonically away from the entry. *)
Fixpoint run_ahead (is_buy : bool) (entry previous : val) (targets : list val) : Prop :=
  match targets with
  | [] => True
  | t :: ts =>
      _is_finite t = Ok true /\ ahead is_buy entry t /\ ahead_eq is_buy previous t /\
      run_ahead is_buy entry t ts
  end.

(** A breakeven price, when declared, lies strictly between entry and first
    target. *)
Definition breakeven_between (is_buy : bool) (entry first : val) (be : val) : Prop :=
  _field be "price" <> VNone ->
  ahead is_buy entry (_field be "price") /\ ahead is_buy (_field be "price") first.

Lemma py_len_iter v n l : py_len v = Ok n -> py_iter v = Ok l -> n = Z.of_nat (length l).
Proof.
  assert (forall s, length (str_chars s) = String.length s /\ length (byte_ints s) = String.length s) as Hs.
  { induction s as [|c s [IH1 IH2]]; simpl; [done|]. by rewrite IH1, IH2. }
  destruct v as [| | | |s|s|k|k|k|k|]; simpl; intros H1 H2; simplify_eq; rewrite ?length_map; try done.
  - f_equal. symmetry. apply Hs.
  - f_equal. symmetry. apply Hs.
Qed.

Lemma sum_fractions_ok legs acc sum :
  sum_fractions legs acc = Ok (Some sum) ->
  Forall (fun l => fraction_ok (fraction_of l)) legs /\
  foldM py_add acc (map fraction_of legs) = Ok sum.
Proof.
  revert acc. induction legs as [|l legs IH]; intros acc H; simpl in H; [injection H as <-; by split|].
  mbind H. destruct a; [discriminate|]. mbind H. apply IH in H as [HF Hs]. split.
  - constructor; [|done]. unfold bad_fraction in E.
    apply orM_false in E as [_ E]. apply orM_false in E as [E1 E]. apply orM_false in E as [E2 E3].
    apply notM_false in E1. done.
  - simpl. change (fraction_of l) with (_field l "fraction"). by rewrite E0.
Qed.

Lemma targets_ordered_run is_buy entry previous targets :
  targets_ordered is_buy entry previous targets = Ok true -> run_ahead is_buy entry previous targets.
Proof.
  revert previous. induction targets as [|t ts IH]; intros previous H; simpl in *; [done|].
  mbind H. destruct a; [|discriminate]. mbind H. destruct a; [|discriminate].
  destruct (negb (is_none t)); [|discriminate]. split; [done|]. unfold ahead, ahead_eq.
  destruct is_buy; apply andM_true in E0 as [? ?]; (split; [done|]); (split; [done|]); by apply IH.
Qed.

Lemma breakeven_placed_between is_buy entry first dist be :
  breakeven_placed is_buy entry first dist be = Ok true -> breakeven_between is_buy entry first be.
Proof.
  unfold breakeven_placed, breakeven_between. intros H Hne.
  destruct (_field be "price") eqn:E; try done; cbn [is_none negb] in H; unfold ahead;
    destruct is_buy; apply andM_true in H as [_ H]; apply andM_true in H as [? ?]; done.
Qed.

(** A multi-leg pass is safe, whatever shape the plan has.  Every leg size
    is in (0, 1] and they sum to at most 1 (plus the tolerance); the stop is on
    the losing side of the entry, and the targets run monotonically on the
    winning side; a breakeven price lies strictly before the first target; and
    the reported blended reward-to-risk meets the minimum. *)
Theorem validate_plan_pass_safe e a plan en stop mb blended :
  let is_buy := bool_decide (a = BUY) in
  _validate_management_plan e a plan en stop mb = Ok (Passed blended) ->
  exists legs sum,
    py_iter (_field plan "legs") = Ok legs /\ legs <> [] /\
    Forall (fun l => fraction_ok (fraction_of l)) legs /\
    foldM py_add (VFloat 0) (map fraction_of legs) = Ok sum /\
    py_lt (VFloat (1 + LEG_FRACTION_SUM_TOLERANCE)) sum = Ok false /\
    ahead is_buy stop en /\ run_ahead is_buy en en (map target_of legs) /\
    (_field plan "breakeven" <> VNone ->
      breakeven_between is_buy en (default VNone (head (map target_of legs))) (_field plan "breakeven")) /\
    py_lt blended
      (if is_none mb then VFloat (cfg_min_blended_reward_to_risk (resolve_trade_manager_config e)) else mb)
      = Ok false.
Proof.
  intros is_buy H. unfold _validate_management_plan in H. fold is_buy in H.
  mbind H. destruct (a0 =? 0) eqn:E0; [discriminate|]. mbind H. mbind H.
  destruct a2 as [sum|]; [|discriminate]. mbind H. destruct a2; [discriminate|].
  mbind H. destruct a2; [|discriminate]. mbind H. mbind H.
  destruct (a2 && a3)%bool eqn:Eo; [|discriminate]. cbn [negb] in H.
  mbind H. mbind H. mbind H. destruct a6; [|discriminate]. cbn [negb] in H. mbind H. mbind H.
  injection H as H. destruct a7; [discriminate|]. injection H as <-.
  apply sum_fractions_ok in E2 as [HF Hs]. bools. subst a2 a3.
  exists a1, sum.
  assert (truthy (_field plan "legs") = true) as Htr.
  { destruct (truthy (_field plan "legs")) eqn:Et; [done|]. exfalso. inv E. }
  rewrite Htr in E, E1. split; [done|]. split.
  { intros ->. apply (py_len_iter _ _ _ E) in E1. subst a0. done. }
  split; [done|]. split; [done|]. split; [done|].
  split; [unfold ahead; destruct is_buy; exact E5|].
  split; [by apply targets_ordered_run|]. split; [|done].
  intros Hne. destruct (is_none (_field plan "breakeven")) eqn:En.
  { by destruct (_field plan "breakeven"). }
  by apply breakeven_placed_between in E9.
Qed.

Lemma leg_fields leg :
  _field (leg_obj leg) "fraction" = _field (leg_payload leg) "fraction" /\
  _field (leg_obj leg) "target" = _field (leg_payload leg) "target".
Proof. done. Qed.

Lemma sum_fractions_shape legs acc :
  sum_fractions (map leg_obj legs) acc = sum_fractions (map leg_payload legs) acc.
Proof.
  revert acc. induction legs as [|l legs IH]; intros acc; [done|]. cbn [map sum_fractions].
  destruct (leg_fields l) as [-> _]. destruct (bad_fraction _) as [[]|]; [done| |done].
  cbn. destruct (py_add _ _); [apply IH|done].
Qed.

Lemma legs_field_shape legs n :
  n = "fraction"%string \/ n = "target"%string ->
  map (fun leg => _field leg n) (map leg_obj legs) = map (fun leg => _field leg n) (map leg_payload legs).
Proof. intros Hn. rewrite !map_map. apply map_ext. intros l. by destruct Hn as [-> | ->], (leg_fields l). Qed.

Lemma breakeven_placed_shape is_buy en first dist pr rm shown :
  breakeven_placed is_buy en first dist (VObj [("price"%string, pr); ("r_multiple"%string, rm)] shown)
  = breakeven_placed is_buy en first dist (VDict [(VStr "price", pr); (VStr "r_multiple", rm)]).
Proof. reflexivity. Qed.

(** The verdict on a plan does not depend on its representation: a plan
    object and the dictionary it is persisted as are validated alike. *)
Theorem validate_plan_representation e a lv atr p mb m :
  validate_trade e a lv atr (plan_obj p) mb m = validate_trade e a lv atr (plan_to_payload p) mb m.
Proof.
  assert (forall en st, _validate_management_plan e a (plan_obj p) en st mb
            = _validate_management_plan e a (plan_to_payload p) en st mb) as Hplan.
  { intros en st. unfold _validate_management_plan.
    change (_field (plan_obj p) "legs") with (VTuple (map leg_obj (mp_legs p))).
    change (_field (plan_to_payload p) "legs") with (VList (map leg_payload (mp_legs p))).
    destruct p as [act en0 st0 legs be tr at14]. cbn [mp_legs mp_breakeven].
    destruct legs as [|l legs]; [done|].
    change (truthy (VTuple (map leg_obj (l :: legs)))) with true.
    change (truthy (VList (map leg_payload (l :: legs)))) with true.
    set (ls := l :: legs). cbn [py_len py_iter mbind res_bind].
    rewrite !length_map, sum_fractions_shape, !legs_field_shape by auto.
    by destruct be as [[pr rm]|]. }
  unfold validate_trade. cbv zeta. change (_field (plan_obj p) "entry") with (mp_entry p).
  change (_field (plan_obj p) "initial_stop") with (mp_initial_stop p).
  change (_field (plan_to_payload p) "entry") with (mp_entry p).
  change (_field (plan_to_payload p) "initial_stop") with (mp_initial_stop p).
  destruct lv as [lv|]; [|done]. by rewrite !Hplan.
Qed.

(** A plan whose entry is an integer past 2^53 and whose stop is the next float
    below: ordered exactly, but at zero distance once subtracted in floats. *)
Definition mixed_plan : ManagementPlan :=
  {| mp_action := VStr "BUY"; mp_entry := VInt 9007199254740993; mp_initial_stop := VFloat 9007199254740992;
     mp_legs := [{| leg_target := VFloat 9007199254741000; leg_fraction := VFloat 1 |}];
     mp_breakeven := None; mp_trailing := None; mp_atr_14 := VNone |}.

(** The multi-leg rules can divide by zero.  Ordering is compared exactly
    but the stop distance is computed in floats, so a mixed integer/float plan
    passes the ordering check with a zero stop distance, and the validator
    raises [ZeroDivisionError] instead of returning an outcome. *)
Theorem validate_plan_zero_division env :
  validate_trade env BUY (Some (float_levels 100 90 130)) VNone (plan_to_payload mixed_plan) VNone VNone
  = Raise ZeroDivisionError.
Proof. vm_compute. reflexivity. Qed.

(** ** Witnesses *)

Lemma validate_trade_pass_safe_witness :
  exists q, VFloat 3 = VFloat q /\ PrimFloat.leb 1.3 q = true.
Proof.
  apply (validate_trade_pass_safe (fun _ => None) SELL 100 105 85 (Some 2%float) VNone (Some 1.3%float) (VFloat 3));
    [discriminate|vm_compute; reflexivity].
Defined.

Definition demo_payload : val :=
  plan_to_payload {| mp_action := VStr "BUY"; mp_entry := VInt 100; mp_initial_stop := VInt 90;
    mp_legs := [{| leg_target := VInt 120; leg_fraction := VFloat 0.5 |};
                {| leg_target := VInt 130; leg_fraction := VFloat 0.5 |}];
    mp_breakeven := Some {| be_price := VInt 110; be_r_multiple := VNone |};
    mp_trailing := None; mp_atr_14 := VNone |}.

Lemma validate_plan_pass_safe_witness :
  exists legs sum, py_iter (_field demo_payload "legs") = Ok legs /\
    foldM py_add (VFloat 0) (map fraction_of legs) = Ok sum /\
    py_lt (VFloat (1 + LEG_FRACTION_SUM_TOLERANCE)) sum = Ok false.
Proof.
  destruct (validate_plan_pass_safe (fun _ => None) BUY demo_payload (VInt 100) (VInt 90) VNone (VFloat 2.5))
    as (legs & sum & H1 & _ & _ & H2 & H3 & _); [vm_compute; reflexivity|].
  exact (ex_intro _ legs (ex_intro _ sum (conj H1 (conj H2 H3)))).
Defined.
