(* ===== verification/Debate.v ===== *)
(** * The debate core: stances, consensus and conviction

    Models [agents/deep-quant-loop/debate.py]: the configuration, the defensive
    parse of a role's output into a [DebateStance] and its serialisation, and the
    deterministic verdict (consensus class, conviction, directional bias). *)

From stdpp Require Import base list strings.
From Stdlib Require Import ZArith Lia Floats.
From S2P Require Import Prelude PyFloat PyNum PyVal PyEnv PyJson.

#[local] Set Warnings "-inexact-float".
Open Scope Z_scope.

(** ** Constants *)

Definition DEBATE_CONSENSUS_VALUES : list string := ["strong_agree"; "lean"; "contested"]%string.
Definition DEBATE_LEANS : list string := ["long"; "short"; "neutral"]%string.
Definition STRONG_FLOOR := 60.
Definition STRONG_GAP := 30.
Definition CONTESTED_GAP := 15.
Definition W_BASE : float := 0.7%float.
Definition W_SEP : float := 0.3%float.
Definition CONTESTED_PENALTY := 25.
Definition MAX_ROUNDS := 5.
Definition TURNS_PER_ROUND := 2.
Definition JUDGE_TURNS := 1.
Definition MAX_TURNS_CAP := MAX_ROUNDS * TURNS_PER_ROUND + JUDGE_TURNS.
Definition JUDGE_MAX_TOOL_CALLS_DEFAULT := 2.
Definition JUDGE_MAX_TOOL_CALLS_CAP := 5.
Definition DEFAULT_ROUNDS := 1.
Definition GEMINI_DEFAULT_MODEL : string := "gemini-2.5-flash".
Definition STRENGTH_MIN := 0.
Definition STRENGTH_MAX := 100.
Definition DEFAULT_LEAN : string := "neutral".

(** ** Configuration *)

Record DebateConfig := {
  rounds : Z;
  max_turns : Z;
  judge_max_tool_calls : Z;
  bull_model : string;
  bear_model : string;
  judge_model : string;
}.

Definition _env_str (e : env) (name : string) : option string := env_text e name.

Definition _resolve_int_in_range (e : env) (name : string) (default low high : Z) : Z :=
  resolve_int_range e name default low high.

Definition _derived_max_turns (rounds : Z) : Z := rounds * TURNS_PER_ROUND + JUDGE_TURNS.

Definition _resolve_role_model (e : env) (name default_model : string) : string :=
  match _env_str e name with Some v => v | None => default_model end.

Definition resolve_debate_config (e : env) (default_model : option string) : DebateConfig :=
  let dm :=
    match default_model with
    | Some d => if nonempty (strip d) then strip d
                else default GEMINI_DEFAULT_MODEL (_env_str e "LLM_MODEL")
    | None => default GEMINI_DEFAULT_MODEL (_env_str e "LLM_MODEL")
    end in
  let rounds := _resolve_int_in_range e "DEBATE_ROUNDS" DEFAULT_ROUNDS 1 MAX_ROUNDS in
  let derived := _derived_max_turns rounds in
  {| rounds := rounds;
     max_turns := _resolve_int_in_range e "DEBATE_MAX_TURNS" derived derived MAX_TURNS_CAP;
     judge_max_tool_calls :=
       _resolve_int_in_range e "DEBATE_JUDGE_MAX_TOOL_CALLS" JUDGE_MAX_TOOL_CALLS_DEFAULT 0 JUDGE_MAX_TOOL_CALLS_CAP;
     bull_model := _resolve_role_model e "DEBATE_BULL_MODEL" dm;
     bear_model := _resolve_role_model e "DEBATE_BEAR_MODEL" dm;
     judge_model := _resolve_role_model e "DEBATE_JUDGE_MODEL" dm |}.

(** ** Stances *)

Record DebateStance := {
  role : string;
  lean : string;
  strength : Z;
  arguments : list string;
  biggest_risk : string;
  available : bool;
}.

(** [_coerce_to_mapping]: the entries of the mapping. *)
Definition _coerce_to_mapping (raw : val) : option (list (val * val)) :=
  match raw with
  | VDict l => Some l
  | VStr s =>
      let text := strip s in
      if nonempty text then
        match loads text with Ok (VDict l) => Some l | _ => None end
      else None
  | VObj ((_ :: _) as attrs) _ => Some (map (fun kv => (VStr kv.1, kv.2)) attrs)
  | _ => None
  end.

Definition _coerce_lean (v : val) : string :=
  match v with
  | VStr s => let n := lower (strip s) in if str_in n DEBATE_LEANS then n else DEFAULT_LEAN
  | _ => DEFAULT_LEAN
  end.

(** The score as a float; [float()] of an integer past the float range raises. *)
Definition strength_number (v : val) : res (option float) :=
  match v with
  | VInt z => f ← int_to_float z; Ok (Some f)
  | VFloat f => Ok (Some f)
  | VStr s => match parse_float (strip s) with Ok f => Ok (Some f) | Raise _ => Ok None end
  | _ => Ok None
  end.

(** [max(0.0, min(100.0, x))]: [min] and [max] keep their first argument unless
    the second compares strictly better. *)
Definition clamp_strength (x : float) : float :=
  let m := if PrimFloat.ltb x 100 then x else 100%float in
  if PrimFloat.ltb 0 m then m else 0%float.

Definition _coerce_strength (v : val) : res Z :=
  n ← strength_number v;
  match n with
  | None => Ok STRENGTH_MIN
  | Some x => f_round (clamp_strength x)
  end.

Definition nonempty_strip (s : string) : option string :=
  let t := strip s in if nonempty t then Some t else None.

Definition argument_text (item : val) : option string :=
  match item with VNone => None | _ => nonempty_strip (py_str item) end.

Definition _coerce_arguments (v : val) : list string :=
  match v with
  | VStr s => match nonempty_strip s with Some t => [t] | None => [] end
  | VList l | VTuple l => omap argument_text l
  | _ => []
  end.

Definition _coerce_biggest_risk (v : val) : string :=
  match v with VNone => ""%string | _ => strip (py_str v) end.

Definition _is_number (text : string) : bool := is_ok (parse_float (strip text)).

Definition recognized_lean (v : val) : bool :=
  match v with VStr s => str_in (lower (strip s)) DEBATE_LEANS | _ => false end.
Definition recognized_strength (v : val) : bool :=
  match v with VInt _ | VFloat _ => true | VStr s => _is_number s | _ => false end.

Definition parse_stance (role_v raw : val) : res DebateStance :=
  let role_norm := match role_v with VNone => ""%string | _ => lower (strip (py_str role_v)) end in
  match _coerce_to_mapping raw with
  | None =>
      Ok {| role := role_norm; lean := DEFAULT_LEAN; strength := STRENGTH_MIN; arguments := [];
            biggest_risk := ""; available := false |}
  | Some data =>
      let lean := _coerce_lean (dict_get data "lean") in
      strength ← _coerce_strength (dict_get data "strength");
      let arguments := _coerce_arguments (dict_get data "arguments") in
      let biggest_risk := _coerce_biggest_risk (dict_get data "biggest_risk") in
      let available :=
        match dict_get data "available" with
        | VBool b => b
        | _ => negb (bool_decide (arguments = [])) || nonempty biggest_risk ||
               recognized_lean (dict_get data "lean") || recognized_strength (dict_get data "strength")
        end in
      Ok {| role := role_norm; lean := lean; strength := strength; arguments := arguments;
            biggest_risk := biggest_risk; available := available |}
  end.

Definition stance_to_dict (s : DebateStance) : val :=
  VDict [(VStr "role", VStr (role s)); (VStr "lean", VStr (lean s)); (VStr "strength", VInt (strength s));
         (VStr "arguments", VList (map VStr (arguments s))); (VStr "biggest_risk", VStr (biggest_risk s));
         (VStr "available", VBool (available s))].

(** ** Verdict *)

Definition _clamp_int (value low high : Z) : Z :=
  if value <? low then low else if high <? value then high else value.

Definition _effective_strength (stance : option DebateStance) : Z :=
  match stance with
  | Some s => if available s then _clamp_int (strength s) STRENGTH_MIN STRENGTH_MAX else STRENGTH_MIN
  | None => STRENGTH_MIN
  end.

Definition classify_consensus (bull bear : option DebateStance) : string :=
  let b := _effective_strength bull in
  let r := _effective_strength bear in
  let hi := Z.max b r in
  let lo := Z.min b r in
  let gap := hi - lo in
  if (STRONG_FLOOR <=? lo) && (gap <=? CONTESTED_GAP) then "contested"
  else if (STRONG_GAP <=? gap) && (STRONG_FLOOR <=? hi) then "strong_agree"
  else "lean".

(** The conviction of two effective strengths. *)
Definition conviction_of (b r : Z) (consensus : string) : res Z :=
  let hi := Z.max b r in
  let gap := hi - Z.min b r in
  base ← int_to_float (_clamp_int hi 0 100);
  separation ← int_to_float (_clamp_int gap 0 100);
  rounded ← f_round (W_BASE * base + W_SEP * separation);
  let penalty := if String.eqb consensus "contested" then CONTESTED_PENALTY else 0 in
  Ok (_clamp_int (rounded - penalty) 0 100).

Definition derive_conviction (bull bear : option DebateStance) (consensus : string) : res Z :=
  conviction_of (_effective_strength bull) (_effective_strength bear) consensus.

Definition lean_of (s : option DebateStance) : string :=
  match s with Some s => lean s | None => DEFAULT_LEAN end.

Definition judge_directional_bias (bull bear : option DebateStance) (consensus : string) : string :=
  if String.eqb consensus "contested" then "hold"
  else
    let b := _effective_strength bull in
    let r := _effective_strength bear in
    let pick s := if String.eqb (lean_of s) "long" then "long"
                  else if String.eqb (lean_of s) "short" then "short" else "hold" in
    if r <? b then pick bull
    else if b <? r then pick bear
    else "hold".
