(* ===== verification/DebateFacts.v ===== *)
(** * The debate core: correctness

    A parsed stance is always normalised, serialising and reparsing a normalised
    stance is the identity, and the verdict functions are total, in range, and
    ordered as documented: a contested verdict never convicts as much as a
    strong agreement over the same strengths, and a directional bias always
    comes from an available, strictly stronger stance. *)

From stdpp Require Import base list strings.
From Stdlib Require Import ZArith Lia Floats.
From S2P Require Import Prelude PyFloat PyRound PyNum PyVal PyEnv PyJson Debate.

#[local] Set Warnings "-inexact-float".
Open Scope Z_scope.

(** ** Normalised stances *)

Definition stripped (s : string) : bool := String.eqb (strip s) s.

Definition stance_ok (s : DebateStance) : bool :=
  str_in (lean s) DEBATE_LEANS && (0 <=? strength s) && (strength s <=? 100) &&
  forallb (fun a => nonempty a && stripped a) (arguments s) && stripped (biggest_risk s) &&
  String.eqb (lower (strip (role s))) (role s).

Lemma stripped_strip s : stripped (strip s) = true.
Proof. unfold stripped. rewrite strip_idemp. apply String.eqb_refl. Qed.

Lemma coerce_lean_in v : str_in (_coerce_lean v) DEBATE_LEANS = true.
Proof.
  unfold _coerce_lean. destruct v; try reflexivity. destruct (str_in (lower (strip s)) DEBATE_LEANS) eqn:E; [done|reflexivity].
Qed.

(** Clamping puts any number, NaN and infinities included, into [[0, 100]]. *)
Lemma clamp_strength_bounds x :
  is_nan (clamp_strength x) = false /\ is_infinity (clamp_strength x) = false /\
  0 <= frank (clamp_strength x) <= 100 * two1074.
Proof.
  assert (forall y, PrimFloat.ltb 0 y = true -> PrimFloat.leb y 100 = true ->
    is_nan y = false /\ is_infinity y = false /\ 0 <= frank y <= 100 * two1074) as Hb.
  { intros y H0 H1. rewrite ltb_rank in H0. rewrite leb_rank in H1. bools.
    change (frank 0) with 0 in *. replace (frank 100) with (100 * two1074) in * by (vm_compute; reflexivity).
    split; [done|]. split; [|lia].
    assert (fin y = true) as Hf.
    { rewrite fin_rank. apply andb_true_iff; split; [apply andb_true_iff; split; [by apply negb_true_iff|]|];
        apply Z.ltb_lt; assert (100 * two1074 < 2 ^ 2098) by (vm_compute; reflexivity); lia. }
    unfold fin, is_finite in Hf. apply negb_true_iff, orb_false_iff in Hf. tauto. }
  unfold clamp_strength. destruct (PrimFloat.ltb x 100) eqn:E1.
  - destruct (PrimFloat.ltb 0 x) eqn:E0; [|vm_compute; repeat split; discriminate].
    apply Hb; [done|]. rewrite ltb_rank in E1. rewrite leb_rank. bools.
    apply andb_true_iff. split; [apply andb_true_iff; split; by apply negb_true_iff|]. apply Z.leb_le. lia.
  - apply Hb; reflexivity.
Qed.

Lemma round_clamped x : exists z, f_round (clamp_strength x) = Ok z /\ 0 <= z <= 100.
Proof.
  destruct (clamp_strength_bounds x) as (N & I & B). unfold f_round. rewrite N, I.
  eexists. split; [reflexivity|]. apply div_half_even_bounds; [apply two1074_pos|done].
Qed.

Lemma coerce_strength_range v z : _coerce_strength v = Ok z -> 0 <= z <= 100.
Proof.
  unfold _coerce_strength. intros H. mbind H. destruct a as [x|].
  - destruct (round_clamped x) as (z' & E' & Hz). rewrite E' in H. by injection H as <-.
  - injection H as <-. vm_compute. split; discriminate.
Qed.

Lemma coerce_strength_int z : 0 <= z <= 100 -> _coerce_strength (VInt z) = Ok z.
Proof.
  intros Hz.
  assert (forallb (fun z => match _coerce_strength (VInt z) with Ok y => y =? z | _ => false end)
            (zrange 0 101) = true) as Hall by (vm_compute; reflexivity).
  pose proof (zrange_forallb 0 101 _ Hall z ltac:(lia)) as H. cbn beta in H.
  destruct (_coerce_strength (VInt z)); [|discriminate]. bools. by subst.
Qed.

Lemma nonempty_strip_ok s t : nonempty_strip s = Some t -> nonempty t && stripped t = true.
Proof.
  unfold nonempty_strip. destruct (nonempty (strip s)) eqn:E; [|discriminate].
  intros [= <-]. by rewrite E, stripped_strip.
Qed.

Lemma coerce_arguments_ok v : forallb (fun a => nonempty a && stripped a) (_coerce_arguments v) = true.
Proof.
  assert (forall l, forallb (fun a => nonempty a && stripped a) (omap argument_text l) = true) as Hl.
  { intros l. apply forallb_forall. intros a Ha. apply list_elem_of_In, list_elem_of_omap in Ha as (x & _ & Hx).
    unfold argument_text in Hx. destruct x; try discriminate; by eapply nonempty_strip_ok. }
  destruct v; simpl; try done. destruct (nonempty_strip s) eqn:E; [|done].
  cbn [forallb]. by rewrite (nonempty_strip_ok _ _ E).
Qed.

Lemma lower_strip_idemp s : lower (strip (lower (strip s))) = lower (strip s).
Proof. unfold lower. rewrite strip_map by apply lower_space. fold lower. by rewrite strip_idemp, lower_idemp. Qed.

(** [parse_stance] only ever returns a normalised stance, whatever the role
    produced: a lean of the vocabulary, an integer strength in [[0, 100]],
    non-blank stripped arguments; and an output that is no mapping is marked
    unavailable. *)
Theorem parse_stance_normalised r raw s :
  parse_stance r raw = Ok s ->
  stance_ok s = true /\ (_coerce_to_mapping raw = None -> available s = false /\ strength s = 0).
Proof.
  intros H. unfold parse_stance in H. set (rn := match r with VNone => _ | _ => _ end) in H.
  assert (String.eqb (lower (strip rn)) rn = true) as Hr.
  { subst rn. apply String.eqb_eq. destruct r; try apply lower_strip_idemp. done. }
  destruct (_coerce_to_mapping raw) as [data|].
  - mbind H. injection H as <-. split; [|done]. unfold stance_ok.
    cbn [role lean strength arguments biggest_risk available].
    apply coerce_strength_range in E. rewrite coerce_lean_in, coerce_arguments_ok, Hr.
    rewrite (proj2 (Z.leb_le 0 a)), (proj2 (Z.leb_le a 100)) by lia. cbn [andb].
    rewrite andb_true_r. unfold _coerce_biggest_risk. destruct (dict_get data "biggest_risk"); try done; apply stripped_strip.
  - injection H as <-. split; [|done]. unfold stance_ok.
    cbn [role lean strength arguments biggest_risk available]. rewrite Hr. done.
Qed.

(** Serialisation round trip: a normalised stance, and so every parsed one,
    is reproduced exactly by parsing what [stance_to_dict] produced. *)
Theorem stance_dict_roundtrip s :
  stance_ok s = true -> parse_stance (VStr (role s)) (stance_to_dict s) = Ok s.
Proof.
  intros H. destruct s as [rl ln st args risk av]. unfold stance_ok in H.
  cbn [role lean strength arguments biggest_risk available] in H. bools.
  unfold parse_stance, stance_to_dict, py_str. cbn [role lean strength arguments biggest_risk available _coerce_to_mapping].
  change (dict_get _ "lean") with (VStr ln). change (dict_get _ "strength") with (VInt st).
  change (dict_get _ "arguments") with (VList (map VStr args)).
  change (dict_get _ "biggest_risk") with (VStr risk). change (dict_get _ "available") with (VBool av).
  rewrite coerce_strength_int by lia. cbn [mbind res_bind]. unfold stripped in *. bools.
  assert (_coerce_lean (VStr ln) = ln) as ->.
  { match goal with Hl : str_in ln _ = true |- _ => apply str_in_In in Hl; simpl in Hl;
      destruct Hl as [<-|[<-|[<-|[]]]]; reflexivity end. }
  assert (_coerce_arguments (VList (map VStr args)) = args) as ->.
  { match goal with Ha : forallb _ args = true |- _ => revert Ha end. clear. simpl.
    induction args as [|a args IH]; [done|]. intros Ha. cbn [forallb] in Ha. bools.
    cbn [map omap list_omap argument_text py_str]. unfold nonempty_strip.
    match goal with E : strip a = a |- _ => rewrite E end.
    match goal with E : nonempty a = true |- _ => rewrite E end. f_equal. by apply IH. }
  do 2 f_equal; done.
Qed.

(** ** The verdict *)

Lemma effective_strength_range s : 0 <= _effective_strength s <= 100.
Proof.
  unfold _effective_strength, _clamp_int, STRENGTH_MIN, STRENGTH_MAX.
  destruct s as [s|]; [|lia]. destruct (available s); [|lia].
  destruct (Z.ltb_spec (strength s) 0); [lia|]. destruct (Z.ltb_spec 100 (strength s)); lia.
Qed.

(** Scaling numerator and denominator leaves the rounded quotient unchanged, so
    [round] can be computed on the significand. *)
Lemma div_half_even_scale n d k : 0 < k -> 0 < d -> div_half_even (n * k) (d * k) = div_half_even n d.
Proof.
  intros Hk Hd. unfold div_half_even. rewrite Z.div_mul_cancel_r, Z.mul_mod_distr_r by lia.
  replace (2 * (n mod d * k)) with (2 * (n mod d) * k) by lia.
  by rewrite <- Zmult_compare_compat_r by lia.
Qed.

Definition round_sf (x : spec_float) : res Z :=
  match x with
  | S754_nan => Raise ValueError
  | S754_infinity _ => Raise OverflowError
  | S754_zero _ => Ok 0
  | S754_finite s m e =>
      let n := cond_Zopp s (Z.pos m) in
      Ok (if 0 <=? e then n * 2 ^ e else div_half_even n (2 ^ (- e)))
  end.

Lemma f_round_sf x : f_round x = round_sf (Prim2SF x).
Proof.
  unfold f_round, is_infinity. rewrite is_nan_sf, eqb_spec, abs_spec.
  change (Prim2SF infinity) with (S754_infinity false). unfold frank, two1074.
  pose proof (Prim2SF_valid x) as V.
  destruct (Prim2SF x) as [s|s| |s m e]; try done; cbn [SFabs SFeqb SFcompare sf_nan sf_rank round_sf].
  apply bounded_spec in V as (_ & He & _). f_equal.
  assert (cond_Zopp s (Z.pos m * 2 ^ (e + 1074)) = cond_Zopp s (Z.pos m) * 2 ^ (e + 1074)) as ->
    by (destruct s; cbn [cond_Zopp]; lia).
  destruct (Z.leb_spec 0 e).
  - rewrite Z.pow_add_r, Z.mul_assoc by lia.
    rewrite <- (Z.mul_1_l (2 ^ 1074)) at 2. rewrite div_half_even_scale by (try apply pow2_pos; lia).
    unfold div_half_even. rewrite Z.div_1_r, Z.mod_1_r. done.
  - replace (2 ^ 1074) with (2 ^ (- e) * 2 ^ (e + 1074)) by (rewrite <- Z.pow_add_r by lia; f_equal; lia).
    apply div_half_even_scale; apply pow2_pos; lia.
Qed.

(** The unpenalised conviction over the pair (winning strength, gap). *)
Definition rounded_at (hi gap : Z) : res Z :=
  base ← int_to_float hi; separation ← int_to_float gap;
  round_sf (Prim2SF (W_BASE * base + W_SEP * separation)).

Definition rounded (hi gap : Z) : Z := match rounded_at hi gap with Ok z => z | Raise _ => -1 end.

(** Exhaustive check over every winning strength and gap: a value in range,
    positive for a positive strength, no less for a wider gap or a stronger
    winner. *)
Definition rounded_cell (hi gap : Z) : bool :=
  (hi <? gap) ||
  (let u := rounded hi gap in
   (0 <=? u) && (u <=? 100) && ((hi =? 0) || (0 <? u)) &&
   ((hi =? gap) || (u <=? rounded hi (gap + 1))) &&
   ((hi =? 100) || (u <=? rounded (hi + 1) gap))).

Lemma rounded_table : forallb (fun hi => forallb (rounded_cell hi) (zrange 0 101)) (zrange 0 101) = true.
Proof. vm_compute. reflexivity. Qed.

Lemma rounded_cell_ok hi gap :
  0 <= gap <= hi -> hi <= 100 ->
  0 <= rounded hi gap <= 100 /\ (0 < hi -> 0 < rounded hi gap) /\
  (gap < hi -> rounded hi gap <= rounded hi (gap + 1)) /\
  (hi < 100 -> rounded hi gap <= rounded (hi + 1) gap).
Proof.
  intros Hg Hh. pose proof (zrange_forallb 0 101 _ rounded_table hi ltac:(lia)) as H. cbn beta in H.
  pose proof (zrange_forallb 0 101 _ H gap ltac:(lia)) as Hc. unfold rounded_cell in Hc.
  rewrite (proj2 (Z.ltb_ge hi gap)) in Hc by lia. cbn [orb] in Hc.
  repeat (apply andb_true_iff in Hc as [Hc ?]). 
  repeat match goal with H : (_ || _)%bool = true |- _ => apply orb_true_iff in H end. bools.
  repeat match goal with H : _ = true \/ _ = true |- _ => rewrite ?Z.eqb_eq, ?Z.ltb_lt, ?Z.leb_le in H end. lia.
Qed.

Lemma conviction_of_rounded b r c :
  0 <= b <= 100 -> 0 <= r <= 100 ->
  conviction_of b r c =
    Ok (_clamp_int (rounded (Z.max b r) (Z.max b r - Z.min b r)
                    - (if String.eqb c "contested" then CONTESTED_PENALTY else 0)) 0 100).
Proof.
  intros Hb Hr.
  assert (forall z, 0 <= z <= 100 -> _clamp_int z 0 100 = z) as Hc.
  { intros z Hz. unfold _clamp_int. destruct (Z.ltb_spec z 0); [lia|]. destruct (Z.ltb_spec 100 z); lia. }
  destruct (rounded_cell_ok (Z.max b r) (Z.max b r - Z.min b r)) as (Hu & _); [lia|lia|].
  unfold rounded in *. unfold conviction_of, rounded_at in *.
  rewrite (Hc (Z.max b r)), (Hc (Z.max b r - Z.min b r)) by lia.
  destruct (int_to_float (Z.max b r)) as [x|]; [|cbn in Hu; lia].
  destruct (int_to_float (Z.max b r - Z.min b r)) as [y|]; [|cbn in Hu; lia]. cbn [mbind res_bind] in *.
  rewrite f_round_sf. by destruct (round_sf _); [|lia].
Qed.

(** A function that never falls from one integer to the next is monotone. *)
Lemma step_mono (f : Z -> Z) lo hi :
  (forall z, lo <= z < hi -> f z <= f (z + 1)) -> forall a b, lo <= a <= b -> b <= hi -> f a <= f b.
Proof.
  intros Hs a b Hab Hb. replace b with (a + Z.of_nat (Z.to_nat (b - a))) by lia.
  assert (Z.of_nat (Z.to_nat (b - a)) <= hi - a) as Hn by lia. revert Hn.
  induction (Z.to_nat (b - a)) as [|n IH]; intros Hn; [rewrite Z.add_0_r; lia|].
  specialize (Hs (a + Z.of_nat n) ltac:(lia)). replace (a + Z.of_nat (S n)) with (a + Z.of_nat n + 1) by lia. lia.
Qed.

Lemma rounded_mono_hi gap a b : 0 <= gap <= a -> a <= b <= 100 -> rounded a gap <= rounded b gap.
Proof.
  intros Hg Hab. apply (step_mono (fun hi => rounded hi gap) a 100); [|lia|lia].
  intros z Hz. apply rounded_cell_ok; lia.
Qed.

Lemma rounded_mono_gap hi a b : 0 <= a <= b -> b <= hi <= 100 -> rounded hi a <= rounded hi b.
Proof.
  intros Ha Hb. apply (step_mono (rounded hi) 0 hi); [|lia|lia].
  intros z Hz. apply rounded_cell_ok; lia.
Qed.

Lemma clamp_mono x y : x <= y -> _clamp_int x 0 100 <= _clamp_int y 0 100.
Proof.
  intros H. unfold _clamp_int.
  destruct (Z.ltb_spec x 0), (Z.ltb_spec 100 x), (Z.ltb_spec y 0), (Z.ltb_spec 100 y); lia.
Qed.

(** The consensus class is total and symmetric, depends on the effective
    strengths alone, and is exactly the documented region; an unavailable stance
    counts as strength 0, so it can never make the debate contested. *)
Theorem classify_consensus_regions bull bear :
  let b := _effective_strength bull in let r := _effective_strength bear in
  In (classify_consensus bull bear) DEBATE_CONSENSUS_VALUES /\
  classify_consensus bull bear = classify_consensus bear bull /\
  (classify_consensus bull bear = "contested"%string <-> 60 <= b /\ 60 <= r /\ Z.abs (b - r) <= 15) /\
  (classify_consensus bull bear = "strong_agree"%string <-> (60 <= b \/ 60 <= r) /\ 30 <= Z.abs (b - r)) /\
  (classify_consensus bull bear = "contested"%string ->
     exists s1 s2, bull = Some s1 /\ bear = Some s2 /\ available s1 = true /\ available s2 = true).
Proof.
  simpl. assert (forall s, 60 <= _effective_strength s -> exists s', s = Some s' /\ available s' = true) as Hav.
  { intros [s|] H; [|unfold _effective_strength, STRENGTH_MIN in H; lia].
    exists s. split; [done|]. unfold _effective_strength, STRENGTH_MIN in H. destruct (available s); [done|lia]. }
  generalize (Hav bull), (Hav bear). clear Hav. unfold classify_consensus, STRONG_FLOOR, STRONG_GAP, CONTESTED_GAP.
  rewrite (Z.max_comm (_effective_strength bear)), (Z.min_comm (_effective_strength bear)).
  intros Hb Hr. set (b := _effective_strength bull) in *. set (r := _effective_strength bear) in *.
  destruct (Z.leb_spec 60 (Z.min b r)), (Z.leb_spec (Z.max b r - Z.min b r) 15),
    (Z.leb_spec 30 (Z.max b r - Z.min b r)), (Z.leb_spec 60 (Z.max b r)); cbn [andb]; try lia;
    (split; [simpl; tauto|]); (split; [done|]);
    (split; [split; [try discriminate; lia|intros; try done; lia]|]);
    (split; [split; [try discriminate; lia|intros; try done; lia]|]);
    intros; try discriminate.
  all: destruct Hb as (s1 & ? & ?); [lia|]; destruct Hr as (s2 & ? & ?); [lia|]; by exists s1, s2.
Qed.

(** The conviction is total and in [[0, 100]] for every pair of stances and
    every consensus label, and the contested penalty bites: over the same
    strengths, not both zero, a contested verdict is strictly less convicted. *)
Theorem derive_conviction_attenuated bull bear c :
  exists z z', derive_conviction bull bear c = Ok z /\ 0 <= z <= 100 /\
    derive_conviction bull bear "contested" = Ok z' /\
    (c <> "contested"%string -> 0 < Z.max (_effective_strength bull) (_effective_strength bear) -> z' < z).
Proof.
  pose proof (effective_strength_range bull) as Hb. pose proof (effective_strength_range bear) as Hr.
  unfold derive_conviction. rewrite !conviction_of_rounded by done. do 2 eexists. split; [reflexivity|].
  destruct (rounded_cell_ok (Z.max (_effective_strength bull) (_effective_strength bear))
    (Z.max (_effective_strength bull) (_effective_strength bear) - Z.min (_effective_strength bull) (_effective_strength bear)))
    as (Hu & Hp & _); [lia|lia|].
  set (u := rounded _ _) in *.
  change (String.eqb "contested" "contested") with true. unfold _clamp_int, CONTESTED_PENALTY.
  split; [destruct (String.eqb c "contested");
    repeat match goal with |- context [if ?x <? ?y then _ else _] => destruct (Z.ltb_spec x y) end; lia|].
  split; [reflexivity|]. intros Hc%String.eqb_neq Hpos. rewrite Hc.
  repeat match goal with |- context [if ?x <? ?y then _ else _] => destruct (Z.ltb_spec x y) end; lia.
Qed.

(** Conviction is monotone in the evidence: strengthening the leading side
    never lowers it, strengthening the trailing side (short of overtaking) never
    raises it. *)
Theorem conviction_monotone b r b' r' c z z' :
  0 <= r <= r' -> r' <= b <= b' -> b' <= 100 ->
  conviction_of b r' c = Ok z -> conviction_of b' r c = Ok z' -> z <= z'.
Proof.
  intros Hr Hb Hb' H1 H2. rewrite conviction_of_rounded in H1, H2 by lia.
  injection H1 as <-. injection H2 as <-. apply clamp_mono.
  rewrite !Z.max_l, !Z.min_r by lia.
  pose proof (rounded_mono_hi (b - r') b b' ltac:(lia) ltac:(lia)).
  pose proof (rounded_mono_gap b' (b - r') (b' - r) ltac:(lia) ltac:(lia)). lia.
Qed.

(** A directional bias is always earned: it is never given on a contested
    debate or a tie, and it is the lean of an available stance whose effective
    strength is strictly the greater. *)
Theorem judge_directional_bias_earned bull bear c :
  let d := judge_directional_bias bull bear c in
  d <> "hold"%string ->
  c <> "contested"%string /\
  exists s, available s = true /\ lean s = d /\
    ((bull = Some s /\ _effective_strength bear < _effective_strength bull) \/
     (bear = Some s /\ _effective_strength bull < _effective_strength bear)).
Proof.
  simpl. unfold judge_directional_bias. destruct (String.eqb_spec c "contested") as [->|Hc]; [done|].
  pose proof (effective_strength_range bull). pose proof (effective_strength_range bear).
  assert (forall s d, (if String.eqb (lean_of s) "long" then "long" else if String.eqb (lean_of s) "short"
            then "short" else "hold")%string = d -> d <> "hold"%string -> 0 < _effective_strength s ->
            exists s', s = Some s' /\ available s' = true /\ lean s' = d) as Hp.
  { intros [s|] d Hd Hn Hs; [|unfold _effective_strength, STRENGTH_MIN in Hs; lia]. exists s. split; [done|].
    split; [unfold _effective_strength, STRENGTH_MIN in Hs; destruct (available s); [done|lia]|].
    unfold lean_of in Hd. destruct (String.eqb_spec (lean s) "long"); [congruence|].
    destruct (String.eqb_spec (lean s) "short"); congruence. }
  intros Hd. split; [done|]. destruct (Z.ltb_spec (_effective_strength bear) (_effective_strength bull)).
  - destruct (Hp _ _ eq_refl Hd ltac:(lia)) as (s & ? & ? & ?). exists s. tauto.
  - destruct (Z.ltb_spec (_effective_strength bull) (_effective_strength bear)); [|done].
    destruct (Hp _ _ eq_refl Hd ltac:(lia)) as (s & ? & ? & ?). exists s. tauto.
Qed.

(** Whatever the environment holds, the debate is bounded: 1 to 5 rounds,
    a turn bound that fits the configured rounds and never exceeds 11, at most 5
    judge tool calls, and a non-blank model for every role. *)
Theorem resolve_debate_config_bounded e dm :
  let c := resolve_debate_config e dm in
  1 <= rounds c <= 5 /\ 2 * rounds c + 1 <= max_turns c <= 11 /\ 0 <= judge_max_tool_calls c <= 5 /\
  nonempty (bull_model c) && nonempty (bear_model c) && nonempty (judge_model c) = true.
Proof.
  cbv zeta. unfold resolve_debate_config, _resolve_int_in_range. set (m := match dm with Some _ => _ | None => _ end).
  cbn [rounds max_turns judge_max_tool_calls bull_model bear_model judge_model].
  assert (forall n t, env_text e n = Some t -> nonempty t = true) as Ht.
  { intros n t. unfold env_text. destruct (e n); [|discriminate].
    destruct (nonempty (strip _)) eqn:E; [|discriminate]. by intros [= <-]. }
  assert (nonempty (default GEMINI_DEFAULT_MODEL (_env_str e "LLM_MODEL")) = true) as Hsys.
  { unfold _env_str. destruct (env_text e "LLM_MODEL") eqn:E; [by eapply Ht|done]. }
  assert (nonempty m = true) as Hm.
  { subst m. destruct dm as [d|]; [|done]. by destruct (nonempty (strip d)) eqn:E. }
  assert (forall n, nonempty (_resolve_role_model e n m) = true) as Hrole.
  { intros n. unfold _resolve_role_model, _env_str. destruct (env_text e n) eqn:E; [by eapply Ht|done]. }
  rewrite !Hrole.
  pose proof (resolve_int_range_bounds e "DEBATE_ROUNDS" DEFAULT_ROUNDS 1 MAX_ROUNDS) as Hr.
  unfold DEFAULT_ROUNDS, MAX_ROUNDS in *. specialize (Hr ltac:(lia)).
  set (rs := resolve_int_range e "DEBATE_ROUNDS" _ _ _) in *.
  pose proof (resolve_int_range_bounds e "DEBATE_MAX_TURNS" (_derived_max_turns rs) (_derived_max_turns rs) MAX_TURNS_CAP) as Hmt.
  unfold _derived_max_turns, MAX_TURNS_CAP, MAX_ROUNDS, TURNS_PER_ROUND, JUDGE_TURNS in *. specialize (Hmt ltac:(lia)).
  pose proof (resolve_int_range_bounds e "DEBATE_JUDGE_MAX_TOOL_CALLS" JUDGE_MAX_TOOL_CALLS_DEFAULT 0
    JUDGE_MAX_TOOL_CALLS_CAP) as Hj.
  unfold JUDGE_MAX_TOOL_CALLS_DEFAULT, JUDGE_MAX_TOOL_CALLS_CAP in *. specialize (Hj ltac:(lia)).
  repeat split; try lia.
Qed.

(** Edge values of the strength parse: NaN passes both comparisons of the clamp
    and counts as full strength, and an integer past the float range raises. *)
Lemma coerce_strength_edge_values :
  _coerce_strength (VFloat nan) = Ok 100 /\ _coerce_strength (VStr "nan") = Ok 100 /\
  _coerce_strength (VInt (10 ^ 400)) = Raise OverflowError.
Proof. vm_compute. repeat split. Qed.

(** ** Witnesses *)

Definition demo_raw : val :=
  VStr ("{" ++ q "lean" ++ ": " ++ q " LONG " ++ ", " ++ q "strength" ++ ": 80.5, " ++
        q "arguments" ++ ": [" ++ q "trend up" ++ ", null]}").

Definition demo_bull : DebateStance :=
  {| role := "bull"; lean := "long"; strength := 80; arguments := ["trend up"%string];
     biggest_risk := ""; available := true |}.
Definition demo_bear : DebateStance :=
  {| role := "bear"; lean := "short"; strength := 40; arguments := [];
     biggest_risk := "squeeze"; available := true |}.

Lemma parse_stance_normalised_witness :
  parse_stance (VStr " Bull") demo_raw = Ok demo_bull /\ stance_ok demo_bull = true.
Proof.
  assert (parse_stance (VStr " Bull") demo_raw = Ok demo_bull) as H by (vm_compute; reflexivity).
  split; [exact H|]. apply (parse_stance_normalised _ _ _ H).
Defined.

Lemma stance_dict_roundtrip_witness :
  parse_stance (VStr "bear") (stance_to_dict demo_bear) = Ok demo_bear.
Proof. apply (stance_dict_roundtrip demo_bear). vm_compute. reflexivity. Defined.

Lemma conviction_monotone_witness : 55 <= 68.
Proof.
  apply (conviction_monotone 70 40 80 50 "lean" 55 68 ltac:(lia) ltac:(lia) ltac:(lia)); vm_compute; reflexivity.
Defined.

Lemma judge_directional_bias_earned_witness :
  exists s, available s = true /\ lean s = "long"%string.
Proof.
  destruct (judge_directional_bias_earned (Some demo_bull) (Some demo_bear) "lean") as (_ & s & H1 & H2 & _);
    [vm_compute; discriminate|]. exact (ex_intro _ s (conj H1 H2)).
Defined.
