(* ===== verification/Opportunity.v ===== *)
(** * The adaptive opportunity engine: the pure core

    Models [agents/deep-quant-loop/opportunity.py]: configuration, the tier
    ladder, the watch cap and session budget, the invalidation post-mortem, the
    cheap-resume plans, heartbeat accounting, context pruning, the interim read
    and the tier tag.

    Evidence, session state and configuration arrive as untyped Python values
    ([isinstance] and [getattr] guards included), so they are [val]s here. *)

From stdpp Require Import base list strings.
From Stdlib Require Import ZArith Lia Floats.
From S2P Require Import Prelude PyFloat PyNum PyVal PyEnv.

#[local] Set Warnings "-inexact-float".
Open Scope Z_scope.
Open Scope res_scope.

(** ** Configuration *)

Definition DEFAULT_WATCH_CAP := 3.
Definition DEFAULT_SESSION_MAX_TURNS := 40.
Definition DEFAULT_SESSION_MAX_WALL_SECS : float := 3600%float.
Definition DEFAULT_SIZE_FACTOR_A_PLUS : float := 1%float.
Definition DEFAULT_SIZE_FACTOR_B_CONTINUATION : float := 0.6%float.
Definition DEFAULT_SIZE_FACTOR_SCALP : float := 0.3%float.
Definition DEFAULT_LOWER_TIERS_ENABLED := true.
Definition DEFAULT_HEARTBEAT_ENABLED := false.
Definition DEFAULT_HEARTBEAT_CADENCE_SECS : float := 300%float.
Definition DEFAULT_HEARTBEAT_MAX := 6.
Definition DEFAULT_PRUNE_KEEP_RECENT_TURNS := 8.
Definition DEFAULT_PRUNE_MAX_MESSAGES := 40.
Definition _PRUNE_MIN := 1.

Record OpportunityConfig := {
  watch_cap : Z;
  session_max_turns : Z;
  session_max_wall_secs : float;
  size_factor_a_plus : float;
  size_factor_b_continuation : float;
  size_factor_scalp : float;
  lower_tiers_enabled : bool;
  heartbeat_enabled : bool;
  heartbeat_cadence_secs : float;
  heartbeat_max : Z;
  prune_keep_recent_turns : Z;
  prune_max_messages : Z;
}.

Definition _resolve_int (e : env) (name : string) (default low : Z) : Z := resolve_int_min e name default low.
Definition _resolve_float (e : env) (name : string) (default low high : float) : float :=
  resolve_float_band e name default low high.
Definition _resolve_bool (e : env) (name : string) (default : bool) : bool := resolve_bool_flag e name default.

(** A value on the excluded lower bound 0 reverts to the default. *)
Definition above_zero (x default : float) : float := if PrimFloat.leb x 0 then default else x.

Definition resolve_opportunity_config (e : env) : OpportunityConfig := {|
  watch_cap := _resolve_int e "OPPORTUNITY_WATCH_CAP" DEFAULT_WATCH_CAP 1;
  session_max_turns := _resolve_int e "OPPORTUNITY_SESSION_MAX_TURNS" DEFAULT_SESSION_MAX_TURNS 1;
  session_max_wall_secs :=
    above_zero
      (_resolve_float e "OPPORTUNITY_SESSION_MAX_WALL_SECS" DEFAULT_SESSION_MAX_WALL_SECS 0 infinity)
      DEFAULT_SESSION_MAX_WALL_SECS;
  size_factor_a_plus :=
    above_zero (_resolve_float e "OPPORTUNITY_SIZE_FACTOR_A_PLUS" DEFAULT_SIZE_FACTOR_A_PLUS 0 1)
      DEFAULT_SIZE_FACTOR_A_PLUS;
  size_factor_b_continuation :=
    above_zero
      (_resolve_float e "OPPORTUNITY_SIZE_FACTOR_B_CONTINUATION" DEFAULT_SIZE_FACTOR_B_CONTINUATION 0 1)
      DEFAULT_SIZE_FACTOR_B_CONTINUATION;
  size_factor_scalp :=
    above_zero (_resolve_float e "OPPORTUNITY_SIZE_FACTOR_SCALP" DEFAULT_SIZE_FACTOR_SCALP 0 1)
      DEFAULT_SIZE_FACTOR_SCALP;
  lower_tiers_enabled := _resolve_bool e "OPPORTUNITY_LOWER_TIERS_ENABLED" DEFAULT_LOWER_TIERS_ENABLED;
  heartbeat_enabled := _resolve_bool e "OPPORTUNITY_HEARTBEAT_ENABLED" DEFAULT_HEARTBEAT_ENABLED;
  heartbeat_cadence_secs :=
    above_zero
      (_resolve_float e "OPPORTUNITY_HEARTBEAT_CADENCE_SECS" DEFAULT_HEARTBEAT_CADENCE_SECS 0 infinity)
      DEFAULT_HEARTBEAT_CADENCE_SECS;
  heartbeat_max := _resolve_int e "OPPORTUNITY_HEARTBEAT_MAX" DEFAULT_HEARTBEAT_MAX 0;
  prune_keep_recent_turns :=
    _resolve_int e "OPPORTUNITY_PRUNE_KEEP_RECENT_TURNS" DEFAULT_PRUNE_KEEP_RECENT_TURNS _PRUNE_MIN;
  prune_max_messages :=
    _resolve_int e "OPPORTUNITY_PRUNE_MAX_MESSAGES" DEFAULT_PRUNE_MAX_MESSAGES _PRUNE_MIN;
|}.

(** The frozen dataclass instance the functions below receive. *)
Definition config_obj (c : OpportunityConfig) : val :=
  VObj [
    ("watch_cap"%string, VInt (watch_cap c));
    ("session_max_turns"%string, VInt (session_max_turns c));
    ("session_max_wall_secs"%string, VFloat (session_max_wall_secs c));
    ("size_factor_a_plus"%string, VFloat (size_factor_a_plus c));
    ("size_factor_b_continuation"%string, VFloat (size_factor_b_continuation c));
    ("size_factor_scalp"%string, VFloat (size_factor_scalp c));
    ("lower_tiers_enabled"%string, VBool (lower_tiers_enabled c));
    ("heartbeat_enabled"%string, VBool (heartbeat_enabled c));
    ("heartbeat_cadence_secs"%string, VFloat (heartbeat_cadence_secs c));
    ("heartbeat_max"%string, VInt (heartbeat_max c));
    ("prune_keep_recent_turns"%string, VInt (prune_keep_recent_turns c));
    ("prune_max_messages"%string, VInt (prune_max_messages c))
  ] "OpportunityConfig".

(** [getattr(obj, name, d)] *)
Definition getattr (obj : val) (name : string) (d : val) : val :=
  match obj with VObj l _ => default d (assoc_str name l) | _ => d end.

(** [x if isinstance(x, dict) else {}] *)
Definition dict_or_empty (v : val) : list (val * val) := match v with VDict l => l | _ => [] end.

(** ** The tier ladder *)

Definition OPPORTUNITY_TIERS : list string := ["a_plus"; "b_continuation"; "scalp"; "stand_aside"]%string.
Definition A_PLUS_MIN_PATTERN_CONF : float := 0.75%float.
Definition B_CONTINUATION_MIN_PATTERN_CONF : float := 0.55%float.
Definition SCALP_MIN_PATTERN_CONF : float := 0.40%float.
Definition A_PLUS_MIN_ALIGNED := 3.
Definition B_CONTINUATION_MIN_ALIGNED := 2.
Definition SCALP_MIN_ALIGNED := 1.
Definition _POSITIVE_STATES : list string := ["favorable"; "aligned"]%string.
Definition _NEGATIVE_STATES : list string := ["unfavorable"; "misaligned"]%string.

Record TierEvaluation := {
  te_tier : string;
  te_size_factor : float;
  te_rationale : string;
  te_gated_by : option string;
}.

(** [_is_finite_number]: [math.isfinite] of an integer past the float range
    raises. *)
Definition _is_finite_number (v : val) : res bool :=
  match v with
  | VInt _ | VFloat _ => py_isfinite v
  | _ => Ok false
  end.

(** [max(0.0, min(1.0, x))] *)
Definition clamp_unit (x : float) : float :=
  let m := if PrimFloat.ltb x 1 then x else 1%float in
  if PrimFloat.ltb 0 m then m else 0%float.

Definition _pattern_confidence (ev : list (val * val)) : res float :=
  let v := dict_get ev "pattern_confidence" in
  ok ← _is_finite_number v;
  if ok : bool then x ← py_float v; Ok (clamp_unit x) else Ok 0%float.

Definition _has_defensible_triple (ev : list (val * val)) : res bool :=
  match dict_get ev "has_defensible_triple" with
  | VBool b => Ok b
  | _ =>
      let entry := dict_get ev "entry" in
      let stop := dict_get ev "stop" in
      let target := dict_get ev "target" in
      usable ← (_is_finite_number entry and? _is_finite_number stop and? _is_finite_number target);
      if usable : bool then
        gain ← py_sub target entry;
        risk ← py_sub entry stop;
        prod ← py_mul gain risk;
        py_gt prod (VFloat 0)
      else Ok false
  end.

Fixpoint first_str_field (sub : list (val * val)) (keys : list string) : option string :=
  match keys with
  | [] => None
  | k :: keys' =>
      match dict_get sub k with
      | VStr s => Some (lower (strip s))
      | _ => first_str_field sub keys'
      end
  end.

Definition _signal_state (sub : val) (keys : list string) : Z :=
  match sub with
  | VDict l =>
      match dict_get l "available" with
      | VBool false => 0
      | _ =>
          match first_str_field l keys with
          | Some raw =>
              if str_in raw _POSITIVE_STATES then 1
              else if str_in raw _NEGATIVE_STATES then -1
              else 0
          | None => 0
          end
      end
  | _ => 0
  end.

Definition _signal_states (ev : list (val * val)) : list (string * Z) :=
  [("regime"%string, _signal_state (dict_get ev "regime") ["favorability"%string]);
   ("session"%string, _signal_state (dict_get ev "session") ["time_favorability"; "favorability"]%string);
   ("relative_strength"%string, _signal_state (dict_get ev "relative_strength") ["alignment"%string]);
   ("forecast"%string, _signal_state (dict_get ev "forecast") ["forecast_alignment"; "alignment"]%string);
   ("macro"%string, _signal_state (dict_get ev "macro") ["alignment"%string]);
   ("options"%string, _signal_state (dict_get ev "options") ["alignment"%string])].

Definition _cfg_factor (cfg : val) (name : string) : res float :=
  let v := getattr cfg name (VFloat 0) in
  ok ← _is_finite_number v;
  if ok : bool then py_float v else Ok 0%float.

(** [min(a, b)] *)
Definition fmin (a b : float) : float := if PrimFloat.ltb b a then b else a.

Definition size_factor (tier : string) (cfg : val) : res float :=
  a_plus ← _cfg_factor cfg "size_factor_a_plus";
  b_cont ← _cfg_factor cfg "size_factor_b_continuation";
  scalp ← _cfg_factor cfg "size_factor_scalp";
  let b_cont := fmin b_cont a_plus in
  let scalp := fmin scalp b_cont in
  Ok (if String.eqb tier "a_plus" then a_plus
      else if String.eqb tier "b_continuation" then b_cont
      else if String.eqb tier "scalp" then scalp
      else 0%float).

Definition count_states (f : Z -> bool) (states : list (string * Z)) : Z :=
  Z.of_nat (length (List.filter (fun kv => f kv.2) states)).

Definition state_of (k : string) (states : list (string * Z)) : Z := default 0 (assoc_str k states).

Definition stand_aside (rationale gated_by : string) : TierEvaluation :=
  {| te_tier := "stand_aside"; te_size_factor := 0; te_rationale := rationale; te_gated_by := Some gated_by |}.

Definition select_tier (tier : string) (cfg : val) (rationale : string) : res TierEvaluation :=
  f ← size_factor tier cfg;
  Ok {| te_tier := tier; te_size_factor := f; te_rationale := rationale; te_gated_by := None |}.

Definition evaluate_tier (evidence cfg : val) : res TierEvaluation :=
  let ev := dict_or_empty evidence in
  triple ← _has_defensible_triple ev;
  conf ← _pattern_confidence ev;
  let states := _signal_states ev in
  let aligned := count_states (fun s => 0 <? s) states in
  let misaligned := count_states (fun s => s <? 0) states in
  let regime_unfavorable := state_of "regime" states <? 0 in
  let session_unfavorable := state_of "session" states <? 0 in
  let lower_enabled := truthy (getattr cfg "lower_tiers_enabled" (VBool false)) in
  if triple && PrimFloat.leb A_PLUS_MIN_PATTERN_CONF conf && (A_PLUS_MIN_ALIGNED <=? aligned) && (misaligned =? 0) then
    select_tier "a_plus" cfg
      ("A+ setup: defensible entry/stop/target triple, structural pattern confidence " ++ fmt_2f conf ++ " >= "
        ++ fmt_2f A_PLUS_MIN_PATTERN_CONF ++ ", " ++ Z_str aligned
        ++ " aligned confluence signals with no misalignment.")
  else
    let b_bar := triple && PrimFloat.leb B_CONTINUATION_MIN_PATTERN_CONF conf && (B_CONTINUATION_MIN_ALIGNED <=? aligned) in
    let scalp_bar := triple && PrimFloat.leb SCALP_MIN_PATTERN_CONF conf && (SCALP_MIN_ALIGNED <=? aligned) in
    if b_bar || scalp_bar then
      if negb lower_enabled then
        Ok (stand_aside "Stand aside: a lower-tier setup is present but tiers below A+ are disabled by configuration (A+-only policy)." "config")
      else if regime_unfavorable then
        Ok (stand_aside "Stand aside: a lower-tier setup is present but the market regime is unfavorable, so no b_continuation or scalp trade is taken." "regime")
      else if session_unfavorable then
        Ok (stand_aside "Stand aside: a lower-tier setup is present but the session time-favorability is unfavorable, so no b_continuation or scalp trade is taken." "session")
      else if b_bar then
        select_tier "b_continuation" cfg
          ("B/continuation setup: defensible triple, structural pattern confidence " ++ fmt_2f conf ++ " >= "
            ++ fmt_2f B_CONTINUATION_MIN_PATTERN_CONF ++ ", " ++ Z_str aligned
            ++ " aligned confluence signals, regime and session not unfavorable.")
      else
        select_tier "scalp" cfg
          ("Scalp/micro setup: defensible triple, structural pattern confidence " ++ fmt_2f conf ++ " >= "
            ++ fmt_2f SCALP_MIN_PATTERN_CONF ++ ", " ++ Z_str aligned
            ++ " aligned confluence signal(s), regime and session not unfavorable.")
    else
      let reason :=
        (if negb triple then "no defensible entry/stop/target triple is present"
         else if PrimFloat.ltb conf SCALP_MIN_PATTERN_CONF then
           "structural pattern confidence " ++ fmt_2f conf ++ " is below the " ++ fmt_2f SCALP_MIN_PATTERN_CONF
             ++ " floor for even a scalp"
         else "only " ++ Z_str aligned
             ++ " aligned confluence signal(s) — below the minimum evidence bar for any tradeable tier")%string in
      Ok (stand_aside ("Stand aside: " ++ reason ++ ".") "evidence-bar").

(** ** The bounded hunt *)

Definition _coerce_count (v : val) : res Z :=
  ok ← _is_finite_number v;
  if ok : bool then count ← py_int v; Ok (if 0 <? count then count else 0) else Ok 0.

Definition _cfg_int (cfg : val) (name : string) (default : Z) : res Z :=
  let v := getattr cfg name (VInt default) in
  ok ← _is_finite_number v;
  if ok : bool then py_int v else Ok default.

Definition _cfg_float (cfg : val) (name : string) (default : float) : res float :=
  let v := getattr cfg name (VFloat default) in
  ok ← _is_finite_number v;
  if ok : bool then py_float v else Ok default.

Definition watch_cap_reached (state cfg : val) : res bool :=
  watch_cycles ← _coerce_count (dict_get (dict_or_empty state) "watch_cycles");
  cap ← _cfg_int cfg "watch_cap" DEFAULT_WATCH_CAP;
  Ok (cap <=? watch_cycles).

Definition session_budget_exhausted (state cfg now : val) : res bool :=
  let st := dict_or_empty state in
  session_turns ← _coerce_count (dict_get st "session_turns");
  max_turns ← _cfg_int cfg "session_max_turns" DEFAULT_SESSION_MAX_TURNS;
  if max_turns <=? session_turns then Ok true
  else
    let started_at := dict_get st "session_started_at" in
    unusable ← (not? (_is_finite_number started_at) or? not? (_is_finite_number now));
    if unusable : bool then Ok false
    else
      max_wall ← _cfg_float cfg "session_max_wall_secs" DEFAULT_SESSION_MAX_WALL_SECS;
      n ← py_float now;
      s ← py_float started_at;
      Ok (PrimFloat.leb max_wall (n - s)).

Definition termination_reason (state cfg now : val) : res (option string) :=
  cap ← watch_cap_reached state cfg;
  if cap : bool then Ok (Some "watch-cap-reached"%string)
  else
    budget ← session_budget_exhausted state cfg now;
    Ok (if budget : bool then Some "session-budget-exhausted"%string else None).

(** ** The invalidation post-mortem *)

Definition REARM_LEVEL_ATR_TOLERANCE_MULT : float := 0.5%float.
Definition VOL_FLOOR_ATR_MULT : float := 1.0%float.
Definition _THESIS_LEVEL_QUANTIZE_DECIMALS : nat := 4.
Definition _DIRECTION_ABOVE : list string := ["above"; "up"; "long"; "buy"]%string.
Definition _DIRECTION_BELOW : list string := ["below"; "down"; "short"; "sell"]%string.

Definition _normalize_direction (v : val) : option string :=
  match v with
  | VStr s =>
      let token := lower (strip s) in
      if str_in token _DIRECTION_ABOVE then Some "above"%string
      else if str_in token _DIRECTION_BELOW then Some "below"%string
      else None
  | _ => None
  end.

Definition _quantize_level (v : val) : res (option float) :=
  ok ← _is_finite_number v;
  if ok : bool then x ← py_float v; Ok (Some (f_round_nd x _THESIS_LEVEL_QUANTIZE_DECIMALS))
  else Ok None.

Record Fingerprint := {
  fp_symbol : option string;
  fp_timeframe : option string;
  fp_direction : option string;
  fp_level : option float;
}.

(** A stripped, case-mapped text field; blank text is absent. *)
Definition text_field (norm : string -> string) (v : val) : option string :=
  match v with
  | VStr s => if nonempty (strip s) then Some (norm (strip s)) else None
  | _ => None
  end.

Definition thesis_fingerprint (watch_args : val) : res Fingerprint :=
  let args := dict_or_empty watch_args in
  let level_raw :=
    if is_none (dict_get args "price_level") then dict_get args "level" else dict_get args "price_level" in
  level ← _quantize_level level_raw;
  Ok {| fp_symbol := text_field upper (dict_get args "symbol");
        fp_timeframe := text_field lower (dict_get args "timeframe");
        fp_direction := _normalize_direction (dict_get args "direction");
        fp_level := level |}.

(** A finite ATR above zero, as a float. *)
Definition usable_atr (atr : val) : res (option float) :=
  ok ← _is_finite_number atr;
  if ok : bool then a ← py_float atr; Ok (if PrimFloat.leb a 0 then None else Some a) else Ok None.

Definition is_rearm_unchanged (prior proposed atr : val) : res bool :=
  p ← thesis_fingerprint prior;
  n ← thesis_fingerprint proposed;
  match fp_symbol p, fp_timeframe p, fp_direction p, fp_level p,
        fp_symbol n, fp_timeframe n, fp_direction n, fp_level n with
  | Some s1, Some t1, Some d1, Some l1, Some s2, Some t2, Some d2, Some l2 =>
      if negb (String.eqb s1 s2) then Ok false
      else if negb (String.eqb t1 t2) then Ok false
      else if negb (String.eqb d1 d2) then Ok false
      else
        a ← usable_atr atr;
        Ok (match a with
            | None => false
            | Some a => PrimFloat.leb (PrimFloat.abs (l1 - l2)) (REARM_LEVEL_ATR_TOLERANCE_MULT * a)
            end)
  | _, _, _, _, _, _, _, _ => Ok false
  end.

Definition volatility_floored_invalidation (direction ref_price proposed_inv atr : val) : res (option float) :=
  match _normalize_direction direction with
  | None => Ok None
  | Some side =>
      ref_ok ← _is_finite_number ref_price;
      if negb ref_ok then Ok None
      else
        a ← usable_atr atr;
        match a with
        | None => Ok None
        | Some a =>
            ref ← py_float ref_price;
            let floor := (VOL_FLOOR_ATR_MULT * a)%float in
            inv_ok ← _is_finite_number proposed_inv;
            if String.eqb side "above" then
              let floored := (ref - floor)%float in
              if inv_ok : bool then
                p ← py_float proposed_inv;
                Ok (Some (if PrimFloat.leb p floored then p else floored))
              else Ok (Some floored)
            else
              let floored := (ref + floor)%float in
              if inv_ok : bool then
                p ← py_float proposed_inv;
                Ok (Some (if PrimFloat.leb floored p then p else floored))
              else Ok (Some floored)
        end
  end.

(** ** Cheap resume *)

Definition FULL_ORDER_OF_OPERATIONS_TOOLS : list string :=
  ["get_multi_tf_trend"; "get_consensus_report"; "get_market_regime"; "get_relative_strength";
   "get_session_context"; "get_options_analytics"; "get_event_risk"; "get_support_resistance";
   "get_volume_profile"; "get_chart_patterns"; "get_candles"; "get_forecast"; "get_prediction";
   "get_news_context"; "get_trade_performance"]%string.

Definition RESUME_KINDS : list string := ["target"; "invalidation"; "heartbeat"]%string.
Definition _TARGET_TOKENS : list string :=
  ["target"; "targets"; "target_reached"; "target-reached"; "hit"; "reached"]%string.
Definition _INVALIDATION_TOKENS : list string :=
  ["invalidation"; "invalidated"; "invalid"; "stop"; "stopped"; "stop_out"; "stop-out"]%string.
Definition _HEARTBEAT_TOKENS : list string :=
  ["heartbeat"; "heart_beat"; "heart-beat"; "hb"; "tick"; "pulse"]%string.

Definition classify_resume (trigger_kind : val) : string :=
  match trigger_kind with
  | VStr s =>
      let token := lower (strip s) in
      if negb (nonempty token) then "target"
      else if str_in token _TARGET_TOKENS then "target"
      else if str_in token _INVALIDATION_TOKENS then "invalidation"
      else if str_in token _HEARTBEAT_TOKENS then "heartbeat"
      else "target"
  | _ => "target"
  end.

Definition _DELTA_RECHECK_PLANS (kind : string) : list string :=
  (if String.eqb kind "invalidation" || String.eqb kind "heartbeat" then
     ["get_candles"; "get_consensus_report"; "get_market_regime"; "get_support_resistance"]
   else
     ["get_candles"; "get_consensus_report"; "get_event_risk"; "get_support_resistance";
      "get_chart_patterns"; "get_forecast"])%string.

(** [plan.insert(plan.index(x), y)] *)
Fixpoint insert_before (x y : string) (l : list string) : list string :=
  match l with
  | [] => []
  | z :: l' => if String.eqb z x then y :: l else z :: insert_before x y l'
  end.

Definition delta_recheck_plan (trigger_kind symbol_class : val) : list string :=
  let kind := classify_resume trigger_kind in
  let plan := _DELTA_RECHECK_PLANS kind in
  let is_index := match symbol_class with VStr s => String.eqb (lower (strip s)) "index" | _ => false end in
  if str_in kind ["target"; "heartbeat"]%string && is_index && negb (str_in "get_options_analytics" plan) then
    if str_in "get_event_risk" plan then insert_before "get_event_risk" "get_options_analytics" plan
    else plan ++ ["get_options_analytics"%string]
  else plan.

(** ** Heartbeat accounting *)

Record HeartbeatAccounting := { hb_accepted : bool; hb_count : Z; hb_session_turns : Z }.

Definition account_heartbeat (state cfg : val) : res HeartbeatAccounting :=
  let st := dict_or_empty state in
  prior_hb ← _coerce_count (dict_get st "heartbeat_count");
  prior_turns ← _coerce_count (dict_get st "session_turns");
  hb_max0 ← _cfg_int cfg "heartbeat_max" DEFAULT_HEARTBEAT_MAX;
  let hb_max := if hb_max0 <? 0 then 0 else hb_max0 in
  Ok (if hb_max <=? prior_hb
      then {| hb_accepted := false; hb_count := Z.min prior_hb hb_max; hb_session_turns := prior_turns |}
      else {| hb_accepted := true; hb_count := prior_hb + 1; hb_session_turns := prior_turns + 1 |}).

(** ** Context pruning *)

Definition _msg_type (m : val) : option string :=
  match vattr m "type" with VStr s => Some s | _ => None end.

Definition type_is (t : string) (m : val) : bool :=
  match _msg_type m with Some s => String.eqb s t | None => false end.

Definition _ai_has_tool_calls (m : val) : bool :=
  if truthy (vattr m "tool_calls") then true
  else match vattr m "additional_kwargs" with
       | VDict raw => truthy (dict_get raw "tool_calls")
       | _ => false
       end.

Definition _msg_tool_name (m : val) : option string :=
  match vattr m "name" with VStr s => if nonempty (strip s) then Some s else None | _ => None end.

(** Whether a tool message attaches to the group headed by [h]. *)
Definition attaches (h m : val) : bool := type_is "tool" m && type_is "ai" h && _ai_has_tool_calls h.

(** Turn-groups, one pass: [cur] is the group being built. *)
Fixpoint group_from (cur : list val) (msgs : list val) : list (list val) :=
  match msgs with
  | [] => match cur with [] => [] | _ => [cur] end
  | m :: msgs' =>
      match cur with
      | [] => group_from [m] msgs'
      | h :: _ => if attaches h m then group_from (cur ++ [m]) msgs' else cur :: group_from [m] msgs'
      end
  end.

Definition _group_messages (msgs : list val) : list (list val) := group_from [] msgs.

Definition group_type_is (t : string) (g : list val) : bool :=
  match g with h :: _ => type_is t h | [] => false end.

(** Index of the last group that answers each tool name, in dictionary order. *)
Fixpoint tool_index_set (d : list (string * nat)) (name : string) (gi : nat) : list (string * nat) :=
  match d with
  | [] => [(name, gi)]
  | (k, v) :: d' => if String.eqb k name then (k, gi) :: d' else (k, v) :: tool_index_set d' name gi
  end.

Definition latest_tool_group (groups : list (list val)) : list (string * nat) :=
  fold_left (fun d '(gi, g) =>
      fold_left (fun d m =>
          if type_is "tool" m then
            match _msg_tool_name m with Some name => tool_index_set d name gi | None => d end
          else d) g d)
    (zip (seq 0 (length groups)) groups) [].

Definition group_at (groups : list (list val)) (gi : nat) : list val := nth gi groups [].

Definition _flat_len (groups : list (list val)) (gis : list nat) : Z :=
  Z.of_nat (length (flat_map (group_at groups) gis)).

(** The [while] loops: drop the oldest group that is not protected until the
    selection fits. [kept] holds the protected groups already passed. *)
Fixpoint drop_oldest (groups : list (list val)) (limit : Z) (is_kept : nat -> bool)
    (kept rest : list nat) : list nat :=
  match rest with
  | [] => kept
  | gi :: rest' =>
      if limit <? _flat_len groups (kept ++ rest) then
        if is_kept gi then drop_oldest groups limit is_kept (kept ++ [gi]) rest'
        else drop_oldest groups limit is_kept kept rest'
      else kept ++ rest
  end.

Definition prune_limits (cfg : val) : res (Z * nat) :=
  m ← _cfg_int cfg "prune_max_messages" DEFAULT_PRUNE_MAX_MESSAGES;
  k ← _cfg_int cfg "prune_keep_recent_turns" DEFAULT_PRUNE_KEEP_RECENT_TURNS;
  Ok (if m <? _PRUNE_MIN then DEFAULT_PRUNE_MAX_MESSAGES else m,
      Z.to_nat (if k <? _PRUNE_MIN then DEFAULT_PRUNE_KEEP_RECENT_TURNS else k)).

(** The selection before the hard-cap backstop: indices of the kept groups. *)
Definition prune_select (groups : list (list val)) (limit : Z) (keep_recent : nat) : list nat :=
  let n := length groups in
  let recent_start := (n - keep_recent)%nat in
  let is_system gi := group_type_is "system" (group_at groups gi) in
  let latest := map snd (latest_tool_group groups) in
  let keep gi := is_system gi || existsb (Nat.eqb gi) latest || (recent_start <=? gi)%nat in
  let selected := List.filter keep (seq 0 n) in
  if _flat_len groups selected <=? limit then selected
  else
    let mandatory gi := is_system gi || (recent_start <=? gi)%nat in
    let selected := drop_oldest groups limit mandatory [] selected in
    drop_oldest groups limit is_system [] selected.

Definition prune_list (msgs : list val) (limit : Z) (keep_recent : nat) : list val :=
  if Z.of_nat (length msgs) <=? limit then msgs
  else
    let groups := _group_messages msgs in
    let result := flat_map (group_at groups) (prune_select groups limit keep_recent) in
    if limit <? Z.of_nat (length result)
    then drop (length result - Z.to_nat limit) result
    else result.

Definition prune_messages (messages cfg : val) : res (list val) :=
  let msgs := match messages with VList l | VTuple l => l | _ => [] end in
  '(limit, keep_recent) ← prune_limits cfg;
  Ok (prune_list msgs limit keep_recent).

(** ** Interim read and tier tag *)

Definition bias_of (score : Z) : string :=
  if 0 <? score then "bullish" else if score <? 0 then "bearish" else "neutral".

Definition triple_direction (entry target : val) : res Z :=
  both ← (_is_finite_number entry and? _is_finite_number target);
  if both : bool then
    t ← py_float target; e ← py_float entry;
    Ok (if PrimFloat.ltb e t then 1 else if PrimFloat.ltb t e then -1 else 0)
  else Ok 0.

Fixpoint finite_levels (kvs : list (val * val)) : res (list (val * val)) :=
  match kvs with
  | [] => Ok []
  | (k, v) :: kvs' =>
      ok ← _is_finite_number v;
      if ok : bool then f ← py_float v; rest ← finite_levels kvs'; Ok ((k, VFloat f) :: rest)
      else finite_levels kvs'
  end.

Definition read_levels (ev : list (val * val)) : res (list (val * val)) :=
  levels ← (match dict_get ev "reference_levels" with VDict r => finite_levels r | _ => Ok [] end);
  match levels with
  | [] =>
      if truthy (default (VBool true) (dict_find "levels_structural" ev)) then
        finite_levels (map (fun k => (VStr k, dict_get ev k)) ["entry"; "stop"; "target"]%string)
      else Ok []
  | _ => Ok levels
  end.

Definition standing_aside_text (tier_eval : val) : string :=
  let why :=
    match vattr tier_eval "rationale" with
    | VStr r => strip r
    | _ => EmptyString
    end in
  if nonempty why then why
  else match vattr tier_eval "tier" with
       | VStr t => if nonempty (strip t) then "Current best available tier: " ++ strip t ++ "."
                   else "No committed trade; interim read derived from current evidence only."
       | _ => "No committed trade; interim read derived from current evidence only."
       end.

Definition best_current_read (evidence tier_eval : val) : res val :=
  let ev := dict_or_empty evidence in
  let net := fold_left (fun acc kv => acc + kv.2) (_signal_states ev) 0 in
  dir ← triple_direction (dict_get ev "entry") (dict_get ev "target");
  levels ← read_levels ev;
  Ok (VDict [(VStr "bias", VStr (bias_of (net + dir))); (VStr "levels", VDict levels);
             (VStr "why_standing_aside", VStr (standing_aside_text tier_eval))]).

Definition TIER_TAG_VALUES : list string :=
  ["a_plus"; "b_continuation"; "scalp"; "stand_aside"; "unknown"]%string.

Definition tier_tag (decision : val) : string :=
  match dict_get (dict_or_empty decision) "opportunity_tier" with
  | VStr s => let token := lower (strip s) in if str_in token OPPORTUNITY_TIERS then token else "unknown"
  | _ => "unknown"
  end.
