(* ===== verification/OpportunityFacts.v ===== *)
(** * The adaptive opportunity engine: correctness

    The resolved configuration is always usable, the tier ladder never grants a
    tier whose bar or gates fail and sizes down the ladder, the termination
    predicate is exact and monotone, resumes are cheaper than a full scan,
    heartbeats are capped, and pruning is a bounded selection of whole
    turn-groups. *)

From stdpp Require Import base list strings.
From Stdlib Require Import ZArith Lia Floats.
From S2P Require Import Prelude PyFloat PyRound PyNum PyVal PyEnv Opportunity.

#[local] Set Warnings "-inexact-float".
Open Scope Z_scope.

(** ** Context pruning *)

Lemma group_from_concat msgs : forall cur, concat (group_from cur msgs) = cur ++ msgs.
Proof.
  induction msgs as [|m msgs IH]; intros cur; simpl.
  - destruct cur; simpl; [done|]. by rewrite app_nil_r.
  - destruct cur as [|h t]; [by rewrite IH|]. destruct (attaches h m); simpl; rewrite IH; [|done].
    cbn [app]. by rewrite <- app_assoc.
Qed.

(** A group is a single message, or an assistant message and tool results. *)
Definition group_ok (g : list val) : Prop :=
  match g with
  | [] => False
  | h :: t => Forall (fun m => type_is "tool" m = true) t /\ (t = [] \/ type_is "ai" h = true)
  end.

Lemma group_from_ok msgs : forall cur, (cur = [] \/ group_ok cur) -> Forall group_ok (group_from cur msgs).
Proof.
  assert (forall m, group_ok [m]) as Hone by (intros m; split; [constructor|by left]).
  induction msgs as [|m msgs IH]; intros cur Hc; simpl.
  - destruct cur; [constructor|]. destruct Hc as [|Hc]; [done|]. by constructor.
  - destruct cur as [|h t]; [apply IH; by right|]. destruct Hc as [|Hc]; [done|].
    destruct (attaches h m) eqn:E.
    + apply IH. right. unfold attaches in E. bools. destruct Hc as [Ht _].
      split; [|by right]. apply Forall_app. by repeat constructor.
    + constructor; [done|]. apply IH. by right.
Qed.

Lemma type_is_excl s t m : type_is s m = true -> type_is t m = true -> s = t.
Proof. unfold type_is. destruct (_msg_type m); [|done]. intros. bools. congruence. Qed.

(** A system message is always a group of its own. *)
Lemma system_in_group g m : group_ok g -> In m g -> type_is "system" m = true -> g = [m].
Proof.
  destruct g as [|h t]; [done|]. intros [Ht Hh] [->|Hm] Hs.
  - destruct Hh as [->|Ha]; [done|]. by pose proof (type_is_excl _ _ _ Ha Hs).
  - rewrite Forall_forall in Ht. assert (type_is "tool" m = true) as Hm' by (by apply Ht, list_elem_of_In).
    by pose proof (type_is_excl _ _ _ Hm' Hs).
Qed.

Lemma system_group_single g : group_ok g -> group_type_is "system" g = true -> length g = 1%nat.
Proof.
  destruct g as [|h t]; [done|]. intros Hok Hs. by rewrite (system_in_group _ h Hok ltac:(by left) Hs).
Qed.

Lemma sublist_flat_map {A B} (f : A -> list B) l k : sublist l k -> sublist (flat_map f l) (flat_map f k).
Proof.
  induction 1; simpl; [done| |].
  - by apply sublist_app.
  - by apply sublist_inserts_l.
Qed.

Lemma sublist_map_f {A B} (f : A -> B) l k : sublist l k -> sublist (map f l) (map f k).
Proof. induction 1; simpl; by constructor. Qed.

Lemma Forall_sublist {A} (P : A -> Prop) l k : sublist l k -> Forall P k -> Forall P l.
Proof. induction 1; intros HP; inversion HP; subst; auto. Qed.

Lemma sublist_filter {A} (f : A -> bool) l : sublist (List.filter f l) l.
Proof. induction l as [|x l IH]; simpl; [done|]. destruct (f x); by constructor. Qed.

Lemma map_nth_seq {A} (d : A) l : map (fun i => nth i l d) (seq 0 (length l)) = l.
Proof.
  induction l as [|x l IH]; simpl; [done|]. f_equal.
  rewrite <- seq_shift, map_map. done.
Qed.

Lemma group_at_all groups : map (group_at groups) (seq 0 (length groups)) = groups.
Proof. apply map_nth_seq. Qed.

Lemma drop_oldest_sublist groups limit p rest : forall kept,
  sublist (drop_oldest groups limit p kept rest) (kept ++ rest).
Proof.
  induction rest as [|g rest IH]; intros kept; simpl; [by rewrite app_nil_r|].
  destruct (_ <? _); [|done]. destruct (p g).
  - etrans; [apply IH|]. by rewrite <- app_assoc.
  - etrans; [apply IH|]. apply sublist_app; [done|]. by constructor.
Qed.

(** Protected groups survive the loop. *)
Lemma drop_oldest_keeps groups limit p rest gi : forall kept,
  In gi (kept ++ rest) -> (In gi rest -> p gi = true) -> In gi (drop_oldest groups limit p kept rest).
Proof.
  induction rest as [|g rest IH]; intros kept Hin Hp; simpl; [by rewrite app_nil_r in Hin|].
  destruct (_ <? _); [|done]. destruct (p g) eqn:E.
  - apply IH; [by rewrite <- app_assoc|]. intros. apply Hp. by right.
  - apply in_app_iff in Hin as [Hin|[->|Hin]].
    + apply IH; [apply in_app_iff; by left|]. intros. apply Hp. by right.
    + rewrite Hp in E; [done|by left].
    + apply IH; [apply in_app_iff; by right|]. intros. apply Hp. by right.
Qed.

(** The loop ends under the limit, or with protected groups only. *)
Lemma drop_oldest_fits groups limit p rest : forall kept,
  Forall (fun g => p g = true) kept ->
  _flat_len groups (drop_oldest groups limit p kept rest) <= limit \/
  Forall (fun g => p g = true) (drop_oldest groups limit p kept rest).
Proof.
  induction rest as [|g rest IH]; intros kept Hk; simpl; [by right|].
  destruct (Z.ltb_spec limit (_flat_len groups (kept ++ g :: rest))); [|by left].
  destruct (p g) eqn:E; apply IH; [|done]. apply Forall_app. split; [done|by constructor].
Qed.

Section prune.
Context (msgs : list val) (limit : Z) (keep_recent : nat).

Let groups := _group_messages msgs.
Let is_system gi := group_type_is "system" (group_at groups gi).
Let n_system := length (List.filter (type_is "system") msgs).

Lemma groups_concat : concat groups = msgs.
Proof. apply group_from_concat. Qed.

Lemma groups_ok : Forall group_ok groups.
Proof. apply group_from_ok. by left. Qed.

Lemma prune_select_sublist : sublist (prune_select groups limit keep_recent) (seq 0 (length groups)).
Proof.
  unfold prune_select. destruct (_ <=? _); [apply sublist_filter|].
  etrans; [apply (drop_oldest_sublist _ _ _ _ [])|]. etrans; [apply (drop_oldest_sublist _ _ _ _ [])|].
  apply sublist_filter.
Qed.

(** What is kept is a selection of whole turn-groups. *)
Lemma prune_groups_sublist : sublist (map (group_at groups) (prune_select groups limit keep_recent)) groups.
Proof.
  pose proof (sublist_map_f (group_at groups) _ _ prune_select_sublist) as H. by rewrite group_at_all in H.
Qed.

Lemma prune_select_system gi :
  (gi < length groups)%nat -> is_system gi = true -> In gi (prune_select groups limit keep_recent).
Proof.
  intros Hlt Hs. unfold prune_select. fold is_system.
  set (keep := fun gi => _). assert (In gi (List.filter keep (seq 0 (length groups)))) as Hsel.
  { apply filter_In. split; [apply in_seq; lia|]. subst keep. cbn beta. fold (is_system gi). by rewrite Hs. }
  destruct (_ <=? _); [done|].
  apply drop_oldest_keeps; [|done]. apply drop_oldest_keeps; [done|].
  intros _. fold (is_system gi). by rewrite Hs.
Qed.

Lemma flat_len_concat gis : _flat_len groups gis = Z.of_nat (length (concat (map (group_at groups) gis))).
Proof. unfold _flat_len. by rewrite flat_map_concat_map. Qed.

(** A selection of system groups is no larger than the system messages. *)
Lemma system_selection_small gis :
  sublist gis (seq 0 (length groups)) -> Forall (fun g => is_system g = true) gis ->
  _flat_len groups gis <= Z.of_nat n_system.
Proof.
  intros Hs Hsys. rewrite flat_len_concat.
  assert (concat (map (group_at groups) gis) = List.filter (type_is "system") (concat (map (group_at groups) gis))) as E.
  { assert (Forall group_ok (map (group_at groups) gis)) as Hok.
    { eapply Forall_sublist; [|exact groups_ok].
      pose proof (sublist_map_f (group_at groups) _ _ Hs) as Hm. by rewrite group_at_all in Hm. }
    clear Hs. induction Hsys as [|g gis Hg Hsys IH]; [done|]. simpl in Hok |- *.
    apply Forall_cons in Hok as [Hg' Hok]. unfold is_system in Hg.
    pose proof (system_group_single _ Hg' Hg). destruct (group_at groups g) as [|h [|? ?]]; try done.
    simpl in Hg |- *. rewrite Hg. f_equal. by apply IH. }
  rewrite E. unfold n_system. rewrite <- groups_concat. apply Nat2Z.inj_le.
  assert (forall l k, sublist l k -> (length (List.filter (type_is "system") l)
            <= length (List.filter (type_is "system") k))%nat) as Hf.
  { induction 1; simpl; try lia; destruct (type_is "system" _); simpl; lia. }
  apply Hf. pose proof (sublist_flat_map (group_at groups) _ _ Hs) as Hm.
  rewrite !flat_map_concat_map, group_at_all in Hm. done.
Qed.

Lemma prune_select_fits :
  Z.of_nat n_system <= limit -> _flat_len groups (prune_select groups limit keep_recent) <= limit.
Proof.
  intros Hn. pose proof prune_select_sublist as Hs. unfold prune_select in Hs |- *. fold groups in Hs |- *.
  match goal with |- context [List.filter ?k (seq 0 ?n)] => set (sel := List.filter k (seq 0 n)) in * end.
  destruct (Z.leb_spec (_flat_len groups sel) limit); [done|].
  destruct (drop_oldest_fits groups limit is_system
    (drop_oldest groups limit (fun gi => is_system gi || (length groups - keep_recent <=? gi)%nat) [] sel) [])
    as [|Hsys]; [constructor|done|].
  pose proof (system_selection_small _ Hs Hsys). lia.
Qed.
End prune.

(** Pruning is a bound and a selection: the result is never longer than the
    ceiling, it is a subsequence of the history, and a history that fits is
    returned unchanged. *)
Theorem prune_messages_bounded msgs cfg out :
  prune_messages (VList msgs) cfg = Ok out ->
  exists limit keep_recent, prune_limits cfg = Ok (limit, keep_recent) /\ 1 <= limit /\
    Z.of_nat (length out) <= limit /\ sublist out msgs /\
    (Z.of_nat (length msgs) <= limit -> out = msgs).
Proof.
  intros H. unfold prune_messages in H. mbind H. destruct a as [limit keep]. injection H as <-.
  exists limit, keep. split; [done|].
  assert (1 <= limit) as Hl.
  { unfold prune_limits in E. mbind E. mbind E. injection E as <- _.
    unfold _PRUNE_MIN, DEFAULT_PRUNE_MAX_MESSAGES. destruct (Z.ltb_spec a 1); lia. }
  split; [done|]. unfold prune_list. destruct (Z.leb_spec (Z.of_nat (length msgs)) limit); [done|].
  set (res := flat_map _ _).
  assert (sublist res msgs) as Hs.
  { pose proof (sublist_flat_map (group_at (_group_messages msgs)) _ _ (prune_select_sublist msgs limit keep)) as Hm.
    rewrite (flat_map_concat_map _ (seq _ _)), group_at_all, groups_concat in Hm. done. }
  destruct (Z.ltb_spec limit (Z.of_nat (length res))).
  - split; [rewrite length_drop; lia|]. split; [|lia].
    etrans; [|exact Hs]. apply sublist_drop.
  - split; [done|]. split; [done|lia].
Qed.

(** Pruning never orphans a tool result and never drops a system message.
    As long as the system messages fit under the ceiling, the result is a
    sequence of whole turn-groups and holds every system message. *)
Theorem prune_messages_whole_groups msgs cfg out limit keep_recent :
  prune_messages (VList msgs) cfg = Ok out -> prune_limits cfg = Ok (limit, keep_recent) ->
  Z.of_nat (length (List.filter (type_is "system") msgs)) <= limit ->
  (exists gs, sublist gs (_group_messages msgs) /\ out = concat gs) /\
  (forall m, In m msgs -> type_is "system" m = true -> In m out).
Proof.
  intros H Hl Hn. unfold prune_messages in H. rewrite Hl in H. simpl in H. injection H as <-.
  unfold prune_list. destruct (_ <=? limit).
  { split; [|done]. exists (_group_messages msgs). split; [done|]. by rewrite groups_concat. }
  pose proof (prune_select_fits msgs limit keep_recent Hn) as Hfit. unfold _flat_len in Hfit.
  rewrite (proj2 (Z.ltb_ge _ _)) by done. split.
  - eexists. split; [apply prune_groups_sublist|]. by rewrite flat_map_concat_map.
  - intros m Hm Hsys. rewrite <- (groups_concat msgs) in Hm. apply in_concat in Hm as (g & Hg & Hmg).
    pose proof (groups_ok msgs) as Hok. rewrite Forall_forall in Hok.
    assert (g = [m]) as ->.
    { apply system_in_group; [by apply Hok, list_elem_of_In|done|done]. }
    apply in_flat_map. apply In_nth with (d := []) in Hg as (gi & Hlt & Hnth).
    exists gi. split; [|unfold group_at; rewrite Hnth; by left].
    apply prune_select_system; [done|]. unfold group_at. by rewrite Hnth.
Qed.

(** A history whose newest turn alone exceeds the ceiling of 5. *)
Definition demo_msg (ty name : string) : val :=
  VObj [("type"%string, VStr ty); ("name"%string, VStr name);
        ("tool_calls"%string, VList (if String.eqb ty "ai" then [VStr "call"] else []))] "msg".
Definition demo_history : list val :=
  [demo_msg "system" ""; demo_msg "human" ""; demo_msg "ai" "";
   demo_msg "tool" "a"; demo_msg "tool" "b"; demo_msg "tool" "c"; demo_msg "tool" "d"; demo_msg "tool" "e"].

(** An oversized turn is dropped whole, not sliced: when the newest
    turn-group alone exceeds the ceiling, the latest exchange and every tool
    result disappear and only the system message is left. *)
Theorem prune_drops_oversized_newest_turn :
  prune_list demo_history 5 8 = [demo_msg "system" ""].
Proof. vm_compute. reflexivity. Qed.

(** ** Configuration and the size ladder *)

Lemma above_zero_pos x d high :
  PrimFloat.ltb 0 d = true -> in_band 0 high d = true -> in_band 0 high x = true ->
  PrimFloat.ltb 0 (above_zero x d) = true /\ in_band 0 high (above_zero x d) = true.
Proof.
  intros Hd Bd Bx. unfold above_zero. destruct (PrimFloat.leb x 0) eqn:E; [done|]. split; [|done].
  unfold in_band in Bx. bools. pose proof (fin_not_nan x ltac:(done)) as Hn.
  rewrite leb_rank, Hn in E. rewrite ltb_rank, Hn. change (is_nan 0) with false in *. cbn in *.
  bools. apply Z.ltb_lt. lia.
Qed.

Lemma resolved_pos e n d high :
  is_nan high = false -> PrimFloat.ltb 0 d = true -> in_band 0 high d = true ->
  PrimFloat.ltb 0 (above_zero (_resolve_float e n d 0 high) d) = true /\
  in_band 0 high (above_zero (_resolve_float e n d 0 high) d) = true.
Proof. intros Hh Hd Bd. apply above_zero_pos; [done|done|]. by apply resolve_float_band_in. Qed.

(** A usable size factor: in (0, 1]. *)
Definition factor_ok (x : float) : bool := (PrimFloat.ltb 0 x && in_band 0 1 x)%bool.

(** Whatever the environment holds, the resolved configuration is usable:
    caps and budgets of at least one, strictly positive finite durations, size
    factors in (0, 1], a non-negative heartbeat cap and positive prune limits. *)
Theorem resolve_opportunity_config_usable e :
  let c := resolve_opportunity_config e in
  1 <= watch_cap c /\ 1 <= session_max_turns c /\ 0 <= heartbeat_max c /\
  1 <= prune_keep_recent_turns c /\ 1 <= prune_max_messages c /\
  (PrimFloat.ltb 0 (session_max_wall_secs c) && fin (session_max_wall_secs c) = true)%bool /\
  (PrimFloat.ltb 0 (heartbeat_cadence_secs c) && fin (heartbeat_cadence_secs c) = true)%bool /\
  factor_ok (size_factor_a_plus c) = true /\ factor_ok (size_factor_b_continuation c) = true /\
  factor_ok (size_factor_scalp c) = true.
Proof.
  cbv zeta. unfold resolve_opportunity_config, _resolve_int, factor_ok; simpl.
  do 5 (split; [apply resolve_int_min_ge; vm_compute; discriminate|]).
  assert (forall n d, PrimFloat.ltb 0 d = true -> in_band 0 infinity d = true ->
    (PrimFloat.ltb 0 (above_zero (_resolve_float e n d 0 infinity) d) &&
     fin (above_zero (_resolve_float e n d 0 infinity) d))%bool = true) as Hwall.
  { intros n d Hd Bd. destruct (resolved_pos e n d infinity eq_refl Hd Bd) as [-> Hb].
    unfold in_band in Hb. bools. done. }
  do 2 (split; [by apply Hwall|]).
  repeat split; apply andb_true_iff, resolved_pos; reflexivity.
Qed.

Lemma fmin_rank a b :
  is_nan a = false -> is_nan b = false ->
  (fmin a b = a \/ fmin a b = b) /\ frank (fmin a b) = Z.min (frank a) (frank b).
Proof.
  intros Ha Hb. unfold fmin. rewrite ltb_rank, Ha, Hb. simpl.
  destruct (Z.ltb_spec (frank b) (frank a)); split; try lia; tauto.
Qed.

Lemma factor_ok_rank x : factor_ok x = true -> fin x = true /\ is_nan x = false /\ 0 < frank x <= frank 1.
Proof.
  unfold factor_ok, in_band. intros H. bools. pose proof (fin_not_nan x ltac:(done)) as Hn.
  repeat match goal with H : PrimFloat.ltb _ _ = true |- _ => rewrite ltb_rank in H
    | H : PrimFloat.leb _ _ = true |- _ => rewrite leb_rank in H end. bools.
  change (frank 0) with 0 in *. done.
Qed.

Lemma rank_factor_ok x : fin x = true -> 0 < frank x <= frank 1 -> factor_ok x = true.
Proof.
  intros Hf Hr. pose proof (fin_not_nan x Hf) as Hn. unfold factor_ok, in_band. rewrite Hf, ltb_rank, !leb_rank, Hn.
  change (is_nan 0) with false. change (is_nan 1) with false. change (frank 0) with 0. simpl.
  rewrite (proj2 (Z.ltb_lt _ _)), !(proj2 (Z.leb_le _ _)) by lia. done.
Qed.

Lemma cfg_factor_flt cfg n f : getattr cfg n (VFloat 0) = VFloat f -> fin f = true -> _cfg_factor cfg n = Ok f.
Proof. intros E F. unfold _cfg_factor. rewrite E. cbn [_is_finite_number py_isfinite as_num n_isfinite]. unfold fin in F. by rewrite F. Qed.

(** Sizes shrink down the ladder under every environment: the A+ factor is
    at least the B factor, the B factor at least the scalp factor, all in (0, 1];
    every other tier, [stand_aside] included, sizes to exactly 0. *)
Theorem size_factor_ladder e tier :
  let size t := size_factor t (config_obj (resolve_opportunity_config e)) in
  (exists a b s, size "a_plus"%string = Ok a /\ size "b_continuation"%string = Ok b /\ size "scalp"%string = Ok s /\
     factor_ok a = true /\ factor_ok b = true /\ factor_ok s = true /\
     PrimFloat.leb b a = true /\ PrimFloat.leb s b = true) /\
  (tier <> "a_plus"%string -> tier <> "b_continuation"%string -> tier <> "scalp"%string -> size tier = Ok 0%float).
Proof.
  cbv zeta. set (c := resolve_opportunity_config e).
  assert (factor_ok (size_factor_a_plus c) = true /\ factor_ok (size_factor_b_continuation c) = true /\
          factor_ok (size_factor_scalp c) = true) as (Ha & Hb & Hs).
  { subst c. unfold resolve_opportunity_config, factor_ok; simpl.
    repeat split; apply andb_true_iff, resolved_pos; reflexivity. }
  apply factor_ok_rank in Ha as (Fa & Na & Ra), Hb as (Fb & Nb & Rb), Hs as (Fs & Ns & Rs).
  assert (forall t, size_factor t (config_obj c) =
    let b := fmin (size_factor_b_continuation c) (size_factor_a_plus c) in
    let s := fmin (size_factor_scalp c) b in
    Ok (if String.eqb t "a_plus" then size_factor_a_plus c else if String.eqb t "b_continuation" then b
        else if String.eqb t "scalp" then s else 0%float)) as Hsz.
  { intros t. unfold size_factor.
    rewrite (cfg_factor_flt _ "size_factor_a_plus" (size_factor_a_plus c)),
      (cfg_factor_flt _ "size_factor_b_continuation" (size_factor_b_continuation c)),
      (cfg_factor_flt _ "size_factor_scalp" (size_factor_scalp c)) by done. done. }
  destruct (fmin_rank _ _ Nb Na) as [Hbc Hbr].
  set (b := fmin (size_factor_b_continuation c) (size_factor_a_plus c)) in *.
  assert (fin b = true) as Fb' by (by destruct Hbc as [-> | ->]).
  destruct (fmin_rank _ _ Ns (fin_not_nan _ Fb')) as [Hsc Hsr].
  set (s := fmin (size_factor_scalp c) b) in *.
  assert (fin s = true) as Fs' by (by destruct Hsc as [-> | ->]).
  split.
  - exists (size_factor_a_plus c), b, s. rewrite !Hsz. do 3 (split; [reflexivity|]).
    do 3 (split; [apply rank_factor_ok; [done|lia]|]).
    rewrite !leb_rank, Na, !fin_not_nan by done. cbn [negb andb].
    split; apply Z.leb_le; [rewrite Hbr|rewrite Hsr]; lia.
  - intros H1%String.eqb_neq H2%String.eqb_neq H3%String.eqb_neq. rewrite Hsz, H1, H2, H3. done.
Qed.

(** ** The tier ladder *)

(** Each clause of the ladder's contract, once the tier is a constant. *)
Ltac tier_cases :=
  simpl; split; [tauto|];
  split; [intros; try discriminate; try (split; [done|]; split; [done|]; eexists; (split; [reflexivity|]); simpl; tauto)|];
  split; [intros; try done|]; split; [intros; done|];
  split; [intros Hor; try (destruct Hor; discriminate); done|]; split; intros; done.

(** No tier is granted whose bar or gates fail.  A trade tier needs a
    defensible triple and its confidence and alignment bars; A+ tolerates no
    misaligned signal; the lower tiers need the configuration flag and neither an
    unfavorable regime nor an unfavorable session; the size is the ladder's.
    Standing aside has size 0 and states a reason. *)
Theorem evaluate_tier_sound evidence cfg te :
  evaluate_tier evidence cfg = Ok te ->
  exists triple conf,
    let ev := dict_or_empty evidence in
    let states := _signal_states ev in
    let aligned := count_states (fun s => 0 <? s) states in
    _has_defensible_triple ev = Ok triple /\ _pattern_confidence ev = Ok conf /\
    In (te_tier te) OPPORTUNITY_TIERS /\
    (te_tier te = "stand_aside"%string ->
       te_size_factor te = 0%float /\ nonempty (te_rationale te) = true /\
       exists g, te_gated_by te = Some g /\ In g ["config"; "regime"; "session"; "evidence-bar"]%string) /\
    (te_tier te <> "stand_aside"%string ->
       triple = true /\ te_gated_by te = None /\ size_factor (te_tier te) cfg = Ok (te_size_factor te)) /\
    (te_tier te = "a_plus"%string ->
       PrimFloat.leb A_PLUS_MIN_PATTERN_CONF conf = true /\ 3 <= aligned /\
       count_states (fun s => s <? 0) states = 0) /\
    (te_tier te = "b_continuation"%string \/ te_tier te = "scalp"%string ->
       truthy (getattr cfg "lower_tiers_enabled" (VBool false)) = true /\
       0 <= state_of "regime" states /\ 0 <= state_of "session" states) /\
    (te_tier te = "b_continuation"%string -> PrimFloat.leb B_CONTINUATION_MIN_PATTERN_CONF conf = true /\ 2 <= aligned) /\
    (te_tier te = "scalp"%string -> PrimFloat.leb SCALP_MIN_PATTERN_CONF conf = true /\ 1 <= aligned).
Proof.
  intros H. unfold evaluate_tier in H. mbind H. mbind H. exists a, a0.
  set (ev := dict_or_empty evidence) in *. set (states := _signal_states ev) in *. cbv zeta.
  split; [done|]. split; [done|].
  assert (forall t r, select_tier t cfg r = Ok te ->
    te_tier te = t /\ te_gated_by te = None /\ size_factor t cfg = Ok (te_size_factor te)) as Hsel.
  { intros t r Ht. unfold select_tier in Ht. mbind Ht. by injection Ht as <-. }
  destruct (a && _ && _ && _)%bool eqn:Ea.
  { apply Hsel in H as (Ht & Hg & Hs). rewrite Ht in *. bools. unfold A_PLUS_MIN_ALIGNED in *. tier_cases. }
  destruct (_ || _)%bool eqn:Eb; [|injection H as <-; tier_cases].
  destruct (negb _) eqn:El; [injection H as <-; tier_cases|].
  destruct (state_of "regime" states <? 0) eqn:Er; [injection H as <-; tier_cases|].
  destruct (state_of "session" states <? 0) eqn:Es; [injection H as <-; tier_cases|].
  unfold B_CONTINUATION_MIN_ALIGNED, SCALP_MIN_ALIGNED in *.
  destruct (a && PrimFloat.leb B_CONTINUATION_MIN_PATTERN_CONF a0 && _)%bool eqn:Ebb;
    [|cbn [orb] in Eb]; apply Hsel in H as (Ht & Hg & Hs); rewrite Ht in *; bools; tier_cases.
Qed.

(** ** The bounded hunt *)

(** An integer counter that converts to a float without overflow. *)
Definition counter_ok (z : Z) : bool := is_ok (int_to_float z).

Lemma coerce_count_int z : counter_ok z = true -> _coerce_count (VInt z) = Ok (Z.max 0 z).
Proof.
  unfold counter_ok, _coerce_count, _is_finite_number, py_isfinite. cbn [as_num n_isfinite].
  destruct (int_to_float z); [|done]. intros _. cbn. f_equal. destruct (Z.ltb_spec 0 z); lia.
Qed.

Lemma cfg_int_val cfg n d z :
  getattr cfg n (VInt d) = VInt z -> counter_ok z = true -> _cfg_int cfg n d = Ok z.
Proof.
  intros E Hz. unfold _cfg_int, _is_finite_number, py_isfinite, counter_ok in *. rewrite E. cbn [as_num n_isfinite].
  by destruct (int_to_float z).
Qed.

Lemma coerce_count_nonneg v z : _coerce_count v = Ok z -> 0 <= z.
Proof.
  unfold _coerce_count. intros H. mbind H. destruct a; [|by injection H as <-]. mbind H. injection H as <-.
  destruct (Z.ltb_spec 0 a); lia.
Qed.

(** The session counters as the graph stores them. *)
Definition counters (st : list (val * val)) (w t : Z) (started : float) : Prop :=
  dict_get st "watch_cycles" = VInt w /\ dict_get st "session_turns" = VInt t /\
  dict_get st "session_started_at" = VFloat started.

Lemma coerce_counter z : 0 <= z -> counter_ok z = true -> _coerce_count (VInt z) = Ok z.
Proof. intros Hz Hc. rewrite coerce_count_int by done. by rewrite Z.max_r. Qed.

Lemma finite_number_flt f : _is_finite_number (VFloat f) = Ok (fin f).
Proof. reflexivity. Qed.

Section bounded_hunt.
Context (c : OpportunityConfig).
Hypothesis cap_ok : counter_ok (watch_cap c) = true.
Hypothesis turns_ok : counter_ok (session_max_turns c) = true.
Hypothesis wall_ok : fin (session_max_wall_secs c) = true.

Definition budget_spent (t : Z) (elapsed : float) : bool :=
  (session_max_turns c <=? t) || PrimFloat.leb (session_max_wall_secs c) elapsed.

Definition expected_reason (w t : Z) (elapsed : float) : option string :=
  if watch_cap c <=? w then Some "watch-cap-reached"%string
  else if budget_spent t elapsed then Some "session-budget-exhausted"%string
  else None.

Lemma termination_reason_eq st w t started now :
  counters st w t started -> 0 <= w -> 0 <= t -> counter_ok w = true -> counter_ok t = true ->
  fin started = true -> fin now = true ->
  termination_reason (VDict st) (config_obj c) (VFloat now) = Ok (expected_reason w t (now - started)).
Proof.
  intros (Hw & Ht & Hs) Pw Pt Cw Ct Fs Fn.
  unfold termination_reason, watch_cap_reached, session_budget_exhausted, expected_reason, budget_spent.
  cbn [dict_or_empty]. rewrite Hw, Ht, Hs, (coerce_counter w), (coerce_counter t) by done.
  rewrite (cfg_int_val (config_obj c) "watch_cap" _ (watch_cap c) eq_refl cap_ok).
  rewrite (cfg_int_val (config_obj c) "session_max_turns" _ (session_max_turns c) eq_refl turns_ok).
  cbn [mbind res_bind]. destruct (watch_cap c <=? w); [done|].
  destruct (session_max_turns c <=? t); [done|].
  rewrite !finite_number_flt, Fs, Fn. cbn [notM orM mbind res_bind negb].
  unfold _cfg_float. change (getattr (config_obj c) "session_max_wall_secs" _) with (VFloat (session_max_wall_secs c)).
  rewrite finite_number_flt, wall_ok. cbn. by destruct (PrimFloat.leb _ _).
Qed.
End bounded_hunt.

(** The forced-termination predicate is exactly the documented one.  It
    fires on the watch cap first, then on the turn budget or the wall-clock
    budget, and on nothing else. *)
Theorem termination_reason_exact c st w t started now :
  counter_ok (watch_cap c) = true -> counter_ok (session_max_turns c) = true ->
  fin (session_max_wall_secs c) = true ->
  counters st w t started -> 0 <= w -> 0 <= t -> counter_ok w = true -> counter_ok t = true ->
  fin started = true -> fin now = true ->
  termination_reason (VDict st) (config_obj c) (VFloat now) =
    Ok (if watch_cap c <=? w then Some "watch-cap-reached"%string
        else if (session_max_turns c <=? t) || PrimFloat.leb (session_max_wall_secs c) (now - started)
        then Some "session-budget-exhausted"%string else None).
Proof. intros. by apply termination_reason_eq. Qed.

Lemma elapsed_mono wall started now now' :
  fin started = true -> fin now = true -> fin now' = true -> frank now <= frank now' ->
  PrimFloat.leb wall (now - started) = true -> PrimFloat.leb wall (now' - started) = true.
Proof.
  intros Fs Fn Fn' Hn. destruct (fsub_rank now started Fn Fs) as [E N], (fsub_rank now' started Fn' Fs) as [E' N'].
  rewrite !leb_rank, N, N', E, E'. intros H. bools. rewrite H. cbn [negb andb]. apply Z.leb_le.
  pose proof (rnd_mono (frank now - frank started) (frank now' - frank started) ltac:(lia)). lia.
Qed.

(** Termination is irrevocable: once a session must end, no further watch
    cycle, turn or passage of time makes it continue. *)
Theorem termination_reason_monotone c st st' w t w' t' started now now' r :
  counters st w t started -> counters st' w' t' started ->
  0 <= w <= w' -> 0 <= t <= t' -> frank now <= frank now' ->
  counter_ok w && counter_ok t && counter_ok w' && counter_ok t' = true ->
  counter_ok (watch_cap c) && counter_ok (session_max_turns c) && fin (session_max_wall_secs c) = true ->
  fin started && fin now && fin now' = true ->
  termination_reason (VDict st) (config_obj c) (VFloat now) = Ok (Some r) ->
  exists r', termination_reason (VDict st') (config_obj c) (VFloat now') = Ok (Some r').
Proof.
  intros Hc Hc' Hw Ht Hn C1 C2 C3 H. bools.
  rewrite (termination_reason_eq c) with (w := w) (t := t) (started := started) in H by (done || lia).
  rewrite (termination_reason_eq c) with (w := w') (t := t') (started := started) by (done || lia).
  unfold expected_reason, budget_spent in *.
  destruct (Z.leb_spec (watch_cap c) w'); [eauto|]. rewrite (proj2 (Z.leb_gt _ w)) in H by lia.
  destruct (Z.leb_spec (session_max_turns c) t'); [cbn; eauto|]. rewrite (proj2 (Z.leb_gt _ t)) in H by lia.
  cbn [orb] in *. destruct (PrimFloat.leb _ (now - started)) eqn:E; [|discriminate].
  rewrite (elapsed_mono _ _ now now') by done. eauto.
Qed.

(** ** Cheap resume and heartbeats *)

(** Every resume is cheaper than a full scan and never empty: whatever the
    trigger and the symbol class, the plan is a non-empty duplicate-free proper
    subset of the order-of-operations tools; an index adds exactly the options
    read to a target or heartbeat resume. *)
Theorem delta_recheck_plan_proper trigger cls :
  let plan := delta_recheck_plan trigger cls in
  In (classify_resume trigger) RESUME_KINDS /\
  plan <> [] /\ NoDup plan /\ incl plan FULL_ORDER_OF_OPERATIONS_TOOLS /\
  (length plan < length FULL_ORDER_OF_OPERATIONS_TOOLS)%nat /\
  (plan = _DELTA_RECHECK_PLANS (classify_resume trigger) \/
   (plan ≡ₚ "get_options_analytics"%string :: _DELTA_RECHECK_PLANS (classify_resume trigger) /\
    classify_resume trigger <> "invalidation"%string)).
Proof.
  cbv zeta.
  assert (In (classify_resume trigger) RESUME_KINDS) as Hk.
  { unfold classify_resume. destruct trigger; try (simpl; tauto).
    repeat case_match; simpl; tauto. }
  unfold delta_recheck_plan. set (idx := match cls with VStr s => _ | _ => false end). clearbody idx.
  assert (forall l : list string, bool_decide (NoDup l) = true -> NoDup l) as Hnd by (intros l; apply bool_decide_eq_true).
  assert (forall l k, forallb (fun x => str_in x k) l = true -> incl l k) as Hincl.
  { intros l k H x Hx. rewrite forallb_forall in H. apply str_in_In. auto. }
  split; [done|].
  simpl in Hk. destruct Hk as [<-|[<-|[<-|[]]]]; destruct idx;
    (split; [vm_compute; discriminate|]); (split; [apply Hnd; vm_compute; reflexivity|]);
    (split; [apply Hincl; vm_compute; reflexivity|]); (split; [vm_compute; lia|]);
    (left; reflexivity) || (right; split; [|discriminate]).
  - symmetry. exact (Permutation_middle ["get_candles"; "get_consensus_report"]%string
      ["get_event_risk"; "get_support_resistance"; "get_chart_patterns"; "get_forecast"]%string
      "get_options_analytics"%string).
  - symmetry. exact (Permutation_cons_append (_DELTA_RECHECK_PLANS "heartbeat") "get_options_analytics"%string).
Qed.

(** Heartbeats are bounded whatever the state: the reported count never
    exceeds the cap, an accepted heartbeat uses exactly one of the remaining
    slots and is charged one turn, and a rejected one changes no turn. *)
Theorem account_heartbeat_bounded state cfg r :
  account_heartbeat state cfg = Ok r ->
  exists cap prior turns,
    _cfg_int cfg "heartbeat_max" DEFAULT_HEARTBEAT_MAX = Ok cap /\
    _coerce_count (dict_get (dict_or_empty state) "heartbeat_count") = Ok prior /\
    _coerce_count (dict_get (dict_or_empty state) "session_turns") = Ok turns /\
    0 <= hb_count r <= Z.max 0 cap /\
    (hb_accepted r = true -> hb_count r = prior + 1 /\ hb_session_turns r = turns + 1) /\
    (hb_accepted r = false -> Z.max 0 cap <= prior /\ hb_session_turns r = turns).
Proof.
  unfold account_heartbeat. intros H. mbind H. mbind H. mbind H. injection H as <-.
  exists a1, a, a0. split; [done|]. split; [done|]. split; [done|].
  apply coerce_count_nonneg in E. destruct (Z.ltb_spec a1 0);
    match goal with |- context [?x <=? a] => destruct (Z.leb_spec x a) end; simpl; repeat split; intros; try done; lia.
Qed.

(** ** The invalidation post-mortem *)

(** A re-arm is blocked only when it is provably the same thesis: both
    fingerprints complete and equal in symbol, timeframe and direction, a usable
    positive ATR, and levels within half an ATR of each other. *)
Theorem is_rearm_unchanged_confident prior proposed atr :
  is_rearm_unchanged prior proposed atr = Ok true ->
  exists p n s t d l1 l2 a,
    thesis_fingerprint prior = Ok p /\ thesis_fingerprint proposed = Ok n /\
    fp_symbol p = Some s /\ fp_symbol n = Some s /\ fp_timeframe p = Some t /\ fp_timeframe n = Some t /\
    fp_direction p = Some d /\ fp_direction n = Some d /\ fp_level p = Some l1 /\ fp_level n = Some l2 /\
    usable_atr atr = Ok (Some a) /\
    PrimFloat.leb (PrimFloat.abs (l1 - l2)) (REARM_LEVEL_ATR_TOLERANCE_MULT * a) = true.
Proof.
  intros H. unfold is_rearm_unchanged in H. mbind H. mbind H.
  destruct (fp_symbol a) as [s|] eqn:S1, (fp_timeframe a) as [t|] eqn:T1, (fp_direction a) as [d|] eqn:D1,
    (fp_level a) as [l1|] eqn:L1, (fp_symbol a0) as [s2|] eqn:S2, (fp_timeframe a0) as [t2|] eqn:T2,
    (fp_direction a0) as [d2|] eqn:D2, (fp_level a0) as [l2|] eqn:L2; try discriminate.
  destruct (String.eqb_spec s s2); [|discriminate]. destruct (String.eqb_spec t t2); [|discriminate].
  destruct (String.eqb_spec d d2); [|discriminate]. cbn [negb] in H. mbind H.
  destruct a1 as [x|]; [|discriminate]. injection H as H. subst.
  exists a, a0, s2, t2, d2, l1, l2, x. tauto.
Qed.

Lemma usable_atr_pos atr a : usable_atr atr = Ok (Some a) -> fin a = true /\ 0 < frank a.
Proof.
  unfold usable_atr. intros H. mbind H. destruct a0; [|discriminate]. mbind H.
  destruct (PrimFloat.leb a0 0) eqn:El; [discriminate|]. injection H as <-.
  assert (fin a0 = true) as Hf.
  { unfold _is_finite_number, py_isfinite in E. destruct atr as [| |z|f| | | | | | |]; try discriminate; cbn in E, E0.
    - unfold int_to_float in E0. destruct (is_finite (Q2F z 1)) eqn:F; [|discriminate]. by injection E0 as <-.
    - injection E0 as <-. by injection E. }
  split; [done|]. rewrite leb_rank, (fin_not_nan _ Hf) in El. change (frank 0) with 0 in El. cbn in El.
  apply Z.leb_gt in El. lia.
Qed.


(** A re-sized invalidation always sits on the losing side of the thesis,
    no nearer to the reference than the one-ATR level: at or below [ref - ATR]
    for an upward thesis, at or above [ref + ATR] for a downward one.  A level
    that already clears the floor is kept unchanged. *)
Theorem volatility_floor_clears direction ref_price proposed atr inv :
  volatility_floored_invalidation direction ref_price proposed atr = Ok (Some inv) ->
  exists side ref a,
    _normalize_direction direction = Some side /\ py_float ref_price = Ok ref /\ usable_atr atr = Ok (Some a) /\
    let floor := (VOL_FLOOR_ATR_MULT * a)%float in
    let floored := if String.eqb side "above" then (ref - floor)%float else (ref + floor)%float in
    inv = floored \/
    (py_float proposed = Ok inv /\
     (if String.eqb side "above" then PrimFloat.leb inv floored else PrimFloat.leb floored inv) = true).
Proof.
  unfold volatility_floored_invalidation. intros H. destruct (_normalize_direction direction) as [side|]; [|discriminate].
  mbind H. destruct a; [|discriminate]. cbn [negb] in H. mbind H. destruct a as [a|]; [|discriminate].
  mbind H. mbind H. exists side, a0, a. split; [done|]. split; [done|]. split; [done|]. cbv zeta.
  destruct (String.eqb side "above"); (destruct a1; [mbind H; injection H as <-|injection H as <-; by left]);
    (destruct (PrimFloat.leb _ _) eqn:El; [right; by split|by left]).
Qed.

(** ** Witnesses *)

Definition demo_cfg : OpportunityConfig := resolve_opportunity_config (fun _ => None).

Lemma prune_messages_bounded_witness :
  exists limit keep, prune_limits (config_obj demo_cfg) = Ok (limit, keep) /\
    sublist (drop 10 demo_history) demo_history.
Proof.
  destruct (prune_messages_bounded demo_history (config_obj demo_cfg) demo_history) as (l & k & H & _);
    [vm_compute; reflexivity|]. exists l, k. split; [exact H|apply sublist_drop].
Defined.

Definition tight_cfg : val := VObj [("prune_max_messages"%string, VInt 3); ("prune_keep_recent_turns"%string, VInt 1)] "cfg".
Definition short_history : list val :=
  [demo_msg "system" ""; demo_msg "human" ""; demo_msg "human" ""; demo_msg "ai" ""; demo_msg "tool" "a"].

Lemma prune_messages_whole_groups_witness :
  exists gs, [demo_msg "system" ""; demo_msg "ai" ""; demo_msg "tool" "a"] = concat gs.
Proof.
  destruct (prune_messages_whole_groups short_history tight_cfg
    [demo_msg "system" ""; demo_msg "ai" ""; demo_msg "tool" "a"] 3 1) as [(gs & _ & H) _];
    [vm_compute; reflexivity|vm_compute; reflexivity|vm_compute; discriminate|].
  exact (ex_intro _ gs H).
Defined.

Definition demo_evidence : val :=
  VDict [(VStr "pattern_confidence", VFloat 0.6); (VStr "has_defensible_triple", VBool true);
         (VStr "macro", VDict [(VStr "alignment", VStr "Aligned")]);
         (VStr "forecast", VDict [(VStr "forecast_alignment", VStr "aligned")])].

Lemma evaluate_tier_sound_witness :
  exists te, evaluate_tier demo_evidence (config_obj demo_cfg) = Ok te /\ te_tier te = "b_continuation"%string /\
    In (te_tier te) OPPORTUNITY_TIERS.
Proof.
  destruct (evaluate_tier demo_evidence (config_obj demo_cfg)) as [te|] eqn:E; [|vm_compute in E; discriminate].
  exists te. split; [reflexivity|].
  destruct (evaluate_tier_sound _ _ _ E) as (t & c & _ & _ & Hin & _). split; [|exact Hin].
  vm_compute in E. injection E as <-. reflexivity.
Defined.

Definition demo_state (w t : Z) : list (val * val) :=
  [(VStr "watch_cycles", VInt w); (VStr "session_turns", VInt t); (VStr "session_started_at", VFloat 1000)].

Lemma termination_reason_exact_witness :
  termination_reason (VDict (demo_state 1 40)) (config_obj demo_cfg) (VFloat 1001)
  = Ok (Some "session-budget-exhausted"%string).
Proof.
  rewrite (termination_reason_exact demo_cfg _ 1 40 1000 1001); try (vm_compute; reflexivity); try lia.
  repeat split.
Defined.

Lemma termination_reason_monotone_witness :
  exists r, termination_reason (VDict (demo_state 5 41)) (config_obj demo_cfg) (VFloat 1002) = Ok (Some r).
Proof.
  apply (termination_reason_monotone demo_cfg (demo_state 3 40) (demo_state 5 41) 3 40 5 41 1000 1001 1002
    "watch-cap-reached"); try (vm_compute; reflexivity); try lia; try (repeat split).
  vm_compute. discriminate.
Defined.

Lemma account_heartbeat_bounded_witness :
  exists r, account_heartbeat (VDict [(VStr "heartbeat_count", VInt 5)]) (config_obj demo_cfg) = Ok r /\
    0 <= hb_count r <= 6.
Proof.
  eexists. split; [vm_compute; reflexivity|].
  destruct (account_heartbeat_bounded (VDict [(VStr "heartbeat_count", VInt 5)]) (config_obj demo_cfg)
    {| hb_accepted := true; hb_count := 6; hb_session_turns := 1 |}) as (cap & p & t & Hc & _ & _ & Hb & _);
    [vm_compute; reflexivity|].
  replace (Z.max 0 cap) with 6 in Hb; [exact Hb|]. vm_compute in Hc. injection Hc as <-. reflexivity.
Defined.

Definition demo_thesis (level : float) : val :=
  VDict [(VStr "symbol", VStr "nifty"); (VStr "timeframe", VStr "5M"); (VStr "direction", VStr "up");
         (VStr "price_level", VFloat level)].

Lemma is_rearm_unchanged_confident_witness :
  exists a, usable_atr (VInt 4) = Ok (Some a).
Proof.
  destruct (is_rearm_unchanged_confident (demo_thesis 100) (demo_thesis 101.5) (VInt 4))
    as (p & n & s & t & d & l1 & l2 & a & H); [vm_compute; reflexivity|].
  exists a. apply H.
Defined.

Lemma volatility_floor_clears_witness :
  exists side, _normalize_direction (VStr "LONG") = Some side.
Proof.
  destruct (volatility_floor_clears (VStr "LONG") (VInt 100) (VFloat 99.5) (VInt 4) 96) as (side & r & a & H & _);
    [vm_compute; reflexivity|]. exact (ex_intro _ side H).
Defined.
