(* ===== verification/JournalTags.v ===== *)
(** * Trade journal: the setup fingerprint

    Models the tag half of [agents/deep-quant-loop/journal.py]: every collapse of
    a decision's defensibility record to one value of a fixed enumeration, and
    the ordered tag list the [setup_key] is joined from. *)

From stdpp Require Import base list strings.
From Stdlib Require Import ZArith Lia Floats Ascii.
From S2P Require Import Prelude PyFloat PyNum PyVal PyEnv TradeManager Opportunity.

#[local] Set Warnings "-inexact-float".
Open Scope Z_scope.
Open Scope res_scope.

(** ** Helpers on values *)

(** [isinstance(v, (int, float)) and not isinstance(v, bool) and math.isfinite(v)] *)
Definition _is_num (v : val) : res bool :=
  if is_int_or_float v && negb (is_bool v) then py_isfinite v else Ok false.

(** [v.get(k)]: only a dictionary has the method. *)
Definition py_get (v : val) (k : string) : res val :=
  match v with VDict l => Ok (dict_get l k) | _ => Raise AttributeError end.

(** [try: ... except Exception: k] *)
Definition try_any {A} (m : res A) (k : A) : A := match m with Ok a => a | Raise _ => k end.

(** [str(v or "").strip().lower()] *)
Definition norm_text (v : val) : string := lower (strip (py_str (py_or v (VStr "")))).

Fixpoint starts_with (p s : string) : bool :=
  match p, s with
  | EmptyString, _ => true
  | String a p', String b s' => Ascii.eqb a b && starts_with p' s'
  | _, _ => false
  end.

(** [p in s] *)
Fixpoint str_contains (p s : string) : bool :=
  starts_with p s || match s with EmptyString => false | String _ s' => str_contains p s' end.

(** The entry [key] of the decision's defensibility record. *)
Definition deff_of (decision : val) : res val :=
  let d := py_or decision (VDict []) in
  raw ← py_get d "defensibility";
  Ok (py_or raw (VDict [])).

Definition deff_entry (decision : val) (key : string) : res val :=
  deff ← deff_of decision; py_get deff key.

(** The entry as a dictionary that is not marked unavailable. *)
Definition available_entry (v : val) : option (list (val * val)) :=
  match v with
  | VDict l => match dict_get l "available" with VBool false => None | _ => Some l end
  | _ => None
  end.

(** ** The collapses *)

Definition REGIME_TAG_VALUES : list string :=
  ["trend-favorable"; "trend-unfavorable"; "trend-neutral"; "range-favorable"; "range-unfavorable";
   "range-neutral"; "unknown"]%string.
Definition _REGIME_FAVORABILITY : list string := ["favorable"; "unfavorable"; "neutral"]%string.
Definition _REGIME_TREND_FAMILY (s : string) : option string :=
  assoc_str s [("trending"%string, "trend"%string); ("transitional"%string, "trend"%string);
               ("ranging"%string, "range"%string)].

Definition _regime_tag (decision : val) : string :=
  try_any
    (regime ← deff_entry decision "regime";
     Ok match available_entry regime with
        | None => "unknown"%string
        | Some r =>
            let favorability := norm_text (dict_get r "favorability") in
            match _REGIME_TREND_FAMILY (norm_text (dict_get r "trend_state")) with
            | Some family =>
                if str_in favorability _REGIME_FAVORABILITY then
                  let value := (family ++ "-" ++ favorability)%string in
                  if str_in value REGIME_TAG_VALUES then value else "unknown"%string
                else "unknown"%string
            | None => "unknown"%string
            end
        end)
    "unknown"%string.

Definition RS_TAG_VALUES : list string :=
  ["leader-aligned"; "leader-misaligned"; "laggard-aligned"; "laggard-misaligned"; "inline-neutral";
   "aligned"; "misaligned"; "unknown"]%string.
Definition _RS_STATES : list string := ["leader"; "inline"; "laggard"]%string.
Definition _RS_ALIGNMENTS : list string := ["aligned"; "misaligned"; "neutral"]%string.

Definition _relative_strength_tag (decision : val) : string :=
  try_any
    (rs ← deff_entry decision "relative_strength";
     Ok match available_entry rs with
        | None => "unknown"%string
        | Some r =>
            let state := norm_text (dict_get r "relative_strength_state") in
            let alignment := norm_text (dict_get r "alignment") in
            if str_in state _RS_STATES && str_in alignment _RS_ALIGNMENTS then
              let value := (state ++ "-" ++ alignment)%string in
              if str_in value RS_TAG_VALUES then value
              else if str_in alignment RS_TAG_VALUES then alignment
              else "unknown"%string
            else "unknown"%string
        end)
    "unknown"%string.

Definition FC_TAG_VALUES : list string :=
  ["aligned-strong"; "aligned-weak"; "misaligned-strong"; "misaligned-weak"; "neutral-strong";
   "neutral-weak"; "unknown"]%string.
Definition FC_STRONG_PROB_SPLIT : float := 0.15%float.
Definition _FC_ALIGNMENTS : list string := ["aligned"; "misaligned"; "neutral"]%string.

Definition _forecast_tag (decision : val) : string :=
  try_any
    (fc ← deff_entry decision "forecast";
     match available_entry fc with
     | None => Ok "unknown"%string
     | Some r =>
         let alignment := norm_text (dict_get r "forecast_alignment") in
         let up := dict_get r "up_probability" in
         usable ← (Ok (str_in alignment _FC_ALIGNMENTS) and? _is_num up);
         if usable : bool then
           diff ← py_sub up (VFloat 0.5);
           dist ← py_abs diff;
           strong ← py_ge dist (VFloat FC_STRONG_PROB_SPLIT);
           let value := (alignment ++ "-" ++ (if strong : bool then "strong" else "weak"))%string in
           Ok (if str_in value FC_TAG_VALUES then value else "unknown"%string)
         else Ok "unknown"%string
     end)
    "unknown"%string.

Definition _forecast_up_probability (deff : val) : val :=
  try_any
    (fc ← py_get (py_or deff (VDict [])) "forecast";
     match available_entry fc with
     | None => Ok VNone
     | Some r =>
         let up := dict_get r "up_probability" in
         num ← _is_num up; Ok (if num : bool then up else VNone)
     end)
    VNone.

Definition _management_style_tag (decision : val) : string :=
  try_any
    (mgmt ← deff_entry decision "management";
     Ok match available_entry mgmt with
        | None => "unknown"%string
        | Some r =>
            let style := norm_text (dict_get r "style") in
            if str_in style MANAGEMENT_STYLE_TAGS then style else "unknown"%string
        end)
    "unknown"%string.

Definition SESS_TAG_VALUES : list string :=
  ["opening"; "morning"; "midday"; "afternoon"; "closing"; "offhours"; "expiry"; "unknown"]%string.
Definition _SESS_EXPIRY_PHASES : list string := ["afternoon"; "closing"]%string.
Definition _SESS_OFFHOURS_PHASES : list string := ["pre_open"; "post_close"]%string.
Definition _SESS_OWN_BUCKET_PHASES : list string := ["opening"; "morning"; "midday"; "afternoon"; "closing"]%string.

Definition _session_tag (decision : val) : string :=
  try_any
    (sess ← deff_entry decision "session";
     Ok match available_entry sess with
        | None => "unknown"%string
        | Some r =>
            let phase := norm_text (dict_get r "session_phase") in
            if negb (str_in phase _SESS_OWN_BUCKET_PHASES) && negb (str_in phase _SESS_OFFHOURS_PHASES) then
              "unknown"%string
            else
              let is_expiry_day :=
                match dict_get r "expiry_context" with
                | VDict x => truthy (dict_get x "is_expiry_day")
                | _ => false
                end in
              if is_expiry_day && str_in phase _SESS_EXPIRY_PHASES then "expiry"%string
              else if str_in phase _SESS_OFFHOURS_PHASES then "offhours"%string
              else if str_in phase SESS_TAG_VALUES then phase else "unknown"%string
        end)
    "unknown"%string.

Definition DB_TAG_VALUES : list string := ["strong_agree"; "lean"; "contested"; "unknown"]%string.
Definition _DB_CONSENSUS_VALUES : list string := ["strong_agree"; "lean"; "contested"]%string.

Definition _debate_tag (decision : val) : string :=
  try_any
    (debate ← deff_entry decision "debate";
     Ok match debate with
        | VDict r =>
            let consensus := norm_text (dict_get r "consensus") in
            if str_in consensus _DB_CONSENSUS_VALUES then consensus else "unknown"%string
        | _ => "unknown"%string
        end)
    "unknown"%string.

Definition OPT_TAG_VALUES : list string :=
  ["bullish-aligned"; "bullish-misaligned"; "bearish-aligned"; "bearish-misaligned"; "neutral"; "unknown"]%string.
Definition _OPT_BIAS_STATES : list string := ["bullish"; "bearish"; "neutral"]%string.
Definition _OPT_ALIGNMENTS : list string := ["aligned"; "misaligned"; "neutral"]%string.

Definition _options_tag (decision : val) : string :=
  try_any
    (opts ← deff_entry decision "options";
     Ok match available_entry opts with
        | None => "unknown"%string
        | Some r =>
            let bias := norm_text (dict_get r "options_bias_state") in
            let alignment := norm_text (dict_get r "alignment") in
            if str_in bias _OPT_BIAS_STATES && str_in alignment _OPT_ALIGNMENTS then
              if String.eqb bias "neutral" then "neutral"%string
              else
                let value := (bias ++ "-" ++ alignment)%string in
                if str_in value OPT_TAG_VALUES then value else "unknown"%string
            else "unknown"%string
        end)
    "unknown"%string.

Definition EVT_TAG_VALUES : list string := ["clear"; "imminent"; "through_event"; "unknown"]%string.
Definition _EVT_RISK_VALUES : list string := ["clear"; "imminent"; "through_event"]%string.

Definition _event_tag (decision : val) : string :=
  try_any
    (event ← deff_entry decision "event";
     Ok match available_entry event with
        | None => "unknown"%string
        | Some r =>
            let risk := norm_text (dict_get r "event_risk") in
            if str_in risk _EVT_RISK_VALUES then risk else "unknown"%string
        end)
    "unknown"%string.

(** ** The fingerprint *)

(** [str(v or "").lower()] *)
Definition lower_text (v : val) : string := lower (py_str (py_or v (VStr ""))).

Definition macro_tag (mc : string) : string :=
  if str_contains "macro conflict" mc then "macro:against"
  else if str_contains "aligned with the 1d" mc then "macro:aligned"
  else if str_contains "unavailable" mc then "macro:unknown"
  else "macro:neutral".

Definition pred_tag (pc : string) : string :=
  if str_contains "no predictive conflict" pc || str_contains "aligns with trade bias" pc then "pred:aligned"
  else if starts_with "conflict" pc || str_contains "conflict:" pc then "pred:conflict"
  else "pred:na".

Definition va_tag (loc : val) : string :=
  match loc with
  | VStr s =>
      if String.eqb s "above_value_area" then "va:above"
      else if String.eqb s "inside_value_area" then "va:inside"
      else if String.eqb s "below_value_area" then "va:below"
      else "va:unknown"
  | _ => "va:unknown"
  end.

Definition derive_setup_tags (decision : val) : res (list string) :=
  let d := py_or decision (VDict []) in
  deff ← deff_of decision;
  action_v ← py_get d "action";
  let action := upper (py_str (py_or action_v (VStr "HOLD"))) in
  mc ← py_get deff "macro_trend_conflict";
  pc ← py_get deff "predictive_conflict";
  vp_v ← py_get deff "volume_profile";
  loc ← py_get (py_or vp_v (VDict [])) "price_vs_value_area";
  Ok [("dir:" ++ action)%string;
      macro_tag (lower_text mc);
      pred_tag (lower_text pc);
      va_tag loc;
      ("regime:" ++ _regime_tag decision)%string;
      ("rs:" ++ _relative_strength_tag decision)%string;
      ("fc:" ++ _forecast_tag decision)%string;
      ("tm:" ++ _management_style_tag decision)%string;
      ("sess:" ++ _session_tag decision)%string;
      ("db:" ++ _debate_tag decision)%string;
      ("opt:" ++ _options_tag decision)%string;
      ("tier:" ++ tier_tag decision)%string;
      ("evt:" ++ _event_tag decision)%string].

Definition setup_key_from_tags (tags : list string) : string :=
  match tags with [] => "unknown"%string | _ => str_join "|" tags end.

(** ** The fingerprint is low-cardinality *)

(** Every value each dimension can take, in tag order, after the direction. *)
Definition TAG_DIMENSIONS : list (string * list string) :=
  [("macro:", ["against"; "aligned"; "unknown"; "neutral"]); ("pred:", ["aligned"; "conflict"; "na"]);
   ("va:", ["above"; "inside"; "below"; "unknown"]); ("regime:", REGIME_TAG_VALUES); ("rs:", RS_TAG_VALUES);
   ("fc:", FC_TAG_VALUES); ("tm:", MANAGEMENT_STYLE_TAGS); ("sess:", SESS_TAG_VALUES);
   ("db:", DB_TAG_VALUES); ("opt:", OPT_TAG_VALUES); ("tier:", TIER_TAG_VALUES); ("evt:", EVT_TAG_VALUES)]%string.

Definition tag_in (dim : string * list string) (tag : string) : Prop :=
  exists v, In v dim.2 /\ tag = (dim.1 ++ v)%string.

Lemma try_any_In (m : res string) k l :
  In k l -> (forall v, m = Ok v -> In v l) -> In (try_any m k) l.
Proof. destruct m; simpl; auto. Qed.

Lemma guard_in v l (k : string) : In k l -> In (if str_in v l then v else k) l.
Proof. intros Hk. destruct (str_in v l) eqn:E; [by apply str_in_In|done]. Qed.

(** Proves that a collapse only yields listed values. *)
Ltac in_enum :=
  apply try_any_In; [simpl; tauto|]; let v := fresh "v" in intros v H; mbind H;
  repeat case_match; simplify_eq;
  repeat match goal with
  | H : (_ && _)%bool = true |- _ => apply andb_true_iff in H as [? ?]
  | H : str_in ?v ?l = true |- In ?v ?l => by apply str_in_In
  end;
  try (simpl; tauto).

Lemma regime_tag_in d : In (_regime_tag d) REGIME_TAG_VALUES.
Proof. unfold _regime_tag. in_enum. Qed.

Lemma relative_strength_tag_in d : In (_relative_strength_tag d) RS_TAG_VALUES.
Proof. unfold _relative_strength_tag. in_enum. Qed.

Lemma forecast_tag_in d : In (_forecast_tag d) FC_TAG_VALUES.
Proof.
  unfold _forecast_tag. apply try_any_In; [simpl; tauto|]. intros v H. mbind H.
  destruct (available_entry a); [|injection H as <-; simpl; tauto]. mbind H.
  destruct a0; [|injection H as <-; simpl; tauto]. mbind H. mbind H. mbind H. apply Ok_inj in H. subst v.
  apply guard_in. simpl; tauto.
Qed.

Lemma management_style_tag_in d : In (_management_style_tag d) MANAGEMENT_STYLE_TAGS.
Proof. unfold _management_style_tag. in_enum. Qed.

Lemma session_tag_in d : In (_session_tag d) SESS_TAG_VALUES.
Proof. unfold _session_tag. in_enum. Qed.

Lemma debate_tag_in d : In (_debate_tag d) DB_TAG_VALUES.
Proof.
  unfold _debate_tag. in_enum.
  match goal with H : str_in _ _ = true |- _ => apply str_in_In in H; simpl in H |- *; tauto end.
Qed.

Lemma options_tag_in d : In (_options_tag d) OPT_TAG_VALUES.
Proof. unfold _options_tag. in_enum. Qed.

Lemma event_tag_in d : In (_event_tag d) EVT_TAG_VALUES.
Proof.
  unfold _event_tag. in_enum.
  match goal with H : str_in _ _ = true |- _ => apply str_in_In in H; simpl in H |- *; tauto end.
Qed.

Lemma tier_tag_in d : In (tier_tag d) TIER_TAG_VALUES.
Proof.
  unfold tier_tag. destruct (dict_get _ _); try (simpl; tauto).
  destruct (str_in _ _) eqn:E; [|simpl; tauto]. apply str_in_In in E. simpl in E |- *. tauto.
Qed.

(** The setup key is low-cardinality and positional.  Whenever a
    fingerprint is produced it has exactly 13 tags in a fixed order, and after
    the direction each is one of at most 8 values of its own dimension, whatever
    the defensibility record holds. *)
Theorem derive_setup_tags_enumerated decision tags :
  derive_setup_tags decision = Ok tags ->
  exists action rest, tags = ("dir:" ++ action)%string :: rest /\
    Forall2 tag_in TAG_DIMENSIONS rest /\
    Forall (fun dim => (length dim.2 <= 8)%nat) TAG_DIMENSIONS.
Proof.
  intros H. unfold derive_setup_tags in H. mbind H. mbind H. mbind H. mbind H. mbind H. mbind H.
  injection H as <-. do 2 eexists. split; [reflexivity|]. split; [|repeat constructor; simpl; lia].
  unfold TAG_DIMENSIONS. repeat (apply Forall2_cons; split); [..|by constructor]; unfold tag_in; cbn [fst snd].
  - unfold macro_tag. repeat case_match; eexists; (split; [|reflexivity]); simpl; tauto.
  - unfold pred_tag. repeat case_match; eexists; (split; [|reflexivity]); simpl; tauto.
  - unfold va_tag. repeat case_match; eexists; (split; [|reflexivity]); simpl; tauto.
  - eexists. split; [apply regime_tag_in|reflexivity].
  - eexists. split; [apply relative_strength_tag_in|reflexivity].
  - eexists. split; [apply forecast_tag_in|reflexivity].
  - eexists. split; [apply management_style_tag_in|reflexivity].
  - eexists. split; [apply session_tag_in|reflexivity].
  - eexists. split; [apply debate_tag_in|reflexivity].
  - eexists. split; [apply options_tag_in|reflexivity].
  - eexists. split; [apply tier_tag_in|reflexivity].
  - eexists. split; [apply event_tag_in|reflexivity].
Qed.

Definition demo_decision : val :=
  VDict [(VStr "action", VStr "buy");
         (VStr "defensibility", VDict [
            (VStr "macro_trend_conflict", VStr "Aligned with the 1D trend");
            (VStr "regime", VDict [(VStr "trend_state", VStr "Ranging"); (VStr "favorability", VStr "neutral")]);
            (VStr "forecast", VDict [(VStr "forecast_alignment", VStr "aligned"); (VStr "up_probability", VFloat 0.8)])])].

Definition demo_tags : list string :=
  ["dir:BUY"; "macro:aligned"; "pred:na"; "va:unknown"; "regime:range-neutral"; "rs:unknown"; "fc:aligned-strong";
   "tm:unknown"; "sess:unknown"; "db:unknown"; "opt:unknown"; "tier:unknown"; "evt:unknown"]%string.

Lemma derive_setup_tags_enumerated_witness :
  derive_setup_tags demo_decision = Ok demo_tags /\
  exists action rest, demo_tags = ("dir:" ++ action)%string :: rest.
Proof.
  assert (derive_setup_tags demo_decision = Ok demo_tags) as H by (vm_compute; reflexivity).
  split; [exact H|]. destruct (derive_setup_tags_enumerated _ _ H) as (a & r & E & _). exact (ex_intro _ a (ex_intro _ r E)).
Defined.
