(* ===== verification/MarketTools.v ===== *)
(** * The candle tools of the agent

    Models three tools of [agents/deep-quant-loop/tools.py] that classify the candles the
    tool server returns: [get_market_regime], [get_relative_strength] and
    [get_session_context], from the arguments to the validated payload.

    The HTTP call is the parameter [fetch]: for a symbol, a timeframe and a limit, the
    text of what it raised or the decoded body.  [margin] is the import-time constant
    [RS_FETCH_MARGIN]; [log10] is [math.log10] (see [Regime]). *)

From stdpp Require Import base list strings.
From Stdlib Require Import ZArith Lia Floats Ascii.
From S2P Require Import Prelude PyFloat PyNum PyVal PyEnv PyJson PyStr PyTime PyStats Contracts EventFacts JournalTags.
From S2P Require Session Regime RelativeStrength.

Open Scope Z_scope.

Definition SUPPORTED_TIMEFRAMES : list string := ["10m"; "15m"; "1d"; "1h"; "1m"; "4h"; "5m"]%string.

(** A JSON body as candles, or the reason it holds none. *)
Definition _parse_candles_response (candles : val) (allow_empty : bool) : val + list val :=
  let no_data := inl (VStr "candle retrieval returned no usable data") in
  match candles with
  | VDict d =>
      match dict_get d "unavailable" with
      | VBool true =>
          let reason := py_or (dict_get d "reason") (VStr "candle retrieval unavailable") in
          let available := dict_get d "available" in
          let needed := dict_get d "needed" in
          if negb (is_none available) && negb (is_none needed) && negb (str_contains "available" (lower (py_str reason)))
          then inl (VStr (py_str reason ++ " (available=" ++ py_str available ++ ", needed=" ++ py_str needed ++ ")"))
          else inl reason
      | _ => no_data
      end
  | VList [] => if allow_empty then inr [] else no_data
  | VList (VDict first :: rest) =>
      if has_key "error" first then inl (VStr ("candle retrieval failed: " ++ py_str (dict_get first "error")))
      else inr (VDict first :: rest)
  | VList l => inr l
  | _ => no_data
  end.

(** The marker the three tools share. *)
Definition _regime_unavailable (symbol timeframe : string) (reason : val) : val :=
  VDict [(VStr "symbol", VStr symbol); (VStr "timeframe", VStr timeframe); (VStr "unavailable", VBool true); (VStr "reason", reason)].

Definition _session_unavailable := _regime_unavailable.

Definition _relative_strength_unavailable (symbol timeframe benchmark : string) (reason : val) : val :=
  VDict [(VStr "symbol", VStr symbol); (VStr "timeframe", VStr timeframe); (VStr "benchmark", VStr benchmark);
         (VStr "unavailable", VBool true); (VStr "reason", reason)].

Definition error_result (message : string) : val := VDict [(VStr "error", VStr message)].

(** What is wrong with the arguments of a tool. *)
Definition bad_arguments (tool symbol timeframe : string) : option val :=
  if negb (nonempty (strip symbol)) then Some (error_result (tool ++ " requires a non-empty symbol"))
  else if negb (str_in timeframe SUPPORTED_TIMEFRAMES) then
    Some (error_result (tool ++ " received unsupported timeframe '" ++ timeframe ++ "'; supported timeframes are "
                        ++ py_repr (VList (map VStr SUPPORTED_TIMEFRAMES))))
  else None.

Section tools.
Variable e : env.
Variable log10 : float -> float.
Variable fetch : string -> string -> Z -> string + val.
Variable margin : Z.
Variable tz : Session.tzdata.

Definition _fetch_candles_for_rs (symbol timeframe : string) (limit : Z) : val + list val :=
  match fetch symbol timeframe limit with
  | inl raised => inl (VStr ("candle retrieval failed: " ++ raised))
  | inr body => _parse_candles_response body false
  end.

Definition get_market_regime (symbol timeframe : string) : val :=
  match bad_arguments "get_market_regime" symbol timeframe with
  | Some error => error
  | None =>
      let config := Regime.resolve_regime_config e in
      let limit := Regime.required_candles config + Regime.vol_pctl_window config in
      match _fetch_candles_for_rs symbol timeframe limit with
      | inl reason => _regime_unavailable symbol timeframe reason
      | inr candles =>
          validate_contract "get_market_regime"
            (Regime.regime_payload (Regime.classify_regime log10 (VList candles) config) (Some symbol) (Some timeframe))
      end
  end.

Definition get_relative_strength (symbol timeframe benchmark proposed_direction : string) : val :=
  match bad_arguments "get_relative_strength" symbol timeframe with
  | Some error => error
  | None =>
      let resolved := RelativeStrength.resolve_benchmark e symbol (Some benchmark) in
      if String.eqb (upper (strip resolved)) (upper (strip symbol)) then
        _relative_strength_unavailable symbol timeframe resolved
          (VStr ("no distinct benchmark available for symbol '" ++ symbol ++ "' (resolved benchmark '" ++ resolved
                 ++ "' equals the symbol)"))
      else
        let config := RelativeStrength.resolve_rs_config e in
        let limit := RelativeStrength.required_candles config + margin in
        match _fetch_candles_for_rs symbol timeframe limit with
        | inl reason => _relative_strength_unavailable symbol timeframe resolved (VStr ("symbol " ++ py_str reason))
        | inr symbol_candles =>
            match _fetch_candles_for_rs (RelativeStrength.benchmark_candle_name resolved) timeframe limit with
            | inl reason =>
                _relative_strength_unavailable symbol timeframe resolved
                  (VStr ("benchmark '" ++ resolved ++ "' " ++ py_str reason))
            | inr benchmark_candles =>
                let direction := strip proposed_direction in
                validate_contract "get_relative_strength"
                  (RelativeStrength.rs_payload
                     (RelativeStrength.classify_relative_strength (VList symbol_candles) (VList benchmark_candles) config
                        (if nonempty direction then Some direction else None))
                     (Some symbol) (Some timeframe) (Some resolved))
            end
        end
  end.

Definition get_session_context (symbol timeframe : string) : val :=
  match bad_arguments "get_session_context" symbol timeframe with
  | Some error => error
  | None =>
      let config := Session.resolve_session_config tz e in
      match _fetch_candles_for_rs symbol timeframe 1 with
      | inl reason => _session_unavailable symbol timeframe reason
      | inr candles =>
          match last candles with
          | Some (VDict candle) =>
              validate_contract "get_session_context"
                (Session.session_payload (Session.classify_session tz (dict_get candle "timestamp_ms") config) (Some symbol)
                   (Some timeframe))
          | _ => _session_unavailable symbol timeframe (VStr "most recent candle is not an object")
          end
      end
  end.
End tools.

(** * The candle tools: properties

    Every answer of the tools passes the contract of its tool unchanged, and one that
    carries no honest marker is the label of the candles that were fetched. *)

(** ** Labels conform *)

Lemma regime_payload_conforms r symbol timeframe :
  validate_contract "get_market_regime" (Regime.regime_payload r symbol timeframe) = Regime.regime_payload r symbol timeframe.
Proof.
  destruct r as [l|reason]; [|by destruct symbol, timeframe]. unfold validate_contract. destruct (_has_honest_marker _); [done|].
  assert (contract_of "get_market_regime" (Regime.regime_payload (Regime.Label l) symbol timeframe) = Conforms) as ->; [|done].
  destruct l as [t v f [m1 m2 m3 m4 m5] n].
  by destruct t, v, f, m1, m2, m3, m4, m5.
Qed.

Lemma rs_payload_conforms r symbol timeframe benchmark :
  validate_contract "get_relative_strength" (RelativeStrength.rs_payload r symbol timeframe (Some benchmark)) =
    RelativeStrength.rs_payload r symbol timeframe (Some benchmark).
Proof.
  destruct r as [l|reason]; [|by destruct symbol, timeframe]. unfold validate_contract. destruct (_has_honest_marker _); [done|].
  assert (contract_of "get_relative_strength" (RelativeStrength.rs_payload (RelativeStrength.Label l) symbol timeframe (Some benchmark))
    = Conforms) as ->; [|done].
  destruct l as [d st a [m1 m2 m3 m4 m5] n].
  by destruct d, st, a, m1, m2, m3, m4, m5.
Qed.

(** ** Answers *)

(** An answer of a tool is sound when it passes the tool's contract unchanged, is not
    itself a violation, and is [label]led unless it carries an honest marker. *)
Definition sound (tool : string) (label : val -> Prop) (answer : val) : Prop :=
  validate_contract tool answer = answer /\ vget answer "contract_violation" = VNone /\
  (_has_honest_marker answer = true \/ label answer).

Lemma marked_sound tool label answer :
  _has_honest_marker answer = true -> vget answer "contract_violation" = VNone -> sound tool label answer.
Proof. intros H V. split_and!; [|done|by left]. unfold validate_contract. by rewrite H. Qed.

Lemma bad_arguments_marked tool symbol timeframe error :
  bad_arguments tool symbol timeframe = Some error ->
  _has_honest_marker error = true /\ vget error "contract_violation" = VNone.
Proof. unfold bad_arguments. destruct (negb _); [by intros [= <-]|]. destruct (negb _); [by intros [= <-]|done]. Qed.

Lemma parsed_candles body l : _parse_candles_response body false = inr l -> body = VList l /\ l <> [].
Proof.
  destruct body as [| | | | | |items| | |d|]; cbn; try done.
  - destruct items as [|[| | | | | | | | |first|] items]; try done; try (by intros [= <-]). destruct (has_key "error" first); [done|]. by intros [= <-].
  - destruct (dict_get d "unavailable") as [|[]| | | | | | | | |]; try done. by destruct (_ && _).
Qed.

Section answers.
Context (e : env) (log10 : float -> float) (fetch : string -> string -> Z -> string + val) (margin : Z) (tz : Session.tzdata).

Lemma fetched_candles symbol timeframe limit l :
  _fetch_candles_for_rs fetch symbol timeframe limit = inr l -> fetch symbol timeframe limit = inr (VList l) /\ l <> [].
Proof.
  unfold _fetch_candles_for_rs. destruct (fetch symbol timeframe limit) as [raised|body]; [done|].
  intros [-> H]%parsed_candles. by split.
Qed.

(** The label of the candles fetched for a symbol. *)
Definition regime_answer (symbol timeframe : string) (answer : val) : Prop :=
  let config := Regime.resolve_regime_config e in
  exists candles l, fetch symbol timeframe (Regime.required_candles config + Regime.vol_pctl_window config) = inr (VList candles) /\ candles <> [] /\
    Regime.classify_regime log10 (VList candles) config = Regime.Label l /\
    answer = Regime.regime_payload (Regime.Label l) (Some symbol) (Some timeframe).

Definition strength_answer (symbol timeframe benchmark direction : string) (answer : val) : Prop :=
  let config := RelativeStrength.resolve_rs_config e in
  let resolved := RelativeStrength.resolve_benchmark e symbol (Some benchmark) in
  let limit := RelativeStrength.required_candles config + margin in
  exists candles benchmark_candles l, fetch symbol timeframe limit = inr (VList candles) /\ candles <> [] /\
    fetch (RelativeStrength.benchmark_candle_name resolved) timeframe limit = inr (VList benchmark_candles) /\ benchmark_candles <> [] /\
    upper (strip resolved) <> upper (strip symbol) /\
    RelativeStrength.classify_relative_strength (VList candles) (VList benchmark_candles) config
      (if nonempty (strip direction) then Some (strip direction) else None) = RelativeStrength.Label l /\
    answer = RelativeStrength.rs_payload (RelativeStrength.Label l) (Some symbol) (Some timeframe) (Some resolved).

Definition session_answer (symbol timeframe : string) (answer : val) : Prop :=
  exists candles candle l, fetch symbol timeframe 1 = inr (VList candles) /\ candles <> [] /\ last candles = Some (VDict candle) /\
    Session.classify_session tz (dict_get candle "timestamp_ms") (Session.resolve_session_config tz e) = Session.Label l /\
    answer = Session.session_payload (Session.Label l) (Some symbol) (Some timeframe).

Lemma regime_sound symbol timeframe :
  sound "get_market_regime" (regime_answer symbol timeframe) (get_market_regime e log10 fetch symbol timeframe).
Proof.
  unfold get_market_regime. destruct (bad_arguments _ _ _) as [error|] eqn:B; [by apply bad_arguments_marked in B as [??]; apply marked_sound|].
  cbn zeta. destruct (_fetch_candles_for_rs _ _ _ _) as [reason|candles] eqn:F; [by apply marked_sound|].
  apply fetched_candles in F as [F N]. rewrite regime_payload_conforms.
  destruct (Regime.classify_regime _ _ _) as [l|reason] eqn:C; [|by apply marked_sound].
  split_and!; [apply regime_payload_conforms|by destruct l|]. right. by exists candles, l.
Qed.

Lemma strength_sound symbol timeframe benchmark direction :
  sound "get_relative_strength" (strength_answer symbol timeframe benchmark direction)
    (get_relative_strength e fetch margin symbol timeframe benchmark direction).
Proof.
  unfold get_relative_strength.
  destruct (bad_arguments _ _ _) as [error|] eqn:B; [by apply bad_arguments_marked in B as [??]; apply marked_sound|]. cbn zeta.
  destruct (String.eqb_spec (upper (strip (RelativeStrength.resolve_benchmark e symbol (Some benchmark)))) (upper (strip symbol)));
    [by apply marked_sound|].
  destruct (_fetch_candles_for_rs fetch symbol _ _) as [reason|candles] eqn:F1; [by apply marked_sound|].
  destruct (_fetch_candles_for_rs fetch (RelativeStrength.benchmark_candle_name _) _ _) as [reason|bench] eqn:F2; [by apply marked_sound|].
  apply fetched_candles in F1 as [F1 N1], F2 as [F2 N2]. rewrite rs_payload_conforms.
  destruct (RelativeStrength.classify_relative_strength _ _ _ _) as [l|reason] eqn:C; [|by apply marked_sound].
  split_and!; [apply rs_payload_conforms|by destruct l|]. right. by exists candles, bench, l.
Qed.

Lemma session_sound symbol timeframe :
  sound "get_session_context" (session_answer symbol timeframe) (get_session_context e fetch tz symbol timeframe).
Proof.
  unfold get_session_context. destruct (bad_arguments _ _ _) as [error|] eqn:B; [by apply bad_arguments_marked in B as [??]; apply marked_sound|].
  cbn zeta. destruct (_fetch_candles_for_rs _ _ _ _) as [reason|candles] eqn:F; [by apply marked_sound|].
  apply fetched_candles in F as [F N]. destruct (last candles) as [[]|] eqn:L; try by apply marked_sound.
  rewrite session_payload_conforms.
  destruct (Session.classify_session _ _ _) as [lb|reason] eqn:C; [|by apply marked_sound].
  split_and!; [apply session_payload_conforms|by destruct lb|]. right. by eexists _, _, _.
Qed.
End answers.

(** C28: What the candle tools answer is sound: whatever the environment, the tool server and
    the arguments, every answer passes the contract of its tool unchanged and is never a
    contract violation; and an answer without an honest marker is the label computed from
    the non-empty lists of candles that were fetched, of the symbol and, for the relative
    strength, of a benchmark whose name is not the symbol's, blanks and case apart.  The
    names are all that is compared: an index under its other name is still measured
    against its own series (a recorded finding). *)
Theorem candle_tools_sound e log10 fetch margin tz symbol timeframe benchmark direction :
  sound "get_market_regime" (regime_answer e log10 fetch symbol timeframe) (get_market_regime e log10 fetch symbol timeframe) /\
  sound "get_relative_strength" (strength_answer e fetch margin symbol timeframe benchmark direction)
    (get_relative_strength e fetch margin symbol timeframe benchmark direction) /\
  sound "get_session_context" (session_answer e fetch tz symbol timeframe) (get_session_context e fetch tz symbol timeframe).
Proof. split_and!; [apply regime_sound|apply strength_sound|apply session_sound]. Qed.

(** ** Examples *)

Definition price_row (i : nat) : val :=
  let p := (100 + f_of_nat (i * i))%float in
  VDict [(VStr "timestamp_ms", VInt (Z.of_nat i)); (VStr "open", VFloat p); (VStr "high", VFloat p); (VStr "low", VFloat p);
         (VStr "close", VFloat p); (VStr "volume", VInt 1)].

(** A server that has one series, whatever name it is asked for. *)
Definition one_series (symbol timeframe : string) (limit : Z) : string + val := inr (VList (map price_row (seq 0 (Z.to_nat limit)))).

Definition no_zones : Session.tzdata := fun _ => None.

(** The guard compares the names, not the series behind them: the bank index, stored as
    NIFTY BANK, is measured against itself under its other name. *)
Example own_series_is_measured :
  let answer := get_relative_strength (fun _ => None) one_series 20 "NIFTY BANK" "5m" "BANKNIFTY" "BUY" in
  RelativeStrength.benchmark_candle_name "BANKNIFTY" = "NIFTY BANK"%string /\
  vget answer "relative_strength_state" = VStr "inline" /\ vget answer "benchmark" = VStr "BANKNIFTY" /\
  vget (get_relative_strength (fun _ => None) one_series 20 "BANKNIFTY" "5m" "bankNifty" "BUY") "unavailable" = VBool true.
Proof. vm_compute. repeat split. Qed.
