(* ===== verification/OrderFlow.v ===== *)
(** * Order flow

    Models [agents/deep-quant-loop/order_flow.py]: its parameters, the candle proxies
    (close location, delta, cumulative delta, up and down volume, buying pressure), the
    order-flow imbalance of a tick sequence, the state and its alignment. *)

From stdpp Require Import base list strings.
From Stdlib Require Import ZArith Lia Floats.
From S2P Require Import Prelude PyFloat PyRound PyNum PyVal PyEnv PyStr PyStats.

#[local] Set Warnings "-inexact-float".
Open Scope Z_scope.
Open Scope res_scope.

(** ** Parameters *)

Definition DEFAULT_OF_LOOKBACK := 20.
Definition DEFAULT_OF_MIN_CANDLES := 20.
Definition DEFAULT_OF_BUY_PRESSURE_THRESHOLD : float := 0.58.
Definition DEFAULT_OF_SELL_PRESSURE_THRESHOLD : float := 0.42.
Definition DEFAULT_OF_OFI_BUY_THRESHOLD : float := 0.2.
Definition DEFAULT_OF_OFI_SELL_THRESHOLD : float := -0.2.
Definition DEFAULT_OF_MIN_TICKS := 10.
Definition _PERIOD_MIN := 2.

Record OrderFlowConfig := {
  lookback : Z; min_candles : Z;
  buy_pressure_threshold : float; sell_pressure_threshold : float;
  ofi_buy_threshold : float; ofi_sell_threshold : float;
  min_ticks : Z;
}.

Definition largest_lookback (c : OrderFlowConfig) : Z := Z.max (lookback c) (min_candles c).

Definition resolve_order_flow_config (e : env) : OrderFlowConfig :=
  let buy := resolve_float_band e "OF_BUY_PRESSURE_THRESHOLD" DEFAULT_OF_BUY_PRESSURE_THRESHOLD 0 1 in
  let sell := resolve_float_band e "OF_SELL_PRESSURE_THRESHOLD" DEFAULT_OF_SELL_PRESSURE_THRESHOLD 0 1 in
  let ofi_buy := resolve_float_band e "OF_OFI_BUY_THRESHOLD" DEFAULT_OF_OFI_BUY_THRESHOLD (-1) 1 in
  let ofi_sell := resolve_float_band e "OF_OFI_SELL_THRESHOLD" DEFAULT_OF_OFI_SELL_THRESHOLD (-1) 1 in
  let pressure_swapped := PrimFloat.leb buy sell in
  let ofi_swapped := PrimFloat.leb ofi_buy ofi_sell in
  {| lookback := resolve_int_min e "OF_LOOKBACK" DEFAULT_OF_LOOKBACK _PERIOD_MIN;
     min_candles := resolve_int_min e "OF_MIN_CANDLES" DEFAULT_OF_MIN_CANDLES _PERIOD_MIN;
     buy_pressure_threshold := if pressure_swapped then DEFAULT_OF_BUY_PRESSURE_THRESHOLD else buy;
     sell_pressure_threshold := if pressure_swapped then DEFAULT_OF_SELL_PRESSURE_THRESHOLD else sell;
     ofi_buy_threshold := if ofi_swapped then DEFAULT_OF_OFI_BUY_THRESHOLD else ofi_buy;
     ofi_sell_threshold := if ofi_swapped then DEFAULT_OF_OFI_SELL_THRESHOLD else ofi_sell;
     min_ticks := resolve_int_min e "OF_MIN_TICKS" DEFAULT_OF_MIN_TICKS _PERIOD_MIN |}.

(** ** Candles *)

(** The validated fields of one candle. *)
Record ohlcv := { c_open : float; c_high : float; c_low : float; c_close : float; c_volume : float }.

Definition _is_finite_number : val -> res bool := finite_number.

Definition _parse_ohlcv (candle : val) : res (option ohlcv) :=
  match candle with
  | VDict d =>
      let o := dict_get d "open" in
      let h := dict_get d "high" in
      let low := dict_get d "low" in
      let c := dict_get d "close" in
      let v := dict_get d "volume" in
      stated ← andM (_is_finite_number o) (andM (_is_finite_number h)
                 (andM (_is_finite_number low) (andM (_is_finite_number c) (_is_finite_number v))));
      if negb stated then Ok None
      else
        o ← py_float o; h ← py_float h; low ← py_float low; c ← py_float c; v ← py_float v;
        Ok (Some {| c_open := o; c_high := h; c_low := low; c_close := c; c_volume := v |})
  | _ => Ok None
  end.

(** What a sequence holds that parses; what cannot be iterated holds nothing. *)
Definition parsed_rows {A} (parse : val -> res (option A)) (v : val) : res (list A) :=
  match py_iter v with
  | Raise _ => Ok []
  | Ok l => parsed ← mapM_res parse l; Ok (somes parsed)
  end.

Definition _valid_ohlcv_rows (candles : val) : res (list ohlcv) := parsed_rows _parse_ohlcv candles.

Definition _valid_period (period : Z) : bool := 1 <=? period.

Definition _clamp : float -> float -> float -> float := clamp.

(** ** Candle proxies *)

Definition _clv_from_row (row : ohlcv) : option float :=
  if PrimFloat.eqb (c_high row) (c_low row) then None
  else Some (_clamp (((c_close row - c_low row) - (c_high row - c_close row)) / (c_high row - c_low row))%float (-1) 1).

Definition delta_of (row : ohlcv) : option float := match _clv_from_row row with Some clv => Some (clv * c_volume row)%float | None => None end.

Definition compute_close_location_value (candle : val) : res (option float) :=
  parsed ← _parse_ohlcv candle; Ok (match parsed with Some row => _clv_from_row row | None => None end).

Definition compute_candle_delta_proxy (candle : val) : res (option float) :=
  parsed ← _parse_ohlcv candle; Ok (match parsed with Some row => delta_of row | None => None end).

Definition cumulative_delta (window : list ohlcv) : float :=
  fold_left (fun total row => match delta_of row with Some d => (total + d)%float | None => total end) window 0%float.

Definition compute_cvd_proxy (candles : val) (lookback : Z) : res (option float) :=
  if negb (_valid_period lookback) then Ok None
  else
    rows ← _valid_ohlcv_rows candles;
    Ok (match rows with [] => None | _ => Some (cumulative_delta (last_n (Z.to_nat lookback) rows)) end).

Definition add_up_down (volumes : float * float) (row : ohlcv) : float * float :=
  if PrimFloat.ltb (c_open row) (c_close row) then ((volumes.1 + c_volume row)%float, volumes.2)
  else if PrimFloat.ltb (c_close row) (c_open row) then (volumes.1, (volumes.2 + c_volume row)%float)
  else volumes.

Definition compute_up_down_volume (candles : val) (lookback : Z) : res (float * float) :=
  if negb (_valid_period lookback) then Ok (0, 0)%float
  else
    rows ← _valid_ohlcv_rows candles;
    Ok (fold_left add_up_down (last_n (Z.to_nat lookback) rows) (0, 0)%float).

Definition pressure_of (volumes : float * float) : option float :=
  let total := (volumes.1 + volumes.2)%float in
  if PrimFloat.eqb total 0 then None else Some (_clamp (volumes.1 / total)%float 0 1).

Definition compute_buying_pressure_ratio (candles : val) (lookback : Z) : res (option float) :=
  volumes ← compute_up_down_volume candles lookback; Ok (pressure_of volumes).

(** ** Ticks *)

Record tick := { t_price : float; t_volume : float; t_bid : float; t_ask : float }.

Definition _QUOTE_ABSENT : float := 0.
Definition _OFI_TOTAL_VOLUME_EPSILON : float := 1e-6.

Definition _coerce_finite_number (value : val) : res (option float) :=
  known ← _is_finite_number value; if known : bool then x ← py_float value; Ok (Some x) else Ok None.

(** [get(k, otherwise)]: the default of a key that is absent, not of a null one. *)
Definition get_or (d : list (val * val)) (k : string) (otherwise : val) : val := default otherwise (dict_find k d).

Definition tick_of (price volume bid ask : val) : res (option tick) :=
  last_price ← _coerce_finite_number price;
  volume ← _coerce_finite_number volume;
  bid ← _coerce_finite_number bid;
  ask ← _coerce_finite_number ask;
  match last_price, volume return res (option tick) with
  | Some p, Some v => Ok (Some {| t_price := p; t_volume := v; t_bid := default _QUOTE_ABSENT bid; t_ask := default _QUOTE_ABSENT ask |})
  | _, _ => Ok None
  end.

Definition _parse_tick (t : val) : res (option tick) :=
  match t with
  | VDict d =>
      tick_of (get_or d "last_price" (get_or d "last_traded_price" (dict_get d "ltp"))) (get_or d "volume" (dict_get d "cumulative_volume"))
        (get_or d "best_bid" (dict_get d "bid")) (get_or d "best_ask" (dict_get d "ask"))
  | VStr _ | VBytes _ => Ok None
  | _ =>
      match py_iter t with
      | Ok (price :: volume :: quotes) => tick_of price volume (default VNone (quotes !! 0%nat)) (default VNone (quotes !! 1%nat))
      | _ => Ok None
      end
  end.

Definition _usable_ticks (ticks : val) : res (list tick) := parsed_rows _parse_tick ticks.

(** The tick rule: the sign of the price change, the last one when there is none. *)
Definition tick_sign (last_sign : float) (prev t : tick) : float :=
  let dp := (t_price t - t_price prev)%float in
  if PrimFloat.ltb 0 dp then 1%float else if PrimFloat.ltb dp 0 then (-1)%float else last_sign.

(** The side of the quote midpoint the trade is on, where the quote is one. *)
Definition refined_sign (sign : float) (t : tick) : float :=
  if PrimFloat.ltb 0 (t_bid t) && PrimFloat.ltb 0 (t_ask t) && PrimFloat.leb (t_bid t) (t_ask t) then
    let mid := ((t_bid t + t_ask t) / 2)%float in
    if PrimFloat.ltb mid (t_price t) then 1%float else if PrimFloat.ltb (t_price t) mid then (-1)%float else sign
  else sign.

Record imbalance := { signed_vol : float; total_vol : float; last_sign : float }.

(** Only a tick that traded counts. *)
Definition add_tick (acc : imbalance) (prev t : tick) : imbalance :=
  let dv := (t_volume t - t_volume prev)%float in
  if PrimFloat.leb dv 0 then acc
  else
    let sign := tick_sign (last_sign acc) prev t in
    {| signed_vol := (signed_vol acc + refined_sign sign t * dv)%float; total_vol := (total_vol acc + dv)%float; last_sign := sign |}.

Fixpoint add_ticks (acc : imbalance) (prev : tick) (ticks : list tick) : imbalance :=
  match ticks with [] => acc | t :: ticks' => add_ticks (add_tick acc prev t) t ticks' end.

Definition no_imbalance : imbalance := {| signed_vol := 0; total_vol := 0; last_sign := 1 |}.

Definition imbalance_of (rows : list tick) : imbalance :=
  match rows with [] => no_imbalance | t :: rows' => add_ticks no_imbalance t rows' end.

Definition ofi_of (acc : imbalance) : option float :=
  if PrimFloat.ltb (total_vol acc) _OFI_TOTAL_VOLUME_EPSILON then None
  else
    let ofi := _clamp (signed_vol acc / total_vol acc)%float (-1) 1 in
    if is_finite ofi then Some ofi else None.

Definition compute_tick_ofi (ticks : val) (config : OrderFlowConfig) : res (option float) :=
  rows ← _usable_ticks ticks;
  Ok (if Z.of_nat (length rows) <? min_ticks config then None else ofi_of (imbalance_of rows)).

(** ** State and alignment *)

Inductive order_flow_state := BUYING | SELLING | BALANCED.
Inductive alignment := ALIGNED | MISALIGNED | NEUTRAL.

Definition state_name (s : order_flow_state) : string := match s with BUYING => "buying" | SELLING => "selling" | BALANCED => "balanced" end.
Definition alignment_name (a : alignment) : string :=
  match a with ALIGNED => "aligned" | MISALIGNED => "misaligned" | NEUTRAL => "neutral" end.

(** The state of a reading between its two thresholds. *)
Definition state_between (x buy sell : float) : order_flow_state :=
  if PrimFloat.leb buy x then BUYING else if PrimFloat.leb x sell then SELLING else BALANCED.

Definition classify_order_flow_state (tick_ofi buying_pressure_ratio : option float) (config : OrderFlowConfig) : order_flow_state :=
  let by_pressure :=
    match buying_pressure_ratio with
    | None => BALANCED
    | Some r => state_between r (buy_pressure_threshold config) (sell_pressure_threshold config)
    end in
  match tick_ofi with
  | Some x => if is_finite x then state_between x (ofi_buy_threshold config) (ofi_sell_threshold config) else by_pressure
  | None => by_pressure
  end.

Definition _ALIGNMENT_BUY (s : order_flow_state) : alignment := match s with BUYING => ALIGNED | SELLING => MISALIGNED | BALANCED => NEUTRAL end.
Definition _ALIGNMENT_SELL (s : order_flow_state) : alignment := match s with SELLING => ALIGNED | BUYING => MISALIGNED | BALANCED => NEUTRAL end.

Definition derive_alignment (s : order_flow_state) (proposed_direction : option string) : alignment :=
  let direction := upper (strip (default ""%string proposed_direction)) in
  if String.eqb direction "BUY" then _ALIGNMENT_BUY s
  else if String.eqb direction "SELL" then _ALIGNMENT_SELL s
  else NEUTRAL.

(** ** The label *)

Record of_measures := {
  m_candle_delta : option float;
  m_cvd_proxy : option float;
  m_up_volume : float;
  m_down_volume : float;
  m_buying_pressure_ratio : option float;
}.

Record of_label := {
  of_state : order_flow_state;
  of_alignment : alignment;
  of_measured : of_measures;
  of_tick_ofi : option float;
  of_candles_used : Z;
  of_ticks_used : Z;
}.

Inductive of_result := Label (l : of_label) | Unavailable (reason : string).

(** The proxies of candles that have valid rows. *)
Definition measures_of (candles : val) (rows : list ohlcv) (config : OrderFlowConfig) : res of_measures :=
  match last rows return res of_measures with
  | None => Raise IndexError
  | Some row =>
      cvd_proxy ← compute_cvd_proxy candles (lookback config);
      volumes ← compute_up_down_volume candles (lookback config);
      ratio ← compute_buying_pressure_ratio candles (lookback config);
      Ok {| m_candle_delta := delta_of row; m_cvd_proxy := cvd_proxy; m_up_volume := volumes.1; m_down_volume := volumes.2;
            m_buying_pressure_ratio := ratio |}
  end.

Definition no_reading (m : of_measures) (tick_ofi : option float) : bool :=
  match m_candle_delta m, m_cvd_proxy m, m_buying_pressure_ratio m, tick_ofi with None, None, None, None => true | _, _, _, _ => false end.

Definition label_of (m : of_measures) (tick_ofi : option float) (proposed_direction : option string) (candles_used ticks_used : Z)
    (config : OrderFlowConfig) : of_label :=
  let state := classify_order_flow_state tick_ofi (m_buying_pressure_ratio m) config in
  {| of_state := state; of_alignment := derive_alignment state proposed_direction; of_measured := m; of_tick_ofi := tick_ofi;
     of_candles_used := candles_used; of_ticks_used := ticks_used |}.

Definition classify_order_flow (candles ticks : val) (config : OrderFlowConfig) (proposed_direction : option string) : of_result :=
  match (rows ← _valid_ohlcv_rows candles;
         let valid_count := Z.of_nat (length rows) in
         if valid_count <? largest_lookback config then
           Ok (Unavailable ("insufficient data: " ++ Z_str valid_count ++ " valid candles received, "
                            ++ Z_str (largest_lookback config) ++ " required"))
         else
           m ← measures_of candles rows config;
           tick_ofi ← compute_tick_ofi ticks config;
           used ← _usable_ticks ticks;
           if no_reading m tick_ofi then Ok (Unavailable "no order-flow measure could be computed")
           else Ok (Label (label_of m tick_ofi proposed_direction valid_count (Z.of_nat (length used)) config))) with
  | Ok r => r
  | Raise ex => Unavailable ("order-flow classification error: " ++ exn_name ex)
  end.

Definition _order_flow_unavailable (reason : string) (symbol timeframe : option string) : val :=
  VDict (opt_field "symbol" symbol ++ opt_field "timeframe" timeframe ++ [(VStr "unavailable", VBool true); (VStr "reason", VStr reason)]).

Definition measures_payload (m : of_measures) : val :=
  VDict [(VStr "candle_delta", opt_float (m_candle_delta m)); (VStr "cvd_proxy", opt_float (m_cvd_proxy m));
         (VStr "up_volume", VFloat (m_up_volume m)); (VStr "down_volume", VFloat (m_down_volume m));
         (VStr "buying_pressure_ratio", opt_float (m_buying_pressure_ratio m))].

(** The dictionary the calculator returns. *)
Definition of_payload (r : of_result) (symbol timeframe : option string) : val :=
  match r with
  | Unavailable reason => _order_flow_unavailable reason symbol timeframe
  | Label l =>
      VDict ([(VStr "order_flow_state", VStr (state_name (of_state l))); (VStr "alignment", VStr (alignment_name (of_alignment l)));
              (VStr "measures", measures_payload (of_measured l)); (VStr "tick_ofi", opt_float (of_tick_ofi l));
              (VStr "live_tick_contributed", VBool (match of_tick_ofi l with Some _ => true | None => false end))]
             ++ opt_field "symbol" symbol ++ opt_field "timeframe" timeframe
             ++ [(VStr "candles_used", VInt (of_candles_used l)); (VStr "ticks_used", VInt (of_ticks_used l))])
  end.

(** * Order flow: properties

    What an order-flow label says of its candles and ticks: the gate, the bands of its
    readings, the reading its state is of, and the alignment with a direction.  Examples
    show a tick that takes the candle layer down with it, and a signed volume. *)

(** ** Configuration *)

Lemma pressure_thresholds_ordered e :
  PrimFloat.leb (buy_pressure_threshold (resolve_order_flow_config e)) (sell_pressure_threshold (resolve_order_flow_config e)) = false.
Proof.
  unfold resolve_order_flow_config. cbn [buy_pressure_threshold sell_pressure_threshold].
  match goal with |- context [if ?b then _ else _] => by destruct b eqn:E end.
Qed.

Lemma ofi_thresholds_ordered e :
  PrimFloat.leb (ofi_buy_threshold (resolve_order_flow_config e)) (ofi_sell_threshold (resolve_order_flow_config e)) = false.
Proof.
  unfold resolve_order_flow_config. cbn [ofi_buy_threshold ofi_sell_threshold].
  match goal with |- context [if ?b then _ else _] => by destruct b eqn:E end.
Qed.

(** ** Readings *)

Definition within (low high x : float) : Prop := PrimFloat.leb low x = true /\ PrimFloat.leb x high = true.

Lemma ofi_within ticks config x : compute_tick_ofi ticks config = Ok (Some x) -> is_finite x = true /\ within (-1) 1 x.
Proof.
  unfold compute_tick_ofi. intros H. apply bind_Ok in H as (rows & _ & H). apply Ok_inj in H. destruct (_ <? _); [done|].
  unfold ofi_of in H. destruct (PrimFloat.ltb _ _); [done|]. cbn zeta in H. destruct (is_finite _) eqn:F; [|done]. injection H as <-.
  split; [done|]. destruct (clamp_band (signed_vol (imbalance_of rows) / total_vol (imbalance_of rows))%float (-1) 1) as [N|B]; [done| |exact B].
  apply fin_not_nan in F. unfold _clamp in F. congruence.
Qed.

Lemma ratio_band candles n o : compute_buying_pressure_ratio candles n = Ok o -> in_band 0 1 o.
Proof.
  unfold compute_buying_pressure_ratio. intros H. apply bind_Ok in H as (v & _ & H). apply Ok_inj in H as <-. unfold pressure_of. cbn zeta.
  destruct (PrimFloat.eqb _ _); [done|]. by apply clamp_band.
Qed.

(** Candles that have valid rows have measures, the cumulative delta among them. *)
Lemma measures_exist candles rows config :
  _valid_ohlcv_rows candles = Ok rows -> rows <> [] -> 1 <= lookback config ->
  exists m row, last rows = Some row /\ measures_of candles rows config = Ok m /\
    let window := last_n (Z.to_nat (lookback config)) rows in
    let volumes := fold_left add_up_down window (0, 0)%float in
    m = {| m_candle_delta := delta_of row; m_cvd_proxy := Some (cumulative_delta window); m_up_volume := volumes.1;
           m_down_volume := volumes.2; m_buying_pressure_ratio := pressure_of volumes |}.
Proof.
  intros Hr Hne Hl. unfold measures_of, compute_buying_pressure_ratio, compute_up_down_volume, compute_cvd_proxy, _valid_period.
  destruct (last rows) as [row|] eqn:L; [|by apply last_None in L]. destruct (Z.leb_spec 1 (lookback config)); [|lia].
  cbn [negb]. rewrite Hr. cbn beta iota delta [mbind res_bind]. destruct rows as [|r rows']; [done|]. by eexists _, row.
Qed.

(** ** States *)

(** What the state is read from: the tick imbalance where there is one, else the
    buying pressure; with the thresholds of each. *)
Definition reading (l : of_label) (config : OrderFlowConfig) : option (float * float * float) :=
  match of_tick_ofi l with
  | Some x => Some (x, ofi_buy_threshold config, ofi_sell_threshold config)
  | None =>
      match m_buying_pressure_ratio (of_measured l) with
      | Some r => Some (r, buy_pressure_threshold config, sell_pressure_threshold config)
      | None => None
      end
  end.

Definition buying (l : of_label) (config : OrderFlowConfig) : Prop :=
  exists x buy sell, reading l config = Some (x, buy, sell) /\ PrimFloat.leb buy x = true.

Definition selling (l : of_label) (config : OrderFlowConfig) : Prop :=
  exists x buy sell, reading l config = Some (x, buy, sell) /\ PrimFloat.leb x sell = true.

(** Where the thresholds are in order no reading is at both. *)
Lemma one_side x buy sell : PrimFloat.leb buy sell = false -> is_nan buy = false -> is_nan sell = false ->
  PrimFloat.leb buy x = true -> PrimFloat.leb x sell = false.
Proof.
  rewrite !leb_rank. intros H Nb Ns. rewrite Nb, Ns in *. cbn in *. destruct (is_nan x); [done|]. cbn.
  apply Z.leb_gt in H. intros L%Z.leb_le. apply Z.leb_gt. lia.
Qed.

(** The thresholds are numbers, and in order. *)
Definition ordered (config : OrderFlowConfig) : Prop :=
  is_nan (buy_pressure_threshold config) = false /\ is_nan (sell_pressure_threshold config) = false /\
  is_nan (ofi_buy_threshold config) = false /\ is_nan (ofi_sell_threshold config) = false /\
  PrimFloat.leb (buy_pressure_threshold config) (sell_pressure_threshold config) = false /\
  PrimFloat.leb (ofi_buy_threshold config) (ofi_sell_threshold config) = false.

Lemma resolved_number e n d low high : is_nan low = false -> is_nan high = false -> PyEnv.in_band low high d = true ->
  is_nan (resolve_float_band e n d low high) = false.
Proof.
  intros Hl Hh Hd. pose proof (resolve_float_band_in e n d low high Hl Hh Hd) as H. unfold PyEnv.in_band in H.
  rewrite !andb_true_iff in H. destruct H as [[F _] _]. by apply fin_not_nan.
Qed.

Lemma config_ordered e : ordered (resolve_order_flow_config e).
Proof.
  unfold ordered. split_and!; [| | | |apply pressure_thresholds_ordered|apply ofi_thresholds_ordered];
    unfold resolve_order_flow_config; cbn [buy_pressure_threshold sell_pressure_threshold ofi_buy_threshold ofi_sell_threshold];
    match goal with |- context [if ?b then _ else _] => destruct b end; try done; apply resolved_number; by vm_compute.
Qed.

Lemma state_between_exact x buy sell :
  is_nan buy = false -> is_nan sell = false -> PrimFloat.leb buy sell = false ->
  (state_between x buy sell = BUYING <-> PrimFloat.leb buy x = true) /\ (state_between x buy sell = SELLING <-> PrimFloat.leb x sell = true).
Proof.
  intros Nb Ns O. unfold state_between. destruct (PrimFloat.leb buy x) eqn:E.
  - rewrite (one_side x buy sell) by done. by split.
  - destruct (PrimFloat.leb x sell); by split.
Qed.

Lemma label_state m tick_ofi direction n k config :
  ordered config -> (forall x, tick_ofi = Some x -> is_finite x = true) ->
  let l := label_of m tick_ofi direction n k config in
  (of_state l = BUYING <-> buying l config) /\ (of_state l = SELLING <-> selling l config).
Proof.
  intros (N1 & N2 & N3 & N4 & O1 & O2) F l. unfold buying, selling, reading, l, label_of. cbn [of_state of_tick_ofi of_measured].
  unfold classify_order_flow_state. destruct tick_ofi as [x|].
  - rewrite (F x eq_refl). destruct (state_between_exact x _ _ N3 N4 O2) as [-> ->].
    split; (split; [intros H; by eexists _, _, _|by intros (? & ? & ? & [= <- <- <-] & ?)]).
  - destruct (m_buying_pressure_ratio m) as [r|]; [|by split; (split; [done|by intros (? & ? & ? & ? & _)])].
    destruct (state_between_exact r _ _ N1 N2 O1) as [-> ->].
    split; (split; [intros H; by eexists _, _, _|by intros (? & ? & ? & [= <- <- <-] & ?)]).
Qed.

(** ** Alignment *)

Definition towards (direction : option string) (side : string) : Prop := upper (strip (default ""%string direction)) = side.

Lemma alignment_exact s direction :
  (derive_alignment s direction = ALIGNED <->
     (towards direction "BUY" /\ s = BUYING) \/ (towards direction "SELL" /\ s = SELLING)) /\
  (derive_alignment s direction = MISALIGNED <->
     (towards direction "BUY" /\ s = SELLING) \/ (towards direction "SELL" /\ s = BUYING)).
Proof.
  unfold derive_alignment, towards. cbn zeta. destruct (String.eqb_spec (upper (strip (default ""%string direction))) "BUY") as [->|N1].
  - destruct s; cbn; split; (split; [try done; intros _; by left|intros [[? ?]|[? ?]]; done]).
  - destruct (String.eqb_spec (upper (strip (default ""%string direction))) "SELL") as [->|N2].
    + destruct s; cbn; split; (split; [try done; intros _; by right|intros [[? ?]|[? ?]]; done]).
    + split; (split; [done|intros [[? ?]|[? ?]]; done]).
Qed.

(** ** The label *)

(** What a label says of the valid rows and the usable ticks it was computed from. *)
Definition label_exact (config : OrderFlowConfig) (direction : option string) (rows : list ohlcv) (used : list tick) (l : of_label) : Prop :=
  let window := last_n (Z.to_nat (lookback config)) rows in
  let volumes := fold_left add_up_down window (0, 0)%float in
  of_candles_used l = Z.of_nat (length rows) /\ of_ticks_used l = Z.of_nat (length used) /\
  (exists row, last rows = Some row /\ m_candle_delta (of_measured l) = delta_of row) /\
  m_cvd_proxy (of_measured l) = Some (cumulative_delta window) /\
  (m_up_volume (of_measured l), m_down_volume (of_measured l)) = volumes /\ in_band 0 1 (m_buying_pressure_ratio (of_measured l)) /\
  of_tick_ofi l = (if Z.of_nat (length used) <? min_ticks config then None else ofi_of (imbalance_of used)) /\
  (forall x, of_tick_ofi l = Some x -> is_finite x = true /\ within (-1) 1 x) /\
  (of_state l = BUYING <-> buying l config) /\ (of_state l = SELLING <-> selling l config) /\
  (of_alignment l = ALIGNED <->
     (towards direction "BUY" /\ buying l config) \/ (towards direction "SELL" /\ selling l config)) /\
  (of_alignment l = MISALIGNED <->
     (towards direction "BUY" /\ selling l config) \/ (towards direction "SELL" /\ buying l config)).

(** C36: Under any environment, candles and ticks get an order-flow label exactly when
    reading both raises nothing (it raises where a number it converts exceeds the floats)
    and there are as many valid candles as the configuration requires.  The label then counts the valid candles and usable ticks,
    its measures are those of the latest window, and its imbalance, which takes the
    configured number of usable ticks, is a finite number from -1 to 1.  Its state is
    read from the imbalance where there is one and from the buying pressure otherwise:
    buying exactly when that reading reaches its upper threshold, selling exactly when it
    reaches its lower one, never both; and a direction is aligned exactly when the state
    is on its side, misaligned exactly when it is on the other. *)
Theorem order_flow_label_exact candles ticks e direction :
  let config := resolve_order_flow_config e in
  match classify_order_flow candles ticks config direction with
  | Label l =>
      exists rows used, _valid_ohlcv_rows candles = Ok rows /\ _usable_ticks ticks = Ok used /\
        largest_lookback config <= Z.of_nat (length rows) /\ label_exact config direction rows used l /\ ~ (buying l config /\ selling l config)
  | Unavailable _ =>
      forall rows used, _valid_ohlcv_rows candles = Ok rows -> _usable_ticks ticks = Ok used ->
        Z.of_nat (length rows) < largest_lookback config
  end.
Proof.
  intros config. unfold classify_order_flow. pose proof (config_ordered e) as O. fold config in O.
  assert (2 <= lookback config) as Hl by (by apply resolve_int_min_ge).
  destruct (_valid_ohlcv_rows candles) as [rows|ex] eqn:R; [|by intros ? ? [=]]. cbn beta iota delta [mbind res_bind]. cbn zeta.
  destruct (Z.ltb_spec (Z.of_nat (length rows)) (largest_lookback config)) as [L|L]; [by intros ? ? [= <-] _|].
  assert (rows <> []) as Hne by (intros ->; change (Z.of_nat (length (@nil ohlcv))) with 0 in L; unfold largest_lookback in L; lia).
  destruct (measures_exist candles rows config R Hne ltac:(lia)) as (m & row & Hlast & -> & Hm). cbn beta iota delta [mbind res_bind].
  destruct (compute_tick_ofi ticks config) as [ofi|ex] eqn:T; unfold compute_tick_ofi in T;
    (destruct (_usable_ticks ticks) as [used|ex'] eqn:U; [|by intros ? ? _ [=]]); [|done].
  cbn beta iota delta [mbind res_bind] in T |- *. cbn zeta in Hm. apply Ok_inj in T as Hofi.
  assert (no_reading m ofi = false) as -> by (rewrite Hm; unfold no_reading; cbn; by destruct (delta_of row)).
  assert (forall x, ofi = Some x -> is_finite x = true /\ within (-1) 1 x) as F.
  { intros x ->. apply (ofi_within ticks config). unfold compute_tick_ofi. by rewrite U. }
  destruct (label_state m ofi direction (Z.of_nat (length rows)) (Z.of_nat (length used)) config O (fun x E => proj1 (F x E))) as [B S].
  set (l := label_of _ _ _ _ _ _) in *. exists rows, used. split_and!; try done.
  - unfold label_exact. destruct (alignment_exact (of_state l) direction) as [A M].
    change (derive_alignment (of_state l) direction) with (of_alignment l) in A, M. rewrite B, S in A. rewrite B, S in M.
    split_and!; try done.
    + exists row. split; [done|]. by unfold l; rewrite Hm.
    + by unfold l; rewrite Hm.
    + unfold l; rewrite Hm. cbn. by destruct (fold_left _ _ _).
    + unfold l; rewrite Hm. cbn. unfold pressure_of. cbn zeta. destruct (PrimFloat.eqb _ _); [done|]. by apply clamp_band.
  - intros [HB HS]. apply B in HB. apply S in HS. congruence.
Qed.

(** ** Examples *)

Definition candle (o h l c v : Z) : val :=
  VDict [(VStr "open", VInt o); (VStr "high", VInt h); (VStr "low", VInt l); (VStr "close", VInt c); (VStr "volume", VInt v)].

Definition quote (price volume : val) : val := VDict [(VStr "last_price", price); (VStr "volume", volume)].

Definition defaults : OrderFlowConfig := resolve_order_flow_config (fun _ => None).

Definition rising : val := VList (repeat (candle 100 102 100 101 10) 20).

Definition tape (n : nat) : list val := map (fun i => quote (VInt (100 - Z.of_nat i)) (VInt (Z.of_nat i))) (seq 0 n).

Definition state_of (r : of_result) : option (order_flow_state * alignment) :=
  match r with Label l => Some (of_state l, of_alignment l) | Unavailable _ => None end.

(** The tape overrides the candles once it has enough ticks. *)
Example tape_overrides_candles :
  state_of (classify_order_flow rising (VList (tape 9)) defaults (Some " buy "%string)) = Some (BUYING, ALIGNED) /\
  state_of (classify_order_flow rising (VList (tape 10)) defaults (Some " buy "%string)) = Some (SELLING, MISALIGNED) /\
  state_of (classify_order_flow rising VNone defaults None) = Some (BUYING, NEUTRAL).
Proof. by vm_compute. Qed.

(** A tick that holds an integer beyond the floats takes the candle layer down with it. *)
Theorem huge_tick_hides_candles :
  state_of (classify_order_flow rising (VList []) defaults None) = Some (BUYING, NEUTRAL) /\
  classify_order_flow rising (VList [quote (VInt (10 ^ 400)) (VInt 1)]) defaults None =
    Unavailable "order-flow classification error: OverflowError".
Proof. by vm_compute. Qed.

(** A negative volume is a finite number: the sums of volumes have either sign. *)
Theorem negative_volume_counts :
  exists l, classify_order_flow (VList (repeat (candle 100 102 100 101 (-10)) 20)) VNone defaults None = Label l /\
    PrimFloat.ltb (m_up_volume (of_measured l)) 0 = true /\ of_state l = BUYING.
Proof. eexists. split; [by vm_compute|]. by vm_compute. Qed.
