(* ===== verification/VolumeProfile.v ===== *)
(** * The volume profile

    Models the market auction structure of [agents/deep-quant-loop/tools.py]:
    [_compute_volume_profile] with its normalised parameters, the price rows, the point of
    control, the growth of the value area and the volume nodes.

    Prices and volumes are the integers or floats the candles hold; the row volumes are
    floats. *)

From stdpp Require Import base list strings relations.
From Stdlib Require Import ZArith Lia Floats.
From S2P Require Import Prelude PyFloat PyRound PyNum PyVal PyEnv PyJson PyStats.

#[local] Set Warnings "-inexact-float".
Open Scope Z_scope.
Open Scope res_scope.

Definition DEFAULT_PROFILE_ROWS := 24.
Definition MIN_PROFILE_ROWS := 1.
Definition MAX_PROFILE_ROWS := 1000.
Definition DEFAULT_VALUE_AREA_PERCENT : float := 70.

(** ** Parameters *)

(** [float(v)] of a number or a text. *)
Definition float_of (v : val) : res float := match v with VStr s => parse_float s | _ => py_float v end.

Definition value_or_type_error (ex : exn) : bool := match ex with ValueError | TypeError => true | _ => false end.

Definition _normalize_rows (rows : val) : res Z :=
  catch
    (if is_none rows then Ok DEFAULT_PROFILE_ROWS
     else
       x ← float_of rows;
       if negb (is_finite x) then Ok DEFAULT_PROFILE_ROWS
       else n ← f_round x; Ok (Z.max MIN_PROFILE_ROWS (Z.min MAX_PROFILE_ROWS n)))
    value_or_type_error DEFAULT_PROFILE_ROWS.

Definition _normalize_value_percent (pct : val) : res float :=
  catch
    (if is_none pct then Ok DEFAULT_VALUE_AREA_PERCENT
     else
       x ← float_of pct;
       Ok (if is_finite x then fmax2 1 (fmin2 100 x) else DEFAULT_VALUE_AREA_PERCENT))
    value_or_type_error DEFAULT_VALUE_AREA_PERCENT.

(** ** Candles *)

(** [_num(v)] *)
Definition number_of (v : val) : res (option num) :=
  known ← finite_number v; Ok (if known : bool then as_num v else None).

(** Low, high, volume, and the close when it is a number. *)
Record bar := { b_low : num; b_high : num; b_volume : num; b_close : option num }.

Definition clean_bar (candle : val) : res (option bar) :=
  match candle with
  | VDict c =>
      hi ← number_of (dict_get c "high");
      lo ← number_of (dict_get c "low");
      vol ← number_of (dict_get c "volume");
      match hi, lo return res (option bar) with
      | Some hi, Some lo =>
          close ← number_of (dict_get c "close");
          Ok (Some {| b_low := lo; b_high := hi; b_volume := default (NFlt 0) vol; b_close := close |})
      | _, _ => Ok None
      end
  | _ => Ok None
  end.

Definition clean_bars (candles : list val) : res (list bar) := bars ← mapM_res clean_bar candles; Ok (somes bars).

(** The close of the last bar that has one. *)
Definition current_price_of (bars : list bar) : option num := last (omap b_close bars).

(** [min(a, b)], [max(a, b)] *)
Definition nmin2 (a b : num) : num := if nltb b a then b else a.
Definition nmax2 (a b : num) : num := if nltb a b then b else a.

(** ** Rows *)

(** [math.floor(x)] *)
Definition f_floor (x : float) : res Z :=
  if is_nan x then Raise ValueError else if is_infinity x then Raise OverflowError else Ok (frank x / two1074).

Record grid := { g_rows : Z; g_min : num; g_bin : float }.

Definition bin_index (g : grid) (price : num) : res Z :=
  if PrimFloat.leb (g_bin g) 0 then Ok 0
  else
    offset ← nsub price (g_min g);
    q ← ndiv offset (NFlt (g_bin g));
    x ← n_float q;
    idx ← f_floor x;
    Ok (Z.max 0 (Z.min (g_rows g - 1) idx)).

(** [bins[i] += v] *)
Definition add_volume (i : Z) (v : num) (bins : list float) : res (list float) :=
  match bins !! Z.to_nat i with
  | Some x => s ← nadd (NFlt x) v; s ← n_float s; Ok (<[Z.to_nat i := s]> bins)
  | None => Raise IndexError
  end.

(** [share] to each of [n] rows from [i] up, and the sum distributed. *)
Fixpoint spread (n : nat) (i : Z) (share : num) (bins : list float) (distributed : num) : res (list float * num) :=
  match n with
  | O => Ok (bins, distributed)
  | S n' =>
      bins ← add_volume i share bins;
      distributed ← nadd distributed share;
      spread n' (i + 1) share bins distributed
  end.

Definition add_bar (g : grid) (bins : list float) (b : bar) : res (list float) :=
  if nleb (b_volume b) (NInt 0) then Ok bins
  else
    lo_i ← bin_index g (b_low b);
    hi_i ← bin_index g (b_high b);
    if lo_i =? hi_i then add_volume lo_i (b_volume b) bins
    else
      share ← ndiv (b_volume b) (NInt (hi_i - lo_i + 1));
      done ← spread (Z.to_nat (hi_i - lo_i)) lo_i share bins (NFlt 0);
      rest ← nsub (b_volume b) done.2;
      add_volume hi_i rest done.1.

Definition row_volumes (g : grid) (bars : list bar) : res (list float) := foldM (add_bar g) (repeat 0%float (Z.to_nat (g_rows g))) bars.

(** ** Point of control and value area *)

(** The row of the greatest volume from [i] on, the first of equals. *)
Fixpoint poc_from (i best_index : nat) (best : float) (volumes : list float) : nat :=
  match volumes with
  | [] => best_index
  | v :: volumes' => if PrimFloat.ltb best v then poc_from (S i) i v volumes' else poc_from (S i) best_index best volumes'
  end.

Definition poc_index (volumes : list float) : nat := match volumes with [] => 0%nat | v :: volumes' => poc_from 1 0 v volumes' end.

Record area := { lo : nat; hi : nat; acc : float }.

Definition below (volumes : list float) (a : area) : float :=
  if (0 <? lo a)%nat then default 0%float (volumes !! (lo a - 1)%nat) else neg_infinity.
Definition above (volumes : list float) (a : area) : float :=
  if (hi a <? length volumes - 1)%nat then default 0%float (volumes !! S (hi a)) else neg_infinity.

(** Whether the area still grows. *)
Definition grows (volumes : list float) (target : float) (a : area) : bool :=
  PrimFloat.ltb (acc a) target && ((0 <? lo a)%nat || (hi a <? length volumes - 1)%nat) &&
  negb (PrimFloat.eqb (below volumes a) neg_infinity && PrimFloat.eqb (above volumes a) neg_infinity).

(** One adjacent row absorbed: the larger, the lower on a tie. *)
Definition absorb (volumes : list float) (a : area) : area :=
  if PrimFloat.leb (above volumes a) (below volumes a)
  then {| lo := lo a - 1; hi := hi a; acc := (acc a + below volumes a)%float |}
  else {| lo := lo a; hi := S (hi a); acc := (acc a + above volumes a)%float |}.

Fixpoint grow (fuel : nat) (volumes : list float) (target : float) (a : area) : area :=
  match fuel with
  | O => a
  | S fuel' => if grows volumes target a then grow fuel' volumes target (absorb volumes a) else a
  end.

Definition total_volume (volumes : list float) : float := float_sum volumes.

Definition target_of (volumes : list float) (percent : float) : float := (total_volume volumes * (percent / 100))%float.

(** The growth from the point of control; every step absorbs a row. *)
Definition value_area (volumes : list float) (poc : nat) (percent : float) : area :=
  let start := {| lo := poc; hi := poc; acc := default 0%float (volumes !! poc) |} in
  if PrimFloat.leb (total_volume volumes) 0 then start
  else grow (length volumes) volumes (target_of volumes percent) start.

Definition _value_area_bounds (volumes : list float) (poc : Z) (percent : float) : res (nat * nat) :=
  match volumes with
  | [] => Ok (0, 0)%nat
  | _ =>
      p ← _normalize_value_percent (VFloat percent);
      let a := value_area volumes (Z.to_nat (Z.max 0 (Z.min poc (Z.of_nat (length volumes) - 1)))) p in
      Ok (lo a, hi a)
  end.

(** ** The profile *)

Inductive location := Unknown | AboveArea | BelowArea | InsideArea.

Definition location_name (l : location) : string :=
  match l with Unknown => "unknown" | AboveArea => "above_value_area" | BelowArea => "below_value_area" | InsideArea => "inside_value_area" end.

Definition locate (price : option num) (val_ vah : float) : location :=
  match price with
  | None => Unknown
  | Some p => if nltb (NFlt vah) p then AboveArea else if nltb p (NFlt val_) then BelowArea else InsideArea
  end.

Record profile := {
  p_rows : Z;
  p_percent : float;
  p_price : option num;
  p_total : float;
  p_levels : option (float * float * float);
  p_location : location;
  p_hvn : list (float * float);
  p_lvn : list (float * float);
}.

Definition empty_profile (rows : Z) (percent : float) (price : option num) : profile :=
  {| p_rows := rows; p_percent := percent; p_price := price; p_total := 0; p_levels := None; p_location := Unknown; p_hvn := []; p_lvn := [] |}.

Definition row_low (base bin_size : float) (i : nat) : float := (base + f_of_nat i * bin_size)%float.
Definition row_center (base bin_size : float) (i : nat) : float :=
  ((row_low base bin_size i + row_low base bin_size (S i)) / 2)%float.

Definition by_volume_desc (a b : nat * float) : bool := PrimFloat.ltb b.2 a.2.
Definition by_volume (a b : nat * float) : bool := PrimFloat.ltb a.2 b.2.

Definition level_of (base bin_size : float) (row : nat * float) : float * float :=
  (f_round_nd (row_center base bin_size row.1) 4, f_round_nd row.2 4).

(** The profile of rows that hold volume. *)
Definition profile_of (g : grid) (base : float) (volumes : list float) (percent : float) (price : option num) (bounds : nat * nat) : profile :=
  let poc := row_center base (g_bin g) (poc_index volumes) in
  let val_ := row_low base (g_bin g) bounds.1 in
  let vah := row_low base (g_bin g) (S bounds.2) in
  let indexed := combine (seq 0 (length volumes)) volumes in
  {| p_rows := g_rows g; p_percent := percent; p_price := price; p_total := total_volume volumes; p_levels := Some (poc, vah, val_);
     p_location := locate price val_ vah;
     p_hvn := map (level_of base (g_bin g)) (take 3 (sort_by by_volume_desc indexed));
     p_lvn := map (level_of base (g_bin g)) (take 3 (sort_by by_volume (List.filter (fun r => PrimFloat.ltb 0 r.2) indexed))) |}.

Definition grid_of (rows : Z) (first : bar) (bars : list bar) : res grid :=
  let min_p := fold_left nmin2 (map b_low bars) (b_low first) in
  let max_p := fold_left nmax2 (map b_high bars) (b_high first) in
  width ← nsub max_p min_p;
  bin_size ← ndiv width (NInt rows);
  bin_size ← n_float bin_size;
  Ok {| g_rows := rows; g_min := min_p; g_bin := bin_size |}.

Definition _compute_volume_profile (candles : list val) (rows value_area_percent : val) : res profile :=
  rows ← _normalize_rows rows;
  percent ← _normalize_value_percent value_area_percent;
  bars ← clean_bars candles;
  let price := current_price_of bars in
  match bars return res profile with
  | [] => Ok (empty_profile rows percent price)
  | first :: bars' =>
      g ← grid_of rows first bars';
      volumes ← row_volumes g bars;
      if PrimFloat.leb (total_volume volumes) 0 then Ok (empty_profile rows percent price)
      else
        bounds ← _value_area_bounds volumes (Z.of_nat (poc_index volumes)) percent;
        base ← n_float (g_min g);
        Ok (profile_of g base volumes percent price bounds)
  end.

(** [round(n, 4)] *)
Definition round_num (n : num) : val := match n with NInt z => VInt z | NFlt f => VFloat (f_round_nd f 4) end.

(** The price as the profile states it: rounded where there are levels. *)
Definition price_payload (p : profile) : val :=
  match p_price p with
  | None => VNone
  | Some n => match p_levels p with Some _ => round_num n | None => of_num n end
  end.

Definition rounded (f : float) : val := VFloat (f_round_nd f 4).

Definition node_payload (node : float * float) : val := VDict [(VStr "price", VFloat node.1); (VStr "volume", VFloat node.2)].

(** The dictionary the computation returns. *)
Definition profile_fields (p : profile) : list (val * val) :=
  let '(poc, vah, val_) := match p_levels p with Some (a, b, c) => (rounded a, rounded b, rounded c) | None => (VNone, VNone, VNone) end in
  [(VStr "rows", VInt (p_rows p)); (VStr "poc", poc); (VStr "vah", vah); (VStr "val", val_);
   (VStr "value_area_percent", VFloat (p_percent p)); (VStr "total_volume", rounded (p_total p)); (VStr "current_price", price_payload p);
   (VStr "price_vs_value_area", VStr (location_name (p_location p)));
   (VStr "hvn_levels", VList (map node_payload (p_hvn p))); (VStr "lvn_levels", VList (map node_payload (p_lvn p)))].

(** * The volume profile: properties

    The rows stay inside the grid, the point of control is the first of the greatest
    rows, and the value area grows from it, one row at a time, until it holds its target
    or every row. *)

(** ** Rows of a positive total *)

(** Not a number, or minus infinity: what a sum never recovers from. *)
Definition low (x : float) : bool := match Prim2SF x with S754_nan | S754_infinity true => true | _ => false end.

Lemma add_low x y : low x = true \/ low y = true -> low (x + y)%float = true.
Proof.
  unfold low. rewrite add_spec. destruct (Prim2SF x) as [|[]| |], (Prim2SF y) as [|[]| |]; cbn; intros [?|?]; done.
Qed.

Lemma neumaier_low l s c : low s = true -> low (neumaier s c l) = true.
Proof.
  revert s c. induction l as [|x l IH]; intros s c H; cbn.
  - destruct (_ && _); [|done]. apply add_low. by left.
  - apply IH, add_low. by left.
Qed.

Lemma neumaier_low_In l s c x : In x l -> low x = true -> low (neumaier s c l) = true.
Proof.
  revert s c. induction l as [|y l IH]; intros s c Hx H; [done|]. cbn. destruct Hx as [->|Hx]; [|by apply IH].
  apply neumaier_low, add_low. by right.
Qed.

Lemma low_total l x : In x l -> low x = true -> low (total_volume l) = true.
Proof.
  unfold total_volume, float_sum, py_sum. destruct l as [|y l]; [done|]. intros [->|Hx] H.
  - apply neumaier_low, add_low. by right.
  - by apply (neumaier_low_In _ _ _ x).
Qed.

Lemma low_cases x : low x = true -> is_nan x = true \/ PrimFloat.leb x 0 = true.
Proof.
  unfold low. rewrite leb_rank, is_nan_sf. unfold frank. destruct (Prim2SF x) as [|[]| |] eqn:E; try done; [right|by left].
  by vm_compute.
Qed.

Lemma regular_number x : low x = false -> is_nan x = false /\ PrimFloat.eqb x neg_infinity = false.
Proof.
  unfold low. rewrite eqb_rank, is_nan_sf. unfold frank at 1. intros H.
  destruct (Prim2SF x) as [|[]| |s m e] eqn:E; try done; (split; [done|]); try (by vm_compute).
  change (is_nan neg_infinity) with false. cbn [sf_nan negb andb]. change (frank neg_infinity) with (- 2 ^ 2098).
  assert (fin x = true) as F by (rewrite fin_sf, E; done). rewrite fin_rank in F. rewrite !andb_true_iff in F. destruct F as [[_ F] _].
  unfold frank in F. rewrite E in F. apply Z.ltb_lt in F. apply Z.eqb_neq. lia.
Qed.

Definition regular (volumes : list float) : Prop := Forall (fun x => low x = false) volumes.

Lemma regular_rows volumes : is_nan (total_volume volumes) = false -> PrimFloat.leb (total_volume volumes) 0 = false -> regular volumes.
Proof.
  intros N P. apply List.Forall_forall. intros x Hx. destruct (low x) eqn:L; [|done].
  destruct (low_cases _ (low_total _ _ Hx L)); congruence.
Qed.

Lemma regular_numbers volumes : regular volumes -> Forall (fun x => is_nan x = false) volumes.
Proof. intros H. eapply Forall_impl; [exact H|]. intros x Hx. by apply regular_number. Qed.

(** ** The point of control *)

(** The first of the greatest rows. *)
Definition peak (volumes : list float) (i : nat) : Prop :=
  exists best, volumes !! i = Some best /\
    forall j v, volumes !! j = Some v -> PrimFloat.leb v best = true /\ ((j < i)%nat -> PrimFloat.ltb v best = true).

Lemma poc_from_peak pre best_index best rest :
  Forall (fun x => is_nan x = false) (pre ++ rest) -> pre !! best_index = Some best ->
  (forall j v, pre !! j = Some v -> PrimFloat.leb v best = true /\ ((j < best_index)%nat -> PrimFloat.ltb v best = true)) ->
  peak (pre ++ rest) (poc_from (length pre) best_index best rest).
Proof.
  revert pre best_index best. induction rest as [|v rest IH]; intros pre bi best Hn Hb Hp; cbn.
  - rewrite app_nil_r. by exists best.
  - assert (bi < length pre)%nat as Lb by (by eapply lookup_lt_Some).
    replace (pre ++ v :: rest) with ((pre ++ [v]) ++ rest) in * by (by rewrite <- app_assoc).
    replace (S (length pre)) with (length (pre ++ [v])) by (rewrite length_app; cbn; lia).
    apply Forall_app in Hn as H0. destruct H0 as [Hv _]. apply Forall_app in Hv as [Hpre Hv]. inversion Hv as [|? ? Nv _]; subst.
    assert (is_nan best = false) as Nb by (rewrite Forall_forall in Hpre; apply Hpre; by eapply list_elem_of_lookup_2).
    assert (forall j w, (pre ++ [v]) !! j = Some w -> pre !! j = Some w \/ (j = length pre /\ w = v)) as Hl.
    { intros j w Hj. apply lookup_app_Some in Hj as [Hj|[Hj1 Hj2]]; [by left|right]. destruct (j - length pre)%nat as [|k] eqn:E; [|by destruct k].
      injection Hj2 as ->. split; [lia|done]. }
    destruct (PrimFloat.ltb best v) eqn:E.
    + apply IH; [done|rewrite lookup_app_r by lia; by rewrite Nat.sub_diag|].
      intros j w Hj. apply Hl in Hj as [Hj|[-> ->]].
      * destruct (Hp _ _ Hj) as [H1 _]. pose proof (lookup_lt_Some _ _ _ Hj).
        assert (is_nan w = false) as Nw by (rewrite Forall_forall in Hpre; apply Hpre; by eapply list_elem_of_lookup_2).
        rewrite leb_rank, Nw, Nb in H1. rewrite ltb_rank, Nb, Nv in E. rewrite leb_rank, ltb_rank, Nw, Nv. cbn in *.
        apply Z.leb_le in H1. apply Z.ltb_lt in E. split; [apply Z.leb_le; lia|intros _; apply Z.ltb_lt; lia].
      * split; [|lia]. rewrite leb_rank, Nv. cbn. apply Z.leb_refl.
    + apply IH; [done|by rewrite lookup_app_l|].
      intros j w Hj. apply Hl in Hj as [Hj|[-> ->]]; [by apply Hp|]. split; [|lia].
      rewrite ltb_rank, Nb, Nv in E. cbn in E. apply Z.ltb_ge in E. rewrite leb_rank, Nb, Nv. cbn. by apply Z.leb_le.
Qed.

Lemma poc_is_peak volumes : volumes <> [] -> Forall (fun x => is_nan x = false) volumes -> peak volumes (poc_index volumes).
Proof.
  destruct volumes as [|v rest]; [done|]. intros _ Hn. apply (poc_from_peak [v] 0 v rest); [done|done|].
  intros [|[|j]] w [= <-]. inversion Hn as [|? ? Nv _]; subst. split; [|lia]. rewrite leb_rank, Nv. cbn. apply Z.leb_refl.
Qed.

(** ** The value area *)

Section area.
Context (volumes : list float) (target : float).
Context (Hr : regular volumes).

(** One step of the growth. *)
Definition growth (a b : area) : Prop := grows volumes target a = true /\ b = absorb volumes a.

Definition inside (a : area) : Prop := (lo a <= hi a < length volumes)%nat.

Definition width (a : area) : nat := hi a - lo a.

Lemma row_number i x : volumes !! i = Some x -> is_nan x = false.
Proof. intros H. apply regular_number. unfold regular in Hr. rewrite Forall_forall in Hr. apply Hr. by eapply list_elem_of_lookup_2. Qed.

Lemma below_number a : inside a -> is_nan (below volumes a) = false.
Proof.
  intros [H1 H2]. unfold below. destruct (Nat.ltb_spec 0 (lo a)); [|done].
  destruct (volumes !! (lo a - 1)%nat) eqn:E; [|done]. by eapply row_number.
Qed.

Lemma above_number a : inside a -> is_nan (above volumes a) = false.
Proof.
  intros [H1 H2]. unfold above. destruct (Nat.ltb_spec (hi a) (length volumes - 1)); [|done].
  destruct (volumes !! S (hi a)) eqn:E; [|done]. by eapply row_number.
Qed.

Lemma neg_infinity_least x : is_nan x = false -> PrimFloat.leb neg_infinity x = true.
Proof.
  intros H. rewrite leb_rank, H. change (is_nan neg_infinity) with false. change (frank neg_infinity) with (- 2 ^ 2098). cbn [negb andb].
  apply Z.leb_le. destruct (fin x) eqn:F.
  - rewrite fin_rank, H in F. cbn [negb andb] in F. apply andb_true_iff in F as [F _]. apply Z.ltb_lt in F. lia.
  - rewrite fin_sf in F. rewrite is_nan_sf in H. unfold frank. destruct (Prim2SF x) as [|[]| |]; try done.
Qed.

Lemma grows_inside a : inside a -> grows volumes target a = true -> inside (absorb volumes a) /\ width (absorb volumes a) = S (width a).
Proof.
  intros I G. pose proof (below_number a I) as Nb. pose proof (above_number a I) as Na. destruct I as [I1 I2].
  unfold grows in G. rewrite !andb_true_iff in G. destruct G as [[_ Room] Open]. unfold absorb, inside, width.
  destruct (PrimFloat.leb (above volumes a) (below volumes a)) eqn:L; cbn [lo hi].
  - enough (0 < lo a)%nat by lia. destruct (Nat.ltb_spec 0 (lo a)) as [|Z0]; [done|exfalso]. cbn [orb] in Room.
    assert (below volumes a = neg_infinity) as B by (unfold below; destruct (Nat.ltb_spec 0 (lo a)); [lia|done]).
    rewrite B in L, Open. pose proof (neg_infinity_least _ Na) as M. change (PrimFloat.eqb neg_infinity neg_infinity) with true in Open.
    cbn [andb] in Open. apply negb_true_iff in Open. rewrite leb_rank, Na in L, M. rewrite eqb_rank, Na in Open.
    change (is_nan neg_infinity) with false in *. cbn [negb andb] in *. apply Z.leb_le in L, M. apply Z.eqb_neq in Open. lia.
  - enough (hi a < length volumes - 1)%nat by lia. destruct (Nat.ltb_spec (hi a) (length volumes - 1)) as [|Z0]; [done|exfalso].
    assert (above volumes a = neg_infinity) as B by (unfold above; destruct (Nat.ltb_spec (hi a) (length volumes - 1)); [lia|done]).
    by rewrite B, neg_infinity_least in L.
Qed.

Lemma grow_spec fuel a :
  inside a -> (length volumes <= fuel + S (width a))%nat ->
  let b := grow fuel volumes target a in rtc growth a b /\ inside b /\ (lo b <= lo a)%nat /\ (hi a <= hi b)%nat /\ grows volumes target b = false.
Proof.
  revert a. induction fuel as [|fuel IH]; intros a I F; cbn.
  - split_and!; [constructor|exact I|done|done|]. destruct (grows volumes target a) eqn:G; [|done]. exfalso.
    destruct (grows_inside a I G) as [I' W]. unfold inside, width in *. lia.
  - destruct (grows volumes target a) eqn:G; [|by split_and!; [constructor|..]].
    destruct (grows_inside a I G) as [I' W]. destruct (IH (absorb volumes a) I' ltac:(lia)) as (R & Ib & L & H & E).
    split_and!; [by eapply rtc_l; [by split|]|done| | |done]; revert L H; unfold absorb; destruct (PrimFloat.leb _ _); cbn; lia.
Qed.

(** An area that does not grow holds its target, or every row. *)
Lemma full_area a : inside a -> grows volumes target a = false -> PrimFloat.ltb (acc a) target = false \/ (lo a = 0 /\ S (hi a) = length volumes)%nat.
Proof.
  intros [I1 I2] G. unfold grows in G. destruct (PrimFloat.ltb (acc a) target); [right|by left]. cbn [andb] in G.
  assert (forall i x, volumes !! i = Some x -> PrimFloat.eqb x neg_infinity = false) as Hf.
  { intros i x Hi. apply regular_number. unfold regular in Hr. rewrite Forall_forall in Hr. apply Hr. by eapply list_elem_of_lookup_2. }
  unfold below, above in G. destruct (Nat.ltb_spec 0 (lo a)).
  - cbn [orb andb] in G. apply negb_false_iff, andb_true_iff in G as [G _].
    destruct (lookup_lt_is_Some_2 volumes (lo a - 1)) as [x Hx]; [lia|]. rewrite Hx in G. cbn in G. by rewrite (Hf _ _ Hx) in G.
  - destruct (Nat.ltb_spec (hi a) (length volumes - 1)); [|lia]. cbn [orb andb] in G. apply negb_false_iff, andb_true_iff in G as [_ G].
    destruct (lookup_lt_is_Some_2 volumes (S (hi a))) as [x Hx]; [lia|]. rewrite Hx in G. cbn in G. by rewrite (Hf _ _ Hx) in G.
Qed.
End area.

(** ** Parameters and rows *)

Lemma normalized_rows v n : _normalize_rows v = Ok n -> MIN_PROFILE_ROWS <= n <= MAX_PROFILE_ROWS.
Proof.
  unfold _normalize_rows, catch. unfold MIN_PROFILE_ROWS, MAX_PROFILE_ROWS. destruct (is_none v); [intros [= <-]; unfold DEFAULT_PROFILE_ROWS; lia|].
  destruct (float_of v) as [x|ex]; cbn beta iota delta [mbind res_bind].
  - destruct (negb _); [intros [= <-]; unfold DEFAULT_PROFILE_ROWS; lia|].
    destruct (f_round x) as [m|ex]; cbn beta iota delta [mbind res_bind]; [intros [= <-]; lia|].
    destruct (value_or_type_error ex); [intros [= <-]; unfold DEFAULT_PROFILE_ROWS; lia|done].
  - destruct (value_or_type_error ex); [intros [= <-]; unfold DEFAULT_PROFILE_ROWS; lia|done].
Qed.

(** From 1 to 100. *)
Definition percent (x : float) : Prop := PrimFloat.leb 1 x = true /\ PrimFloat.leb x 100 = true.

Lemma clamped_percent x : is_finite x = true -> percent (fmax2 1 (fmin2 100 x)).
Proof.
  intros F. apply fin_not_nan in F. unfold percent, fmax2, fmin2. destruct (PrimFloat.ltb x 100) eqn:E1.
  - destruct (PrimFloat.ltb 1 x) eqn:E2; [|by vm_compute]. rewrite ltb_rank in E1, E2. rewrite F in E1, E2. rewrite !leb_rank, F.
    cbn [negb andb] in *. rewrite !andb_true_r in *. cbn in *. apply Z.ltb_lt in E1, E2. split; apply Z.leb_le; lia.
  - by vm_compute.
Qed.

Lemma normalized_percent v x : _normalize_value_percent v = Ok x -> percent x.
Proof.
  unfold _normalize_value_percent, catch. destruct (is_none v); [intros [= <-]; by vm_compute|].
  destruct (float_of v) as [y|ex]; cbn beta iota delta [mbind res_bind].
  - destruct (is_finite y) eqn:F; intros [= <-]; [by apply clamped_percent|by vm_compute].
  - destruct (value_or_type_error ex); [intros [= <-]; by vm_compute|done].
Qed.

Lemma normalized_again x : percent x -> _normalize_value_percent (VFloat x) = Ok x.
Proof.
  intros [H1 H2]. unfold _normalize_value_percent, catch. cbn [is_none float_of py_float as_num n_float]. cbn beta iota delta [mbind res_bind].
  rewrite leb_rank in H1, H2. rewrite !andb_true_iff, !negb_true_iff, !Z.leb_le in H1, H2. destruct H1 as [[_ N] H1], H2 as [_ H2].
  assert (fin x = true) as F.
  { rewrite fin_rank, N. cbn. assert (frank 1%float = two1074) as E1 by (vm_compute; reflexivity).
    assert (frank 100%float = 100 * two1074) as E2 by (vm_compute; reflexivity). rewrite E1 in H1. rewrite E2 in H2.
    assert (- 2 ^ 2098 < two1074 /\ 100 * two1074 < 2 ^ 2098) as [B1 B2] by (split; vm_compute; reflexivity).
    apply andb_true_iff. split; apply Z.ltb_lt; lia. }
  unfold fin in F. rewrite F. do 2 f_equal. unfold fmax2, fmin2.
  destruct (PrimFloat.ltb x 100) eqn:E1.
  - destruct (PrimFloat.ltb 1 x) eqn:E2; [done|]. rewrite ltb_rank, N in E2. cbn [negb andb] in E2. change (is_nan 1) with false in E2. cbn [negb andb] in E2.
    apply Z.ltb_ge in E2. apply frank_inj; [done|done|done| |lia]. unfold neg_zerob. destruct (Prim2SF x) as [[]| | |] eqn:P; try done.
    exfalso. unfold frank in H1. rewrite P in H1. revert H1. by vm_compute.
  - rewrite ltb_rank, N in E1. cbn [negb andb] in E1. change (is_nan 100) with false in E1. cbn [negb andb] in E1. apply Z.ltb_ge in E1.
    change (PrimFloat.ltb 1 100) with true. cbn iota. apply frank_inj; [done|done|done| |lia].
    unfold neg_zerob. destruct (Prim2SF x) as [[]| | |] eqn:P; try done. exfalso. unfold frank in H1. rewrite P in H1. revert H1. by vm_compute.
Qed.

Lemma add_volume_length i v bins bins' : add_volume i v bins = Ok bins' -> length bins' = length bins.
Proof.
  unfold add_volume. destruct (bins !! Z.to_nat i); [|done]. intros H. apply bind_Ok in H as (s & _ & H). apply bind_Ok in H as (t & _ & H).
  apply Ok_inj in H as <-. by rewrite length_insert.
Qed.

Lemma spread_length n i share bins d r : spread n i share bins d = Ok r -> length r.1 = length bins.
Proof.
  revert i bins d. induction n as [|n IH]; intros i bins d H; cbn in H; [by apply Ok_inj in H as <-|].
  apply bind_Ok in H as (bins' & Hb & H). apply bind_Ok in H as (d' & _ & H). rewrite (IH _ _ _ H). by eapply add_volume_length.
Qed.

Lemma add_bar_length g bins b bins' : add_bar g bins b = Ok bins' -> length bins' = length bins.
Proof.
  unfold add_bar. destruct (nleb _ _); [intros [= <-]; done|]. intros H. apply bind_Ok in H as (lo_i & _ & H). apply bind_Ok in H as (hi_i & _ & H).
  destruct (lo_i =? hi_i); [by eapply add_volume_length|]. apply bind_Ok in H as (share & _ & H). apply bind_Ok in H as (d & Hd & H).
  apply bind_Ok in H as (rest & _ & H). rewrite (add_volume_length _ _ _ _ H). by eapply spread_length.
Qed.

Lemma row_volumes_length g bars volumes : row_volumes g bars = Ok volumes -> length volumes = Z.to_nat (g_rows g).
Proof.
  intros H. eapply (foldM_Ok_inv (fun bins => length bins = Z.to_nat (g_rows g))); [| |exact H]; [apply repeat_length|].
  intros bins b bins' _ Hb Hs. by rewrite (add_bar_length _ _ _ _ Hs).
Qed.

(** ** The profile *)

Definition start (volumes : list float) (poc : nat) : area := {| lo := poc; hi := poc; acc := default 0%float (volumes !! poc) |}.

(** The rows from [lo] to [hi] are the value area: it is reached from the point of
    control by absorbing adjacent rows while the target is not met, and it meets the
    target or holds every row. *)
Definition holds_area (volumes : list float) (pct : float) (a : area) : Prop :=
  let poc := poc_index volumes in
  let target := target_of volumes pct in
  rtc (growth volumes target) (start volumes poc) a /\ (lo a <= poc <= hi a)%nat /\ (hi a < length volumes)%nat /\
  (PrimFloat.ltb (acc a) target = false \/ (lo a = 0 /\ S (hi a) = length volumes)%nat).

Lemma value_area_holds volumes pct :
  is_nan (total_volume volumes) = false -> PrimFloat.leb (total_volume volumes) 0 = false ->
  peak volumes (poc_index volumes) /\ holds_area volumes pct (value_area volumes (poc_index volumes) pct).
Proof.
  intros N P. pose proof (regular_rows _ N P) as R. assert (volumes <> []) as Ne by (intros ->; by vm_compute in P).
  pose proof (poc_is_peak volumes Ne (regular_numbers _ R)) as K. split; [done|]. destruct K as (best & Hb & _).
  apply lookup_lt_Some in Hb. unfold value_area. rewrite P. fold (start volumes (poc_index volumes)).
  destruct (grow_spec volumes (target_of volumes pct) R (length volumes) (start volumes (poc_index volumes))) as (Hr & Hi & Hl & Hh & Hg);
    [split; cbn; lia|cbn; lia|]. unfold holds_area. cbn [lo hi start] in *. destruct Hi as [? ?]. split_and!; try done.
  by apply (full_area volumes (target_of volumes pct) R).
Qed.

Lemma bounds_of volumes pct bounds :
  percent pct -> volumes <> [] -> (poc_index volumes < length volumes)%nat ->
  _value_area_bounds volumes (Z.of_nat (poc_index volumes)) pct = Ok bounds ->
  bounds = (lo (value_area volumes (poc_index volumes) pct), hi (value_area volumes (poc_index volumes) pct)).
Proof.
  intros Hp Hne Hl. unfold _value_area_bounds. destruct volumes as [|v vs] eqn:E; [done|]. rewrite <- E in *. rewrite (normalized_again pct Hp).
  cbn beta iota delta [mbind res_bind]. cbn zeta. intros [= <-].
  replace (Z.to_nat (Z.max 0 (Z.min (Z.of_nat (poc_index volumes)) (Z.of_nat (length volumes) - 1)))) with (poc_index volumes) by lia. done.
Qed.

(** The levels a profile states are those of the rows of its candles. *)
Definition levels_of (bars : list bar) (p : profile) (levels : float * float * float) : Prop :=
  exists first rest g base volumes a,
    bars = first :: rest /\ grid_of (p_rows p) first rest = Ok g /\ n_float (g_min g) = Ok base /\ row_volumes g bars = Ok volumes /\
    length volumes = Z.to_nat (p_rows p) /\ p_total p = total_volume volumes /\ PrimFloat.leb (p_total p) 0 = false /\
    levels = (row_center base (g_bin g) (poc_index volumes), row_low base (g_bin g) (S (hi a)), row_low base (g_bin g) (lo a)) /\
    p_location p = locate (p_price p) levels.2 levels.1.2 /\
    (is_nan (p_total p) = false -> peak volumes (poc_index volumes) /\ holds_area volumes (p_percent p) a).

(** The empty profile, of candles that are none or whose rows hold no volume. *)
Definition no_levels (bars : list bar) (p : profile) : Prop :=
  p = empty_profile (p_rows p) (p_percent p) (p_price p) /\
  match bars with
  | [] => True
  | first :: rest => exists g volumes, grid_of (p_rows p) first rest = Ok g /\ row_volumes g bars = Ok volumes /\ PrimFloat.leb (total_volume volumes) 0 = true
  end.

Lemma rows_kept rows first rest g : grid_of rows first rest = Ok g -> g_rows g = rows.
Proof.
  unfold grid_of. intros H. apply bind_Ok in H as (w & _ & H). apply bind_Ok in H as (q & _ & H). apply bind_Ok in H as (b & _ & H).
  by apply Ok_inj in H as <-.
Qed.

Lemma poc_below_length volumes : PrimFloat.leb (total_volume volumes) 0 = false -> volumes <> [] /\ (poc_index volumes < length volumes)%nat.
Proof.
  intros P. assert (volumes <> []) as Ne by (intros ->; by vm_compute in P). split; [done|].
  enough (forall rest i bi best n, (bi < n)%nat -> (i + length rest = n)%nat -> (poc_from i bi best rest < n)%nat) as H.
  { destruct volumes as [|v rest]; [done|]. cbn [poc_index length]. apply H; lia. }
  induction rest as [|v rest IH]; intros i bi best n Hb Hn; cbn in *; [done|]. destruct (PrimFloat.ltb best v); apply IH; lia.
Qed.

(** C37: A profile that is computed has its parameters within their bounds, and the latest
    close its candles state.  It is the empty one, with no level at all, exactly when no
    candle is valid or the volume of its rows adds up to zero or less.  Otherwise its
    levels are those of the rows: the point of control is the centre of a row and the
    value area runs from the lower edge of a row to the upper edge of another.  Where the
    total volume is not NaN that row is the first of the greatest, and the area is grown
    from it, one adjacent row at a time while the target is not met, until it meets the
    target or holds every row.  The growth always ends. *)
Theorem volume_profile_exact candles rows pct p :
  _compute_volume_profile candles rows pct = Ok p ->
  MIN_PROFILE_ROWS <= p_rows p <= MAX_PROFILE_ROWS /\ percent (p_percent p) /\
  exists bars, clean_bars candles = Ok bars /\ p_price p = current_price_of bars /\
    match p_levels p with None => no_levels bars p | Some levels => levels_of bars p levels end.
Proof.
  intros H. unfold _compute_volume_profile in H. apply bind_Ok in H as (n & Hn & H). apply bind_Ok in H as (q & Hq & H).
  apply bind_Ok in H as (bars & Hb & H). apply normalized_rows in Hn. apply normalized_percent in Hq. destruct bars as [|first rest].
  - apply Ok_inj in H as <-. split; [done|]. split; [done|]. by exists [].
  - apply bind_Ok in H as (g & Hg & H). apply bind_Ok in H as (volumes & Hv & H). destruct (PrimFloat.leb (total_volume volumes) 0) eqn:P.
    + apply Ok_inj in H as <-. split; [done|]. split; [done|]. exists (first :: rest). split_and!; [done|done|]. split; [done|]. by exists g, volumes.
    + apply bind_Ok in H as (bounds & Hbd & H). apply bind_Ok in H as (base & Hbase & H). apply Ok_inj in H as <-.
      pose proof (rows_kept _ _ _ _ Hg) as Hr. pose proof (poc_below_length _ P) as [Ne L]. apply bounds_of in Hbd as ->; [|done..].
      unfold profile_of. cbn [p_rows p_percent p_price p_levels fst snd]. rewrite Hr. split; [done|]. split; [done|].
      exists (first :: rest). split_and!; [done|done|]. exists first, rest, g, base, volumes, (value_area volumes (poc_index volumes) q).
      cbn [p_rows p_percent p_price p_total p_location fst snd]. pose proof (row_volumes_length _ _ _ Hv) as Hl. rewrite Hr in Hl.
      split_and!; try done. intros N. by apply value_area_holds.
Qed.

(** ** Examples *)

Definition candle (high low volume close : val) : val :=
  VDict [(VStr "high", high); (VStr "low", low); (VStr "volume", volume); (VStr "close", close)].

Definition session : list val :=
  [candle (VInt 101) (VInt 100) (VInt 10) (VInt 101); candle (VInt 103) (VInt 101) (VInt 90) (VInt 102); VStr "gap"; candle (VInt 104) (VInt 102) (VInt 20) (VInt 104)].

Definition session_profile : profile :=
  Eval vm_compute in match _compute_volume_profile session (VInt 4) VNone with Ok p => p | Raise _ => empty_profile 0 0 None end.

Lemma volume_profile_exact_witness :
  _compute_volume_profile session (VInt 4) VNone = Ok session_profile /\
  (MIN_PROFILE_ROWS <= p_rows session_profile <= MAX_PROFILE_ROWS /\ percent (p_percent session_profile) /\
   exists bars, clean_bars session = Ok bars /\ p_price session_profile = current_price_of bars /\
     match p_levels session_profile with None => no_levels bars session_profile | Some levels => levels_of bars session_profile levels end).
Proof.
  assert (_compute_volume_profile session (VInt 4) VNone = Ok session_profile) as E by (vm_compute; reflexivity).
  split; [exact E|exact (volume_profile_exact session (VInt 4) VNone session_profile E)].
Defined.

Example session_levels :
  _compute_volume_profile session (VInt 4) VNone = Ok session_profile /\
  (p_total session_profile, p_levels session_profile, p_location session_profile) = (120%float, Some (102.5, 104, 101)%float, InsideArea) /\
  p_hvn session_profile = [(102.5, 40); (103.5, 40); (101.5, 35)]%float /\
  p_lvn session_profile = [(100.5, 5); (101.5, 35); (102.5, 40)]%float.
Proof. by vm_compute. Qed.

(** A candle whose low is one row above its high spans no row, and its volume is divided
    by none. *)
Example upside_down_candle_divides_by_zero :
  _compute_volume_profile [candle (VInt 104) (VInt 100) (VInt 10) VNone; candle (VInt 101) (VInt 102) (VInt 10) VNone] (VInt 4) VNone
  = Raise ZeroDivisionError.
Proof. vm_compute. reflexivity. Qed.
