(* ===== verification/FlowTools.v ===== *)
(** * The order-flow and volume-profile tools

    Models two tools of [agents/deep-quant-loop/tools.py]: [get_order_flow], with the
    reader of live ticks, and [get_volume_profile], from the arguments to the validated
    payload.

    As in [MarketTools] the HTTP calls are parameters: [fetch] for the candles, and
    [exec], which for an SQL text holds the decoded body the tick store answers, or
    nothing where the request raises.  [tick_limit] is the import-time constant
    [OF_TICK_FETCH_LIMIT]; [message] is the text of an exception. *)

From stdpp Require Import base list strings.
From Stdlib Require Import ZArith Lia Floats Ascii.
From S2P Require Import Prelude PyFloat PyNum PyVal PyEnv PyJson PyStr SqlText PyStats Contracts JournalTags MarketTools VolumeProfile.
From S2P Require OrderFlow.

Open Scope Z_scope.
Open Scope string_scope.

Definition _order_flow_unavailable := _regime_unavailable.

Definition live_ticks_query (symbol : string) (limit : Z) : string :=
  "SELECT last_traded_price, volume, best_bid, best_ask FROM live_ticks WHERE symbol=" ++ literal symbol
  ++ " ORDER BY timestamp DESC LIMIT " ++ Z_str limit.

(** The tick of a row of the answer. *)
Definition tick_of_row (row : val) : option val :=
  match row with
  | VList (price :: volume :: bid :: ask :: _) | VTuple (price :: volume :: bid :: ask :: _) =>
      Some (VDict [(VStr "last_price", price); (VStr "volume", volume); (VStr "best_bid", bid); (VStr "best_ask", ask)])
  | _ => None
  end.

Section tools.
Variable e : env.
Variable fetch : string -> string -> Z -> string + val.
Variable exec : string -> option val.
Variable margin : Z.
Variable tick_limit : Z.
Variable message : exn -> string.

(** Oldest first; the store answers the latest first. *)
Definition _read_live_ticks (symbol : string) (limit : Z) : list val :=
  match exec (live_ticks_query symbol limit) with
  | Some (VDict body) =>
      if truthy (dict_get body "error") then []
      else match dict_get body "dataset" with VList dataset => omap tick_of_row (rev dataset) | _ => [] end
  | _ => []
  end.

Definition get_order_flow (symbol timeframe proposed_direction : string) : val :=
  match bad_arguments "get_order_flow" symbol timeframe with
  | Some error => error
  | None =>
      let config := OrderFlow.resolve_order_flow_config e in
      let required := Z.max (OrderFlow.min_candles config) (OrderFlow.largest_lookback config) in
      match _fetch_candles_for_rs fetch symbol timeframe (required + margin) with
      | inl reason => _order_flow_unavailable symbol timeframe reason
      | inr candles =>
          let ticks := _read_live_ticks symbol tick_limit in
          let direction := strip proposed_direction in
          validate_contract "get_order_flow"
            (OrderFlow.of_payload
               (OrderFlow.classify_order_flow (VList candles) (VList ticks) config (if nonempty direction then Some direction else None))
               (Some symbol) (Some timeframe))
      end
  end.

Definition get_volume_profile (symbol timeframe : string) (limit : Z) (rows value_area_percent : val) : val :=
  match fetch symbol timeframe limit with
  | inl raised => error_result ("Failed to compute volume profile: " ++ raised)
  | inr body =>
      match _parse_candles_response body false with
      | inl reason => error_result ("Failed to retrieve candles for volume profile: " ++ py_str reason)
      | inr candles =>
          match _compute_volume_profile candles rows value_area_percent with
          | Raise ex => error_result ("Failed to compute volume profile: " ++ message ex)
          | Ok profile =>
              validate_contract "get_volume_profile"
                (VDict (profile_fields profile ++ [(VStr "symbol", VStr symbol); (VStr "timeframe", VStr timeframe)])%list)
          end
      end
  end.
End tools.

(** * The order-flow and volume-profile tools: properties

    The answers are sound, as those of the other candle tools. *)

#[local] Set Warnings "-inexact-float".

(** ** Answers *)

Lemma flow_payload_conforms r symbol timeframe :
  validate_contract "get_order_flow" (OrderFlow.of_payload r symbol timeframe) = OrderFlow.of_payload r symbol timeframe.
Proof.
  destruct r as [l|reason]; [|by destruct symbol, timeframe]. unfold validate_contract. destruct (_has_honest_marker _); [done|].
  assert (contract_of "get_order_flow" (OrderFlow.of_payload (OrderFlow.Label l) symbol timeframe) = Conforms) as ->; [|done].
  destruct l as [s a [m1 m2 m3 m4 m5] o n k]. by destruct s, a, m1, m2, m5, o.
Qed.

Definition profile_answered (p : profile) (symbol timeframe : string) : val :=
  VDict (profile_fields p ++ [(VStr "symbol", VStr symbol); (VStr "timeframe", VStr timeframe)]).

Lemma profile_payload_conforms p symbol timeframe :
  validate_contract "get_volume_profile" (profile_answered p symbol timeframe) = profile_answered p symbol timeframe /\
  vget (profile_answered p symbol timeframe) "contract_violation" = VNone.
Proof.
  unfold validate_contract. split; [destruct (_has_honest_marker _); [done|]|].
  - assert (contract_of "get_volume_profile" (profile_answered p symbol timeframe) = Conforms) as ->; [|done].
    destruct p as [rows percent price total [[[a b] c]|] loc hvn lvn]; done.
  - destruct p as [rows percent price total [[[a b] c]|] loc hvn lvn]; done.
Qed.

Section answers.
Context (e : env) (fetch : string -> string -> Z -> string + val) (exec : string -> option val) (margin tick_limit : Z).
Context (message : exn -> string).

(** The order-flow label of the candles fetched for a symbol and of its live ticks. *)
Definition flow_answer (symbol timeframe direction : string) (answer : val) : Prop :=
  let config := OrderFlow.resolve_order_flow_config e in
  exists candles l,
    fetch symbol timeframe (Z.max (OrderFlow.min_candles config) (OrderFlow.largest_lookback config) + margin) = inr (VList candles) /\
    OrderFlow.classify_order_flow (VList candles) (VList (_read_live_ticks exec symbol tick_limit)) config
      (if nonempty (strip direction) then Some (strip direction) else None) = OrderFlow.Label l /\
    answer = OrderFlow.of_payload (OrderFlow.Label l) (Some symbol) (Some timeframe).

Definition profile_answer (symbol timeframe : string) (limit : Z) (rows percent answer : val) : Prop :=
  exists candles p, fetch symbol timeframe limit = inr (VList candles) /\ candles <> [] /\
    _compute_volume_profile candles rows percent = Ok p /\ answer = profile_answered p symbol timeframe.

Lemma flow_sound symbol timeframe direction :
  sound "get_order_flow" (flow_answer symbol timeframe direction) (get_order_flow e fetch exec margin tick_limit symbol timeframe direction).
Proof.
  unfold get_order_flow.
  destruct (bad_arguments _ _ _) as [error|] eqn:B; [by apply bad_arguments_marked in B as [??]; apply marked_sound|]. cbn zeta.
  destruct (_fetch_candles_for_rs _ _ _ _) as [reason|candles] eqn:F; [by apply marked_sound|].
  apply fetched_candles in F as [F _]. rewrite flow_payload_conforms.
  destruct (OrderFlow.classify_order_flow _ _ _ _) as [l|reason] eqn:C; [|by apply marked_sound].
  split_and!; [apply flow_payload_conforms|by destruct l|]. right. by exists candles, l.
Qed.

Lemma profile_sound symbol timeframe limit rows percent :
  sound "get_volume_profile" (profile_answer symbol timeframe limit rows percent)
    (get_volume_profile fetch message symbol timeframe limit rows percent).
Proof.
  unfold get_volume_profile. destruct (fetch symbol timeframe limit) as [raised|body] eqn:F; [by apply marked_sound|].
  destruct (_parse_candles_response body false) as [reason|candles] eqn:P; [by apply marked_sound|].
  apply parsed_candles in P as [-> Hne]. destruct (_compute_volume_profile candles rows percent) as [p|ex] eqn:C; [|by apply marked_sound].
  fold (profile_answered p symbol timeframe). destruct (profile_payload_conforms p symbol timeframe) as [V N]. rewrite V.
  split_and!; [exact V|exact N|]. right. by exists candles, p.
Qed.
End answers.

(** What the order-flow and volume-profile tools answer is sound: whatever the
    environment, the two servers and the arguments, every answer passes the contract of
    its tool unchanged and is never a contract violation; and an answer without an honest
    marker is the label of the candles fetched and the ticks read for the symbol, or the
    profile of a non-empty list of fetched candles. *)
Theorem flow_tools_sound e fetch exec margin tick_limit message symbol timeframe direction limit rows percent :
  sound "get_order_flow" (flow_answer e fetch exec margin tick_limit symbol timeframe direction)
    (get_order_flow e fetch exec margin tick_limit symbol timeframe direction) /\
  sound "get_volume_profile" (profile_answer fetch symbol timeframe limit rows percent)
    (get_volume_profile fetch message symbol timeframe limit rows percent).
Proof. split; [apply flow_sound|apply profile_sound]. Qed.

(** ** Examples *)

Example quoted_symbol : live_ticks_query "M'S" 5
  = "SELECT last_traded_price, volume, best_bid, best_ask FROM live_ticks WHERE symbol='M''S' ORDER BY timestamp DESC LIMIT 5"%string.
Proof. reflexivity. Qed.

Definition answered_row (i : Z) : val := VList [VInt (100 - i); VInt (50 - i); VNone; VNone].

(** The store answers the latest first; the ticks run oldest first, without the rows
    that hold too few fields. *)
Example ticks_run_forward :
  let exec q := Some (VDict [(VStr "dataset", VList [answered_row 0; VList [VInt 1]; answered_row 1])]) in
  map (fun t => vget t "last_price") (_read_live_ticks exec "A" 5) = [VInt 99; VInt 100] /\
  _read_live_ticks (fun _ => Some (VDict [(VStr "error", VStr "table does not exist")])) "A" 5 = [].
Proof. split; reflexivity. Qed.
