(* ===== verification/Options.v ===== *)
(** * Options analytics: the pure core

    Models the computing part of [agents/deep-quant-loop/options.py]: its configuration,
    the Black-Scholes price, the implied volatility by bisection and the Greeks, and the
    analytics of a chain snapshot: put-call ratios, max pain, the IV skew, the build-up of
    open interest, its walls, and the futures basis.

    [log], [exp] and [erf] are the C library functions behind [math.log], [math.exp] and
    [math.erf]; the range errors Python adds to them are in [f_log] and [f_exp]. *)

From stdpp Require Import base list strings sorting.
From Stdlib Require Import ZArith Lia Floats.
From S2P Require Import Prelude PyFloat PyRound PyDiv PyNum PyVal PyEnv PyJson PySort PyStats.

#[local] Set Warnings "-inexact-float".
Open Scope Z_scope.
Open Scope res_scope.

(** ** Configuration *)

Definition DEFAULT_RISK_FREE_RATE : float := 0.065.
Definition DEFAULT_IV_TOLERANCE : float := 1e-6.
Definition DEFAULT_IV_MAX_ITERATIONS := 100.
Definition DEFAULT_IV_MIN_VOL : float := 0.005.
Definition DEFAULT_IV_MAX_VOL : float := 5.
Definition DEFAULT_OI_WALL_MIN_OI : float := 0.
Definition DEFAULT_BUILDUP_OI_EPSILON : float := 0.
Definition DEFAULT_BUILDUP_PRICE_EPSILON : float := 0.
Definition _ITER_MIN := 1.

Record OptionsConfig := {
  risk_free_rate : float;
  iv_tolerance : float;
  iv_max_iterations : Z;
  iv_min_vol : float;
  iv_max_vol : float;
  oi_wall_min_oi : float;
  buildup_oi_epsilon : float;
  buildup_price_epsilon : float;
}.

Definition _resolve_float (e : env) (name : string) (default low high : float) (inclusive_low : bool) : float :=
  match env_text e name with
  | None => default
  | Some t =>
      match parse_float t with
      | Raise _ => default
      | Ok v =>
          if negb (is_finite v) then default
          else if PrimFloat.ltb v low || (negb inclusive_low && PrimFloat.eqb v low) then default
          else if PrimFloat.ltb high v then default
          else v
      end
  end.

Definition resolve_options_config (e : env) : OptionsConfig :=
  let min_vol := _resolve_float e "OPTIONS_IV_MIN_VOL" DEFAULT_IV_MIN_VOL 0 infinity true in
  let max_vol := _resolve_float e "OPTIONS_IV_MAX_VOL" DEFAULT_IV_MAX_VOL 0 infinity false in
  let reverted := PrimFloat.leb max_vol min_vol in
  {| risk_free_rate := _resolve_float e "OPTIONS_RISK_FREE_RATE" DEFAULT_RISK_FREE_RATE 0 1 true;
     iv_tolerance := _resolve_float e "OPTIONS_IV_TOLERANCE" DEFAULT_IV_TOLERANCE 0 1 false;
     iv_max_iterations := resolve_int_min e "OPTIONS_IV_MAX_ITERATIONS" DEFAULT_IV_MAX_ITERATIONS _ITER_MIN;
     iv_min_vol := if reverted then DEFAULT_IV_MIN_VOL else min_vol;
     iv_max_vol := if reverted then DEFAULT_IV_MAX_VOL else max_vol;
     oi_wall_min_oi := _resolve_float e "OPTIONS_OI_WALL_MIN_OI" DEFAULT_OI_WALL_MIN_OI 0 infinity true;
     buildup_oi_epsilon := _resolve_float e "OPTIONS_BUILDUP_OI_EPSILON" DEFAULT_BUILDUP_OI_EPSILON 0 infinity true;
     buildup_price_epsilon := _resolve_float e "OPTIONS_BUILDUP_PRICE_EPSILON" DEFAULT_BUILDUP_PRICE_EPSILON 0 infinity true |}.

(** ** Data *)

Record StrikeQuote := {
  strike : float;
  ce_price : option float;
  pe_price : option float;
  ce_oi : option float;
  pe_oi : option float;
  ce_volume : option float;
  pe_volume : option float;
}.

Record ChainSnapshot := {
  underlying : string;
  expiry : string;
  snapshot_ts : Z;
  strikes : list StrikeQuote;
}.

Inductive option_kind := Call | Put.

Definition _CALL_TAGS : list string := ["ce"; "c"; "call"]%string.
Definition _PUT_TAGS : list string := ["pe"; "p"; "put"]%string.

Definition _normalize_option_type (option_type : val) : option option_kind :=
  match option_type with
  | VStr s =>
      let tag := lower (strip s) in
      if str_in tag _CALL_TAGS then Some Call else if str_in tag _PUT_TAGS then Some Put else None
  | _ => None
  end.

Definition _is_pos_finite (x : float) : bool := is_finite x && PrimFloat.ltb 0 x.
Definition _is_finite : float -> bool := is_finite.

(** The number an optional field holds, when it is finite. *)
Definition finite_field (o : option float) : option float := match o with Some x => if _is_finite x then Some x else None | None => None end.

(** A result that is not finite is none. *)
Definition if_finite (x : float) : option float := if is_finite x then Some x else None.

(** ** Black-Scholes *)

Section black_scholes.
Variables (log exp erf : float -> float).

(** [math.log(x)] *)
Definition f_log (x : float) : res float := if PrimFloat.leb x 0 then Raise ValueError else Ok (log x).

(** [math.exp(x)] *)
Definition f_exp (x : float) : res float := let y := exp x in if is_finite x && is_infinity y then Raise OverflowError else Ok y.

Definition pi : float := 3.141592653589793.

Definition _norm_cdf (x : float) : float := (0.5 * (1 + erf (x / sqrt 2)))%float.
Definition _norm_pdf (x : float) : res float := y ← f_exp (-0.5 * x * x)%float; Ok (y / sqrt (2 * pi))%float.

Definition d1_of (S K T r sigma sqrt_t : float) : res float :=
  ratio ← f_div S K;
  ln ← f_log ratio;
  f_div (ln + (r + 0.5 * sigma * sigma) * T)%float (sigma * sqrt_t)%float.

Definition price_of (kind : option_kind) (S K T r sigma : float) : res float :=
  let sqrt_t := sqrt T in
  d1 ← d1_of S K T r sigma sqrt_t;
  let d2 := (d1 - sigma * sqrt_t)%float in
  discount ← f_exp (- r * T)%float;
  Ok match kind with
     | Call => (S * _norm_cdf d1 - K * discount * _norm_cdf d2)%float
     | Put => (K * discount * _norm_cdf (- d2) - S * _norm_cdf (- d1))%float
     end.

Definition value_or_overflow (ex : exn) : bool := match ex with ValueError | OverflowError => true | _ => false end.

Definition bs_price (option_type : val) (S K T r sigma : float) : res (option float) :=
  match _normalize_option_type option_type with
  | None => Ok None
  | Some kind =>
      if negb (_is_pos_finite S && _is_pos_finite K && _is_pos_finite T && _is_pos_finite sigma) then Ok None
      else if negb (is_finite r) then Ok None
      else catch (price ← price_of kind S K T r sigma; Ok (if_finite price)) value_or_overflow None
  end.

Definition midpoint (lo hi : float) : float := (0.5 * (lo + hi))%float.

(** [n] halvings of the bracket. *)
Fixpoint bisect (n : nat) (price_at : float -> res (option float)) (price tolerance lo hi : float) : res (option float) :=
  let mid := midpoint lo hi in
  match n with
  | O => Ok (Some mid)
  | S n' =>
      price_mid ← price_at mid;
      match price_mid with
      | None => Ok None
      | Some p =>
          if PrimFloat.leb (abs (p - price)%float) tolerance then Ok (Some mid)
          else if PrimFloat.ltb p price then bisect n' price_at price tolerance mid hi
          else bisect n' price_at price tolerance lo mid
      end
  end.

Definition usable_bounds (config : OptionsConfig) : bool :=
  _is_pos_finite (iv_max_vol config) && is_finite (iv_min_vol config) && PrimFloat.leb 0 (iv_min_vol config) &&
  PrimFloat.ltb (iv_min_vol config) (iv_max_vol config) && _is_pos_finite (iv_tolerance config) && (1 <=? iv_max_iterations config).

(** The volatility at which [price_at] gives the price. *)
Definition invert (price_at : float -> res (option float)) (price : float) (config : OptionsConfig) : res (option float) :=
  let min_vol := iv_min_vol config in
  let max_vol := iv_max_vol config in
  let tolerance := iv_tolerance config in
  price_low ← price_at min_vol;
  price_high ← price_at max_vol;
  match price_low, price_high return res (option float) with
  | Some price_low, Some price_high =>
      if PrimFloat.leb price price_low then Ok (if PrimFloat.leb (price_low - price)%float tolerance then Some min_vol else None)
      else if PrimFloat.leb price_high price then Ok (if PrimFloat.leb (price - price_high)%float tolerance then Some max_vol else None)
      else bisect (Z.to_nat (iv_max_iterations config)) price_at price tolerance min_vol max_vol
  | _, _ => Ok None
  end.

Definition iv_handled (ex : exn) : bool := match ex with ValueError | OverflowError | AttributeError | TypeError => true | _ => false end.

Definition bs_implied_vol (option_type : val) (S K T r price : float) (config : OptionsConfig) : res (option float) :=
  catch
    (if negb (is_finite price) then Ok None
     else
       match _normalize_option_type option_type with
       | None => Ok None
       | Some _ => if usable_bounds config then invert (bs_price option_type S K T r) price config else Ok None
       end)
    iv_handled None.

(** *** Greeks *)

Record greeks := { delta : option float; gamma : option float; theta : option float; vega : option float }.

Definition _NULL_GREEKS : greeks := {| delta := None; gamma := None; theta := None; vega := None |}.

Definition greeks_of (kind : option_kind) (S K T r sigma : float) : res greeks :=
  let sqrt_t := sqrt T in
  d1 ← d1_of S K T r sigma sqrt_t;
  let d2 := (d1 - sigma * sqrt_t)%float in
  discount ← f_exp (- r * T)%float;
  pdf_d1 ← _norm_pdf d1;
  decay ← f_div (- S * pdf_d1 * sigma)%float (2 * sqrt_t)%float;
  gamma ← f_div pdf_d1 (S * sigma * sqrt_t)%float;
  let vega := (S * pdf_d1 * sqrt_t)%float in
  let '(delta, theta) :=
    match kind with
    | Call => (_norm_cdf d1, (decay - r * K * discount * _norm_cdf d2)%float)
    | Put => ((_norm_cdf d1 - 1)%float, (decay + r * K * discount * _norm_cdf (- d2))%float)
    end in
  Ok {| delta := if_finite delta; gamma := if_finite gamma; theta := if_finite theta; vega := if_finite vega |}.

Definition arithmetic_error (ex : exn) : bool := match ex with ValueError | OverflowError | ZeroDivisionError => true | _ => false end.

Definition bs_greeks (option_type : val) (S K : float) (T : option float) (r : float) (sigma : option float) : res greeks :=
  match sigma with
  | None => Ok _NULL_GREEKS
  | Some sigma =>
      match _normalize_option_type option_type, T with
      | Some kind, Some T =>
          if negb (_is_pos_finite S && _is_pos_finite K && _is_pos_finite T && _is_pos_finite sigma) then Ok _NULL_GREEKS
          else if negb (is_finite r) then Ok _NULL_GREEKS
          else catch (greeks_of kind S K T r sigma) arithmetic_error _NULL_GREEKS
      | _, _ => Ok _NULL_GREEKS
      end
  end.
End black_scholes.

(** ** Put-call ratios *)

Definition _sum_finite (values : list (option float)) : float :=
  fold_left (fun total v => match finite_field v with Some x => (total + x)%float | None => total end) values 0%float.

Definition ratio_of (put call : float) : option float := if PrimFloat.eqb call 0 then None else if_finite (put / call)%float.

Definition compute_pcr_oi (snapshot : ChainSnapshot) : option float :=
  match strikes snapshot with [] => None | qs => ratio_of (_sum_finite (map pe_oi qs)) (_sum_finite (map ce_oi qs)) end.

Definition compute_pcr_volume (snapshot : ChainSnapshot) : option float :=
  match strikes snapshot with [] => None | qs => ratio_of (_sum_finite (map pe_volume qs)) (_sum_finite (map ce_volume qs)) end.

(** ** Max pain *)

(** The quotes of a finite strike, by strike. *)
Definition ladder_of (snapshot : ChainSnapshot) : list StrikeQuote :=
  sort_by (fun a b => PrimFloat.ltb (strike a) (strike b)) (List.filter (fun q => _is_finite (strike q)) (strikes snapshot)).

(** What the holders of a strike's options are paid at a settlement. *)
Definition add_payout (settlement : float) (payout : float) (q : StrikeQuote) : float :=
  if PrimFloat.ltb (strike q) settlement then
    match finite_field (ce_oi q) with Some oi => (payout + oi * (settlement - strike q))%float | None => payout end
  else if PrimFloat.ltb settlement (strike q) then
    match finite_field (pe_oi q) with Some oi => (payout + oi * (strike q - settlement))%float | None => payout end
  else payout.

Definition payout (ladder : list StrikeQuote) (settlement : float) : float := fold_left (add_payout settlement) ladder 0%float.

(** The best strike so far with its payout. *)
Definition less_pain (ladder : list StrikeQuote) (best : option (float * float)) (candidate : StrikeQuote) : option (float * float) :=
  let pain := payout ladder (strike candidate) in
  if negb (is_finite pain) then best
  else
    match best with
    | None => Some (strike candidate, pain)
    | Some (_, best_pain) => if PrimFloat.ltb pain best_pain then Some (strike candidate, pain) else best
    end.

Definition compute_max_pain (snapshot : ChainSnapshot) : option float :=
  let ladder := ladder_of snapshot in
  match fold_left (less_pain ladder) ladder None with Some (k, _) => Some k | None => None end.

(** ** IV skew *)

Record skew := { put_minus_call : option float; slope : option float; atm_iv : option float }.

(** The point nearest the spot so far, with its distance. *)
Definition nearer (spot : float) (best : option (float * float)) (point : float * float) : option (float * float) :=
  let dist := abs (point.1 - spot)%float in
  match best with
  | None => Some (dist, point.2)
  | Some (best_dist, _) => if PrimFloat.ltb dist best_dist then Some (dist, point.2) else best
  end.

Definition slope_of (points : list (float * float)) : res (option float) :=
  let mean_x := mean (map fst points) in
  let mean_y := mean (map snd points) in
  squares ← mapM_res (fun p => square (p.1 - mean_x)%float) points;
  let denom := float_sum squares in
  if PrimFloat.ltb 0 denom then
    let numer := float_sum (map (fun p => (p.1 - mean_x) * (p.2 - mean_y))%float points) in
    Ok (if_finite (numer / denom)%float)
  else Ok None.

Definition sides_of (points : list (float * float)) (spot : float) : option float :=
  match map snd (List.filter (fun p => PrimFloat.ltb p.1 spot) points), map snd (List.filter (fun p => PrimFloat.ltb spot p.1) points) with
  | (_ :: _) as put_side, (_ :: _) as call_side => if_finite (mean put_side - mean call_side)%float
  | _, _ => None
  end.

Definition skew_points (per_strike_iv : list (float * float)) : list (float * float) :=
  sort_by (fun a b => PrimFloat.ltb a.1 b.1) (List.filter (fun p => _is_finite p.1 && _is_finite p.2) per_strike_iv).

Definition compute_iv_skew (per_strike_iv : list (float * float)) (spot : float) : option skew :=
  let points := skew_points per_strike_iv in
  if (length points <? 2)%nat then None
  else
    match slope_of points with
    | Raise _ => None
    | Ok slope =>
        if _is_finite spot then
          Some {| put_minus_call := sides_of points spot; slope := slope;
                  atm_iv := match fold_left (nearer spot) points None with Some (_, iv) => Some iv | None => None end |}
        else Some {| put_minus_call := None; slope := slope; atm_iv := None |}
    end.

(** ** Build-up of open interest *)

Inductive buildup := BUILDUP_LONG | BUILDUP_SHORT | BUILDUP_SHORT_COVERING | BUILDUP_LONG_UNWINDING | BUILDUP_NEUTRAL.

Definition buildup_name (b : buildup) : string :=
  match b with
  | BUILDUP_LONG => "long_buildup" | BUILDUP_SHORT => "short_buildup" | BUILDUP_SHORT_COVERING => "short_covering"
  | BUILDUP_LONG_UNWINDING => "long_unwinding" | BUILDUP_NEUTRAL => "neutral"
  end.

(** A threshold that is finite and not negative, else zero. *)
Definition usable_floor (x default : float) : float := if _is_finite x && PrimFloat.leb 0 x then x else default.

(** The sign of a change beyond its dead band. *)
Definition sign_beyond (d eps : float) : Z := if PrimFloat.ltb eps (abs d) then (if PrimFloat.ltb 0 d then 1 else -1) else 0.

Definition classify_oi_buildup (d_oi d_price : float) (config : OptionsConfig) : buildup :=
  if negb (_is_finite d_oi && _is_finite d_price) then BUILDUP_NEUTRAL
  else
    let oi_sign := sign_beyond d_oi (usable_floor (buildup_oi_epsilon config) DEFAULT_BUILDUP_OI_EPSILON) in
    let price_sign := sign_beyond d_price (usable_floor (buildup_price_epsilon config) DEFAULT_BUILDUP_PRICE_EPSILON) in
    if (oi_sign =? 0) || (price_sign =? 0) then BUILDUP_NEUTRAL
    else if 0 <? oi_sign then (if 0 <? price_sign then BUILDUP_LONG else BUILDUP_SHORT)
    else if 0 <? price_sign then BUILDUP_SHORT_COVERING
    else BUILDUP_LONG_UNWINDING.

(** The first quote of a strike. *)
Definition quote_at (qs : list StrikeQuote) (k : float) : option StrikeQuote :=
  List.find (fun q => PrimFloat.eqb (strike q) k) (List.filter (fun q => _is_finite (strike q)) qs).

Definition oi_of (kind : option_kind) (q : StrikeQuote) : option float := match kind with Call => ce_oi q | Put => pe_oi q end.
Definition leg_price (kind : option_kind) (q : StrikeQuote) : option float := match kind with Call => ce_price q | Put => pe_price q end.

(** The quotes of the strikes both snapshots hold. *)
Definition matched (latest prior : list StrikeQuote) : list (StrikeQuote * StrikeQuote) :=
  omap (fun q => if _is_finite (strike q) then match quote_at prior (strike q) with Some m => Some (q, m) | None => None end else None) latest.

(** The sum over the later quotes less the sum over the earlier. *)
Definition net_change (field : StrikeQuote -> option float) (pairs : list (StrikeQuote * StrikeQuote)) : float :=
  (_sum_finite (map (fun p => field p.1) pairs) - _sum_finite (map (fun p => field p.2) pairs))%float.

Definition aggregate_oi_buildup (latest : ChainSnapshot) (prior : option ChainSnapshot) (config : OptionsConfig) (side : val) : buildup :=
  match prior, _normalize_option_type side with
  | Some prior, Some kind =>
      match matched (strikes latest) (strikes prior) with
      | [] => BUILDUP_NEUTRAL
      | pairs => classify_oi_buildup (net_change (oi_of kind) pairs) (net_change (leg_price kind) pairs) config
      end
  | _, _ => BUILDUP_NEUTRAL
  end.

(** ** Walls *)

Record walls := { support : option float; resistance : option float }.

(** A wall so far: its open interest and its strike. *)
Definition higher_wall (spot min_oi : float) (best : option (float * float)) (q : StrikeQuote) : option (float * float) :=
  if PrimFloat.leb spot (strike q) then
    match finite_field (ce_oi q) with
    | Some oi =>
        if PrimFloat.leb min_oi oi && match best with None => true | Some (b, _) => PrimFloat.ltb b oi end then Some (oi, strike q) else best
    | None => best
    end
  else best.

Definition lower_wall (spot min_oi : float) (best : option (float * float)) (q : StrikeQuote) : option (float * float) :=
  if PrimFloat.leb (strike q) spot then
    match finite_field (pe_oi q) with
    | Some oi =>
        if PrimFloat.leb min_oi oi && match best with None => true | Some (b, _) => PrimFloat.leb b oi end then Some (oi, strike q) else best
    | None => best
    end
  else best.

Definition wall_strike (best : option (float * float)) : option float := match best with Some (_, k) => Some k | None => None end.

Definition compute_oi_walls (snapshot : ChainSnapshot) (spot : float) (config : OptionsConfig) : walls :=
  if negb (_is_finite spot) then {| support := None; resistance := None |}
  else
    let min_oi := usable_floor (oi_wall_min_oi config) DEFAULT_OI_WALL_MIN_OI in
    let ladder := ladder_of snapshot in
    {| support := wall_strike (fold_left (lower_wall spot min_oi) ladder None);
       resistance := wall_strike (fold_left (higher_wall spot min_oi) ladder None) |}.

(** ** Futures basis *)

Definition compute_futures_basis (future_price : option float) (spot : float) : option float :=
  match finite_field future_price with
  | Some f => if _is_finite spot then if_finite (f - spot)%float else None
  | None => None
  end.

(** * Options analytics: properties of the pure core

    The implied volatility lies inside its bounds and reprices the option, or halves a
    bracket of the price, for any C library; max pain, the walls and the build-up are
    what their definitions say, ties included. *)

(** ** Comparisons of finite floats *)

Lemma leb_trans x y z : PrimFloat.leb x y = true -> PrimFloat.leb y z = true -> PrimFloat.leb x z = true.
Proof. rewrite !leb_rank, !andb_true_iff, !negb_true_iff, !Z.leb_le. intros [[? ?] ?] [[? ?] ?]. repeat split; [done|done|lia]. Qed.

Lemma leb_refl x : fin x = true -> PrimFloat.leb x x = true.
Proof. intros F. rewrite leb_fin by done. apply Z.leb_refl. Qed.

Lemma leb_false_ltb x y : fin x = true -> fin y = true -> PrimFloat.leb x y = false -> PrimFloat.ltb y x = true.
Proof. intros Fx Fy. rewrite leb_fin, ltb_fin, Z.leb_gt, Z.ltb_lt by done. lia. Qed.

Lemma sum_fin x y hi :
  fin x = true -> fin y = true -> fin hi = true -> fin (hi + hi)%float = true ->
  PrimFloat.leb 0 x = true -> PrimFloat.leb 0 y = true -> PrimFloat.leb x hi = true -> PrimFloat.leb y hi = true -> fin (x + y)%float = true.
Proof.
  intros Fx Fy Fh F2. rewrite !leb_fin, !Z.leb_le by done. change (frank 0) with 0. intros Px Py Lx Ly.
  destruct (fadd_rank x y Fx Fy) as [S NS], (fadd_rank hi hi Fh Fh) as [S2 _].
  rewrite fin_rank in F2 |- *. rewrite !andb_true_iff, !Z.ltb_lt in F2. rewrite S2 in F2. rewrite NS, S. cbn.
  pose proof (rnd_mono (frank x + frank y) (frank hi + frank hi) ltac:(lia)). pose proof (rnd_nonneg (frank x + frank y) ltac:(lia)).
  apply andb_true_iff. rewrite !Z.ltb_lt. pose proof (pow2_pos 2098 ltac:(lia)). lia.
Qed.

Lemma if_finite_fin x y : if_finite x = Some y -> fin y = true.
Proof. unfold if_finite. destruct (is_finite x) eqn:E; [|done]. by intros [= <-]. Qed.

Lemma finite_field_Some o x : finite_field o = Some x -> o = Some x /\ fin x = true.
Proof. unfold finite_field, _is_finite. destruct o as [y|]; [|done]. destruct (is_finite y) eqn:E; [|done]. by intros [= <-]. Qed.

(** ** The implied volatility *)

Section black_scholes.
Variables (log exp erf : float -> float).

Lemma d1_raises S K T r sigma sqrt_t ex : d1_of log S K T r sigma sqrt_t = Raise ex -> ex = ValueError \/ ex = ZeroDivisionError.
Proof.
  unfold d1_of, f_div, f_log. destruct (PrimFloat.eqb K 0); [intros [= <-]; by right|]. cbn beta iota delta [mbind res_bind].
  destruct (PrimFloat.leb _ _); [intros [= <-]; by left|]. cbn beta iota delta [mbind res_bind].
  destruct (PrimFloat.eqb _ 0); [intros [= <-]; by right|done].
Qed.

(** Only a division by zero is not caught. *)
Lemma bs_price_raises ty S K T r sigma ex : bs_price log exp erf ty S K T r sigma = Raise ex -> ex = ZeroDivisionError.
Proof.
  unfold bs_price. destruct (_normalize_option_type ty) as [kind|]; [|done]. destruct (negb _); [done|]. destruct (negb _); [done|].
  unfold catch, price_of. destruct (d1_of log S K T r sigma (sqrt T)) as [d1|ex'] eqn:D; cbn beta iota zeta delta [mbind res_bind].
  - unfold f_exp. destruct (_ && _); cbn beta iota delta [mbind res_bind value_or_overflow]; done.
  - apply d1_raises in D as [-> | ->]; cbn; [done|by intros [= <-]].
Qed.

Lemma bs_price_fin ty S K T r sigma p : bs_price log exp erf ty S K T r sigma = Ok (Some p) -> fin p = true.
Proof.
  unfold bs_price. destruct (_normalize_option_type ty) as [kind|]; [|done]. destruct (negb _); [done|]. destruct (negb _); [done|].
  unfold catch. destruct (price_of log exp erf kind S K T r sigma) as [x|ex]; cbn beta iota delta [mbind res_bind].
  - intros H%Ok_inj. by eapply if_finite_fin.
  - by destruct (value_or_overflow ex).
Qed.
End black_scholes.

Section inversion.
Variable price_at : float -> res (option float).
Variables (price : float) (config : OptionsConfig).
Abbreviation tolerance := (iv_tolerance config).
Abbreviation iterations := (Z.to_nat (iv_max_iterations config)).
Hypothesis prices_fin : forall s p, price_at s = Ok (Some p) -> fin p = true.
Hypothesis price_fin : fin price = true.

(** Volatilities whose prices hold the price between them. *)
Definition bracket (lo hi : float) : Prop :=
  exists p_lo p_hi, price_at lo = Ok (Some p_lo) /\ price_at hi = Ok (Some p_hi) /\ PrimFloat.ltb p_lo price = true /\ PrimFloat.leb price p_hi = true.

(** [n] halvings of the configured bounds: each found the model price at the midpoint off
    the tolerance, and kept the half whose ends hold the price. *)
Inductive halved : nat -> float -> float -> Prop :=
| halved_none : halved 0 (iv_min_vol config) (iv_max_vol config)
| halved_up n lo hi p :
    halved n lo hi -> price_at (midpoint lo hi) = Ok (Some p) -> PrimFloat.leb (abs (p - price)%float) tolerance = false ->
    PrimFloat.ltb p price = true -> halved (S n) (midpoint lo hi) hi
| halved_down n lo hi p :
    halved n lo hi -> price_at (midpoint lo hi) = Ok (Some p) -> PrimFloat.leb (abs (p - price)%float) tolerance = false ->
    PrimFloat.ltb p price = false -> halved (S n) lo (midpoint lo hi).

(** A bound of the configuration, for a price at or beyond its own by the tolerance at most. *)
Definition at_bound (v : float) : Prop :=
  exists p, price_at v = Ok (Some p) /\
    (v = iv_min_vol config /\ PrimFloat.leb price p = true /\ PrimFloat.leb (p - price)%float tolerance = true \/
     v = iv_max_vol config /\ PrimFloat.leb p price = true /\ PrimFloat.leb (price - p)%float tolerance = true).

(** The midpoint of a halved bracket that holds the price: after fewer halvings than the
    configured number, where the model price is within the tolerance there, and otherwise
    after exactly that number. *)
Definition at_midpoint (v : float) : Prop :=
  exists n lo hi, halved n lo hi /\ bracket lo hi /\ v = midpoint lo hi /\
    (((n < iterations)%nat /\ exists p, price_at v = Ok (Some p) /\ PrimFloat.leb (abs (p - price)%float) tolerance = true) \/ n = iterations).

Definition solves (v : float) : Prop := at_bound v \/ at_midpoint v.

Definition between (lo hi v : float) : Prop := fin v = true /\ PrimFloat.leb lo v = true /\ PrimFloat.leb v hi = true.

(** What a search over [lo] to [hi] may answer. *)
Definition answered (lo hi : float) (r : res (option float)) : Prop :=
  match r with
  | Ok (Some v) => between lo hi v /\ solves v
  | Ok None => exists v, between lo hi v /\ price_at v = Ok None
  | Raise ex => exists v, between lo hi v /\ price_at v = Raise ex
  end.

Lemma midpoint_fin lo hi : fin lo = true -> fin hi = true -> fin (hi + hi)%float = true -> PrimFloat.leb 0 lo = true -> PrimFloat.leb lo hi = true ->
  between lo hi (midpoint lo hi).
Proof.
  intros Fl Fh F2 P L. assert (fin (lo + hi)%float = true) as Fs.
  { apply (sum_fin lo hi hi); try done; rewrite leb_fin in * by done; apply Z.leb_le in L, P; apply Z.leb_le; change (frank 0) with 0 in *; lia. }
  destruct (midpoint_between lo hi Fl Fh Fs P L) as [B1 B2]. split; [|done].
  pose proof (fin_not_nan _ Fl) as Nl. pose proof (fin_not_nan _ Fh) as Nh.
  rewrite fin_rank in Fh |- *. rewrite !andb_true_iff, !Z.ltb_lt in Fh. destruct (fhalf_rank _ Fs) as [Nm _]. unfold midpoint in *.
  rewrite leb_rank, Nm, Nl in B1. rewrite leb_rank, Nm, Nh in B2. rewrite leb_rank, Nl in P. cbn in B1, B2, P. apply Z.leb_le in B1, B2, P.
  rewrite Nm. cbn. apply andb_true_iff. rewrite !Z.ltb_lt. pose proof (pow2_pos 2098 ltac:(lia)). lia.
Qed.

Lemma between_widen lo hi lo' hi' v : PrimFloat.leb lo lo' = true -> PrimFloat.leb hi' hi = true -> between lo' hi' v -> between lo hi v.
Proof. intros H1 H2 (F & B1 & B2). split_and!; [done|by eapply leb_trans|by eapply leb_trans]. Qed.

Lemma answered_widen lo hi lo' hi' r : PrimFloat.leb lo lo' = true -> PrimFloat.leb hi' hi = true -> answered lo' hi' r -> answered lo hi r.
Proof.
  intros H1 H2. unfold answered. destruct r as [[v|]|ex].
  - intros [B S]. split; [by eapply between_widen|done].
  - intros (v & B & E). exists v. split; [by eapply between_widen|done].
  - intros (v & B & E). exists v. split; [by eapply between_widen|done].
Qed.

(** A half of the bracket of the price holds the price. *)
Lemma bisect_answers n k lo hi :
  fin lo = true -> fin hi = true -> fin (hi + hi)%float = true -> PrimFloat.leb 0 lo = true -> PrimFloat.leb lo hi = true ->
  halved k lo hi -> (k + n = iterations)%nat -> bracket lo hi -> answered lo hi (bisect n price_at price tolerance lo hi).
Proof.
  revert k lo hi. induction n as [|n IH]; intros k lo hi Fl Fh F2 P L W N B; pose proof (midpoint_fin lo hi Fl Fh F2 P L) as M; cbn [bisect]; cbn zeta.
  - split; [done|]. right. exists k, lo, hi. split_and!; try done. right. lia.
  - destruct (price_at (midpoint lo hi)) as [[p|]|ex] eqn:E; cbn beta iota delta [mbind res_bind answered]; [|by exists (midpoint lo hi)..].
    destruct (PrimFloat.leb (abs (p - price)) tolerance) eqn:C.
    { split; [done|]. right. exists k, lo, hi. split_and!; try done. left. split; [lia|]. by exists p. }
    pose proof (prices_fin _ _ E) as Fp. destruct M as (Fm & M1 & M2). destruct B as (pl & ph & El & Eh & Bl & Bh).
    destruct (PrimFloat.ltb p price) eqn:Q.
    + eapply (answered_widen _ _ (midpoint lo hi) hi); [done|by apply leb_refl|].
      apply (IH (S k)); try done; [by eapply leb_trans|by eapply halved_up|lia|by exists p, ph].
    + eapply (answered_widen _ _ lo (midpoint lo hi)); [by apply leb_refl|done|]. apply (IH (S k)); try done; [|by eapply halved_down|lia|].
      * pose proof (leb_trans _ _ _ P M1). by apply (sum_fin _ _ hi).
      * exists pl, p. split_and!; try done. rewrite ltb_fin in Q by done. rewrite leb_fin by done. apply Z.ltb_ge in Q. by apply Z.leb_le.
Qed.
End inversion.

(** The bounds of a configuration, wide apart but of finite sum. *)
Definition usable (config : OptionsConfig) : Prop := usable_bounds config = true /\ fin (iv_max_vol config + iv_max_vol config)%float = true.

Lemma usable_facts config : usable_bounds config = true ->
  fin (iv_min_vol config) = true /\ fin (iv_max_vol config) = true /\ PrimFloat.leb 0 (iv_min_vol config) = true /\
  PrimFloat.leb (iv_min_vol config) (iv_max_vol config) = true.
Proof.
  unfold usable_bounds, _is_pos_finite. rewrite !andb_true_iff. intros [[[[[[Fm _] Fl] P] L] _] _]. split_and!; try done. by apply ltb_leb.
Qed.

(** The price is within the prices of the bounds, give or take the tolerance. *)
Definition priced (price_at : float -> res (option float)) (price : float) (config : OptionsConfig) : Prop :=
  exists p_min p_max, price_at (iv_min_vol config) = Ok (Some p_min) /\ price_at (iv_max_vol config) = Ok (Some p_max) /\
    (PrimFloat.leb price p_min = false \/ PrimFloat.leb (p_min - price)%float (iv_tolerance config) = true) /\
    (PrimFloat.leb p_max price = false \/ PrimFloat.leb (price - p_max)%float (iv_tolerance config) = true \/ PrimFloat.leb price p_min = true).

Lemma invert_answers price_at price config :
  (forall s p, price_at s = Ok (Some p) -> fin p = true) -> fin price = true -> usable config ->
  match invert price_at price config with
  | Ok None => ~ priced price_at price config \/ exists v, between (iv_min_vol config) (iv_max_vol config) v /\ price_at v = Ok None
  | r => answered price_at price config (iv_min_vol config) (iv_max_vol config) r
  end.
Proof.
  intros Hp Fp [U F2]. destruct (usable_facts config U) as (F1 & Fm & P & L).
  assert (between (iv_min_vol config) (iv_max_vol config) (iv_min_vol config)) as Blo by (split_and!; [done|by apply leb_refl|done]).
  assert (between (iv_min_vol config) (iv_max_vol config) (iv_max_vol config)) as Bhi by (split_and!; [done|done|by apply leb_refl]).
  unfold invert. cbn zeta. destruct (price_at (iv_min_vol config)) as [[pl|]|ex] eqn:El; cbn beta iota delta [mbind res_bind answered];
    [|destruct (price_at (iv_max_vol config)) as [[ph|]|ex] eqn:Eh; cbn beta iota delta [mbind res_bind answered]|]; try (by eauto).
  destruct (price_at (iv_max_vol config)) as [[ph|]|ex] eqn:Eh; cbn beta iota delta [mbind res_bind answered]; [|by eauto..].
  destruct (PrimFloat.leb price pl) eqn:C1.
  - destruct (PrimFloat.leb (pl - price) _) eqn:T1.
    + split; [done|]. left. exists pl. split; [done|]. by left.
    + left. intros (pl' & ph' & E1 & E2 & [?|?] & _); rewrite El in E1; simplify_eq; congruence.
  - destruct (PrimFloat.leb ph price) eqn:C2.
    + destruct (PrimFloat.leb (price - ph) _) eqn:T2.
      * split; [done|]. left. exists ph. split; [done|]. by right.
      * left. intros (pl' & ph' & E1 & E2 & _ & [?|[?|?]]); rewrite El in E1; rewrite Eh in E2; simplify_eq; congruence.
    + pose proof (Hp _ _ El) as Fl. pose proof (Hp _ _ Eh) as Fh.
      pose proof (bisect_answers price_at price config Hp Fp (Z.to_nat (iv_max_iterations config)) 0 _ _ F1 Fm F2 P L (halved_none _ _ _) eq_refl) as B.
      specialize (B ltac:(exists pl, ph; split_and!; [done|done|by apply leb_false_ltb|by apply ltb_leb, leb_false_ltb])).
      destruct (bisect _ _ _ _ _ _) as [[v|]|ex]; [done|by right|done].
Qed.

(** C31: Whatever the C library computes, for a finite price and a usable configuration
    (valid bounds whose sum is finite) a volatility that is found lies inside the bounds.
    It is a bound where the price is at or beyond that bound's by at most the tolerance.
    Otherwise it is the midpoint of a bracket reached from the bounds by halving, each step
    keeping the half whose model prices hold the observed one, no midpoint before it being
    within the tolerance: either the model price at it is, or exactly the configured number
    of halvings was done.  None is found only where the price is outside the prices of the
    bounds by more than the tolerance, or where the model has no price at some volatility
    inside them; and the only exception is a division by zero, at some such volatility.
    The search always ends. *)
Theorem implied_vol_exact log exp erf ty S K T r price config :
  fin price = true -> usable config ->
  let price_at := bs_price log exp erf ty S K T r in
  let inside := between (iv_min_vol config) (iv_max_vol config) in
  match bs_implied_vol log exp erf ty S K T r price config with
  | Ok (Some v) => inside v /\ solves price_at price config v
  | Ok None => ~ priced price_at price config \/ exists v, inside v /\ price_at v = Ok None
  | Raise ex => ex = ZeroDivisionError /\ exists v, inside v /\ price_at v = Raise ex
  end.
Proof.
  intros Fp U price_at inside. unfold bs_implied_vol. unfold fin in Fp. rewrite Fp. cbn [negb]. destruct (_normalize_option_type ty) as [kind|] eqn:Ty.
  - destruct U as [U F2]. rewrite U. fold price_at.
    pose proof (invert_answers price_at price config (bs_price_fin log exp erf ty S K T r) Fp (conj U F2)) as A.
    destruct (invert price_at price config) as [[v|]|ex]; cbn [catch]; [exact A|exact A|].
    destruct A as (v & B & E). pose proof (bs_price_raises _ _ _ _ _ _ _ _ _ _ E) as ->. cbn. split; [done|]. by exists v.
  - cbn [catch]. left. intros (p & _ & E & _). unfold price_at, bs_price in E. by rewrite Ty in E.
Qed.

(** A library whose error function is the identity: at the money, with no rate and a
    year to go, the price grows linearly with the volatility. *)
Definition line_price (price : float) (config : OptionsConfig) : res (option float) :=
  bs_implied_vol (fun _ => 0%float) (fun _ => 1%float) (fun x => x) (VStr "call") 100 100 1 0 price config.

Definition default_config : OptionsConfig := resolve_options_config (fun _ => None).

Definition found_vol : float := Eval vm_compute in match line_price 10 default_config with Ok (Some v) => v | _ => nan end.

Lemma implied_vol_exact_witness :
  line_price 10 default_config = Ok (Some found_vol) /\
  between (iv_min_vol default_config) (iv_max_vol default_config) found_vol /\
  solves (bs_price (fun _ => 0%float) (fun _ => 1%float) (fun x => x) (VStr "call") 100 100 1 0) 10 default_config found_vol.
Proof.
  assert (line_price 10 default_config = Ok (Some found_vol)) as E by (vm_compute; reflexivity).
  assert (usable default_config) as U by (split; vm_compute; reflexivity). split; [exact E|].
  pose proof (implied_vol_exact (fun _ => 0%float) (fun _ => 1%float) (fun x => x) (VStr "call") 100 100 1 0 10 default_config eq_refl U) as H.
  cbn zeta in H. unfold line_price in E. rewrite E in H. exact H.
Defined.

(** A volatility and a time whose product is below the floats: the division by zero that
    the Greeks catch escapes the price. *)
Example tiny_volatility_divides_by_zero log exp erf :
  bs_price log exp erf (VStr "CE") 100 100 1e-200 0.065 1e-300 = Raise ZeroDivisionError /\
  bs_greeks log exp erf (VStr "CE") 100 100 (Some 1e-200%float) 0.065 (Some 1e-300%float) = Ok _NULL_GREEKS.
Proof. by vm_compute. Qed.

(** A lower bound of zero is in its documented range, and leaves every option without an
    implied volatility. *)
Theorem zero_bound_finds_nothing log exp erf ty S K T r price config v :
  iv_min_vol config = 0%float -> bs_implied_vol log exp erf ty S K T r price config <> Ok (Some v).
Proof.
  intros Z. unfold bs_implied_vol. destruct (negb (is_finite price)); [done|]. destruct (_normalize_option_type ty) as [kind|] eqn:Ty; [|done].
  destruct (usable_bounds config); [|done]. unfold invert. cbn zeta.
  assert (bs_price log exp erf ty S K T r (iv_min_vol config) = Ok None) as ->.
  { unfold bs_price. rewrite Ty, Z. change (_is_pos_finite 0) with false. by rewrite andb_false_r. }
  cbn beta iota delta [mbind res_bind]. destruct (bs_price _ _ _ _ _ _ _ _ (iv_max_vol config)) as [[ph|]|ex]; cbn; try done.
  by destruct (iv_handled ex).
Qed.

Lemma zero_bound_finds_nothing_witness :
  let config := resolve_options_config (fun n => if String.eqb n "OPTIONS_IV_MIN_VOL" then Some "0"%string else None) in
  iv_min_vol config = 0%float /\ line_price 10 config <> Ok (Some 0.1%float).
Proof. intros config. split; [vm_compute; reflexivity|]. apply zero_bound_finds_nothing. vm_compute. reflexivity. Defined.

(** ** The best of a list *)

Section best.
Context {A S : Type} (score : A -> option S) (beats : S -> S -> bool) (ok : S -> Prop).
Hypothesis scores_ok : forall a s, score a = Some s -> ok s.
Hypothesis beats_kept : forall s b t, ok s -> ok b -> ok t -> beats s b = true -> beats t b = false -> beats s t = true.
Hypothesis beats_trans : forall s b t, ok s -> ok b -> ok t -> beats s b = true -> beats b t = true -> beats s t = true.

Definition keep (best : option (S * A)) (a : A) : option (S * A) :=
  match score a with
  | None => best
  | Some s => match best with None => Some (s, a) | Some (b, _) => if beats s b then Some (s, a) else best end
  end.

(** [x] beats every one before it that has a score, and none after it beats [x]. *)
Definition best_of (l : list A) (best : option (S * A)) : Prop :=
  match best with
  | None => Forall (fun a => score a = None) l
  | Some (s, x) =>
      score x = Some s /\ exists before after, l = before ++ x :: after /\
        Forall (fun a => forall t, score a = Some t -> beats s t = true) before /\ Forall (fun a => forall t, score a = Some t -> beats t s = false) after
  end.

Lemma keep_best l best a : best_of l best -> best_of (l ++ [a]) (keep best a).
Proof.
  intros H. unfold keep. destruct (score a) as [s|] eqn:E.
  - destruct best as [[b x]|]; cbn in H.
    + destruct H as (Hx & before & after & -> & Hb & Ha). destruct (beats s b) eqn:B.
      * split; [done|]. exists (before ++ x :: after), []. split; [done|]. split; [|constructor].
        apply Forall_app. split; [|constructor].
        -- eapply Forall_impl; [exact Hb|]. intros y Hy t Ht. eapply (beats_trans s b t); eauto.
        -- intros t Ht. rewrite Hx in Ht. injection Ht as <-. done.
        -- eapply Forall_impl; [exact Ha|]. intros y Hy t Ht. eapply (beats_kept s b t); eauto.
      * split; [done|]. exists before, (after ++ [a]). rewrite <- app_assoc. split; [done|]. split; [done|].
        apply Forall_app. split; [done|]. constructor; [|constructor]. intros t Ht. rewrite E in Ht. by injection Ht as <-.
    + split; [done|]. exists l, []. split; [done|]. split; [|constructor]. eapply Forall_impl; [exact H|]. intros y Hy t Ht. congruence.
  - destruct best as [[b x]|]; cbn in *.
    + destruct H as (Hx & before & after & -> & Hb & Ha). split; [done|]. exists before, (after ++ [a]). rewrite <- app_assoc.
      split; [done|]. split; [done|]. apply Forall_app. split; [done|]. constructor; [|constructor]. intros t Ht. congruence.
    + apply Forall_app. split; [done|]. by constructor.
Qed.

Lemma fold_best l : best_of l (fold_left keep l None).
Proof.
  enough (forall done best, best_of done best -> best_of (done ++ l) (fold_left keep l best)) as H by (apply (H [] None); constructor).
  induction l as [|a l IH]; intros before best H; [by rewrite app_nil_r|]. cbn.
  replace (before ++ a :: l) with ((before ++ [a]) ++ l) by (by rewrite <- app_assoc). apply IH. by apply keep_best.
Qed.
End best.

(** ** The ladder *)

Definition not_above (a b : StrikeQuote) : Prop := PrimFloat.leb (strike a) (strike b) = true.

Lemma sort_quotes_sorted qs : Forall (fun q => fin (strike q) = true) qs -> StronglySorted not_above (sort_by (fun a b => PrimFloat.ltb (strike a) (strike b)) qs).
Proof.
  intros F. pose proof (sort_by_sorted_on (fun a b => PrimFloat.ltb (strike a) (strike b)) (fun q => fin (strike q) = true)) as H.
  assert (forall a b, fin (strike a) = true -> fin (strike b) = true -> PrimFloat.ltb (strike b) (strike a) = false -> not_above a b) as N.
  { intros a b Fa Fb. unfold not_above. rewrite ltb_fin, leb_fin, Z.ltb_ge, Z.leb_le by done. done. }
  specialize (H ltac:(cbn beta; intros a b Fa Fb; rewrite !ltb_fin, Z.ltb_lt, Z.ltb_ge by done; lia)
    ltac:(cbn beta; intros a b c Fa Fb Fc; unfold not_after; rewrite !ltb_fin, !Z.ltb_ge by done; lia) qs F).
  pose proof (sort_by_perm (fun a b => PrimFloat.ltb (strike a) (strike b)) qs) as Pm. rewrite <- Pm in F. clear Pm. revert F.
  generalize dependent (sort_by (fun a b => PrimFloat.ltb (strike a) (strike b)) qs). intros l0 H.
  induction H as [|a l Hl IH Ha]; intros F; [constructor|]. inversion F as [|? ? Fa Fl]; subst.
  constructor; [by apply IH|]. rewrite Forall_forall in *. intros b Hb. apply N; [done|by apply Fl|by apply Ha].
Qed.

Lemma ladder_facts s : ladder_of s ≡ₚ List.filter (fun q => is_finite (strike q)) (strikes s) /\ StronglySorted not_above (ladder_of s).
Proof.
  split; [apply sort_by_perm|]. apply sort_quotes_sorted. apply List.Forall_forall. intros q Hq. by apply filter_In in Hq as [_ Hq].
Qed.

Lemma fold_map {A B C} (f : C -> B) (step : C -> A -> C) (step' : B -> A -> B) l c :
  (forall c a, step' (f c) a = f (step c a)) -> fold_left step' l (f c) = f (fold_left step l c).
Proof. intros H. revert c. induction l as [|a l IH]; intros c; [done|]. cbn. by rewrite H, IH. Qed.

(** ** Max pain *)

Definition pain_of (ladder : list StrikeQuote) (q : StrikeQuote) : option float := if_finite (payout ladder (strike q)).

Lemma max_pain_kept ladder :
  fold_left (less_pain ladder) ladder None =
    option_map (fun p : float * StrikeQuote => (strike p.2, p.1)) (fold_left (keep (pain_of ladder) PrimFloat.ltb) ladder None).
Proof.
  apply (fold_map (option_map (fun p : float * StrikeQuote => (strike p.2, p.1))) _ _ ladder None).
  intros best q. unfold less_pain, keep, pain_of, if_finite. cbn zeta. destruct (is_finite _); cbn [negb]; [|done].
  destruct best as [[b x]|]; cbn; [|done]. by destruct (PrimFloat.ltb _ b).
Qed.

(** C34: The max-pain strike is that of a quote of the ladder, which holds the quotes of
    finite strike in ascending order: its total payout is finite, below that of every
    lower strike whose payout is finite and not above that of any other, so of equal
    payouts the lowest strike wins.  There is none exactly when no payout is finite, and
    then none is stated. *)
Theorem max_pain_exact s :
  let ladder := ladder_of s in
  let pain := fun q => payout ladder (strike q) in
  ladder ≡ₚ List.filter (fun q => is_finite (strike q)) (strikes s) /\ StronglySorted not_above ladder /\
  match compute_max_pain s with
  | None => Forall (fun q => is_finite (pain q) = false) ladder
  | Some k =>
      exists before q after, ladder = before ++ q :: after /\ k = strike q /\ is_finite (pain q) = true /\
        Forall (fun other => is_finite (pain other) = true -> PrimFloat.ltb (pain q) (pain other) = true) before /\
        Forall (fun other => is_finite (pain other) = true -> PrimFloat.leb (pain q) (pain other) = true) after
  end.
Proof.
  intros ladder pain. destruct (ladder_facts s) as [H1 H2]. split; [done|]. split; [done|]. unfold compute_max_pain. cbn zeta. fold ladder.
  rewrite max_pain_kept.
  pose proof (fold_best (pain_of ladder) PrimFloat.ltb (fun x => fin x = true)) as H.
  specialize (H ltac:(intros q x; apply if_finite_fin)
    ltac:(cbn beta; intros x b t Fx Fb Ft; rewrite !ltb_fin, !Z.ltb_lt, Z.ltb_ge by done; lia)
    ltac:(cbn beta; intros x b t Fx Fb Ft; rewrite !ltb_fin, !Z.ltb_lt by done; lia) ladder).
  assert (forall q, is_finite (pain q) = true -> pain_of ladder q = Some (pain q)) as K by (intros q F; unfold pain_of, if_finite; by fold (pain q); rewrite F).
  destruct (fold_left _ _ _) as [[x q]|]; cbn in H |- *.
  - destruct H as (Hx & before & after & E & Hb & Ha). pose proof (if_finite_fin _ _ Hx) as Fx.
    assert (x = pain q) as -> by (unfold pain_of, if_finite in Hx; fold (pain q) in Hx; destruct (is_finite (pain q)); by simplify_eq).
    exists before, q, after. split_and!; [done|done|done| |].
    + eapply Forall_impl; [exact Hb|]. intros o Ho Fo. by apply Ho, K.
    + eapply Forall_impl; [exact Ha|]. intros o Ho Fo. specialize (Ho _ (K o Fo)). rewrite ltb_fin, Z.ltb_ge in Ho by done.
      rewrite leb_fin by done. by apply Z.leb_le.
  - eapply Forall_impl; [exact H|]. intros q Hq. cbn in Hq. destruct (is_finite (pain q)) eqn:F; [|done]. by rewrite (K q F) in Hq.
Qed.

(** ** Walls *)

(** The open interest of a quote that may be a wall on a side of the spot. *)
Definition wall_score (on_side : StrikeQuote -> bool) (field : StrikeQuote -> option float) (min_oi : float) (q : StrikeQuote) : option float :=
  if on_side q then match finite_field (field q) with Some oi => if PrimFloat.leb min_oi oi then Some oi else None | None => None end else None.

Definition overhead (spot min_oi : float) : StrikeQuote -> option float := wall_score (fun q => PrimFloat.leb spot (strike q)) ce_oi min_oi.
Definition beneath (spot min_oi : float) : StrikeQuote -> option float := wall_score (fun q => PrimFloat.leb (strike q) spot) pe_oi min_oi.

Lemma wall_score_fin side field min_oi q oi : wall_score side field min_oi q = Some oi -> fin oi = true.
Proof.
  unfold wall_score. destruct (side q); [|done]. destruct (finite_field (field q)) as [x|] eqn:E; [|done]. destruct (PrimFloat.leb _ _); [|done].
  intros [= <-]. by apply finite_field_Some in E as [_ ?].
Qed.

Definition stated (p : float * StrikeQuote) : float * float := (p.1, strike p.2).

Lemma resistance_kept spot min_oi ladder :
  fold_left (higher_wall spot min_oi) ladder None = option_map stated (fold_left (keep (overhead spot min_oi) (fun x b => PrimFloat.ltb b x)) ladder None).
Proof.
  apply (fold_map (option_map stated) _ _ ladder None). intros best q. unfold higher_wall, keep, overhead, wall_score.
  destruct (PrimFloat.leb spot (strike q)); [|done]. destruct (finite_field (ce_oi q)) as [oi|]; [|done].
  destruct (PrimFloat.leb min_oi oi); [|done]. destruct best as [[b x]|]; cbn; [|done]. by destruct (PrimFloat.ltb b oi).
Qed.

Lemma support_kept spot min_oi ladder :
  fold_left (lower_wall spot min_oi) ladder None = option_map stated (fold_left (keep (beneath spot min_oi) (fun x b => PrimFloat.leb b x)) ladder None).
Proof.
  apply (fold_map (option_map stated) _ _ ladder None). intros best q. unfold lower_wall, keep, beneath, wall_score.
  destruct (PrimFloat.leb (strike q) spot); [|done]. destruct (finite_field (pe_oi q)) as [oi|]; [|done].
  destruct (PrimFloat.leb min_oi oi); [|done]. destruct best as [[b x]|]; cbn; [|done]. by destruct (PrimFloat.leb b oi).
Qed.

(** Around a finite spot, the resistance is the strike at or above it of the greatest
    qualifying call open interest and the support the strike at or below it of the
    greatest qualifying put open interest; of equals the one nearest the spot, the lowest
    overhead and the highest beneath.  A side where nothing qualifies has no wall. *)
Theorem oi_walls_exact s spot config :
  is_finite spot = true ->
  let ladder := ladder_of s in
  let min_oi := usable_floor (oi_wall_min_oi config) 0 in
  let w := compute_oi_walls s spot config in
  match resistance w with
  | None => Forall (fun q => overhead spot min_oi q = None) ladder
  | Some k =>
      exists oi before q after, ladder = before ++ q :: after /\ k = strike q /\ overhead spot min_oi q = Some oi /\
        Forall (fun other => forall x, overhead spot min_oi other = Some x -> PrimFloat.ltb x oi = true) before /\
        Forall (fun other => forall x, overhead spot min_oi other = Some x -> PrimFloat.leb x oi = true) after
  end /\
  match support w with
  | None => Forall (fun q => beneath spot min_oi q = None) ladder
  | Some k =>
      exists oi before q after, ladder = before ++ q :: after /\ k = strike q /\ beneath spot min_oi q = Some oi /\
        Forall (fun other => forall x, beneath spot min_oi other = Some x -> PrimFloat.leb x oi = true) before /\
        Forall (fun other => forall x, beneath spot min_oi other = Some x -> PrimFloat.ltb x oi = true) after
  end.
Proof.
  intros F ladder min_oi w. unfold w, compute_oi_walls, _is_finite. rewrite F. cbn [negb resistance support]. cbn zeta.
  change DEFAULT_OI_WALL_MIN_OI with 0%float. fold min_oi ladder. rewrite resistance_kept, support_kept. split.
  - pose proof (fold_best (overhead spot min_oi) (fun x b => PrimFloat.ltb b x) (fun x => fin x = true)) as H.
    specialize (H ltac:(intros q x; apply wall_score_fin) ltac:(cbn beta; intros x b t Fx Fb Ft; rewrite !ltb_fin, !Z.ltb_lt, Z.ltb_ge by done; lia)
      ltac:(cbn beta; intros x b t Fx Fb Ft; rewrite !ltb_fin, !Z.ltb_lt by done; lia) ladder).
    destruct (fold_left _ _ _) as [[oi q]|]; cbn in H |- *; [|done]. destruct H as (Hx & before & after & E & Hb & Ha).
    pose proof (wall_score_fin _ _ _ _ _ Hx) as Fx. exists oi, before, q, after. split_and!; [done|done|done|done|].
    eapply Forall_impl; [exact Ha|]. intros o Ho x Hox. pose proof (wall_score_fin _ _ _ _ _ Hox) as Fo. specialize (Ho x Hox).
    rewrite ltb_fin, Z.ltb_ge in Ho by done. rewrite leb_fin by done. by apply Z.leb_le.
  - pose proof (fold_best (beneath spot min_oi) (fun x b => PrimFloat.leb b x) (fun x => fin x = true)) as H.
    specialize (H ltac:(intros q x; apply wall_score_fin) ltac:(cbn beta; intros x b t Fx Fb Ft; rewrite !leb_fin, !Z.leb_le, Z.leb_gt by done; lia)
      ltac:(cbn beta; intros x b t Fx Fb Ft; rewrite !leb_fin, !Z.leb_le by done; lia) ladder).
    destruct (fold_left _ _ _) as [[oi q]|]; cbn in H |- *; [|done]. destruct H as (Hx & before & after & E & Hb & Ha).
    pose proof (wall_score_fin _ _ _ _ _ Hx) as Fx. exists oi, before, q, after. split_and!; [done|done|done|done|].
    eapply Forall_impl; [exact Ha|]. intros o Ho x Hox. pose proof (wall_score_fin _ _ _ _ _ Hox) as Fo. specialize (Ho x Hox).
    by apply leb_false_ltb.
Qed.

Definition quote (k call_oi put_oi : float) : StrikeQuote :=
  {| strike := k; ce_price := None; pe_price := None; ce_oi := Some call_oi; pe_oi := Some put_oi; ce_volume := None; pe_volume := None |}.

Definition three_strikes : ChainSnapshot :=
  {| underlying := "NIFTY"; expiry := "2026-07-30"; snapshot_ts := 0; strikes := [quote 110 5 1; quote 100 5 5; quote 90 1 5] |}.

(** Equal open interest: the strike nearest the spot is the wall, on both sides. *)
Example nearest_of_equals :
  compute_max_pain three_strikes = Some 100%float /\
  compute_oi_walls three_strikes 95 default_config = {| support := Some 90%float; resistance := Some 100%float |} /\
  compute_oi_walls three_strikes 105 default_config = {| support := Some 100%float; resistance := Some 110%float |}.
Proof. by vm_compute. Qed.

Lemma oi_walls_exact_witness :
  is_finite 105 = true /\ resistance (compute_oi_walls three_strikes 105 default_config) = Some 110%float /\
  exists oi before q after, ladder_of three_strikes = before ++ q :: after /\ 110%float = strike q /\ overhead 105 0 q = Some oi /\
    Forall (fun other => forall x, overhead 105 0 other = Some x -> PrimFloat.ltb x oi = true) before /\
    Forall (fun other => forall x, overhead 105 0 other = Some x -> PrimFloat.leb x oi = true) after.
Proof.
  split; [reflexivity|]. assert (resistance (compute_oi_walls three_strikes 105 default_config) = Some 110%float) as E by (vm_compute; reflexivity).
  split; [exact E|]. destruct (oi_walls_exact three_strikes 105 default_config eq_refl) as [H _]. rewrite E in H. exact H.
Defined.

(** ** Build-up *)

(** Beyond a dead band, upwards or downwards. *)
Definition rises (d eps : float) : Prop := PrimFloat.ltb eps d = true.
Definition falls (d eps : float) : Prop := PrimFloat.ltb d (- eps) = true.

Lemma usable_floor_ok x d : is_finite d = true -> PrimFloat.leb 0 d = true -> fin (usable_floor x d) = true /\ PrimFloat.leb 0 (usable_floor x d) = true.
Proof. intros F P. unfold usable_floor, _is_finite. destruct (is_finite x) eqn:E1; [|done]. destruct (PrimFloat.leb 0 x) eqn:E2; done. Qed.

Lemma sign_exact d eps : fin d = true -> fin eps = true -> PrimFloat.leb 0 eps = true ->
  (sign_beyond d eps = 1 <-> rises d eps) /\ (sign_beyond d eps = -1 <-> falls d eps) /\ (sign_beyond d eps = 0 \/ sign_beyond d eps = 1 \/ sign_beyond d eps = -1).
Proof.
  intros Fd Fe P. destruct (fabs_rank d) as [A NA]. destruct (fopp_rank eps) as (O & _ & FO). unfold sign_beyond, rises, falls.
  pose proof (fin_not_nan d Fd) as Nd. pose proof (fin_not_nan eps Fe) as Ne.
  rewrite leb_fin in P by done. apply Z.leb_le in P. change (frank 0) with 0 in P.
  rewrite (ltb_rank eps (abs d)), NA, Nd, Ne, A. cbn [negb andb]. rewrite (ltb_fin 0 d), (ltb_fin eps d), (ltb_fin d (- eps)%float), O by (done || by rewrite FO).
  change (frank 0) with 0. rewrite !Z.ltb_lt.
  destruct (Z.ltb_spec (frank eps) (Z.abs (frank d))), (Z.ltb_spec 0 (frank d)); split_and!; try lia; try (split; [done|lia]); try (split; [lia|done]).
Qed.

(** The build-up of finite changes is read off their signs beyond the two dead bands of
    the configuration, a band that is not one counting as zero: it is long when open
    interest and price both rise, short when open interest rises and the price falls,
    short covering when open interest falls and the price rises, long unwinding when both
    fall, and neutral exactly when one of the two stays within its band. *)
Theorem buildup_exact d_oi d_price config :
  is_finite d_oi = true -> is_finite d_price = true ->
  let oi := usable_floor (buildup_oi_epsilon config) 0 in
  let price := usable_floor (buildup_price_epsilon config) 0 in
  let b := classify_oi_buildup d_oi d_price config in
  (b = BUILDUP_LONG <-> rises d_oi oi /\ rises d_price price) /\ (b = BUILDUP_SHORT <-> rises d_oi oi /\ falls d_price price) /\
  (b = BUILDUP_SHORT_COVERING <-> falls d_oi oi /\ rises d_price price) /\ (b = BUILDUP_LONG_UNWINDING <-> falls d_oi oi /\ falls d_price price) /\
  (b = BUILDUP_NEUTRAL <-> ~ (rises d_oi oi \/ falls d_oi oi) \/ ~ (rises d_price price \/ falls d_price price)).
Proof.
  intros Fo Fp oi price b. unfold b, classify_oi_buildup, _is_finite. rewrite Fo, Fp. cbn [negb andb]. cbn zeta.
  change DEFAULT_BUILDUP_OI_EPSILON with 0%float. change DEFAULT_BUILDUP_PRICE_EPSILON with 0%float. fold oi price.
  destruct (usable_floor_ok (buildup_oi_epsilon config) 0 eq_refl eq_refl) as [F1 P1].
  destruct (usable_floor_ok (buildup_price_epsilon config) 0 eq_refl eq_refl) as [F2 P2]. fold oi in F1, P1. fold price in F2, P2.
  destruct (sign_exact d_oi oi Fo F1 P1) as (<- & <- & C1). destruct (sign_exact d_price price Fp F2 P2) as (<- & <- & C2).
  destruct C1 as [-> |[-> | ->]], C2 as [-> |[-> | ->]]; cbn; split_and!; split; intros; try done; try lia; try (by left; lia); try (by right; lia).
Qed.

Lemma buildup_exact_witness :
  is_finite 5 = true /\ is_finite (-2) = true /\ (classify_oi_buildup 5 (-2) default_config = BUILDUP_SHORT <-> rises 5 0 /\ falls (-2) 0).
Proof.
  split; [reflexivity|]. split; [reflexivity|]. exact (proj1 (proj2 (buildup_exact 5 (-2) default_config eq_refl eq_refl))).
Defined.
