(* ===== verification/Forecaster.v ===== *)
(** * The probabilistic forecast of a candle sequence, and its tool

    Models [agents/deep-quant-loop/forecaster.py]: the parameters, the log-returns, their
    exponentially weighted mean and deviation, the range, the standardised drift weighted
    by the market regime, and the direction, probability and confidence read off it; and
    [get_forecast] of [tools.py].

    [log], [exp], [log10] and [pow] are the C library functions behind [math.log],
    [math.exp], [math.log10] and [**]; [math.fsum] is CPython's summation over partial
    sums. *)

From stdpp Require Import base list strings.
From Stdlib Require Import ZArith Lia Floats.
From S2P Require Import Prelude PyFloat PyRound PyDiv PyNum PyQuot PyVal PyEnv PyJson PyStr PyStats Contracts JournalTags MarketTools.
From S2P Require Regime Options.

#[local] Set Warnings "-inexact-float".
Open Scope Z_scope.
Open Scope res_scope.

(** ** Parameters *)

Definition DEFAULT_FORECAST_DRIFT_LOOKBACK := 20.
Definition DEFAULT_FORECAST_VOL_LOOKBACK := 20.
Definition DEFAULT_FORECAST_ATR_PERIOD := 14.
Definition DEFAULT_FORECAST_FLAT_BAND : float := 0.25.
Definition DEFAULT_FORECAST_MIN_CANDLES := 30.
Definition DEFAULT_FORECAST_PROB_BINS := 10.
Definition DEFAULT_FORECAST_PROB_SCALE : float := 2.
Definition _PROB_BINS_MAX := 100.

Record ForecasterConfig := {
  drift_lookback : Z;
  vol_lookback : Z;
  atr_period : Z;
  flat_band : float;
  min_candles : Z;
  prob_bins : Z;
  prob_scale : float;
}.

Definition largest_lookback (c : ForecasterConfig) : Z := Z.max (drift_lookback c) (Z.max (vol_lookback c) (atr_period c)) + 1.

Definition resolve_forecaster_config (e : env) : ForecasterConfig :=
  let bins := resolve_int_min e "FORECAST_PROB_BINS"%string DEFAULT_FORECAST_PROB_BINS 1 in
  {| drift_lookback := resolve_int_min e "FORECAST_DRIFT_LOOKBACK"%string DEFAULT_FORECAST_DRIFT_LOOKBACK 2;
     vol_lookback := resolve_int_min e "FORECAST_VOL_LOOKBACK"%string DEFAULT_FORECAST_VOL_LOOKBACK 2;
     atr_period := resolve_int_min e "FORECAST_ATR_PERIOD"%string DEFAULT_FORECAST_ATR_PERIOD 1;
     flat_band := resolve_float_band e "FORECAST_FLAT_BAND"%string DEFAULT_FORECAST_FLAT_BAND 0 5;
     min_candles := resolve_int_min e "FORECAST_MIN_CANDLES"%string DEFAULT_FORECAST_MIN_CANDLES 2;
     prob_bins := if _PROB_BINS_MAX <? bins then DEFAULT_FORECAST_PROB_BINS else bins;
     prob_scale := resolve_float_band e "FORECAST_PROB_SCALE"%string DEFAULT_FORECAST_PROB_SCALE 0 50 |}.

Definition required_candles (c : ForecasterConfig) : Z := Z.max (min_candles c) (largest_lookback c).

(** ** [math.fsum] *)

(** The rounded sum of two floats and its error. *)
Definition two_sum (a b : float) : float * float :=
  let '(x, y) := if PrimFloat.ltb (abs a) (abs b) then (b, a) else (a, b) in
  let hi := (x + y)%float in
  (hi, (y - (hi - x))%float).

(** A term added to the partial sums, the smallest first: the errors that remain and the
    new largest. *)
Fixpoint add_partials (x : float) (partials : list float) : list float * float :=
  match partials with
  | [] => ([], x)
  | y :: partials' =>
      let '(hi, lo) := two_sum x y in
      let '(los, top) := add_partials hi partials' in
      ((if PrimFloat.eqb lo 0 then los else lo :: los), top)
  end.

Record fsum_state := { fs_partials : list float; fs_special : float; fs_infinite : float }.

Definition fsum_step (st : fsum_state) (term : float) : res fsum_state :=
  let '(los, x) := add_partials term (fs_partials st) in
  if PrimFloat.eqb x 0 then Ok {| fs_partials := los; fs_special := fs_special st; fs_infinite := fs_infinite st |}
  else if is_finite x then Ok {| fs_partials := (los ++ [x])%list; fs_special := fs_special st; fs_infinite := fs_infinite st |}
  else if is_finite term then Raise OverflowError
  else Ok {| fs_partials := []; fs_special := (fs_special st + term)%float;
             fs_infinite := if is_infinity term then (fs_infinite st + term)%float else fs_infinite st |}.

(** The partial sums, the largest first, added up to the first error. *)
Fixpoint collapse (hi : float) (rest : list float) : float * float * list float :=
  match rest with
  | [] => (hi, 0%float, [])
  | y :: rest' =>
      let sum := (hi + y)%float in
      let lo := (y - (sum - hi))%float in
      if PrimFloat.eqb lo 0 then collapse sum rest' else (sum, lo, rest')
  end.

(** Half-way cases are decided by the next partial sum. *)
Definition fsum_total (partials : list float) : float :=
  match rev partials with
  | [] => 0%float
  | top :: rest =>
      let '(hi, lo, rest) := collapse top rest in
      match rest with
      | next :: _ =>
          if (PrimFloat.ltb lo 0 && PrimFloat.ltb next 0) || (PrimFloat.ltb 0 lo && PrimFloat.ltb 0 next) then
            let y := (lo * 2)%float in
            let x := (hi + y)%float in
            if PrimFloat.eqb y (x - hi)%float then x else hi
          else hi
      | [] => hi
      end
  end.

Definition fsum (terms : list float) : res float :=
  st ← foldM fsum_step {| fs_partials := []; fs_special := 0; fs_infinite := 0 |} terms;
  if negb (PrimFloat.eqb (fs_special st) 0) then (if is_nan (fs_infinite st) then Raise ValueError else Ok (fs_special st))
  else Ok (fsum_total (fs_partials st)).

(** ** Measures *)

Section forecaster.
Variables (log exp log10 : float -> float) (pow : float -> float -> float).

(** [x ** k] of a natural exponent *)
Definition f_pow (x : float) (k : nat) : res float :=
  match k with
  | O => Ok 1%float
  | _ => let y := pow x (f_of_nat k) in if is_finite x && is_infinity y then Raise OverflowError else Ok y
  end.

Definition _ewma_weights (n : nat) (alpha : float) : res (list float) :=
  let one_minus := (1 - alpha)%float in mapM_res (fun i => f_pow one_minus (n - 1 - i)) (seq 0 n).

Definition alpha_of (n : nat) : float := (2 / (f_of_nat n + 1))%float.

Definition weighted (weights values : list float) : list float := zip_with PrimFloat.mul weights values.

Definition _ewma_mean (values : list float) : res float :=
  let n := length values in
  weights ← _ewma_weights n (alpha_of n);
  total_w ← fsum weights;
  if PrimFloat.eqb total_w 0 then total ← fsum values; f_div total (f_of_nat n)
  else total ← fsum (weighted weights values); Ok (total / total_w)%float.

Definition _ewma_std (values : list float) : res float :=
  match values with
  | [] => Ok 0%float
  | _ =>
      let n := length values in
      weights ← _ewma_weights n (alpha_of n);
      total_w ← fsum weights;
      if PrimFloat.eqb total_w 0 then Ok 0%float
      else
        total ← fsum (weighted weights values);
        let mean := (total / total_w)%float in
        squares ← mapM_res (fun v => square (v - mean)%float) values;
        spread ← fsum (weighted weights squares);
        let variance := (spread / total_w)%float in
        Ok (if PrimFloat.leb variance 0 then 0%float else sqrt variance)
  end.

(** The log-returns after a close; none when a ratio is unusable. *)
Fixpoint log_returns (prev : float) (closes : list float) : option (list float) :=
  match closes with
  | [] => Some []
  | c :: closes' =>
      let ratio := (c / prev)%float in
      if negb (is_finite ratio) || PrimFloat.leb ratio 0 then None else option_map (cons (log ratio)) (log_returns c closes')
  end.

Definition compute_log_returns (candles : val) (lookback : Z) : res (list float) :=
  if negb (Regime._valid_period lookback) then Ok []
  else
    rows ← Regime._valid_ohlc_rows candles;
    let window := last_n (Z.to_nat (lookback + 1)) (map Regime.b_close rows) in
    Ok match window with
       | first :: (_ :: _) as rest =>
           if existsb (fun c => PrimFloat.leb c 0) window then [] else default [] (log_returns first rest)
       | _ => []
       end.

Definition compute_drift (candles : val) (config : ForecasterConfig) : res (option float) :=
  returns ← compute_log_returns candles (drift_lookback config);
  match returns return res (option float) with [] => Ok None | _ => drift ← _ewma_mean returns; Ok (Options.if_finite drift) end.

Definition compute_atr (candles : val) (period : Z) : res (option float) :=
  if negb (Regime._valid_period period) then Ok None
  else
    rows ← Regime._valid_ohlc_rows candles;
    let trs := Regime._true_ranges rows in
    if Z.of_nat (length trs) <? period then Ok None
    else
      let n := Z.to_nat period in
      total ← fsum (last_n n trs);
      let atr := (total / f_of_nat n)%float in
      Ok (if negb (is_finite atr) || PrimFloat.leb atr 0 then None else Some atr).

(** The close of the last valid candle. *)
Definition last_close (rows : list Regime.bar) : option float := option_map Regime.b_close (last rows).

(** The range relative to the last positive close. *)
Definition relative_range (atr : option float) (rows : list Regime.bar) : option float :=
  match atr, last_close rows with
  | Some atr, Some c => if PrimFloat.ltb 0 c then Some (atr / c)%float else None
  | _, _ => None
  end.

Definition blended (ewma_std : float) (atr_rel : option float) : float :=
  match atr_rel with
  | Some x => if is_finite x && PrimFloat.leb 0 x then (0.5 * ewma_std + 0.5 * x)%float else ewma_std
  | None => ewma_std
  end.

Definition compute_volatility (candles : val) (config : ForecasterConfig) : res (option float) :=
  returns ← compute_log_returns candles (vol_lookback config);
  match returns return res (option float) with
  | [] => Ok None
  | _ =>
      ewma_std ← _ewma_std returns;
      atr ← compute_atr candles (atr_period config);
      rows ← Regime._valid_ohlc_rows candles;
      let volatility := blended ewma_std (relative_range atr rows) in
      Ok (if negb (is_finite volatility) then None else if PrimFloat.ltb volatility 0 then Some 0%float else Some volatility)
  end.

(** ** The reading *)

Definition _TREND_CONTINUATION_WEIGHT : float := 1.5.
Definition _RANGE_REVERSION_WEIGHT : float := 0.5.
Definition _NEUTRAL_WEIGHT : float := 1.

Definition weight_of (trend : option Regime.trend_state) : float :=
  match trend with
  | Some Regime.TRENDING => _TREND_CONTINUATION_WEIGHT
  | Some Regime.RANGING => _RANGE_REVERSION_WEIGHT
  | _ => _NEUTRAL_WEIGHT
  end.

Definition conditioned_drift (drift volatility : option float) (trend : option Regime.trend_state) : float :=
  match drift, volatility with
  | Some d, Some v =>
      if negb (is_finite d) || negb (is_finite v) then 0%float
      else if PrimFloat.leb v 0 then 0%float
      else
        let base := (d / v)%float in
        if negb (is_finite base) then 0%float
        else default 0%float (Options.if_finite (base * weight_of trend)%float)
  | _, _ => 0%float
  end.

Inductive direction := UP | DOWN | FLAT.
Inductive alignment := ALIGNED | MISALIGNED | NEUTRAL.

Definition direction_name (d : direction) : string := match d with UP => "up" | DOWN => "down" | FLAT => "flat" end.
Definition alignment_name (a : alignment) : string :=
  match a with ALIGNED => "aligned" | MISALIGNED => "misaligned" | NEUTRAL => "neutral" end.

Definition classify_direction (z : float) (config : ForecasterConfig) : direction :=
  if negb (is_finite z) then FLAT
  else if PrimFloat.leb (abs z) (flat_band config) then FLAT
  else if PrimFloat.ltb 0 z then UP else DOWN.

(** The logistic of an exponent. *)
Definition logistic (exponent : float) : res float :=
  match Options.f_exp exp exponent with
  | Raise _ => Ok (if PrimFloat.ltb 0 exponent then 0%float else 1%float)
  | Ok y => f_div 1 (1 + y)%float
  end.

Definition up_probability (z : float) (config : ForecasterConfig) : res float :=
  if negb (is_finite z) || PrimFloat.eqb z 0 then Ok 0.5%float
  else p ← logistic (- prob_scale config * z)%float; Ok (if is_finite p then clamp p 0 1 else 0.5%float).

Definition forecast_confidence (z : float) (config : ForecasterConfig) : res float :=
  p ← up_probability z config;
  let confidence := (2 * abs (p - 0.5))%float in
  Ok (if is_finite confidence then clamp confidence 0 1 else 0%float).

Definition _PROPOSED_UP_SIDE : list string := ["up"; "buy"; "long"]%string.
Definition _PROPOSED_DOWN_SIDE : list string := ["down"; "sell"; "short"]%string.

Definition _normalize_proposed_direction (proposed : option string) : option direction :=
  match proposed with
  | None => None
  | Some s =>
      let token := lower (strip s) in
      if str_in token _PROPOSED_UP_SIDE then Some UP else if str_in token _PROPOSED_DOWN_SIDE then Some DOWN else None
  end.

Definition derive_forecast_alignment (projected : direction) (proposed : option string) : alignment :=
  match _normalize_proposed_direction proposed, projected with
  | None, _ | _, FLAT => NEUTRAL
  | Some UP, UP | Some DOWN, DOWN => ALIGNED
  | _, _ => MISALIGNED
  end.

(** The trend of the same candles. *)
Definition _regime_trend_state (e : env) (candles : val) : option Regime.trend_state :=
  match Regime.classify_regime log10 candles (Regime.resolve_regime_config e) with
  | Regime.Label l => Some (Regime.rl_trend l)
  | Regime.Unavailable _ => None
  end.

Definition _expected_move_atr (candles : val) (drift atr : option float) : res (option float) :=
  match atr, drift return res (option float) with
  | Some a, Some d =>
      if negb (is_finite a) || PrimFloat.leb a 0 || negb (is_finite d) then Ok None
      else
        rows ← Regime._valid_ohlc_rows candles;
        Ok match last_close rows, Options.f_exp exp d with
           | Some c, Ok y =>
               if negb (is_finite c) || PrimFloat.leb c 0 then None
               else
                 let move := (c * (y - 1))%float in
                 if negb (is_finite move) then None else Options.if_finite (move / a)%float
           | _, _ => None
           end
  | _, _ => Ok None
  end.

(** ** The label *)

Record forecast_label := {
  fl_direction : direction;
  fl_up_probability : float;
  fl_expected_move : option float;
  fl_confidence : float;
  fl_alignment : alignment;
  fl_drift : option float;
  fl_volatility : option float;
  fl_standardized : float;
  fl_atr : option float;
  fl_trend : option Regime.trend_state;
  fl_candles_used : Z;
}.

Inductive forecast_result := Label (l : forecast_label) | Unavailable (reason : string).

(** A volatility that can be divided by. *)
Definition usable_volatility (volatility : option float) : bool :=
  match volatility with Some v => is_finite v && negb (PrimFloat.leb v 0) | None => false end.

(** The standardised drift, its direction, probability and confidence. *)
Definition reading_of (drift volatility : option float) (trend : option Regime.trend_state) (config : ForecasterConfig) :
    res (float * direction * float * float) :=
  if usable_volatility volatility then
    let z := conditioned_drift drift volatility trend in
    p ← up_probability z config;
    confidence ← forecast_confidence z config;
    Ok (z, classify_direction z config, p, confidence)
  else Ok (0%float, FLAT, 0.5%float, 0%float).

Definition label_of (e : env) (candles : val) (received : Z) (config : ForecasterConfig) (proposed : option string) : res forecast_label :=
  drift ← compute_drift candles config;
  volatility ← compute_volatility candles config;
  atr ← compute_atr candles (atr_period config);
  let trend := _regime_trend_state e candles in
  move ← _expected_move_atr candles drift atr;
  reading ← reading_of drift volatility trend config;
  let '(z, projected, p, confidence) := reading in
  Ok {| fl_direction := projected; fl_up_probability := p; fl_expected_move := move; fl_confidence := confidence;
        fl_alignment := derive_forecast_alignment projected proposed; fl_drift := drift; fl_volatility := volatility;
        fl_standardized := z; fl_atr := atr; fl_trend := trend; fl_candles_used := received |}.

Definition forecast (e : env) (candles : val) (config : ForecasterConfig) (proposed : option string) : forecast_result :=
  match (rows ← Regime._valid_ohlc_rows candles;
         let received := Z.of_nat (length rows) in
         if received <? required_candles config then
           Ok (Unavailable ("insufficient data: " ++ Z_str received ++ " valid candles received, " ++ Z_str (required_candles config)
                            ++ " required"))
         else l ← label_of e candles received config proposed; Ok (Label l)) with
  | Ok r => r
  | Raise ex => Unavailable ("forecast error: " ++ exn_name ex)
  end.

Definition _forecast_unavailable (reason : string) (symbol timeframe : option string) : val :=
  VDict (opt_field "symbol" symbol ++ opt_field "timeframe" timeframe ++ [(VStr "unavailable", VBool true); (VStr "reason", VStr reason)])%list.

Definition _REGIME_UNAVAILABLE_TREND_STATE : string := "unavailable".

Definition measures_payload (l : forecast_label) : val :=
  VDict [(VStr "drift", opt_float (fl_drift l)); (VStr "volatility", opt_float (fl_volatility l));
         (VStr "standardized_drift", VFloat (fl_standardized l)); (VStr "atr", opt_float (fl_atr l))].

(** The dictionary the forecaster returns. *)
Definition forecast_payload (r : forecast_result) (symbol timeframe : option string) : val :=
  match r with
  | Unavailable reason => _forecast_unavailable reason symbol timeframe
  | Label l =>
      VDict ([(VStr "projected_direction", VStr (direction_name (fl_direction l))); (VStr "up_probability", VFloat (fl_up_probability l));
              (VStr "expected_move_atr", opt_float (fl_expected_move l)); (VStr "forecast_confidence", VFloat (fl_confidence l));
              (VStr "forecast_alignment", VStr (alignment_name (fl_alignment l))); (VStr "measures", measures_payload l);
              (VStr "regime_trend_state", VStr match fl_trend l with Some t => Regime.trend_name t | None => _REGIME_UNAVAILABLE_TREND_STATE end)]
             ++ opt_field "symbol" symbol ++ opt_field "timeframe" timeframe ++ [(VStr "candles_used", VInt (fl_candles_used l))])%list
  end.

(** ** The tool *)

Variable e : env.
Variable fetch : string -> string -> Z -> string + val.
Variable margin : Z.

Definition get_forecast (symbol timeframe proposed_direction : string) : val :=
  match bad_arguments "get_forecast" symbol timeframe with
  | Some error => error
  | None =>
      let config := resolve_forecaster_config e in
      let regime_config := Regime.resolve_regime_config e in
      let regime_required := Regime.required_candles regime_config + Regime.vol_pctl_window regime_config in
      let limit := Z.max (required_candles config) regime_required + margin in
      match _fetch_candles_for_rs fetch symbol timeframe limit with
      | inl reason => _regime_unavailable symbol timeframe reason
      | inr candles =>
          validate_contract "get_forecast"
            (forecast_payload (forecast e (VList candles) config (if nonempty proposed_direction then Some proposed_direction else None))
               (Some symbol) (Some timeframe))
      end
  end.
End forecaster.

(** * The forecast: properties

    The direction, the probability and the confidence of a label agree with each other and
    with the standardised drift. *)

(** ** The logistic *)

Definition halves : Z := 2 ^ 1073.

Lemma frank_half : frank 0.5 = halves.
Proof. by vm_compute. Qed.

Lemma one_plus y : fin y = true -> 0 <= frank y -> is_nan (1 + y)%float = false /\ two1074 <= frank (1 + y)%float.
Proof.
  intros F R. destruct (fadd_rank 1 y eq_refl F) as [S N]. split; [done|]. rewrite S.
  change (frank 1) with two1074. rewrite <- (rnd_frank 1 eq_refl) at 1. apply rnd_mono. change (frank 1) with two1074. lia.
Qed.

Lemma reciprocal_arith h t w r :
  t = 2 * h -> 0 < h -> t <= w -> (h * w <= t * t -> h <= r) -> (t * t <= h * w -> r <= h) -> (0 * w <= t * t -> 0 <= r) -> (t * t <= t * w -> r <= t) ->
  (w <= 2 * t -> h <= r) /\ (2 * t <= w -> r <= h) /\ 0 <= r <= t.
Proof. intros -> Hh Hw A B C D. split_and!; [intros; apply A; nia|intros; apply B; nia|apply C; nia|apply D; nia]. Qed.

(** The reciprocal of what is at least one. *)
Lemma reciprocal_rank w :
  is_nan w = false -> two1074 <= frank w ->
  is_nan (1 / w)%float = false /\ (frank w <= 2 * two1074 -> halves <= frank (1 / w)%float) /\ (2 * two1074 <= frank w -> frank (1 / w)%float <= halves) /\
  0 <= frank (1 / w)%float <= two1074.
Proof.
  intros N R. destruct (fin w) eqn:F.
  - destruct (Z.le_gt_cases (2 ^ 1974) (frank w)) as [L|L].
    + destruct (reciprocal_small w F L) as [M B]. split; [done|]. unfold halves, two1074 in *. split_and!; lia.
    + assert (comparable_ranks 1 w) as C.
      { intros _. change (Z.log2 (frank 1)) with 1074. assert (1074 <= Z.log2 (frank w) < 1974).
        { unfold two1074 in R. split; [apply Z.log2_le_pow2; lia|apply Z.log2_lt_pow2; lia]. } lia. }
      destruct (fdiv_rounds 1 w eq_refl F ltac:(by vm_compute) ltac:(unfold two1074 in *; lia) C) as (M & Lo & Hi).
      change (frank 1) with two1074 in Lo, Hi. split; [done|].
      pose proof (Lo 0.5%float eq_refl) as L1. pose proof (Hi 0.5%float eq_refl) as H1. rewrite frank_half in L1, H1.
      pose proof (Lo 0%float eq_refl) as L0. pose proof (Hi 1%float eq_refl) as H2. change (frank 0) with 0 in L0. change (frank 1) with two1074 in H2.
      by apply (reciprocal_arith halves two1074 (frank w)).
  - assert (w = infinity) as ->.
    { apply Prim2SF_inj. change (Prim2SF infinity) with (S754_infinity false). revert F N R. rewrite fin_sf, is_nan_sf. unfold frank.
      by destruct (Prim2SF w) as [|[]| |]. }
    split; [done|]. split; [done|]. split; by vm_compute.
Qed.

Definition unit_float (p : float) : Prop := is_finite p = true /\ PrimFloat.leb 0 p = true /\ PrimFloat.leb p 1 = true.

Lemma unit_rank p : is_nan p = false -> 0 <= frank p <= two1074 -> unit_float p.
Proof.
  intros N R. unfold unit_float. change (is_finite p) with (fin p). rewrite fin_rank, !leb_rank, N. cbn [negb andb].
  change (is_nan 0) with false. change (is_nan 1) with false. cbn [negb andb]. change (frank 0) with 0. change (frank 1) with two1074.
  unfold two1074 in *. rewrite !andb_true_iff, !Z.ltb_lt, !Z.leb_le. lia.
Qed.

Lemma clamped_unit p : is_finite p = true -> unit_float (clamp p 0 1).
Proof.
  intros F. unfold clamp. destruct (PrimFloat.ltb p 0) eqn:L; [by vm_compute|]. destruct (PrimFloat.ltb 1 p) eqn:H; [by vm_compute|].
  rewrite ltb_fin in L, H by done. change (frank 0) with 0 in L. change (frank 1) with two1074 in H. apply Z.ltb_ge in L, H.
  apply unit_rank; [by apply fin_not_nan|done].
Qed.

Lemma clamp_id p : unit_float p -> clamp p 0 1 = p.
Proof.
  intros (F & L & H). rewrite leb_fin in L, H by done. apply Z.leb_le in L, H. unfold clamp.
  rewrite !ltb_fin by done. by rewrite !(proj2 (Z.ltb_ge _ _)) by done.
Qed.

(** [math.exp]: between 0 and 1 below 0, at least 1 above, and a number. *)
Definition exp_ordered (exp : float -> float) : Prop :=
  forall x, (PrimFloat.leb x 0 = true -> PrimFloat.leb 0 (exp x) = true /\ PrimFloat.leb (exp x) 1 = true) /\
            (PrimFloat.leb 0 x = true -> PrimFloat.leb 1 (exp x) = true).

Lemma one_plus_large y : PrimFloat.leb 1 y = true -> is_nan (1 + y)%float = false /\ 2 * two1074 <= frank (1 + y)%float.
Proof.
  intros L. pose proof L as R. rewrite leb_rank, !andb_true_iff, !negb_true_iff, Z.leb_le in R. destruct R as [[_ N] R]. change (frank 1) with two1074 in R.
  destruct (fin y) eqn:F.
  - destruct (fadd_rank 1 y eq_refl F) as [S M]. split; [done|]. rewrite S. change (2 * two1074) with (frank 2).
    rewrite <- (rnd_frank 2 eq_refl). apply rnd_mono. change (frank 1) with two1074. change (frank 2) with (two1074 + two1074). lia.
  - assert (y = infinity) as ->; [|by split; vm_compute].
    apply Prim2SF_inj. change (Prim2SF infinity) with (S754_infinity false). revert F N R. rewrite fin_sf, is_nan_sf. unfold frank.
    by destruct (Prim2SF y) as [|[]| |].
Qed.

Lemma unit_fin y : PrimFloat.leb 0 y = true -> PrimFloat.leb y 1 = true -> fin y = true /\ is_infinity y = false /\ 0 <= frank y <= two1074.
Proof.
  intros L H. rewrite leb_rank, !andb_true_iff, !negb_true_iff, Z.leb_le in L, H. destruct L as [[_ N] L], H as [_ H].
  change (frank 0) with 0 in L. change (frank 1) with two1074 in H.
  assert (fin y = true) as F.
  { rewrite fin_rank, N. unfold two1074 in H. cbn [negb andb]. rewrite andb_true_iff, !Z.ltb_lt. lia. }
  split; [done|]. split; [|done]. unfold fin, is_finite in F. apply negb_true_iff, orb_false_iff in F. tauto.
Qed.

Lemma one_plus_unit y : PrimFloat.leb 0 y = true -> PrimFloat.leb y 1 = true ->
  is_nan (1 + y)%float = false /\ two1074 <= frank (1 + y)%float <= 2 * two1074.
Proof.
  intros L H. destruct (unit_fin y L H) as (F & _ & L' & H').
  destruct (one_plus y F L') as [M G]. split; [done|]. split; [done|]. destruct (fadd_rank 1 y eq_refl F) as [-> _].
  change (2 * two1074) with (frank 2). rewrite <- (rnd_frank 2 eq_refl). apply rnd_mono. change (frank 1) with two1074.
  change (frank 2) with (two1074 + two1074). lia.
Qed.

Lemma f_div_reciprocal w : is_nan w = false -> two1074 <= frank w -> f_div 1 w = Ok (1 / w)%float.
Proof.
  intros N R. unfold f_div. rewrite eqb_rank, N. change (is_nan 0) with false. change (frank 0) with 0.
  rewrite (proj2 (Z.eqb_neq _ _)); [done|]. pose proof (pow2_pos 1074 ltac:(lia)). fold two1074 in *. lia.
Qed.

Section logistic.
Context (exp : float -> float) (E : exp_ordered exp).

Lemma half_leb p : is_nan p = false -> (PrimFloat.leb 0.5 p = (halves <=? frank p)) /\ (PrimFloat.leb p 0.5 = (frank p <=? halves)).
Proof. intros N. rewrite !leb_rank, N. change (is_nan 0.5) with false. by rewrite frank_half. Qed.

Lemma logistic_low x : PrimFloat.leb x 0 = true -> exists p, logistic exp x = Ok p /\ unit_float p /\ PrimFloat.leb 0.5 p = true.
Proof.
  intros L. destruct (proj1 (E x) L) as [P0 P1]. unfold logistic, Options.f_exp.
  destruct (unit_fin _ P0 P1) as (_ & -> & _).
  rewrite andb_false_r. destruct (one_plus_unit _ P0 P1) as (N & A & B). rewrite f_div_reciprocal by done. eexists. split; [done|].
  destruct (reciprocal_rank _ N A) as (M & G & _ & U). split; [by apply unit_rank|]. rewrite (proj1 (half_leb _ M)). apply Z.leb_le. by apply G.
Qed.

Lemma logistic_high x : PrimFloat.leb 0 x = true -> exists p, logistic exp x = Ok p /\ unit_float p /\ PrimFloat.leb p 0.5 = true.
Proof.
  intros L. pose proof (proj2 (E x) L) as P. unfold logistic, Options.f_exp. destruct (is_finite x && is_infinity (exp x)) eqn:O.
  - (* an overflow of a positive exponent *)
    destruct (PrimFloat.ltb 0 x) eqn:Z; [eexists; split; [done|]; by vm_compute|exfalso].
    apply andb_true_iff in O as [F I]. rewrite ltb_fin in Z by done. rewrite leb_fin in L by done. apply Z.leb_le in L. apply Z.ltb_ge in Z.
    assert (PrimFloat.leb x 0 = true) as L0 by (rewrite leb_fin by done; by apply Z.leb_le).
    destruct (proj1 (E x) L0) as [P0 P1]. destruct (unit_fin _ P0 P1) as (_ & I' & _). congruence.
  - destruct (one_plus_large _ P) as (N & A). assert (two1074 <= frank (1 + exp x)%float) as A'.
    { pose proof (pow2_pos 1074 ltac:(lia)). fold two1074 in *. lia. }
    rewrite f_div_reciprocal by done. eexists. split; [done|].
    destruct (reciprocal_rank _ N A') as (M & _ & G & U). split; [by apply unit_rank|]. rewrite (proj2 (half_leb _ M)). apply Z.leb_le. by apply G.
Qed.

(** ** The probability *)

(** A steepness of the configuration: finite, from 0. *)
Definition steep (config : ForecasterConfig) : Prop := is_finite (prob_scale config) = true /\ PrimFloat.leb 0 (prob_scale config) = true.

Definition probability_for (z p : float) : Prop :=
  unit_float p /\ (PrimFloat.leb 0 z = true -> PrimFloat.leb 0.5 p = true) /\ (PrimFloat.leb z 0 = true -> PrimFloat.leb p 0.5 = true).

Lemma probability_exact z config : steep config -> is_finite z = true -> exists p, up_probability exp z config = Ok p /\ probability_for z p.
Proof.
  intros [Fs Ps] Fz. unfold up_probability. rewrite Fz. cbn [negb orb]. destruct (PrimFloat.eqb z 0) eqn:Z; [eexists; split; [done|]; by vm_compute|].
  destruct (fopp_rank (prob_scale config)) as (Ro & No & Fo). unfold fin in Fo. rewrite Fs in Fo.
  rewrite leb_fin in Ps by done. apply Z.leb_le in Ps. change (frank 0) with 0 in Ps.
  destruct (fmul_sign (- prob_scale config)%float z Fo Fz) as (N & Up & Down). rewrite Ro in Up, Down.
  rewrite eqb_rank, (fin_not_nan _ Fz) in Z. change (is_nan 0) with false in Z. cbn [negb andb] in Z. apply Z.eqb_neq in Z. change (frank 0) with 0 in Z.
  assert ((PrimFloat.leb 0 z = true <-> 0 <= frank z) /\ (PrimFloat.leb z 0 = true <-> frank z <= 0)) as [Zl Zh].
  { rewrite !leb_fin by done. change (frank 0) with 0. by rewrite !Z.leb_le. }
  unfold probability_for.
  destruct (Z.le_gt_cases 0 (frank z)) as [G|G].
  - destruct (logistic_low (- prob_scale config * z)%float) as (p & -> & U & H).
    { rewrite leb_rank, N. apply Z.leb_le. change (frank 0) with 0. lia. }
    cbn [mbind res_bind]. destruct U as (Fp & U). rewrite Fp, clamp_id by done. eexists. split; [done|]. split_and!; [done|done|]. intros Hz. apply Zh in Hz. lia.
  - destruct (logistic_high (- prob_scale config * z)%float) as (p & -> & U & H).
    { rewrite leb_rank, N. apply Z.leb_le. change (frank 0) with 0. lia. }
    cbn [mbind res_bind]. destruct U as (Fp & U). rewrite Fp, clamp_id by done. eexists. split; [done|]. split_and!; [done| |done]. intros Hz. apply Zl in Hz. lia.
Qed.

Lemma confidence_exact z config p :
  up_probability exp z config = Ok p -> exists c, forecast_confidence exp z config = Ok c /\ unit_float c.
Proof.
  intros H. unfold forecast_confidence. rewrite H. cbn [mbind res_bind]. eexists. split; [done|].
  destruct (is_finite (2 * abs (p - 0.5))%float) eqn:F; [by apply clamped_unit|by vm_compute].
Qed.
End logistic.

(** ** The label *)

Definition finite_or_none (o : option float) : Prop := forall x, o = Some x -> is_finite x = true.

Lemma if_finite_some x y : Options.if_finite x = Some y -> is_finite y = true.
Proof. unfold Options.if_finite. destruct (is_finite x) eqn:F; [by intros [= <-]|done]. Qed.

Lemma conditioned_finite drift volatility trend : is_finite (conditioned_drift drift volatility trend) = true.
Proof.
  unfold conditioned_drift. destruct drift as [d|], volatility as [v|]; try done. destruct (_ || _); [done|]. destruct (PrimFloat.leb v 0); [done|]. cbv zeta.
  destruct (negb _); [done|]. destruct (Options.if_finite _) eqn:F; [by apply if_finite_some in F|done].
Qed.

(** A band around zero: finite, from 0. *)
Definition banded (config : ForecasterConfig) : Prop := is_finite (flat_band config) = true /\ PrimFloat.leb 0 (flat_band config) = true.

Lemma direction_exact z config :
  banded config -> is_finite z = true ->
  (classify_direction z config = UP <-> PrimFloat.ltb (flat_band config) z = true) /\
  (classify_direction z config = DOWN <-> PrimFloat.ltb z (- flat_band config) = true) /\
  (classify_direction z config = UP -> PrimFloat.leb 0 z = true) /\ (classify_direction z config = DOWN -> PrimFloat.leb z 0 = true).
Proof.
  intros [Fb B] Fz. unfold classify_direction. rewrite Fz. cbn [negb]. destruct (fopp_rank (flat_band config)) as (Ro & _ & Fo).
  destruct (fabs_rank z) as [Ra Na]. assert (fin (abs z) = true) as Fa.
  { rewrite fin_rank, Na, Ra. change (is_finite z) with (fin z) in Fz. rewrite fin_rank in Fz. destruct (is_nan z); [done|]. cbn [negb andb] in *.
    rewrite andb_true_iff, !Z.ltb_lt in *. lia. }
  rewrite !leb_fin in * by done. rewrite !ltb_fin by (done || by rewrite Fo). rewrite Ra, Ro. change (frank 0) with 0 in *. apply Z.leb_le in B.
  rewrite !Z.ltb_lt, !Z.leb_le. destruct (Z.leb_spec (Z.abs (frank z)) (frank (flat_band config))), (Z.ltb_spec 0 (frank z)); (split_and!; try done; try split; intros; try done; lia).
Qed.

Lemma config_ok e : steep (resolve_forecaster_config e) /\ banded (resolve_forecaster_config e).
Proof.
  split.
  - pose proof (resolve_float_band_in e "FORECAST_PROB_SCALE"%string DEFAULT_FORECAST_PROB_SCALE 0 50 eq_refl eq_refl eq_refl) as H.
    unfold PyEnv.in_band in H. rewrite !andb_true_iff in H. by destruct H as [[? ?] ?].
  - pose proof (resolve_float_band_in e "FORECAST_FLAT_BAND"%string DEFAULT_FORECAST_FLAT_BAND 0 5 eq_refl eq_refl eq_refl) as H.
    unfold PyEnv.in_band in H. rewrite !andb_true_iff in H. by destruct H as [[? ?] ?].
Qed.

(** What a trade is proposed to do with the market. *)
Definition proposed_side := _normalize_proposed_direction.

Definition aligned_exact (d : direction) (proposed : option string) (a : alignment) : Prop :=
  (a = ALIGNED <-> proposed_side proposed = Some d /\ d <> FLAT) /\
  (a = MISALIGNED <-> exists s, proposed_side proposed = Some s /\ s <> d /\ d <> FLAT).

Lemma forecast_alignment_exact d proposed : aligned_exact d proposed (derive_forecast_alignment d proposed).
Proof.
  unfold aligned_exact, derive_forecast_alignment, proposed_side. destruct (_normalize_proposed_direction proposed) as [s|] eqn:P; [|split; split; try done; [by intros [??]|by intros (?&?&?)]].
  assert (s <> FLAT) as N.
  { unfold _normalize_proposed_direction in P. destruct proposed as [t|]; [|done]. destruct (str_in _ _); [by injection P as <-|].
    destruct (str_in _ _); [by injection P as <-|done]. }
  destruct s, d; try done; cbn; (split; split; [intros H; try discriminate H; done|intros [[= ] ?]; done|intros H; try discriminate H; eexists; split_and!; done
    |intros (x & [= <-] & ? & ?); done]).
Qed.

(** A label agrees with itself. *)
Definition label_ok (config : ForecasterConfig) (proposed : option string) (l : forecast_label) : Prop :=
  let z := fl_standardized l in
  is_finite z = true /\
  (fl_direction l = UP <-> PrimFloat.ltb (flat_band config) z = true) /\ (fl_direction l = DOWN <-> PrimFloat.ltb z (- flat_band config) = true) /\
  unit_float (fl_up_probability l) /\ unit_float (fl_confidence l) /\
  (fl_direction l = UP -> PrimFloat.leb 0.5 (fl_up_probability l) = true) /\ (fl_direction l = DOWN -> PrimFloat.leb (fl_up_probability l) 0.5 = true) /\
  (usable_volatility (fl_volatility l) = false ->
     z = 0%float /\ fl_direction l = FLAT /\ fl_up_probability l = 0.5%float /\ fl_confidence l = 0%float) /\
  aligned_exact (fl_direction l) proposed (fl_alignment l) /\
  finite_or_none (fl_drift l) /\ finite_or_none (fl_volatility l) /\ finite_or_none (fl_atr l) /\ finite_or_none (fl_expected_move l).

Section measures.
Context (log exp log10 : float -> float) (pow : float -> float -> float).

Lemma drift_finite candles config o : compute_drift log pow candles config = Ok o -> finite_or_none o.
Proof.
  unfold compute_drift. intros H. apply bind_Ok in H as (rs & _ & H). destruct rs; [by apply Ok_inj in H as <-|].
  apply bind_Ok in H as (d & _ & H). apply Ok_inj in H as <-. intros x. apply if_finite_some.
Qed.

Lemma atr_finite candles period o : compute_atr candles period = Ok o -> finite_or_none o.
Proof.
  unfold compute_atr. destruct (negb _); [by intros [= <-]|]. intros H. apply bind_Ok in H as (rows & _ & H). cbv zeta in H.
  destruct (_ <? _); [by apply Ok_inj in H as <-|]. apply bind_Ok in H as (total & _ & H). apply Ok_inj in H as <-.
  intros x. destruct (is_finite _) eqn:F; [|done]. cbn [negb orb]. destruct (PrimFloat.leb _ 0); [done|]. by intros [= <-].
Qed.

Lemma volatility_finite candles config o : compute_volatility log pow candles config = Ok o -> finite_or_none o.
Proof.
  unfold compute_volatility. intros H. apply bind_Ok in H as (rs & _ & H). destruct rs; [by apply Ok_inj in H as <-|].
  apply bind_Ok in H as (s & _ & H). apply bind_Ok in H as (a & _ & H). apply bind_Ok in H as (rows & _ & H). cbv zeta in H. apply Ok_inj in H as <-.
  intros x. destruct (is_finite _) eqn:F; [|done]. cbn [negb]. by destruct (PrimFloat.ltb _ 0); intros [= <-].
Qed.

Lemma move_finite candles drift atr o : _expected_move_atr exp candles drift atr = Ok o -> finite_or_none o.
Proof.
  unfold _expected_move_atr. destruct atr as [a|], drift as [d|]; try (by intros [= <-]). destruct (_ || _); [by intros [= <-]|].
  intros H. apply bind_Ok in H as (rows & _ & H). apply Ok_inj in H as <-. destruct (last_close rows) as [c|]; [|done].
  destruct (Options.f_exp exp d) as [y|]; [|done]. destruct (_ || _); [done|]. cbv zeta. destruct (negb _); [done|]. intros x. apply if_finite_some.
Qed.

Lemma reading_ok (E : exp_ordered exp) drift volatility trend config z d p c :
  steep config -> banded config -> reading_of exp drift volatility trend config = Ok (z, d, p, c) ->
  is_finite z = true /\ d = classify_direction z config /\ probability_for z p /\ unit_float c /\
  (usable_volatility volatility = false -> z = 0%float /\ d = FLAT /\ p = 0.5%float /\ c = 0%float).
Proof.
  intros S B. unfold reading_of. destruct (usable_volatility volatility).
  - pose proof (conditioned_finite drift volatility trend) as F. destruct (probability_exact exp E _ config S F) as (p' & Hp & P).
    destruct (confidence_exact exp _ config p' Hp) as (c' & Hc & U). cbv zeta. rewrite Hp, Hc. cbn [mbind res_bind]. intros [= <- <- <- <-]. by split_and!.
  - intros [= <- <- <- <-]. split_and!; try done; [|by vm_compute..]. unfold classify_direction. destruct B as [_ B].
    change (is_finite 0) with true. change (abs 0) with 0%float. cbn [negb]. by rewrite B.
Qed.

Lemma label_exact (E : exp_ordered exp) e candles received config proposed l :
  steep config -> banded config -> label_of log exp log10 pow e candles received config proposed = Ok l ->
  label_ok config proposed l /\ fl_candles_used l = received.
Proof.
  intros S B H. unfold label_of in H. apply bind_Ok in H as (drift & Hd & H). apply bind_Ok in H as (vol & Hv & H). apply bind_Ok in H as (atr & Ha & H).
  cbv zeta in H. apply bind_Ok in H as (move & Hm & H). apply bind_Ok in H as ([[[z d] p] c] & Hr & H). apply Ok_inj in H as <-.
  apply (reading_ok E _ _ _ _ _ _ _ _ S B) in Hr as (F & -> & (U & Pu & Pd) & C & V).
  destruct (direction_exact z config B F) as (Du & Dd & Zu & Zd). split; [|done]. unfold label_ok. cbn [fl_standardized fl_direction fl_up_probability fl_confidence
    fl_volatility fl_alignment fl_drift fl_atr fl_expected_move].
  split_and!; try done; [tauto|tauto|apply forecast_alignment_exact|by eapply drift_finite|by eapply volatility_finite|by eapply atr_finite|by eapply move_finite].
Qed.

(** C35: The forecast of every candle sequence, for any exponential that is at most 1 below
    zero and at least 1 above it: a label needs the required number of valid candles and
    agrees with itself.  It projects up exactly above the flat band and down exactly below
    it, with a probability in the unit interval that is at least one half when up and at
    most one half when down, and a confidence in the unit interval; without a usable
    volatility it is flat, even and without confidence; it is aligned exactly with a
    proposal for the projected side; and every measure is finite or null.  It is
    unavailable only with fewer candles than required or where a computation raises. *)
Theorem forecast_exact (E : exp_ordered exp) e candles proposed :
  let config := resolve_forecaster_config e in
  match forecast log exp log10 pow e candles config proposed with
  | Label l =>
      exists rows, Regime._valid_ohlc_rows candles = Ok rows /\ required_candles config <= Z.of_nat (length rows) /\
        fl_candles_used l = Z.of_nat (length rows) /\ label_ok config proposed l
  | Unavailable _ =>
      forall rows, Regime._valid_ohlc_rows candles = Ok rows -> Z.of_nat (length rows) < required_candles config \/
        exists ex, label_of log exp log10 pow e candles (Z.of_nat (length rows)) config proposed = Raise ex
  end.
Proof.
  intros config. destruct (config_ok e) as [S B]. fold config in S, B. unfold forecast.
  destruct (Regime._valid_ohlc_rows candles) as [rows|ex] eqn:R; [|by intros ? [=]]. cbn [mbind res_bind]. cbv zeta.
  destruct (Z.ltb_spec (Z.of_nat (length rows)) (required_candles config)) as [L|L]; [intros ? [= <-]; by left|].
  destruct (label_of log exp log10 pow e candles _ config proposed) as [l|ex] eqn:Hl; cbn [mbind res_bind].
  - destruct (label_exact E _ _ _ _ _ _ S B Hl) as [K U]. by exists rows.
  - intros rows' [= <-]. right. by exists ex.
Qed.

(** ** The tool *)

Lemma probability_unit z config p : up_probability exp z config = Ok p -> unit_float p.
Proof.
  unfold up_probability. destruct (_ || _); [intros [= <-]; by vm_compute|]. intros H. apply bind_Ok in H as (q & _ & H). apply Ok_inj in H as <-.
  destruct (is_finite q) eqn:F; [by apply clamped_unit|by vm_compute].
Qed.

Lemma label_units e candles received config proposed l :
  label_of log exp log10 pow e candles received config proposed = Ok l -> unit_float (fl_up_probability l) /\ unit_float (fl_confidence l).
Proof.
  intros H. unfold label_of in H. apply bind_Ok in H as (drift & _ & H). apply bind_Ok in H as (vol & _ & H). apply bind_Ok in H as (atr & _ & H).
  cbv zeta in H. apply bind_Ok in H as (move & _ & H). apply bind_Ok in H as ([[[z d] p] c] & Hr & H). apply Ok_inj in H as <-. cbn.
  unfold reading_of in Hr. destruct (usable_volatility vol); [|injection Hr as <- <- <- <-; by vm_compute].
  cbv zeta in Hr. apply bind_Ok in Hr as (p' & Hp & Hr). apply bind_Ok in Hr as (c' & Hc & Hr). injection Hr as <- <- <- <-.
  split; [by eapply probability_unit|]. destruct (confidence_exact exp _ _ _ Hp) as (c'' & Hc' & U). rewrite Hc' in Hc. by apply Ok_inj in Hc as <-.
Qed.

Lemma nleb_floats x y : nleb (NFlt x) (NFlt y) = PrimFloat.leb x y.
Proof.
  unfold nleb, ncompare. rewrite leb_rank. destruct (is_nan x), (is_nan y); cbn; try done.
Qed.

Lemma unit_number_float d f p : dict_get d f = VFloat p -> unit_float p -> unit_number d f = Conforms.
Proof. intros H (_ & L & U). unfold unit_number, unit_interval. rewrite H. cbn -[nleb]. by rewrite !nleb_floats, L, U. Qed.

Lemma forecast_payload_conforms r symbol timeframe :
  (forall l, r = Label l -> unit_float (fl_up_probability l) /\ unit_float (fl_confidence l)) ->
  validate_contract "get_forecast" (forecast_payload r symbol timeframe) = forecast_payload r symbol timeframe.
Proof.
  destruct r as [l|reason]; [intros H; destruct (H l eq_refl) as [P C]|by destruct symbol, timeframe].
  unfold validate_contract. destruct (_has_honest_marker _); [done|].
  assert (contract_of "get_forecast" (forecast_payload (Label l) symbol timeframe) = Conforms) as ->; [|done].
  change (contract_forecast (forecast_payload (Label l) symbol timeframe) = Conforms).
  unfold contract_forecast, object, forecast_payload.
  rewrite (unit_number_float _ "up_probability" (fl_up_probability l)) by done.
  rewrite (unit_number_float _ "forecast_confidence" (fl_confidence l)) by done. clear H P C.
  destruct l as [d p mv c a dr vo z at_ tr n]. by destruct d, a, mv, dr, vo, at_.
Qed.

Context (e : env) (fetch : string -> string -> Z -> string + val) (margin : Z).

(** The forecast of the candles fetched for a symbol. *)
Definition forecast_answer (symbol timeframe proposed : string) (answer : val) : Prop :=
  exists limit candles l, fetch symbol timeframe limit = inr (VList candles) /\
    forecast log exp log10 pow e (VList candles) (resolve_forecaster_config e) (if nonempty proposed then Some proposed else None) = Label l /\
    answer = forecast_payload (Label l) (Some symbol) (Some timeframe).

Lemma forecast_units candles config proposed l :
  forecast log exp log10 pow e candles config proposed = Label l -> unit_float (fl_up_probability l) /\ unit_float (fl_confidence l).
Proof.
  unfold forecast. destruct (Regime._valid_ohlc_rows candles) as [rows|]; [|done]. cbn [mbind res_bind]. cbv zeta. destruct (_ <? _); [done|].
  destruct (label_of _ _ _ _ _ _ _ _ _) as [l'|] eqn:H; cbn [mbind res_bind]; [|done]. intros [= <-]. by eapply label_units.
Qed.

(** What the forecast tool answers is sound: whatever the C library, the environment,
    the tool server and the arguments, the answer passes the contract of its tool
    unchanged and is never a contract violation; and an answer without an honest marker is
    the forecast of the candles that were fetched for the symbol. *)
Theorem forecast_tool_sound symbol timeframe proposed :
  sound "get_forecast" (forecast_answer symbol timeframe proposed)
    (get_forecast log exp log10 pow e fetch margin symbol timeframe proposed).
Proof.
  unfold get_forecast. destruct (bad_arguments _ _ _) as [error|] eqn:B; [by apply bad_arguments_marked in B as [??]; apply marked_sound|].
  cbn zeta. destruct (_fetch_candles_for_rs _ _ _ _) as [reason|candles] eqn:F; [by apply marked_sound|]. apply fetched_candles in F as [F _].
  pose proof (forecast_units (VList candles) (resolve_forecaster_config e) (if nonempty proposed then Some proposed else None)) as U.
  set (r := forecast _ _ _ _ _ _ _ _) in *. pose proof (forecast_payload_conforms r (Some symbol) (Some timeframe) U) as C. rewrite C.
  destruct r as [l|reason] eqn:R; [|by apply marked_sound]. split_and!; [exact C|by destruct l|]. right. by eexists _, candles, l.
Qed.
End measures.

(** ** Examples *)

Definition step_exp (x : float) : float := if PrimFloat.ltb x 0 then 0.5%float else if PrimFloat.ltb 0 x then 2%float else 1%float.

Definition rising (i : nat) : val :=
  let c := f_of_nat (100 + i) in
  VDict [(VStr "open", VFloat c); (VStr "high", VFloat (c + 1)%float); (VStr "low", VFloat (c - 1)%float); (VStr "close", VFloat c)].

Definition rise : val := VList (map rising (seq 0 30)).

(** A logarithm that sees only rises and falls. *)
Definition step_log (x : float) : float := if PrimFloat.ltb 1 x then 0.01%float else (-0.01)%float.

Definition rise_forecast : forecast_result :=
  forecast step_log step_exp (fun _ => 1%float) (fun _ _ => 0.5%float) (fun _ => None) rise (resolve_forecaster_config (fun _ => None)) (Some "BUY"%string).

Lemma step_exp_ordered : exp_ordered step_exp.
Proof.
  intros x. unfold step_exp. split; intros H; rewrite leb_rank, !andb_true_iff, Z.leb_le in H; destruct H as [_ H]; change (frank 0) with 0 in H.
  - destruct (PrimFloat.ltb x 0); [by vm_compute|]. destruct (PrimFloat.ltb 0 x) eqn:P; [|by vm_compute].
    rewrite ltb_rank, !andb_true_iff, Z.ltb_lt in P. change (frank 0) with 0 in P. lia.
  - destruct (PrimFloat.ltb x 0) eqn:N; [|by destruct (PrimFloat.ltb 0 x)]. rewrite ltb_rank, !andb_true_iff, Z.ltb_lt in N.
    change (frank 0) with 0 in N. lia.
Qed.

Lemma forecast_exact_witness :
  exists l, rise_forecast = Label l /\ fl_direction l = UP /\ fl_alignment l = ALIGNED /\ PrimFloat.leb 0.5 (fl_up_probability l) = true /\ fl_candles_used l = 30.
Proof.
  pose proof (forecast_exact step_log step_exp (fun _ => 1%float) (fun _ _ => 0.5%float) step_exp_ordered (fun _ => None) rise (Some "BUY"%string)) as H.
  cbv zeta in H. fold rise_forecast in H. destruct rise_forecast as [l|] eqn:R; [|exfalso; vm_compute in R; discriminate].
  destruct H as (rows & Hr & _ & U & K). exists l. split; [done|].
  assert (fl_direction l = UP /\ fl_alignment l = ALIGNED /\ fl_candles_used l = 30) as (D & A & N) by (vm_compute in R; injection R as <-; by split_and!).
  split_and!; [done|done| |done]. destruct K as (_ & _ & _ & _ & _ & Kp & _). by apply Kp.
Defined.

(** Two ranges whose sum is beyond the floats: the summation raises. *)
Example huge_ranges_raise :
  let bar := VDict [(VStr "open", VInt 1); (VStr "high", VFloat 1.5e308); (VStr "low", VInt 0); (VStr "close", VInt 1)] in
  compute_atr (VList [bar; bar; bar]) 2 = Raise OverflowError.
Proof. by vm_compute. Qed.

(** The summation is exact where a running sum loses the small terms. *)
Example fsum_keeps_small_terms : fsum [1e100; 1; -1e100; 1]%float = Ok 2%float.
Proof. by vm_compute. Qed.
