(* ===== verification/OptionsChain.v ===== *)
(** * Options analytics: the chain, its sources, and the result

    Models the rest of [agents/deep-quant-loop/options.py]: the reads of the tick store
    (snapshots, volumes, expiry, future, spot), the live chain of the exchange, the time
    to expiry, the assembled result and [compute_options_analytics].

    The two servers are parameters: [exec] holds, for an SQL text, the decoded body of the
    tick store's answer, and [kite], for a path and its parameters, that of the
    exchange proxy; nothing where the request raises.  [kite_url] is the import-time
    constant [KITE_API_URL], [now_ms] the clock. *)

From stdpp Require Import base list strings gmap sorting.
From Stdlib Require Import ZArith Lia Floats Ascii.
From S2P Require Import Prelude PyFloat PyRound PyDiv PyNum PyVal PyEnv PyJson PySort PyStr PyTime SqlText PyStats Contracts FlowTools Options.

#[local] Set Warnings "-inexact-float".
Open Scope Z_scope.
Open Scope string_scope.
Open Scope res_scope.

(** What raises is [k]. *)
Definition or_else {A} (m : res A) (k : A) : A := match m with Ok a => a | Raise _ => k end.

(** ** Queries *)

Definition volume_query (u e : string) : string :=
  "SELECT symbol, volume FROM option_ticks WHERE underlying=" ++ literal u ++ " AND expiry=" ++ literal e
  ++ " LATEST ON timestamp PARTITION BY symbol".

Definition snapshot_query (u e : string) (ts : Z) : string :=
  "SELECT strike, option_type, symbol, last_price, open_interest FROM option_chain_snapshots WHERE underlying=" ++ literal u
  ++ " AND expiry=" ++ literal e ++ " AND cast(snapshot_ts AS LONG)=" ++ Z_str ts.

Definition expiry_query (u : string) : string :=
  "SELECT expiry FROM option_chain_snapshots WHERE underlying=" ++ literal u ++ " ORDER BY snapshot_ts DESC LIMIT 1".

Definition captures_query (u e : string) : string :=
  "SELECT DISTINCT cast(snapshot_ts AS LONG) ts FROM option_chain_snapshots WHERE underlying=" ++ literal u ++ " AND expiry=" ++ literal e
  ++ " ORDER BY ts DESC LIMIT 2".

Definition future_query (u : string) : string :=
  "SELECT expiry, last_traded_price FROM option_ticks WHERE underlying=" ++ literal u ++ " AND option_type=" ++ literal "FUT"
  ++ " LATEST ON timestamp PARTITION BY symbol".

Definition spot_query (candidate : string) : string :=
  "SELECT last_traded_price FROM live_ticks WHERE symbol=" ++ literal candidate ++ " ORDER BY timestamp DESC LIMIT 1".

(** ** Cells and rows *)

(** The cells of a row that is a list. *)
Definition cells_of (row : val) : list val := match row with VList cells | VTuple cells => cells | _ => [] end.

Definition _coerce_optional_float (value : val) : res (option float) :=
  match value with
  | VInt _ | VFloat _ =>
      known ← py_isfinite value;
      if known : bool then x ← py_float value; Ok (Some x) else Ok None
  | VStr s | VBytes s => match parse_float s with Ok x => Ok (if_finite x) | Raise _ => Ok None end
  | _ => Ok None
  end.

Definition add_symbol_volume (acc : gmap string float) (row : val) : res (gmap string float) :=
  match cells_of row with
  | symbol :: cell :: _ =>
      volume ← _coerce_optional_float cell;
      Ok match symbol, volume with VStr s, Some v => <[s := v]> acc | _, _ => acc end
  | _ => Ok acc
  end.

Definition empty_quote (k : float) : StrikeQuote :=
  {| strike := k; ce_price := None; pe_price := None; ce_oi := None; pe_oi := None; ce_volume := None; pe_volume := None |}.

Definition set_leg (kind : option_kind) (price oi volume : option float) (q : StrikeQuote) : StrikeQuote :=
  match kind with
  | Call => {| strike := strike q; ce_price := price; pe_price := pe_price q; ce_oi := oi; pe_oi := pe_oi q; ce_volume := volume;
               pe_volume := pe_volume q |}
  | Put => {| strike := strike q; ce_price := ce_price q; pe_price := price; ce_oi := ce_oi q; pe_oi := oi; ce_volume := ce_volume q;
              pe_volume := volume |}
  end.

(** The entry of a strike changed, created at the end when there is none. *)
Fixpoint upsert_quote (k : float) (f : StrikeQuote -> StrikeQuote) (qs : list StrikeQuote) : list StrikeQuote :=
  match qs with
  | [] => [f (empty_quote k)]
  | q :: qs' => if PrimFloat.eqb (strike q) k then f q :: qs' else q :: upsert_quote k f qs'
  end.

(** The ladder of the collected entries; none when there is none. *)
Definition by_strike (a b : StrikeQuote) : bool := PrimFloat.ltb (strike a) (strike b).

Definition snapshot_of (u e : string) (ts_ms : Z) (qs : list StrikeQuote) : option ChainSnapshot :=
  match qs with
  | [] => None
  | _ => Some {| underlying := u; expiry := e; snapshot_ts := ts_ms; strikes := sort_by by_strike qs |}
  end.

Definition volume_of (volume_by_symbol : gmap string float) (symbol : val) : option float :=
  match symbol with VStr s => volume_by_symbol !! s | _ => None end.

Definition add_leg_row (volume_by_symbol : gmap string float) (qs : list StrikeQuote) (row : val) : res (list StrikeQuote) :=
  match cells_of row with
  | k :: option_type :: symbol :: last_price :: open_interest :: _ =>
      k ← _coerce_optional_float k;
      match k, _normalize_option_type option_type return res (list StrikeQuote) with
      | Some k, Some kind =>
          price ← _coerce_optional_float last_price;
          oi ← _coerce_optional_float open_interest;
          Ok (upsert_quote k (set_leg kind price oi (volume_of volume_by_symbol symbol)) qs)
      | _, _ => Ok qs
      end
  | _ => Ok qs
  end.

(** [int(ts)] of a row's first cell when it is a finite number. *)
Definition capture_of (row : val) : res (option Z) :=
  match cells_of row with
  | ts :: _ => known ← finite_number ts; if known : bool then z ← py_int ts; Ok (Some z) else Ok None
  | [] => Ok None
  end.

(** The future of the smallest expiry so far. *)
Definition nearer_future (best : option (string * float)) (row : val) : res (option (string * float)) :=
  match cells_of row with
  | VStr e :: cell :: _ =>
      price ← _coerce_optional_float cell;
      Ok match price, best with
         | None, _ => best
         | Some p, None => Some (e, p)
         | Some p, Some (b, _) => if str_ltb e b then Some (e, p) else best
         end
  | _ => Ok best
  end.

Definition push_candidate (out : list string) (s : string) : list string :=
  if existsb (fun e => String.eqb (upper (strip e)) (upper (strip s))) out then out else out ++ [s].

Definition aliases_of (key : string) : list string :=
  if str_in key ["NIFTY"; "NIFTY 50"; "NIFTY50"; "NSE:NIFTY 50"] then ["NIFTY 50"; "NIFTY"; "NSE:NIFTY 50"]
  else if str_in key ["BANKNIFTY"; "NIFTY BANK"; "NSE:NIFTY BANK"] then ["NIFTY BANK"; "BANKNIFTY"; "NSE:NIFTY BANK"]
  else if str_in key ["FINNIFTY"; "NIFTY FIN SERVICE"; "NSE:NIFTY FIN SERVICE"]
  then ["NIFTY FIN SERVICE"; "FINNIFTY"; "NSE:NIFTY FIN SERVICE"]
  else if str_in key ["MIDCPNIFTY"; "NIFTY MIDCAP SELECT"] then ["NIFTY MIDCAP SELECT"; "MIDCPNIFTY"]
  else [].

Definition _spot_symbol_candidates (u : string) : list string := fold_left push_candidate (aliases_of (upper (strip u))) [u].

(** ** The tick store *)

Section store.
Variable exec : string -> option val.

Definition _questdb_select (query : string) : option (list val) :=
  match exec query with
  | Some (VDict body) =>
      if truthy (dict_get body "error") then None else match dict_get body "dataset" with VList dataset => Some dataset | _ => None end
  | _ => None
  end.

(** The rows of an answer; an answer that failed has none. *)
Definition select_rows (query : string) : list val := default [] (_questdb_select query).

Definition _read_latest_option_volume (u e : string) : res (gmap string float) := foldM add_symbol_volume ∅ (select_rows (volume_query u e)).

Definition _build_chain_snapshot (u e : string) (ts : Z) (volume_by_symbol : gmap string float) : res (option ChainSnapshot) :=
  qs ← foldM (add_leg_row volume_by_symbol) [] (select_rows (snapshot_query u e ts));
  Ok (snapshot_of u e (ts / 1000) qs).

Definition resolve_active_expiry (u : string) : option string :=
  match select_rows (expiry_query u) with
  | row :: _ =>
      match cells_of row with
      | VStr exp :: _ => if nonempty (strip exp) then Some (strip exp) else None
      | _ => None
      end
  | [] => None
  end.

Definition no_snapshots : option ChainSnapshot * option ChainSnapshot := (None, None).

Definition read_latest_and_prior_snapshot (u e : string) : option ChainSnapshot * option ChainSnapshot :=
  or_else
    (captures ← mapM_res capture_of (select_rows (captures_query u e));
     match somes captures return res (option ChainSnapshot * option ChainSnapshot) with
     | [] => Ok no_snapshots
     | ts :: earlier =>
         volume_by_symbol ← _read_latest_option_volume u e;
         latest ← _build_chain_snapshot u e ts volume_by_symbol;
         match latest, earlier with
         | None, _ => Ok no_snapshots
         | Some _, [] => Ok (latest, None)
         | Some _, ts' :: _ => prior ← _build_chain_snapshot u e ts' volume_by_symbol; Ok (latest, prior)
         end
     end) no_snapshots.

Definition read_future_price (u : string) : option float :=
  or_else (best ← foldM nearer_future None (select_rows (future_query u)); Ok (option_map snd best)) None.

(** The latest positive price of a candidate, or of those after it. *)
Fixpoint first_price (candidates : list string) : res (option float) :=
  match candidates with
  | [] => Ok None
  | cand :: candidates' =>
      match select_rows (spot_query cand) with
      | [] => first_price candidates'
      | row :: _ =>
          match cells_of row with
          | [] => first_price candidates'
          | cell :: _ =>
              price ← _coerce_optional_float cell;
              match price with
              | Some p => if PrimFloat.ltb 0 p then Ok (Some p) else first_price candidates'
              | None => first_price candidates'
              end
          end
      end
  end.

Definition read_spot (u : string) : option float := or_else (first_price (_spot_symbol_candidates u)) None.
End store.

(** ** The live chain of the exchange *)

Section live.
Variable kite_url : string.
Variable kite : string -> val -> option val.

Definition _kite_get (path : string) (params : val) : option val :=
  if negb (nonempty (strip kite_url)) then None
  else
    match kite path params with
    | Some (VDict body) => if truthy (dict_get body "error") then None else Some (VDict body)
    | other => other
    end.

Definition read_listed_expiries (u : string) : list string :=
  match _kite_get "/option_chain" (VDict [(VStr "underlying", VStr u)]) with
  | Some (VDict body) =>
      match dict_get body "expiries" with
      | VList expiries => omap (fun e => match e with VStr s => if nonempty (strip s) then Some s else None | _ => None end) expiries
      | _ => []
      end
  | _ => []
  end.

Definition symbol_of (contract : val) : option string :=
  match contract with VDict c => match dict_get c "tradingsymbol" with VStr s => Some s | _ => None end | _ => None end.

(** The quotes by upper-case symbol, the last of equals. *)
Definition quotes_by_symbol (quotes : option val) : gmap string (list (val * val)) :=
  match quotes with
  | Some (VDict body) =>
      match dict_get body "quotes" with
      | VList qs =>
          fold_left (fun acc q =>
            match q with VDict d => match dict_get d "symbol" with VStr s => <[upper s := d]> acc | _ => acc end | _ => acc end) qs ∅
      | _ => ∅
      end
  | _ => ∅
  end.

Definition add_contract (by_symbol : gmap string (list (val * val))) (qs : list StrikeQuote) (contract : val) : res (list StrikeQuote) :=
  match contract with
  | VDict c =>
      k ← _coerce_optional_float (dict_get c "strike");
      match k, _normalize_option_type (dict_get c "option_type"), dict_get c "tradingsymbol" return res (list StrikeQuote) with
      | Some k, Some kind, VStr symbol =>
          let q := default [] (by_symbol !! upper symbol) in
          price ← _coerce_optional_float (dict_get q "last_price");
          oi ← _coerce_optional_float (dict_get q "oi");
          volume ← _coerce_optional_float (dict_get q "volume");
          Ok (upsert_quote k (set_leg kind price oi volume) qs)
      | _, _, _ => Ok qs
      end
  | _ => Ok qs
  end.

(** The ladder of contracts priced in one request. *)
Definition priced_snapshot (u e : string) (now_ms : Z) (contracts : list val) (exchange : string) : res (option ChainSnapshot) :=
  match omap symbol_of contracts return res (option ChainSnapshot) with
  | [] => Ok None
  | symbols =>
      let quotes := _kite_get "/quote" (VDict [(VStr "i", VList (map (fun s => VStr (exchange ++ ":" ++ s)) symbols))]) in
      qs ← foldM (add_contract (quotes_by_symbol quotes)) [] contracts;
      Ok (snapshot_of u e now_ms qs)
  end.

Definition build_live_chain_snapshot (u e : string) (now_ms : Z) : option (ChainSnapshot * float) :=
  or_else
    match _kite_get "/option_chain" (VDict [(VStr "underlying", VStr u); (VStr "expiry", VStr e)]) return res (option (ChainSnapshot * float)) with
    | Some (VDict body) =>
        spot ← _coerce_optional_float (dict_get body "spot");
        match dict_get body "contracts", dict_get body "exchange", spot return res (option (ChainSnapshot * float)) with
        | VList ((_ :: _) as contracts), VStr exchange, Some spot =>
            if PrimFloat.leb spot 0 then Ok None
            else
              snapshot ← priced_snapshot u e now_ms contracts exchange;
              Ok match snapshot with Some s => Some (s, spot) | None => None end
        | _, _, _ => Ok None
        end
    | _ => Ok None
    end None.
End live.

(** ** Time to expiry *)

Definition _EXPIRY_CLOSE_HOUR_UTC := 10.
Definition _MS_PER_YEAR : float := 31536000000.

(** A field of one or two ASCII digits from [low] to [high]. *)
Definition short_field (s : string) (low high : Z) : option Z :=
  match s with
  | String a EmptyString => match digit_val a with Some x => if ((Z.max 1 low <=? x) && (x <=? high))%Z then Some x else None | None => None end
  | String a (String b EmptyString) =>
      match digit_val a, digit_val b with
      | Some x, Some y => let z := (10 * x + y)%Z in if ((low <=? z) && (z <=? high))%Z then Some z else None
      | _, _ => None
      end
  | _ => None
  end.

Definition year_field (s : string) : option Z :=
  match s with
  | String a (String b (String c (String d EmptyString))) =>
      match digit_val a, digit_val b, digit_val c, digit_val d with
      | Some w, Some x, Some y, Some z => Some (1000 * w + 100 * x + 10 * y + z)%Z
      | _, _, _, _ => None
      end
  | _ => None
  end.

(** The day may be padded with a space. *)
Definition day_field (s : string) : option Z :=
  match s with
  | String " " (String d EmptyString) => short_field (String d EmptyString) 1 9
  | _ => short_field s 1 31
  end.

(** [datetime.strptime(s, fmt)] of the format of ISO dates *)
Definition strptime_day (s : string) : option (Z * Z * Z) :=
  match split_char "-" s with
  | [y; m; d] =>
      match year_field y, short_field m 1 12, day_field d with
      | Some y, Some m, Some d => if (1 <=? y)%Z && valid_date y m d then Some (y, m, d) else None
      | _, _, _ => None
      end
  | _ => None
  end.

(** The close of an expiry day, in microseconds. *)
Definition close_of (y m d : Z) : Z := days_from_civil y m d * us_per_day + _EXPIRY_CLOSE_HOUR_UTC * 3600 * us_per_second.

Definition _years_to_expiry (e : string) (ts : option Z) : option float :=
  or_else
    match strptime_day (str_take 10 (strip e)), ts return res (option float) with
    | Some (y, m, d), Some ts =>
        known ← py_isfinite (VInt ts);
        close ← timestamp (close_of y m d) 0;
        now ← py_float (VInt ts);
        Ok (if known : bool then if_finite ((close * 1000 - now) / _MS_PER_YEAR)%float else None)
    | _, _ => Ok None
    end None.

(** ** The result *)

Definition _signed_delta (latest_val prior_val : option float) : float :=
  match finite_field latest_val, finite_field prior_val with Some a, Some b => (a - b)%float | _, _ => nan end.

Fixpoint _sanitize_numeric_leaves (v : val) : val :=
  match v with
  | VDict d => VDict (map (fun kv => (kv.1, _sanitize_numeric_leaves kv.2)) d)
  | VList l | VTuple l => VList (map _sanitize_numeric_leaves l)
  | VFloat f => if is_finite f then VFloat f else VNone
  | _ => v
  end.

Definition _greek_leaf (g : greeks) (iv : option float) (b : buildup) : val :=
  VDict [(VStr "iv", opt_float iv); (VStr "delta", opt_float (delta g)); (VStr "gamma", opt_float (gamma g));
         (VStr "theta", opt_float (theta g)); (VStr "vega", opt_float (vega g)); (VStr "oi_buildup", VStr (buildup_name b))].

Definition buildups_payload (call put : buildup) : val :=
  VDict [(VStr "call", VStr (buildup_name call)); (VStr "put", VStr (buildup_name put))].

Definition walls_payload (w : walls) : val :=
  VDict [(VStr "support", opt_float (support w)); (VStr "resistance", opt_float (resistance w))].

Definition skew_payload (s : option skew) : val :=
  match s with
  | None => VNone
  | Some s => VDict [(VStr "put_minus_call", opt_float (put_minus_call s)); (VStr "slope", opt_float (slope s)); (VStr "atm_iv", opt_float (atm_iv s))]
  end.

Definition result_payload (u e : string) (spot : option float) (ts : option Z) (pcr_oi pcr_volume max_pain : option float)
    (call put : buildup) (s : option skew) (w : walls) (basis : option float) (per_strike : list val) : val :=
  VDict [(VStr "underlying", VStr u); (VStr "expiry", VStr e); (VStr "spot", opt_float spot);
         (VStr "snapshot_ts", match ts with Some z => VInt z | None => VNone end);
         (VStr "pcr_oi", opt_float pcr_oi); (VStr "pcr_volume", opt_float pcr_volume); (VStr "max_pain", opt_float max_pain);
         (VStr "oi_buildup", buildups_payload call put); (VStr "iv_skew", skew_payload s); (VStr "oi_walls", walls_payload w);
         (VStr "futures_basis", opt_float basis); (VStr "per_strike", VList per_strike)].

(** [d[k] = v] of a dictionary of floats *)
Fixpoint set_iv (k iv : float) (ivs : list (float * float)) : list (float * float) :=
  match ivs with
  | [] => [(k, iv)]
  | (k', iv') :: ivs' => if PrimFloat.eqb k' k then (k', iv) :: ivs' else (k', iv') :: set_iv k iv ivs'
  end.

Section assemble.
Variables (log exp erf : float -> float).

Record strike_view := { sv_entry : val; sv_iv : option (float * float) }.

(** The implied volatility of a leg that has a price. *)
Definition leg_iv (tag : string) (spot k : float) (T : option float) (r : float) (price : option float) (config : OptionsConfig) : res (option float) :=
  match price, T with
  | Some price, Some T => if _is_finite k then bs_implied_vol log exp erf (VStr tag) spot k T r price config else Ok None
  | _, _ => Ok None
  end.

Definition leg_buildup (kind : option_kind) (q : StrikeQuote) (prior : option StrikeQuote) (config : OptionsConfig) : buildup :=
  match prior with
  | None => BUILDUP_NEUTRAL
  | Some m => classify_oi_buildup (_signed_delta (oi_of kind q) (oi_of kind m)) (_signed_delta (leg_price kind q) (leg_price kind m)) config
  end.

(** The volatility that stands for a strike: that of its out-of-the-money side. *)
Definition representative_iv (spot k : float) (ce_iv pe_iv : option float) : option float :=
  if _is_finite spot then (if PrimFloat.leb k spot then pe_iv else ce_iv)
  else match ce_iv with Some _ => ce_iv | None => pe_iv end.

Definition view_of (spot : float) (T : option float) (r : float) (config : OptionsConfig) (prior : list StrikeQuote) (q : StrikeQuote) : res strike_view :=
  let k := strike q in
  ce_iv ← leg_iv "CE" spot k T r (ce_price q) config;
  pe_iv ← leg_iv "PE" spot k T r (pe_price q) config;
  ce_greeks ← bs_greeks log exp erf (VStr "CE") spot k T r ce_iv;
  pe_greeks ← bs_greeks log exp erf (VStr "PE") spot k T r pe_iv;
  let m := if _is_finite k then quote_at prior k else None in
  Ok {| sv_entry := VDict [(VStr "strike", opt_float (finite_field (Some k)));
                           (VStr "ce", _greek_leaf ce_greeks ce_iv (leg_buildup Call q m config));
                           (VStr "pe", _greek_leaf pe_greeks pe_iv (leg_buildup Put q m config))];
        sv_iv := if _is_finite k then match representative_iv spot k ce_iv pe_iv with Some iv => Some (k, iv) | None => None end else None |}.

Definition assembled (latest : ChainSnapshot) (prior : option ChainSnapshot) (spot : float) (future_price : option float) (config : OptionsConfig) : res val :=
  known ← py_isfinite (VInt (snapshot_ts latest));
  let ts := if known : bool then Some (snapshot_ts latest) else None in
  let r := if _is_finite (risk_free_rate config) then risk_free_rate config else DEFAULT_RISK_FREE_RATE in
  let T := _years_to_expiry (expiry latest) ts in
  let prior_strikes := match prior with Some p => strikes p | None => [] end in
  views ← mapM_res (view_of spot T r config prior_strikes) (strikes latest);
  let per_strike_iv := fold_left (fun ivs p => set_iv p.1 p.2 ivs) (omap sv_iv views) [] in
  Ok (_sanitize_numeric_leaves
        (result_payload (underlying latest) (expiry latest) (finite_field (Some spot)) ts (compute_pcr_oi latest) (compute_pcr_volume latest)
           (compute_max_pain latest) (aggregate_oi_buildup latest prior config (VStr "call")) (aggregate_oi_buildup latest prior config (VStr "put"))
           (compute_iv_skew per_strike_iv spot) (compute_oi_walls latest spot config) (compute_futures_basis future_price spot)
           (map sv_entry views))).

(** The shape with null analytics. *)
Definition null_result (latest : ChainSnapshot) (spot : float) : val :=
  result_payload (underlying latest) (expiry latest) (finite_field (Some spot)) None None None None BUILDUP_NEUTRAL BUILDUP_NEUTRAL None
    {| support := None; resistance := None |} None [].

Definition assemble_result (latest : ChainSnapshot) (prior : option ChainSnapshot) (spot : float) (future_price : option float) (config : OptionsConfig) : val :=
  or_else (assembled latest prior spot future_price config) (null_result latest spot).
End assemble.

(** ** The entry point *)

Definition _options_unavailable (u e reason : string) : val :=
  VDict [(VStr "underlying", VStr u); (VStr "expiry", VStr e); (VStr "unavailable", VBool true); (VStr "reason", VStr reason)].

Section analytics.
Variables (log exp erf : float -> float).
Variable exec : string -> option val.
Variable kite_url : string.
Variable kite : string -> val -> option val.
Variable now_ms : Z.

Definition read_chain_for_analytics (u e : string) : option ChainSnapshot * option ChainSnapshot * option float :=
  match read_latest_and_prior_snapshot exec u e with
  | (Some latest, prior) => (Some latest, prior, None)
  | (None, _) =>
      match build_live_chain_snapshot kite_url kite u e now_ms with
      | None => (None, None, None)
      | Some (snapshot, spot) => (Some snapshot, None, Some spot)
      end
  end.

(** The expiry asked for, else that of the latest capture, else the first listed. *)
Definition resolved_expiry (u e : string) : string :=
  if nonempty (strip e) then e
  else
    match resolve_active_expiry exec u with
    | Some e' => e'
    | None => match read_listed_expiries kite_url kite u with e' :: _ => e' | [] => e end
    end.

Definition compute_options_analytics (u e : string) (config : OptionsConfig) : val :=
  let e := resolved_expiry u e in
  let '(latest, prior, live_spot) := read_chain_for_analytics u e in
  match latest with
  | None => _options_unavailable u e ("no chain snapshot available for " ++ u ++ " / " ++ e)
  | Some latest =>
      match match read_spot exec u with Some s => Some s | None => live_spot end with
      | None => _options_unavailable u e ("spot price unavailable for " ++ u)
      | Some spot => assemble_result log exp erf latest prior spot (read_future_price exec u) config
      end
  end.
End analytics.

(** * Options analytics: properties of the chain and of the result

    Every snapshot, wherever it
    is read, is an ascending ladder of distinct finite strikes with finite or missing
    fields; the result holds finite numbers only. *)

(** ** Queries *)

Ltac read_query := repeat first [rewrite literals_plain by reflexivity | rewrite literals_literal by reflexivity | rewrite literals_number];
  try rewrite literals_last; try (rewrite literals_end by (reflexivity || by apply Z_str_lacks)); reflexivity.

(** ** Cells *)

Definition finite_or_none (o : option float) : Prop := forall x, o = Some x -> fin x = true.

Lemma int_to_float_fin z x : int_to_float z = Ok x -> fin x = true.
Proof. unfold int_to_float. destruct (is_finite (Q2F z 1)) eqn:E; [|done]. by intros [= <-]. Qed.

Lemma coerced_fin v o : _coerce_optional_float v = Ok o -> finite_or_none o.
Proof.
  assert (forall s o, match parse_float s with Ok x => Ok (if_finite x) | Raise _ => Ok None end = Ok o -> finite_or_none o) as T.
  { intros s o'. destruct (parse_float s) as [y|]; intros [= <-] x Hx; [by eapply if_finite_fin|done]. }
  destruct v; cbn; try (by intros [= <-]); [| |apply T..].
  - unfold py_isfinite, py_float. cbn. destruct (int_to_float z) as [y|] eqn:E; [|done]. cbn. intros [= <-] x [= <-]. by eapply int_to_float_fin.
  - unfold py_isfinite, py_float. cbn. destruct (is_finite f) eqn:E; intros [= <-] x Hx; [|done]. by injection Hx as <-.
Qed.

(** ** Ladders *)

Definition quote_ok (q : StrikeQuote) : Prop :=
  fin (strike q) = true /\ finite_or_none (ce_price q) /\ finite_or_none (pe_price q) /\ finite_or_none (ce_oi q) /\ finite_or_none (pe_oi q) /\
  finite_or_none (ce_volume q) /\ finite_or_none (pe_volume q).

Definition differs (a b : StrikeQuote) : Prop := frank (strike a) <> frank (strike b).

Fixpoint distinct (qs : list StrikeQuote) : Prop := match qs with [] => True | q :: qs' => Forall (differs q) qs' /\ distinct qs' end.

Definition collected (qs : list StrikeQuote) : Prop := Forall quote_ok qs /\ distinct qs.

Lemma upsert_In k f qs q : In q (upsert_quote k f qs) -> In q qs \/ q = f (empty_quote k) \/ (exists q', In q' qs /\ q = f q').
Proof.
  induction qs as [|a qs IH]; cbn; [intros [<-|[]]; by right; left|]. destruct (PrimFloat.eqb (strike a) k); cbn.
  - intros [<-|H]; [|by left; right]. right; right. exists a. split; [by left|done].
  - intros [<-|H]; [by left; left|]. destruct (IH H) as [?|[?|(q' & ? & ?)]]; [by left; right|by right; left|]. right; right. exists q'. split; [by right|done].
Qed.

Lemma upsert_collected k f qs :
  fin k = true -> (forall q, strike (f q) = strike q) -> (forall q, quote_ok q -> quote_ok (f q)) -> collected qs -> collected (upsert_quote k f qs).
Proof.
  intros Fk Hs Hf. assert (quote_ok (empty_quote k)) as Oe by (split_and!; done). induction qs as [|a qs IH]; cbn; intros [Ho Hd].
  - split; [|done]. constructor; [by apply Hf|constructor].
  - inversion Ho as [|? ? Oa Oqs]; subst. destruct Hd as [Da Dqs]. destruct (PrimFloat.eqb (strike a) k) eqn:E.
    + split; [constructor; [by apply Hf|done]|]. split; [|done]. eapply Forall_impl; [exact Da|]. intros b. unfold differs. by rewrite Hs.
    + destruct (IH (conj Oqs Dqs)) as [O D]. split; [by constructor|]. split; [|done].
      assert (frank (strike a) <> frank k) as N.
      { destruct Oa as (Fa & _). rewrite eqb_rank, (fin_not_nan _ Fa), (fin_not_nan _ Fk) in E. by apply Z.eqb_neq in E. }
      apply List.Forall_forall. intros q Hq. rewrite List.Forall_forall in Da.
      destruct (upsert_In _ _ _ _ Hq) as [?|[->|(q' & ? & ->)]]; unfold differs; rewrite ?Hs; [by apply Da|done|by apply Da].
Qed.

Lemma set_leg_strike kind p oi v q : strike (set_leg kind p oi v q) = strike q.
Proof. by destruct kind. Qed.

Lemma set_leg_ok kind p oi v q : finite_or_none p -> finite_or_none oi -> finite_or_none v -> quote_ok q -> quote_ok (set_leg kind p oi v q).
Proof. intros ? ? ? (? & ? & ? & ? & ? & ? & ?). by destruct kind; split_and!. Qed.

Lemma row_collected vols qs row qs' :
  (forall s v, vols !! s = Some v -> fin v = true) -> collected qs -> add_leg_row vols qs row = Ok qs' -> collected qs'.
Proof.
  intros Hv C. unfold add_leg_row. destruct (cells_of row) as [|k [|ty [|sym [|p [|oi rest]]]]]; try (by intros [= <-]).
  intros H. apply bind_Ok in H as (k' & Hk & H). apply coerced_fin in Hk. destruct k' as [x|]; [|by apply Ok_inj in H as <-].
  destruct (_normalize_option_type ty) as [kind|]; [|by apply Ok_inj in H as <-].
  apply bind_Ok in H as (p' & Hp & H). apply bind_Ok in H as (oi' & Ho & H). apply coerced_fin in Hp, Ho. apply Ok_inj in H as <-.
  apply upsert_collected; [by apply Hk|intros q; apply set_leg_strike| |done]. intros q. apply set_leg_ok; [done|done|].
  intros v. unfold volume_of. destruct sym; try done. apply Hv.
Qed.

Lemma contract_collected by_symbol qs c qs' : collected qs -> add_contract by_symbol qs c = Ok qs' -> collected qs'.
Proof.
  intros C. unfold add_contract. destruct c; try (by intros [= <-]).
  intros H. apply bind_Ok in H as (k' & Hk & H). apply coerced_fin in Hk. destruct k' as [x|]; [|by apply Ok_inj in H as <-].
  destruct (_normalize_option_type _) as [kind|]; [|by apply Ok_inj in H as <-].
  destruct (dict_get kvs "tradingsymbol"); try (by apply Ok_inj in H as <-).
  apply bind_Ok in H as (p & Hp & H). apply bind_Ok in H as (oi & Ho & H). apply bind_Ok in H as (v & Hv & H). apply Ok_inj in H as <-.
  apply coerced_fin in Hp, Ho, Hv. apply upsert_collected; [by apply Hk|intros q; apply set_leg_strike| |done].
  intros q. by apply set_leg_ok.
Qed.

(** Strikes ascend strictly, and every number is finite. *)
Definition well_formed (s : ChainSnapshot) : Prop :=
  strikes s <> [] /\ Forall quote_ok (strikes s) /\ StronglySorted (fun a b => PrimFloat.ltb (strike a) (strike b) = true) (strikes s).

Lemma distinct_perm a b : a ≡ₚ b -> distinct a -> distinct b.
Proof.
  induction 1 as [|x l l' P IH|x y l|? ? ? _ IH1 _ IH2]; cbn; [done| | |tauto].
  - intros [F D]. split; [by rewrite <- P|by apply IH].
  - intros (Fy & Fx & D). inversion Fy as [|? ? Hd Fy']; subst. split_and!; try done. constructor; [|done]. unfold differs in *. congruence.
Qed.

Lemma collected_sorted u e ts qs s : collected qs -> snapshot_of u e ts qs = Some s -> well_formed s /\ underlying s = u /\ expiry s = e /\ snapshot_ts s = ts.
Proof.
  intros [O D]. unfold snapshot_of. destruct qs as [|q0 qs0] eqn:E; [done|]. rewrite <- E in *. intros [= <-]. cbn [strikes underlying expiry snapshot_ts].
  split; [|done]. pose proof (sort_by_perm by_strike qs) as P. split_and!; cbn [strikes].
  - intros H. rewrite H in P. apply Permutation_nil in P. by rewrite E in P.
  - by rewrite P.
  - assert (Forall (fun q => fin (strike q) = true) qs) as F by (eapply Forall_impl; [exact O|]; by intros q [? _]).
    pose proof (sort_quotes_sorted qs F) as S. fold by_strike in S. rewrite <- P in F. apply (distinct_perm _ (sort_by by_strike qs)) in D; [|by rewrite P].
    revert F D. change (sort_by (fun a b => PrimFloat.ltb (strike a) (strike b)) qs) with (sort_by by_strike qs) in S. generalize dependent (sort_by by_strike qs).
    intros l _ S. induction S as [|a l Sl IH Sa]; intros F D; [constructor|]. inversion F as [|? ? Fa Fl]; subst. destruct D as [Da Dl].
    constructor; [by apply IH|]. rewrite List.Forall_forall in *. intros b Hb. specialize (Sa b Hb). specialize (Da b Hb). specialize (Fl b Hb).
    unfold not_above, differs in *. rewrite leb_fin, Z.leb_le in Sa by done. rewrite ltb_fin by done. apply Z.ltb_lt. lia.
Qed.

(** ** What is read *)

Section sources.
Context (exec : string -> option val) (kite_url : string) (kite : string -> val -> option val) (now_ms : Z).

Lemma volumes_fin u e vols : _read_latest_option_volume exec u e = Ok vols -> forall s v, vols !! s = Some v -> fin v = true.
Proof.
  unfold _read_latest_option_volume. apply (foldM_Ok_inv (fun m : gmap string float => forall s v, m !! s = Some v -> fin v = true)); [by intros s v; rewrite lookup_empty|].
  intros m row m' _ Hm. unfold add_symbol_volume. destruct (cells_of row) as [|sym [|c rest]]; try (by intros [= <-]).
  intros H. apply bind_Ok in H as (o & Ho & H). apply coerced_fin in Ho. apply Ok_inj in H as <-. destruct sym; try done. destruct o as [x|]; [|done].
  intros s' v. destruct (decide (s = s')) as [->|N]; [rewrite lookup_insert_eq; intros [= <-]; by apply Ho|rewrite lookup_insert_ne by done; apply Hm].
Qed.

Definition snapshot_for (u e : string) (s : ChainSnapshot) : Prop := well_formed s /\ underlying s = u /\ expiry s = e.

Lemma built_well u e ts vols s :
  (forall sym v, vols !! sym = Some v -> fin v = true) -> _build_chain_snapshot exec u e ts vols = Ok (Some s) -> snapshot_for u e s /\ snapshot_ts s = ts / 1000.
Proof.
  intros Hv H. unfold _build_chain_snapshot in H. apply bind_Ok in H as (qs & Hq & H). apply Ok_inj in H.
  assert (collected qs) as C.
  { eapply (foldM_Ok_inv collected); [|intros b x b' _ Hb Hs; exact (row_collected vols b x b' Hv Hb Hs)|exact Hq]. split; [constructor|done]. }
  destruct (collected_sorted _ _ _ _ _ C H) as (W & U & E & T). split; [by split|done].
Qed.

(** The capture times of a chain in the tick store, in milliseconds and the order of the
    query, which asks for the latest first. *)
Definition capture_times (u e : string) : list Z :=
  match mapM_res capture_of (select_rows exec (captures_query u e)) with Ok captures => map (fun ts => ts / 1000) (somes captures) | Raise _ => [] end.

(** A later and an earlier capture of the same chain, from the tick store: those of the
    first two capture times, in this order. *)
Definition read_in_order (u e : string) (latest prior : option ChainSnapshot) : Prop :=
  (forall s, latest = Some s \/ prior = Some s -> snapshot_for u e s) /\ (latest = None -> prior = None) /\
  (forall s, latest = Some s -> capture_times u e !! 0%nat = Some (snapshot_ts s)) /\
  (forall s, prior = Some s -> capture_times u e !! 1%nat = Some (snapshot_ts s)).

Lemma read_well u e latest prior : read_latest_and_prior_snapshot exec u e = (latest, prior) -> read_in_order u e latest prior.
Proof.
  assert (read_in_order u e None None) as N by (split_and!; [by intros s [?|?]|done..]).
  unfold read_latest_and_prior_snapshot. set (m := mbind _ _). destruct m as [r|ex] eqn:E; subst m; cbn [or_else]; [|by intros [= <- <-]].
  intros ->. apply bind_Ok in E as (captures & Hc & E). unfold read_in_order, capture_times. rewrite Hc.
  destruct (somes captures) as [|ts earlier]; [apply Ok_inj in E; injection E as <- <-; by split_and!; [intros s [?|?]|..]|].
  apply bind_Ok in E as (vols & Hv & E). pose proof (volumes_fin _ _ _ Hv) as Fv. apply bind_Ok in E as (l & Hl & E).
  destruct l as [l|]; [|apply Ok_inj in E; injection E as <- <-; by split_and!; [intros s [?|?]|..]]. apply built_well in Hl as [Wl Tl]; [|done].
  destruct earlier as [|ts' rest]; [apply Ok_inj in E; injection E as <- <-; split_and!; [by intros s [[= <-]|?]|done|intros s [= <-]; by rewrite Tl|done]|].
  apply bind_Ok in E as (p & Hp & E). apply Ok_inj in E; injection E as <- <-. cbn. rewrite <- Tl. split_and!; [|done|by intros s [= <-]|].
  - intros s [[= <-]| ->]; [done|]. by apply built_well in Hp as [Wp _].
  - intros s ->. by apply built_well in Hp as [_ ->].
Qed.

Lemma priced_well u e ts contracts exchange s :
  priced_snapshot kite_url kite u e ts contracts exchange = Ok (Some s) -> snapshot_for u e s /\ snapshot_ts s = ts.
Proof.
  unfold priced_snapshot. destruct (omap symbol_of contracts) as [|y l]; [done|]. intros H. apply bind_Ok in H as (qs & Hq & H). apply Ok_inj in H.
  assert (collected qs) as C.
  { eapply (foldM_Ok_inv collected); [|intros b x b' _ Hb Hst; by eapply contract_collected|exact Hq]. split; [constructor|done]. }
  by destruct (collected_sorted _ _ _ _ _ C H) as (W & U & E & T).
Qed.

Lemma live_well u e s spot :
  build_live_chain_snapshot kite_url kite u e now_ms = Some (s, spot) ->
  snapshot_for u e s /\ is_finite spot = true /\ PrimFloat.ltb 0 spot = true /\ snapshot_ts s = now_ms.
Proof.
  unfold build_live_chain_snapshot. match goal with |- context [or_else ?m None] => destruct m as [r|ex] eqn:E end; cbn [or_else]; [|done].
  intros ->. destruct (_kite_get _ _ _ _) as [[]|]; try done. apply bind_Ok in E as (o & Ho & E). apply coerced_fin in Ho.
  destruct (dict_get kvs "contracts") as [| | | | | |[|c cs]| | | |]; try done. destruct (dict_get kvs "exchange"); try done.
  destruct o as [x|]; [|done]. pose proof (Ho x eq_refl) as Fx. destruct (PrimFloat.leb x 0) eqn:P; [done|].
  apply bind_Ok in E as (sn & Hs & E). apply Ok_inj in E. destruct sn as [sn|]; [|done]. injection E as <- <-.
  apply priced_well in Hs as [Ws Ts]. split_and!; [done|done|by apply leb_false_ltb|done].
Qed.

(** The chain that is analysed, and a spot that came with it. *)
Lemma chain_read u e latest prior live_spot :
  read_chain_for_analytics exec kite_url kite now_ms u e = (Some latest, prior, live_spot) ->
  snapshot_for u e latest /\ forall spot, live_spot = Some spot -> is_finite spot = true.
Proof.
  unfold read_chain_for_analytics. destruct (read_latest_and_prior_snapshot exec u e) as [l p] eqn:R. apply read_well in R as [W _].
  destruct l as [l|]; [intros [= <- <- <-]; split; [by apply W; left|done]|].
  destruct (build_live_chain_snapshot _ _ _ _ _) as [[s spot]|] eqn:L; intros [= <- <- <-]. apply live_well in L as (? & ? & _).
  split; [done|]. by intros y [= <-].
Qed.

(** C30: Whatever the tick store and the exchange answer, the chain that is analysed is that
    of the underlying and expiry asked for: its strikes are finite, strictly ascending and
    at least one, and every price, open interest and volume is a finite number or missing.
    A chain that comes without a spot is the first capture of the tick store, and it is
    compared with the second: where the store lists the captures latest first, as it is
    asked to, the second is not later.  A spot comes with the chain only from the exchange:
    it is then a finite positive number, the chain is of the present, and there is no
    earlier capture. *)
Theorem chain_well_formed u e latest prior live_spot :
  read_chain_for_analytics exec kite_url kite now_ms u e = (latest, prior, live_spot) ->
  (forall s, latest = Some s \/ prior = Some s -> snapshot_for u e s) /\ (latest = None -> prior = None /\ live_spot = None) /\
  (live_spot = None -> forall s, latest = Some s -> capture_times u e !! 0%nat = Some (snapshot_ts s)) /\
  (forall s, prior = Some s -> capture_times u e !! 1%nat = Some (snapshot_ts s)) /\
  (StronglySorted Z.ge (capture_times u e) -> forall s p, latest = Some s -> prior = Some p -> snapshot_ts p <= snapshot_ts s) /\
  (forall spot, live_spot = Some spot ->
    is_finite spot = true /\ PrimFloat.ltb 0 spot = true /\ prior = None /\ forall s, latest = Some s -> snapshot_ts s = now_ms).
Proof.
  unfold read_chain_for_analytics. destruct (read_latest_and_prior_snapshot exec u e) as [l p] eqn:R. apply read_well in R as (W & N & Tl & Tp).
  destruct l as [l|].
  - intros [= <- <- <-]. split_and!; [done|done|intros _ s [= <-]; by apply Tl|done| |done]. intros Hs s q [= <-] ->.
    specialize (Tl l eq_refl). specialize (Tp q eq_refl). destruct (capture_times u e) as [|t [|t' ts]]; [done|done|].
    injection Tl as <-. injection Tp as <-. inversion Hs as [|? ? _ Ha]; subst. inversion Ha; subst. lia.
  - clear W N Tl Tp p. destruct (build_live_chain_snapshot _ _ _ _ _) as [[s spot]|] eqn:L; intros [= <- <- <-]; [|split_and!; [by intros s [?|?]|done..]].
    apply live_well in L as (W & F & P & T). split_and!; [by intros s' [[= <-]|?]|done|done|done|done|]. intros y [= <-]. split_and!; [done..|by intros s' [= <-]].
Qed.
End sources.

Definition sample_leg (k : float) (price : option float) : StrikeQuote := set_leg Call price None None (empty_quote k).

(** An exchange that lists two contracts out of order and prices one of them. *)
Definition sample_exchange (path : string) (params : val) : option val :=
  let contract k symbol := VDict [(VStr "strike", VInt k); (VStr "option_type", VStr "CE"); (VStr "tradingsymbol", VStr symbol)] in
  if String.eqb path "/option_chain" then
    Some (VDict [(VStr "contracts", VList [contract 200 "B"; contract 100 "a"]); (VStr "exchange", VStr "NFO"); (VStr "spot", VInt 150)])
  else Some (VDict [(VStr "quotes", VList [VDict [(VStr "symbol", VStr "A"); (VStr "last_price", VInt 7)]])]).

(** A tick store with two captures of a chain; the later one lists two strikes out of
    order. *)
Definition sample_store (query : string) : option val :=
  let row k price := VList [VInt k; VStr "CE"; VStr "S"; VInt price; VNone] in
  let answer rows := Some (VDict [(VStr "dataset", VList rows)]) in
  if String.eqb query (captures_query "X" "E") then answer [VList [VInt 9000]; VList [VInt 4000]]
  else if String.eqb query (snapshot_query "X" "E" 9000) then answer [row 200 8; row 100 7]
  else if String.eqb query (snapshot_query "X" "E" 4000) then answer [row 100 5]
  else None.

Definition sample_chain : ChainSnapshot :=
  {| underlying := "X"; expiry := "E"; snapshot_ts := 9; strikes := [sample_leg 100 (Some 7%float); sample_leg 200 (Some 8%float)] |}.

Definition sample_prior : ChainSnapshot := {| underlying := "X"; expiry := "E"; snapshot_ts := 4; strikes := [sample_leg 100 (Some 5%float)] |}.

Lemma chain_well_formed_witness :
  read_chain_for_analytics sample_store "url" (fun _ _ => None) 12 "X" "E" = (Some sample_chain, Some sample_prior, None) /\
  snapshot_for "X" "E" sample_chain /\ snapshot_for "X" "E" sample_prior /\ capture_times sample_store "X" "E" = [9; 4].
Proof.
  assert (read_chain_for_analytics sample_store "url" (fun _ _ => None) 12 "X" "E" = (Some sample_chain, Some sample_prior, None)) as H
    by (vm_compute; reflexivity).
  split; [exact H|]. destruct (chain_well_formed sample_store "url" (fun _ _ => None) 12 "X" "E" _ _ _ H) as [W _].
  split; [apply W; by left|]. split; [apply W; by right|]. vm_compute. reflexivity.
Defined.

(** ** The result *)

(** Every number at any depth of lists and dictionaries is finite. *)
Fixpoint finite_leaves (v : val) : bool :=
  match v with
  | VFloat f => is_finite f
  | VList l | VTuple l => forallb finite_leaves l
  | VDict d => forallb (fun kv => finite_leaves kv.2) d
  | _ => true
  end.

Lemma all_sanitized {A} (f : A -> val) (g : A -> A) l :
  Forall (fun x => finite_leaves (f (g x)) = true) l -> forallb (fun x => finite_leaves (f x)) (map g l) = true.
Proof. induction 1 as [|x l H _ IH]; [done|]. cbn. by rewrite H. Qed.

Lemma sanitized_finite v : finite_leaves (_sanitize_numeric_leaves v) = true.
Proof.
  induction v as [| | |f| | |l IH|l IH| |d IH|] using val_ind; try done; cbn.
  - by destruct (is_finite f) eqn:E.
  - by apply (all_sanitized (fun v => v)).
  - by apply (all_sanitized (fun v => v)).
  - apply (all_sanitized (fun kv : val * val => kv.2) (fun kv => (kv.1, _sanitize_numeric_leaves kv.2))).
    eapply Forall_impl; [exact IH|]. by intros kv [_ H].
Qed.

Lemma null_result_finite latest spot : is_finite spot = true -> finite_leaves (null_result latest spot) = true.
Proof. intros F. unfold null_result, finite_field, _is_finite. rewrite F. cbn. by rewrite F. Qed.

Definition strike_of (entry : val) : val := vget entry "strike".

Section result.
Variables (log exp erf : float -> float).

Lemma view_strike spot T r config prior q v :
  fin (strike q) = true -> view_of log exp erf spot T r config prior q = Ok v -> strike_of (_sanitize_numeric_leaves (sv_entry v)) = VFloat (strike q).
Proof.
  intros F. unfold view_of. intros H. do 4 (apply bind_Ok in H as (? & _ & H)). apply Ok_inj in H as <-.
  unfold finite_field, if_finite, _is_finite. unfold fin in F. rewrite F. cbn. by rewrite F.
Qed.

Lemma views_strikes spot T r config prior qs vs :
  Forall quote_ok qs -> mapM_res (view_of log exp erf spot T r config prior) qs = Ok vs ->
  map strike_of (map _sanitize_numeric_leaves (map sv_entry vs)) = map (fun q => VFloat (strike q)) qs.
Proof.
  intros O. revert vs. induction O as [|q qs [F _] _ IH]; cbn; [by intros vs [= <-]|]. intros vs H.
  apply bind_Ok in H as (v & Hv & H). apply bind_Ok in H as (vs' & Hvs & H). apply Ok_inj in H as <-. cbn. f_equal; [by eapply view_strike|by apply IH].
Qed.

(** What the computation goes through before it has a result: the capture time, and the
    view of each strike, which asks for its volatilities and greeks. *)
Definition strike_views (latest : ChainSnapshot) (prior : option ChainSnapshot) (spot : float) (config : OptionsConfig) : res (option Z * list strike_view) :=
  known ← py_isfinite (VInt (snapshot_ts latest));
  let ts := if known : bool then Some (snapshot_ts latest) else None in
  let r := if _is_finite (risk_free_rate config) then risk_free_rate config else DEFAULT_RISK_FREE_RATE in
  views ← mapM_res (view_of log exp erf spot (_years_to_expiry (expiry latest) ts) r config match prior with Some p => strikes p | None => [] end) (strikes latest);
  Ok (ts, views).

(** A number of the result: itself when finite, null otherwise. *)
Definition number (o : option float) : val := opt_float (finite_field o).

(** The analytics of a chain, against the capture before it, at a spot and a future's price. *)
Definition analytics_for (latest : ChainSnapshot) (prior : option ChainSnapshot) (spot : float) (future : option float) (config : OptionsConfig)
    (ts : option Z) (views : list strike_view) (a : val) : Prop :=
  vget a "snapshot_ts" = match ts with Some z => VInt z | None => VNone end /\
  vget a "pcr_oi" = number (compute_pcr_oi latest) /\ vget a "pcr_volume" = number (compute_pcr_volume latest) /\
  vget a "max_pain" = number (compute_max_pain latest) /\ vget a "futures_basis" = number (compute_futures_basis future spot) /\
  vget a "oi_buildup" = buildups_payload (aggregate_oi_buildup latest prior config (VStr "call")) (aggregate_oi_buildup latest prior config (VStr "put")) /\
  vget a "oi_walls" = _sanitize_numeric_leaves (walls_payload (compute_oi_walls latest spot config)) /\
  vget a "iv_skew" = _sanitize_numeric_leaves (skew_payload (compute_iv_skew (fold_left (fun ivs p => set_iv p.1 p.2 ivs) (omap sv_iv views) []) spot)) /\
  vget a "per_strike" = VList (map _sanitize_numeric_leaves (map sv_entry views)) /\
  map strike_of (map _sanitize_numeric_leaves (map sv_entry views)) = map (fun q => VFloat (strike q)) (strikes latest).

(** The answer for a chain and a spot: the identity of both and finite numbers only; null
    in every analytic when a view raised, and the analytics when none did. *)
Definition answers_for (latest : ChainSnapshot) (prior : option ChainSnapshot) (spot : float) (future : option float) (config : OptionsConfig) (a : val) : Prop :=
  finite_leaves a = true /\ vget a "underlying" = VStr (underlying latest) /\ vget a "expiry" = VStr (expiry latest) /\
  vget a "spot" = VFloat spot /\ _has_honest_marker a = false /\
  match strike_views latest prior spot config with
  | Raise _ => a = null_result latest spot
  | Ok (ts, views) => analytics_for latest prior spot future config ts views a
  end.

Lemma sanitized_number o : _sanitize_numeric_leaves (opt_float o) = number o.
Proof. destruct o as [x|]; [|done]. unfold number, finite_field, if_finite, _is_finite. cbn. by destruct (is_finite x). Qed.

(** The result is a function of the views. *)
Lemma assembled_of_views latest prior spot future config :
  assembled log exp erf latest prior spot future config =
  ('(ts, views) ← strike_views latest prior spot config;
   Ok (_sanitize_numeric_leaves
        (result_payload (underlying latest) (expiry latest) (finite_field (Some spot)) ts (compute_pcr_oi latest) (compute_pcr_volume latest)
           (compute_max_pain latest) (aggregate_oi_buildup latest prior config (VStr "call")) (aggregate_oi_buildup latest prior config (VStr "put"))
           (compute_iv_skew (fold_left (fun ivs p => set_iv p.1 p.2 ivs) (omap sv_iv views) []) spot) (compute_oi_walls latest spot config)
           (compute_futures_basis future spot) (map sv_entry views)))).
Proof.
  unfold assembled, strike_views. cbv [mbind res_bind]. destruct (py_isfinite _) as [known|ex]; [|done].
  match goal with |- context [mapM_res ?f ?l] => by destruct (mapM_res f l) end.
Qed.

Lemma assembled_answers latest prior spot future config :
  Forall quote_ok (strikes latest) -> is_finite spot = true ->
  answers_for latest prior spot future config (assemble_result log exp erf latest prior spot future config).
Proof.
  intros O F. unfold answers_for, assemble_result. rewrite assembled_of_views.
  assert (finite_field (Some spot) = Some spot) as Fs by (unfold finite_field, if_finite, _is_finite; by rewrite F).
  destruct (strike_views latest prior spot config) as [[ts views]|ex] eqn:E; cbn [mbind or_else].
  - assert (map strike_of (map _sanitize_numeric_leaves (map sv_entry views)) = map (fun q => VFloat (strike q)) (strikes latest)) as Hk.
    { unfold strike_views in E. apply bind_Ok in E as (known & _ & E). apply bind_Ok in E as (vs & Hv & E). apply Ok_inj in E. injection E as _ <-. by eapply views_strikes. }
    split; [apply sanitized_finite|]. rewrite Fs. unfold analytics_for. rewrite <- !sanitized_number. cbn. rewrite F. split_and!; try done. by destruct ts.
  - split; [by apply null_result_finite|]. unfold null_result. rewrite Fs. by split_and!.
Qed.

Section answer.
Context (exec : string -> option val) (kite_url : string) (kite : string -> val -> option val) (now_ms : Z).

Lemma prices_fin candidates x : first_price exec candidates = Ok (Some x) -> is_finite x = true.
Proof.
  induction candidates as [|c cs IH]; cbn; [done|]. destruct (select_rows exec _) as [|row rows]; [done|].
  destruct (cells_of row) as [|cell cells]; [done|]. intros H. apply bind_Ok in H as (o & Ho & H). apply coerced_fin in Ho.
  destruct o as [p|]; [|by apply IH]. destruct (PrimFloat.ltb 0 p); [|by apply IH]. apply Ok_inj in H. injection H as <-. by apply Ho.
Qed.

Lemma spot_fin u x : read_spot exec u = Some x -> is_finite x = true.
Proof. unfold read_spot. destruct (first_price _ _) as [o|] eqn:E; cbn [or_else]; [|done]. intros ->. by eapply prices_fin. Qed.

(** The spot of an analysis: the tick store's, else the one that came with the chain. *)
Definition spot_used (u : string) (live_spot : option float) : option float := match read_spot exec u with Some s => Some s | None => live_spot end.

(** C29: Whatever the servers answer and whatever the C library's functions return, the
    options analytics answer, for the underlying asked for and the resolved expiry, with
    finite numbers only at every depth.  They carry an honest marker exactly when there is
    no chain or no spot.  Otherwise each analytic is that of the chain at the spot: the
    put-call ratios, the max pain, the basis of the future, the build-up of each side
    against the earlier capture, the walls and the skew as their functions compute them,
    null where such a number is not finite, and one entry per strike of the chain in its
    order.  All of them are null instead when, and only when, the volatility or greeks of a
    strike, or the check of the capture time, raised. *)
Theorem options_analytics_answer u e config :
  let a := compute_options_analytics log exp erf exec kite_url kite now_ms u e config in
  let e' := resolved_expiry exec kite_url kite u e in
  vget a "underlying" = VStr u /\ vget a "expiry" = VStr e' /\ finite_leaves a = true /\
  match read_chain_for_analytics exec kite_url kite now_ms u e' with
  | (Some latest, prior, live_spot) =>
      match spot_used u live_spot with
      | Some spot => answers_for latest prior spot (read_future_price exec u) config a
      | None => _has_honest_marker a = true
      end
  | (None, _, _) => _has_honest_marker a = true
  end.
Proof.
  cbv zeta. unfold compute_options_analytics. set (e' := resolved_expiry _ _ _ u e).
  destruct (read_chain_for_analytics exec kite_url kite now_ms u e') as [[[latest|] prior] live] eqn:C; [|by split_and!].
  change (match read_spot exec u with Some s => Some s | None => live end) with (spot_used u live).
  destruct (chain_read exec kite_url kite now_ms _ _ _ _ _ C) as ((W & <- & <-) & L).
  destruct (spot_used _ live) as [spot|] eqn:S; [|by split_and!].
  assert (is_finite spot = true) as F.
  { unfold spot_used in S. destruct (read_spot exec _) as [x|] eqn:R; [injection S as <-; by eapply spot_fin|by eapply L]. }
  destruct W as (_ & O & _). destruct (assembled_answers latest prior spot (read_future_price exec (underlying latest)) config O F) as (Fa & U & E & Rest).
  by split_and!.
Qed.
End answer.
End result.
