(* ===== verification/OptionsTool.v ===== *)
(** * The options tool and the options snapshot route

    Models [get_options_analytics] of [agents/deep-quant-loop/tools.py] and the snapshot
    route of [main.py] ([_build_options_snapshot] and what it calls), which compose the
    analytics of [OptionsChain] with the bias of [OptionsBias].

    The servers, the clock and the C library functions are the parameters of
    [OptionsChain].  [now_ist] is the wall clock of the exchange in microseconds. *)

From stdpp Require Import base list strings.
From Stdlib Require Import ZArith Lia Floats Ascii.
From S2P Require Import Prelude PyFloat PyNum PyVal PyEnv PyJson PyStr PyTime SqlText PyStats Contracts JournalTags MarketTools Options OptionsChain.
From S2P Require RelativeStrength OptionsBias.

Open Scope Z_scope.
Open Scope string_scope.
Open Scope res_scope.

Definition INDEX_UNDERLYINGS : list string := ["NIFTY 50"; "NIFTY"; "BANKNIFTY"].

Definition _OPTIONS_CHAIN_NAME : list (string * string) :=
  [("NIFTY 50", "NIFTY"); ("NIFTY50", "NIFTY"); ("NIFTY", "NIFTY"); ("NIFTY BANK", "BANKNIFTY"); ("BANKNIFTY", "BANKNIFTY");
   ("NIFTY FIN SERVICE", "FINNIFTY"); ("FINNIFTY", "FINNIFTY"); ("NIFTY MIDCAP SELECT", "MIDCPNIFTY"); ("MIDCPNIFTY", "MIDCPNIFTY")].

Definition resolve_options_chain_name (u : string) : string :=
  if nonempty (strip u) then default (strip u) (assoc_str (upper (strip u)) _OPTIONS_CHAIN_NAME) else u.

(** The marker of the tool; the reason is the engine's. *)
Definition tool_unavailable (symbol u chain_context : string) (reason : val) : val :=
  VDict [(VStr "symbol", VStr symbol); (VStr "underlying", VStr u); (VStr "chain_context", VStr chain_context);
         (VStr "unavailable", VBool true); (VStr "reason", reason)].

(** [d.get(k, otherwise)] *)
Definition vget_or (d : val) (k : string) (otherwise : val) : val :=
  match d with VDict l => default otherwise (dict_find k l) | _ => otherwise end.

Definition unavailable (analytics : val) : bool := truthy (vget analytics "unavailable").

Definition merged (analytics : val) (u chain_context : string) (label : OptionsBias.bias_label) : val :=
  VDict [(VStr "underlying", vget_or analytics "underlying" (VStr u)); (VStr "expiry", vget analytics "expiry"); (VStr "spot", vget analytics "spot");
         (VStr "pcr_oi", vget analytics "pcr_oi"); (VStr "pcr_volume", vget analytics "pcr_volume"); (VStr "max_pain", vget analytics "max_pain");
         (VStr "oi_buildup", vget analytics "oi_buildup"); (VStr "oi_walls", vget analytics "oi_walls"); (VStr "iv_skew", vget analytics "iv_skew");
         (VStr "futures_basis", vget analytics "futures_basis");
         (VStr "options_bias_state", VStr (OptionsBias.bias_name (OptionsBias.bl_state label)));
         (VStr "alignment", VStr (OptionsBias.alignment_name (OptionsBias.bl_alignment label))); (VStr "signals", OptionsBias.bl_signals label);
         (VStr "chain_context", VStr chain_context)].

Section options.
Variable env_of : env.
Variables (log exp erf : float -> float).
Variable exec : string -> option val.
Variable kite_url : string.
Variable kite : string -> val -> option val.
Variable now_ms : Z.
Variable message : exn -> string.

Definition analytics_of (u e : string) : val :=
  compute_options_analytics log exp erf exec kite_url kite now_ms u e (resolve_options_config env_of).

(** ** The tool *)

(** The chain of the symbol's benchmark, for a symbol other than its benchmark. *)
Definition fallback_analytics (symbol e : string) : option (string * val) :=
  let bench := RelativeStrength.resolve_benchmark env_of symbol None in
  if nonempty (strip bench) && negb (String.eqb (upper (strip bench)) (upper (strip symbol))) then
    let fb := analytics_of (resolve_options_chain_name bench) e in
    if unavailable fb then None else Some (bench, fb)
  else None.

(** The underlying analysed, its context, and its analytics. *)
Definition chosen_chain (symbol e : string) (own_chain : bool) : string * string * val :=
  let index := str_in (upper (strip symbol)) INDEX_UNDERLYINGS in
  let '(u, chain_context) :=
    if index || own_chain then (strip symbol, "own-chain") else (RelativeStrength.resolve_benchmark env_of symbol None, "broad-market") in
  let analytics := analytics_of (resolve_options_chain_name u) e in
  if own_chain && negb index && unavailable analytics then
    match fallback_analytics symbol e with
    | Some (bench, fb) => (bench, "broad-market", fb)
    | None => (u, chain_context, analytics)
    end
  else (u, chain_context, analytics).

Definition get_options_analytics (symbol e proposed_direction : string) (own_chain : bool) : val :=
  if negb (nonempty (strip symbol)) then error_result "get_options_analytics requires a non-empty symbol"
  else
    let '(u, chain_context, analytics) := chosen_chain symbol (strip e) own_chain in
    match vget analytics "unavailable" with
    | VBool true =>
        let reason := vget analytics "reason" in
        tool_unavailable symbol u chain_context (if truthy reason then reason else VStr ("options analytics unavailable for " ++ u))
    | _ =>
        let direction := strip proposed_direction in
        match OptionsBias.classify_options_bias analytics (OptionsBias.resolve_options_bias_config env_of)
                (if nonempty direction then VStr direction else VNone) with
        | Raise ex => tool_unavailable symbol u chain_context (VStr ("options processing error: " ++ message ex))
        | Ok label => validate_contract "get_options_analytics" (merged analytics u chain_context label)
        end
    end.

(** ** The snapshot route *)

Variable now_ist : Z.

Definition _SESSION_OPEN_MIN := 555.
Definition _SESSION_CLOSE_MIN := 930.

Definition _market_status (clock : Z) : string :=
  if (5 <=? weekday (day_of clock))%Z then "closed"
  else
    let minute_of_day := us_of_day clock / (60 * us_per_second) in
    if ((_SESSION_OPEN_MIN <=? minute_of_day) && (minute_of_day <=? _SESSION_CLOSE_MIN))%Z then "open" else "closed".

Definition expiries_query (u : string) : string :=
  "SELECT DISTINCT expiry FROM option_chain_snapshots WHERE underlying=" ++ literal u ++ " ORDER BY expiry ASC".

Definition today : string := let '(y, m, d) := civil_from_days (day_of now_ist) in iso_date y m d.

Definition not_before (day e : string) : bool := negb (str_ltb e day).

(** The text of a row's first cell when it is not blank. *)
Definition expiry_of (row : val) : option string :=
  match cells_of row with VStr e :: _ => if nonempty (strip e) then Some e else None | _ => None end.

Definition _resolve_nearest_expiry (u : string) : string :=
  match omap expiry_of (select_rows exec (expiries_query u)) with
  | [] =>
      let listed := read_listed_expiries kite_url kite u in
      match List.filter (not_before today) listed, listed with
      | e :: _, _ => e
      | [], e :: _ => e
      | [], [] => ""
      end
  | expiries => match List.filter (not_before today) expiries with e :: _ => e | [] => List.last expiries "" end
  end.

Definition latest_query (u : string) : string :=
  "SELECT max(cast(snapshot_ts AS LONG)) FROM option_chain_snapshots WHERE underlying=" ++ literal u.

(** [int(raw)]: of a text too. *)
Definition int_of (raw : val) : res Z := match raw with VStr s => parse_int s | _ => py_int raw end.

Definition latest_handled (ex : exn) : bool := match ex with ValueError | TypeError | IndexError => true | _ => false end.

Definition _latest_snapshot_ts (u : string) : res (option Z) :=
  match select_rows exec (latest_query u) with
  | [] => Ok None
  | row :: _ =>
      catch
        (raw ← match row with
               | VList l | VTuple l => match l with x :: _ => Ok x | [] => Raise IndexError end
               | VStr (String c _) => Ok (VStr (String c ""))
               | VStr EmptyString => Raise IndexError
               | VDict _ => Raise KeyError
               | _ => Raise TypeError
               end;
         if is_none raw then Ok None else z ← int_of raw; Ok (Some (z / 1000))) latest_handled None
  end.

(** The volatilities of a strike in the analytics. *)
Definition iv_entries (analytics : val) (k : float) : val * val :=
  let entries := match vget analytics "per_strike" with VList l => l | _ => [] end in
  let of_strike entry := match vget entry "strike" with VFloat f => PrimFloat.eqb f k | _ => false end in
  match last (List.filter (fun entry => is_dict entry && of_strike entry) entries) with
  | Some entry => (vget (vget entry "ce") "iv", vget (vget entry "pe") "iv")
  | None => (VNone, VNone)
  end.

Definition _representative_iv (k : float) (ce_iv pe_iv spot : val) : val :=
  match spot with
  | VFloat s => if PrimFloat.leb k s then pe_iv else ce_iv
  | _ => if is_none ce_iv then pe_iv else ce_iv
  end.

Definition chain_row (analytics : val) (q : StrikeQuote) : val :=
  let '(ce_iv, pe_iv) := iv_entries analytics (strike q) in
  VDict [(VStr "strike", VFloat (strike q)); (VStr "ce_oi", opt_float (ce_oi q)); (VStr "pe_oi", opt_float (pe_oi q));
         (VStr "ce_price", opt_float (ce_price q)); (VStr "pe_price", opt_float (pe_price q));
         (VStr "iv", _representative_iv (strike q) ce_iv pe_iv (vget analytics "spot"))].

Definition _build_chain_rows (latest : ChainSnapshot) (analytics : val) : val := VList (map (chain_row analytics) (strikes latest)).

Definition last_ts_field (ts : option Z) : list (val * val) := match ts with Some z => [(VStr "last_snapshot_ts", VInt z)] | None => [] end.

Definition route_marker (u e reason reason_code : string) (ts : option Z) : val :=
  VDict ([(VStr "underlying", VStr u); (VStr "expiry", VStr e); (VStr "unavailable", VBool true); (VStr "reason", VStr reason);
          (VStr "reason_code", VStr reason_code)] ++ last_ts_field ts)%list.

(** The analytics are computed after the chain was read, from reads of their own: the
    servers and the clock may answer otherwise by then. *)
Variable later_exec : string -> option val.
Variable later_kite : string -> val -> option val.
Variables (later_ms later_ist : Z).

Definition _build_options_snapshot (u e : string) : res val :=
  let requested := strip e in
  let resolved := if nonempty requested then requested else _resolve_nearest_expiry u in
  if negb (nonempty resolved) then
    ts ← _latest_snapshot_ts u;
    Ok (route_marker u "" ("no chain snapshot available for " ++ u) "no_expiry" ts)
  else
    match read_chain_for_analytics exec kite_url kite now_ms u resolved with
    | (None, _, _) =>
        ts ← _latest_snapshot_ts u;
        Ok (route_marker u resolved ("no chain snapshot available for " ++ u ++ " / " ++ resolved) "no_snapshot" ts)
    | (Some latest, _, _) =>
        let analytics := compute_options_analytics log exp erf later_exec kite_url later_kite later_ms u resolved (resolve_options_config env_of) in
        if unavailable analytics then
          Ok (VDict (match analytics with VDict d => d | _ => [] end
                     ++ [(VStr "last_snapshot_ts", VInt (snapshot_ts latest)); (VStr "reason_code", VStr "analytics_degraded")])%list)
        else
          bias ← OptionsBias.classify_options_bias analytics (OptionsBias.resolve_options_bias_config env_of) VNone;
          Ok (VDict [(VStr "underlying", VStr u); (VStr "expiry", VStr resolved);
                     (VStr "snapshot_ts", vget_or analytics "snapshot_ts" (VInt (snapshot_ts latest)));
                     (VStr "market_status", VStr (_market_status later_ist)); (VStr "chain", _build_chain_rows latest analytics);
                     (VStr "analytics", analytics); (VStr "bias", OptionsBias.bias_payload bias)])
    end.
End options.

(** * The options tool and the options snapshot route: properties

    Every answer of the tool passes its contract unchanged, and one without an honest
    marker is the bias of the analytics of the chain that was chosen; the rows of the
    snapshot route are the strikes of the chain it analysed. *)

(** ** The shape of the analytics *)

Definition cleaned (o : option float) : option float := match o with Some x => if_finite x | None => None end.

Definition cleaned_skew (s : skew) : skew :=
  {| put_minus_call := cleaned (put_minus_call s); slope := cleaned (slope s); atm_iv := cleaned (atm_iv s) |}.

Lemma cleaned_leaf o : _sanitize_numeric_leaves (opt_float o) = opt_float (cleaned o).
Proof. destruct o as [x|]; [|done]. cbn. unfold if_finite. by destruct (is_finite x). Qed.

Lemma cleaned_payload u e spot ts po pv mp c p s w b per :
  _sanitize_numeric_leaves (result_payload u e spot ts po pv mp c p s w b per) =
    result_payload u e (cleaned spot) ts (cleaned po) (cleaned pv) (cleaned mp) c p (option_map cleaned_skew s)
      {| support := cleaned (support w); resistance := cleaned (resistance w) |} (cleaned b) (map _sanitize_numeric_leaves per).
Proof.
  unfold result_payload. cbn [_sanitize_numeric_leaves map fst snd]. rewrite !cleaned_leaf.
  f_equal. unfold walls_payload. destruct s as [s|]; cbn [option_map skew_payload cleaned_skew _sanitize_numeric_leaves map fst snd put_minus_call slope atm_iv support resistance];
    rewrite !cleaned_leaf; by destruct ts.
Qed.

(** A result that is not a marker: every analytic is a number or null. *)
Definition analysed (a : val) : Prop :=
  exists u e spot ts po pv mp c p s w b per, a = result_payload u e spot ts po pv mp c p s w b per.

Lemma analysed_unmarked a : analysed a -> vget a "unavailable" = VNone.
Proof. by intros (? & ? & ? & ? & ? & ? & ? & ? & ? & ? & ? & ? & ? & ->). Qed.

Section options.
Context (env_of : env) (log exp erf : float -> float) (exec : string -> option val) (kite_url : string) (kite : string -> val -> option val).
Context (now_ms : Z) (message : exn -> string).

Lemma result_analysed latest prior spot future config : analysed (assemble_result log exp erf latest prior spot future config).
Proof.
  unfold assemble_result. destruct (assembled _ _ _ _ _ _ _ _) as [a|ex] eqn:E; cbn [or_else]; [|unfold null_result; by repeat eexists].
  unfold assembled in E. apply bind_Ok in E as (known & _ & E). cbv zeta in E. apply bind_Ok in E as (vs & _ & E). apply Ok_inj in E as <-.
  rewrite cleaned_payload. by repeat eexists.
Qed.

Lemma analytics_cases u e :
  (exists e' reason, analytics_of env_of log exp erf exec kite_url kite now_ms u e = _options_unavailable u e' reason) \/
  analysed (analytics_of env_of log exp erf exec kite_url kite now_ms u e).
Proof.
  unfold analytics_of, compute_options_analytics. destruct (read_chain_for_analytics _ _ _ _ _ _) as [[[latest|] prior] live]; [|left; by repeat eexists].
  match goal with |- context [match ?o with Some _ => assemble_result _ _ _ _ _ _ _ _ | None => _ end] => destruct o as [spot|] end;
    [right; apply result_analysed|left; by repeat eexists].
Qed.

Lemma number_or_null_leaf o : _is_number_or_null (opt_float o) = true.
Proof. by destruct o. Qed.

Lemma merged_conforms a u context label :
  analysed a -> In context OPTIONS_CHAIN_CONTEXTS ->
  validate_contract "get_options_analytics" (merged a u context label) = merged a u context label /\
  vget (merged a u context label) "contract_violation" = VNone.
Proof.
  intros (un & e & spot & ts & po & pv & mp & c & p & s & w & b & per & ->) C. split; [|done].
  unfold validate_contract. destruct (_has_honest_marker _); [done|].
  assert (contract_of "get_options_analytics" (merged (result_payload un e spot ts po pv mp c p s w b per) u context label) = Conforms) as ->; [|done].
  destruct label as [st al sg].
  assert (forall st al, contract_of "get_options_analytics" (merged (result_payload un e spot ts po pv mp c p s w b per) u context
    {| OptionsBias.bl_state := st; OptionsBias.bl_alignment := al; OptionsBias.bl_signals := sg |}) =
     contract_of "get_options_analytics" (merged (result_payload un e spot ts po pv mp c p s w b per) u "own-chain"
    {| OptionsBias.bl_state := OptionsBias.NEUTRAL; OptionsBias.bl_alignment := OptionsBias.UNALIGNED; OptionsBias.bl_signals := sg |})) as ->.
  { intros [] []; destruct C as [<-|[<-|[]]]; reflexivity. }
  cbn -[opt_float _is_number_or_null]. rewrite !number_or_null_leaf. by destruct s.
Qed.

(** ** The tool *)

(** The analytics of the chain kept under an underlying's derivative name. *)
Definition chain_of (u e : string) : val := analytics_of env_of log exp erf exec kite_url kite now_ms (resolve_options_chain_name u) e.

Definition is_index (symbol : string) : bool := str_in (upper (strip symbol)) INDEX_UNDERLYINGS.

Definition benchmark_of (symbol : string) : string := RelativeStrength.resolve_benchmark env_of symbol None.

(** An answer labelled with the chain it was made from: the symbol's own for an index or
    on request, else that of its benchmark, to which a request for the symbol's own falls
    back when it is unavailable. *)
Definition options_answer (symbol e direction : string) (own_chain : bool) (answer : val) : Prop :=
  exists u context label,
    answer = merged (chain_of u (strip e)) u context label /\ analysed (chain_of u (strip e)) /\
    OptionsBias.classify_options_bias (chain_of u (strip e)) (OptionsBias.resolve_options_bias_config env_of)
      (if nonempty (strip direction) then VStr (strip direction) else VNone) = Ok label /\
    ((context = "own-chain"%string /\ u = strip symbol /\ is_index symbol || own_chain = true) \/
     (context = "broad-market"%string /\ u = benchmark_of symbol /\ is_index symbol = false /\
      (own_chain = true -> unavailable (chain_of (strip symbol) (strip e)) = true))).

Definition choice (symbol e : string) (own_chain : bool) (u context : string) (a : val) : Prop :=
  a = chain_of u e /\ In context OPTIONS_CHAIN_CONTEXTS /\
  ((context = "own-chain"%string /\ u = strip symbol /\ is_index symbol || own_chain = true) \/
   (context = "broad-market"%string /\ u = benchmark_of symbol /\ is_index symbol = false /\
    (own_chain = true -> unavailable (chain_of (strip symbol) e) = true))).

Lemma chosen_cases symbol e own_chain u context a :
  chosen_chain env_of log exp erf exec kite_url kite now_ms symbol e own_chain = (u, context, a) -> choice symbol e own_chain u context a.
Proof.
  unfold chosen_chain, choice. fold (is_index symbol). destruct (is_index symbol) eqn:I; cbn [orb andb negb].
  - rewrite andb_false_r. cbn. intros [= <- <- <-]. split_and!; [done|by left|by left].
  - destruct own_chain; cbn [andb].
    + unfold fallback_analytics. destruct (unavailable _) eqn:U; [|intros [= <- <- <-]; split_and!; [done|by left|by left]].
      destruct (nonempty _ && _); [|intros [= <- <- <-]; split_and!; [done|by left|by left]].
      destruct (unavailable (analytics_of _ _ _ _ _ _ _ _ (resolve_options_chain_name (RelativeStrength.resolve_benchmark _ _ _)) _));
        intros [= <- <- <-]; (split_and!; [done|by left|by left]) || (split_and!; [done|by right; left|by right]).
    + intros [= <- <- <-]. split_and!; [done|by right; left|by right].
Qed.

(** C33: What the options tool answers is sound: whatever the environment, the servers, the
    clock and the arguments, the answer passes the tool's contract unchanged and is never
    a contract violation; and an answer without an honest marker is the bias of the
    analytics of one chain, labelled with the context of that chain: the symbol's own for
    an index or on request, else its benchmark's, for which a requested own chain was
    unavailable. *)
Theorem options_tool_sound symbol e direction own_chain :
  sound "get_options_analytics" (options_answer symbol e direction own_chain)
    (get_options_analytics env_of log exp erf exec kite_url kite now_ms message symbol e direction own_chain).
Proof.
  unfold get_options_analytics. destruct (negb _); [by apply marked_sound|].
  destruct (chosen_chain _ _ _ _ _ _ _ _ _ _ _) as [[u context] a] eqn:C. apply chosen_cases in C as (-> & I & C).
  destruct (analytics_cases (resolve_options_chain_name u) (strip e)) as [(e' & reason & H)|H]; fold (chain_of u (strip e)) in H.
  - rewrite H. by apply marked_sound.
  - rewrite (analysed_unmarked _ H). cbv zeta. destruct (OptionsBias.classify_options_bias _ _ _) as [label|ex] eqn:L; [|by apply marked_sound].
    destruct (merged_conforms _ u context label H I) as [M V]. rewrite M. split_and!; [exact M|exact V|]. right. by exists u, context, label.
Qed.
End options.

(** ** The queries of an underlying *)

(** C38: Whatever quotes an underlying, an expiry or a symbol holds, each of the nine
    queries the options code makes of them (volumes, snapshots, captures, expiries, the
    nearest expiry, the latest capture, futures, spot and ticks), read as SQL, holds
    exactly their texts as its string literals, in order, and closes them: no part of a
    name is read as SQL. *)
Theorem queries_name_what_was_asked u e ts limit :
  literals (volume_query u e) = Some [u; e] /\ literals (snapshot_query u e ts) = Some [u; e] /\ literals (captures_query u e) = Some [u; e] /\
  literals (expiry_query u) = Some [u] /\ literals (expiries_query u) = Some [u] /\ literals (latest_query u) = Some [u] /\
  literals (future_query u) = Some [u; "FUT"%string] /\ literals (spot_query u) = Some [u] /\ literals (FlowTools.live_ticks_query u limit) = Some [u].
Proof.
  unfold volume_query, snapshot_query, captures_query, expiry_query, expiries_query, latest_query, future_query, spot_query, FlowTools.live_ticks_query.
  split_and!; read_query.
Qed.

(** ** The snapshot route *)

(** The nearest of the stored expiries, and of the listed ones when none is stored: the
    first of them that is not before the day, and when all are before it the last stored
    or the first listed. *)
Definition nearest (stored listed : list string) (day e : string) : Prop :=
  match (match stored with [] => listed | _ => stored end) with
  | [] => e = ""
  | (first :: _) as choices =>
      (exists before after, choices = (before ++ e :: after)%list /\ Forall (fun x => str_ltb x day = true) before /\ str_ltb e day = false) \/
      (Forall (fun x => str_ltb x day = true) choices /\ e = match stored with [] => first | _ => List.last stored "" end)
  end.

(** The expiry a request is for: the one asked for, else the nearest. *)
Definition expiry_asked (exec : string -> option val) (kite_url : string) (kite : string -> val -> option val) (now_ist : Z) (u e e' : string) : Prop :=
  if nonempty (strip e) then e' = strip e
  else nearest (omap expiry_of (select_rows exec (expiries_query u))) (read_listed_expiries kite_url kite u) (today now_ist) e'.

(** The row of a strike: its open interest and prices, and the volatility of its
    out-of-the-money side in the analytics' entry of the same strike, null without one. *)
Definition row_of (a : val) (q : StrikeQuote) (row : val) : Prop :=
  let per := match vget a "per_strike" with VList l => l | _ => [] end in
  let same_strike entry := exists k, strike_of entry = VFloat k /\ PrimFloat.eqb k (strike q) = true in
  vget row "strike" = VFloat (strike q) /\ vget row "ce_oi" = opt_float (ce_oi q) /\ vget row "pe_oi" = opt_float (pe_oi q) /\
  vget row "ce_price" = opt_float (ce_price q) /\ vget row "pe_price" = opt_float (pe_price q) /\
  ((exists entry side, In entry per /\ same_strike entry /\ vget row "iv" = vget (vget entry side) "iv" /\
      forall spot, vget a "spot" = VFloat spot -> side = if PrimFloat.leb (strike q) spot then "pe" else "ce") \/
   (vget row "iv" = VNone /\ forall entry, In entry per -> ~ same_strike entry)).

(** The answer for a chain and its analytics. *)
Definition snapshot_answer (env_of : env) (u e : string) (latest : ChainSnapshot) (a r : val) : Prop :=
  vget r "underlying" = VStr u /\ vget r "expiry" = VStr e /\ vget r "analytics" = a /\ analysed a /\
  (exists rows, vget r "chain" = VList rows /\ Forall2 (row_of a) (strikes latest) rows) /\
  exists bias, OptionsBias.classify_options_bias a (OptionsBias.resolve_options_bias_config env_of) VNone = Ok bias /\
    vget r "bias" = OptionsBias.bias_payload bias.

Definition marked (r : val) (u e code : string) : Prop :=
  unavailable r = true /\ vget r "underlying" = VStr u /\ vget r "expiry" = VStr e /\ vget r "reason_code" = VStr code.

Lemma first_filtered {A} (f : A -> bool) l x l' :
  List.filter f l = x :: l' -> exists before after, l = (before ++ x :: after)%list /\ Forall (fun y => f y = false) before /\ f x = true.
Proof.
  induction l as [|y l IH]; [done|]. cbn. destruct (f y) eqn:E.
  - intros [= <- _]. by exists [], l.
  - intros (b & a & -> & Hb & Hx)%IH. exists (y :: b), a. by split_and!; [|constructor|].
Qed.

Lemma none_filtered {A} (f : A -> bool) l : List.filter f l = [] -> Forall (fun y => f y = false) l.
Proof. induction l as [|y l IH]; cbn; [constructor|]. destruct (f y) eqn:E; [done|]. constructor; [done|by apply IH]. Qed.

Lemma resolved_nearest exec kite_url kite now_ist u :
  nearest (omap expiry_of (select_rows exec (expiries_query u))) (read_listed_expiries kite_url kite u) (today now_ist)
    (_resolve_nearest_expiry exec kite_url kite now_ist u).
Proof.
  unfold _resolve_nearest_expiry, nearest. set (stored := omap _ _). set (listed := read_listed_expiries _ _ _).
  assert (forall x, not_before (today now_ist) x = false -> str_ltb x (today now_ist) = true) as Hb by (intros x; unfold not_before; by destruct (str_ltb _ _)).
  assert (forall x, not_before (today now_ist) x = true -> str_ltb x (today now_ist) = false) as Ha by (intros x; unfold not_before; by destruct (str_ltb _ _)).
  destruct stored as [|s ss]; [destruct listed as [|l ls]; [done|]|].
  - destruct (List.filter _ (l :: ls)) as [|x xs] eqn:F.
    + right. apply none_filtered in F. split; [|done]. eapply Forall_impl; [exact F|done].
    + left. apply first_filtered in F as (b & a & E & B & X). exists b, a. split_and!; [done| |by apply Ha]. eapply Forall_impl; [exact B|done].
  - destruct (List.filter _ (s :: ss)) as [|x xs] eqn:F.
    + right. apply none_filtered in F. split; [|done]. eapply Forall_impl; [exact F|done].
    + left. apply first_filtered in F as (b & a & E & B & X). exists b, a. split_and!; [done| |by apply Ha]. eapply Forall_impl; [exact B|done].
Qed.

Lemma last_filtered {A} (f : A -> bool) l : match last (List.filter f l) with Some x => In x l /\ f x = true | None => forall x, In x l -> f x = false end.
Proof.
  destruct (last (List.filter f l)) as [x|] eqn:L.
  - apply last_Some_elem_of, list_elem_of_In, filter_In in L. done.
  - apply last_None in L. apply none_filtered in L. by apply List.Forall_forall.
Qed.

Lemma chain_row_of a q : row_of a q (chain_row a q).
Proof.
  unfold row_of, chain_row. cbv zeta. destruct (iv_entries a (strike q)) as [ce pe] eqn:I. split_and!; try done. unfold iv_entries in I. cbv zeta in I.
  pose proof (last_filtered (fun entry => is_dict entry && match vget entry "strike" with VFloat f => PrimFloat.eqb f (strike q) | _ => false end)
    match vget a "per_strike" with VList l => l | _ => [] end) as H.
  destruct (last _) as [entry|].
  - destruct H as [Hi He]. apply andb_true_iff in He as [_ He]. left. injection I as <- <-.
    assert (exists k, strike_of entry = VFloat k /\ PrimFloat.eqb k (strike q) = true) as Hs by (unfold strike_of; destruct (vget entry "strike"); try done; by eexists).
    cbn. unfold _representative_iv. destruct (vget a "spot") as [| | |s| | | | | | |] eqn:S.
    4: { exists entry, (if PrimFloat.leb (strike q) s then "pe" else "ce"). split_and!; [done|done|by destruct (PrimFloat.leb _ _)|by intros y [= <-]]. }
    all: exists entry, (if is_none (vget (vget entry "ce") "iv") then "pe" else "ce"); split_and!; [done|done|by destruct (is_none _)|done].
  - right. injection I as <- <-. split; [cbn; unfold _representative_iv; destruct (vget a "spot"); cbn; try done; by destruct (PrimFloat.leb _ _)|].
    intros entry Hi (k & Hk & E). specialize (H entry Hi). unfold strike_of in Hk. rewrite Hk, E, andb_true_r in H. unfold vget in Hk. by destruct entry.
Qed.

(** C32: What the snapshot route answers is consistent, even where the servers change
    between the read of the chain and that of its analytics.  The expiry is the one asked
    for; for none, it is the first stored one that is not before the day (the query asks
    for them in ascending order), the last stored when all are, and those the exchange
    lists where none is stored.  The answer is a marker with the code of its cause exactly
    when there is no expiry, no chain, or no analytics.  Otherwise its rows are, in order,
    those of the strikes of the chain that is read for the underlying and the expiry:
    their open interest and prices, and the volatility of the out-of-the-money side of the
    analytics' entry for the strike; its analytics are those of the same underlying and
    expiry, and its bias is that of those analytics. *)
Theorem options_snapshot_consistent env_of log exp erf exec kite_url kite now_ms now_ist exec' kite' now_ms' now_ist' u e r :
  _build_options_snapshot env_of log exp erf exec kite_url kite now_ms now_ist exec' kite' now_ms' now_ist' u e = Ok r ->
  exists e', expiry_asked exec kite_url kite now_ist u e e' /\
    let a := compute_options_analytics log exp erf exec' kite_url kite' now_ms' u e' (resolve_options_config env_of) in
    if nonempty e' then
      match read_chain_for_analytics exec kite_url kite now_ms u e' with
      | (None, _, _) => marked r u e' "no_snapshot"
      | (Some latest, _, _) =>
          if unavailable a then unavailable r = true /\ vget r "reason_code" = VStr "analytics_degraded" /\ vget r "last_snapshot_ts" = VInt (snapshot_ts latest)
          else snapshot_answer env_of u e' latest a r
      end
    else marked r u "" "no_expiry".
Proof.
  unfold _build_options_snapshot. set (e' := if nonempty (strip e) then strip e else _). intros H. exists e'. cbv zeta. split.
  { unfold expiry_asked, e'. destruct (nonempty (strip e)); [done|apply resolved_nearest]. }
  destruct (nonempty e'); cbn [negb] in H; [|apply bind_Ok in H as (ts & _ & H); by apply Ok_inj in H as <-].
  destruct (read_chain_for_analytics _ _ _ _ _ _) as [[[latest|] prior] live]; [|apply bind_Ok in H as (ts & _ & H); by apply Ok_inj in H as <-].
  destruct (analytics_cases env_of log exp erf exec' kite_url kite' now_ms' u e') as [(e'' & reason & A)|A]; unfold analytics_of in A.
  - rewrite A in H |- *. cbn in H |- *. by apply Ok_inj in H as <-.
  - unfold unavailable in H |- *. rewrite (analysed_unmarked _ A) in H |- *. cbn [truthy] in H |- *. apply bind_Ok in H as (bias & B & H). apply Ok_inj in H as <-.
    unfold snapshot_answer. split_and!; try done; [|by exists bias]. eexists. split; [done|]. clear. induction (strikes latest) as [|q qs IH]; constructor; [apply chain_row_of|done].
Qed.

(** The day of the sample is a Thursday; the exchange lists one expiry. *)
Definition sample_route : res val :=
  _build_options_snapshot (fun _ => None) id id id (fun _ => None) "url" sample_exchange 9 1700110800000000 (fun _ => None) sample_exchange 10 1700110800000000 "X" "E".

Definition sample_answer : val := match sample_route with Ok r => r | Raise _ => VNone end.

Lemma options_snapshot_consistent_witness :
  sample_route = Ok sample_answer /\ unavailable sample_answer = false /\
  exists a rows, vget sample_answer "chain" = VList rows /\ Forall2 (row_of a) [sample_leg 100 (Some 7%float); sample_leg 200 None] rows.
Proof.
  assert (sample_route = Ok sample_answer) as H by (vm_compute; reflexivity).
  split_and!; [exact H|vm_compute; reflexivity|].
  destruct (options_snapshot_consistent _ _ _ _ _ _ _ _ _ _ _ _ _ _ _ _ H) as (e' & -> & R).
  cbv zeta in R. change (nonempty (strip "E")) with true in R. cbv iota in R.
  match type of R with context [read_chain_for_analytics ?a ?b ?c ?d ?f ?g] =>
    assert (exists ts, read_chain_for_analytics a b c d f g =
      (Some {| underlying := "X"; expiry := "E"; snapshot_ts := ts; strikes := [sample_leg 100 (Some 7%float); sample_leg 200 None] |}, None, Some 150%float))
      as [ts E] by (eexists; vm_compute; reflexivity); rewrite E in R end.
  match type of R with if ?b then _ else _ => assert (b = false) as B by (vm_compute; reflexivity); rewrite B in R end.
  destruct R as (_ & _ & _ & _ & (rows & C & F) & _). eexists. exists rows. by split.
Defined.
