(* ===== verification/Journal.v ===== *)
(** * Trade journal: storage, scoring and statistics

    Models the rest of [agents/deep-quant-loop/journal.py] over a model of its
    one SQLite table: recording a decision (idempotent per thread), scoring open
    trades legacy and multi-leg, the transaction of a scoring pass, the
    statistics, purging and deduplication.

    A row maps column names to stored values; an absent column is NULL.  The
    storage rules the code relies on are written out: parameter binding (64-bit
    integers, NaN stored as NULL), the REAL and TEXT affinities for integers,
    AUTOINCREMENT identifiers and the partial unique index on [thread_id].  The
    clock and the candle service are parameters. *)

From stdpp Require Import base list gmap strings.
From Stdlib Require Import ZArith Lia Floats.
From S2P Require Import Prelude PyFloat PyNum PyVal PyEnv PyStats PyJson TradeManager Opportunity JournalTags.

#[local] Set Warnings "-inexact-float".
Open Scope Z_scope.
Open Scope res_scope.

(** ** The table *)

Definition trow := gmap string val.

Definition col (r : trow) (k : string) : val := default VNone (r !! k).

Record journal := { jrows : list trow; next_id : Z }.

Definition REAL_COLUMNS : list string :=
  ["created_at"; "entry"; "stop_loss"; "take_profit"; "atr_14"; "risk_reward"; "outcome_price"; "outcome_at";
   "r_multiple"; "scored_at"; "forecast_up_probability"]%string.
Definition INTEGER_COLUMNS : list string := ["id"; "conviction"]%string.

(** Binding a parameter: what SQLite receives. *)
Definition bind_param (v : val) : res val :=
  match v with
  | VNone | VStr _ | VBytes _ => Ok v
  | VBool b => Ok (VInt (if b then 1 else 0))
  | VInt z => if (- 2 ^ 63 <=? z) && (z <? 2 ^ 63) then Ok v else Raise OverflowError
  | VFloat f => Ok (if is_nan f then VNone else v)
  | _ => Raise SqliteError
  end.

(** What a column stores: integers become reals in a REAL column and text in a
    TEXT column.  (The code binds only numbers to its REAL columns, and texts or
    integers to its TEXT ones.) *)
Definition affinity (column : string) (v : val) : val :=
  match v with
  | VInt z =>
      if str_in column REAL_COLUMNS then VFloat (Q2F z 1)
      else if str_in column INTEGER_COLUMNS then v
      else VStr (Z_str z)
  | _ => v
  end.

Fixpoint bind_columns (cols : list (string * val)) : res trow :=
  match cols with
  | [] => Ok ∅
  | (k, v) :: cols' =>
      v' ← bind_param v;
      r ← bind_columns cols';
      Ok (match affinity k v' with VNone => r | w => <[k := w]> r end)
  end.

(** SQL equality of a TEXT column and a bound text. *)
Definition text_is (v : val) (s : string) : bool := match v with VStr t => String.eqb t s | _ => false end.

Definition row_id (r : trow) : Z := match col r "id" with VInt z => z | _ => 0 end.

(** [SELECT id FROM trades WHERE thread_id=? ORDER BY id ASC LIMIT 1] *)
Definition find_thread (db : journal) (tid : string) : option Z :=
  row_id <$> head (List.filter (fun r => text_is (col r "thread_id") tid) (jrows db)).

(** The columns declared [NOT NULL]. *)
Definition NOT_NULL_COLUMNS : list string := ["created_at"; "action"; "status"]%string.

(** [INSERT INTO trades ...]: [None] when a [NOT NULL] constraint or the partial
    unique index rejects it. *)
Definition insert_row (db : journal) (r : trow) : option (journal * Z) :=
  let dup :=
    match col r "thread_id" with
    | VStr tid => match find_thread db tid with Some _ => true | None => false end
    | _ => false
    end in
  if existsb (fun k => is_none (col r k)) NOT_NULL_COLUMNS || dup then None
  else Some ({| jrows := jrows db ++ [<["id" := VInt (next_id db)]> r]; next_id := next_id db + 1 |}, next_id db).

(** ** Recording *)

(** A [ManagementPlan] instance among the values. *)
Definition leg_of_obj (v : val) : ScaleOutLeg :=
  {| leg_target := vattr v "target"; leg_fraction := vattr v "fraction" |}.

Definition plan_of_obj (v : val) : option ManagementPlan :=
  match v with
  | VObj _ shown =>
      if String.eqb shown "ManagementPlan" then
        Some {| mp_action := vattr v "action"; mp_entry := vattr v "entry";
                mp_initial_stop := vattr v "initial_stop";
                mp_legs := match vattr v "legs" with VTuple l | VList l => map leg_of_obj l | _ => [] end;
                mp_breakeven :=
                  match vattr v "breakeven" with
                  | VNone => None
                  | b => Some {| be_price := vattr b "price"; be_r_multiple := vattr b "r_multiple" |}
                  end;
                mp_trailing :=
                  match vattr v "trailing" with
                  | VNone => None
                  | t => Some {| ts_atr_multiple := vattr t "atr_multiple"; ts_r_increment := vattr t "r_increment" |}
                  end;
                mp_atr_14 := vattr v "atr_14" |}
      else None
  | _ => None
  end.

(** [if merged.get(k) is None: merged[k] = v] *)
Definition default_key (k : string) (v : val) (l : list (val * val)) : list (val * val) :=
  if is_none (dict_get l k) then dict_set l k v else l.

Definition _serialize_management_plan (management_plan decision entry stop_loss atr_14 : val) : val :=
  try_any
    (let dec := py_or decision (VDict []) in
     raw ← (if is_none management_plan then py_get dec "management_plan" else Ok management_plan);
     match raw with
     | VNone => Ok VNone
     | VDict l =>
         l1 ← (if is_none (dict_get l "action") then
                 a ← py_get dec "action"; Ok (dict_set l "action" (VStr (upper (py_str (py_or a (VStr ""))))))
               else Ok l);
         let merged := default_key "atr_14" atr_14 (default_key "initial_stop" stop_loss (default_key "entry" entry l1)) in
         text ← dumps dumps_default (VDict merged);
         plan ← plan_from_json (VStr text);
         plan_to_json plan
     | _ => match plan_of_obj raw with Some p => plan_to_json (Some p) | None => Ok VNone end
     end)
    VNone.

(** [x if _is_num(x) else d] *)
Definition num_or (x d : val) : res val := ok ← _is_num x; Ok (if ok : bool then x else d).

Definition all_num (a b c : val) : res bool := _is_num a and? _is_num b and? _is_num c.

(** [int(v)] of any value, [None] on [TypeError] or [ValueError]. *)
Definition int_or_none (v : val) : res val :=
  match v with
  | VNone => Ok VNone
  | VStr s | VBytes s => Ok (match parse_int s with Ok z => VInt z | Raise _ => VNone end)
  | VBool _ | VInt _ | VFloat _ =>
      catch (z ← py_int v; Ok (VInt z)) (fun e => match e with TypeError | ValueError => true | _ => false end) VNone
  | _ => Ok VNone
  end.

(** [rr = abs(tp - entry) / risk if risk > 0 else None] *)
Definition reward_to_risk (entry stop_loss take_profit : val) : res val :=
  d ← py_sub entry stop_loss; risk ← py_abs d;
  pos ← py_gt risk (VInt 0);
  if pos : bool then d2 ← py_sub take_profit entry; reward ← py_abs d2; py_div reward risk
  else Ok VNone.

(** The normalised thread id: only a non-blank string takes part. *)
Definition thread_of (thread_id : val) : option string :=
  match thread_id with VStr s => if nonempty (strip s) then Some s else None | _ => None end.

(** Everything [record_decision] computes before touching the store: the columns
    of the row to insert. *)
Definition decision_columns (decision : val) (symbol timeframe mode management_plan thread_id : val) (now : float)
  : res (list (string * val)) :=
  let d := py_or decision (VDict []) in
  action_v ← py_get d "action";
  let action := upper (py_str (py_or action_v (VStr "HOLD"))) in
  deff_v ← py_get d "defensibility";
  let deff := py_or deff_v (VDict []) in
  entry0 ← py_get d "entry"; stop0 ← py_get d "stop_loss"; take0 ← py_get d "take_profit";
  complete ← all_num entry0 stop0 take0;
  levels ← (if complete : bool then Ok (entry0, stop0, take0)
            else
              lv_v ← py_get deff "levels";
              let lv := py_or lv_v (VDict []) in
              e ← py_get lv "entry"; e ← num_or e entry0;
              s ← py_get lv "stop_loss"; s ← num_or s stop0;
              t ← py_get lv "take_profit"; t ← num_or t take0;
              Ok (e, s, t));
  let '(entry, stop_loss, take_profit) := levels in
  scoreable ← (Ok (str_in action ["BUY"; "SELL"]%string) and? all_num entry stop_loss take_profit);
  let status := (if scoreable : bool then "open" else "hold")%string in
  tags ← derive_setup_tags decision;
  let key := setup_key_from_tags tags in
  rr0 ← py_get deff "risk_reward";
  rr_num ← _is_num rr0;
  rr ← (if negb rr_num && scoreable then reward_to_risk entry stop_loss take_profit else Ok rr0);
  conv_v ← py_get d "conviction_score";
  conv ← int_or_none conv_v;
  let fc := _forecast_up_probability deff in
  atr ← py_get d "atr_14";
  let plan_json := _serialize_management_plan management_plan d entry stop_loss atr in
  c_entry ← num_or entry VNone; c_stop ← num_or stop_loss VNone; c_take ← num_or take_profit VNone;
  c_atr ← num_or atr VNone; c_rr ← num_or rr VNone;
  tags_json ← dumps dumps_default (VList (map VStr tags));
  source ← py_get d "source";
  Ok [("created_at", VFloat now); ("mode", py_or mode (VStr "FIND")); ("symbol", symbol); ("timeframe", timeframe);
      ("action", VStr action); ("entry", c_entry); ("stop_loss", c_stop); ("take_profit", c_take); ("atr_14", c_atr);
      ("conviction", conv); ("risk_reward", c_rr); ("setup_key", VStr key); ("setup_tags", VStr tags_json);
      ("source", source); ("status", VStr status); ("outcome_price", VNone); ("outcome_at", VNone);
      ("r_multiple", VNone); ("scored_at", VNone); ("forecast_up_probability", fc); ("management_plan", plan_json);
      ("thread_id", match thread_of thread_id with Some t => VStr t | None => VNone end)]%string.

(** The insert half: a conflict with a row that appeared since the existence
    check resolves to that row. *)
Definition commit_columns (db : journal) (tid : option string) (cols : list (string * val)) : journal * option Z :=
  match bind_columns cols with
  | Raise _ => (db, None)
  | Ok r =>
      match insert_row db r with
      | Some (db', id) => (db', Some id)
      | None => (db, match tid with Some t => find_thread db t | None => None end)
      end
  end.

(** [record_decision]: never raises; an already journaled thread is left alone. *)
Definition record_decision (db : journal) (decision symbol timeframe mode management_plan thread_id : val) (now : float)
  : journal * option Z :=
  match decision_columns decision symbol timeframe mode management_plan thread_id now with
  | Raise _ => (db, None)
  | Ok cols =>
      let tid := thread_of thread_id in
      match (match tid with Some t => find_thread db t | None => None end) with
      | Some id => (db, Some id)
      | None => commit_columns db tid cols
      end
  end.

(** [record_backtest_trade]: the already scored row of a replayed trade. *)
Definition record_backtest_trade (db : journal) (decision symbol timeframe status outcome_price outcome_at r_multiple : val)
    (now now' : float) : journal * option Z :=
  let cols :=
    let d := py_or decision (VDict []) in
    action_v ← py_get d "action";
    let action := upper (py_str (py_or action_v (VStr "HOLD"))) in
    deff_v ← py_get d "defensibility";
    let deff := py_or deff_v (VDict []) in
    entry ← py_get d "entry"; stop_loss ← py_get d "stop_loss"; take_profit ← py_get d "take_profit";
    tags ← derive_setup_tags decision;
    rr0 ← py_get deff "risk_reward";
    derive ← (not? (_is_num rr0) and? all_num entry stop_loss take_profit);
    rr ← (if derive : bool then reward_to_risk entry stop_loss take_profit else Ok rr0);
    created ← py_get d "created_at";
    c_entry ← num_or entry VNone; c_stop ← num_or stop_loss VNone; c_take ← num_or take_profit VNone;
    atr ← py_get d "atr_14"; c_atr ← num_or atr VNone;
    conv ← py_get d "conviction_score";
    c_rr ← num_or rr VNone;
    tags_json ← dumps dumps_default (VList (map VStr tags));
    Ok [("created_at", py_or created (VFloat now)); ("mode", VStr "BACKTEST"); ("symbol", symbol);
        ("timeframe", timeframe); ("action", VStr action); ("entry", c_entry); ("stop_loss", c_stop);
        ("take_profit", c_take); ("atr_14", c_atr); ("conviction", conv); ("risk_reward", c_rr);
        ("setup_key", VStr (setup_key_from_tags tags)); ("setup_tags", VStr tags_json);
        ("source", VStr "backtest"); ("status", status); ("outcome_price", outcome_price);
        ("outcome_at", outcome_at); ("r_multiple", r_multiple); ("scored_at", VFloat now');
        ("forecast_up_probability", _forecast_up_probability deff)]%string in
  match cols with
  | Raise _ => (db, None)
  | Ok cols => commit_columns db None cols
  end.

(** ** Scoring *)

Definition kind_text (k : fill_kind) : string :=
  match k with
  | KTarget => "target" | KStop => "stop" | KBreakevenStop => "breakeven-stop" | KTrailStop => "trail-stop"
  end.

Definition status_text (s : sim_status) : string :=
  match s with StResolved => "resolved" | StOpen => "open" | StInvalid => "invalid" end.

Definition fill_dict (f : LegFill) : val :=
  VDict [(VStr "index", VInt (fill_index f)); (VStr "price", VFloat (fill_price f));
         (VStr "fraction", fill_fraction f); (VStr "leg_r", VFloat (fill_leg_r f));
         (VStr "timestamp_ms", VInt (fill_timestamp_ms f)); (VStr "kind", VStr (kind_text (fill_kind_of f)))].

Definition _exit_breakdown_json (r : SimulationResult) : val :=
  try_any
    (s ← dumps dumps_default (VDict [
       (VStr "status", VStr (status_text (sr_status r)));
       (VStr "realized_r", sr_realized_r r);
       (VStr "fills", VList (map fill_dict (sr_fills r)));
       (VStr "residual_fraction", VFloat (sr_residual_fraction r));
       (VStr "breakeven_moved_at", match sr_breakeven_moved_at r with Some t => VInt t | None => VNone end);
       (VStr "trailed", VBool (sr_trailed r))]);
     Ok (VStr s))
    VNone.

Record score_update := {
  u_status : string;
  u_price : val;
  u_at : val;
  u_r : val;
  u_exit : val;
}.

(** [round(v, 4)] *)
Definition round4 (v : val) : val := match v with VFloat f => VFloat (f_round_nd f 4) | _ => v end.

Fixpoint filterM {A} (p : A -> res bool) (l : list A) : res (list A) :=
  match l with
  | [] => Ok []
  | x :: l' => b ← p x; r ← filterM p l'; Ok (if b : bool then x :: r else r)
  end.

(** Candles strictly after the entry time. *)
Definition after_entry (created_ms : val) (c : val) : res bool :=
  match c with
  | VDict d => let ts := dict_get d "timestamp_ms" in _is_num ts and? py_gt ts created_ms
  | _ => Ok false
  end.

Section scoring.
Context (expiry_seconds now : float).

(** Whether an unresolved trade has lived long enough to expire. *)
Definition expired (created_at : val) : res bool :=
  age ← py_sub (VFloat now) created_at; py_gt age (VFloat expiry_seconds).

Definition expire_or_none (last_ts created_at exit : val) : res (option score_update) :=
  if is_none last_ts then Ok None
  else
    old ← expired created_at;
    if old : bool then
      at_ ← py_div last_ts (VFloat 1000);
      Ok (Some {| u_status := "expired"; u_price := VNone; u_at := at_; u_r := VNone; u_exit := exit |})
    else Ok None.

Definition _score_managed_trade (trade : trow) (candles : list val) (plan_text : val) : option score_update :=
  try_any
    (plan ← plan_from_json plan_text;
     match plan with
     | None => Ok None
     | Some plan =>
         let created_at := col trade "created_at" in
         num ← _is_num created_at;
         if negb num then Ok None
         else
           created_ms ← py_mul created_at (VFloat 1000);
           subsequent ← filterM (after_entry created_ms) candles;
           let result := simulate_plan plan (VList subsequent) in
           r_num ← _is_num (sr_realized_r result);
           if match sr_status result with StResolved => r_num | _ => false end then
             win ← py_gt (sr_realized_r result) (VInt 0);
             match last (sr_fills result) with
             | Some f =>
                 at_ok ← _is_num (VInt (fill_timestamp_ms f));
                 at_ ← (if at_ok : bool then py_div (VInt (fill_timestamp_ms f)) (VFloat 1000) else Ok VNone);
                 Ok (Some {| u_status := (if win : bool then "win" else "loss")%string;
                             u_price := (if fin (fill_price f) then VFloat (fill_price f) else VNone);
                             u_at := at_; u_r := round4 (sr_realized_r result);
                             u_exit := _exit_breakdown_json result |})
             | None =>
                 Ok (Some {| u_status := (if win : bool then "win" else "loss")%string;
                             u_price := VNone; u_at := VNone; u_r := round4 (sr_realized_r result);
                             u_exit := _exit_breakdown_json result |})
             end
           else
             let last_ts :=
               match last subsequent with Some c => vget c "timestamp_ms" | None => VNone end in
             expire_or_none last_ts created_at (_exit_breakdown_json result)
     end)
    None.

(** One candle of the legacy walk: a verdict, a skip, or the candle's time. *)
Inductive walk_step := WSkip | WTime (ts : val) | WDone (u : score_update).

Definition legacy_step (action : string) (created_ms sl tp rr : val) (c : val) : res walk_step :=
  match c with
  | VDict d =>
      let ts := dict_get d "timestamp_ms" in
      let hi := dict_get d "high" in
      let lo := dict_get d "low" in
      usable ← all_num ts hi lo;
      if negb usable then Ok WSkip
      else
        before ← py_le ts created_ms;
        if before : bool then Ok WSkip
        else
          hit_tp ← (if String.eqb action "BUY" then py_ge hi tp else py_le lo tp);
          hit_sl ← (if String.eqb action "BUY" then py_le lo sl else py_ge hi sl);
          at_ ← py_div ts (VFloat 1000);
          let loss := {| u_status := "loss"; u_price := sl; u_at := at_; u_r := VFloat (-1); u_exit := VNone |} in
          let win := {| u_status := "win"; u_price := tp; u_at := at_; u_r := round4 rr; u_exit := VNone |} in
          if hit_sl && hit_tp then Ok (WDone loss)
          else if hit_tp : bool then Ok (WDone win)
          else if hit_sl : bool then Ok (WDone loss)
          else Ok (WTime ts)
  | _ => Ok WSkip
  end.

Fixpoint legacy_walk (action : string) (created_ms sl tp rr : val) (last_ts : val) (candles : list val)
  : res (score_update + val) :=
  match candles with
  | [] => Ok (inr last_ts)
  | c :: candles' =>
      s ← legacy_step action created_ms sl tp rr c;
      match s with
      | WSkip => legacy_walk action created_ms sl tp rr last_ts candles'
      | WTime ts => legacy_walk action created_ms sl tp rr ts candles'
      | WDone u => Ok (inl u)
      end
  end.

Definition _score_one (trade : trow) (candles : list val) : res (option score_update) :=
  let plan_text := col trade "management_plan" in
  if truthy plan_text then Ok (_score_managed_trade trade candles plan_text)
  else
    let action := upper (py_str (col trade "action")) in
    let entry := col trade "entry" in
    let sl := col trade "stop_loss" in
    let tp := col trade "take_profit" in
    let created_at := col trade "created_at" in
    usable ← (all_num entry sl tp and? _is_num created_at);
    if negb usable then Ok None
    else
      created_ms ← py_mul created_at (VFloat 1000);
      d ← py_sub entry sl; risk ← py_abs d;
      none ← py_le risk (VInt 0);
      if none : bool then Ok None
      else
        d2 ← py_sub tp entry; reward ← py_abs d2; rr ← py_div reward risk;
        w ← legacy_walk action created_ms sl tp rr VNone candles;
        match w with
        | inl u => Ok (Some u)
        | inr last_ts => expire_or_none last_ts created_at VNone
        end.
End scoring.

(** ** A scoring pass *)

(** [UPDATE trades SET status=?, ... WHERE id=?] *)
Definition update_columns (u : score_update) (scored_at : float) : list (string * val) :=
  [("status", VStr (u_status u)); ("outcome_price", u_price u); ("outcome_at", u_at u); ("r_multiple", u_r u);
   ("exit_breakdown", u_exit u); ("scored_at", VFloat scored_at)]%string.

Definition set_col (k : string) (v : val) (r : trow) : trow :=
  match affinity k v with VNone => delete k r | w => <[k := w]> r end.

Definition set_columns (cols : list (string * val)) (r : trow) : trow :=
  fold_left (fun r '(k, v) => set_col k v r) cols r.

Fixpoint bind_all (cols : list (string * val)) : res (list (string * val)) :=
  match cols with
  | [] => Ok []
  | (k, v) :: cols' => v' ← bind_param v; r ← bind_all cols'; Ok ((k, v') :: r)
  end.

Definition update_row (db : journal) (id : Z) (cols : list (string * val)) : journal :=
  {| jrows := map (fun r => if row_id r =? id then set_columns cols r else r) (jrows db); next_id := next_id db |}.

Definition text_eqb (a b : val) : bool :=
  match a, b with
  | VStr s, VStr t | VBytes s, VBytes t => String.eqb s t
  | VNone, VNone => true
  | _, _ => false
  end.

(** [groups.setdefault(key, []).append(x)], in first-seen key order. *)
Fixpoint group_add {K A} (eqb : K -> K -> bool) (k : K) (x : A) (gs : list (K * list A)) : list (K * list A) :=
  match gs with
  | [] => [(k, [x])]
  | (k', l) :: gs' => if eqb k' k then (k', l ++ [x]) :: gs' else (k', l) :: group_add eqb k x gs'
  end.

Definition group_by {K A} (eqb : K -> K -> bool) (key : A -> K) (l : list A) : list (K * list A) :=
  fold_left (fun gs x => group_add eqb (key x) x gs) l [].

Definition pair_eqb (a b : val * val) : bool := text_eqb a.1 b.1 && text_eqb a.2 b.2.

(** [SELECT * FROM trades WHERE status='open' (AND symbol=?)] *)
Definition open_rows (db : journal) (symbol : val) : list trow :=
  List.filter (fun r => text_is (col r "status") "open" &&
                        (negb (truthy symbol) || match symbol with VStr s => text_is (col r "symbol") s | _ => false end))
    (jrows db).

Section scoring_pass.
Context (expiry_seconds : float).
(** The clock readings made while scoring the trade with a given id. *)
Context (now_of scored_now : Z -> float).
(** The candle service, [[]] on any failure. *)
Context (fetch_candles : val -> val -> list val).

(** The trades of one group, inside the transaction: the working copy, the
    count so far, and whether an exception ended the pass. *)
Fixpoint score_group (trades : list trow) (candles : list val) (db : journal) (resolved : Z)
  : journal * Z * bool :=
  match trades with
  | [] => (db, resolved, true)
  | tr :: trades' =>
      match _score_one expiry_seconds (now_of (row_id tr)) tr candles with
      | Raise _ => (db, resolved, false)
      | Ok None => score_group trades' candles db resolved
      | Ok (Some u) =>
          match bind_all (update_columns u (scored_now (row_id tr))) with
          | Raise _ => (db, resolved, false)
          | Ok cols => score_group trades' candles (update_row db (row_id tr) cols) (resolved + 1)
          end
      end
  end.

Fixpoint score_groups (groups : list ((val * val) * list trow)) (db : journal) (resolved : Z) : journal * Z * bool :=
  match groups with
  | [] => (db, resolved, true)
  | ((sym, tf), trades) :: groups' =>
      if negb (truthy sym) || negb (truthy tf) then score_groups groups' db resolved
      else
        let candles := fetch_candles sym tf in
        match candles with
        | [] => score_groups groups' db resolved
        | _ =>
            let '(db', resolved', ok) := score_group trades candles db resolved in
            if ok then score_groups groups' db' resolved' else (db', resolved', false)
        end
  end.

(** [score_open_trades]: the updates are committed only when the whole pass
    completes; the returned count is the running one either way. *)
Definition score_open_trades (db : journal) (symbol : val) : journal * Z :=
  let groups := group_by pair_eqb (fun r => (col r "symbol", col r "timeframe")) (open_rows db symbol) in
  let '(db', resolved, ok) := score_groups groups db 0 in
  (if ok then db' else db, resolved).
End scoring_pass.

(** ** Statistics *)

Record agg := {
  trades_scored : Z;
  a_wins : Z;
  a_losses : Z;
  a_open : Z;
  a_expired : Z;
  win_rate : val;
  expectancy_r : val;
}.

Definition status_is (s : string) (r : trow) : bool := text_is (col r "status") s.

Definition count_status (s : string) (rows : list trow) : Z := Z.of_nat (length (List.filter (status_is s) rows)).

(** The R values of scored rows. *)
Definition scored_r (r : trow) : res bool :=
  Ok (status_is "win" r || status_is "loss" r) and? _is_num (col r "r_multiple").

(** [sum(vals)] of stored reals. *)
Definition sum_reals (vals : list val) : res val := fs ← mapM_res py_float vals; Ok (py_sum fs).

Definition _aggregate (rows : list trow) : res agg :=
  let wins := count_status "win" rows in
  let losses := count_status "loss" rows in
  let scored := wins + losses in
  win_rate ← (if scored =? 0 then Ok VNone
              else q ← int_truediv wins scored; Ok (VFloat (f_round_nd q 4)));
  r_rows ← filterM scored_r rows;
  let r_vals := map (fun r => col r "r_multiple") r_rows in
  expectancy ← (match r_vals with
                | [] => Ok VNone
                | _ => total ← sum_reals r_vals;
                       mean ← py_div total (VInt (Z.of_nat (length r_vals)));
                       Ok (round4 mean)
                end);
  Ok {| trades_scored := scored; a_wins := wins; a_losses := losses; a_open := count_status "open" rows;
        a_expired := count_status "expired" rows; win_rate := win_rate; expectancy_r := expectancy |}.

(** [SELECT * FROM trades WHERE symbol=? AND source=?], each clause optional. *)
Definition matches (column : string) (v : val) (r : trow) : bool :=
  negb (truthy v) || match v with VStr s => text_is (col r column) s | _ => false end.

Definition directional (r : trow) : bool := str_in (upper (py_str (col r "action"))) ["BUY"; "SELL"]%string.

Record setup_stats := { ss_key : val; ss_agg : agg; ss_low_sample : bool }.

(** The sort key of [by_setup], compared as a pair. *)
Definition setup_rank (s : setup_stats) : Z * Z :=
  (trades_scored (ss_agg s), a_wins (ss_agg s) + a_losses (ss_agg s) + a_open (ss_agg s)).

Definition rank_gtb (a b : Z * Z) : bool := (b.1 <? a.1) || ((a.1 =? b.1) && (b.2 <? a.2)).

Record stats := { st_overall : agg; st_by_setup : list setup_stats; st_low_sample : bool }.

Definition setup_entries (low_sample_threshold : Z) (rows : list trow) : res (list setup_stats) :=
  let groups := group_by text_eqb (fun r => py_or (col r "setup_key") (VStr "unknown")) (List.filter directional rows) in
  mapM_res (fun '(key, grp) =>
      a ← _aggregate grp;
      Ok {| ss_key := key; ss_agg := a; ss_low_sample := trades_scored a <? low_sample_threshold |})
    groups.

(** The read half of [get_stats], after its scoring pass: most-traded setups
    first, ties in first-seen order. *)
Definition get_stats (low_sample_threshold : Z) (db : journal) (symbol source : val) : res stats :=
  let rows := List.filter (fun r => matches "symbol" symbol r && matches "source" source r) (jrows db) in
  overall ← _aggregate rows;
  entries ← setup_entries low_sample_threshold rows;
  Ok {| st_overall := overall;
        st_by_setup := sort_by (fun a b => rank_gtb (setup_rank a) (setup_rank b)) entries;
        st_low_sample := trades_scored overall <? low_sample_threshold |}.

(** ** Purge and deduplication *)

(** [DELETE FROM trades WHERE source=? AND symbol=?]: with neither argument every
    row matches. *)
Definition purge (db : journal) (source symbol : val) : journal * Z :=
  let doomed r := matches "source" source r && matches "symbol" symbol r in
  ({| jrows := List.filter (fun r => negb (doomed r)) (jrows db); next_id := next_id db |},
   Z.of_nat (length (List.filter doomed (jrows db)))).

(** [CAST(COALESCE(created_at, 0) AS INTEGER)] of a stored real. *)
Definition whole_second (v : val) : Z :=
  match v with VFloat f => match f_int f with Ok z => z | Raise _ => 0 end | _ => 0 end.

Definition coalesce_text (v : val) : val := match v with VNone => VStr "" | _ => v end.

(** The two duplicate keys: the thread, or for a row without one the legacy
    fingerprint. *)
Definition same_decision (a b : trow) : bool :=
  match col a "thread_id", col b "thread_id" with
  | VStr s, VStr t => String.eqb s t
  | VNone, VNone =>
      forallb (fun k => text_eqb (coalesce_text (col a k)) (coalesce_text (col b k)))
        ["symbol"; "timeframe"; "action"; "setup_key"]%string &&
      (whole_second (col a "created_at") =? whole_second (col b "created_at"))
  | _, _ => false
  end.

(** Rows whose id is not the least of their duplicate group are deleted. *)
Definition earliest (rows : list trow) (r : trow) : bool :=
  forallb (fun r' => negb (same_decision r r') || (row_id r <=? row_id r')) rows.

Definition dedupe_thread_rows (db : journal) : journal * Z :=
  let keep := earliest (jrows db) in
  ({| jrows := List.filter keep (jrows db); next_id := next_id db |},
   Z.of_nat (length (List.filter (fun r => negb (keep r)) (jrows db)))).
