(* ===== verification/JournalFacts.v ===== *)
(** * Trade journal: correctness

    The multi-leg simulator scores a single-target plan exactly as the legacy
    walk does; recording is idempotent per thread under any interleaving of
    writers; a scoring pass only ever settles open trades; and deduplication
    keeps the earliest row of every decision. *)

From stdpp Require Import base list gmap strings sorting.
From Stdlib Require Import ZArith Lia Floats.
From S2P Require Import Prelude PyFloat PyRound PyDiv PyNum PyVal PyEnv PyJson TradeManager TradeManagerFacts.
From S2P Require Import Opportunity JournalTags Journal.

#[local] Set Warnings "-inexact-float".
Open Scope Z_scope.

(** ** The legacy walk is the single-target simulation *)

(** A candle as the service returns it, from a clean row. *)
Definition row_dict (r : row) : val :=
  VDict [(VStr "timestamp_ms", VFloat (r_ts r)); (VStr "open", VFloat (r_open r)); (VStr "high", VFloat (r_high r));
         (VStr "low", VFloat (r_low r)); (VStr "close", VFloat (r_close r))].

Lemma clean_row_dict r : row_fin r = true -> clean_candle (row_dict r) = Ok (Some r).
Proof.
  intros H. destruct r as [t o h l c]. unfold row_fin, row_key in H. simpl in H. bools.
  unfold clean_candle, row_dict, dict_get. cbn -[fin].
  repeat match goal with H : fin _ = true |- _ => rewrite H; clear H; cbn -[fin] end. done.
Qed.

Lemma clean_row_dicts rows :
  Forall (fun r => row_fin r = true) rows -> mapM_res clean_candle (map row_dict rows) = Ok (map Some rows).
Proof.
  induction 1 as [|r rows Hr Hrows IH]; [done|]. simpl map. cbn [mapM_res].
  by rewrite clean_row_dict, IH.
Qed.

Lemma omap_id_Some {A} (l : list A) : omap id (map Some l) = l.
Proof. induction l as [|x l IH]; [done|]. cbn. by f_equal. Qed.

(** Strictly increasing timestamps. *)
Definition ts_sorted (rows : list row) : Prop :=
  StronglySorted (fun a b => frank (r_ts a) < frank (r_ts b)) rows.

Lemma row_insert_last x l :
  row_fin x = true -> Forall (fun r => row_fin r = true /\ frank (r_ts r) < frank (r_ts x)) l ->
  row_insert x l = l ++ [x].
Proof.
  intros Hx. induction 1 as [|y l [Fy Hy] Hl IH]; [done|]. simpl.
  assert (row_ltb x y = false) as ->; [|by rewrite IH].
  unfold row_ltb, row_key. unfold row_fin, row_key in *. cbn [lex_ltb]. simpl in Hx, Fy. bools.
  rewrite eqb_rank, (ltb_rank (r_ts x) (r_ts y)), !fin_not_nan by done. cbn [negb andb].
  destruct (Z.eqb_spec (frank (r_ts x)) (frank (r_ts y))); [lia|]. apply Z.ltb_ge. lia.
Qed.

Lemma row_sort_id rows :
  Forall (fun r => row_fin r = true) rows -> ts_sorted rows -> row_sort rows = rows.
Proof.
  intros Hf Hs. unfold row_sort.
  assert (forall l acc, Forall (fun r => row_fin r = true) l -> ts_sorted l ->
    Forall (fun a => row_fin a = true /\ Forall (fun b => frank (r_ts a) < frank (r_ts b)) l) acc ->
    fold_left (fun acc x => row_insert x acc) l acc = acc ++ l) as H.
  { induction l as [|x l IH]; intros acc Hl Hsl Ha; simpl; [by rewrite app_nil_r|].
    apply Forall_cons in Hl as [Fx Hl]. inversion Hsl as [|? ? Hsl' Hx]; subst.
    rewrite row_insert_last; [|done|].
    - rewrite IH; [by rewrite <- app_assoc|done|done|]. apply Forall_app. split; [|by repeat constructor].
      eapply Forall_impl; [exact Ha|]. intros a [Fa Hb]. apply Forall_cons in Hb as [_ ?]. done.
    - eapply Forall_impl; [exact Ha|]. intros a [Fa Hb]. apply Forall_cons in Hb as [? _]. done. }
  by rewrite (H rows []).
Qed.

(** The levels of a bracket on the correct sides of the entry. *)
Definition bracket (is_buy : bool) (e sl tp : float) : Prop :=
  fin e = true /\ fin sl = true /\ fin tp = true /\ fin (e - sl) = true /\
  (if is_buy then frank sl < frank e < frank tp else frank tp < frank e < frank sl).

Definition side_text (is_buy : bool) : string := if is_buy then "BUY" else "SELL".

Section equivalence.
Context (is_buy : bool) (e sl tp : float) (Hb : bracket is_buy e sl tp).

Let dist := PrimFloat.abs (e - sl).
Let reward := PrimFloat.abs (tp - e).

Definition single_ctx : sim_ctx :=
  {| cx_is_buy := is_buy; cx_entry := e; cx_stop := sl; cx_stop_distance := dist;
     cx_legs := [{| leg_target := VFloat tp; leg_fraction := VFloat 1 |}];
     cx_be_level := None; cx_trail_distance := None |}.

Lemma dist_pos : 0 < frank dist /\ is_nan dist = false /\ fin dist = true.
Proof.
  destruct Hb as (Fe & Fs & Ft & Fd & Ho). subst dist. destruct (fabs_rank (e - sl)) as [R N].
  destruct (fsub_rank e sl Fe Fs) as [E En]. rewrite R, N.
  assert (0 < Z.abs (frank (e - sl)%float)) as Hp.
  { rewrite E. destruct is_buy.
    - pose proof (rnd_pos_strict (frank e - frank sl) ltac:(lia)). lia.
    - pose proof (rnd_pos_strict (frank sl - frank e) ltac:(lia)).
      replace (frank e - frank sl) with (- (frank sl - frank e)) by lia. rewrite rnd_opp. lia. }
  split; [done|]. split; [done|]. rewrite fin_rank in Fd |- *. rewrite R, N. bools.
  apply andb_true_iff; split; [apply andb_true_iff; split; [by rewrite En|]|]; apply Z.ltb_lt; lia.
Qed.
Lemma lit_one : is_nan 1 = false /\ PrimFloat.leb 1 _SIZE_TOL = false /\ PrimFloat.leb 1 0 = false.
Proof. by vm_compute. Qed.

Lemma one_fill_r k p i t : is_nan (r_of single_ctx p) = false -> neg_zerob (r_of single_ctx p) = false ->
  _realized_r [{| fill_index := i; fill_price := p; fill_fraction := VFloat 1;
                  fill_leg_r := r_of single_ctx p; fill_timestamp_ms := t; fill_kind_of := k |}]
  = Ok (VFloat (r_of single_ctx p)).
Proof.
  intros H Z. unfold _realized_r. cbn [mapM_res fill_fraction fill_leg_r].
  unfold py_mul, py_arith. cbn [as_num nmul n_float fmap res_fmap mbind res_bind of_num py_float].
  cbn -[PrimFloat.mul PrimFloat.add]. by rewrite fmul_one, fadd_zero by done.
Qed.

(** The stop is one risk unit away, on the losing side. *)
Lemma r_of_stop : r_of single_ctx sl = (-1)%float.
Proof.
  destruct dist_pos as (Dp & Dn & Df). destruct Hb as (Fe & Fs & Ft & Fd & Ho).
  unfold r_of. cbn. unfold dist in *. destruct is_buy.
  - destruct (abs_sub_pos e sl) as [Ha _]; [done|done|lia|].
    rewrite Ha in *. rewrite (fsub_swap e sl) by (done || lia). apply fdiv_self; [done|lia].
  - destruct (abs_sub_pos sl e) as [_ Ha]; [done|done|lia|].
    rewrite Ha in *. rewrite (fsub_swap sl e) by (done || lia). apply fdiv_self; [done|lia].
Qed.

(** The target is worth the reward-to-risk ratio. *)
Lemma r_of_target :
  r_of single_ctx tp = (reward / dist)%float /\
  is_nan (reward / dist)%float = false /\ neg_zerob (reward / dist)%float = false.
Proof.
  destruct dist_pos as (Dp & Dn & Df). destruct Hb as (Fe & Fs & Ft & Fd & Ho).
  assert (0 < frank reward /\ is_nan reward = false) as [Rp Rn].
  { unfold reward. destruct (fabs_rank (tp - e)) as [R N], (fsub_rank tp e Ft Fe) as [E En]. rewrite R, N, E.
    split; [|done]. destruct is_buy.
    - pose proof (rnd_pos_strict (frank tp - frank e) ltac:(lia)). lia.
    - pose proof (rnd_pos_strict (frank e - frank tp) ltac:(lia)).
      replace (frank tp - frank e) with (- (frank e - frank tp)) by lia. rewrite rnd_opp. lia. }
  split; [|by apply fdiv_pos]. unfold r_of. cbn. unfold reward. destruct is_buy.
  - by destruct (abs_sub_pos tp e) as [-> _]; [done|done|lia|].
  - by destruct (abs_sub_pos e tp) as [_ ->]; [done|done|lia|].
Qed.

Definition sl_hit (r : row) : bool :=
  if is_buy then PrimFloat.leb (r_low r) sl else PrimFloat.leb sl (r_high r).
Definition tp_hit (r : row) : bool :=
  if is_buy then PrimFloat.leb tp (r_high r) else PrimFloat.leb (r_low r) tp.

Definition one_fill (i : Z) (p : float) (t : Z) (k : fill_kind) (x residual : float) : SimulationResult :=
  {| sr_status := StResolved; sr_realized_r := VFloat x;
     sr_fills := [{| fill_index := i; fill_price := p; fill_fraction := VFloat 1; fill_leg_r := x;
                     fill_timestamp_ms := t; fill_kind_of := k |}];
     sr_residual_fraction := residual; sr_breakeven_moved_at := None; sr_trailed := false |}.

(** One candle of the simulation of a single-target plan. *)
Lemma sim_step_single r t :
  f_int (r_ts r) = Ok t ->
  sim_step single_ctx (sim_init single_ctx) r
  = Ok (if sl_hit r then inl (one_fill (-1) sl t KStop (-1) 1)
        else if tp_hit r then inl (one_fill 0 tp t KTarget (reward / dist) 0)
        else inr (sim_init single_ctx)).
Proof.
  intros Ht. destruct r_of_target as (Rt & Nt & Zt). pose proof r_of_stop as Rs. pose proof lit_one as (_ & L1 & L2).
  destruct Hb as (Fe & Fs & Ft & Fd & Ho).
  unfold sim_step. rewrite Ht. cbn [mbind res_bind].
  change (stop_hit single_ctx (sim_init single_ctx) r) with (sl_hit r). destruct (sl_hit r).
  { unfold close_at_stop, resolved. cbn [sim_init s_fills s_remaining s_active_stop s_stop_origin app].
    change (cx_stop single_ctx) with sl. rewrite one_fill_r by (by rewrite Rs).
    cbn. by rewrite Rs. }
  unfold fill_targets, enumerate. cbn [length cx_legs single_ctx seq zip zip_with foldM].
  unfold fill_leg. cbn [sim_init s_filled s_remaining leg_target leg_fraction].
  rewrite L1. cbn [_finite_num mbind res_bind]. rewrite Ft. rewrite bool_decide_false by apply not_elem_of_nil.
  cbn [orb mbind res_bind]. change (reaches single_ctx r tp) with (tp_hit r).
  destruct (tp_hit r); cbn [mbind res_bind]; [|cbn [s_remaining sim_init]; by rewrite L1].
  change (py_le (VFloat 1) (VFloat 1)) with (Ok true). cbn [mbind res_bind].
  change (py_le (VFloat 1) (VFloat 0)) with (Ok false). cbn [mbind res_bind].
  change (py_sub (VFloat 1) (VFloat 1)) with (Ok (VFloat 0)). cbn [mbind res_bind].
  change (py_float (VFloat 0)) with (Ok 0%float). cbn [mbind res_bind s_remaining].
  change (PrimFloat.leb 0 _SIZE_TOL) with true. cbn [s_fills sim_init app].
  unfold resolved. rewrite one_fill_r by (by rewrite Rt). cbn. by rewrite Rt.
Qed.

(** *** The two walks over clean candles *)

Context (created : float) (Hc : is_nan created = false).

Let action := side_text is_buy.
Let rr := (reward / dist)%float.

Definition later (r : row) : bool := PrimFloat.ltb created (r_ts r).

Definition verdict (r : row) : option score_update :=
  let at_ := VFloat (r_ts r / 1000)%float in
  if sl_hit r then
    Some {| u_status := "loss"; u_price := VFloat sl; u_at := at_; u_r := VFloat (-1); u_exit := VNone |}
  else if tp_hit r then
    Some {| u_status := "win"; u_price := VFloat tp; u_at := at_; u_r := round4 (VFloat rr); u_exit := VNone |}
  else None.

Lemma num_float x : fin x = true -> _is_num (VFloat x) = Ok true.
Proof. intros H. unfold _is_num. cbn [is_int_or_float is_bool negb andb py_isfinite as_num n_isfinite]. by f_equal. Qed.

Lemma legacy_step_single r :
  row_fin r = true ->
  legacy_step action (VFloat created) (VFloat sl) (VFloat tp) (VFloat rr) (row_dict r)
  = Ok (if later r then match verdict r with Some u => WDone u | None => WTime (VFloat (r_ts r)) end else WSkip).
Proof.
  intros H. unfold row_fin, row_key in H. cbn [forallb] in H. bools.
  unfold legacy_step, row_dict.
  change (dict_get _ "timestamp_ms") with (VFloat (r_ts r)). change (dict_get _ "high") with (VFloat (r_high r)).
  change (dict_get _ "low") with (VFloat (r_low r)). cbv zeta.
  unfold all_num. rewrite !num_float by done. cbn [mbind res_bind negb].
  unfold py_ge. rewrite !py_le_flt. cbn [mbind res_bind].
  unfold later. assert (PrimFloat.leb (r_ts r) created = negb (PrimFloat.ltb created (r_ts r))) as ->.
  { rewrite leb_rank, ltb_rank, Hc, fin_not_nan by done. cbn [negb andb]. lia. }
  destruct (PrimFloat.ltb created (r_ts r)); [|done]. cbn [negb].
  unfold verdict, sl_hit, tp_hit, action, side_text.
  change (py_div (VFloat (r_ts r)) (VFloat 1000)) with (Ok (VFloat (r_ts r / 1000)%float)).
  by destruct is_buy; cbn -[PrimFloat.leb PrimFloat.div round4];
    destruct (PrimFloat.leb _ _); destruct (PrimFloat.leb _ _).
Qed.

Definition last_time (d : val) (rows : list row) : val :=
  match last rows with Some r => VFloat (r_ts r) | None => d end.

Fixpoint first_verdict (rows : list row) : option (row * score_update) :=
  match rows with
  | [] => None
  | r :: rows' => match verdict r with Some u => Some (r, u) | None => first_verdict rows' end
  end.

Lemma legacy_walk_single rows last_ts :
  Forall (fun r => row_fin r = true) rows ->
  legacy_walk action (VFloat created) (VFloat sl) (VFloat tp) (VFloat rr) last_ts (map row_dict rows)
  = Ok (match first_verdict (filter later rows) with
        | Some (_, u) => inl u
        | None => inr (last_time last_ts (filter later rows))
        end).
Proof.
  intros H. revert last_ts. induction H as [|r rows Hr Hrows IH]; intros last_ts; [done|].
  cbn [map legacy_walk]. rewrite legacy_step_single by done. cbn [mbind res_bind]. rewrite filter_cons.
  destruct (later r) eqn:L; [rewrite decide_True by done|rewrite decide_False by (by intros [])].
  - cbn [first_verdict]. destruct (verdict r) as [u|]; [done|]. rewrite IH.
    destruct (first_verdict _) as [[]|]; [done|]. do 2 f_equal. unfold last_time. rewrite last_cons. by destruct (last _).
  - apply IH.
Qed.

Lemma sim_loop_single rows :
  Forall (fun r => row_fin r = true) rows ->
  exists res, sim_loop single_ctx (sim_init single_ctx) rows = Ok res /\
    match first_verdict rows with
    | Some (r, _) =>
        exists t, f_int (r_ts r) = Ok t /\
          res = if sl_hit r then one_fill (-1) sl t KStop (-1) 1 else one_fill 0 tp t KTarget rr 0
    | None => sr_status res = StOpen
    end.
Proof.
  induction 1 as [|r rows Hr Hrows IH]; [eexists; split; [reflexivity|done]|].
  assert (exists t, f_int (r_ts r) = Ok t) as [t Ht].
  { unfold row_fin, row_key in Hr. cbn [forallb] in Hr. bools. unfold f_int.
    rewrite fin_not_nan by done. destruct (is_infinity (r_ts r)) eqn:I; [|eauto].
    match goal with F : fin (r_ts r) = true |- _ => unfold fin, is_finite in F; by rewrite I, orb_true_r in F end. }
  cbn [sim_loop]. rewrite (sim_step_single _ _ Ht). cbn [mbind res_bind first_verdict]. unfold verdict.
  destruct (sl_hit r) eqn:S; [|destruct (tp_hit r) eqn:T; [|exact IH]];
    (eexists; split; [reflexivity|]); exists t; by rewrite S.
Qed.

Lemma filter_later rows :
  Forall (fun r => row_fin r = true) rows ->
  filterM (after_entry (VFloat created)) (map row_dict rows) = Ok (map row_dict (filter later rows)).
Proof.
  induction 1 as [|r rows Hr Hrows IH]; [done|]. cbn [map filterM].
  assert (after_entry (VFloat created) (row_dict r) = Ok (later r)) as ->.
  { unfold row_fin, row_key in Hr. cbn [forallb] in Hr. bools. unfold after_entry, row_dict.
    change (dict_get _ "timestamp_ms") with (VFloat (r_ts r)). cbv zeta. rewrite num_float by done.
    unfold andM. cbn [mbind res_bind]. unfold py_gt. by rewrite py_lt_flt. }
  cbn [mbind res_bind]. rewrite IH. cbn [mbind res_bind]. rewrite filter_cons.
  destruct (later r); [rewrite decide_True by done|rewrite decide_False by (by intros [])]; done.
Qed.
End equivalence.

Lemma filter_Forall {A} (P : A -> Prop) (p : A -> bool) l : Forall P l -> Forall P (filter p l).
Proof. rewrite !Forall_forall. intros H x [_ Hx]%list_elem_of_filter. by apply H. Qed.

Lemma ts_sorted_filter (p : row -> bool) rows : ts_sorted rows -> ts_sorted (filter p rows).
Proof.
  unfold ts_sorted. induction 1 as [|r rows Hs IH Hr]; [constructor|]. rewrite filter_cons.
  destruct (decide (p r)); [|done]. constructor; [done|]. by apply filter_Forall.
Qed.

Lemma sim_context_single is_buy e sl tp plan :
  bracket is_buy e sl tp -> single_target_plan (VFloat e) (VFloat sl) (VFloat tp) = Ok plan ->
  sim_context plan = Ok (Some (single_ctx is_buy e sl tp)).
Proof.
  intros Hb. unfold single_target_plan, py_ge. rewrite py_le_flt. cbn [mbind res_bind]. intros H.
  apply Ok_inj in H. subst plan. destruct (dist_pos is_buy e sl tp Hb) as (Dp & Dn & Df).
  destruct Hb as (Fe & Fs & Ft & Fd & Ho).
  assert (PrimFloat.leb e tp = is_buy) as ->.
  { rewrite leb_rank, !fin_not_nan by done. destruct is_buy; cbn [negb andb]; lia. }
  unfold sim_context. cbn [mp_action mp_entry mp_initial_stop _finite_num mbind res_bind].
  rewrite Fe, Fs. cbn [mbind res_bind]. cbv zeta. rewrite Df.
  assert (PrimFloat.eqb (PrimFloat.abs (e - sl)) 0 = false) as ->.
  { rewrite eqb_rank, Dn. change (is_nan 0) with false. change (frank 0) with 0. cbn [negb andb]. lia. }
  unfold single_ctx. by destruct is_buy.
Qed.

Lemma first_verdict_some is_buy e sl tp rows c u :
  first_verdict is_buy e sl tp rows = Some (c, u) -> verdict is_buy e sl tp c = Some u.
Proof.
  induction rows as [|r rows IH]; [done|]. cbn [first_verdict].
  destruct (verdict is_buy e sl tp r) eqn:V; [|done]. intros [= <- <-]. done.
Qed.

(** C18: The legacy single-target walk and the multi-leg simulator agree: for a
    bracket of floats on the right sides of the entry and any clean, strictly
    time-ordered candles, both see the same candles after the entry time, the
    walk finds a verdict exactly when the simulation of [single_target_plan]
    resolves, at the same price and with the same R (minus one for a stop, the
    reward-to-risk ratio for the target, pessimistically the stop when one
    candle reaches both), and otherwise both leave the trade open, at the same
    last candle time. *)
Theorem legacy_walk_is_simulation is_buy e sl tp created rows plan :
  bracket is_buy e sl tp -> is_nan created = false ->
  Forall (fun r => row_fin r = true) rows -> ts_sorted rows ->
  single_target_plan (VFloat e) (VFloat sl) (VFloat tp) = Ok plan ->
  let rr := (PrimFloat.abs (tp - e) / PrimFloat.abs (e - sl))%float in
  exists subsequent w,
    filterM (after_entry (VFloat created)) (map row_dict rows) = Ok subsequent /\
    legacy_walk (side_text is_buy) (VFloat created) (VFloat sl) (VFloat tp) (VFloat rr) VNone
      (map row_dict rows) = Ok w /\
    let r := simulate_plan plan (VList subsequent) in
    match w with
    | inl u =>
        sr_status r = StResolved /\ round4 (sr_realized_r r) = u_r u /\
        (exists f, sr_fills r = [f] /\ u_price u = VFloat (fill_price f)) /\
        ((u_status u = "loss"%string /\ sr_realized_r r = VFloat (-1)) \/
         (u_status u = "win"%string /\ sr_realized_r r = VFloat rr))
    | inr last_ts =>
        sr_status r = StOpen /\
        last_ts = match last subsequent with Some c => vget c "timestamp_ms" | None => VNone end
    end.
Proof.
  intros Hb Hc Hf Hs Hp. cbv zeta. exists (map row_dict (filter (later created) rows)).
  rewrite legacy_walk_single, filter_later by done. eexists. split; [done|]. split; [done|].
  assert (simulate_plan plan (VList (map row_dict (filter (later created) rows)))
          = match sim_loop (single_ctx is_buy e sl tp) (sim_init (single_ctx is_buy e sl tp))
                    (filter (later created) rows) with Ok r => r | Raise _ => open_backstop end) as ->.
  { unfold simulate_plan, _simulate_plan_impl. rewrite (sim_context_single is_buy e sl tp plan Hb Hp).
    cbn [mbind res_bind]. unfold _clean_candles. cbn [py_iter mbind res_bind].
    rewrite clean_row_dicts by (by apply filter_Forall). cbn [mbind res_bind].
    by rewrite omap_id_Some, row_sort_id by (by apply filter_Forall || by apply ts_sorted_filter). }
  destruct (sim_loop_single is_buy e sl tp Hb (filter (later created) rows)) as (r & -> & H);
    [by apply filter_Forall|].
  destruct (first_verdict _ _ _ _ _) as [[c u]|] eqn:V.
  - destruct H as (t & Ht & ->). apply first_verdict_some in V. unfold verdict in V.
    destruct (sl_hit _ _ c); [|destruct (tp_hit _ _ c); [|done]]; injection V as <-;
      (split; [done|]; split; [done|]; split; [by eexists|]; tauto).
  - split; [done|]. unfold last_time. change (map row_dict) with (fmap (M := list) row_dict).
    rewrite fmap_last. by destruct (last _).
Qed.

Lemma legacy_walk_is_simulation_witness :
  let rows := [{| r_ts := 10; r_open := 100; r_high := 119; r_low := 95; r_close := 110 |};
               {| r_ts := 20; r_open := 110; r_high := 121; r_low := 109; r_close := 120 |}]%float in
  exists subsequent w, 
    filterM (after_entry (VFloat 5)) (map row_dict rows) = Ok subsequent /\
    legacy_walk "BUY" (VFloat 5) (VFloat 90) (VFloat 120) (VFloat 2) VNone (map row_dict rows) = Ok w /\
    match w with inl u => u_status u = "win"%string | inr _ => False end.
Proof.
  intros rows.
  destruct (legacy_walk_is_simulation true 100 90 120 5 rows
    {| mp_action := VStr "BUY"; mp_entry := VFloat 100; mp_initial_stop := VFloat 90;
       mp_legs := [{| leg_target := VFloat 120; leg_fraction := VFloat 1 |}];
       mp_breakeven := None; mp_trailing := None; mp_atr_14 := VNone |}) as (s & w & H1 & H2 & _).
  - by vm_compute.
  - by vm_compute.
  - repeat constructor.
  - unfold ts_sorted, rows. do 2 (constructor; [|repeat constructor]). constructor.
  - vm_compute. reflexivity.
  - exists s, w. split; [exact H1|]. split; [exact H2|]. clear H1. revert H2. vm_compute. by intros [= <-].
Defined.

(** ** The table's invariant *)

Record journal_wf (db : journal) : Prop := {
  wf_ids : Forall (fun r => exists i, r !! "id" = Some (VInt i) /\ i < next_id db) (jrows db);
  wf_distinct : NoDup (map row_id (jrows db));
  wf_threads : forall a b t, a ∈ jrows db -> b ∈ jrows db ->
    text_is (col a "thread_id") t = true -> text_is (col b "thread_id") t = true -> a = b;
}.

Lemma text_is_true v s : text_is v s = true <-> v = VStr s.
Proof.
  destruct v; simpl; try (split; intros; discriminate). rewrite String.eqb_eq. split; congruence.
Qed.

Lemma NoDup_map_inj {A} (f : A -> Z) l a b : NoDup (map f l) -> a ∈ l -> b ∈ l -> f a = f b -> a = b.
Proof.
  induction l as [|x l IH]; intros Hn Ha Hb E; [by apply elem_of_nil in Ha|].
  cbn [map] in Hn. apply NoDup_cons in Hn as [Hx Hn].
  assert (forall y, y ∈ l -> f y <> f x) as Hd.
  { intros y Hy Eq. apply Hx. rewrite <- Eq. by apply (list_elem_of_fmap_2 f). }
  apply elem_of_cons in Ha as [->|Ha], Hb as [->|Hb]; [done| | |by apply IH].
  - by destruct (Hd b Hb).
  - by destruct (Hd a Ha).
Qed.

Lemma row_insert_eq (r : trow) k v : <[k := v]> r !! k = Some v.
Proof. apply lookup_insert_eq. Qed.

Lemma row_insert_ne (r : trow) k k' v : k <> k' -> <[k := v]> r !! k' = r !! k'.
Proof. apply lookup_insert_ne. Qed.

Lemma col_insert_eq (r : trow) k v : col (<[k := v]> r) k = v.
Proof. unfold col. by rewrite row_insert_eq. Qed.

Lemma col_insert_ne (r : trow) k k' v : k <> k' -> col (<[k := v]> r) k' = col r k'.
Proof. intros H. unfold col. by rewrite row_insert_ne. Qed.

(** Storing a value, NULL as no entry. *)
Definition store (k : string) (v : val) (r : trow) : trow := match v with VNone => r | w => <[k := w]> r end.

Lemma store_ne k k' v r : k <> k' -> store k v r !! k' = r !! k'.
Proof. intros H. unfold store. destruct v; cbv iota; try reflexivity; by apply row_insert_ne. Qed.

Lemma store_eq k v r : r !! k = None -> col (store k v r) k = v.
Proof. intros H. unfold store. destruct v; cbv iota; try apply col_insert_eq. unfold col. by rewrite H. Qed.

Lemma bind_columns_cons k v cols r :
  bind_columns ((k, v) :: cols) = Ok r ->
  exists v' r', bind_param v = Ok v' /\ bind_columns cols = Ok r' /\ r = store k (affinity k v') r'.
Proof.
  cbn [bind_columns]. intros (v' & Hv & H)%bind_Ok. apply bind_Ok in H as (r' & Hr & H).
  apply Ok_inj in H. subst r. exists v', r'. split; [exact Hv|]. split; [exact Hr|]. by destruct (affinity k v').
Qed.

Lemma bind_columns_None cols r k : bind_columns cols = Ok r -> k ∉ map fst cols -> r !! k = None.
Proof.
  revert r. induction cols as [|[k' w] cols IH]; intros r H Hk; [apply Ok_inj in H; subst r; apply lookup_empty|].
  apply bind_columns_cons in H as (v' & r' & _ & H & ->). apply not_elem_of_cons in Hk as [Hne Hk].
  rewrite store_ne by (cbn in Hne; congruence). by apply IH.
Qed.

(** What [bind_columns] stores in each column. *)
Lemma bind_columns_col cols r k v :
  bind_columns cols = Ok r -> NoDup (map fst cols) -> (k, v) ∈ cols ->
  exists v', bind_param v = Ok v' /\ col r k = affinity k v'.
Proof.
  revert r. induction cols as [|[k' w] cols IH]; intros r H Hn Hin; [by apply elem_of_nil in Hin|].
  apply bind_columns_cons in H as (v' & r' & Hv & H & ->). cbn [map] in Hn. apply NoDup_cons in Hn as [Hk Hn].
  apply elem_of_cons in Hin as [[= -> ->]|Hin].
  - exists v'. split; [done|]. apply store_eq. by eapply bind_columns_None.
  - destruct (IH _ H Hn Hin) as (u & Hu & E). exists u. split; [done|]. rewrite <- E. unfold col.
    rewrite store_ne; [done|]. intros ->. apply Hk. by apply (list_elem_of_fmap_2 fst _ (k, v)).
Qed.

(** ** A scoring pass settles open trades *)

Definition SETTLED : list string := ["win"; "loss"; "expired"]%string.
Definition SCORED_COLUMNS : list string :=
  ["status"; "outcome_price"; "outcome_at"; "r_multiple"; "exit_breakdown"; "scored_at"]%string.

Lemma expire_status expiry now last created ex u :
  expire_or_none expiry now last created ex = Ok (Some u) -> u_status u = "expired"%string.
Proof.
  unfold expire_or_none. destruct (is_none last); [done|]. intros (b & _ & H)%bind_Ok. destruct b; [|done].
  apply bind_Ok in H as (a & _ & H). apply Ok_inj in H. by injection H as <-.
Qed.

Lemma legacy_walk_status action created sl tp rr last candles u :
  legacy_walk action created sl tp rr last candles = Ok (inl u) -> In (u_status u) SETTLED.
Proof.
  revert last. induction candles as [|c candles IH]; intros last H; cbn [legacy_walk] in H; [done|].
  apply bind_Ok in H as (s & Hs & H). destruct s as [|ts|u']; try by eapply IH.
  apply Ok_inj in H. injection H as ->. unfold legacy_step in Hs. destruct c; try done.
  apply bind_Ok in Hs as (b & _ & Hs). destruct b; [|done]. cbn [negb] in Hs.
  apply bind_Ok in Hs as (b & _ & Hs). destruct b; [done|].
  apply bind_Ok in Hs as (b1 & _ & Hs). apply bind_Ok in Hs as (b2 & _ & Hs). apply bind_Ok in Hs as (a & _ & Hs).
  destruct b2, b1; cbn [andb] in Hs; apply Ok_inj in Hs; try discriminate; injection Hs as <-; cbn; tauto.
Qed.

Lemma try_any_Some {A} (m : res (option A)) a : try_any m None = Some a -> m = Ok (Some a).
Proof. destruct m; simpl; congruence. Qed.

Lemma score_managed_status expiry now tr candles text u :
  _score_managed_trade expiry now tr candles text = Some u -> In (u_status u) SETTLED.
Proof.
  intros H%try_any_Some. apply bind_Ok in H as (plan & _ & H). destruct plan as [plan|]; [|done].
  apply bind_Ok in H as (b & _ & H). destruct b; [|done]. cbn [negb] in H.
  apply bind_Ok in H as (ms & _ & H). apply bind_Ok in H as (sub & _ & H). cbv zeta in H.
  apply bind_Ok in H as (n & _ & H).
  destruct (match sr_status (simulate_plan plan (VList sub)) with StResolved => n | _ => false end).
  - apply bind_Ok in H as (win & _ & H). destruct (last _).
    + apply bind_Ok in H as (ok & _ & H). apply bind_Ok in H as (a & _ & H). apply Ok_inj in H. injection H as <-.
      destruct win; cbn; tauto.
    + apply Ok_inj in H. injection H as <-. destruct win; cbn; tauto.
  - apply expire_status in H. rewrite H. cbn. tauto.
Qed.

Lemma score_one_status expiry now tr candles u :
  _score_one expiry now tr candles = Ok (Some u) -> In (u_status u) SETTLED.
Proof.
  unfold _score_one. destruct (truthy _).
  { intros H. apply Ok_inj in H. by eapply score_managed_status. }
  intros (b & _ & H)%bind_Ok. destruct b; [|done]. cbn [negb] in H.
  apply bind_Ok in H as (ms & _ & H). apply bind_Ok in H as (d & _ & H). apply bind_Ok in H as (risk & _ & H).
  apply bind_Ok in H as (none & _ & H). destruct none; [done|].
  apply bind_Ok in H as (d2 & _ & H). apply bind_Ok in H as (reward & _ & H). apply bind_Ok in H as (rr & _ & H).
  apply bind_Ok in H as (w & Hw & H). destruct w as [u'|ts].
  - apply Ok_inj in H. injection H as ->. by eapply legacy_walk_status.
  - apply expire_status in H. rewrite H. cbn. tauto.
Qed.

Lemma set_col_ne k k' v r : k <> k' -> set_col k v r !! k' = r !! k'.
Proof.
  intros H. unfold set_col. destruct (affinity k v); cbv iota; try (by apply row_insert_ne). by apply lookup_delete_ne.
Qed.

Lemma set_columns_ne k cols r : k ∉ map fst cols -> set_columns cols r !! k = r !! k.
Proof.
  unfold set_columns. revert r. induction cols as [|[k' v] cols IH]; intros r H; [done|].
  apply not_elem_of_cons in H as [Hne H]. cbn [fold_left]. rewrite IH by done.
  apply set_col_ne. cbn in Hne. congruence.
Qed.

Lemma bind_all_keys cols cols' : bind_all cols = Ok cols' -> map fst cols' = map fst cols.
Proof.
  revert cols'. induction cols as [|[k v] cols IH]; intros cols' H; cbn [bind_all] in H.
  - by apply Ok_inj in H as <-.
  - apply bind_Ok in H as (v' & _ & H). apply bind_Ok in H as (r & Hr & H). apply Ok_inj in H. subst cols'.
    cbn [map fst]. f_equal. by apply IH.
Qed.

(** How a row may differ after a scoring pass. *)
Definition settles (r r' : trow) : Prop :=
  r' = r \/
  (status_is "open" r = true /\ (exists s, In s SETTLED /\ col r' "status" = VStr s) /\
   forall k, k ∉ SCORED_COLUMNS -> r' !! k = r !! k).

Lemma update_settles u t cols r :
  In (u_status u) SETTLED -> bind_all (update_columns u t) = Ok cols -> status_is "open" r = true ->
  forall r0, settles r0 r -> settles r0 (set_columns cols r).
Proof.
  intros Hu Hb Ho r0 H0. pose proof (bind_all_keys _ _ Hb) as Hk. cbn in Hk.
  assert (status_is "open" r0 = true) as Ho0.
  { destruct H0 as [->|(H & _ & _)]; done. }
  right. split; [done|]. split.
  - exists (u_status u). split; [done|]. cbn [update_columns bind_all] in Hb.
    apply bind_Ok in Hb as (v & Hv & Hb). apply Ok_inj in Hv. subst v. apply bind_Ok in Hb as (rest & _ & Hb).
    apply Ok_inj in Hb. subst cols. unfold set_columns. cbn [fold_left]. injection Hk as Hk.
    fold (set_columns rest (set_col "status" (VStr (u_status u)) r)). unfold col.
    rewrite set_columns_ne by (rewrite Hk; by refine (bool_decide_unpack _ _)).
    apply col_insert_eq.
  - intros k Hin. rewrite set_columns_ne by (by rewrite Hk).
    destruct H0 as [->|(_ & _ & H)]; [done|by apply H].
Qed.

Lemma settles_id r r' : settles r r' -> row_id r' = row_id r.
Proof.
  intros [->|(_ & _ & H)]; [done|]. unfold row_id, col. rewrite H; [done|]. by refine (bool_decide_unpack _ _).
Qed.

Lemma settles_thread r r' : settles r r' -> col r' "thread_id" = col r "thread_id".
Proof.
  intros [->|(_ & _ & H)]; [done|]. unfold col. rewrite H; [done|]. by refine (bool_decide_unpack _ _).
Qed.

Lemma settled_not_open r s : In s SETTLED -> col r "status" = VStr s -> status_is "open" r = false.
Proof. unfold status_is. intros H ->. cbn in H. by destruct H as [<-|[<-|[<-|[]]]]. Qed.

Definition upd (id : Z) (cols : list (string * val)) (r : trow) : trow :=
  if row_id r =? id then set_columns cols r else r.

Section one_update.
Context (u : score_update) (t : float) (cols : list (string * val)).
Context (Hu : In (u_status u) SETTLED) (Hb : bind_all (update_columns u t) = Ok cols).

Lemma upd_settles r : status_is "open" r = true -> settles r (set_columns cols r).
Proof. intros H. eapply update_settles; [exact Hu|exact Hb|done|by left]. Qed.

Lemma upd_closes r : status_is "open" r = true -> status_is "open" (set_columns cols r) = false.
Proof.
  intros H. pose proof (bind_all_keys _ _ Hb) as Hk. cbn in Hk.
  assert (col (set_columns cols r) "status" = VStr (u_status u)) as Hs; [|by eapply settled_not_open].
  cbn [update_columns bind_all] in Hb. apply bind_Ok in Hb as (v & Hv & Hb').
  apply Ok_inj in Hv. subst v. apply bind_Ok in Hb' as (rest & _ & Hb'). apply Ok_inj in Hb'. subst cols.
  injection Hk as Hk. unfold set_columns. cbn [fold_left].
  fold (set_columns rest (set_col "status" (VStr (u_status u)) r)). unfold col.
  rewrite set_columns_ne by (rewrite Hk; by refine (bool_decide_unpack _ _)). apply col_insert_eq.
Qed.

Lemma map_upd_other id l : id ∉ map row_id l -> map (upd id cols) l = l.
Proof.
  induction l as [|r l IH]; intros H; [done|]. cbn [map] in *. apply not_elem_of_cons in H as [Hne H].
  unfold upd at 1. rewrite (proj2 (Z.eqb_neq _ _)) by congruence. by rewrite IH.
Qed.

Lemma map_upd_ids id l :
  (forall r, r ∈ l -> row_id r = id -> status_is "open" r = true) -> map row_id (map (upd id cols) l) = map row_id l.
Proof.
  intros H. rewrite map_map. apply map_ext_in. intros r Hr%list_elem_of_In. unfold upd.
  destruct (Z.eqb_spec (row_id r) id) as [E|]; [|done]. by apply settles_id, upd_settles, H.
Qed.

Lemma map_upd_count tr l :
  NoDup (map row_id l) -> tr ∈ l -> status_is "open" tr = true ->
  count_status "open" (map (upd (row_id tr) cols) l) + 1 = count_status "open" l.
Proof.
  unfold count_status. induction l as [|r l IH]; intros Hn Ht Ho; [by apply elem_of_nil in Ht|].
  cbn [map] in Hn. apply NoDup_cons in Hn as [Hx Hn]. apply elem_of_cons in Ht as [->|Ht].
  - cbn [map List.filter]. rewrite map_upd_other by done. unfold upd. rewrite Z.eqb_refl, upd_closes, Ho by done.
    cbn [length]. lia.
  - cbn [map List.filter]. specialize (IH Hn Ht Ho). unfold upd at 1.
    assert (row_id r <> row_id tr) as Hne.
    { intros E. apply Hx. rewrite E. by apply (list_elem_of_fmap_2 row_id). }
    rewrite (proj2 (Z.eqb_neq _ _)) by done. destruct (status_is "open" r); cbn [length]; lia.
Qed.

Lemma map_upd_settles l0 l id :
  (forall r, r ∈ l -> row_id r = id -> status_is "open" r = true) ->
  Forall2 settles l0 l -> Forall2 settles l0 (map (upd id cols) l).
Proof.
  intros H F. induction F as [|r0 r l0 l Hr F IH]; [constructor|]. cbn [map]. constructor.
  - unfold upd. destruct (Z.eqb_spec (row_id r) id) as [E|]; [|done].
    eapply update_settles; [exact Hu|exact Hb| |done]. apply H; [left|done].
  - apply IH. intros r1 Hr1. apply H. by right.
Qed.
End one_update.

(** The state of a scoring pass: the working copy against the initial rows, the
    trades still to score, and the running count. *)
Record pass_inv (rows0 : list trow) (trades : list trow) (db : journal) (n : Z) : Prop := {
  pi_settles : Forall2 settles rows0 (jrows db);
  pi_distinct : NoDup (map row_id (jrows db));
  pi_trades : Forall (fun r => r ∈ jrows db /\ status_is "open" r = true) trades;
  pi_nodup : NoDup (map row_id trades);
  pi_count : count_status "open" (jrows db) + n = count_status "open" rows0;
}.

Lemma pass_inv_drop rows0 tr trades db n : pass_inv rows0 (tr :: trades) db n -> pass_inv rows0 trades db n.
Proof. intros []. apply Forall_cons in pi_trades0 as [_ ?]. apply NoDup_cons in pi_nodup0 as [_ ?]. by constructor. Qed.

Lemma pass_inv_drop_all rows0 l trades db n : pass_inv rows0 (l ++ trades) db n -> pass_inv rows0 trades db n.
Proof. induction l as [|x l IH]; [done|]. intros H%pass_inv_drop. by apply IH. Qed.

Lemma pass_inv_update rows0 tr trades db n u t cols :
  pass_inv rows0 (tr :: trades) db n -> In (u_status u) SETTLED -> bind_all (update_columns u t) = Ok cols ->
  pass_inv rows0 trades (update_row db (row_id tr) cols) (n + 1).
Proof.
  intros [Ps Pd Pt Pn Pc] Hu Hb. apply Forall_cons in Pt as [[Hin Ho] Pt]. cbn [map] in Pn.
  apply NoDup_cons in Pn as [Hx Pn].
  assert (forall r, r ∈ jrows db -> row_id r = row_id tr -> status_is "open" r = true) as Hopen.
  { intros r Hr E. by rewrite (NoDup_map_inj _ _ _ _ Pd Hr Hin E). }
  unfold update_row. fold (upd (row_id tr) cols). constructor; cbn [jrows].
  - by eapply map_upd_settles.
  - by erewrite map_upd_ids.
  - apply Forall_forall. intros r Hr. rewrite Forall_forall in Pt. destruct (Pt r Hr) as [Hr' Ho']. split; [|done].
    apply list_elem_of_fmap. exists r. split; [|done]. unfold upd.
    destruct (Z.eqb_spec (row_id r) (row_id tr)) as [E|]; [|done]. exfalso. apply Hx. rewrite <- E.
    by apply (list_elem_of_fmap_2 row_id).
  - done.
  - pose proof (map_upd_count u t cols Hu Hb tr (jrows db) Pd Hin Ho). lia.
Qed.

Section pass.
Context (expiry : float) (now_of scored_now : Z -> float) (fetch : val -> val -> list val) (rows0 : list trow).

Lemma score_group_inv trades rest candles db n :
  pass_inv rows0 (trades ++ rest) db n ->
  let '(db', n', ok) := score_group expiry now_of scored_now trades candles db n in
  next_id db' = next_id db /\
  exists rest', pass_inv rows0 rest' db' n' /\ (ok = true -> rest' = rest).
Proof.
  revert db n. induction trades as [|tr trades IH]; intros db n H; cbn [score_group].
  { split; [done|]. by exists rest. }
  destruct (_score_one _ _ _ _) as [[u|]|] eqn:S.
  - destruct (bind_all _) as [cols|] eqn:B; [|split; [done|]; by eexists].
    pose proof (pass_inv_update _ _ _ _ _ _ _ _ H (score_one_status _ _ _ _ _ S) B) as H'.
    specialize (IH _ _ H'). by destruct (score_group _ _ _ _ _ _ _) as [[db' n'] ok].
  - by apply IH, (pass_inv_drop _ tr).
  - split; [done|]. by eexists.
Qed.

Lemma score_groups_inv groups db n :
  pass_inv rows0 (concat (map snd groups)) db n ->
  let '(db', n', ok) := score_groups expiry now_of scored_now fetch groups db n in
  next_id db' = next_id db /\ exists rest, pass_inv rows0 rest db' n'.
Proof.
  revert db n. induction groups as [|[[sym tf] trades] groups IH]; intros db n H; cbn [score_groups].
  { split; [done|]. by eexists. }
  cbn [map concat snd] in H. pose proof (pass_inv_drop_all _ _ _ _ _ H) as Hd.
  destruct (negb (truthy sym) || negb (truthy tf)); [by apply IH|]. cbv zeta.
  destruct (fetch sym tf) as [|c cs]; [by apply IH|].
  pose proof (score_group_inv trades (concat (map snd groups)) (c :: cs) db n H) as G.
  destruct (score_group _ _ _ _ _ _ _) as [[db' n'] ok]. destruct G as (E & rest' & G & Hok).
  destruct ok; [|split; [done|]; by exists rest']. rewrite (Hok eq_refl) in G. specialize (IH db' n' G).
  destruct (score_groups _ _ _ _ _ _ _) as [[db2 n2] ok2]. rewrite <- E. exact IH.
Qed.
End pass.

Lemma group_add_perm {K A} (eqb : K -> K -> bool) k (x : A) gs :
  concat (map snd (group_add eqb k x gs)) ≡ₚ x :: concat (map snd gs).
Proof.
  induction gs as [|[k' l] gs IH]; [done|]. cbn [group_add]. destruct (eqb k' k); cbn [map concat snd].
  - rewrite <- app_assoc. symmetry. apply Permutation_middle.
  - rewrite IH. symmetry. apply Permutation_middle.
Qed.

Lemma group_by_perm {K A} (eqb : K -> K -> bool) (key : A -> K) l :
  concat (map snd (group_by eqb key l)) ≡ₚ l.
Proof.
  unfold group_by.
  assert (forall gs, concat (map snd (fold_left (fun gs x => group_add eqb (key x) x gs) l gs)) ≡ₚ
                     l ++ concat (map snd gs)) as H.
  { induction l as [|x l IH]; intros gs; cbn [fold_left]; [done|]. rewrite IH, group_add_perm.
    symmetry. apply Permutation_middle. }
  rewrite H. cbn. by rewrite app_nil_r.
Qed.

Lemma filter_In_elem {A} (p : A -> bool) l x : x ∈ List.filter p l <-> x ∈ l /\ p x = true.
Proof. by rewrite !list_elem_of_In, filter_In. Qed.

Lemma NoDup_map_filter {A} (f : A -> Z) p l : NoDup (map f l) -> NoDup (map f (List.filter p l)).
Proof.
  induction l as [|x l IH]; [done|]. cbn [map List.filter]. intros [Hx Hn]%NoDup_cons.
  destruct (p x); [|by apply IH]. cbn [map]. apply NoDup_cons. split; [|by apply IH].
  intros (y & Ey & Hy)%list_elem_of_fmap. apply Hx. rewrite Ey. apply filter_In_elem in Hy as [Hy _].
  by apply (list_elem_of_fmap_2 f).
Qed.

Lemma open_pass_inv db symbol :
  journal_wf db ->
  pass_inv (jrows db)
    (concat (map snd (group_by pair_eqb (fun r => (col r "symbol", col r "timeframe")) (open_rows db symbol)))) db 0.
Proof.
  intros [Wi Wd Wt]. set (gs := group_by _ _ _). assert (concat (map snd gs) ≡ₚ open_rows db symbol) as Hp by apply group_by_perm.
  constructor.
  - apply Forall_Forall2_diag, Forall_forall. intros r _. by left.
  - done.
  - rewrite Hp. apply Forall_forall. intros r [Hr Ho]%filter_In_elem. bools. done.
  - assert (map row_id (concat (map snd gs)) ≡ₚ map row_id (open_rows db symbol)) as -> by (by apply Permutation_map).
    by apply NoDup_map_filter.
  - lia.
Qed.

Lemma score_pass_settles expiry now_of scored_now fetch db symbol :
  journal_wf db ->
  let '(db', n) := score_open_trades expiry now_of scored_now fetch db symbol in
  Forall2 settles (jrows db) (jrows db') /\ next_id db' = next_id db /\
  (db' = db \/ count_status "open" (jrows db') + n = count_status "open" (jrows db)).
Proof.
  intros W. unfold score_open_trades.
  pose proof (score_groups_inv expiry now_of scored_now fetch (jrows db) _ _ _ (open_pass_inv db symbol W)) as H.
  destruct (score_groups _ _ _ _ _ _ _) as [[db' n] ok]. destruct H as (E & rest & [Ps _ _ _ Pc]).
  destruct ok; [by split_and!; auto|]. split; [|by auto].
  apply Forall_Forall2_diag, Forall_forall. intros r _. by left.
Qed.

(** A scoring pass only settles open trades and accounts for what it
    settles: row by row it leaves a trade as it was, or turns an open one into a
    win, a loss or an expiry without touching any other column; the pass either
    commits, and then the number of open trades drops by exactly the returned
    count, or is rolled back whole. *)
Theorem score_open_trades_settles expiry now_of scored_now fetch db symbol :
  journal_wf db ->
  let '(db', n) := score_open_trades expiry now_of scored_now fetch db symbol in
  Forall2 settles (jrows db) (jrows db') /\ next_id db' = next_id db /\
  (db' = db \/ count_status "open" (jrows db') + n = count_status "open" (jrows db)).
Proof. exact (score_pass_settles expiry now_of scored_now fetch db symbol). Qed.

(** ** Scoring passes in sequence *)

Inductive score_pass : journal -> journal -> Prop :=
| a_score_pass db expiry now_of scored_now fetch symbol :
    score_pass db (score_open_trades expiry now_of scored_now fetch db symbol).1.

(** Any number of passes, each with its own clock and candles. *)
Definition scores : journal -> journal -> Prop := rtc score_pass.

#[export] Instance settles_preorder : PreOrder settles.
Proof.
  split; [by left|]. intros a b c Hab [->|(Ho & Hs & Hk)]; [done|].
  destruct Hab as [->|(_ & (s & Hin & E) & _)]; [by right|]. by rewrite (settled_not_open b s Hin E) in Ho.
Qed.

(** Two open trades, resolved in turn. *)
Definition open_trade (id : Z) (sym : string) : trow :=
  list_to_map [("id", VInt id); ("created_at", VFloat 1); ("symbol", VStr sym); ("timeframe", VStr "1h");
               ("action", VStr "BUY"); ("entry", VFloat 100); ("stop_loss", VFloat 90); ("take_profit", VFloat 120);
               ("status", VStr "open")]%string.

Definition two_open : journal := {| jrows := [open_trade 1 "A"; open_trade 2 "B"]; next_id := 3 |}.

(** A pass that an exception ends still reports the trades it had settled:
    with one trade that reaches its target and another whose candle carries an
    integer too large for a float, nothing is committed and the count is one. *)
Theorem score_open_trades_counts_rolled_back :
  score_open_trades 0 (fun _ => 10%float) (fun _ => 10%float)
    (fun sym _ => if text_is sym "A" then [num_candle 5000 100 125 95 120] else [num_candle 5000 100 (10 ^ 400) 95 120])
    two_open VNone
  = (two_open, 1).
Proof. vm_compute. reflexivity. Qed.

Lemma two_open_wf : journal_wf two_open.
Proof.
  constructor.
  - repeat constructor; eexists; (split; [vm_compute; reflexivity|done]).
  - refine (bool_decide_unpack _ _). by vm_compute.
  - assert (Forall (fun r => col r "thread_id" = VNone) (jrows two_open)) as H.
    { repeat constructor; vm_compute; reflexivity. }
    rewrite Forall_forall in H. intros a b t Ha _ Hat _. by rewrite (H a Ha) in Hat.
Qed.

Lemma score_open_trades_settles_witness :
  let '(db', n) := score_open_trades 0 (fun _ => 10%float) (fun _ => 10%float)
                     (fun _ _ => [num_candle 5000 100 125 95 120]) two_open VNone in
  n = 2 /\ Forall2 settles (jrows two_open) (jrows db').
Proof.
  pose proof (score_open_trades_settles 0 (fun _ => 10%float) (fun _ => 10%float)
    (fun _ _ => [num_candle 5000 100 125 95 120]) two_open VNone two_open_wf) as H.
  assert ((score_open_trades 0 (fun _ => 10%float) (fun _ => 10%float)
    (fun _ _ => [num_candle 5000 100 125 95 120]) two_open VNone).2 = 2) as E by (vm_compute; reflexivity).
  destruct (score_open_trades _ _ _ _ _ _) as [db' n]. split; [exact E|]. apply H.
Defined.

(** ** Recording, under any interleaving *)

Lemma find_thread_some db t i :
  find_thread db t = Some i -> exists r, r ∈ jrows db /\ text_is (col r "thread_id") t = true /\ row_id r = i.
Proof.
  unfold find_thread. destruct (List.filter _ _) as [|r l] eqn:F; [done|]. cbn. intros [= <-]. exists r.
  assert (r ∈ r :: l) as Hr by left. rewrite <- F in Hr. by apply filter_In_elem in Hr as [? ?].
Qed.

Lemma find_thread_in db t r :
  journal_wf db -> r ∈ jrows db -> text_is (col r "thread_id") t = true -> find_thread db t = Some (row_id r).
Proof.
  intros W Hr Ht. assert (r ∈ List.filter (fun r => text_is (col r "thread_id") t) (jrows db)) as Hf.
  { by apply filter_In_elem. }
  destruct (find_thread db t) as [i|] eqn:E.
  - apply find_thread_some in E as (r' & Hr' & Ht' & <-). by rewrite (wf_threads _ W r r' t).
  - unfold find_thread in E. destruct (List.filter _ _); [by apply elem_of_nil in Hf|done].
Qed.

(** Every row of [db] is still there, under its identifier and thread. *)
Definition keeps (db db' : journal) : Prop :=
  next_id db <= next_id db' /\
  forall r, r ∈ jrows db -> exists r', r' ∈ jrows db' /\ row_id r' = row_id r /\ col r' "thread_id" = col r "thread_id".

Lemma keeps_refl db : keeps db db.
Proof. split; [lia|]. intros r Hr. by exists r. Qed.

Lemma keeps_trans a b c : keeps a b -> keeps b c -> keeps a c.
Proof.
  intros [N1 K1] [N2 K2]. split; [lia|]. intros r Hr. destruct (K1 r Hr) as (r1 & H1 & I1 & T1).
  destruct (K2 r1 H1) as (r2 & H2 & I2 & T2). exists r2. split; [done|]. by rewrite I2, T2, I1, T1.
Qed.

Lemma insert_row_wf db r db' i :
  journal_wf db -> insert_row db r = Some (db', i) ->
  journal_wf db' /\ keeps db db' /\
  (forall t, text_is (col r "thread_id") t = true -> find_thread db' t = Some i).
Proof.
  intros W. unfold insert_row.
  match goal with |- context [if ?x then _ else _] => destruct x eqn:D end; [done|].
  apply orb_false_iff in D as [_ D]. intros [= <- <-]. set (r' := <["id" := VInt (next_id db)]> r).
  assert (row_id r' = next_id db) as Hid by (unfold row_id, r'; by rewrite col_insert_eq).
  assert (col r' "thread_id" = col r "thread_id") as Hth by (by apply col_insert_ne).
  assert (forall a t, a ∈ jrows db -> text_is (col a "thread_id") t = true ->
          text_is (col r' "thread_id") t = true -> False) as Hfresh.
  { intros a t Ha Hat Hrt. rewrite Hth in Hrt. apply text_is_true in Hrt. rewrite Hrt in D.
    by rewrite (find_thread_in db t a W Ha Hat) in D. }
  assert (journal_wf {| jrows := jrows db ++ [r']; next_id := next_id db + 1 |}) as W'.
  { constructor; cbn [jrows next_id].
    - apply Forall_app. split.
      + eapply Forall_impl; [apply (wf_ids _ W)|]. intros a (k & E & L). exists k. split; [done|lia].
      + repeat constructor. exists (next_id db). split; [apply row_insert_eq|lia].
    - rewrite map_app. apply NoDup_app. split; [apply (wf_distinct _ W)|]. split; [|apply NoDup_singleton].
      intros x (a & -> & Ha)%list_elem_of_fmap Hx. apply list_elem_of_singleton in Hx.
      pose proof (wf_ids _ W) as Hi. rewrite Forall_forall in Hi. destruct (Hi a Ha) as (k & E & L).
      assert (row_id a = k) by (unfold row_id, col; by rewrite E). rewrite Hid in Hx. lia.
    - intros a b t Ha Hb Hat Hbt. apply elem_of_app in Ha as [Ha|Ha%list_elem_of_singleton], Hb as [Hb|Hb%list_elem_of_singleton].
      + by apply (wf_threads _ W a b t).
      + subst b. by destruct (Hfresh a t).
      + subst a. by destruct (Hfresh b t).
      + by subst. }
  split; [exact W'|]. split.
  - split; cbn [next_id jrows]; [lia|]. intros a Ha. exists a. split; [|done]. apply elem_of_app. by left.
  - intros t Ht. transitivity (Some (row_id r')); [|by rewrite Hid].
    apply find_thread_in; [exact W'| |by rewrite Hth]. apply elem_of_app. right. by left.
Qed.

Lemma settles_wf db db' :
  journal_wf db -> Forall2 settles (jrows db) (jrows db') -> next_id db' = next_id db -> journal_wf db' /\ keeps db db'.
Proof.
  intros W F N.
  assert (forall r', r' ∈ jrows db' -> exists r, r ∈ jrows db /\ settles r r') as Hback.
  { intros r' Hr'. apply list_elem_of_lookup in Hr' as [i Hi].
    destruct (Forall2_lookup_r _ _ _ _ _ F Hi) as (r & Hr & Hs). exists r. split; [|done]. by eapply list_elem_of_lookup_2. }
  assert (map row_id (jrows db') = map row_id (jrows db)) as Hids.
  { clear -F. induction F as [|r r' l l' H F IH]; [done|]. cbn [map]. by rewrite IH, (settles_id _ _ H). }
  split.
  - constructor.
    + apply Forall_forall. intros r' Hr'. destruct (Hback r' Hr') as (r & Hr & Hs).
      pose proof (wf_ids _ W) as Hi. rewrite Forall_forall in Hi. destruct (Hi r Hr) as (k & E & L).
      exists k. rewrite N. split; [|done]. destruct Hs as [->|(_ & _ & Hk)]; [done|].
      rewrite Hk; [done|]. by refine (bool_decide_unpack _ _).
    + rewrite Hids. apply (wf_distinct _ W).
    + intros a b t Ha Hb Hat Hbt. destruct (Hback a Ha) as (a0 & Ha0 & Sa), (Hback b Hb) as (b0 & Hb0 & Sb).
      rewrite (settles_thread _ _ Sa) in Hat. rewrite (settles_thread _ _ Sb) in Hbt.
      apply (NoDup_map_inj row_id (jrows db')); [by rewrite Hids; apply (wf_distinct _ W)|done|done|].
      by rewrite (settles_id _ _ Sa), (settles_id _ _ Sb), (wf_threads _ W a0 b0 t).
  - split; [lia|]. intros r Hr. apply list_elem_of_lookup in Hr as [i Hi].
    destruct (Forall2_lookup_l _ _ _ _ _ F Hi) as (r' & Hr' & Hs). exists r'.
    split; [by eapply list_elem_of_lookup_2|]. by rewrite (settles_id _ _ Hs), (settles_thread _ _ Hs).
Qed.

(** However often open trades are scored, each row is left alone or settled once. *)
Lemma scores_settle db db' :
  scores db db' -> journal_wf db ->
  journal_wf db' /\ Forall2 settles (jrows db) (jrows db') /\ next_id db' = next_id db.
Proof.
  induction 1 as [db|db0 db1 db2 [db expiry now_of scored_now fetch symbol] H IH]; intros W.
  - split_and!; done || reflexivity.
  - pose proof (score_pass_settles expiry now_of scored_now fetch db symbol W) as P.
    destruct (score_open_trades _ _ _ _ _ _) as [dbx n]. cbn [fst] in *. destruct P as (F & N & _).
    destruct (settles_wf _ _ W F N) as [W1 _]. destruct (IH W1) as (W2 & F2 & N2).
    split_and!; [done| |congruence]. by etrans.
Qed.

Lemma filter_wf p db :
  journal_wf db -> journal_wf {| jrows := List.filter p (jrows db); next_id := next_id db |}.
Proof.
  intros [Wi Wd Wt]. constructor; cbn [jrows next_id].
  - rewrite Forall_forall in *. intros r [Hr _]%filter_In_elem. by apply Wi.
  - by apply NoDup_map_filter.
  - intros a b t [Ha _]%filter_In_elem [Hb _]%filter_In_elem. by apply Wt.
Qed.

Lemma commit_columns_wf db tid cols :
  journal_wf db -> journal_wf (commit_columns db tid cols).1 /\ keeps db (commit_columns db tid cols).1.
Proof.
  intros W. unfold commit_columns. destruct (bind_columns cols) as [r|]; [|split; [done|apply keeps_refl]].
  destruct (insert_row db r) as [[db' i]|] eqn:I; [|split; [done|apply keeps_refl]].
  destruct (insert_row_wf _ _ _ _ W I) as (W' & K & _). done.
Qed.

(** One write by any process sharing the store.  [w_commit] is the second half
    of a recording whose existence check was made in an earlier state. *)
Inductive writes : journal -> journal -> Prop :=
| w_record db decision symbol timeframe mode plan thread_id now :
    writes db (record_decision db decision symbol timeframe mode plan thread_id now).1
| w_commit db decision symbol timeframe mode plan thread_id now cols :
    decision_columns decision symbol timeframe mode plan thread_id now = Ok cols ->
    writes db (commit_columns db (thread_of thread_id) cols).1
| w_backtest db decision symbol timeframe status price at_ r now now' :
    writes db (record_backtest_trade db decision symbol timeframe status price at_ r now now').1
| w_score db expiry now_of scored_now fetch symbol :
    writes db (score_open_trades expiry now_of scored_now fetch db symbol).1.

Inductive deletes : journal -> journal -> Prop :=
| d_purge db source symbol : deletes db (purge db source symbol).1
| d_dedupe db : deletes db (dedupe_thread_rows db).1.

Lemma writes_wf db db' : writes db db' -> journal_wf db -> journal_wf db' /\ keeps db db'.
Proof.
  intros [] W; [|by apply commit_columns_wf| |].
  - unfold record_decision. destruct (decision_columns _ _ _ _ _ _ _); [|split; [done|apply keeps_refl]].
    cbv zeta. destruct (match thread_of thread_id with Some t => find_thread db0 t | None => None end);
      [split; [done|apply keeps_refl]|by apply commit_columns_wf].
  - unfold record_backtest_trade. cbv zeta.
    match goal with |- context [match ?x with Ok _ => _ | Raise _ => _ end] => destruct x end;
      [by apply commit_columns_wf|split; [done|apply keeps_refl]].
  - pose proof (score_pass_settles expiry now_of scored_now fetch db0 symbol W) as H.
    destruct (score_open_trades _ _ _ _ _ _) as [db1 n]. destruct H as (F & N & _). by apply settles_wf.
Qed.

Definition journal_step (db db' : journal) : Prop := writes db db' \/ deletes db db'.

Definition empty_journal : journal := {| jrows := []; next_id := 1 |}.

(** C15: Every journal reached from the empty one by recordings (whole, or split
    with the existence check made earlier), replayed trades, scoring passes,
    purges and deduplications, in any order, has distinct identifiers below the
    next one and at most one row per thread. *)
Theorem journal_invariant db : rtc journal_step empty_journal db -> journal_wf db.
Proof.
  assert (journal_wf empty_journal) as W0.
  { constructor; cbn; [constructor|constructor|]. intros a b t Ha. by apply elem_of_nil in Ha. }
  intros H. revert W0. generalize empty_journal H. clear H. intros d0 H.
  induction H as [|a b c [Hs|Hs] Hr IH]; intros W; [done|apply IH..].
  - by eapply writes_wf.
  - destruct Hs; by apply filter_wf.
Qed.

Lemma decision_columns_thread decision symbol timeframe mode plan thread_id now cols :
  decision_columns decision symbol timeframe mode plan thread_id now = Ok cols ->
  NoDup (map fst cols) /\
  ("thread_id"%string, match thread_of thread_id with Some t => VStr t | None => VNone end) ∈ cols.
Proof.
  unfold decision_columns. cbv zeta. intros H.
  do 7 (let a := fresh "a" in apply bind_Ok in H as (a & _ & H)).
  match type of H with (let '(_, _) := ?x in _) = _ => destruct x as [[e s] t] end.
  repeat (let a := fresh "a" in apply bind_Ok in H as (a & _ & H)).
  apply Ok_inj in H. subst cols. split.
  - cbn [map fst]. refine (bool_decide_unpack _ _). by vm_compute.
  - apply list_elem_of_In. cbn [In]. tauto.
Qed.

Lemma commit_finds db decision symbol timeframe mode plan thread_id now cols t i :
  journal_wf db -> decision_columns decision symbol timeframe mode plan thread_id now = Ok cols ->
  thread_of thread_id = Some t ->
  (commit_columns db (Some t) cols).2 = Some i ->
  find_thread (commit_columns db (Some t) cols).1 t = Some i.
Proof.
  intros W D T. destruct (decision_columns_thread _ _ _ _ _ _ _ _ D) as [Hn Hin]. rewrite T in Hin.
  unfold commit_columns. destruct (bind_columns cols) as [r|] eqn:B; [|done].
  destruct (bind_columns_col _ _ _ _ B Hn Hin) as (v & Hv & Hc). apply Ok_inj in Hv. subst v.
  destruct (insert_row db r) as [[db' j]|] eqn:I; cbn [fst snd]; [|done]. intros [= ->].
  destruct (insert_row_wf _ _ _ _ W I) as (_ & _ & F). apply F. rewrite Hc. apply text_is_true. done.
Qed.

Lemma record_finds db decision symbol timeframe mode plan thread_id now t i :
  journal_wf db -> thread_of thread_id = Some t ->
  (record_decision db decision symbol timeframe mode plan thread_id now).2 = Some i ->
  find_thread (record_decision db decision symbol timeframe mode plan thread_id now).1 t = Some i.
Proof.
  intros W T. unfold record_decision. destruct (decision_columns _ _ _ _ _ _ _) as [cols|] eqn:D; [|done].
  cbv zeta. rewrite T. destruct (find_thread db t) as [j|] eqn:F; [|by eapply commit_finds].
  cbn [fst snd]. by intros [= ->].
Qed.

Lemma find_thread_keeps db db' t i :
  journal_wf db' -> keeps db db' -> find_thread db t = Some i -> find_thread db' t = Some i.
Proof.
  intros W [_ K] (r & Hr & Ht & <-)%find_thread_some. destruct (K r Hr) as (r' & Hr' & Hi & Hc).
  rewrite <- Hi. apply find_thread_in; [done|done|]. by rewrite Hc.
Qed.

Lemma writes_star_wf db db' : rtc writes db db' -> journal_wf db -> journal_wf db' /\ keeps db db'.
Proof.
  induction 1 as [a|a b c Hab Hbc IH]; intros W; [split; [done|apply keeps_refl]|].
  destruct (writes_wf _ _ Hab W) as [Wb Kb]. destruct (IH Wb) as [Wc Kc]. split; [done|]. by eapply keeps_trans.
Qed.

(** Recording is idempotent per thread, under any interleaving: once a
    thread's decision has been recorded under an identifier, and as long as
    nothing is deleted, every later recording for that thread (whatever its
    payload, and also when its own existence check was made before the row
    existed) returns that identifier and leaves the store as it is. *)
Theorem record_decision_once db decision symbol timeframe mode plan thread_id now t i db2 decision' symbol' timeframe'
    mode' plan' thread_id' now' cols' r' :
  journal_wf db -> thread_of thread_id = Some t -> thread_of thread_id' = Some t ->
  (record_decision db decision symbol timeframe mode plan thread_id now).2 = Some i ->
  rtc writes (record_decision db decision symbol timeframe mode plan thread_id now).1 db2 ->
  decision_columns decision' symbol' timeframe' mode' plan' thread_id' now' = Ok cols' ->
  bind_columns cols' = Ok r' ->
  record_decision db2 decision' symbol' timeframe' mode' plan' thread_id' now' = (db2, Some i) /\
  commit_columns db2 (thread_of thread_id') cols' = (db2, Some i).
Proof.
  intros W T T' Hi Hw D B. pose proof (record_finds _ _ _ _ _ _ _ _ _ _ W T Hi) as F.
  assert (journal_wf (record_decision db decision symbol timeframe mode plan thread_id now).1) as W1.
  { eapply writes_wf; [apply w_record|done]. }
  destruct (writes_star_wf _ _ Hw W1) as [W2 K]. pose proof (find_thread_keeps _ _ _ _ W2 K F) as F2.
  split; [unfold record_decision; rewrite D; cbv zeta; by rewrite T', F2|].
  unfold commit_columns. rewrite B, T'. destruct (decision_columns_thread _ _ _ _ _ _ _ _ D) as [Hn Hin].
  rewrite T' in Hin. destruct (bind_columns_col _ _ _ _ B Hn Hin) as (v & Hv & Hc). apply Ok_inj in Hv. subst v.
  unfold insert_row. rewrite Hc. cbn [affinity]. by rewrite F2, orb_true_r.
Qed.

Definition a_decision : val :=
  VDict [(VStr "action", VStr "buy"); (VStr "entry", VInt 100); (VStr "stop_loss", VInt 90);
         (VStr "take_profit", VInt 120)].

Definition one_recorded : journal * option Z :=
  record_decision empty_journal a_decision (VStr "INFY") (VStr "1h") VNone VNone (VStr "run-1") 1000.

Lemma journal_invariant_witness :
  journal_wf one_recorded.1.
Proof. apply journal_invariant. eapply rtc_l; [left; apply w_record|apply rtc_refl]. Defined.

Lemma empty_journal_wf : journal_wf empty_journal.
Proof.
  constructor; cbn; [constructor|constructor|]. intros a b t Ha. by apply elem_of_nil in Ha.
Qed.

Lemma record_decision_once_witness :
  record_decision one_recorded.1 (VDict []) (VStr "TCS") (VStr "4h") VNone VNone (VStr "run-1") 2000
  = (one_recorded.1, Some 1).
Proof.
  refine (proj1 (record_decision_once empty_journal a_decision (VStr "INFY") (VStr "1h") VNone VNone (VStr "run-1")
            1000 "run-1" 1 one_recorded.1 (VDict []) (VStr "TCS") (VStr "4h") VNone VNone (VStr "run-1") 2000
            _ _ empty_journal_wf eq_refl eq_refl _ (rtc_refl _ _) _ _)).
  - vm_compute. reflexivity.
  - vm_compute. reflexivity.
  - vm_compute. reflexivity.
Defined.

(** ** Deduplication *)

Lemma text_eqb_eq a b : text_eqb a b = true -> a = b.
Proof. destruct a, b; simpl; try done; intros ->%String.eqb_eq; done. Qed.

Lemma text_eqb_refl a b : text_eqb a b = true -> text_eqb a a = true.
Proof. destruct a, b; simpl; try done; intros _; apply String.eqb_refl. Qed.

(** The duplicate key of a row, when it has one. *)
Definition dup_key (r : trow) : val * list val * Z :=
  match col r "thread_id" with
  | VNone => (VNone, map (fun k => coalesce_text (col r k)) ["symbol"; "timeframe"; "action"; "setup_key"]%string,
              whole_second (col r "created_at"))
  | v => (v, [], 0)
  end.

Lemma same_decision_key a b : same_decision a b = true -> dup_key a = dup_key b.
Proof.
  unfold same_decision, dup_key. destruct (col a "thread_id"), (col b "thread_id"); try done.
  - cbn [forallb map]. intros H. bools.
    repeat match goal with H : text_eqb _ _ = true |- _ => apply text_eqb_eq in H as -> end.
    match goal with H : whole_second _ = _ |- _ => by rewrite H end.
  - intros ->%String.eqb_eq. done.
Qed.

Lemma text_eqb_sym a b : text_eqb a b = text_eqb b a.
Proof. destruct a, b; simpl; try done; apply String.eqb_sym. Qed.

Lemma same_decision_sym a b : same_decision a b = same_decision b a.
Proof.
  unfold same_decision. destruct (col a "thread_id"), (col b "thread_id"); try done; [|apply String.eqb_sym].
  f_equal; [|apply Z.eqb_sym]. cbn [forallb]. by rewrite !(text_eqb_sym (coalesce_text (col a _))).
Qed.

Lemma same_decision_trans a b c : same_decision a b = true -> same_decision b c = true -> same_decision a c = true.
Proof.
  intros H1 H2. pose proof (same_decision_key _ _ H1) as K1. revert H1 H2 K1.
  unfold same_decision, dup_key.
  destruct (col a "thread_id") eqn:Ea, (col b "thread_id") eqn:Eb; try done.
  - intros _ H K. injection K as K1 K2 K3 K4 K5. cbn [forallb] in *. by rewrite K1, K2, K3, K4, K5.
  - intros ->%String.eqb_eq. done.
Qed.

Lemma earliest_spec rows r :
  earliest rows r = true <-> forall r', r' ∈ rows -> same_decision r r' = true -> row_id r <= row_id r'.
Proof.
  unfold earliest. rewrite forallb_forall. split; intros H r' Hr'.
  - intros Hs. apply list_elem_of_In, H in Hr'. rewrite Hs in Hr'. cbn in Hr'. lia.
  - apply list_elem_of_In in Hr'. destruct (same_decision r r') eqn:E; [|done]. cbn. apply Z.leb_le. by apply H.
Qed.

(** The least row of a group exists. *)
Lemma earliest_exists rows r :
  r ∈ rows -> exists k, k ∈ rows /\ earliest rows k = true /\ (k = r \/ same_decision r k = true) /\ row_id k <= row_id r.
Proof.
  set (G := r :: List.filter (same_decision r) rows). intros Hr.
  assert (exists k, k ∈ G /\ forall g, g ∈ G -> row_id k <= row_id g) as (k & Hk & Hmin).
  { clear. subst G. generalize (List.filter (same_decision r) rows). intros l. revert r.
    induction l as [|x l IH]; intros r; [exists r; split; [by left|]; intros g ->%list_elem_of_singleton; lia|].
    destruct (IH x) as (k & Hk & Hm). destruct (Z.le_gt_cases (row_id k) (row_id r)).
    - exists k. split; [by right|]. intros g [->|Hg]%elem_of_cons; [done|by apply Hm].
    - exists r. split; [by left|]. intros g [->|Hg]%elem_of_cons; [lia|]. specialize (Hm g Hg). lia. }
  assert (k = r \/ (k ∈ rows /\ same_decision r k = true)) as Hkr.
  { apply elem_of_cons in Hk as [->|Hk%filter_In_elem]; auto. }
  exists k. split; [destruct Hkr as [->|[? _]]; done|]. split; [|split; [tauto|apply Hmin; by left]].
  apply earliest_spec. intros r' Hr' Hs. apply Hmin. right. apply filter_In_elem. split; [done|].
  destruct Hkr as [->|[_ Hrk]]; [done|by eapply same_decision_trans].
Qed.

Lemma filter_all {A} (p : A -> bool) l : (forall x, x ∈ l -> p x = true) -> List.filter p l = l.
Proof.
  induction l as [|x l IH]; intros H; [done|]. cbn. rewrite (H x) by left. f_equal. apply IH. intros y Hy. apply H. by right.
Qed.

Lemma filter_length_split {A} (p : A -> bool) l :
  (length (List.filter p l) + length (List.filter (fun x => negb (p x)) l))%nat = length l.
Proof. induction l as [|x l IH]; [done|]. cbn. destruct (p x); cbn; lia. Qed.

(** Deduplication keeps exactly the earliest row of every decision: each row
    has a surviving representative that is itself or a duplicate with no greater
    identifier, no two survivors are duplicates of one another, survivors keep
    their order, the reported number is the number of rows removed, and a second
    run removes nothing. *)
Theorem dedupe_keeps_earliest db :
  journal_wf db ->
  let '(db', n) := dedupe_thread_rows db in
  (forall r, r ∈ jrows db ->
     exists k, k ∈ jrows db' /\ (k = r \/ same_decision r k = true) /\ row_id k <= row_id r) /\
  (forall a b, a ∈ jrows db' -> b ∈ jrows db' -> same_decision a b = true -> a = b) /\
  jrows db' `sublist_of` jrows db /\
  Z.of_nat (length (jrows db')) + n = Z.of_nat (length (jrows db)) /\
  dedupe_thread_rows db' = (db', 0).
Proof.
  intros W. unfold dedupe_thread_rows.
  cbv zeta. cbn [jrows next_id]. set (rows' := List.filter (earliest (jrows db)) (jrows db)).
  assert (forall x, x ∈ rows' <-> x ∈ jrows db /\ earliest (jrows db) x = true) as Hin by (intros; apply filter_In_elem).
  assert (forall x, x ∈ rows' -> earliest rows' x = true) as Hid.
  { intros x [Hx He]%Hin. apply earliest_spec. intros r' [Hr' _]%Hin. by apply earliest_spec with (1 := He). }
  split_and!.
  - intros r Hr. destruct (earliest_exists _ _ Hr) as (k & Hk & He & Hkr & Hle). exists k. by rewrite Hin.
  - intros a b [Ha Ea]%Hin [Hb Eb]%Hin Hs. apply (NoDup_map_inj row_id (jrows db)); [apply (wf_distinct _ W)|done|done|].
    rewrite earliest_spec in Ea, Eb. specialize (Ea b Hb Hs). rewrite same_decision_sym in Hs. specialize (Eb a Ha Hs). lia.
  - subst rows'. generalize (earliest (jrows db)). intros p. generalize (jrows db). clear. intros l.
    induction l as [|x l IH]; [done|]. cbn. destruct (p x); by constructor.
  - pose proof (filter_length_split (earliest (jrows db)) (jrows db)). fold rows' in H. lia.
  - rewrite filter_all by done.
    replace (List.filter (fun r => negb (earliest rows' r)) rows') with (@nil trow); [done|].
    pose proof (filter_length_split (earliest rows') rows') as L. rewrite filter_all in L by done.
    symmetry. apply length_zero_iff_nil. lia.
Qed.

Lemma dedupe_keeps_earliest_witness : (dedupe_thread_rows two_open).2 = 0 /\ journal_wf two_open.
Proof.
  pose proof (dedupe_keeps_earliest two_open two_open_wf) as H. split; [|exact two_open_wf].
  destruct (dedupe_thread_rows two_open) as [db' n] eqn:E. destruct H as (_ & _ & _ & L & _).
  cbn [snd]. assert (length (jrows db') = 2%nat) as L2; [|rewrite L2 in L; cbn in L; lia].
  revert E. vm_compute. by intros [= <- _].
Defined.
