(* ===== verification/Attribution.v ===== *)
(** * Feature attribution

    Models [agents/deep-quant-loop/attribution.py]: the configuration, the parsing of
    setup keys, the per-dimension statistics over the journal's scored rows, the
    contribution metric, ranking and recommendations, and the weight map the agent may
    consult.  [x ** 2] is [x * x], raising [OverflowError] where the code's does. *)

From stdpp Require Import base list gmap strings.
From Stdlib Require Import ZArith Lia Floats Ascii.
From S2P Require Import Prelude PyFloat PyNum PyVal PyEnv PyStats PyJson PyStr TradeManager JournalTags Journal.

#[local] Set Warnings "-inexact-float".
Open Scope Z_scope.
Open Scope res_scope.

(** ** Configuration *)

Definition DEFAULT_MIN_SAMPLE_DIMENSION := 30.
Definition DEFAULT_MIN_SAMPLE_VALUE := 10.
Definition DEFAULT_CONTRIBUTION_THRESHOLD : float := 0.15%float.
Definition DEFAULT_GLOBAL_MIN_SCORED := 50.
Definition DEFAULT_DOWN_WEIGHT_FACTOR : float := 0.5%float.
Definition DEFAULT_WEIGHT_MAP_ENABLED := false.

Record AttributionConfig := {
  min_sample_dimension : Z;
  min_sample_value : Z;
  contribution_threshold : float;
  global_min_scored : Z;
  down_weight_factor : float;
  weight_map_enabled : bool;
}.

Definition resolve_attribution_config (e : env) : AttributionConfig :=
  let factor := resolve_float_band e "ATTRIBUTION_DOWN_WEIGHT_FACTOR" DEFAULT_DOWN_WEIGHT_FACTOR 0 1 in
  {| min_sample_dimension := resolve_int_min e "ATTRIBUTION_MIN_SAMPLE_DIMENSION" DEFAULT_MIN_SAMPLE_DIMENSION 1;
     min_sample_value := resolve_int_min e "ATTRIBUTION_MIN_SAMPLE_VALUE" DEFAULT_MIN_SAMPLE_VALUE 1;
     contribution_threshold :=
       resolve_float_band e "ATTRIBUTION_CONTRIBUTION_THRESHOLD" DEFAULT_CONTRIBUTION_THRESHOLD 0 infinity;
     global_min_scored := resolve_int_min e "ATTRIBUTION_GLOBAL_MIN_SCORED" DEFAULT_GLOBAL_MIN_SCORED 1;
     down_weight_factor := if PrimFloat.leb factor 0 then DEFAULT_DOWN_WEIGHT_FACTOR else factor;
     weight_map_enabled := resolve_bool_flag e "ATTRIBUTION_WEIGHT_MAP_ENABLED" DEFAULT_WEIGHT_MAP_ENABLED |}.

(** ** Fingerprint parsing *)

Definition UNKNOWN_VALUE : string := "unknown".

(** One [dimension:value] token, already stripped and not empty. *)
Definition parse_token (token : string) : string * string :=
  let '(dimension, sep, value) := partition_char ":" token in
  let dimension := strip dimension in
  let value := strip value in
  (dimension,
   if negb sep || negb (nonempty dimension) || negb (nonempty value) || String.eqb (lower value) UNKNOWN_VALUE
   then UNKNOWN_VALUE else value).

Definition parse_setup_key (setup_key : val) : list (string * string) :=
  match setup_key with
  | VStr s =>
      if negb (nonempty (strip s)) then []
      else
        fold_left (fun result token =>
            if nonempty token then let '(d, v) := parse_token token in upsert d (fun _ => v) result else result)
          (map strip (split_char "|" s)) []
  | _ => []
  end.

(** ** Scored trades *)

(** [str(row.get(k) or "").strip().lower()] *)
Definition norm_field (row : list (val * val)) (k : string) : string :=
  lower (strip (py_str (py_or (dict_get row k) (VStr "")))).

Definition is_scored_trade (row : val) : bool :=
  match row with
  | VDict r =>
      str_in (norm_field r "status") ["win"; "loss"]%string &&
      match _is_num (dict_get r "r_multiple") with Ok b => b | Raise _ => false end
  | _ => false
  end.

Definition BACKTEST_SOURCE : string := "backtest".

Definition row_fields (row : val) : list (val * val) := match row with VDict r => r | _ => [] end.

Definition _is_backtest_source (row : val) : bool := String.eqb (norm_field (row_fields row) "source") BACKTEST_SOURCE.

(** ** Per-value statistics *)

Record bucket := { b_wins : Z; b_losses : Z; b_r_sum : float; b_backtest : Z; b_live : Z }.

Definition empty_bucket : bucket := {| b_wins := 0; b_losses := 0; b_r_sum := 0%float; b_backtest := 0; b_live := 0 |}.

Definition observe (win : bool) (r : float) (backtest : bool) (b : bucket) : bucket :=
  {| b_wins := if win then b_wins b + 1 else b_wins b;
     b_losses := if win then b_losses b else b_losses b + 1;
     b_r_sum := (b_r_sum b + r)%float;
     b_backtest := if backtest then b_backtest b + 1 else b_backtest b;
     b_live := if backtest then b_live b else b_live b + 1 |}.

Definition tallies := list (string * list (string * bucket)).

Definition tally_one (win : bool) (r : float) (backtest : bool) (acc : tallies) (dv : string * string) : tallies :=
  upsert dv.1 (fun dim => upsert dv.2 (fun b => observe win r backtest (default empty_bucket b)) (default [] dim)) acc.

Definition tally_row (acc : tallies) (row : val) : tallies :=
  if negb (is_scored_trade row) then acc
  else
    match py_float (dict_get (row_fields row) "r_multiple") with
    | Raise _ => acc
    | Ok r =>
        fold_left (tally_one (String.eqb (norm_field (row_fields row) "status") "win") r (_is_backtest_source row))
          (parse_setup_key (dict_get (row_fields row) "setup_key")) acc
    end.

Record Dimension_Stats := {
  ds_value : string;
  ds_count : Z;
  ds_wins : Z;
  ds_losses : Z;
  ds_win_rate : option float;
  ds_expectancy_r : option float;
  ds_weak_prior : bool;
  ds_backtest_count : Z;
  ds_live_count : Z;
}.

Definition stats_of (config : AttributionConfig) (value : string) (b : bucket) : res Dimension_Stats :=
  let count := b_wins b + b_losses b in
  win_rate ← (if count =? 0 then Ok None else q ← int_truediv (b_wins b) count; Ok (Some (f_round_nd q 4)));
  expectancy ← (if count =? 0 then Ok None else n ← int_to_float count; Ok (Some (f_round_nd (b_r_sum b / n) 4)));
  Ok {| ds_value := value; ds_count := count; ds_wins := b_wins b; ds_losses := b_losses b; ds_win_rate := win_rate;
        ds_expectancy_r := expectancy; ds_weak_prior := count <? min_sample_value config;
        ds_backtest_count := b_backtest b; ds_live_count := b_live b |}.

Definition value_stats := list (string * Dimension_Stats).

Definition compute_dimension_stats (rows : list val) (config : AttributionConfig) : res (list (string * value_stats)) :=
  mapM_res (fun '(dimension, values) =>
      vs ← mapM_res (fun '(value, b) => s ← stats_of config value b; Ok (value, s)) values;
      Ok (dimension, vs))
    (fold_left tally_row rows []).

(** ** The contribution metric *)

(** The values that carry a usable expectancy, with their weights. *)
Definition usable_expectancy (s : Dimension_Stats) : option (Z * float) :=
  match ds_expectancy_r s with
  | Some m => if (0 <? ds_count s) && fin m then Some (ds_count s, m) else None
  | None => None
  end.

Definition compute_contribution (vs : value_stats) (config : AttributionConfig) : res (option float) :=
  let weighted := omap (fun kv => usable_expectancy kv.2) vs in
  let total_n := fold_left Z.add (map fst weighted) 0 in
  if (total_n <=? 0) || (total_n <? min_sample_dimension config) then Ok None
  else
    total ← int_to_float total_n;
    terms ← mapM_res (fun '(n, m) => w ← int_to_float n; Ok (w * m)%float) weighted;
    let mu := (float_sum terms / total)%float in
    squares ← mapM_res (fun '(n, m) => w ← int_to_float n; s ← square (m - mu); Ok (w * s)%float) weighted;
    let variance := (float_sum squares / total)%float in
    let variance := if PrimFloat.ltb variance 0 then 0%float else variance in
    Ok (Some (f_round_nd (PrimFloat.sqrt variance) 4)).

(** ** Ranking and recommendations *)

Inductive Recommendation := KEEP | DOWN_WEIGHT | INSUFFICIENT_SAMPLE.

#[export] Instance Recommendation_eq_dec : EqDecision Recommendation.
Proof. solve_decision. Defined.

Record Dimension_Report := {
  dr_dimension : string;
  dr_values : list Dimension_Stats;
  dr_total_scored : Z;
  dr_backtest_scored : Z;
  dr_live_scored : Z;
  dr_contribution : option float;
  dr_rank : Z;
  dr_recommendation : Recommendation;
}.

Definition sum_by {A} (f : A -> Z) (l : list A) : Z := fold_left (fun acc x => acc + f x) l 0.

Definition recommend (config : AttributionConfig) (total : Z) (contribution : option float) : Recommendation :=
  if total <? min_sample_dimension config then INSUFFICIENT_SAMPLE
  else
    match contribution with
    | None => INSUFFICIENT_SAMPLE
    | Some c => if PrimFloat.ltb c (contribution_threshold config) then DOWN_WEIGHT else KEEP
    end.

Definition report_of (config : AttributionConfig) (dvs : string * value_stats) : res Dimension_Report :=
  let values := map snd (sort_by (fun a b => str_ltb a.1 b.1) dvs.2) in
  contribution ← compute_contribution dvs.2 config;
  let total := sum_by ds_count values in
  Ok {| dr_dimension := dvs.1; dr_values := values; dr_total_scored := total;
        dr_backtest_scored := sum_by ds_backtest_count values; dr_live_scored := sum_by ds_live_count values;
        dr_contribution := contribution; dr_rank := 0; dr_recommendation := recommend config total contribution |}.

(** The sort key: meaningful first, contribution descending, then the name. *)
Definition rank_ltb (a b : Dimension_Report) : bool :=
  match dr_contribution a, dr_contribution b with
  | Some x, Some y =>
      if PrimFloat.eqb x y then str_ltb (dr_dimension a) (dr_dimension b) else PrimFloat.ltb y x
  | Some _, None => true
  | None, Some _ => false
  | None, None => str_ltb (dr_dimension a) (dr_dimension b)
  end.

Fixpoint number_from (i : Z) (l : list Dimension_Report) : list Dimension_Report :=
  match l with
  | [] => []
  | r :: l' =>
      {| dr_dimension := dr_dimension r; dr_values := dr_values r; dr_total_scored := dr_total_scored r;
         dr_backtest_scored := dr_backtest_scored r; dr_live_scored := dr_live_scored r;
         dr_contribution := dr_contribution r; dr_rank := i; dr_recommendation := dr_recommendation r |}
      :: number_from (i + 1) l'
  end.

Definition rank_and_recommend (stats : list (string * value_stats)) (config : AttributionConfig)
  : res (list Dimension_Report) :=
  reports ← mapM_res (report_of config) stats;
  Ok (number_from 1 (sort_by rank_ltb reports)).

(** ** The report *)

Record Attribution_Report := {
  ar_dimensions : list Dimension_Report;
  ar_total_scored : Z;
  ar_backtest_scored : Z;
  ar_live_scored : Z;
  ar_config : AttributionConfig;
  ar_weak_prior : bool;
  ar_insufficient_data : bool;
}.

Definition count_rows (p : val -> bool) (rows : list val) : Z := Z.of_nat (length (List.filter p rows)).

Definition build_attribution_report (rows : list val) (config : AttributionConfig) : res Attribution_Report :=
  let total := count_rows is_scored_trade rows in
  dimensions ← (if total =? 0 then Ok []
                else stats ← compute_dimension_stats rows config; rank_and_recommend stats config);
  Ok {| ar_dimensions := dimensions; ar_total_scored := total;
        ar_backtest_scored := count_rows (fun r => is_scored_trade r && _is_backtest_source r) rows;
        ar_live_scored := count_rows (fun r => is_scored_trade r && negb (_is_backtest_source r)) rows;
        ar_config := config; ar_weak_prior := total <? global_min_scored config;
        ar_insufficient_data := total =? 0 |}.

(** ** The weight map *)

Definition usable_factor (factor : float) : float :=
  if negb (fin factor) || PrimFloat.leb factor 0 || PrimFloat.ltb 1 factor then DEFAULT_DOWN_WEIGHT_FACTOR else factor.

Definition derive_weight_map (report : Attribution_Report) (config : AttributionConfig) : list (string * float) :=
  fold_left (fun weights entry =>
      upsert (dr_dimension entry)
        (fun _ => match dr_recommendation entry with
                  | DOWN_WEIGHT => usable_factor (down_weight_factor config)
                  | _ => 1%float
                  end) weights)
    (ar_dimensions report) [].

(** ** Reading the journal *)

(** SQLite's [TRIM]: spaces only. *)
Fixpoint drop_spaces (s : string) : string :=
  match s with String " " s' => drop_spaces s' | _ => s end.

Fixpoint drop_trailing_spaces (s : string) : string :=
  match s with
  | EmptyString => EmptyString
  | String c s' =>
      match drop_trailing_spaces s' with
      | EmptyString => if Ascii.eqb c " " then EmptyString else String c EmptyString
      | t => String c t
      end
  end.

Definition sql_norm (v : val) : string :=
  lower (drop_trailing_spaces (drop_spaces (match v with VStr s => s | _ => EmptyString end))).

(** The optional [WHERE] clauses of [_read_scored_rows]. *)
Definition in_scope (symbol source : val) (r : trow) : bool :=
  (is_none symbol || match symbol with VStr s => text_is (col r "symbol") s | _ => false end) &&
  (is_none source ||
   (if String.eqb (lower (strip (py_str source))) BACKTEST_SOURCE
    then String.eqb (sql_norm (col r "source")) BACKTEST_SOURCE
    else negb (String.eqb (sql_norm (col r "source")) BACKTEST_SOURCE))).

Definition REPORT_COLUMNS : list string := ["setup_key"; "status"; "r_multiple"; "source"; "symbol"]%string.

Definition _read_scored_rows (db : journal) (symbol source : val) : list val :=
  map (fun r => VDict (map (fun c => (VStr c, col r c)) REPORT_COLUMNS)) (List.filter (in_scope symbol source) (jrows db)).

Definition attribution_report_from_journal (db : journal) (symbol source : val) (config : AttributionConfig)
  : res Attribution_Report := build_attribution_report (_read_scored_rows db symbol source) config.

Definition weight_map_from_journal (e : env) (db : journal) (symbol : val) : res (list (string * float)) :=
  let config := resolve_attribution_config e in
  report ← attribution_report_from_journal db symbol VNone config;
  Ok (derive_weight_map report config).

(** ** Consulting the weight map *)

(** [_apply_weight_map_to_conviction] of the agent graph: the record is annotated,
    and a numeric conviction is scaled by the mean weight of the decision's
    dimensions. *)
Definition scale_conviction (conviction : val) (weights : list float) : res (option Z) :=
  match as_num conviction with
  | Some c =>
      if is_bool conviction || bool_decide (weights = []) then Ok None
      else
        n ← int_to_float (Z.of_nat (length weights));
        let mean := (float_sum weights / n)%float in
        scaled ← py_mul conviction (VFloat mean);
        x ← py_float scaled;
        r ← f_round x;
        Ok (Some (if r <? 0 then 0 else if 100 <? r then 100 else r))
  | None => Ok None
  end.

Definition _apply_weight_map_to_conviction (e : env) (db : journal) (symbol : val) (decision : list (val * val))
  : list (val * val) :=
  if negb (weight_map_enabled (resolve_attribution_config e)) then decision
  else
    match dict_get decision "defensibility" with
    | VDict record =>
        let weight_map := match weight_map_from_journal e db symbol with Ok m => m | Raise _ => [] end in
        match derive_setup_tags (VDict decision) with
        | Raise _ => decision
        | Ok tags =>
            let applied :=
              map (fun '(d, _) => (d, default 1%float (assoc_str d weight_map))) (parse_setup_key (VStr (setup_key_from_tags tags))) in
            let record := dict_set record "weight_map_applied" (VBool true) in
            let record := dict_set record "weight_map" (VDict (map (fun '(d, w) => (VStr d, VFloat w)) applied)) in
            let conviction := dict_get decision "conviction_score" in
            match scale_conviction conviction (map snd applied) with
            | Ok (Some scaled) =>
                let record := dict_set record "conviction_before_weight_map" conviction in
                let record := dict_set record "conviction_after_weight_map" (VInt scaled) in
                dict_set (dict_set decision "defensibility" (VDict record)) "conviction_score" (VInt scaled)
            | _ => dict_set decision "defensibility" (VDict record)
            end
        end
    | _ => decision
    end.
