(* ===== verification/AttributionFacts.v ===== *)
(** * Feature attribution: what the report counts

    The report's counts are exactly the scored rows, a recommendation to act needs the
    sample, weights only attenuate, and the weight map never touches a trade's levels. *)

From stdpp Require Import base list gmap strings.
From Stdlib Require Import ZArith Lia Floats Ascii.
From S2P Require Import Prelude PyFloat PyRound PyNum PyVal PyEnv PyJson PyStr TradeManager JournalTags Journal Attribution.

Open Scope Z_scope.

(** ** Tallies *)

(** The bucket of a value of a dimension. *)
Definition bucket_at (acc : tallies) (d v : string) : option bucket := assoc_str d acc ≫= assoc_str v.

Lemma bucket_at_tally win r bt acc dv d v :
  bucket_at (tally_one win r bt acc dv) d v =
  if String.eqb d dv.1 && String.eqb v dv.2
  then Some (observe win r bt (default empty_bucket (bucket_at acc d v))) else bucket_at acc d v.
Proof.
  unfold bucket_at, tally_one. rewrite upsert_assoc. destruct (String.eqb d dv.1) eqn:E; cbn [andb]; [|done].
  apply String.eqb_eq in E. subst d. cbn [mbind option_bind]. rewrite upsert_assoc.
  destruct (String.eqb v dv.2) eqn:E2.
  - apply String.eqb_eq in E2. subst v. by destruct (assoc_str dv.1 acc).
  - by destruct (assoc_str dv.1 acc).
Qed.

(** A row counts once towards each value its key names. *)
Lemma bucket_at_fold win r bt dvs acc d v :
  NoDup (map fst dvs) ->
  bucket_at (fold_left (tally_one win r bt) dvs acc) d v =
  if bool_decide (assoc_str d dvs = Some v)
  then Some (observe win r bt (default empty_bucket (bucket_at acc d v))) else bucket_at acc d v.
Proof.
  revert acc. induction dvs as [|[d1 v1] dvs IH]; intros acc Hn; cbn [fold_left map fst] in *.
  { by rewrite bool_decide_false. }
  apply NoDup_cons in Hn as [Hd Hn]. rewrite (IH _ Hn), bucket_at_tally. cbn [fst snd assoc_str].
  destruct (String.eqb d d1) eqn:E; cbn [andb]; [|done]. apply String.eqb_eq in E. subst d1.
  assert (assoc_str d dvs = None) as -> by (apply assoc_str_None; by rewrite <- list_elem_of_In).
  rewrite (bool_decide_false (None = Some v)) by done.
  destruct (String.eqb v v1) eqn:E.
  - apply String.eqb_eq in E. subst v1. by rewrite bool_decide_true.
  - rewrite bool_decide_false; [done|]. intros [= ->]. by rewrite String.eqb_refl in E.
Qed.

Lemma parse_fold_nodup tokens acc :
  NoDup (map fst acc) ->
  NoDup (map fst (fold_left (fun result token =>
     if nonempty token then let '(d, v) := parse_token token in upsert d (fun _ => v) result else result) tokens acc)).
Proof.
  revert acc. induction tokens as [|t tokens IH]; intros acc H; [done|]. cbn [fold_left]. apply IH.
  destruct (nonempty t); [|done]. destruct (parse_token t). by apply upsert_nodup.
Qed.

Lemma parse_setup_key_nodup key : NoDup (map fst (parse_setup_key key)).
Proof.
  unfold parse_setup_key. destruct key; try constructor. destruct (negb _); [constructor|].
  apply parse_fold_nodup. constructor.
Qed.

(** ** The reference count *)

(** The value a row's key gives to a dimension. *)
Definition row_value (row : val) (d : string) : option string :=
  assoc_str d (parse_setup_key (dict_get (row_fields row) "setup_key")).

Definition row_wins (row : val) : bool := String.eqb (norm_field (row_fields row) "status") "win".

(** The scored rows that carry [v] for [d]. *)
Definition carries (d v : string) (row : val) : bool := is_scored_trade row && bool_decide (row_value row d = Some v).

Lemma is_num_float x : _is_num x = Ok true -> exists f, py_float x = Ok f.
Proof.
  unfold _is_num. destruct x as [|b|z|f|s|s|l|l|l|l|l s]; cbn; intros H; try done; [|by exists f].
  mbind H. unfold py_isfinite in *. cbn in *. 
  destruct (int_to_float z); [by eexists|done].
Qed.

Definition row_r (row : val) : float :=
  match py_float (dict_get (row_fields row) "r_multiple") with Ok f => f | Raise _ => 0%float end.

Lemma bucket_at_row acc row d v :
  bucket_at (tally_row acc row) d v =
  if carries d v row
  then Some (observe (row_wins row) (row_r row) (_is_backtest_source row) (default empty_bucket (bucket_at acc d v)))
  else bucket_at acc d v.
Proof.
  unfold tally_row, carries. destruct (is_scored_trade row) eqn:S; cbn [negb andb]; [|done].
  assert (exists f, py_float (dict_get (row_fields row) "r_multiple") = Ok f) as [f Hf].
  { destruct row; try done. cbn in S |- *. apply andb_true_iff in S as [_ S].
    destruct (_is_num _) as [[]|] eqn:N; try done. by apply is_num_float. }
  unfold row_r. rewrite Hf. rewrite bucket_at_fold by apply parse_setup_key_nodup. reflexivity.
Qed.

Lemma count_rows_snoc p rows row : count_rows p (rows ++ [row]) = count_rows p rows + (if p row then 1 else 0).
Proof. unfold count_rows. rewrite List.filter_app, length_app. cbn [List.filter]. destruct (p row); cbn [length]; lia. Qed.

Lemma count_rows_nonneg p rows : 0 <= count_rows p rows.
Proof. unfold count_rows. lia. Qed.

Lemma count_rows_split p q rows :
  count_rows (fun r => p r && q r) rows + count_rows (fun r => p r && negb (q r)) rows = count_rows p rows.
Proof.
  induction rows as [|row rows IH] using rev_ind; [done|]. rewrite !count_rows_snoc.
  destruct (p row), (q row); cbn [andb negb]; lia.
Qed.

(** What a bucket holds, against the rows. *)
Definition bucket_counts (d v : string) (rows : list val) (b : bucket) : Prop :=
  b_wins b = count_rows (fun r => carries d v r && row_wins r) rows /\
  b_losses b = count_rows (fun r => carries d v r && negb (row_wins r)) rows /\
  b_backtest b = count_rows (fun r => carries d v r && _is_backtest_source r) rows /\
  b_live b = count_rows (fun r => carries d v r && negb (_is_backtest_source r)) rows.

Lemma tally_counts rows d v :
  match bucket_at (fold_left tally_row rows []) d v with
  | None => count_rows (carries d v) rows = 0
  | Some b => bucket_counts d v rows b /\ 0 < count_rows (carries d v) rows
  end.
Proof.
  induction rows as [|row rows IH] using rev_ind; [done|].
  rewrite fold_left_app. cbn [fold_left]. rewrite bucket_at_row, count_rows_snoc.
  unfold bucket_counts in *. rewrite !count_rows_snoc.
  destruct (carries d v row) eqn:C; cbn [andb].
  - unfold observe. destruct (bucket_at (fold_left tally_row rows []) d v) as [b|]; cbn [from_option id b_wins b_losses b_backtest b_live empty_bucket].
    + destruct IH as ((-> & -> & -> & ->) & ?). destruct (row_wins row), (_is_backtest_source row); cbn; lia.
    + pose proof (count_rows_split (carries d v) row_wins rows).
      pose proof (count_rows_split (carries d v) _is_backtest_source rows).
      pose proof (count_rows_nonneg (fun r => carries d v r && row_wins r) rows).
      pose proof (count_rows_nonneg (fun r => carries d v r && negb (row_wins r)) rows).
      pose proof (count_rows_nonneg (fun r => carries d v r && _is_backtest_source r) rows).
      pose proof (count_rows_nonneg (fun r => carries d v r && negb (_is_backtest_source r)) rows).
      destruct (row_wins row), (_is_backtest_source row); cbn; lia.
  - rewrite !Z.add_0_r. done.
Qed.

(** ** From tallies to statistics *)

Lemma tally_one_nodup win r bt acc dv :
  NoDup (map fst acc) /\ (forall d vs, In (d, vs) acc -> NoDup (map fst vs)) ->
  NoDup (map fst (tally_one win r bt acc dv)) /\
  (forall d vs, In (d, vs) (tally_one win r bt acc dv) -> NoDup (map fst vs)).
Proof.
  intros [H1 H2]. unfold tally_one. pose proof (upsert_nodup dv.1
    (fun dim => upsert dv.2 (fun b => observe win r bt (default empty_bucket b)) (default [] dim)) acc H1) as Hn.
  split; [done|]. intros d vs Hin. apply (assoc_str_nodup _ _ _ Hn) in Hin. rewrite upsert_assoc in Hin.
  destruct (String.eqb d dv.1).
  - injection Hin as <-. apply upsert_nodup. destruct (assoc_str dv.1 acc) eqn:A; cbn; [|constructor].
    apply assoc_str_In in A. eauto.
  - apply assoc_str_In in Hin. eauto.
Qed.

Lemma tallies_nodup rows :
  NoDup (map fst (fold_left tally_row rows [])) /\
  (forall d vs, In (d, vs) (fold_left tally_row rows []) -> NoDup (map fst vs)).
Proof.
  induction rows as [|row rows IH] using rev_ind; [split; [constructor|done]|].
  rewrite fold_left_app. cbn [fold_left]. revert IH. generalize (fold_left tally_row rows []). intros acc IH.
  unfold tally_row. destruct (negb _); [done|]. destruct (py_float _); [|done]. revert IH.
  generalize (parse_setup_key (dict_get (row_fields row) "setup_key")). intros l. revert acc.
  induction l as [|dv l IHl]; intros acc IH; [done|]. cbn [fold_left]. by apply IHl, tally_one_nodup.
Qed.

Lemma mapM_res_assoc {A B} (f : string * A -> res (string * B)) l l' k b :
  (forall x y, f x = Ok y -> y.1 = x.1) ->
  mapM_res f l = Ok l' -> assoc_str k l' = Some b -> exists a, assoc_str k l = Some a /\ f (k, a) = Ok (k, b).
Proof.
  intros Hf. revert l'. induction l as [|[x a] l IH]; intros l' H Hk; cbn [mapM_res] in H.
  - injection H as <-. done.
  - mbind H. mbind H. injection H as <-. destruct a0 as [y b']. pose proof (Hf _ _ E) as Hy. cbn in Hy. subst y.
    cbn [assoc_str] in Hk |- *. destruct (String.eqb k x) eqn:Ek.
    + apply String.eqb_eq in Ek. subst x. injection Hk as ->. eauto.
    + by apply (IH _ E0).
Qed.

Lemma mapM_res_keys {A B} (f : string * A -> res (string * B)) l l' :
  (forall x y, f x = Ok y -> y.1 = x.1) -> mapM_res f l = Ok l' -> map fst l' = map fst l.
Proof.
  intros Hf. revert l'. induction l as [|x l IH]; intros l' H; cbn [mapM_res] in H; [by injection H as <-|].
  mbind H. mbind H. injection H as <-. cbn [map]. by rewrite (Hf _ _ E), (IH _ E0).
Qed.

Definition dim_stats (config : AttributionConfig) (dv : string * list (string * bucket)) : res (string * value_stats) :=
  let '(dimension, values) := dv in
  vs ← mapM_res (fun '(value, b) => s ← stats_of config value b; Ok (value, s)) values; Ok (dimension, vs).

Definition val_stats (config : AttributionConfig) (vb : string * bucket) : res (string * Dimension_Stats) :=
  let '(value, b) := vb in s ← stats_of config value b; Ok (value, s).

Lemma dim_stats_key config x y : dim_stats config x = Ok y -> y.1 = x.1.
Proof. destruct x. cbn. intros H. mbind H. by injection H as <-. Qed.

Lemma val_stats_key config x y : val_stats config x = Ok y -> y.1 = x.1.
Proof. destruct x. cbn. intros H. mbind H. by injection H as <-. Qed.

(** The statistics of one value: its count and its two splits are counts of rows. *)
Definition stats_exact (d v : string) (rows : list val) (config : AttributionConfig) (s : Dimension_Stats) : Prop :=
  ds_value s = v /\
  ds_count s = count_rows (carries d v) rows /\ 0 < ds_count s /\
  ds_wins s = count_rows (fun r => carries d v r && row_wins r) rows /\
  ds_backtest_count s = count_rows (fun r => carries d v r && _is_backtest_source r) rows /\
  ds_wins s + ds_losses s = ds_count s /\ ds_backtest_count s + ds_live_count s = ds_count s /\
  ds_weak_prior s = (ds_count s <? min_sample_value config).

Lemma stats_of_exact d v rows config b s :
  bucket_counts d v rows b -> 0 < count_rows (carries d v) rows -> stats_of config v b = Ok s ->
  stats_exact d v rows config s.
Proof.
  intros (W & L & B & V) Hp H. unfold stats_of in H. mbind H. mbind H. injection H as <-.
  pose proof (count_rows_split (carries d v) row_wins rows).
  pose proof (count_rows_split (carries d v) _is_backtest_source rows).
  unfold stats_exact. cbn [ds_value ds_count ds_wins ds_losses ds_backtest_count ds_live_count ds_weak_prior].
  split_and!; try done; lia.
Qed.

Lemma stats_lookup rows config stats d vs v s :
  compute_dimension_stats rows config = Ok stats -> assoc_str d stats = Some vs -> assoc_str v vs = Some s ->
  stats_exact d v rows config s.
Proof.
  unfold compute_dimension_stats. intros H Hd Hv.
  destruct (mapM_res_assoc (dim_stats config) _ _ _ _ (dim_stats_key config) H Hd) as (bs & Hb & Hds).
  cbn in Hds. mbind Hds. injection Hds as ->.
  destruct (mapM_res_assoc (val_stats config) _ _ _ _ (val_stats_key config) E Hv) as (b & Hbv & Hs).
  cbn in Hs. mbind Hs. injection Hs as ->.
  pose proof (tally_counts rows d v) as T. unfold bucket_at in T. rewrite Hb in T. cbn [mbind option_bind] in T.
  rewrite Hbv in T. destruct T as [T Hp]. by eapply stats_of_exact.
Qed.

(** ** Dimension totals *)

Definition carries_dim (d : string) (row : val) : bool :=
  is_scored_trade row && match row_value row d with Some _ => true | None => false end.

Lemma sum_by_acc {A} (f : A -> Z) l z : fold_left (fun acc x => acc + f x) l z = z + sum_by f l.
Proof.
  unfold sum_by. revert z. induction l as [|x l IH]; intros z; cbn [fold_left]; [lia|].
  rewrite IH, (IH (0 + f x)). lia.
Qed.

Lemma sum_by_cons {A} (f : A -> Z) x l : sum_by f (x :: l) = f x + sum_by f l.
Proof. unfold sum_by at 1. cbn [fold_left]. rewrite sum_by_acc. lia. Qed.

Lemma sum_by_perm {A} (f : A -> Z) l l' : l ≡ₚ l' -> sum_by f l = sum_by f l'.
Proof. induction 1; rewrite ?sum_by_cons in *; lia. Qed.

Lemma sum_by_ext {A} (f g : A -> Z) l : (forall x, In x l -> f x = g x) -> sum_by f l = sum_by g l.
Proof.
  induction l as [|x l IH]; intros H; [done|]. rewrite !sum_by_cons, (H x) by (by left).
  rewrite IH; [done|]. intros; apply H; by right.
Qed.

Lemma sum_by_map {A B} (g : A -> B) (f : B -> Z) l : sum_by f (map g l) = sum_by (fun x => f (g x)) l.
Proof. induction l as [|x l IH]; [done|]. cbn [map]. by rewrite !sum_by_cons, IH. Qed.

Lemma sum_by_zero {A} (l : list A) : sum_by (fun _ => 0) l = 0.
Proof. induction l as [|x l IH]; [done|]. by rewrite sum_by_cons, IH. Qed.

(** One row adds one to the total of the values that list its own. *)
Lemma sum_by_indicator ks (v : string) (b : bool) :
  NoDup ks -> In v ks -> sum_by (fun x => if b && bool_decide (Some v = Some x) then 1 else 0) ks = if b then 1 else 0.
Proof.
  destruct b; cbn [andb]; [|intros _ _; apply sum_by_zero].
  induction ks as [|k ks IH]; intros Hn Hin; [done|]. apply NoDup_cons in Hn as [Hk Hn]. rewrite sum_by_cons.
  destruct Hin as [->|Hin].
  - rewrite bool_decide_true by done. rewrite (sum_by_ext _ (fun _ => 0)).
    + by rewrite sum_by_zero.
    + intros x Hx. rewrite bool_decide_false; [done|]. intros [= ->]. by apply Hk, list_elem_of_In.
  - rewrite bool_decide_false; [by apply IH|]. intros [= ->]. by apply Hk, list_elem_of_In.
Qed.

Lemma sum_by_add {A} (f g : A -> Z) l : sum_by (fun x => f x + g x) l = sum_by f l + sum_by g l.
Proof. induction l as [|x l IH]; [done|]. rewrite !sum_by_cons. lia. Qed.

Lemma dimension_total d ks rows p :
  NoDup ks ->
  (forall row v, In row rows -> is_scored_trade row = true -> row_value row d = Some v -> In v ks) ->
  sum_by (fun v => count_rows (fun r => carries d v r && p r) rows) ks = count_rows (fun r => carries_dim d r && p r) rows.
Proof.
  intros Hn. induction rows as [|row rows IH] using rev_ind; intros Hk.
  { apply sum_by_zero. }
  rewrite count_rows_snoc, (sum_by_ext _ (fun v => count_rows (fun r => carries d v r && p r) rows +
    (if carries d v row && p row then 1 else 0))) by (intros; apply count_rows_snoc).
  rewrite sum_by_add, IH.
  2: { intros r v Hr. apply Hk. apply in_app_iff. by left. }
  f_equal. unfold carries, carries_dim. destruct (is_scored_trade row) eqn:S; cbn [andb].
  2: { apply sum_by_zero. }
  destruct (row_value row d) as [v|] eqn:V; cbn [andb].
  - rewrite (sum_by_ext _ (fun x => if p row && bool_decide (Some v = Some x) then 1 else 0)).
    + apply sum_by_indicator; [done|]. apply (Hk row); [|done|done]. apply in_app_iff. right. by left.
    + intros x _. by rewrite andb_comm.
  - rewrite (sum_by_ext _ (fun _ => 0)); [|intros x _; by rewrite bool_decide_false].
    apply sum_by_zero.
Qed.

(** The values of a tallied dimension are all the values rows carry. *)
Lemma tally_covers rows d bs row v :
  assoc_str d (fold_left tally_row rows []) = Some bs ->
  In row rows -> is_scored_trade row = true -> row_value row d = Some v -> In v (map fst bs).
Proof.
  intros Hd Hin Hs Hv. pose proof (tally_counts rows d v) as T. unfold bucket_at in T. rewrite Hd in T.
  cbn [mbind option_bind] in T. destruct (assoc_str v bs) as [b|] eqn:A.
  - apply assoc_str_In in A. by apply (in_map fst) in A.
  - exfalso. assert (0 < count_rows (carries d v) rows); [|lia]. unfold count_rows.
    assert (In row (List.filter (carries d v) rows)) as Hf.
    { apply filter_In. split; [done|]. unfold carries. by rewrite Hs, Hv, bool_decide_true. }
    destruct (List.filter (carries d v) rows); [done|cbn; lia].
Qed.

(** ** From statistics to the report *)

Definition renumber (i : Z) (r : Dimension_Report) : Dimension_Report :=
  {| dr_dimension := dr_dimension r; dr_values := dr_values r; dr_total_scored := dr_total_scored r;
     dr_backtest_scored := dr_backtest_scored r; dr_live_scored := dr_live_scored r;
     dr_contribution := dr_contribution r; dr_rank := i; dr_recommendation := dr_recommendation r |}.

Lemma number_from_In i l r : In r (number_from i l) -> exists r0 j, In r0 l /\ r = renumber j r0.
Proof.
  revert i. induction l as [|x l IH]; intros i; [done|]. intros [<-|H]; [exists x, i; split; [by left|done]|].
  destruct (IH _ H) as (r0 & j & ? & ?). exists r0, j. split; [by right|done].
Qed.

Lemma number_from_ranks i l : 0 <= i -> map dr_rank (number_from i l) = map Z.of_nat (seq (Z.to_nat i) (length l)).
Proof.
  revert i. induction l as [|x l IH]; intros i Hi; [done|]. cbn [number_from map length seq dr_rank].
  rewrite IH by lia. f_equal; [lia|]. by replace (Z.to_nat (i + 1)) with (S (Z.to_nat i)) by lia.
Qed.

Lemma number_from_names i l : map dr_dimension (number_from i l) = map dr_dimension l.
Proof. revert i. induction l as [|x l IH]; intros i; [done|]. cbn [number_from map dr_dimension]. by rewrite IH. Qed.

Lemma number_from_length i l : length (number_from i l) = length l.
Proof. revert i. induction l as [|x l IH]; intros i; [done|]. cbn. by rewrite IH. Qed.

(** A dimension's statistics list the value of every row that carries it. *)
Lemma stats_complete rows config stats d vs :
  compute_dimension_stats rows config = Ok stats -> In (d, vs) stats ->
  NoDup (map fst vs) /\
  (forall v s, In (v, s) vs -> stats_exact d v rows config s) /\
  (forall row v, In row rows -> is_scored_trade row = true -> row_value row d = Some v -> In v (map fst vs)).
Proof.
  intros H Hin. destruct (tallies_nodup rows) as [N1 N2].
  pose proof (mapM_res_keys (dim_stats config) _ _ (dim_stats_key config) H) as K.
  assert (assoc_str d stats = Some vs) as Hd by (apply assoc_str_nodup; [by rewrite K|done]).
  destruct (mapM_res_assoc (dim_stats config) _ _ _ _ (dim_stats_key config) H Hd) as (bs & Hb & Hds).
  cbn in Hds. mbind Hds. injection Hds as ->.
  pose proof (mapM_res_keys (val_stats config) _ _ (val_stats_key config) E) as K2.
  assert (NoDup (map fst vs)) as Nv by (rewrite K2; apply (N2 d); by apply assoc_str_In). split_and!; [done| |].
  - intros v s Hv. eapply stats_lookup; [done..|]. by apply assoc_str_nodup.
  - intros row v Hr Hs Hrv. rewrite K2. by eapply tally_covers.
Qed.

Lemma sum_values f (vs : value_stats) :
  sum_by f (map snd (sort_by (fun a b => str_ltb a.1 b.1) vs)) = sum_by (fun kv => f kv.2) vs.
Proof. rewrite sum_by_map. apply sum_by_perm, sort_by_perm. Qed.

(** Totals of a statistic that counts rows. *)
Lemma stats_total rows config stats d vs f p :
  compute_dimension_stats rows config = Ok stats -> In (d, vs) stats ->
  (forall v s, stats_exact d v rows config s -> f s = count_rows (fun r => carries d v r && p r) rows) ->
  sum_by f (map snd (sort_by (fun a b => str_ltb a.1 b.1) vs)) = count_rows (fun r => carries_dim d r && p r) rows.
Proof.
  intros H Hin Hf. destruct (stats_complete _ _ _ _ _ H Hin) as (Nv & Hex & Hcov).
  rewrite sum_values, (sum_by_ext _ (fun kv => count_rows (fun r => carries d kv.1 r && p r) rows)).
  - rewrite <- (sum_by_map fst (fun v => count_rows (fun r => carries d v r && p r) rows)). by apply dimension_total.
  - intros [v s] Hv. by apply Hf, Hex.
Qed.

Lemma count_rows_and_true p rows : count_rows (fun r => p r && true) rows = count_rows p rows.
Proof. unfold count_rows. f_equal. f_equal. apply filter_ext. intros r. apply andb_true_r. Qed.

(** What one entry of the report says. *)
Definition entry_exact (rows : list val) (config : AttributionConfig) (e : Dimension_Report) : Prop :=
  dr_total_scored e = count_rows (carries_dim (dr_dimension e)) rows /\
  dr_backtest_scored e = count_rows (fun r => carries_dim (dr_dimension e) r && _is_backtest_source r) rows /\
  dr_live_scored e = dr_total_scored e - dr_backtest_scored e /\
  (forall s, In s (dr_values e) -> stats_exact (dr_dimension e) (ds_value s) rows config s) /\
  (dr_recommendation e <> INSUFFICIENT_SAMPLE ->
   min_sample_dimension config <= dr_total_scored e /\
   exists c, dr_contribution e = Some c /\
     dr_recommendation e = if PrimFloat.ltb c (contribution_threshold config) then DOWN_WEIGHT else KEEP).

Lemma report_of_exact rows config stats d vs e :
  compute_dimension_stats rows config = Ok stats -> In (d, vs) stats -> report_of config (d, vs) = Ok e ->
  dr_dimension e = d /\ entry_exact rows config e.
Proof.
  intros H Hin He. unfold report_of in He. mbind He. injection He as <-. split; [done|].
  unfold entry_exact. cbn [dr_dimension dr_values dr_total_scored dr_backtest_scored dr_live_scored dr_contribution
                           dr_recommendation fst snd].
  pose proof (stats_total _ _ _ _ _ ds_count (fun _ => true) H Hin) as Tc.
  pose proof (stats_total _ _ _ _ _ ds_backtest_count _is_backtest_source H Hin) as Tb.
  rewrite Tc, Tb, count_rows_and_true by (intros v s (?&?&?&?&?&?&?); by rewrite ?count_rows_and_true).
  split_and!; [done|done| | |].
  - rewrite (stats_total _ _ _ _ _ ds_live_count (fun r => negb (_is_backtest_source r)) H Hin).
    + pose proof (count_rows_split (carries_dim d) _is_backtest_source rows). lia.
    + intros v s (?&?&?&?&?&?&?). pose proof (count_rows_split (carries d v) _is_backtest_source rows). lia.
  - intros s Hs. apply in_map_iff in Hs as ([v s'] & <- & Hs). cbn [snd].
    assert (In (v, s') vs) as Hv by (apply list_elem_of_In in Hs; rewrite sort_by_perm in Hs; by apply list_elem_of_In).
    destruct (stats_complete _ _ _ _ _ H Hin) as (_ & Hex & _). pose proof (Hex _ _ Hv) as X. by rewrite (proj1 X).
  - unfold recommend. destruct (_ <? min_sample_dimension config) eqn:L; [done|]. destruct a as [c|]; [|done].
    intros _. split; [lia|]. by exists c.
Qed.

Lemma reports_keys config stats reports :
  mapM_res (report_of config) stats = Ok reports -> map dr_dimension reports = map fst stats.
Proof.
  revert reports. induction stats as [|[d vs] stats IH]; intros reports H; cbn [mapM_res] in H; [by injection H as <-|].
  mbind H. mbind H. injection H as <-. cbn [map fst]. rewrite (IH _ E0). unfold report_of in E. mbind E.
  by injection E as <-.
Qed.

Lemma rank_and_recommend_names rows config stats reports :
  compute_dimension_stats rows config = Ok stats -> rank_and_recommend stats config = Ok reports ->
  NoDup (map dr_dimension reports).
Proof.
  intros E0 H. unfold rank_and_recommend in H. mbind H. injection H as <-. rewrite number_from_names.
  assert (map dr_dimension (sort_by rank_ltb a) ≡ₚ map dr_dimension a) as -> by apply Permutation_map, sort_by_perm.
  rewrite (reports_keys _ _ _ E), (mapM_res_keys (dim_stats config) _ _ (dim_stats_key config) E0).
  apply (tallies_nodup rows).
Qed.

Lemma report_names_distinct rows config report :
  build_attribution_report rows config = Ok report -> NoDup (map dr_dimension (ar_dimensions report)).
Proof.
  unfold build_attribution_report. intros H. mbind H. injection H as <-. cbn [ar_dimensions].
  destruct (_ =? 0); [injection E as <-; constructor|]. mbind E. by eapply rank_and_recommend_names.
Qed.

(** ** The theorems *)

(** Every entry of an attribution report counts exactly the scored rows that carry
    its dimension, split into backtest and live rows; every value's statistics are
    exact; an entry recommends keeping or down-weighting only when the dimension has
    the minimum sample and a meaningful contribution, and then by the threshold; the
    entries are ranked 1..N, one per dimension; and the report's own totals split the
    scored rows. *)
Theorem attribution_report_exact rows config report :
  build_attribution_report rows config = Ok report ->
  (forall e, In e (ar_dimensions report) -> entry_exact rows config e) /\
  map dr_rank (ar_dimensions report) = map Z.of_nat (seq 1 (length (ar_dimensions report))) /\
  NoDup (map dr_dimension (ar_dimensions report)) /\
  ar_total_scored report = count_rows is_scored_trade rows /\
  ar_backtest_scored report + ar_live_scored report = ar_total_scored report.
Proof.
  intros H. pose proof (report_names_distinct _ _ _ H) as N. unfold build_attribution_report in H. mbind H.
  injection H as <-. cbn [ar_dimensions ar_total_scored ar_backtest_scored ar_live_scored] in N |- *.
  rewrite (count_rows_split is_scored_trade _is_backtest_source).
  destruct (count_rows is_scored_trade rows =? 0); [injection E as <-; split_and!; try done; constructor|].
  mbind E. unfold rank_and_recommend in E. mbind E. injection E as <-.
  rewrite number_from_ranks, number_from_length by lia. split_and!; try done.
  - intros e He. destruct (number_from_In _ _ _ He) as (e0 & j & He0 & ->).
    apply list_elem_of_In in He0. rewrite sort_by_perm in He0.
    destruct (mapM_res_In _ _ _ _ E1 He0) as ([d vs] & Hin%list_elem_of_In & Hr). by destruct (report_of_exact _ _ _ _ _ _ E0 Hin Hr).
Qed.

(** A journal's rows: three scored trades, one open, one from a backtest. *)
Definition demo_row (key status source : string) (r : val) : val :=
  VDict [(VStr "setup_key", VStr key); (VStr "status", VStr status); (VStr "r_multiple", r); (VStr "source", VStr source)].

Definition demo_rows : list val :=
  [demo_row "dir:long|macro:bull" "win" "live" (VFloat 2); demo_row "dir:long|macro:bear" "loss" "live" (VInt (-1));
   demo_row "dir:short" "LOSS" "backtest" (VFloat (-1)); demo_row "dir:short" "open" "live" VNone].

Definition demo_config : AttributionConfig :=
  {| min_sample_dimension := 2; min_sample_value := 2; contribution_threshold := 1%float; global_min_scored := 5;
     down_weight_factor := 0.5%float; weight_map_enabled := true |}.

Lemma attribution_report_exact_witness :
  exists report, build_attribution_report demo_rows demo_config = Ok report /\
  map (fun e => (dr_dimension e, dr_total_scored e, dr_recommendation e)) (ar_dimensions report) =
    [("macro", 2, KEEP); ("dir", 3, DOWN_WEIGHT)]%string /\
  NoDup (map dr_dimension (ar_dimensions report)).
Proof.
  assert (exists report, build_attribution_report demo_rows demo_config = Ok report /\
    map (fun e => (dr_dimension e, dr_total_scored e, dr_recommendation e)) (ar_dimensions report) =
      [("macro", 2, KEEP); ("dir", 3, DOWN_WEIGHT)]%string) as (report & H & M) by (eexists; by vm_compute).
  exists report. split_and!; [done|done|]. by apply (attribution_report_exact _ _ _ H).
Defined.

(** ** Weights only attenuate *)

Definition attenuates (w : float) : Prop := PrimFloat.ltb 0 w = true /\ PrimFloat.leb w 1 = true.

Lemma usable_factor_attenuates f : attenuates (usable_factor f).
Proof.
  unfold usable_factor, attenuates. destruct (fin f) eqn:F; cbn [negb orb]; [|done]. apply fin_not_nan in F.
  destruct (PrimFloat.leb f 0) eqn:L; cbn [orb]; [done|]. destruct (PrimFloat.ltb 1 f) eqn:U; [done|].
  rewrite leb_rank, F in L. rewrite ltb_rank, F in U. rewrite leb_rank, ltb_rank, F.
  change (is_nan 0) with false in *. change (is_nan 1) with false in *. cbn [negb andb] in *. lia.
Qed.

Lemma weights_fold config entries acc :
  let f := fold_left (fun weights entry =>
      upsert (dr_dimension entry)
        (fun _ => match dr_recommendation entry with
                  | DOWN_WEIGHT => usable_factor (down_weight_factor config)
                  | _ => 1%float
                  end) weights) entries acc in
  NoDup (map dr_dimension entries) ->
  forall d, assoc_str d f =
    match List.find (fun e => String.eqb d (dr_dimension e)) entries with
    | Some e => Some (match dr_recommendation e with DOWN_WEIGHT => usable_factor (down_weight_factor config) | _ => 1%float end)
    | None => assoc_str d acc
    end.
Proof.
  cbn zeta. revert acc. induction entries as [|e entries IH]; intros acc Hn d; [done|]. cbn [map] in Hn.
  apply NoDup_cons in Hn as [He Hn]. cbn [fold_left List.find]. rewrite (IH _ Hn), upsert_assoc.
  destruct (String.eqb d (dr_dimension e)) eqn:E; [|done]. apply String.eqb_eq in E. subst d.
  destruct (List.find _ entries) as [e'|] eqn:F; [|done]. apply find_some in F as [Hin Heq].
  apply String.eqb_eq in Heq. destruct He. rewrite Heq. apply list_elem_of_In. by apply in_map.
Qed.

(** The weight map of a report gives exactly the report's dimensions a weight, the
    resolved factor where the report recommends down-weighting and one everywhere
    else, and every weight lies in (0, 1], whatever factor the configuration holds. *)
Theorem weight_map_attenuates rows config report d :
  build_attribution_report rows config = Ok report ->
  assoc_str d (derive_weight_map report config) =
    match List.find (fun e => String.eqb d (dr_dimension e)) (ar_dimensions report) with
    | Some e => Some (match dr_recommendation e with DOWN_WEIGHT => usable_factor (down_weight_factor config) | _ => 1%float end)
    | None => None
    end /\
  forall w, assoc_str d (derive_weight_map report config) = Some w -> attenuates w.
Proof.
  intros H. unfold derive_weight_map. rewrite weights_fold by by eapply report_names_distinct. split; [done|].
  intros w. destruct (List.find _ _) as [e|]; [|done]. intros [= <-].
  destruct (dr_recommendation e); [done|apply usable_factor_attenuates|done].
Qed.

Lemma weight_map_attenuates_witness :
  exists report, build_attribution_report demo_rows demo_config = Ok report /\
  derive_weight_map report demo_config = [("macro", 1%float); ("dir", 0.5%float)]%string /\
  forall w, assoc_str "dir" (derive_weight_map report demo_config) = Some w -> attenuates w.
Proof.
  assert (exists report, build_attribution_report demo_rows demo_config = Ok report /\
    derive_weight_map report demo_config = [("macro", 1%float); ("dir", 0.5%float)]%string) as (report & H & M)
    by (eexists; by vm_compute).
  exists report. split_and!; [done|done|]. by apply (weight_map_attenuates _ _ _ "dir" H).
Defined.

(** ** Consulting the map *)

Definition in_percent (v : val) : Prop := exists z, v = VInt z /\ 0 <= z <= 100.

Lemma scale_conviction_bounded conviction weights z :
  scale_conviction conviction weights = Ok (Some z) -> 0 <= z <= 100.
Proof.
  unfold scale_conviction. destruct (as_num conviction); [|done]. destruct (is_bool conviction || _); [done|].
  intros H. mbind H. mbind H. mbind H. mbind H. injection H as <-.
  destruct (a2 <? 0) eqn:?; [lia|]. destruct (100 <? a2) eqn:?; lia.
Qed.

(** Consulting the weight map is the identity while the flag is off; when it is on
    it changes nothing of the decision but the conviction score, which becomes an
    integer from 0 to 100 or stays as it was, and the defensibility record: the action
    and every execution level are untouched. *)
Theorem weight_map_never_touches_the_trade e db symbol decision :
  let after := _apply_weight_map_to_conviction e db symbol decision in
  (weight_map_enabled (resolve_attribution_config e) = false -> after = decision) /\
  (forall k, k <> "defensibility"%string -> k <> "conviction_score"%string -> dict_get after k = dict_get decision k) /\
  (dict_get after "conviction_score" = dict_get decision "conviction_score" \/ in_percent (dict_get after "conviction_score")).
Proof.
  cbn zeta. unfold _apply_weight_map_to_conviction. destruct (weight_map_enabled _); cbn [negb]; [|by split_and!; [|done|left]].
  split; [done|]. destruct (dict_get decision "defensibility") as [|?|?|?|?|?|?|?|?|record|? ?]; try by (split; [done|left]).
  destruct (derive_setup_tags _); [|by split; [done|left]].
  destruct (scale_conviction _ _) as [[z|]|] eqn:S;
    (split; [intros k ? ?; by rewrite ?dict_get_set_ne by done|]); [|by left; rewrite dict_get_set_ne..].
  right. rewrite dict_get_set_eq. exists z. split; [done|]. by eapply scale_conviction_bounded.
Qed.

(** With the flag on, a journal that down-weights nothing leaves the conviction. *)
Lemma weight_map_never_touches_the_trade_witness :
  exists e db decision, weight_map_enabled (resolve_attribution_config e) = true /\
  dict_get (_apply_weight_map_to_conviction e db VNone decision) "conviction_score" = VInt 60 /\
  dict_get (_apply_weight_map_to_conviction e db VNone decision) "stop_loss" = VFloat 95 /\
  (weight_map_enabled (resolve_attribution_config (fun _ => None)) = false ->
   _apply_weight_map_to_conviction (fun _ => None) db VNone decision = decision).
Proof.
  exists (fun n => if String.eqb n "ATTRIBUTION_WEIGHT_MAP_ENABLED" then Some "true"%string else None), {| jrows := []; next_id := 1 |},
    [(VStr "action", VStr "BUY"); (VStr "stop_loss", VFloat 95); (VStr "conviction_score", VInt 60); (VStr "defensibility", VDict [])].
  split_and!; [by vm_compute..|]. apply (weight_map_never_touches_the_trade (fun _ => None)).
Defined.
