(* ===== verification/Calibration.v ===== *)
(** * Conviction calibration

    Models [agents/deep-quant-loop/calibration.py]: which journal rows are scored
    debates, their conviction bins, the reliability of the win rates across the bins, and
    the results of each consensus class. *)

From stdpp Require Import base list strings sorting.
From Stdlib Require Import ZArith Lia Floats Ascii.
From S2P Require Import Prelude PyFloat PyRound PyNum PyQuot PyVal PyEnv PyJson PyStr PyStats TradeManager JournalTags Journal Attribution.

#[local] Set Warnings "-inexact-float".
Open Scope Z_scope.
Open Scope res_scope.

Definition CONSENSUS_CLASSES : list string := ["strong_agree"; "lean"; "contested"]%string.

(** A bin is its two bounds. *)
Definition bins : Type := list (val * val).

Definition DEFAULT_CONVICTION_BINS : bins :=
  [(VInt 0, VInt 20); (VInt 20, VInt 40); (VInt 40, VInt 60); (VInt 60, VInt 80); (VInt 80, VInt 100)].

(** ** Rows *)

(** The tags held as a JSON text, when it is that of a list. *)
Definition loaded_tags (raw : val) : option (list string) :=
  match raw with
  | VStr s => if nonempty (strip s) then match loads s with Ok (VList l) => Some (map py_str l) | _ => None end else None
  | _ => None
  end.

Definition _tags_of (row : list (val * val)) : list string :=
  match dict_get row "setup_tags" with
  | VList l => map py_str l
  | raw =>
      match loaded_tags raw with
      | Some tags => tags
      | None => match dict_get row "setup_key" with VStr key => if nonempty key then split_char "|" key else [] | _ => [] end
      end
  end.

(** The consensus of the first debate tag, when it is one of the classes. *)
Fixpoint consensus_in (tags : list string) : option string :=
  match tags with
  | [] => None
  | tag :: tags' =>
      let t := strip tag in
      if starts_with "db:" t
      then let value := lower (strip (str_drop 3 t)) in if str_in value CONSENSUS_CLASSES then Some value else None
      else consensus_in tags'
  end.

Definition consensus_of (row : list (val * val)) : option string := consensus_in (_tags_of row).

Definition in_class (cls : string) (row : list (val * val)) : bool :=
  match consensus_of row with Some c => String.eqb c cls | None => false end.

Definition numeric (v : val) : bool := match _is_num v with Ok b => b | Raise _ => false end.

Definition _is_scored_debate_row (row : list (val * val)) : bool :=
  str_in (norm_field row "status") ["win"; "loss"]%string && numeric (dict_get row "conviction") &&
  (String.eqb (upper (strip (py_str (py_or (dict_get row "mode") (VStr ""))))) "DEBATE" ||
   match consensus_of row with Some _ => true | None => false end).

Fixpoint bin_from (i : nat) (conviction : val) (bs : bins) : res (option nat) :=
  match bs with
  | [] => Ok None
  | (lo, hi) :: bs' =>
      let inside := match bs' with [] => py_le conviction hi | _ => py_lt conviction hi end in
      placed ← andM (py_le lo conviction) inside;
      if placed : bool then Ok (Some i) else bin_from (S i) conviction bs'
  end.

Definition _bin_index (conviction : float) (bs : bins) : option nat :=
  match bin_from 0 (VFloat conviction) bs with Ok o => o | Raise _ => None end.

(** ** Measures *)

Definition rounded_ratio (a b : Z) : res float := q ← int_truediv a b; Ok (f_round_nd q 4).

Definition _win_rate (wins losses : Z) : res (option float) :=
  if wins + losses =? 0 then Ok None else rate ← rounded_ratio wins (wins + losses); Ok (Some rate).

(** [round(sum(l) / len(l), 4)], [None] of an empty list. *)
Definition rounded_mean (l : list float) : option float := match l with [] => None | _ => Some (f_round_nd (mean l) 4) end.

Definition _expectancy : list float -> option float := rounded_mean.

Definition has_status (s : string) (row : list (val * val)) : bool := String.eqb (lower (py_str (dict_get row "status"))) s.

Definition count_rows (p : list (val * val) -> bool) (rows : list (list (val * val))) : Z := Z.of_nat (length (List.filter p rows)).

(** The value of a row's column, when it is a number. *)
Definition number_in (k : string) (row : list (val * val)) : res (option float) :=
  num ← _is_num (dict_get row k);
  if num : bool then x ← py_float (dict_get row k); Ok (Some x) else Ok None.

(** The numbers of a column. *)
Definition numbers_of (k : string) (rows : list (list (val * val))) : res (list float) :=
  values ← mapM_res (number_in k) rows; Ok (somes values).

Record bin_report := {
  br_bounds : val * val;
  br_count : Z;
  br_wins : Z;
  br_losses : Z;
  br_mean_conviction : option float;
  br_win_rate : option float;
}.

(** The members of a bin. *)
Definition placed_in (bs : bins) (i : nat) (row : list (val * val)) : res bool :=
  c ← py_float (dict_get row "conviction"); Ok (bool_decide (_bin_index c bs = Some i)).

Definition filter_res {A} (p : A -> res bool) (l : list A) : res (list A) :=
  flags ← mapM_res p l; Ok (map fst (List.filter snd (combine l flags))).

Definition bin_report_of (bs : bins) (scored : list (list (val * val))) (bin : nat * (val * val)) : res bin_report :=
  members ← filter_res (placed_in bs bin.1) scored;
  let wins := count_rows (has_status "win") members in
  let losses := count_rows (has_status "loss") members in
  convs ← numbers_of "conviction" members;
  rate ← _win_rate wins losses;
  Ok {| br_bounds := bin.2; br_count := Z.of_nat (length members); br_wins := wins; br_losses := losses;
        br_mean_conviction := rounded_mean convs; br_win_rate := rate |}.

Record consensus_report := {
  cr_class : string;
  cr_count : Z;
  cr_wins : Z;
  cr_losses : Z;
  cr_win_rate : option float;
  cr_expectancy_r : option float;
}.

Definition consensus_report_of (scored : list (list (val * val))) (cls : string) : res consensus_report :=
  let members := List.filter (in_class cls) scored in
  let wins := count_rows (has_status "win") members in
  let losses := count_rows (has_status "loss") members in
  r_values ← numbers_of "r_multiple" (List.filter (fun row => has_status "win" row || has_status "loss" row) members);
  rate ← _win_rate wins losses;
  Ok {| cr_class := cls; cr_count := Z.of_nat (length members); cr_wins := wins; cr_losses := losses; cr_win_rate := rate;
        cr_expectancy_r := _expectancy r_values |}.

(** The rates of the bins that have one, in order. *)
Definition rates_of (reports : list bin_report) : list float :=
  omap (fun b => if 0 <? br_count b then br_win_rate b else None) reports.

Fixpoint non_decreasing (l : list float) : bool :=
  match l with
  | a :: ((b :: _) as l') => PrimFloat.leb a b && non_decreasing l'
  | _ => true
  end.

Record reliability := { re_applicable : bool; re_non_decreasing : bool; re_bins_compared : Z }.

Definition reliability_of (rates : list float) : reliability :=
  {| re_applicable := (2 <=? length rates)%nat; re_non_decreasing := non_decreasing rates;
     re_bins_compared := Z.of_nat (length rates) |}.

Record calibration := {
  ca_trades_scored : Z;
  ca_bins : list bin_report;
  ca_reliability : reliability;
  ca_by_consensus : list consensus_report;
}.

(** A measurement, or the failure it degraded from. *)
Inductive calibration_result := Calibrated (c : calibration) | Degraded (ex : exn).

(** The rows that are dictionaries. *)
Definition dict_rows (rows : list val) : list (list (val * val)) :=
  omap (fun r => match r with VDict d => Some d | _ => None end) rows.

Definition conviction_calibration (rows : list val) (bins : option bins) : calibration_result :=
  let bin_defs := match bins with Some (b :: bs) => b :: bs | _ => DEFAULT_CONVICTION_BINS end in
  let scored := List.filter _is_scored_debate_row (dict_rows rows) in
  match (reports ← mapM_res (bin_report_of bin_defs scored) (combine (seq 0 (length bin_defs)) bin_defs);
         by_consensus ← mapM_res (consensus_report_of scored) CONSENSUS_CLASSES;
         Ok {| ca_trades_scored := Z.of_nat (length scored); ca_bins := reports; ca_reliability := reliability_of (rates_of reports);
               ca_by_consensus := by_consensus |}) with
  | Ok c => Calibrated c
  | Raise ex => Degraded ex
  end.

(** [WHERE mode='DEBATE' OR setup_key LIKE '%db:%'] *)
Definition debate_row (r : trow) : bool :=
  text_is (col r "mode") "DEBATE" || match col r "setup_key" with VStr key => str_contains "db:" (lower key) | _ => false end.

(** The columns the measurement reads. *)
Definition CALIBRATION_COLUMNS : list string := ["setup_tags"; "setup_key"; "status"; "conviction"; "mode"; "r_multiple"]%string.

Definition conviction_calibration_from_journal (db : journal) (bins : option bins) : calibration_result :=
  conviction_calibration
    (map (fun r => VDict (map (fun c => (VStr c, col r c)) CALIBRATION_COLUMNS)) (List.filter debate_row (jrows db))) bins.

(** * Conviction calibration: properties

    Under the default bins every scored debate with a conviction from 0 to 100 falls in
    exactly one of them; the win rates are defined where something was won or lost, and
    the reliability flag says whether they ascend. *)

(** ** Numbers *)

Lemma is_num_true v : _is_num v = Ok true -> exists f, py_float v = Ok f /\ fin f = true.
Proof.
  unfold _is_num, py_isfinite. destruct v as [| |z|x| | | | | | |]; cbn; try done.
  - unfold int_to_float. destruct (is_finite (Q2F z 1)) eqn:F; [|done]. intros _. by exists (Q2F z 1).
  - intros [= F]. by exists x.
Qed.

Lemma is_num_raise v ex : _is_num v = Raise ex -> ex = OverflowError.
Proof.
  unfold _is_num, py_isfinite. destruct v as [| |z|x| | | | | | |]; cbn; try done.
  unfold int_to_float. destruct (is_finite (Q2F z 1)); cbn; congruence.
Qed.

Lemma numeric_is_num v : numeric v = true -> _is_num v = Ok true.
Proof. unfold numeric. by destruct (_is_num v) as [[]|]. Qed.

Definition conviction_of (row : list (val * val)) : float :=
  match py_float (dict_get row "conviction") with Ok f => f | Raise _ => nan end.

Lemma scored_conviction row :
  _is_scored_debate_row row = true -> py_float (dict_get row "conviction") = Ok (conviction_of row) /\ fin (conviction_of row) = true.
Proof.
  unfold _is_scored_debate_row. rewrite !andb_true_iff. intros [[_ N] _]. apply numeric_is_num, is_num_true in N as (f & E & F).
  unfold conviction_of. by rewrite E.
Qed.

(** ** The default bins *)

(** From 0 to 100, both included. *)
Definition in_range (x : float) : bool := PrimFloat.leb 0 x && PrimFloat.leb x 100.

Lemma rank_int n : nrank (NInt n) = n * two1074.
Proof. done. Qed.

(** The bin of a conviction, by its rank. *)
Lemma default_bin x :
  fin x = true ->
  _bin_index x DEFAULT_CONVICTION_BINS =
    let r := frank x in
    if r <? 0 then None else if r <? 20 * two1074 then Some 0%nat else if r <? 40 * two1074 then Some 1%nat
    else if r <? 60 * two1074 then Some 2%nat else if r <? 80 * two1074 then Some 3%nat
    else if r <=? 100 * two1074 then Some 4%nat else None.
Proof.
  intros F. pose proof two1074_pos. unfold _bin_index, DEFAULT_CONVICTION_BINS.
  cbn -[nleb nltb]. unfold py_le, py_lt, andM. cbn [as_num]. rewrite ?nleb_rank, ?nltb_rank by done. cbn [nrank].
  cbn beta iota delta [mbind res_bind]. set (r := frank x). generalize dependent two1074. intros t Ht.
  repeat match goal with
  | |- context [?a <=? ?b] => destruct (Z.leb_spec a b)
  | |- context [?a <? ?b] => destruct (Z.ltb_spec a b)
  end; cbn; try done; nia.
Qed.

Lemma default_bin_placed x : fin x = true ->
  match _bin_index x DEFAULT_CONVICTION_BINS with Some i => (i < 5)%nat /\ in_range x = true | None => in_range x = false end.
Proof.
  intros F. rewrite default_bin by done. unfold in_range. rewrite !leb_rank, (fin_not_nan x F). change (frank 0) with 0.
  assert (frank 100%float = 100 * two1074) as -> by (vm_compute; reflexivity). change (is_nan 0) with false. change (is_nan 100) with false.
  cbn [negb andb]. pose proof two1074_pos. generalize dependent two1074. intros t Ht. cbn zeta.
  repeat match goal with
  | |- context [?a <=? ?b] => destruct (Z.leb_spec a b)
  | |- context [?a <? ?b] => destruct (Z.ltb_spec a b)
  end; cbn; try done; try (split; [lia|done]); nia.
Qed.

(** ** Members *)

Definition bin_of (row : list (val * val)) : option nat := _bin_index (conviction_of row) DEFAULT_CONVICTION_BINS.

Definition members (i : nat) (rows : list (list (val * val))) : list (list (val * val)) :=
  List.filter (fun row => bool_decide (bin_of row = Some i)) rows.

Definition ranged (rows : list (list (val * val))) : list (list (val * val)) := List.filter (fun row => in_range (conviction_of row)) rows.

Definition scored_rows (rows : list val) : list (list (val * val)) := List.filter _is_scored_debate_row (dict_rows rows).

Lemma members_partition rows :
  Forall (fun row => _is_scored_debate_row row = true) rows ->
  list_sum (map (fun i => length (members i rows)) (seq 0 5)) = length (ranged rows).
Proof.
  induction 1 as [|row rows Hr Hs IH]; [done|]. apply scored_conviction in Hr as [_ F].
  pose proof (default_bin_placed _ F) as P. unfold members, ranged in *. cbn [List.filter seq map list_sum fold_right] in *.
  unfold bin_of in *. destruct (_bin_index (conviction_of row) DEFAULT_CONVICTION_BINS) as [i|].
  - destruct P as [Hi ->]. do 5 (destruct i as [|i]; [repeat case_bool_decide; cbn; try congruence; lia|]). lia.
  - rewrite P. by repeat case_bool_decide.
Qed.

Lemma filter_res_Ok {A} (p : A -> res bool) (q : A -> bool) l :
  Forall (fun x => p x = Ok (q x)) l -> filter_res p l = Ok (List.filter q l).
Proof.
  intros H. unfold filter_res. assert (mapM_res p l = Ok (map q l)) as ->.
  { induction H as [|x l Hx H IH]; cbn; [done|]. by rewrite Hx, IH. }
  cbn. f_equal. clear H. induction l as [|x l IH]; cbn; [done|]. destruct (q x); cbn; by rewrite IH.
Qed.

Lemma placed_members i rows :
  Forall (fun row => _is_scored_debate_row row = true) rows -> filter_res (placed_in DEFAULT_CONVICTION_BINS i) rows = Ok (members i rows).
Proof.
  intros H. apply filter_res_Ok. eapply Forall_impl; [exact H|]. intros row Hr. apply scored_conviction in Hr as [E _].
  unfold placed_in. by rewrite E.
Qed.

(** ** Reports *)

Lemma statuses_bound rows : count_rows (has_status "win") rows + count_rows (has_status "loss") rows <= Z.of_nat (length rows).
Proof.
  unfold count_rows. rewrite <- Nat2Z.inj_add. apply inj_le. induction rows as [|row rows IH]; cbn [List.filter length]; [done|].
  destruct (has_status "win" row) eqn:W; cbn [length]; [|destruct (has_status "loss" row); cbn [length]; lia].
  destruct (has_status "loss" row) eqn:L; cbn [length]; [|lia]. unfold has_status in *. apply String.eqb_eq in W, L. congruence.
Qed.

Lemma win_rate_Ok wins losses :
  0 <= wins -> 0 <= losses -> wins + losses < 2 ^ 900 ->
  exists rate, _win_rate wins losses = Ok rate /\ (rate = None <-> wins + losses = 0).
Proof.
  intros Hw Hl Hb. unfold _win_rate. destruct (Z.eqb_spec (wins + losses) 0) as [E|E]; [by exists None|].
  destruct (int_truediv_rounds wins (wins + losses)) as (x & Hx & _); [lia..|]. unfold rounded_ratio. rewrite Hx. cbn. eexists. split; [done|].
  by split; [|lia].
Qed.

(** Rows whose numbers all read. *)
Lemma numbers_Ok k rows : Forall (fun row => is_ok (_is_num (dict_get row k)) = true) rows -> exists l, numbers_of k rows = Ok l.
Proof.
  intros H. unfold numbers_of. assert (exists vs, mapM_res (number_in k) rows = Ok vs) as [vs ->]; [|by eexists].
  induction H as [|row rows Hr H [vs IH]]; cbn [mapM_res]; [by eexists|]. rewrite IH. unfold number_in.
  destruct (_is_num (dict_get row k)) as [[]|] eqn:N; [|by eexists|done].
  apply is_num_true in N as (f & -> & _). by eexists.
Qed.

Lemma numbers_raise k rows ex : numbers_of k rows = Raise ex -> exists row, In row rows /\ _is_num (dict_get row k) = Raise ex.
Proof.
  unfold numbers_of. intros H. assert (mapM_res (number_in k) rows = Raise ex) as M by (destruct (mapM_res (number_in k) rows); [done|by injection H as <-]).
  clear H. induction rows as [|row rows IH]; cbn in M; [done|].
  destruct (number_in k row) as [o|ex'] eqn:N.
  - cbn in M. destruct (mapM_res (number_in k) rows) as [l|]; [done|]. injection M as ->. destruct (IH eq_refl) as (r & ? & ?). exists r.
    by split; [right|].
  - injection M as ->. exists row. split; [by left|]. unfold number_in in N. destruct (_is_num (dict_get row k)) as [[]|] eqn:E; [|done|].
    + apply is_num_true in E as (f & E & _). by rewrite E in N.
    + cbn in N. by injection N as ->.
Qed.

Lemma members_le i rows : (length (members i rows) <= length rows)%nat.
Proof. apply filter_length_le. Qed.

Lemma bin_report_Ok rows i b :
  Forall (fun row => _is_scored_debate_row row = true) rows -> Z.of_nat (length rows) < 2 ^ 900 ->
  exists rep, bin_report_of DEFAULT_CONVICTION_BINS rows (i, b) = Ok rep /\ br_bounds rep = b /\
    br_count rep = Z.of_nat (length (members i rows)) /\ br_wins rep + br_losses rep <= br_count rep /\
    (br_win_rate rep = None <-> br_wins rep + br_losses rep = 0).
Proof.
  intros H Hb. unfold bin_report_of. cbn [fst snd]. rewrite placed_members by done. cbn beta iota delta [mbind res_bind]. cbn zeta.
  destruct (numbers_Ok "conviction" (members i rows)) as [l ->].
  { apply List.Forall_forall. intros row [Hr _]%filter_In. rewrite List.Forall_forall in H. specialize (H row Hr).
    unfold _is_scored_debate_row in H. rewrite !andb_true_iff in H. destruct H as [[_ N] _]. by rewrite (numeric_is_num _ N). }
  pose proof (statuses_bound (members i rows)) as S. pose proof (members_le i rows).
  destruct (win_rate_Ok (count_rows (has_status "win") (members i rows)) (count_rows (has_status "loss") (members i rows)))
    as (rate & -> & R); [unfold count_rows; lia..|lia|].
  eexists. split; [reflexivity|]. by cbn.
Qed.

Lemma bin_reports_Ok rows :
  Forall (fun row => _is_scored_debate_row row = true) rows -> Z.of_nat (length rows) < 2 ^ 900 ->
  exists reps, mapM_res (bin_report_of DEFAULT_CONVICTION_BINS rows) (combine (seq 0 5) DEFAULT_CONVICTION_BINS) = Ok reps /\
    map br_bounds reps = DEFAULT_CONVICTION_BINS /\ map br_count reps = map (fun i => Z.of_nat (length (members i rows))) (seq 0 5) /\
    Forall (fun rep => br_wins rep + br_losses rep <= br_count rep /\ (br_win_rate rep = None <-> br_wins rep + br_losses rep = 0)) reps.
Proof.
  intros H Hb. unfold DEFAULT_CONVICTION_BINS at 2 3. cbn [seq combine mapM_res map].
  assert (forall l, exists reps, mapM_res (bin_report_of DEFAULT_CONVICTION_BINS rows) l = Ok reps /\ map br_bounds reps = map snd l /\
    map br_count reps = map (fun b => Z.of_nat (length (members b.1 rows))) l /\
    Forall (fun rep => br_wins rep + br_losses rep <= br_count rep /\ (br_win_rate rep = None <-> br_wins rep + br_losses rep = 0)) reps)
    as G; [|apply (G (combine (seq 0 5) DEFAULT_CONVICTION_BINS))].
  induction l as [|[i b] l (reps & Er & Eb & Ec & F)]; [by exists []|].
  destruct (bin_report_Ok rows i b H Hb) as (rep & E & B & C & S & R). exists (rep :: reps). cbn [mapM_res map fst snd].
  rewrite E, Er, Eb, Ec, B, C. split_and!; [done..|]. by constructor.
Qed.

Lemma consensus_raise rows cls ex :
  Z.of_nat (length rows) < 2 ^ 900 -> consensus_report_of rows cls = Raise ex ->
  exists row, In row rows /\ _is_num (dict_get row "r_multiple") = Raise ex.
Proof.
  intros Hb. unfold consensus_report_of. cbn zeta. pose proof (filter_length_le (in_class cls) rows) as L.
  set (m := List.filter (in_class cls) rows) in *. destruct (numbers_of _ _) as [l|ex'] eqn:N; cbn beta iota delta [mbind res_bind].
  - pose proof (statuses_bound m).
    destruct (win_rate_Ok (count_rows (has_status "win") m) (count_rows (has_status "loss") m)) as (rate & -> & _);
      [unfold count_rows; lia..|lia|done].
  - intros [= <-]. destruct (numbers_raise _ _ _ N) as (row & Hr & E). exists row. split; [|done].
    apply filter_In in Hr as [Hr _]. by apply filter_In in Hr as [Hr _].
Qed.

Lemma mapM_raise {A B} (f : A -> res B) l ex : mapM_res f l = Raise ex -> exists x, In x l /\ f x = Raise ex.
Proof.
  induction l as [|x l IH]; cbn [mapM_res]; [done|]. destruct (f x) as [y|ex'] eqn:E; cbn beta iota delta [mbind res_bind].
  - destruct (mapM_res f l); [done|]. intros [= ->]. destruct (IH eq_refl) as (z & ? & ?). exists z. by split; [right|].
  - intros [= ->]. exists x. by split; [left|].
Qed.

Lemma non_decreasing_sorted l : non_decreasing l = true <-> Sorted (fun a b => PrimFloat.leb a b = true) l.
Proof.
  induction l as [|a [|b l] IH]; [by split; [constructor|]|split; [|done]; by repeat constructor|].
  change (non_decreasing (a :: b :: l)) with (PrimFloat.leb a b && non_decreasing (b :: l)). rewrite andb_true_iff, IH. split.
  - intros [E S]. constructor; [done|]. by constructor.
  - intros S. inversion S as [|? ? S' Hd]; subst. by inversion Hd.
Qed.

Definition total (l : list Z) : Z := fold_right Z.add 0 l.

Lemma total_of_nat {A} (f : A -> nat) l : total (map (fun i => Z.of_nat (f i)) l) = Z.of_nat (list_sum (map f l)).
Proof. unfold total. induction l as [|x l IH]; [done|]. cbn [map fold_right]. rewrite IH. unfold list_sum. cbn [map fold_right]. lia. Qed.

Lemma dict_rows_length rows : (length (dict_rows rows) <= length rows)%nat.
Proof.
  unfold dict_rows. induction rows as [|r rows IH]; [done|]. unfold omap in *. destruct r; simpl in *; lia.
Qed.

(** Over the default bins, of fewer than [2 ^ 900] rows: a calibration scores exactly the
    debates won or lost with a numeric conviction; its bins are the default ones and hold
    between them every scored row with a conviction from 0 to 100, each once; a bin has
    no win rate exactly when it has neither a win nor a loss; and the reliability flag
    says whether the rates of the bins that have one ascend.  It degrades only when a
    scored row's R multiple is an integer beyond the floats. *)
Theorem calibration_exact rows :
  Z.of_nat (length rows) < 2 ^ 900 ->
  match conviction_calibration rows None with
  | Calibrated c =>
      ca_trades_scored c = Z.of_nat (length (scored_rows rows)) /\
      map br_bounds (ca_bins c) = DEFAULT_CONVICTION_BINS /\
      total (map br_count (ca_bins c)) = Z.of_nat (length (ranged (scored_rows rows))) /\
      Forall (fun b => br_wins b + br_losses b <= br_count b /\ (br_win_rate b = None <-> br_wins b + br_losses b = 0)) (ca_bins c) /\
      (re_non_decreasing (ca_reliability c) = true <-> Sorted (fun a b => PrimFloat.leb a b = true) (rates_of (ca_bins c)))
  | Degraded ex => ex = OverflowError /\ exists row, In row (scored_rows rows) /\ _is_num (dict_get row "r_multiple") = Raise OverflowError
  end.
Proof.
  intros Hb. unfold conviction_calibration. cbn zeta. change (List.filter _is_scored_debate_row (dict_rows rows)) with (scored_rows rows).
  assert (Forall (fun row => _is_scored_debate_row row = true) (scored_rows rows)) as F by (apply List.Forall_forall; intros row Hr; by apply filter_In in Hr as [_ Hr]).
  assert (Z.of_nat (length (scored_rows rows)) < 2 ^ 900) as L.
  { eapply Z.le_lt_trans; [|exact Hb]. apply inj_le. unfold scored_rows. etransitivity; [apply filter_length_le|]. apply dict_rows_length. }
  destruct (bin_reports_Ok (scored_rows rows) F L) as (reps & Er & Eb & Ec & Hr).
  change (length DEFAULT_CONVICTION_BINS) with 5%nat. rewrite Er. cbn beta iota delta [mbind res_bind].
  destruct (mapM_res (consensus_report_of (scored_rows rows)) CONSENSUS_CLASSES) as [by_consensus|ex] eqn:C; cbn beta iota delta [mbind res_bind].
  - cbn [ca_trades_scored ca_bins ca_reliability re_non_decreasing reliability_of]. split_and!; [done|done| |done|apply non_decreasing_sorted].
    rewrite Ec, total_of_nat. by rewrite (members_partition _ F).
  - destruct (mapM_raise _ _ _ C) as (cls & _ & H). destruct (consensus_raise _ _ _ L H) as (row & Hin & E).
    pose proof (is_num_raise _ _ E) as ->. split; [done|]. by exists row.
Qed.

Definition debate (status conviction : string) (value : val) : val :=
  VDict [(VStr "status", VStr status); (VStr conviction, value); (VStr "mode", VStr "DEBATE"); (VStr "r_multiple", VInt 1)].

Definition demo_rows : list val :=
  [debate "win" "conviction" (VInt 100); debate "loss" "conviction" (VFloat 20); debate "win" "conviction" (VInt 101); debate "open" "conviction" (VInt 5)].

Lemma calibration_exact_witness :
  Z.of_nat (length demo_rows) < 2 ^ 900 /\
  exists c, conviction_calibration demo_rows None = Calibrated c /\ ca_trades_scored c = 3 /\ total (map br_count (ca_bins c)) = 2.
Proof.
  assert (Z.of_nat (length demo_rows) < 2 ^ 900) as H by reflexivity. split; [exact H|].
  pose proof (calibration_exact demo_rows H) as E. destruct (conviction_calibration demo_rows None) as [c|ex] eqn:C.
  - exists c. split; [reflexivity|]. destruct E as (E1 & _ & E2 & _). rewrite E1, E2. split; vm_compute; reflexivity.
  - exfalso. assert (match conviction_calibration demo_rows None with Calibrated _ => True | Degraded _ => False end) as K by (vm_compute; exact I).
    rewrite C in K. exact K.
Defined.

(** One row beyond the floats degrades the whole measurement; one whose status has a
    space around it is counted in its bin and neither won nor lost. *)
Example one_row_degrades :
  conviction_calibration
    [debate "win" "conviction" (VInt 50);
     VDict [(VStr "status", VStr "win"); (VStr "conviction", VInt 50); (VStr "setup_key", VStr "db:lean"); (VStr "r_multiple", VInt (2 ^ 1024))]]
    None = Degraded OverflowError.
Proof. vm_compute. reflexivity. Qed.

Example padded_status_uncounted :
  match conviction_calibration [debate " win" "conviction" (VInt 50)] None with
  | Calibrated c => map (fun b => (br_count b, br_wins b, br_losses b)) (ca_bins c) = [(0, 0, 0); (0, 0, 0); (1, 0, 0); (0, 0, 0); (0, 0, 0)]
  | Degraded _ => False
  end.
Proof. vm_compute. reflexivity. Qed.
