(* ===== verification/HashChain.v ===== *)
(** * Compliance records: the hash chain and its two stores

    Models [agents/deep-quant-loop/hashchain.py] (canonical serialisation, the
    chain link, the tip, verification), [reco_store.py] (the recommendation
    record) and [interaction_log.py] (the interaction log).

    A table is its rows, oldest first, as the dictionaries a query returns.  What
    SQLite stores for a bound value is the parameter [stored]; the append-only
    triggers leave insertion as the only write. *)

From stdpp Require Import base list strings.
From Stdlib Require Import ZArith Lia Floats Ascii.
From S2P Require Import Prelude PyFloat PyNum PyVal PyEnv PyJson PyStr Sha256 Opportunity JournalTags Journal.

#[local] Set Warnings "-inexact-float".
Open Scope Z_scope.
Open Scope res_scope.

(** ** Canonical serialisation *)

Fixpoint hex_of_bytes (s : string) : string :=
  match s with EmptyString => EmptyString | String c s' => (hex_byte (code_of c) ++ hex_of_bytes s')%string end.

(** [{str(k): v for ...}] of an already canonical association list: a later entry
    under the same text replaces the value of an earlier one in place. *)
Definition str_keyed (l : list (val * val)) : list (val * val) :=
  fold_left (fun acc kv => dict_set acc (py_str kv.1) kv.2) l [].

Fixpoint _canonicalise (value : val) : val :=
  match value with
  | VNone | VStr _ | VBool _ | VInt _ => value
  | VFloat f => if fin f then value else VNone
  | VDict l =>
      VDict (str_keyed ((fix go l := match l with [] => [] | (k, v) :: l' => (k, _canonicalise v) :: go l' end) l))
  | VList l | VTuple l => VList (map _canonicalise l)
  | VSet l => VList (map VStr (sort_by str_ltb (map py_str l)))
  | VBytes s => VStr (hex_of_bytes s)
  | VObj _ shown => VStr shown
  end.

Definition canonical_opts : dumps_opts :=
  {| item_sep := ","; key_sep := ":"; sort_keys := true; ensure_ascii := false; default_str := false |}.

Definition canonical_json (payload : val) : res string := dumps canonical_opts (_canonicalise payload).

(** ** The chain link *)

Definition GENESIS_HASH : string := "0000000000000000000000000000000000000000000000000000000000000000".

(** [text.encode("utf-8")]: a lone surrogate does not encode. *)
Definition encode_utf8 (s : string) : res string :=
  if existsb (fun cp => (55296 <=? cp) && (cp <? 57344)) (utf8_decode s) then Raise ValueError else Ok s.

Definition newline : string := String (byte_of 10) EmptyString.

(** [x if isinstance(x, str) and x else GENESIS_HASH] *)
Definition hash_or_genesis (v : val) : string :=
  match v with VStr s => if nonempty s then s else GENESIS_HASH | _ => GENESIS_HASH end.

(** What is hashed. *)
Definition material (prev_hash payload : val) : res string :=
  json ← canonical_json payload;
  encode_utf8 (hash_or_genesis prev_hash ++ newline ++ json)%string.

Definition hash_payload (prev_hash payload : val) : res string :=
  m ← material prev_hash payload; Ok (sha256 m).

(** ** Tables *)

Record table := { t_rows : list val; t_next : Z }.

Definition empty_table : table := {| t_rows := []; t_next := 1 |}.

Definition _row_get (row : val) (key : string) : val := vget row key.

Definition chain_tip (t : table) : string :=
  match last (t_rows t) with None => GENESIS_HASH | Some row => hash_or_genesis (_row_get row "row_hash") end.

(** ** Verification *)

Record ChainVerification := { ok : bool; rows : Z; broken_at_id : val; reason : option string }.

Definition LINK_BROKEN : string :=
  "prev_hash does not match the previous row's row_hash — a row was inserted, removed or reordered".
Definition ROW_EDITED : string := "row_hash does not match the row's contents — the row was edited".

Definition is_text (v : val) (s : string) : bool := match v with VStr t => String.eqb t s | _ => false end.

Fixpoint verify_from (payload_of : val -> val) (prev : string) (count : Z) (l : list val) : res ChainVerification :=
  match l with
  | [] => Ok {| ok := true; rows := count; broken_at_id := VNone; reason := None |}
  | row :: l' =>
      let count := count + 1 in
      let fail why := {| ok := false; rows := count; broken_at_id := _row_get row "id"; reason := Some why |} in
      if negb (is_text (_row_get row "prev_hash") prev) then Ok (fail LINK_BROKEN)
      else
        expected ← hash_payload (VStr prev) (payload_of row);
        if negb (is_text (_row_get row "row_hash") expected) then Ok (fail ROW_EDITED)
        else verify_from payload_of expected count l'
  end.

Definition verify_rows (l : list val) (payload_of : val -> val) : res ChainVerification :=
  verify_from payload_of GENESIS_HASH 0 l.

(** [table.replace("_", "").isalnum()] of an ASCII name. *)
Definition is_alnum (c : ascii) : bool :=
  let n := code_of c in
  ((48 <=? n) && (n <=? 57)) || ((65 <=? n) && (n <=? 90)) || ((97 <=? n) && (n <=? 122)).

Fixpoint str_forallb (p : ascii -> bool) (s : string) : bool :=
  match s with EmptyString => true | String c s' => p c && str_forallb p s' end.

Definition safe_table_name (name : string) : bool :=
  let s := drop_char "_" name in nonempty s && str_forallb is_alnum s.

(** [payload_of] of both stores: the payload columns, absent ones as [None]. *)
Definition payload_of (columns : list string) (row : val) : val :=
  VDict (map (fun c => (VStr c, _row_get row c)) columns).

(** ** Appending a row *)

Section stores.
(** What SQLite stores for a value bound to a column, or the exception of the
    binding. *)
Context (stored : string -> val -> res val).

Definition store_cells (values : list (string * val)) : res (list (val * val)) :=
  mapM_res (fun '(c, v) => v' ← stored c v; Ok (VStr c, v')) values.

(** [INSERT] of a payload whose link was computed against [prev_hash]: the
    second half of an append. *)
Definition insert_linked (t : table) (prev_hash : string) (payload : list (string * val)) : res (table * Z) :=
  row_hash ← hash_payload (VStr prev_hash) (VDict (map (fun '(c, v) => (VStr c, v)) payload));
  cells ← store_cells (payload ++ [("prev_hash", VStr prev_hash); ("row_hash", VStr row_hash)]%string);
  Ok ({| t_rows := t_rows t ++ [VDict ((VStr "id", VInt (t_next t)) :: cells)]; t_next := t_next t + 1 |}, t_next t).

(** [interaction_log._append] *)
Definition _append (t : table) (payload : list (string * val)) : res (table * Z) :=
  insert_linked t (chain_tip t) payload.

(** *** The recommendation record *)

Definition RECO_COLUMNS : list string :=
  ["created_at"; "thread_id"; "user_id"; "symbol"; "timeframe"; "mode"; "profile"; "action"; "entry"; "stop_loss";
   "take_profit"; "horizon"; "conviction"; "risk_reward"; "rationale_json"; "tool_inputs_json"; "model_id";
   "prompt_hash"; "prompt_set_hash"; "analyst_of_record"]%string.

(** [float(value)] of a finite number, [None] otherwise; an integer past the
    float range raises. *)
Definition _finite (value : val) : res val :=
  match value with
  | VInt z => f ← int_to_float z; Ok (VFloat f)
  | VFloat f => Ok (if fin f then value else VNone)
  | _ => Ok VNone
  end.

Definition _int_or_none (value : val) : res val := if is_bool value then Ok VNone else int_or_none value.

Definition analyst_of_record (e : env) : val :=
  match e "ANALYST_OF_RECORD"%string with
  | Some v => if nonempty (strip v) then VStr (strip v) else VNone
  | None => VNone
  end.

(** [thread_id.strip()] of a non-blank string. *)
Definition stripped (v : val) : val :=
  match v with VStr s => if nonempty (strip s) then VStr (strip s) else VNone | _ => VNone end.

Definition non_blank (v : val) : val :=
  match v with VStr s => if nonempty (strip s) then v else VNone | _ => VNone end.

Definition json_or_none (v : val) : res val := if is_none v then Ok VNone else s ← canonical_json v; Ok (VStr s).

Record recommendation := {
  rc_action : val; rc_thread_id : val; rc_user_id : val; rc_symbol : val; rc_timeframe : val; rc_mode : val;
  rc_profile : val; rc_entry : val; rc_stop_loss : val; rc_take_profit : val; rc_horizon : val;
  rc_conviction : val; rc_risk_reward : val; rc_rationale : val; rc_tool_inputs : val; rc_model_id : val;
  rc_prompt_hash : val; rc_prompt_set_hash : val;
}.

Definition reco_payload (e : env) (now : float) (a : recommendation) : res (list (string * val)) :=
  entry ← _finite (rc_entry a); stop ← _finite (rc_stop_loss a); take ← _finite (rc_take_profit a);
  conviction ← _int_or_none (rc_conviction a);
  rr ← _finite (rc_risk_reward a);
  rationale ← json_or_none (rc_rationale a);
  inputs ← json_or_none (rc_tool_inputs a);
  Ok [("created_at", VFloat now); ("thread_id", stripped (rc_thread_id a)); ("user_id", non_blank (rc_user_id a));
      ("symbol", rc_symbol a); ("timeframe", rc_timeframe a); ("mode", rc_mode a); ("profile", rc_profile a);
      ("action", VStr (upper (py_str (py_or (rc_action a) (VStr "HOLD"))))); ("entry", entry); ("stop_loss", stop);
      ("take_profit", take); ("horizon", rc_horizon a); ("conviction", conviction); ("risk_reward", rr);
      ("rationale_json", rationale); ("tool_inputs_json", inputs); ("model_id", rc_model_id a);
      ("prompt_hash", rc_prompt_hash a); ("prompt_set_hash", rc_prompt_set_hash a);
      ("analyst_of_record", analyst_of_record e)]%string.

(** [SELECT id FROM recommendations WHERE thread_id=? ORDER BY id ASC LIMIT 1] *)
Definition row_of_thread (t : table) (tid : string) : option val :=
  (fun r => _row_get r "id") <$> head (List.filter (fun r => is_text (_row_get r "thread_id") tid) (t_rows t)).

Definition thread_row (t : table) (thread_id : val) : option val :=
  match stripped thread_id with VStr tid => row_of_thread t tid | _ => None end.

(** The insert half of [record], its link computed against [prev_hash]: the
    partial unique index turns the row of another writer into the result. *)
Definition record_commit (t : table) (prev_hash : string) (thread_id : val) (payload : list (string * val))
  : res (table * val) :=
  r ← insert_linked t prev_hash payload;
  match thread_row t thread_id with
  | Some id => Ok (t, id)
  | None => let '(t', id) := r in Ok (t', VInt id)
  end.

(** [reco_store.record] *)
Definition record (e : env) (now : float) (t : table) (a : recommendation) : res (table * val) :=
  match thread_row t (rc_thread_id a) with
  | Some id => Ok (t, id)
  | None =>
      payload ← reco_payload e now a;
      record_commit t (chain_tip t) (rc_thread_id a) payload
  end.

(** *** The interaction log *)

Definition LOG_COLUMNS : list string :=
  ["created_at"; "event"; "kind"; "thread_id"; "user_id"; "mode"; "symbol"; "timeframe"; "profile"; "model";
   "content"; "status"; "detail"; "refusal_category"]%string.

Definition MAX_CONTENT_CHARS : Z := 100000.

Definition _text (value : val) : val :=
  match value with
  | VNone => VNone
  | _ =>
      let text := py_str value in
      if negb (nonempty (strip text)) then VNone
      else if MAX_CONTENT_CHARS <? str_len text then
        VStr (str_take (Z.to_nat MAX_CONTENT_CHARS) text ++ newline ++ "[truncated " ++
              Z_str (str_len text - MAX_CONTENT_CHARS) ++ " characters]")%string
      else VStr text
  end.

Definition record_request (now : float) (t : table)
    (kind thread_id user_id content mode symbol timeframe profile model : val) : res (table * Z) :=
  _append t
    [("created_at", VFloat now); ("event", VStr "request"); ("kind", py_or (_text kind) (VStr "unknown"));
     ("thread_id", _text thread_id); ("user_id", _text user_id); ("mode", _text mode); ("symbol", _text symbol);
     ("timeframe", _text timeframe); ("profile", _text profile); ("model", _text model); ("content", _text content);
     ("status", VNone); ("detail", VNone); ("refusal_category", VNone)]%string.

Definition record_outcome (now : float) (t : table)
    (kind status thread_id user_id content detail refusal_category mode model : val) : res (table * Z) :=
  _append t
    [("created_at", VFloat now); ("event", VStr "outcome"); ("kind", py_or (_text kind) (VStr "unknown"));
     ("thread_id", _text thread_id); ("user_id", _text user_id); ("mode", _text mode); ("symbol", VNone);
     ("timeframe", VNone); ("profile", VNone); ("model", _text model); ("content", _text content);
     ("status", py_or (_text status) (VStr "unknown")); ("detail", _text detail);
     ("refusal_category", _text refusal_category)]%string.
End stores.

Definition reco_verify_chain (t : table) : res ChainVerification := verify_rows (t_rows t) (payload_of RECO_COLUMNS).
Definition log_verify_chain (t : table) : res ChainVerification := verify_rows (t_rows t) (payload_of LOG_COLUMNS).

(** A store that keeps every value as it is bound. *)
Definition store_as_is (c : string) (v : val) : res val := Ok v.

Example log_two_events :
  (r ← record_request store_as_is 10 empty_table (VStr "qa") (VStr "t-1") VNone (VStr "why?") VNone VNone VNone VNone VNone;
   r2 ← record_outcome store_as_is 11 r.1 (VStr "qa") (VStr "completed") (VStr "t-1") VNone (VStr "because") VNone VNone
          VNone VNone;
   v ← log_verify_chain r2.1; Ok (ok v, HashChain.rows v, length (t_rows r2.1), r2.2))
  = Ok (true, 2, 2%nat, 2).
Proof. vm_compute. reflexivity. Qed.
