(* ===== verification/HashChainFacts.v ===== *)
(** * Compliance records: correctness

    Verification decides exactly the linked chains and names the first bad row;
    appending keeps a chain; the tip binds the whole history up to a collision
    of the rows at hand; canonical text does not depend on dictionary order; and
    a link computed against a stale tip breaks the chain. *)

From stdpp Require Import base list strings sorting relations.
From Stdlib Require Import ZArith Lia Floats Ascii Permutation.
From S2P Require Import Prelude PyFloat PyNum PyVal PyEnv PyJson PySort Sha256 Opportunity JournalTags Journal HashChain.

#[local] Set Warnings "-inexact-float".
Open Scope Z_scope.

(** ** The specification of a chain *)

(** [row] is linked to a row whose hash is [prev], and hashes to [h]. *)
Definition link (pay : val -> val) (prev : string) (row : val) (h : string) : Prop :=
  _row_get row "prev_hash" = VStr prev /\ hash_payload (VStr prev) (pay row) = Ok h /\ _row_get row "row_hash" = VStr h.

Fixpoint chained (pay : val -> val) (prev : string) (l : list val) : Prop :=
  match l with
  | [] => True
  | row :: l' => exists h, link pay prev row h /\ chained pay h l'
  end.

(** The hash of the last row. *)
Fixpoint tip_of (prev : string) (l : list val) : string :=
  match l with
  | [] => prev
  | row :: l' => tip_of (match _row_get row "row_hash" with VStr h => h | _ => prev end) l'
  end.

Lemma is_text_true v s : is_text v s = true <-> v = VStr s.
Proof.
  destruct v; cbn; try (split; intros; discriminate). rewrite String.eqb_eq. split; congruence.
Qed.

Lemma is_text_false v s : is_text v s = false <-> v <> VStr s.
Proof. rewrite <- is_text_true. destruct (is_text v s); split; congruence. Qed.

Lemma chained_app pay prev l1 l2 :
  chained pay prev (l1 ++ l2) <-> chained pay prev l1 /\ chained pay (tip_of prev l1) l2.
Proof.
  revert prev. induction l1 as [|row l1 IH]; intros prev; [cbn; tauto|]. cbn [app chained tip_of].
  split.
  - intros (h & Hl & H). apply IH in H as [H1 H2]. destruct Hl as (Hp & Hh & Hr). rewrite Hr.
    split; [|done]. by exists h.
  - intros ((h & Hl & H1) & H2). exists h. split; [done|]. apply IH. split; [done|].
    destruct Hl as (_ & _ & Hr). by rewrite Hr in H2.
Qed.

Lemma tip_of_app prev l1 l2 : tip_of prev (l1 ++ l2) = tip_of (tip_of prev l1) l2.
Proof. revert prev. induction l1 as [|row l1 IH]; intros prev; [done|]. cbn [app tip_of]. apply IH. Qed.

Lemma hash_payload_sha prev p h :
  hash_payload prev p = Ok h -> exists m, material prev p = Ok m /\ h = sha256 m.
Proof. unfold hash_payload. intros (m & Hm & H)%bind_Ok. apply Ok_inj in H. by exists m. Qed.

Lemma chained_tip_length pay prev l :
  String.length prev = 64%nat -> chained pay prev l -> String.length (tip_of prev l) = 64%nat.
Proof.
  revert prev. induction l as [|row l IH]; intros prev Hp; [done|]. cbn [chained tip_of].
  intros (h & (_ & Hh & Hr) & H). rewrite Hr. apply IH; [|done].
  apply hash_payload_sha in Hh as (m & _ & ->). apply sha256_length.
Qed.

(** ** Verification decides the specification *)

Lemma verify_from_spec pay prev n l v :
  verify_from pay prev n l = Ok v ->
  if ok v then chained pay prev l /\ HashChain.rows v = n + Z.of_nat (length l)
  else exists pre row post,
    l = pre ++ row :: post /\ chained pay prev pre /\
    HashChain.rows v = n + Z.of_nat (length pre) + 1 /\ broken_at_id v = _row_get row "id" /\
    ((reason v = Some LINK_BROKEN /\ _row_get row "prev_hash" <> VStr (tip_of prev pre)) \/
     (reason v = Some ROW_EDITED /\ _row_get row "prev_hash" = VStr (tip_of prev pre) /\
      exists h, hash_payload (VStr (tip_of prev pre)) (pay row) = Ok h /\ _row_get row "row_hash" <> VStr h)).
Proof.
  revert prev n. induction l as [|row l IH]; intros prev n H; cbn [verify_from] in H.
  { apply Ok_inj in H. subst v. cbn. split; [done|lia]. }
  destruct (is_text (_row_get row "prev_hash") prev) eqn:P; cbn [negb] in H.
  - apply is_text_true in P. apply bind_Ok in H as (h & Hh & H).
    destruct (is_text (_row_get row "row_hash") h) eqn:R; cbn [negb] in H.
    + apply is_text_true in R. specialize (IH _ _ H). destruct (ok v).
      * destruct IH as [C L]. cbn [chained length]. split; [|lia]. by exists h.
      * destruct IH as (pre & row' & post & -> & C & L & B & W). exists (row :: pre), row', post.
        cbn [app chained length tip_of]. rewrite R. split_and!; [done| |lia|done|done]. by exists h.
    + apply is_text_false in R. apply Ok_inj in H. subst v. cbn. exists [], row, l.
      split_and!; [done|done|cbn; lia|done|]. right. split_and!; [done|done|]. by exists h.
  - apply is_text_false in P. apply Ok_inj in H. subst v. cbn. exists [], row, l.
    split_and!; [done|done|cbn; lia|done|]. by left.
Qed.

Lemma verify_from_chained pay prev n l :
  chained pay prev l -> verify_from pay prev n l
  = Ok {| ok := true; rows := n + Z.of_nat (length l); broken_at_id := VNone; reason := None |}.
Proof.
  revert prev n. induction l as [|row l IH]; intros prev n; cbn [chained verify_from length].
  { intros _. by rewrite Z.add_0_r. }
  intros (h & (Hp & Hh & Hr) & H). rewrite (proj2 (is_text_true _ _) Hp). cbn [negb]. rewrite Hh.
  cbn [mbind res_bind]. rewrite (proj2 (is_text_true _ _) Hr). cbn [negb]. rewrite IH by done. do 2 f_equal. lia.
Qed.

(** C19: Verification decides exactly the well-linked chains and locates damage: it
    accepts a table if and only if every row is linked to the hash of the row
    before it and carries the hash of its own contents; a rejection names the
    first row that does not reconcile, everything before it being intact, and
    its reason tells a broken link from an edited row. *)
Theorem verify_rows_decides l pay v :
  verify_rows l pay = Ok v ->
  (ok v = true <-> chained pay GENESIS_HASH l) /\
  (ok v = false -> exists pre row post,
     l = pre ++ row :: post /\ chained pay GENESIS_HASH pre /\ ~ chained pay GENESIS_HASH (pre ++ [row]) /\
     HashChain.rows v = Z.of_nat (length pre) + 1 /\ broken_at_id v = _row_get row "id" /\
     (reason v = Some LINK_BROKEN <-> _row_get row "prev_hash" <> VStr (tip_of GENESIS_HASH pre))).
Proof.
  intros H. pose proof (verify_from_spec _ _ _ _ _ H) as S. split.
  - split; intros Hv; [rewrite Hv in S; tauto|]. unfold verify_rows in H. rewrite verify_from_chained in H by done.
    apply Ok_inj in H. by subst v.
  - intros Hv. rewrite Hv in S. destruct S as (pre & row & post & -> & C & L & B & W). exists pre, row, post.
    split_and!; [done|done| |lia|done|].
    + rewrite chained_app. intros [_ (h & (Hp & Hh & Hr) & _)].
      destruct W as [[_ W]|(_ & _ & h' & Hh' & W)]; [done|]. rewrite Hh in Hh'. apply Ok_inj in Hh'. congruence.
    + destruct W as [[-> W]|(-> & W & _)]; [done|]. split; [|done]. intros E. by vm_compute in E.
Qed.

(** ** The tip binds the history *)

Lemma str_app_inj a b x y :
  String.length a = String.length b -> (a ++ x)%string = (b ++ y)%string -> a = b /\ x = y.
Proof.
  revert b. induction a as [|c a IH]; intros [|d b] L H; try discriminate; [done|].
  injection H as -> H. injection L as L. destruct (IH b L H) as [-> ->]. done.
Qed.

Lemma encode_utf8_Ok s m : encode_utf8 s = Ok m -> m = s.
Proof. unfold encode_utf8. destruct (existsb _ _); [done|]. intros H. by apply Ok_inj in H. Qed.

Lemma material_Ok prev p m :
  String.length prev = 64%nat -> material (VStr prev) p = Ok m ->
  exists j, canonical_json p = Ok j /\ m = (prev ++ newline ++ j)%string.
Proof.
  intros L. unfold material. intros (j & Hj & H)%bind_Ok. apply encode_utf8_Ok in H. exists j. split; [done|].
  subst m. destruct prev; [discriminate|done].
Qed.

Lemma chained_snoc pay l row :
  chained pay GENESIS_HASH (l ++ [row]) ->
  chained pay GENESIS_HASH l /\ String.length (tip_of GENESIS_HASH l) = 64%nat /\
  exists m, material (VStr (tip_of GENESIS_HASH l)) (pay row) = Ok m /\
            tip_of GENESIS_HASH (l ++ [row]) = sha256 m.
Proof.
  rewrite chained_app. intros [H (h & (Hp & Hh & Hr) & _)]. split; [done|].
  split; [by eapply chained_tip_length|]. apply hash_payload_sha in Hh as (m & Hm & ->).
  exists m. split; [done|]. rewrite tip_of_app. cbn [tip_of]. by rewrite Hr.
Qed.

(** Two different texts hashed in the two chains, with one digest. *)
Definition clash (pay1 pay2 : val -> val) (l1 l2 : list val) : Prop :=
  exists p1 r1 m1 p2 r2 m2,
    r1 ∈ l1 /\ r2 ∈ l2 /\ material (VStr p1) (pay1 r1) = Ok m1 /\ material (VStr p2) (pay2 r2) = Ok m2 /\
    m1 <> m2 /\ sha256 m1 = sha256 m2.

(** A text hashed in the chain whose digest is the genesis value. *)
Definition hits_genesis (pay : val -> val) (l : list val) : Prop :=
  exists p r m, r ∈ l /\ material (VStr p) (pay r) = Ok m /\ sha256 m = GENESIS_HASH.

Definition same_content (pay1 pay2 : val -> val) (r1 r2 : val) : Prop :=
  canonical_json (pay1 r1) = canonical_json (pay2 r2).

Lemma tip_binds pay1 pay2 l1 l2 :
  chained pay1 GENESIS_HASH l1 -> chained pay2 GENESIS_HASH l2 ->
  tip_of GENESIS_HASH l1 = tip_of GENESIS_HASH l2 ->
  Forall2 (same_content pay1 pay2) l1 l2 \/ clash pay1 pay2 l1 l2 \/ hits_genesis pay1 l1 \/ hits_genesis pay2 l2.
Proof.
  revert l2. induction l1 as [|r1 l1 IH] using rev_ind; intros l2 C1 C2 T.
  - destruct l2 as [|r2 l2 _] using rev_ind; [by left|].
    apply chained_snoc in C2 as (_ & _ & m & Hm & Ht). do 3 right. exists (tip_of GENESIS_HASH l2), r2, m.
    rewrite <- Ht. split; [apply elem_of_app; right; by left|]. by split.
  - destruct l2 as [|r2 l2 _] using rev_ind; apply chained_snoc in C1 as (C1 & L1 & m1 & M1 & T1).
    + right. right. left. exists (tip_of GENESIS_HASH l1), r1, m1. rewrite <- T1.
      split; [apply elem_of_app; right; by left|]. by split.
    + apply chained_snoc in C2 as (C2 & L2 & m2 & M2 & T2). rewrite T1, T2 in T.
      destruct (decide (m1 = m2)) as [Em|Hne].
      * destruct (material_Ok _ _ _ L1 M1) as (j1 & J1 & E1), (material_Ok _ _ _ L2 M2) as (j2 & J2 & E2).
        rewrite E1, E2 in Em. apply str_app_inj in Em as [Et Ej]; [|congruence].
        apply (str_app_inj newline newline) in Ej as [_ Ej]; [|done].
        destruct (IH l2 C1 C2 Et) as [F|[Cl|[G|G]]].
        -- left. apply Forall2_app; [done|]. repeat constructor. unfold same_content. congruence.
        -- right. left. destruct Cl as (p1 & a & n1 & p2 & b & n2 & Ha & Hb & H). exists p1, a, n1, p2, b, n2.
           split; [apply elem_of_app; by left|]. split; [apply elem_of_app; by left|]. done.
        -- right. right. left. destruct G as (p & r & m & Hr & H). exists p, r, m. split; [apply elem_of_app; by left|]. done.
        -- do 3 right. destruct G as (p & r & m & Hr & H). exists p, r, m. split; [apply elem_of_app; by left|]. done.
      * right. left. exists (tip_of GENESIS_HASH l1), r1, m1, (tip_of GENESIS_HASH l2), r2, m2.
        split_and!; auto; apply elem_of_app; right; by left.
Qed.

Lemma verified_chained l pay v : verify_rows l pay = Ok v -> ok v = true -> chained pay GENESIS_HASH l.
Proof. intros H Hv. pose proof (verify_from_spec _ _ _ _ _ H) as S. rewrite Hv in S. tauto. Qed.

Lemma hash_or_genesis_tip s : String.length s = 64%nat -> hash_or_genesis (VStr s) = s.
Proof. by destruct s. Qed.

Lemma tip_of_last pay l :
  chained pay GENESIS_HASH l ->
  tip_of GENESIS_HASH l = match last l with None => GENESIS_HASH | Some row => hash_or_genesis (_row_get row "row_hash") end.
Proof.
  destruct l as [|row l _] using rev_ind; [done|]. intros C. rewrite last_snoc.
  pose proof (chained_tip_length pay GENESIS_HASH _ eq_refl C) as L. rewrite tip_of_app in *. cbn [tip_of] in *.
  apply chained_app in C as [_ (h & (_ & _ & Hr) & _)]. rewrite Hr in *. by rewrite hash_or_genesis_tip.
Qed.

Lemma chain_tip_tip_of pay t : chained pay GENESIS_HASH (t_rows t) -> chain_tip t = tip_of GENESIS_HASH (t_rows t).
Proof. intros C. unfold chain_tip. by rewrite (tip_of_last pay). Qed.

(** C20: The last hash binds the whole history: two tables that [verify_rows] accepts
    and whose [chain_tip] is the same have the same number of rows and, row by row, the
    same canonical contents, unless the rows at hand exhibit two different hashed
    texts with the same SHA-256 digest or one whose digest is the genesis value. *)
Theorem tip_binds_history pay1 pay2 t1 t2 v1 v2 :
  verify_rows (t_rows t1) pay1 = Ok v1 -> ok v1 = true ->
  verify_rows (t_rows t2) pay2 = Ok v2 -> ok v2 = true ->
  chain_tip t1 = chain_tip t2 ->
  Forall2 (same_content pay1 pay2) (t_rows t1) (t_rows t2) \/ clash pay1 pay2 (t_rows t1) (t_rows t2) \/
  hits_genesis pay1 (t_rows t1) \/ hits_genesis pay2 (t_rows t2).
Proof.
  intros V1 O1 V2 O2 T. pose proof (verified_chained _ _ _ V1 O1) as C1. pose proof (verified_chained _ _ _ V2 O2) as C2.
  apply tip_binds; [done|done|]. by rewrite <- (chain_tip_tip_of pay1), <- (chain_tip_tip_of pay2).
Qed.

(** An edited row is found: when the contents of one row of a verifying table
    are replaced by contents with another digest, verification fails at exactly
    that row, with the reason of an edit, whatever follows it. *)
Theorem edit_is_located pay pre row row' post h :
  chained pay GENESIS_HASH (pre ++ row :: post) ->
  _row_get row' "prev_hash" = _row_get row "prev_hash" -> _row_get row' "row_hash" = _row_get row "row_hash" ->
  hash_payload (VStr (tip_of GENESIS_HASH pre)) (pay row') = Ok h -> _row_get row "row_hash" <> VStr h ->
  verify_rows (pre ++ row' :: post) pay
  = Ok {| ok := false; rows := Z.of_nat (length pre) + 1; broken_at_id := _row_get row' "id"; reason := Some ROW_EDITED |}.
Proof.
  rewrite chained_app. intros [Cp (h0 & (Hp & _ & _) & _)] Ep Eh Hh Hne. unfold verify_rows.
  assert (forall prev n, chained pay prev pre ->
    verify_from pay prev n (pre ++ row' :: post) = verify_from pay (tip_of prev pre) (n + Z.of_nat (length pre)) (row' :: post)) as A.
  { clear. induction pre as [|r pre IH]; intros prev n C; cbn [app length tip_of].
    { cbn [length]. by rewrite Z.add_0_r. }
    destruct C as (h & (Hp & Hh & Hr) & C). cbn [verify_from]. rewrite (proj2 (is_text_true _ _) Hp). cbn [negb].
    rewrite Hh. cbn [mbind res_bind]. rewrite Hr, (proj2 (is_text_true _ _) eq_refl). cbn [negb].
    rewrite IH by done. cbn [verify_from]. by replace (n + 1 + Z.of_nat (length pre)) with (n + Z.of_nat (S (length pre))) by lia. }
  rewrite A by done. cbn [verify_from]. rewrite Ep, Hp, (proj2 (is_text_true _ _) eq_refl). cbn [negb].
  rewrite Hh. cbn [mbind res_bind]. rewrite Eh, (proj2 (is_text_false _ _) Hne). cbn [negb]. do 2 f_equal.
Qed.

(** ** Appending *)

(** The value kinds of the stores' columns. *)
Inductive column_type := CReal | CInteger | CText.

(** A value of the column's own kind, which the storage engine keeps as it is. *)
Definition own_type (ty : column_type) (v : val) : bool :=
  match ty, v with
  | _, VNone => true
  | CReal, VFloat f => fin f && negb (neg_zerob f)
  | CInteger, VInt z => (- 2 ^ 63 <=? z) && (z <? 2 ^ 63)
  | CText, VStr _ => true
  | _, _ => false
  end.

Definition reco_type (c : string) : column_type :=
  if str_in c ["created_at"; "entry"; "stop_loss"; "take_profit"; "risk_reward"]%string then CReal
  else if String.eqb c "conviction" then CInteger else CText.

Definition log_type (c : string) : column_type := if String.eqb c "created_at" then CReal else CText.

(** A dictionary entry under a fresh key is found past the others. *)
Lemma dict_find_app_ne k l l' :
  Forall (fun kv => kv.1 <> VStr k) l -> dict_find k (l ++ l') = dict_find k l'.
Proof.
  induction 1 as [|[k' v] l H Hl IH]; [done|]. cbn [app dict_find]. cbn in H.
  destruct k'; try done. destruct (String.eqb_spec k s) as [->|]; [done|]. exact IH.
Qed.

Lemma row_cells payload rest id columns :
  map fst payload = columns -> NoDup ("id"%string :: columns) ->
  payload_of columns (VDict ((VStr "id", VInt id) :: map (fun '(c, v) => (VStr c, v)) payload ++ rest))
  = VDict (map (fun '(c, v) => (VStr c, v)) payload).
Proof.
  intros <- [Hid Hn]%NoDup_cons. unfold payload_of. f_equal. rewrite map_map. apply map_ext_in.
  intros [c v] Hin. cbn [fst]. f_equal. unfold _row_get, vget, dict_get.
  assert (c <> "id"%string) as Hc.
  { intros ->. apply Hid. apply list_elem_of_In in Hin. by apply (list_elem_of_fmap_2 fst _ ("id"%string, v)). }
  cbn [dict_find]. rewrite (proj2 (String.eqb_neq _ _) Hc).
  apply list_elem_of_In, list_elem_of_split in Hin as (l1 & l2 & ->).
  rewrite map_app, <- app_assoc, dict_find_app_ne.
  - cbn [map app dict_find]. by rewrite String.eqb_refl.
  - apply Forall_forall. intros kv ([c' v'] & -> & Hin)%list_elem_of_fmap. cbn. intros [= ->].
    rewrite map_app in Hn. cbn [map fst] in Hn. apply NoDup_app in Hn as (_ & Hd & _).
    apply (Hd c); [by apply (list_elem_of_fmap_2 fst _ (c, v'))|by left].
Qed.

Section appending.
Context (stored : string -> val -> res val) (types : string -> column_type) (columns : list string).
Context (Hstored : forall c v, own_type (types c) v = true -> stored c v = Ok v).
Context (Hnodup : NoDup ("id" :: "prev_hash" :: "row_hash" :: columns)%string).
Context (Hprev : types "prev_hash" = CText) (Hrow : types "row_hash" = CText).

Lemma store_cells_own values :
  Forall (fun '(c, v) => own_type (types c) v = true) values ->
  store_cells stored values = Ok (map (fun '(c, v) => (VStr c, v)) values).
Proof.
  induction 1 as [|[c v] values H Hv IH]; [done|]. unfold store_cells in *. cbn [mapM_res map].
  rewrite Hstored by done. cbn [mbind res_bind]. by rewrite IH.
Qed.

Lemma insert_linked_spec t prev payload t' id :
  map fst payload = columns -> Forall (fun '(c, v) => own_type (types c) v = true) payload ->
  insert_linked stored t prev payload = Ok (t', id) ->
  exists row h, t_rows t' = t_rows t ++ [row] /\ link (payload_of columns) prev row h /\
                _row_get row "id" = VInt id.
Proof.
  intros Hc Ho. unfold insert_linked. intros (h & Hh & H)%bind_Ok.
  rewrite store_cells_own in H; [|apply Forall_app; split; [done|]; constructor; [by rewrite Hprev|];
                                 constructor; [by rewrite Hrow|constructor]].
  cbn [mbind res_bind] in H. apply Ok_inj in H. injection H as <- <-. eexists _, h. split; [reflexivity|].
  assert (forall k, k ∈ ["prev_hash"; "row_hash"]%string -> forall rest,
    _row_get (VDict ((VStr "id", VInt (t_next t)) :: map (fun '(c, v) => (VStr c, v)) payload ++ rest)) k
    = vget (VDict rest) k) as Hskip.
  { intros k Hk rest. unfold _row_get, vget, dict_get. f_equal.
    apply (dict_find_app_ne k ((VStr "id", VInt (t_next t)) :: map (fun '(c, v) => (VStr c, v)) payload)).
    assert (k <> "id"%string /\ k ∉ columns) as [Hid Hcol].
    { rewrite !NoDup_cons in Hnodup. rewrite !elem_of_cons in *.
      destruct Hk as [->|[->|Hk%elem_of_nil]]; [| |done]; (split; [done|tauto]). }
    constructor; [cbn; congruence|]. apply Forall_forall. intros kv ([c v] & -> & Hin)%list_elem_of_fmap.
    cbn. intros [= ->]. apply Hcol. rewrite <- Hc. by apply (list_elem_of_fmap_2 fst _ (k, v)). }
  rewrite map_app. split; [|done]. unfold link. rewrite !Hskip by (rewrite !elem_of_cons; tauto).
  split; [done|]. split; [|done]. rewrite (row_cells payload); [done|done|].
  rewrite !NoDup_cons in *. rewrite !elem_of_cons in *. tauto.
Qed.

(** Appending at the tip keeps the chain. *)
Lemma append_chained t payload t' id :
  map fst payload = columns -> Forall (fun '(c, v) => own_type (types c) v = true) payload ->
  chained (payload_of columns) GENESIS_HASH (t_rows t) ->
  insert_linked stored t (chain_tip t) payload = Ok (t', id) ->
  chained (payload_of columns) GENESIS_HASH (t_rows t').
Proof.
  intros Hc Ho C H. destruct (insert_linked_spec _ _ _ _ _ Hc Ho H) as (row & h & -> & L & _).
  apply chained_app. split; [done|]. exists h. split; [|done]. by rewrite <- (chain_tip_tip_of (payload_of columns)).
Qed.

(** A link computed against another hash than the tip breaks it. *)
Lemma append_stale t prev payload t' id :
  map fst payload = columns -> Forall (fun '(c, v) => own_type (types c) v = true) payload ->
  chained (payload_of columns) GENESIS_HASH (t_rows t) -> prev <> chain_tip t ->
  insert_linked stored t prev payload = Ok (t', id) ->
  verify_rows (t_rows t') (payload_of columns)
  = Ok {| ok := false; rows := Z.of_nat (length (t_rows t')); broken_at_id := VInt id; reason := Some LINK_BROKEN |}.
Proof.
  intros Hc Ho C Hne H. destruct (insert_linked_spec _ _ _ _ _ Hc Ho H) as (row & h & -> & (Hp & _ & _) & Hid).
  rewrite (chain_tip_tip_of _ _ C) in Hne. rewrite length_app. cbn [length].
  assert (forall l p n, chained (payload_of columns) p l -> tip_of p l <> prev ->
    verify_from (payload_of columns) p n (l ++ [row])
    = Ok {| ok := false; rows := n + Z.of_nat (length l) + 1; broken_at_id := VInt id; reason := Some LINK_BROKEN |}) as A.
  { clear C Hne. induction l as [|r l IH]; intros p n C Hne; cbn [app verify_from length tip_of] in *.
    - rewrite Hp, (proj2 (is_text_false _ _)) by congruence. cbn [negb]. rewrite Hid. do 2 f_equal. lia.
    - destruct C as (h' & (Hp' & Hh & Hr) & C). rewrite (proj2 (is_text_true _ _) Hp'). cbn [negb].
      rewrite Hh. cbn [mbind res_bind]. rewrite Hr in *. rewrite (proj2 (is_text_true _ _) eq_refl). cbn [negb].
      rewrite IH by done. do 2 f_equal. lia. }
  unfold verify_rows. rewrite A by (done || congruence). do 2 f_equal. lia.
Qed.
End appending.

(** ** The two stores *)

(** The arguments [record] is documented to take: optional texts, optional
    floats, a conviction of machine size. *)
Definition text_arg (v : val) : bool := match v with VNone | VStr _ => true | _ => false end.
Definition price_arg (v : val) : bool := match v with VNone => true | VFloat f => negb (neg_zerob f) | _ => false end.

Definition declared (a : recommendation) : bool :=
  forallb text_arg [rc_symbol a; rc_timeframe a; rc_mode a; rc_profile a; rc_horizon a; rc_model_id a;
                    rc_prompt_hash a; rc_prompt_set_hash a] &&
  forallb price_arg [rc_entry a; rc_stop_loss a; rc_take_profit a; rc_risk_reward a] &&
  match rc_conviction a with VNone => true | VInt z => (- 2 ^ 63 <=? z) && (z <? 2 ^ 63) | _ => false end.

Definition clock_ok (now : float) : bool := fin now && negb (neg_zerob now).

Lemma text_arg_own v : text_arg v = true -> own_type CText v = true.
Proof. by destruct v. Qed.

Lemma finite_own v w : price_arg v = true -> _finite v = Ok w -> own_type CReal w = true.
Proof.
  intros Hp H. destruct v as [| | |f| | | | | | |]; try done; cbn [_finite] in H; apply Ok_inj in H; subst w; [done|].
  unfold price_arg in Hp. destruct (fin f) eqn:F; [|done]. cbn [own_type]. by rewrite F, Hp.
Qed.

Lemma json_or_none_own v w : json_or_none v = Ok w -> own_type CText w = true.
Proof.
  unfold json_or_none. destruct (is_none v); [intros H; by apply Ok_inj in H as <-|].
  intros (s & _ & H)%bind_Ok. by apply Ok_inj in H as <-.
Qed.

Lemma text_own v : own_type CText (_text v) = true.
Proof. unfold _text. destruct v; try done; destruct (negb _); try done; by destruct (_ <? _). Qed.

Lemma py_or_own v s : own_type CText v = true -> own_type CText (py_or v (VStr s)) = true.
Proof. unfold py_or. by destruct (truthy v). Qed.

Lemma conviction_own v w :
  match v with VNone => true | VInt z => (- 2 ^ 63 <=? z) && (z <? 2 ^ 63) | _ => false end = true ->
  _int_or_none v = Ok w -> own_type CInteger w = true.
Proof.
  intros H. destruct v; try done; unfold _int_or_none; cbn [is_bool int_or_none].
  - intros E. by apply Ok_inj in E as <-.
  - cbn. intros E. by apply Ok_inj in E as <-.
Qed.

Lemma reco_payload_own e now a payload :
  declared a = true -> clock_ok now = true -> reco_payload e now a = Ok payload ->
  map fst payload = RECO_COLUMNS /\ Forall (fun '(c, v) => own_type (reco_type c) v = true) payload.
Proof.
  unfold declared. rewrite !andb_true_iff. intros [[Ht Hp] Hc] Hn H. cbn [forallb] in Ht, Hp. bools.
  unfold reco_payload in H.
  apply bind_Ok in H as (en & E1 & H). apply bind_Ok in H as (st & E2 & H). apply bind_Ok in H as (tp & E3 & H).
  apply bind_Ok in H as (cv & E4 & H). apply bind_Ok in H as (rr & E5 & H). apply bind_Ok in H as (ra & E6 & H).
  apply bind_Ok in H as (inp & E7 & H). apply Ok_inj in H. subst payload. split; [done|].
  apply finite_own in E1, E2, E3, E5; [|done..]. apply conviction_own in E4; [|done].
  apply json_or_none_own in E6, E7. unfold clock_ok in Hn.
  repeat (apply Forall_cons; split); try apply Forall_nil; try exact I; cbn -[own_type]; try done;
    try (by apply text_arg_own).
  - unfold stripped. destruct (rc_thread_id a); try done. by destruct (nonempty _).
  - unfold non_blank. destruct (rc_user_id a); try done. by destruct (nonempty _).
  - unfold analyst_of_record. destruct (e _); [|done]. by destruct (nonempty _).
Qed.

Section reachable.
Context (stored : string -> val -> res val).

(** One recommendation recorded; writers take turns. *)
Inductive reco_step (t t' : table) : Prop :=
| reco_step_intro e now a id :
    declared a = true -> clock_ok now = true -> record stored e now t a = Ok (t', id) -> reco_step t t'.

(** One logged event; writers take turns. *)
Inductive log_step (t t' : table) : Prop :=
| log_request now kind thread user content mode symbol timeframe profile model id :
    clock_ok now = true ->
    record_request stored now t kind thread user content mode symbol timeframe profile model = Ok (t', id) -> log_step t t'
| log_outcome now kind status thread user content detail category mode model id :
    clock_ok now = true ->
    record_outcome stored now t kind status thread user content detail category mode model = Ok (t', id) -> log_step t t'.

Definition verified (l : list val) : ChainVerification :=
  {| ok := true; rows := Z.of_nat (length l); broken_at_id := VNone; reason := None |}.

Lemma chained_verified pay l : chained pay GENESIS_HASH l -> verify_rows l pay = Ok (verified l).
Proof. intros C. unfold verify_rows. by rewrite verify_from_chained. Qed.

Lemma reco_step_chained :
  (forall c v, own_type (reco_type c) v = true -> stored c v = Ok v) -> forall t t', reco_step t t' ->
  chained (payload_of RECO_COLUMNS) GENESIS_HASH (t_rows t) -> chained (payload_of RECO_COLUMNS) GENESIS_HASH (t_rows t').
Proof.
  intros Hs t t' [e now a id Hd Hn H] C. unfold record in H.
  destruct (thread_row t (rc_thread_id a)); [apply Ok_inj in H; by injection H as <- <-|].
  apply bind_Ok in H as (payload & Hp & H). destruct (reco_payload_own _ _ _ _ Hd Hn Hp) as [Hc Ho].
  unfold record_commit in H. apply bind_Ok in H as ([t1 i1] & Hi & H).
  destruct (thread_row t (rc_thread_id a)); apply Ok_inj in H; injection H as <- <-; [done|].
  eapply (append_chained stored reco_type RECO_COLUMNS); [exact Hs| |done|done|exact Hc|exact Ho|exact C|exact Hi].
  refine (bool_decide_unpack _ _). by vm_compute.
Qed.

Lemma log_step_chained :
  (forall c v, own_type (log_type c) v = true -> stored c v = Ok v) -> forall t t', log_step t t' ->
  chained (payload_of LOG_COLUMNS) GENESIS_HASH (t_rows t) -> chained (payload_of LOG_COLUMNS) GENESIS_HASH (t_rows t').
Proof.
  intros Hs t t' H C.
  destruct H as [now kind thread user content mode symbol timeframe profile model id Hn H
                |now kind status thread user content detail category mode model id Hn H];
    (unfold record_request, record_outcome, _append in H;
     refine (append_chained stored log_type LOG_COLUMNS Hs _ eq_refl eq_refl t _ t' id _ _ C H);
     [refine (bool_decide_unpack _ _); by vm_compute|reflexivity|]);
    unfold clock_ok in Hn;
    repeat (apply Forall_cons; split); try apply Forall_nil; cbn -[own_type]; try done;
    try apply py_or_own; apply text_own.
Qed.
End reachable.

(** Every recommendation table that [record] builds from an empty store, over
    any sequence of calls with arguments of the declared types, verifies in
    full, given that the storage engine keeps values of a column's own kind. *)
Theorem reco_chain_verifies stored t :
  (forall c v, own_type (reco_type c) v = true -> stored c v = Ok v) ->
  rtc (reco_step stored) empty_table t -> reco_verify_chain t = Ok (verified (t_rows t)).
Proof.
  intros Hs H. apply chained_verified.
  assert (chained (payload_of RECO_COLUMNS) GENESIS_HASH (t_rows empty_table)) as C by done. revert C.
  induction H as [|a b c Hab Hbc IH]; intros C; [done|]. apply IH. by eapply reco_step_chained.
Qed.

(** Every interaction log built by requests and outcomes, whatever their
    arguments, verifies in full, when writers take turns and the storage engine
    keeps values of a column's own kind. *)
Theorem log_chain_verifies stored t :
  (forall c v, own_type (log_type c) v = true -> stored c v = Ok v) ->
  rtc (log_step stored) empty_table t -> log_verify_chain t = Ok (verified (t_rows t)).
Proof.
  intros Hs H. apply chained_verified.
  assert (chained (payload_of LOG_COLUMNS) GENESIS_HASH (t_rows empty_table)) as C by done. revert C.
  induction H as [|a b c Hab Hbc IH]; intros C; [done|]. apply IH. by eapply log_step_chained.
Qed.

(** A link computed against a stale tip breaks the chain: in either store, an
    insert whose previous hash was read before another writer's row arrived is
    accepted by the table, and from then on verification fails at that row with
    the reason of an inserted, removed or reordered row. *)
Theorem stale_link_breaks stored t prev payload t' id :
  (forall c v, own_type (log_type c) v = true -> stored c v = Ok v) ->
  map fst payload = LOG_COLUMNS -> Forall (fun '(c, v) => own_type (log_type c) v = true) payload ->
  log_verify_chain t = Ok (verified (t_rows t)) -> prev <> chain_tip t ->
  insert_linked stored t prev payload = Ok (t', id) ->
  log_verify_chain t'
  = Ok {| ok := false; rows := Z.of_nat (length (t_rows t')); broken_at_id := VInt id; reason := Some LINK_BROKEN |}.
Proof.
  intros Hs Hc Ho V Hne H. pose proof (verify_from_spec _ _ _ _ _ V) as [C _].
  refine (append_stale stored log_type LOG_COLUMNS Hs _ eq_refl eq_refl t prev payload t' id Hc Ho C Hne H).
  refine (bool_decide_unpack _ _). by vm_compute.
Qed.

Definition request_payload (user : string) : list (string * val) :=
  [("created_at", VFloat 10); ("event", VStr "request"); ("kind", VStr "qa"); ("thread_id", VNone);
   ("user_id", VStr user); ("mode", VNone); ("symbol", VNone); ("timeframe", VNone); ("profile", VNone);
   ("model", VNone); ("content", VStr "hello"); ("status", VNone); ("detail", VNone); ("refusal_category", VNone)]%string.

(** Two writers that both read the tip of the empty log before either inserts. *)
Definition forked : res table :=
  r1 ← insert_linked store_as_is empty_table (chain_tip empty_table) (request_payload "a");
  r2 ← insert_linked store_as_is r1.1 (chain_tip empty_table) (request_payload "b");
  Ok r2.1.

(** Two concurrent requests fork the log: reading the tip and inserting the row
    are separate statements, and when two writers read the same tip both rows
    are stored and the untampered log no longer verifies. *)
Theorem concurrent_appends_fork :
  (t ← forked; v ← log_verify_chain t; Ok (length (t_rows t), v))
  = Ok (2%nat, {| ok := false; rows := 2; broken_at_id := VInt 2; reason := Some LINK_BROKEN |}).
Proof. vm_compute. reflexivity. Qed.

(** ** Canonical text *)

(** Sorting by a strict total order. *)

Definition key_le (a b : string * string) : Prop := key_ltb b a = false.

Lemma key_ltb_le a b : key_ltb a b = true -> key_le a b.
Proof.
  unfold key_le, key_ltb. intros H. destruct (str_ltb b.1 a.1) eqn:E; [|done].
  pose proof (str_ltb_trans _ _ _ H E) as X. by rewrite str_ltb_irrefl in X.
Qed.

Lemma key_le_trans a b c : key_le a b -> key_le b c -> key_le a c.
Proof.
  unfold key_le, key_ltb. intros H1 H2. destruct (str_ltb c.1 a.1) eqn:E; [|done].
  destruct (str_ltb a.1 b.1) eqn:Eab.
  - by rewrite (str_ltb_trans _ _ _ E Eab) in H2.
  - rewrite (str_ltb_total _ _ Eab H1) in E. by rewrite E in H2.
Qed.

Lemma insert_by_sorted x l : StronglySorted key_le l -> StronglySorted key_le (insert_by key_ltb x l).
Proof.
  induction 1 as [|y l Hs IH Hy]; cbn [insert_by]; [by repeat constructor|]. destruct (key_ltb x y) eqn:E.
  - constructor; [by constructor|]. constructor; [by apply key_ltb_le|]. eapply Forall_impl; [exact Hy|].
    intros z Hz. eapply key_le_trans; [|exact Hz]. by apply key_ltb_le.
  - constructor; [done|]. rewrite insert_by_perm. by constructor.
Qed.

Lemma sort_by_sorted l : StronglySorted key_le (sort_by key_ltb l).
Proof.
  unfold sort_by. assert (forall acc, StronglySorted key_le acc ->
    StronglySorted key_le (fold_left (fun acc x => insert_by key_ltb x acc) l acc)) as H; [|apply H; constructor].
  induction l as [|x l IH]; intros acc Ha; [done|]. cbn [fold_left]. by apply IH, insert_by_sorted.
Qed.

Lemma sort_by_confluent (l1 l2 : list (string * string)) :
  NoDup (map fst l1) -> l1 ≡ₚ l2 -> sort_by key_ltb l1 = sort_by key_ltb l2.
Proof.
  intros Hn Hp. apply (StronglySorted_unique_strong key_le).
  - intros x y Hx Hy L1 L2. rewrite sort_by_perm in Hx, Hy. rewrite <- Hp in Hy.
    pose proof (str_ltb_total _ _ L2 L1) as E. destruct x as [k v], y as [k' v']. cbn in E. subst k'.
    apply list_elem_of_split in Hx as (a & b & ->). rewrite map_app in Hn. cbn [map fst] in Hn.
    apply NoDup_app in Hn as (_ & Hd & [Hb _]%NoDup_cons). rewrite !elem_of_app, elem_of_cons in Hy.
    destruct Hy as [Hy|[[= ->]|Hy]]; [|done|].
    + exfalso. apply (Hd k); [by apply (list_elem_of_fmap_2 fst _ (k, v'))|by left].
    + exfalso. apply Hb. by apply (list_elem_of_fmap_2 fst _ (k, v')).
  - apply sort_by_sorted.
  - apply sort_by_sorted.
  - by rewrite !sort_by_perm.
Qed.

Lemma dict_set_fresh l k v : VStr k ∉ map fst l -> dict_set l k v = l ++ [(VStr k, v)].
Proof.
  induction l as [|[k' w] l IH]; intros H; [done|]. cbn [map fst] in H. apply not_elem_of_cons in H as [Hne H].
  specialize (IH H). unfold dict_set in *. cbn [app].
  destruct k' as [| | | |s| | | | | |]; try (by rewrite IH).
  destruct (String.eqb_spec k s) as [->|]; [done|by rewrite IH].
Qed.

Lemma str_keyed_id l :
  str_keys l = true -> NoDup (map fst l) -> str_keyed l = l.
Proof.
  intros Hs Hn. unfold str_keyed.
  assert (forall acc, NoDup (map fst (acc ++ l)) ->
    fold_left (fun acc kv => dict_set acc (py_str kv.1) kv.2) l acc = acc ++ l) as H; [|by apply (H [])].
  clear Hn. revert Hs. induction l as [|[k v] l IH]; intros Hs acc Hn; cbn [fold_left]; [by rewrite app_nil_r|].
  unfold str_keys in Hs. cbn [forallb fst] in Hs. apply andb_true_iff in Hs as [Hk Hs].
  destruct k as [| | | |k| | | | | |]; try done. cbn [fst snd py_str].
  rewrite dict_set_fresh.
  - rewrite IH; [by rewrite <- app_assoc|done|by rewrite <- app_assoc].
  - rewrite map_app in Hn. apply NoDup_app in Hn as (_ & Hd & _). intros Hin. apply (Hd _ Hin). by left.
Qed.

Lemma dumps_dict l :
  str_keys l = true ->
  dumps canonical_opts (VDict l)
  = items ← mapM_res (fun kv => s ← dumps canonical_opts kv.2; Ok (py_str kv.1, s)) l;
    Ok ("{" ++ String.concat "," (map (fun '(k, s) => json_str false k ++ ":" ++ s) (sort_by key_ltb items)) ++ "}")%string.
Proof.
  intros Hs. cbn [dumps canonical_opts sort_keys ensure_ascii item_sep key_sep andb]. rewrite Hs. cbn [negb].
  f_equal. induction l as [|[k v] l IH]; [done|]. unfold str_keys in Hs. cbn [forallb fst] in Hs.
  apply andb_true_iff in Hs as [Hk Hs]. destruct k as [| | | |k| | | | | |]; try done.
  cbn [mapM_res json_key mbind res_bind fst snd py_str]. rewrite IH by done. by destruct (dumps canonical_opts v).
Qed.

Lemma mapM_keys l items :
  mapM_res (fun kv : val * val => s ← dumps canonical_opts kv.2; Ok (py_str kv.1, s)) l = Ok items ->
  map fst items = map (fun kv => py_str kv.1) l.
Proof.
  revert items. induction l as [|kv l IH]; intros items H; cbn [mapM_res] in H.
  - apply Ok_inj in H. by subst items.
  - apply bind_Ok in H as (y & Hy & H). apply bind_Ok in H as (ys & Hys & H). apply Ok_inj in H. subst items.
    apply bind_Ok in Hy as (s & _ & Hy). apply Ok_inj in Hy. subst y. cbn [map fst]. f_equal. by apply IH.
Qed.

Definition canonical_entries (l : list (val * val)) : list (val * val) :=
  map (fun kv => (kv.1, _canonicalise kv.2)) l.

Lemma canonicalise_dict l :
  str_keys l = true -> NoDup (map fst l) -> _canonicalise (VDict l) = VDict (canonical_entries l).
Proof.
  intros Hs Hn. cbn [_canonicalise]. f_equal.
  assert ((fix go l := match l with [] => [] | (k, v) :: l' => (k, _canonicalise v) :: go l' end) l
          = canonical_entries l) as ->.
  { clear. induction l as [|[k v] l IH]; [done|]. cbn. by f_equal. }
  apply str_keyed_id.
  - unfold str_keys, canonical_entries in *. clear Hn. induction l as [|kv l IH]; [done|]. cbn in *.
    apply andb_true_iff in Hs as [-> Hs]. by apply IH.
  - unfold canonical_entries. by rewrite map_map.
Qed.

(** Canonical text does not depend on the order in which a dictionary was
    built: two string-keyed dictionaries with the same entries in any order
    have the same canonical JSON, hence the same hash, or both fail to
    serialise. *)
Theorem canonical_json_order l1 l2 :
  str_keys l1 = true -> NoDup (map fst l1) -> l1 ≡ₚ l2 ->
  match canonical_json (VDict l1) with
  | Ok s => canonical_json (VDict l2) = Ok s
  | Raise _ => exists e, canonical_json (VDict l2) = Raise e
  end.
Proof.
  intros Hs1 Hn1 Hp.
  assert (str_keys l2 = true) as Hs2.
  { unfold str_keys in *. apply forallb_forall. intros x Hx. rewrite forallb_forall in Hs1. apply Hs1.
    apply list_elem_of_In. rewrite Hp. by apply list_elem_of_In. }
  assert (NoDup (map fst l2)) as Hn2 by (by rewrite <- (Permutation_map fst Hp)).
  unfold canonical_json. rewrite !canonicalise_dict by done.
  assert (forall l, str_keys l = true -> str_keys (canonical_entries l) = true) as Hk.
  { intros l. unfold str_keys, canonical_entries. induction l as [|kv l IH]; [done|]. cbn.
    intros [-> H]%andb_true_iff. by apply IH. }
  rewrite !dumps_dict by auto.
  assert (canonical_entries l1 ≡ₚ canonical_entries l2) as Hpe by (by apply Permutation_map).
  destruct (mapM_res _ (canonical_entries l1)) as [items|e] eqn:M.
  - destruct (mapM_res_perm _ _ _ _ Hpe M) as (items2 & M2 & P). rewrite M2. cbn [mbind res_bind].
    rewrite (sort_by_confluent items items2); [done| |done]. rewrite (mapM_keys _ _ M). unfold canonical_entries.
    rewrite map_map. cbn [fst]. clear -Hs1 Hn1. induction l1 as [|[k v] l IH]; [constructor|].
    unfold str_keys in Hs1. cbn [forallb map fst] in *. apply andb_true_iff in Hs1 as [Hk Hs].
    apply NoDup_cons in Hn1 as [Hx Hn]. destruct k as [| | | |k| | | | | |]; try done. constructor; [|by apply IH].
    intros ([k' w] & E & Hin)%list_elem_of_fmap. apply Hx. apply list_elem_of_fmap. exists (k', w). split; [|done].
    cbn [fst py_str] in *. rewrite forallb_forall in Hs. apply list_elem_of_In in Hin as Hin'. specialize (Hs _ Hin').
    cbn [fst] in Hs. destruct k'; try done. cbn in E. by subst.
  - destruct (mapM_res_raise _ _ _ _ Hpe M) as (e' & ->). by exists e'.
Qed.

(** ** Witnesses *)

(** Two events in the log of the [concurrent_appends_fork] writers, in turn. *)
Definition log_one : table :=
  match insert_linked store_as_is empty_table (chain_tip empty_table) (request_payload "a") with
  | Ok r => r.1
  | Raise _ => empty_table
  end.

Definition log_two : table :=
  match insert_linked store_as_is log_one (chain_tip log_one) (request_payload "b") with
  | Ok r => r.1
  | Raise _ => empty_table
  end.

Definition log_pay := payload_of LOG_COLUMNS.

Lemma log_two_verifies : verify_rows (t_rows log_two) log_pay = Ok (verified (t_rows log_two)).
Proof. vm_compute. reflexivity. Qed.

Lemma log_one_verifies : verify_rows (t_rows log_one) log_pay = Ok (verified (t_rows log_one)).
Proof. vm_compute. reflexivity. Qed.

#[local] Strategy 1000 [log_one log_two].

Lemma verify_rows_decides_witness : chained log_pay GENESIS_HASH (t_rows log_two).
Proof.
  exact (proj1 (proj1 (verify_rows_decides (t_rows log_two) log_pay (verified (t_rows log_two)) log_two_verifies)) eq_refl).
Defined.

Lemma log_two_chained : chained log_pay GENESIS_HASH (t_rows log_two).
Proof.
  exact (proj1 (verify_from_spec log_pay GENESIS_HASH 0 (t_rows log_two) (verified (t_rows log_two)) log_two_verifies)).
Qed.

(** The same log under other row numbers. *)
Definition log_renumbered : table :=
  {| t_rows := map (fun row => match row with VDict l => VDict (dict_set l "id" (VInt 7)) | _ => row end) (t_rows log_two);
     t_next := 8 |}.

Definition log_renumbered_verdict : ChainVerification := verified (t_rows log_renumbered).

Lemma log_renumbered_verifies : verify_rows (t_rows log_renumbered) log_pay = Ok log_renumbered_verdict.
Proof. vm_compute. reflexivity. Qed.

Lemma tip_binds_history_witness :
  (length (t_rows log_two), map (fun row => _row_get row "id") (t_rows log_renumbered)) = (2%nat, [VInt 7; VInt 7]) /\
  (Forall2 (same_content log_pay log_pay) (t_rows log_two) (t_rows log_renumbered) \/
   clash log_pay log_pay (t_rows log_two) (t_rows log_renumbered) \/
   hits_genesis log_pay (t_rows log_two) \/ hits_genesis log_pay (t_rows log_renumbered)).
Proof.
  split; [vm_compute; reflexivity|].
  exact (tip_binds_history log_pay log_pay log_two log_renumbered (verified (t_rows log_two)) log_renumbered_verdict
           log_two_verifies eq_refl log_renumbered_verifies eq_refl ltac:(vm_compute; reflexivity)).
Defined.

(** The first row of [log_two], its user replaced. *)
Definition edited (row : val) : val :=
  match row with VDict l => VDict (dict_set l "user_id" (VStr "mallory")) | _ => row end.

Lemma edit_is_located_witness :
  exists row rest, t_rows log_two = row :: rest /\
  verify_rows (edited row :: rest) log_pay
  = Ok {| ok := false; rows := 1; broken_at_id := VInt 1; reason := Some ROW_EDITED |}.
Proof.
  pose proof log_two_chained as C. destruct (t_rows log_two) as [|row rest] eqn:E; [by vm_compute in E|].
  exists row, rest. split; [reflexivity|].
  assert (row = default VNone (head (t_rows log_two))) as Er by (by rewrite E).
  assert (exists h, hash_payload (VStr GENESIS_HASH) (log_pay (edited row)) = Ok h /\ _row_get row "row_hash" <> VStr h)
    as (h & Hh & Hne).
  { destruct (hash_payload (VStr GENESIS_HASH) (log_pay (edited row))) as [h|] eqn:Eh; subst row.
    - exists h. split; [reflexivity|]. revert Eh. vm_compute. intros Eh. apply Ok_inj in Eh. subst h. discriminate.
    - by vm_compute in Eh. }
  pose proof (edit_is_located log_pay [] row (edited row) rest h C) as H. cbn [app length tip_of] in H.
  rewrite H; [|subst row; vm_compute; reflexivity..|exact Hh|exact Hne]. subst row. vm_compute. reflexivity.
Defined.

Lemma reco_chain_verifies_witness :
  exists t id, record store_as_is (fun _ => None) 10 empty_table
                 {| rc_action := VStr "buy"; rc_thread_id := VStr "t-1"; rc_user_id := VNone; rc_symbol := VStr "INFY";
                    rc_timeframe := VStr "1h"; rc_mode := VNone; rc_profile := VNone; rc_entry := VFloat 100;
                    rc_stop_loss := VFloat 90; rc_take_profit := VFloat 120; rc_horizon := VNone;
                    rc_conviction := VInt 70; rc_risk_reward := VFloat 2; rc_rationale := VDict [];
                    rc_tool_inputs := VNone; rc_model_id := VNone; rc_prompt_hash := VNone;
                    rc_prompt_set_hash := VNone |} = Ok (t, id) /\
  reco_verify_chain t = Ok (verified (t_rows t)).
Proof.
  destruct (record _ _ _ _ _) as [[t id]|] eqn:E; [|by vm_compute in E]. exists t, id. split; [reflexivity|].
  apply (reco_chain_verifies store_as_is); [done|]. eapply rtc_l; [|apply rtc_refl].
  eapply reco_step_intro; [| |exact E]; by vm_compute.
Defined.

Lemma log_chain_verifies_witness :
  exists t id, record_request store_as_is 10 empty_table (VStr "qa") (VStr "t-1") VNone (VStr "why?") VNone VNone VNone
                 VNone VNone = Ok (t, id) /\
  log_verify_chain t = Ok (verified (t_rows t)).
Proof.
  destruct (record_request _ _ _ _ _ _ _ _ _ _ _ _) as [[t id]|] eqn:E; [|by vm_compute in E]. exists t, id.
  split; [reflexivity|]. apply (log_chain_verifies store_as_is); [done|]. eapply rtc_l; [|apply rtc_refl].
  eapply log_request; [|exact E]. by vm_compute.
Defined.

Lemma stale_link_breaks_witness :
  exists t id, insert_linked store_as_is log_one GENESIS_HASH (request_payload "b") = Ok (t, id) /\
  log_verify_chain t
  = Ok {| ok := false; rows := Z.of_nat (length (t_rows t)); broken_at_id := VInt id; reason := Some LINK_BROKEN |}.
Proof.
  destruct (insert_linked _ _ _ _) as [[t id]|] eqn:E; [|by vm_compute in E]. exists t, id. split; [reflexivity|].
  refine (stale_link_breaks store_as_is log_one GENESIS_HASH (request_payload "b") t id _ eq_refl _ log_one_verifies _ E).
  - done.
  - repeat constructor.
  - intros H. apply (f_equal (String.eqb GENESIS_HASH)) in H. by vm_compute in H.
Defined.

Lemma canonical_json_order_witness :
  canonical_json (VDict [(VStr "a", VInt 1); (VStr "b", VNone)])
  = canonical_json (VDict [(VStr "b", VNone); (VStr "a", VInt 1)]).
Proof.
  pose proof (canonical_json_order [(VStr "a", VInt 1); (VStr "b", VNone)] [(VStr "b", VNone); (VStr "a", VInt 1)]) as H.
  destruct (canonical_json (VDict [(VStr "a", VInt 1); (VStr "b", VNone)])) eqn:E; [|by vm_compute in E].
  symmetry. apply H; [done| |apply perm_swap].
  cbn [map fst]. apply NoDup_cons. split; [|apply NoDup_singleton]. by intros ?%list_elem_of_singleton.
Defined.
