(* ===== verification/SessionStore.v ===== *)
(** * The session store

    Models [agents/deep-quant-loop/session_store.py]: users' conversations as four
    tables (sessions, runs, messages, run events) with the constraints of the
    schema, and every operation on them.

    A table is a finite map from its primary key.  An operation returns the new
    store or raises, and a transaction that raises leaves the store as it was.
    The clock and the random bits an operation draws are arguments.  A row is
    split into what no operation changes and what some does. *)

From stdpp Require Import base list gmap strings.
From Stdlib Require Import ZArith Lia Floats Ascii.
From S2P Require Import Prelude PyFloat PyNum PyVal PyEnv PyJson PyStr.

#[local] Set Warnings "-inexact-float".
Open Scope Z_scope.
Open Scope res_scope.

(** ** Vocabularies *)

Inductive session_status := SESSION_ACTIVE | SESSION_ARCHIVED | SESSION_DELETED.
Inductive run_kind := RUN_FIND | RUN_VERIFY.
Inductive run_status := RUN_RUNNING | RUN_WATCHING | RUN_COMPLETE | RUN_CANCELLED | RUN_ERROR | RUN_TRUNCATED.
Inductive role := ROLE_USER | ROLE_ASSISTANT | ROLE_SYSTEM.
Inductive message_kind := KIND_ANALYSIS_REQUEST | KIND_ANALYSIS_ANSWER | KIND_QA_QUESTION | KIND_QA_ANSWER | KIND_NOTICE.
Inductive message_status := MSG_STREAMING | MSG_COMPLETE | MSG_TRUNCATED | MSG_ERROR | MSG_CANCELLED.

#[export] Instance session_status_eq_dec : EqDecision session_status.
Proof. solve_decision. Defined.
#[export] Instance run_kind_eq_dec : EqDecision run_kind.
Proof. solve_decision. Defined.
#[export] Instance run_status_eq_dec : EqDecision run_status.
Proof. solve_decision. Defined.
#[export] Instance role_eq_dec : EqDecision role.
Proof. solve_decision. Defined.
#[export] Instance message_kind_eq_dec : EqDecision message_kind.
Proof. solve_decision. Defined.
#[export] Instance message_status_eq_dec : EqDecision message_status.
Proof. solve_decision. Defined.

Definition session_status_name (s : session_status) : string :=
  match s with SESSION_ACTIVE => "active" | SESSION_ARCHIVED => "archived" | SESSION_DELETED => "deleted" end.
Definition run_kind_name (k : run_kind) : string := match k with RUN_FIND => "find" | RUN_VERIFY => "verify" end.
Definition run_status_name (s : run_status) : string :=
  match s with
  | RUN_RUNNING => "running" | RUN_WATCHING => "watching" | RUN_COMPLETE => "complete"
  | RUN_CANCELLED => "cancelled" | RUN_ERROR => "error" | RUN_TRUNCATED => "truncated"
  end.
Definition role_name (r : role) : string :=
  match r with ROLE_USER => "user" | ROLE_ASSISTANT => "assistant" | ROLE_SYSTEM => "system" end.
Definition message_kind_name (k : message_kind) : string :=
  match k with
  | KIND_ANALYSIS_REQUEST => "analysis_request" | KIND_ANALYSIS_ANSWER => "analysis_answer"
  | KIND_QA_QUESTION => "qa_question" | KIND_QA_ANSWER => "qa_answer" | KIND_NOTICE => "notice"
  end.
Definition message_status_name (s : message_status) : string :=
  match s with
  | MSG_STREAMING => "streaming" | MSG_COMPLETE => "complete" | MSG_TRUNCATED => "truncated"
  | MSG_ERROR => "error" | MSG_CANCELLED => "cancelled"
  end.

Definition SESSION_STATUSES : list session_status := [SESSION_ACTIVE; SESSION_ARCHIVED; SESSION_DELETED].
Definition RUN_KINDS : list run_kind := [RUN_FIND; RUN_VERIFY].
Definition RUN_STATUSES : list run_status :=
  [RUN_RUNNING; RUN_WATCHING; RUN_COMPLETE; RUN_CANCELLED; RUN_ERROR; RUN_TRUNCATED].
Definition ROLES : list role := [ROLE_USER; ROLE_ASSISTANT; ROLE_SYSTEM].
Definition MESSAGE_KINDS : list message_kind :=
  [KIND_ANALYSIS_REQUEST; KIND_ANALYSIS_ANSWER; KIND_QA_QUESTION; KIND_QA_ANSWER; KIND_NOTICE].
Definition MESSAGE_STATUSES : list message_status := [MSG_STREAMING; MSG_COMPLETE; MSG_TRUNCATED; MSG_ERROR; MSG_CANCELLED].

(** [RUN_LIVE_STATUSES] *)
Definition live (s : run_status) : bool := match s with RUN_RUNNING | RUN_WATCHING => true | _ => false end.

(** The member of a vocabulary a text names. *)
Definition named {A} (name : A -> string) (vocabulary : list A) (text : string) : option A :=
  List.find (fun a => String.eqb (name a) text) vocabulary.

Definition named_or_raise {A} (name : A -> string) (vocabulary : list A) (text : string) : res A :=
  match named name vocabulary text with Some a => Ok a | None => Raise ValueError end.

(** ** Identifiers *)

Definition _B32 : string := "0123456789ABCDEFGHJKMNPQRSTVWXYZ".

Definition b32_char (d : Z) : ascii := default zero (String.get (Z.to_nat d) _B32).

(** The [n] low base-32 digits of [value], most significant first, before [acc]. *)
Fixpoint b32_digits (n : nat) (value : Z) (acc : string) : string :=
  match n with
  | O => acc
  | S n' => b32_digits n' (Z.shiftr value 5) (String (b32_char (Z.land value 31)) acc)
  end.

(** One draw of the clock and of 80 random bits. *)
Record draw := { dr_now : float; dr_bits : Z }.

Definition ulid_value (milliseconds bits : Z) : Z :=
  Z.lor (Z.shiftl (Z.land milliseconds (Z.shiftl 1 48 - 1)) 80) bits.

Definition new_id (prefix : string) (d : draw) : res string :=
  milliseconds ← py_int (VFloat (dr_now d * 1000)%float);
  Ok (prefix ++ "_" ++ b32_digits 26 (ulid_value milliseconds (dr_bits d)) "")%string.

(** ** Coercion *)

Definition MAX_CONTENT_CHARS : Z := 200000.

Definition nul : ascii := zero.

(** [s[:n]] *)
Definition first_chars (n : Z) (s : string) : string := if str_len s <=? n then s else PyJson.str_take (Z.to_nat n) s.

Definition _text (cap : Z) (value : val) : option string :=
  if is_none value then None
  else
    let text := drop_char nul (py_str value) in
    if negb (nonempty (strip text)) then None
    else if cap <? str_len text then
      Some (first_chars cap text ++ String (byte_of 10) ("[truncated " ++ Z_str (str_len text - cap) ++ " characters]"))%string
    else Some text.

Definition _required (value : val) : res string :=
  match _text MAX_CONTENT_CHARS value with Some text => Ok text | None => Raise ValueError end.

Definition metadata_opts : dumps_opts :=
  {| item_sep := ","; key_sep := ":"; sort_keys := false; ensure_ascii := true; default_str := true |}.

Definition _json_or_none (value : val) : res (option string) :=
  if is_none value then Ok None
  else
    match dumps metadata_opts value with
    | Ok text => Ok (Some text)
    | Raise (TypeError | ValueError) =>
        text ← dumps dumps_default (VDict [(VStr "_unserialisable", VStr (first_chars 2000 (py_repr value)))]);
        Ok (Some text)
    | Raise e => Raise e
    end.

Definition _loads (raw : option string) : res val :=
  match raw with
  | None => Ok VNone
  | Some text => catch (loads text) (fun e => match e with TypeError | ValueError => true | _ => false end) VNone
  end.

(** ** Tables *)

(** What of a session no operation changes, and the row. *)
Record session_key := { sk_user : string; sk_symbol : string; sk_profile : string; sk_created : float }.

Record session_row := {
  se_key : session_key;
  se_title : option string;
  se_timeframe : string;
  se_status : session_status;
  se_active_run : option string;
  se_updated : float;
  se_archived : option float;
  se_metadata : option string;
}.

Record run_key := {
  rk_session : string; rk_user : string; rk_thread : string; rk_kind : run_kind; rk_symbol : string;
  rk_timeframe : string; rk_profile : string; rk_model : option string; rk_manual_trade : option string; rk_started : float;
}.

Record run_row := {
  rn_key : run_key;
  rn_status : run_status;
  rn_terminal : option run_status;
  rn_ended : option float;
  rn_last_event : float;
  rn_last_seq : Z;
}.

Record message_key := {
  mk_session : string; mk_seq : Z; mk_role : role; mk_kind : message_kind;
  mk_client : option string; mk_created : float;
}.

Record message_row := {
  ms_key : message_key;
  ms_run : option string;
  ms_content : string;
  ms_status : message_status;
  ms_error : option string;
  ms_activity : option string;
  ms_updated : float;
}.

Record event_row := { ev_event : string; ev_payload : string; ev_created : float }.

Record db := {
  sessions : gmap string session_row;
  runs : gmap string run_row;
  messages : gmap string message_row;
  run_events : gmap (string * Z) event_row;
}.

Definition empty_db : db := {| sessions := ∅; runs := ∅; messages := ∅; run_events := ∅ |}.

Definition se_user (s : session_row) : string := sk_user (se_key s).
Definition rn_session (r : run_row) : string := rk_session (rn_key r).
Definition rn_user (r : run_row) : string := rk_user (rn_key r).
Definition rn_thread (r : run_row) : string := rk_thread (rn_key r).
Definition ms_session (m : message_row) : string := mk_session (ms_key m).
Definition ms_seq (m : message_row) : Z := mk_seq (ms_key m).
Definition ms_role (m : message_row) : role := mk_role (ms_key m).
Definition ms_client (m : message_row) : option string := mk_client (ms_key m).

Definition with_sessions (d : db) (t : gmap string session_row) : db :=
  {| sessions := t; runs := runs d; messages := messages d; run_events := run_events d |}.
Definition with_runs (d : db) (t : gmap string run_row) : db :=
  {| sessions := sessions d; runs := t; messages := messages d; run_events := run_events d |}.
Definition with_messages (d : db) (t : gmap string message_row) : db :=
  {| sessions := sessions d; runs := runs d; messages := t; run_events := run_events d |}.
Definition with_events (d : db) (t : gmap (string * Z) event_row) : db :=
  {| sessions := sessions d; runs := runs d; messages := messages d; run_events := t |}.

(** [SELECT * WHERE p], in no particular order. *)
Definition rows_where {A} (p : A -> bool) (t : gmap string A) : list (string * A) :=
  List.filter (fun kv => p kv.2) (map_to_list t).

Definition is_some {A} (o : option A) : bool := match o with Some _ => true | None => false end.

Definition opt_is (o : option string) (s : string) : bool := match o with Some t => String.eqb t s | None => false end.

(** [UPDATE sessions SET updated_at = ?] *)
Definition set_updated (stamp : float) (s : session_row) : session_row :=
  {| se_key := se_key s; se_title := se_title s; se_timeframe := se_timeframe s; se_status := se_status s;
     se_active_run := se_active_run s; se_updated := stamp; se_archived := se_archived s; se_metadata := se_metadata s |}.

Definition _touch (d : db) (session_id : string) (stamp : float) : db :=
  with_sessions d (alter (set_updated stamp) session_id (sessions d)).

(** ** Sessions *)

(** The CHECK constraints of a session row. *)
Definition session_ok (s : session_row) : bool :=
  nonempty (se_user s) && nonempty (sk_symbol (se_key s)) && nonempty (sk_profile (se_key s)) && nonempty (se_timeframe s) &&
  Bool.eqb (bool_decide (se_status s = SESSION_ACTIVE)) (negb (is_some (se_archived s))).

(** A write of a session row: the constraints, then the row. *)
Definition put_session (d : db) (session_id : string) (s : session_row) : res db :=
  if session_ok s then Ok (with_sessions d (<[session_id := s]> (sessions d))) else Raise SqliteError.

Definition create_session (stamp : float) (id : draw) (d : db) (user_id symbol profile timeframe title metadata : val)
  : res (db * (string * session_row)) :=
  uid ← _required user_id;
  session_id ← new_id "sess" id;
  symbol ← _required symbol; profile ← _required profile; timeframe ← _required timeframe;
  metadata ← _json_or_none metadata;
  let s := {| se_key := {| sk_user := uid; sk_symbol := upper symbol; sk_profile := upper profile; sk_created := stamp |};
              se_title := _text 200 title; se_timeframe := timeframe; se_status := SESSION_ACTIVE; se_active_run := None;
              se_updated := stamp; se_archived := None; se_metadata := metadata |} in
  if is_some (sessions d !! session_id) then Raise SqliteError
  else d ← put_session d session_id s; Ok (d, (session_id, s)).

Definition owned_session (d : db) (session_id uid : string) : option session_row :=
  match sessions d !! session_id with
  | Some s => if String.eqb (se_user s) uid then Some s else None
  | None => None
  end.

Definition get_session_for_user (d : db) (session_id : string) (user_id : val) : res (option session_row) :=
  uid ← _required user_id; Ok (owned_session d session_id uid).

(** ** Pages of sessions *)

Definition _encode_cursor (updated_at : float) (session_id : string) : string :=
  (float_repr updated_at ++ "|" ++ session_id)%string.

Definition _decode_cursor (cursor : string) : option (float * string) :=
  let '(stamp, _, sid) := partition_char "|" cursor in
  if nonempty sid then match parse_float stamp with Ok u => Some (u, sid) | Raise _ => None end else None.

(** [LIKE]: [%] for any text, [_] for any character, ASCII letters of either case. *)
Definition fold_case (c : Z) : Z := if (65 <=? c) && (c <=? 90) then c + 32 else c.

Fixpoint like (pattern text : list Z) : bool :=
  match pattern with
  | [] => match text with [] => true | _ => false end
  | p :: pattern' =>
      if p =? 37 then
        (fix any (text : list Z) : bool := like pattern' text || match text with [] => false | _ :: text' => any text' end) text
      else
        match text with
        | [] => false
        | c :: text' => ((p =? 95) || (fold_case p =? fold_case c)) && like pattern' text'
        end
  end.

Definition sql_like (text pattern : string) : bool := like (utf8_decode pattern) (utf8_decode text).

Definition matches_query (query : option string) (s : session_row) : bool :=
  match query with
  | Some q =>
      if nonempty (strip q) then
        let pattern := ("%" ++ upper (strip q) ++ "%")%string in
        sql_like (sk_symbol (se_key s)) pattern || sql_like (upper (default "" (se_title s))) pattern
      else true
  | None => true
  end.

Definition has_status (status : option session_status) (s : session_row) : bool :=
  match status with
  | Some st => bool_decide (se_status s = st)
  | None => negb (bool_decide (se_status s = SESSION_DELETED))
  end.

(** Whether a session comes strictly after a position of the listing. *)
Definition after_position (u : float) (sid : string) (row : string * session_row) : bool :=
  PrimFloat.ltb (se_updated row.2) u || (PrimFloat.eqb (se_updated row.2) u && str_ltb row.1 sid).

(** [ORDER BY updated_at DESC, session_id DESC] *)
Definition newer (a b : string * session_row) : bool := after_position (se_updated a.2) a.1 b.

Definition after_cursor (cursor : option string) (row : string * session_row) : bool :=
  match cursor with
  | Some c =>
      if nonempty c then match _decode_cursor c with Some (u, sid) => after_position u sid row | None => true end
      else true
  | None => true
  end.

(** The sessions a listing runs over, newest activity first. *)
Definition listing (d : db) (uid : string) (status : option session_status) (query : option string)
  : list (string * session_row) :=
  sort_by newer (rows_where (fun s => String.eqb (se_user s) uid && has_status status s && matches_query query s) (sessions d)).

Definition page_limit (limit : Z) : nat := Z.to_nat (Z.max 1 (Z.min limit 100)).

Definition list_sessions (d : db) (user_id : val) (status : option string) (cursor : option string) (limit : Z)
    (query : option string) : res (list (string * session_row) * option string) :=
  uid ← _required user_id;
  status ← match status with
           | Some text => st ← named_or_raise session_status_name SESSION_STATUSES text; Ok (Some st)
           | None => Ok None
           end;
  let rows := take (S (page_limit limit)) (List.filter (after_cursor cursor) (listing d uid status query)) in
  let items := take (page_limit limit) rows in
  Ok (items, match last items with
             | Some row => if (page_limit limit <? length rows)%nat then Some (_encode_cursor (se_updated row.2) row.1) else None
             | None => None
             end).

(** ** Changing a session *)

Definition _MUTABLE_SESSION_FIELDS : list string := ["title"; "timeframe"; "status"; "active_run_id"; "metadata"]%string.
Definition _IMMUTABLE_SESSION_FIELDS : list string := ["symbol"; "profile"; "session_id"; "user_id"; "created_at"]%string.

(** The keys of a patch are checked in order; the first bad one decides. *)
Fixpoint check_fields (keys : list string) : res () :=
  match keys with
  | [] => Ok ()
  | key :: keys =>
      if str_in key _IMMUTABLE_SESSION_FIELDS then Raise ImmutableFieldError
      else if str_in key _MUTABLE_SESSION_FIELDS then check_fields keys
      else Raise ValueError
  end.

(** What a patch assigns: the value of each field it names. *)
Record assignments := {
  as_title : option (option string);
  as_timeframe : option string;
  as_active_run : option (option string);
  as_metadata : option (option string);
  as_status : option session_status;
}.

Definition assigned {A} (patch : list (string * val)) (key : string) (read : val -> res A) : res (option A) :=
  match assoc_str key patch with Some v => a ← read v; Ok (Some a) | None => Ok None end.

Definition assignments_of (patch : list (string * val)) : res assignments :=
  title ← assigned patch "title" (fun v => Ok (_text 200 v));
  timeframe ← assigned patch "timeframe" _required;
  active_run ← assigned patch "active_run_id" (fun v => Ok (_text MAX_CONTENT_CHARS v));
  metadata ← assigned patch "metadata" _json_or_none;
  status ← assigned patch "status"
             (fun v => match v with VStr text => named_or_raise session_status_name SESSION_STATUSES text | _ => Raise ValueError end);
  Ok {| as_title := title; as_timeframe := timeframe; as_active_run := active_run; as_metadata := metadata; as_status := status |}.

Definition apply_patch (stamp : float) (a : assignments) (s : session_row) : session_row :=
  {| se_key := se_key s;
     se_title := default (se_title s) (as_title a);
     se_timeframe := default (se_timeframe s) (as_timeframe a);
     se_status := default (se_status s) (as_status a);
     se_active_run := default (se_active_run s) (as_active_run a);
     se_updated := stamp;
     se_archived := match as_status a with
                    | Some SESSION_ACTIVE => None
                    | Some _ => Some stamp
                    | None => se_archived s
                    end;
     se_metadata := default (se_metadata s) (as_metadata a) |}.

Definition update_session (stamp : float) (d : db) (session_id : string) (user_id : val) (patch : list (string * val))
  : res (db * option session_row) :=
  uid ← _required user_id;
  _ ← check_fields (map fst patch);
  a ← assignments_of patch;
  match patch, owned_session d session_id uid with
  | [], found => Ok (d, found)
  | _, None => Ok (d, None)
  | _, Some s => let s := apply_patch stamp a s in d ← put_session d session_id s; Ok (d, Some s)
  end.

Definition archive_session (stamp : float) (d : db) (session_id : string) (user_id : val) : res (db * option session_row) :=
  update_session stamp d session_id user_id [("status", VStr "archived")]%string.

Definition reopen_session (stamp : float) (d : db) (session_id : string) (user_id : val) : res (db * option session_row) :=
  update_session stamp d session_id user_id [("status", VStr "active")]%string.

(** The tombstone a hard delete leaves. *)
Definition scrubbed (stamp : float) (s : session_row) : session_row :=
  {| se_key := se_key s; se_title := None; se_timeframe := se_timeframe s; se_status := SESSION_DELETED;
     se_active_run := None; se_updated := stamp; se_archived := Some stamp; se_metadata := None |}.

Definition run_of_session (d : db) (session_id run_id : string) : bool :=
  match runs d !! run_id with Some r => String.eqb (rn_session r) session_id | None => false end.

(** [ON DELETE SET NULL]: a message keeps its row and loses the run it named. *)
Definition unlink_run (d : db) (session_id : string) (m : message_row) : message_row :=
  {| ms_key := ms_key m;
     ms_run := match ms_run m with Some run_id => if run_of_session d session_id run_id then None else Some run_id | None => None end;
     ms_content := ms_content m; ms_status := ms_status m; ms_error := ms_error m; ms_activity := ms_activity m;
     ms_updated := ms_updated m |}.

(** A session's messages, runs and frames are gone. *)
Definition scrub_session (d : db) (session_id : string) : db :=
  {| sessions := sessions d;
     runs := filter (fun kv => String.eqb (rn_session kv.2) session_id = false) (runs d);
     messages := unlink_run d session_id <$> filter (fun kv => String.eqb (ms_session kv.2) session_id = false) (messages d);
     run_events := filter (fun kv => run_of_session d session_id kv.1.1 = false) (run_events d) |}.

Definition delete_session (stamp : float) (d : db) (session_id : string) (user_id : val) (hard : bool)
  : res (db * option session_row) :=
  uid ← _required user_id;
  if negb hard then update_session stamp d session_id (VStr uid) [("status", VStr "deleted")]%string
  else
    match owned_session d session_id uid with
    | None => Ok (d, None)
    | Some s =>
        let s := scrubbed stamp s in
        d ← put_session (scrub_session d session_id) session_id s; Ok (d, Some s)
    end.

(** ** Runs *)

Definition run_by_thread (d : db) (thread_id : string) : option (string * run_row) :=
  head (rows_where (fun r => String.eqb (rn_thread r) thread_id) (runs d)).

(** [INSERT INTO runs]: the primary key and the unique thread. *)
Definition insert_run (d : db) (run_id : string) (r : run_row) : res db :=
  if is_some (runs d !! run_id) || is_some (run_by_thread d (rn_thread r)) then Raise SqliteError
  else Ok (with_runs d (<[run_id := r]> (runs d))).

Definition set_active_run (stamp : float) (run_id : string) (s : session_row) : session_row :=
  {| se_key := se_key s; se_title := se_title s; se_timeframe := se_timeframe s; se_status := se_status s;
     se_active_run := Some run_id; se_updated := stamp; se_archived := se_archived s; se_metadata := se_metadata s |}.

(** What a caller asks of a new run. *)
Record run_spec := {
  sp_kind : string; sp_symbol : val; sp_timeframe : val; sp_profile : val; sp_model : val; sp_manual_trade : val;
  sp_thread : val;
}.

Definition create_run (stamp : float) (run_draw thread_draw : draw) (d : db) (session_id : string) (user_id : val) (a : run_spec)
  : res (db * option (string * run_row)) :=
  uid ← _required user_id;
  kind ← named_or_raise run_kind_name RUN_KINDS (sp_kind a);
  run_id ← new_id "run" run_draw;
  thread ← match _text MAX_CONTENT_CHARS (sp_thread a) with Some t => Ok t | None => new_id "thread" thread_draw end;
  match owned_session d session_id uid with
  | None => Ok (d, None)
  | Some s =>
      if bool_decide (se_status s = SESSION_DELETED) then Ok (d, None)
      else
        symbol ← _required (sp_symbol a); timeframe ← _required (sp_timeframe a); profile ← _required (sp_profile a);
        manual_trade ← _json_or_none (sp_manual_trade a);
        let r := {| rn_key := {| rk_session := session_id; rk_user := uid; rk_thread := thread; rk_kind := kind;
                                 rk_symbol := upper symbol; rk_timeframe := timeframe; rk_profile := upper profile;
                                 rk_model := _text MAX_CONTENT_CHARS (sp_model a); rk_manual_trade := manual_trade;
                                 rk_started := stamp |};
                    rn_status := RUN_RUNNING; rn_terminal := None; rn_ended := None; rn_last_event := stamp; rn_last_seq := 0 |} in
        d ← insert_run d run_id r;
        Ok (with_sessions d (alter (set_active_run stamp run_id) session_id (sessions d)), Some (run_id, r))
  end.

Definition get_run_for_user (d : db) (run_id : string) (user_id : val) : res (option run_row) :=
  uid ← _required user_id;
  Ok match runs d !! run_id with
     | Some r => if String.eqb (rn_user r) uid then Some r else None
     | None => None
     end.

Definition get_run_by_thread_for_user (d : db) (thread_id : string) (user_id : val) : res (option (string * run_row)) :=
  uid ← _required user_id;
  Ok (head (rows_where (fun r => String.eqb (rn_thread r) thread_id && String.eqb (rn_user r) uid) (runs d))).

Definition get_run_by_thread (d : db) (thread_id : string) : option (string * run_row) := run_by_thread d thread_id.

(** [ORDER BY started_at, run_id] *)
Definition started_before (a b : string * run_row) : bool :=
  let ta := rk_started (rn_key a.2) in let tb := rk_started (rn_key b.2) in
  PrimFloat.ltb ta tb || (PrimFloat.eqb ta tb && str_ltb a.1 b.1).

Definition list_runs (d : db) (session_id : string) (user_id : val) : res (list (string * run_row)) :=
  uid ← _required user_id;
  Ok (if is_some (owned_session d session_id uid)
      then sort_by started_before (rows_where (fun r => String.eqb (rn_session r) session_id) (runs d))
      else []).

Definition set_run_status (stamp : float) (status : run_status) (r : run_row) : run_row :=
  {| rn_key := rn_key r; rn_status := status; rn_terminal := rn_terminal r; rn_ended := rn_ended r;
     rn_last_event := stamp; rn_last_seq := rn_last_seq r |}.

Definition end_run (stamp : float) (terminal : run_status) (r : run_row) : run_row :=
  {| rn_key := rn_key r; rn_status := terminal; rn_terminal := Some terminal; rn_ended := Some stamp;
     rn_last_event := stamp; rn_last_seq := rn_last_seq r |}.

(** A run that has no terminal status yet. *)
Definition open_run (d : db) (run_id : string) : option run_row :=
  match runs d !! run_id with
  | Some r => if is_some (rn_terminal r) then None else Some r
  | None => None
  end.

Definition update_run_status (stamp : float) (d : db) (run_id : string) (status : run_status) : res (db * bool) :=
  if negb (live status) then Raise ValueError
  else
    Ok match open_run d run_id with
       | Some r => (with_runs d (<[run_id := set_run_status stamp status r]> (runs d)), true)
       | None => (d, false)
       end.

Definition finalize_run (stamp : float) (d : db) (run_id : string) (terminal : run_status) : res (db * bool) :=
  if live terminal then Raise ValueError
  else
    Ok match open_run d run_id with
       | Some r => (_touch (with_runs d (<[run_id := end_run stamp terminal r]> (runs d))) (rn_session r) stamp, true)
       | None => (d, false)
       end.

(** ** Run events *)

(** The frames as rows, numbered from [seq + 1]. *)
Fixpoint numbered (stamp : float) (seq : Z) (events : list (val * val)) : res (list (Z * event_row)) :=
  match events with
  | [] => Ok []
  | (event, payload) :: events =>
      name ← _required event;
      text ← _json_or_none payload;
      rows ← numbered stamp (seq + 1) events;
      let payload := match text with Some (String _ _ as t) => t | _ => "{}"%string end in
      Ok ((seq + 1, {| ev_event := name; ev_payload := payload; ev_created := stamp |}) :: rows)
  end.

(** [INSERT OR IGNORE] *)
Definition insert_event (run_id : string) (t : gmap (string * Z) event_row) (row : Z * event_row) : gmap (string * Z) event_row :=
  if is_some (t !! (run_id, row.1)) || negb (0 <? row.1) then t else <[(run_id, row.1) := row.2]> t.

Definition set_last_seq (stamp : float) (seq : Z) (r : run_row) : run_row :=
  {| rn_key := rn_key r; rn_status := rn_status r; rn_terminal := rn_terminal r; rn_ended := rn_ended r;
     rn_last_event := stamp; rn_last_seq := seq |}.

Definition append_run_events (stamp : float) (d : db) (run_id : string) (events : list (val * val)) : res (db * Z) :=
  match events, runs d !! run_id with
  | _, None => Ok (d, 0)
  | [], Some r => Ok (d, rn_last_seq r)
  | _, Some r =>
      rows ← numbered stamp (rn_last_seq r) events;
      let seq := rn_last_seq r + Z.of_nat (length events) in
      let d := with_events d (fold_left (insert_event run_id) rows (run_events d)) in
      let d := with_runs d (<[run_id := set_last_seq stamp seq r]> (runs d)) in
      Ok (_touch d (rn_session r) stamp, seq)
  end.

Definition seq_before (a b : Z * event_row) : bool := a.1 <? b.1.

(** The stored frames of a run, in order. *)
Definition frames_of (d : db) (run_id : string) : list (Z * event_row) :=
  sort_by seq_before (omap (fun kv => if String.eqb kv.1.1 run_id then Some (kv.1.2, kv.2) else None) (map_to_list (run_events d))).

Record frame := { fr_seq : Z; fr_event : string; fr_data : val }.

Definition frame_of (row : Z * event_row) : res frame :=
  data ← _loads (Some (ev_payload row.2));
  Ok {| fr_seq := row.1; fr_event := ev_event row.2; fr_data := py_or data (VDict []) |}.

Definition list_run_events (d : db) (run_id : string) (after_seq limit : Z) : res (list frame * Z) :=
  match runs d !! run_id with
  | None => Ok ([], 0)
  | Some r =>
      let rows := List.filter (fun row => Z.max 0 after_seq <? row.1) (frames_of d run_id) in
      items ← mapM_res frame_of (take (Z.to_nat (Z.max 1 (Z.min limit 5000))) rows);
      Ok (items, rn_last_seq r)
  end.

(** ** Messages *)

Definition message_rows (d : db) (session_id : string) : list (string * message_row) :=
  rows_where (fun m => String.eqb (ms_session m) session_id) (messages d).

(** [COALESCE(MAX(seq), 0)] *)
Definition last_message_seq (d : db) (session_id : string) : Z :=
  fold_left (fun top row => Z.max top (ms_seq row.2)) (message_rows d session_id) 0.

Definition message_of_client (d : db) (session_id cid : string) : option (string * message_row) :=
  head (List.filter (fun row => opt_is (ms_client row.2) cid) (message_rows d session_id)).

(** [INSERT INTO messages]: keys, references and checks. *)
Definition insert_message (d : db) (message_id : string) (m : message_row) : res db :=
  if is_some (messages d !! message_id) || negb (is_some (sessions d !! ms_session m)) ||
     match ms_run m with Some run_id => negb (is_some (runs d !! run_id)) | None => false end ||
     existsb (fun row => ms_seq row.2 =? ms_seq m) (message_rows d (ms_session m)) ||
     match ms_client m with Some cid => is_some (message_of_client d (ms_session m) cid) | None => false end ||
     negb (0 <? ms_seq m) ||
     (bool_decide (ms_role m = ROLE_USER) && negb (bool_decide (ms_status m = MSG_COMPLETE)))
  then Raise SqliteError
  else Ok (with_messages d (<[message_id := m]> (messages d))).

(** What a caller asks of a new message. *)
Record message_spec := {
  mp_role : string; mp_kind : string; mp_status : string; mp_content : val; mp_run : val; mp_client : val;
  mp_activity : val; mp_error : val;
}.

Definition create_message (stamp : float) (id : draw) (d : db) (session_id : string) (a : message_spec)
  : res (db * option (string * message_row)) :=
  role ← named_or_raise role_name ROLES (mp_role a);
  kind ← named_or_raise message_kind_name MESSAGE_KINDS (mp_kind a);
  status ← named_or_raise message_status_name MESSAGE_STATUSES (mp_status a);
  if bool_decide (role = ROLE_USER) && negb (bool_decide (status = MSG_COMPLETE)) then Raise ValueError
  else
    let cid := _text 200 (mp_client a) in
    match sessions d !! session_id with
    | None => Ok (d, None)
    | Some _ =>
        match (match cid with Some c => message_of_client d session_id c | None => None end) with
        | Some prior => Ok (d, Some prior)
        | None =>
            message_id ← new_id "msg" id;
            activity ← _json_or_none (mp_activity a);
            let m := {| ms_key := {| mk_session := session_id; mk_seq := last_message_seq d session_id + 1; mk_role := role; mk_kind := kind;
                                     mk_client := cid; mk_created := stamp |};
                        ms_run := _text MAX_CONTENT_CHARS (mp_run a);
                        ms_content := default "" (_text MAX_CONTENT_CHARS (mp_content a)); ms_status := status;
                        ms_error := _text MAX_CONTENT_CHARS (mp_error a); ms_activity := activity; ms_updated := stamp |} in
            d ← insert_message d message_id m;
            Ok (_touch d session_id stamp, Some (message_id, m))
        end
    end.

(** [COALESCE(?, column)] *)
Definition coalesce {A} (o column : option A) : option A := match o with Some a => Some a | None => column end.

(** A message that is still streaming. *)
Definition streaming_message (d : db) (message_id : string) : option message_row :=
  match messages d !! message_id with
  | Some m => if bool_decide (ms_status m = MSG_STREAMING) then Some m else None
  | None => None
  end.

(** [UPDATE messages ... WHERE status = 'streaming'], with the session's activity. *)
Definition update_streaming (stamp : float) (d : db) (message_id : string) (f : message_row -> message_row) : db * bool :=
  match streaming_message d message_id with
  | Some m => (_touch (with_messages d (<[message_id := f m]> (messages d))) (ms_session m) stamp, true)
  | None => (d, false)
  end.

Definition extend_content (stamp : float) (delta : string) (activity : option string) (m : message_row) : message_row :=
  {| ms_key := ms_key m; ms_run := ms_run m; ms_content := first_chars MAX_CONTENT_CHARS (ms_content m ++ delta); ms_status := ms_status m;
     ms_error := ms_error m; ms_activity := coalesce activity (ms_activity m); ms_updated := stamp |}.

Definition append_message_delta (stamp : float) (d : db) (message_id : string) (delta : string) (activity : val)
  : res (db * bool) :=
  activity ← _json_or_none activity;
  Ok (update_streaming stamp d message_id (extend_content stamp (drop_char nul delta) activity)).

Definition end_message (stamp : float) (status : message_status) (content error activity : option string) (m : message_row)
  : message_row :=
  {| ms_key := ms_key m; ms_run := ms_run m;
     ms_content := match content with Some c => first_chars MAX_CONTENT_CHARS c | None => ms_content m end;
     ms_status := status; ms_error := coalesce error (ms_error m); ms_activity := coalesce activity (ms_activity m);
     ms_updated := stamp |}.

Definition finalize_message (stamp : float) (d : db) (message_id : string) (status : message_status)
    (content : option string) (error_detail activity : val) : res (db * bool) :=
  if bool_decide (status = MSG_STREAMING) then Raise ValueError
  else
    activity ← _json_or_none activity;
    Ok (update_streaming stamp d message_id
          (end_message stamp status (drop_char nul <$> content) (_text MAX_CONTENT_CHARS error_detail) activity)).

Definition message_before (a b : string * message_row) : bool := ms_seq a.2 <? ms_seq b.2.

Definition list_messages (d : db) (session_id : string) (user_id : val) (after_seq limit : Z)
  : res (list (string * message_row) * Z) :=
  uid ← _required user_id;
  Ok (if is_some (owned_session d session_id uid) then
        (take (Z.to_nat (Z.max 1 (Z.min limit 1000)))
           (List.filter (fun row => Z.max 0 after_seq <? ms_seq row.2) (sort_by message_before (message_rows d session_id))),
         last_message_seq d session_id)
      else ([], 0)).

(** ** Startup reconciliation *)

(** [graph.get_state(...).next], as a truth value; [None] without a checkpointer. *)
Definition _thread_has_pending_step (graph : option (string -> res bool)) (thread_id : string) : bool :=
  match graph with
  | Some next => nonempty thread_id && match next thread_id with Ok pending => pending | Raise _ => false end
  | None => false
  end.

(** The row of a live run nothing can resume. *)
Definition truncate_run (stamp : float) (r : run_row) : run_row :=
  {| rn_key := rn_key r; rn_status := RUN_TRUNCATED; rn_terminal := coalesce (rn_terminal r) (Some RUN_TRUNCATED);
     rn_ended := coalesce (rn_ended r) (Some stamp); rn_last_event := stamp; rn_last_seq := rn_last_seq r |}.

Definition truncate_message (stamp : float) (m : message_row) : message_row :=
  {| ms_key := ms_key m; ms_run := ms_run m; ms_content := ms_content m; ms_status := MSG_TRUNCATED; ms_error := ms_error m;
     ms_activity := ms_activity m; ms_updated := stamp |}.

Definition streaming_of (run_id : string) (m : message_row) : bool :=
  opt_is (ms_run m) run_id && bool_decide (ms_status m = MSG_STREAMING).

(** One live run: still resumable, or truncated with its streaming messages. *)
Definition reconcile_run (pending : string -> bool) (stamp : float) (acc : db * Z) (row : string * run_row) : db * Z :=
  let '(d, adjusted) := acc in
  if pending (rn_thread row.2) then
    (with_runs d (alter (set_run_status stamp RUN_WATCHING) row.1 (runs d)), adjusted)
  else
    let d := with_runs d (alter (truncate_run stamp) row.1 (runs d)) in
    (with_messages d ((fun m => if streaming_of row.1 m then truncate_message stamp m else m) <$> messages d), adjusted + 1).

(** A streaming message whose run is not live any more. *)
Definition orphaned (d : db) (m : message_row) : bool :=
  bool_decide (ms_status m = MSG_STREAMING) &&
  match ms_run m with
  | Some run_id => negb match runs d !! run_id with Some r => live (rn_status r) | None => false end
  | None => false
  end.

Definition sweep_orphans (stamp : float) (d : db) : db * Z :=
  (with_messages d ((fun m => if orphaned d m then truncate_message stamp m else m) <$> messages d),
   Z.of_nat (length (rows_where (orphaned d) (messages d)))).

Definition reconcile_stale_runs (graph : option (string -> res bool)) (stamp : float) (d : db) : db * Z :=
  let '(d, adjusted) :=
    fold_left (reconcile_run (_thread_has_pending_step graph) stamp) (rows_where (fun r => live (rn_status r)) (runs d)) (d, 0) in
  let '(d, swept) := sweep_orphans stamp d in
  (d, adjusted + swept).

(** ** Retention *)

Definition retention_days (e : env) : float :=
  let raw := strip (default "" (e "RUN_EVENTS_RETENTION_DAYS")) in
  if nonempty raw then
    match parse_float raw with Ok x => if PrimFloat.ltb 0 x then x else 0 | Raise _ => 90 end
  else 90%float.

(** Whether a run's frames are past the retention window. *)
Definition expired (cutoff : float) (r : run_row) : bool :=
  negb (live (rn_status r)) && PrimFloat.ltb (default (rn_last_event r) (rn_ended r)) cutoff.

Definition expired_run (cutoff : float) (d : db) (run_id : string) : bool :=
  match runs d !! run_id with Some r => expired cutoff r | None => false end.

Definition prune_run_events (e : env) (now : float) (d : db) (days : option float) : db * Z :=
  let window := match days with Some x => if PrimFloat.ltb 0 x then x else 0%float | None => retention_days e end in
  if PrimFloat.leb window 0 then (d, 0)
  else
    let cutoff := (now - window * 86400)%float in
    let kept := filter (fun kv => expired_run cutoff d kv.1.1 = false) (run_events d) in
    (with_events d kept, Z.of_nat (size (run_events d)) - Z.of_nat (size kept)).

(** ** Diagnostics *)

Definition stats (d : db) : list (string * Z) :=
  [("sessions", Z.of_nat (size (sessions d))); ("runs", Z.of_nat (size (runs d)));
   ("messages", Z.of_nat (size (messages d))); ("run_events", Z.of_nat (size (run_events d)))]%string.
