(* ===== verification/SessionStoreFacts.v ===== *)
(** * Theorems about the session store

    Every operation keeps the schema's invariants; what has ended stays as it
    ended; a run's transcript has no gap; reconciliation leaves nothing that
    pretends to be live; pages cover a listing once. *)

From stdpp Require Import base list gmap strings sorting.
From Stdlib Require Import ZArith Lia Floats Ascii.
From S2P Require Import Prelude PyFloat PyNum PyVal PyEnv PyJson PySort PyStr SessionStore.

#[local] Set Warnings "-inexact-float".
Open Scope Z_scope.
Open Scope res_scope.

(** ** Queries *)

Lemma is_some_spec {A} (o : option A) : is_some o = true <-> is_Some o.
Proof. destruct o; split; [by eexists|done|done|by intros []]. Qed.

Lemma is_some_None {A} (o : option A) : is_some o = false <-> o = None.
Proof. by destruct o. Qed.

Lemma rows_where_In {A} (p : A -> bool) (t : gmap string A) k a : In (k, a) (rows_where p t) <-> t !! k = Some a /\ p a = true.
Proof. unfold rows_where. rewrite filter_In. cbn [snd]. by rewrite <- list_elem_of_In, elem_of_map_to_list. Qed.

Lemma rows_where_NoDup {A} (p : A -> bool) (t : gmap string A) : NoDup (rows_where p t).*1.
Proof.
  unfold rows_where. pose proof (NoDup_fst_map_to_list t) as H.
  induction (map_to_list t) as [|kv l IH]; [done|]. cbn [List.filter] in *. inversion H; subst.
  destruct (p kv.2); [|by apply IH]. cbn. constructor; [|by apply IH].
  intros Hin. apply H2. apply list_elem_of_fmap in Hin as (x & -> & Hx). apply list_elem_of_fmap. exists x. split; [done|].
  apply list_elem_of_In in Hx. apply filter_In in Hx as [Hx _]. by apply list_elem_of_In.
Qed.

Lemma head_rows_None {A} (p : A -> bool) (t : gmap string A) :
  head (rows_where p t) = None -> forall k a, t !! k = Some a -> p a = false.
Proof.
  intros H k a Hk. destruct (p a) eqn:E; [|done]. pose proof (proj2 (rows_where_In p t k a) (conj Hk E)) as Hin.
  by destruct (rows_where p t).
Qed.

Lemma head_rows_Some {A} (p : A -> bool) (t : gmap string A) k a :
  head (rows_where p t) = Some (k, a) -> t !! k = Some a /\ p a = true.
Proof. intros H. apply rows_where_In. destruct (rows_where p t); [done|]. injection H as ->. by left. Qed.

Lemma opt_is_spec o s : opt_is o s = true <-> o = Some s.
Proof. destruct o as [t|]; cbn; [|done]. rewrite String.eqb_eq. split; [by intros ->|by intros [= ->]]. Qed.

(** [MAX(seq)] *)
Lemma fold_max_spec {A} (f : A -> Z) l a : let m := fold_left (fun top x => Z.max top (f x)) l a in
  a <= m /\ (forall x, In x l -> f x <= m) /\ (m = a \/ exists x, In x l /\ m = f x).
Proof.
  cbv zeta. revert a. induction l as [|x l IH]; intros a; cbn; [split_and!; [lia|done|by left]|].
  destruct (IH (Z.max a (f x))) as (H1 & H2 & H3). split_and!; [lia| |].
  - intros y [<-|Hy]; [lia|by apply H2].
  - destruct H3 as [->|(y & Hy & ->)]; [|right; by eauto].
    destruct (Z.max_spec a (f x)) as [[? ->]|[? ->]]; [right; eauto|by left].
Qed.

(** ** The invariant *)

Definition run_row_ok (r : run_row) : Prop :=
  rn_terminal r = (if live (rn_status r) then None else Some (rn_status r)) /\
  is_some (rn_ended r) = negb (live (rn_status r)) /\ 0 <= rn_last_seq r.

Definition message_row_ok (m : message_row) : Prop :=
  0 < ms_seq m /\ (ms_role m = ROLE_USER -> ms_status m = MSG_COMPLETE).

(** Some message of the session carries the number. *)
Definition numbers (d : db) (session_id : string) (n : Z) : Prop :=
  exists id m, messages d !! id = Some m /\ ms_session m = session_id /\ ms_seq m = n.

Record wf (d : db) : Prop := {
  wf_session : forall id s, sessions d !! id = Some s -> session_ok s = true;
  wf_run : forall id r, runs d !! id = Some r -> run_row_ok r;
  wf_owner : forall id r, runs d !! id = Some r -> exists s, sessions d !! rn_session r = Some s /\ se_user s = rn_user r;
  wf_thread : forall i j r r', runs d !! i = Some r -> runs d !! j = Some r' -> rn_thread r = rn_thread r' -> i = j;
  wf_message : forall id m, messages d !! id = Some m -> message_row_ok m /\ is_Some (sessions d !! ms_session m);
  wf_link : forall id m run_id, messages d !! id = Some m -> ms_run m = Some run_id -> is_Some (runs d !! run_id);
  wf_seq : forall i j m m', messages d !! i = Some m -> messages d !! j = Some m' ->
           ms_session m = ms_session m' -> ms_seq m = ms_seq m' -> i = j;
  wf_client : forall i j m m' c, messages d !! i = Some m -> messages d !! j = Some m' ->
              ms_session m = ms_session m' -> ms_client m = Some c -> ms_client m' = Some c -> i = j;
  wf_dense : forall session_id, exists k, 0 <= k /\ forall n, numbers d session_id n <-> 1 <= n <= k;
  wf_frame_run : forall run_id n e, run_events d !! (run_id, n) = Some e -> is_Some (runs d !! run_id);
  wf_frames : forall run_id r, runs d !! run_id = Some r ->
              exists lo, 0 <= lo <= rn_last_seq r /\ forall n, is_Some (run_events d !! (run_id, n)) <-> lo < n <= rn_last_seq r;
}.

Lemma wf_empty : wf empty_db.
Proof.
  split; cbn; intros *; rewrite ?lookup_empty; try done. exists 0. split; [lia|]. intros n. split; [|lia].
  intros (id & m & H & _). cbn in H. by rewrite lookup_empty in H.
Qed.

(** ** Changes in place *)

(** A store whose rows are those of another, changed in place: the keys of the
    rows, their number and the frames are the same, and a run or message that has
    ended is as it was. *)
Definition session_step (s s' : session_row) : Prop := se_key s' = se_key s /\ (session_ok s = true -> session_ok s' = true).
Definition run_step (r r' : run_row) : Prop :=
  rn_key r' = rn_key r /\ rn_last_seq r' = rn_last_seq r /\
  (run_row_ok r -> run_row_ok r' /\ (is_Some (rn_terminal r) -> r' = r)).
Definition message_step (m m' : message_row) : Prop :=
  ms_key m' = ms_key m /\ ms_run m' = ms_run m /\ (message_row_ok m -> message_row_ok m') /\
  (ms_status m <> MSG_STREAMING -> m' = m).

Record in_place (d d' : db) : Prop := {
  ip_sessions : forall id, option_Forall2 session_step (sessions d !! id) (sessions d' !! id);
  ip_runs : forall id, option_Forall2 run_step (runs d !! id) (runs d' !! id);
  ip_messages : forall id, option_Forall2 message_step (messages d !! id) (messages d' !! id);
  ip_events : run_events d' = run_events d;
}.

#[export] Instance session_step_refl : Reflexive session_step.
Proof. done. Qed.
#[export] Instance run_step_refl : Reflexive run_step.
Proof. done. Qed.
#[export] Instance message_step_refl : Reflexive message_step.
Proof. done. Qed.

#[export] Instance in_place_refl : Reflexive in_place.
Proof. by split. Qed.

#[export] Instance session_step_trans : Transitive session_step.
Proof. intros s1 s2 s3 [K1 O1] [K2 O2]. split; [congruence|auto]. Qed.
#[export] Instance run_step_trans : Transitive run_step.
Proof.
  intros r1 r2 r3 (K1 & L1 & O1) (K2 & L2 & O2). split_and!; [congruence|congruence|]. intros O. destruct (O1 O) as [O' F1].
  destruct (O2 O') as [O'' F2]. split; [done|]. intros T. specialize (F1 T) as ->. auto.
Qed.
#[export] Instance message_step_trans : Transitive message_step.
Proof.
  intros m1 m2 m3 (K1 & L1 & O1 & F1) (K2 & L2 & O2 & F2). split_and!; [congruence|congruence|auto|].
  intros N. specialize (F1 N) as ->. auto.
Qed.

Lemma forall2_trans {A} (R : A -> A -> Prop) `{!Transitive R} (o1 o2 o3 : option A) :
  option_Forall2 R o1 o2 -> option_Forall2 R o2 o3 -> option_Forall2 R o1 o3.
Proof. intros H1 H2. destruct H1; inversion H2; subst; constructor. by etrans. Qed.

#[export] Instance in_place_trans : Transitive in_place.
Proof.
  intros d1 d2 d3 [S1 R1 M1 E1] [S2 R2 M2 E2].
  split; [intros id; eapply forall2_trans; [apply _| |]; eauto..|congruence].
Qed.

(** The row behind a row of the changed store. *)
Lemma forall2_back {A} (R : A -> A -> Prop) (o o' : option A) a' : option_Forall2 R o o' -> o' = Some a' -> exists a, o = Some a /\ R a a'.
Proof. intros H ->. inversion H; subst. eauto. Qed.
Lemma forall2_forth {A} (R : A -> A -> Prop) (o o' : option A) a : option_Forall2 R o o' -> o = Some a -> exists a', o' = Some a' /\ R a a'.
Proof. intros H ->. inversion H; subst. eauto. Qed.

Lemma in_place_numbers d d' session_id n : in_place d d' -> numbers d' session_id n <-> numbers d session_id n.
Proof.
  intros P. split; intros (id & m & Hm & Hs & Hn).
  - destruct (forall2_back _ _ _ _ (ip_messages _ _ P id) Hm) as (m0 & H0 & Hk & _).
    exists id, m0. unfold ms_session, ms_seq in *. by rewrite <- Hk.
  - destruct (forall2_forth _ _ _ _ (ip_messages _ _ P id) Hm) as (m0 & H0 & Hk & _).
    exists id, m0. unfold ms_session, ms_seq in *. by rewrite Hk.
Qed.

Lemma wf_in_place d d' : in_place d d' -> wf d -> wf d'.
Proof.
  intros P W.
  assert (forall id s', sessions d' !! id = Some s' -> exists s, sessions d !! id = Some s /\ session_step s s') as S
    by (intros *; apply forall2_back, P).
  assert (forall id r', runs d' !! id = Some r' -> exists r, runs d !! id = Some r /\ run_step r r') as R
    by (intros *; apply forall2_back, P).
  assert (forall id m', messages d' !! id = Some m' -> exists m, messages d !! id = Some m /\ message_step m m') as M
    by (intros *; apply forall2_back, P).
  assert (forall id, is_Some (sessions d !! id) -> is_Some (sessions d' !! id)) as S'.
  { intros id [s Hs]. destruct (forall2_forth _ _ _ _ (ip_sessions _ _ P id) Hs) as (s' & -> & _). eauto. }
  assert (forall id, is_Some (runs d !! id) -> is_Some (runs d' !! id)) as R'.
  { intros id [r Hr]. destruct (forall2_forth _ _ _ _ (ip_runs _ _ P id) Hr) as (r' & -> & _). eauto. }
  split; intros *.
  - intros H. destruct (S _ _ H) as (s0 & H0 & _ & Hok). eauto using wf_session.
  - intros H. destruct (R _ _ H) as (r0 & H0 & _ & _ & Hok). apply Hok. eauto using wf_run.
  - intros H. destruct (R _ _ H) as (r0 & H0 & Hk & _). destruct (wf_owner _ W _ _ H0) as (s & Hs & Hu).
    destruct (forall2_forth _ _ _ _ (ip_sessions _ _ P _) Hs) as (s' & Hs' & Hks & _).
    exists s'. unfold rn_session, rn_user, se_user in *. by rewrite Hk, Hks.
  - intros Hi Hj. destruct (R _ _ Hi) as (r0 & H0 & Hk & _). destruct (R _ _ Hj) as (r1 & H1 & Hk1 & _).
    unfold rn_thread. rewrite Hk, Hk1. by eapply wf_thread.
  - intros H. destruct (M _ _ H) as (m0 & H0 & Hk & _ & Hok & _). destruct (wf_message _ W _ _ H0) as [Ho Hs].
    split; [auto|]. unfold ms_session in *. rewrite Hk. by apply S'.
  - intros H Hr. destruct (M _ _ H) as (m0 & H0 & _ & Hl & _). apply R'. eapply (wf_link _ W); [done|congruence].
  - intros Hi Hj. destruct (M _ _ Hi) as (m0 & H0 & Hk & _). destruct (M _ _ Hj) as (m1 & H1 & Hk1 & _).
    unfold ms_session, ms_seq. rewrite Hk, Hk1. by eapply wf_seq.
  - intros Hi Hj. destruct (M _ _ Hi) as (m0 & H0 & Hk & _). destruct (M _ _ Hj) as (m1 & H1 & Hk1 & _).
    unfold ms_session, ms_client. rewrite Hk, Hk1. by eapply wf_client.
  - destruct (wf_dense _ W session_id) as (k & Hk & Hd). exists k. split; [done|]. intros n. by rewrite (in_place_numbers _ _ _ _ P).
  - rewrite (ip_events _ _ P). intros H. apply R'. by eapply wf_frame_run.
  - intros H. destruct (R _ _ H) as (r0 & H0 & _ & Hl & _). rewrite Hl. setoid_rewrite (ip_events _ _ P). by eapply wf_frames.
Qed.

Lemma forall2_insert {A} (R : A -> A -> Prop) `{!Reflexive R} (t : gmap string A) k a a' id :
  t !! k = Some a -> R a a' -> option_Forall2 R (t !! id) (<[k := a']> t !! id).
Proof.
  intros Hk Ha. destruct (decide (k = id)) as [<-|N].
  - rewrite Hk, lookup_insert_eq. by constructor.
  - rewrite lookup_insert_ne by done. destruct (t !! id); by constructor.
Qed.

Lemma forall2_alter {A} (R : A -> A -> Prop) `{!Reflexive R} (t : gmap string A) k f id :
  (forall a, t !! k = Some a -> R a (f a)) -> option_Forall2 R (t !! id) (alter f k t !! id).
Proof.
  intros H. rewrite lookup_alter. destruct (decide (k = id)) as [<-|N]; [|destruct (t !! id); by constructor].
  destruct (t !! k) eqn:E; constructor. auto.
Qed.

Lemma forall2_fmap {A} (R : A -> A -> Prop) (t : gmap string A) f id :
  (forall a, R a (f a)) -> option_Forall2 R (t !! id) ((f <$> t) !! id).
Proof. intros H. rewrite lookup_fmap. destruct (t !! id); constructor. auto. Qed.

Lemma forall2_refl {A} (R : A -> A -> Prop) `{!Reflexive R} (o : option A) : option_Forall2 R o o.
Proof. destruct o; by constructor. Qed.

#[local] Hint Resolve forall2_refl : core.

Lemma ip_touch d id stamp : in_place d (_touch d id stamp).
Proof. split; cbn; try done. intros *. by apply forall2_alter. Qed.

Lemma ip_session d id s s' : sessions d !! id = Some s -> session_step s s' -> in_place d (with_sessions d (<[id := s']> (sessions d))).
Proof. intros H S. split; cbn; try done. intros *. by eapply forall2_insert. Qed.

Lemma ip_active d id stamp run_id : in_place d (with_sessions d (alter (set_active_run stamp run_id) id (sessions d))).
Proof. split; cbn; try done. intros *. by apply forall2_alter. Qed.

Lemma ip_run d id r r' : runs d !! id = Some r -> run_step r r' -> in_place d (with_runs d (<[id := r']> (runs d))).
Proof. intros H S. split; cbn; try done. intros *. by eapply forall2_insert. Qed.

Lemma ip_alter_run d id f : (forall r, runs d !! id = Some r -> run_step r (f r)) -> in_place d (with_runs d (alter f id (runs d))).
Proof. intros H. split; cbn; try done. intros *. by apply forall2_alter. Qed.

Lemma ip_message d id m m' : messages d !! id = Some m -> message_step m m' -> in_place d (with_messages d (<[id := m']> (messages d))).
Proof. intros H S. split; cbn; try done. intros *. by eapply forall2_insert. Qed.

Lemma ip_messages_all d f : (forall m, message_step m (f m)) -> in_place d (with_messages d (f <$> messages d)).
Proof. intros H. split; cbn; try done. intros *. by apply forall2_fmap. Qed.

(** The changes the operations make to a row. *)

Lemma open_run_step r r' :
  rn_terminal r = None -> rn_key r' = rn_key r -> rn_last_seq r' = rn_last_seq r -> (run_row_ok r -> run_row_ok r') -> run_step r r'.
Proof. intros T K L O. split_and!; [done|done|]. intros H. split; [auto|]. rewrite T. by intros []. Qed.

Lemma live_run_step stamp status r : live status = true -> rn_terminal r = None -> run_step r (set_run_status stamp status r).
Proof.
  intros L T. apply open_run_step; try done. intros (H1 & H2 & H3). rewrite T in H1. unfold run_row_ok. cbn. rewrite L.
  split_and!; try done. rewrite H2. by destruct (live (rn_status r)).
Qed.

Lemma end_run_step stamp status r : live status = false -> rn_terminal r = None -> run_step r (end_run stamp status r).
Proof. intros L T. apply open_run_step; try done. intros (_ & _ & H3). unfold run_row_ok. cbn. by rewrite L. Qed.

Lemma truncate_run_step stamp r : rn_terminal r = None -> run_step r (truncate_run stamp r).
Proof.
  intros T. apply open_run_step; try done. intros (H1 & H2 & H3). unfold run_row_ok. cbn. rewrite T. by destruct (rn_ended r).
Qed.

Lemma streaming_step m m' :
  ms_status m = MSG_STREAMING -> ms_key m' = ms_key m -> ms_run m' = ms_run m -> message_step m m'.
Proof.
  intros S K L. split_and!; [done|done| |done]. intros (H1 & H2). split; unfold ms_seq, ms_role in *; rewrite K; [done|].
  intros U. rewrite (H2 U) in S. done.
Qed.

Lemma truncate_message_step p stamp m :
  (p = true -> ms_status m = MSG_STREAMING) -> message_step m (if p : bool then truncate_message stamp m else m).
Proof. intros H. destruct p; [|done]. by apply streaming_step; [apply H| |]. Qed.

(** ** New rows *)

Lemma wf_new_session d id s :
  wf d -> sessions d !! id = None -> session_ok s = true -> wf (with_sessions d (<[id := s]> (sessions d))).
Proof.
  intros W F O.
  assert (forall k s0, sessions d !! k = Some s0 -> (<[id := s]> (sessions d)) !! k = Some s0) as S
    by (intros k s0 Hk; rewrite lookup_insert_ne by congruence; done).
  destruct W. split; cbn; try done.
  - intros k s0. destruct (decide (id = k)) as [<-|N]; [by rewrite lookup_insert_eq; intros [= <-]|].
    rewrite lookup_insert_ne by done. eauto.
  - intros k r Hr. destruct (wf_owner0 _ _ Hr) as (s0 & Hs & Hu). eauto.
  - intros k m Hm. destruct (wf_message0 _ _ Hm) as (H1 & s0 & Hs). eauto.
Qed.

Lemma wf_new_run d d' id r :
  wf d -> insert_run d id r = Ok d' -> run_row_ok r -> rn_last_seq r = 0 ->
  (exists s, sessions d !! rn_session r = Some s /\ se_user s = rn_user r) -> wf d'.
Proof.
  intros W I O Z0 (s & Hs & Hu). unfold insert_run in I. destruct (_ || _) eqn:B; [done|]. injection I as <-.
  apply orb_false_iff in B as [F T]. apply is_some_None in F, T. unfold run_by_thread in T.
  pose proof (head_rows_None _ _ T) as HT.
  assert (forall k r0, (<[id := r]> (runs d)) !! k = Some r0 -> (k = id /\ r0 = r) \/ (k <> id /\ runs d !! k = Some r0)) as L.
  { intros k r0. destruct (decide (id = k)) as [<-|N]; [rewrite lookup_insert_eq; intros [= <-]; by left|].
    rewrite lookup_insert_ne by done. right. by split. }
  destruct W. split; cbn; try done.
  - intros k r0 Hk. destruct (L _ _ Hk) as [[_ ->]|[_ H]]; eauto.
  - intros k r0 Hk. destruct (L _ _ Hk) as [[_ ->]|[_ H]]; eauto.
  - intros i j r1 r2 Hi Hj E. destruct (L _ _ Hi) as [[-> ->]|[_ H1]]; destruct (L _ _ Hj) as [[-> ->]|[_ H2]]; try done; eauto.
    + exfalso. apply HT in H2. rewrite E, String.eqb_refl in H2. done.
    + exfalso. apply HT in H1. rewrite <- E, String.eqb_refl in H1. done.
  - intros k m rid Hm Hl. destruct (wf_link0 _ _ _ Hm Hl) as [r0 Hr]. exists r0. rewrite lookup_insert_ne by congruence. done.
  - intros rid n e He. destruct (wf_frame_run0 _ _ _ He) as [r0 Hr]. exists r0. rewrite lookup_insert_ne by congruence. done.
  - intros rid r0 Hr. destruct (L _ _ Hr) as [[-> ->]|[_ H]]; [|eauto]. exists 0. rewrite Z0. split; [lia|].
    intros n. split; [|lia]. intros [e He]. destruct (wf_frame_run0 _ _ _ He) as [r1 Hr1]. congruence.
Qed.

Lemma last_message_seq_spec d session_id k :
  (forall n, numbers d session_id n <-> 1 <= n <= k) -> 0 <= k -> last_message_seq d session_id = k.
Proof.
  intros Hd Hk. unfold last_message_seq, message_rows.
  pose proof (fold_max_spec (fun row : string * message_row => ms_seq row.2)
                (rows_where (fun m => String.eqb (ms_session m) session_id) (messages d)) 0) as (H1 & H2 & H3).
  cbv zeta in *. set (top := fold_left _ _ _) in *.
  assert (top <= k).
  { destruct H3 as [->|([id m] & Hin & ->)]; [done|]. apply rows_where_In in Hin as [Hm Hs]. apply String.eqb_eq in Hs.
    apply (proj1 (Hd (ms_seq m))). by exists id, m. }
  destruct (decide (k = 0)) as [->|N]; [lia|].
  destruct (proj2 (Hd k)) as (id & m & Hm & Hs & Hn); [lia|].
  assert (k <= top); [|lia]. rewrite <- Hn. apply (H2 (id, m)). apply rows_where_In. by rewrite Hs, String.eqb_refl.
Qed.

Lemma insert_message_Ok d id m d' :
  insert_message d id m = Ok d' ->
  d' = with_messages d (<[id := m]> (messages d)) /\ messages d !! id = None /\ is_Some (sessions d !! ms_session m) /\
  (forall run_id, ms_run m = Some run_id -> is_Some (runs d !! run_id)) /\
  (forall k m', messages d !! k = Some m' -> ms_session m' = ms_session m -> ms_seq m' <> ms_seq m) /\
  (forall k m' c, messages d !! k = Some m' -> ms_session m' = ms_session m -> ms_client m = Some c -> ms_client m' <> Some c) /\
  message_row_ok m.
Proof.
  unfold insert_message. intros H. destruct (_ || _) eqn:B; [done|]. injection H as <-.
  repeat match goal with X : (_ || _) = false |- _ => apply orb_false_iff in X as [X ?] end.
  rename B into B1. apply is_some_None in B1. apply negb_false_iff in H4. apply is_some_spec in H4.
  apply negb_false_iff, Z.ltb_lt in H0. split_and!; try done.
  - intros run_id E. rewrite E in H3. apply negb_false_iff in H3. by apply is_some_spec.
  - intros k m' Hk Hs E. apply (proj1 (existsb_false _ _)) with (x := (k, m')) in H2.
    + cbn in H2. by rewrite E, Z.eqb_refl in H2.
    + apply rows_where_In. by rewrite Hs, String.eqb_refl.
  - intros k m' c Hk Hs E E'. rewrite E in H1. apply is_some_None in H1. unfold message_of_client in H1.
    assert (In (k, m') (List.filter (fun row => opt_is (ms_client row.2) c) (message_rows d (ms_session m)))) as Hin.
    { apply filter_In. split; [apply rows_where_In; by rewrite Hs, String.eqb_refl|]. by apply opt_is_spec. }
    by destruct (List.filter _ _).
  - split; [done|]. intros U. rewrite U in H. rewrite bool_decide_true in H by done. cbn in H.
    apply negb_false_iff in H. by apply bool_decide_eq_true in H.
Qed.

Lemma wf_new_message d d' id m :
  wf d -> insert_message d id m = Ok d' -> ms_seq m = last_message_seq d (ms_session m) + 1 -> wf d'.
Proof.
  intros W I Q. apply insert_message_Ok in I as (-> & F & S & R & U & C & O).
  destruct (wf_dense _ W (ms_session m)) as (k & Hk & Hd). rewrite (last_message_seq_spec _ _ _ Hd Hk) in Q.
  assert (forall i m0, (<[id := m]> (messages d)) !! i = Some m0 -> (i = id /\ m0 = m) \/ (i <> id /\ messages d !! i = Some m0)) as L.
  { intros i m0. destruct (decide (id = i)) as [<-|N]; [rewrite lookup_insert_eq; intros [= <-]; by left|].
    rewrite lookup_insert_ne by done. right. by split. }
  assert (forall i m0, messages d !! i = Some m0 -> (<[id := m]> (messages d)) !! i = Some m0) as L'
    by (intros i m0 Hi; rewrite lookup_insert_ne by congruence; done).
  destruct W. split; cbn; try done.
  - intros i m0 Hi. destruct (L _ _ Hi) as [[_ ->]|[_ H]]; eauto.
  - intros i m0 rid Hi. destruct (L _ _ Hi) as [[_ ->]|[_ H]]; eauto.
  - intros i j m1 m2 Hi Hj. destruct (L _ _ Hi) as [[-> ->]|[_ H1]]; destruct (L _ _ Hj) as [[-> ->]|[_ H2]]; try done; eauto.
    + intros Es En. by destruct (U _ _ H2 (eq_sym Es)).
    + intros Es En. by destruct (U _ _ H1 Es).
  - intros i j m1 m2 c Hi Hj. destruct (L _ _ Hi) as [[-> ->]|[_ H1]]; destruct (L _ _ Hj) as [[-> ->]|[_ H2]]; try done; eauto.
    + intros Es E1 E2. by destruct (C _ _ _ H2 (eq_sym Es) E1).
    + intros Es E1 E2. by destruct (C _ _ _ H1 Es E2).
  - intros sid. destruct (decide (sid = ms_session m)) as [->|N].
    + exists (k + 1). split; [lia|]. intros n. split.
      * intros (i & m0 & Hi & Hs & Hn). cbn in Hi. destruct (L _ _ Hi) as [[-> ->]|[_ H]]; [lia|].
        assert (1 <= n <= k); [|lia]. apply Hd. by exists i, m0.
      * intros Hn. destruct (decide (n = k + 1)) as [->|Hne].
        { exists id, m. cbn. by rewrite lookup_insert_eq. }
        destruct (proj2 (Hd n)) as (i & m0 & Hi & Hs & Hq); [lia|]. exists i, m0. cbn. eauto.
    + destruct (wf_dense0 sid) as (k' & Hk' & Hd'). exists k'. split; [done|]. intros n. rewrite <- Hd'. split.
      * intros (i & m0 & Hi & Hs & Hn). cbn in Hi. destruct (L _ _ Hi) as [[-> ->]|[_ H]]; [done|]. by exists i, m0.
      * intros (i & m0 & Hi & Hs & Hn). exists i, m0. cbn. eauto.
Qed.

(** ** Frames *)

Lemma numbered_spec stamp seq events rows :
  numbered stamp seq events = Ok rows ->
  map fst rows = map (fun i => seq + 1 + Z.of_nat i) (List.seq 0 (length events)).
Proof.
  revert seq rows. induction events as [|[event payload] events IH]; intros seq rows H; cbn [numbered] in H.
  - by injection H as <-.
  - do 3 mbind H. injection H as <-. cbn [map fst length List.seq]. f_equal; [lia|].
    rewrite (IH _ _ E1), <- seq_shift, map_map. apply map_ext. intros i. lia.
Qed.

Lemma insert_events_lookup (run_id : string) (rows : list (Z * event_row)) (t : gmap (string * Z) event_row) (k : string * Z) :
  (forall n e, In (n, e) rows -> 0 < n /\ t !! (run_id, n) = None) -> NoDup (map fst rows) ->
  fold_left (insert_event run_id) rows t !! k =
  if String.eqb k.1 run_id then
    match List.find (fun row => row.1 =? k.2) rows with Some row => Some row.2 | None => t !! k end
  else t !! k.
Proof.
  revert t. induction rows as [|[n e] rows IH]; intros t Hf Hn; cbn [fold_left List.find fst snd].
  - by destruct (String.eqb k.1 run_id).
  - destruct (Hf n e) as [Hp Ht]; [by left|]. inversion Hn as [|? ? Hnin Hn']; subst.
    assert (insert_event run_id t (n, e) = <[(run_id, n) := e]> t) as ->.
    { unfold insert_event. cbn [fst snd]. rewrite Ht. cbn. by rewrite (proj2 (Z.ltb_lt 0 n)). }
    rewrite IH; [|intros n' e' Hin; split; [by eapply Hf; right|]|done].
    + destruct k as [rid q]. cbn [fst snd]. destruct (String.eqb_spec rid run_id) as [->|N].
      * destruct (Z.eqb_spec n q) as [->|Nq].
        { destruct (List.find _ rows) as [[q' e']|] eqn:F; [|by rewrite lookup_insert_eq].
          apply find_some in F as [F E]. apply Z.eqb_eq in E. cbn in E. subst q'. exfalso. apply Hnin.
          apply list_elem_of_In. by apply (in_map fst) in F. }
        destruct (List.find _ rows); [done|]. by rewrite lookup_insert_ne by congruence.
      * by rewrite lookup_insert_ne by congruence.
    + rewrite lookup_insert_ne; [by eapply Hf; right|]. intros [= <-]. apply Hnin. apply list_elem_of_In.
      by apply (in_map fst) in Hin.
Qed.

Lemma in_seq_numbers seq len n (rows : list (Z * event_row)) :
  map fst rows = map (fun i => seq + 1 + Z.of_nat i) (List.seq 0 len) ->
  (exists e, In (n, e) rows) <-> seq < n <= seq + Z.of_nat len.
Proof.
  intros H. assert (In n (map fst rows) <-> seq < n <= seq + Z.of_nat len) as <-.
  { rewrite H, in_map_iff. split.
    - intros (i & <- & Hi). apply in_seq in Hi. lia.
    - intros Hn. exists (Z.to_nat (n - seq - 1)). rewrite in_seq. lia. }
  rewrite in_map_iff. split; [intros [e He]; by exists (n, e)|]. intros ([n' e] & <- & He). by exists e.
Qed.

Lemma NoDup_numbers seq len (l : list Z) : l = map (fun i => seq + 1 + Z.of_nat i) (List.seq 0 len) -> NoDup l.
Proof. intros ->. apply NoDup_fmap_2; [intros i j; lia|]. apply NoDup_ListNoDup, seq_NoDup. Qed.

(** The frames of a store after a batch is appended to a run. *)
Lemma append_frames d run_id r stamp events rows :
  wf d -> runs d !! run_id = Some r -> numbered stamp (rn_last_seq r) events = Ok rows ->
  forall k, fold_left (insert_event run_id) rows (run_events d) !! k =
    if String.eqb k.1 run_id then
      match List.find (fun row => row.1 =? k.2) rows with Some row => Some row.2 | None => run_events d !! k end
    else run_events d !! k.
Proof.
  intros W Hr Hn k. pose proof (numbered_spec _ _ _ _ Hn) as Q. apply insert_events_lookup.
  - intros n e Hin. assert (rn_last_seq r < n) as L by (apply (proj1 (in_seq_numbers _ _ n _ Q)); eauto).
    destruct (wf_run _ W _ _ Hr) as (_ & _ & P). split; [lia|].
    destruct (wf_frames _ W _ _ Hr) as (lo & _ & H). destruct (run_events d !! (run_id, n)) eqn:E; [|done].
    assert (lo < n <= rn_last_seq r) by (apply H; eauto). lia.
  - by eapply NoDup_numbers.
Qed.

Lemma wf_append d run_id r stamp events rows :
  wf d -> runs d !! run_id = Some r -> numbered stamp (rn_last_seq r) events = Ok rows ->
  wf (with_runs (with_events d (fold_left (insert_event run_id) rows (run_events d)))
        (<[run_id := set_last_seq stamp (rn_last_seq r + Z.of_nat (length events)) r]> (runs d))).
Proof.
  intros W Hr Hn. pose proof (numbered_spec _ _ _ _ Hn) as Q. pose proof (append_frames _ _ _ _ _ _ W Hr Hn) as F.
  set (r' := set_last_seq _ _ r).
  assert (forall k r0, (<[run_id := r']> (runs d)) !! k = Some r0 ->
            exists r1, runs d !! k = Some r1 /\ rn_key r0 = rn_key r1 /\ (run_row_ok r1 -> run_row_ok r0)) as L.
  { intros k r0. destruct (decide (run_id = k)) as [<-|N].
    - rewrite lookup_insert_eq. intros [= <-]. exists r. split_and!; [done|done|]. intros (? & ? & ?). split_and!; [done|done|cbn; lia].
    - rewrite lookup_insert_ne by done. eauto. }
  assert (forall k, is_Some (runs d !! k) -> is_Some ((<[run_id := r']> (runs d)) !! k)) as L'.
  { intros k H. destruct (decide (run_id = k)) as [<-|N]; [rewrite lookup_insert_eq; eauto|]. by rewrite lookup_insert_ne. }
  assert (forall rid n, is_Some (fold_left (insert_event run_id) rows (run_events d) !! (rid, n)) <->
            is_Some (run_events d !! (rid, n)) \/ (rid = run_id /\ rn_last_seq r < n <= rn_last_seq r + Z.of_nat (length events))) as FS.
  { intros rid n. rewrite F. cbn [fst snd]. destruct (String.eqb_spec rid run_id) as [->|N].
    - rewrite <- (in_seq_numbers _ _ n _ Q). destruct (List.find _ rows) as [[q e]|] eqn:E.
      + apply find_some in E as [E1 E2]. apply Z.eqb_eq in E2. cbn in *. subst q. split; [right; eauto|eauto].
      + split; [by left|]. intros [?|[_ [e He]]]; [done|]. by apply (find_none _ _ E) in He; cbn in He; rewrite Z.eqb_refl in He.
    - split; [by left|]. by intros [?|[-> _]]. }
  destruct W. split; cbn; try done.
  - intros k r0 Hk. destruct (L _ _ Hk) as (r1 & H1 & _ & Hok). eauto.
  - intros k r0 Hk. destruct (L _ _ Hk) as (r1 & H1 & E & _). unfold rn_session, rn_user in *. rewrite E. eauto.
  - intros i j r1 r2 Hi Hj. destruct (L _ _ Hi) as (r3 & H3 & E3 & _). destruct (L _ _ Hj) as (r4 & H4 & E4 & _).
    unfold rn_thread in *. rewrite E3, E4. eauto.
  - eauto.
  - intros rid n e He. apply L'. destruct (proj1 (FS rid n) (ex_intro _ e He)) as [[e' He']|[-> _]]; eauto.
  - intros rid r0 Hk. destruct (decide (run_id = rid)) as [<-|N].
    + rewrite lookup_insert_eq in Hk. injection Hk as <-. destruct (wf_frames0 _ _ Hr) as (lo & Hlo & H). exists lo. cbn [rn_last_seq r' set_last_seq].
      split; [lia|]. intros n. rewrite FS, H. split; [lia|]. intros Hx. destruct (Z.leb_spec n (rn_last_seq r)); [left; lia|right; split; [done|lia]].
    + rewrite lookup_insert_ne in Hk by done. destruct (wf_frames0 _ _ Hk) as (lo & Hlo & H). exists lo. split; [done|].
      intros n. rewrite FS, <- H. split; [by intros [?|[-> _]]|by left].
Qed.

(** ** Deletions *)

Lemma lookup_kept {K A} `{Countable K} (p : K -> A -> bool) (t : gmap K A) k a :
  filter (fun kv : K * A => p kv.1 kv.2 = false) t !! k = Some a <-> t !! k = Some a /\ p k a = false.
Proof. by rewrite map_lookup_filter_Some. Qed.

Lemma scrub_run d sid id r :
  runs (scrub_session d sid) !! id = Some r <-> runs d !! id = Some r /\ rn_session r <> sid.
Proof. cbn. rewrite (lookup_kept (fun _ r => String.eqb (rn_session r) sid)). by rewrite String.eqb_neq. Qed.

Lemma scrub_message d sid id m' :
  messages (scrub_session d sid) !! id = Some m' <->
  exists m, messages d !! id = Some m /\ ms_session m <> sid /\ m' = unlink_run d sid m.
Proof.
  cbn. rewrite lookup_fmap, fmap_Some. setoid_rewrite (lookup_kept (fun _ m => String.eqb (ms_session m) sid)).
  setoid_rewrite String.eqb_neq. split; [intros (m & [H N] & ->)|intros (m & H & N & ->)]; exists m; by split_and!.
Qed.

Lemma scrub_event d sid k e :
  run_events (scrub_session d sid) !! k = Some e <-> run_events d !! k = Some e /\ run_of_session d sid k.1 = false.
Proof. cbn. by rewrite (lookup_kept (fun k _ => run_of_session d sid k.1)). Qed.

Lemma wf_scrub d sid : wf d -> wf (scrub_session d sid).
Proof.
  intros W. destruct W. split; intros *.
  - apply wf_session0.
  - intros H. apply scrub_run in H as [H _]. eauto.
  - intros H. apply scrub_run in H as [H _]. eauto.
  - intros Hi Hj. apply scrub_run in Hi as [Hi _], Hj as [Hj _]. eauto.
  - intros H. apply scrub_message in H as (m0 & H & N & ->). apply (wf_message0 _ _ H).
  - intros H. apply scrub_message in H as (m0 & H & N & ->). cbn. destruct (ms_run m0) as [rid|] eqn:E; [|done].
    destruct (run_of_session d sid rid) eqn:B; [done|]. intros [= <-]. destruct (wf_link0 _ _ _ H E) as [r Hr].
    exists r. apply scrub_run. split; [done|]. unfold run_of_session in B. rewrite Hr in B. by apply String.eqb_neq.
  - intros Hi Hj. apply scrub_message in Hi as (m0 & Hi & _ & ->), Hj as (m1 & Hj & _ & ->). exact (wf_seq0 _ _ _ _ Hi Hj).
  - intros Hi Hj. apply scrub_message in Hi as (m0 & Hi & _ & ->), Hj as (m1 & Hj & _ & ->). exact (wf_client0 _ _ _ _ _ Hi Hj).
  - destruct (decide (session_id = sid)) as [->|N].
    + exists 0. split; [lia|]. intros n. split; [|lia]. intros (id & m & H & Hs & _). apply scrub_message in H as (m0 & _ & N & ->). done.
    + destruct (wf_dense0 session_id) as (k & Hk & Hd). exists k. split; [done|]. intros n. rewrite <- Hd. split.
      * intros (id & m & H & Hs & Hn). apply scrub_message in H as (m0 & H & _ & ->). by exists id, m0.
      * intros (id & m & H & Hs & Hn). exists id, (unlink_run d sid m). split_and!; try done. apply scrub_message.
        exists m. by rewrite Hs.
  - intros H. apply scrub_event in H as [H B]. destruct (wf_frame_run0 _ _ _ H) as [r Hr]. exists r. apply scrub_run.
    split; [done|]. unfold run_of_session in B. cbn in B. rewrite Hr in B. by apply String.eqb_neq.
  - intros H. apply scrub_run in H as [H N]. destruct (wf_frames0 _ _ H) as (lo & Hlo & Hf). exists lo. split; [done|].
    intros n. rewrite <- Hf. split; intros [e He]; exists e.
    + by apply scrub_event in He as [He _].
    + apply scrub_event. split; [done|]. unfold run_of_session. cbn. rewrite H. by apply String.eqb_neq.
Qed.

Lemma wf_drop_frames d p :
  wf d -> wf (with_events d (filter (fun kv : (string * Z) * event_row => p kv.1.1 = false) (run_events d))).
Proof.
  intros W. destruct W. split; cbn; try done.
  - intros run_id n e H. apply (lookup_kept (fun k _ => p k.1)) in H as [H _]. eauto.
  - intros run_id r H. destruct (wf_frames0 _ _ H) as (lo & Hlo & Hf). destruct (p run_id) eqn:B.
    + exists (rn_last_seq r). split; [lia|]. intros n. split; [|lia]. intros [e He].
      apply (lookup_kept (fun k _ => p k.1)) in He as [_ He]. cbn in He. congruence.
    + exists lo. split; [done|]. intros n. rewrite <- Hf. split; intros [e He]; exists e.
      * by apply (lookup_kept (fun k _ => p k.1)) in He as [He _].
      * by apply (lookup_kept (fun k _ => p k.1)).
Qed.

Lemma put_session_Ok d id s d' : put_session d id s = Ok d' -> d' = with_sessions d (<[id := s]> (sessions d)) /\ session_ok s = true.
Proof. unfold put_session. destruct (session_ok s); [|done]. by intros [= <-]. Qed.

Lemma owned_session_Some d id uid s : owned_session d id uid = Some s -> sessions d !! id = Some s /\ se_user s = uid.
Proof.
  unfold owned_session. destruct (sessions d !! id) as [s0|]; [|done].
  destruct (String.eqb_spec (se_user s0) uid); [|done]. by intros [= <-].
Qed.

Lemma open_run_Some d id r : open_run d id = Some r -> runs d !! id = Some r /\ rn_terminal r = None.
Proof.
  unfold open_run. destruct (runs d !! id) as [r0|]; [|done]. destruct (rn_terminal r0) eqn:E; [done|]. by intros [= <-].
Qed.

Lemma streaming_message_Some d id m : streaming_message d id = Some m -> messages d !! id = Some m /\ ms_status m = MSG_STREAMING.
Proof.
  unfold streaming_message. destruct (messages d !! id) as [m0|]; [|done].
  destruct (bool_decide_reflect (ms_status m0 = MSG_STREAMING)); [|done]. by intros [= <-].
Qed.

(** ** The operations *)

(** One call of the store, with everything it is given. *)
Inductive op :=
  | Create_session (stamp : float) (id : draw) (user_id symbol profile timeframe title metadata : val)
  | Update_session (stamp : float) (session_id : string) (user_id : val) (patch : list (string * val))
  | Delete_session (stamp : float) (session_id : string) (user_id : val) (hard : bool)
  | Create_run (stamp : float) (run_draw thread_draw : draw) (session_id : string) (user_id : val) (a : run_spec)
  | Update_run_status (stamp : float) (run_id : string) (status : run_status)
  | Finalize_run (stamp : float) (run_id : string) (terminal : run_status)
  | Append_run_events (stamp : float) (run_id : string) (events : list (val * val))
  | Create_message (stamp : float) (id : draw) (session_id : string) (a : message_spec)
  | Append_message_delta (stamp : float) (message_id delta : string) (activity : val)
  | Finalize_message (stamp : float) (message_id : string) (status : message_status) (content : option string) (error activity : val)
  | Reconcile (graph : option (string -> res bool)) (stamp : float)
  | Prune (e : env) (now : float) (days : option float).

(** The store after a call: a call that raises is rolled back. *)
Definition after {A} (d : db) (m : res (db * A)) : db := match m with Ok (d', _) => d' | Raise _ => d end.

Definition exec (d : db) (o : op) : db :=
  match o with
  | Create_session stamp id u s p t ti m => after d (create_session stamp id d u s p t ti m)
  | Update_session stamp sid u patch => after d (update_session stamp d sid u patch)
  | Delete_session stamp sid u hard => after d (delete_session stamp d sid u hard)
  | Create_run stamp i j sid u a => after d (create_run stamp i j d sid u a)
  | Update_run_status stamp rid st => after d (update_run_status stamp d rid st)
  | Finalize_run stamp rid st => after d (finalize_run stamp d rid st)
  | Append_run_events stamp rid events => after d (append_run_events stamp d rid events)
  | Create_message stamp i sid a => after d (create_message stamp i d sid a)
  | Append_message_delta stamp mid delta act => after d (append_message_delta stamp d mid delta act)
  | Finalize_message stamp mid st c er act => after d (finalize_message stamp d mid st c er act)
  | Reconcile graph stamp => (reconcile_stale_runs graph stamp d).1
  | Prune e now days => (prune_run_events e now d days).1
  end.

(** The stores calls can lead to. *)
Inductive reachable : db -> Prop :=
  | reachable_empty : reachable empty_db
  | reachable_exec d o : reachable d -> reachable (exec d o).

(** What a call does to a well-formed store, when it deletes nothing. *)
Inductive gentle (d : db) : db -> Prop :=
  | Changed d' : in_place d d' -> gentle d d'
  | New_session id s : sessions d !! id = None -> session_ok s = true -> gentle d (with_sessions d (<[id := s]> (sessions d)))
  | New_run id r d1 d' :
      insert_run d id r = Ok d1 -> run_row_ok r -> rn_last_seq r = 0 ->
      (exists s, sessions d !! rn_session r = Some s /\ se_user s = rn_user r) -> in_place d1 d' -> gentle d d'
  | New_message id m d1 d' :
      insert_message d id m = Ok d1 -> ms_seq m = last_message_seq d (ms_session m) + 1 -> in_place d1 d' -> gentle d d'
  | Appended run_id r stamp events rows d' :
      runs d !! run_id = Some r -> numbered stamp (rn_last_seq r) events = Ok rows ->
      in_place (with_runs (with_events d (fold_left (insert_event run_id) rows (run_events d)))
                  (<[run_id := set_last_seq stamp (rn_last_seq r + Z.of_nat (length events)) r]> (runs d))) d' ->
      gentle d d'.

Inductive effect (d : db) : db -> Prop :=
  | Gentle d' : gentle d d' -> effect d d'
  | Scrubbed sid d' : in_place (scrub_session d sid) d' -> effect d d'
  | Pruned p : effect d (with_events d (filter (fun kv : (string * Z) * event_row => p kv.1.1 = false) (run_events d))).

Lemma wf_gentle d d' : wf d -> gentle d d' -> wf d'.
Proof. intros W []; eauto using wf_in_place, wf_new_session, wf_new_run, wf_new_message, wf_append. Qed.

Lemma wf_effect d d' : wf d -> effect d d' -> wf d'.
Proof. intros W []; eauto using wf_in_place, wf_gentle, wf_scrub, wf_drop_frames. Qed.

(** The calls that can delete a row. *)
Definition deletes (o : op) : bool := match o with Delete_session _ _ _ true | Prune _ _ _ => true | _ => false end.

Lemma gentle_refl d : gentle d d.
Proof. by apply Changed. Qed.

Lemma update_session_effect stamp d sid user_id patch d' out :
  update_session stamp d sid user_id patch = Ok (d', out) -> in_place d d'.
Proof.
  unfold update_session. intros H. do 3 mbind H. destruct patch as [|kv patch]; [by injection H as <- _|].
  destruct (owned_session d sid a) as [s|] eqn:O; [|by injection H as <- _]. apply owned_session_Some in O as [O _].
  mbind H. injection H as <- _. apply put_session_Ok in E2 as [-> Hok]. by eapply ip_session.
Qed.

Lemma scrubbed_ok stamp s : session_ok s = true -> session_ok (scrubbed stamp s) = true.
Proof. unfold session_ok. cbn. rewrite !andb_true_iff. intros ((((H1 & H2) & H3) & H4) & _). unfold se_user in *. by repeat split. Qed.

Lemma delete_session_effect stamp d sid user_id d' out :
  delete_session stamp d sid user_id true = Ok (d', out) -> effect d d'.
Proof.
  unfold delete_session. intros H. mbind H. cbn [negb] in H.
  destruct (owned_session d sid a) as [s|] eqn:O; [|by injection H as <- _; apply Gentle, gentle_refl].
  apply owned_session_Some in O as [O _]. mbind H. injection H as <- _. apply put_session_Ok in E0 as [-> Hok].
  eapply Scrubbed. by eapply ip_session.
Qed.

Lemma soft_delete_effect stamp d sid user_id d' out :
  delete_session stamp d sid user_id false = Ok (d', out) -> in_place d d'.
Proof. unfold delete_session. intros H. mbind H. cbn [negb] in H. by eapply update_session_effect. Qed.

Lemma create_run_effect stamp i j d sid user_id a d' out :
  create_run stamp i j d sid user_id a = Ok (d', out) -> gentle d d'.
Proof.
  unfold create_run. intros H. do 4 mbind H. destruct (owned_session d sid a0) as [s|] eqn:O; [|by injection H as <- _; apply gentle_refl].
  apply owned_session_Some in O as [O U]. case_bool_decide; [by injection H as <- _; apply gentle_refl|].
  do 5 mbind H. injection H as <- _. eapply New_run; [exact E7|done|done|by exists s|]. apply ip_active.
Qed.

Lemma create_session_effect stamp i d u s p t ti m d' out :
  create_session stamp i d u s p t ti m = Ok (d', out) -> gentle d d'.
Proof.
  unfold create_session. intros H. do 6 mbind H. destruct (is_some _) eqn:F; [done|]. mbind H. injection H as <- _.
  apply put_session_Ok in E5 as [-> Hok]. apply is_some_None in F. by apply New_session.
Qed.

Lemma create_message_effect stamp i d sid a d' out :
  create_message stamp i d sid a = Ok (d', out) -> gentle d d'.
Proof.
  unfold create_message. intros H. do 3 mbind H. destruct (_ && _); [done|]. cbv zeta in H.
  destruct (sessions d !! sid); [|by injection H as <- _; apply gentle_refl].
  destruct (match _text _ _ with Some _ => _ | None => _ end); [by injection H as <- _; apply gentle_refl|].
  do 3 mbind H. injection H as <- _. eapply New_message; [exact E4|done|]. apply ip_touch.
Qed.

Lemma append_run_events_effect stamp d rid events d' out :
  append_run_events stamp d rid events = Ok (d', out) -> gentle d d'.
Proof.
  unfold append_run_events. intros H. destruct events as [|e events].
  - destruct (runs d !! rid); injection H as <- _; apply gentle_refl.
  - destruct (runs d !! rid) as [r|] eqn:R; [|injection H as <- _; apply gentle_refl]. mbind H. injection H as <- _.
    eapply Appended; [exact R|exact E|]. apply ip_touch.
Qed.

Lemma update_streaming_effect stamp d mid f :
  (forall m, ms_key (f m) = ms_key m /\ ms_run (f m) = ms_run m) -> in_place d (update_streaming stamp d mid f).1.
Proof.
  intros Hf. unfold update_streaming. destruct (streaming_message d mid) as [m|] eqn:S; [|done].
  apply streaming_message_Some in S as [Hm Hs]. cbn [fst]. etrans; [|apply ip_touch].
  eapply ip_message; [exact Hm|]. apply streaming_step; [done|apply Hf..].
Qed.

Lemma reconcile_run_effect pending stamp d n id r :
  rn_terminal r = None -> runs d !! id = Some r -> in_place d (reconcile_run pending stamp (d, n) (id, r)).1.
Proof.
  intros T Hr. unfold reconcile_run. cbn [fst snd]. destruct (pending (rn_thread r)); cbn [fst].
  - apply ip_alter_run. intros r' Hr'. rewrite Hr in Hr'. injection Hr' as <-. by apply live_run_step.
  - etrans.
    + apply (ip_alter_run d id (truncate_run stamp)). intros r' Hr'. rewrite Hr in Hr'. injection Hr' as <-. by apply truncate_run_step.
    + apply (ip_messages_all (with_runs d _)). intros m. apply truncate_message_step. unfold streaming_of.
      intros [_ B]%andb_true_iff. by apply bool_decide_eq_true in B.
Qed.

(** The runs a row of which is not looked at stay as they are. *)
Lemma reconcile_run_other pending stamp acc row k : k <> row.1 -> runs (reconcile_run pending stamp acc row).1 !! k = runs acc.1 !! k.
Proof.
  intros N. destruct acc as [d n], row as [id r]. unfold reconcile_run. cbn [fst snd] in *.
  destruct (pending _); cbn; by rewrite lookup_alter_ne.
Qed.

Lemma reconcile_fold_effect pending stamp l d n :
  NoDup l.*1 -> (forall id r, In (id, r) l -> runs d !! id = Some r /\ rn_terminal r = None) ->
  in_place d (fold_left (reconcile_run pending stamp) l (d, n)).1.
Proof.
  revert d n. induction l as [|[id r] l IH]; intros d n N H; [done|]. cbn [fold_left]. inversion N as [|? ? Hn N']; subst.
  destruct (H id r) as [Hr T]; [by left|]. pose proof (reconcile_run_effect pending stamp d n id r T Hr) as P.
  destruct (reconcile_run pending stamp (d, n) (id, r)) as [d1 n1] eqn:E. cbn [fst] in P. etrans; [exact P|].
  apply IH; [done|]. intros id' r' Hin. destruct (H id' r') as [Hr' T']; [by right|]. split; [|done].
  rewrite <- Hr'. pose proof (reconcile_run_other pending stamp (d, n) (id, r) id') as O. rewrite E in O. cbn in O. apply O.
  intros ->. apply Hn. apply list_elem_of_In. change id with ((id, r').1). by apply in_map.
Qed.

Lemma sweep_effect stamp d : in_place d (sweep_orphans stamp d).1.
Proof.
  cbn. apply ip_messages_all. intros m. apply truncate_message_step. unfold orphaned.
  intros [B _]%andb_true_iff. by apply bool_decide_eq_true in B.
Qed.

Lemma live_rows d id r :
  wf d -> In (id, r) (rows_where (fun r => live (rn_status r)) (runs d)) -> runs d !! id = Some r /\ rn_terminal r = None.
Proof.
  intros W H. apply rows_where_In in H as [Hr L]. split; [done|]. destruct (wf_run _ W _ _ Hr) as (T & _). by rewrite T, L.
Qed.

Lemma reconcile_effect graph stamp d : wf d -> in_place d (reconcile_stale_runs graph stamp d).1.
Proof.
  intros W. unfold reconcile_stale_runs.
  pose proof (reconcile_fold_effect (_thread_has_pending_step graph) stamp _ d 0
                (rows_where_NoDup (fun r => live (rn_status r)) (runs d)) (fun id r => live_rows d id r W)) as P.
  destruct (fold_left _ _ _) as [d1 n1]. cbn [fst] in P. etrans; [exact P|]. apply sweep_effect.
Qed.

Lemma exec_gentle d o : wf d -> deletes o = false -> gentle d (exec d o).
Proof.
  intros W Hd. destruct o; cbn [exec deletes] in *; try done.
  - destruct (create_session _ _ _ _ _ _ _ _ _) as [[d' out]|] eqn:E; [by eapply create_session_effect|apply gentle_refl].
  - destruct (update_session _ _ _ _ _) as [[d' out]|] eqn:E; [by apply Changed; eapply update_session_effect|apply gentle_refl].
  - destruct hard; [done|].
    destruct (delete_session _ _ _ _ _) as [[d' out]|] eqn:E; [by apply Changed; eapply soft_delete_effect|apply gentle_refl].
  - destruct (create_run _ _ _ _ _ _ _) as [[d' out]|] eqn:E; [by eapply create_run_effect|apply gentle_refl].
  - unfold update_run_status. destruct (live status) eqn:L; [|apply gentle_refl]. cbn [negb after].
    destruct (open_run d run_id) as [r|] eqn:O; [|apply gentle_refl]. apply open_run_Some in O as [Hr T].
    apply Changed. eapply ip_run; [exact Hr|by apply live_run_step].
  - unfold finalize_run. destruct (live terminal) eqn:L; [apply gentle_refl|]. cbn [after].
    destruct (open_run d run_id) as [r|] eqn:O; [|apply gentle_refl]. apply open_run_Some in O as [Hr T].
    apply Changed. etrans; [|apply ip_touch]. eapply ip_run; [exact Hr|by apply end_run_step].
  - destruct (append_run_events _ _ _ _) as [[d' out]|] eqn:E; [by eapply append_run_events_effect|apply gentle_refl].
  - destruct (create_message _ _ _ _ _) as [[d' out]|] eqn:E; [by eapply create_message_effect|apply gentle_refl].
  - unfold append_message_delta. destruct (_json_or_none activity); [|apply gentle_refl]. cbn [mbind res_bind after].
    destruct (update_streaming _ _ _ _) as [d' b] eqn:E. apply Changed. change d' with (d', b).1. rewrite <- E.
    by apply update_streaming_effect.
  - unfold finalize_message. case_bool_decide; [apply gentle_refl|]. destruct (_json_or_none activity); [|apply gentle_refl].
    cbn [mbind res_bind after]. destruct (update_streaming _ _ _ _) as [d' b] eqn:E. apply Changed. change d' with (d', b).1.
    rewrite <- E. by apply update_streaming_effect.
  - by apply Changed, reconcile_effect.
Qed.

Lemma exec_effect d o : wf d -> effect d (exec d o).
Proof.
  intros W. destruct (deletes o) eqn:D; [|by apply Gentle, exec_gentle]. destruct o; try done; cbn [exec deletes] in *.
  - destruct hard; [|done].
    destruct (delete_session _ _ _ _ _) as [[d' out]|] eqn:E; [by eapply delete_session_effect|apply Gentle, gentle_refl].
  - unfold prune_run_events. destruct (PrimFloat.leb _ 0); [apply Gentle, gentle_refl|]. cbn [fst].
    apply (Pruned d (expired_run _ d)).
Qed.

Lemma wf_exec d o : wf d -> wf (exec d o).
Proof. intros W. by apply (wf_effect d), exec_effect. Qed.

Lemma wf_reachable d : reachable d -> wf d.
Proof. induction 1; [apply wf_empty|by apply wf_exec]. Qed.

(** C4: The schema's invariants hold in every store that calls can lead to: the
    CHECKs, the references (a run's owner is its session's), the unique threads,
    message numbers and client ids; a run is terminal exactly when it is not live; the
    numbers of a session's messages are dense, and the frames of a run are those after
    the last pruned one up to its counter, with no gap. *)
Theorem session_store_invariant d : reachable d -> wf d.
Proof. apply wf_reachable. Qed.

(** ** What has ended *)

(** The rows that outlive a call. *)
Definition ended_run_kept (d d' : db) : Prop := forall id r, runs d !! id = Some r -> is_Some (rn_terminal r) ->
  forall r', runs d' !! id = Some r' ->
  rn_key r' = rn_key r /\ rn_status r' = rn_status r /\ rn_terminal r' = rn_terminal r /\ rn_ended r' = rn_ended r.
Definition ended_message_kept (d d' : db) : Prop := forall id m, messages d !! id = Some m -> ms_status m <> MSG_STREAMING ->
  forall m', messages d' !! id = Some m' ->
  ms_key m' = ms_key m /\ ms_content m' = ms_content m /\ ms_status m' = ms_status m /\ ms_error m' = ms_error m.
Definition frames_kept (d d' : db) : Prop := forall k e e', run_events d !! k = Some e -> run_events d' !! k = Some e' -> e' = e.
Definition no_row_lost (d d' : db) : Prop :=
  (forall id, is_Some (sessions d !! id) -> is_Some (sessions d' !! id)) /\
  (forall id, is_Some (runs d !! id) -> is_Some (runs d' !! id)) /\
  (forall id, is_Some (messages d !! id) -> is_Some (messages d' !! id)) /\
  (forall k, is_Some (run_events d !! k) -> is_Some (run_events d' !! k)).

Definition kept (d d' : db) : Prop := ended_run_kept d d' /\ ended_message_kept d d' /\ frames_kept d d'.

Lemma kept_in_place d d1 d' : wf d1 -> kept d d1 -> in_place d1 d' -> kept d d'.
Proof.
  intros W (K1 & K2 & K3) P. split_and!.
  - intros id r Hr T r' Hr'. destruct (forall2_back _ _ _ _ (ip_runs _ _ P id) Hr') as (r1 & H1 & _ & _ & F).
    destruct (F (wf_run _ W _ _ H1)) as [_ F']. specialize (K1 id r Hr T r1 H1) as (? & ? & T1 & ?).
    rewrite T1 in F'. by specialize (F' T) as ->.
  - intros id m Hm T m' Hm'. destruct (forall2_back _ _ _ _ (ip_messages _ _ P id) Hm') as (m1 & H1 & _ & _ & _ & F).
    specialize (K2 id m Hm T m1 H1) as (? & ? & T1 & ?). rewrite T1 in F. by specialize (F T) as ->.
  - intros k e e'. rewrite (ip_events _ _ P). apply K3.
Qed.

Lemma kept_refl d : kept d d.
Proof. split_and!; intros ?; intros; by simplify_eq. Qed.

Lemma lost_in_place d d1 d' : no_row_lost d d1 -> in_place d1 d' -> no_row_lost d d'.
Proof.
  intros (L1 & L2 & L3 & L4) P. split_and!.
  - intros id H. destruct (L1 _ H) as [x Hx]. destruct (forall2_forth _ _ _ _ (ip_sessions _ _ P id) Hx) as (y & -> & _). eauto.
  - intros id H. destruct (L2 _ H) as [x Hx]. destruct (forall2_forth _ _ _ _ (ip_runs _ _ P id) Hx) as (y & -> & _). eauto.
  - intros id H. destruct (L3 _ H) as [x Hx]. destruct (forall2_forth _ _ _ _ (ip_messages _ _ P id) Hx) as (y & -> & _). eauto.
  - intros k. rewrite (ip_events _ _ P). apply L4.
Qed.

Lemma insert_run_Ok d id r d' :
  insert_run d id r = Ok d' -> d' = with_runs d (<[id := r]> (runs d)) /\ runs d !! id = None.
Proof. unfold insert_run. destruct (_ || _) eqn:B; [done|]. apply orb_false_iff in B as [F _]. apply is_some_None in F. by intros [= <-]. Qed.

Lemma is_Some_insert {A} (t : gmap string A) k a id : is_Some (t !! id) -> is_Some ((<[k := a]> t) !! id).
Proof. intros H. destruct (decide (k = id)) as [<-|N]; [rewrite lookup_insert_eq; eauto|by rewrite lookup_insert_ne]. Qed.

(** The first half of a gentle call. *)
Lemma kept_new_run d id r d' : insert_run d id r = Ok d' -> kept d d' /\ no_row_lost d d'.
Proof.
  intros I. apply insert_run_Ok in I as [-> F]. split; [|split_and!; cbn; try done; intros *; apply is_Some_insert].
  pose proof (kept_refl d) as (K1 & K2 & K3). split_and!; try done. intros k r0 Hr T r'. cbn. rewrite lookup_insert_ne by congruence.
  by eapply K1.
Qed.

Lemma kept_new_message d id m d' : insert_message d id m = Ok d' -> kept d d' /\ no_row_lost d d'.
Proof.
  intros I. apply insert_message_Ok in I as (-> & F & _). split; [|split_and!; cbn; try done; intros *; apply is_Some_insert].
  pose proof (kept_refl d) as (K1 & K2 & K3). split_and!; try done. intros k m0 Hm T m'. cbn. rewrite lookup_insert_ne by congruence.
  by eapply K2.
Qed.

Lemma kept_append d run_id r stamp events rows :
  wf d -> runs d !! run_id = Some r -> numbered stamp (rn_last_seq r) events = Ok rows ->
  let d' := with_runs (with_events d (fold_left (insert_event run_id) rows (run_events d)))
              (<[run_id := set_last_seq stamp (rn_last_seq r + Z.of_nat (length events)) r]> (runs d)) in
  kept d d' /\ no_row_lost d d'.
Proof.
  intros W Hr Hn d'. pose proof (append_frames _ _ _ _ _ _ W Hr Hn) as F.
  assert (forall k e, run_events d !! k = Some e -> run_events d' !! k = Some e) as K.
  { intros [rid n] e He. cbn [d' run_events with_runs with_events]. rewrite F. cbn [fst snd].
    destruct (String.eqb_spec rid run_id) as [->|]; [|done]. destruct (List.find _ rows) as [[q e']|] eqn:X; [|done].
    apply find_some in X as [X E]. apply Z.eqb_eq in E. cbn in E. subst q.
    assert (rn_last_seq r < n) by (apply (proj1 (in_seq_numbers _ _ n _ (numbered_spec _ _ _ _ Hn))); eauto).
    destruct (wf_frames _ W _ _ Hr) as (lo & _ & Hf). assert (lo < n <= rn_last_seq r) by (apply Hf; eauto). lia. }
  pose proof (kept_refl d) as (K1 & K2 & K3). split; split_and!; try done.
  - intros id r0 H0 T r'. cbn. destruct (decide (run_id = id)) as [<-|N].
    + rewrite lookup_insert_eq. intros [= <-]. by simplify_eq.
    + rewrite lookup_insert_ne by done. by eapply K1.
  - intros k e e' He He'. rewrite (K _ _ He) in He'. congruence.
  - intros id. cbn. apply is_Some_insert.
  - intros k [e He]. exists e. auto.
Qed.

Lemma kept_gentle d d' : wf d -> gentle d d' -> kept d d' /\ no_row_lost d d'.
Proof.
  intros W G. destruct G as [d' P|id s F O|id r d1 d' I O Z0 S P|id m d1 d' I Q P|run_id r stamp events rows d' Hr Hn P].
  - split; [by eapply kept_in_place; [|apply kept_refl|]|by eapply lost_in_place; [split_and!|]].
  - split; [|split_and!; cbn; try done; intros *; apply is_Some_insert]. pose proof (kept_refl d) as (K1 & K2 & K3). by split_and!.
  - destruct (kept_new_run _ _ _ _ I) as [K L]. split; [|by eapply lost_in_place].
    eapply kept_in_place; [eapply wf_new_run; eauto|done|done].
  - destruct (kept_new_message _ _ _ _ I) as [K L]. split; [|by eapply lost_in_place].
    eapply kept_in_place; [eapply wf_new_message; eauto|done|done].
  - destruct (kept_append _ _ _ _ _ _ W Hr Hn) as [K L]. split; [|by eapply lost_in_place].
    eapply kept_in_place; [by apply wf_append|done|done].
Qed.

Lemma kept_effect d d' : wf d -> effect d d' -> kept d d'.
Proof.
  intros W E. destruct E as [d' G|sid d' P|p]; [by apply kept_gentle| |].
  - eapply kept_in_place; [by apply wf_scrub| |exact P]. split_and!.
    + intros id r Hr T r' Hr'. apply scrub_run in Hr' as [Hr' _]. by simplify_eq.
    + intros id m Hm T m' Hm'. apply scrub_message in Hm' as (m0 & Hm' & _ & ->). by simplify_eq.
    + intros k e e' He He'. apply scrub_event in He' as [He' _]. by simplify_eq.
  - pose proof (kept_refl d) as (K1 & K2 & K3). split_and!; try done.
    intros k e e' He He'. cbn in He'. apply (lookup_kept (fun k _ => p k.1)) in He' as [He' _]. by simplify_eq.
Qed.

(** C6: What has ended stays as it ended: no call changes the status, the end time or
    the snapshot of a run that is terminal, the text or the status of a message that
    is no longer streaming, or a stored frame; and only a hard delete or the
    retention pass makes a row disappear. *)
Theorem ended_stays_ended d o :
  reachable d ->
  ended_run_kept d (exec d o) /\ ended_message_kept d (exec d o) /\ frames_kept d (exec d o) /\
  (deletes o = false -> no_row_lost d (exec d o)).
Proof.
  intros R. pose proof (wf_reachable _ R) as W. destruct (kept_effect _ _ W (exec_effect d o W)) as (K1 & K2 & K3).
  split_and!; try done. intros D. by apply kept_gentle, exec_gentle.
Qed.

(** ** The transcript of a run *)

Lemma frames_of_In d rid n e : In (n, e) (frames_of d rid) <-> run_events d !! (rid, n) = Some e.
Proof.
  unfold frames_of. rewrite <- list_elem_of_In, sort_by_perm, list_elem_of_omap. split.
  - intros ([[rid' n'] e'] & H & E). cbn in E. destruct (String.eqb_spec rid' rid) as [->|]; [|done]. injection E as -> ->.
    by apply elem_of_map_to_list.
  - intros H. exists ((rid, n), e). split; [by apply elem_of_map_to_list|]. cbn. by rewrite String.eqb_refl.
Qed.

Lemma frames_of_sorted d rid : StronglySorted Z.lt (map fst (frames_of d rid)).
Proof.
  assert (StronglySorted Z.le (map fst (frames_of d rid))) as H.
  { apply (map_sorted (not_after seq_before)).
    - intros a b. unfold not_after, seq_before. rewrite Z.ltb_ge. done.
    - apply (sort_by_sorted_on seq_before (fun _ => True)); unfold not_after, seq_before.
      + intros *. rewrite Z.ltb_lt, Z.ltb_ge. lia.
      + intros *. rewrite !Z.ltb_ge. lia.
      + by apply Forall_true. }
  assert (NoDup (map fst (frames_of d rid))) as N.
  { unfold frames_of. rewrite sort_by_perm. pose proof (NoDup_map_to_list (run_events d)) as N.
    assert (forall k e, (k, e) ∈ map_to_list (run_events d) -> run_events d !! k = Some e) as L by (intros *; by apply elem_of_map_to_list).
    induction (map_to_list (run_events d)) as [|[[rid' n'] e'] l IH]; [constructor|]. inversion N as [|? ? Hn N']; subst.
    cbn [omap list_omap fst snd]. destruct (String.eqb_spec rid' rid) as [->|].
    - cbn [map fst]. constructor.
      + intros Hin. apply list_elem_of_fmap in Hin as ([q e] & E & Hin). cbn in E. subst q. apply Hn.
        apply list_elem_of_omap in Hin as ([[rid2 n2] e2] & Hin & E). cbn in E. destruct (String.eqb_spec rid2 rid) as [->|]; [|done].
        injection E as -> ->. assert (e = e') as -> by (pose proof (L (rid, n') e ltac:(by right)); pose proof (L (rid, n') e' ltac:(by left)); congruence).
        done.
      + apply IH; [done|]. intros k e Hin. apply L. by right.
    - apply IH; [done|]. intros k e Hin. apply L. by right. }
  induction H as [|x l Hl IH Hx]; [constructor|]. inversion N as [|? ? Hn N']; subst. constructor; [by apply IH|].
  rewrite Forall_forall in *. intros y Hy. specialize (Hx y Hy). assert (x <> y) by (intros ->; done). lia.
Qed.

Lemma filter_map_fst {A} (p : Z -> bool) (l : list (Z * A)) : map fst (List.filter (fun row => p row.1) l) = List.filter p (map fst l).
Proof. induction l as [|[z a] l IH]; [done|]. cbn. destruct (p z); cbn; by rewrite IH. Qed.

Lemma mapM_frames rows items : mapM_res frame_of rows = Ok items -> map fr_seq items = map fst rows /\ map fr_event items = map (fun row => ev_event row.2) rows.
Proof.
  revert items. induction rows as [|row rows IH]; intros items H; cbn in H; [by injection H as <-|].
  mbind H. mbind H. injection H as <-. destruct (IH _ E0) as [IH1 IH2]. unfold frame_of in E. mbind E. injection E as <-.
  cbn. by rewrite IH1, IH2.
Qed.

(** A listed frame is a stored event, its payload read back. *)
Definition reads_event (d : db) (rid : string) (f : frame) : Prop :=
  exists e data, run_events d !! (rid, fr_seq f) = Some e /\ fr_event f = ev_event e /\
    _loads (Some (ev_payload e)) = Ok data /\ fr_data f = py_or data (VDict []).

Lemma mapM_reads d rid rows items :
  mapM_res frame_of rows = Ok items -> (forall row, In row rows -> In row (frames_of d rid)) -> Forall (reads_event d rid) items.
Proof.
  revert items. induction rows as [|[n e] rows IH]; intros items H Hin; cbn in H; [by injection H as <-|].
  mbind H. mbind H. injection H as <-. constructor; [|by apply IH; [|intros row Hr; apply Hin; right]].
  unfold frame_of in E. mbind E. injection E as <-. eexists e, _. cbn. split; [|done].
  apply frames_of_In, Hin. by left.
Qed.

(** What is read back of a frame handed to the store. *)
Definition kept_event (ev : val * val) : res (string * val) :=
  name ← _required ev.1;
  text ← _json_or_none ev.2;
  data ← _loads (Some (match text with Some (String _ _ as t) => t | _ => "{}"%string end));
  Ok (name, py_or data (VDict [])).

Lemma numbered_kept stamp seq events rows items :
  numbered stamp seq events = Ok rows -> mapM_res frame_of rows = Ok items ->
  mapM_res kept_event events = Ok (map (fun f => (fr_event f, fr_data f)) items).
Proof.
  revert seq rows items. induction events as [|[event payload] events IH]; intros seq rows items H M; cbn [numbered] in H.
  - injection H as <-. by injection M as <-.
  - do 3 mbind H. injection H as <-. cbn in M. mbind M. mbind M. injection M as <-. unfold frame_of in E2. mbind E2. injection E2 as <-.
    assert (kept_event (event, payload) = Ok (a, py_or a4 (VDict []))) as K.
    { unfold kept_event. cbn [fst snd ev_payload] in *. rewrite E. cbn. rewrite E0. cbn. by rewrite E4. }
    cbn [mapM_res]. rewrite K. cbn [mbind res_bind]. by rewrite (IH _ _ _ E1 E3).
Qed.

Lemma frames_after d rid r from :
  wf d -> runs d !! rid = Some r ->
  exists lo, 0 <= lo <= rn_last_seq r /\ (forall n, is_Some (run_events d !! (rid, n)) <-> lo < n <= rn_last_seq r) /\
    map fst (List.filter (fun row => Z.max 0 from <? row.1) (frames_of d rid)) =
    zrange (Z.max lo from + 1) (Z.to_nat (rn_last_seq r - Z.max lo from)).
Proof.
  intros W Hr. destruct (wf_frames _ W _ _ Hr) as (lo & Hlo & Hf). exists lo. split; [done|]. split; [done|].
  rewrite filter_map_fst. apply sorted_interval; [apply filter_sorted, frames_of_sorted|].
  intros n. rewrite filter_In, Z.ltb_lt. assert (In n (map fst (frames_of d rid)) <-> lo < n <= rn_last_seq r) as ->; [|lia].
  rewrite <- Hf, in_map_iff. split.
  - intros ([q e] & <- & H). apply frames_of_In in H. cbn. eauto.
  - intros [e He]. exists (n, e). by rewrite frames_of_In.
Qed.

Lemma numbered_names stamp seq events rows :
  numbered stamp seq events = Ok rows -> mapM_res _required (map fst events) = Ok (map (fun row => ev_event row.2) rows).
Proof.
  revert seq rows. induction events as [|[event payload] events IH]; intros seq rows H; cbn [numbered] in H; [by injection H as <-|].
  do 3 mbind H. injection H as <-. cbn. rewrite E. cbn. by rewrite (IH _ _ E1).
Qed.

Lemma same_keyed_list {A} (l1 l2 : list (Z * A)) :
  map fst l1 = map fst l2 -> NoDup (map fst l2) -> (forall n a, In (n, a) l1 -> In (n, a) l2) -> l1 = l2.
Proof.
  revert l2. induction l1 as [|[n a] l1 IH]; intros [|[n2 a2] l2] E N H; try done. cbn in E. injection E as <- E. inversion N as [|? ? Hn N']; subst.
  assert (In (n, a) ((n, a2) :: l2)) as [[= ->]|Hin] by (apply H; by left).
  - f_equal. apply IH; [done|done|]. intros m b Hb. destruct (H m b) as [[= <- <-]|?]; [by right| |done].
    exfalso. apply Hn. rewrite <- E. apply list_elem_of_In. by apply (in_map fst) in Hb.
  - exfalso. apply Hn. apply list_elem_of_In. by apply (in_map fst) in Hin.
Qed.

(** After a batch, the frames past the old counter are the batch. *)
Lemma appended_frames stamp d rid r events rows :
  wf d -> runs d !! rid = Some r -> numbered stamp (rn_last_seq r) events = Ok rows ->
  List.filter (fun row => rn_last_seq r <? row.1)
    (frames_of (with_events d (fold_left (insert_event rid) rows (run_events d))) rid) = rows.
Proof.
  intros W Hr Hn. pose proof (numbered_spec _ _ _ _ Hn) as Q. pose proof (append_frames _ _ _ _ _ _ W Hr Hn) as F.
  set (d' := with_events d _). assert (forall n e, run_events d' !! (rid, n) = Some e -> rn_last_seq r < n -> In (n, e) rows) as Hin.
  { intros n e. cbn. rewrite F. cbn [fst snd]. rewrite String.eqb_refl. destruct (List.find _ rows) as [[q e']|] eqn:X.
    - apply find_some in X as [X E]. apply Z.eqb_eq in E. cbn in *. subst q. by intros [= <-] _.
    - intros He Hl. destruct (wf_frames _ W _ _ Hr) as (lo & _ & Hf). assert (lo < n <= rn_last_seq r) by (apply Hf; eauto). lia. }
  apply same_keyed_list; [|by eapply NoDup_numbers|].
  - rewrite filter_map_fst, Q. etrans; [apply (sorted_interval (rn_last_seq r) (rn_last_seq r + Z.of_nat (length events)))|].
    + apply filter_sorted, frames_of_sorted.
    + intros n. rewrite filter_In, Z.ltb_lt, <- (in_seq_numbers _ _ n _ Q), in_map_iff. split.
      * intros [([q e] & <- & H) L]. apply frames_of_In in H. cbn in *. eauto.
      * intros [e He]. split; [|by apply (in_seq_numbers _ _ n _ Q); eauto]. exists (n, e). split; [done|]. apply frames_of_In. cbn. rewrite F.
        cbn [fst snd]. rewrite String.eqb_refl. destruct (List.find _ rows) as [[q e']|] eqn:X.
        -- apply find_some in X as [X E]. apply Z.eqb_eq in E. cbn in *. subst q. f_equal.
           assert (NoDup (map fst rows)) as N by (by eapply NoDup_numbers). clear -He X N.
           induction rows as [|[m a] rows IH]; [done|]. inversion N as [|? ? Hm N']; subst.
           destruct He as [He|He], X as [X|X]; simplify_eq; [done| | |by apply IH]; exfalso; apply Hm, list_elem_of_In; [by apply (in_map fst) in X|by apply (in_map fst) in He].
        -- by apply (find_none _ _ X) in He; cbn in He; rewrite Z.eqb_refl in He.
    + replace (Z.to_nat _) with (length events) by lia. done.
  - intros n e H. apply filter_In in H as [H L]. apply Z.ltb_lt in L. apply frames_of_In in H. by apply Hin.
Qed.

(** C17: A transcript is read without a gap.  In a reachable store the events stored of
    a run are those numbered above some bound, up to the run's counter; the frames
    listed after a sequence number carry the consecutive numbers from the first stored
    one after it, up to the counter or to the page's end (the limit, between 1 and
    5000), and each is the stored event of its number: its name, and its payload read
    back.  Once a batch is appended, a reading after the old counter whose page is large
    enough for the batch gives exactly that batch, in its order, numbered on from the old
    counter, with the names and the payloads that were handed over (as JSON text keeps
    them). *)
Theorem transcript_gap_free d rid r :
  reachable d -> runs d !! rid = Some r ->
  (exists lo, 0 <= lo <= rn_last_seq r /\ (forall n, is_Some (run_events d !! (rid, n)) <-> lo < n <= rn_last_seq r) /\
   forall from limit items last, list_run_events d rid from limit = Ok (items, last) ->
     last = rn_last_seq r /\
     map fr_seq items = zrange (Z.max lo from + 1)
                          (Nat.min (Z.to_nat (Z.max 1 (Z.min limit 5000))) (Z.to_nat (last - Z.max lo from))) /\
     Forall (reads_event d rid) items) /\
  (forall stamp events d' last limit items seen, append_run_events stamp d rid events = Ok (d', last) ->
     Z.of_nat (length events) <= Z.min limit 5000 ->
     list_run_events d' rid (rn_last_seq r) limit = Ok (items, seen) ->
     seen = last /\ map fr_seq items = zrange (rn_last_seq r + 1) (length events) /\
     mapM_res kept_event events = Ok (map (fun f => (fr_event f, fr_data f)) items)).
Proof.
  intros R Hr. pose proof (wf_reachable _ R) as W. split.
  - destruct (frames_after d rid r 0 W Hr) as (lo & Hlo & Hs & _). exists lo. split; [done|]. split; [done|].
    intros from limit items last H. unfold list_run_events in H. rewrite Hr in H. mbind H. injection H as <- <-. split; [done|].
    destruct (frames_after d rid r from W Hr) as (lo' & Hlo' & Hs' & F).
    assert (Z.to_nat (rn_last_seq r - lo') = Z.to_nat (rn_last_seq r - lo)) as El.
    { destruct (Z.lt_trichotomy lo lo') as [L|[->|L]]; [|done|].
      - assert (lo < lo' <= rn_last_seq r) as B by lia. apply Hs, Hs' in B. lia.
      - assert (lo' < lo <= rn_last_seq r) as B by lia. apply Hs', Hs in B. lia. }
    replace lo' with lo in F by lia. destruct (mapM_frames _ _ E) as [-> _]. rewrite <- firstn_map, F, take_zrange. split; [done|].
    eapply mapM_reads; [exact E|]. intros row Hi%list_elem_of_In%elem_of_take. destruct Hi as (k & Hk & _).
    apply list_elem_of_lookup_2, list_elem_of_In, filter_In in Hk. tauto.
  - intros stamp events d' last limit items seen A L H. destruct (wf_run _ W _ _ Hr) as (_ & _ & P).
    unfold append_run_events in A. rewrite Hr in A. unfold list_run_events in H. destruct events as [|ev events].
    + injection A as <- <-. rewrite Hr in H. mbind H. injection H as <- <-. split; [done|].
      destruct (frames_after d rid r (rn_last_seq r) W Hr) as (lo & Hlo & _ & F).
      assert (List.filter (fun row => Z.max 0 (rn_last_seq r) <? row.1) (frames_of d rid) = []) as X.
      { replace (Z.to_nat _) with O in F by lia. by destruct (List.filter _ _). }
      rewrite X, take_nil in E. injection E as <-. done.
    + mbind A. injection A as <- <-. cbn [runs _touch with_sessions with_runs with_events] in H. rewrite lookup_insert_eq in H.
      mbind H. injection H as <- <-. split; [done|].
      change (frames_of _ rid) with (frames_of (with_events d (fold_left (insert_event rid) a (run_events d))) rid) in E0.
      rewrite (Z.max_r 0 (rn_last_seq r)) in E0 by done. rewrite (appended_frames _ _ _ _ _ _ W Hr E) in E0.
      assert (length a = length (ev :: events)) as La.
      { by rewrite <- (length_map fst a), (numbered_spec _ _ _ _ E), length_map, length_seq. }
      rewrite take_ge in E0 by lia. destruct (mapM_frames _ _ E0) as [-> _]. rewrite (numbered_spec _ _ _ _ E).
      split; [done|]. by eapply numbered_kept.
Qed.

(** ** A session *)

Lemma reachable_fold d l : reachable d -> reachable (fold_left exec l d).
Proof. revert d. induction l as [|o l IH]; intros d R; [done|]. apply IH. by constructor. Qed.

Definition demo_draw (bits : Z) : draw := {| dr_now := 1700000000.5; dr_bits := bits |}.

Definition demo_id (prefix : string) (bits : Z) : string :=
  match new_id prefix (demo_draw bits) with Ok id => id | Raise _ => "" end.

Definition demo_session : string := Eval vm_compute in demo_id "sess" 1.
Definition demo_run : string := Eval vm_compute in demo_id "run" 2.
Definition demo_message : string := Eval vm_compute in demo_id "msg" 4.

Definition demo_run_spec : run_spec :=
  {| sp_kind := "find"; sp_symbol := VStr "infy"; sp_timeframe := VStr "1d"; sp_profile := VStr "swing"; sp_model := VNone;
     sp_manual_trade := VNone; sp_thread := VStr "thread-1" |}.

Definition demo_answer : message_spec :=
  {| mp_role := "assistant"; mp_kind := "analysis_answer"; mp_status := "streaming"; mp_content := VStr ""; mp_run := VStr demo_run;
     mp_client := VNone; mp_activity := VNone; mp_error := VNone |}.

Definition demo_frames : list (val * val) :=
  [(VStr "RUN_STARTED", VDict []); (VStr "REASONING", VDict [(VStr "content", VStr "Looking at INFY")]); (VStr "TOOL", VNone)]%string.

(** A session with a live run, three stored frames and a message that streams. *)
Definition demo_calls : list op :=
  [ Create_session 1700000000.5 (demo_draw 1) (VStr "ana") (VStr "infy") (VStr "swing") (VStr "1d") VNone VNone;
    Create_run 1700000001 (demo_draw 2) (demo_draw 3) demo_session (VStr "ana") demo_run_spec;
    Create_message 1700000002 (demo_draw 4) demo_session demo_answer;
    Append_run_events 1700000003 demo_run demo_frames;
    Append_message_delta 1700000003 demo_message "Looking at INFY" VNone ]%string.

Definition demo_store : db := Eval vm_compute in fold_left exec demo_calls empty_db.

Lemma demo_store_eq : fold_left exec demo_calls empty_db = demo_store.
Proof. exact (eq_refl demo_store <: fold_left exec demo_calls empty_db = demo_store). Qed.

Lemma demo_reachable : reachable demo_store.
Proof. rewrite <- demo_store_eq. apply reachable_fold. constructor. Qed.

Lemma session_store_invariant_witness : is_Some (messages demo_store !! demo_message) /\ wf demo_store.
Proof.
  split; [vm_compute; eauto|].
  exact (session_store_invariant demo_store demo_reachable).
Defined.

(** Finalising the run, then asking for another end. *)
Lemma ended_stays_ended_witness :
  let d := exec demo_store (Finalize_run 1700000009 demo_run RUN_COMPLETE) in
  (rn_terminal <$> runs d !! demo_run) = Some (Some RUN_COMPLETE) /\
  ended_run_kept d (exec d (Finalize_run 1700000010 demo_run RUN_TRUNCATED)).
Proof.
  split; [by vm_compute|].
  apply (ended_stays_ended (exec demo_store (Finalize_run 1700000009 demo_run RUN_COMPLETE))).
  constructor. apply demo_reachable.
Defined.

Lemma demo_run_row : exists r, runs demo_store !! demo_run = Some r /\ rn_last_seq r = 3.
Proof. eexists. split; by vm_compute. Defined.

Definition more_frames : list (val * val) :=
  [(VStr "REASONING", VDict [(VStr "content", VStr "Holding")]); (VStr "RUN_FINISHED", VNone)]%string.

Definition more_stored : db * Z :=
  match append_run_events 1700000005 demo_store demo_run more_frames with Ok r => r | Raise _ => (empty_db, 0) end.

Lemma transcript_gap_free_witness :
  (exists items, list_run_events demo_store demo_run 1 1000 = Ok (items, 3) /\ map fr_seq items = [2; 3] /\
     Forall (reads_event demo_store demo_run) items) /\
  exists items, list_run_events more_stored.1 demo_run 3 2 = Ok (items, 5) /\ map fr_seq items = [4; 5] /\
     Ok (map (fun f => (fr_event f, fr_data f)) items) = mapM_res kept_event more_frames.
Proof.
  destruct demo_run_row as (r & Hr & Hl). destruct (transcript_gap_free demo_store demo_run r demo_reachable Hr) as [(lo & _ & _ & H1) H2].
  split; eexists; (split; [vm_compute; reflexivity|]).
  - split; [reflexivity|]. eapply (H1 1 1000). vm_compute. reflexivity.
  - split; [reflexivity|]. rewrite Hl in H2. symmetry.
    eapply (H2 1700000005%float more_frames more_stored.1 more_stored.2 2); vm_compute; first [reflexivity|discriminate].
Defined.
