(* ===== verification/SessionReconcile.v ===== *)
(** * Startup reconciliation

    What [reconcile_stale_runs] leaves, row by row: the specification of one pass
    over a store whose writer died, and that a second pass has nothing left to do. *)

From stdpp Require Import base list gmap strings.
From Stdlib Require Import ZArith Lia Floats.
From S2P Require Import Prelude PyVal SessionStore SessionStoreFacts.

Open Scope Z_scope.

Definition has_key (k : string) (row : string * run_row) : bool := String.eqb row.1 k.

(** ** The specification *)

(** A run a thread can still resume. *)
Definition resumable (pending : string -> bool) (d : db) (run_id : string) : bool :=
  match runs d !! run_id with Some r => live (rn_status r) && pending (rn_thread r) | None => false end.

(** A run after the pass. *)
Definition reconciled (pending : string -> bool) (stamp : float) (r : run_row) : run_row :=
  if live (rn_status r) then if pending (rn_thread r) then set_run_status stamp RUN_WATCHING r else truncate_run stamp r else r.

(** A message that claims to stream an answer no run will complete. *)
Definition abandoned (pending : string -> bool) (d : db) (m : message_row) : bool :=
  bool_decide (ms_status m = MSG_STREAMING) && match ms_run m with Some run_id => negb (resumable pending d run_id) | None => false end.

(** The store after the pass. *)
Definition reconciled_store (pending : string -> bool) (stamp : float) (d : db) : db :=
  with_messages (with_runs d (reconciled pending stamp <$> runs d))
    ((fun m => if abandoned pending d m then truncate_message stamp m else m) <$> messages d).

(** The rows the pass gives an end. *)
Definition stale_rows (pending : string -> bool) (d : db) : Z :=
  Z.of_nat (length (rows_where (fun r => live (rn_status r) && negb (pending (rn_thread r))) (runs d))) +
  Z.of_nat (length (rows_where (orphaned d) (messages d))).

(** ** The fold over the live runs *)

Section pass.
Context (pending : string -> bool) (stamp : float).

Definition settle_live (r : run_row) : run_row :=
  if pending (rn_thread r) then set_run_status stamp RUN_WATCHING r else truncate_run stamp r.

(** A message that streams for one of these runs, if the run is not pending. *)
Definition cut (l : list (string * run_row)) (m : message_row) : bool :=
  existsb (fun row => negb (pending (rn_thread row.2)) && streaming_of row.1 m) l.

Definition cut_message (l : list (string * run_row)) (m : message_row) : message_row :=
  if cut l m then truncate_message stamp m else m.

Lemma cut_streaming l m : ms_status m <> MSG_STREAMING -> cut l m = false.
Proof.
  intros N. unfold cut, streaming_of. rewrite (bool_decide_eq_false_2 _ N). induction l; [done|]. cbn. by rewrite !andb_false_r.
Qed.

Lemma cut_cons row l m :
  cut_message l (if negb (pending (rn_thread row.2)) && streaming_of row.1 m then truncate_message stamp m else m) = cut_message (row :: l) m.
Proof.
  unfold cut_message at 2. cbn [cut existsb]. destruct (negb _ && streaming_of row.1 m); cbn [orb]; [|done].
  unfold cut_message. by rewrite cut_streaming.
Qed.

Lemma live_rows_cons l id r d :
  NoDup ((id, r) :: l).*1 -> (forall k a, In (k, a) ((id, r) :: l) -> runs d !! k = Some a) -> forall r', forall k a, In (k, a) l -> <[id := r']> (runs d) !! k = Some a.
Proof.
  intros N H r' k a Hin. inversion N as [|? ? Hn N']; subst. rewrite lookup_insert_ne; [by apply H; right|].
  intros ->. apply Hn, list_elem_of_In. change k with ((k, a).1). by apply in_map.
Qed.

Lemma find_cons k id r l : List.find (has_key k) ((id, r) :: l) = if String.eqb id k then Some (id, r) else List.find (has_key k) l.
Proof. done. Qed.

(** The fold, on rows that are those of the store. *)
Lemma reconcile_fold l d n :
  NoDup l.*1 -> (forall k r, In (k, r) l -> runs d !! k = Some r) ->
  exists t, (forall k, t !! k = match List.find (has_key k) l with Some row => Some (settle_live row.2) | None => runs d !! k end) /\
    fold_left (reconcile_run pending stamp) l (d, n) =
    (with_messages (with_runs d t) (cut_message l <$> messages d),
     n + Z.of_nat (length (List.filter (fun row => negb (pending (rn_thread row.2))) l))).
Proof.
  revert d n. induction l as [|[id r] l IH]; intros d n N H.
  - exists (runs d). split; [done|]. cbn. f_equal; [|lia]. destruct d; cbn. unfold with_messages, with_runs. cbn. f_equal.
    symmetry. etrans; [|apply map_fmap_id]. by apply map_fmap_ext.
  - pose proof (H id r ltac:(by left)) as Hr. pose proof (live_rows_cons _ _ _ _ N H) as H'. inversion N as [|? ? Hn N']; subst.
    cbn [fold_left]. unfold reconcile_run at 2. cbn [fst snd].
    assert (alter (if pending (rn_thread r) then set_run_status stamp RUN_WATCHING else truncate_run stamp) id (runs d) =
            <[id := settle_live r]> (runs d)) as A.
    { apply map_eq. intros k. destruct (decide (k = id)) as [->|]; [|by rewrite lookup_alter_ne, lookup_insert_ne].
      rewrite lookup_alter_eq, lookup_insert_eq, Hr. unfold settle_live. cbn. by destruct (pending (rn_thread r)). }
    destruct (pending (rn_thread r)) eqn:P.
    + destruct (IH (with_runs d (<[id := settle_live r]> (runs d))) n N') as (t & Ht & E); [by apply H'|].
      exists t. rewrite A. split.
      * intros k. rewrite Ht, find_cons. cbn [runs with_runs]. destruct (String.eqb_spec id k) as [<-|Hk].
        -- destruct (List.find (has_key id) l) as [[k' a]|] eqn:F; [|by rewrite lookup_insert_eq].
           exfalso. apply find_some in F as [F E']. unfold has_key in E'. cbn [fst] in E'. apply String.eqb_eq in E'. subst k'. by apply Hn, list_elem_of_In, (in_map fst _ (id, a)).
        -- destruct (List.find _ l); [done|]. by rewrite lookup_insert_ne.
      * rewrite E. cbn [List.filter snd]. rewrite P. cbn [negb]. f_equal. unfold with_messages, with_runs. cbn. f_equal.
        apply map_fmap_ext. intros k m _. rewrite <- cut_cons. cbn [fst snd]. by rewrite P.
    + set (d1 := with_messages _ _). destruct (IH d1 (n + 1) N') as (t & Ht & E).
      { intros k a Hin. cbn [d1 runs with_messages with_runs]. rewrite A. by apply H'. }
      exists t. split.
      * intros k. rewrite Ht, find_cons. cbn [runs with_runs d1 with_messages]. rewrite A. destruct (String.eqb_spec id k) as [<-|Hk].
        -- destruct (List.find (has_key id) l) as [[k' a]|] eqn:F; [|by rewrite lookup_insert_eq].
           exfalso. apply find_some in F as [F E']. unfold has_key in E'. cbn [fst] in E'. apply String.eqb_eq in E'. subst k'. by apply Hn, list_elem_of_In, (in_map fst _ (id, a)).
        -- destruct (List.find _ l); [done|]. by rewrite lookup_insert_ne.
      * rewrite E. cbn [List.filter snd]. rewrite P. cbn [negb length]. f_equal; [|lia]. unfold with_messages, with_runs, d1. cbn. f_equal.
        rewrite <- map_fmap_compose. apply map_fmap_ext. intros k m _. rewrite <- cut_cons. cbn [fst snd compose]. by rewrite P.
Qed.

End pass.

(** ** The pass *)

Lemma find_live d k :
  List.find (has_key k) (rows_where (fun r => live (rn_status r)) (runs d)) =
  match runs d !! k with Some r => if live (rn_status r) then Some (k, r) else None | None => None end.
Proof.
  destruct (List.find _ _) as [[k' a]|] eqn:F.
  - apply find_some in F as [F E]. unfold has_key in E. cbn [fst] in E. apply String.eqb_eq in E. subst k'. apply rows_where_In in F as [-> ->]. done.
  - destruct (runs d !! k) as [r|] eqn:R; [|done]. destruct (live (rn_status r)) eqn:L; [|done].
    pose proof (find_none _ _ F (k, r) (proj2 (rows_where_In _ _ _ _) (conj R L))) as E. unfold has_key in E. cbn in E.
    by rewrite String.eqb_refl in E.
Qed.

Lemma cut_live pending d m :
  cut pending (rows_where (fun r => live (rn_status r)) (runs d)) m =
  bool_decide (ms_status m = MSG_STREAMING) &&
  match ms_run m with
  | Some run_id => match runs d !! run_id with Some r => live (rn_status r) && negb (pending (rn_thread r)) | None => false end
  | None => false
  end.
Proof.
  apply eq_bool_prop_intro. rewrite !Is_true_true. unfold cut. rewrite existsb_exists. split.
  - intros ([k r] & Hin & H). apply rows_where_In in Hin as [Hk L]. cbn [fst snd] in H. apply andb_true_iff in H as [P S].
    unfold streaming_of in S. apply andb_true_iff in S as [O ->]. apply opt_is_spec in O as ->. by rewrite Hk, L, P.
  - intros [S H]%andb_true_iff. destruct (ms_run m) as [k|] eqn:K; [|done]. destruct (runs d !! k) as [r|] eqn:R; [|done].
    apply andb_true_iff in H as [L P]. exists (k, r). split; [by apply rows_where_In|]. cbn [fst snd]. rewrite P. cbn.
    unfold streaming_of. rewrite S, K. cbn. by rewrite String.eqb_refl.
Qed.

Lemma length_rows_fmap {A} (p : A -> bool) (f : A -> A) (t : gmap string A) :
  length (rows_where p (f <$> t)) = length (rows_where (fun a => p (f a)) t).
Proof.
  unfold rows_where. rewrite map_to_list_fmap.
  induction (map_to_list t) as [|[k a] l IH]; [done|]. cbn. destruct (p (f a)); cbn; by rewrite IH.
Qed.

Lemma length_rows_ext {A} (p q : A -> bool) (t : gmap string A) : (forall a, p a = q a) -> length (rows_where p t) = length (rows_where q t).
Proof. intros E. unfold rows_where. f_equal. apply filter_ext. intros [k a]. apply E. Qed.

Lemma length_filter_rows {A} (p q : A -> bool) (t : gmap string A) :
  length (List.filter (fun row => q row.2) (rows_where p t)) = length (rows_where (fun a => p a && q a) t).
Proof.
  unfold rows_where. induction (map_to_list t) as [|[k a] l IH]; [done|]. cbn. destruct (p a); cbn; [|done].
  destruct (q a); cbn; by rewrite IH.
Qed.

(** The pass, in one equation. *)
Lemma reconcile_spec graph stamp d :
  let pending := _thread_has_pending_step graph in
  reconcile_stale_runs graph stamp d = (reconciled_store pending stamp d, stale_rows pending d).
Proof.
  cbv zeta. set (pending := _thread_has_pending_step graph). unfold reconcile_stale_runs. fold pending.
  set (l := rows_where _ (runs d)).
  destruct (reconcile_fold pending stamp l d 0) as (t & Ht & ->);
    [apply rows_where_NoDup|by intros k r [? _]%rows_where_In|].
  assert (t = reconciled pending stamp <$> runs d) as ->.
  { apply map_eq. intros k. rewrite Ht, lookup_fmap. unfold l. rewrite find_live. destruct (runs d !! k) as [r|]; [|done].
    cbn. unfold reconciled, settle_live. by destruct (live _). }
  unfold sweep_orphans. set (d1 := with_messages (with_runs d _) _).
  assert (forall m, orphaned d1 (cut_message pending stamp l m) = orphaned d m) as O.
  { intros m. unfold cut_message, l. rewrite cut_live. unfold orphaned. destruct (bool_decide_reflect (ms_status m = MSG_STREAMING)) as [S|S]; cbn [andb].
    - destruct (ms_run m) as [k|] eqn:K; [|by rewrite K, andb_false_r]. destruct (runs d !! k) as [r|] eqn:R; cbn.
      + destruct (live (rn_status r)) eqn:L; cbn [andb negb].
        * destruct (pending (rn_thread r)) eqn:P; cbn [negb].
          -- rewrite S, K, (bool_decide_eq_true_2 _ eq_refl), lookup_fmap, R. cbn. unfold reconciled. by rewrite L, P.
          -- by cbn.
        * rewrite S, K, (bool_decide_eq_true_2 _ eq_refl), lookup_fmap, R. cbn. unfold reconciled. by rewrite !L.
      + by rewrite S, K, (bool_decide_eq_true_2 _ eq_refl), lookup_fmap, R.
    - by rewrite (bool_decide_eq_false_2 _ S). }
  f_equal.
  - unfold reconciled_store, with_messages, with_runs, d1. cbn. f_equal. rewrite <- map_fmap_compose. apply map_fmap_ext. intros k m _. cbn [compose].
    fold d1. rewrite O. unfold cut_message, l. rewrite cut_live. unfold orphaned, abandoned, resumable.
    destruct (bool_decide (ms_status m = MSG_STREAMING)) eqn:S; [|done]. cbn [andb].
    destruct (ms_run m) as [k'|]; [|done]. destruct (runs d !! k') as [r|]; [|done]. destruct (live (rn_status r)); cbn [andb negb]; [|done].
    by destruct (pending (rn_thread r)).
  - unfold stale_rows, l. rewrite (length_filter_rows _ (fun r => negb (pending (rn_thread r)))).
    change (messages d1) with (cut_message pending stamp l <$> messages d).
    rewrite (length_rows_fmap (orphaned d1) (cut_message pending stamp l)), (length_rows_ext _ (orphaned d) (messages d) O). lia.
Qed.

Lemma no_rows {A} (p : A -> bool) (t : gmap string A) : (forall k a, t !! k = Some a -> p a = false) -> rows_where p t = [].
Proof.
  intros H. destruct (rows_where p t) as [|[k a] l] eqn:E; [done|].
  assert (In (k, a) (rows_where p t)) as [Hk P]%rows_where_In by (rewrite E; by left). by rewrite (H _ _ Hk) in P.
Qed.

Lemma reconciled_live pending stamp r :
  live (rn_status (reconciled pending stamp r)) = true ->
  rn_status (reconciled pending stamp r) = RUN_WATCHING /\ pending (rn_thread r) = true /\ live (rn_status r) = true.
Proof. unfold reconciled. destruct (live (rn_status r)) eqn:L; [|by rewrite L]. by destruct (pending (rn_thread r)). Qed.

Lemma reconciled_thread pending stamp r : rn_thread (reconciled pending stamp r) = rn_thread r.
Proof. unfold reconciled. destruct (live _); [|done]. by destruct (pending _). Qed.

Lemma resumable_kept pending stamp d k :
  resumable pending (reconciled_store pending stamp d) k = true <-> resumable pending d k = true.
Proof.
  unfold resumable. cbn. rewrite lookup_fmap. destruct (runs d !! k) as [r|]; [|done]. cbn. rewrite reconciled_thread.
  unfold reconciled. destruct (live (rn_status r)) eqn:L; [|by rewrite L]. by destruct (pending (rn_thread r)).
Qed.

(** C25: After the startup pass nothing pretends to be live: the pass is the row-by-row
    specification, and counts the rows it ends; every run still live is watching a
    thread with a pending step; a message of a run still streams only if that run is
    watching; a message loses no text; and a second pass ends nothing. *)
Theorem reconcile_leaves_no_pretence graph stamp later d d' n :
  reconcile_stale_runs graph stamp d = (d', n) ->
  d' = reconciled_store (_thread_has_pending_step graph) stamp d /\ n = stale_rows (_thread_has_pending_step graph) d /\
  (forall id r, runs d' !! id = Some r -> live (rn_status r) = true ->
     rn_status r = RUN_WATCHING /\ _thread_has_pending_step graph (rn_thread r) = true) /\
  (forall id m run_id, messages d' !! id = Some m -> ms_status m = MSG_STREAMING -> ms_run m = Some run_id ->
     exists r, runs d' !! run_id = Some r /\ rn_status r = RUN_WATCHING) /\
  (forall id m, messages d !! id = Some m -> exists m', messages d' !! id = Some m' /\ ms_content m' = ms_content m) /\
  (reconcile_stale_runs graph later d').2 = 0.
Proof.
  rewrite reconcile_spec. set (pending := _thread_has_pending_step graph). intros [= <- <-]. split_and!; [done|done|..].
  - intros id r H. cbn in H. rewrite lookup_fmap in H. destruct (runs d !! id) as [r0|]; [|done]. injection H as <-.
    intros L. apply reconciled_live in L as (S & P & _). by rewrite reconciled_thread.
  - intros id m k H S K. cbn in H. rewrite lookup_fmap in H. destruct (messages d !! id) as [m0|]; [|done]. injection H as <-.
    destruct (abandoned pending d m0) eqn:A; [done|]. unfold abandoned in A. rewrite (bool_decide_eq_true_2 _ S), K in A. cbn in A.
    apply negb_false_iff in A. unfold resumable in A. cbn. rewrite lookup_fmap. destruct (runs d !! k) as [r|]; [|done].
    apply andb_true_iff in A as [L P]. eexists. split; [done|]. cbn. unfold reconciled. by rewrite L, P.
  - intros id m H. cbn. rewrite lookup_fmap, H. eexists. split; [done|]. cbn. by destruct (abandoned _ _ _).
  - rewrite reconcile_spec. fold pending. cbn [snd]. unfold stale_rows. rewrite !no_rows; [done|..].
    + intros k m H. cbn in H. rewrite lookup_fmap in H. destruct (messages d !! k) as [m0|]; [|done]. injection H as <-.
      destruct (abandoned pending d m0) eqn:A; [done|]. unfold abandoned in A. unfold orphaned.
      destruct (bool_decide (ms_status m0 = MSG_STREAMING)); [|done]. cbn [andb] in *. destruct (ms_run m0) as [k'|]; [|done].
      apply negb_false_iff in A. apply negb_false_iff. apply (resumable_kept pending stamp) in A. unfold resumable in A.
      destruct (runs _ !! k'); [|done]. by apply andb_true_iff in A as [-> _].
    + intros k r H. cbn in H. rewrite lookup_fmap in H. destruct (runs d !! k) as [r0|]; [|done]. injection H as <-.
      destruct (live _) eqn:L; [|done]. apply reconciled_live in L as (_ & P & _). rewrite reconciled_thread. by rewrite P.
Qed.

(** The demo store after a restart without a checkpointer. *)
Lemma reconcile_leaves_no_pretence_witness :
  let d' := (reconcile_stale_runs None 1700000020%float demo_store).1 in
  (ms_status <$> messages d' !! demo_message) = Some MSG_TRUNCATED /\
  (reconcile_stale_runs None 1700000020%float demo_store).2 = 1 /\
  (reconcile_stale_runs None 1700000030%float d').2 = 0.
Proof.
  cbv zeta. split; [by vm_compute|]. split; [by vm_compute|].
  apply (reconcile_leaves_no_pretence None 1700000020%float 1700000030%float demo_store _ _ (surjective_pairing _)).
Defined.
