(* ===== verification/SessionPages.v ===== *)
(** * Pages of sessions

    The cursor of a page is read back as the position it was made from, and
    following the cursors of [list_sessions] visits a listing once, in its order,
    also when other sessions move between two pages. *)

From stdpp Require Import base list gmap strings sorting.
From Stdlib Require Import ZArith Lia Floats Ascii.
From S2P Require Import Prelude PyFloat PyRound PyNum PyQuot PyVal PyEnv PyJson PySort PyStr JsonFacts SessionStore SessionStoreFacts.

#[local] Set Warnings "-inexact-float".
Open Scope Z_scope.
Open Scope res_scope.

(** ** Identifiers *)

Lemma b32_char_compare x y : 0 <= x < 32 -> 0 <= y < 32 -> Ascii.compare (b32_char x) (b32_char y) = (x ?= y).
Proof.
  intros Hx Hy.
  assert (forallb (fun a => forallb (fun b => match Ascii.compare (b32_char a) (b32_char b), a ?= b with
                                              | Eq, Eq | Lt, Lt | Gt, Gt => true | _, _ => false end) (zrange 0 32)) (zrange 0 32) = true)
    as H by (by vm_compute).
  rewrite forallb_forall in H. assert (forall z, 0 <= z < 32 -> In z (zrange 0 32)) as I.
  { intros z Hz. apply list_elem_of_In, list_elem_of_lookup. exists (Z.to_nat z). apply zrange_lookup. lia. }
  specialize (H x (I x Hx)). rewrite forallb_forall in H. specialize (H y (I y Hy)).
  by destruct (Ascii.compare _ _), (x ?= y).
Qed.

(** Equal numbers of digits compare as the numbers do, then as what follows. *)
Lemma b32_compare n v w s t :
  0 <= v < 32 ^ Z.of_nat n -> 0 <= w < 32 ^ Z.of_nat n ->
  String.compare (b32_digits n v s) (b32_digits n w t) = match v ?= w with Eq => String.compare s t | c => c end.
Proof.
  revert v w s t. induction n as [|n IH]; intros v w s t Hv Hw.
  - cbn in Hv, Hw. assert (v = 0) as -> by lia. by assert (w = 0) as -> by lia.
  - replace (32 ^ Z.of_nat (S n)) with (32 * 32 ^ Z.of_nat n) in Hv, Hw by (rewrite Nat2Z.inj_succ, Z.pow_succ_r by lia; done).
    cbn [b32_digits]. rewrite !Z.shiftr_div_pow2 by done. change (2 ^ 5) with 32.
    change 31 with (Z.ones 5). rewrite !Z.land_ones by done. change (2 ^ 5) with 32.
    assert (0 <= v / 32 < 32 ^ Z.of_nat n) by (split; [by apply Z.div_pos; lia|by apply Z.div_lt_upper_bound; lia]).
    assert (0 <= w / 32 < 32 ^ Z.of_nat n) by (split; [by apply Z.div_pos; lia|by apply Z.div_lt_upper_bound; lia]).
    rewrite IH by done. pose proof (Z.div_mod v 32) as Dv. pose proof (Z.div_mod w 32) as Dw.
    pose proof (Z.mod_pos_bound v 32) as Mv. pose proof (Z.mod_pos_bound w 32) as Mw. cbn [String.compare].
    rewrite b32_char_compare by lia.
    destruct (Z.compare_spec (v / 32) (w / 32)); destruct (Z.compare_spec (v mod 32) (w mod 32)); destruct (Z.compare_spec v w); try done; lia.
Qed.

Lemma str_compare_app p s t : String.compare (p ++ s) (p ++ t) = String.compare s t.
Proof.
  induction p as [|c p IH]; [done|].
  change (String.compare (String c (p ++ s)) (String c (p ++ t)) = String.compare s t). cbn [String.compare].
  assert (Ascii.compare c c = Eq) as -> by (unfold Ascii.compare; by rewrite N.compare_refl). done.
Qed.

Definition draw_ok (d : draw) (ms : Z) : Prop :=
  py_int (VFloat (dr_now d * 1000)%float) = Ok ms /\ 0 <= ms < 2 ^ 48 /\ 0 <= dr_bits d < 2 ^ 80.

Lemma ulid_value_eq ms bits : 0 <= ms < 2 ^ 48 -> 0 <= bits < 2 ^ 80 -> ulid_value ms bits = ms * 2 ^ 80 + bits.
Proof.
  intros Hm Hb. unfold ulid_value. change (Z.shiftl 1 48 - 1) with (Z.ones 48). rewrite Z.land_ones by done. rewrite Z.mod_small by done.
  assert (Z.land (Z.shiftl ms 80) bits = 0) as D.
  { apply Z.bits_inj'. intros i Hi. rewrite Z.land_spec, Z.bits_0. destruct (Z.ltb_spec i 80).
    - by rewrite Z.shiftl_spec_low.
    - rewrite <- (Z.mod_small bits (2 ^ 80)) by done. rewrite (Z.mod_pow2_bits_high bits 80) by lia.
      by rewrite andb_false_r. }
  pose proof (Z.add_lor_land (Z.shiftl ms 80) bits) as A.
  rewrite D, Z.add_0_r in A. rewrite A, Z.shiftl_mul_pow2 by done. done.
Qed.

(** Identifiers of one kind sort by when they were drawn, then by their random
    bits: comparing the texts is comparing the two numbers, so a later millisecond
    sorts later, and two draws give one identifier only if they drew the same bits in
    the same millisecond. *)
Theorem new_id_sorts prefix d1 d2 ms1 ms2 id1 id2 :
  draw_ok d1 ms1 -> draw_ok d2 ms2 -> new_id prefix d1 = Ok id1 -> new_id prefix d2 = Ok id2 ->
  String.compare id1 id2 = match ms1 ?= ms2 with Eq => dr_bits d1 ?= dr_bits d2 | c => c end.
Proof.
  intros (P1 & M1 & B1) (P2 & M2 & B2). unfold new_id. rewrite P1, P2. cbn beta iota delta [mbind res_bind]. intros <-%Ok_inj <-%Ok_inj.
  rewrite !str_compare_app.
  rewrite !ulid_value_eq by done. rewrite b32_compare by (split; [lia|]; change (32 ^ Z.of_nat 26) with (2 ^ 130); lia).
  clear P1 P2. revert B1 B2. generalize (dr_bits d1) (dr_bits d2). intros b1 b2 B1 B2.
  destruct (Z.compare_spec ms1 ms2); destruct (Z.compare_spec b1 b2); destruct (Z.compare_spec (ms1 * 2 ^ 80 + b1) (ms2 * 2 ^ 80 + b2)); try done; nia.
Qed.

(** ** Cursors *)

Definition not_bar (c : ascii) : bool := negb (Ascii.eqb c "|").

Definition no_bar (s : string) : bool := str_all not_bar s.

Lemma no_bar_cons c s : no_bar (String c s) = not_bar c && no_bar s.
Proof. done. Qed.

Lemma no_bar_app s t : no_bar (s ++ t)%string = no_bar s && no_bar t.
Proof. induction s as [|c s IH]; [done|]. change (String c s ++ t)%string with (String c (s ++ t)). by rewrite !no_bar_cons, IH, andb_assoc. Qed.

Lemma no_bar_substring s i n : no_bar s = true -> no_bar (String.substring i n s) = true.
Proof.
  revert i n. induction s as [|c s IH]; intros [|i] [|n] H; try done; rewrite no_bar_cons in H; apply andb_true_iff in H as [Hc H];
    cbn [String.substring]; [|by apply IH..].
  by rewrite no_bar_cons, Hc, IH.
Qed.

Lemma no_bar_repeat n : no_bar (str_repeat "0" n) = true.
Proof. induction n; [done|]. cbn. done. Qed.

Lemma digit_no_bar d : 0 <= d < 10 -> Ascii.eqb (digit_char d) "|" = false.
Proof.
  intros H. assert (d = 0 \/ d = 1 \/ d = 2 \/ d = 3 \/ d = 4 \/ d = 5 \/ d = 6 \/ d = 7 \/ d = 8 \/ d = 9) as L by lia.
  by repeat destruct L as [->|L]; [..|subst].
Qed.

Lemma no_bar_digits fuel z acc : no_bar acc = true -> no_bar (Z_digits_aux fuel z acc) = true.
Proof.
  revert z acc. induction fuel as [|fuel IH]; intros z acc H; [done|]. cbn.
  assert (no_bar (String (digit_char (z mod 10)) acc) = true) as H'.
  { rewrite no_bar_cons. unfold not_bar. by rewrite H, digit_no_bar by (apply Z.mod_pos_bound; lia). }
  destruct (_ =? 0); [done|by apply IH].
Qed.

Lemma float_repr_no_bar x : no_bar (float_repr x) = true.
Proof.
  unfold float_repr. destruct (is_nan x); [done|]. destruct (is_infinity x); [by destruct (get_sign x)|].
  destruct (is_zero x); [by destruct (get_sign x)|]. destruct (shortest x) as [c k].
  assert (forall z, no_bar (Z_digits z) = true) as D by (intros; by apply no_bar_digits).
  rewrite no_bar_app. apply andb_true_iff. split; [by destruct (get_sign x)|].
  repeat case_match; rewrite ?no_bar_app, ?no_bar_repeat, ?D; unfold PyNum.str_take, str_drop; rewrite ?no_bar_substring by apply D; done.
Qed.

Lemma partition_bar s t : no_bar s = true -> partition_char "|" (s ++ String "|" t) = (s, true, t).
Proof.
  induction s as [|c s IH]; intros H; [done|]. rewrite no_bar_cons in H. apply andb_true_iff in H as [Hc H].
  apply negb_true_iff in Hc. change (String c s ++ String "|" t)%string with (String c (s ++ String "|" t)). cbn [partition_char]. by rewrite Hc, IH.
Qed.

(** A cursor is read back: nothing of its float is lost in the text. *)
Lemma cursor_roundtrip u sid :
  nonempty sid = true -> plain_range u -> _decode_cursor (_encode_cursor u sid) = Some (u, sid).
Proof.
  intros N P. unfold _decode_cursor, _encode_cursor.
  change (float_repr u ++ "|" ++ sid)%string with (float_repr u ++ String "|" sid)%string.
  by rewrite (partition_bar _ _ (float_repr_no_bar u)), N, parse_float_repr.
Qed.

(** ** The order of a listing *)

(** A row of a session with an id, and an update time from 1 up to [2 ^ 53] seconds. *)
Definition dated (x : string * session_row) : Prop := nonempty x.1 = true /\ plain_range (se_updated x.2).

Definition stamped (x : string * session_row) : Prop := is_nan (se_updated x.2) = false.

Lemma dated_stamped x : dated x -> stamped x.
Proof. intros (_ & F & _). by apply fin_not_nan. Qed.

Lemma after_position_rank u sid x :
  stamped x -> after_position u sid x =
  negb (is_nan u) && ((frank (se_updated x.2) <? frank u) || ((frank (se_updated x.2) =? frank u) && str_ltb x.1 sid)).
Proof. unfold stamped, after_position. rewrite ltb_rank, eqb_rank. intros ->. cbn. by destruct (is_nan u). Qed.

Lemma newer_rank x y :
  stamped x -> stamped y -> newer x y =
  (frank (se_updated y.2) <? frank (se_updated x.2)) || ((frank (se_updated y.2) =? frank (se_updated x.2)) && str_ltb y.1 x.1).
Proof. intros Hx Hy. unfold newer. rewrite after_position_rank by done. unfold stamped in Hx. by rewrite Hx. Qed.

Lemma str_ltb_asym s t : str_ltb s t = true -> str_ltb t s = false.
Proof. intros H. destruct (str_ltb t s) eqn:E; [|done]. pose proof (str_ltb_trans _ _ _ H E) as X. by rewrite str_ltb_irrefl in X. Qed.

(** A row after one that is past a position is past it. *)
Lemma after_position_trans u sid x y :
  stamped x -> stamped y -> after_position u sid x = true -> newer x y = true -> after_position u sid y = true.
Proof.
  intros Hx Hy. rewrite !after_position_rank, newer_rank by done. destruct (is_nan u); [done|]. cbn.
  rewrite !orb_true_iff, !andb_true_iff, !Z.ltb_lt, !Z.eqb_eq. intros [A|[A A']] [B|[B B']]; [left; lia|left; lia|left; lia|right].
  split; [lia|by eapply str_ltb_trans].
Qed.

Lemma newer_irrefl x : stamped x -> newer x x = false.
Proof. intros H. rewrite newer_rank by done. by rewrite Z.ltb_irrefl, str_ltb_irrefl, andb_false_r. Qed.

Lemma newer_trans x y z : stamped x -> stamped y -> stamped z -> newer x y = true -> newer y z = true -> newer x z = true.
Proof. intros Hx Hy Hz. by apply after_position_trans. Qed.

Lemma newer_asym x y : stamped x -> stamped y -> newer x y = true -> newer y x = false.
Proof.
  intros Hx Hy H. destruct (newer y x) eqn:E; [|done]. pose proof (newer_trans _ _ _ Hx Hy Hx H E) as X. by rewrite newer_irrefl in X.
Qed.

Lemma newer_total x y : stamped x -> stamped y -> x.1 <> y.1 -> newer x y = false -> newer y x = true.
Proof.
  intros Hx Hy N. rewrite !newer_rank by done. rewrite orb_false_iff, orb_true_iff, Z.ltb_ge, Z.ltb_lt. intros [A B].
  destruct (Z.eqb_spec (frank (se_updated y.2)) (frank (se_updated x.2))) as [E|E]; [|left; lia]. right. rewrite E, Z.eqb_refl. cbn in *.
  destruct (str_ltb x.1 y.1) eqn:X; [done|]. by destruct (N (str_ltb_total _ _ X B)).
Qed.

Definition newest_first (l : list (string * session_row)) : Prop := StronglySorted (fun x y => newer x y = true) l.

Lemma listing_newest_first d uid st query : Forall stamped (listing d uid st query) -> newest_first (listing d uid st query).
Proof.
  intros F. unfold listing in *. set (l := rows_where _ _) in *. assert (NoDup (sort_by newer l).*1) as N.
  { rewrite (sort_by_perm newer l). apply rows_where_NoDup. }
  assert (Forall stamped l) as Fl by (by rewrite (sort_by_perm newer l) in F).
  assert (StronglySorted (not_after newer) (sort_by newer l)) as S.
  { apply (sort_by_sorted_on newer stamped); [intros *; apply newer_asym| |done]. unfold not_after. intros x y z Hx Hy Hz A B.
    destruct (newer z x) eqn:E; [|done]. destruct (newer x y) eqn:X; [by rewrite (newer_trans z x y) in B|].
    destruct (decide (x.1 = y.1)) as [K|K]; [|by rewrite (newer_total x y) in A].
    assert (newer z y = true); [|congruence]. revert E A X. rewrite !newer_rank by done. rewrite K, str_ltb_irrefl, !andb_false_r, !orb_false_r.
    rewrite !Z.ltb_ge. intros E ? ?. by replace (frank (se_updated y.2)) with (frank (se_updated x.2)) by lia. }
  clear Fl. unfold newest_first. induction S as [|x l' S IH H]; [constructor|]. inversion F as [|? ? Fx F']; subst. inversion N as [|? ? Nx N']; subst.
  constructor; [by apply IH|]. rewrite Forall_forall in *. intros y Hy. apply newer_total; [by apply F'|done| |by apply H].
  intros E. apply Nx. rewrite <- E. by apply list_elem_of_fmap_2.
Qed.

(** The rows past a row of the listing are those that follow it. *)
Lemma filter_newer l i x : newest_first l -> Forall stamped l -> l !! i = Some x -> List.filter (newer x) l = drop (S i) l.
Proof.
  intros S. revert i. induction S as [|a l S IH H]; intros i F L; [done|]. inversion F as [|? ? Fa F']; subst. destruct i as [|i].
  - injection L as <-. cbn. rewrite newer_irrefl by done. rewrite drop_0. clear -H. induction H as [|b l Hb H IH]; [done|]. cbn. by rewrite Hb, IH.
  - cbn in L |- *. assert (newer x a = false) as ->; [|by apply IH]. apply list_elem_of_lookup_2 in L. rewrite Forall_forall in H, F'.
    apply newer_asym; auto.
Qed.

(** ** Following cursors *)

(** What a listing is asked for, once it is read. *)
Definition scope (user_id : val) (status : option string) : res (string * option session_status) :=
  uid ← _required user_id;
  st ← match status with
       | Some text => st ← named_or_raise session_status_name SESSION_STATUSES text; Ok (Some st)
       | None => Ok None
       end;
  Ok (uid, st).

Definition page (limit : Z) (rows : list (string * session_row)) : list (string * session_row) * option string :=
  (take (page_limit limit) rows,
   match last (take (page_limit limit) rows) with
   | Some x => if (page_limit limit <? length rows)%nat then Some (_encode_cursor (se_updated x.2) x.1) else None
   | None => None
   end).

Lemma list_sessions_page d user_id status cursor limit query uid st :
  scope user_id status = Ok (uid, st) ->
  list_sessions d user_id status cursor limit query =
  Ok (page limit (List.filter (after_cursor cursor) (listing d uid st query))).
Proof.
  unfold scope, list_sessions. intros H. do 2 mbind H. injection H as -> ->. rewrite E, E0. unfold page.
  set (m := S (page_limit limit)). cbn beta iota delta [mbind res_bind]. set (l := List.filter _ _). rewrite take_take, (Nat.min_l (page_limit limit) m) by lia.
  assert ((page_limit limit <? length (take m l)) = (page_limit limit <? length l))%nat as ->; [|done].
  apply eq_bool_prop_intro. rewrite !Is_true_true, !Nat.ltb_lt, length_take. lia.
Qed.

Lemma page_limit_pos limit : (1 <= page_limit limit)%nat.
Proof. unfold page_limit. lia. Qed.

(** A page is the whole list, or a full page whose cursor is that of its last row. *)
Lemma page_cases limit l items next :
  page limit l = (items, next) ->
  (next = None /\ items = l) \/
  exists x, l !! (page_limit limit - 1)%nat = Some x /\ next = Some (_encode_cursor (se_updated x.2) x.1) /\
    items = take (page_limit limit) l /\ (page_limit limit < length l)%nat.
Proof.
  unfold page. intros [= <- <-]. pose proof (page_limit_pos limit) as P. destruct (Nat.ltb_spec (page_limit limit) (length l)) as [L|L].
  - right. destruct (lookup_lt_is_Some_2 l (page_limit limit - 1)%nat) as [x Hx]; [lia|]. exists x. split; [done|].
    rewrite last_lookup, length_take, Nat.min_l by lia. replace (Init.Nat.pred (page_limit limit)) with (page_limit limit - 1)%nat by lia.
    by rewrite lookup_take_lt, Hx by lia.
  - left. rewrite take_ge by lia. split; [by destruct (last l)|done].
Qed.

Lemma after_cursor_of x y : dated x -> after_cursor (Some (_encode_cursor (se_updated x.2) x.1)) y = newer x y.
Proof.
  intros [N P]. unfold after_cursor. rewrite cursor_roundtrip by done. unfold _encode_cursor. by destruct (float_repr _).
Qed.

Lemma no_cursor l : List.filter (after_cursor None) l = l.
Proof. induction l as [|x l IH]; [done|]. cbn. by rewrite IH. Qed.

(** Reading page after page, each from the store as it then is. *)
Inductive walk (user_id : val) (status : option string) (limit : Z) (query : option string)
  : option string -> list db -> list (string * session_row) -> Prop :=
  | walk_last cursor d items :
      list_sessions d user_id status cursor limit query = Ok (items, None) -> walk user_id status limit query cursor [d] items
  | walk_next cursor c d ds items rest :
      list_sessions d user_id status cursor limit query = Ok (items, Some c) ->
      walk user_id status limit query (Some c) ds rest -> walk user_id status limit query cursor (d :: ds) (items ++ rest).

Section walks.
Context (user_id : val) (status : option string) (limit : Z) (query : option string) (uid : string) (st : option session_status).
Context (in_scope : scope user_id status = Ok (uid, st)).

Definition dated_listing (d : db) : Prop := Forall dated (listing d uid st query).

Lemma dated_order d : dated_listing d -> Forall stamped (listing d uid st query) /\ newest_first (listing d uid st query).
Proof.
  intros H. assert (Forall stamped (listing d uid st query)) as S by (eapply Forall_impl; [exact H|apply dated_stamped]).
  split; [done|by apply listing_newest_first].
Qed.

(** From a cursor that leaves the rows from a place on, a walk over a store that
    stays the same gives these rows. *)
Lemma walk_still d cursor k :
  dated_listing d -> List.filter (after_cursor cursor) (listing d uid st query) = drop k (listing d uid st query) ->
  exists n, (n <= S (length (drop k (listing d uid st query))))%nat /\
    walk user_id status limit query cursor (replicate n d) (drop k (listing d uid st query)).
Proof.
  intros R. destruct (dated_order d R) as [Fs N]. set (l := listing d uid st query) in *. remember (length (drop k l)) as m eqn:M.
  revert k cursor M. induction (lt_wf m) as [m _ IH]. intros k cursor M E.
  pose proof (list_sessions_page d user_id status cursor limit query uid st in_scope) as H. fold l in H. rewrite E in H.
  destruct (page limit (drop k l)) as [items next] eqn:P. pose proof (page_limit_pos limit) as L1.
  apply page_cases in P as [[-> ->]|(x & Hx & -> & -> & L)].
  - exists 1%nat. split; [lia|by apply walk_last].
  - rewrite lookup_drop in Hx. assert (dated x) as Rx by (by eapply Forall_lookup_1 in R; [|exact Hx]).
    assert (List.filter (after_cursor (Some (_encode_cursor (se_updated x.2) x.1))) l = drop (k + page_limit limit) l) as E'.
    { rewrite (filter_ext _ (newer x)) by (intros y; by apply after_cursor_of). rewrite (filter_newer _ _ _ N Fs Hx). f_equal. lia. }
    destruct (IH (length (drop (k + page_limit limit) l))) with (k := (k + page_limit limit)%nat) (cursor := Some (_encode_cursor (se_updated x.2) x.1))
      as (n & Hn & W); [rewrite M, !length_drop in *; lia|done|done|].
    exists (S n). split; [rewrite M; rewrite !length_drop in *; lia|]. cbn [replicate].
    rewrite <- (take_drop (page_limit limit) (drop k l)), drop_drop. by eapply walk_next.
Qed.

End walks.

Lemma walk_det user_id status limit query cursor d n n' rows rows' :
  walk user_id status limit query cursor (replicate n d) rows -> walk user_id status limit query cursor (replicate n' d) rows' -> rows = rows'.
Proof.
  intros W. remember (replicate n d) as ds eqn:E. revert n n' rows' E. induction W as [cursor d' items H|cursor c d' ds items rest H W IH]; intros n n' rows' E W'.
  - destruct n as [|n]; [done|]. injection E as -> _. destruct n' as [|n']; cbn in W'; inversion W'; subst; congruence.
  - destruct n as [|n]; [done|]. injection E as -> ->. destruct n' as [|n']; cbn in W'; inversion W'; subst; [congruence|].
    rewrite H in *. simplify_eq. f_equal. by eapply IH.
Qed.

(** C26: Following the cursors covers a listing: on a store that stays the same, whose
    listed sessions have ids and update times from 1 up to 2^53 seconds (so that no cursor
    loses anything of the time it is made from, which is proved of the text of such
    floats), a walk from the first page ends within one page per row and one more, and
    what it reads is the caller's matching sessions, each once, newest first. *)
Theorem pages_cover_listing d user_id status limit query uid st :
  scope user_id status = Ok (uid, st) -> dated_listing query uid st d ->
  newest_first (listing d uid st query) /\
  (exists n, (n <= S (length (listing d uid st query)))%nat /\
     walk user_id status limit query None (replicate n d) (listing d uid st query)) /\
  (forall n rows, walk user_id status limit query None (replicate n d) rows -> rows = listing d uid st query).
Proof.
  intros S R. destruct (dated_order _ _ _ d R) as [_ N]. split; [done|].
  destruct (walk_still user_id status limit query uid st S d None 0 R) as (n & Hn & W).
  { by rewrite drop_0, no_cursor. }
  rewrite drop_0 in Hn, W. split; [by exists n|]. intros n' rows W'. by eapply walk_det.
Qed.

(** ** Sessions that move between two pages *)

Definition of_session (id : string) (x : string * session_row) : bool := String.eqb x.1 id.

(** Where a key occurs in a list of rows with distinct keys. *)
Lemma filter_key (l : list (string * session_row)) x :
  NoDup l.*1 -> In x l -> List.filter (of_session x.1) l = [x].
Proof.
  induction l as [|y l IH]; intros N H; [done|]. inversion N as [|? ? Hn N']; subst. cbn. unfold of_session at 1. destruct H as [->|H].
  - rewrite String.eqb_refl. f_equal. assert (forall z, In z l -> of_session x.1 z = false) as O.
    { intros z Hz. unfold of_session. apply String.eqb_neq. intros E. apply Hn. rewrite <- E. apply list_elem_of_In. by apply in_map. }
    clear -O. induction l as [|z l IH]; [done|]. cbn. rewrite O by (by left). apply IH. intros w Hw. apply O. by right.
  - destruct (String.eqb_spec y.1 x.1) as [E|E]; [|by apply IH]. exfalso. apply Hn. rewrite E. apply list_elem_of_In. by apply in_map.
Qed.

Lemma filter_no_key (l : list (string * session_row)) id : ~ In id (map fst l) -> List.filter (of_session id) l = [].
Proof.
  induction l as [|y l IH]; intros H; [done|]. cbn in *. unfold of_session at 1. destruct (String.eqb_spec y.1 id) as [E|E]; [tauto|apply IH; tauto].
Qed.

Lemma filter_NoDup_keys (p : string * session_row -> bool) l : NoDup l.*1 -> NoDup (List.filter p l).*1.
Proof.
  induction l as [|x l IH]; intros N; [done|]. inversion N as [|? ? Hn N']; subst. cbn. destruct (p x); [|by apply IH].
  cbn. constructor; [|by apply IH]. intros H. apply Hn. apply list_elem_of_fmap in H as (y & E & H). apply list_elem_of_fmap. exists y.
  split; [done|]. by apply list_elem_of_In, filter_In in H as [H%list_elem_of_In _].
Qed.

Lemma listing_NoDup d uid st query : NoDup (listing d uid st query).*1.
Proof. unfold listing. rewrite (sort_by_perm newer _). apply rows_where_NoDup. Qed.

Lemma filter_once (l : list (string * session_row)) (p : string * session_row -> bool) x :
  NoDup l.*1 -> In x l -> List.filter (of_session x.1) (List.filter p l) = if p x then [x] else [].
Proof.
  intros N H. destruct (p x) eqn:P.
  - apply filter_key; [by apply filter_NoDup_keys|]. by apply filter_In.
  - apply filter_no_key. rewrite in_map_iff. intros (y & E & Hy). apply filter_In in Hy as [Hy Py].
    assert (y = x) as ->; [|congruence]. apply list_elem_of_In, list_elem_of_lookup in H as [i Hi].
    apply list_elem_of_In, list_elem_of_lookup in Hy as [j Hj]. assert (i = j) as ->; [|congruence].
    apply (NoDup_lookup l.*1 i j x.1 N); rewrite list_lookup_fmap; [by rewrite Hi|rewrite Hj; cbn; by rewrite E].
Qed.

Section moving.
Context (user_id : val) (status : option string) (limit : Z) (query : option string) (uid : string) (st : option session_status).
Context (in_scope : scope user_id status = Ok (uid, st)).

Lemma after_cursor_trans cursor x y :
  stamped x -> stamped y -> after_cursor cursor x = true -> newer x y = true -> after_cursor cursor y = true.
Proof.
  unfold after_cursor. intros Hx Hy. destruct cursor as [c|]; [|done]. destruct (nonempty c); [|done].
  destruct (_decode_cursor c) as [[u sid]|]; [|done]. by apply after_position_trans.
Qed.

(** A session that stays as it is is read once from a cursor before it, and never
    from one past it. *)
Lemma walk_visits cursor ds rows x :
  walk user_id status limit query cursor ds rows ->
  Forall (fun d => dated_listing query uid st d /\ In x (listing d uid st query)) ds ->
  List.filter (of_session x.1) rows = if after_cursor cursor x then [x] else [].
Proof.
  intros W. induction W as [cursor d items H|cursor c d ds items rest H W IH]; intros F; inversion F as [|? ? [R Hx] F']; subst;
    rewrite (list_sessions_page _ _ _ _ _ _ _ _ in_scope) in H; apply Ok_inj in H; pose proof (listing_NoDup d uid st query) as K;
    apply page_cases in H as [[E ->]|(y & Hy & E & -> & L)]; try done.
  - by apply filter_once.
  - destruct (dated_order query uid st d R) as [Fs N]. injection E as ->. set (l := listing d uid st query) in *.
    set (p := after_cursor cursor) in *. assert (newest_first (List.filter p l)) as N' by (by apply filter_sorted).
    pose proof (Forall_filter _ p _ Fs) as Fs'. pose proof (filter_newer _ _ _ N' Fs' Hy) as D. pose proof (page_limit_pos limit) as L1.
    replace (S (page_limit limit - 1)) with (page_limit limit) in D by lia. apply list_elem_of_lookup_2, list_elem_of_In, filter_In in Hy as [Hy Py].
    assert (dated y) as Ry by (eapply (proj1 (Forall_forall _ _) R), list_elem_of_In; exact Hy).
    assert (stamped x) as Sx by (rewrite Forall_forall in Fs; by apply Fs, list_elem_of_In).
    rewrite List.filter_app, (IH F'), after_cursor_of by done.
    pose proof (filter_once l p x K Hx) as O. rewrite <- (take_drop (page_limit limit) (List.filter p l)), <- D, List.filter_app in O.
    destruct (p x) eqn:Px.
    + by rewrite (filter_once _ _ x (filter_NoDup_keys p l K)) in O by (by apply filter_In).
    + apply app_eq_nil in O as [-> _]. destruct (newer y x) eqn:E; [|done].
      unfold p in Px. rewrite (after_cursor_trans cursor y x) in Px; [done|by apply dated_stamped|done..].
Qed.
End moving.

(** A page turn neither skips nor repeats a session that did not move: when every
    page is read from the store as it then is, with other sessions created, touched
    or deleted in between, a session whose row is in each of these listings is read
    exactly once. *)
Theorem still_session_read_once user_id status limit query uid st ds rows x :
  scope user_id status = Ok (uid, st) ->
  Forall (fun d => dated_listing query uid st d /\ In x (listing d uid st query)) ds ->
  walk user_id status limit query None ds rows ->
  List.filter (of_session x.1) rows = [x].
Proof. intros S F W. exact (walk_visits user_id status limit query uid st S None ds rows x W F). Qed.

(** ** Three sessions *)

Definition new_demo (stamp : float) (bits : Z) (symbol : string) : op :=
  Create_session stamp (demo_draw bits) (VStr "ana") (VStr symbol) (VStr "swing") (VStr "1d") VNone VNone.

Definition three_sessions : db :=
  Eval vm_compute in fold_left exec [new_demo 1700000001.25 1 "INFY"; new_demo 1700000002.5 2 "TCS"; new_demo 1700000003 3 "SBIN"] empty_db.

(** The oldest of them is renamed, and so becomes the newest. *)
Definition three_sessions_later : db :=
  Eval vm_compute in
    exec three_sessions (Update_session 1700000009.125 (demo_id "sess" 1) (VStr "ana") [("title", VStr "renamed")]%string).

Definition by_ana (d : db) : list (string * session_row) := listing d "ana" (Some SESSION_ACTIVE) None.

Definition demo_entry (d : db) (bits : Z) : string * session_row :=
  (demo_id "sess" bits, default {| se_key := {| sk_user := ""; sk_symbol := ""; sk_profile := ""; sk_created := 0 |}; se_title := None;
     se_timeframe := ""; se_status := SESSION_ACTIVE; se_active_run := None; se_updated := 0; se_archived := None; se_metadata := None |}
     (sessions d !! demo_id "sess" bits)).

Lemma demo_scope : scope (VStr "ana") (Some "active"%string) = Ok ("ana"%string, Some SESSION_ACTIVE).
Proof. by vm_compute. Qed.

Ltac read_listing :=
  unfold dated_listing;
  match goal with |- Forall dated ?l => let l' := eval vm_compute in l in replace l with l' by (by vm_compute) end;
  repeat (apply Forall_cons_2; [split; [by vm_compute|split; [by vm_compute|split; [apply Z.leb_le|apply Z.ltb_lt]; by vm_compute]]|]); apply Forall_nil_2.

Lemma demo_dated : dated_listing None "ana" (Some SESSION_ACTIVE) three_sessions.
Proof. read_listing. Qed.

Lemma demo_dated_later : dated_listing None "ana" (Some SESSION_ACTIVE) three_sessions_later.
Proof. read_listing. Qed.

Lemma pages_cover_listing_witness :
  map fst (by_ana three_sessions) = [demo_id "sess" 3; demo_id "sess" 2; demo_id "sess" 1] /\
  exists n, (n <= S (length (by_ana three_sessions)))%nat /\
    walk (VStr "ana") (Some "active"%string) 2 None None (replicate n three_sessions) (by_ana three_sessions).
Proof.
  split; [by vm_compute|].
  exact (proj1 (proj2 (pages_cover_listing three_sessions (VStr "ana") (Some "active"%string) 2 None "ana" (Some SESSION_ACTIVE)
                         demo_scope demo_dated))).
Defined.

Definition page_turns (rows : list (string * session_row)) : Prop :=
  walk (VStr "ana") (Some "active"%string) 1 None None [three_sessions; three_sessions_later] rows.

(** Page one shows the newest, then the oldest is renamed, then page two shows the
    middle one. *)
Lemma page_turns_read : exists rows, page_turns rows /\ map fst rows = [demo_id "sess" 3; demo_id "sess" 2].
Proof.
  eexists. split; [eapply walk_next; [by vm_compute|apply walk_last; by vm_compute]|by vm_compute].
Qed.

Lemma demo_entry_listed : In (demo_entry three_sessions 2) (by_ana three_sessions) /\ In (demo_entry three_sessions 2) (by_ana three_sessions_later).
Proof. vm_compute. tauto. Qed.

Lemma still_session_read_once_witness :
  exists rows, page_turns rows /\
    List.filter (of_session (demo_entry three_sessions 2).1) rows = [demo_entry three_sessions 2].
Proof.
  destruct page_turns_read as (rows & W & _). exists rows. split; [exact W|].
  exact (still_session_read_once (VStr "ana") (Some "active"%string) 1 None "ana" (Some SESSION_ACTIVE)
           [three_sessions; three_sessions_later] rows (demo_entry three_sessions 2) demo_scope
           (Forall_cons_2 _ _ _ (conj demo_dated (proj1 demo_entry_listed))
             (Forall_cons_2 _ _ _ (conj demo_dated_later (proj2 demo_entry_listed)) (Forall_nil_2 _))) W).
Defined.

(** Two draws of the same millisecond, and one of a later one. *)
Lemma new_id_sorts_witness :
  exists id1 id2, new_id "sess" (demo_draw 5) = Ok id1 /\ new_id "sess" {| dr_now := 1700000000.75; dr_bits := 3 |} = Ok id2 /\
    String.compare id1 id2 = Lt.
Proof.
  do 2 eexists. split; [by vm_compute|]. split; [by vm_compute|].
  exact (new_id_sorts "sess" (demo_draw 5) {| dr_now := 1700000000.75; dr_bits := 3 |} 1700000000500 1700000000750 _ _
           ltac:(by vm_compute) ltac:(by vm_compute) ltac:(by vm_compute) ltac:(by vm_compute)).
Defined.
