(* ===== verification/StreamPersist.v ===== *)
(** * The stream persister

    Models [agents/deep-quant-loop/stream_persist.py]: the transcript of a run, written
    in batches while it streams, and the message its prose composes.

    The store is the interface [Store], which [SessionStore] implements; a call of it
    may raise, and is then as if it had not happened.  A method gives the persister
    and the store after it and never raises.  The clocks it reads are in a [clock]. *)

From stdpp Require Import base list gmap strings.
From Stdlib Require Import ZArith Lia Floats Ascii.
From S2P Require Import Prelude PyFloat PyNum PyVal PyEnv PyJson PyStr SessionStore.

#[local] Set Warnings "-inexact-float".
#[local] Open Scope Z_scope.
#[local] Open Scope res_scope.

(** ** The store *)

(** What the persister calls, in the order of the code: a new assistant message, a
    batch of frames, a piece of text, a status, an end of the run and of the message. *)
Class Store (St : Type) := {
  new_message : float -> draw -> St -> option string -> string -> message_kind -> res (St * option string);
  add_frames : float -> St -> string -> list (string * val) -> res (St * Z);
  add_text : float -> St -> string -> string -> res (St * bool);
  move_run : float -> St -> string -> run_status -> res (St * bool);
  end_run_as : float -> St -> string -> run_status -> res (St * bool);
  end_message_as : float -> St -> string -> message_status -> option string -> res (St * bool);
}.

Definition optional (o : option string) : val := match o with Some s => VStr s | None => VNone end.

(** The assistant message a stream fills. *)
Definition streaming_spec (run_id : string) (kind : message_kind) : message_spec :=
  {| mp_role := role_name ROLE_ASSISTANT; mp_kind := message_kind_name kind; mp_status := message_status_name MSG_STREAMING;
     mp_content := VStr ""; mp_run := VStr run_id; mp_client := VNone; mp_activity := VNone; mp_error := VNone |}.

(** A message in no session is not created. *)
Definition create_streaming (stamp : float) (id : draw) (d : db) (session_id : option string) (run_id : string) (kind : message_kind)
  : res (db * option string) :=
  match session_id with
  | None => Ok (d, None)
  | Some sid =>
      match create_message stamp id d sid (streaming_spec run_id kind) with
      | Ok (d, Some (message_id, _)) => Ok (d, Some message_id)
      | Ok (d, None) => Ok (d, None)
      | Raise x => Raise x
      end
  end.

#[export] Instance session_store : Store db := {
  new_message := create_streaming;
  add_frames stamp d run_id frames := append_run_events stamp d run_id (map (fun f => (VStr f.1, f.2)) frames);
  add_text stamp d message_id text := append_message_delta stamp d message_id text VNone;
  move_run := update_run_status;
  end_run_as := finalize_run;
  end_message_as stamp d message_id status detail := finalize_message stamp d message_id status None (optional detail) VNone;
}.

(** ** The persister *)

Definition BATCH_SIZE : nat := 25.
Definition BATCH_MAX_AGE_S : float := 0.25%float.
Definition _CONTENT_EVENTS : list string := ["REASONING"; "TEXT_MESSAGE"]%string.
Definition _TERMINAL_EVENTS : list string := ["RUN_FINISHED"; "ERROR"]%string.

Definition enabled (e : env) : bool :=
  let raw := default "" (e "DEEP_QUANT_PERSIST_STREAM") in
  str_in (lower (strip (if nonempty raw then raw else "0"))) true_tokens.

Record persister := {
  sp_run : option string;
  sp_session : option string;
  sp_kind : string;
  sp_message : option string;
  sp_buffer : list (string * val);
  sp_text : list string;
  sp_flushed : float;
  sp_finalized : bool;
  sp_warned : bool;
}.

(** What a method reads of the clocks: the age check, the flush, and the two writes
    of a flush and of an ending. *)
Record clock := {
  ck_checked : float;
  ck_flushed : float;
  ck_frames : float;
  ck_text : float;
  ck_run : float;
  ck_message : float;
}.

Definition new_persister (run_id session_id : option string) (kind : string) (now : float) : persister :=
  {| sp_run := run_id; sp_session := session_id; sp_kind := kind; sp_message := None; sp_buffer := []; sp_text := [];
     sp_flushed := now; sp_finalized := false; sp_warned := false |}.

Definition with_message (p : persister) (message_id : option string) : persister :=
  {| sp_run := sp_run p; sp_session := sp_session p; sp_kind := sp_kind p; sp_message := message_id; sp_buffer := sp_buffer p;
     sp_text := sp_text p; sp_flushed := sp_flushed p; sp_finalized := sp_finalized p; sp_warned := sp_warned p |}.

Definition with_pending (p : persister) (buffer : list (string * val)) (text : list string) : persister :=
  {| sp_run := sp_run p; sp_session := sp_session p; sp_kind := sp_kind p; sp_message := sp_message p; sp_buffer := buffer;
     sp_text := text; sp_flushed := sp_flushed p; sp_finalized := sp_finalized p; sp_warned := sp_warned p |}.

(** The swap of a flush. *)
Definition emptied (p : persister) (now : float) : persister :=
  {| sp_run := sp_run p; sp_session := sp_session p; sp_kind := sp_kind p; sp_message := sp_message p; sp_buffer := [];
     sp_text := []; sp_flushed := now; sp_finalized := sp_finalized p; sp_warned := sp_warned p |}.

Definition finalized (p : persister) : persister :=
  {| sp_run := sp_run p; sp_session := sp_session p; sp_kind := sp_kind p; sp_message := sp_message p; sp_buffer := sp_buffer p;
     sp_text := sp_text p; sp_flushed := sp_flushed p; sp_finalized := true; sp_warned := sp_warned p |}.

Definition _warn (p : persister) : persister :=
  {| sp_run := sp_run p; sp_session := sp_session p; sp_kind := sp_kind p; sp_message := sp_message p; sp_buffer := sp_buffer p;
     sp_text := sp_text p; sp_flushed := sp_flushed p; sp_finalized := sp_finalized p; sp_warned := true |}.

(** [_map_terminal] *)
Definition _map_terminal (terminal_status : string) : run_status * message_status :=
  match assoc_str (lower (strip terminal_status))
          [("completed", (RUN_COMPLETE, MSG_COMPLETE)); ("complete", (RUN_COMPLETE, MSG_COMPLETE));
           ("cancelled", (RUN_CANCELLED, MSG_CANCELLED)); ("error", (RUN_ERROR, MSG_ERROR));
           ("truncated", (RUN_TRUNCATED, MSG_TRUNCATED)); ("disconnected", (RUN_TRUNCATED, MSG_TRUNCATED))]%string with
  | Some ends => ends
  | None => (RUN_TRUNCATED, MSG_TRUNCATED)
  end.

(** The text a frame adds to the message. *)
Definition prose (event : string) (payload : val) : list string :=
  match payload with
  | VDict d =>
      if str_in event _CONTENT_EVENTS then
        match dict_get d "content" with VStr s => if nonempty s then [s] else [] | _ => [] end
      else []
  | _ => []
  end.

Section methods.
Context {St : Type} `{Store St} (e : env).

(** The run, when the persister is active. *)
Definition active (p : persister) : option string :=
  match sp_run p with Some run_id => if nonempty run_id && enabled e then Some run_id else None | None => None end.

(** A store call inside [try]: what it gives, or the store as it was and the
    exception. *)
Definition attempt {A} (st : St) (m : res (St * A)) : St * bool := match m with Ok (st', _) => (st', true) | Raise _ => (st, false) end.

(** Two calls of one [try]: the second is not made when the first raises. *)
Definition both (a : St * bool) (f : St -> St * bool) : St * bool := if a.2 then f a.1 else a.

Definition warned_unless (ok : bool) (p : persister) : persister := if ok then p else _warn p.

Definition open (now : float) (id : draw) (p : persister) (st : St) : persister * St :=
  match active p, sp_message p with
  | Some run_id, None =>
      let kind := if String.eqb (sp_kind p) "qa" then KIND_QA_ANSWER else KIND_ANALYSIS_ANSWER in
      match new_message now id st (sp_session p) run_id kind with
      | Ok (st', message_id) => (with_message p message_id, st')
      | Raise _ => (_warn p, st)
      end
  | _, _ => (p, st)
  end.

Definition flush (ck : clock) (p : persister) (st : St) : persister * St :=
  match active p with
  | None => (p, st)
  | Some run_id =>
      match sp_buffer p, sp_text p with
      | [], [] => (p, st)
      | frames, pending =>
          let text := String.concat "" pending in
          let '(st', ok) :=
            both (match frames with [] => (st, true) | _ => attempt st (add_frames (ck_frames ck) st run_id frames) end) (fun st =>
              match sp_message p with
              | Some message_id => if nonempty text && nonempty message_id then attempt st (add_text (ck_text ck) st message_id text) else (st, true)
              | None => (st, true)
              end) in
          (warned_unless ok (emptied p (ck_flushed ck)), st')
      end
  end.

Definition add (ck : clock) (event : string) (payload : val) (p : persister) (st : St) : persister * St :=
  match active p with
  | None => (p, st)
  | Some _ =>
      let buffer := if String.eqb (sp_kind p) "qa" then sp_buffer p else sp_buffer p ++ [(event, payload)] in
      let p := with_pending p buffer (sp_text p ++ prose event payload) in
      if str_in event _TERMINAL_EVENTS || (BATCH_SIZE <=? length buffer)%nat ||
         PrimFloat.leb BATCH_MAX_AGE_S (ck_checked ck - sp_flushed p)%float
      then flush ck p st
      else (p, st)
  end.

(** The end of the run, then of its message. *)
Definition write_end (ck : clock) (run_id : string) (message_id : option string) (ends : run_status * message_status) (detail : option string)
    (st : St) : St * bool :=
  both (attempt st (end_run_as (ck_run ck) st run_id ends.1)) (fun st =>
    match message_id with
    | Some mid => if nonempty mid then attempt st (end_message_as (ck_message ck) st mid ends.2 detail) else (st, true)
    | None => (st, true)
    end).

Definition close_as (ck : clock) (ends : run_status * message_status) (detail : option string) (p : persister) (st : St) : persister * St :=
  match active p with
  | None => (p, st)
  | Some run_id =>
      if sp_finalized p then (p, st)
      else
        let '(p, st) := flush ck (finalized p) st in
        let '(st, ok) := write_end ck run_id (sp_message p) ends detail st in
        (warned_unless ok p, st)
  end.

Definition finalize (ck : clock) (terminal_status : string) (detail : option string) (p : persister) (st : St) : persister * St :=
  close_as ck (_map_terminal terminal_status) detail p st.

Definition mark_watching (ck : clock) (p : persister) (st : St) : persister * St :=
  match active p with
  | None => (p, st)
  | Some run_id =>
      let '(p, st) := flush ck p st in
      let '(st, ok) := attempt st (move_run (ck_run ck) st run_id RUN_WATCHING) in
      (warned_unless ok p, st)
  end.

Definition record_disconnect (ck : clock) (p : persister) (st : St) : persister * St :=
  close_as ck (RUN_TRUNCATED, MSG_TRUNCATED) None p st.
End methods.
