(* ===== verification/StreamPersistFacts.v ===== *)
(** * Theorems about the stream persister

    Whatever the clocks, the batches add up: a recorded run ends with every frame it
    was given, in order, and its message with all the prose; what a pause, a question
    and a failed write do to that. *)

From stdpp Require Import base list gmap strings.
From Stdlib Require Import ZArith Lia Floats Ascii.
From S2P Require Import Prelude PyFloat PyNum PyVal PyEnv PyJson PyStr SessionStore SessionStoreFacts StreamPersist.

#[local] Set Warnings "-inexact-float".
#[local] Open Scope Z_scope.
#[local] Open Scope res_scope.

(** ** Frames as they are stored *)

(** The name and the text of a frame. *)
Definition record_frame (f : string * val) : res (string * string) :=
  name ← _required (VStr f.1);
  text ← _json_or_none f.2;
  Ok (name, match text with Some (String _ _ as t) => t | _ => "{}"%string end).

Definition record_of (frames : list (string * val)) : res (list (string * string)) := mapM_res record_frame frames.

Fixpoint rows_of (stamp : float) (seq : Z) (recs : list (string * string)) : list (Z * event_row) :=
  match recs with
  | [] => []
  | (name, text) :: recs => (seq + 1, {| ev_event := name; ev_payload := text; ev_created := stamp |}) :: rows_of stamp (seq + 1) recs
  end.

Lemma numbered_record stamp seq frames recs :
  record_of frames = Ok recs -> numbered stamp seq (map (fun f => (VStr f.1, f.2)) frames) = Ok (rows_of stamp seq recs).
Proof.
  unfold record_of. revert seq recs. induction frames as [|f frames IH]; intros seq recs H; cbn [mapM_res] in H; [by injection H as <-|].
  do 2 mbind H. injection H as <-. unfold record_frame in E. do 2 mbind E. injection E as <-. cbn [map numbered rows_of fst snd].
  rewrite E1. cbn beta iota delta [mbind res_bind]. rewrite E2. cbn beta iota delta [mbind res_bind]. by rewrite (IH _ _ E0).
Qed.

Lemma record_of_app l1 l2 recs :
  record_of (l1 ++ l2) = Ok recs -> exists r1 r2, record_of l1 = Ok r1 /\ record_of l2 = Ok r2 /\ recs = r1 ++ r2.
Proof.
  unfold record_of. revert recs. induction l1 as [|f l1 IH]; intros recs H; [by exists [], recs|].
  cbn [app mapM_res] in H. do 2 mbind H. injection H as <-. destruct (IH _ E0) as (r1 & r2 & H1 & H2 & ->). exists (a :: r1), r2.
  split_and!; [|done|done]. cbn [mapM_res]. rewrite E. cbn beta iota delta [mbind res_bind]. by rewrite H1.
Qed.

Lemma record_of_length frames recs : record_of frames = Ok recs -> length recs = length frames.
Proof.
  unfold record_of. revert recs. induction frames as [|f frames IH]; intros recs H; cbn [mapM_res] in H; [by injection H as <-|].
  do 2 mbind H. injection H as <-. cbn. by rewrite (IH _ E0).
Qed.

Lemma find_rows stamp seq recs i name text :
  recs !! i = Some (name, text) ->
  List.find (fun row => row.1 =? seq + 1 + Z.of_nat i) (rows_of stamp seq recs) =
  Some (seq + 1 + Z.of_nat i, {| ev_event := name; ev_payload := text; ev_created := stamp |}).
Proof.
  revert seq i. induction recs as [|[n t] recs IH]; intros seq i H; [done|]. cbn [rows_of List.find fst]. destruct i as [|i].
  - injection H as -> ->. by replace (seq + 1 + Z.of_nat 0) with (seq + 1) by lia; rewrite Z.eqb_refl.
  - destruct (Z.eqb_spec (seq + 1) (seq + 1 + Z.of_nat (S i))) as [E|_]; [lia|].
    replace (seq + 1 + Z.of_nat (S i)) with (seq + 1 + 1 + Z.of_nat i) by lia. by apply IH.
Qed.

Lemma find_rows_None stamp seq recs n : n <= seq -> List.find (fun row => row.1 =? n) (rows_of stamp seq recs) = None.
Proof.
  revert seq. induction recs as [|[m t] recs IH]; intros seq H; [done|]. cbn [rows_of List.find fst].
  destruct (Z.eqb_spec (seq + 1) n) as [E|_]; [lia|]. apply IH. lia.
Qed.

(** A stored frame. *)
Definition stored (d : db) (run_id : string) (n : Z) (rec : string * string) : Prop :=
  exists e, run_events d !! (run_id, n) = Some e /\ ev_event e = rec.1 /\ ev_payload e = rec.2.

(** The frames from a number on. *)
Definition holds (d : db) (run_id : string) (seq : Z) (recs : list (string * string)) : Prop :=
  forall i rec, recs !! i = Some rec -> stored d run_id (seq + 1 + Z.of_nat i) rec.

Lemma holds_app d run_id seq r1 r2 :
  holds d run_id seq r1 -> holds d run_id (seq + Z.of_nat (length r1)) r2 -> holds d run_id seq (r1 ++ r2).
Proof.
  intros H1 H2 i rec H. apply lookup_app_Some in H as [H|[L H]]; [by apply H1|].
  specialize (H2 _ _ H). by replace (seq + 1 + Z.of_nat i) with (seq + Z.of_nat (length r1) + 1 + Z.of_nat (i - length r1)) by lia.
Qed.

(** ** What each call of the store does *)

Lemma add_frames_spec stamp d run_id r f frames recs :
  wf d -> runs d !! run_id = Some r -> record_of (f :: frames) = Ok recs ->
  exists d', add_frames stamp d run_id (f :: frames) = Ok (d', rn_last_seq r + Z.of_nat (length recs)) /\ wf d' /\
    runs d' !! run_id = Some (set_last_seq stamp (rn_last_seq r + Z.of_nat (length recs)) r) /\ messages d' = messages d /\
    holds d' run_id (rn_last_seq r) recs /\
    (forall n rec, n <= rn_last_seq r -> stored d run_id n rec -> stored d' run_id n rec).
Proof.
  intros W Hr R. pose proof (numbered_record stamp (rn_last_seq r) _ _ R) as N. pose proof (append_frames _ _ _ _ _ _ W Hr N) as F.
  pose proof (record_of_length _ _ R) as L. cbn [add_frames session_store].
  destruct (append_run_events stamp d run_id (map (fun f => (VStr f.1, f.2)) (f :: frames))) as [[d' n]|x] eqn:A;
    unfold append_run_events in A; cbn [map] in A; rewrite Hr in A; cbn [map] in N; rewrite N in A; cbn beta iota delta [mbind res_bind] in A; [|done].
  injection A as <- <-. rewrite length_map. change (S (length frames)) with (length (f :: frames)). rewrite <- L.
  eexists. split; [done|]. split_and!.
  - eapply wf_in_place; [apply ip_touch|]. pose proof (wf_append _ _ _ _ _ _ W Hr N) as W'. cbn [length] in W'. rewrite length_map in W'.
    change (S (length frames)) with (length (f :: frames)) in W'. by rewrite <- L in W'.
  - cbn. by rewrite lookup_insert_eq.
  - done.
  - intros i [name text] H. unfold stored. cbn [run_events _touch with_sessions with_runs with_events]. rewrite F. cbn [fst snd].
    rewrite String.eqb_refl, (find_rows _ _ _ _ _ _ H). eauto.
  - intros n rec Hn (e & He & E). exists e. split; [|done]. cbn [run_events _touch with_sessions with_runs with_events]. rewrite F. cbn [fst snd].
    by rewrite String.eqb_refl, find_rows_None.
Qed.

Lemma add_text_spec stamp d mid m text :
  wf d -> messages d !! mid = Some m -> ms_status m = MSG_STREAMING ->
  exists d', add_text stamp d mid text = Ok (d', true) /\ wf d' /\ runs d' = runs d /\ run_events d' = run_events d /\
    messages d' !! mid = Some (extend_content stamp (drop_char nul text) None m).
Proof.
  intros W Hm S. cbn [add_text session_store]. unfold append_message_delta. cbn [_json_or_none is_none].
  cbn beta iota delta [mbind res_bind]. unfold update_streaming, streaming_message. rewrite Hm, (bool_decide_eq_true_2 _ S).
  eexists. split; [done|]. split_and!; [|done|done|cbn; by rewrite lookup_insert_eq].
  eapply wf_in_place; [|exact W]. etrans; [|apply ip_touch]. eapply ip_message; [exact Hm|]. by apply streaming_step.
Qed.

Lemma end_run_spec stamp d run_id r status :
  wf d -> runs d !! run_id = Some r -> rn_terminal r = None -> live status = false ->
  exists d', end_run_as stamp d run_id status = Ok (d', true) /\ wf d' /\ messages d' = messages d /\ run_events d' = run_events d /\
    runs d' !! run_id = Some (end_run stamp status r).
Proof.
  intros W Hr T L. cbn [end_run_as session_store]. unfold finalize_run. rewrite L. unfold open_run. rewrite Hr, T. cbn [is_some].
  eexists. split; [done|]. split_and!; [|done|done|cbn; by rewrite lookup_insert_eq].
  eapply wf_in_place; [|exact W]. etrans; [|apply ip_touch]. eapply ip_run; [exact Hr|by apply end_run_step].
Qed.

Lemma end_message_spec stamp d mid m status detail :
  wf d -> messages d !! mid = Some m -> ms_status m = MSG_STREAMING -> status <> MSG_STREAMING ->
  exists d' m', end_message_as stamp d mid status detail = Ok (d', true) /\ wf d' /\ runs d' = runs d /\ run_events d' = run_events d /\
    messages d' !! mid = Some m' /\ ms_status m' = status /\ ms_content m' = ms_content m.
Proof.
  intros W Hm S N. cbn [end_message_as session_store]. unfold finalize_message. rewrite (bool_decide_eq_false_2 _ N). cbn [_json_or_none is_none].
  cbn beta iota delta [mbind res_bind]. unfold update_streaming, streaming_message. rewrite Hm, (bool_decide_eq_true_2 _ S).
  do 2 eexists. split; [done|]. split_and!; [|done|done|cbn; by rewrite lookup_insert_eq|done|done].
  eapply wf_in_place; [|exact W]. etrans; [|apply ip_touch]. eapply ip_message; [exact Hm|]. by apply streaming_step.
Qed.

(** ** A recording *)

Section recording.
Context (e : env) (run_id mid : string) (seq0 : Z).
Context (on : enabled e = true) (run_named : nonempty run_id = true) (message_named : nonempty mid = true).

(** What is stored and what is pending make up what was given. *)
Record recording (p : persister) (d : db) (frames : list (string * val)) (text : string) : Prop := {
  rc_wf : wf d;
  rc_ids : sp_run p = Some run_id /\ sp_message p = Some mid;
  rc_run : exists r recs flushed, runs d !! run_id = Some r /\ rn_terminal r = None /\ rn_last_seq r = seq0 + Z.of_nat (length recs) /\
           holds d run_id seq0 recs /\ record_of flushed = Ok recs /\ frames = flushed ++ sp_buffer p;
  rc_text : exists m, messages d !! mid = Some m /\ ms_status m = MSG_STREAMING /\
            drop_char nul text = (ms_content m ++ drop_char nul (String.concat "" (sp_text p)))%string;
}.

Lemma active_run p : sp_run p = Some run_id -> active e p = Some run_id.
Proof. unfold active. intros ->. by rewrite run_named, on. Qed.

(** What a step keeps of the persister. *)
Definition same_persister (p p' : persister) : Prop :=
  sp_run p' = sp_run p /\ sp_message p' = sp_message p /\ sp_kind p' = sp_kind p /\ sp_finalized p' = sp_finalized p /\ sp_warned p' = sp_warned p.

Lemma write_frames ck p d frames text all :
  recording p d frames text -> record_of frames = Ok all ->
  exists d', (match sp_buffer p with [] => (d, true) | _ => attempt d (add_frames (ck_frames ck) d run_id (sp_buffer p)) end) = (d', true) /\
    wf d' /\ messages d' = messages d /\
    exists r, runs d' !! run_id = Some r /\ rn_terminal r = None /\ rn_last_seq r = seq0 + Z.of_nat (length all) /\ holds d' run_id seq0 all.
Proof.
  intros [W [Ir Im] (r & recs & flushed & Hr & T & L & H & F & ->) _] R.
  apply record_of_app in R as (r1 & r2 & R1 & R2 & ->). rewrite F in R1. injection R1 as <-.
  destruct (sp_buffer p) as [|f buffer].
  - injection R2 as <-. rewrite app_nil_r. exists d. split_and!; try done. by exists r.
  - destruct (add_frames_spec (ck_frames ck) d run_id r f buffer r2 W Hr R2) as (d' & -> & W' & Hr' & M & H2 & K). exists d'.
    split_and!; try done. eexists. split; [exact Hr'|]. split_and!; [done|cbn; rewrite length_app; lia|].
    apply holds_app; [|by rewrite <- L]. intros i rec Hi. apply K; [|by apply H]. apply lookup_lt_Some in Hi. lia.
Qed.

Lemma capped s : Z.of_nat (String.length s) <= MAX_CONTENT_CHARS -> first_chars MAX_CONTENT_CHARS s = s.
Proof. intros H. unfold first_chars. pose proof (str_len_bytes s). by rewrite (proj2 (Z.leb_le _ _)) by lia. Qed.

Lemma write_text ck p d m text :
  wf d -> sp_message p = Some mid -> messages d !! mid = Some m -> ms_status m = MSG_STREAMING ->
  drop_char nul text = (ms_content m ++ drop_char nul (String.concat "" (sp_text p)))%string ->
  Z.of_nat (String.length text) <= MAX_CONTENT_CHARS ->
  exists d', (match sp_message p with
              | Some message_id =>
                  if nonempty (String.concat "" (sp_text p)) && nonempty message_id
                  then attempt d (add_text (ck_text ck) d message_id (String.concat "" (sp_text p))) else (d, true)
              | None => (d, true)
              end) = (d', true) /\ wf d' /\ runs d' = runs d /\ run_events d' = run_events d /\
    exists m', messages d' !! mid = Some m' /\ ms_status m' = MSG_STREAMING /\ ms_content m' = drop_char nul text.
Proof.
  intros W -> Hm S E C. rewrite message_named, andb_true_r. destruct (nonempty (String.concat "" (sp_text p))) eqn:N.
  - destruct (add_text_spec (ck_text ck) d mid m (String.concat "" (sp_text p)) W Hm S) as (d' & -> & W' & R & V & Hm'). exists d'.
    split_and!; try done. eexists. split; [exact Hm'|]. split; [done|]. cbn [ms_content extend_content]. rewrite <- E. apply capped.
    pose proof (drop_char_length nul text). lia.
  - exists d. split_and!; try done. exists m. split_and!; try done. rewrite E. destruct (String.concat "" (sp_text p)); [|done].
    by rewrite str_app_nil.
Qed.

Lemma flush_recording ck p d frames text all :
  recording p d frames text -> record_of frames = Ok all -> Z.of_nat (String.length text) <= MAX_CONTENT_CHARS ->
  exists p' d', flush e ck p d = (p', d') /\ recording p' d' frames text /\ sp_buffer p' = [] /\ sp_text p' = [] /\ same_persister p p'.
Proof.
  intros C R L. pose proof C as [W [Ir Im] _ (m & Hm & S & E)]. destruct (write_frames ck p d frames text all C R) as (d1 & E1 & W1 & M1 & r & Hr & T & Q & H).
  rewrite <- M1 in Hm. destruct (write_text ck p d1 m text W1 Im Hm S E L) as (d2 & E2 & W2 & R2 & V2 & m' & Hm' & S' & C').
  assert (exists p' d', flush e ck p d = (p', d') /\ same_persister p p' /\ sp_buffer p' = [] /\ sp_text p' = [] /\ d' = d2) as (p' & d' & F & K & B & X & ->).
  { unfold flush. rewrite (active_run p Ir). destruct (sp_buffer p) as [|f buffer] eqn:Bu, (sp_text p) as [|t ts] eqn:Te.
    - injection E1 as <-. cbn in E2. rewrite Im in E2. injection E2 as <-. exists p, d. by split_and!.
    - rewrite E1. unfold both. cbn [fst snd]. rewrite E2. by do 2 eexists.
    - rewrite E1. unfold both. cbn [fst snd]. rewrite E2. by do 2 eexists.
    - rewrite E1. unfold both. cbn [fst snd]. rewrite E2. by do 2 eexists. }
  exists p', d2. split_and!; try done. destruct K as (K1 & K2 & _). split; [done|by rewrite K1, K2| |].
  - exists r, all, frames. rewrite R2. split_and!; try done; [|by rewrite B, app_nil_r].
    intros i rec Hi. specialize (H i rec Hi). unfold stored in *. by rewrite V2.
  - exists m'. split_and!; try done. by rewrite C', X, str_app_nil.
Qed.

(** The frames and the text one call adds. *)
Definition kept_frame (kind : string) (f : string * val) : list (string * val) := if String.eqb kind "qa" then [] else [f].

Lemma add_recording ck p d frames text all f :
  recording p d frames text -> record_of (frames ++ kept_frame (sp_kind p) f) = Ok all ->
  Z.of_nat (String.length (text ++ String.concat "" (prose f.1 f.2))%string) <= MAX_CONTENT_CHARS ->
  exists p' d', add e ck f.1 f.2 p d = (p', d') /\ same_persister p p' /\
    recording p' d' (frames ++ kept_frame (sp_kind p) f) (text ++ String.concat "" (prose f.1 f.2)).
Proof.
  intros C R L. set (buffer := if String.eqb (sp_kind p) "qa" then sp_buffer p else sp_buffer p ++ [f]).
  set (q := with_pending p buffer (sp_text p ++ prose f.1 f.2)).
  assert (recording q d (frames ++ kept_frame (sp_kind p) f) (text ++ String.concat "" (prose f.1 f.2))) as Cq.
  { destruct C as [W I (r & recs & flushed & Hr & T & Q & H & F & ->) (m & Hm & S & E)]. split; [done|done| |].
    - exists r, recs, flushed. split_and!; try done. unfold q, kept_frame. cbn [sp_buffer with_pending]. unfold buffer.
      destruct (String.eqb (sp_kind p) "qa"); [by rewrite app_nil_r|by rewrite app_assoc].
    - exists m. split_and!; try done. unfold q. cbn [sp_text with_pending]. by rewrite concat_app, !drop_char_app, E, str_app_assoc. }
  unfold add. rewrite (active_run p (proj1 (rc_ids _ _ _ _ C))). cbv zeta. destruct f as [ev payload]. cbn [fst snd] in *. fold buffer. fold q.
  destruct (_ || _).
  - destruct (flush_recording ck q d _ _ all Cq R L) as (p' & d' & -> & C' & _ & _ & K). exists p', d'. split_and!; try done; by destruct K as (?&?&?&?&?).
  - by exists q, d.
Qed.

Definition text_of_frames (fs : list (string * val)) : string := String.concat "" (flat_map (fun f => prose f.1 f.2) fs).

Lemma text_of_cons f fs : text_of_frames (f :: fs) = (String.concat "" (prose f.1 f.2) ++ text_of_frames fs)%string.
Proof. unfold text_of_frames. cbn [flat_map]. by rewrite concat_app. Qed.

Lemma add_all_recording l p d frames text all :
  recording p d frames text -> record_of (frames ++ flat_map (kept_frame (sp_kind p)) (map snd l)) = Ok all ->
  Z.of_nat (String.length (text ++ text_of_frames (map snd l))%string) <= MAX_CONTENT_CHARS ->
  exists p' d', fold_left (fun acc cf => add e cf.1 cf.2.1 cf.2.2 acc.1 acc.2) l (p, d) = (p', d') /\ same_persister p p' /\
    recording p' d' (frames ++ flat_map (kept_frame (sp_kind p)) (map snd l)) (text ++ text_of_frames (map snd l)).
Proof.
  revert p d frames text. induction l as [|[ck f] l IH]; intros p d frames text C R L.
  - exists p, d. cbn [map flat_map] in *. unfold text_of_frames. cbn. rewrite app_nil_r, str_app_nil. done.
  - cbn [map flat_map snd] in *. rewrite text_of_cons, str_app_assoc in *. rewrite app_assoc in *.
    destruct (record_of_app _ _ _ R) as (r1 & _ & R1 & _ & _). rewrite str_length_app in L.
    destruct (add_recording ck p d frames text r1 f C R1) as (p1 & d1 & A & K & C1); [lia|].
    assert (sp_kind p1 = sp_kind p) as Kk by (by destruct K as (_ & _ & ? & _)).
    destruct (IH p1 d1 _ _ C1) as (p2 & d2 & F & K2 & C2); [by rewrite Kk|by rewrite str_length_app|].
    exists p2, d2. cbn [fold_left fst snd]. rewrite A, F, <- Kk. split_and!; [done| |by rewrite Kk in *].
    destruct K as (?&?&?&?&?), K2 as (?&?&?&?&?). repeat split; congruence.
Qed.

(** A pause keeps the recording, with nothing pending. *)
Lemma watching_recording ck p d frames text all :
  recording p d frames text -> record_of frames = Ok all -> Z.of_nat (String.length text) <= MAX_CONTENT_CHARS ->
  exists p' d', mark_watching e ck p d = (p', d') /\ recording p' d' frames text /\ same_persister p p'.
Proof.
  intros C R L. unfold mark_watching. rewrite (active_run p (proj1 (rc_ids _ _ _ _ C))).
  destruct (flush_recording ck p d frames text all C R L) as (p1 & d1 & -> & C1 & _ & _ & K).
  destruct C1 as [W I (r & recs & flushed & Hr & T & Q & H & F & E) Tx].
  cbn [move_run session_store]. unfold update_run_status, open_run. cbn [live negb]. rewrite Hr, T. cbn [is_some attempt warned_unless].
  do 2 eexists. split; [done|]. split; [|done]. split; [|done| |done].
  - eapply wf_in_place; [|exact W]. eapply ip_run; [exact Hr|]. by apply live_run_step.
  - exists (set_run_status (ck_run ck) RUN_WATCHING r), recs, flushed. cbn. rewrite lookup_insert_eq. by split_and!.
Qed.

(** An ending of a recording that has none yet. *)
Lemma close_recording ck ends detail p d frames text all :
  recording p d frames text -> record_of frames = Ok all -> Z.of_nat (String.length text) <= MAX_CONTENT_CHARS ->
  sp_finalized p = false -> live ends.1 = false -> ends.2 <> MSG_STREAMING ->
  exists p' d', close_as e ck ends detail p d = (p', d') /\ wf d' /\ sp_finalized p' = true /\ sp_warned p' = sp_warned p /\
    (exists r, runs d' !! run_id = Some r /\ rn_terminal r = Some ends.1 /\ rn_status r = ends.1 /\ rn_last_seq r = seq0 + Z.of_nat (length all)) /\
    holds d' run_id seq0 all /\
    (exists m, messages d' !! mid = Some m /\ ms_status m = ends.2 /\ ms_content m = drop_char nul text).
Proof.
  intros C R L F Le Me. unfold close_as. rewrite (active_run p (proj1 (rc_ids _ _ _ _ C))), F.
  assert (recording (finalized p) d frames text) as C0 by (by destruct C).
  destruct (flush_recording ck _ _ _ _ _ C0 R L) as (p1 & d1 & -> & C1 & B & X & K). destruct K as (_ & Km & _ & Kf & Kw).
  destruct C1 as [W [Ir Im] (r & recs & flushed & Hr & T & Q & H & Rf & E) (m & Hm & S & Et)].
  rewrite B, app_nil_r in E. subst flushed. rewrite R in Rf. injection Rf as <-. rewrite X in Et. cbn in Et. rewrite str_app_nil in Et.
  destruct (end_run_spec (ck_run ck) d1 run_id r ends.1 W Hr T Le) as (d2 & E2 & W2 & M2 & V2 & Hr2). rewrite <- M2 in Hm.
  destruct (end_message_spec (ck_message ck) d2 mid m ends.2 detail W2 Hm S Me) as (d3 & m' & E3 & W3 & R3 & V3 & Hm3 & S3 & C3).
  unfold write_end, both. rewrite Km. change (sp_message (finalized p)) with (sp_message p). rewrite (proj2 (rc_ids _ _ _ _ C)), message_named.
  rewrite E2. cbn [attempt fst snd]. rewrite E3. cbn [attempt]. exists p1, d3. split_and!; try done.
  - exists (end_run (ck_run ck) ends.1 r). by rewrite R3.
  - intros i rec Hi. specialize (H i rec Hi). unfold stored in *. by rewrite V3, V2.
  - exists m'. split_and!; try done. by rewrite C3.
Qed.
End recording.

(** ** A run from its opening to its end *)

Lemma create_streaming_Some now id d sid run_id kind d1 mid :
  create_streaming now id d sid run_id kind = Ok (d1, Some mid) ->
  nonempty mid = true /\ runs d1 = runs d /\ run_events d1 = run_events d /\
  (wf d -> wf d1) /\ exists m, messages d1 !! mid = Some m /\ ms_status m = MSG_STREAMING /\ ms_content m = ""%string.
Proof.
  unfold create_streaming. destruct sid as [sid|]; [|done]. destruct (create_message now id d sid _) as [[d2 [[mid' m]|]]|] eqn:C; [|done|done].
  intros [= <- <-]. pose proof (create_message_effect _ _ _ _ _ _ _ C) as G. unfold create_message in C.
  assert (named_or_raise role_name ROLES (mp_role (streaming_spec run_id kind)) = Ok ROLE_ASSISTANT) as E1 by done. rewrite E1 in C.
  assert (named_or_raise message_kind_name MESSAGE_KINDS (mp_kind (streaming_spec run_id kind)) = Ok kind) as E2 by (by destruct kind). rewrite E2 in C.
  assert (named_or_raise message_status_name MESSAGE_STATUSES (mp_status (streaming_spec run_id kind)) = Ok MSG_STREAMING) as E3 by done. rewrite E3 in C.
  cbn beta iota delta [mbind res_bind] in C. cbn [bool_decide] in C. change (bool_decide (ROLE_ASSISTANT = ROLE_USER)) with false in C. cbn [andb] in C.
  change (_text 200 (mp_client (streaming_spec run_id kind))) with (@None string) in C. cbv zeta in C.
  destruct (sessions d !! sid); [|done]. mbind C. mbind C. mbind C. injection C as <- <- <-.
  unfold insert_message in E4. destruct (_ || _) in E4; [done|]. injection E4 as <-.
  split_and!; [|done|done|intros W; by eapply wf_gentle|].
  - unfold new_id in E. mbind E. by injection E as <-.
  - eexists. split; [cbn; by rewrite lookup_insert_eq|]. done.
Qed.

Lemma open_recording e now id t0 d run_id sid kind r p d1 mid :
  enabled e = true -> nonempty run_id = true -> wf d -> runs d !! run_id = Some r -> rn_terminal r = None ->
  open e now id (new_persister (Some run_id) sid kind t0) d = (p, d1) -> sp_message p = Some mid ->
  nonempty mid = true /\ recording run_id mid (rn_last_seq r) p d1 [] "" /\ sp_finalized p = false /\ sp_kind p = kind /\ sp_warned p = false.
Proof.
  intros On N W Hr T O M. unfold open in O. rewrite (active_run e run_id On N) in O by done. cbn [sp_message new_persister] in O.
  destruct (new_message _ _ _ _ _ _) as [[d2 m]|x] eqn:C; injection O as <- <-; [|done]. cbn in M. subst m.
  cbn [new_message session_store] in C. apply create_streaming_Some in C as (Nm & R & V & Wd & m & Hm & S & Em). split_and!; [done| |done|done|done].
  split; [by apply Wd|done| |].
  - exists r, [], []. rewrite R. cbn. split_and!; try done; lia.
  - exists m. split_and!; try done. by rewrite Em.
Qed.

(** The frames of a run, added one after the other. *)
Definition add_all {St} `{Store St} (e : env) (l : list (clock * (string * val))) (acc : persister * St) : persister * St :=
  fold_left (fun acc cf => add e cf.1 cf.2.1 cf.2.2 acc.1 acc.2) l acc.

(** The frames a stream of that kind leaves in the transcript. *)
Definition transcript (kind : string) (l : list (clock * (string * val))) : list (string * val) := flat_map (kept_frame kind) (map snd l).

Lemma map_terminal_ends s : live (_map_terminal s).1 = false /\ (_map_terminal s).2 <> MSG_STREAMING.
Proof.
  unfold _map_terminal. destruct (assoc_str _ _) as [ends|] eqn:E; [|done]. apply assoc_str_In in E. cbn in E.
  repeat destruct E as [E|E]; [injection E as _ <-; done..|done].
Qed.

(** A run that has ended has its whole transcript: whatever the clocks, and so
    however the frames were batched, once the recording of a live run is finalised
    the run carries the mapped end, its counter has moved by the number of frames
    given, every one of them is stored under its own number with its name and its
    text, and the message holds all the prose of the frames, in order, under the
    mapped status. A question's frames leave only their prose. *)
Theorem transcript_whole_at_end e now t0 id ck l d run_id sid kind r status detail p d1 mid all :
  enabled e = true -> nonempty run_id = true -> wf d -> runs d !! run_id = Some r -> rn_terminal r = None ->
  open e now id (new_persister (Some run_id) sid kind t0) d = (p, d1) -> sp_message p = Some mid ->
  record_of (transcript kind l) = Ok all ->
  Z.of_nat (String.length (text_of_frames (map snd l))) <= MAX_CONTENT_CHARS ->
  let d' := (uncurry (finalize e ck status detail) (add_all e l (p, d1))).2 in
  exists r' m', runs d' !! run_id = Some r' /\ rn_terminal r' = Some (_map_terminal status).1 /\
    rn_last_seq r' = rn_last_seq r + Z.of_nat (length (transcript kind l)) /\ holds d' run_id (rn_last_seq r) all /\
    messages d' !! mid = Some m' /\ ms_status m' = (_map_terminal status).2 /\
    ms_content m' = drop_char nul (text_of_frames (map snd l)).
Proof.
  intros On N W Hr T O M R L. cbv zeta. destruct (open_recording _ _ _ _ _ _ _ _ _ _ _ _ On N W Hr T O M) as (Nm & C & F & K & _).
  destruct (add_all_recording e run_id mid (rn_last_seq r) On N Nm l p d1 [] "" all C) as (p2 & d2 & A & S & C2);
    [by rewrite K|done|]. unfold add_all. rewrite A. cbn [uncurry]. rewrite K in C2. cbn [app] in C2.
  change ("" ++ text_of_frames (map snd l))%string with (text_of_frames (map snd l)) in C2.
  destruct (map_terminal_ends status) as [Le Me].
  destruct (close_recording e run_id mid (rn_last_seq r) On N Nm ck (_map_terminal status) detail p2 d2 _ _ all C2 R L) as
    (p3 & d3 & E & _ & _ & _ & (r' & Hr' & T' & _ & Q') & H' & (m' & Hm' & S' & E')); [by destruct S as (_ & _ & _ & -> & _)|done|done|].
  unfold finalize. rewrite E. exists r', m'. split_and!; try done. by rewrite Q', (record_of_length _ _ R).
Qed.

(** ** A recorded run *)

Definition recording_env : env := fun k => if String.eqb k "DEEP_QUANT_PERSIST_STREAM" then Some "1"%string else None.

Definition recording_clock : clock :=
  {| ck_checked := 1700000005; ck_flushed := 1700000005; ck_frames := 1700000006; ck_text := 1700000006; ck_run := 1700000007; ck_message := 1700000007 |}.

Definition recorded_frames : list (clock * (string * val)) :=
  [(recording_clock, ("REASONING", VDict [(VStr "content", VStr "Wait for the open")])); (recording_clock, ("TOOL_CALL_START", VDict []))]%string.

Definition demo_opened : persister * db :=
  open recording_env 1700000004 (demo_draw 7) (new_persister (Some demo_run) (Some demo_session) "run" 1700000004) demo_store.

Lemma transcript_whole_at_end_witness :
  exists r, runs demo_store !! demo_run = Some r /\
  let d' := (uncurry (finalize recording_env recording_clock "completed" None) (add_all recording_env recorded_frames demo_opened)).2 in
  exists r' m', runs d' !! demo_run = Some r' /\ rn_terminal r' = Some RUN_COMPLETE /\ rn_last_seq r' = rn_last_seq r + 2 /\
    messages d' !! demo_id "msg" 7 = Some m' /\ ms_status m' = MSG_COMPLETE /\ ms_content m' = "Wait for the open"%string.
Proof.
  destruct demo_run_row as (r & Hr & _). exists r. split; [exact Hr|].
  assert (T : rn_terminal <$> runs demo_store !! demo_run = Some None) by (by vm_compute). rewrite Hr in T. injection T as T.
  destruct (transcript_whole_at_end recording_env 1700000004 1700000004 (demo_draw 7) recording_clock recorded_frames demo_store demo_run
              (Some demo_session) "run" r "completed" None demo_opened.1 demo_opened.2 (demo_id "msg" 7)
              (match record_of (transcript "run" recorded_frames) with Ok all => all | Raise _ => [] end)
              ltac:(by vm_compute) ltac:(done) (wf_reachable _ demo_reachable) Hr T ltac:(apply surjective_pairing) ltac:(by vm_compute)
              ltac:(by vm_compute) ltac:(by vm_compute)) as (r' & m' & H1 & H2 & H3 & _ & H4 & H5 & H6).
  exists r', m'. rewrite <- (surjective_pairing demo_opened) in *. split; [exact H1|]. split; [exact H2|]. split; [exact H3|]. split; [exact H4|].
  split; [exact H5|exact H6].
Defined.
