(* ===== verification/InternalIdentity.v ===== *)
(** * Verified callers

    Models [agents/deep-quant-loop/internal_identity.py]: the signed assertions of a
    user and of the price watcher, and who a request is taken to come from.

    The environment and the time are arguments.  A payload is UTF-8 text: one in
    another encoding that [json.loads] can detect is taken as not readable. *)

From stdpp Require Import base list strings.
From Stdlib Require Import ZArith Lia Floats Ascii.
From S2P Require Import Prelude PyFloat PyNum PyVal PyEnv PyJson PyStr Sha256.

#[local] Set Warnings "-inexact-float".
#[local] Open Scope Z_scope.
#[local] Open Scope res_scope.

(** ** Replies *)

(** What a request ends with: a result, a refusal with an HTTP status, or an
    exception nothing catches. *)
Inductive reply (A : Type) := Reply (a : A) | Refused (status : Z) | Failed (e : exn).
Arguments Reply {A} a.
Arguments Refused {A} status.
Arguments Failed {A} e.

#[export] Instance reply_ret : MRet reply := fun A a => Reply a.
#[export] Instance reply_bind : MBind reply := fun A B f m =>
  match m with Reply a => f a | Refused status => Refused status | Failed e => Failed e end.

(** A call that may raise, inside a handler that does not catch. *)
Definition plainly {A} (m : res A) : reply A := match m with Ok a => Reply a | Raise e => Failed e end.

(** ** Configuration *)

Definition ENV_IDENTITY_SECRET : string := "INTERNAL_IDENTITY_SECRET".
Definition ENV_SERVICE_SECRET : string := "INTERNAL_SERVICE_SECRET".
Definition ENV_REQUIRE_IDENTITY : string := "DEEP_QUANT_REQUIRE_IDENTITY".

Definition DEFAULT_TTL_SECONDS : Z := 60.
Definition CLOCK_SKEW_SECONDS : Z := 30.
Definition MAX_TOKEN_CHARS : Z := 4096.
Definition MIN_SECRET_CHARS : Z := 32.

Definition _secret (e : env) (env_name : string) : res string :=
  let value := strip (default "" (e env_name)) in
  if negb (nonempty value) then Raise IdentityError
  else if str_len value <? MIN_SECRET_CHARS then Raise IdentityError
  else Ok value.

(** [(os.getenv(name) or "0").strip().lower() in (...)] *)
Definition switched_on (e : env) (name : string) : bool :=
  let raw := default "" (e name) in str_in (lower (strip (if nonempty raw then raw else "0"))) true_tokens.

Definition enforcement_enabled (e : env) : bool := switched_on e ENV_REQUIRE_IDENTITY.

(** The service starts, unless identities are required and a secret is not usable. *)
Definition assert_startup_config (e : env) : bool :=
  negb (enforcement_enabled e) || (is_ok (_secret e ENV_IDENTITY_SECRET) && is_ok (_secret e ENV_SERVICE_SECRET)).

(** ** Base64url *)

Definition _B64URL : string := "ABCDEFGHIJKLMNOPQRSTUVWXYZabcdefghijklmnopqrstuvwxyz0123456789-_".

Definition b64_char (v : Z) : ascii := default zero (String.get (Z.to_nat v) _B64URL).

Fixpoint index_of (c : ascii) (i : Z) (s : string) : option Z :=
  match s with EmptyString => None | String d s => if Ascii.eqb c d then Some i else index_of c (i + 1) s end.

(** The six bits of a character of the alphabet. *)
Definition b64_val (c : ascii) : option Z := index_of c 0 _B64URL.

(** The characters of a group of up to three bytes. *)
Fixpoint b64_encode (bytes : list Z) : string :=
  match bytes with
  | a :: b :: c :: bytes =>
      String (b64_char (a / 4)) (String (b64_char (a mod 4 * 16 + b / 16)) (String (b64_char (b mod 16 * 4 + c / 64))
        (String (b64_char (c mod 64)) (b64_encode bytes))))
  | [a; b] => String (b64_char (a / 4)) (String (b64_char (a mod 4 * 16 + b / 16)) (String (b64_char (b mod 16 * 4)) EmptyString))
  | [a] => String (b64_char (a / 4)) (String (b64_char (a mod 4 * 16)) EmptyString)
  | [] => EmptyString
  end.

Definition _b64u_encode (raw : list Z) : string := b64_encode raw.

Fixpoint b64_values (text : string) : option (list Z) :=
  match text with
  | EmptyString => Some []
  | String c text => match b64_val c, b64_values text with Some v, Some vs => Some (v :: vs) | _, _ => None end
  end.

(** The bytes of the groups of four values; one value left over is an error. *)
Fixpoint b64_bytes (vs : list Z) : option (list Z) :=
  match vs with
  | p :: q :: r :: s :: vs =>
      match b64_bytes vs with
      | Some bytes => Some (p * 4 + q / 16 :: q mod 16 * 16 + r / 4 :: r mod 4 * 64 + s :: bytes)
      | None => None
      end
  | [p; q; r] => Some [p * 4 + q / 16; q mod 16 * 16 + r / 4]
  | [p; q] => Some [p * 4 + q / 16]
  | [_] => None
  | [] => Some []
  end.

(** [_b64u_decode], of a segment of the alphabet; [None] when it raises. *)
Definition _b64u_decode (text : string) : option (list Z) :=
  match b64_values text with Some vs => b64_bytes vs | None => None end.

Definition in_alphabet (c : ascii) : bool := match b64_val c with Some _ => true | None => false end.

Definition _require_b64url (segment : string) : bool := nonempty segment && str_all in_alphabet segment.

(** ** Signing *)

Definition _mac (secret payload_segment : string) : string :=
  _b64u_encode (hmac_sha256 (str_bytes secret) (str_bytes payload_segment)).

Definition compact_sorted : dumps_opts :=
  {| item_sep := ","; key_sep := ":"; sort_keys := true; ensure_ascii := true; default_str := false |}.

Definition _sign (secret : string) (claims : list (val * val)) : res string :=
  text ← dumps compact_sorted (VDict claims);
  let payload := _b64u_encode (str_bytes text) in
  Ok (payload ++ "." ++ _mac secret payload)%string.

(** ** Verifying *)

Fixpoint bytes_str (bytes : list Z) : string :=
  match bytes with [] => EmptyString | b :: bytes => String (byte_of b) (bytes_str bytes) end.

(** Text, when the bytes are UTF-8 (lone surrogates included). *)
Definition utf8_text (bytes : list Z) : option string :=
  let s := bytes_str bytes in
  let cps := utf8_decode s in
  if String.eqb (String.concat "" (map utf8_encode cps)) s && forallb (fun cp => cp <? 1114112) cps then Some s else None.

(** A claim that is a number and no truth value. *)
Definition number_claim (claims : list (val * val)) (key : string) : res val :=
  let v := dict_get claims key in
  if is_int_or_float v && negb (is_bool v) then Ok v else Raise IdentityError.

Definition read_claims (payload_segment : string) : res (list (val * val)) :=
  match _b64u_decode payload_segment with
  | Some bytes =>
      match utf8_text bytes with
      | Some text => match loads text with Ok (VDict claims) => Ok claims | _ => Raise IdentityError end
      | None => Raise IdentityError
      end
  | None => Raise IdentityError
  end.

Definition _verify (secret : string) (token : option string) (now : float) : res (list (val * val)) :=
  let token := strip (default "" token) in
  if negb (nonempty token) then Raise IdentityError
  else if MAX_TOKEN_CHARS <? str_len token then Raise IdentityError
  else
    match split_char "." token with
    | [payload_segment; provided_mac] =>
        if negb (_require_b64url payload_segment) || negb (_require_b64url provided_mac) then Raise IdentityError
        else if negb (String.eqb (_mac secret payload_segment) provided_mac) then Raise IdentityError
        else
          claims ← read_claims payload_segment;
          exp ← number_claim claims "exp";
          exp ← py_float exp;
          if PrimFloat.ltb (exp + 30) now then Raise IdentityError
          else
            iat ← number_claim claims "iat";
            iat ← py_float iat;
            if PrimFloat.ltb (now + 30) iat then Raise IdentityError else Ok claims
    | _ => Raise IdentityError
    end.

(** A claim that names someone. *)
Definition named_claim (claims : list (val * val)) (key : string) : res string :=
  match dict_get claims key with
  | VStr s => if nonempty (strip s) then Ok (strip s) else Raise IdentityError
  | _ => Raise IdentityError
  end.

(** [issued + ttl] *)
Definition signed_claims (key name : string) (ttl : Z) (issued : val) : res (list (val * val)) :=
  exp ← py_add issued (VInt ttl);
  Ok [(VStr key, VStr name); (VStr "iat", issued); (VStr "exp", exp)].

Definition sign_as (e : env) (env_name key name : string) (ttl : Z) (now : val) : res string :=
  let name := strip name in
  if negb (nonempty name) then Raise IdentityError
  else
    secret ← _secret e env_name;
    claims ← signed_claims key name ttl now;
    _sign secret claims.

Definition sign_identity (e : env) (user_id : string) (ttl : Z) (now : val) : res string :=
  sign_as e ENV_IDENTITY_SECRET "sub" user_id ttl now.

Definition sign_service (e : env) (service : string) (ttl : Z) (now : val) : res string :=
  sign_as e ENV_SERVICE_SECRET "svc" service ttl now.

Definition verify_as (e : env) (env_name key : string) (token : option string) (now : float) : res string :=
  secret ← _secret e env_name;
  claims ← _verify secret token now;
  named_claim claims key.

Definition verify_identity_token (e : env) (token : option string) (now : float) : res string :=
  verify_as e ENV_IDENTITY_SECRET "sub" token now.

Definition verify_service_token (e : env) (token : option string) (now : float) : res string :=
  verify_as e ENV_SERVICE_SECRET "svc" token now.

(** ** Who calls *)

(** A check that an [IdentityError] turns into a refusal. *)
Definition or_401 {A} (m : res A) : reply A :=
  match m with Ok a => Reply a | Raise IdentityError => Refused 401 | Raise e => Failed e end.

Definition resolve_user (e : env) (header : option string) (body_user_id : option string) (now : float) : reply (option string) :=
  if enforcement_enabled e then user_id ← or_401 (verify_identity_token e header now); Reply (Some user_id)
  else
    let from_body := let uid := strip (default "" body_user_id) in if nonempty uid then Some uid else None in
    match header with
    | Some (String _ _) =>
        match verify_identity_token e header now with
        | Ok user_id => Reply (Some user_id)
        | Raise IdentityError => Reply from_body
        | Raise x => Failed x
        end
    | _ => Reply from_body
    end.

Definition require_service (e : env) (header : option string) (now : float) : reply (option string) :=
  if enforcement_enabled e then service ← or_401 (verify_service_token e header now); Reply (Some service)
  else
    match header with
    | Some (String _ _) =>
        match verify_service_token e header now with
        | Ok service => Reply (Some service)
        | Raise IdentityError => Reply None
        | Raise x => Failed x
        end
    | _ => Reply None
    end.

(** ** The shared vector *)

Definition VECTOR_SECRET : string := "0123456789abcdef0123456789abcdef0123456789abcdef0123456789abcdef".
Definition VECTOR_SUB : string := "user_abc123".
Definition VECTOR_IAT : Z := 1700000000.
Definition VECTOR_TTL : Z := 60.

Definition reference_vector : res (string * string) :=
  text ← dumps compact_sorted (VDict [(VStr "sub", VStr VECTOR_SUB); (VStr "iat", VInt VECTOR_IAT); (VStr "exp", VInt (VECTOR_IAT + VECTOR_TTL))]);
  let payload := _b64u_encode (str_bytes text) in
  Ok (payload, _mac VECTOR_SECRET payload).
