(* ===== verification/InternalIdentityFacts.v ===== *)
(** * Verified callers: what an accepted assertion proves

    Base64url and signed tokens round-trip, an accepted assertion carries the MAC of the
    payload it was read from and is inside its time window, and with enforcement on
    only the assertion says who calls. *)

From stdpp Require Import base list strings.
From Stdlib Require Import ZArith Lia Floats Ascii.
From S2P Require Import Prelude PyFloat PyRound PyNum PyQuot PyVal PyEnv PyJson PyStr Sha256 JsonFacts InternalIdentity.

#[local] Set Warnings "-inexact-float".
#[local] Open Scope Z_scope.

(** The vector the other implementations pin. *)
Example reference_vector_pinned :
  (p ← reference_vector; Ok (p.1, String.length p.2))
  = Ok ("eyJleHAiOjE3MDAwMDAwNjAsImlhdCI6MTcwMDAwMDAwMCwic3ViIjoidXNlcl9hYmMxMjMifQ"%string, 43%nat).
Proof. vm_compute. reflexivity. Qed.

(** ** Base64url *)

Definition is_byte (b : Z) : Prop := 0 <= b < 256.

Lemma b64_val_char v : 0 <= v < 64 -> b64_val (b64_char v) = Some v.
Proof. intros H. apply (zrange_In 0 64) in H. cbn in H. by repeat (destruct H as [<-|H]; [done|]). Qed.

(** Bytes taken three at a time, as the encoder takes them. *)
Lemma triple_ind (P : list Z -> Prop) :
  P [] -> (forall a, P [a]) -> (forall a b, P [a; b]) -> (forall a b c l, P l -> P (a :: b :: c :: l)) -> forall l, P l.
Proof.
  intros H0 H1 H2 H3. assert (forall n l, (length l <= n)%nat -> P l) as H; [|intros l; by apply (H (length l))].
  induction n as [|n IH]; intros [|a [|b [|c l]]] L; cbn in L; auto; try lia. apply H3, IH. lia.
Qed.

Ltac sextets := repeat first [rewrite b64_val_char by (Z.to_euclidean_division_equations; lia)].

(** The encoder's characters are the values the decoder regroups into the same bytes. *)
Lemma b64_encode_values bytes :
  Forall is_byte bytes -> exists vs, b64_values (b64_encode bytes) = Some vs /\ b64_bytes vs = Some bytes.
Proof.
  unfold is_byte. induction bytes as [|a|a b|a b c l IH] using triple_ind; intros H; decompose_Forall_hyps.
  - by exists [].
  - cbn [b64_encode b64_values]. sextets. eexists. split; [done|]. cbn [b64_bytes]. do 2 f_equal.
    Z.to_euclidean_division_equations; lia.
  - cbn [b64_encode b64_values]. sextets. eexists. split; [done|]. cbn [b64_bytes]. f_equal.
    f_equal; [|f_equal]; Z.to_euclidean_division_equations; lia.
  - destruct IH as (vs & E1 & E2); [done|]. cbn [b64_encode b64_values]. sextets. rewrite E1.
    eexists. split; [done|]. cbn [b64_bytes]. rewrite E2. f_equal.
    f_equal; [|f_equal; [|f_equal]]; Z.to_euclidean_division_equations; lia.
Qed.

Lemma b64_values_alphabet text vs : b64_values text = Some vs -> str_all in_alphabet text = true.
Proof.
  revert vs. induction text as [|c text IH]; intros vs H; [done|]. cbn [b64_values str_all] in *. unfold in_alphabet at 1.
  destruct (b64_val c); [|done]. destruct (b64_values text) as [ws|] eqn:E; [|done]. by rewrite (IH ws).
Qed.

Lemma alphabet_plain c : in_alphabet c = true -> is_space c = false /\ Ascii.eqb c "." = false.
Proof. destruct c as [[] [] [] [] [] [] [] []]; vm_compute; done. Qed.

Lemma split_char_single c s : str_all (fun d => negb (Ascii.eqb d c)) s = true -> split_char c s = [s].
Proof.
  induction s as [|d s IH]; [done|]. cbn [str_all split_char]. intros [Hd%negb_true_iff Hs]%andb_prop. by rewrite Hd, IH.
Qed.

Lemma split_char_two c s t :
  str_all (fun d => negb (Ascii.eqb d c)) s = true -> split_char c (s ++ String c t) = s :: split_char c t.
Proof.
  induction s as [|d s IH]; cbn [str_all].
  - intros _. change ("" ++ String c t)%string with (String c t). cbn [split_char]. by rewrite Ascii.eqb_refl.
  - intros [Hd%negb_true_iff Hs]%andb_prop. change (String d s ++ String c t)%string with (String d (s ++ String c t)).
    cbn [split_char]. by rewrite Hd, IH.
Qed.

Lemma alphabet_solid s : str_all in_alphabet s = true ->
  str_all (fun c => negb (is_space c)) s = true /\ str_all (fun c => negb (Ascii.eqb c ".")) s = true.
Proof. split; (eapply str_all_impl; [|done]); intros c [E1 E2]%alphabet_plain; by rewrite ?E1, ?E2. Qed.

(** A token of two segments of the alphabet is read as those segments. *)
Lemma token_segments p m :
  str_all in_alphabet p = true -> str_all in_alphabet m = true -> p <> EmptyString -> m <> EmptyString ->
  strip (p ++ "." ++ m) = (p ++ "." ++ m)%string /\ split_char "." (p ++ "." ++ m) = [p; m] /\
  nonempty (p ++ "." ++ m) = true /\ _require_b64url p = true /\ _require_b64url m = true.
Proof.
  intros Hp Hm Np Nm. destruct (alphabet_solid p Hp) as [Sp Dp], (alphabet_solid m Hm) as [Sm Dm]. split; [|split; [|split; [|split]]].
  - apply strip_solid. rewrite !str_all_app, Sp, Sm. done.
  - change ("." ++ m)%string with (String "." m). by rewrite split_char_two, split_char_single.
  - by destruct p.
  - unfold _require_b64url. rewrite Hp. by destruct p.
  - unfold _require_b64url. rewrite Hm. by destruct m.
Qed.

(** ** Bytes *)

Lemma str_bytes_byte s : Forall is_byte (str_bytes s).
Proof.
  induction s as [|c s IH]; [done|]. cbn [str_bytes]. constructor; [|done]. unfold is_byte, code_of.
  pose proof (Ascii.N_ascii_bounded c). lia.
Qed.

Lemma bytes_str_bytes s : bytes_str (str_bytes s) = s.
Proof. induction s as [|c s IH]; [done|]. cbn [str_bytes bytes_str]. by rewrite IH, byte_of_code. Qed.

Lemma be_bytes_byte n z : Forall is_byte (be_bytes n z).
Proof.
  induction n as [|n IH]; [done|]. cbn [be_bytes]. constructor; [|done]. unfold is_byte. change 255 with (Z.ones 8).
  rewrite Z.land_ones by lia. apply Z.mod_pos_bound. lia.
Qed.

Lemma digest_byte bytes : Forall is_byte (digest bytes).
Proof. unfold digest. apply Forall_concat, Forall_map, Forall_true. intros h. apply be_bytes_byte. Qed.

Lemma utf8_text_ascii s : str_all is_ascii s = true -> utf8_text (str_bytes s) = Some s.
Proof.
  intros [E F]%ascii_recoded. unfold utf8_text. rewrite bytes_str_bytes, E, String.eqb_refl. cbn [andb].
  replace (forallb _ _) with true; [done|]. symmetry. apply forallb_forall. intros cp Hcp.
  rewrite forallb_forall in F. specialize (F cp Hcp). rewrite Z.ltb_lt in *. lia.
Qed.

Lemma mac_alphabet secret payload : str_all in_alphabet (_mac secret payload) = true /\ _mac secret payload <> EmptyString.
Proof.
  unfold _mac, _b64u_encode, hmac_sha256. set (d := digest _). pose proof (digest_byte _ : Forall is_byte d) as H.
  destruct (b64_encode_values d H) as (vs & E & _). split; [by apply b64_values_alphabet in E|].
  assert (length d = 32%nat) as L by apply digest_length. destruct d as [|a [|b [|c l]]]; try done.
Qed.

(** ** Signed, then verified *)

Lemma str_all_lstrip p s : str_all p s = true -> str_all p (lstrip s) = true.
Proof. induction s as [|c s IH]; [done|]. cbn [str_all lstrip]. intros H. pose proof H as [Hc Hs]%andb_prop. destruct (is_space c); auto. Qed.

Lemma str_all_rstrip p s : str_all p s = true -> str_all p (rstrip s) = true.
Proof.
  induction s as [|c s IH]; [done|]. cbn [str_all rstrip]. intros [Hc Hs]%andb_prop. specialize (IH Hs).
  destruct (rstrip s); [destruct (is_space c); cbn; by rewrite ?Hc|]. cbn [str_all] in *. by rewrite Hc.
Qed.

Lemma str_all_strip p s : str_all p s = true -> str_all p (strip s) = true.
Proof. intros H. by apply str_all_rstrip, str_all_lstrip. Qed.

Lemma digit_char_ascii d : 0 <= d < 10 -> is_ascii (digit_char d) = true.
Proof. intros H. apply (zrange_In 0 10) in H. cbn in H. by repeat (destruct H as [<-|H]; [done|]). Qed.

Lemma json_int_ascii z t : json_int z = Ok t -> str_all is_ascii t = true.
Proof.
  unfold json_int. destruct (_ <=? _); [done|]. intros [= <-]. unfold Z_str, Z_digits.
  assert (forall f z acc, str_all is_ascii acc = true -> str_all is_ascii (Z_digits_aux f z acc) = true) as A.
  { clear. induction f as [|f IH]; intros z acc H; [done|]. cbn [Z_digits_aux].
    assert (str_all is_ascii (String (digit_char (z mod 10)) acc) = true).
    { cbn [str_all]. rewrite digit_char_ascii by (apply Z.mod_pos_bound; lia). done. }
    destruct (_ =? 0); auto. }
  destruct (_ <? _); [change (str_all is_ascii (Z_digits_aux (S (Z.to_nat (Z.log2 (- z)))) (- z) "") = true)|]; by apply A.
Qed.

(** A time as the signer has it: an integer, or a float from 1 up to [2 ^ 53]. *)
Definition timestamp (v : val) : Prop := (exists z, v = VInt z) \/ exists x, v = VFloat x /\ plain_range x.

Lemma timestamp_text v t : timestamp v -> dumps compact_sorted v = Ok t -> reads_as t v /\ str_all is_ascii t = true.
Proof.
  intros [[z ->]|(x & -> & R)] H; cbn [dumps] in H.
  - split; [by apply reads_int|by apply json_int_ascii in H].
  - unfold json_float in H. pose proof (proj1 R) as F. rewrite (fin_not_nan x F) in H.
    assert (is_infinity x = false) as I by (unfold fin, is_finite in F; by destruct (is_nan x), (is_infinity x)). rewrite I in H. injection H as <-.
    split; [by apply reads_float|by apply float_repr_ascii].
Qed.

(** The claims as the verifier reads them: members in key order. *)
Definition claim_members (key name : string) (issued expires : val) (ti tx : string) : list member :=
  [("exp", tx, expires); ("iat", ti, issued); (key, json_str true name, VStr name)]%string.

Lemma dumps_claims key name issued expires text :
  key = "sub"%string \/ key = "svc"%string ->
  dumps compact_sorted (VDict [(VStr key, VStr name); (VStr "iat", issued); (VStr "exp", expires)]) = Ok text ->
  exists ti tx, dumps compact_sorted issued = Ok ti /\ dumps compact_sorted expires = Ok tx /\
    text = ("{" ++ String.concat "," (map member_text (claim_members key name issued expires ti tx)) ++ "}")%string.
Proof.
  intros [-> | ->]; cbn [dumps]; change (sort_keys compact_sorted) with true; cbn [str_keys forallb is_str fst andb negb];
    cbn [json_key]; (destruct (dumps compact_sorted issued) as [ti|]; [|done]); (destruct (dumps compact_sorted expires) as [tx|]; [|done]);
    intros [= <-]; by exists ti, tx.
Qed.

Lemma claim_members_ok key name issued expires ti tx :
  key = "sub"%string \/ key = "svc"%string -> str_all plain name = true -> reads_as ti issued -> reads_as tx expires ->
  Forall member_ok (claim_members key name issued expires ti tx).
Proof.
  intros Hk Hn Hi Hx. repeat constructor; cbn [fst snd]; try done; try (by apply reads_str).
  by destruct Hk as [-> | ->].
Qed.

Lemma str_all_concat p sep l :
  str_all p sep = true -> Forall (fun s => str_all p s = true) l -> str_all p (String.concat sep l) = true.
Proof.
  intros Hs. induction l as [|s l IH]; [done|]. intros [H Hl]%Forall_cons. destruct l as [|t l]; [done|].
  change (String.concat sep (s :: t :: l)) with (s ++ (sep ++ String.concat sep (t :: l)))%string.
  by rewrite !str_all_app, H, Hs, IH.
Qed.

Lemma claims_text_ascii key name issued expires ti tx :
  key = "sub"%string \/ key = "svc"%string -> str_all plain name = true -> str_all is_ascii ti = true -> str_all is_ascii tx = true ->
  str_all is_ascii ("{" ++ String.concat "," (map member_text (claim_members key name issued expires ti tx)) ++ "}") = true.
Proof.
  intros Hk Hn Hi Hx. rewrite !str_all_app.
  rewrite str_all_concat; [done..|]. unfold claim_members, member_text. cbn [map fst snd].
  repeat constructor; rewrite !str_all_app, ?json_str_ascii, ?Hi, ?Hx; try done; by destruct Hk as [-> | ->].
Qed.

(** C16: an assertion signed for a name of printable ASCII characters other than the quote
    and the backslash is accepted, for that name, by a verifier with the same secret, as
    long as the verifier's clock is inside the window and the token fits the header limit.
    The times of issue and of expiry may be integers, or floats from 1 up to 2^53, as a
    clock gives them: the text of such a float is read back as the same float. *)
Theorem signed_is_accepted e env_name key name ttl issued expires token exp iat now :
  key = "sub"%string \/ key = "svc"%string -> str_all plain name = true -> timestamp issued ->
  sign_as e env_name key name ttl issued = Ok token ->
  str_len token <= MAX_TOKEN_CHARS ->
  py_add issued (VInt ttl) = Ok expires -> timestamp expires ->
  py_float expires = Ok exp -> PrimFloat.ltb (exp + 30) now = false ->
  py_float issued = Ok iat -> PrimFloat.ltb (now + 30) iat = false ->
  verify_as e env_name key (Some token) now = Ok (strip name).
Proof.
  intros Hk Hn Ti Hs Hlen Ha Tx Hexp Lexp Hiat Liat. apply (str_all_strip plain) in Hn. unfold sign_as in Hs. pose proof (strip_idemp name) as Hst.
  destruct (nonempty (strip name)) eqn:Hne; [|done]. set (n := strip name) in *. cbn [negb] in Hs.
  apply bind_Ok in Hs as (secret & Hsec & Hs). apply bind_Ok in Hs as (claims & Hc & Hs).
  unfold signed_claims in Hc. rewrite Ha in Hc. apply Ok_inj in Hc as <-. unfold _sign in Hs. apply bind_Ok in Hs as (text & Ht & [= <-]).
  apply dumps_claims in Ht as (ti & tx & Ei & Ex & Et); [|done]. apply timestamp_text in Ei as [Ri Ai], Ex as [Rx Ax]; [|done..].
  pose proof (claims_text_ascii key n issued expires ti tx Hk Hn Ai Ax) as Asc.
  pose proof (loads_flat (claim_members key n issued expires ti tx) ltac:(done) (claim_members_ok _ _ _ _ _ _ Hk Hn Ri Rx)) as L.
  rewrite <- Et in Asc, L. destruct (b64_encode_values (str_bytes text) (str_bytes_byte _)) as (vs & Ev & Eb).
  set (p := _b64u_encode (str_bytes text)) in *.
  assert (read_claims p = Ok [(VStr "exp", expires); (VStr "iat", issued); (VStr key, VStr n)]) as R.
  { unfold read_claims, _b64u_decode, p, _b64u_encode. rewrite Ev, Eb, utf8_text_ascii, L by done. by destruct Hk as [-> | ->]. }
  assert (p <> EmptyString) as Np.
  { intros E. change (b64_values p = Some vs) in Ev. rewrite E in Ev. injection Ev as <-. injection Eb as Eb.
    apply (f_equal bytes_str) in Eb. rewrite bytes_str_bytes, Et in Eb. discriminate Eb. }
  destruct (mac_alphabet secret p) as [Hm Nm].
  destruct (token_segments p (_mac secret p) (b64_values_alphabet p vs Ev) Hm Np Nm) as (T1 & T2 & T3 & T4 & T5).
  unfold verify_as. rewrite Hsec. cbn [mbind res_bind]. unfold _verify. cbv zeta.
  change (default "" (Some ?t)) with t. rewrite T1, T2, T3, T4, T5, String.eqb_refl.
  cbn [negb orb]. rewrite (proj2 (Z.ltb_ge _ _) Hlen), R. cbn [mbind res_bind].
  set (C := [_; _; _]). assert (forall k v, dict_get C k = v -> timestamp v -> number_claim C k = Ok v) as Nc.
  { intros k v Hv. unfold number_claim. rewrite Hv. by intros [[z ->]|(x & -> & _)]. }
  rewrite (Nc "exp"%string expires eq_refl Tx). cbn [mbind res_bind]. rewrite Hexp. cbn [mbind res_bind]. rewrite Lexp.
  rewrite (Nc "iat"%string issued eq_refl Ti). cbn [mbind res_bind]. rewrite Hiat. cbn [mbind res_bind]. rewrite Liat.
  cbn [mbind res_bind]. unfold named_claim.
  assert (dict_get C key = VStr n) as -> by (by destruct Hk as [-> | ->]). by rewrite Hst, Hne.
Qed.

(** A deployment with both secrets, and enforcement as asked. *)
Definition demo_env (enforced : bool) : env := fun name =>
  if String.eqb name ENV_IDENTITY_SECRET then Some VECTOR_SECRET
  else if String.eqb name ENV_SERVICE_SECRET then Some "fedcba9876543210fedcba9876543210"%string
  else if String.eqb name ENV_REQUIRE_IDENTITY then Some (if enforced then " On " else "")%string
  else None.

Definition demo_token (e : env) (name : string) (issued : Z) : string :=
  match sign_identity e name DEFAULT_TTL_SECONDS (VInt issued) with Ok token => token | Raise _ => EmptyString end.

Definition demo_signed : string := Eval vm_compute in demo_token (demo_env true) VECTOR_SUB VECTOR_IAT.

(** One issued at a quarter past a second. *)
Definition demo_float_signed : string :=
  Eval vm_compute in match sign_identity (demo_env true) VECTOR_SUB DEFAULT_TTL_SECONDS (VFloat 1700000000.25) with Ok token => token | Raise _ => EmptyString end.

Lemma signed_is_accepted_witness :
  verify_as (demo_env true) ENV_IDENTITY_SECRET "sub" (Some demo_float_signed) 1700000080 = Ok (strip VECTOR_SUB).
Proof.
  assert (forall x, fin x = true -> (two1074 <=? frank x) = true -> (frank x <? 2 ^ 53 * two1074) = true -> timestamp (VFloat x)) as T.
  { intros x F L U. right. exists x. split; [done|]. split; [exact F|]. split; [by apply Z.leb_le|by apply Z.ltb_lt]. }
  exact (signed_is_accepted (demo_env true) ENV_IDENTITY_SECRET "sub" VECTOR_SUB 60 (VFloat 1700000000.25) (VFloat 1700000060.25) demo_float_signed
    1700000060.25 1700000000.25 1700000080
    (or_introl eq_refl) eq_refl (T 1700000000.25%float ltac:(by vm_compute) ltac:(by vm_compute) ltac:(by vm_compute)) ltac:(by vm_compute) ltac:(by vm_compute)
    ltac:(by vm_compute) (T 1700000060.25%float ltac:(by vm_compute) ltac:(by vm_compute) ltac:(by vm_compute))
    ltac:(by vm_compute) ltac:(by vm_compute) ltac:(by vm_compute) ltac:(by vm_compute)).
Defined.

(** ** What acceptance proves *)

Lemma split_char_join c s : exists w ws, split_char c s = w :: ws /\ s = fold_left (fun acc x => acc ++ String c x)%string ws w.
Proof.
  induction s as [|d s (w & ws & E & IH)]; [by exists EmptyString, []|]. cbn [split_char]. destruct (Ascii.eqb_spec d c) as [->|].
  - exists EmptyString, (split_char c s). split; [done|]. rewrite E. cbn [fold_left]. rewrite IH at 1.
    clear. change ("" ++ String c w)%string with (String c w). revert w. induction ws as [|x ws IH]; intros w; [done|].
    cbn [fold_left]. rewrite IH. done.
  - rewrite E. exists (String d w), ws. split; [done|]. rewrite IH. clear. revert w. induction ws as [|x ws IH]; intros w; [done|].
    cbn [fold_left]. by rewrite IH.
Qed.

Lemma split_char_pair c s p m : split_char c s = [p; m] -> s = (p ++ String c m)%string.
Proof. destruct (split_char_join c s) as (w & ws & E & ->). rewrite E. by intros [= -> ->]. Qed.

Lemma number_claim_inv claims key v : number_claim claims key = Ok v -> v = dict_get claims key.
Proof. unfold number_claim. destruct (_ && _); [by intros [= <-]|done]. Qed.

Lemma number_claim_float claims key v x : number_claim claims key = Ok v -> py_float v = Raise x -> x = OverflowError.
Proof.
  unfold number_claim. destruct (dict_get claims key); cbn; try done; intros [= <-]; cbn; [|done].
  unfold int_to_float. destruct (is_finite _); [done|]. by intros [= <-].
Qed.

(** What a verifier has established about the claims of a payload. *)
Record authentic (secret : string) (token : option string) (now : float) (payload : string)
    (claims : list (val * val)) (exp iat : float) : Prop := {
  au_token : strip (default "" token) = (payload ++ "." ++ _mac secret payload)%string;
  au_size : str_len (strip (default "" token)) <= MAX_TOKEN_CHARS;
  au_claims : read_claims payload = Ok claims;
  au_exp : py_float (dict_get claims "exp") = Ok exp;
  au_live : PrimFloat.ltb (exp + 30) now = false;
  au_iat : py_float (dict_get claims "iat") = Ok iat;
  au_past : PrimFloat.ltb (now + 30) iat = false;
}.

Lemma _verify_authentic secret token now claims :
  _verify secret token now = Ok claims -> exists payload exp iat, authentic secret token now payload claims exp iat.
Proof.
  unfold _verify. destruct (nonempty _); [|done]. cbn [negb]. destruct (Z.ltb_spec MAX_TOKEN_CHARS (str_len (strip (default "" token)))); [done|].
  destruct (split_char _ _) as [|p [|m [|]]] eqn:Es; try done. destruct (_ || _); [done|].
  destruct (String.eqb_spec (_mac secret p) m) as [<-|]; [|done]. cbn [negb]. intros (cs & Hc & H1)%bind_Ok.
  apply bind_Ok in H1 as (v & Hv & H1). apply bind_Ok in H1 as (exp & Hexp & H1). destruct (PrimFloat.ltb (exp + 30) now) eqn:Ee; [done|].
  apply bind_Ok in H1 as (w & Hw & H1). apply bind_Ok in H1 as (iat & Hiat & H1). destruct (PrimFloat.ltb (now + 30) iat) eqn:Ei; [done|].
  apply Ok_inj in H1 as <-. apply number_claim_inv in Hv as ->. apply number_claim_inv in Hw as ->.
  exists p, exp, iat. split; try done. by apply split_char_pair in Es.
Qed.

(** C5: a name that a verifier returns was read from a payload whose MAC, under the
    secret the verifier is configured with (at least 32 characters), is the one the caller
    presented, that has not expired and was not issued in the future (30 seconds of
    clock skew allowed), and it names someone. *)
Theorem accepted_is_authentic e env_name key token now name :
  verify_as e env_name key token now = Ok name ->
  exists secret payload claims exp iat,
    _secret e env_name = Ok secret /\ MIN_SECRET_CHARS <= str_len secret /\
    authentic secret token now payload claims exp iat /\
    (exists s, dict_get claims key = VStr s /\ name = strip s) /\ nonempty name = true.
Proof.
  unfold verify_as. intros (secret & Hs & H)%bind_Ok. apply bind_Ok in H as (claims & Hc & Hn).
  apply _verify_authentic in Hc as (p & exp & iat & Ha). exists secret, p, claims, exp, iat.
  assert (MIN_SECRET_CHARS <= str_len secret) as Hl.
  { unfold _secret in Hs. destruct (nonempty _); [|done]. cbn [negb] in Hs.
    destruct (Z.ltb_spec (str_len (strip (default "" (e env_name)))) MIN_SECRET_CHARS); [done|]. by injection Hs as <-. }
  unfold named_claim in Hn. destruct (dict_get claims key) as [| | | |s| | | | | |] eqn:Ed; try done.
  destruct (nonempty (strip s)) eqn:Es; [|done]. injection Hn as <-. split_and!; try done. by exists s.
Qed.

Lemma accepted_is_authentic_witness :
  exists secret payload claims exp iat,
    _secret (demo_env true) ENV_IDENTITY_SECRET = Ok secret /\ MIN_SECRET_CHARS <= str_len secret /\
    authentic secret (Some demo_signed) 1700000080 payload claims exp iat /\
    (exists s, dict_get claims "sub" = VStr s /\ VECTOR_SUB = strip s) /\ nonempty VECTOR_SUB = true.
Proof.
  exact (accepted_is_authentic (demo_env true) ENV_IDENTITY_SECRET "sub" (Some demo_signed) 1700000080 VECTOR_SUB ltac:(by vm_compute)).
Defined.

(** ** Who calls *)

(** A verifier fails only by refusing, or on an expiry or issue time too large for a float. *)
Lemma verify_as_errors e env_name key token now x :
  verify_as e env_name key token now = Raise x -> x = IdentityError \/ x = OverflowError.
Proof.
  unfold verify_as. destruct (_secret e env_name) as [secret|y] eqn:Es; cbn [mbind res_bind].
  2: { unfold _secret in Es. repeat case_match; simplify_eq; intros [= <-]; by left. }
  destruct (_verify secret token now) as [claims|y] eqn:Ev; cbn [mbind res_bind].
  { unfold named_claim. repeat case_match; try done; intros [= <-]; by left. }
  intros [= <-]. revert Ev. unfold _verify, read_claims. repeat case_match; try (intros [= <-]; by left); cbn [mbind res_bind];
    try (intros [= <-]; by left).
  destruct (number_claim _ "exp") as [v|] eqn:E1; cbn [mbind res_bind]; [|unfold number_claim in E1; case_match; simplify_eq; intros [= <-]; by left].
  destruct (py_float v) as [f|] eqn:E2; cbn [mbind res_bind]; [|intros [= <-]; right; by eapply number_claim_float].
  case_match; [intros [= <-]; by left|].
  destruct (number_claim _ "iat") as [w|] eqn:E3; cbn [mbind res_bind]; [|unfold number_claim in E3; case_match; simplify_eq; intros [= <-]; by left].
  destruct (py_float w) as [g|] eqn:E4; cbn [mbind res_bind]; [|intros [= <-]; right; by eapply number_claim_float].
  case_match; [intros [= <-]; by left|done].
Qed.

(** What a guarded call answers when its check is [m]: the name the check returned, a 401
    exactly when it was refused, an unhandled error otherwise. *)
Definition answers (r : reply (option string)) (m : res string) : Prop :=
  match r with
  | Reply who => exists name, who = Some name /\ m = Ok name
  | Refused status => status = 401 /\ m = Raise IdentityError
  | Failed x => x = OverflowError /\ m = Raise OverflowError
  end.

(** With enforcement on, and only assertions to go by, a service that
    started has both secrets; who calls is the name its assertion
    proves, whatever the body says, no request goes on without one, and a request with no
    assertion is refused. *)
Theorem enforced_callers e header body now :
  assert_startup_config e = true -> enforcement_enabled e = true ->
  is_ok (_secret e ENV_IDENTITY_SECRET) = true /\ is_ok (_secret e ENV_SERVICE_SECRET) = true /\
  answers (resolve_user e header body now) (verify_identity_token e header now) /\
  answers (require_service e header now) (verify_service_token e header now) /\
  resolve_user e None body now = Refused 401 /\ require_service e None now = Refused 401.
Proof.
  unfold assert_startup_config, resolve_user, require_service. intros H Hon. rewrite Hon in *. cbn [negb orb] in H. apply andb_prop in H as [H1 H2].
  assert (forall env_name key, answers (name ← or_401 (verify_as e env_name key header now); Reply (Some name)) (verify_as e env_name key header now)) as A.
  { intros env_name key. destruct (verify_as e env_name key header now) as [name|x] eqn:E; [by exists name|].
    by apply verify_as_errors in E as [-> | ->]. }
  assert (forall env_name key, is_ok (_secret e env_name) = true -> or_401 (verify_as e env_name key None now) = Refused 401) as N.
  { intros env_name key. unfold verify_as. by destruct (_secret e env_name). }
  split_and!; try done; try apply A.
  - unfold verify_identity_token. by rewrite N.
  - unfold verify_service_token. by rewrite N.
Qed.

Lemma enforced_callers_witness :
  is_ok (_secret (demo_env true) ENV_IDENTITY_SECRET) = true /\ is_ok (_secret (demo_env true) ENV_SERVICE_SECRET) = true /\
  answers (resolve_user (demo_env true) (Some demo_signed) (Some "mallory"%string) 1700000080)
    (verify_identity_token (demo_env true) (Some demo_signed) 1700000080) /\
  answers (require_service (demo_env true) (Some demo_signed) 1700000080) (verify_service_token (demo_env true) (Some demo_signed) 1700000080) /\
  resolve_user (demo_env true) None (Some "mallory"%string) 1700000080 = Refused 401 /\
  require_service (demo_env true) None 1700000080 = Refused 401.
Proof.
  exact (enforced_callers (demo_env true) (Some demo_signed) (Some "mallory"%string) 1700000080 eq_refl eq_refl).
Defined.

(** A user assertion does not open the service route, and off enforcement the body is trusted. *)
Example demo_callers :
  (resolve_user (demo_env true) (Some demo_signed) (Some "mallory") 1700000080,
   require_service (demo_env true) (Some demo_signed) 1700000080,
   resolve_user (demo_env true) (Some demo_signed) None 1700000091,
   resolve_user (demo_env false) None (Some " mallory ") 1700000091,
   resolve_user (demo_env false) (Some demo_signed) (Some "mallory") 1700000091,
   resolve_user (demo_env false) (Some demo_signed) (Some "mallory") 1700000080)
  = (Reply (Some VECTOR_SUB), Refused 401, Refused 401, Reply (Some "mallory"), Reply (Some "mallory"), Reply (Some VECTOR_SUB))%string.
Proof. vm_compute. reflexivity. Qed.

(** An authentic assertion whose expiry is an integer beyond the largest float is not
    refused: the conversion raises. *)
Example endless_expiry_fails :
  resolve_user (demo_env true) (Some (demo_token (demo_env true) VECTOR_SUB (10 ^ 400))) None 1700000080 = Failed OverflowError.
Proof. vm_compute. reflexivity. Qed.
