(* ===== verification/Entitlements.v ===== *)
(** * Who may see research

    Models [agents/deep-quant-loop/entitlements.py]: which modes need the research
    plan, the cached answers of the entitlement endpoint, and the gate.

    The endpoint is given: for a URL and a timeout it is unreachable or answers a status
    and a body, which may not be JSON.  The clock readings are arguments.  The gate is
    proved to fail closed: it lets a request through only for an exempt mode, with
    enforcement off, or for a user whose grant the endpoint gave, now or within the
    cache's time. *)

From stdpp Require Import base list gmap strings.
From Stdlib Require Import ZArith Lia Floats Ascii.
From S2P Require Import Prelude PyFloat PyNum PyVal PyEnv PyJson PyStr.

#[local] Set Warnings "-inexact-float".
#[local] Open Scope Z_scope.
#[local] Open Scope res_scope.

Definition TERMINAL_MODES : list string := ["VERIFY"]%string.
Definition ENTITLEMENT_ERROR_CODE : string := "entitlement_required".

Definition _env (e : env) (name fallback : string) : string :=
  match e name with
  | Some v => if nonempty v && nonempty (strip v) then strip v else fallback
  | None => fallback
  end.

Definition enforcement_enabled (e : env) : bool := str_in (lower (_env e "SKU_ENFORCE" "0")) true_tokens.

(** [s.rstrip("/")] *)
Fixpoint rstrip_slash (s : string) : string :=
  match s with
  | EmptyString => EmptyString
  | String c s =>
      match rstrip_slash s with
      | EmptyString => if Ascii.eqb c "/" then EmptyString else String c EmptyString
      | t => String c t
      end
  end.

Definition internal_api_base_url (e : env) : string :=
  rstrip_slash (_env e "INTERNAL_API_BASE_URL" "https://api-web.stratai.live").

Definition number_or (fallback : float) (text : string) : float := match parse_float text with Ok x => x | Raise _ => fallback end.

Definition _ttl_seconds (e : env) : float := number_or 300 (_env e "INTERNAL_ENTITLEMENT_TTL" "300").
Definition _timeout_seconds (e : env) : float := number_or 8 (_env e "INTERNAL_API_TIMEOUT" "8").

(** ** The cache *)

(** A user's answer and when it lapses. *)
Definition cache := gmap string (bool * float).

Definition _cached (now : float) (user_id : string) (c : cache) : option bool * cache :=
  match c !! user_id with
  | Some (entitled, expiry) => if PrimFloat.ltb now expiry then (Some entitled, c) else (None, delete user_id c)
  | None => (None, c)
  end.

Definition _store (e : env) (now : float) (user_id : string) (entitled : bool) (c : cache) : cache :=
  <[user_id := (entitled, (now + _ttl_seconds e)%float)]> c.

Definition clear_cache (c : cache) : cache := ∅.

(** ** The endpoint *)

(** [mode] is [None] when it is absent. *)
Definition mode_requires_research (mode : option string) : bool :=
  let normalised := upper (strip (default "" mode)) in
  negb (nonempty normalised) || negb (str_in normalised TERMINAL_MODES).

Definition _extract_entitlement (payload : val) : bool :=
  match payload with
  | VDict d =>
      match dict_get d "data" with
      | VDict data =>
          match dict_get data "canAccessResearch" with
          | VBool true => true
          | _ => match dict_get data "sku" with VStr sku => String.eqb (upper (strip sku)) "RESEARCH" | _ => false end
          end
      | _ => false
      end
  | _ => false
  end.

(** What the endpoint does with a request: nothing, or a status and its body. *)
Definition endpoint := string -> float -> option (Z * res val).

(** The two readings of the clock of a look-up. *)
Record moment := { mo_cached : float; mo_stored : float }.

Section gate.
Context (e : env) (fetch : endpoint).

Definition entitlement_url (uid : string) : string := (internal_api_base_url e ++ "/api/v1/internal/entitlement/" ++ uid)%string.

(** A readable 2xx answer about a user. *)
Definition answered (uid : string) : option val :=
  match fetch (entitlement_url uid) (_timeout_seconds e) with
  | Some (status, Ok payload) => if status / 100 =? 2 then Some payload else None
  | _ => None
  end.

Definition is_research_entitled (m : moment) (user_id : option string) (c : cache) : bool * cache :=
  let uid := strip (default "" user_id) in
  if negb (nonempty uid) then (false, c)
  else
    match _cached (mo_cached m) uid c with
    | (Some entitled, c) => (entitled, c)
    | (None, c) =>
        match answered uid with
        | Some payload => (_extract_entitlement payload, _store e (mo_stored m) uid (_extract_entitlement payload) c)
        | None => (false, c)
        end
    end.

(** [None] when the request may proceed, the message of the [EntitlementError] otherwise. *)
Definition require_research_entitlement (m : moment) (user_id mode : option string) (c : cache) : option string * cache :=
  if negb (mode_requires_research mode) then (None, c)
  else if negb (enforcement_enabled e) then (None, c)
  else
    let uid := strip (default "" user_id) in
    if negb (nonempty uid) then
      (Some "This analysis requires a RESEARCH subscription. No authenticated user was supplied with the request."%string, c)
    else
      match is_research_entitled m (Some uid) c with
      | (true, c) => (None, c)
      | (false, c) =>
          (Some "This analysis requires a RESEARCH subscription. Trade recommendations are available only to subscribers of our SEBI-registered research service."%string, c)
      end.
End gate.

(** ** A grant has a source *)

(** One look-up, with the endpoint as it answers then, or a cleared cache. *)
Inductive lookup := Ask (fetch : endpoint) (m : moment) (user_id : option string) | Clear.

Definition look (e : env) (l : lookup) (c : cache) : cache :=
  match l with
  | Ask fetch m user_id => (is_research_entitled e fetch m user_id c).2
  | Clear => clear_cache c
  end.

(** The endpoint answered the look-up of a user, for or against, at a time. *)
Definition told (e : env) (uid : string) (entitled : bool) (stored : float) (l : lookup) : Prop :=
  match l with
  | Ask fetch m user_id =>
      strip (default "" user_id) = uid /\ mo_stored m = stored /\
      exists payload, answered e fetch uid = Some payload /\ _extract_entitlement payload = entitled
  | Clear => False
  end.

(** Every cached answer is one the endpoint gave since the cache was last cleared. *)
Definition sourced (e : env) (since : list lookup) (c : cache) : Prop :=
  forall uid entitled expiry, c !! uid = Some (entitled, expiry) ->
  exists stored l, In l since /\ told e uid entitled stored l /\ expiry = (stored + _ttl_seconds e)%float.

(** The look-ups since the cache was last cleared. *)
Fixpoint since_clear (acc history : list lookup) : list lookup :=
  match history with
  | [] => acc
  | Clear :: history => since_clear [] history
  | l :: history => since_clear (acc ++ [l]) history
  end.

Definition play (e : env) (history : list lookup) (c : cache) : cache := fold_left (fun c l => look e l c) history c.

Lemma sourced_weaken e l1 l2 c : (forall l, In l l1 -> In l l2) -> sourced e l1 c -> sourced e l2 c.
Proof. intros H S uid b x Hc. destruct (S uid b x Hc) as (t & l & Hin & Ht). eauto. Qed.

Lemma cached_sourced e since now uid c : sourced e since c -> sourced e since (_cached now uid c).2.
Proof.
  unfold _cached. intros S. destruct (c !! uid) as [[b x]|]; [|done]. destruct (PrimFloat.ltb now x); [done|].
  intros u b' x' H. cbn [snd] in H. apply lookup_delete_Some in H as [_ H]. by apply S.
Qed.

Lemma look_sourced e since l c : l <> Clear -> sourced e since c -> sourced e (since ++ [l]) (look e l c).
Proof.
  intros Hl S. destruct l as [fetch m user_id|]; [|done]. apply (sourced_weaken e since (since ++ [Ask fetch m user_id])) in S; [|intros; by apply in_or_app; left].
  cbn [look]. unfold is_research_entitled. set (uid := strip (default "" user_id)). destruct (nonempty uid); [|done]. cbn [negb].
  apply (cached_sourced e _ (mo_cached m) uid) in S. destruct (_cached (mo_cached m) uid c) as [[b|] c1]; [done|].
  destruct (answered e fetch uid) as [payload|] eqn:A; [|done]. intros u b x. unfold _store, cache in *. cbn [snd].
  destruct (decide (u = uid)) as [->|N].
  - rewrite lookup_insert_eq. intros [= <- <-]. exists (mo_stored m), (Ask fetch m user_id).
    split; [apply in_or_app; by right; left|]. split; [|done]. split; [done|]. split; [done|]. by exists payload.
  - rewrite lookup_insert_ne by done. apply S.
Qed.

Lemma sourced_empty e since : sourced e since (∅ : gmap string (bool * float)).
Proof. intros u b x H. unfold cache in H. by rewrite lookup_empty in H. Qed.

Lemma play_sourced e history since c : sourced e since c -> sourced e (since_clear since history) (play e history c).
Proof.
  revert since c. induction history as [|l history IH]; intros since c S; [done|]. cbn [since_clear play fold_left].
  destruct l as [fetch m user_id|]; [apply IH, look_sourced; [done|done]|]. apply IH, sourced_empty.
Qed.

(** C11: the gate fails closed.  After any history of look-ups and cleared caches, a request
    it lets through is in a mode that needs no research plan, or enforcement is off, or it
    names a user whom the endpoint granted research: in its answer to this
    request, or in one it gave since the cache was last cleared and no longer
    ago than the cache keeps answers. *)
Theorem gate_fails_closed e history fetch m user_id mode c' :
  require_research_entitlement e fetch m user_id mode (play e history ∅) = (None, c') ->
  mode_requires_research mode = false \/ enforcement_enabled e = false \/
  let uid := strip (default "" user_id) in
  nonempty uid = true /\
  ((exists payload, answered e fetch uid = Some payload /\ _extract_entitlement payload = true) \/
   exists stored l, In l (since_clear [] history) /\ told e uid true stored l /\
     PrimFloat.ltb (mo_cached m) (stored + _ttl_seconds e) = true).
Proof.
  unfold require_research_entitlement. destruct (mode_requires_research mode); [|by left]. destruct (enforcement_enabled e); [|by right; left].
  cbn [negb]. set (uid := strip (default "" user_id)). destruct (nonempty uid) eqn:Hn; [|done]. cbn [negb].
  unfold is_research_entitled. assert (strip (default "" (Some uid)) = uid) as -> by apply strip_idemp. rewrite Hn. cbn [negb].
  intros H. right. right. split; [done|]. unfold _cached in H. destruct (play e history ∅ !! uid) as [[b x]|] eqn:Hc.
  - destruct (PrimFloat.ltb (mo_cached m) x) eqn:L.
    + destruct b; [|done]. right. destruct (play_sourced e history [] ∅ (sourced_empty e []) uid true x Hc) as (t & l & Hin & Ht & ->). by exists t, l.
    + destruct (answered e fetch uid) as [payload|]; [|done]. left. exists payload. split; [done|]. by destruct (_extract_entitlement payload).
  - destruct (answered e fetch uid) as [payload|]; [|done]. left. exists payload. split; [done|]. by destruct (_extract_entitlement payload).
Qed.

(** Ana is granted research at one moment; a minute later the endpoint is down. *)
Definition gate_env : env := fun name => if String.eqb name "SKU_ENFORCE" then Some "1"%string else None.

Definition granting : endpoint := fun url _ =>
  if String.eqb url "https://api-web.stratai.live/api/v1/internal/entitlement/ana"
  then Some (200, Ok (VDict [(VStr "data", VDict [(VStr "canAccessResearch", VBool true)])])) else Some (404, Raise ValueError).

Definition unreachable : endpoint := fun _ _ => None.

Definition ana_asked : list lookup := [Ask granting {| mo_cached := 1000; mo_stored := 1001 |} (Some " ana "%string)].

Definition a_minute_later : moment := {| mo_cached := 1060; mo_stored := 1060 |}.

Example gate_tests :
  (map (fun '(fetch, m, user) => match (require_research_entitlement gate_env fetch m user (Some "find") (play gate_env ana_asked ∅)).1 with None => true | Some _ => false end)
     [(unreachable, a_minute_later, Some "ana"); (unreachable, a_minute_later, Some "bob"); (granting, a_minute_later, Some "bob"); (granting, a_minute_later, None);
      (unreachable, {| mo_cached := 1301; mo_stored := 1301 |}, Some "ana")]%string,
   (require_research_entitlement gate_env unreachable a_minute_later None (Some " verify ") ∅).1)%string
  = ([true; false; false; false; false], None).
Proof. vm_compute. reflexivity. Qed.

Lemma gate_fails_closed_witness :
  nonempty "ana" = true /\
  ((exists payload, answered gate_env unreachable "ana" = Some payload /\ _extract_entitlement payload = true) \/
   exists stored l, In l (since_clear [] ana_asked) /\ told gate_env "ana" true stored l /\
     PrimFloat.ltb 1060 (stored + _ttl_seconds gate_env) = true).
Proof.
  destruct (gate_fails_closed gate_env ana_asked unreachable a_minute_later (Some "ana"%string) (Some "FIND"%string)
              (play gate_env ana_asked ∅) ltac:(by vm_compute)) as [H|[H|H]]; [discriminate H|discriminate H|exact H].
Defined.
