(* ===== verification/SessionApi.v ===== *)
(** * The session routes

    Models [agents/deep-quant-loop/session_api.py]: who a request comes from, what of it
    is accepted, and each route over the session store.

    A route takes the store and gives its answer: a body and the store after it, a
    refusal with its HTTP status (the store as it was), or an unhandled error.  What the
    framework checks before a route runs (the bounds of the numbers in a query) is part of
    the route here. *)

From stdpp Require Import base list gmap strings.
From Stdlib Require Import ZArith Lia Floats Ascii.
From S2P Require Import Prelude PyFloat PyNum PyVal PyEnv PyJson PyStr SessionStore StreamPersist InternalIdentity.

#[local] Set Warnings "-inexact-float".
#[local] Open Scope Z_scope.
#[local] Open Scope res_scope.

Definition sessions_enabled (e : env) : bool := switched_on e "DEEP_QUANT_SESSIONS_ENABLED".

(** ** Validation *)

Definition VALID_PROFILES : list string := ["INTRADAY"; "SWING"; "INVESTOR"; "FNO"]%string.
Definition MAX_SYMBOL_CHARS : Z := 64.
Definition MAX_TIMEFRAME_CHARS : Z := 16.
Definition MAX_TITLE_CHARS : Z := 200.

Definition control (cp : Z) : bool := (cp <? 32) || (cp =? 127).

Definition _clean (value : string) (cap : Z) : reply string :=
  let text := strip value in
  if negb (nonempty text) then Refused 422
  else if cap <? str_len text then Refused 422
  else if existsb control (utf8_decode text) then Refused 422
  else Reply text.

Definition _clean_profile (value : string) : reply string :=
  text ← _clean value 32;
  if str_in (upper text) VALID_PROFILES then Reply (upper text) else Refused 422.

(** [_clean(value, ...) if value else None] *)
Definition clean_title (value : option string) : reply (option string) :=
  match value with
  | Some (String _ _ as title) => title ← _clean title MAX_TITLE_CHARS; Reply (Some title)
  | _ => Reply None
  end.

(** [Query(ge=..., le=...)] *)
Definition at_least (lo value : Z) : reply () := if lo <=? value then Reply () else Refused 422.
Definition bounded (lo hi value : Z) : reply () := if (lo <=? value) && (value <=? hi) then Reply () else Refused 422.

(** ** Requests *)

(** The headers and the moment of a request, in a deployment. *)
Record call := { cl_env : env; cl_identity : option string; cl_now : float }.

Definition _caller (c : call) : reply string :=
  who ← resolve_user (cl_env c) (cl_identity c) None (cl_now c);
  match who with Some (String _ _ as user_id) => Reply user_id | _ => Refused 401 end.

Definition _not_found {A} : reply A := Refused 404.

Record create_payload := {
  cp_symbol : string; cp_profile : string; cp_timeframe : string; cp_title : option string; cp_metadata : option (list (val * val));
}.

(** [None] for a field that is not supplied, [Some None] for one supplied as null. *)
Record patch_payload := {
  pp_title : option (option string); pp_timeframe : option (option string); pp_status : option (option string);
  pp_active_run_id : option (option string); pp_symbol : option (option string); pp_profile : option (option string);
}.

Record last_run := { lr_run_id : string; lr_kind : run_kind; lr_status : run_status; lr_started : float; lr_ended : option float }.

Record session_summary := {
  sm_session_id : string;
  sm_title : option string; sm_symbol : string; sm_timeframe : string; sm_profile : string; sm_status : session_status;
  sm_created_at : float; sm_updated_at : float; sm_archived_at : option float; sm_active_run_id : option string;
  sm_message_count : Z; sm_last_run : option last_run;
}.

Definition last_run_of (row : string * run_row) : last_run :=
  {| lr_run_id := row.1; lr_kind := rk_kind (rn_key row.2); lr_status := rn_status row.2;
     lr_started := rk_started (rn_key row.2); lr_ended := rn_ended row.2 |}.

Definition _summarise (d : db) (user_id : string) (session : string * session_row) : reply session_summary :=
  let '(session_id, s) := session in
  runs ← plainly (list_runs d session_id (VStr user_id));
  '(_, last_seq) ← plainly (list_messages d session_id (VStr user_id) 0 1);
  Reply {| sm_session_id := session_id; sm_title := se_title s; sm_symbol := sk_symbol (se_key s); sm_timeframe := se_timeframe s;
           sm_profile := sk_profile (se_key s); sm_status := se_status s; sm_created_at := sk_created (se_key s);
           sm_updated_at := se_updated s; sm_archived_at := se_archived s; sm_active_run_id := se_active_run s;
           sm_message_count := last_seq; sm_last_run := last_run_of <$> last runs |}.

Fixpoint mapM_reply {A B} (f : A -> reply B) (l : list A) : reply (list B) :=
  match l with [] => Reply [] | x :: l => y ← f x; ys ← mapM_reply f l; Reply (y :: ys) end.

(** The caller's session, unless it is deleted: missing and not owned answer alike. *)
Definition readable_session (d : db) (session_id user_id : string) : reply session_row :=
  found ← plainly (get_session_for_user d session_id (VStr user_id));
  match found with
  | Some s => if bool_decide (se_status s = SESSION_DELETED) then _not_found else Reply s
  | None => _not_found
  end.

(** ** Routes *)

Module Api.

Definition create_session (stamp : float) (id : draw) (c : call) (payload : create_payload) (d : db) : reply (session_summary * db) :=
  user_id ← _caller c;
  symbol ← _clean (cp_symbol payload) MAX_SYMBOL_CHARS;
  profile ← _clean_profile (cp_profile payload);
  timeframe ← _clean (cp_timeframe payload) MAX_TIMEFRAME_CHARS;
  title ← clean_title (cp_title payload);
  '(d, session) ← plainly (SessionStore.create_session stamp id d (VStr user_id) (VStr symbol) (VStr profile) (VStr timeframe)
                             (optional title) (match cp_metadata payload with Some m => VDict m | None => VNone end));
  summary ← _summarise d user_id session;
  Reply (summary, d).

Definition list_sessions (c : call) (status : option string) (cursor : option string) (limit : Z) (q : option string) (d : db)
  : reply (list session_summary * option string) :=
  _ ← bounded 1 100 limit;
  user_id ← _caller c;
  match status with
  | Some st =>
      if str_in st [session_status_name SESSION_ACTIVE; session_status_name SESSION_ARCHIVED] then
        '(items, next_cursor) ← plainly (SessionStore.list_sessions d (VStr user_id) (Some st) cursor limit q);
        items ← mapM_reply (_summarise d user_id) items;
        Reply (items, next_cursor)
      else Refused 422
  | None => Refused 422
  end.

Definition get_session (c : call) (session_id : string) (d : db) : reply session_summary :=
  user_id ← _caller c;
  s ← readable_session d session_id user_id;
  _summarise d user_id (session_id, s).

Definition _validated_run_target (d : db) (session_id user_id : string) (run_id : option string) : reply (option string) :=
  match run_id with
  | None => Reply None
  | Some id =>
      run ← plainly (get_run_for_user d id (VStr user_id));
      match run with
      | Some r => if String.eqb (rn_session r) session_id then Reply (Some id) else Refused 422
      | None => Refused 422
      end
  end.

(** The patch the store is asked for: each supplied field checked, in this order. *)
Definition accepted_patch (d : db) (session_id user_id : string) (p : patch_payload) : reply (list (string * val)) :=
  title ← match pp_title p with
          | Some t => t ← clean_title t; Reply [("title"%string, optional t)]
          | None => Reply []
          end;
  timeframe ← match pp_timeframe p with
              | Some (Some t) => t ← _clean t MAX_TIMEFRAME_CHARS; Reply [("timeframe"%string, VStr t)]
              | _ => Reply []
              end;
  active_run ← match pp_active_run_id p with
               | Some run_id => run_id ← _validated_run_target d session_id user_id run_id; Reply [("active_run_id"%string, optional run_id)]
               | None => Reply []
               end;
  status ← match pp_status p with
           | Some (Some st) =>
               if str_in st [session_status_name SESSION_ACTIVE; session_status_name SESSION_ARCHIVED]
               then Reply [("status"%string, VStr st)] else Refused 422
           | _ => Reply []
           end;
  Reply (title ++ timeframe ++ active_run ++ status).

(** [update_session], its errors answered as a conflict or a bad request. *)
Definition or_conflict {A} (m : res A) : reply A :=
  match m with
  | Ok a => Reply a
  | Raise ImmutableFieldError => Refused 409
  | Raise ValueError => Refused 422
  | Raise x => Failed x
  end.

Definition patch_session (stamp : float) (c : call) (session_id : string) (p : patch_payload) (d : db) : reply (session_summary * db) :=
  user_id ← _caller c;
  _ ← readable_session d session_id user_id;
  if is_some (pp_symbol p) || is_some (pp_profile p) then Refused 409
  else
    patch ← accepted_patch d session_id user_id p;
    '(d, updated) ← or_conflict (SessionStore.update_session stamp d session_id (VStr user_id) patch);
    match updated with
    | Some s =>
        if bool_decide (se_status s = SESSION_DELETED) then _not_found
        else summary ← _summarise d user_id (session_id, s); Reply (summary, d)
    | None => _not_found
    end.

Definition delete_session (stamp : float) (c : call) (session_id : string) (hard : bool) (d : db) : reply (session_status * db) :=
  user_id ← _caller c;
  '(d, result) ← plainly (SessionStore.delete_session stamp d session_id (VStr user_id) hard);
  match result with Some s => Reply (se_status s, d) | None => _not_found end.

Definition list_messages (c : call) (session_id : string) (after_seq limit : Z) (d : db) : reply (list (string * message_row) * Z) :=
  _ ← at_least 0 after_seq;
  _ ← bounded 1 1000 limit;
  user_id ← _caller c;
  _ ← readable_session d session_id user_id;
  plainly (SessionStore.list_messages d session_id (VStr user_id) after_seq limit).

Definition list_runs (c : call) (session_id : string) (d : db) : reply (list (string * run_row)) :=
  user_id ← _caller c;
  _ ← readable_session d session_id user_id;
  plainly (SessionStore.list_runs d session_id (VStr user_id)).

Definition list_run_events (c : call) (run_id : string) (after_seq limit : Z) (d : db) : reply (list frame * Z) :=
  _ ← at_least 0 after_seq;
  _ ← bounded 1 5000 limit;
  user_id ← _caller c;
  run ← plainly (get_run_for_user d run_id (VStr user_id));
  match run with
  | Some _ => plainly (SessionStore.list_run_events d run_id after_seq limit)
  | None => _not_found
  end.

End Api.
