(* ===== verification/SessionApiFacts.v ===== *)
(** * The session routes: isolation of owners

    What a route answers depends only on the rows of its caller, what it changes are
    only those rows, and a session that is missing, deleted or someone else's is
    answered in one way. *)

From stdpp Require Import base list gmap strings sorting.
From Stdlib Require Import ZArith Lia Floats Ascii.
From S2P Require Import Prelude PyFloat PyNum PyVal PyEnv PyJson PySort PyStr SessionStore SessionStoreFacts SessionPages StreamPersist.
From S2P Require Import InternalIdentity InternalIdentityFacts SessionApi.

#[local] Set Warnings "-inexact-float".
#[local] Open Scope Z_scope.

(** ** The rows of a user *)

Definition owned_by (uid : string) (d : db) (run_id : string) : bool :=
  match runs d !! run_id with Some r => String.eqb (rn_user r) uid | None => false end.

(** The store with the rows of one user and no others. *)
Definition mine (uid : string) (d : db) : db :=
  {| sessions := filter (fun kv => String.eqb (se_user kv.2) uid = true) (sessions d);
     runs := filter (fun kv => String.eqb (rn_user kv.2) uid = true) (runs d);
     messages := filter (fun kv => is_some (owned_session d (ms_session kv.2) uid) = true) (messages d);
     run_events := filter (fun kv => owned_by uid d kv.1.1 = true) (run_events d) |}.

(** Clocks are numbers: what [ORDER BY] needs. *)
Record clocked (d : db) : Prop := {
  cd_session : forall id s, sessions d !! id = Some s -> is_nan (se_updated s) = false;
  cd_run : forall id r, runs d !! id = Some r -> is_nan (rk_started (rn_key r)) = false;
}.

Lemma filter_rows {A} (p q : A -> bool) (t : gmap string A) :
  (forall id a, t !! id = Some a -> p a = true -> q a = true) ->
  rows_where p (filter (fun kv => q kv.2 = true) t) ≡ₚ rows_where p t.
Proof.
  intros H. apply NoDup_Permutation.
  - apply (NoDup_fmap_1 fst), rows_where_NoDup.
  - apply (NoDup_fmap_1 fst), rows_where_NoDup.
  - intros [id a]. rewrite !list_elem_of_In, !rows_where_In, map_lookup_filter_Some. cbn. split; [tauto|].
    intros [Hl Hp]. split; [split; [done|]|done]. by eapply H.
Qed.

Lemma filter_lookup {A} (q : A -> bool) (t : gmap string A) id :
  filter (fun kv => q kv.2 = true) t !! id = match t !! id with Some a => if q a then Some a else None | None => None end.
Proof.
  rewrite map_lookup_filter. destruct (t !! id) as [a|]; [|done]. cbn [mbind option_bind]. case_guard as E; cbn in *; [by rewrite E|].
  by destruct (q a).
Qed.

Lemma head_rows_unique {A} (p : A -> bool) (t1 t2 : list (string * A)) : t1 ≡ₚ t2 -> (length t1 <= 1)%nat -> t1 = t2.
Proof.
  intros E L. destruct t1 as [|x [|y t1]]; cbn in L; [by apply Permutation_nil_l in E|by apply Permutation_singleton_l in E|lia].
Qed.

Section mine.
Context (who uid : string) (d : db) (Hu : _required (VStr who) = Ok uid) (W : wf d) (C : clocked d).

Lemma mine_session id : owned_session (mine uid d) id uid = owned_session d id uid.
Proof.
  unfold owned_session, mine. cbn [sessions]. rewrite (filter_lookup (fun s => String.eqb (se_user s) uid)).
  destruct (sessions d !! id) as [s|]; [|done]. destruct (String.eqb (se_user s) uid) eqn:E; [by rewrite E|done].
Qed.

Lemma mine_run id :
  runs (mine uid d) !! id = match runs d !! id with Some r => if String.eqb (rn_user r) uid then Some r else None | None => None end.
Proof. apply (filter_lookup (fun r => String.eqb (rn_user r) uid)). Qed.

(** A run of an owned session is its owner's. *)
Lemma session_run_owned sid s id r :
  owned_session d sid uid = Some s -> runs d !! id = Some r -> rn_session r = sid -> String.eqb (rn_user r) uid = true.
Proof.
  intros [Hs <-]%owned_session_Some Hr <-. destruct (wf_owner _ W _ _ Hr) as (s' & Hs' & <-).
  assert (s' = s) as -> by congruence. apply String.eqb_refl.
Qed.

Lemma started_before_lex a b :
  is_nan (rk_started (rn_key a.2)) = false -> is_nan (rk_started (rn_key b.2)) = false ->
  started_before a b = lex_ltb (fun row : string * run_row => frank (rk_started (rn_key row.2))) fst a b.
Proof. intros Ha Hb. unfold started_before, lex_ltb. rewrite ltb_rank, eqb_rank, Ha, Hb. done. Qed.

Definition started_ok (row : string * run_row) : Prop := is_nan (rk_started (rn_key row.2)) = false.

(** Runs in order do not depend on how the table is laid out. *)
Lemma sort_runs_unique p l1 (t : gmap string run_row) :
  (forall id r, t !! id = Some r -> is_nan (rk_started (rn_key r)) = false) ->
  l1 ≡ₚ rows_where p t -> sort_by started_before l1 = sort_by started_before (rows_where p t).
Proof.
  intros H E. symmetry. apply (sort_by_unique started_before started_ok).
  - intros a b Ha Hb. rewrite !started_before_lex by done. apply lex_asym.
  - unfold not_after. intros a b c Ha Hb Hc. rewrite !started_before_lex by done. apply lex_le_trans.
  - apply Forall_forall. intros [id r] [Hl _]%list_elem_of_In%rows_where_In. by eapply H.
  - by symmetry.
  - intros [i r] [j r'] Hi Hj. apply list_elem_of_In, rows_where_In in Hi as [Hi _], Hj as [Hj _].
    unfold not_after. rewrite !started_before_lex by (by eapply H). intros A B.
    pose proof (lex_tie _ _ _ _ B A) as K. cbn in K. subst j. congruence.
Qed.

Lemma mine_list_runs sid : list_runs (mine uid d) sid (VStr who) = list_runs d sid (VStr who).
Proof.
  unfold list_runs. rewrite Hu. cbn [mbind res_bind]. rewrite mine_session. destruct (owned_session d sid uid) as [s|] eqn:O; [|done].
  cbn [is_some]. f_equal. apply sort_runs_unique; [apply C|]. unfold mine. cbn [runs]. apply (filter_rows _ (fun r => String.eqb (rn_user r) uid)).
  intros id r Hr E%String.eqb_eq. by eapply session_run_owned.
Qed.

Lemma mine_message_rows sid s : owned_session d sid uid = Some s -> message_rows (mine uid d) sid ≡ₚ message_rows d sid.
Proof.
  intros O. unfold message_rows, mine. cbn [messages]. apply (filter_rows _ (fun m => is_some (owned_session d (ms_session m) uid))).
  intros id m _ ->%String.eqb_eq. by rewrite O.
Qed.

Lemma last_seq_perm sid d1 d2 : message_rows d1 sid ≡ₚ message_rows d2 sid -> last_message_seq d1 sid = last_message_seq d2 sid.
Proof.
  unfold last_message_seq. generalize 0. intros z E. revert z.
  induction E as [|x l1 l2 E IH|x y l|l1 l2 l3 E1 IH1 E2 IH2]; intros z; cbn; [done|apply IH| |by rewrite IH1].
  f_equal. lia.
Qed.

Lemma mine_list_messages sid after_seq limit :
  list_messages (mine uid d) sid (VStr who) after_seq limit = list_messages d sid (VStr who) after_seq limit.
Proof.
  unfold list_messages. rewrite Hu. cbn [mbind res_bind]. rewrite mine_session. destruct (owned_session d sid uid) as [s|] eqn:O; [|done].
  cbn [is_some]. rewrite (last_seq_perm sid (mine uid d) d) by by eapply mine_message_rows. do 4 f_equal.
  symmetry. apply (sort_by_unique message_before (fun _ => True)); unfold not_after, message_before.
  - intros a b _ _. rewrite Z.ltb_lt, Z.ltb_ge. lia.
  - intros a b c _ _ _. rewrite !Z.ltb_ge. lia.
  - by apply Forall_true.
  - symmetry. by eapply mine_message_rows.
  - intros [i m] [j m'] Hi Hj. apply list_elem_of_In, rows_where_In in Hi as [Hi Si%String.eqb_eq], Hj as [Hj Sj%String.eqb_eq].
    cbn. rewrite !Z.ltb_ge. intros A B. assert (i = j) as -> by (eapply (wf_seq _ W); [done..|congruence|lia]). congruence.
Qed.

Lemma mine_get_run id : get_run_for_user (mine uid d) id (VStr who) = get_run_for_user d id (VStr who).
Proof.
  unfold get_run_for_user. rewrite Hu. cbn [mbind res_bind]. rewrite mine_run. destruct (runs d !! id) as [r|]; [|done].
  destruct (String.eqb (rn_user r) uid) eqn:E; [by rewrite E|done].
Qed.

Lemma mine_frames id r : runs d !! id = Some r -> rn_user r = uid -> frames_of (mine uid d) id = frames_of d id.
Proof.
  intros Hr Ho. apply (strictly_sorted_same fst); [apply frames_of_sorted..|]. intros [n e]. rewrite !frames_of_In.
  unfold mine. cbn [run_events]. rewrite map_lookup_filter_Some. cbn. unfold owned_by. rewrite Hr, Ho, String.eqb_refl. tauto.
Qed.

Lemma mine_list_run_events id r after_seq limit :
  runs d !! id = Some r -> rn_user r = uid -> list_run_events (mine uid d) id after_seq limit = list_run_events d id after_seq limit.
Proof. intros Hr Ho. unfold list_run_events. rewrite mine_run, Hr, Ho, String.eqb_refl. by rewrite (mine_frames id r Hr Ho). Qed.

Lemma mine_listing status query : listing (mine uid d) uid status query = listing d uid status query.
Proof.
  assert (forall d' : db, (forall id s, sessions d' !! id = Some s -> is_nan (se_updated s) = false) -> Forall stamped (listing d' uid status query)) as F.
  { intros d' H. apply Forall_forall. intros [id s] Hin. unfold listing in Hin. rewrite sort_by_perm in Hin.
    apply list_elem_of_In, rows_where_In in Hin as [Hl _]. by eapply H. }
  assert (forall id s, sessions (mine uid d) !! id = Some s -> is_nan (se_updated s) = false) as Cm.
  { intros id s [H _]%map_lookup_filter_Some. by eapply (cd_session _ C). }
  assert (listing (mine uid d) uid status query ≡ₚ listing d uid status query) as E.
  { unfold listing. rewrite !sort_by_perm. unfold mine. cbn [sessions]. apply (filter_rows _ (fun s => String.eqb (se_user s) uid)).
    intros id s _. rewrite !andb_true_iff. tauto. }
  apply (StronglySorted_unique_strong (fun x y => newer x y = true)); [|by apply listing_newest_first, F|by apply listing_newest_first, F, (cd_session _ C)|done].
  - intros x y Hx Hy A B. pose proof (F _ Cm) as Fm. pose proof (F d (cd_session _ C)) as Fd. rewrite Forall_forall in Fm, Fd.
    by rewrite (newer_asym x y) in B by eauto.
Qed.

Lemma mine_list_sessions status cursor limit query :
  list_sessions (mine uid d) (VStr who) status cursor limit query = list_sessions d (VStr who) status cursor limit query.
Proof. unfold list_sessions. rewrite Hu. cbn [mbind res_bind]. destruct (match status with Some _ => _ | None => _ end); [|done]. cbn [mbind res_bind]. by rewrite mine_listing. Qed.

Lemma mine_summarise session : _summarise (mine uid d) who session = _summarise d who session.
Proof. unfold _summarise. destruct session as [id s]. by rewrite mine_list_runs, mine_list_messages. Qed.

Lemma mine_readable id : readable_session (mine uid d) id who = readable_session d id who.
Proof. unfold readable_session, get_session_for_user. rewrite Hu. cbn [mbind res_bind]. by rewrite mine_session. Qed.
End mine.

(** C10: a read answers from its caller's rows alone: over a well-formed store
    whose clocks are numbers, every read route gives what it gives over
    the store that holds that user's sessions, runs, messages and frames and nothing
    else.  Whether an identifier of someone else's exists cannot be told from the
    answer. *)
Theorem reads_answer_from_own_rows c d who uid :
  _caller c = Reply who -> _required (VStr who) = Ok uid -> wf d -> clocked d ->
  (forall sid, Api.get_session c sid d = Api.get_session c sid (mine uid d)) /\
  (forall status cursor limit q, Api.list_sessions c status cursor limit q d = Api.list_sessions c status cursor limit q (mine uid d)) /\
  (forall sid after_seq limit, Api.list_messages c sid after_seq limit d = Api.list_messages c sid after_seq limit (mine uid d)) /\
  (forall sid, Api.list_runs c sid d = Api.list_runs c sid (mine uid d)) /\
  (forall rid after_seq limit, Api.list_run_events c rid after_seq limit d = Api.list_run_events c rid after_seq limit (mine uid d)).
Proof.
  intros Hc Hu W C. assert (forall l, mapM_reply (_summarise (mine uid d) who) l = mapM_reply (_summarise d who) l) as M.
  { induction l as [|x l IH]; [done|]. cbn [mapM_reply]. by rewrite (mine_summarise who uid d), IH. }
  split_and!; intros *.
  - unfold Api.get_session. rewrite Hc. cbn [mbind reply_bind]. rewrite (mine_readable who uid d) by done.
    destruct (readable_session d sid who); cbn [mbind reply_bind]; [|done..]. by rewrite (mine_summarise who uid d).
  - unfold Api.list_sessions. rewrite Hc. destruct (bounded 1 100 limit); cbn [mbind reply_bind]; [|done..]. destruct status as [st|]; [|done].
    destruct (str_in st _); [|done]. rewrite (mine_list_sessions who uid d) by done.
    destruct (list_sessions d _ _ _ _ _) as [[items next]|]; cbn; [by rewrite M|done].
  - unfold Api.list_messages. rewrite Hc. destruct (at_least 0 after_seq); cbn [mbind reply_bind]; [|done..].
    destruct (bounded 1 1000 limit); cbn [mbind reply_bind]; [|done..].
    rewrite (mine_readable who uid d), (mine_list_messages who uid d) by done. done.
  - unfold Api.list_runs. rewrite Hc. cbn [mbind reply_bind]. rewrite (mine_readable who uid d), (mine_list_runs who uid d) by done. done.
  - unfold Api.list_run_events. rewrite Hc. destruct (at_least 0 after_seq); cbn [mbind reply_bind]; [|done..].
    destruct (bounded 1 5000 limit); cbn [mbind reply_bind]; [|done..]. rewrite (mine_get_run who uid d) by done.
    unfold get_run_for_user. rewrite Hu. cbn [mbind res_bind plainly reply_bind]. destruct (runs d !! rid) as [r|] eqn:Hr; [|done].
    destruct (String.eqb_spec (rn_user r) uid) as [Ho|]; [|done]. by rewrite (mine_list_run_events uid d rid r).
Qed.

(** ** What a write leaves alone *)

(** The same message, but for the run it names. *)
Definition same_text (m m' : message_row) : Prop :=
  ms_key m' = ms_key m /\ ms_content m' = ms_content m /\ ms_status m' = ms_status m /\ ms_error m' = ms_error m /\
  ms_activity m' = ms_activity m.

(** What belongs to the other users is as it was. *)
Record untouched (uid : string) (d d' : db) : Prop := {
  un_session : forall id u, u <> uid -> owned_session d' id u = owned_session d id u;
  un_run : forall id r, rn_user r <> uid -> runs d' !! id = Some r <-> runs d !! id = Some r;
  un_message : forall id m, owned_session d (ms_session m) uid = None -> messages d !! id = Some m ->
               exists m', messages d' !! id = Some m' /\ same_text m m';
  un_new_message : forall id, is_Some (messages d' !! id) -> is_Some (messages d !! id);
  un_event : forall id n r, runs d !! id = Some r -> rn_user r <> uid -> run_events d' !! (id, n) = run_events d !! (id, n);
}.

Lemma untouched_sessions uid d t :
  (forall id u, u <> uid -> owned_session (with_sessions d t) id u = owned_session d id u) -> untouched uid d (with_sessions d t).
Proof. intros H. split; cbn; try done. intros id m _ Hm. by exists m. Qed.

(** A row of the user put in a slot that was free or the user's. *)
Lemma untouched_put uid d id s :
  se_user s = uid -> (forall s0, sessions d !! id = Some s0 -> se_user s0 = uid) ->
  untouched uid d (with_sessions d (<[id := s]> (sessions d))).
Proof.
  intros Hs H0. apply untouched_sessions. intros k u Hu. unfold owned_session. cbn [with_sessions sessions].
  destruct (decide (k = id)) as [->|N]; [|by rewrite lookup_insert_ne]. rewrite lookup_insert_eq.
  destruct (String.eqb_spec (se_user s) u); [congruence|]. destruct (sessions d !! id) as [s0|]; [|done].
  destruct (String.eqb_spec (se_user s0) u); [|done]. by specialize (H0 _ eq_refl); congruence.
Qed.

Lemma untouched_refl uid d : untouched uid d d.
Proof. split; try done. intros id m _ Hm. by exists m. Qed.

Lemma create_session_untouched stamp id d who s p t ti m d' out :
  _required (VStr who) = Ok who -> create_session stamp id d (VStr who) s p t ti m = Ok (d', out) -> untouched who d d'.
Proof.
  unfold create_session. intros Hw H. rewrite Hw in H. cbn [mbind res_bind] in H. do 5 mbind H.
  destruct (is_some _) eqn:F; [done|]. mbind H. injection H as <- _. apply put_session_Ok in E4 as [-> _]. apply is_some_None in F.
  apply untouched_put; [done|]. intros s0 Hs. congruence.
Qed.

Lemma update_session_untouched stamp d sid who patch d' out :
  _required (VStr who) = Ok who -> update_session stamp d sid (VStr who) patch = Ok (d', out) -> untouched who d d'.
Proof.
  unfold update_session. intros Hw H. rewrite Hw in H. cbn [mbind res_bind] in H. do 2 mbind H.
  destruct patch as [|kv patch]; [injection H as <- _; apply untouched_refl|].
  destruct (owned_session d sid who) as [s|] eqn:O; [|injection H as <- _; apply untouched_refl]. apply owned_session_Some in O as [O U].
  mbind H. injection H as <- _. apply put_session_Ok in E1 as [-> _]. apply untouched_put; [done|]. intros s0 Hs. congruence.
Qed.

Lemma delete_session_untouched stamp d sid who hard d' out :
  wf d -> _required (VStr who) = Ok who -> delete_session stamp d sid (VStr who) hard = Ok (d', out) -> untouched who d d'.
Proof.
  unfold delete_session. intros W Hw H. rewrite Hw in H. cbn [mbind res_bind] in H. destruct hard; cbn [negb] in H.
  2: by eapply update_session_untouched.
  destruct (owned_session d sid who) as [s|] eqn:O; [|injection H as <- _; apply untouched_refl]. pose proof O as [Os U]%owned_session_Some.
  mbind H. injection H as <- _. apply put_session_Ok in E as [-> _].
  assert (forall id r, runs d !! id = Some r -> rn_user r <> who -> String.eqb (rn_session r) sid = false) as F.
  { intros id r Hr N. destruct (String.eqb_spec (rn_session r) sid) as [Es|]; [|done].
    destruct N. apply String.eqb_eq. by eapply session_run_owned. }
  split; cbn [with_sessions scrub_session sessions runs messages run_events].
  - intros id u Hu. pose proof (untouched_put who d sid (scrubbed stamp s) U) as [P _ _ _ _]; [intros s0 Hs; congruence|]. by apply P.
  - intros id r N. rewrite map_lookup_filter_Some. cbn. split; [tauto|]. intros Hr. split; [done|]. by eapply F.
  - intros id m Hm Hl. rewrite lookup_fmap. exists (unlink_run d sid m).
    assert (filter (fun kv => String.eqb (ms_session kv.2) sid = false) (messages d) !! id = Some m) as ->; [|by split].
    apply map_lookup_filter_Some. split; [done|]. cbn. destruct (String.eqb_spec (ms_session m) sid) as [Es|]; [congruence|done].
  - intros id. rewrite lookup_fmap. intros [m Hm]. destruct (filter _ (messages d) !! id) eqn:Ef; [|done].
    apply map_lookup_filter_Some in Ef as [Ef _]. by eexists.
  - intros id n r Hr N. rewrite map_lookup_filter. destruct (run_events d !! (id, n)) as [e|]; [|done]. cbn [mbind option_bind fst].
    rewrite option_guard_True; [done|]. cbn. unfold run_of_session. rewrite Hr. by eapply F.
Qed.

Lemma reply_inv {A B} (m : reply A) (f : A -> reply B) b : (m ≫= f) = Reply b -> exists a, m = Reply a /\ f a = Reply b.
Proof. destruct m; cbn; [eauto|done..]. Qed.

Ltac rbind H := let a := fresh "a" in let Ha := fresh "E" in apply reply_inv in H as (a & Ha & H).

Lemma plainly_inv {A} (m : res A) a : plainly m = Reply a -> m = Ok a.
Proof. destruct m; [by intros [= ->]|done]. Qed.

Lemma or_conflict_inv {A} (m : res A) a : Api.or_conflict m = Reply a -> m = Ok a.
Proof. destruct m as [|[]]; (by intros [= ->]) || done. Qed.

(** A write changes its caller's rows alone: after a session is created, patched or
    deleted, also when everything of it is scrubbed, the sessions, runs and
    frames of every other user are as they were and their messages say what they said. *)
Theorem writes_stay_in_own_rows c d who :
  _caller c = Reply who -> _required (VStr who) = Ok who -> wf d ->
  (forall stamp id p sm d', Api.create_session stamp id c p d = Reply (sm, d') -> untouched who d d') /\
  (forall stamp sid p sm d', Api.patch_session stamp c sid p d = Reply (sm, d') -> untouched who d d') /\
  (forall stamp sid hard st d', Api.delete_session stamp c sid hard d = Reply (st, d') -> untouched who d d').
Proof.
  intros Hc Hw W. split_and!; intros *; [unfold Api.create_session|unfold Api.patch_session|unfold Api.delete_session];
    rewrite Hc; cbn [mbind reply_bind]; intros H.
  - do 5 rbind H. destruct a3 as [d1 session]. rbind H. injection H as _ <-. apply plainly_inv in E3. by eapply create_session_untouched.
  - rbind H. destruct (_ || _); [done|]. do 2 rbind H. destruct a1 as [d1 [s|]]; [|done]. case_bool_decide; [done|]. rbind H. injection H as _ <-.
    apply or_conflict_inv in E1. by eapply update_session_untouched.
  - rbind H. destruct a as [d1 [s|]]; [|done]. injection H as _ <-. apply plainly_inv in E. by eapply delete_session_untouched.
Qed.

(** A session that does not exist, that someone else owns or that was
    deleted is not found: every route on it answers 404, and so a
    patch cannot bring a deleted session back. *)
Theorem unreadable_session_not_found c d who sid :
  _caller c = Reply who -> _required (VStr who) = Ok who ->
  (forall s, owned_session d sid who = Some s -> se_status s = SESSION_DELETED) ->
  Api.get_session c sid d = Refused 404 /\ Api.list_runs c sid d = Refused 404 /\
  (forall after_seq limit, 0 <= after_seq -> 1 <= limit <= 1000 -> Api.list_messages c sid after_seq limit d = Refused 404) /\
  (forall stamp p, Api.patch_session stamp c sid p d = Refused 404) /\
  (owned_session d sid who = None -> forall stamp hard, Api.delete_session stamp c sid hard d = Refused 404).
Proof.
  intros Hc Hw Hs. assert (readable_session d sid who = Refused 404) as R.
  { unfold readable_session, get_session_for_user. rewrite Hw. cbn. destruct (owned_session d sid who) as [s|]; [|done].
    by rewrite bool_decide_true by by apply Hs. }
  split_and!.
  - unfold Api.get_session. by rewrite Hc; cbn; rewrite R.
  - unfold Api.list_runs. by rewrite Hc; cbn; rewrite R.
  - intros after_seq limit Ha [H1 H2]. unfold Api.list_messages, at_least, bounded. rewrite Hc.
    rewrite (proj2 (Z.leb_le 0 after_seq) Ha), (proj2 (Z.leb_le 1 limit) H1), (proj2 (Z.leb_le limit 1000) H2). cbn. by rewrite R.
  - intros stamp p. unfold Api.patch_session. by rewrite Hc; cbn; rewrite R.
  - intros O stamp hard. unfold Api.delete_session, delete_session. rewrite Hc. cbn. rewrite Hw. cbn.
    destruct hard; cbn; [by rewrite O|]. unfold update_session. rewrite Hw. cbn. by rewrite O.
Qed.

(** ** A store two users share *)

Definition visitor : call := {| cl_env := demo_env true; cl_identity := Some demo_signed; cl_now := 1700000080 |}.

Definition visitor_session : string := Eval vm_compute in demo_id "sess" 11.
Definition gone_session : string := Eval vm_compute in demo_id "sess" 13.

(** Ana's session with its run, and two of the visitor's: one with a run, one deleted. *)
Definition shared_calls : list op :=
  [ Create_session 1700000020 (demo_draw 11) (VStr VECTOR_SUB) (VStr "tcs") (VStr "intraday") (VStr "5m") VNone VNone;
    Create_run 1700000021 (demo_draw 12) (demo_draw 14) visitor_session (VStr VECTOR_SUB)
      {| SessionStore.sp_kind := "verify"; SessionStore.sp_symbol := VStr "tcs"; SessionStore.sp_timeframe := VStr "5m"; SessionStore.sp_profile := VStr "intraday"; SessionStore.sp_model := VNone;
         SessionStore.sp_manual_trade := VNone; SessionStore.sp_thread := VNone |};
    Create_session 1700000022 (demo_draw 13) (VStr VECTOR_SUB) (VStr "infy") (VStr "swing") (VStr "1d") VNone VNone;
    Delete_session 1700000023 gone_session (VStr VECTOR_SUB) false ]%string.

Definition shared_store : db := Eval vm_compute in fold_left exec shared_calls demo_store.

Lemma shared_store_eq : fold_left exec shared_calls demo_store = shared_store.
Proof. exact (eq_refl shared_store <: fold_left exec shared_calls demo_store = shared_store). Qed.

Lemma shared_wf : wf shared_store.
Proof. rewrite <- shared_store_eq. apply wf_reachable, reachable_fold, demo_reachable. Qed.

Lemma shared_clocked : clocked shared_store.
Proof.
  split; intros id x H.
  - exact (bool_decide_unpack (map_Forall (fun _ s => is_nan (se_updated s) = false) (sessions shared_store)) I id x H).
  - exact (bool_decide_unpack (map_Forall (fun _ r => is_nan (rk_started (rn_key r)) = false) (runs shared_store)) I id x H).
Qed.

Lemma visitor_calls : _caller visitor = Reply VECTOR_SUB /\ _required (VStr VECTOR_SUB) = Ok VECTOR_SUB.
Proof. split; vm_compute; reflexivity. Qed.

(** The visitor's listing has one session, Ana's answers nothing and the deleted one is gone. *)
Example visitor_sees :
  (match Api.list_sessions visitor (Some "active"%string) None 25 None shared_store with
   | Reply (items, _) => map sm_session_id items | _ => [] end,
   match Api.get_session visitor demo_session shared_store with Refused st => st | _ => 0 end,
   match Api.list_run_events visitor demo_run 0 100 shared_store with Refused st => st | _ => 0 end,
   match Api.get_session visitor gone_session shared_store with Refused st => st | _ => 0 end)
  = ([visitor_session], 404, 404, 404).
Proof. vm_compute. reflexivity. Qed.

Lemma reads_answer_from_own_rows_witness :
  (match Api.get_session visitor visitor_session shared_store with Reply _ => true | _ => false end) = true /\
  Api.get_session visitor visitor_session shared_store = Api.get_session visitor visitor_session (mine VECTOR_SUB shared_store).
Proof.
  split; [by vm_compute|].
  exact (proj1 (reads_answer_from_own_rows visitor shared_store VECTOR_SUB VECTOR_SUB (proj1 visitor_calls) (proj2 visitor_calls)
                  shared_wf shared_clocked) visitor_session).
Defined.

Lemma writes_stay_in_own_rows_witness :
  (exists d', Api.delete_session 1700000090 visitor visitor_session true shared_store = Reply (SESSION_DELETED, d')) /\
  forall stamp sid hard st d', Api.delete_session stamp visitor sid hard shared_store = Reply (st, d') -> untouched VECTOR_SUB shared_store d'.
Proof.
  split; [vm_compute; eauto|].
  exact (proj2 (proj2 (writes_stay_in_own_rows visitor shared_store VECTOR_SUB (proj1 visitor_calls) (proj2 visitor_calls) shared_wf))).
Defined.

Lemma unreadable_session_not_found_witness :
  (se_status <$> owned_session shared_store gone_session VECTOR_SUB) = Some SESSION_DELETED /\
  Api.get_session visitor gone_session shared_store = Refused 404.
Proof.
  split; [by vm_compute|].
  refine (proj1 (unreadable_session_not_found visitor shared_store VECTOR_SUB gone_session (proj1 visitor_calls) (proj2 visitor_calls) _)).
  intros s H. assert (Some s = Some s) as _ by done. assert (se_status <$> Some s = Some SESSION_DELETED) as E; [|by injection E].
  rewrite <- H. by vm_compute.
Defined.

(** A deleted session is not found, but the transcript of its runs still is. *)
Example deleted_transcript_still_read :
  match Api.delete_session 1700000090 visitor visitor_session false shared_store with
  | Reply (_, d) =>
      (match Api.list_runs visitor visitor_session d with Refused st => st | _ => 0 end,
       match Api.list_run_events visitor (demo_id "run" 12) 0 100 d with Reply (_, last) => Some last | _ => None end)
  | _ => (0, None)
  end = (404, Some 0).
Proof. vm_compute. reflexivity. Qed.
