(* ===== verification/TradeTools.v ===== *)
(** * The trading tools: price watches and trade declarations

    Models the two control tools of [agents/deep-quant-loop/tools.py] and their
    helpers: [watch_price_condition] with its registration retries, its
    interrupt and the text a resume turns into, and [declare_trade] with the
    profile's reward-to-risk floor, the management-plan gate and the handling of
    the tool server's answer.

    It also models [get_trade_performance], the one tool that writes a store: reading
    the track record scores the open trades of the journal first.

    The tool server is a parameter: what it answers to a request.  LangGraph's
    [interrupt] is a parameter too: [None] while the run is suspended, the resume
    value once the body runs again. *)

From stdpp Require Import base list strings.
From Stdlib Require Import ZArith Lia Floats Ascii.
From S2P Require Import Prelude PyFloat PyRound PyNum PyVal PyEnv PyJson TradeManager Validator Opportunity Contracts.
From S2P Require Import JournalTags Journal.

#[local] Set Warnings "-inexact-float".
Open Scope Z_scope.
Open Scope res_scope.

(** ** Formatting *)

(** The significant digits of [num / den] as [%g] keeps them: six, half to even,
    with the decimal exponent of the first. *)
Definition g_digits (num den : Z) : Z * Z :=
  let est := (Z.log2 num - Z.log2 den) * 30103 / 100000 - 1 in
  let e := dec_exponent 5 num den est - 1 in
  let c := match 5 - e with
           | Z.neg p => div_half_even num (den * 10 ^ Z.pos p)
           | k => div_half_even (num * 10 ^ k) den
           end in
  if c =? 1000000 then (100000, e + 1) else (c, e).

(** [f"{x:g}"] *)
Definition fmt_g (x : float) : string :=
  if is_nan x then "nan"
  else
    let sign := (if get_sign x then "-" else "")%string in
    if is_infinity x then (sign ++ "inf")%string
    else if is_zero x then (sign ++ "0")%string
    else
      let '(c, e) := g_digits (Z.abs (frank x)) two1074 in
      let ds := Z_digits (strip_zeros 6 c 0).1 in
      let n := Z.of_nat (String.length ds) in
      let body :=
        if (e <? -4) || (6 <=? e) then
          (str_take 1 ds ++ (if (n =? 1)%Z then "" else "." ++ str_drop 1 ds) ++ "e"
             ++ (if (e <? 0)%Z then "-" else "+") ++ (if (Z.abs e <? 10)%Z then "0" else "") ++ Z_digits (Z.abs e))%string
        else if e <? 0 then ("0." ++ str_repeat "0" (Z.to_nat (- e - 1)) ++ ds)%string
        else if n <=? e + 1 then (ds ++ str_repeat "0" (Z.to_nat (e + 1 - n)))%string
        else (str_take (Z.to_nat (e + 1)) ds ++ "." ++ str_drop (Z.to_nat (e + 1)) ds)%string in
      (sign ++ body)%string.

Example fmt_g_tests :
  map fmt_g [2%float; 1.3%float; 1234567%float; 0.00001%float; 0.5%float; 123.456789%float; 100000%float; (-0.25)%float; 999999.5%float]
  = ["2"; "1.3"; "1.23457e+06"; "1e-05"; "0.5"; "123.457"; "100000"; "-0.25"; "1e+06"]%string.
Proof. vm_compute. reflexivity. Qed.

(** ** Symbols *)

Definition INDEX_UNDERLYINGS : list string := ["NIFTY 50"; "NIFTY"; "BANKNIFTY"]%string.

Definition _OPTIONS_CHAIN_NAME : list (string * string) :=
  [("NIFTY 50", "NIFTY"); ("NIFTY50", "NIFTY"); ("NIFTY", "NIFTY"); ("NIFTY BANK", "BANKNIFTY");
   ("BANKNIFTY", "BANKNIFTY"); ("NIFTY FIN SERVICE", "FINNIFTY"); ("FINNIFTY", "FINNIFTY");
   ("NIFTY MIDCAP SELECT", "MIDCPNIFTY"); ("MIDCPNIFTY", "MIDCPNIFTY")]%string.

Definition resolve_options_chain_name (underlying : val) : string :=
  match underlying with
  | VStr s => if nonempty (strip s) then default (strip s) (assoc_str (upper (strip s)) _OPTIONS_CHAIN_NAME) else s
  | _ => ""
  end.

Definition classify_symbol_class (symbol : val) : string :=
  match symbol with
  | VStr s => if str_in (upper (strip s)) INDEX_UNDERLYINGS then "index" else "equity"
  | _ => "equity"
  end.

Definition _is_directional_action (action : val) : bool :=
  match action with VStr s => str_in (upper (strip s)) ["BUY"; "SELL"]%string | _ => false end.

(** ** The run's configuration *)

(** [value.get(key, default)] of the values that have a [get]. *)
Definition get_or (value : val) (key : string) (dflt : val) : val :=
  match value with VDict d => default dflt (dict_find key d) | _ => dflt end.

Definition no_get (value : val) : string := ("'" ++ type_name value ++ "' object has no attribute 'get'")%string.

(** [config.get("configurable", {}).get("thread_id", "default_thread")]: the
    identifier, or the text of the [AttributeError]. *)
Definition config_thread (config : val) : val + string :=
  if is_dict config then
    let configurable := get_or config "configurable" (VDict []) in
    if is_dict configurable then inl (get_or configurable "thread_id" (VStr "default_thread"))
    else inr (no_get configurable)
  else inr (no_get config).

(** The workspace profile stamped into the run's configuration. *)
Definition profile_of (config : val) : val :=
  match get_or (get_or config "configurable" (VDict [])) "profile" VNone with
  | VStr s => if nonempty (strip s) then VStr (strip s) else VNone
  | _ => VNone
  end.

(** ** Watching a price *)

Definition in_quotes (s : string) : string := String dquote (s ++ String dquote "").

(** What one registration request comes to: a status 400 with its decoded body, if
    it decodes, and its text; any other failure with its message; or success. *)
Inductive watch_reply :=
  | Status400 (body : option val) (text : string)
  | PostFailed (message : string)
  | Accepted.

Inductive registration :=
  | Registered
  | LevelRejected (reason : val)
  | NotRegistered (message : string).

Definition rejection_of (body : option val) (text : string) : val :=
  let reason := match body with Some b => vget b "error" | None => VNone end in
  if truthy reason then reason
  else VStr (if nonempty (strip text) then strip text else "Watcher level rejected by validator.")%string.

(** The retry loop from one attempt on, with [more] attempts after it: the
    outcome, and how many times the loop slept. *)
Fixpoint register (post : nat -> watch_reply) (attempt more : nat) : registration * nat :=
  match post attempt with
  | Accepted => (Registered, O)
  | Status400 body text => (LevelRejected (rejection_of body text), O)
  | PostFailed message =>
      match more with
      | O => (NotRegistered message, O)
      | S more' => let '(r, naps) := register post (S attempt) more' in (r, S naps)
      end
  end.

(** [max(1, WATCH_REGISTRATION_MAX_ATTEMPTS)], less the first attempt. *)
Definition further_attempts (max_attempts : Z) : nat := Z.to_nat (Z.max 1 max_attempts - 1).

Definition level_rejected_answer (reason : string) : val :=
  VDict [
    (VStr "status", VStr "watch_level_rejected");
    (VStr "error", VStr reason);
    (VStr "message",
      VStr ("Your watch condition was REJECTED: " ++ reason ++ " " ++
        "Do NOT HOLD or output a trade because of this. Re-call watch_price_condition with a corrected price_level " ++
        "(strictly BEYOND the current price in your chosen direction) and, if you supply one, an " ++
        "invalidation_level on the OPPOSITE side of the current price."))].

Definition registration_failed_answer (max_attempts : Z) (message : string) : val :=
  VDict [
    (VStr "status", VStr "watch_registration_failed");
    (VStr "action", VStr "HOLD");
    (VStr "trade", VNone);
    (VStr "error",
      VStr ("Failed to register price watcher after " ++ Z_str max_attempts ++ " attempts: " ++ message ++ "."));
    (VStr "message",
      VStr ("The desktop application (Tauri) must be running for the live price watcher to work. " ++
        "Falling back to HOLD. Do NOT output a trade — the condition has not been met."))].

(** The arguments of one call. *)
Record watch_args := {
  wa_symbol : val; wa_timeframe : val; wa_price_level : val; wa_direction : val;
  wa_volume_multiplier : val; wa_invalidation_level : val;
}.

Definition watched_fields (thread_id : val) (a : watch_args) : list (val * val) :=
  [(VStr "thread_id", thread_id); (VStr "symbol", wa_symbol a); (VStr "timeframe", wa_timeframe a);
   (VStr "price_level", wa_price_level a); (VStr "direction", wa_direction a);
   (VStr "volume_multiplier", wa_volume_multiplier a); (VStr "invalidation_level", wa_invalidation_level a)].

(** The body of the registration request. *)
Definition watch_payload (cfg : OpportunityConfig) (thread_id user_id : val) (a : watch_args) : val :=
  VDict (watched_fields thread_id a ++
         [(VStr "user_id", user_id);
          (VStr "heartbeat_enabled", VBool (heartbeat_enabled cfg));
          (VStr "heartbeat_cadence_secs", VFloat (heartbeat_cadence_secs cfg));
          (VStr "heartbeat_max", VInt (heartbeat_max cfg))]).

(** What the graph is interrupted with. *)
Definition suspension (thread_id : val) (a : watch_args) : val :=
  VDict ((VStr "status", VStr "watching_registered") :: watched_fields thread_id a).

(** The candle and the trigger kind of a resume value. *)
Definition resume_parts (resumed : val) : val * val :=
  match resumed with
  | VDict d =>
      match dict_find "trigger_kind" d with
      | Some kind => (dict_get d "candle", if truthy kind then kind else VStr "target")
      | None => (resumed, VStr "target")
      end
  | _ => (resumed, VStr "target")
  end.

Definition invalidated_text (recheck candle : string) : string :=
  "Setup INVALIDATED: price moved to the invalidation level AGAINST the setup before reaching the watched target. " ++
  "The target condition was NOT met — do NOT treat this as the level being reached. Run a brief post-mortem, " ++
  "then re-check ONLY: " ++ recheck ++ ". Then choose the BEST action for the CURRENT market — do NOT blindly " ++
  "re-arm the SAME thesis (an unchanged re-arm is rejected): (a) if a defensible LIVE trade now exists at the " ++
  "current price (a chart-pattern / multi-timeframe / forecast-backed setup that clears the profile R:R floor " ++
  "and the 1.5x ATR stop), DECLARE it now with declare_trade; (b) re-arm a DIFFERENT structure / timeframe / " ++
  "tier / level; or (c) stand aside only if none of these hold. Invalidation candle details: " ++ candle.

Definition heartbeat_text (recheck candle : string) : string :=
  "Heartbeat check (mid-wait pulse): the watched target was NOT reached — do NOT treat this as the level being " ++
  "met. This pulse is your chance to ADAPT, not merely to keep waiting. Cheaply re-check ONLY: " ++ recheck ++
  ". Then choose the BEST action for the market RIGHT NOW: (a) TAKE A LIVE TRADE — if a defensible setup is now " ++
  "actionable at the current price (chart patterns aligned across timeframes, multi-TF trend, a probabilistic " ++
  "forecast edge) that clears the profile R:R floor and the 1.5x ATR stop, DECLARE it now with declare_trade " ++
  "instead of continuing to wait; you do NOT need this specific watched level to fire to take a good trade; " ++
  "(b) FIX A MISPRICED LEVEL — if your watched level was set too far above/below where price is actually " ++
  "trading (so it may never trigger), re-arm a tighter, realistic level or a different timeframe/tier; " ++
  "(c) SWITCH STRATEGY — if the original thesis is decaying, pursue a different setup; (d) keep waiting only if " ++
  "the level is still close and realistic; (e) stand aside only if genuinely nothing is actionable. Prefer " ++
  "taking a good live trade over waiting indefinitely for a level that is not being hit. Current candle " ++
  "details: " ++ candle.

Definition target_text (recheck candle : string) : string :=
  "Target condition met (price reached the watched level). Confirm the entry is still valid by re-checking " ++
  "ONLY: " ++ recheck ++ ". Triggered candle: " ++ candle.

(** The text a resume value is turned into. *)
Definition resumed_text (symbol resumed : val) : string :=
  let '(candle, trigger_kind) := resume_parts resumed in
  let kind := classify_resume trigger_kind in
  let recheck := str_join ", " (delta_recheck_plan (VStr kind) (VStr (classify_symbol_class symbol))) in
  if String.eqb kind "invalidation" then invalidated_text recheck (py_str candle)
  else if String.eqb kind "heartbeat" then heartbeat_text recheck (py_str candle)
  else target_text recheck (py_str candle).

Inductive watch_outcome :=
  | Answered (v : val)
  | Suspended (payload : val).

(** One execution of the tool's body.  [interrupt] returns the resume value when
    there is one and suspends the run otherwise. *)
Definition watch_price_condition (cfg : OpportunityConfig) (max_attempts : Z) (user_id : val)
    (post : val -> nat -> watch_reply) (interrupt : option val) (config : val) (a : watch_args) : watch_outcome :=
  match config_thread config with
  | inr message => Answered (registration_failed_answer max_attempts message)
  | inl thread_id =>
      match (register (post (watch_payload cfg thread_id user_id a)) 1 (further_attempts max_attempts)).1 with
      | NotRegistered message => Answered (registration_failed_answer max_attempts message)
      | LevelRejected (VStr reason) => Answered (level_rejected_answer reason)
      | LevelRejected reason =>
          Answered (registration_failed_answer max_attempts
            ("can only concatenate str (not " ++ in_quotes (type_name reason) ++ ") to str"))
      | Registered =>
          match interrupt with
          | None => Suspended (suspension thread_id a)
          | Some resumed => Answered (VStr (resumed_text (wa_symbol a) resumed))
          end
      end
  end.

(** ** Declaring a trade *)

(** [ValidatorReason.message] *)
Definition reason_message (r : ValidatorReason) : string :=
  match r with
  | MISSING_LEVELS => "missing execution levels: entry, stop-loss, and take-profit are all required"
  | RISK_REWARD_TOO_LOW => "risk-reward ratio below the 1:2 minimum"
  | STOP_TOO_TIGHT => "stop-loss is tighter than 1.5x ATR"
  | DIRECTION_INCONSISTENT => "execution levels are inconsistent with the trade direction"
  | LEG_FRACTION_OUT_OF_RANGE =>
      "a scale-out leg fraction is not in (0.0, 1.0] or the fractions sum to more than 1.0"
  | TARGET_ORDERING_INCONSISTENT =>
      "scale-out targets are inconsistent with the trade direction or not in monotone order"
  | BREAKEVEN_OUT_OF_RANGE => "breakeven trigger is not strictly between entry and the first scale-out target"
  | BLENDED_RR_TOO_LOW => "blended (fraction-weighted) reward-to-risk is below the configured minimum"
  end.

(** The arguments of one declaration. *)
Record declare_args := {
  da_action : string; da_conviction_score : Z; da_setup_validation : val; da_execution_plan : val;
  da_entry : val; da_stop_loss : val; da_take_profit : val; da_atr_14 : val; da_management_plan : val;
}.

(** [if d.get(key) is None: d[key] = v] *)
Definition set_missing (key : string) (v : val) (d : list (val * val)) : list (val * val) :=
  if is_none (dict_get d key) then dict_set d key v else d.

Definition _coerce_management_plan (management_plan action entry stop_loss atr_14 : val) : res (option ManagementPlan) :=
  match management_plan with
  | VDict d =>
      let merged := set_missing "atr_14" atr_14 (set_missing "initial_stop" stop_loss
                      (set_missing "entry" entry (set_missing "action" action d))) in
      catch (text ← dumps dumps_default (VDict merged); plan_from_json (VStr text))
        (fun e => match e with TypeError | ValueError => true | _ => false end) None
  | _ => Ok None
  end.

(** The body of the request to the tool server. *)
Definition request_body (profile : val) (a : declare_args) : val :=
  VDict ([(VStr "action", VStr (da_action a)); (VStr "conviction_score", VInt (da_conviction_score a));
          (VStr "setup_validation", da_setup_validation a); (VStr "execution_plan", da_execution_plan a);
          (VStr "entry", da_entry a); (VStr "stop_loss", da_stop_loss a); (VStr "take_profit", da_take_profit a);
          (VStr "atr_14", da_atr_14 a); (VStr "profile", profile)]
         ++ (if is_none (da_management_plan a) then [] else [(VStr "management_plan", da_management_plan a)])).

(** The request's outcome: the decoded body of a successful response, or the
    exception that was raised on the way, by type and message. *)
Inductive server_reply :=
  | Body (v : val)
  | Unreachable (type message : string).

Inductive declaration :=
  | Declared
  | PlanUnparsed
  | PlanRejected (reason : ValidatorReason)
  | ServerRejected (reason : val)
  | NotValidated (type message : string).

(** The plan gate: why the plan stops the declaration, if it does. *)
Definition plan_gate (e : env) (min_rr : float) (a : declare_args) : res (option declaration) :=
  if is_none (da_management_plan a) then Ok None
  else
    plan ← _coerce_management_plan (da_management_plan a) (VStr (da_action a)) (da_entry a) (da_stop_loss a) (da_atr_14 a);
    match plan with
    | None => Ok (Some PlanUnparsed)
    | Some p =>
        let levels := {| entry := da_entry a; stop_loss := da_stop_loss a; take_profit := da_take_profit a |} in
        outcome ← validate_trade e (from_str_lenient (Some (da_action a))) (Some levels) (da_atr_14 a) (plan_obj p)
                    (VFloat min_rr) (VFloat min_rr);
        match outcome with
        | Passed _ => Ok None
        | Failed reason => Ok (Some (PlanRejected reason))
        end
    end.

(** [isinstance(body, dict) and str(body.get("status")).lower() == "rejected"] *)
Definition body_rejects (body : val) : bool :=
  is_dict body && String.eqb (lower (py_str (vget body "status"))) "rejected".

(** What the server's reply means for the declaration. *)
Definition read_reply (action : string) (reply : server_reply) : declaration :=
  match reply with
  | Body body => if body_rejects body then ServerRejected (get_or body "reason" (VStr "unknown")) else Declared
  | Unreachable type message => if _is_directional_action (VStr action) then NotValidated type message else Declared
  end.

(** What a declaration comes to, and the request it sent, if it sent one. *)
Definition decide_declaration (e : env) (post : val -> server_reply) (profile : val) (a : declare_args)
  : res (declaration * option val) :=
  gate ← plan_gate e (min_risk_reward_for_profile profile) a;
  match gate with
  | Some rejected => Ok (rejected, None)
  | None =>
      let body := request_body profile a in
      Ok (read_reply (da_action a) (post body), Some body)
  end.

Definition declaration_text (min_rr : float) (a : declare_args) (d : declaration) : string :=
  let shown := ("1:" ++ fmt_g min_rr)%string in
  match d with
  | Declared =>
      "Trade declared successfully: " ++ da_action a ++ " with " ++ Z_str (da_conviction_score a) ++ "% conviction."
  | PlanUnparsed =>
      "TRADE_REJECTED: the " ++ da_action a ++ " management_plan could not be parsed into a valid multi-leg plan. " ++
      "Provide `legs` as a list of {" ++ in_quotes "target" ++ ": float, " ++ in_quotes "fraction" ++
      ": float} entries (and optional `breakeven`/`trailing`), then call declare_trade again."
  | PlanRejected reason =>
      "TRADE_REJECTED: the Trade_Validator rejected this " ++ da_action a ++ " management plan because '" ++
      reason_message reason ++ "'. Revise the management plan (leg fractions in (0.0, 1.0] summing to <= 1.0, " ++
      "scale-out targets ordered on the profit side, breakeven strictly between entry and the first target, " ++
      "and the blended Risk:Reward at/above the " ++ shown ++ " minimum for this profile), then call declare_trade again."
  | ServerRejected reason =>
      "TRADE_REJECTED: the Trade_Validator rejected this " ++ da_action a ++ " because '" ++ py_str reason ++
      "'. Revise the entry/stop_loss/take_profit so Risk:Reward >= " ++ shown ++ " (the minimum for this profile) " ++
      "and the stop is >= 1.5x ATR, then call declare_trade again."
  | NotValidated type message =>
      "TRADE_REJECTED: the authoritative Trade_Validator could not be reached (" ++ type ++ ": " ++ message ++
      "), so this " ++ da_action a ++ " was NOT validated or committed. This is an infrastructure fault, NOT a " ++
      "problem with your levels — re-declaring the same or revised levels will fail the same way. Report the " ++
      "setup as unvalidated and stand aside."
  end.

(** One call of the tool: the text it answers with and the request it sent. *)
Definition declare_trade (e : env) (post : val -> server_reply) (config : val) (a : declare_args)
  : res (string * option val) :=
  let profile := profile_of config in
  answer ← decide_declaration e post profile a;
  Ok (declaration_text (min_risk_reward_for_profile profile) a answer.1, answer.2).

(** ** The track record *)

Definition agg_items (a : agg) : list (val * val) :=
  [(VStr "trades_scored", VInt (trades_scored a)); (VStr "wins", VInt (a_wins a)); (VStr "losses", VInt (a_losses a));
   (VStr "open", VInt (a_open a)); (VStr "expired", VInt (a_expired a)); (VStr "win_rate", win_rate a);
   (VStr "expectancy_r", expectancy_r a)].

Definition setup_dict (s : setup_stats) : val :=
  VDict (agg_items (ss_agg s) ++ [(VStr "setup_key", ss_key s); (VStr "low_sample", VBool (ss_low_sample s))]).

(** The object [get_stats] returns, or the one that says it failed. *)
Definition stats_items (low_sample_threshold : Z) (symbol : val) (s : stats) : list (val * val) :=
  [(VStr "overall", VDict (agg_items (st_overall s) ++ [(VStr "symbol", py_or symbol (VStr "ALL"))]));
   (VStr "by_setup", VList (map setup_dict (st_by_setup s))); (VStr "low_sample", VBool (st_low_sample s));
   (VStr "low_sample_threshold", VInt low_sample_threshold)].

Definition stats_unavailable (error : string) : list (val * val) :=
  [(VStr "overall", VDict [(VStr "trades_scored", VInt 0); (VStr "win_rate", VNone); (VStr "expectancy_r", VNone)]);
   (VStr "by_setup", VList []); (VStr "low_sample", VBool true); (VStr "unavailable", VBool true);
   (VStr "error", VStr error)].

(** What a scoring pass reads from outside: its clocks and the candle service. *)
Record scoring_source := {
  so_now : Z -> float;
  so_scored_now : Z -> float;
  so_candles : val -> val -> list val;
}.

Section track_record.
Context (expiry_seconds : float) (low_sample_threshold : Z).
(** [str(e)] *)
Context (shown : exn -> string).

(** [journal.get_stats(symbol)]: a scoring pass, then the statistics of what it left. *)
Definition get_stats_of (src : scoring_source) (db : journal) (symbol : val) : journal * list (val * val) :=
  let db := (score_open_trades expiry_seconds (so_now src) (so_scored_now src) (so_candles src) db symbol).1 in
  (db, match get_stats low_sample_threshold db symbol VNone with
       | Ok s => stats_items low_sample_threshold symbol s
       | Raise e => stats_unavailable (shown e)
       end).

(** The tool's result, and the journal its call leaves. *)
Definition get_trade_performance (src : scoring_source) (db : journal) (symbol : string) : journal * val :=
  let '(db, stats) := get_stats_of src db (VStr symbol) in
  (db, VDict (dict_set stats "symbol" (VStr symbol))).
End track_record.
