(* ===== verification/GraphMessages.v ===== *)
(** * The agent graph: messages and tool calls

    Models the message-level helpers of [agents/deep-quant-loop/graph.py]: the
    extraction of tool calls from a model response (native calls, and the three
    tiers of text markup), the classification of tool results, the acquisition
    predicates over a history, payload compaction and history flattening.

    A message is an object value with the attributes the code reads.  Of the
    regular expressions' [\s] only ASCII white space is modelled, and of
    [re.IGNORECASE] only ASCII letters. *)

From stdpp Require Import base list strings.
From Stdlib Require Import ZArith Lia Floats Ascii.
From S2P Require Import Prelude PyFloat PyNum PyVal PyEnv PyJson Opportunity JournalTags.

#[local] Set Warnings "-inexact-float".
Open Scope Z_scope.
Open Scope res_scope.

(** ** Messages *)

Definition ai_message (content : val) (tool_calls : list val) (kwargs : list (val * val)) : val :=
  VObj [("type", VStr "ai"); ("content", content); ("tool_calls", VList tool_calls);
        ("additional_kwargs", VDict kwargs)] "AIMessage".

Definition tool_message (content tool_call_id name : val) : val :=
  VObj [("type", VStr "tool"); ("content", content); ("tool_call_id", tool_call_id); ("name", name)] "ToolMessage".

Definition call_dict (name id args : val) : val :=
  VDict [(VStr "name", name); (VStr "args", args); (VStr "id", id)].

(** [message.tool_calls or []] *)
Definition tool_calls (m : val) : list val :=
  match vattr m "tool_calls" with VList l | VTuple l => l | _ => [] end.

Definition content_of (m : val) : val := vattr m "content".

Definition _is_tool_message (m : val) : bool := type_is "tool" m.
Definition _is_human_message (m : val) : bool := type_is "human" m.

Definition name_in (l : list string) (v : val) : bool := match v with VStr s => str_in s l | _ => false end.

(** ** Tool names *)

Definition REGISTERED_TOOL_NAMES : list string :=
  ["get_candles"; "get_consensus_report"; "get_multi_tf_trend"; "get_chart_patterns"; "get_support_resistance";
   "get_volume_profile"; "get_news_context"; "get_prediction"; "get_trade_performance"; "get_market_regime";
   "get_relative_strength"; "get_order_flow"; "get_forecast"; "get_session_context"; "get_options_analytics";
   "get_event_risk"; "watch_price_condition"; "declare_trade"]%string.

Definition MARKET_DATA_TOOL_NAMES : list string :=
  ["get_candles"; "get_consensus_report"; "get_multi_tf_trend"; "get_chart_patterns"; "get_support_resistance";
   "get_volume_profile"; "get_news_context"; "get_prediction"; "get_market_regime"; "get_relative_strength";
   "get_order_flow"; "get_forecast"; "get_session_context"; "get_options_analytics"; "get_event_risk"]%string.

Definition CORE_DATA_TOOL_NAMES : list string :=
  ["get_market_regime"; "get_consensus_report"; "get_relative_strength"; "get_session_context"; "get_order_flow"]%string.

(** ** Text scanning *)

(** What precedes and follows the first occurrence of [p]. *)
Fixpoint split_at_first (p s : string) : option (string * string) :=
  match strip_prefix p s with
  | Some rest => Some (EmptyString, rest)
  | None =>
      match s with
      | EmptyString => None
      | String c s' =>
          match split_at_first p s' with Some (a, b) => Some (String c a, b) | None => None end
      end
  end.

(** The scan of [_extract_balanced_json] after its opening brace: the rest of the
    object's text, its closing brace included. *)
Fixpoint balanced_rest (depth : nat) (in_string escaped : bool) (s : string) : option string :=
  match s with
  | EmptyString => None
  | String ch s' =>
      let more r := match r with Some t => Some (String ch t) | None => None end in
      if in_string then
        if escaped then more (balanced_rest depth true false s')
        else if Ascii.eqb ch backslash then more (balanced_rest depth true true s')
        else if Ascii.eqb ch dquote then more (balanced_rest depth false false s')
        else more (balanced_rest depth true false s')
      else if Ascii.eqb ch dquote then more (balanced_rest depth true false s')
      else if Ascii.eqb ch "{" then more (balanced_rest (S depth) false false s')
      else if Ascii.eqb ch "}" then
        match depth with
        | S (S d) => more (balanced_rest (S d) false false s')
        | _ => Some (String ch EmptyString)
        end
      else more (balanced_rest depth false false s')
  end.

(** [_extract_balanced_json(text, start)], of the text from [start] on. *)
Definition _extract_balanced_json (text : string) : option string :=
  match split_at_first "{" text with
  | Some (_, rest) =>
      match balanced_rest 1 false false rest with Some t => Some (String "{" t) | None => None end
  | None => None
  end.

(** The markup tokens, in UTF-8. *)
Definition bar : string := utf8_encode 65372.
Definition low_block : string := utf8_encode 9601.
Definition CALL_BEGIN : string := ("<" ++ bar ++ "tool" ++ low_block ++ "call" ++ low_block ++ "begin" ++ bar ++ ">")%string.
Definition CALL_END : string := ("<" ++ bar ++ "tool" ++ low_block ++ "call" ++ low_block ++ "end" ++ bar ++ ">")%string.
Definition SEP : string := ("<" ++ bar ++ "tool" ++ low_block ++ "sep" ++ bar ++ ">")%string.

(** [_CALL_BLOCK_RE.finditer]: the text of each block. *)
Fixpoint call_blocks (fuel : nat) (s : string) : list string :=
  match fuel with
  | O => []
  | S fuel' =>
      match split_at_first CALL_BEGIN s with
      | None => []
      | Some (_, after) =>
          match split_at_first CALL_END after with
          | None => []
          | Some (inner, rest) => inner :: call_blocks fuel' rest
          end
      end
  end.

(** The longest prefix of characters satisfying [p], and the rest. *)
Fixpoint span (p : ascii -> bool) (s : string) : string * string :=
  match s with
  | String c s' => if p c then let '(a, b) := span p s' in (String c a, b) else (EmptyString, s)
  | EmptyString => (EmptyString, EmptyString)
  end.

Definition name_char (c : ascii) : bool :=
  negb (is_space c) && negb (Ascii.eqb c "`") && negb (Ascii.eqb c "{").

(** [_SEP_NAME_RE.search]: the name and the text after the match. *)
Fixpoint sep_search (fuel : nat) (s : string) : option (string * string) :=
  match fuel with
  | O => None
  | S fuel' =>
      match split_at_first SEP s with
      | None => None
      | Some (_, after) =>
          let '(name, rest) := span name_char (lstrip after) in
          if nonempty name then Some (name, rest) else sep_search fuel' after
      end
  end.

Definition ident_start (c : ascii) : bool :=
  let n := code_of c in ((65 <=? n) && (n <=? 90)) || ((97 <=? n) && (n <=? 122)) || (n =? 95).
Definition ident_char (c : ascii) : bool :=
  let n := code_of c in ident_start c || ((48 <=? n) && (n <=? 57)).

(** The first identifier, and the text after it. *)
Fixpoint ident_search (s : string) : option (string * string) :=
  match s with
  | EmptyString => None
  | String c s' => if ident_start c then Some (span ident_char s) else ident_search s'
  end.

Definition args_after (s : string) : string := default EmptyString (_extract_balanced_json s).

(** Tier 1: one call block. *)
Definition block_call (inner : string) : option (string * string) :=
  let fuel := S (String.length inner) in
  match sep_search fuel inner with
  | Some (name, rest) => Some (strip name, args_after rest)
  | None =>
      match ident_search inner with
      | Some (name, rest) => Some (strip name, args_after rest)
      | None => None
      end
  end.

(** Tier 2: every separator token. *)
Fixpoint sep_calls (fuel : nat) (s : string) : list (string * string) :=
  match fuel with
  | O => []
  | S fuel' =>
      match sep_search (S (String.length s)) s with
      | Some (name, rest) => (strip name, args_after rest) :: sep_calls fuel' rest
      | None => []
      end
  end.

(** Tier 3: the non-overlapping occurrences of one name that are followed by an
    object, with their positions. *)
Fixpoint name_calls (fuel : nat) (pos : Z) (name s : string) : list (Z * (string * string)) :=
  match fuel with
  | O => []
  | S fuel' =>
      match split_at_first name s with
      | None => []
      | Some (before, after) =>
          let start := pos + Z.of_nat (String.length before) in
          let rest := name_calls fuel' (start + Z.of_nat (String.length name)) name after in
          match _extract_balanced_json after with
          | Some raw => (start, (name, raw)) :: rest
          | None => rest
          end
      end
  end.

Definition _scan_custom_token_calls (content : string) : list (string * string) :=
  let fuel := S (String.length content) in
  match call_blocks fuel content with
  | (_ :: _) as blocks => omap block_call blocks
  | [] =>
      match sep_calls fuel content with
      | (_ :: _) as calls => calls
      | [] =>
          map snd (sort_by (fun a b => a.1 <? b.1)
            (flat_map (fun name => name_calls fuel 0 name content) REGISTERED_TOOL_NAMES))
      end
  end.

(** ** Extraction *)

Inductive call_status := SOk | SParseFailure | SInvalidTool | SQaForbidden.

#[export] Instance call_status_eq_dec : EqDecision call_status.
Proof. solve_decision. Defined.

Record ExtractedCall := {
  ec_name : string;
  ec_args : option (list (val * val));
  ec_raw_args : string;
  ec_status : call_status;
  ec_id : string;
}.

Definition zero_width (cp : Z) : bool := ((8203 <=? cp) && (cp <=? 8205)) || (cp =? 65279).

(** [_ZERO_WIDTH_RE.sub("", s)] *)
Definition drop_zero_width (s : string) : string :=
  String.concat "" (map utf8_encode (List.filter (fun cp => negb (zero_width cp)) (utf8_decode s))).

Definition dict_of (v : val) : option (list (val * val)) := match v with VDict l => Some l | _ => None end.

(** [_parse_args_fragment]: the parsed object, [None] on failure. *)
Definition _parse_args_fragment (raw_args : string) : option (list (val * val)) :=
  match loads raw_args with
  | Ok v => dict_of v
  | Raise _ => match loads (drop_zero_width raw_args) with Ok v => dict_of v | Raise _ => None end
  end.

Definition call_id (name : string) (idx : nat) : string := ("call_" ++ name ++ "_" ++ Z_str (Z.of_nat idx))%string.

(** One native call: trusted, its string arguments parsed. *)
Definition native_call (idx : nat) (tc : val) : res ExtractedCall :=
  let name := match vget tc "name" with VStr s => strip s | _ => EmptyString end in
  let raw := vget tc "args" in
  let args :=
    match raw with
    | VStr s => match _parse_args_fragment s with Some d => VDict d | None => VNone end
    | v => v
    end in
  raw_args ← (match raw with
              | VStr s => Ok s
              | _ => if is_none args then Ok EmptyString else dumps dumps_default args
              end);
  Ok {| ec_name := name; ec_args := Some (default [] (dict_of args)); ec_raw_args := raw_args;
        ec_status := SOk; ec_id := match vget tc "id" with VStr (String _ _ as s) => s | _ => call_id name idx end |}.

Definition text_call (idx : nat) (found : string * string) : ExtractedCall :=
  let '(name, raw) := found in
  let id := call_id name idx in
  if negb (str_in name REGISTERED_TOOL_NAMES) then
    {| ec_name := name; ec_args := None; ec_raw_args := raw; ec_status := SInvalidTool; ec_id := id |}
  else
    match _parse_args_fragment raw with
    | Some d => {| ec_name := name; ec_args := Some d; ec_raw_args := raw; ec_status := SOk; ec_id := id |}
    | None => {| ec_name := name; ec_args := None; ec_raw_args := raw; ec_status := SParseFailure; ec_id := id |}
    end.

Fixpoint mapi_res {A B} (f : nat -> A -> res B) (i : nat) (l : list A) : res (list B) :=
  match l with [] => Ok [] | x :: l' => y ← f i x; ys ← mapi_res f (S i) l'; Ok (y :: ys) end.

(** [extract_tool_calls(response).calls] *)
Definition extract_tool_calls (response : val) : res (list ExtractedCall) :=
  match tool_calls response with
  | (_ :: _) as native => mapi_res native_call 0 native
  | [] =>
      match py_or (content_of response) (VStr "") with
      | VStr content => mapi_res (fun i f => Ok (text_call i f)) 0 (_scan_custom_token_calls content)
      | _ => Raise TypeError
      end
  end.

Definition sorted_names (l : list string) : list string := sort_by str_ltb l.

Definition _synthetic_failure_content (call : ExtractedCall) : string :=
  match ec_status call with
  | SInvalidTool =>
      ("Tool-call error: '" ++ ec_name call ++ "' is not a registered Analysis_Tool. Registered tools are: " ++
       str_join ", " (sorted_names REGISTERED_TOOL_NAMES) ++ ". Re-issue the call using a valid tool name.")%string
  | _ =>
      ("Tool-call error: could not parse JSON arguments for '" ++ ec_name call ++ "'. Received fragment: " ++
       repr_quoted false (ec_raw_args call) ++ ". Re-issue the call with a valid JSON object as arguments.")%string
  end.

(** ** Classifying tool results *)

(** [content if isinstance(content, str) else str(content)] *)
Definition text_of (content : val) : string := py_str content.

Definition quoted (q : ascii) (s : string) : string := String q (s ++ String q EmptyString).

Definition _tool_result_is_error (content : val) : bool :=
  if is_none content then true
  else
    let text := text_of content in
    str_contains (quoted dquote "error") text || str_contains (quoted "'"%char "error") text ||
    starts_with "error" (lower (strip text)).

Definition is_quote (c : ascii) : bool := Ascii.eqb c dquote || Ascii.eqb c "'".

(** A quoted word of the lower-cased text, and what follows. *)
Definition match_quoted (w s : string) : option string :=
  match s with
  | String q s1 =>
      if is_quote q then
        match strip_prefix w s1 with
        | Some (String q2 s2) => if is_quote q2 then Some s2 else None
        | _ => None
        end
      else None
  | EmptyString => None
  end.

(** A key, a colon, and a value matched by [mv], white space allowed around the colon. *)
Definition match_entry (key : string) (mv : string -> bool) (s : string) : bool :=
  match match_quoted key s with
  | Some s1 =>
      match lstrip s1 with
      | String c s2 => Ascii.eqb c ":" && mv (lstrip s2)
      | EmptyString => false
      end
  | None => false
  end.

Definition is_unavailable_word (s : string) : bool := match match_quoted "unavailable" s with Some _ => true | None => false end.

Definition unavailable_here (s : string) : bool :=
  match_entry "sentiment_summary" is_unavailable_word s ||
  match_entry "unavailable" (starts_with "true") s ||
  match_entry "status" is_unavailable_word s.

Fixpoint any_suffix (p : string -> bool) (s : string) : bool :=
  p s || match s with EmptyString => false | String _ s' => any_suffix p s' end.

Definition _tool_result_is_unavailable (content : val) : bool :=
  if is_none content then false else any_suffix unavailable_here (lower (text_of content)).

Definition _tool_result_is_usable (content : val) : bool :=
  if is_none content then false
  else negb (_tool_result_is_error content) && negb (_tool_result_is_unavailable content).

Definition market_message (m : val) : bool := _is_tool_message m && name_in MARKET_DATA_TOOL_NAMES (vattr m "name").

Definition _market_data_seen (messages : list val) : bool :=
  existsb (fun m => market_message m && negb (_tool_result_is_error (content_of m)) &&
                    negb (_tool_result_is_unavailable (content_of m))) messages.

Definition _market_data_attempted (messages : list val) : bool := existsb market_message messages.

(** Whether one message resolves the core tool [name]. *)
Definition resolves (name : string) (m : val) : bool :=
  _is_tool_message m && name_in [name] (vattr m "name") &&
  (_tool_result_is_usable (content_of m) || _tool_result_is_unavailable (content_of m)).

(** [_resolved_core_tools], as a list in the order of [CORE_DATA_TOOL_NAMES]. *)
Definition _resolved_core_tools (messages : list val) : list string :=
  List.filter (fun name => existsb (resolves name) messages) CORE_DATA_TOOL_NAMES.

Definition _core_acquisition_resolved (messages : list val) : bool :=
  forallb (fun name => str_in name (_resolved_core_tools messages)) CORE_DATA_TOOL_NAMES.

(** [sorted(CORE_DATA_TOOL_NAMES - _resolved_core_tools(messages))] *)
Definition unresolved_core_tools (messages : list val) : list string :=
  sorted_names (List.filter (fun name => negb (str_in name (_resolved_core_tools messages))) CORE_DATA_TOOL_NAMES).

(** ** Declared trades *)

Definition _declare_is_directional (args : val) : bool :=
  match vget args "action" with VStr s => str_in (upper (strip s)) ["BUY"; "SELL"]%string | _ => false end.

(** [float(v)] of a number or numeric text, when finite. *)
Definition _coerce_price (v : val) : res val :=
  match v with
  | VInt z => f ← int_to_float z; Ok (if fin f then VFloat f else VNone)
  | VFloat f => Ok (if fin f then v else VNone)
  | VStr s => Ok (match parse_float (strip s) with Ok f => if fin f then VFloat f else VNone | Raise _ => VNone end)
  | _ => Ok VNone
  end.

Definition _normalize_action (s : val) : val :=
  if negb (truthy s) then VNone
  else
    let n := upper (strip (py_str s)) in
    if str_in n ["BUY"; "LONG"]%string then VStr "BUY"
    else if str_in n ["SELL"; "SHORT"]%string then VStr "SELL"
    else VStr n.

(** The name of a tool call. *)
Definition call_is (name : string) (tc : val) : bool := name_in [name] (vget tc "name").

(** [tc.get("args") or {}] *)
Definition call_args (tc : val) : val := py_or (vget tc "args") (VDict []).

Definition declared_decision (args : val) : res (list (val * val)) :=
  entry ← _coerce_price (vget args "entry");
  stop ← _coerce_price (vget args "stop_loss");
  take ← _coerce_price (vget args "take_profit");
  atr ← _coerce_price (vget args "atr_14");
  Ok [(VStr "action", py_or (_normalize_action (vget args "action")) (VStr "HOLD"));
      (VStr "conviction_score", vget args "conviction_score");
      (VStr "setup_validation", vget args "setup_validation");
      (VStr "execution_plan", vget args "execution_plan");
      (VStr "entry", entry); (VStr "stop_loss", stop); (VStr "take_profit", take); (VStr "atr_14", atr);
      (VStr "management_plan", vget args "management_plan"); (VStr "source", VStr "declare_trade")].

Definition _decision_from_declare (ok_calls : list val) : res (option (list (val * val))) :=
  match List.filter (call_is "declare_trade") ok_calls with
  | [] => Ok None
  | tc :: _ => d ← declared_decision (call_args tc); Ok (Some d)
  end.

Definition _declare_was_rejected (messages : list val) : bool :=
  existsb (fun m => _is_tool_message m && name_in ["declare_trade"]%string (vattr m "name") &&
                    str_contains "TRADE_REJECTED" (text_of (content_of m))) messages.

(** The arguments of the most recent watch registration. *)
Definition _latest_watch_args (messages : list val) : val :=
  match List.filter (call_is "watch_price_condition") (flat_map tool_calls (rev messages))
  with
  | [] => VDict []
  | tc :: _ => call_args tc
  end.

Section tool_results.
(** [ast.literal_eval], [None] when it raises. *)
Context (literal_eval : string -> option val).

Definition _parse_tool_content (content : val) : val :=
  match content with
  | VNone => VNone
  | VDict _ | VList _ => content
  | _ =>
      let text := strip (text_of content) in
      if negb (nonempty text) then VNone
      else match loads text with Ok v => v | Raise _ => default VNone (literal_eval text) end
  end.

Definition _latest_tool_results (messages : list val) : list (val * val) :=
  fold_left (fun results m =>
    match vattr m "name" with
    | VStr name =>
        if _is_tool_message m && nonempty name && negb (_tool_result_is_error (content_of m)) then
          match _parse_tool_content (content_of m) with
          | VNone => results
          | parsed => dict_set results name parsed
          end
        else results
    | _ => results
    end) messages [].
End tool_results.

Definition _latest_atr (results : list (val * val)) : res val :=
  let atr := vget (dict_get results "get_consensus_report") "atr_14" in
  ok ← _is_num atr;
  if ok : bool then f ← py_float atr; Ok (VFloat f) else Ok VNone.

(** ** Compaction *)

Definition _COMPACT_MIN_CHARS := 1200.
Definition _COMPACT_GENERIC_CAP := 2500.
Definition _COMPACT_MAX_PATTERNS : nat := 8.
Definition _COMPACT_MAX_HEADLINES : nat := 3.

Definition cap_text (s : string) : string :=
  if str_len s <=? _COMPACT_GENERIC_CAP then s
  else (str_take (Z.to_nat _COMPACT_GENERIC_CAP) s ++ " ...[trimmed]")%string.

Definition dumps_str : dumps_opts :=
  {| item_sep := ", "; key_sep := ": "; sort_keys := false; ensure_ascii := true; default_str := true |}.

(** [round(float(x or 0.0), 2)], zero when it raises. *)
Definition pattern_confidence (x : val) : float :=
  match (match py_or x (VFloat 0) with VStr s => parse_float s | v => py_float v end) with
  | Ok f => f_round_nd f 2
  | Raise _ => 0%float
  end.

(** Hashing a dictionary key: lists, dictionaries and sets do not. *)
Definition hashable (v : val) : bool := match v with VList _ | VDict _ | VSet _ => false | _ => true end.

(** [==] of the scalar values a pattern's fields take. *)
Definition scalar_eqb (a b : val) : bool :=
  match as_num a, as_num b with
  | Some x, Some y => neqb x y
  | None, None => match a, b with VStr s, VStr t => String.eqb s t | VNone, VNone => true | _, _ => false end
  | _, _ => false
  end.

Definition pattern_key_eqb (a b : val * val * float) : bool :=
  scalar_eqb a.1.1 b.1.1 && scalar_eqb a.1.2 b.1.2 && PrimFloat.eqb a.2 b.2.

(** The distinct patterns, first seen first. *)
Fixpoint distinct_patterns (seen : list (val * val * float * val)) (pats : list val)
  : res (list (val * val * float * val)) :=
  match pats with
  | [] => Ok seen
  | p :: pats' =>
      if negb (is_dict p) then distinct_patterns seen pats'
      else
        let key := (vget p "pattern_type", vget p "sentiment", pattern_confidence (vget p "confidence")) in
        if negb (hashable key.1.1 && hashable key.1.2) then Raise TypeError
        else if existsb (fun e => pattern_key_eqb e.1 key) seen then distinct_patterns seen pats'
        else
          distinct_patterns
            (seen ++ [(key, VDict (map (fun k => (VStr k, vget p k))
               ["pattern_type"; "sentiment"; "confidence"; "description"; "breakout_status"]%string))]) pats'
  end.

(** The sort key [-(x.get("confidence") or 0.0)]. *)
Definition neg_confidence (p : val) : res num :=
  match as_num (py_or (vget p "confidence") (VFloat 0)) with
  | Some (NInt z) => Ok (NInt (- z))
  | Some (NFlt f) => Ok (NFlt (PrimFloat.opp f))
  | None => Raise TypeError
  end.

Definition _compact_one_payload (name : val) (content : string) : res string :=
  match loads content with
  | Raise _ => Ok (cap_text content)
  | Ok (VDict data) =>
      let generic := s ← dumps dumps_str (VDict data); Ok (cap_text s) in
      if name_in ["get_chart_patterns"]%string name then
        match dict_get data "patterns" with
        | VList ((_ :: _) as pats) =>
            seen ← distinct_patterns [] pats;
            keyed ← mapM_res (fun e => k ← neg_confidence e.2; Ok (k, e.2)) seen;
            let uniq := take _COMPACT_MAX_PATTERNS (map snd (sort_by (fun a b => nltb a.1 b.1) keyed)) in
            dumps dumps_str (VDict [(VStr "symbol", dict_get data "symbol"); (VStr "timeframe", dict_get data "timeframe");
                                    (VStr "distinct_patterns", VInt (Z.of_nat (length seen))); (VStr "patterns", VList uniq)])
        | _ => generic
        end
      else if name_in ["get_news_context"]%string name then
        match dict_get data "headlines" with
        | VList hl =>
            if (_COMPACT_MAX_HEADLINES <? length hl)%nat then
              let trimmed := dict_set data "headlines" (VList (take _COMPACT_MAX_HEADLINES hl)) in
              dumps dumps_str (VDict (dict_set trimmed "headlines_omitted"
                                        (VInt (Z.of_nat (length hl - _COMPACT_MAX_HEADLINES)))))
            else generic
        | _ => generic
        end
      else generic
  | Ok _ => Ok content
  end.

Definition is_tool_instance (m : val) : bool := match m with VObj _ shown => String.eqb shown "ToolMessage" | _ => false end.

Definition compact_message (m : val) : val :=
  if negb (is_tool_instance m) then m
  else
    match content_of m with
    | VStr content =>
        if str_len content <? _COMPACT_MIN_CHARS then m
        else
          match _compact_one_payload (vattr m "name") content with
          | Raise _ => m
          | Ok compacted =>
              if String.eqb compacted content then m
              else tool_message (VStr compacted) (py_or (vattr m "tool_call_id") (VStr "")) (vattr m "name")
          end
    | _ => m
    end.

Definition compact_tool_payloads (messages : list val) : list val := map compact_message messages.

(** ** Flattening a prior tool exchange *)

Definition _ai_message_has_tool_calls (m : val) : bool := _ai_has_tool_calls m.

(** Index of the last human message, [None] when there is none. *)
Fixpoint last_human_from (i : nat) (acc : option nat) (msgs : list val) : option nat :=
  match msgs with
  | [] => acc
  | m :: msgs' => last_human_from (S i) (if _is_human_message m then Some i else acc) msgs'
  end.

Definition flatten_one (m : val) : option val :=
  if _is_tool_message m then None
  else if type_is "ai" m then
    if _ai_message_has_tool_calls m then
      match content_of m with
      | VStr s => if nonempty (strip s) then Some (ai_message (VStr s) [] []) else None
      | _ => None
      end
    else Some m
  else Some m.

Definition flatten_prior_tool_history (messages : list val) : list val :=
  match last_human_from 0 None messages with
  | Some k => omap flatten_one (take k messages) ++ drop k messages
  | None => omap flatten_one messages
  end.
