(* ===== verification/GraphEvidence.v ===== *)
(** * The agent graph: evidence read from the tool results

    Models the readers the defensibility record and the tier stamp of
    [agents/deep-quant-loop/graph.py] are built from: the high-confidence patterns,
    the action and levels of a decision, the trend and projection readers, the entry
    of every analysis tool, the management and debate entries, and the validator
    checks of a VERIFY run.

    Tool results are the parsed contents of tool messages, so any value: membership
    of an unhashable value in a set raises, as does the finiteness test of an integer
    past the float range. *)

From stdpp Require Import base list strings.
From Stdlib Require Import ZArith Lia Floats Ascii.
From S2P Require Import Prelude PyFloat PyRound PyNum PyVal PyEnv PyJson PyStr PlanText TradeManager Validator Debate Opportunity.
From S2P Require Import Contracts JournalTags Journal TradeTools GraphMessages.

#[local] Set Warnings "-inexact-float".
Open Scope Z_scope.
Open Scope res_scope.

(** ** Python values *)

(** Whether [hash(v)] succeeds. *)
Fixpoint hashable (v : val) : bool :=
  match v with
  | VList _ | VSet _ | VDict _ => false
  | VTuple l => forallb hashable l
  | _ => true
  end.

(** [v in S], of a set of strings. *)
Definition in_set (v : val) (names : list string) : res bool :=
  if hashable v then Ok (match v with VStr s => str_in s names | _ => false end) else Raise TypeError.

(** [f"{x:.4f}"] *)
Definition fmt_4f (x : float) : string :=
  if is_nan x then "nan"
  else if is_infinity x then (if get_sign x then "-inf" else "inf")%string
  else
    let k := div_half_even (Z.abs (frank x) * 10000) two1074 in
    let frac := Z_digits (k mod 10000) in
    ((if get_sign x then "-" else "") ++ Z_digits (k / 10000) ++ "."
       ++ str_repeat "0" (4 - String.length frac) ++ frac)%string.

Example fmt_4f_tests :
  map fmt_4f [1.5%float; 0.00005%float; (-2.25)%float; 12345.67891%float] = ["1.5000"; "0.0001"; "-2.2500"; "12345.6789"]%string.
Proof. vm_compute. reflexivity. Qed.

(** [{k: v}] when the key is present in the source dictionary. *)
Definition carried (keys : list string) (src : list (val * val)) : list (val * val) :=
  omap (fun k => match dict_find k src with Some v => Some (VStr k, v) | None => None end) keys.

(** [src.get(f) for f in fields], of a dictionary; nothing otherwise. *)
Definition measures_of (fields : list string) (src : val) : val :=
  match src with VDict d => VDict (map (fun f => (VStr f, dict_get d f)) fields) | _ => VDict [] end.

Definition unavailable (reason : val) : val := VDict [(VStr "available", VBool false); (VStr "reason", reason)].

(** ** Tool entries *)

(** The shape the entries share: the tool's latest result is absent, marked
    unavailable, not usable, or copied. *)
Definition tool_entry (tool label usable_what : string) (results : list (val * val))
    (usable : list (val * val) -> res bool) (copied : list (val * val) -> list (val * val)) : res val :=
  match dict_get results tool with
  | VDict r =>
      if match dict_get r "unavailable" with VBool true => true | _ => false end then
        Ok (unavailable (py_or (dict_get r "reason") (VStr (label ++ " unavailable"))))
      else
        ok ← usable r;
        Ok (if ok : bool then VDict ((VStr "available", VBool true) :: copied r)
            else unavailable (VStr ("no usable " ++ tool ++ " " ++ usable_what ++ " present in message history")))
  | _ => Ok (unavailable (VStr ("no " ++ tool ++ " result present in message history")))
  end.

Definition copy (keys : list string) (r : list (val * val)) : list (val * val) := map (fun k => (VStr k, dict_get r k)) keys.

Definition _regime_entry (results : list (val * val)) : res val :=
  tool_entry "get_market_regime" "regime" "label" results
    (fun r => in_set (dict_get r "trend_state") REGIME_TREND_STATES and?
              in_set (dict_get r "volatility_state") REGIME_VOLATILITY_STATES and?
              in_set (dict_get r "favorability") REGIME_FAVORABILITY)
    (fun r => copy ["trend_state"; "volatility_state"; "favorability"]%string r ++
              [(VStr "measures", measures_of _REGIME_MEASURE_FIELDS (dict_get r "measures"))] ++
              carried ["symbol"; "timeframe"; "candles_used"]%string r).

Definition _relative_strength_entry (results : list (val * val)) : res val :=
  tool_entry "get_relative_strength" "relative strength" "label" results
    (fun r => in_set (dict_get r "index_direction") INDEX_DIRECTIONS and?
              in_set (dict_get r "relative_strength_state") RELATIVE_STRENGTH_STATES and?
              in_set (dict_get r "alignment") ALIGNMENT_VALUES and? Ok (is_str (dict_get r "benchmark")))
    (fun r => copy ["index_direction"; "relative_strength_state"; "alignment"]%string r ++
              [(VStr "measures", measures_of _RS_MEASURE_FIELDS (dict_get r "measures"));
               (VStr "benchmark", dict_get r "benchmark")] ++
              carried ["symbol"; "timeframe"; "aligned_candles"]%string r).

Definition _session_entry (results : list (val * val)) : res val :=
  tool_entry "get_session_context" "session context" "label" results
    (fun r => in_set (dict_get r "session_phase") SESSION_PHASES and?
              in_set (dict_get r "time_favorability") TIME_FAVORABILITY and?
              Ok (is_dict (dict_get r "expiry_context") && is_bool (vget (dict_get r "expiry_context") "is_expiry_day")))
    (fun r => copy ["session_phase"; "minutes_since_open"; "minutes_until_close"]%string r ++
              [(VStr "expiry_context",
                VDict [(VStr "is_expiry_day", vget (dict_get r "expiry_context") "is_expiry_day");
                       (VStr "days_until_expiry", vget (dict_get r "expiry_context") "days_until_expiry")]);
               (VStr "time_favorability", dict_get r "time_favorability")] ++
              carried ["symbol"; "timeframe"]%string r).

Definition _options_entry (results : list (val * val)) : res val :=
  tool_entry "get_options_analytics" "options context" "label" results
    (fun r => in_set (dict_get r "options_bias_state") OPTIONS_BIAS_STATES and?
              in_set (dict_get r "alignment") ALIGNMENT_VALUES and?
              in_set (dict_get r "chain_context") OPTIONS_CHAIN_CONTEXTS)
    (fun r => copy ["pcr_oi"; "pcr_volume"; "max_pain"; "oi_buildup"; "oi_walls"; "iv_skew"; "futures_basis";
                    "options_bias_state"; "alignment"; "chain_context"]%string r ++
              carried ["symbol"; "underlying"; "expiry"; "spot"]%string r).

Definition _event_entry (results : list (val * val)) : res val :=
  tool_entry "get_event_risk" "event risk" "assessment" results
    (fun r => in_set (dict_get r "event_risk") EVENT_RISK_STATES and?
              in_set (dict_get r "event_recommendation") EVENT_RECOMMENDATIONS and?
              Ok (is_str (dict_get r "event_date")))
    (fun r => copy ["event_risk"; "days_until_event"; "event_date"; "event_recommendation"]%string r ++
              carried ["symbol"; "holding_horizon"]%string r).

Definition _forecast_entry (results : list (val * val)) : res val :=
  tool_entry "get_forecast" "forecast" "label" results
    (fun r => in_set (dict_get r "projected_direction") FORECAST_DIRECTIONS and?
              in_set (dict_get r "forecast_alignment") ALIGNMENT_VALUES and?
              _is_num (dict_get r "up_probability") and? _is_num (dict_get r "forecast_confidence"))
    (fun r => copy ["projected_direction"; "up_probability"; "expected_move_atr"; "forecast_confidence";
                    "forecast_alignment"]%string r ++
              [(VStr "measures", measures_of _FORECAST_MEASURE_FIELDS (dict_get r "measures"))] ++
              carried ["symbol"; "timeframe"; "candles_used"]%string r).

Definition _prediction_entry (results : list (val * val)) : res val :=
  tool_entry "get_prediction" "prediction" "projection" results
    (fun r => Ok (name_in ["Up"; "Down"; "Flat"]%string (dict_get r "projected_direction")) and?
              _is_num (dict_get r "projected_value") and? _is_num (dict_get r "confidence"))
    (fun r => [(VStr "projected_direction", dict_get r "projected_direction");
               (VStr "direction", match dict_get r "projected_direction" with
                                  | VStr d => VStr (lower (strip d)) | v => v end);
               (VStr "projected_value", dict_get r "projected_value"); (VStr "confidence", dict_get r "confidence")] ++
              carried ["symbol"; "timeframe"]%string r).

(** ** Trend, projection and patterns *)

(** [PATTERN_CONFIDENCE_THRESHOLD] *)
Definition PATTERN_CONFIDENCE_THRESHOLD : float := 0.6%float.

Definition names_daily (k : val) : bool :=
  let kl := lower (py_str k) in
  str_contains "1d" kl || str_contains "1day" kl || str_contains "daily" kl || String.eqb kl "day".

Definition _extract_1d_bias (multi_tf : val) : val :=
  match multi_tf with
  | VDict d => match List.find (fun kv => is_str kv.2 && names_daily kv.1) d with Some kv => kv.2 | None => VNone end
  | _ => VNone
  end.

Definition _bias_sign (bias : val) : option string :=
  if negb (truthy bias) then None
  else
    let b := lower (py_str bias) in
    if str_contains "bull" b || String.eqb b "up" then Some "Bullish"%string
    else if str_contains "bear" b || String.eqb b "down" then Some "Bearish"%string
    else if str_contains "neutral" b || str_contains "flat" b then Some "Neutral"%string
    else None.

(** [s.capitalize()] *)
Definition capitalize (s : string) : string :=
  match s with String c s' => String (upper_char c) (lower s') | EmptyString => EmptyString end.

(** The sign of a projection slope. *)
Fixpoint slope_direction (consensus : list (val * val)) (keys : list string) : res (option (string * string)) :=
  match keys with
  | [] => Ok None
  | key :: keys' =>
      let slope := dict_get consensus key in
      num ← _is_num slope;
      if num : bool then
        up ← py_gt slope (VInt 0); down ← py_lt slope (VInt 0);
        Ok (Some ((if up : bool then "Up" else if down : bool then "Down" else "Flat"), key)%string)
      else slope_direction consensus keys'
  end.

Definition _predictive_direction (results : list (val * val)) : res (option (string * string)) :=
  let from_consensus :=
    match dict_get results "get_consensus_report" with
    | VDict consensus => slope_direction consensus ["ols_slope"; "vwepr_slope"]%string
    | _ => Ok None
    end in
  match vget (dict_get results "get_prediction") "projected_direction" with
  | VStr d => if nonempty (strip d) then Ok (Some (capitalize (strip d), "predictive-engine"%string)) else from_consensus
  | _ => from_consensus
  end.

(** [a == b] of hashable values: numbers by value, whatever their type. *)
Fixpoint py_eq (a b : val) : bool :=
  match as_num a, as_num b with
  | Some x, Some y => neqb x y
  | None, None =>
      match a, b with
      | VNone, VNone => true
      | VStr s, VStr t | VBytes s, VBytes t => String.eqb s t
      | VTuple l, VTuple m =>
          (fix go l m := match l, m with
                         | [], [] => true
                         | x :: l', y :: m' => py_eq x y && go l' m'
                         | _, _ => false
                         end) l m
      | _, _ => false
      end
  | _, _ => false
  end.

(** A collected pattern, with the key duplicates are recognised by. *)
Record pattern := { pt_type : val; pt_sentiment : val; pt_confidence : float; pt_description : val; pt_timeframe : val }.

Definition pattern_dict (p : pattern) : val :=
  VDict [(VStr "pattern_type", pt_type p); (VStr "sentiment", pt_sentiment p); (VStr "confidence", VFloat (pt_confidence p));
         (VStr "description", pt_description p); (VStr "timeframe", pt_timeframe p)].

Definition same_pattern (p q : pattern) : bool :=
  py_eq (pt_type p) (pt_type q) && py_eq (pt_timeframe p) (pt_timeframe q) &&
  PrimFloat.eqb (f_round_nd (pt_confidence p) 4) (f_round_nd (pt_confidence q) 4).

(** One reported pattern: appended when confident and new. *)
Definition collect_pattern (threshold : float) (tf : val) (found : list pattern) (p : val) : res (list pattern) :=
  match p with
  | VDict d =>
      let conf := dict_get d "confidence" in
      num ← _is_num conf;
      if negb num then Ok found
      else
        low ← py_le conf (VFloat threshold);
        if low : bool then Ok found
        else
          c ← py_float conf;
          let new := {| pt_type := dict_get d "pattern_type"; pt_sentiment := dict_get d "sentiment"; pt_confidence := c;
                        pt_description := dict_get d "description"; pt_timeframe := tf |} in
          if negb (hashable (pt_type new) && hashable tf) then Raise TypeError
          else Ok (if existsb (same_pattern new) found then found else found ++ [new])
  | _ => Ok found
  end.

Section messages.
(** [ast.literal_eval], [None] when it raises. *)
Context (literal_eval : string -> option val).

Definition _collect_high_confidence_patterns (messages : list val) : res (list pattern) :=
  foldM (fun found m =>
    if _is_tool_message m && name_in ["get_chart_patterns"]%string (vattr m "name") && negb (_tool_result_is_error (content_of m)) then
      match _parse_tool_content literal_eval (content_of m) with
      | VDict parsed =>
          items ← py_iter (py_or (get_or (VDict parsed) "patterns" (VList [])) (VList []));
          foldM (collect_pattern PATTERN_CONFIDENCE_THRESHOLD (dict_get parsed "timeframe")) found items
      | _ => Ok found
      end
    else Ok found) [] messages.
End messages.

(** ** The action and levels of a decision *)

Definition LEVEL_KEYS : list string := ["entry"; "stop_loss"; "take_profit"]%string.

(** The finite numbers among the levels, as floats. *)
Fixpoint numeric_levels (src : val -> string -> val) (d : val) (keys : list string) : res (list (val * val)) :=
  match keys with
  | [] => Ok []
  | k :: keys' =>
      num ← _is_num (src d k);
      if num : bool then f ← py_float (src d k); rest ← numeric_levels src d keys'; Ok ((VStr k, VFloat f) :: rest)
      else numeric_levels src d keys'
  end.

Definition non_empty_levels (levels : list (val * val)) : option (list (val * val)) :=
  match levels with [] => None | _ => Some levels end.

(** The text parts that are present, joined by a space; a part that is not text
    cannot be joined. *)
Fixpoint text_parts (parts : list val) : res (list string) :=
  match parts with
  | [] => Ok []
  | p :: parts' =>
      if truthy p then match p with VStr s => rest ← text_parts parts'; Ok (s :: rest) | _ => Raise TypeError end
      else text_parts parts'
  end.

(** [mode == "VERIFY" and manual_trade] *)
Definition verifies (mode manual_trade : val) : bool := name_in ["VERIFY"]%string mode && truthy manual_trade.

(** The normalised action, [VNone] when there is none, and the levels found. *)
Definition _resolve_action_and_levels (decision : list (val * val)) (mode manual_trade : val)
  : res (val * option (list (val * val))) :=
  if verifies mode manual_trade then
    match manual_trade with
    | VDict _ =>
        levels ← numeric_levels vget manual_trade LEVEL_KEYS;
        Ok (_normalize_action (vget manual_trade "side"), non_empty_levels levels)
    | _ => Raise AttributeError
    end
  else
    let action := _normalize_action (dict_get decision "action") in
    structured ← numeric_levels vget (VDict decision) LEVEL_KEYS;
    if (length structured =? 3)%nat then Ok (action, Some structured)
    else
      parts ← text_parts [dict_get decision "execution_plan"; dict_get decision "setup_validation"];
      levels ← _parse_levels_from_text (str_join " " parts);
      Ok (action, levels).

Definition _levels_are_structural (decision : list (val * val)) (mode manual_trade : val) : res bool :=
  if verifies mode manual_trade then Ok true
  else _is_num (dict_get decision "entry") and? _is_num (dict_get decision "stop_loss") and?
       _is_num (dict_get decision "take_profit").

(** [levels.get(k)] of the resolved levels. *)
Definition level (levels : option (list (val * val))) (k : string) : val :=
  match levels with Some l => dict_get l k | None => VNone end.

(** Directional actions. *)
Definition directional (action : val) : bool := name_in ["BUY"; "SELL"]%string action.

(** ** VERIFY checks *)

Definition check (name outcome : string) : val := VDict [(VStr "check", VStr name); (VStr "outcome", VStr outcome)].

Definition check_with (name outcome detail : string) : val :=
  VDict [(VStr "check", VStr name); (VStr "outcome", VStr outcome); (VStr "detail", VStr detail)].

Definition pass_or_fail (b : bool) : string := if b then "pass" else "fail".

(** A finite level. *)
Definition finite_level (levels : option (list (val * val))) (k : string) : option float :=
  match level levels k with VFloat f => if fin f then Some f else None | _ => None end.

Definition stop_check (risk : float) (atr_14 : val) : val :=
  match atr_14 with
  | VFloat atr =>
      if fin atr && PrimFloat.ltb 0 atr then
        check_with "stop-distance-vs-atr" (pass_or_fail (PrimFloat.leb (1.5 * atr)%float risk))
          ("stop_distance=" ++ fmt_4f risk ++ ", 1.5xATR=" ++ fmt_4f (1.5 * atr)%float)
      else check "stop-distance-vs-atr" "not-evaluable — ATR unavailable"
  | _ => check "stop-distance-vs-atr" "not-evaluable — ATR unavailable"
  end.

Definition reward_check (risk reward min_rr : float) : val :=
  if PrimFloat.ltb 0 risk then
    let rr := (reward / risk)%float in
    check_with "risk-reward" (pass_or_fail (PrimFloat.leb min_rr rr)) ("RR=" ++ fmt_4f rr ++ ", min=" ++ fmt_4f min_rr)
  else check "risk-reward" "not-evaluable — zero risk".

Definition _verify_mode_validator_checks (action : val) (levels : option (list (val * val))) (atr_14 : val)
    (min_risk_reward : float) : list val :=
  let min_rr := if PrimFloat.ltb 0 min_risk_reward then min_risk_reward else MIN_RISK_REWARD in
  let act := _normalize_action action in
  if negb (directional act) then [check "direction" "n/a — HOLD/abstain bypasses level checks"]
  else
    match finite_level levels "entry", finite_level levels "stop_loss", finite_level levels "take_profit" with
    | Some entry, Some sl, Some tp =>
        let dir_ok := if name_in ["BUY"]%string act then PrimFloat.ltb sl entry && PrimFloat.ltb entry tp
                      else PrimFloat.ltb tp entry && PrimFloat.ltb entry sl in
        let risk := PrimFloat.abs (entry - sl) in
        [check "execution-levels-present" "pass"; check "direction-consistency" (pass_or_fail dir_ok);
         stop_check risk atr_14; reward_check risk (PrimFloat.abs (tp - entry)) min_rr]
    | _, _, _ =>
        check "execution-levels-present" "fail" ::
        map (fun c => check c "not-evaluable — missing levels")
          ["direction-consistency"; "stop-distance-vs-atr"; "risk-reward"]%string
    end.

(** ** The management entry *)

(** The committed plan: the declared one, or the single target. *)
Definition committed_plan (decision : list (val * val)) (action : val) (levels : option (list (val * val))) (atr_14 : val)
  : res (option ManagementPlan) :=
  let entry_px := level levels "entry" in
  let stop_px := level levels "stop_loss" in
  let take_px := level levels "take_profit" in
  declared ← (match dict_get decision "management_plan" with
              | VStr s => plan_from_json (VStr s)
              | VDict d => _coerce_management_plan (VDict d) action entry_px stop_px atr_14
              | _ => Ok None
              end);
  match declared with
  | Some p => Ok (Some p)
  | None =>
      usable ← _is_num take_px;
      if usable : bool then p ← single_target_plan entry_px stop_px take_px; Ok (Some p) else Ok None
  end.

(** The simulated part of the entry, where candles were fetched. *)
Definition simulated (plan : ManagementPlan) (results : list (val * val)) : list (val * val) :=
  match dict_get results "get_candles" with
  | VList ((_ :: _) as candles) =>
      let r := simulate_plan plan (VList candles) in
      [(VStr "status", VStr (status_text (sr_status r))); (VStr "realized_r", sr_realized_r r);
       (VStr "residual_fraction", VFloat (sr_residual_fraction r));
       (VStr "exit_breakdown", VList (map fill_dict (sr_fills r)))]
  | _ => []
  end.

Definition _management_entry (decision : list (val * val)) (action : val) (levels : option (list (val * val)))
    (results : list (val * val)) (atr_14 : val) : res val :=
  if negb (directional action) then Ok VNone
  else
    usable ← (_is_num (level levels "entry") and? _is_num (level levels "stop_loss"));
    if negb usable then Ok VNone
    else
      plan ← committed_plan decision action levels atr_14;
      match plan with
      | None => Ok VNone
      | Some p =>
          style ← management_style_tag (Some p);
          Ok (VDict ([
            (VStr "available", VBool true); (VStr "style", VStr style); (VStr "action", mp_action p);
            (VStr "entry", mp_entry p); (VStr "initial_stop", mp_initial_stop p);
            (VStr "legs", VList (map leg_payload (mp_legs p)));
            (VStr "breakeven",
              match mp_breakeven p with
              | None => VNone
              | Some be => VDict [(VStr "price", be_price be); (VStr "r_multiple", be_r_multiple be)]
              end);
            (VStr "trailing",
              match mp_trailing p with
              | None => VNone
              | Some tr => VDict [(VStr "atr_multiple", ts_atr_multiple tr); (VStr "r_increment", ts_r_increment tr)]
              end);
            (VStr "atr_14", mp_atr_14 p)] ++ simulated p results))
      end.

(** ** The debate entry *)

(** [int(v)]: of a number, or of numeric text. *)
Definition int_of (v : val) : res Z := match v with VStr s => parse_int s | _ => py_int v end.

Definition DEBATE_CONSENSUS_VALUES : list string := ["strong_agree"; "lean"; "contested"]%string.

Definition stance_entry (raw : val) : val := if is_dict raw then raw else VDict [(VStr "available", VBool false)].

(** The strength of a stance that is available. *)
Definition _stance_strength (entry : val) : res (option Z) :=
  if match vget entry "available" with VBool false => true | _ => false end then Ok None
  else match vget entry "strength" with
       | VInt z => Ok (Some z)
       | VFloat f => z ← f_int f; Ok (Some z)
       | _ => Ok None
       end.

Definition strength_text (s : option Z) : string := match s with Some z => Z_str z | None => "unavailable" end.

Definition _debate_entry (decision : list (val * val)) (mode : string) (action : val) : res val :=
  if negb (String.eqb mode "DEBATE") then Ok VNone
  else
    match dict_get decision "_debate" with
    | VDict raw =>
        let bull := stance_entry (dict_get raw "bull_stance") in
        let bear := stance_entry (dict_get raw "bear_stance") in
        let consensus := match dict_get raw "consensus" with
                         | VStr c => if str_in c DEBATE_CONSENSUS_VALUES then c else "unknown"%string
                         | _ => "unknown"%string
                         end in
        conviction ← (if is_none (dict_get raw "conviction") then Ok VNone
                      else catch (z ← int_of (dict_get raw "conviction"); Ok (VInt z))
                             (fun e => match e with TypeError | ValueError => true | _ => false end) VNone);
        bull_strength ← _stance_strength bull;
        bear_strength ← _stance_strength bear;
        let bull_desc := strength_text bull_strength in
        let bear_desc := strength_text bear_strength in
        let contested := String.eqb consensus "contested" in
        let basis :=
          ("Consensus '" ++ consensus ++ "' with bull strength " ++ bull_desc ++ " vs bear strength " ++ bear_desc ++
           " set the Judge conviction to " ++ (if is_none conviction then "n/a" else py_str conviction) ++ "." ++
           (if contested then " A contested consensus attenuates conviction toward caution." else ""))%string in
        Ok (VDict ([
          (VStr "bull_stance", bull); (VStr "bear_stance", bear); (VStr "consensus", VStr consensus);
          (VStr "conviction", conviction); (VStr "conviction_basis", VStr basis)] ++
          (if contested && directional action then
             [(VStr "committed_against_contested",
               VStr ("COMMITTED AGAINST A CONTESTED DEBATE: the Judge committed a directional " ++ py_str action ++
                     " even though the Bull and Bear cases were comparably strong and opposed (bull strength " ++ bull_desc ++
                     " vs bear strength " ++ bear_desc ++ ", consensus=contested)."))]
           else [])))
    | _ => Ok VNone
    end.
