(* ===== verification/GraphRecord.v ===== *)
(** * The agent graph: the tier stamp and the defensibility record

    Models [_evidence_for_tier], [_best_current_read], [_stamp_opportunity_tier] and
    [build_defensibility_record] of [agents/deep-quant-loop/graph.py], on the readers
    of GraphEvidence.  The state is passed as the parts they read: the messages, the
    mode, the user's trade and the profile. *)

From stdpp Require Import base list strings.
From Stdlib Require Import ZArith Lia Floats Ascii.
From S2P Require Import Prelude PyFloat PyRound PyNum PyVal PyEnv PyStats PyJson PyStr PlanText TradeManager Validator Debate Opportunity.
From S2P Require Import Contracts JournalTags Journal TradeTools GraphMessages GraphEvidence.

#[local] Set Warnings "-inexact-float".
Open Scope Z_scope.
Open Scope res_scope.

(** ** Reference levels *)

(** [float(d[k]) for k in keys if finite] *)
Fixpoint finite_fields (d : list (val * val)) (keys : list string) : res (list float) :=
  match keys with
  | [] => Ok []
  | k :: keys' =>
      num ← _is_num (dict_get d k);
      if num : bool then f ← py_float (dict_get d k); rest ← finite_fields d keys'; Ok (f :: rest) else finite_fields d keys'
  end.

Fixpoint filter_res (p : float -> res bool) (l : list float) : res (list float) :=
  match l with
  | [] => Ok []
  | x :: l' => keep ← p x; rest ← filter_res p l'; Ok (if keep : bool then x :: rest else rest)
  end.

(** [min(l, key=lambda s: abs(s - anchor))]: the first of the nearest. *)
Definition distance (anchor : val) (x : float) : res float := d ← py_sub (VFloat x) anchor; a ← py_abs d; py_float a.

Fixpoint nearest (anchor : val) (best : float) (at_ : float) (l : list float) : res float :=
  match l with
  | [] => Ok best
  | x :: l' => d ← distance anchor x; if PrimFloat.ltb d at_ then nearest anchor x d l' else nearest anchor best at_ l'
  end.

(** The nearest level on one side of the anchor, or the nearest at all. *)
Definition bracketing (side : val -> val -> res bool) (extreme : float -> list float -> float) (anchor : option val)
    (key : string) (levels : list float) : res (list (val * val)) :=
  match levels with
  | [] => Ok []
  | x :: l =>
      inside ← (match anchor with
                | None => Ok levels
                | Some a => filter_res (fun v => side (VFloat v) a) levels
                end);
      best ← (match inside, anchor with
              | y :: rest, _ => Ok (extreme y rest)
              | [], Some a => d ← distance a x; nearest a x d l
              | [], None => Ok x
              end);
      Ok [(VStr key, VFloat best)]
  end.

(** [{k: float(src[field])}] when finite. *)
Definition finite_as (key : string) (v : val) : res (list (val * val)) :=
  num ← _is_num v; if num : bool then f ← py_float v; Ok [(VStr key, VFloat f)] else Ok [].

Definition _reference_levels (results : list (val * val)) (watch_args : val) : res (list (val * val)) :=
  let consensus := dict_get results "get_consensus_report" in
  priced ← _is_num (vget consensus "current_price");
  from_sr ← (match dict_get results "get_support_resistance" with
             | VDict sr =>
                 if truthy (dict_get sr "unavailable") then Ok []
                 else
                   supports ← finite_fields sr ["s1"; "s2"; "s3"]%string;
                   resistances ← finite_fields sr ["r1"; "r2"; "r3"]%string;
                   anchor ← (if priced : bool then Ok (Some (vget consensus "current_price"))
                             else
                               pivoted ← _is_num (dict_get sr "pivot");
                               if pivoted : bool then p ← py_float (dict_get sr "pivot"); Ok (Some (VFloat p)) else Ok None);
                   low ← bracketing py_le fmax_list anchor "support" supports;
                   high ← bracketing py_ge fmin_list anchor "resistance" resistances;
                   Ok (low ++ high)
             | _ => Ok []
             end);
  match from_sr with
  | _ :: _ => Ok from_sr
  | [] =>
      vwap ← finite_as "vwap" (vget consensus "vwap");
      let vp := dict_get results "get_volume_profile" in
      high ← finite_as "value_area_high" (vget vp "vah");
      low ← finite_as "value_area_low" (vget vp "val");
      match vwap ++ high ++ low with
      | (_ :: _) as levels => Ok levels
      | [] =>
          watch ← finite_as "watch_price" (vget watch_args "price_level");
          inv ← finite_as "invalidation" (vget watch_args "invalidation_level");
          Ok (watch ++ inv)
      end
  end.

(** ** Evidence for the tier *)

(** The strongest of the reported confidences. *)
Fixpoint strongest (best : float) (patterns : list val) : res float :=
  match patterns with
  | [] => Ok best
  | VDict d :: rest =>
      num ← _is_num (dict_get d "confidence");
      if num : bool then c ← py_float (dict_get d "confidence"); strongest (fmax2 best c) rest else strongest best rest
  | _ :: rest => strongest best rest
  end.

Definition _max_pattern_confidence (results : list (val * val)) : res float :=
  let patterns := match dict_get results "get_chart_patterns" with VDict d => dict_get d "patterns" | v => v end in
  best ← (match patterns with VList l => strongest 0 l | _ => Ok 0%float end);
  Ok (clamp_unit best).

Definition signal (available : bool) (alignment : string) : val :=
  VDict [(VStr "available", VBool available); (VStr "alignment", VStr alignment)].

Definition _macro_signal_for_tier (results : list (val * val)) (action : val) : val :=
  match _bias_sign (_extract_1d_bias (dict_get results "get_multi_tf_trend")) with
  | None => signal false "neutral"
  | Some bias =>
      let act := match action with VStr a => upper a | _ => EmptyString end in
      if String.eqb bias "Neutral" || negb (str_in act ["BUY"; "SELL"]%string) then signal true "neutral"
      else if (String.eqb act "BUY" && String.eqb bias "Bullish") || (String.eqb act "SELL" && String.eqb bias "Bearish")
           then signal true "aligned"
           else signal true "misaligned"
  end.

Section record.
Context (literal_eval : string -> option val) (cfg : OpportunityConfig).
Context (messages : list val) (mode manual_trade profile : val).

Abbreviation results := (_latest_tool_results literal_eval messages).

Definition _evidence_for_tier (decision : list (val * val)) : res (val * val) :=
  al ← _resolve_action_and_levels decision mode manual_trade;
  let '(action, levels) := al in
  conf ← _max_pattern_confidence results;
  regime ← _regime_entry results;
  session ← _session_entry results;
  relative_strength ← _relative_strength_entry results;
  forecast ← _forecast_entry results;
  prediction ← _prediction_entry results;
  options ← _options_entry results;
  reference ← _reference_levels results (_latest_watch_args messages);
  structural ← _levels_are_structural decision mode manual_trade;
  Ok (VDict [(VStr "pattern_confidence", VFloat conf); (VStr "entry", level levels "entry");
             (VStr "stop", level levels "stop_loss"); (VStr "target", level levels "take_profit");
             (VStr "regime", regime); (VStr "session", session); (VStr "relative_strength", relative_strength);
             (VStr "forecast", forecast); (VStr "prediction", prediction); (VStr "options", options);
             (VStr "macro", _macro_signal_for_tier results action); (VStr "reference_levels", VDict reference);
             (VStr "levels_structural", VBool structural)], action).

Definition tier_obj (t : TierEvaluation) : val :=
  VObj [("tier"%string, VStr (te_tier t)); ("size_factor"%string, VFloat (te_size_factor t));
        ("rationale"%string, VStr (te_rationale t));
        ("gated_by"%string, match te_gated_by t with Some s => VStr s | None => VNone end)] "TierEvaluation".

Definition PREDICTION_NOTE : string := "Interim direction from the secondary prediction (forecast unavailable).".

Definition available_entry (v : val) : bool := match vget v "available" with VBool b => b | _ => false end.

(** The read, its direction taken from the secondary prediction when it is neutral
    and the forecast is unavailable. *)
Definition _best_current_read (evidence tier_eval : val) : res val :=
  read ← best_current_read evidence tier_eval;
  match read with
  | VDict r =>
      if negb (name_in ["neutral"]%string (dict_get r "bias")) then Ok read
      else if available_entry (vget evidence "forecast") then Ok read
      else
        let prediction := vget evidence "prediction" in
        let turned (bias : string) :=
          let why := py_or (dict_get r "why_standing_aside") (VStr "") in
          let text := if truthy why then strip (py_str why ++ " " ++ PREDICTION_NOTE) else PREDICTION_NOTE in
          VDict (dict_set (dict_set r "bias" (VStr bias)) "why_standing_aside" (VStr text)) in
        if negb (available_entry prediction) then Ok read
        else match vget prediction "direction" with
             | VStr d => Ok (if String.eqb d "up" then turned "bullish"
                             else if String.eqb d "down" then turned "bearish" else read)
             | _ => Ok read
             end
  | _ => Ok read
  end.

(** The tier a committed decision is tagged with. *)
Definition stamped_tier (t : TierEvaluation) (action : val) : string :=
  let act := match action with VStr a => upper a | _ => EmptyString end in
  if str_in act ["BUY"; "SELL"]%string then (if String.eqb (te_tier t) "stand_aside" then "scalp" else te_tier t)
  else "stand_aside".

(** [_stamp_opportunity_tier]: an exception on the way keeps what was already set. *)
Definition _stamp_opportunity_tier (decision : list (val * val)) : list (val * val) :=
  match (ea ← _evidence_for_tier decision; t ← evaluate_tier ea.1 (config_obj cfg); Ok (ea.1, ea.2, t)) with
  | Raise _ => decision
  | Ok (evidence, action, t) =>
      let tier := stamped_tier t action in
      let decision := dict_set decision "opportunity_tier" (VStr tier) in
      match size_factor tier (config_obj cfg) with
      | Raise _ => decision
      | Ok f =>
          let decision := dict_set decision "size_factor" (VFloat f) in
          if String.eqb tier "stand_aside" then
            match _best_current_read evidence (tier_obj t) with
            | Raise _ => decision
            | Ok read => if has_key "best_current_read" decision then decision else dict_set decision "best_current_read" read
            end
          else decision
      end
  end.

(** The interim read of a wait pulse, when it can be computed. *)
Definition interim_read_now : option val :=
  match (ea ← _evidence_for_tier []; t ← evaluate_tier ea.1 (config_obj cfg); _best_current_read ea.1 (tier_obj t)) with
  | Ok read => Some read
  | Raise _ => None
  end.

(** ** The record *)

(** An entry with an opposition statement, when the trade goes against it. *)
Definition opposed (entry : val) (field against key : string) (action : val) (statement : string) : val :=
  match entry with
  | VDict e =>
      if truthy (dict_get e "available") && name_in [against] (dict_get e field) && directional action
      then VDict (dict_set e key (VStr statement)) else entry
  | _ => entry
  end.

Definition shown (entry : val) (k : string) : string := py_str (vget entry k).

Definition regime_conflict (action entry : val) : string :=
  ("REGIME CONFLICT: the committed " ++ py_str action ++ " trade opposes the regime assessment (favorability=unfavorable, trend_state="
   ++ shown entry "trend_state" ++ ", volatility_state=" ++ shown entry "volatility_state" ++ ").")%string.

Definition relative_strength_conflict (action entry : val) : string :=
  ("RELATIVE STRENGTH CONFLICT: the committed " ++ py_str action ++
   " trade fights the index or trades a laggard against its benchmark (" ++ shown entry "benchmark" ++ ") — index_direction="
   ++ shown entry "index_direction" ++ ", relative_strength_state=" ++ shown entry "relative_strength_state" ++
   ", alignment=misaligned.")%string.

Definition forecast_conflict (action entry : val) : string :=
  ("FORECAST CONFLICT: the committed " ++ py_str action ++ " trade opposes the forecast (projected_direction="
   ++ shown entry "projected_direction" ++ ", up_probability=" ++ shown entry "up_probability" ++
   ", forecast_alignment=misaligned).")%string.

Definition session_conflict (action entry : val) : string :=
  ("UNFAVORABLE TIME WINDOW: the committed " ++ py_str action ++ " trade is taken in an unfavorable time window (session_phase="
   ++ shown entry "session_phase" ++ ", is_expiry_day=" ++ shown (vget entry "expiry_context") "is_expiry_day" ++
   ", time_favorability=unfavorable).")%string.

Definition options_conflict (action entry : val) : string :=
  ("OPTIONS CONFLICT: the committed " ++ py_str action ++ " trade fights the prevailing options positioning (options_bias_state="
   ++ shown entry "options_bias_state" ++ ", alignment=misaligned, chain_context=" ++ shown entry "chain_context" ++ ").")%string.

Definition event_conflict (action entry : val) : string :=
  ("EVENT RISK: the committed " ++ py_str action ++
   " trade is held THROUGH a scheduled event (event_risk=through_event, event_date=" ++ shown entry "event_date" ++
   ", days_until_event=" ++ shown entry "days_until_event" ++ ", event_recommendation=" ++ shown entry "event_recommendation"
   ++ ").")%string.

(** [f" {entry[key]}"] when the statement is there. *)
Definition appended (entry : val) (key : string) : string :=
  if truthy (vget entry key) then (" " ++ shown entry key)%string else EmptyString.

(** A field of an entry that is available. *)
Definition stated (entry : val) (k : string) : string :=
  if truthy (vget entry "available") then shown entry k else "unavailable"%string.

Definition volatility_basis (atr : val) (levels : option (list (val * val))) : string :=
  match atr with
  | VFloat a =>
      let floor := (1.5 * a)%float in
      ("Stop sized against ATR(14)=" ++ fmt_4f a ++ "; risk-manager floor is 1.5x ATR = " ++ fmt_4f floor ++ "." ++
       match finite_level levels "entry", finite_level levels "stop_loss" with
       | Some entry, Some stop =>
           let dist := PrimFloat.abs (entry - stop) in
           " Actual stop distance = " ++ fmt_4f dist ++ " (" ++ (if PrimFloat.leb floor dist then ">=" else "<") ++ " 1.5x ATR)."
       | _, _ => ""
       end)%string
  | _ => "ATR(14) unavailable from consensus; volatility basis for the stop could not be confirmed."
  end.

Definition risk_reward_of (levels : option (list (val * val))) : val :=
  match finite_level levels "entry", finite_level levels "stop_loss", finite_level levels "take_profit" with
  | Some entry, Some stop, Some take =>
      let risk := PrimFloat.abs (entry - stop) in
      if PrimFloat.ltb 0 risk then VFloat (f_round_nd (PrimFloat.abs (take - entry) / risk) 4) else VNone
  | _, _, _ => VNone
  end.

(** The direction an action takes. *)
Definition agent_dir (action : val) : option string :=
  match action with
  | VStr a => if String.eqb a "BUY" then Some "Up" else if String.eqb a "SELL" then Some "Down"
              else if String.eqb a "HOLD" then Some "Flat" else None
  | _ => None
  end%string.

Definition predictive_conflict (projection : option (string * string)) (action : val) : string :=
  match projection with
  | None => "Predictive projection unavailable; no conflict assessment possible."
  | Some (dir, src) =>
      match agent_dir action with
      | Some bias =>
          if String.eqb bias "Flat" then
            "Predictive projection is " ++ dir ++ " (source: " ++ src ++ "); no directional trade bias to compare."
          else if (String.eqb dir "Up" && String.eqb bias "Down") || (String.eqb dir "Down" && String.eqb bias "Up") then
            "CONFLICT: predictive projection is " ++ dir ++ " (source: " ++ src ++ ") but the trade bias is " ++ bias ++ "."
          else "No predictive conflict: projection " ++ dir ++ " aligns with trade bias " ++ bias ++ " (source: " ++ src ++ ")."
      | None => "Predictive projection is " ++ dir ++ " (source: " ++ src ++ "); no directional trade bias to compare."
      end
  end%string.

Definition macro_conflict (bias_1d : val) (action : val) : string :=
  let raw := py_str bias_1d in
  let other :=
    (if truthy bias_1d then "1D trend bias is " ++ raw ++ "; trade direction is " ++ py_str (py_or action (VStr "n/a")) ++ "."
     else "1D trend bias unavailable; macro-trend alignment could not be assessed.")%string in
  match _bias_sign bias_1d, agent_dir action with
  | Some sign, Some dir =>
      if negb (String.eqb sign "Neutral") && negb (String.eqb dir "Flat") then
        if (String.eqb dir "Up" && String.eqb sign "Bearish") || (String.eqb dir "Down" && String.eqb sign "Bullish")
        then "MACRO CONFLICT: " ++ py_str action ++ " opposes the 1D trend bias (" ++ raw ++ ")."
        else "Aligned with the 1D trend bias (" ++ raw ++ ")."
      else other
  | _, _ => other
  end%string.

Definition named_patterns (patterns : list pattern) : string :=
  match patterns with
  | [] => "none >0.6"
  | _ => str_join ", " (map (fun p => py_str (pt_type p) ++ " (conf " ++ fmt_2f (pt_confidence p) ++ ")") patterns)
  end%string.

(** The run's mode, upper-cased. *)
Definition record_mode : res string := match py_or mode (VStr "FIND") with VStr m => Ok (upper m) | _ => Raise AttributeError end.

Definition dict_or_none (v : val) : val := if is_dict v then v else VNone.

Definition build_defensibility_record (decision : list (val * val)) : res (list (val * val)) :=
  mode_text ← record_mode;
  patterns ← _collect_high_confidence_patterns literal_eval messages;
  al ← _resolve_action_and_levels decision (VStr mode_text) manual_trade;
  let '(action, levels) := al in
  let multi_tf := dict_or_none (dict_get results "get_multi_tf_trend") in
  atr ← _latest_atr results;
  projection ← _predictive_direction results;
  let bias_1d := _extract_1d_bias multi_tf in
  let predictive := predictive_conflict projection action in
  let macro := macro_conflict bias_1d action in
  let risk_reward := risk_reward_of levels in
  let vp := dict_get results "get_volume_profile" in
  let perf := dict_get results "get_trade_performance" in
  regime0 ← _regime_entry results;
  relative_strength0 ← _relative_strength_entry results;
  forecast0 ← _forecast_entry results;
  session0 ← _session_entry results;
  options0 ← _options_entry results;
  event0 ← _event_entry results;
  let regime := opposed regime0 "favorability" "unfavorable" "trade_opposes_regime" action (regime_conflict action regime0) in
  let relative_strength := opposed relative_strength0 "alignment" "misaligned" "trade_opposes_relative_strength" action
                             (relative_strength_conflict action relative_strength0) in
  let forecast := opposed forecast0 "forecast_alignment" "misaligned" "trade_opposes_forecast" action
                    (forecast_conflict action forecast0) in
  let session := opposed session0 "time_favorability" "unfavorable" "trade_in_unfavorable_window" action
                   (session_conflict action session0) in
  let options := opposed options0 "alignment" "misaligned" "trade_opposes_options" action (options_conflict action options0) in
  let event := opposed event0 "event_risk" "through_event" "trade_held_through_event" action (event_conflict action event0) in
  management ← _management_entry decision action levels results atr;
  debate ← _debate_entry decision mode_text action;
  let summary :=
    ("Multi-TF 1D bias: " ++ py_str (py_or bias_1d (VStr "n/a")) ++ ". RR: " ++
     (if is_none risk_reward then "n/a" else py_str risk_reward) ++ ". High-confidence patterns: " ++ named_patterns patterns ++
     ". Regime: " ++ stated regime "favorability" ++ ". Relative strength: " ++ stated relative_strength "alignment" ++
     ". Forecast: " ++ stated forecast "forecast_alignment" ++ ". Session: " ++ stated session "time_favorability" ++
     ". Options: " ++ stated options "alignment" ++ ". Event: " ++ stated event "event_risk" ++ ". " ++ macro ++ " " ++ predictive ++
     appended regime "trade_opposes_regime" ++ appended relative_strength "trade_opposes_relative_strength" ++
     appended forecast "trade_opposes_forecast" ++ appended session "trade_in_unfavorable_window" ++
     appended options "trade_opposes_options" ++ appended event "trade_held_through_event")%string in
  Ok ([(VStr "mode", VStr mode_text); (VStr "action", action); (VStr "multi_tf_bias", multi_tf); (VStr "trend_1d", bias_1d);
       (VStr "support_resistance", dict_or_none (dict_get results "get_support_resistance"));
       (VStr "volatility_basis", VStr (volatility_basis atr levels)); (VStr "atr_14", atr);
       (VStr "levels", match levels with Some l => VDict l | None => VNone end); (VStr "risk_reward", risk_reward);
       (VStr "patterns", VList (map pattern_dict patterns));
       (VStr "volume_profile",
         match vp with
         | VDict ((_ :: _) as v) => VDict (copy ["poc"; "vah"; "val"; "price_vs_value_area"; "hvn_levels"; "lvn_levels"]%string v)
         | _ => VNone
         end);
       (VStr "track_record", match perf with VDict p => VDict (copy ["overall"; "low_sample"]%string p) | _ => VNone end);
       (VStr "predictive_conflict", VStr predictive); (VStr "macro_trend_conflict", VStr macro);
       (VStr "news_sentiment", vget (dict_get results "get_news_context") "sentiment_summary");
       (VStr "regime", regime); (VStr "relative_strength", relative_strength); (VStr "forecast", forecast);
       (VStr "session", session); (VStr "options", options); (VStr "event", event); (VStr "summary", VStr summary)] ++
      (if is_none management then [] else [(VStr "management", management)]) ++
      (if is_none debate then [] else [(VStr "debate", debate)]) ++
      (if String.eqb mode_text "VERIFY" then
         [(VStr "validator_checks",
           VList (_verify_mode_validator_checks action levels atr (min_risk_reward_for_profile profile)))]
       else []) ++
      (match dict_get decision "opportunity_tier" with
       | VStr (String _ _ as t) => [(VStr "opportunity_tier", VStr t)]
       | _ => []
       end)).
End record.
