(* ===== verification/StreamEvents.v ===== *)
(** * Stream events

    Models [agents/deep-quant-loop/stream_events.py]: the frames a run shows, from the
    updates of the graph's nodes: reasoning without its call markup, tool calls and
    results, the verification steps read off a decision's record, the decision.

    A generator is the frames it yielded and the exception that ended it, if one did. *)

From stdpp Require Import base list strings.
From Stdlib Require Import ZArith Lia Floats Ascii.
From S2P Require Import Prelude PyFloat PyNum PyVal PyEnv PyJson PyStr Validator JournalTags GraphMessages GraphEvidence.

#[local] Set Warnings "-inexact-float".
#[local] Open Scope Z_scope.
#[local] Open Scope res_scope.

(** ** Names *)

Definition RUN_STARTED : string := "RUN_STARTED".
Definition RUN_FINISHED : string := "RUN_FINISHED".
Definition ERROR : string := "ERROR".
Definition REASONING : string := "REASONING".
Definition TOOL_CALL_START : string := "TOOL_CALL_START".
Definition TOOL_CALL_RESULT : string := "TOOL_CALL_RESULT".
Definition TOOL_CALL_END : string := "TOOL_CALL_END".
Definition VERIFICATION_STEP : string := "VERIFICATION_STEP".
Definition DECISION : string := "DECISION".
Definition BEST_CURRENT_READ : string := "BEST_CURRENT_READ".

Definition RUN_COMPLETED : string := "completed".
Definition RUN_PAUSED : string := "paused".
Definition RUN_CANCELLED : string := "cancelled".
Definition RUN_ERROR : string := "error".

Definition _RESULT_SUMMARY_MAX_CHARS : Z := 4000.

(** ** Generators *)

(** A frame: its name and its payload. *)
Definition event : Type := (string * val)%type.

Definition gen : Type := (list event * option exn)%type.

Definition gnil : gen := ([], None).
Definition gyield (e : event) : gen := ([e], None).
Definition graise (e : exn) : gen := ([], Some e).

(** One after the other, unless the first raised. *)
Definition gseq (a b : gen) : gen := match a.2 with Some e => a | None => (a.1 ++ b.1, b.2) end.

(** A computation between two yields. *)
Definition gwith {A} (m : res A) (k : A -> gen) : gen := match m with Ok a => k a | Raise e => graise e end.

Definition gfor {A} (l : list A) (f : A -> gen) : gen := fold_right (fun a g => gseq (f a) g) gnil l.

(** ** Framing *)

Definition ensure_json_object (data : val) : val :=
  match data with VDict _ => data | _ => VDict [(VStr "value", data)] end.

Definition newline : string := String (byte_of 10) EmptyString.

Definition format_sse (event_name : string) (data : val) : res string :=
  text ← dumps dumps_str (ensure_json_object data);
  Ok ("event: " ++ event_name ++ newline ++ "data: " ++ text ++ newline ++ newline)%string.

(** ** The markup *)

(** [_CALL_BLOCK_RE.sub("", text)] *)
Fixpoint remove_blocks (fuel : nat) (s : string) : string :=
  match fuel with
  | O => s
  | S fuel' =>
      match split_at_first CALL_BEGIN s with
      | None => s
      | Some (before, after) =>
          match split_at_first CALL_END after with
          | None => s
          | Some (_, rest) => (before ++ remove_blocks fuel' rest)%string
          end
      end
  end.

(** [_SEP_NAME_RE.search]: the text before the match, and the text after it. *)
Fixpoint sep_locate (fuel : nat) (s : string) : option (string * string) :=
  match fuel with
  | O => None
  | S fuel' =>
      match split_at_first SEP s with
      | None => None
      | Some (before, after) =>
          let '(name, rest) := span name_char (lstrip after) in
          if nonempty name then Some (before, rest)
          else match sep_locate fuel' after with Some (b, rest) => Some (before ++ SEP ++ b, rest)%string | None => None end
      end
  end.

(** The text after a call segment: past its arguments, when it has some. *)
Definition after_args (rest : string) : string :=
  match _extract_balanced_json rest with
  | Some raw_args => match split_at_first raw_args rest with Some (_, tail) => tail | None => rest end
  | None => rest
  end.

Fixpoint _strip_standalone_sep_calls (fuel : nat) (text : string) : string :=
  match fuel with
  | O => text
  | S fuel' =>
      match sep_locate (S (String.length text)) text with
      | None => text
      | Some (before, rest) => _strip_standalone_sep_calls fuel' (before ++ after_args rest)
      end
  end.

(** The text after a token that starts here. *)
Definition token_here (s : string) : option string :=
  match strip_prefix CALL_BEGIN s with
  | Some rest => Some rest
  | None => match strip_prefix SEP s with Some rest => Some rest | None => strip_prefix CALL_END s end
  end.

(** [_ORPHAN_TOKEN_RE.sub("", text)] *)
Fixpoint drop_orphans (fuel : nat) (s : string) : string :=
  match fuel with
  | O => s
  | S fuel' =>
      match token_here s with
      | Some rest => drop_orphans fuel' rest
      | None => match s with EmptyString => EmptyString | String c s' => String c (drop_orphans fuel' s') end
      end
  end.

Definition strip_tool_call_markup (content : val) : string :=
  if negb (truthy content) then ""
  else
    let text := text_of content in
    let text := remove_blocks (S (String.length text)) text in
    let text := _strip_standalone_sep_calls (S (String.length text)) text in
    strip (drop_orphans (S (String.length text)) text).

Definition build_reasoning_event (content : val) (role : option string) : option val :=
  let stripped := strip_tool_call_markup content in
  if negb (nonempty stripped) then None
  else
    Some (VDict ((VStr "content", VStr stripped) ::
                 match role with Some r => if nonempty (strip r) then [(VStr "role", VStr (strip r))] else [] | None => [] end)).

(** ** Tool calls *)

Definition build_tool_call_start_event (tool_name args : val) : val :=
  VDict [(VStr "tool", tool_name); (VStr "args", if is_none args then VDict [] else args)].

(** [text[:n]] *)
Definition cut (n : Z) (text : string) : string := if str_len text <=? n then text else str_take (Z.to_nat n) text.

Definition _summarize_result (parsed : val) : val :=
  match parsed with
  | VDict d =>
      VDict [(VStr "summary_keys", VList (map VStr (sorted_names (map (fun kv => py_str kv.1) d))));
             (VStr "field_count", VInt (Z.of_nat (length d))); (VStr "truncated", VBool true)]
  | VList l => VDict [(VStr "summary_type", VStr "list"); (VStr "length", VInt (Z.of_nat (length l))); (VStr "truncated", VBool true)]
  | _ => VDict [(VStr "summary", VStr (cut _RESULT_SUMMARY_MAX_CHARS (py_str parsed))); (VStr "truncated", VBool true)]
  end.

Definition content_text (content : val) : string := if is_none content then "" else text_of content.

Section parsing.
(** [ast.literal_eval], [None] when it raises. *)
Context (literal_eval : string -> option val).

Definition _result_payload (content : val) : res (val * bool) :=
  match _parse_tool_content literal_eval content with
  | VNone =>
      let text := content_text content in
      if _RESULT_SUMMARY_MAX_CHARS <? str_len text then
        Ok (VDict [(VStr "summary", VStr (cut _RESULT_SUMMARY_MAX_CHARS text)); (VStr "truncated", VBool true);
                   (VStr "original_length", VInt (str_len text))], true)
      else Ok (VStr text, false)
  | parsed =>
      serialized ← match dumps dumps_default parsed with
                   | Raise (TypeError | ValueError) => Ok (py_str parsed)
                   | m => m
                   end;
      if str_len serialized <=? _RESULT_SUMMARY_MAX_CHARS then Ok (parsed, false) else Ok (_summarize_result parsed, true)
  end.

Definition build_tool_call_result_event (tool_name content : val) : res val :=
  '(result, summarized) ← _result_payload content;
  Ok (VDict ([(VStr "tool", tool_name); (VStr "result", result)] ++ (if summarized : bool then [(VStr "summarized", VBool true)] else []))).

(** The reason the first of these keys gives. *)
Fixpoint keyed_reason (parsed : val) (keys : list string) : option string :=
  match keys with
  | [] => None
  | key :: keys =>
      match vget parsed key with
      | VStr s => Some (if nonempty (strip s) then strip s else s)
      | VNone | VDict _ | VList _ => keyed_reason parsed keys
      | value => Some (py_str value)
      end
  end.

Definition _extract_error_reason (content : val) : string :=
  let parsed := _parse_tool_content literal_eval content in
  match (if is_dict parsed then keyed_reason parsed ["error"; "error_reason"; "message"; "detail"; "reason"]%string else None) with
  | Some reason => reason
  | None =>
      let text := strip (content_text content) in
      if nonempty text then cut 500 text else "unknown error"
  end.

Definition tool_result_status (content : val) : string * option string :=
  if _tool_result_is_error content then ("failure", Some (_extract_error_reason content))%string else ("success", None)%string.

Definition build_tool_call_end_event (tool_name : val) (status : string) (error_reason : option string) : val :=
  VDict ([(VStr "tool", tool_name); (VStr "status", VStr status)] ++
         match error_reason with
         | Some r => if String.eqb status "failure" && nonempty r then [(VStr "error_reason", VStr r)] else []
         | None => []
         end).
End parsing.

(** ** Verification steps *)

Definition _is_number (x : val) : bool := is_int_or_float x && negb (is_bool x).

(** [(v or "").lower()] *)
Definition lowered (v : val) : res string :=
  match py_or v (VStr "") with VStr s => Ok (lower s) | _ => Raise AttributeError end.

Definition _outcome_from_volatility (basis : val) : res string :=
  b ← lowered basis;
  Ok (if str_contains "< 1.5x atr" b then "fail"
      else if str_contains ">= 1.5x atr" b then "pass"
      else if str_contains "unavailable" b then "not-evaluable — ATR unavailable"
      else "informational")%string.

Definition _outcome_from_macro (statement : val) : res string :=
  sl ← lowered statement;
  Ok (if starts_with "macro conflict" sl then "fail"
      else if starts_with "aligned" sl then "pass"
      else if str_contains "unavailable" sl then "not-evaluable — 1D trend unavailable"
      else "informational")%string.

(** [isinstance(entry, dict) and entry.get("available")] *)
Definition usable (entry : val) : bool := is_dict entry && truthy (vget entry "available").

(** [f": {reason}" if reason else ""] *)
Definition reason_suffix (entry : val) : string :=
  let reason := vget entry "reason" in if truthy reason then (": " ++ py_str reason)%string else "".

(** [table.get(key)] of a dictionary of strings. *)
Definition look_up (table : list (string * string)) (key : val) : res (option string) :=
  if hashable key then Ok (match key with VStr s => assoc_str s table | _ => None end) else Raise TypeError.

(** [f"{k}={entry.get(k)}"], of each key. *)
Definition shown_fields (entry : val) (keys : list string) : string :=
  str_join ", " (map (fun k => k ++ "=" ++ py_str (vget entry k)) keys)%string.

(** A step read off one entry of the record: the entry, the name of the step, what
    says that it is not evaluable, and the outcome of each label. *)
Definition labelled_step (name marker absent missing field : string) (table : list (string * string))
    (detail : val -> string) (entry : val) : res val :=
  let none := ("not-evaluable — " ++ marker)%string in
  if negb (usable entry) then Ok (check_with name none (absent ++ reason_suffix entry ++ "."))
  else
    outcome ← look_up table (vget entry field);
    Ok match outcome with
       | None => check_with name none missing
       | Some o => check_with name o (detail entry)
       end.

Definition favorability_outcomes : list (string * string) :=
  [("favorable", "pass"); ("unfavorable", "fail"); ("neutral", "informational")]%string.

Definition alignment_outcomes : list (string * string) :=
  [("aligned", "pass"); ("misaligned", "fail"); ("neutral", "informational")]%string.

Definition _regime_step (record : list (val * val)) : res val :=
  labelled_step "market-regime" "regime unavailable" "Regime unavailable" "Regime favorability missing or unrecognized."
    "favorability" favorability_outcomes
    (fun regime => shown_fields regime ["favorability"; "trend_state"; "volatility_state"] ++ ".")%string
    (dict_get record "regime").

Definition _relative_strength_step (record : list (val * val)) : res val :=
  labelled_step "relative-strength" "relative strength unavailable" "Relative strength unavailable"
    "Relative-strength alignment missing or unrecognized." "alignment" alignment_outcomes
    (fun rs => shown_fields rs ["alignment"; "index_direction"; "relative_strength_state"; "benchmark"] ++ ".")%string
    (dict_get record "relative_strength").

Definition _forecast_step (record : list (val * val)) : res val :=
  labelled_step "forecast" "forecast unavailable" "Forecast unavailable" "Forecast alignment missing or unrecognized."
    "forecast_alignment" alignment_outcomes
    (fun forecast =>
       shown_fields forecast ["forecast_alignment"; "projected_direction"; "up_probability"; "expected_move_atr"; "forecast_confidence"] ++ ".")%string
    (dict_get record "forecast").

(** [v == text] *)
Definition is_text (v : val) (text : string) : bool := match v with VStr s => String.eqb s text | _ => false end.

(** [len(v)] *)
Definition len_of (v : val) : res Z := match v with VStr s => Ok (str_len s) | _ => py_len v end.

Definition yes_no (v : val) : string := if truthy v then "yes" else "no".

Definition _trade_management_step (record : list (val * val)) : res val :=
  let management := dict_get record "management" in
  if negb (usable management) then
    Ok (check_with "trade-management" "not-evaluable — no management plan" ("No management plan recorded" ++ reason_suffix management ++ "."))
  else
    let style := vget management "style" in
    if is_text (vget management "status") "invalid" then
      Ok (check_with "trade-management" ("fail — invalid plan (" ++ py_str style ++ ")")
            "Trade_Manager reported the plan as invalid for scoring.")
    else if is_text style "single" then
      Ok (check_with "trade-management" "informational — single-target (no active management)"
            (shown_fields management ["action"; "entry"; "initial_stop"] ++ "."))
    else if negb (truthy style) || is_text style "unknown" then
      Ok (check_with "trade-management" "not-evaluable — management style unrecognized"
            "Management entry present without a recognized management style.")
    else
      legs ← len_of (py_or (vget management "legs") (VList []));
      Ok (check_with "trade-management" ("pass — managed plan (" ++ py_str style ++ ")")
            ("style=" ++ py_str style ++ ", action=" ++ py_str (vget management "action") ++ ", legs=" ++ Z_str legs ++
             ", breakeven=" ++ yes_no (vget management "breakeven") ++ ", trailing=" ++ yes_no (vget management "trailing") ++ ".")).

Definition _session_step (record : list (val * val)) : res val :=
  labelled_step "session" "session context unavailable" "Session context unavailable"
    "Session time_favorability missing or unrecognized." "time_favorability" favorability_outcomes
    (fun session =>
       let expiry := vget session "expiry_context" in
       shown_fields session ["time_favorability"; "session_phase"; "minutes_since_open"; "minutes_until_close"] ++ ", " ++
       (if is_dict expiry then shown_fields expiry ["is_expiry_day"; "days_until_expiry"] else "expiry_context unavailable") ++ ".")%string
    (dict_get record "session").

Definition _options_step (record : list (val * val)) : res val :=
  labelled_step "options" "options unavailable" "Options context unavailable" "Options alignment missing or unrecognized."
    "alignment" alignment_outcomes
    (fun options =>
       let oi_walls := vget options "oi_walls" in
       shown_fields options ["alignment"; "options_bias_state"; "pcr_oi"; "max_pain"] ++ ", " ++
       (if is_dict oi_walls then shown_fields oi_walls ["support"; "resistance"] else "oi_walls unavailable") ++ ", " ++
       shown_fields options ["chain_context"] ++ ".")%string
    (dict_get record "options").

Definition event_outcomes : list (string * string) :=
  [("clear", "pass"); ("through_event", "fail"); ("imminent", "informational")]%string.

Definition _event_step (record : list (val * val)) : res val :=
  labelled_step "event-risk" "event risk unavailable" "Event risk unavailable" "Event risk missing or unrecognized."
    "event_risk" event_outcomes
    (fun event =>
       let held := vget event "trade_held_through_event" in
       shown_fields event ["event_risk"; "days_until_event"; "event_date"; "event_recommendation"] ++ "." ++
       (if truthy held then " " ++ py_str held else ""))%string
    (dict_get record "event").

Definition consensus_outcomes : list (string * string) :=
  [("strong_agree", "pass"); ("lean", "informational"); ("contested", "fail")]%string.

Definition _debate_consensus_step (record : list (val * val)) : res val :=
  let debate := dict_get record "debate" in
  if negb (is_dict debate) then
    Ok (check_with "debate-consensus" "not-evaluable — no debate entry" "No debate entry present in the defensibility record.")
  else
    let consensus := vget debate "consensus" in
    outcome ← look_up consensus_outcomes consensus;
    Ok match outcome with
       | None =>
           check_with "debate-consensus" "not-evaluable — debate consensus unrecognized"
             ("Debate consensus missing or unrecognized (consensus=" ++ py_repr consensus ++ ").")
       | Some o =>
           let basis := vget debate "conviction_basis" in
           let committed := vget debate "committed_against_contested" in
           check_with "debate-consensus" o
             (shown_fields debate ["consensus"; "conviction"] ++ (if truthy basis then ", basis=" ++ py_str basis else "") ++
              (if truthy committed then "; " ++ py_str committed else "") ++ ".")
       end.

(** A step with a value for its detail. *)
Definition check_value (name outcome : string) (detail : val) : val :=
  VDict [(VStr "check", VStr name); (VStr "outcome", VStr outcome); (VStr "detail", detail)].

Definition risk_reward_step (record : list (val * val)) : res val :=
  let rr := dict_get record "risk_reward" in
  if _is_number rr then
    ok ← py_ge rr (VFloat 2);
    Ok (check_with "risk-reward" (pass_or_fail ok) ("RR=" ++ py_str rr))
  else Ok (check "risk-reward" "not-evaluable — RR unavailable").

Definition level_step (record : list (val * val)) : val :=
  let sr := dict_get record "support_resistance" in
  if truthy sr && truthy (dict_get record "levels") then
    check_with "level-alignment" "pass" "Entry/stop placed against support_resistance levels."
  else if truthy sr then check_with "level-alignment" "informational" "Support/resistance levels available."
  else check "level-alignment" "not-evaluable — S/R unavailable".

Definition spaced (s : string) : string := str_map (fun c => if Ascii.eqb c "_" then " "%char else c) s.

Definition volume_step (record : list (val * val)) : val :=
  let vp := dict_get record "volume_profile" in
  if is_dict vp && negb (is_none (vget vp "poc")) then
    check_with "volume-profile" "informational"
      ("POC=" ++ py_str (vget vp "poc") ++ ", VAH=" ++ py_str (vget vp "vah") ++ ", VAL=" ++ py_str (vget vp "val") ++ "; price " ++
       spaced (py_str (py_or (vget vp "price_vs_value_area") (VStr "unknown"))) ++ ".")
  else check "volume-profile" "not-evaluable — volume profile unavailable".

Definition track_step (record : list (val * val)) : res val :=
  let tr := dict_get record "track_record" in
  let ov := vget tr "overall" in
  if is_dict tr && is_dict ov then
    let scored := vget ov "trades_scored" in
    if truthy scored then
      let exp := vget ov "expectancy_r" in
      outcome ← (if _is_number exp then ok ← py_gt exp (VInt 0); Ok (pass_or_fail ok) else Ok "informational"%string);
      Ok (check_with "track-record" outcome
            ("win_rate=" ++ py_str (vget ov "win_rate") ++ ", expectancy_r=" ++ py_str exp ++ " over " ++ py_str scored ++
             " scored trade(s)" ++ (if truthy (vget tr "low_sample") then " (low sample — weak prior)" else "") ++ "."))
    else Ok (check_with "track-record" "informational" "No scored trades yet — no realized edge to calibrate against.")
  else Ok (check "track-record" "not-evaluable — track record unavailable").

(** The steps of the context entries, in order. *)
Definition context_steps : list (string * (list (val * val) -> res val)) :=
  [("market-regime", _regime_step); ("relative-strength", _relative_strength_step); ("forecast", _forecast_step);
   ("trade-management", _trade_management_step); ("session", _session_step); ("options", _options_step);
   ("event-risk", _event_step); ("debate-consensus", _debate_consensus_step)]%string.

Definition _derive_find_mode_steps (record : list (val * val)) : res (list val) :=
  rr ← risk_reward_step record;
  let basis := py_or (dict_get record "volatility_basis") (VStr "") in
  volatility ← _outcome_from_volatility basis;
  let statement := py_or (dict_get record "macro_trend_conflict") (VStr "") in
  macro ← _outcome_from_macro statement;
  track ← track_step record;
  context ← mapM_res (fun s => s.2 record) context_steps;
  Ok ([rr; check_value "volatility-stop" volatility basis; check_value "macro-trend-alignment" macro statement;
       level_step record; volume_step record; track] ++ context).

(** One recorded check, as a step. *)
Definition recorded_step (c : val) : option val :=
  match c with
  | VDict d =>
      if truthy (dict_get d "check") then
        Some (VDict ([(VStr "check", dict_get d "check"); (VStr "outcome", default (VStr "n/a") (dict_find "outcome" d))] ++
                     (if truthy (dict_get d "detail") then [(VStr "detail", dict_get d "detail")] else [])))
      else None
  | _ => None
  end.

Definition names_check (name : string) (s : val) : bool := is_text (vget s "check") name.

(** The derived step of a context entry, unless the steps already name it. *)
Definition add_context (record : list (val * val)) (steps : res (list val)) (s : string * (list (val * val) -> res val)) : res (list val) :=
  steps ← steps;
  if existsb (names_check s.1) steps then Ok steps else derived ← s.2 record; Ok (steps ++ [derived]).

Definition build_verification_steps (decision : val) : res (list val) :=
  match vget decision "defensibility" with
  | VDict record =>
      match dict_get record "validator_checks" with
      | VList ((_ :: _) as checks) => fold_left (add_context record) context_steps (Ok (omap recorded_step checks))
      | _ => _derive_find_mode_steps record
      end
  | _ => Ok []
  end.

(** ** The decision *)

Definition _is_finite_num (value : val) : res bool :=
  if is_bool value || negb (is_int_or_float value) then Ok false else py_isfinite value.

(** [_is_finite_num(a) and _is_finite_num(b) and _is_finite_num(c)] *)
Definition all_finite (values : list val) : res bool :=
  fold_right (fun v rest => ok ← _is_finite_num v; if ok : bool then rest else Ok false) (Ok true) values.

Definition build_decision_event (decision : val) : res (option val) :=
  match decision with
  | VDict d =>
      let action := dict_get d "action" in
      let payload :=
        [(VStr "action", action); (VStr "conviction_score", dict_get d "conviction_score");
         (VStr "rationale", py_or (dict_get d "setup_validation") (dict_get d "reason"));
         (VStr "execution_plan", dict_get d "execution_plan")] ++
        match dict_get d "opportunity_tier" with
        | VStr tier => if nonempty tier then [(VStr "opportunity_tier", VStr tier)] else []
        | _ => []
        end ++
        match dict_find "size_factor" d with Some f => [(VStr "size_factor", f)] | None => [] end in
      let normalized_action := match action with VStr s => upper (strip s) | _ => ""%string end in
      if str_in normalized_action ["BUY"; "SELL"]%string then
        finite ← all_finite [dict_get d "entry"; dict_get d "stop_loss"; dict_get d "take_profit"];
        Ok (Some (VDict (payload ++
              (if finite : bool then
                 [(VStr "execution_levels",
                   VDict [(VStr "entry", dict_get d "entry"); (VStr "stop_loss", dict_get d "stop_loss");
                          (VStr "take_profit", dict_get d "take_profit")])]
               else []))))
      else Ok (Some (VDict payload))
  | _ => Ok None
  end.

(** ** The life of a run *)

Definition build_run_started_event (thread_id : val) : val := VDict [(VStr "thread_id", thread_id)].

Definition build_run_finished_event (thread_id : val) (status : string) : val :=
  VDict [(VStr "thread_id", thread_id);
         (VStr "status", VStr (if str_in status [RUN_COMPLETED; RUN_PAUSED; RUN_CANCELLED] then status else RUN_COMPLETED))].

Definition build_error_event (detail : val) : val :=
  VDict [(VStr "error", VStr ("AI analysis unavailable: " ++ py_str detail))].

(** ** Expansion *)

(** [type(msg).__name__] *)
Definition type_name (msg : val) : string := match msg with VObj _ shown => shown | _ => "" end.

Definition role_tag (kwargs : val) : option string :=
  match kwargs with
  | VDict d => match dict_get d "role" with VStr tag => if nonempty (strip tag) then Some (strip tag) else None | _ => None end
  | _ => None
  end.

Section expansion.
(** [ast.literal_eval], [None] when it raises. *)
Context (literal_eval : string -> option val).

Definition message_events (msg : val) : gen :=
  if str_contains "ToolMessage" (type_name msg) then
    let tool_name := py_or (vattr msg "name") (VStr "tool") in
    let content := vattr msg "content" in
    gwith (build_tool_call_result_event literal_eval tool_name content) (fun result =>
      let '(status, error_reason) := tool_result_status literal_eval content in
      ([(TOOL_CALL_RESULT, result); (TOOL_CALL_END, build_tool_call_end_event tool_name status error_reason)], None))
  else if str_contains "AIMessage" (type_name msg) then
    let reasoning := build_reasoning_event (vattr msg "content") (role_tag (vattr msg "additional_kwargs")) in
    (match reasoning with Some payload => [(REASONING, payload)] | None => [] end ++
     map (fun tc => (TOOL_CALL_START, build_tool_call_start_event (vget tc "name") (vget tc "args"))) (tool_calls msg), None)
  else gnil.

Definition build_best_current_read_event (read : val) : option val :=
  match read with
  | VDict d =>
      let levels := dict_get d "levels" in
      Some (VDict [(VStr "bias", dict_get d "bias"); (VStr "levels", if is_dict levels then levels else VDict []);
                   (VStr "why_standing_aside", dict_get d "why_standing_aside")])
  | _ => None
  end.

Definition read_frames (read : val) : gen :=
  match build_best_current_read_event read with Some payload => gyield (BEST_CURRENT_READ, payload) | None => gnil end.

Definition decision_events (decision : val) : gen :=
  gseq (gwith (build_verification_steps decision) (fun steps => (map (fun s => (VERIFICATION_STEP, s)) steps, None)))
    (gseq (if is_dict decision then read_frames (vget decision "best_current_read") else gnil)
       (gwith (build_decision_event decision) (fun payload =>
          match payload with Some payload => gyield (DECISION, payload) | None => gnil end))).

Definition node_update_events (node_data : val) : gen :=
  match node_data with
  | VDict d =>
      let decision := dict_get d "decision" in
      let read := dict_get d "best_current_read" in
      gseq (gwith (py_iter (py_or (dict_get d "messages") (VList []))) (fun messages => gfor messages message_events))
        (gseq (if negb (truthy decision) && truthy read then read_frames read else gnil)
           (if truthy decision then decision_events decision else gnil))
  | _ => gnil
  end.

(** A failed run shows no decision. *)
Definition shown_on (is_error : bool) (e : event) : bool := negb (is_error && String.eqb e.1 DECISION).

Definition assemble_run_events (thread_id : val) (node_updates : list val) (outcome : string) (error_detail : val) : res (list event) :=
  let is_error := String.eqb outcome RUN_ERROR in
  match gfor node_updates node_update_events with
  | (_, Some e) => Raise e
  | (frames, None) =>
      Ok ((RUN_STARTED, build_run_started_event thread_id) :: List.filter (shown_on is_error) frames ++
          [if is_error then (ERROR, build_error_event error_detail)
           else (RUN_FINISHED, build_run_finished_event thread_id outcome)])
  end.
End expansion.
