(* ===== verification/StreamEventsFacts.v ===== *)
(** * Theorems about the stream events

    A run's frames are well ordered; the verification steps of a record are complete
    and fabricate nothing; a decision shows only finite levels; text without markup
    is kept, and the loop over call segments ends. *)

From stdpp Require Import base list strings.
From Stdlib Require Import ZArith Lia Floats Ascii.
From S2P Require Import Prelude PyFloat PyNum PyVal PyEnv PyJson PyStr Validator JournalTags GraphMessages GraphEvidence StreamEvents.

#[local] Set Warnings "-inexact-float".
#[local] Open Scope Z_scope.
#[local] Open Scope res_scope.

(** ** Generators *)

(** A property of frame lists that concatenation keeps. *)
Class Sequential (P : list event -> Prop) := { seq_nil : P []; seq_app l1 l2 : P l1 -> P l2 -> P (l1 ++ l2) }.

Section sequential.
Context (P : list event -> Prop) `{!Sequential P}.

Lemma seq_gnil : P gnil.1.
Proof. apply seq_nil. Qed.

Lemma seq_gseq a b : P a.1 -> P b.1 -> P (gseq a b).1.
Proof. unfold gseq. destruct a as [l [e|]]; [done|]. apply seq_app. Qed.

Lemma seq_gwith {A} (m : res A) k : (forall a, m = Ok a -> P (k a).1) -> P (gwith m k).1.
Proof. destruct m; cbn; [auto|intros _; apply seq_nil]. Qed.

Lemma seq_gfor {A} (l : list A) f : (forall a, P (f a).1) -> P (gfor l f).1.
Proof. intros H. induction l as [|a l IH]; cbn; [apply seq_nil|by apply seq_gseq]. Qed.
End sequential.

#[export] Instance Forall_sequential (Q : event -> Prop) : Sequential (Forall Q).
Proof. split; [constructor|intros l1 l2 H1 H2; by apply Forall_app]. Qed.

(** ** The order of a run *)

(** Every result is followed at once by the end of the same call, and an end follows
    nothing else. *)
Inductive paired : list event -> Prop :=
  | paired_nil : paired []
  | paired_call p q l : vget p "tool" = vget q "tool" -> paired l -> paired ((TOOL_CALL_RESULT, p) :: (TOOL_CALL_END, q) :: l)
  | paired_other e l : e.1 <> TOOL_CALL_RESULT -> e.1 <> TOOL_CALL_END -> paired l -> paired (e :: l).

#[export] Instance paired_sequential : Sequential paired.
Proof. split; [constructor|]. intros l1 l2 H1 H2. induction H1; cbn; [done|by constructor..]. Qed.

Lemma paired_others l : Forall (fun e => e.1 <> TOOL_CALL_RESULT /\ e.1 <> TOOL_CALL_END) l -> paired l.
Proof. induction 1 as [|e l [? ?] H IH]; by constructor. Qed.

Lemma paired_filter p l : (forall e, e.1 = TOOL_CALL_RESULT \/ e.1 = TOOL_CALL_END -> p e = true) -> paired l -> paired (List.filter p l).
Proof.
  intros K. induction 1 as [|x q l E H IH|e l N1 N2 H IH]; cbn; [constructor| |].
  - rewrite !K by (cbn; tauto). by constructor.
  - destruct (p e); [by constructor|done].
Qed.

(** The frames an update can show. *)
Definition body_frame (e : event) : Prop :=
  str_in e.1 [REASONING; TOOL_CALL_START; TOOL_CALL_RESULT; TOOL_CALL_END; VERIFICATION_STEP; BEST_CURRENT_READ; DECISION] = true /\ is_dict e.2 = true.

Definition ordered (l : list event) : Prop := Forall body_frame l /\ paired l.

#[export] Instance ordered_sequential : Sequential ordered.
Proof. split; [split; constructor|]. intros l1 l2 [H1 P1] [H2 P2]. split; [by apply Forall_app|by apply seq_app]. Qed.

Lemma ordered_others l : Forall (fun e => body_frame e /\ e.1 <> TOOL_CALL_RESULT /\ e.1 <> TOOL_CALL_END) l -> ordered l.
Proof. intros H. split; [|apply paired_others]; eapply Forall_impl; try exact H; cbn; tauto. Qed.

Ltac body := split; [by split|done].

Lemma build_result_Ok le tool content p : build_tool_call_result_event le tool content = Ok p -> is_dict p = true /\ vget p "tool" = tool.
Proof. unfold build_tool_call_result_event. intros H. mbind H. destruct a as [r s]. injection H as <-. done. Qed.

Lemma message_ordered le msg : ordered (message_events le msg).1.
Proof.
  unfold message_events. destruct (str_contains "ToolMessage" _).
  - apply seq_gwith; [apply _|]. intros p H. apply build_result_Ok in H as [D T]. destruct (tool_result_status le _) as [status reason]. cbn [fst]. split.
    + constructor; [by split|]. constructor; [|constructor]. by split.
    + constructor; [|constructor]. by rewrite T.
  - destruct (str_contains "AIMessage" _); [|apply seq_nil]. cbn [fst]. apply ordered_others, Forall_app. split.
    + destruct (build_reasoning_event _ _) as [p|] eqn:E; [|constructor]. constructor; [|constructor].
      unfold build_reasoning_event in E. destruct (negb _); [done|]. injection E as <-. body.
    + apply Forall_map, Forall_true. intros tc. body.
Qed.

Lemma read_ordered read : ordered (read_frames read).1.
Proof. unfold read_frames. destruct read; try apply seq_nil. apply ordered_others. constructor; [body|constructor]. Qed.

(** ** Steps *)

(** A step of that name, with that outcome. *)
Definition is_step (name outcome : string) (s : val) : Prop :=
  exists rest, s = VDict ((VStr "check", VStr name) :: (VStr "outcome", VStr outcome) :: rest).

Definition a_step (name : string) (s : val) : Prop := exists outcome, is_step name outcome s.

Lemma step_dict name s : a_step name s -> is_dict s = true /\ vget s "check" = VStr name.
Proof. by intros (o & r & ->). Qed.

Lemma labelled_Ok name marker absent missing field table detail entry s :
  labelled_step name marker absent missing field table detail entry = Ok s ->
  exists outcome, is_step name outcome s /\
    (outcome = ("not-evaluable — " ++ marker)%string \/
     usable entry = true /\ exists label, vget entry field = VStr label /\ assoc_str label table = Some outcome).
Proof.
  unfold labelled_step. destruct (usable entry); cbn [negb].
  - intros H. mbind H. unfold look_up in E. destruct (hashable _); [|done]. injection E as <-. injection H as <-.
    destruct (vget entry field) as [|b|z|x|label|t|l|l|l|l|l t] eqn:F; try (eexists; split; [by eexists|by left]).
    destruct (assoc_str label table) eqn:A.
    + eexists. split; [by eexists|]. right. eauto.
    + eexists. split; [by eexists|by left].
  - intros [= <-]. eexists. split; [by eexists|by left].
Qed.

Lemma labelled_step_named name marker absent missing field table detail entry s :
  labelled_step name marker absent missing field table detail entry = Ok s -> a_step name s.
Proof. intros (o & H & _)%labelled_Ok. by exists o. Qed.

Lemma context_step_named n f record s : In (n, f) context_steps -> f record = Ok s -> a_step n s.
Proof.
  intros Hin H. cbn in Hin. repeat destruct Hin as [Hin|Hin]; try injection Hin as <- <-; try done; try by eapply labelled_step_named.
  - unfold _trade_management_step in H. repeat case_match; simplify_eq/=; try (by repeat eexists). mbind H. injection H as <-. by repeat eexists.
  - unfold _debate_consensus_step in H. case_match; [simplify_eq; by repeat eexists|]. mbind H. injection H as <-. destruct a; by repeat eexists.
Qed.

(** The entry of the record each derived step reads. *)
Definition context_keys : list (string * string) :=
  [("market-regime", "regime"); ("relative-strength", "relative_strength"); ("forecast", "forecast"); ("trade-management", "management");
   ("session", "session"); ("options", "options"); ("event-risk", "event")]%string.

(** A step that reads an entry which is not usable says that it is not evaluable. *)
Definition honest (record : list (val * val)) (s : val) : Prop :=
  forall n key, In (n, key) context_keys -> names_check n s = true -> usable (dict_get record key) = false ->
  exists why, vget s "outcome" = VStr ("not-evaluable" ++ why).

Lemma unusable_labelled name marker absent missing field table detail entry s :
  usable entry = false -> labelled_step name marker absent missing field table detail entry = Ok s ->
  exists why, vget s "outcome" = VStr ("not-evaluable" ++ why).
Proof. unfold labelled_step. intros -> [= <-]. by eexists. Qed.

Lemma context_step_honest n f record s : In (n, f) context_steps -> f record = Ok s -> honest record s.
Proof.
  intros Hin H n' key Hkey Hn Hu. pose proof (context_step_named _ _ _ _ Hin H) as (_ & E)%step_dict.
  unfold names_check in Hn. rewrite E in Hn. cbn in Hn. apply String.eqb_eq in Hn. subst n'.
  cbn in Hin. repeat destruct Hin as [Hin|Hin]; try done; injection Hin as <- <-; cbn in Hkey;
    repeat destruct Hkey as [Hkey|Hkey]; try done; injection Hkey as <-; try (by eapply unusable_labelled).
  unfold _trade_management_step in H. rewrite Hu in H. injection H as <-. by eexists.
Qed.

(** ** The steps of a decision *)

Definition CONTEXT_NAMES : list string := Eval cbn in map fst context_steps.

Definition FIND_NAMES : list string :=
  ["risk-reward"; "volatility-stop"; "macro-trend-alignment"; "level-alignment"; "volume-profile"; "track-record"] ++ CONTEXT_NAMES.

Lemma context_NoDup : NoDup CONTEXT_NAMES.
Proof. exact (bool_decide_unpack (NoDup CONTEXT_NAMES) I). Qed.

Lemma find_NoDup : NoDup FIND_NAMES.
Proof. exact (bool_decide_unpack (NoDup FIND_NAMES) I). Qed.

Definition check_names (steps : list val) : list val := map (fun s => vget s "check") steps.

(** Derived context steps: named as their entries, and honest. *)
Lemma derived_steps record l steps :
  incl l context_steps -> Forall2 (fun c s => c.2 record = Ok s) l steps ->
  check_names steps = map (fun c => VStr c.1) l /\ Forall (fun s => is_dict s = true) steps /\ Forall (honest record) steps.
Proof.
  intros I H. induction H as [|[n f] s l steps Hs H IH]; [done|]. destruct IH as (E & D & O); [by intros c Hc; apply I; right|].
  assert (In (n, f) context_steps) as Hin by (apply I; by left). pose proof (context_step_named _ _ _ _ Hin Hs) as (Dn & En)%step_dict.
  split_and!; [unfold check_names in *; cbn [map fst]; by rewrite En, E|by constructor|constructor; [by eapply context_step_honest|done]].
Qed.

Lemma honest_other record s name : vget s "check" = VStr name -> str_in name CONTEXT_NAMES = false -> honest record s.
Proof.
  intros E N n key Hin Hn. unfold names_check in Hn. rewrite E in Hn. apply String.eqb_eq in Hn. subst n.
  exfalso. cbn in Hin. by repeat destruct Hin as [[= <- <-]|Hin].
Qed.

Lemma find_steps record steps :
  _derive_find_mode_steps record = Ok steps ->
  check_names steps = map VStr FIND_NAMES /\ Forall (fun s => is_dict s = true) steps /\ Forall (honest record) steps.
Proof.
  unfold _derive_find_mode_steps. intros H. mbind H. mbind H. mbind H. mbind H. mbind H. injection H as <-.
  assert (a_step "risk-reward" a) as R1.
  { unfold risk_reward_step in E. destruct (_is_number _); [mbind E|]; injection E as <-; by repeat eexists. }
  assert (a_step "track-record" a2) as R6.
  { unfold track_step in E2. destruct (_ && _); [destruct (truthy _); [mbind E2|]|]; injection E2 as <-; by repeat eexists. }
  assert (a_step "level-alignment" (level_step record)) as R4 by (unfold level_step; destruct (_ && _); [|destruct (truthy _)]; by repeat eexists).
  assert (a_step "volume-profile" (volume_step record)) as R5 by (unfold volume_step; destruct (_ && _); by repeat eexists).
  apply step_dict in R1 as [D1 R1], R6 as [D6 R6], R4 as [D4 R4], R5 as [D5 R5].
  apply mapM_res_Forall2 in E3. apply (derived_steps record) in E3 as (En & D & O); [|by intros ?]. split_and!.
  - unfold check_names in *. cbn [app map]. rewrite R1, R4, R5, R6, En. done.
  - by repeat (apply Forall_cons_2; [done|]).
  - repeat (apply Forall_cons_2; [by eapply honest_other|]). done.
Qed.

Lemma raised_context record l e : fold_left (add_context record) l (Raise e) = Raise e.
Proof. induction l; [done|]. cbn. done. Qed.

Lemma names_check_other n m s : vget s "check" = VStr m -> m <> n -> names_check n s = false.
Proof. unfold names_check. intros -> N. cbn. by apply String.eqb_neq. Qed.

Definition missing_names (steps : list val) (names : list string) : list string :=
  List.filter (fun n => negb (existsb (names_check n) steps)) names.

(** VERIFY: the recorded steps, then a derived one for each context not among them. *)
Lemma verify_steps record l acc steps :
  incl l context_steps -> NoDup l.*1 -> fold_left (add_context record) l (Ok acc) = Ok steps ->
  exists extra, steps = acc ++ extra /\ check_names extra = map VStr (missing_names acc (map fst l)) /\
    Forall (fun s => is_dict s = true) extra /\ Forall (honest record) extra.
Proof.
  revert acc. induction l as [|[n f] l IH]; intros acc I N H; cbn [fold_left] in H.
  - injection H as <-. exists []. by rewrite app_nil_r.
  - inversion N as [|? ? Nn N']; subst. assert (incl l context_steps) as I' by (intros c Hc; apply I; by right).
    unfold add_context at 2 in H. cbn beta iota delta [mbind res_bind fst snd] in H. unfold missing_names. cbn [map List.filter fst].
    destruct (existsb (names_check n) acc) eqn:X; cbn [negb]; [by apply IH|].
    destruct (f record) as [s|e] eqn:F; cbn beta iota delta [mbind res_bind] in H; [|by rewrite raised_context in H].
    destruct (IH _ I' N' H) as (extra & -> & En & D & O). assert (In (n, f) context_steps) as Hin by (apply I; by left).
    pose proof (context_step_named _ _ _ _ Hin F) as (Ds & Es)%step_dict. exists (s :: extra). rewrite <- app_assoc. split_and!; [done| | |].
    + unfold check_names in *. cbn [map]. rewrite Es, En. do 2 f_equal. unfold missing_names. clear -Nn Es.
      induction (map fst l) as [|m ms IH] eqn:E in l, Nn |- *; [done|]. destruct l as [|c l]; [done|]. injection E as <- E. cbn in Nn.
      cbn [List.filter]. rewrite existsb_app. cbn [existsb]. rewrite (names_check_other c.1 n s Es), orb_false_r by (intros ->; apply Nn; by left).
      assert (n ∉ l.*1) as Nl by (intros Hl; apply Nn; by right). rewrite (IH l Nl E). done.
    + by constructor.
    + constructor; [by eapply context_step_honest|done].
Qed.

Definition count_checks (n : string) (steps : list val) : nat := length (List.filter (names_check n) steps).

Lemma count_app n l1 l2 : count_checks n (l1 ++ l2) = (count_checks n l1 + count_checks n l2)%nat.
Proof. unfold count_checks. by rewrite List.filter_app, length_app. Qed.

Lemma count_none n l : existsb (names_check n) l = false -> count_checks n l = 0%nat.
Proof.
  unfold count_checks. induction l as [|s l IH]; [done|]. cbn. intros [-> H]%orb_false_iff. by apply IH.
Qed.

Lemma count_named n steps names : check_names steps = map VStr names -> NoDup names -> In n names -> count_checks n steps = 1%nat.
Proof.
  revert names. induction steps as [|s steps IH]; intros [|m names] E N H; try done. injection E as Es E. inversion N as [|? ? Nm N']; subst.
  unfold count_checks. cbn [List.filter]. unfold names_check at 1. rewrite Es. cbn [is_text]. destruct (String.eqb_spec m n) as [->|Hm].
  - cbn [length]. f_equal. apply count_none. clear -E Nm. revert names E Nm. induction steps as [|s steps IH]; intros [|m names] E Nm; try done.
    injection E as Es E. cbn. rewrite (names_check_other n m s Es) by (intros ->; apply Nm; by left). apply (IH names E). intros Hn. apply Nm. by right.
  - destruct H as [->|H]; [done|]. by apply (IH names).
Qed.

Definition recorded_steps (record : list (val * val)) : list val :=
  match dict_get record "validator_checks" with VList checks => omap recorded_step checks | _ => [] end.

(** The names the derived steps carry. *)
Definition derived_names (record : list (val * val)) : list string :=
  match dict_get record "validator_checks" with
  | VList (_ :: _) => missing_names (recorded_steps record) CONTEXT_NAMES
  | _ => FIND_NAMES
  end.

Lemma verification_steps record decision steps :
  vget decision "defensibility" = VDict record -> build_verification_steps decision = Ok steps ->
  exists derived, steps = recorded_steps record ++ derived /\ check_names derived = map VStr (derived_names record) /\
    Forall (fun s => is_dict s = true) derived /\ Forall (honest record) derived.
Proof.
  unfold build_verification_steps, recorded_steps, derived_names, recorded_steps. intros -> H.
  assert (forall steps, _derive_find_mode_steps record = Ok steps -> exists derived, steps = [] ++ derived /\
            check_names derived = map VStr FIND_NAMES /\ Forall (fun s => is_dict s = true) derived /\ Forall (honest record) derived) as F.
  { intros st (E & D & O)%find_steps. by exists st. }
  destruct (dict_get record "validator_checks") as [| | | | | |[|c checks]| | | |]; try by apply F.
  apply verify_steps in H as (extra & -> & E & D & O); [|by intros ?|exact context_NoDup]. exists extra. split_and!; [done|exact E|exact D|exact O].
Qed.

(** The verification steps of a decision are complete and fabricate nothing. The
    checks a VERIFY record carries come first, unchanged, then one derived step for
    each of the eight contexts they do not name; a FIND record gives its fourteen
    steps in their fixed order; so a context is stated exactly once unless the
    recorded checks repeat it; and a derived step whose entry is not usable says that
    it is not evaluable. *)
Theorem verification_steps_complete record decision steps :
  vget decision "defensibility" = VDict record -> build_verification_steps decision = Ok steps ->
  exists derived, steps = recorded_steps record ++ derived /\ check_names derived = map VStr (derived_names record) /\
    Forall (honest record) derived /\
    forall n, In n CONTEXT_NAMES -> existsb (names_check n) (recorded_steps record) = false -> count_checks n steps = 1%nat.
Proof.
  intros D H. destruct (verification_steps _ _ _ D H) as (derived & -> & E & _ & O). exists derived. split_and!; try done.
  intros n Hn X. rewrite count_app, (count_none _ _ X). apply (count_named n derived (derived_names record)); [done| |].
  - unfold derived_names. destruct (dict_get record "validator_checks") as [| | | | | |[|c checks]| | | |];
      try apply find_NoDup. unfold missing_names. apply NoDup_ListNoDup, List.NoDup_filter, NoDup_ListNoDup.
    apply context_NoDup.
  - unfold derived_names. destruct (dict_get record "validator_checks") as [| | | | | |[|c checks]| | | |]; try (apply in_or_app; by right).
    unfold missing_names. apply filter_In. by rewrite X.
Qed.

(** ** The frames of an update *)

Lemma recorded_dict c s : recorded_step c = Some s -> is_dict s = true.
Proof. destruct c; try done. cbn. destruct (truthy _); [|done]. by intros [= <-]. Qed.

Lemma steps_are_objects decision steps : build_verification_steps decision = Ok steps -> Forall (fun s => is_dict s = true) steps.
Proof.
  intros H. destruct (vget decision "defensibility") as [| | | | | | | | |record|] eqn:D;
    try (unfold build_verification_steps in H; rewrite D in H; injection H as <-; constructor).
  destruct (verification_steps record _ _ D H) as (derived & -> & _ & Hd & _). apply Forall_app. split; [|done].
  unfold recorded_steps. destruct (dict_get record "validator_checks") as [| | | | | |checks| | | |]; try constructor.
  apply Forall_forall. intros s Hs. apply list_elem_of_omap in Hs as (c & _ & Hc). by eapply recorded_dict.
Qed.

Definition payload_of (p : option val) : Prop := match p with Some p => is_dict p = true | None => True end.

Lemma decision_event_dict decision p : build_decision_event decision = Ok p -> payload_of p.
Proof.
  unfold build_decision_event. destruct decision as [| | | | | | | | |d|]; try by intros [= <-]. cbv zeta. destruct (str_in _ _).
  - intros H. mbind H. by injection H as <-.
  - by intros [= <-].
Qed.

Lemma decision_ordered decision : ordered (decision_events decision).1.
Proof.
  unfold decision_events. apply seq_gseq; [apply _| |apply seq_gseq; [apply _| |]].
  - apply seq_gwith; [apply _|]. intros steps H. apply steps_are_objects in H. cbn [fst]. apply ordered_others, Forall_map.
    eapply Forall_impl; [exact H|]. intros s Hs. split; [by split|done].
  - destruct (is_dict decision); [apply read_ordered|apply seq_nil].
  - apply seq_gwith; [apply _|]. intros p H. apply decision_event_dict in H. destruct p as [p|]; [|apply seq_nil].
    apply ordered_others. constructor; [split; [by split|done]|constructor].
Qed.

Lemma update_ordered le node_data : ordered (node_update_events le node_data).1.
Proof.
  unfold node_update_events. destruct node_data; try apply seq_nil. apply seq_gseq; [apply _| |apply seq_gseq; [apply _| |]].
  - apply seq_gwith; [apply _|]. intros ms _. apply seq_gfor; [apply _|]. apply message_ordered.
  - destruct (_ && _); [apply read_ordered|apply seq_nil].
  - destruct (truthy _); [apply decision_ordered|apply seq_nil].
Qed.

(** The last frame of a run that ended as [outcome]. *)
Definition closing (thread_id : val) (outcome : string) (error_detail : val) : event :=
  if String.eqb outcome RUN_ERROR then (ERROR, build_error_event error_detail)
  else (RUN_FINISHED, build_run_finished_event thread_id outcome).

(** A run's frames are well ordered: the start comes first, one closing frame
    comes last, and between them come only frames of the body, each an object, with
    every tool result followed at once by the end of the same call; a run that failed
    shows no decision; any other shows every frame of its updates and closes with one
    of the three documented states. *)
Theorem run_frames_ordered le thread_id updates outcome detail events :
  assemble_run_events le thread_id updates outcome detail = Ok events ->
  exists body, events = (RUN_STARTED, build_run_started_event thread_id) :: body ++ [closing thread_id outcome detail] /\
    Forall body_frame body /\ paired body /\
    (outcome = RUN_ERROR -> Forall (fun e => e.1 <> DECISION) body) /\
    (outcome <> RUN_ERROR ->
       gfor updates (node_update_events le) = (body, None) /\
       exists status, vget (closing thread_id outcome detail).2 "status" = VStr status /\ In status [RUN_COMPLETED; RUN_PAUSED; RUN_CANCELLED]).
Proof.
  unfold assemble_run_events, closing. pose proof (seq_gfor ordered updates (node_update_events le) (update_ordered le)) as [B P].
  destruct (gfor updates _) as [frames [e|]] eqn:G; [done|]. cbn [fst] in B, P. intros [= <-].
  exists (List.filter (shown_on (String.eqb outcome RUN_ERROR)) frames).
  assert (forall p : event -> bool, Forall body_frame (List.filter p frames)) as Bf.
  { intros p. clear -B. induction B as [|e l He B IH]; cbn; [constructor|]. destruct (p e); [by constructor|done]. }
  split_and!; [done|apply Bf| | |].
  - apply paired_filter; [|done]. intros [n p] [E|E]; cbn in E; subst n; unfold shown_on; cbn [fst]; by destruct (String.eqb outcome RUN_ERROR).
  - intros ->. apply Forall_forall. intros e He%list_elem_of_In. apply filter_In in He as [_ He]. unfold shown_on in He.
    rewrite String.eqb_refl in He. cbn [andb] in He. intros E. by rewrite E in He.
  - intros N. apply String.eqb_neq in N. rewrite N. split.
    + f_equal. symmetry. clear. induction frames as [|e l IH]; [done|]. cbn. by rewrite IH.
    + eexists. split; [reflexivity|]. destruct (str_in outcome [RUN_COMPLETED; RUN_PAUSED; RUN_CANCELLED]) eqn:S; [|by left].
      unfold str_in in S. apply existsb_exists in S as (x & Hx & E). apply String.eqb_eq in E. by subst x.
Qed.

(** ** The levels of a decision *)

Lemma is_finite_num_Ok v : _is_finite_num v = Ok true -> is_bool v = false /\ is_int_or_float v = true /\ py_isfinite v = Ok true.
Proof. unfold _is_finite_num. destruct (is_bool v), (is_int_or_float v); done. Qed.

Lemma all_finite_Ok vs : all_finite vs = Ok true -> Forall (fun v => _is_finite_num v = Ok true) vs.
Proof.
  induction vs as [|v vs IH]; [constructor|]. cbn. intros H. mbind H. destruct a; [|done]. constructor; [done|by apply IH].
Qed.

(** An action that takes a position. *)
Definition directional_action (action : val) : bool :=
  match action with VStr s => str_in (upper (strip s)) ["BUY"; "SELL"]%string | _ => false end.

(** A decision frame shows execution levels exactly when the decision takes a
    position and its entry, stop and target are all finite numbers, and then shows
    these three values; the action, the conviction and the plan are the decision's,
    and nothing that is no decision makes a frame. *)
Theorem decision_levels_finite d p :
  build_decision_event (VDict d) = Ok p ->
  exists fields, p = Some (VDict fields) /\
    dict_get fields "action" = dict_get d "action" /\ dict_get fields "conviction_score" = dict_get d "conviction_score" /\
    dict_get fields "execution_plan" = dict_get d "execution_plan" /\
    (dict_find "execution_levels" fields <> None <->
       directional_action (dict_get d "action") = true /\
       Forall (fun k => _is_finite_num (dict_get d k) = Ok true) ["entry"; "stop_loss"; "take_profit"]%string) /\
    (forall levels, dict_find "execution_levels" fields = Some levels ->
       forall k, In k ["entry"; "stop_loss"; "take_profit"]%string -> vget levels k = dict_get d k).
Proof.
  unfold build_decision_event. cbv zeta. set (fixed := [(VStr "action", _); _; _; _]).
  set (tier := match dict_get d "opportunity_tier" with VStr t => _ | _ => _ end). set (size := match dict_find "size_factor" d with Some f => _ | None => _ end).
  assert (forall rest, dict_find "execution_levels" (fixed ++ tier ++ size ++ rest) = dict_find "execution_levels" rest) as L.
  { intros rest. unfold fixed, tier, size. cbn [app]. destruct (dict_get d "opportunity_tier") as [| | | |t| | | | | |]; try destruct (nonempty t);
      destruct (dict_find "size_factor" d); done. }
  replace (str_in (match dict_get d "action" with VStr s => upper (strip s) | _ => "" end) ["BUY"; "SELL"])
    with (directional_action (dict_get d "action")) by (by destruct (dict_get d "action")).
  destruct (directional_action _) eqn:Dir.
  - intros H. mbind H. apply Ok_inj in H. subst p. eexists. split; [done|]. do 3 (split; [done|]).
    rewrite <- !app_assoc, L. destruct a; cbn.
    + apply all_finite_Ok in E. inversion E as [|? ? E1 E']; subst. inversion E' as [|? ? E2 E'']; subst. inversion E'' as [|? ? E3 _]; subst.
      split; [split; [intros _; split; [done|by repeat constructor]|done]|]. intros levels [= <-] k. cbn. by intros [<-|[<-|[<-|[]]]].
    + split; [split; [done|]|done]. intros [_ F]. inversion F as [|? ? E1 F']; subst. inversion F' as [|? ? E2 F'']; subst. inversion F'' as [|? ? E3 _]; subst.
      cbn in E. rewrite E1, E2, E3 in E. by cbn in E.
  - intros H%Ok_inj. subst p. eexists. split; [done|]. do 3 (split; [done|]). pose proof (L []) as L0. rewrite !app_nil_r in L0. rewrite L0.
    split; [split; [done|by intros [? _]]|done].
Qed.

(** ** The markup *)

Lemma strip_prefix_length p s rest : strip_prefix p s = Some rest -> String.length s = (String.length p + String.length rest)%nat.
Proof.
  revert s. induction p as [|c p IH]; intros s H; cbn in *; [by injection H as ->|]. destruct s as [|d s]; [done|].
  destruct (Ascii.eqb c d); [|done]. cbn. by rewrite (IH _ H).
Qed.

Lemma split_length p s a b : split_at_first p s = Some (a, b) -> String.length s = (String.length a + String.length p + String.length b)%nat.
Proof.
  revert a b. induction s as [|c s IH]; intros a b; cbn [split_at_first].
  - destruct (strip_prefix p "") eqn:E; [|done]. intros [= <- <-]. by apply strip_prefix_length in E.
  - destruct (strip_prefix p (String c s)) eqn:E.
    + intros [= <- <-]. by apply strip_prefix_length in E.
    + destruct (split_at_first p s) as [[a' b']|] eqn:S; [|done]. intros [= <- <-]. cbn. by rewrite (IH _ _ eq_refl).
Qed.

Lemma lstrip_length s : (String.length (lstrip s) <= String.length s)%nat.
Proof. induction s as [|c s IH]; [done|]. cbn. destruct (is_space c); cbn; lia. Qed.

Lemma span_length p s : (String.length (span p s).2 <= String.length s)%nat.
Proof. induction s as [|c s IH]; [done|]. cbn. destruct (p c); [|done]. destruct (span p s). cbn in *. lia. Qed.

Lemma sep_length : (0 < String.length SEP)%nat.
Proof. vm_compute. lia. Qed.

(** A located segment is shorter than the text, by the separator at least. *)
Lemma sep_locate_length fuel s before rest :
  sep_locate fuel s = Some (before, rest) -> (String.length before + String.length rest < String.length s)%nat.
Proof.
  revert s before rest. induction fuel as [|fuel IH]; intros s before rest H; [done|]. cbn [sep_locate] in H.
  destruct (split_at_first SEP s) as [[b after]|] eqn:E; [|done]. apply split_length in E. pose proof sep_length.
  destruct (span name_char (lstrip after)) as [name r] eqn:S. destruct (nonempty name).
  - injection H as <- <-. pose proof (span_length name_char (lstrip after)) as L. rewrite S in L. cbn [snd] in L. pose proof (lstrip_length after). lia.
  - destruct (sep_locate fuel after) as [[b' r']|] eqn:F; [|done]. injection H as <- <-. apply IH in F. rewrite !str_length_app. lia.
Qed.

Lemma after_args_length rest : (String.length (after_args rest) <= String.length rest)%nat.
Proof.
  unfold after_args. destruct (_extract_balanced_json rest); [|done]. destruct (split_at_first _ rest) as [[a tail]|] eqn:E; [|done].
  apply split_length in E. lia.
Qed.

Lemma sep_calls_end fuel text :
  (String.length text < fuel)%nat ->
  let r := _strip_standalone_sep_calls fuel text in sep_locate (S (String.length r)) r = None.
Proof.
  cbv zeta. revert text. induction fuel as [|fuel IH]; intros text H; [lia|]. cbn [_strip_standalone_sep_calls].
  destruct (sep_locate (S (String.length text)) text) as [[before rest]|] eqn:E; [|done].
  apply IH. apply sep_locate_length in E. pose proof (after_args_length rest). rewrite str_length_app. lia.
Qed.

(** No token occurs in the text. *)
Definition token_free (s : string) : Prop :=
  split_at_first CALL_BEGIN s = None /\ split_at_first SEP s = None /\ split_at_first CALL_END s = None.

Lemma split_none p c s : split_at_first p (String c s) = None -> strip_prefix p (String c s) = None /\ split_at_first p s = None.
Proof.
  cbn [split_at_first]. destruct (strip_prefix p (String c s)); [done|]. destruct (split_at_first p s) as [[a b]|]; done.
Qed.

Lemma orphans_kept fuel s : token_free s -> drop_orphans fuel s = s.
Proof.
  revert s. induction fuel as [|fuel IH]; intros s F; [done|]. cbn [drop_orphans]. destruct s as [|c s].
  - by vm_compute.
  - destruct F as ([B B']%split_none & [P P']%split_none & [E E']%split_none). unfold token_here. rewrite B, P, E.
    by rewrite IH by (by split_and!).
Qed.

(** Taking the call markup out of a text ends, leaves no separator token with a
    name after it before the orphaned tokens are dropped, and changes nothing but the
    white space around it in a text that holds no token. *)
Theorem markup_stripping text :
  (let r := _strip_standalone_sep_calls (S (String.length text)) text in sep_locate (S (String.length r)) r = None) /\
  (token_free text -> strip_tool_call_markup (VStr text) = strip text).
Proof.
  split; [apply sep_calls_end; lia|]. intros F. pose proof F as (B & P & E). unfold strip_tool_call_markup.
  destruct text as [|c text]; [done|]. cbn [truthy nonempty negb text_of py_str].
  set (s := String c text) in *. assert (forall n, remove_blocks (S n) s = s) as -> by (intros n; cbn [remove_blocks]; by rewrite B).
  assert (forall n, _strip_standalone_sep_calls (S n) s = s) as ->.
  { intros n. cbn [_strip_standalone_sep_calls sep_locate]. by rewrite P. }
  by rewrite orphans_kept.
Qed.

(** One pass over the orphans can put a token together from its halves. *)
Definition split_token : string := ("<" ++ bar ++ "tool" ++ CALL_END ++ low_block ++ "sep" ++ bar ++ "> buy")%string.

Lemma orphans_can_leave_a_token : strip_tool_call_markup (VStr split_token) = (SEP ++ " buy")%string.
Proof. by vm_compute. Qed.

(** A failure whose reason is empty ends without a reason. *)
Lemma failure_without_a_reason le :
  let content := VDict [(VStr "error", VStr "")] in
  tool_result_status le content = ("failure", Some "")%string /\
  build_tool_call_end_event (VStr "t") "failure" (Some ""%string) = VDict [(VStr "tool", VStr "t"); (VStr "status", VStr "failure")].
Proof. cbv zeta. split; by vm_compute. Qed.

(** A label that cannot be hashed raises, where the step is to report that it is not
    evaluable. *)
Lemma unhashable_label_raises :
  _regime_step [(VStr "regime", VDict [(VStr "available", VBool true); (VStr "favorability", VList [])])] = Raise TypeError.
Proof. done. Qed.

(** ** A VERIFY decision *)

Definition demo_record : list (val * val) :=
  [(VStr "validator_checks", VList [VDict [(VStr "check", VStr "risk-reward"); (VStr "outcome", VStr "pass")];
                                    VDict [(VStr "check", VStr "session"); (VStr "outcome", VStr "fail"); (VStr "detail", VStr "late")]]);
   (VStr "regime", VDict [(VStr "available", VBool true); (VStr "favorability", VStr "favorable"); (VStr "trend_state", VStr "up")]);
   (VStr "forecast", VDict [(VStr "available", VBool false); (VStr "reason", VStr "no data")])]%string.

Definition demo_decision : val :=
  VDict [(VStr "action", VStr "buy"); (VStr "conviction_score", VInt 70); (VStr "entry", VFloat 100); (VStr "stop_loss", VFloat 95);
         (VStr "take_profit", VInt 110); (VStr "defensibility", VDict demo_record)].

Definition demo_steps : list val := Eval vm_compute in match build_verification_steps demo_decision with Ok s => s | Raise _ => [] end.

Lemma verification_steps_complete_witness :
  build_verification_steps demo_decision = Ok demo_steps /\ count_checks "session" demo_steps = 1%nat /\ count_checks "forecast" demo_steps = 1%nat.
Proof.
  split; [by vm_compute|]. split; [by vm_compute|].
  destruct (verification_steps_complete demo_record demo_decision demo_steps ltac:(done) ltac:(by vm_compute)) as (derived & _ & _ & _ & H).
  apply H; [cbn; tauto|by vm_compute].
Defined.

Definition demo_updates : list val :=
  [VDict [(VStr "messages", VList [ai_message (VStr "Looking at INFY") [call_dict (VStr "get_candles") (VStr "c1") (VDict [])] [];
                                   tool_message (VStr "true") (VStr "c1") (VStr "get_candles")])];
   VDict [(VStr "decision", demo_decision)]]%string.

Definition demo_events : list event :=
  Eval vm_compute in
    match assemble_run_events (fun _ => None) (VStr "t1") demo_updates RUN_COMPLETED VNone with Ok l => l | Raise _ => [] end.

Lemma run_frames_ordered_witness :
  assemble_run_events (fun _ => None) (VStr "t1") demo_updates RUN_COMPLETED VNone = Ok demo_events /\
  exists body, demo_events = (RUN_STARTED, build_run_started_event (VStr "t1")) :: body ++ [closing (VStr "t1") RUN_COMPLETED VNone] /\ paired body.
Proof.
  split; [by vm_compute|].
  destruct (run_frames_ordered (fun _ => None) (VStr "t1") demo_updates RUN_COMPLETED VNone demo_events ltac:(by vm_compute))
    as (body & E & _ & P & _). exists body. split; [exact E|exact P].
Defined.

Lemma decision_levels_finite_witness :
  exists fields, build_decision_event demo_decision = Ok (Some (VDict fields)) /\ dict_find "execution_levels" fields <> None.
Proof.
  destruct (decision_levels_finite (match demo_decision with VDict d => d | _ => [] end)
              (match build_decision_event demo_decision with Ok p => p | Raise _ => None end) ltac:(by vm_compute))
    as (fields & E & _ & _ & _ & [_ L] & _).
  exists fields. rewrite <- E. split; [by vm_compute|]. apply L. split; [by vm_compute|]. repeat constructor.
Defined.

Lemma markup_stripping_witness : token_free "  wait for the open " /\ strip_tool_call_markup (VStr "  wait for the open ") = "wait for the open"%string.
Proof. split; [by vm_compute|]. apply (markup_stripping "  wait for the open "). by vm_compute. Defined.
