(* ===== verification/RunStream.v ===== *)
(** * The stream of one run

    Models [_run_events] and [event_generator] of [agents/deep-quant-loop/main.py]: the
    frames a client of [/run], [/resume] or [/qa] receives, what the persister and the
    interaction log are told on the way, and a client that hangs up.

    A run is the list of its frames, each with what is recorded just before it is sent.
    The client takes frames until it closes the stream, and the [finally] of the
    generator then closes what is still open.  A frame is its name and its payload:
    [StreamEvents.format_sse] is its text.

    The graph is given: the node updates it streams, the exception that ends the
    stream, if any, and the state it leaves.  The resolver of a user's key is given
    too.  The metrics, the profile put into the tools' configuration and the fan-out
    to other readers are not part of the model. *)

From stdpp Require Import base list gmap strings.
From Stdlib Require Import ZArith Lia Floats Ascii.
From S2P Require Import Prelude PyFloat PyNum PyVal PyEnv PyJson PyStr GraphMessages StreamEvents SessionStore StreamPersist.

#[local] Set Warnings "-inexact-float".
#[local] Open Scope Z_scope.
#[local] Open Scope res_scope.

(** ** The interaction log *)

Record outcome_row := { or_status : string; or_content : option string; or_detail : option string; or_refusal : option string }.

(** [_InteractionOutcome]: the rows written, and whether one was. *)
Record outcome := { oc_rows : list outcome_row; oc_recorded : bool }.

Definition new_outcome : outcome := {| oc_rows := []; oc_recorded := false |}.

Definition record (row : outcome_row) (o : outcome) : outcome :=
  if oc_recorded o then o else {| oc_rows := oc_rows o ++ [row]; oc_recorded := true |}.

Definition bare_outcome (status : string) (detail : option string) : outcome_row :=
  {| or_status := status; or_content := None; or_detail := detail; or_refusal := None |}.

(** [_final_answer_and_refusal], of the state's values. *)
Definition _final_answer_and_refusal (values : val) : option string * option string :=
  match (match vget values "messages" with VList l | VTuple l => last l | _ => None end) with
  | None => (None, None)
  | Some m =>
      (match vattr m "content" with VStr s => Some s | _ => None end,
       match vget (vattr m "additional_kwargs") "_personalisation_refusal" with
       | VStr s => if nonempty s then Some s else None
       | _ => None
       end)
  end.

(** ** The frames of a run *)

(** What ends with a frame: the run, as the persister is told it, or nothing because
    the run is parked at a price watch. *)
Inductive verdict := Ended (status : string) (detail : option string) | Parked.

(** A frame, what the log is told before it, and what the persister is told after
    having been given the frame. *)
Record step := { s_event : event; s_outcome : option outcome_row; s_verdict : option verdict }.

(** One request. *)
Record request := {
  rq_thread : string;
  rq_kind : string;
  rq_user : option string;
  rq_run : option string;
  rq_session : option string;
}.

(** What the graph does with it: the updates of its stream, the text of the exception
    that ends the stream, and the state then read, the truth value of [next] with the
    values, or an exception. *)
Record graph_run := {
  gr_updates : list (list val);
  gr_failure : option string;
  gr_state : res (bool * val);
}.

Section run.
(** [ast.literal_eval]; the text of an exception; the resolver of a user's key, which
    gives the text of its error when it fails; whether the cancel flag is up when an
    update arrives. *)
Context (literal_eval : string -> option val) (shown_exn : exn -> string) (resolve_key : string -> option string)
        (cancelled : nat -> bool).

Definition put_absent (d : list (val * val)) (k : string) (v : val) : list (val * val) :=
  match dict_find k d with Some _ => d | None => d ++ [(VStr k, v)] end.

Definition _stamp (rq : request) (payload : val) : val :=
  match payload with
  | VDict d => VDict (put_absent (put_absent d "thread_id" (VStr (rq_thread rq))) "turn" (VStr (rq_kind rq)))
  | _ => payload
  end.

Definition started_payload (rq : request) : val :=
  let started := [(VStr "thread_id", VStr (rq_thread rq))] in
  match rq_run rq with
  | Some run_id =>
      if nonempty run_id then
        _stamp rq (VDict (started ++ [(VStr "run_id", VStr run_id); (VStr "session_id", optional (rq_session rq))]))
      else _stamp rq (build_run_started_event (VStr (rq_thread rq)))
  | None => _stamp rq (build_run_started_event (VStr (rq_thread rq)))
  end.

Definition plain (rq : request) (ev : event) : step := {| s_event := (ev.1, _stamp rq ev.2); s_outcome := None; s_verdict := None |}.

(** [payload.get("error")] *)
Definition error_text (payload : val) : option string := match vget payload "error" with VStr s => Some s | _ => None end.

(** A refusal before the graph runs. *)
Definition refused (rq : request) (status log_detail message : string) : step :=
  let payload := _stamp rq (build_error_event (VStr message)) in
  {| s_event := (ERROR, payload); s_outcome := Some (bare_outcome status (Some log_detail));
     s_verdict := Some (Ended "error" (error_text payload)) |}.

(** The frame of an exception of the stream. *)
Definition failed (rq : request) (err_msg : string) : step :=
  {| s_event := (ERROR, _stamp rq (build_error_event (VStr err_msg))); s_outcome := Some (bare_outcome "error" (Some err_msg));
     s_verdict := Some (Ended "error" (Some err_msg)) |}.

Definition finished (rq : request) (status : string) (row : outcome_row) (v : verdict) : step :=
  {| s_event := (RUN_FINISHED, _stamp rq (build_run_finished_event (VStr (rq_thread rq)) status)); s_outcome := Some row; s_verdict := Some v |}.

(** How the loop over the updates ends. *)
Inductive loop_end := Exhausted | Cancelled | Raised (err_msg : string).

(** The loop: the frames of each update, until the flag is seen or something raises. *)
Fixpoint graph_frames (k : nat) (failure : option string) (updates : list (list val)) : list event * loop_end :=
  match updates with
  | [] => ([], match failure with Some err_msg => Raised err_msg | None => Exhausted end)
  | nodes :: updates =>
      if cancelled k then ([], Cancelled)
      else
        match gfor nodes (node_update_events literal_eval) with
        | (frames, Some x) => (frames, Raised (shown_exn x))
        | (frames, None) => let '(rest, how) := graph_frames (S k) failure updates in (frames ++ rest, how)
        end
  end.

(** The last frame of a run that was let in. *)
Definition closing_step (rq : request) (state : res (bool * val)) (how : loop_end) : step :=
  match how with
  | Raised err_msg => failed rq err_msg
  | Cancelled => finished rq "cancelled" (bare_outcome "cancelled" None) (Ended "cancelled" None)
  | Exhausted =>
      match state with
      | Raise x => failed rq (shown_exn x)
      | Ok (next, values) =>
          let status := if next then "paused"%string else "completed"%string in
          let '(answer, refusal) := _final_answer_and_refusal values in
          finished rq status {| or_status := status; or_content := answer; or_detail := None; or_refusal := refusal |}
            (if next then Parked else Ended status None)
      end
  end.

(** The credential: none needed, or the reason there is none. *)
Definition credential (e : env) (rq : request) : option (string * string * string) :=
  if nonempty (strip (default "" (e "LLM_API_KEY"))) then None
  else
    match rq_user rq with
    | Some user_id =>
        if nonempty user_id && nonempty (strip user_id) then
          match resolve_key user_id with
          | Some err => Some ("key_error", err, "LLM key unavailable: " ++ err)%string
          | None => None
          end
        else Some ("auth_error", "no user_id supplied for LLM access", "authentication required: no user_id supplied for LLM access")%string
    | None => Some ("auth_error", "no user_id supplied for LLM access", "authentication required: no user_id supplied for LLM access")%string
    end.

Definition _run_events (e : env) (rq : request) (g : graph_run) : list step :=
  {| s_event := (RUN_STARTED, started_payload rq); s_outcome := None; s_verdict := None |} ::
  match credential e rq with
  | Some (status, log_detail, message) => [refused rq status log_detail message]
  | None =>
      let '(frames, how) := graph_frames 0 (gr_failure g) (gr_updates g) in
      map (plain rq) frames ++ [closing_step rq (gr_state g) how]
  end.

(** ** The generator *)

Section generator.
Context {St : Type} `{Store St} (e : env).

Definition tell (ck : clock) (v : option verdict) (acc : persister * St) : persister * St :=
  match v with
  | Some (Ended status detail) => finalize e ck status detail acc.1 acc.2
  | Some Parked => mark_watching e ck acc.1 acc.2
  | None => acc
  end.

(** What a frame does before it is sent. *)
Definition send (ck : clock * clock) (s : step) (acc : persister * St * outcome) : persister * St * outcome :=
  let '(p, st, o) := acc in
  let o := match s_outcome s with Some row => record row o | None => o end in
  (tell ck.2 (s_verdict s) (add e ck.1 (s_event s).1 (s_event s).2 p st), o).

(** The frames in order, each with its clocks. *)
Fixpoint send_all (clocks : nat -> clock * clock) (k : nat) (steps : list step) (acc : persister * St * outcome) : persister * St * outcome :=
  match steps with
  | [] => acc
  | s :: steps => send_all clocks (S k) steps (send (clocks k) s acc)
  end.

(** The generator of a request, from which the client takes [taken] frames, or all. *)
Definition event_generator (now : float) (id : draw) (clocks : nat -> clock * clock) (last_clock : clock) (rq : request) (g : graph_run)
    (taken : option nat) (st : St) : list event * St * outcome :=
  match taken with
  | Some O => ([], st, new_outcome)
  | _ =>
      let steps := match taken with Some n => take n (_run_events e rq g) | None => _run_events e rq g end in
      let '(p, st) := open e now id (new_persister (rq_run rq) (rq_session rq) (rq_kind rq) now) st in
      let '(p, st, o) := send_all clocks 0 steps (p, st, new_outcome) in
      (map s_event steps, (record_disconnect e last_clock p st).2, record (bare_outcome "disconnected" None) o)
  end.
End generator.
End run.
