(* ===== verification/RunStreamFacts.v ===== *)
(** * Theorems about the stream of one run

    A run's frames are ordered; what is stored of a run is what was sent of it, when
    it ends and when the client hangs up; one outcome is logged; and what a pause does
    to the run it parks. *)

From stdpp Require Import base list gmap strings.
From Stdlib Require Import ZArith Lia Floats Ascii.
From S2P Require Import Prelude PyFloat PyNum PyVal PyEnv PyJson PyStr GraphMessages StreamEvents StreamEventsFacts.
From S2P Require Import SessionStore SessionStoreFacts StreamPersist StreamPersistFacts RunStream.

#[local] Set Warnings "-inexact-float".
#[local] Open Scope Z_scope.
#[local] Open Scope res_scope.

Section run.
Context (literal_eval : string -> option val) (shown_exn : exn -> string) (resolve_key : string -> option string)
        (cancelled : nat -> bool).

(** The frames of a request and its generator, for this graph. *)
Definition run_steps : env -> request -> graph_run -> list step := _run_events literal_eval shown_exn resolve_key cancelled.

(** ** The shape of a run *)

Definition silent (s : step) : Prop := s_verdict s = None /\ s_outcome s = None.

(** A last frame, which the log and the persister are told about. *)
Definition closes (s : step) : Prop :=
  (exists row, s_outcome s = Some row) /\ (exists v, s_verdict s = Some v) /\ ((s_event s).1 = RUN_FINISHED \/ (s_event s).1 = ERROR).

Lemma stamp_dict rq p : is_dict p = true -> is_dict (_stamp rq p) = true.
Proof. by destruct p. Qed.

Lemma closing_closes rq state how : closes (closing_step shown_exn rq state how).
Proof.
  unfold closing_step. destruct how; [|by split_and!; eauto; left|by split_and!; eauto; right].
  destruct state as [[next values]|x]; [|by split_and!; eauto; right]. destruct (_final_answer_and_refusal values) as [a b].
  split_and!; cbn; eauto.
Qed.

(** Silent frames, then one that closes. *)
Lemma run_steps_shape e rq g :
  exists init fin, run_steps e rq g = init ++ [fin] /\ Forall silent init /\ closes fin /\ init <> [].
Proof.
  unfold run_steps, _run_events. destruct (credential resolve_key e rq) as [[[status log_detail] message]|].
  - eexists [_], _. split; [done|]. split_and!; [by repeat constructor|by split_and!; eauto; right|done].
  - destruct (graph_frames _ _ _ _ _ _) as [frames how]. eexists (_ :: map (plain rq) frames), _. split; [done|].
    split_and!; [|apply closing_closes|done]. constructor; [done|]. by apply Forall_map, Forall_true.
Qed.

(** ** What is recorded *)

(** The frames given to the persister, with their clocks. *)
Fixpoint given (clocks : nat -> clock * clock) (k : nat) (steps : list step) : list (clock * (string * val)) :=
  match steps with [] => [] | s :: steps => ((clocks k).1, s_event s) :: given clocks (S k) steps end.

Lemma given_events clocks k steps : map snd (given clocks k steps) = map s_event steps.
Proof. revert k. induction steps as [|s steps IH]; intros k; [done|]. cbn. by rewrite IH. Qed.

Lemma send_silent {St} `{Store St} e clocks k steps p (st : St) o :
  Forall silent steps -> send_all e clocks k steps (p, st, o) = (add_all e (given clocks k steps) (p, st), o).
Proof.
  intros F. revert k p st. induction F as [|s steps [V O] F IH]; intros k p st; [done|]. cbn [send_all send]. rewrite V, O. cbn [tell].
  unfold add_all. cbn [given fold_left fst snd]. destruct (add e (clocks k).1 (s_event s).1 (s_event s).2 p st) as [p' st'].
  by rewrite IH.
Qed.

Lemma send_last {St} `{Store St} e clocks k steps s acc :
  exists ck, send_all e clocks k (steps ++ [s]) acc = send e ck s (send_all e clocks k steps acc).
Proof. revert k acc. induction steps as [|x steps IH]; intros k acc; [by eexists|]. cbn [app send_all]. apply IH. Qed.

(** How a run is recorded once these frames were sent: as its last frame says, or cut. *)
Definition ends_of (ran : list step) : run_status * message_status :=
  match last ran with
  | Some s => match s_verdict s with Some (Ended status _) => _map_terminal status | _ => (RUN_TRUNCATED, MSG_TRUNCATED) end
  | None => (RUN_TRUNCATED, MSG_TRUNCATED)
  end.

(** The row logged. *)
Definition row_of (ran : list step) : outcome_row :=
  match last ran with
  | Some s => match s_outcome s with Some row => row | None => bare_outcome "disconnected" None end
  | None => bare_outcome "disconnected" None
  end.

(** The frames a client that takes so many receives. *)
Definition ran_of (taken : option nat) (steps : list step) : list step := match taken with Some n => take n steps | None => steps end.

Lemma ran_shape e rq g taken :
  taken <> Some O ->
  (exists fin init, ran_of taken (run_steps e rq g) = init ++ [fin] /\ Forall silent init /\ closes fin) \/
  Forall silent (ran_of taken (run_steps e rq g)) /\ ran_of taken (run_steps e rq g) <> [].
Proof.
  intros T. destruct (run_steps_shape e rq g) as (init & fin & E & F & C & N). rewrite E. destruct taken as [n|]; cbn [ran_of].
  - destruct (Nat.le_gt_cases n (length init)) as [L|L].
    + right. rewrite take_app_le by done. split; [by apply Forall_take|]. destruct n; [done|]. by destruct init.
    + left. exists fin, init. rewrite take_ge; [done|]. rewrite length_app. cbn. lia.
  - left. by exists fin, init.
Qed.

(** The recording of frames none of which ends the run, then the close of the
    generator. *)
Section recorded.
Context (e : env) (run_id mid : string) (seq0 : Z) (on : enabled e = true).
Context (run_named : nonempty run_id = true) (message_named : nonempty mid = true).

(** What a store holds of a run that was recorded. *)
Definition recorded_as (ends : run_status * message_status) (all : list (string * string)) (text : string) (d : db) : Prop :=
  exists r m, runs d !! run_id = Some r /\ rn_terminal r = Some ends.1 /\ rn_status r = ends.1 /\ rn_last_seq r = seq0 + Z.of_nat (length all) /\
    holds d run_id seq0 all /\
    messages d !! mid = Some m /\ ms_status m = ends.2 /\ ms_content m = drop_char nul text.

Lemma closed_as ck ends detail p d frames text all :
  recording run_id mid seq0 p d frames text -> record_of frames = Ok all -> Z.of_nat (String.length text) <= MAX_CONTENT_CHARS ->
  sp_finalized p = false -> live ends.1 = false -> ends.2 <> MSG_STREAMING ->
  exists p' d', close_as e ck ends detail p d = (p', d') /\ sp_finalized p' = true /\ sp_run p' = Some run_id /\ recorded_as ends all text d'.
Proof.
  intros C R L F Le Me. pose proof (proj1 (rc_ids _ _ _ _ _ _ _ C)) as Ir.
  destruct (close_recording e run_id mid seq0 on run_named message_named ck ends detail p d frames text all C R L F Le Me)
    as (p' & d' & E & W & F' & _ & (r & Hr & T & St & Q) & H & (m & Hm & S & X)).
  exists p', d'. split_and!; [done|done| |by exists r, m]. revert E. unfold close_as. rewrite (active_run e run_id on run_named p Ir), F.
  assert (recording run_id mid seq0 (finalized p) d frames text) as C0 by (by destruct C).
  destruct (flush_recording e run_id mid seq0 on run_named message_named ck _ _ _ _ _ C0 R L) as (p1 & d1 & -> & _ & _ & _ & (K & _)).
  destruct (write_end _ _ _ _ _ _) as [d2 ok]. intros [= <- <-]. destruct ok; cbn; by rewrite K.
Qed.

(** A generator that has been told the end changes nothing when it closes. *)
Lemma already_closed ck ends detail p (d : db) :
  sp_finalized p = true -> sp_run p = Some run_id -> (close_as e ck ends detail p d).2 = d.
Proof. intros F Ir. unfold close_as. by rewrite (active_run e run_id on run_named p Ir), F. Qed.

Lemma closing_ends s : closes s -> live (ends_of [s]).1 = false /\ (ends_of [s]).2 <> MSG_STREAMING.
Proof.
  intros _. unfold ends_of. cbn. destruct (s_verdict s) as [[status detail|]|]; [apply map_terminal_ends|done|done].
Qed.

Lemma sent_recording clocks last_clock p d o ran all :
  recording run_id mid seq0 p d [] "" -> sp_finalized p = false -> oc_recorded o = false -> oc_rows o = [] ->
  (exists fin init, ran = init ++ [fin] /\ Forall silent init /\ closes fin) \/ Forall silent ran /\ ran <> [] ->
  record_of (flat_map (kept_frame (sp_kind p)) (map s_event ran)) = Ok all ->
  Z.of_nat (String.length (text_of_frames (map s_event ran))) <= MAX_CONTENT_CHARS ->
  let '(p', d', o') := send_all e clocks 0 ran (p, d, o) in
  recorded_as (ends_of ran) all (text_of_frames (map s_event ran)) (record_disconnect e last_clock p' d').2 /\
  oc_rows (record (bare_outcome "disconnected" None) o') = [row_of ran].
Proof.
  intros C F O1 O2 [(fin & init & -> & Fi & Cl)|[Fs N]] R L.
  - destruct (send_last e clocks 0 init fin (p, d, o)) as [ck ->]. rewrite (send_silent e clocks 0 init p d o Fi).
    rewrite map_app, flat_map_app in R. destruct (record_of_app _ _ _ R) as (r1 & r2 & R1 & R2 & ->).
    assert (text_of_frames (map s_event (init ++ [fin])) = (text_of_frames (map s_event init) ++ text_of_frames [s_event fin])%string) as Et.
    { unfold text_of_frames. by rewrite map_app, flat_map_app, concat_app. }
    rewrite Et in *. rewrite str_length_app in L. rewrite <- (given_events clocks 0 init) in *.
    destruct (add_all_recording e run_id mid seq0 on run_named message_named (given clocks 0 init) p d [] "" r1 C R1) as (p1 & d1 & A & K & C1);
      [rewrite str_length_app; cbn [String.length]; lia|]. unfold add_all. rewrite A. cbn [app] in C1. unfold send.
    destruct K as (K1 & K2 & K3 & K4 & K5).
    cbn [map flat_map] in R. rewrite app_nil_r in R. rewrite <- K3 in R at 2.
    assert (String.concat "" (prose (s_event fin).1 (s_event fin).2) = text_of_frames [s_event fin]) as Ep
      by (unfold text_of_frames; cbn; by rewrite app_nil_r).
    destruct (add_recording e run_id mid seq0 on run_named message_named ck.1 p1 d1 _ _ (r1 ++ r2) (s_event fin) C1) as (p2 & d2 & -> & K' & C2);
      [exact R|rewrite Ep, !str_length_app; cbn [String.length]; lia|].
    rewrite Ep in C2. destruct K' as (K1' & K2' & K3' & K4' & K5'). assert (sp_finalized p2 = false) as F2 by congruence.
    destruct Cl as ((row & Or) & (v & Ov) & _). rewrite Or.
    assert (ends_of (init ++ [fin]) = match v with Ended status _ => _map_terminal status | Parked => (RUN_TRUNCATED, MSG_TRUNCATED) end) as Ee
      by (unfold ends_of; rewrite last_snoc, Ov; by destruct v).
    assert (Z.of_nat (String.length (text_of_frames (map snd (given clocks 0 init)) ++ text_of_frames [s_event fin])%string) <= MAX_CONTENT_CHARS) as L2
      by (rewrite str_length_app; lia).
    assert (row_of (init ++ [fin]) = row) as -> by (unfold row_of; by rewrite last_snoc, Or).
    assert (oc_rows (record (bare_outcome "disconnected" None) (record row o)) = [row]) as Oc
      by (unfold record; rewrite O1; cbn; by rewrite O2).
    rewrite Ov, Ee. destruct v as [status detail|]; cbn [tell fst snd].
    + destruct (map_terminal_ends status) as [Le Me].
      destruct (closed_as ck.2 (_map_terminal status) detail p2 d2 _ _ _ C2 R L2 F2 Le Me) as (p3 & d3 & E3 & F3 & I3 & H3).
      unfold finalize. rewrite E3. unfold record_disconnect. rewrite (already_closed last_clock _ None p3 d3 F3 I3). by split.
    + destruct (watching_recording e run_id mid seq0 on run_named message_named ck.2 p2 d2 _ _ _ C2 R L2) as (p3 & d3 & -> & C3 & K3w).
      destruct K3w as (_ & _ & _ & F3 & _). rewrite <- F3 in F2.
      destruct (closed_as last_clock (RUN_TRUNCATED, MSG_TRUNCATED) None p3 d3 _ _ _ C3 R L2 F2 eq_refl ltac:(done)) as (p4 & d4 & E4 & _ & _ & H4).
      unfold record_disconnect. rewrite E4. by split.
  - rewrite (send_silent e clocks 0 ran p d o Fs). rewrite <- (given_events clocks 0 ran) in *.
    destruct (add_all_recording e run_id mid seq0 on run_named message_named (given clocks 0 ran) p d [] "" all C R) as (p1 & d1 & A & K & C1);
      [exact L|]. unfold add_all. rewrite A. cbn [app] in C1. destruct K as (K1 & K2 & K3 & K4 & K5).
    assert (exists s, last ran = Some s /\ silent s) as (s & Ls & [Sv So]).
    { destruct (last ran) as [s|] eqn:Es; [|by apply last_None in Es]. exists s. split; [done|]. apply last_Some_elem_of in Es.
      rewrite Forall_forall in Fs. by apply Fs. }
    assert (ends_of ran = (RUN_TRUNCATED, MSG_TRUNCATED)) as -> by (unfold ends_of; by rewrite Ls, Sv).
    assert (row_of ran = bare_outcome "disconnected" None) as -> by (unfold row_of; by rewrite Ls, So).
    split; [|unfold record; rewrite O1; cbn; by rewrite O2].
    destruct (closed_as last_clock (RUN_TRUNCATED, MSG_TRUNCATED) None p1 d1 _ _ _ C1 R L) as (p4 & d4 & E4 & _ & _ & H4);
      [congruence|done|done|]. unfold record_disconnect. by rewrite E4.
Qed.
End recorded.

(** ** The order of the frames *)

Lemma closing_stamped rq state how : exists d, (s_event (closing_step shown_exn rq state how)).2 = _stamp rq (VDict d).
Proof.
  unfold closing_step. destruct how; [|by eexists..]. destruct state as [[next values]|x]; [|by eexists].
  destruct (_final_answer_and_refusal values). by eexists.
Qed.

Lemma none_or (v : val) : v <> VNone \/ Some v = Some VNone.
Proof. destruct v; [by right|by left..]. Qed.

Lemma put_absent_get d k v k' : k <> k' -> dict_get (put_absent d k v) k' = dict_get d k'.
Proof.
  intros N. unfold put_absent. destruct (dict_find k d); [done|]. unfold dict_get. f_equal.
  induction d as [|[q w] d IH]; cbn [app dict_find].
  - by rewrite (proj2 (String.eqb_neq k' k)) by congruence.
  - destruct q; try done. by destruct (String.eqb k' s).
Qed.

Lemma stamp_tool rq p : vget (_stamp rq p) "tool" = vget p "tool".
Proof. destruct p; try done. cbn [_stamp vget]. by rewrite !put_absent_get. Qed.

Lemma plain_ordered rq l : ordered l -> ordered (map (fun ev => s_event (plain rq ev)) l).
Proof.
  intros [B P]. split.
  - apply Forall_map. eapply Forall_impl; [exact B|]. intros ev [N D]. split; [exact N|]. cbn. by apply stamp_dict.
  - clear B. induction P as [|p q l E P IH|ev l N1 N2 P IH]; cbn [map]; [constructor| |].
    + constructor; [by rewrite !stamp_tool|done].
    + by constructor.
Qed.

Lemma loop_ordered k failure updates : ordered (graph_frames literal_eval shown_exn cancelled k failure updates).1.
Proof.
  revert k. induction updates as [|nodes updates IH]; intros k; cbn [graph_frames]; [apply (seq_nil (P := ordered))|].
  destruct (cancelled k); [apply (seq_nil (P := ordered))|].
  pose proof (seq_gfor ordered nodes (node_update_events literal_eval) (update_ordered literal_eval)) as O.
  destruct (gfor nodes _) as [frames [x|]]; [done|]. specialize (IH (S k)). destruct (graph_frames _ _ _ _ _ _) as [rest how].
  by apply seq_app.
Qed.

(** A stream starts with the start frame and ends with exactly one closing frame,
    the finish of the run or an error; what comes between is frames of the body, each
    an object stamped with the thread and the kind of turn, and every tool result is
    followed at once by the end of its call; no decision follows an error; and every
    frame names the request's thread unless it named one itself. *)
Theorem run_stream_ordered e rq g :
  exists body fin, map s_event (run_steps e rq g) = (RUN_STARTED, started_payload rq) :: body ++ [fin] /\
    Forall body_frame body /\ paired body /\ (fin.1 = RUN_FINISHED \/ fin.1 = ERROR) /\
    Forall (fun ev => vget ev.2 "thread_id" <> VNone \/ dict_find "thread_id" (match ev.2 with VDict d => d | _ => [] end) = Some VNone)
      ((RUN_STARTED, started_payload rq) :: body ++ [fin]).
Proof.
  assert (forall d, let p := _stamp rq (VDict d) in
            vget p "thread_id" <> VNone \/ dict_find "thread_id" (match p with VDict d => d | _ => [] end) = Some VNone) as Th.
  { intros d. cbn [_stamp vget]. assert (dict_find "thread_id" (put_absent (put_absent d "thread_id" (VStr (rq_thread rq))) "turn" (VStr (rq_kind rq)))
      = Some (default (VStr (rq_thread rq)) (dict_find "thread_id" d))) as E.
    { assert (forall d v, dict_find "thread_id" d <> None -> dict_find "thread_id" (put_absent d "turn" v) = dict_find "thread_id" d) as K.
      { intros d' v Hd. pose proof (put_absent_get d' "turn" v "thread_id") as G. unfold dict_get in G. unfold put_absent in *.
        destruct (dict_find "turn" d'); [done|]. clear G. induction d' as [|[q w] d' IH]; [done|]. cbn [app dict_find] in *.
        destruct q; try by apply IH. destruct (String.eqb "thread_id" s); [done|by apply IH]. }
      assert (dict_find "thread_id" (put_absent d "thread_id" (VStr (rq_thread rq))) = Some (default (VStr (rq_thread rq)) (dict_find "thread_id" d))) as E1.
      { unfold put_absent. destruct (dict_find "thread_id" d) eqn:F; [done|]. cbn. induction d as [|[q w] d IH]; [done|]. cbn [app dict_find] in *.
        destruct q; try by apply IH. destruct (String.eqb "thread_id" s); [done|by apply IH]. }
      rewrite K; [done|by rewrite E1]. }
    unfold dict_get. rewrite E. apply none_or. }
  assert (exists d, started_payload rq = _stamp rq (VDict d)) as [d0 E0].
  { unfold started_payload. destruct (rq_run rq) as [id|]; [destruct (nonempty id)|]; by eexists. }
  unfold run_steps, _run_events. destruct (credential resolve_key e rq) as [[[status log_detail] message]|].
  - exists [], (s_event (refused rq status log_detail message)). split; [done|]. split; [constructor|]. split; [constructor|]. split; [by right|].
    cbn [app]. rewrite E0. repeat (apply Forall_cons_2; [apply Th|]). constructor.
  - pose proof (loop_ordered 0 (gr_failure g) (gr_updates g)) as O. destruct (graph_frames _ _ _ _ _ _) as [frames how]. cbn [fst] in O.
    exists (map (fun ev => s_event (plain rq ev)) frames), (s_event (closing_step shown_exn rq (gr_state g) how)).
    apply (plain_ordered rq) in O as O'. destruct O' as [B P].
    split; [cbn [map]; by rewrite map_app, map_map|]. split; [done|]. split; [done|].
    split; [by destruct (closing_closes rq (gr_state g) how) as (_ & _ & ?)|].
    apply Forall_cons_2; [rewrite E0; apply Th|]. apply Forall_app. split.
    + apply Forall_map. destruct O as [Bf _]. eapply Forall_impl; [exact Bf|]. intros [n p] [_ D]. cbn in D |- *. destruct p; done.
    + apply Forall_cons_2; [|constructor]. destruct (closing_stamped rq (gr_state g) how) as [d1 ->]. apply Th.
Qed.

(** ** What is stored of a run *)

(** The generator of a request that names a live run whose message can be created. *)
Definition records (e : env) (now : float) (id : draw) (rq : request) (d : db) (run_id mid : string) (r : run_row) : Prop :=
  enabled e = true /\ rq_run rq = Some run_id /\ nonempty run_id = true /\ wf d /\ runs d !! run_id = Some r /\ rn_terminal r = None /\
  sp_message (open e now id (new_persister (rq_run rq) (rq_session rq) (rq_kind rq) now) d).1 = Some mid.

Lemma generator_recorded e now id clocks last_clock rq g taken d run_id mid r all :
  records e now id rq d run_id mid r -> taken <> Some O ->
  let ran := ran_of taken (run_steps e rq g) in
  record_of (flat_map (kept_frame (rq_kind rq)) (map s_event ran)) = Ok all ->
  Z.of_nat (String.length (text_of_frames (map s_event ran))) <= MAX_CONTENT_CHARS ->
  let '(frames, d', o) := event_generator literal_eval shown_exn resolve_key cancelled e now id clocks last_clock rq g taken d in
  frames = map s_event ran /\ recorded_as run_id mid (rn_last_seq r) (ends_of ran) all (text_of_frames (map s_event ran)) d' /\
  oc_rows o = [row_of ran].
Proof.
  cbv zeta. intros (On & Rq & N & W & Hr & T & M) Nt R L. rewrite Rq in M.
  destruct (open e now id (new_persister (Some run_id) (rq_session rq) (rq_kind rq) now) d) as [p d1] eqn:O. cbn [fst] in M.
  destruct (open_recording e now id now d run_id _ (rq_kind rq) r p d1 mid On N W Hr T O M) as (Nm & C & F & K & _).
  assert (event_generator literal_eval shown_exn resolve_key cancelled e now id clocks last_clock rq g taken d =
          let '(p1, st0, o) := send_all e clocks 0 (ran_of taken (run_steps e rq g)) (p, d1, new_outcome) in
          (map s_event (ran_of taken (run_steps e rq g)), (record_disconnect e last_clock p1 st0).2,
           record (bare_outcome "disconnected" None) o)) as ->.
  { unfold event_generator. rewrite Rq. destruct taken as [[|n]|]; [done|by rewrite O..]. }
  rewrite <- K in R.
  pose proof (sent_recording e run_id mid (rn_last_seq r) On N Nm clocks last_clock p d1 new_outcome _ all C F eq_refl eq_refl
                (ran_shape e rq g taken Nt) R L) as X.
  destruct (send_all e clocks 0 _ _) as [[p' d'] o']. by destruct X.
Qed.
End run.

(** The frames of a stream that are stored: all of an analysis or a resume, none of a
    question. *)
Definition stored_frames (rq : request) (frames : list event) : list event :=
  if String.eqb (rq_kind rq) "qa" then [] else frames.

Lemma kept_stored rq frames : flat_map (kept_frame (rq_kind rq)) frames = stored_frames rq frames.
Proof.
  unfold kept_frame, stored_frames. destruct (String.eqb _ _); induction frames as [|f frames IH]; try done. cbn. by rewrite IH.
Qed.

(** C7: What the generator of a live run stores is what its client was sent. The client
    takes some frames or all, at least one; the run's message could be created, the
    frames to store have a JSON text, and their prose is within [MAX_CONTENT_CHARS]
    bytes. Of an analysis or a resume, the frames sent and no others are stored, as the
    next of the run's transcript, each under its own number, whatever the clocks; of a
    question none is stored. In both cases the message holds the prose sent, the run and
    the message get the end the last frame told, and exactly one outcome is logged.
    When the last frame told no end, both are truncated: so it is for a client that
    hung up, and also for a run that parked at a price watch, which the code means to
    keep watching (a recorded finding). *)
Theorem stored_is_sent le shown resolve cancelled e now id clocks last_clock rq g taken d run_id mid r all :
  records e now id rq d run_id mid r -> taken <> Some O ->
  let ran := ran_of taken (run_steps le shown resolve cancelled e rq g) in
  record_of (stored_frames rq (map s_event ran)) = Ok all ->
  Z.of_nat (String.length (text_of_frames (map s_event ran))) <= MAX_CONTENT_CHARS ->
  let '(frames, d', o) := event_generator le shown resolve cancelled e now id clocks last_clock rq g taken d in
  frames = map s_event ran /\ recorded_as run_id mid (rn_last_seq r) (ends_of ran) all (text_of_frames (map s_event ran)) d' /\
  oc_rows o = [row_of ran].
Proof. intros R N ran Hr. rewrite <- kept_stored in Hr. by apply generator_recorded. Qed.

(** A run that parks at a price watch is recorded as cut: the generator of a
    drained stream that pauses logs a pause, and leaves the run and its message
    truncated, where the persister's marking it as watching is to keep them open. *)
Theorem paused_run_truncated le shown resolve cancelled e now id clocks last_clock rq g values frames d run_id mid r all :
  records e now id rq d run_id mid r -> credential resolve e rq = None ->
  graph_frames le shown cancelled 0 (gr_failure g) (gr_updates g) = (frames, Exhausted) -> gr_state g = Ok (true, values) ->
  let ran := map s_event (run_steps le shown resolve cancelled e rq g) in
  record_of (flat_map (kept_frame (rq_kind rq)) ran) = Ok all -> Z.of_nat (String.length (text_of_frames ran)) <= MAX_CONTENT_CHARS ->
  let '(_, d', o) := event_generator le shown resolve cancelled e now id clocks last_clock rq g None d in
  exists r' m', runs d' !! run_id = Some r' /\ rn_status r' = RUN_TRUNCATED /\ rn_terminal r' = Some RUN_TRUNCATED /\
    messages d' !! mid = Some m' /\ ms_status m' = MSG_TRUNCATED /\ map or_status (oc_rows o) = ["paused"]%string.
Proof.
  cbv zeta. intros Rc Cr G S R L.
  pose proof (generator_recorded le shown resolve cancelled e now id clocks last_clock rq g None d run_id mid r all Rc ltac:(done) R L) as X.
  destruct (event_generator _ _ _ _ _ _ _ _ _ _ _ _ _) as [[fs d'] o]. destruct X as (_ & (r' & m' & Hr & T & St & _ & _ & Hm & Sm & _) & Ho).
  cbn [ran_of] in *. assert (exists init fin, run_steps le shown resolve cancelled e rq g = init ++ [fin] /\
    s_verdict fin = Some Parked /\ (or_status <$> s_outcome fin) = Some "paused"%string) as (init & fin & E & V & O).
  { unfold run_steps, _run_events. rewrite Cr, G, S. eexists (_ :: map (plain rq) frames), _. split; [done|].
    unfold closing_step. by destruct (_final_answer_and_refusal values). }
  rewrite E in *. unfold ends_of, row_of in *. rewrite last_snoc in *. rewrite V in *. destruct (s_outcome fin) as [row|]; [|done].
  injection O as O. exists r', m'. split_and!; try done. by rewrite Ho, <- O.
Qed.

(** ** A live run *)

Definition demo_env : env := fun k =>
  if String.eqb k "DEEP_QUANT_PERSIST_STREAM" then Some "1"%string else if String.eqb k "LLM_API_KEY" then Some "key"%string else None.

Definition demo_request (kind : string) : request :=
  {| rq_thread := "thread-1"; rq_kind := kind; rq_user := Some "ana"%string; rq_run := Some demo_run; rq_session := Some demo_session |}.

Definition demo_clock : clock := {| ck_checked := 0; ck_flushed := 0; ck_frames := 1700000005; ck_text := 1700000006; ck_run := 1700000007; ck_message := 1700000008 |}.

(** One node update, and a graph that is then paused, or done. *)
Definition demo_graph (paused : bool) : graph_run :=
  {| gr_updates := [[VDict [(VStr "messages", VList [ai_message (VStr "Wait for the open") [] []; tool_message (VStr "true") (VStr "c1") (VStr "get_candles")])]]]%string;
     gr_failure := None; gr_state := Ok (paused, VDict []) |}.

Definition no_literal : string -> option val := fun _ => None.
Definition no_text : exn -> string := fun _ => ""%string.
Definition no_error : string -> option string := fun _ => None.
Definition never : nat -> bool := fun _ => false.

Definition demo_stream (bits : Z) (kind : string) (paused : bool) (taken : option nat) (d : db) : list event * db * outcome :=
  event_generator no_literal no_text no_error never demo_env 1700000004 (demo_draw bits) (fun _ => (demo_clock, demo_clock)) demo_clock
    (demo_request kind) (demo_graph paused) taken d.

Definition demo_row : run_row := Eval vm_compute in match runs demo_store !! demo_run with Some r => r | None => set_run_status 0 RUN_ERROR {|
  rn_key := {| rk_session := ""; rk_user := ""; rk_thread := ""; rk_kind := RUN_FIND; rk_symbol := ""; rk_timeframe := ""; rk_profile := "";
               rk_model := None; rk_manual_trade := None; rk_started := 0 |};
  rn_status := RUN_ERROR; rn_terminal := None; rn_ended := None; rn_last_event := 0; rn_last_seq := 0 |} end.

Lemma demo_records : records demo_env 1700000004 (demo_draw 7) (demo_request "run") demo_store demo_run (demo_id "msg" 7) demo_row.
Proof.
  split; [by vm_compute|]. split; [done|]. split; [done|]. split; [apply wf_reachable, demo_reachable|].
  split; [by vm_compute|]. split; [done|by vm_compute].
Qed.

Definition demo_steps (paused : bool) : list step :=
  run_steps no_literal no_text no_error never demo_env (demo_request "run") (demo_graph paused).

Definition records_of (steps : list step) : list (string * string) :=
  match record_of (stored_frames (demo_request "run") (map s_event steps)) with Ok all => all | Raise _ => [] end.

(** A client that hangs up after two frames. *)
Lemma stored_is_sent_witness :
  let ran := ran_of (Some 2%nat) (demo_steps false) in
  map fst (records_of ran) = ["RUN_STARTED"; "REASONING"]%string /\
  let '(frames, d', o) := demo_stream 7 "run" false (Some 2%nat) demo_store in
  frames = map s_event ran /\
  recorded_as demo_run (demo_id "msg" 7) (rn_last_seq demo_row) (ends_of ran) (records_of ran) (text_of_frames (map s_event ran)) d' /\
  oc_rows o = [row_of ran].
Proof.
  cbv zeta. split; [by vm_compute|].
  exact (stored_is_sent no_literal no_text no_error never demo_env 1700000004 (demo_draw 7) (fun _ => (demo_clock, demo_clock)) demo_clock
           (demo_request "run") (demo_graph false) (Some 2%nat) demo_store demo_run (demo_id "msg" 7) demo_row
           (records_of (ran_of (Some 2%nat) (demo_steps false))) demo_records ltac:(done) ltac:(by vm_compute) ltac:(by vm_compute)).
Defined.

Lemma demo_paused_frames : exists frames, graph_frames no_literal no_text never 0 None (gr_updates (demo_graph true)) = (frames, Exhausted).
Proof. eexists. by vm_compute. Qed.

Lemma paused_run_truncated_witness :
  let '(_, d', o) := demo_stream 7 "run" true None demo_store in
  exists r' m', runs d' !! demo_run = Some r' /\ rn_status r' = RUN_TRUNCATED /\ rn_terminal r' = Some RUN_TRUNCATED /\
    messages d' !! demo_id "msg" 7 = Some m' /\ ms_status m' = MSG_TRUNCATED /\ map or_status (oc_rows o) = ["paused"]%string.
Proof.
  destruct demo_paused_frames as [frames F].
  exact (paused_run_truncated no_literal no_text no_error never demo_env 1700000004 (demo_draw 7) (fun _ => (demo_clock, demo_clock)) demo_clock
           (demo_request "run") (demo_graph true) (VDict []) frames demo_store demo_run (demo_id "msg" 7) demo_row
           (records_of (demo_steps true)) demo_records ltac:(by vm_compute) F ltac:(done) ltac:(by vm_compute) ltac:(by vm_compute)).
Defined.

(** *** What follows a pause *)

Definition run_end (d : db) : option (option run_status) := rn_terminal <$> runs d !! demo_run.
Definition message_end (d : db) (bits : Z) : option message_status := ms_status <$> messages d !! demo_id "msg" bits.

(** The resumed run completes, and stays recorded as truncated, with the answer in a
    second message. *)
Lemma resumed_run_stays_truncated :
  let d1 := (demo_stream 7 "run" true None demo_store).1.2 in
  let d2 := (demo_stream 8 "resume" false None d1).1.2 in
  run_end d2 = Some (Some RUN_TRUNCATED) /\ message_end d2 7 = Some MSG_TRUNCATED /\ message_end d2 8 = Some MSG_COMPLETE.
Proof. by vm_compute. Qed.

(** A question asked about a run that is watching completes that run. *)
Lemma question_ends_a_watching_run :
  let d1 := exec demo_store (Update_run_status 1700000004 demo_run RUN_WATCHING) in
  run_end d1 = Some None /\ run_end (demo_stream 7 "qa" false None d1).1.2 = Some (Some RUN_COMPLETE).
Proof. by vm_compute. Qed.

(** A store that is locked at some times. *)
Definition outage (locked : float -> bool) : Store db := {|
  new_message stamp := if locked stamp then fun _ _ _ _ _ => Raise SqliteError else new_message stamp;
  add_frames stamp := if locked stamp then fun _ _ _ => Raise SqliteError else add_frames stamp;
  add_text stamp := if locked stamp then fun _ _ _ => Raise SqliteError else add_text stamp;
  move_run stamp := if locked stamp then fun _ _ _ => Raise SqliteError else move_run stamp;
  end_run_as stamp := if locked stamp then fun _ _ _ => Raise SqliteError else end_run_as stamp;
  end_message_as stamp := if locked stamp then fun _ _ _ _ => Raise SqliteError else end_message_as stamp;
|}.

(** The batch before the end is lost, and the run is complete all the same: a terminal
    run whose transcript is not whole. *)
Lemma complete_without_transcript :
  let '(frames, d', _) :=
    event_generator (H := outage (fun stamp => PrimFloat.eqb stamp 1700000005)) no_literal no_text no_error never demo_env 1700000004
      (demo_draw 7) (fun _ => (demo_clock, demo_clock)) demo_clock (demo_request "run") (demo_graph false) None demo_store in
  length frames = 5%nat /\ run_end d' = Some (Some RUN_COMPLETE) /\ message_end d' 7 = Some MSG_COMPLETE /\
  rn_last_seq <$> runs d' !! demo_run = Some 3 /\ ms_content <$> messages d' !! demo_id "msg" 7 = Some ""%string.
Proof. by vm_compute. Qed.
