(* ===== verification/Server.v ===== *)
(** * The run, resume, question and cancel routes

    Models the request handlers of [agents/deep-quant-loop/main.py]: who owns a session, a
    run or a thread, the run a request opens, the run a question is about, the research
    gate, and what is handed to [RunStream.event_generator].

    A handler changes the state of the service step by step and ends with a reply, so that
    what was done before a refusal stays done.  The state is the session store, the
    entitlement cache, the rows of the interaction log and the threads asked to stop.
    Clock readings and random bits are arguments.  The telemetry wrapper and the metrics
    are not part of the model. *)

From stdpp Require Import base list gmap strings.
From Stdlib Require Import ZArith Lia Floats Ascii.
From S2P Require Import Prelude PyFloat PyNum PyVal PyEnv PyJson PyStr StreamEvents SessionStore StreamPersist RunStream.
From S2P Require Import Entitlements InternalIdentity SessionApi.

#[local] Set Warnings "-inexact-float".
#[local] Open Scope Z_scope.

(** ** The state of the service *)

(** A row of the interaction log: a request, or how one ended before its stream. *)
Record log_row := {
  lo_status : option string; lo_kind : string; lo_thread : string; lo_user : option string; lo_mode : option string; lo_text : option string;
}.

Record server := { sv_db : db; sv_cache : Entitlements.cache; sv_log : list log_row; sv_cancelled : gset string }.

Definition with_db (s : server) (d : db) : server :=
  {| sv_db := d; sv_cache := sv_cache s; sv_log := sv_log s; sv_cancelled := sv_cancelled s |}.
Definition with_cache (s : server) (c : Entitlements.cache) : server :=
  {| sv_db := sv_db s; sv_cache := c; sv_log := sv_log s; sv_cancelled := sv_cancelled s |}.

(** A step of a handler: the state after it, also when it refuses or fails. *)
Definition M (A : Type) := server -> server * reply A.

#[export] Instance M_ret : MRet M := fun A a s => (s, Reply a).
#[export] Instance M_bind : MBind M := fun A B f m s =>
  match m s with
  | (s, Reply a) => f a s
  | (s, Refused status) => (s, Refused status)
  | (s, Failed x) => (s, Failed x)
  end.

Definition lift {A} (r : reply A) : M A := fun s => (s, r).
Definition reading {A} (f : db -> reply A) : M A := fun s => (s, f (sv_db s)).

(** A transaction on the store: what raises leaves it as it was. *)
Definition transact {A} (f : db -> res (db * A)) : M A := fun s =>
  match f (sv_db s) with Ok (d, a) => (with_db s d, Reply a) | Raise x => (s, Failed x) end.

(** [try: ... except Exception: print(...)] around a transaction. *)
Definition tolerated {A} (f : db -> res (db * A)) : M () := fun s =>
  match f (sv_db s) with Ok (d, _) => (with_db s d, Reply ()) | Raise _ => (s, Reply ()) end.

Definition logged (row : log_row) : M () := fun s =>
  ({| sv_db := sv_db s; sv_cache := sv_cache s; sv_log := sv_log s ++ [row]; sv_cancelled := sv_cancelled s |}, Reply ()).

Definition _log_request (kind thread_id : string) (user_id mode content : option string) : M () :=
  logged {| lo_status := None; lo_kind := kind; lo_thread := thread_id; lo_user := user_id; lo_mode := mode; lo_text := content |}.

Definition _log_outcome (kind status thread_id : string) (user_id mode detail : option string) : M () :=
  logged {| lo_status := Some status; lo_kind := kind; lo_thread := thread_id; lo_user := user_id; lo_mode := mode; lo_text := detail |}.

Definition stop_thread (thread_id : string) : M () := fun s =>
  ({| sv_db := sv_db s; sv_cache := sv_cache s; sv_log := sv_log s; sv_cancelled := {[thread_id]} ∪ sv_cancelled s |}, Reply ()).

(** The truth value of a text that may be absent. *)
Definition given (o : option string) : option string := match o with Some (String _ _ as s) => Some s | _ => None end.

(** ** Ownership *)

Definition _sessions_active (e : env) : bool := sessions_enabled e.
Definition _require_session (e : env) : bool := switched_on e "DEEP_QUANT_REQUIRE_SESSION".

Definition _owned_session (session_id : string) (user_id : option string) (d : db) : reply session_row :=
  match given user_id with
  | None => Refused 401
  | Some uid => readable_session d session_id uid
  end.

Definition _owned_run_for_thread (thread_id : string) (user_id : option string) (d : db) : reply (option (string * run_row)) :=
  match get_run_by_thread d thread_id with
  | None => Reply None
  | Some run =>
      match given user_id with
      | Some uid => if String.eqb (rn_user run.2) uid then Reply (Some run) else Refused 404
      | None => Refused 404
      end
  end.

(** ** The research gate *)

(** What a handler serves: the stream of a run, with what the graph is given (an input, or
    the value a parked run is resumed with), or the one frame of a refusal. *)
Inductive served := Streamed (rq : request) (input : val) (resumed : bool) | Refusal (frame : event).

Definition _entitlement_refusal_stream (message : string) : event :=
  (ERROR, VDict [(VStr "error", VStr message); (VStr "code", VStr ENTITLEMENT_ERROR_CODE); (VStr "entitlement_required", VBool true)]).

Section handlers.
(** The entitlement endpoint, and the price graph: whether a thread is parked at an interrupt. *)
Context (fetch : endpoint) (pending : string -> res bool).

Definition _guard_research (e : env) (m : moment) (user_id mode : option string) (kind thread_id : string) : M (option event) := fun s =>
  match require_research_entitlement e fetch m user_id mode (sv_cache s) with
  | (None, c) => (with_cache s c, Reply None)
  | (Some message, c) =>
      (_ ← _log_outcome kind "refused_entitlement" thread_id user_id mode (Some message);
       mret (Some (_entitlement_refusal_stream message))) (with_cache s c)
  end.

(** The gate, then the stream. *)
Definition gated (e : env) (m : moment) (user_id mode : option string) (kind thread_id : string) (stream : M served) : M served :=
  refusal ← _guard_research e m user_id mode kind thread_id;
  match refusal with Some frame => mret (Refusal frame) | None => stream end.

(** ** Runs *)

Record run_request := {
  rr_thread_id : option string; rr_session_id : option string; rr_client_msg_id : option string; rr_message : string;
  rr_mode : option string; rr_symbol : option string; rr_user_id : option string; rr_manual_trade : option (list (val * val));
  rr_timeframe : option string; rr_profile : option string; rr_fno_expiry : option string; rr_model : option string;
}.

(** The readings of the clock and the random bits of a request. *)
Record ticks := { ti_run : float; ti_run_draw : draw; ti_thread_draw : draw; ti_message : float; ti_message_draw : draw; ti_gate : moment }.

Definition user_message (kind : message_kind) (content run_id client : val) : message_spec :=
  {| mp_role := role_name ROLE_USER; mp_kind := message_kind_name kind; mp_status := message_status_name MSG_COMPLETE;
     mp_content := content; mp_run := run_id; mp_client := client; mp_activity := VNone; mp_error := VNone |}.

Definition opt_dict (o : option (list (val * val))) : val := match o with Some l => VDict l | None => VNone end.

(** The run a request asks for: its context is the session's. *)
Definition run_spec_of (payload : run_request) (s : session_row) : run_spec :=
  {| SessionStore.sp_kind := run_kind_name (if String.eqb (upper (default "" (given (rr_mode payload)))) "VERIFY" then RUN_VERIFY else RUN_FIND);
     SessionStore.sp_symbol := VStr (sk_symbol (se_key s)); SessionStore.sp_timeframe := VStr (se_timeframe s);
     SessionStore.sp_profile := VStr (sk_profile (se_key s)); SessionStore.sp_model := optional (rr_model payload);
     SessionStore.sp_manual_trade := opt_dict (rr_manual_trade payload); SessionStore.sp_thread := VNone |}.

Definition _open_run_for_request (e : env) (t : ticks) (payload : run_request) (user_id : option string) : M (option (string * run_row)) :=
  match given (rr_session_id payload) with
  | None => if _require_session e then lift (Refused 422) else mret None
  | Some session_id =>
      if negb (_sessions_active e) then lift (Refused 503)
      else
        session ← reading (_owned_session session_id user_id);
        run ← transact (fun d => create_run (ti_run t) (ti_run_draw t) (ti_thread_draw t) d session_id (optional user_id) (run_spec_of payload session));
        match run with
        | None => lift (Refused 404)
        | Some (run_id, r) =>
            _ ← transact (fun d => create_message (ti_message t) (ti_message_draw t) d session_id
                                     (user_message KIND_ANALYSIS_REQUEST (VStr (rr_message payload)) (VStr run_id)
                                        (optional (rr_client_msg_id payload))));
            mret (Some (run_id, r))
        end
  end.

Definition initial_state (payload : run_request) : val :=
  VDict [(VStr "messages", VList [VTuple [VStr "user"; VStr (rr_message payload)]]); (VStr "mode", optional (rr_mode payload));
         (VStr "symbol", optional (rr_symbol payload)); (VStr "manual_trade", opt_dict (rr_manual_trade payload));
         (VStr "timeframe", optional (rr_timeframe payload)); (VStr "profile", optional (rr_profile payload));
         (VStr "fno_expiry", optional (rr_fno_expiry payload)); (VStr "model", optional (rr_model payload))].

Definition run_agent (c : call) (t : ticks) (payload : run_request) : M served :=
  let e := cl_env c in
  user_id ← lift (resolve_user e (cl_identity c) (rr_user_id payload) (cl_now c));
  run_row ← _open_run_for_request e t payload user_id;
  match given (match run_row with Some run => Some (rn_thread run.2) | None => rr_thread_id payload end) with
  | None => lift (Refused 422)
  | Some thread_id =>
      _ ← _log_request "run" thread_id user_id (rr_mode payload) (Some (rr_message payload));
      gated e (ti_gate t) user_id (rr_mode payload) "run" thread_id
        (mret (Streamed {| rq_thread := thread_id; rq_kind := "run"; rq_user := user_id; rq_run := fst <$> run_row;
                           rq_session := (fun run => rn_session run.2) <$> run_row |} (initial_state payload) false))
  end.

(** ** Resumes *)

Record resume_request := { re_thread_id : string; re_triggered_candle : list (val * val); re_trigger_kind : option string; re_user_id : option string }.

Definition candle_opts : dumps_opts :=
  {| item_sep := ", "; key_sep := ": "; sort_keys := false; ensure_ascii := true; default_str := true |}.

Definition _trigger_message (payload : resume_request) : string :=
  let kind := strip (match given (re_trigger_kind payload) with Some k => k | None => "target"%string end) in
  let kind := if nonempty kind then kind else "target"%string in
  let candle := match dumps candle_opts (VDict (re_triggered_candle payload)) with
                | Ok text => text
                | Raise _ => py_str (VDict (re_triggered_candle payload))
                end in
  ("The price condition you registered has fired (trigger: " ++ kind ++ "). Triggered candle: " ++ first_chars 2000 candle ++
   ". Continue the analysis from here: re-check the setup against this move and state whether the trade is still valid, has been invalidated, or should be adjusted.")%string.

(** What the graph is given: the candle, when the thread is parked, else the trigger as a message. *)
Definition resume_input (payload : resume_request) (next : bool) : val :=
  if next then
    VDict [(VStr "candle", VDict (re_triggered_candle payload)); (VStr "trigger_kind", optional (re_trigger_kind payload))]
  else
    VDict [(VStr "messages", VList [VTuple [VStr "user"; VStr (_trigger_message payload)]]); (VStr "mode", VStr "FIND")].

(** [service] is the value of the service header. *)
Definition resume_agent (c : call) (service : option string) (m : moment) (payload : resume_request) : M served :=
  let e := cl_env c in
  _ ← lift (require_service e service (cl_now c));
  run ← reading (fun d => Reply (if _sessions_active e then get_run_by_thread d (re_thread_id payload) else None));
  let user_id := match run with Some r => Some (rn_user r.2) | None => re_user_id payload end in
  let thread_id := re_thread_id payload in
  _ ← _log_request "resume" thread_id user_id None
        (Some ("trigger_kind=" ++ default "None" (re_trigger_kind payload))%string);
  gated e m user_id (Some "FIND"%string) "resume" thread_id
    (next ← lift (plainly (pending thread_id));
     mret (Streamed {| rq_thread := thread_id; rq_kind := "resume"; rq_user := user_id; rq_run := fst <$> run;
                       rq_session := (fun r => rn_session r.2) <$> run |} (resume_input payload next) next)).

(** ** Questions *)

Record qa_request := {
  qr_thread_id : option string; qr_session_id : option string; qr_context_run_id : option string; qr_client_msg_id : option string;
  qr_question : string; qr_model : option string; qr_user_id : option string;
}.

(** The thread a question is about, with its run and its session when they are known. *)
Definition grounded : Type := (string * option (string * string))%type.

Definition _resolve_qa_thread (e : env) (payload : qa_request) (user_id : option string) (d : db) : reply grounded :=
  match given (qr_session_id payload) return reply grounded with
  | Some session_id =>
      if negb (_sessions_active e) then Refused 503
      else
        session ← _owned_session session_id user_id d;
        match given (match given (qr_context_run_id payload) with Some id => Some id | None => se_active_run session end) return reply grounded with
        | None => Refused 409
        | Some run_id =>
            run ← plainly (get_run_for_user d run_id (optional user_id));
            match run return reply grounded with
            | Some r => if String.eqb (rn_session r) session_id then Reply (rn_thread r, Some (run_id, session_id)) else Refused 422
            | None => Refused 422
            end
        end
  | None =>
      if _require_session e then Refused 422
      else
        match given (qr_thread_id payload) return reply grounded with
        | None => Refused 422
        | Some thread_id =>
            legacy ← _owned_run_for_thread thread_id user_id d;
            Reply (thread_id, match legacy with Some run => Some (run.1, rn_session run.2) | None => None end)
        end
  end.

Definition qa_agent (c : call) (t : ticks) (payload : qa_request) : M served :=
  let e := cl_env c in
  user_id ← lift (resolve_user e (cl_identity c) (qr_user_id payload) (cl_now c));
  '(thread_id, grounding) ← reading (_resolve_qa_thread e payload user_id);
  _ ← match grounding with
      | Some (run_id, session_id) =>
          if nonempty session_id && enabled e then
            tolerated (fun d => create_message (ti_message t) (ti_message_draw t) d session_id
                                  (user_message KIND_QA_QUESTION (VStr (qr_question payload)) (VStr run_id) (optional (qr_client_msg_id payload))))
          else mret ()
      | None => mret ()
      end;
  _ ← _log_request "qa" thread_id user_id (Some "QA"%string) (Some (qr_question payload));
  gated e (ti_gate t) user_id (Some "QA"%string) "qa" thread_id
    (mret (Streamed {| rq_thread := thread_id; rq_kind := "qa"; rq_user := user_id; rq_run := fst <$> grounding; rq_session := snd <$> grounding |}
             (VDict [(VStr "messages", VList [VTuple [VStr "user"; VStr (qr_question payload)]]); (VStr "mode", VStr "QA");
                     (VStr "model", optional (qr_model payload))]) false)).

(** ** Cancellation *)

Record cancel_request := { ca_thread_id : option string; ca_run_id : option string }.

(** The thread a cancellation may stop. *)
Definition cancel_target (e : env) (payload : cancel_request) (user_id : option string) (d : db) : reply string :=
  match given (ca_run_id payload) return reply string with
  | Some run_id =>
      if negb (_sessions_active e) then Refused 503
      else
        match given user_id return reply string with
        | None => Refused 404
        | Some uid =>
            run ← plainly (get_run_for_user d run_id (VStr uid));
            match run return reply string with Some r => Reply (rn_thread r) | None => Refused 404 end
        end
  | None =>
      match given (ca_thread_id payload) return reply string with
      | Some thread_id => _ ← _owned_run_for_thread thread_id user_id d; Reply thread_id
      | None => Refused 422
      end
  end.

Definition cancel_agent (c : call) (payload : cancel_request) : M string :=
  let e := cl_env c in
  user_id ← lift (resolve_user e (cl_identity c) None (cl_now c));
  thread_id ← reading (cancel_target e payload user_id);
  _ ← _log_request "cancel" thread_id user_id None None;
  _ ← stop_thread thread_id;
  mret thread_id.
End handlers.

(** ** Re-attached readers *)

(** The frames of a stored transcript as they are replayed to a reader. *)
Definition _replay_frames (e : env) (run : option (string * run_row)) (after_seq : Z) (d : db) : list string :=
  match run with
  | Some (run_id, _) =>
      if (after_seq <=? 0) || negb (enabled e) then []
      else
        match ('(events, _) ← list_run_events d run_id after_seq 1000;
               mapM_res (fun f => format_sse (fr_event f) (fr_data f)) events)%res with
        | Ok frames => frames
        | Raise _ => []
        end
  | None => []
  end.

Definition QUEUE_SIZE : nat := 256.

(** The queues of the readers attached to each thread, by reader. *)
Definition hub := gmap string (gmap nat (list string)).

Definition subscribers (h : hub) (thread_id : string) : gmap nat (list string) := default ∅ (h !! thread_id).

(** [q.put_nowait]: a full queue misses the frame. *)
Definition put_nowait (frame : string) (queue : list string) : list string :=
  if (length queue <? QUEUE_SIZE)%nat then queue ++ [frame] else queue.

Definition _publish_frame (thread_id frame : string) (h : hub) : hub :=
  match h !! thread_id with Some subs => <[thread_id := put_nowait frame <$> subs]> h | None => h end.

Definition subscribe (thread_id : string) (reader : nat) (h : hub) : hub := <[thread_id := <[reader := []]> (subscribers h thread_id)]> h.

(** The reader's relay takes the next frame, or has none to send but a keepalive. *)
Definition take_frame (thread_id : string) (reader : nat) (h : hub) : option string * hub :=
  match subscribers h thread_id !! reader with
  | Some (frame :: queue) => (Some frame, <[thread_id := <[reader := queue]> (subscribers h thread_id)]> h)
  | _ => (None, h)
  end.

(** The [finally] of the relay: the reader leaves, and an empty bucket goes with it. *)
Definition unsubscribe (thread_id : string) (reader : nat) (h : hub) : hub :=
  let subs := delete reader (subscribers h thread_id) in
  if bool_decide (subs = ∅) then delete thread_id h else <[thread_id := subs]> h.

(** A reader attaches: its right to the thread, its queue, and what it missed. *)
Definition stream_thread (c : call) (thread_id : string) (after_seq : Z) (reader : nat) (d : db) (h : hub) : reply (list string * hub) :=
  user_id ← resolve_user (cl_env c) (cl_identity c) None (cl_now c);
  run ← _owned_run_for_thread thread_id user_id d;
  Reply (_replay_frames (cl_env c) run after_seq d, subscribe thread_id reader h).
