(* ===== verification/ServerFacts.v ===== *)
(** * The request routes: whose run it is

    A question is grounded in the caller's own run, a run is opened in the session's own
    context, only an owner stops a thread, every request that is served left
    its row in the log and passed the gate, and an attached reader gets the frames of its
    thread in order. *)

From stdpp Require Import base list gmap strings.
From Stdlib Require Import ZArith Lia Floats Ascii.
From S2P Require Import Prelude PyFloat PyNum PyVal PyEnv PyJson PyStr StreamEvents SessionStore SessionStoreFacts StreamPersist RunStream.
From S2P Require Import Entitlements InternalIdentity InternalIdentityFacts SessionApi SessionApiFacts Server.

#[local] Set Warnings "-inexact-float".
#[local] Open Scope Z_scope.

(** ** Steps of a handler *)

Lemma M_bind_inv {A B} (m : M A) (f : A -> M B) s s' r :
  (m ≫= f) s = (s', r) ->
  (exists a s1, m s = (s1, Reply a) /\ f a s1 = (s', r)) \/
  (exists st, m s = (s', Refused st) /\ r = Refused st) \/ (exists x, m s = (s', Failed x) /\ r = Failed x).
Proof.
  unfold mbind, M_bind. destruct (m s) as [s1 [a|st|x]]; intros H; [left; by exists a, s1| |]; injection H as <- <-; right; [left|right]; eauto.
Qed.

Lemma M_bind_Reply {A B} (m : M A) (f : A -> M B) s s' b :
  (m ≫= f) s = (s', Reply b) -> exists a s1, m s = (s1, Reply a) /\ f a s1 = (s', Reply b).
Proof. intros [H|[(st & _ & H)|(x & _ & H)]]%M_bind_inv; [done|done|done]. Qed.

Lemma lift_Reply {A} (r : reply A) s s' a : lift r s = (s', Reply a) -> s' = s /\ r = Reply a.
Proof. unfold lift. by intros [= <- ->]. Qed.

Lemma reading_Reply {A} (f : db -> reply A) s s' a : reading f s = (s', Reply a) -> s' = s /\ f (sv_db s) = Reply a.
Proof. unfold reading. by intros [= <- ->]. Qed.

Lemma transact_Reply {A} (f : db -> res (db * A)) s s' a :
  transact f s = (s', Reply a) -> exists d, f (sv_db s) = Ok (d, a) /\ s' = with_db s d.
Proof. unfold transact. destruct (f (sv_db s)) as [[d b]|x]; [|done]. intros [= <- <-]. by exists d. Qed.

Ltac mstep H := let a := fresh "a" in let s := fresh "s" in let E := fresh "E" in apply M_bind_Reply in H as (a & s & E & H).

Lemma given_Some o s : given o = Some s -> o = Some s /\ nonempty s = true.
Proof. destruct o as [[|c t]|]; cbn; try done. by intros [= <-]. Qed.

Lemma readable_session_inv d sid uid s :
  readable_session d sid uid = Reply s ->
  exists u, _required (VStr uid) = Ok u /\ owned_session d sid u = Some s /\ se_status s <> SESSION_DELETED.
Proof.
  unfold readable_session, get_session_for_user. destruct (_required (VStr uid)) as [u|]; [|done]. cbn. intros H. exists u.
  destruct (owned_session d sid u) as [s0|]; [|done]. case_bool_decide; [done|]. by injection H as <-.
Qed.

Lemma get_run_inv d id uid r :
  get_run_for_user d id (VStr uid) = Ok (Some r) -> exists u, _required (VStr uid) = Ok u /\ runs d !! id = Some r /\ rn_user r = u.
Proof.
  unfold get_run_for_user. destruct (_required (VStr uid)) as [u|]; [|done]. cbn. intros H. exists u.
  destruct (runs d !! id) as [r0|]; [|done]. destruct (String.eqb_spec (rn_user r0) u); [|done]. by injection H as <-.
Qed.

Lemma run_by_thread_Some d thread id r : get_run_by_thread d thread = Some (id, r) -> runs d !! id = Some r /\ rn_thread r = thread.
Proof. intros [H1 H2%String.eqb_eq]%head_rows_Some. done. Qed.

Lemma run_by_thread_None d thread id r : get_run_by_thread d thread = None -> runs d !! id = Some r -> rn_thread r <> thread.
Proof.
  intros H Hr E. unfold get_run_by_thread, run_by_thread in H. pose proof (head_rows_None _ _ H id r Hr) as P. cbn in P.
  by rewrite E, String.eqb_refl in P.
Qed.

(** Every run of a thread belongs to the user. *)
Definition thread_owned (d : db) (thread : string) (user_id : option string) : Prop :=
  forall id r, runs d !! id = Some r -> rn_thread r = thread -> given user_id = Some (rn_user r).

Lemma owned_run_thread d thread user_id run :
  wf d -> _owned_run_for_thread thread user_id d = Reply run ->
  thread_owned d thread user_id /\
  match run with Some (id, r) => runs d !! id = Some r /\ rn_thread r = thread | None => get_run_by_thread d thread = None end.
Proof.
  intros W. unfold _owned_run_for_thread. destruct (get_run_by_thread d thread) as [[id r]|] eqn:G.
  - destruct (run_by_thread_Some _ _ _ _ G) as [Hr Ht]. destruct (given user_id) as [uid|] eqn:U; [|done]. cbn [snd].
    destruct (String.eqb_spec (rn_user r) uid) as [<-|]; [|done]. intros [= <-]. split; [|done].
    intros id' r' Hr' Ht'. assert (id' = id) as -> by (eapply (wf_thread _ W); [done..|congruence]). rewrite U. congruence.
  - intros [= <-]. split; [|done]. intros id r Hr Ht. by destruct (run_by_thread_None _ _ _ _ G Hr).
Qed.

(** ** Questions *)

(** Where a question is grounded: in a run of the session it names, owned by the caller
    under the name the store reads, or in the thread it names. *)
Definition grounded_in (payload : qa_request) (who : option string) (d : db) (thread : string) (found : option (string * string)) : Prop :=
  match given (qr_session_id payload) with
  | Some sid =>
      exists uid name run_id r s, who = Some uid /\ _required (VStr uid) = Ok name /\ found = Some (run_id, sid) /\
        runs d !! run_id = Some r /\ rn_session r = sid /\ rn_thread r = thread /\
        rn_user r = name /\ owned_session d sid name = Some s /\ se_status s <> SESSION_DELETED /\
        Some run_id = match given (qr_context_run_id payload) with Some id => Some id | None => se_active_run s end
  | None =>
      given (qr_thread_id payload) = Some thread /\ thread_owned d thread who /\
      match found with
      | Some (run_id, sid) => exists r, runs d !! run_id = Some r /\ rn_thread r = thread /\ rn_session r = sid
      | None => forall run_id r, runs d !! run_id = Some r -> rn_thread r <> thread
      end
  end.

Lemma resolve_grounded e payload who d thread found :
  wf d -> _resolve_qa_thread e payload who d = Reply (thread, found) -> grounded_in payload who d thread found.
Proof.
  intros W. unfold _resolve_qa_thread, grounded_in. destruct (given (qr_session_id payload)) as [sid|].
  - destruct (negb _); [done|]. intros H. rbind H. unfold _owned_session in E. destruct (given who) as [uid|] eqn:Gw; [|done].
    apply given_Some in Gw as [-> _]. apply readable_session_inv in E as (u & Hu & O & L).
    destruct (given (match given (qr_context_run_id payload) with Some id => Some id | None => se_active_run a end)) as [run_id|] eqn:G; [|done].
    apply given_Some in G as [G _]. rbind H. apply plainly_inv in E. destruct a0 as [r|]; [|done].
    apply get_run_inv in E as (u' & Hu' & Hr & Ho). destruct (String.eqb_spec (rn_session r) sid) as [Hs|]; [|done]. injection H as <- <-.
    exists uid, u, run_id, r, a. split_and!; try done. cbn [optional] in Hu'. congruence.
  - destruct (_require_session e); [done|]. destruct (given (qr_thread_id payload)) as [th|]; [|done]. intros H. rbind H. injection H as -> <-.
    apply owned_run_thread in E as [T F]; [|done]. split; [done|]. split; [done|]. destruct a as [[id r]|]; [exists r; tauto|].
    intros id r. by apply run_by_thread_None.
Qed.

(** ** Opening a run *)

(** The context a run records, as the session had it. *)
Record in_context (s : session_row) (r : run_row) : Prop := {
  ic_symbol : exists v, _required (VStr (sk_symbol (se_key s))) = Ok v /\ rk_symbol (rn_key r) = upper v;
  ic_timeframe : _required (VStr (se_timeframe s)) = Ok (rk_timeframe (rn_key r));
  ic_profile : exists v, _required (VStr (sk_profile (se_key s))) = Ok v /\ rk_profile (rn_key r) = upper v;
}.

Lemma create_run_new stamp i j d sid who payload se d' id r :
  create_run stamp i j d sid (VStr who) (run_spec_of payload se) = Ok (d', Some (id, r)) -> _required (VStr who) = Ok who ->
  rn_session r = sid /\ rn_user r = who /\ rn_status r = RUN_RUNNING /\ in_context se r /\
  runs d !! id = None /\ (forall k r', runs d !! k = Some r' -> rn_thread r' <> rn_thread r) /\
  runs d' = <[id := r]> (runs d) /\ messages d' = messages d.
Proof.
  unfold create_run. intros H Hw. rewrite Hw in H. cbn [mbind res_bind] in H. do 3 mbind H.
  destruct (owned_session d sid who) as [s|]; [|done]. case_bool_decide; [done|]. do 5 mbind H. injection H as <- <- <-.
  unfold insert_run in E6. destruct (is_some (runs d !! a0)) eqn:F; [done|]. cbn [orb] in E6. destruct (is_some _) eqn:G in E6; [done|].
  injection E6 as <-. apply is_some_None in F, G. cbn in *. repeat (split; [done|]). split; [split; cbn; eauto|]. split; [done|].
  split; [|by split]. intros k r' Hr' E'. pose proof (head_rows_None _ _ G k r' Hr') as P. cbn in P. rewrite E' in P. by rewrite String.eqb_refl in P.
Qed.

Lemma create_run_sessions stamp i j d sid user_id spec d' out s :
  create_run stamp i j d sid user_id spec = Ok (d', out) -> sessions d !! sid = Some s -> is_Some (sessions d' !! sid).
Proof.
  unfold create_run. intros H Hs. do 4 mbind H. destruct (owned_session d sid _); [|by injection H as <- _].
  case_bool_decide; [by injection H as <- _|]. do 5 mbind H. injection H as <- _. unfold insert_run in E7. destruct (_ || _) in E7; [done|].
  injection E7 as <-. cbn [with_sessions with_runs sessions]. by rewrite lookup_alter_eq, Hs.
Qed.

(** The turn a request records: a new message of the run, or the one an
    earlier try with the same client identifier recorded. *)
Definition turn_recorded (d d' : db) (sid run_id : string) (content client : val) : Prop :=
  exists mid m, messages d' !! mid = Some m /\ ms_session m = sid /\
    ((messages d !! mid = None /\ ms_role m = ROLE_USER /\ ms_status m = MSG_COMPLETE /\
      ms_run m = _text MAX_CONTENT_CHARS (VStr run_id) /\ ms_content m = default ""%string (_text MAX_CONTENT_CHARS content)) \/
     (messages d !! mid = Some m /\ exists cid, _text 200 client = Some cid /\ ms_client m = Some cid)).

Lemma user_message_recorded stamp i d sid kind content run_id client d' out :
  is_Some (sessions d !! sid) -> create_message stamp i d sid (user_message kind content (VStr run_id) client) = Ok (d', out) ->
  runs d' = runs d /\ turn_recorded d d' sid run_id content client.
Proof.
  intros [s Hs]. unfold create_message. cbn [mp_role mp_kind mp_status user_message]. intros H.
  assert (forall k, named_or_raise message_kind_name MESSAGE_KINDS (message_kind_name k) = Ok k) as Hk by by intros [].
  rewrite Hk in H. cbn in H. rewrite Hs in H.
  destruct (match _text 200 client with Some c => message_of_client d sid c | None => None end) as [[mid m]|] eqn:P.
  - injection H as <- _. split; [done|]. destruct (_text 200 client) as [cid|] eqn:C; [|done]. exists mid, m.
    unfold message_of_client in P. destruct (List.filter _ _) as [|x l] eqn:F in P; [done|]. injection P as ->.
    assert (In (mid, m) (List.filter (fun row : string * message_row => opt_is (ms_client row.2) cid) (message_rows d sid))) as I by (rewrite F; by left).
    apply filter_In in I as [I1 I2]. apply rows_where_In in I1 as [I0 I1%String.eqb_eq]. apply opt_is_spec in I2. cbn in I2.
    split; [done|]. split; [done|]. right. split; [done|]. by exists cid.
  - mbind H. mbind H. injection H as <- _. unfold insert_message in E0.
    destruct (_ || _) eqn:F in E0; [done|]. injection E0 as <-. repeat (apply orb_false_iff in F as [F _]). apply is_some_None in F.
    split; [done|]. exists a. eexists. cbn [_touch with_sessions with_messages messages]. rewrite lookup_insert_eq.
    split; [reflexivity|]. split; [done|]. left. split; [exact F|]. done.
Qed.

(** A request that opens a run opens it in the caller's own session, which is not
    deleted; the run is new, so is its thread, its owner is the caller, and the symbol,
    timeframe and profile it records are the session's, whatever the request says.  The
    user's turn is on record before anything runs, and a retried press does not
    record it twice. *)
Theorem run_opens_in_session e t payload who s s' run_id r :
  _required (VStr who) = Ok who -> _open_run_for_request e t payload (Some who) s = (s', Reply (Some (run_id, r))) ->
  exists sid se, given (rr_session_id payload) = Some sid /\ owned_session (sv_db s) sid who = Some se /\ se_status se <> SESSION_DELETED /\
    rn_session r = sid /\ rn_user r = who /\ rn_status r = RUN_RUNNING /\ in_context se r /\
    runs (sv_db s) !! run_id = None /\ (forall k r', runs (sv_db s) !! k = Some r' -> rn_thread r' <> rn_thread r) /\
    runs (sv_db s') = <[run_id := r]> (runs (sv_db s)) /\
    turn_recorded (sv_db s) (sv_db s') sid run_id (VStr (rr_message payload)) (optional (rr_client_msg_id payload)).
Proof.
  intros Hw. unfold _open_run_for_request. destruct (given (rr_session_id payload)) as [sid|]; [|by destruct (_require_session e)].
  destruct (negb _); [done|]. intros H. mstep H. apply reading_Reply in E as [-> E]. unfold _owned_session in E. cbn in E.
  destruct who as [|c who']; [done|]. set (who := String c who') in *. apply readable_session_inv in E as (u & Hu & O & L).
  assert (u = who) as -> by congruence. mstep H. apply transact_Reply in E as (d1 & E & ->). destruct a0 as [[id r0]|]; [|done].
  mstep H. apply transact_Reply in E0 as (d2 & E0 & ->). injection H as <- -> ->. exists sid, a.
  assert (is_Some (sessions d1 !! sid)) as Hd1.
  { pose proof O as [Os _]%owned_session_Some. by eapply create_run_sessions. }
  destruct (create_run_new _ _ _ _ _ _ _ _ _ _ _ E Hw) as (H1 & H2 & H3 & H4 & H5 & H6 & H7 & H8).
  apply user_message_recorded in E0 as [R T]; [|done]. cbn [sv_db with_db]. split_and!; try done.
  - by rewrite R.
  - destruct T as (mid & m & M1 & M2 & M3). exists mid, m. by rewrite <- H8.
Qed.

(** ** Stopping *)

(** The caller's name is the name the store keeps: no character of it is dropped. *)
Definition clean_caller (who : option string) : Prop := forall uid, who = Some uid -> _required (VStr uid) = Ok uid.

Lemma cancel_target_owned e payload who d thread :
  wf d -> clean_caller who -> cancel_target e payload who d = Reply thread -> thread_owned d thread who.
Proof.
  intros W Hc. unfold cancel_target. destruct (given (ca_run_id payload)) as [run_id|].
  - destruct (negb _); [done|]. destruct (given who) as [uid|] eqn:U; [|done]. intros H. rbind H. apply plainly_inv in E. destruct a as [r|]; [|done].
    injection H as <-. apply given_Some in U as U'. destruct U' as [-> _]. apply get_run_inv in E as (u & Hu & Hr & Ho).
    rewrite (Hc uid eq_refl) in Hu. injection Hu as <-. intros id r' Hr' Ht. assert (id = run_id) as -> by (eapply (wf_thread _ W); [done..|congruence]).
    rewrite U. congruence.
  - destruct (given (ca_thread_id payload)) as [th|]; [|done]. intros H. rbind H. injection H as <-. by eapply owned_run_thread.
Qed.

(** Only its owner stops a run.  A cancellation that is accepted marks
    one thread, none of whose runs is anyone else's, and changes nothing of the store; one that is
    refused, or fails, leaves the service as it was. *)
Theorem only_owner_stops c payload s s' r :
  wf (sv_db s) -> (forall who, resolve_user (cl_env c) (cl_identity c) None (cl_now c) = Reply who -> clean_caller who) ->
  cancel_agent c payload s = (s', r) ->
  match r with
  | Reply thread =>
      sv_cancelled s' = {[thread]} ∪ sv_cancelled s /\ sv_db s' = sv_db s /\
      exists who, resolve_user (cl_env c) (cl_identity c) None (cl_now c) = Reply who /\ thread_owned (sv_db s) thread who
  | _ => s' = s
  end.
Proof.
  intros W Hc. unfold cancel_agent. intros H. apply M_bind_inv in H as [(who & s1 & E & H)|[(st & E & ->)|(x & E & ->)]];
    [|by unfold lift in E; injection E as -> _..]. apply lift_Reply in E as [-> E].
  apply M_bind_inv in H as [(thread & s1 & E1 & H)|[(st & E1 & ->)|(x & E1 & ->)]]; [|by unfold reading in E1; injection E1 as -> _..].
  apply reading_Reply in E1 as [-> E1]. cbn in H. injection H as <- <-. cbn. split; [done|]. split; [done|]. exists who. split; [done|].
  eapply cancel_target_owned; [done|by apply Hc|done].
Qed.

(** ** The gate and the log *)

Definition request_row (kind thread : string) (user mode text : option string) : log_row :=
  {| lo_status := None; lo_kind := kind; lo_thread := thread; lo_user := user; lo_mode := mode; lo_text := text |}.
Definition refused_row (kind thread : string) (user mode : option string) (message : string) : log_row :=
  {| lo_status := Some "refused_entitlement"%string; lo_kind := kind; lo_thread := thread; lo_user := user; lo_mode := mode; lo_text := Some message |}.

(** What is served, given the log before and after: the request is on record, a stream passed
    the gate, and a refusal is on record too. *)
Definition on_record (fetch : endpoint) (e : env) (m : moment) (kind : string) (mode : option string) (s s' : server) (sv : served) : Prop :=
  exists thread user logged_mode text,
    match sv with
    | Streamed rq _ _ =>
        rq_thread rq = thread /\ rq_user rq = user /\ rq_kind rq = kind /\
        sv_log s' = sv_log s ++ [request_row kind thread user logged_mode text] /\
        (require_research_entitlement e fetch m user mode (sv_cache s)).1 = None
    | Refusal frame =>
        exists message, (require_research_entitlement e fetch m user mode (sv_cache s)).1 = Some message /\
        frame = _entitlement_refusal_stream message /\
        sv_log s' = sv_log s ++ [request_row kind thread user logged_mode text; refused_row kind thread user mode message]
    end.

Lemma gated_inv fetch e m user mode kind thread stream s s' sv :
  gated fetch e m user mode kind thread stream s = (s', Reply sv) ->
  (exists message c, require_research_entitlement e fetch m user mode (sv_cache s) = (Some message, c) /\
     sv = Refusal (_entitlement_refusal_stream message) /\ sv_db s' = sv_db s /\ sv_log s' = sv_log s ++ [refused_row kind thread user mode message]) \/
  (exists c, require_research_entitlement e fetch m user mode (sv_cache s) = (None, c) /\ stream (with_cache s c) = (s', Reply sv)).
Proof.
  unfold gated. intros H. mstep H. unfold _guard_research in E. destruct (require_research_entitlement e fetch m user mode (sv_cache s)) as [[message|] c] eqn:R.
  - left. exists message, c. cbn in E. injection E as <- <-. cbn in H. by injection H as <- <-.
  - right. exists c. split; [done|]. by injection E as <- <-.
Qed.

(** Nothing before the request's row is written to the log or read of the cache. *)
Lemma open_run_logs_nothing e t payload who s s' r :
  _open_run_for_request e t payload who s = (s', Reply r) -> sv_log s' = sv_log s /\ sv_cache s' = sv_cache s.
Proof.
  unfold _open_run_for_request. destruct (given (rr_session_id payload)) as [sid|].
  - destruct (negb _); [done|]. intros H. mstep H. apply reading_Reply in E as [-> _]. mstep H. apply transact_Reply in E as (d & _ & ->).
    destruct a0 as [[id run]|]; [|done]. mstep H. apply transact_Reply in E as (d' & _ & ->). by injection H as <- _.
  - destruct (_require_session e); [done|]. by intros [= <- _].
Qed.

Lemma gated_on_record fetch e m user mode kind thread logged_mode text rq input resumed s0 s s' sv :
  gated fetch e m user mode kind thread (mret (Streamed rq input resumed)) s = (s', Reply sv) ->
  rq_thread rq = thread -> rq_user rq = user -> rq_kind rq = kind ->
  sv_log s = sv_log s0 ++ [request_row kind thread user logged_mode text] -> sv_cache s = sv_cache s0 ->
  on_record fetch e m kind mode s0 s' sv.
Proof.
  intros H Ht Hu Hk Hl Hc. exists thread, user, logged_mode, text. apply gated_inv in H as [(message & c & R & -> & _ & L)|(c & R & H)]; rewrite Hc in R.
  - exists message. rewrite R, L, Hl. split; [done|]. split; [done|]. by rewrite <- app_assoc.
  - injection H as <- <-. rewrite R. by split_and!.
Qed.

(** What a run or a question is served was logged first and passed the gate: the
    request's row is the one row added for a stream, whose user the gate let
    through, and a request the gate refuses gets one frame that says so and two rows. *)
Theorem served_is_on_record fetch c t s s' sv :
  (forall payload, run_agent fetch c t payload s = (s', Reply sv) ->
     on_record fetch (cl_env c) (ti_gate t) "run" (rr_mode payload) s s' sv) /\
  (forall payload, qa_agent fetch c t payload s = (s', Reply sv) ->
     on_record fetch (cl_env c) (ti_gate t) "qa" (Some "QA"%string) s s' sv).
Proof.
  split; intros payload H.
  - unfold run_agent in H. mstep H. apply lift_Reply in E as [-> _]. mstep H. apply open_run_logs_nothing in E as [L C].
    destruct (given _) as [thread|] in H; [|done]. mstep H. injection E as <- <-.
    eapply gated_on_record; [exact H|done|done|done|cbn; by rewrite L|by cbn].
  - unfold qa_agent in H. mstep H. apply lift_Reply in E as [-> _]. mstep H. apply reading_Reply in E as [-> _]. destruct a0 as [thread found].
    mstep H. assert (sv_log s0 = sv_log s /\ sv_cache s0 = sv_cache s) as [L C].
    { destruct found as [[run_id sid]|]; [|by injection E as <- _]. destruct (_ && _); [|by injection E as <- _].
      unfold tolerated in E. destruct (create_message _ _ _ _ _) as [[d out]|x]; by injection E as <- _. }
    mstep H. injection E0 as <- <-. eapply gated_on_record; [exact H|done|done|done|cbn; by rewrite L|by cbn].
Qed.

(** ** Questions answered *)

(** C8: A question that is answered is grounded in the caller's own work, in a
    well-formed store.  The stream [qa_agent] starts is for the caller it resolved.  One
    that names a session is answered from a run of that session: the run it names, or
    else the session's active run; the session is not deleted, and both it and the run
    belong to the caller's name as the store reads it, which drops NUL characters and cuts
    very long names (a recorded finding: such a caller reads the sessions of the shorter
    name).  One that names a thread only is answered from that thread: no run of the
    thread is anyone else's, and it is recorded under a run of the thread when there is
    one. *)
Theorem question_grounded_in_own_run fetch c t payload s s' rq input resumed :
  wf (sv_db s) -> qa_agent fetch c t payload s = (s', Reply (Streamed rq input resumed)) ->
  resolve_user (cl_env c) (cl_identity c) (qr_user_id payload) (cl_now c) = Reply (rq_user rq) /\ rq_kind rq = "qa"%string /\
  exists found, rq_run rq = fst <$> found /\ rq_session rq = snd <$> found /\
    grounded_in payload (rq_user rq) (sv_db s) (rq_thread rq) found.
Proof.
  intros W H. unfold qa_agent in H. mstep H. apply lift_Reply in E as [-> E]. mstep H. apply reading_Reply in E0 as [-> E0].
  destruct a0 as [thread found]. mstep H. mstep H.
  apply gated_inv in H as [(message & cc & _ & [=] & _)|(cc & _ & H)]. injection H as _ <- <- <-.
  split; [done|]. split; [done|]. exists found. split; [done|]. split; [done|]. by eapply resolve_grounded.
Qed.

(** ** Whose stream *)

(** The run a stream is recorded under is of the thread and the session that are streamed,
    and belongs to the user it is streamed to. *)
Definition own_stream (d : db) (sv : served) : Prop :=
  match sv with
  | Streamed rq _ _ =>
      forall id, rq_run rq = Some id ->
      exists r, runs d !! id = Some r /\ rn_thread r = rq_thread rq /\ rq_session rq = Some (rn_session r) /\ given (rq_user rq) = Some (rn_user r)
  | Refusal _ => True
  end.

Lemma gated_own_stream fetch e m user mode kind thread rq input resumed s s' sv :
  gated fetch e m user mode kind thread (mret (Streamed rq input resumed)) s = (s', Reply sv) ->
  own_stream (sv_db s) (Streamed rq input resumed) -> own_stream (sv_db s') sv.
Proof.
  intros H O. apply gated_inv in H as [(message & c & _ & -> & _)|(c & _ & H)]; [done|]. by injection H as <- <-.
Qed.

Lemma tolerated_runs stamp i d sid spec s s' a :
  tolerated (fun d => create_message stamp i d sid spec) s = (s', Reply a) -> sv_db s = d -> runs (sv_db s') = runs d.
Proof.
  unfold tolerated. intros H <-. destruct (create_message stamp i (sv_db s) sid spec) as [[d out]|x] eqn:E; injection H as <- _; [|done]. cbn.
  unfold create_message in E. do 3 mbind E. destruct (_ && _); [done|]. destruct (sessions (sv_db s) !! sid); [|by injection E as <- _].
  destruct (match _text 200 (mp_client spec) with Some c => _ | None => None end) as [prior|]; [by injection E as <- _|].
  do 3 mbind E. injection E as <- _. unfold insert_message in E5. destruct (_ || _) in E5; [done|]. by injection E5 as <-.
Qed.

Lemma owner_named d id r : wf d -> runs d !! id = Some r -> given (Some (rn_user r)) = Some (rn_user r).
Proof.
  intros W Hr. destruct (wf_owner _ W _ _ Hr) as (s & Hs & <-). apply (wf_session _ W) in Hs. unfold session_ok in Hs.
  rewrite !andb_true_iff in Hs. destruct Hs as ((((H & _) & _) & _) & _). unfold given. by destruct (se_user s).
Qed.

(** For callers whose name the store reads as it is, a stream recorded under a run
    carries that run's owner as its user and the run's thread: when a run is opened, when
    a question is asked, by session or by thread, and when the watcher resumes a run
    whoever it says the user is. *)
Theorem streams_go_to_the_owner fetch pending c t service s s' sv :
  wf (sv_db s) ->
  (forall body who, resolve_user (cl_env c) (cl_identity c) body (cl_now c) = Reply who -> clean_caller who) ->
  (forall payload, run_agent fetch c t payload s = (s', Reply sv) -> own_stream (sv_db s') sv) /\
  (forall payload, qa_agent fetch c t payload s = (s', Reply sv) -> own_stream (sv_db s') sv) /\
  (forall m payload, resume_agent fetch pending c service m payload s = (s', Reply sv) -> own_stream (sv_db s') sv).
Proof.
  intros W Hc. split_and!.
  - intros payload H. unfold run_agent in H. mstep H. apply lift_Reply in E as [-> E]. mstep H.
    destruct (given _) as [thread|] eqn:G in H; [|done]. mstep H. injection E1 as <- <-. eapply gated_own_stream; [exact H|]. cbn.
    destruct a0 as [[id0 r]|]; cbn; [|done]. intros id [= <-].
    assert (exists who, a = Some who /\ nonempty who = true) as (who & -> & Hn).
    { unfold _open_run_for_request in E0. destruct (given (rr_session_id payload)); [|by destruct (_require_session _)]. destruct (negb _); [done|].
      mstep E0. apply reading_Reply in E1 as [_ E1]. unfold _owned_session in E1. destruct (given a) eqn:Ga; [|done].
      apply given_Some in Ga as [-> ?]. eauto. }
    apply run_opens_in_session in E0 as (sid & se & _ & _ & _ & H1 & H2 & _ & _ & _ & _ & H3 & _); [|by eapply Hc].
    exists r. rewrite H3, lookup_insert_eq. change (given (Some (rn_thread r)) = Some thread) in G.
    apply given_Some in G as [[= <-] _]. subst who. split; [done|]. split; [done|]. split; [done|].
    unfold given. by destruct (rn_user r).
  - intros payload H. unfold qa_agent in H. mstep H. apply lift_Reply in E as [-> E]. mstep H. apply reading_Reply in E0 as [-> E0].
    destruct a0 as [thread found]. mstep H. mstep H. injection E2 as <- <-. eapply gated_own_stream; [exact H|]. cbn.
    destruct found as [[run_id sid]|]; cbn; [|done]. intros id [= <-].
    assert (runs (sv_db s0) = runs (sv_db s)) as R.
    { destruct (_ && _); [by eapply tolerated_runs|by injection E1 as <- _]. }
    cbn. rewrite R. clear H R E1. revert E0. unfold _resolve_qa_thread. destruct (given (qr_session_id payload)) as [sid'|].
    + destruct (negb _); [done|]. intros H. rbind H. unfold _owned_session in E0. destruct (given a) as [who|] eqn:Ga; [|done].
      destruct (given _) as [rid|] in H; [|done]. rbind H. apply plainly_inv in E1. destruct a2 as [r|]; [|done].
      destruct (String.eqb_spec (rn_session r) sid'); [|done]. injection H as <- <- <-. apply given_Some in Ga as Ga'. destruct Ga' as [-> _].
      apply get_run_inv in E1 as (u & Hu & Hr & Ho). pose proof (Hc _ _ E who eq_refl) as Hw. rewrite Hw in Hu. injection Hu as <-.
      exists r. split; [done|]. split; [done|]. split; [congruence|]. transitivity (given (Some who)); [done|]. rewrite Ga. congruence.
    + destruct (_require_session _); [done|]. destruct (given (qr_thread_id payload)) as [th|]; [|done]. intros H. rbind H.
      apply owned_run_thread in E0 as [T F]; [|done]. injection H as -> H. destruct a1 as [[id r]|]; [|done]. injection H as <- <-.
      destruct F as [Hr Ht]. exists r. split; [done|]. split; [done|]. split; [done|]. by eapply T.
  - intros m payload H. unfold resume_agent in H. mstep H. apply lift_Reply in E as [-> E]. mstep H. apply reading_Reply in E0 as [-> E0]. mstep H. injection E1 as <- <-.
    apply gated_inv in H as [(message & cc & _ & -> & _)|(cc & _ & H)]; [done|]. mstep H. apply lift_Reply in E1 as [-> _]. injection H as <- <-. cbn.
    intros id. destruct (_sessions_active (cl_env c)); [|by injection E0 as <-]. injection E0 as <-.
    destruct (get_run_by_thread (sv_db s) (re_thread_id payload)) as [[id0 r]|] eqn:G; [|done]. cbn. intros [= <-].
    apply run_by_thread_Some in G as [Hr Ht]. exists r. split; [done|]. split; [done|]. split; [done|]. by eapply owner_named.
Qed.

(** ** The fan-out hub *)

Lemma subscribers_insert th subs h th' :
  subscribers (<[th := subs]> h) th' = if String.eqb th' th then subs else subscribers h th'.
Proof.
  unfold subscribers, hub in *. destruct (String.eqb_spec th' th) as [->|]; [by rewrite lookup_insert_eq|by rewrite lookup_insert_ne].
Qed.

Lemma publish_subscribers th frame h th' :
  subscribers (_publish_frame th frame h) th' = if String.eqb th' th then put_nowait frame <$> subscribers h th' else subscribers h th'.
Proof.
  unfold _publish_frame. destruct (h !! th) as [subs|] eqn:E.
  - rewrite subscribers_insert. destruct (String.eqb_spec th' th) as [->|]; [|done]. unfold subscribers. by rewrite E.
  - destruct (String.eqb_spec th' th) as [->|]; [|done]. unfold subscribers. rewrite E. cbn. by rewrite fmap_empty.
Qed.

Lemma unsubscribe_subscribers th rd h th' :
  subscribers (unsubscribe th rd h) th' = if String.eqb th' th then delete rd (subscribers h th') else subscribers h th'.
Proof.
  unfold unsubscribe. case_bool_decide as E.
  - unfold subscribers, hub in *. destruct (String.eqb_spec th' th) as [->|]; [|by rewrite lookup_delete_ne]. by rewrite lookup_delete_eq, E.
  - rewrite subscribers_insert. by destruct (String.eqb_spec th' th) as [->|].
Qed.

(** What happens to the hub, in any interleaving. *)
Inductive hub_op := Publish (thread_id frame : string) | Attach (thread_id : string) (reader : nat)
  | Take (thread_id : string) (reader : nat) | Leave (thread_id : string) (reader : nat).

Definition hub_exec (o : hub_op) (h : hub) : hub :=
  match o with
  | Publish th f => _publish_frame th f h
  | Attach th rd => subscribe th rd h
  | Take th rd => (take_frame th rd h).2
  | Leave th rd => unsubscribe th rd h
  end.

Section reader.
Context (thread : string) (reader : nat).

Definition is_reader (th : string) (rd : nat) : bool := String.eqb th thread && Nat.eqb rd reader.

(** The reader neither leaves nor attaches anew. *)
Definition stays (o : hub_op) : bool :=
  match o with Attach th rd | Leave th rd => negb (is_reader th rd) | _ => true end.

Definition queue_of (h : hub) : option (list string) := subscribers h thread !! reader.

(** What the reader was sent, what its thread published, and whether its queue was ever
    full then. *)
Record seen := { sn_sent : list string; sn_published : list string; sn_missed : bool }.

Definition watch (o : hub_op) (h : hub) (w : seen) : seen :=
  match o with
  | Publish th f =>
      if String.eqb th thread then
        {| sn_sent := sn_sent w; sn_published := sn_published w ++ [f];
           sn_missed := sn_missed w || negb (length (default [] (queue_of h)) <? QUEUE_SIZE)%nat |}
      else w
  | Take th rd =>
      if is_reader th rd then
        match (take_frame th rd h).1 with
        | Some f => {| sn_sent := sn_sent w ++ [f]; sn_published := sn_published w; sn_missed := sn_missed w |}
        | None => w
        end
      else w
  | _ => w
  end.

Fixpoint watch_all (ops : list hub_op) (h : hub) (w : seen) : hub * seen :=
  match ops with [] => (h, w) | o :: ops => watch_all ops (hub_exec o h) (watch o h w) end.

Definition in_step (h : hub) (w : seen) : Prop :=
  exists queue, queue_of h = Some queue /\ (length queue <= QUEUE_SIZE)%nat /\ (sn_sent w ++ queue) `sublist_of` sn_published w /\
    (sn_missed w = false -> sn_sent w ++ queue = sn_published w).

Lemma queue_other o h :
  stays o = true -> match o with Publish th _ => th <> thread | Take th rd => is_reader th rd = false | _ => True end ->
  queue_of (hub_exec o h) = queue_of h.
Proof.
  unfold queue_of, is_reader. destruct o as [th f|th rd|th rd|th rd]; cbn [hub_exec stays]; unfold is_reader; intros S N.
  - rewrite publish_subscribers. destruct (String.eqb_spec thread th); [congruence|done].
  - unfold subscribe. rewrite subscribers_insert. destruct (String.eqb_spec thread th) as [<-|]; [|done]. rewrite String.eqb_refl in S.
    destruct (Nat.eqb_spec rd reader); [done|]. by rewrite lookup_insert_ne.
  - unfold take_frame. destruct (subscribers h th !! rd) as [[|f q]|] eqn:E; cbn [snd]; [done| |done]. rewrite subscribers_insert.
    destruct (String.eqb_spec thread th) as [<-|]; [|done]. rewrite String.eqb_refl in N. destruct (Nat.eqb_spec rd reader); [done|].
    by rewrite lookup_insert_ne.
  - rewrite unsubscribe_subscribers. destruct (String.eqb_spec thread th) as [<-|]; [|done]. rewrite String.eqb_refl in S.
    destruct (Nat.eqb_spec rd reader); [done|]. by rewrite lookup_delete_ne.
Qed.

Lemma watch_step o h w : stays o = true -> in_step h w -> in_step (hub_exec o h) (watch o h w).
Proof.
  intros S (queue & Q & L & Sub & Eq). destruct o as [th f|th rd|th rd|th rd].
  - cbn [watch]. destruct (String.eqb_spec th thread) as [->|N]; [|exists queue; by rewrite queue_other].
    exists (put_nowait f queue). cbn [hub_exec sn_sent sn_published sn_missed]. rewrite Q. cbn [default from_option id].
    assert (queue_of (_publish_frame thread f h) = Some (put_nowait f queue)) as ->.
    { unfold queue_of. rewrite publish_subscribers, String.eqb_refl, lookup_fmap. unfold queue_of in Q. by rewrite Q. }
    split; [done|]. unfold put_nowait. destruct (Nat.ltb_spec (length queue) QUEUE_SIZE) as [B|B]; cbn [negb].
    + rewrite length_app, app_assoc. cbn. split; [lia|]. split; [by apply sublist_app|]. rewrite orb_false_r. intros M. by rewrite (Eq M).
    + split; [done|]. split; [by apply sublist_inserts_r|]. by rewrite orb_true_r.
  - exists queue. by rewrite queue_other.
  - cbn [watch]. destruct (is_reader th rd) eqn:R; [|exists queue; by rewrite queue_other].
    unfold is_reader in R. apply andb_prop in R as [->%String.eqb_eq ->%Nat.eqb_eq]. cbn [hub_exec]. unfold take_frame, queue_of in *. rewrite Q.
    destruct queue as [|f queue]; cbn [fst snd]; [by exists []|]. exists queue. cbn [sn_sent sn_published sn_missed].
    unfold queue_of. rewrite subscribers_insert, String.eqb_refl, lookup_insert_eq. cbn [length] in L. rewrite <- app_assoc. cbn.
    split; [done|]. split; [lia|]. by split.
  - exists queue. by rewrite queue_other.
Qed.

Lemma watch_steps ops h w :
  Forall (fun o => stays o = true) ops -> in_step h w -> in_step (watch_all ops h w).1 (watch_all ops h w).2.
Proof.
  revert h w. induction ops as [|o ops IH]; intros h w F I; [done|]. apply Forall_cons in F as [S F]. cbn [watch_all]. by apply IH, watch_step.
Qed.

(** C21: a reader attached to a thread is sent that thread's frames in the order they are
    published, whatever else happens to the hub in between: what it was sent with
    what waits in its queue is a part of what was published since it attached, in order, and
    all of it unless its queue was full at some frame; the queue never holds more than
    256 frames, and other threads' frames never reach it. *)
Theorem reader_sent_in_order ops h :
  Forall (fun o => stays o = true) ops ->
  let '(h', w) := watch_all ops (subscribe thread reader h) {| sn_sent := []; sn_published := []; sn_missed := false |} in
  exists queue, queue_of h' = Some queue /\ (length queue <= QUEUE_SIZE)%nat /\ (sn_sent w ++ queue) `sublist_of` sn_published w /\
    (sn_missed w = false -> sn_sent w ++ queue = sn_published w).
Proof.
  intros F. destruct (watch_all ops _ _) as [h' w] eqn:E. pose proof (watch_steps ops (subscribe thread reader h)
    {| sn_sent := []; sn_published := []; sn_missed := false |} F) as I. rewrite E in I. apply I. exists [].
  unfold queue_of, subscribe. rewrite subscribers_insert, String.eqb_refl, lookup_insert_eq. cbn. split; [done|]. split; [lia|]. by split.
Qed.
End reader.

(** ** A service with two users *)

(** The deployment with every part on. *)
Definition service_env : env := fun name =>
  if str_in name ["DEEP_QUANT_SESSIONS_ENABLED"; "DEEP_QUANT_PERSIST_STREAM"; "SKU_ENFORCE"]%string then Some "1"%string else demo_env true name.

Definition service_call : call := {| cl_env := service_env; cl_identity := Some demo_signed; cl_now := 1700000080 |}.

(** The endpoint that grants the visitor research, or nobody. *)
Definition granted (to_visitor : bool) : endpoint := fun url _ =>
  if to_visitor && String.eqb url "https://api-web.stratai.live/api/v1/internal/entitlement/user_abc123"
  then Some (200, Ok (VDict [(VStr "data", VDict [(VStr "sku", VStr "research")])])) else Some (404, Raise ValueError).

Definition idle_service : server := {| sv_db := shared_store; sv_cache := ∅; sv_log := []; sv_cancelled := ∅ |}.

Definition demo_ticks : ticks :=
  {| ti_run := 1700000100; ti_run_draw := demo_draw 21; ti_thread_draw := demo_draw 22; ti_message := 1700000101;
     ti_message_draw := demo_draw 23; ti_gate := {| mo_cached := 1700000102; mo_stored := 1700000103 |} |}.

Definition press (session thread : option string) : run_request :=
  {| rr_thread_id := thread; rr_session_id := session; rr_client_msg_id := Some "press-1"%string; rr_message := "Analyse TCS";
     rr_mode := Some "FIND"%string; rr_symbol := Some "RELIANCE"%string; rr_user_id := Some "mallory"%string; rr_manual_trade := None;
     rr_timeframe := Some "1d"%string; rr_profile := Some "SWING"%string; rr_fno_expiry := None; rr_model := None |}.

Definition ask (session thread context : option string) : qa_request :=
  {| qr_thread_id := thread; qr_session_id := session; qr_context_run_id := context; qr_client_msg_id := None; qr_question := "Why that stop?";
     qr_model := None; qr_user_id := None |}.

Definition visitor_run : string := Eval vm_compute in demo_id "run" 12.
Definition visitor_thread : string := Eval vm_compute in demo_id "thread" 14.
Definition new_run : string := Eval vm_compute in demo_id "run" 21.

(** A pressed run, a question and a cancellation of the visitor, and what Ana's thread answers. *)
Example demo_service :
  let ran := run_agent (granted true) service_call demo_ticks (press (Some visitor_session) None) idle_service in
  (match ran.2 with Reply (Streamed rq _ _) => (rq_run rq, rq_user rq) | _ => (None, None) end,
   (fun r => (rk_symbol (rn_key r), rk_timeframe (rn_key r))) <$> runs (sv_db ran.1) !! new_run, length (sv_log ran.1),
   _resolve_qa_thread service_env (ask (Some visitor_session) None None) (Some VECTOR_SUB) shared_store,
   _resolve_qa_thread service_env (ask (Some visitor_session) None (Some demo_run)) (Some VECTOR_SUB) shared_store,
   _resolve_qa_thread service_env (ask None (Some "thread-1") None) (Some VECTOR_SUB) shared_store,
   (cancel_agent service_call {| ca_thread_id := Some "thread-1"; ca_run_id := None |} idle_service).2,
   (cancel_agent service_call {| ca_thread_id := None; ca_run_id := Some visitor_run |} idle_service).2)%string
  = ((Some new_run, Some VECTOR_SUB), Some ("TCS", "5m"), 1%nat, Reply (visitor_thread, Some (visitor_run, visitor_session)),
     Refused 422, Refused 404, Refused 404, Reply visitor_thread)%string.
Proof. vm_compute. reflexivity. Qed.

Lemma visitor_clean : _required (VStr VECTOR_SUB) = Ok VECTOR_SUB.
Proof. vm_compute. reflexivity. Qed.

Lemma visitor_resolved body who : resolve_user service_env (Some demo_signed) body 1700000080 = Reply who -> clean_caller who.
Proof.
  assert (resolve_user service_env (Some demo_signed) body 1700000080 = Reply (Some VECTOR_SUB)) as -> by (by vm_compute).
  intros [= <-] uid [= <-]. apply visitor_clean.
Qed.

(** The visitor's question about its session, and the run it is answered from. *)
Definition asked_question : qa_request := ask (Some visitor_session) None None.

Definition answered_question : request :=
  Eval vm_compute in match (qa_agent (granted true) service_call demo_ticks asked_question idle_service).2 with
                     | Reply (Streamed rq _ _) => rq
                     | _ => {| rq_thread := ""; rq_kind := ""; rq_user := None; rq_run := None; rq_session := None |}
                     end.

Lemma question_grounded_in_own_run_witness :
  exists s' input resumed,
    qa_agent (granted true) service_call demo_ticks asked_question idle_service
      = (s', Reply (Streamed answered_question input resumed)) /\
    exists run_id r, rq_run answered_question = Some run_id /\ runs shared_store !! run_id = Some r /\
      rn_session r = visitor_session /\ rn_user r = VECTOR_SUB.
Proof.
  do 3 eexists. split; [by vm_compute|].
  destruct (question_grounded_in_own_run (granted true) service_call demo_ticks asked_question idle_service
              (qa_agent (granted true) service_call demo_ticks asked_question idle_service).1 answered_question
              (match (qa_agent (granted true) service_call demo_ticks asked_question idle_service).2 with
               | Reply (Streamed _ input _) => input | _ => VNone end) false shared_wf ltac:(by vm_compute))
    as (_ & _ & found & Hr & _ & uid & name & run_id & r & se & Hu & Hn & -> & Hrun & Hs & _ & Ho & _).
  exists run_id, r. split; [exact Hr|]. split; [exact Hrun|]. split; [exact Hs|].
  assert (uid = VECTOR_SUB) as -> by (by injection Hu as <-). rewrite visitor_clean in Hn. injection Hn as <-. exact Ho.
Defined.

(** A caller whose name is the visitor's with a NUL at its end is another user for
    [resolve_user], and is answered from the visitor's run. *)
Example nul_name_reads_another :
  let spoof := (VECTOR_SUB ++ String (byte_of 0) "")%string in
  spoof <> VECTOR_SUB /\
  resolve_user (fun _ => None) None (Some spoof) 0 = Reply (Some spoof) /\
  _resolve_qa_thread service_env asked_question (Some spoof) shared_store
    = Reply (visitor_thread, Some (visitor_run, visitor_session)).
Proof. split; [by vm_compute|]. split; by vm_compute. Qed.

Definition opened : server * reply (option (string * run_row)) :=
  _open_run_for_request service_env demo_ticks (press (Some visitor_session) None) (Some VECTOR_SUB) idle_service.

Lemma run_opens_in_session_witness :
  (match opened.2 with Reply (Some _) => true | _ => false end) = true /\
  forall s' run_id r, opened = (s', Reply (Some (run_id, r))) ->
  exists sid se, given (Some visitor_session) = Some sid /\ owned_session shared_store sid VECTOR_SUB = Some se /\ se_status se <> SESSION_DELETED /\
    rn_session r = sid /\ rn_user r = VECTOR_SUB /\ rn_status r = RUN_RUNNING /\ in_context se r /\
    runs shared_store !! run_id = None /\ (forall k r', runs shared_store !! k = Some r' -> rn_thread r' <> rn_thread r) /\
    runs (sv_db s') = <[run_id := r]> (runs shared_store) /\
    turn_recorded shared_store (sv_db s') sid run_id (VStr "Analyse TCS") (VStr "press-1").
Proof.
  split; [by vm_compute|]. intros s' run_id r.
  exact (run_opens_in_session service_env demo_ticks (press (Some visitor_session) None) VECTOR_SUB idle_service s' run_id r visitor_clean).
Defined.

Definition stop_request : cancel_request := {| ca_thread_id := None; ca_run_id := Some visitor_run |}.

Lemma only_owner_stops_witness :
  match (cancel_agent service_call stop_request idle_service).2 with Reply thread => String.eqb thread visitor_thread | _ => false end = true /\
  forall s' thread, cancel_agent service_call stop_request idle_service = (s', Reply thread) ->
    sv_cancelled s' = {[thread]} ∪ sv_cancelled idle_service /\ sv_db s' = sv_db idle_service /\
    exists who, resolve_user (cl_env service_call) (cl_identity service_call) None (cl_now service_call) = Reply who /\
      thread_owned (sv_db idle_service) thread who.
Proof.
  split; [by vm_compute|]. intros s' thread.
  exact (only_owner_stops service_call stop_request idle_service s' (Reply thread) shared_wf (visitor_resolved None)).
Defined.

Definition visitor_ran (to_visitor : bool) (payload : run_request) : server * reply served :=
  run_agent (granted to_visitor) service_call demo_ticks payload idle_service.

Lemma served_is_on_record_witness :
  (match (visitor_ran false (press (Some visitor_session) None)).2 with Reply (Refusal _) => true | _ => false end) = true /\
  forall s' sv, visitor_ran false (press (Some visitor_session) None) = (s', Reply sv) ->
    on_record (granted false) service_env (ti_gate demo_ticks) "run" (Some "FIND"%string) idle_service s' sv.
Proof.
  split; [by vm_compute|]. intros s' sv.
  exact (proj1 (served_is_on_record (granted false) service_call demo_ticks idle_service s' sv) (press (Some visitor_session) None)).
Defined.

Lemma streams_go_to_the_owner_witness :
  (match (visitor_ran true (press (Some visitor_session) None)).2 with Reply (Streamed _ _ _) => true | _ => false end) = true /\
  forall s' sv, visitor_ran true (press (Some visitor_session) None) = (s', Reply sv) -> own_stream (sv_db s') sv.
Proof.
  split; [by vm_compute|]. intros s' sv.
  exact (proj1 (streams_go_to_the_owner (granted true) (fun _ => Ok true) service_call demo_ticks None idle_service s' sv shared_wf visitor_resolved)
           (press (Some visitor_session) None)).
Defined.

(** Two frames of the thread, one of another, one taken, another reader come and gone. *)
Lemma reader_sent_in_order_witness :
  exists queue, queue_of "t" 1 (watch_all "t" 1 [Publish "t" "a"; Attach "t" 2; Publish "u" "x"; Take "t" 1; Publish "t" "b"; Leave "t" 2]%string
      (subscribe "t" 1 ∅) {| sn_sent := []; sn_published := []; sn_missed := false |}).1 = Some queue /\ queue = ["b"]%string.
Proof.
  pose proof (reader_sent_in_order "t" 1 [Publish "t" "a"; Attach "t" 2; Publish "u" "x"; Take "t" 1; Publish "t" "b"; Leave "t" 2]%string ∅
                ltac:(by repeat constructor)) as H.
  cbv zeta in H. destruct H as (queue & Q & _). exists queue. split; [exact Q|]. vm_compute in Q. by injection Q as <-.
Defined.

(** ** What the routes let through *)

(** A run is opened before the gate is asked: one that is refused stays running, with the
    user's turn, and the session points at it. *)
Example refused_run_left_running :
  let out := visitor_ran false (press (Some visitor_session) None) in
  (rn_status <$> runs (sv_db out.1) !! new_run, ms_content <$> messages (sv_db out.1) !! demo_id "msg" 23,
   se_active_run <$> sessions (sv_db out.1) !! visitor_session, length (sv_log out.1))
  = (Some RUN_RUNNING, Some "Analyse TCS"%string, Some (Some new_run), 2%nat).
Proof. vm_compute. reflexivity. Qed.

(** A request that names no session is run on whatever thread it names: also on one whose run
    is someone else's, which the other routes would not show it. *)
Example run_on_anothers_thread :
  (match (visitor_ran true (press None (Some "thread-1"%string))).2 with Reply (Streamed rq _ _) => Some (rq_thread rq, rq_user rq) | _ => None end,
   rn_user <$> runs shared_store !! demo_run,
   match stream_thread service_call "thread-1" 0 0 shared_store ∅ with Refused status => Some status | _ => None end)
  = (Some ("thread-1"%string, Some VECTOR_SUB), Some "ana"%string, Some 404).
Proof. vm_compute. reflexivity. Qed.

(** Frames wait in the persister's buffer before they are stored: a reader that attaches meanwhile
    gets them neither from the transcript nor from its queue. *)
Example buffered_frames_are_missed :
  let p := new_persister (Some demo_run) None "run" 1700000004 in
  let '(p, d) := add service_env {| ck_checked := 1700000004; ck_flushed := 0; ck_frames := 0; ck_text := 0; ck_run := 0; ck_message := 0 |}
                   "REASONING" (VDict [(VStr "content", VStr "kept back")]) p demo_store in
  let h := _publish_frame "thread-1" "kept back" ∅ in
  (map fst (sp_buffer p), _replay_frames service_env (Some (demo_run, set_run_status 0 RUN_RUNNING {|
     rn_key := {| rk_session := ""; rk_user := "ana"; rk_thread := "thread-1"; rk_kind := RUN_FIND; rk_symbol := ""; rk_timeframe := "";
                  rk_profile := ""; rk_model := None; rk_manual_trade := None; rk_started := 0 |};
     rn_status := RUN_RUNNING; rn_terminal := None; rn_ended := None; rn_last_event := 0; rn_last_seq := 0 |})) 3 d,
   queue_of "thread-1" 0 (subscribe "thread-1" 0 h))
  = (["REASONING"], [], Some [])%string.
Proof. vm_compute. reflexivity. Qed.
