(* ===== verification/Graph.v ===== *)
(** * The agent graph: state, nodes and routing

    Models the control core of [agents/deep-quant-loop/graph.py]: the state, the
    analysis loop ([call_model], [tool_node] with its gates, [should_continue],
    [route_after_tools]), the forced terminals, the finalize chokepoint, the debate
    sequencing and the Q&A loop, wired as the compiled graph.

    The language model, the tool executor and the clock are inputs of a step.  The
    identifiers a recommendation is stamped with (the user, the model, the prompt
    hashes) are the fields of [provenance].  A node returns the updated state: its messages are
    appended, its other keys overwritten. *)

From stdpp Require Import base list gmap strings.
From Stdlib Require Import ZArith Lia Floats Ascii.
From S2P Require Import Prelude PyFloat PyNum PyVal PyEnv PyJson TradeManager Debate Opportunity JournalTags Journal.
From S2P Require Import Attribution HashChain GraphMessages GraphEvidence GraphRecord.

#[local] Set Warnings "-inexact-float".
Open Scope Z_scope.
Open Scope res_scope.

(** ** State *)

(** What the request fixes. *)
Record run_request := {
  rq_mode : val; rq_symbol : val; rq_timeframe : val; rq_profile : val; rq_manual_trade : val; rq_model : val;
}.

(** The bounded hunt's bookkeeping. *)
Record hunt_state := {
  watch_cycles : Z; session_turns : Z; session_started_at : val; invalidation_count : Z;
  postmortem_pending : bool; prior_thesis : val; heartbeat_count : Z; last_resume_kind : val;
  interim_read : val;
}.

(** The reasoning loop's. *)
Record loop_state := {
  reasoning_turns : Z; market_data_seen : bool; verify_devils_advocate_done : bool; qa_turns : Z;
}.

(** The debate's. *)
Record debate_state := {
  phase : val; debate_turns : Z; debate_round : Z; bull_stance : val; bear_stance : val; debate_verdict : option (string * Z);
}.

Record AgentState := {
  st_request : run_request;
  st_messages : list val;
  st_decision : val;
  st_loop : loop_state;
  st_hunt : hunt_state;
  st_debate : debate_state;
}.

Definition with_messages (st : AgentState) (new : list val) : AgentState :=
  {| st_request := st_request st; st_messages := st_messages st ++ new; st_decision := st_decision st;
     st_loop := st_loop st; st_hunt := st_hunt st; st_debate := st_debate st |}.

Definition with_decision (st : AgentState) (d : val) : AgentState :=
  {| st_request := st_request st; st_messages := st_messages st; st_decision := d;
     st_loop := st_loop st; st_hunt := st_hunt st; st_debate := st_debate st |}.

Definition with_loop (st : AgentState) (l : loop_state) : AgentState :=
  {| st_request := st_request st; st_messages := st_messages st; st_decision := st_decision st;
     st_loop := l; st_hunt := st_hunt st; st_debate := st_debate st |}.

Definition with_hunt (st : AgentState) (h : hunt_state) : AgentState :=
  {| st_request := st_request st; st_messages := st_messages st; st_decision := st_decision st;
     st_loop := st_loop st; st_hunt := h; st_debate := st_debate st |}.

Definition with_debate (st : AgentState) (d : debate_state) : AgentState :=
  {| st_request := st_request st; st_messages := st_messages st; st_decision := st_decision st;
     st_loop := st_loop st; st_hunt := st_hunt st; st_debate := d |}.

Definition with_phase (st : AgentState) (p : string) : AgentState :=
  with_debate st {| phase := VStr p; debate_turns := debate_turns (st_debate st);
                    debate_round := debate_round (st_debate st); bull_stance := bull_stance (st_debate st);
                    bear_stance := bear_stance (st_debate st); debate_verdict := debate_verdict (st_debate st) |}.

(** The keys [opportunity]'s accountants read. *)
Definition hunt_view (st : AgentState) : val :=
  let h := st_hunt st in
  VDict [(VStr "watch_cycles", VInt (watch_cycles h)); (VStr "session_turns", VInt (session_turns h));
         (VStr "session_started_at", session_started_at h); (VStr "heartbeat_count", VInt (heartbeat_count h))].

(** [(mode or "").strip().upper()] *)
Definition mode_name (mode : val) : string := match py_or mode (VStr "") with VStr s => upper (strip s) | _ => EmptyString end.

Definition phase_is (st : AgentState) (p : string) : bool := name_in [p] (phase (st_debate st)).

(** ** Configuration and labels *)

Definition MAX_REASONING_TURNS := 6.
Definition MAX_QA_TURNS := 8.
Definition QA_FORBIDDEN_TOOLS : list string := ["declare_trade"; "watch_price_condition"]%string.
Definition QA_SUBAGENT_TOOLS : list string := ["run_debate"; "rerun_analysis"]%string.
Definition QA_MODE : string := "QA".
Definition DEBATE_MODE : string := "DEBATE".

(** A valid integer of at least one, or the default. *)
Definition resolve_max_reasoning_turns (e : env) : Z :=
  match e "DEEP_QUANT_MAX_REASONING_TURNS"%string with
  | None => MAX_REASONING_TURNS
  | Some raw =>
      if negb (nonempty (strip raw)) then MAX_REASONING_TURNS
      else match parse_int (strip raw) with
           | Ok value => if value <? 1 then MAX_REASONING_TURNS else value
           | Raise _ => MAX_REASONING_TURNS
           end
  end.

(** ** Tool calls of the last message *)

Definition last_message (st : AgentState) : val := default VNone (last (st_messages st)).

Definition kwarg (m : val) (k : string) : val := vget (vattr m "additional_kwargs") k.

(** The id of a tool call. *)
Definition tc_id (tc : val) : string := match vget tc "id" with VStr s => s | _ => EmptyString end.

(** [statuses.get(tc["id"], "ok") == "ok"] *)
Definition call_ok (m tc : val) : bool :=
  match kwarg m "_extraction_status" with
  | VDict statuses =>
      match dict_find (tc_id tc) statuses with Some v => name_in ["ok"]%string v | None => true end
  | _ => true
  end.

Definition ok_calls_of (m : val) : list val := List.filter (call_ok m) (tool_calls m).
Definition failed_calls_of (m : val) : list val := List.filter (fun tc => negb (call_ok m tc)) (tool_calls m).

Definition status_text (s : call_status) : string :=
  match s with
  | SOk => "ok" | SParseFailure => "parse_failure" | SInvalidTool => "invalid_tool" | SQaForbidden => "qa_forbidden"
  end.

Fixpoint set_attr (k : string) (v : val) (attrs : list (string * val)) : list (string * val) :=
  match attrs with
  | [] => [(k, v)]
  | (k', v') :: attrs' => if String.eqb k k' then (k, v) :: attrs' else (k', v') :: set_attr k v attrs'
  end.

Definition setattr (m : val) (k : string) (v : val) : val :=
  match m with VObj attrs shown => VObj (set_attr k v attrs) shown | _ => m end.

(** [{c.id: f(c) for c in calls}] *)
Definition by_id (f : ExtractedCall -> val) (calls : list ExtractedCall) : list (val * val) :=
  fold_left (fun d c => dict_set d (ec_id c) (f c)) calls [].

(** The response with every discovered call attached, and the status and
    synthetic result of each. *)
Definition annotate (response : val) (calls : list ExtractedCall) (status : ExtractedCall -> call_status)
    (synthetic : ExtractedCall -> string) : val :=
  let kwargs := match vattr response "additional_kwargs" with VDict l => l | _ => [] end in
  let failed := List.filter (fun c => negb (bool_decide (status c = SOk))) calls in
  let kwargs := dict_set kwargs "_extraction_status" (VDict (by_id (fun c => VStr (status_text (status c))) calls)) in
  let kwargs := dict_set kwargs "_synthetic_results" (VDict (by_id (fun c => VStr (synthetic c)) failed)) in
  setattr
    (setattr response "tool_calls"
       (VList (map (fun c => call_dict (VStr (ec_name c)) (VStr (ec_id c)) (VDict (default [] (ec_args c)))) calls)))
    "additional_kwargs" (VDict kwargs).

(** ** The finalize chokepoint *)

(** The stores a commit writes to, and the per-thread commit guard. *)
Record world := { w_committed : list (string * val); w_journal : journal; w_reco : table }.

(** The stores after tools ran: they write the journal only. *)
Definition with_journal (w : world) (db : journal) : world :=
  {| w_committed := w_committed w; w_journal := db; w_reco := w_reco w |}.

(** What runs tool calls: the journal they leave ([get_trade_performance] scores the
    open trades) and the messages they answer with, or the exception, an interrupt
    included, they raise. *)
Definition tool_executor : Type := journal -> list val -> res (journal * list val).

(** Where a recommendation came from: the model and prompt identifiers, the user. *)
Record provenance := {
  prompt_identifiers : AgentState -> val * val * val;
  run_user_id : val;
}.

(** What the process is configured with: the opportunity limits, the environment,
    the recommendation store's column types, the default model. *)
Record deployment := {
  d_opportunity : OpportunityConfig;
  d_env : env;
  d_literal_eval : string -> option val;
  d_provenance : provenance;
  d_stored : string -> val -> res val;
  d_model_name : option string;
}.

Fixpoint committed_record (t : string) (l : list (string * val)) : option val :=
  match l with [] => None | (k, v) :: l' => if String.eqb k t then Some v else committed_record t l' end.

Definition str_of (v : val) : string := match v with VStr s => s | _ => EmptyString end.

(** The degraded-data label: the decision and its record name the core tools that
    never resolved. *)
Definition label_degraded (messages : list val) (decision : list (val * val)) : list (val * val) :=
  if _core_acquisition_resolved messages then decision
  else
    let note := ("decision reached on degraded data (core tools unresolved: " ++
                 str_join ", " (unresolved_core_tools messages) ++ ")")%string in
    let decision := dict_set decision "data_degraded" (VBool true) in
    match dict_get decision "defensibility" with
    | VDict record =>
        let record := dict_set record "data_degraded" (VBool true) in
        let record := dict_set record "data_degraded_note" (VStr note) in
        let record :=
          match dict_get record "summary" with
          | VStr summary => dict_set record "summary" (VStr (summary ++ " " ++ note ++ "."))
          | _ => record
          end in
        dict_set decision "defensibility" (VDict record)
    | _ => decision
    end.

Definition _declared_horizon (record : val) : val :=
  match vget (vget record "event") "holding_horizon" with
  | VStr s => if nonempty (strip s) then VStr (strip s) else VNone
  | _ => VNone
  end.

Section graph.
Context (D : deployment).
Abbreviation prov := (d_provenance D).
Abbreviation cfg := (config_obj (d_opportunity D)).

(** The arguments [_record_recommendation] passes on. *)
Definition recommendation_of (st : AgentState) (decision : list (val * val)) (thread_id : val) : res recommendation :=
  let record := match dict_get decision "defensibility" with VDict l => VDict l | _ => VDict [] end in
  let levels := match vget record "levels" with VDict l => VDict l | _ => VDict [] end in
  let level k := num ← _is_num (dict_get decision k); Ok (if num : bool then dict_get decision k else vget levels k) in
  entry ← level "entry"%string; stop ← level "stop_loss"%string; take ← level "take_profit"%string;
  let '(model_id, prompt_hash, prompt_set_hash) := prompt_identifiers prov st in
  Ok {| rc_action := py_or (dict_get decision "action") (VStr "HOLD"); rc_thread_id := thread_id;
        rc_user_id := run_user_id prov; rc_symbol := rq_symbol (st_request st);
        rc_timeframe := rq_timeframe (st_request st); rc_mode := rq_mode (st_request st);
        rc_profile := rq_profile (st_request st); rc_entry := entry; rc_stop_loss := stop; rc_take_profit := take;
        rc_horizon := _declared_horizon record; rc_conviction := dict_get decision "conviction_score";
        rc_risk_reward := vget record "risk_reward"; rc_rationale := record;
        rc_tool_inputs := match st_messages st with
                          | [] => VNone
                          | ms => VDict (_latest_tool_results (d_literal_eval D) ms)
                          end;
        rc_model_id := model_id; rc_prompt_hash := prompt_hash; rc_prompt_set_hash := prompt_set_hash |}.

(** [_record_recommendation], its exceptions swallowed by the caller. *)
Definition _record_recommendation (now : float) (reco : table) (st : AgentState) (decision : list (val * val))
    (thread_id : val) : table :=
  match (a ← recommendation_of st decision thread_id; record (d_stored D) (d_env D) now reco a) with
  | Ok (t, _) => t
  | Raise _ => reco
  end.

(** The tier stamp, the defensibility record and the interim read, of a state. *)
Definition stamp_of (st : AgentState) : list (val * val) -> list (val * val) :=
  _stamp_opportunity_tier (d_literal_eval D) (d_opportunity D) (st_messages st) (rq_mode (st_request st)) (rq_manual_trade (st_request st)).

Definition record_of (st : AgentState) : list (val * val) -> res (list (val * val)) :=
  build_defensibility_record (d_literal_eval D) (st_messages st) (rq_mode (st_request st)) (rq_manual_trade (st_request st))
    (rq_profile (st_request st)).

Definition read_of (st : AgentState) : option val :=
  interim_read_now (d_literal_eval D) (d_opportunity D) (st_messages st) (rq_mode (st_request st)) (rq_manual_trade (st_request st)).

(** The decision as it is committed: stamped, recorded, labelled, weighted. *)
Definition decorate (db : journal) (st : AgentState) (decision : list (val * val)) : res (list (val * val)) :=
  let decision := stamp_of st decision in
  record ← record_of st decision;
  let decision := label_degraded (st_messages st) (dict_set decision "defensibility" (VDict record)) in
  Ok (_apply_weight_map_to_conviction (d_env D) db (rq_symbol (st_request st)) decision).

(** The chokepoint: a thread that has committed gets its first record back and
    writes nothing; building the record is the one part that can raise. *)
Definition _finalize_decision (now : float) (w : world) (st : AgentState) (decision : list (val * val))
    (thread_id : option string) : res (world * list (val * val)) :=
  match (match thread_id with Some t => committed_record t (w_committed w) | None => None end) with
  | Some prior => Ok (w, dict_set decision "defensibility" prior)
  | None =>
      decision ← decorate (w_journal w) st decision;
      let tid := match thread_id with Some t => VStr t | None => VNone end in
      let db := (record_decision (w_journal w) (VDict decision) (rq_symbol (st_request st))
                   (rq_timeframe (st_request st)) (rq_mode (st_request st)) VNone tid now).1 in
      let reco := _record_recommendation now (w_reco w) st decision tid in
      let committed :=
        match thread_id with
        | Some t => (t, dict_get decision "defensibility") :: w_committed w
        | None => w_committed w
        end in
      Ok ({| w_committed := committed; w_journal := db; w_reco := reco |}, decision)
  end.

(** ** The analysis node *)

Definition _is_system_message (m : val) : bool := type_is "system" m || name_in ["system"]%string (vattr m "role").

Definition _should_run_verify_devils_advocate (st : AgentState) (messages : list val) : bool :=
  String.eqb (mode_name (rq_mode (st_request st))) "VERIFY" &&
  negb (verify_devils_advocate_done (st_loop st)) &&
  (market_data_seen (st_loop st) || _market_data_seen messages).

Definition opt_eqb {A} (eqb : A -> A -> bool) (a b : option A) : bool :=
  match a, b with Some x, Some y => eqb x y | None, None => true | _, _ => false end.

(** [==] of two thesis fingerprints. *)
Definition fingerprint_eqb (a b : Fingerprint) : bool :=
  opt_eqb String.eqb (fp_symbol a) (fp_symbol b) && opt_eqb String.eqb (fp_timeframe a) (fp_timeframe b) &&
  opt_eqb String.eqb (fp_direction a) (fp_direction b) && opt_eqb PrimFloat.eqb (fp_level a) (fp_level b).

Definition opt_str (o : option string) : val := match o with Some s => VStr s | None => VNone end.

Definition fingerprint_dict (f : Fingerprint) : val :=
  VDict [(VStr "symbol", opt_str (fp_symbol f)); (VStr "timeframe", opt_str (fp_timeframe f));
         (VStr "direction", opt_str (fp_direction f));
         (VStr "level", match fp_level f with Some x => VFloat x | None => VNone end)].

(** Whether this turn registers a new Watch_Cycle. *)
Definition fresh_watch (messages : list val) (ok_calls : list ExtractedCall) : res bool :=
  match List.filter (fun c => String.eqb (ec_name c) "watch_price_condition") ok_calls with
  | [] => Ok false
  | c :: _ =>
      let proposed := VDict (default [] (ec_args c)) in
      let prior := _latest_watch_args messages in
      if negb (truthy prior) then Ok true
      else
        p ← thesis_fingerprint prior; n ← thesis_fingerprint proposed;
        Ok (negb (fingerprint_eqb p n))
  end.

(** [call_model], on the model's [response]; [advocate] is the devil's-advocate
    message, used when it runs. *)
Definition call_model (now : float) (system_instruction advocate response : val) (st : AgentState) : res AgentState :=
  let has_system := existsb _is_system_message (st_messages st) in
  let messages := if has_system then st_messages st else system_instruction :: st_messages st in
  let run_advocate := _should_run_verify_devils_advocate st messages in
  let messages := if run_advocate then messages ++ [advocate] else messages in
  messages ← prune_messages (VList messages) cfg;
  let messages := compact_tool_payloads messages in
  calls ← extract_tool_calls response;
  let ok_calls := List.filter (fun c => bool_decide (ec_status c = SOk)) calls in
  let response := annotate response calls ec_status _synthetic_failure_content in
  fresh ← fresh_watch messages ok_calls;
  let l := st_loop st in
  let h := st_hunt st in
  let st1 :=
    with_loop st
      {| reasoning_turns := match calls with [] => reasoning_turns l + 1 | _ => 0 end;
         market_data_seen := market_data_seen l || _market_data_seen messages;
         verify_devils_advocate_done := verify_devils_advocate_done l || run_advocate;
         qa_turns := qa_turns l |} in
  let st2 :=
    with_hunt st1
      {| watch_cycles := if (fresh : bool) then watch_cycles h + 1 else watch_cycles h;
         session_turns := session_turns h + 1;
         session_started_at := if is_none (session_started_at h) then VFloat now else session_started_at h;
         invalidation_count := invalidation_count h; postmortem_pending := postmortem_pending h;
         prior_thesis := prior_thesis h; heartbeat_count := heartbeat_count h;
         last_resume_kind := last_resume_kind h; interim_read := interim_read h |} in
  let st3 := with_messages st2 (if run_advocate then [advocate; response] else [response]) in
  Ok (if String.eqb (mode_name (rq_mode (st_request st))) DEBATE_MODE && negb (truthy (phase (st_debate st)))
      then with_phase st3 "research" else st3).
End graph.
