(* ===== verification/GraphNodes.v ===== *)
(** * The agent graph: tool execution and terminal nodes

    [tool_node] with its four gates, and the two forced terminals of
    [agents/deep-quant-loop/graph.py].  The tool executor [_base_tool_node] is the
    argument [run_tools]: from the journal as it stands and a list of calls, the
    journal the tools leave and the messages they return, or the exception (an
    interrupt included) one of them raises.  A node that raises has no result here;
    when a suspended node runs again its executor stands for both attempts. *)

From stdpp Require Import base list gmap strings.
From Stdlib Require Import ZArith Lia Floats Ascii.
From S2P Require Import Prelude PyFloat PyNum PyVal PyEnv PyJson TradeManager Debate Opportunity JournalTags Journal.
From S2P Require Import HashChain GraphMessages GraphEvidence GraphRecord Graph.

Open Scope Z_scope.
Open Scope res_scope.

(** ** Texts the nodes answer with *)

Definition RESEARCH_NOTE : string :=
  "declare_trade suppressed during the research phase: the Research_Phase gathers the shared evidence base only and never commits a trade. The Judge will commit the trade after the Bull/Bear debate weighs this evidence. Stop declaring and conclude your evidence gathering.".

Definition REARM_NOTE : string :=
  "watch_price_condition suppressed: this re-arms the SAME thesis (symbol / timeframe / direction / level) that was just invalidated. Do NOT blindly re-arm the failed setup — change the structure, timeframe, or tier, or stand aside. Re-analyze before proposing a materially different watch.".

Definition DATA_UNAVAILABLE_NOTE : string :=
  "declare_trade not committed: required market data for a directional decision is unavailable (market-data tools were called but failed or returned no usable data). Finalizing HOLD due to the data limitation.".

Definition NO_DATA_NOTE : string :=
  "declare_trade rejected: no market-data tool has returned data yet in this run. You MUST call at least one market-data tool (e.g. get_multi_tf_trend or get_consensus_report) and review its result before declaring a trade. Continue your analysis.".

Definition heartbeat_note (unresolved : list string) : string :=
  ("declare_trade not committed: this stand-aside HOLD was proposed on a heartbeat wake before your core data acquisition finished. Core tools still unresolved: "
   ++ str_join ", " unresolved ++
   ". Finish acquiring these core tools (or confirm each is explicitly unavailable) before committing a terminal HOLD, then re-declare. Continue your analysis.")%string.

(** A HOLD the graph commits itself. *)
Definition hold (reason setup plan source : string) : list (val * val) :=
  [(VStr "action", VStr "HOLD"); (VStr "conviction_score", VInt 0); (VStr "reason", VStr reason);
   (VStr "setup_validation", VStr setup); (VStr "execution_plan", VStr plan); (VStr "source", VStr source)].

Definition data_gating_hold : list (val * val) :=
  hold "directional-data-unavailable"
    "Required market data for a directional decision is unavailable; market-data tools were called but failed or returned no usable data. Holding to preserve capital rather than trade on assumptions."
    "HOLD — no trade taken due to a data limitation." "data_gating".

Definition forced_hold : list (val * val) :=
  hold "no-decision-reached"
    "Reasoning budget exhausted without a validated A+ setup. Holding to preserve capital rather than force a low-conviction trade."
    "HOLD — no trade taken." "forced_hold".

Definition terminal_hold (reason : string) : list (val * val) :=
  hold reason
    ("Bounded hunt exhausted (" ++ reason ++
     ") without a committed A+/tiered setup. Standing aside to preserve capital rather than re-arm another watch.")
    "HOLD — stand aside; bounded hunt reached its Watch_Cap / Session_Budget." "force_terminal".

(** The closing message that reports a decision. *)
Definition report (keys : list string) (decision : list (val * val)) (kwargs : list (val * val)) : res val :=
  text ← dumps dumps_default (VDict (map (fun k => (VStr k, dict_get decision k)) keys));
  Ok (ai_message (VStr text) [] kwargs).

Definition REPORT_KEYS : list string := ["conviction_score"; "setup_validation"; "execution_plan"]%string.

(** ** The gates of [tool_node] *)

Definition is_declare : val -> bool := call_is "declare_trade".
Definition is_watch : val -> bool := call_is "watch_price_condition".

(** The calls held back when a gate is shut, and the calls retained. *)
Definition gate (shut : bool) (p : val -> bool) (calls : list val) : list val * list val :=
  if shut then (List.filter p calls, List.filter (fun tc => negb (p tc)) calls) else ([], calls).

Record gated := {
  g_ok : list val;
  g_research : list val;
  g_blocked : list val;
  g_heartbeat : list val;
  g_rearm : list val;
}.

(** [ToolMessage]s answering [calls] with one note. *)
Definition answers (note name : string) (calls : list val) : list val :=
  map (fun tc => tool_message (VStr note) (vget tc "id") (VStr name)) calls.

(** The synthetic result of a failed call. *)
Definition failed_answer (m tc : val) : val :=
  let fallback := ("Tool-call error: '" ++ py_str (vget tc "name") ++ "' could not be executed.")%string in
  let content :=
    match kwarg m "_synthetic_results" with
    | VDict s => match dict_find (tc_id tc) s with Some v => v | None => VStr fallback end
    | _ => VStr fallback
    end in
  tool_message content (vget tc "id") (py_or (vget tc "name") (VStr "unknown_tool")).

(** How a resumed watch reported back. *)
Inductive resume := Invalidated | Pulse.

Definition resume_kind (m : val) : option resume :=
  if _is_tool_message m && name_in ["watch_price_condition"]%string (vattr m "name") then
    match content_of m with
    | VStr s => if starts_with "Setup INVALIDATED" s then Some Invalidated
                else if starts_with "Heartbeat check" s then Some Pulse else None
    | _ => None
    end
  else None.

(** The first message that reports a resume decides. *)
Definition resume_of (out : list val) : option resume := head (omap resume_kind out).

Section nodes.
Context (D : deployment).
Abbreviation cfg := (config_obj (d_opportunity D)).

Definition termination (now : float) (st : AgentState) : res (option string) :=
  termination_reason (hunt_view st) cfg (VFloat now).

(** A non-directional declaration is held back on a heartbeat wake while core
    data is missing and no cap has fired. *)
Definition heartbeat_gate (now : float) (st : AgentState) : res bool :=
  if name_in ["heartbeat"]%string (last_resume_kind (st_hunt st)) && negb (_core_acquisition_resolved (st_messages st))
  then r ← termination now st; Ok (match r with None => true | Some _ => false end)
  else Ok false.

Definition is_standing_aside (tc : val) : bool := is_declare tc && negb (_declare_is_directional (call_args tc)).

(** A call with its invalidation level moved out to the volatility floor. *)
Definition with_floored_invalidation (tc : val) (atr : val) : res val :=
  let proposed := call_args tc in
  floored ← volatility_floored_invalidation (vget proposed "direction") (vget proposed "price_level")
              (vget proposed "invalidation_level") atr;
  match floored, proposed, tc with
  | Some level, VDict args, VDict call =>
      Ok (VDict (dict_set call "args" (VDict (dict_set args "invalidation_level" (VFloat level)))))
  | _, _, _ => Ok tc
  end.

(** The post-mortem gate over the pending calls: (retained, suppressed). *)
Fixpoint rearm_gate (prior atr : val) (calls : list val) : res (list val * list val) :=
  match calls with
  | [] => Ok ([], [])
  | tc :: calls' =>
      if negb (is_watch tc) then
        r ← rearm_gate prior atr calls'; Ok (tc :: r.1, r.2)
      else
        unchanged ← is_rearm_unchanged prior (call_args tc) atr;
        if unchanged : bool then r ← rearm_gate prior atr calls'; Ok (r.1, tc :: r.2)
        else
          tc' ← with_floored_invalidation tc atr;
          r ← rearm_gate prior atr calls'; Ok (tc' :: r.1, r.2)
  end.

(** The pending [ok] calls, sorted by the gates in the order of the code. *)
Definition gate_calls (now : float) (st : AgentState) : res gated :=
  let '(research, ok) := gate (phase_is st "research") is_declare (ok_calls_of (last_message st)) in
  let '(blocked, ok) := gate (negb (market_data_seen (st_loop st))) is_declare ok in
  shut ← heartbeat_gate now st;
  let '(heartbeat, ok) := gate shut is_standing_aside ok in
  rearm ← (if postmortem_pending (st_hunt st) && truthy (prior_thesis (st_hunt st)) then
             atr ← _latest_atr (_latest_tool_results (d_literal_eval D) (st_messages st));
             rearm_gate (prior_thesis (st_hunt st)) atr ok
           else Ok (ok, []));
  Ok {| g_ok := rearm.1; g_research := research; g_blocked := blocked; g_heartbeat := heartbeat; g_rearm := rearm.2 |}.

(** ** Resume bookkeeping *)

Definition resume_bookkeeping (st : AgentState) (out : list val) : res hunt_state :=
  let h := st_hunt st in
  match resume_of out with
  | None => Ok h
  | Some Invalidated =>
      f ← thesis_fingerprint (_latest_watch_args (st_messages st));
      Ok {| watch_cycles := watch_cycles h + 1; session_turns := session_turns h;
            session_started_at := session_started_at h; invalidation_count := invalidation_count h + 1;
            postmortem_pending := true; prior_thesis := fingerprint_dict f; heartbeat_count := heartbeat_count h;
            last_resume_kind := VStr "invalidation"; interim_read := interim_read h |}
  | Some Pulse =>
      account ← account_heartbeat (hunt_view st) cfg;
      Ok {| watch_cycles := watch_cycles h; session_turns := hb_session_turns account;
            session_started_at := session_started_at h; invalidation_count := invalidation_count h;
            postmortem_pending := postmortem_pending h; prior_thesis := prior_thesis h;
            heartbeat_count := hb_count account; last_resume_kind := VStr "heartbeat";
            interim_read := default (interim_read h) (read_of D st) |}
  end.

(** ** The tool node *)

Context (run_tools : tool_executor).

(** [_base_tool_node.invoke] on the calls, when there are any. *)
Definition execute (w : world) (calls : list val) : res (world * list val) :=
  match calls with
  | [] => Ok (w, [])
  | _ => '(db, out) ← run_tools (w_journal w) calls; Ok (with_journal w db, out)
  end.

(** Commit a decision: the stores are written, the decision becomes the run's. *)
Definition commit (now : float) (w : world) (st : AgentState) (thread_id : option string)
    (decision : list (val * val)) : res (world * list (val * val)) :=
  _finalize_decision D now w st decision thread_id.

Definition tool_node (now : float) (thread_id : option string) (w : world) (st : AgentState) : res (world * AgentState) :=
  let m := last_message st in
  g ← gate_calls now st;
  '(w, executed) ← execute w (g_ok g);
  let out := executed ++ map (failed_answer m) (failed_calls_of m)
             ++ answers REARM_NOTE "watch_price_condition" (g_rearm g) in
  h ← resume_bookkeeping st out;
  let st' out' := with_hunt (with_messages st out') h in
  match g_research g, g_blocked g, g_heartbeat g with
  | _ :: _, _, _ =>
      Ok (w, with_phase (st' (out ++ answers RESEARCH_NOTE "declare_trade" (g_research g))) "debate")
  | [], _ :: _, _ =>
      if _market_data_attempted (st_messages st) then
        let out := out ++ answers DATA_UNAVAILABLE_NOTE "declare_trade" (g_blocked g) in
        '(w', decision) ← commit now w st thread_id data_gating_hold;
        closing ← report REPORT_KEYS decision [];
        Ok (w', with_decision (st' (out ++ [closing])) (VDict decision))
      else Ok (w, st' (out ++ answers NO_DATA_NOTE "declare_trade" (g_blocked g)))
  | [], [], _ :: _ =>
      Ok (w, st' (out ++ answers (heartbeat_note (unresolved_core_tools (st_messages st))) "declare_trade" (g_heartbeat g)))
  | [], [], [] =>
      decision ← _decision_from_declare (g_ok g);
      match decision with
      | Some d =>
          if _declare_was_rejected out then Ok (w, st' out)
          else
            '(w', decision) ← commit now w st thread_id d;
            Ok (w', with_decision (st' out) (VDict decision))
      | None => Ok (w, st' out)
      end
  end.

(** ** Forced terminals *)

(** The parts of the interim read that accompany a forced HOLD. *)
Definition read_bits (read : list (val * val)) : list string :=
  let bias := match dict_get read "bias" with
              | VStr b => if nonempty b then [("directional bias " ++ b)%string] else []
              | _ => []
              end in
  let levels := match dict_get read "levels" with
                | VDict ((_ :: _) as lv) =>
                    [("key reference levels (" ++
                      str_join ", " (map (fun kv => (py_str kv.1 ++ "=" ++ py_str kv.2)%string) lv) ++ ")")%string]
                | _ => []
                end in
  let why := match dict_get read "why_standing_aside" with
             | VStr s => if nonempty (strip s) then [strip s] else []
             | _ => []
             end in
  bias ++ levels ++ why.

(** The forced HOLD's texts, with the interim read folded in. *)
Definition surface_read (decision : list (val * val)) : list (val * val) :=
  match dict_get decision "best_current_read", dict_get decision "setup_validation" with
  | VDict read, VStr setup =>
      match read_bits read with
      | [] => decision
      | bits =>
          let text := ("Best_Current_Read: " ++ str_join "; " bits ++ ".")%string in
          let bias := match dict_get read "bias" with VStr b => if nonempty b then b else "neutral"%string | _ => "neutral"%string end in
          dict_set (dict_set decision "setup_validation" (VStr (setup ++ " " ++ text)))
            "execution_plan"
            (VStr ("HOLD — no trade taken; standing aside with a directional read (" ++ bias ++
                   "). No entry/stop/target committed."))
      end
  | _, _ => decision
  end.

Definition force_hold (now : float) (thread_id : option string) (w : world) (st : AgentState) : res (world * AgentState) :=
  '(w', decision) ← commit now w st thread_id forced_hold;
  let decision := surface_read decision in
  closing ← report (REPORT_KEYS ++ ["best_current_read"%string]) decision [];
  Ok (w', with_decision (with_messages st [closing]) (VDict decision)).

Definition watch_note (reason : string) : string :=
  ("watch_price_condition not registered: the bounded hunt is exhausted (" ++ reason ++
   "). Committing a terminal stand-aside decision with the current best read rather than arming another watch.")%string.

Definition force_terminal (now : float) (thread_id : option string) (w : world) (st : AgentState) : res (world * AgentState) :=
  r ← termination now st;
  let reason := default "bounded-hunt-exhausted"%string r in
  let pending := List.filter is_watch (ok_calls_of (last_message st)) in
  '(w', decision) ← commit now w st thread_id (terminal_hold reason);
  closing ← report REPORT_KEYS decision [];
  Ok (w', with_decision (with_messages st (answers (watch_note reason) "watch_price_condition" pending ++ [closing]))
            (VDict decision)).
End nodes.
