(* ===== verification/GraphDebate.v ===== *)
(** * The agent graph: the debate and the judge

    The Bull and Bear roles, the round sequencing and the Judge's bounded loop of
    [agents/deep-quant-loop/graph.py].  A role's model response is an argument (or
    the exception of a failed invocation); the Judge's model is a function of the
    conversation it is shown. *)

From stdpp Require Import base list gmap strings.
From Stdlib Require Import ZArith Lia Floats Ascii.
From S2P Require Import Prelude PyFloat PyNum PyVal PyEnv PyJson TradeManager Debate Opportunity JournalTags Journal.
From S2P Require Import HashChain GraphMessages Graph GraphNodes.

Open Scope Z_scope.
Open Scope res_scope.

Definition DEBATE_READONLY_EXCLUDED_TOOLS : list string := ["declare_trade"; "watch_price_condition"]%string.

(** ** Bull and Bear *)

Inductive role := RBull | RBear.

Definition role_name (r : role) : string := match r with RBull => "bull" | RBear => "bear" end.

Definition _extract_stance_payload (raw_content : val) : val :=
  match raw_content with
  | VStr s => match _extract_balanced_json s with Some j => VStr j | None => raw_content end
  | _ => raw_content
  end.

(** [getattr(response, "content", "") or ""], nothing when the invocation failed. *)
Definition raw_content_of (response : res val) : val :=
  match response with Ok m => py_or (content_of m) (VStr "") | Raise _ => VNone end.

(** The role-tagged message of a turn that said something. *)
Definition role_message (r : role) (raw_content : val) : list val :=
  match raw_content with
  | VStr s => if nonempty (strip s) then [ai_message raw_content [] [(VStr "role", VStr (role_name r))]] else []
  | _ => []
  end.

Definition _run_debate_role (r : role) (response : res val) (st : AgentState) : res AgentState :=
  let raw := raw_content_of response in
  stance ← parse_stance (VStr (role_name r)) (_extract_stance_payload raw);
  let d := st_debate st in
  let s := stance_to_dict stance in
  Ok (with_debate (with_messages st (role_message r raw))
        {| phase := VStr "debate"; debate_turns := debate_turns d + 1; debate_round := debate_round d;
           bull_stance := match r with RBull => s | RBear => bull_stance d end;
           bear_stance := match r with RBear => s | RBull => bear_stance d end;
           debate_verdict := debate_verdict d |}).

Definition bull_node (response : res val) (st : AgentState) : res AgentState :=
  let d := st_debate st in
  let current_round := debate_turns d / TURNS_PER_ROUND + 1 in
  _run_debate_role RBull response
    (with_debate st {| phase := phase d; debate_turns := debate_turns d; debate_round := current_round;
                       bull_stance := bull_stance d; bear_stance := bear_stance d; debate_verdict := debate_verdict d |}).

Definition bear_node (response : res val) (st : AgentState) : res AgentState := _run_debate_role RBear response st.

Inductive debate_route := ToBull | ToJudge.

Section debate.
Context (D : deployment).
Abbreviation dcfg := (resolve_debate_config (d_env D) (d_model_name D)).

Definition route_debate (st : AgentState) : debate_route :=
  let d := st_debate st in
  let debate_round := if debate_round d =? 0 then 1 else debate_round d in
  if (debate_round <? rounds dcfg) && (debate_turns d <? max_turns dcfg) then ToBull else ToJudge.

(** ** The Judge *)

Context (run_tools : tool_executor).

Definition ok_call (c : ExtractedCall) : bool := bool_decide (ec_status c = SOk).
Definition call_named (name : string) (c : ExtractedCall) : bool := String.eqb (ec_name c) name.
Definition is_readonly (c : ExtractedCall) : bool := negb (str_in (ec_name c) DEBATE_READONLY_EXCLUDED_TOOLS).

Definition dict_of_call (c : ExtractedCall) : val :=
  call_dict (VStr (ec_name c)) (VStr (ec_id c)) (VDict (default [] (ec_args c))).

Definition NOT_FOR_JUDGE_NOTE : string :=
  "watch_price_condition is not available to the Judge: weigh the shared evidence and either declare_trade (BUY/SELL) or declare a HOLD.".

Definition budget_note (budget : Z) : string :=
  ("Judge read-only tool budget exhausted (" ++ Z_str budget ++
   "). Do not gather more data — weigh the existing shared evidence and declare your decision (declare_trade BUY/SELL or HOLD) now.")%string.

(** The response as kept in the history: every discovered call attached, tagged
    with the role. *)
Definition tag_judge (response : val) (calls : list ExtractedCall) : val :=
  let kwargs := match vattr response "additional_kwargs" with VDict l => l | _ => [] end in
  setattr (setattr response "tool_calls" (VList (map dict_of_call calls)))
    "additional_kwargs" (VDict (dict_set kwargs "role" (VStr "judge"))).

Definition failed_note (c : ExtractedCall) : val :=
  tool_message (VStr (_synthetic_failure_content c)) (VStr (ec_id c))
    (VStr (if nonempty (ec_name c) then ec_name c else "unknown_tool")).

(** The read-only calls of a turn, executed while the budget lasts: the journal they
    leave, the answers and the calls used. *)
Fixpoint clarify (budget used : Z) (db : journal) (calls : list ExtractedCall) : res (journal * (list val * Z)) :=
  match calls with
  | [] => Ok (db, ([], used))
  | c :: calls' =>
      if budget <=? used then
        '(db, (out, used)) ← clarify budget used db calls';
        Ok (db, (tool_message (VStr (budget_note budget)) (VStr (ec_id c)) (VStr (ec_name c)) :: out, used))
      else
        '(db, answered) ← run_tools db [dict_of_call c];
        '(db, (out, used)) ← clarify budget (used + 1) db calls';
        Ok (db, (answered ++ out, used))
  end.

(** One pass of the Judge's loop: the journal its tools leave, the messages it adds,
    and how it goes on. *)
Inductive verdict := Committed (d : list (val * val)) | Stop | Again (used : Z).

Definition judge_turn (budget used : Z) (db : journal) (response : val) : res (journal * (list val * verdict)) :=
  calls ← extract_tool_calls response;
  let ok_calls := List.filter ok_call calls in
  let failed := List.filter (fun c => negb (ok_call c)) calls in
  let declares := List.filter (call_named "declare_trade") ok_calls in
  let suspends := List.filter (call_named "watch_price_condition") ok_calls in
  let readonly := List.filter is_readonly ok_calls in
  let out := tag_judge response calls :: map failed_note failed ++
             map (fun c => tool_message (VStr NOT_FOR_JUDGE_NOTE) (VStr (ec_id c)) (VStr "watch_price_condition")) suspends in
  match declares, readonly with
  | _ :: _, _ =>
      let dicts := map dict_of_call declares in
      '(db, declared) ← run_tools db dicts;
      cand ← _decision_from_declare dicts;
      Ok (db, (out ++ declared,
               match cand with
               | Some d => if _declare_was_rejected declared then Again used else Committed d
               | None => Again used
               end))
  | [], _ :: _ =>
      '(db, (answered, used)) ← clarify budget used db readonly;
      Ok (db, (out ++ answered, Again used))
  | [], [] => Ok (db, (out, match ok_calls with [] => Stop | _ => Again used end))
  end.

(** The loop, [iters] passes at most: a failed invocation ends it. *)
Fixpoint judge_loop (judge_llm : list val -> res val) (iters : nat) (budget used : Z) (db : journal)
    (judge_msgs : list val) : res (journal * (list val * option (list (val * val)))) :=
  match iters with
  | O => Ok (db, ([], None))
  | S iters' =>
      match judge_llm judge_msgs with
      | Raise _ => Ok (db, ([], None))
      | Ok response =>
          '(db, (msgs, v)) ← judge_turn budget used db response;
          match v with
          | Committed d => Ok (db, (msgs, Some d))
          | Stop => Ok (db, (msgs, None))
          | Again used' =>
              '(db, (more, d)) ← judge_loop judge_llm iters' budget used' db (judge_msgs ++ msgs);
              Ok (db, (msgs ++ more, d))
          end
      end
  end.

Definition debate_hold (consensus : string) (conviction : Z) : list (val * val) :=
  hold "no-decision-reached"
    ("The Bull/Bear debate reached a '" ++ consensus ++ "' consensus (derived conviction " ++ Z_str conviction ++
     "); the Judge committed no validated A+ trade within the bounded debate budget. Holding to preserve capital rather than force a low-conviction trade.")
    "HOLD — no trade taken (the debate produced no validated setup)." "debate_hold".

Definition dict_pop (k : string) (l : list (val * val)) : list (val * val) :=
  List.filter (fun kv => negb (text_is kv.1 k)) l.

(** The stances and the verdict, carried to the record while it is built. *)
Definition debate_carrier (st : AgentState) (consensus : string) (conviction : Z) : val :=
  VDict [(VStr "bull_stance", bull_stance (st_debate st)); (VStr "bear_stance", bear_stance (st_debate st));
         (VStr "consensus", VStr consensus); (VStr "conviction", VInt conviction)].

(** The stances the Judge reconstructs, and their synthesis. *)
Definition synthesis (st : AgentState) : res (string * Z) :=
  bull ← parse_stance (VStr "bull") (bull_stance (st_debate st));
  bear ← parse_stance (VStr "bear") (bear_stance (st_debate st));
  let consensus := classify_consensus (Some bull) (Some bear) in
  conviction ← derive_conviction (Some bull) (Some bear) consensus;
  Ok (consensus, conviction).

Definition judge_node (now : float) (thread_id : option string) (judge_llm : list val -> res val)
    (prompt : list val) (w : world) (st : AgentState) : res (world * AgentState) :=
  let budget := judge_max_tool_calls dcfg in
  s ← synthesis st;
  let '(consensus, conviction) := s in
  r ← judge_loop judge_llm (Z.to_nat (budget + 2)) budget 0 (w_journal w) prompt;
  let '(db, (new_messages, decision)) := r in
  let w := with_journal w db in
  let d := st_debate st in
  let finish (messages : list val) (final : list (val * val)) :=
    with_decision
      (with_debate (with_messages st messages)
         {| phase := VStr "debate"; debate_turns := debate_turns d + 1; debate_round := debate_round d;
            bull_stance := bull_stance d; bear_stance := bear_stance d; debate_verdict := Some s |})
      (VDict final) in
  let chosen := match decision with Some x => x | None => debate_hold consensus conviction end in
  let carried := dict_set chosen "_debate" (debate_carrier st consensus conviction) in
  '(w', committed) ← _finalize_decision D now w st carried thread_id;
  let final := dict_pop "_debate" committed in
  match decision with
  | Some _ => Ok (w', finish new_messages final)
  | None =>
      closing ← report REPORT_KEYS final [(VStr "role", VStr "judge")];
      Ok (w', finish (new_messages ++ [closing]) final)
  end.
End debate.
