(* ===== verification/GraphFlow.v ===== *)
(** * The agent graph: Q&A, routing and the compiled graph

    The Q&A nodes, the routing functions, and the step relation of the compiled
    [StateGraph] of [agents/deep-quant-loop/graph.py].  A step runs one node on
    the inputs the outside world hands it (the model's response, the clock, what the
    tools return) and moves to the node its router picks; [END] has no step. *)

From stdpp Require Import base list gmap strings.
From Stdlib Require Import ZArith Lia Floats Ascii.
From S2P Require Import Prelude PyFloat PyNum PyVal PyEnv PyJson TradeManager Debate Opportunity JournalTags Journal.
From S2P Require Import HashChain GraphMessages Graph GraphNodes GraphDebate.

Open Scope Z_scope.
Open Scope res_scope.

(** ** Q&A *)

(** The refusal of a question about the user's own finances. *)
Definition refusal_message (category text : string) : val :=
  ai_message (VStr text) [] [(VStr "_personalisation_refusal", VStr category)].

Definition qa_status (c : ExtractedCall) : call_status :=
  match ec_status c with
  | SOk => if str_in (ec_name c) QA_FORBIDDEN_TOOLS then SQaForbidden else SOk
  | s => s
  end.

Definition qa_synthetic (c : ExtractedCall) : string :=
  match ec_status c with
  | SOk => ("'" ++ ec_name c ++ "' is disabled in Trade Q&A mode: the committed trade is immutable here. Answer the user's question using the recorded analysis context instead.")%string
  | _ => _synthetic_failure_content c
  end.

(** One more Q&A turn. *)
Definition count_qa (st : AgentState) : AgentState :=
  let l := st_loop st in
  with_loop st {| reasoning_turns := reasoning_turns l; market_data_seen := market_data_seen l;
                  verify_devils_advocate_done := verify_devils_advocate_done l; qa_turns := qa_turns l + 1 |}.

(** The model answers without tools on the last permitted turn. *)
Definition is_final_qa_turn (st : AgentState) : bool := MAX_QA_TURNS - 1 <=? qa_turns (st_loop st).

(** [qa_node]: [hit] is the guardrail's verdict on the latest question, [response]
    the model's answer with tools bound or not. *)
Definition qa_node (hit : option (string * string)) (response : bool -> val) (st : AgentState) : res AgentState :=
  match hit with
  | Some (category, text) => Ok (count_qa (with_messages st [refusal_message category text]))
  | None =>
      let response := response (is_final_qa_turn st) in
      calls ← extract_tool_calls response;
      Ok (count_qa (with_messages st [annotate response calls qa_status qa_synthetic]))
  end.

Definition is_subagent (tc : val) : bool := name_in QA_SUBAGENT_TOOLS (vget tc "name").

(** The synthetic result of a refused or failed call. *)
Definition refused_answer (m tc : val) : val :=
  let fallback := ("Tool-call '" ++ py_str (vget tc "name") ++ "' could not be executed in Q&A mode.")%string in
  let content :=
    match kwarg m "_synthetic_results" with
    | VDict s => match dict_find (tc_id tc) s with Some v => v | None => VStr fallback end
    | _ => VStr fallback
    end in
  tool_message content (vget tc "id") (py_or (vget tc "name") (VStr "unknown_tool")).

Section qa.
Context (run_tools : tool_executor).
(** [_run_qa_subagent]: the text of a second opinion. *)
Context (subagent : val -> val -> AgentState -> string).

Definition subagent_answer (st : AgentState) (tc : val) : val :=
  let name := py_or (vget tc "name") (VStr "unknown_tool") in
  tool_message (VStr (subagent name (call_args tc) st)) (vget tc "id") name.

Definition qa_tool_node (w : world) (st : AgentState) : res (world * AgentState) :=
  let m := last_message st in
  let ok_calls := ok_calls_of m in
  '(w', executed) ← execute run_tools w (List.filter (fun tc => negb (is_subagent tc)) ok_calls);
  Ok (w', with_messages st (executed ++ map (subagent_answer st) (List.filter is_subagent ok_calls)
                            ++ map (refused_answer m) (failed_calls_of m))).
End qa.

(** ** Routing *)

Inductive node :=
  | Agent | Tools | ForceHold | ForceTerminal | Bull | Bear | Judge | QaAgent | QaTools | End.

#[export] Instance node_eq_dec : EqDecision node.
Proof. solve_decision. Defined.

Inductive route := RContinue | RSuspend | RLoopAgent | RForceHold | RForceTerminal | RDebate | REnd.

#[export] Instance route_eq_dec : EqDecision route.
Proof. solve_decision. Defined.

Definition qa_should_continue (st : AgentState) : node :=
  match tool_calls (last_message st) with
  | _ :: _ => if qa_turns (st_loop st) <? MAX_QA_TURNS then QaTools else End
  | [] => End
  end.

Definition route_entry (st : AgentState) : node :=
  let mode := mode_name (rq_mode (st_request st)) in
  if String.eqb mode QA_MODE then QaAgent else Agent.

Definition route_after_tools (st : AgentState) : node :=
  if truthy (st_decision st) then End
  else if phase_is st "debate" then Bull
  else Agent.

(** The edges out of [agent]. *)
Definition target (r : route) : node :=
  match r with
  | RContinue | RSuspend => Tools
  | RLoopAgent => Agent
  | RForceHold => ForceHold
  | RForceTerminal => ForceTerminal
  | RDebate => Bull
  | REnd => End
  end.

Section flow.
Context (D : deployment).
Abbreviation cfg := (config_obj (d_opportunity D)).

Definition should_continue (now : float) (st : AgentState) : res route :=
  let m := last_message st in
  match tool_calls m with
  | _ :: _ =>
      if existsb is_watch (ok_calls_of m) then
        r ← termination D now st;
        Ok (match r with Some _ => RForceTerminal | None => RSuspend end)
      else Ok RContinue
  | [] =>
      if truthy (st_decision st) then Ok REnd
      else
        budget ← session_budget_exhausted (hunt_view st) cfg (VFloat now);
        if budget : bool then Ok RForceTerminal
        else if reasoning_turns (st_loop st) <? resolve_max_reasoning_turns (d_env D) then Ok RLoopAgent
        else if name_in ["research"; "debate"]%string (phase (st_debate st)) then Ok RDebate
        else Ok RForceHold
  end.

(** What the outside world hands a step. *)
Record inputs := {
  i_now : float;
  i_later : float;
  i_response : val;
  i_system : val;
  i_advocate : val;
  i_role_response : res val;
  i_judge_llm : list val -> res val;
  i_prompt : list val;
  i_hit : option (string * string);
  i_qa_response : bool -> val;
  i_run_tools : tool_executor;
  i_subagent : val -> val -> AgentState -> string;
}.

Definition config := (node * world * AgentState)%type.

(** One node and its outgoing edge, for the thread [thread_id]. *)
Definition step (thread_id : option string) (i : inputs) (c : config) : res config :=
  let '(n, w, st) := c in
  match n with
  | Agent =>
      st' ← call_model D (i_now i) (i_system i) (i_advocate i) (i_response i) st;
      r ← should_continue (i_later i) st';
      Ok (target r, w, st')
  | Tools =>
      x ← tool_node D (i_run_tools i) (i_now i) thread_id w st;
      Ok (route_after_tools x.2, x.1, x.2)
  | ForceHold => x ← force_hold D (i_now i) thread_id w st; Ok (End, x.1, x.2)
  | ForceTerminal => x ← force_terminal D (i_now i) thread_id w st; Ok (End, x.1, x.2)
  | Bull => st' ← bull_node (i_role_response i) st; Ok (Bear, w, st')
  | Bear =>
      st' ← bear_node (i_role_response i) st;
      Ok (match route_debate D st' with ToBull => Bull | ToJudge => Judge end, w, st')
  | Judge =>
      x ← judge_node D (i_run_tools i) (i_now i) thread_id (i_judge_llm i) (i_prompt i) w st;
      Ok (End, x.1, x.2)
  | QaAgent => st' ← qa_node (i_hit i) (i_qa_response i) st; Ok (qa_should_continue st', w, st')
  | QaTools => x ← qa_tool_node (i_run_tools i) (i_subagent i) w st; Ok (QaAgent, x.1, x.2)
  | End => Raise ValueError
  end.

(** The nodes a run takes, with the inputs of each. *)
Inductive steps (thread_id : option string) : list inputs -> config -> config -> Prop :=
  | steps_nil c : steps thread_id [] c c
  | steps_cons i inp c c' c'' : step thread_id i c = Ok c' -> steps thread_id inp c' c'' -> steps thread_id (i :: inp) c c''.
End flow.
