(* ===== verification/GraphFacts.v ===== *)
(** * The agent graph: what the tool node guarantees

    Every pending call is answered exactly once, whatever the gates do; and a
    decision is committed only through an open gate. *)

From stdpp Require Import base list gmap strings.
From Stdlib Require Import ZArith Lia Floats Ascii.
From S2P Require Import Prelude PyFloat PyNum PyVal PyEnv PyJson TradeManager Debate Opportunity JournalTags Journal.
From S2P Require Import HashChain GraphMessages Graph GraphNodes.

Open Scope Z_scope.

(** ** Partitions of the pending calls *)

(** The id a call carries, and the id a tool message answers. *)
Definition cid (tc : val) : val := vget tc "id".
Definition answered (m : val) : val := vattr m "tool_call_id".

Lemma filter_partition {A} (p : A -> bool) (l : list A) :
  List.filter p l ++ List.filter (fun x => negb (p x)) l ≡ₚ l.
Proof.
  induction l as [|x l IH]; [done|]. cbn [List.filter]. destruct (p x); cbn [negb app].
  - by rewrite IH.
  - by rewrite <- Permutation_middle, IH.
Qed.

Lemma gate_perm shut p calls : (gate shut p calls).1 ++ (gate shut p calls).2 ≡ₚ calls.
Proof. unfold gate. destruct shut; [apply filter_partition|done]. Qed.

(** A shut gate lets nothing it watches for through. *)
Lemma gate_shut_clear shut p calls tc : In tc (gate shut p calls).2 -> shut = true -> p tc = false.
Proof.
  intros H ->. cbn in H. apply filter_In in H as [_ H]. by apply negb_true_iff in H.
Qed.

Lemma gate_sub shut p calls tc : In tc (gate shut p calls).2 -> In tc calls.
Proof. unfold gate. destruct shut; cbn; [intros [H _]%filter_In; done|done]. Qed.

Lemma gate_held shut p calls tc : In tc (gate shut p calls).1 -> shut = true /\ In tc calls /\ p tc = true.
Proof. unfold gate. destruct shut; cbn; [intros [? ?]%filter_In; done|done]. Qed.

Lemma floored_call tc atr tc' :
  with_floored_invalidation tc atr = Ok tc' -> cid tc' = cid tc /\ vget tc' "name" = vget tc "name".
Proof.
  unfold with_floored_invalidation. intros H. mbind H.
  destruct a as [level|]; [|by injection H as <-].
  destruct (call_args tc) eqn:?; try (by injection H as <-). destruct tc; try (by injection H as <-).
  injection H as <-. unfold cid, vget. split; by rewrite dict_get_set_ne.
Qed.

Lemma rearm_gate_perm prior atr calls r :
  rearm_gate prior atr calls = Ok r -> map cid r.1 ++ map cid r.2 ≡ₚ map cid calls.
Proof.
  revert r. induction calls as [|tc calls IH]; intros r H; cbn [rearm_gate] in H; [by injection H as <-|].
  destruct (negb (is_watch tc)).
  - mbind H. injection H as <-. cbn. by rewrite (IH _ E).
  - mbind H. destruct a.
    + mbind H. injection H as <-. cbn. by rewrite <- Permutation_middle, (IH _ E0).
    + mbind H. mbind H. injection H as <-. cbn. apply floored_call in E0 as [-> _]. by rewrite (IH _ E1).
Qed.

(** What is left of the calls that were not watches is untouched. *)
Lemma rearm_gate_other prior atr calls r tc :
  rearm_gate prior atr calls = Ok r -> is_watch tc = false -> In tc r.1 -> In tc calls.
Proof.
  revert r. induction calls as [|x calls IH]; intros r H Hw Hin; cbn [rearm_gate] in H; [by injection H as <-|].
  destruct (negb (is_watch x)) eqn:W.
  - mbind H. injection H as <-. destruct Hin as [->|Hin]; [by left|right]. by apply (IH _ E).
  - mbind H. destruct a.
    + mbind H. injection H as <-. right. by apply (IH _ E0).
    + mbind H. mbind H. injection H as <-. destruct Hin as [->|Hin].
      * apply floored_call in E0 as [_ Hn]. unfold is_watch, call_is in *. rewrite Hn in Hw. by rewrite Hw in W.
      * right. by apply (IH _ E1).
Qed.

(** ** The gates, together *)

Definition all_gated (g : gated) : list val := g_ok g ++ g_research g ++ g_blocked g ++ g_heartbeat g ++ g_rearm g.

Definition held_back (shut : bool) (p : val -> bool) (l : list val) : Prop :=
  forall tc, In tc l -> shut = true -> p tc = false.

(** What the gates in sequence leave, from the calls they start with. *)
Record gates_ok (D : deployment) (now : float) (st : AgentState) (g : gated) : Prop := {
  go_perm : map cid (all_gated g) ≡ₚ map cid (ok_calls_of (last_message st));
  go_research : g_research g <> [] -> phase_is st "research" = true /\ g_blocked g = [] /\ g_heartbeat g = [];
  go_blocked : g_blocked g <> [] ->
    (market_data_seen (st_loop st) = false /\ phase_is st "research" = false) /\ g_heartbeat g = [];
  go_declares : forall tc, In tc (g_ok g) -> is_declare tc = true ->
    In tc (ok_calls_of (last_message st)) /\ phase_is st "research" = false /\ market_data_seen (st_loop st) = true /\
    (heartbeat_gate D now st = Ok true -> _declare_is_directional (call_args tc) = true);
  go_rearm_clear : postmortem_pending (st_hunt st) = false -> g_rearm g = [];
}.

Lemma declare_not_watch tc : is_declare tc = true -> is_watch tc = false.
Proof.
  unfold is_declare, is_watch, call_is, name_in. destruct (vget tc "name"); try done. cbn.
  rewrite !orb_false_r. intros ->%String.eqb_eq. reflexivity.
Qed.

Lemma no_held_declares shut p calls :
  (forall tc, In tc calls -> is_declare tc = false) -> (forall tc, p tc = true -> is_declare tc = true) ->
  (gate shut p calls).1 = [].
Proof.
  intros H Hp. destruct (gate shut p calls).1 as [|tc l] eqn:E; [done|].
  destruct (gate_held shut p calls tc) as (_ & Hin & Ht); [rewrite E; by left|].
  apply Hp in Ht. by rewrite (H _ Hin) in Ht.
Qed.

Lemma standing_aside_declare tc : is_standing_aside tc = true -> is_declare tc = true.
Proof. unfold is_standing_aside. by intros [? _]%andb_true_iff. Qed.

Lemma gate_calls_ok D now st g : gate_calls D now st = Ok g -> gates_ok D now st g.
Proof.
  unfold gate_calls. intros H.
  destruct (gate (phase_is st "research") is_declare (ok_calls_of (last_message st))) as [research ok1] eqn:G1.
  destruct (gate (negb (market_data_seen (st_loop st))) is_declare ok1) as [blocked ok2] eqn:G2.
  mbind H. rename a into shut. destruct (gate shut is_standing_aside ok2) as [heartbeat ok3] eqn:G3.
  mbind H. rename a into rearm. injection H as <-.
  pose proof (gate_perm (phase_is st "research") is_declare (ok_calls_of (last_message st))) as P1.
  pose proof (gate_perm (negb (market_data_seen (st_loop st))) is_declare ok1) as P2.
  pose proof (gate_perm shut is_standing_aside ok2) as P3. rewrite G1 in P1. rewrite G2 in P2. rewrite G3 in P3.
  cbn [fst snd] in P1, P2, P3.
  assert (Pr : map cid rearm.1 ++ map cid rearm.2 ≡ₚ map cid ok3).
  { destruct (postmortem_pending _ && _).
    - mbind E0. by apply rearm_gate_perm in E0.
    - injection E0 as <-. cbn. by rewrite app_nil_r. }
  split; cbn [g_ok g_research g_blocked g_heartbeat g_rearm all_gated].
  - unfold all_gated. cbn. rewrite !map_app, <- P1, !map_app, <- P2, !map_app, <- P3, !map_app, <- Pr.
    set (a := map cid rearm.1). set (b := map cid rearm.2). solve_Permutation.
  - intros Hr. destruct research as [|tc0 research]; [done|].
    destruct (gate_held (phase_is st "research") is_declare (ok_calls_of (last_message st)) tc0) as (Hs & _);
      [rewrite G1; by left|].
    assert (Hc : forall tc, In tc ok1 -> is_declare tc = false).
    { intros tc Htc. apply (gate_shut_clear (phase_is st "research") is_declare (ok_calls_of (last_message st))); [by rewrite G1|done]. }
    split; [done|]. split.
    + replace blocked with (gate (negb (market_data_seen (st_loop st))) is_declare ok1).1 by (by rewrite G2).
      by apply no_held_declares.
    + replace heartbeat with (gate shut is_standing_aside ok2).1 by (by rewrite G3).
      apply no_held_declares; [|apply standing_aside_declare].
      intros tc Htc. apply Hc. apply (gate_sub (negb (market_data_seen (st_loop st))) is_declare). by rewrite G2.
  - intros Hb. destruct blocked as [|tc0 blocked]; [done|].
    destruct (gate_held (negb (market_data_seen (st_loop st))) is_declare ok1 tc0) as (Hs & Hin & Ht); [rewrite G2; by left|].
    split; [split; [by apply negb_true_iff|]|].
    { destruct (phase_is st "research") eqn:Ep; [|done].
      rewrite (gate_shut_clear true is_declare (ok_calls_of (last_message st)) tc0) in Ht; [done|by rewrite G1|done]. }
    replace heartbeat with (gate shut is_standing_aside ok2).1 by (by rewrite G3).
    apply no_held_declares; [|apply standing_aside_declare]. intros tc Htc.
    apply (gate_shut_clear (negb (market_data_seen (st_loop st))) is_declare ok1); [by rewrite G2|done].
  - intros tc Htc Hd.
    assert (H3 : In tc ok3).
    { destruct (postmortem_pending _ && _).
      - mbind E0. eapply rearm_gate_other; [done|by apply declare_not_watch|done].
      - by injection E0 as <-. }
    assert (H2 : In tc ok2) by (apply (gate_sub shut is_standing_aside); by rewrite G3).
    assert (H1 : In tc ok1) by (apply (gate_sub (negb (market_data_seen (st_loop st))) is_declare); by rewrite G2).
    split_and!.
    + apply (gate_sub (phase_is st "research") is_declare). by rewrite G1.
    + destruct (phase_is st "research") eqn:Ep; [|done]. rewrite <- Ep in G1.
      rewrite (gate_shut_clear (phase_is st "research") is_declare (ok_calls_of (last_message st)) tc) in Hd;
        [done|by rewrite G1|done].
    + destruct (market_data_seen (st_loop st)) eqn:Em; [done|].
      rewrite (gate_shut_clear true is_declare ok1 tc) in Hd; [done| |done]. cbn [negb] in G2. by rewrite G2.
    + intros Ht. rewrite E in Ht. injection Ht as ->.
      assert (Hn := gate_shut_clear true is_standing_aside ok2 tc). rewrite G3 in Hn. specialize (Hn H3 eq_refl).
      unfold is_standing_aside in Hn. rewrite Hd in Hn. cbn in Hn. by apply negb_false_iff in Hn.
  - intros Hp. rewrite Hp in E0. cbn in E0. by injection E0 as <-.
Qed.

(** ** Every call is answered *)

(** What a tool executor does: one tool message per call, in order. *)
Definition answering (run_tools : tool_executor) : Prop :=
  forall db calls db' out, run_tools db calls = Ok (db', out) ->
    Forall (fun m => _is_tool_message m = true) out /\ map answered out = map cid calls.

Definition answered_ids (messages : list val) : list val := map answered (List.filter _is_tool_message messages).

Lemma answered_ids_app a b : answered_ids (a ++ b) = answered_ids a ++ answered_ids b.
Proof. unfold answered_ids. by rewrite List.filter_app, map_app. Qed.

Lemma answered_ids_all out : Forall (fun m => _is_tool_message m = true) out -> answered_ids out = map answered out.
Proof.
  unfold answered_ids. induction 1 as [|m out Hm Ho IH]; [done|]. cbn [List.filter]. rewrite Hm. cbn [map]. by rewrite IH.
Qed.

Lemma answered_ids_map (f : val -> val) calls :
  (forall tc, exists content name, f tc = tool_message content (cid tc) name) -> answered_ids (map f calls) = map cid calls.
Proof.
  intros H. rewrite answered_ids_all.
  - rewrite map_map. apply map_ext. intros tc. by destruct (H tc) as (c & n & ->).
  - apply Forall_map, Forall_forall. intros tc _. cbn. by destruct (H tc) as (c & n & ->).
Qed.

Lemma answered_ids_answers note name calls : answered_ids (answers note name calls) = map cid calls.
Proof. unfold answers. apply answered_ids_map. intros tc. by exists (VStr note), (VStr name). Qed.

Lemma answered_ids_failed m calls : answered_ids (map (failed_answer m) calls) = map cid calls.
Proof. apply answered_ids_map. intros tc. unfold failed_answer, cid. eauto. Qed.

Lemma answered_ids_report keys decision kwargs m : report keys decision kwargs = Ok m -> answered_ids [m] = [].
Proof. unfold report. intros H. mbind H. by injection H as <-. Qed.

Lemma execute_answers run_tools w calls w' out :
  answering run_tools -> execute run_tools w calls = Ok (w', out) -> answered_ids out = map cid calls.
Proof.
  intros A. unfold execute. destruct calls as [|tc calls]; [intros H; by injection H as <- <-|].
  intros H. mbind H. destruct a as [db out']. injection H as <- <-. destruct (A _ _ _ _ E) as [F Ec].
  by rewrite answered_ids_all, Ec.
Qed.

(** Execution is one call of the executor, or none: the journal is all it changes. *)
Lemma execute_journal run_tools w calls w' out :
  execute run_tools w calls = Ok (w', out) ->
  w' = with_journal w (w_journal w') /\
  (calls = [] /\ w' = w /\ out = [] \/ run_tools (w_journal w) calls = Ok (w_journal w', out)).
Proof.
  unfold execute. intros H. destruct calls as [|tc calls].
  - injection H as <- <-. split; [by destruct w|by left].
  - mbind H. destruct a as [db out']. injection H as <- <-. split; [done|by right].
Qed.

Lemma calls_split m : map cid (ok_calls_of m) ++ map cid (failed_calls_of m) ≡ₚ map cid (tool_calls m).
Proof. rewrite <- map_app. apply Permutation_map, filter_partition. Qed.

(** The part of its answer the tool node gives whatever the gates do. *)
Definition base_answer (st : AgentState) (g : gated) (executed : list val) : list val :=
  executed ++ map (failed_answer (last_message st)) (failed_calls_of (last_message st))
  ++ answers REARM_NOTE "watch_price_condition" (g_rearm g).

(** The node, read as: gates, execution, bookkeeping, and one of five endings. *)
Inductive ending (D : deployment) (now : float) (thread_id : option string) (w : world) (st : AgentState) (g : gated)
    (out : list val) : world -> list val -> val -> val -> Prop :=
  | ending_research :
      g_research g <> [] ->
      ending D now thread_id w st g out w (answers RESEARCH_NOTE "declare_trade" (g_research g)) (st_decision st) (VStr "debate")
  | ending_blocked :
      g_research g = [] -> g_blocked g <> [] -> _market_data_attempted (st_messages st) = false ->
      ending D now thread_id w st g out w (answers NO_DATA_NOTE "declare_trade" (g_blocked g)) (st_decision st)
        (phase (st_debate st))
  | ending_data_hold w' d closing :
      g_research g = [] -> g_blocked g <> [] -> _market_data_attempted (st_messages st) = true ->
      commit D now w st thread_id data_gating_hold = Ok (w', d) -> report REPORT_KEYS d [] = Ok closing ->
      ending D now thread_id w st g out w' (answers DATA_UNAVAILABLE_NOTE "declare_trade" (g_blocked g) ++ [closing]) (VDict d)
        (phase (st_debate st))
  | ending_heartbeat :
      g_research g = [] -> g_blocked g = [] -> g_heartbeat g <> [] ->
      ending D now thread_id w st g out w
        (answers (heartbeat_note (unresolved_core_tools (st_messages st))) "declare_trade" (g_heartbeat g))
        (st_decision st) (phase (st_debate st))
  | ending_open :
      g_research g = [] -> g_blocked g = [] -> g_heartbeat g = [] ->
      ending D now thread_id w st g out w [] (st_decision st) (phase (st_debate st))
  | ending_commit tc args w' d :
      g_research g = [] -> g_blocked g = [] -> g_heartbeat g = [] ->
      In tc (g_ok g) -> is_declare tc = true -> declared_decision (call_args tc) = Ok args ->
      _declare_was_rejected out = false -> commit D now w st thread_id args = Ok (w', d) ->
      ending D now thread_id w st g out w' [] (VDict d) (phase (st_debate st)).

(** The fields of a node's update. *)
Ltac node_fields :=
  cbn [st_request st_messages st_decision st_loop st_hunt st_debate with_messages with_decision with_loop with_hunt
       with_debate with_phase phase].

Lemma tool_node_reads D run_tools now thread_id w st w' st' :
  tool_node D run_tools now thread_id w st = Ok (w', st') ->
  exists g w1 executed h extra,
    gate_calls D now st = Ok g /\ execute run_tools w (g_ok g) = Ok (w1, executed) /\
    resume_bookkeeping D st (base_answer st g executed) = Ok h /\
    ending D now thread_id w1 st g (base_answer st g executed) w' extra (st_decision st') (phase (st_debate st')) /\
    st_messages st' = st_messages st ++ base_answer st g executed ++ extra /\
    st_hunt st' = h /\ st_loop st' = st_loop st /\ st_request st' = st_request st.
Proof.
  unfold tool_node. intros H. mbind H. rename a into g. mbind H. destruct a as [w1 executed]. mbind H. rename a into h.
  exists g, w1, executed, h.
  destruct (g_research g) as [|r0 rs] eqn:Gr; [destruct (g_blocked g) as [|b0 bs] eqn:Gb;
    [destruct (g_heartbeat g) as [|h0 hs] eqn:Gh|]|].
  - mbind H. unfold _decision_from_declare in E2.
    destruct (List.filter (call_is "declare_trade") (g_ok g)) as [|tc tcs] eqn:F.
    + injection E2 as <-. injection H as <- <-. exists []. node_fields. split_and!; try done; [by apply ending_open|].
      by rewrite app_nil_r.
    + mbind E2. injection E2 as <-.
      assert (In tc (g_ok g) /\ is_declare tc = true) as [Hin Hd] by (unfold is_declare; apply filter_In; rewrite F; by left).
      destruct (_declare_was_rejected _) eqn:Ej.
      * injection H as <- <-. exists []. node_fields. split_and!; try done; [by apply ending_open|]. by rewrite app_nil_r.
      * mbind H. destruct a as [w2 d]. injection H as <- <-. exists [].
        node_fields. split_and!; try done; [by eapply ending_commit|]. by rewrite app_nil_r.
  - injection H as <- <-. eexists. node_fields. split_and!; [done|done|done|apply ending_heartbeat; congruence| |done|done|done].
    unfold base_answer. by rewrite Gh, <- !app_assoc.
  - destruct (_market_data_attempted (st_messages st)) eqn:Ea.
    + mbind H. destruct a as [w2 d]. mbind H. injection H as <- <-. eexists.
      node_fields. split_and!; [done|done|done|eapply ending_data_hold; by rewrite ?Gb| |done|done|done].
      unfold base_answer. by rewrite Gb, <- !app_assoc.
    + injection H as <- <-. eexists. node_fields. split_and!; [done|done|done|apply ending_blocked; congruence| |done|done|done].
      unfold base_answer. by rewrite Gb, <- !app_assoc.
  - injection H as <- <-. eexists. node_fields. split_and!; [done|done|done|apply ending_research; congruence| |done|done|done].
    unfold base_answer. by rewrite Gr, <- !app_assoc.
Qed.

(** C9: [tool_node] answers every call of the assistant's message exactly once:
    the tool messages it appends carry exactly the ids of the pending calls, be the
    call executed, malformed, held back by a gate or suppressed. *)
Theorem tool_node_answers_every_call D run_tools now thread_id w st w' st' :
  answering run_tools -> tool_node D run_tools now thread_id w st = Ok (w', st') ->
  exists new, st_messages st' = st_messages st ++ new /\
              answered_ids new ≡ₚ map cid (tool_calls (last_message st)).
Proof.
  intros A H. destruct (tool_node_reads _ _ _ _ _ _ _ _ H) as (g & wx & executed & h & extra & G & X & _ & En & M & _).
  exists (base_answer st g executed ++ extra). split; [done|].
  apply gate_calls_ok in G as [P Hr Hb _ _]. unfold all_gated in P. rewrite !map_app in P.
  unfold base_answer. rewrite !answered_ids_app, (execute_answers _ _ _ _ _ A X), answered_ids_failed, answered_ids_answers.
  rewrite <- calls_split, <- P.
  enough (answered_ids extra = map cid (g_research g) ++ map cid (g_blocked g) ++ map cid (g_heartbeat g)) as ->
    by solve_Permutation.
  clear M. destruct En as [Gr|Gr Gb _|w1 d closing Gr Gb _ _ R|Gr Gb _|Gr Gb Gh|tc args w1 d Gr Gb Gh _ _ _ _ _].
  - destruct (Hr Gr) as (_ & -> & ->). by rewrite answered_ids_answers, app_nil_r.
  - destruct (Hb Gb) as [_ ->]. by rewrite Gr, answered_ids_answers, app_nil_r.
  - destruct (Hb Gb) as [_ ->].
    by rewrite Gr, answered_ids_app, answered_ids_answers, (answered_ids_report _ _ _ _ R), !app_nil_r.
  - by rewrite Gr, Gb, answered_ids_answers.
  - by rewrite Gr, Gb, Gh.
  - by rewrite Gr, Gb, Gh.
Qed.

(** C1: A trade is committed only through open gates.  [tool_node] first executes the
    calls the gates let through, which may change the journal (a tool may score open
    trades) and no other store; from the stores they leave, either nothing more is
    written and the decision stays as it was, or the decision is passed to the
    chokepoint.  In that case the run is not in its research phase, and either the
    model declared without any usable market data although it was sought, and the
    data-limitation HOLD is what is committed; or market data had been seen, the
    committed decision is the structured arguments of one of the pending declarations,
    which is among the executed calls, no answer of this turn rejected it, and a
    heartbeat wake with core data missing lets only directional declarations
    through. *)
Theorem tool_node_commits_soundly D run_tools now thread_id w st w' st' :
  tool_node D run_tools now thread_id w st = Ok (w', st') ->
  exists g w1 executed,
  gate_calls D now st = Ok g /\ execute run_tools w (g_ok g) = Ok (w1, executed) /\ w1 = with_journal w (w_journal w1) /\
  ((w' = w1 /\ st_decision st' = st_decision st) \/
   (phase_is st "research" = false /\
    ((market_data_seen (st_loop st) = false /\ _market_data_attempted (st_messages st) = true /\
      exists d, _finalize_decision D now w1 st data_gating_hold thread_id = Ok (w', d) /\ st_decision st' = VDict d) \/
     (market_data_seen (st_loop st) = true /\
      exists tc args d, In tc (ok_calls_of (last_message st)) /\ In tc (g_ok g) /\ is_declare tc = true /\
        declared_decision (call_args tc) = Ok args /\
        _declare_was_rejected (drop (length (st_messages st)) (st_messages st')) = false /\
        (heartbeat_gate D now st = Ok true -> _declare_is_directional (call_args tc) = true) /\
        _finalize_decision D now w1 st args thread_id = Ok (w', d) /\ st_decision st' = VDict d)))).
Proof.
  intros H. destruct (tool_node_reads _ _ _ _ _ _ _ _ H) as (g & w1 & executed & h & extra & G & X & _ & En & M & _).
  exists g, w1, executed. split; [done|]. split; [done|]. split; [by eapply execute_journal|].
  apply gate_calls_ok in G as [P Hr Hb Hd _].
  inversion En as [Gr|Gr Gb|w2 d closing Gr Gb Ga C R|Gr Gb Gh|Gr Gb Gh|tc args w2 d Gr Gb Gh Hin Hdc Had Hrj C]; subst;
    try (by left).
  - right. destruct (Hb Gb) as [[? ?] _]. split; [done|]. left. eauto.
  - right. destruct (Hd tc Hin Hdc) as (? & ? & ? & ?). split; [done|]. right. split_and!; try done.
    exists tc, args, d. split_and!; try done. by rewrite M, drop_app_length, app_nil_r.
Qed.

(** ** A concrete run *)

Definition demo_deployment : deployment :=
  {| d_opportunity := resolve_opportunity_config (fun _ => None); d_env := fun _ => None; d_literal_eval := fun _ => None;
     d_provenance := {| prompt_identifiers := fun _ => (VNone, VNone, VNone); run_user_id := VNone |};
     d_stored := store_as_is; d_model_name := None |}.

(** An executor that accepts every call. *)
Definition demo_tools (db : journal) (calls : list val) : res (journal * list val) :=
  Ok (db, map (fun tc => tool_message (VStr "{}") (cid tc) (vget tc "name")) calls).

Lemma demo_tools_answering : answering demo_tools.
Proof.
  intros db calls db' out H. injection H as <- <-. split.
  - apply Forall_map, Forall_forall. intros tc _. reflexivity.
  - rewrite map_map. by apply map_ext.
Qed.

Definition demo_call (name id : string) (args : list (val * val)) : val := call_dict (VStr name) (VStr id) (VDict args).

Definition demo_state (seen : bool) (calls : list val) : AgentState :=
  {| st_request := {| rq_mode := VStr "FIND"; rq_symbol := VStr "ACME"; rq_timeframe := VStr "10m"; rq_profile := VNone;
                      rq_manual_trade := VNone; rq_model := VNone |};
     st_messages := [ai_message (VStr "") calls []]; st_decision := VNone;
     st_loop := {| reasoning_turns := 0; market_data_seen := seen; verify_devils_advocate_done := false; qa_turns := 0 |};
     st_hunt := {| watch_cycles := 0; session_turns := 1; session_started_at := VNone; invalidation_count := 0;
                   postmortem_pending := false; prior_thesis := VNone; heartbeat_count := 0; last_resume_kind := VNone;
                   interim_read := VNone |};
     st_debate := {| phase := VNone; debate_turns := 0; debate_round := 0; bull_stance := VNone; bear_stance := VNone;
                     debate_verdict := None |} |}.

Definition demo_declare : val :=
  demo_call "declare_trade" "t1" [(VStr "action", VStr "HOLD"); (VStr "conviction_score", VInt 40)].

Definition empty_world : world := {| w_committed := []; w_journal := {| jrows := []; next_id := 1 |}; w_reco := empty_table |}.

(** A declaration and a fetch, with data already seen: the trade is committed. *)
Definition demo_run : res (world * AgentState) :=
  tool_node demo_deployment demo_tools 100%float (Some "th"%string) empty_world
    (demo_state true [demo_call "get_candles" "c1" []; demo_declare]).

Definition demo_after : world * AgentState := match demo_run with Ok x => x | Raise _ => (empty_world, demo_state true []) end.

Lemma demo_run_ok : demo_run = Ok demo_after.
Proof. vm_compute. reflexivity. Qed.

Lemma tool_node_answers_every_call_witness :
  exists new, st_messages demo_after.2 = [ai_message (VStr "") [demo_call "get_candles" "c1" []; demo_declare] []] ++ new /\
              answered_ids new ≡ₚ [VStr "c1"; VStr "t1"].
Proof.
  apply (tool_node_answers_every_call demo_deployment demo_tools 100%float (Some "th"%string) empty_world
           (demo_state true [demo_call "get_candles" "c1" []; demo_declare]) demo_after.1 demo_after.2).
  - apply demo_tools_answering.
  - transitivity (Ok demo_after : res (world * AgentState)); [exact demo_run_ok|by destruct demo_after].
Defined.

(** The same run read through [tool_node_commits_soundly]: it did commit, so the
    third case holds. *)
Lemma tool_node_commits_soundly_witness :
  exists tc args d,
    In tc [demo_call "get_candles" "c1" []; demo_declare] /\ is_declare tc = true /\
    declared_decision (call_args tc) = Ok args /\
    _finalize_decision demo_deployment 100%float empty_world (demo_state true [demo_call "get_candles" "c1" []; demo_declare])
      args (Some "th"%string) = Ok (demo_after.1, d) /\ st_decision demo_after.2 = VDict d.
Proof.
  destruct (tool_node_commits_soundly demo_deployment demo_tools 100%float (Some "th"%string) empty_world
              (demo_state true [demo_call "get_candles" "c1" []; demo_declare]) demo_after.1 demo_after.2)
    as (g & w1 & executed & Hg & X & Hw & Hc).
  { transitivity (Ok demo_after : res (world * AgentState)); [exact demo_run_ok|by destruct demo_after]. }
  assert (w1 = empty_world) as ->.
  { rewrite Hw. destruct (execute_journal _ _ _ _ _ X) as [_ [(_ & -> & _)|E]]; [done|]. by injection E as <- _. }
  destruct Hc as [[H _]|[_ [(H & _)|(_ & tc & args & d & H1 & _ & H2 & H3 & _ & _ & H4 & H5)]]].
  - exfalso. assert (length (jrows (w_journal demo_after.1)) = 0%nat) as L by (by rewrite H). vm_compute in L. discriminate.
  - discriminate.
  - exists tc, args, d. split_and!; [exact H1|exact H2|exact H3|exact H4|exact H5].
Defined.
