(* ===== verification/GraphFlowFacts.v ===== *)
(** * The agent graph: what a run guarantees

    Properties of whole runs: the Q&A loop leaves the trade alone and ends, a run
    that ends has committed exactly once, reasoning-only turns and debate rounds are
    bounded, a watch is armed only within the cap. *)

From stdpp Require Import base list gmap strings.
From Stdlib Require Import ZArith Lia Floats Ascii.
From S2P Require Import Prelude PyFloat PyNum PyVal PyEnv PyJson TradeManager Debate Opportunity JournalTags Journal.
From S2P Require Import JournalFacts HashChain GraphMessages Graph GraphNodes GraphDebate GraphFlow GraphFacts.

Open Scope Z_scope.

(** ** Runs *)

Definition node_of (c : config) : node := c.1.1.
Definition world_of (c : config) : world := c.1.2.
Definition state_of_run (c : config) : AgentState := c.2.

Lemma steps_ind_inv D tid (I : config -> Prop) :
  (forall i c c', I c -> step D tid i c = Ok c' -> I c') ->
  forall inp c c', steps D tid inp c c' -> I c -> I c'.
Proof. intros Hs inp c c' H. induction H as [|i inp c c' c'' H1 H2 IH]; [done|]. intros Hc. eauto. Qed.

Lemma steps_ind_in D tid (I : config -> Prop) inp c c' :
  (forall i c c', In i inp -> I c -> step D tid i c = Ok c' -> I c') -> steps D tid inp c c' -> I c -> I c'.
Proof.
  intros Hs H. induction H as [|i inp c c' c'' H1 H2 IH]; [done|]. intros Hc. apply IH.
  - intros j d d' Hj. apply Hs. by right.
  - eapply Hs; [by left|exact Hc|exact H1].
Qed.

Lemma steps_one D tid i c c' : step D tid i c = Ok c' -> steps D tid [i] c c'.
Proof. intros H. eapply steps_cons; [done|constructor]. Qed.

Lemma steps_app D tid inp1 inp2 c1 c2 c3 :
  steps D tid inp1 c1 c2 -> steps D tid inp2 c2 c3 -> steps D tid (inp1 ++ inp2) c1 c3.
Proof. induction 1; [done|]. intros. eapply steps_cons; eauto. Qed.

(** ** Q&A *)

(** What a Q&A turn may change: messages are appended and turns are counted. *)
Record qa_extends (st st' : AgentState) : Prop := {
  qe_messages : exists new, st_messages st' = st_messages st ++ new;
  qe_decision : st_decision st' = st_decision st;
  qe_hunt : st_hunt st' = st_hunt st;
  qe_debate : st_debate st' = st_debate st;
  qe_request : st_request st' = st_request st;
}.

#[export] Instance qa_extends_preorder : PreOrder qa_extends.
Proof.
  split.
  - intros st. split; try done. exists []. by rewrite app_nil_r.
  - intros a b c [[n1 H1] ? ? ? ?] [[n2 H2] ? ? ? ?]. split; try congruence.
    exists (n1 ++ n2). by rewrite H2, H1, app_assoc.
Qed.

Lemma qa_node_extends hit response st st' :
  qa_node hit response st = Ok st' ->
  qa_extends st st' /\ qa_turns (st_loop st') = qa_turns (st_loop st) + 1.
Proof.
  unfold qa_node. intros H. destruct hit as [[category text]|].
  - injection H as <-. split; [split; try done; by eexists|done].
  - mbind H. injection H as <-. split; [split; try done; by eexists|done].
Qed.

Lemma qa_tool_node_extends run_tools subagent w st w' st' :
  qa_tool_node run_tools subagent w st = Ok (w', st') ->
  qa_extends st st' /\ qa_turns (st_loop st') = qa_turns (st_loop st) /\
  exists calls out, execute run_tools w calls = Ok (w', out).
Proof.
  unfold qa_tool_node. intros H. mbind H. destruct a as [w1 out]. injection H as <- <-.
  split; [split; try done; by eexists|]. split; [done|eauto].
Qed.

(** ** The tools' part of the stores *)

(** One call of one of the run's executors. *)
Definition tool_write (inp : list inputs) (db db' : journal) : Prop :=
  exists i calls out, In i inp /\ i_run_tools i db calls = Ok (db', out).

(** The stores after tool calls of the run: the journal is what those left. *)
Definition worked (inp : list inputs) (w w' : world) : Prop :=
  w' = with_journal w (w_journal w') /\ rtc (tool_write inp) (w_journal w) (w_journal w').

#[export] Instance worked_preorder inp : PreOrder (worked inp).
Proof.
  split.
  - intros w. split; [by destruct w|reflexivity].
  - intros a b c [Hb R1] [Hc R2]. split; [|by etransitivity]. rewrite Hc, Hb. reflexivity.
Qed.

Lemma worked_mono inp inp' w w' : (forall i, In i inp -> In i inp') -> worked inp w w' -> worked inp' w w'.
Proof.
  intros S [E R]. split; [done|]. eapply rtc_subrel; [|exact R]. intros a b (i & calls & out & Hi & H). exists i; eauto.
Qed.

Lemma execute_worked i inp w calls w' out :
  In i inp -> execute (i_run_tools i) w calls = Ok (w', out) -> worked inp w w'.
Proof.
  intros Hi [Ew [(_ & -> & _)|E]]%execute_journal; [done|]. split; [done|]. apply rtc_once. exists i; eauto.
Qed.

(** What the registered tools do to the journal: they score its open trades. *)
Definition scoring (run_tools : tool_executor) : Prop :=
  forall db calls db' out, run_tools db calls = Ok (db', out) -> scores db db'.

Lemma worked_scores inp w w' :
  (forall i, In i inp -> scoring (i_run_tools i)) -> worked inp w w' -> scores (w_journal w) (w_journal w').
Proof.
  intros S [_ R]. induction R as [|a b c (i & calls & out & Hi & H) R IH]; [reflexivity|].
  etransitivity; [by eapply (S i Hi)|exact IH].
Qed.

Lemma qa_steps D tid inp c c' :
  steps D tid inp c c' -> node_of c = QaAgent \/ node_of c = QaTools ->
  (node_of c' = QaAgent \/ node_of c' = QaTools \/ node_of c' = End) /\
  worked inp (world_of c) (world_of c') /\ qa_extends (state_of_run c) (state_of_run c').
Proof.
  induction 1 as [|i inp [[n w] st] c' c'' H1 H2 IH]; intros Hn.
  - destruct Hn as [->| ->]; (split; [tauto|]); split; reflexivity.
  - cbn in Hn. assert (forall w1 w2, worked inp w1 w2 -> worked (i :: inp) w1 w2) as M.
    { intros w1 w2. apply worked_mono. intros j Hj. by right. }
    destruct Hn as [->| ->]; cbn [step] in H1; mbind H1; injection H1 as <-.
    + apply qa_node_extends in E as [Hq _]. unfold qa_should_continue in *.
      destruct (tool_calls (last_message a)); [|destruct (_ <? _)].
      * inversion H2; subst; [by split; [tauto|]|]. done.
      * destruct (IH (or_intror eq_refl)) as (? & Hw & Hx). split; [done|]. split; [by apply M|]. by etransitivity.
      * inversion H2; subst; [by split; [tauto|]|]. done.
    + destruct a as [w1 st1]. apply qa_tool_node_extends in E as (Hq & _ & calls & out & X).
      destruct (IH (or_introl eq_refl)) as (? & Hw & Hx). split; [done|]. split; [|by etransitivity].
      etransitivity; [|by apply M]. eapply execute_worked; [by left|exact X].
Qed.

(** C22: A Q&A run leaves the trade alone: from the Q&A node it stays among the Q&A
    nodes until it ends; the committed records and the recommendations are not
    written; the decision, the hunt, the debate and the request are as they were, and
    messages are only appended, whatever the model answers.  The journal is changed
    by the run's tool calls alone; when those do no more to it than score its open
    trades, as the registered tools do, no row is added or removed, and each is as it
    was or an open one turned into a win, a loss or an expiry with its plan (its
    symbol, direction, levels, thread) untouched. *)
Theorem qa_never_touches_the_trade D tid inp w st n w' st' :
  steps D tid inp (QaAgent, w, st) (n, w', st') ->
  (n = QaAgent \/ n = QaTools \/ n = End) /\
  w_committed w' = w_committed w /\ w_reco w' = w_reco w /\ rtc (tool_write inp) (w_journal w) (w_journal w') /\
  ((forall i, In i inp -> scoring (i_run_tools i)) -> journal_wf (w_journal w) ->
   Forall2 settles (jrows (w_journal w)) (jrows (w_journal w')) /\ next_id (w_journal w') = next_id (w_journal w)) /\
  st_decision st' = st_decision st /\ st_hunt st' = st_hunt st /\
  st_debate st' = st_debate st /\ st_request st' = st_request st /\
  exists new, st_messages st' = st_messages st ++ new.
Proof.
  intros H. destruct (qa_steps _ _ _ _ _ H (or_introl eq_refl)) as (? & Hw & []). cbn in *.
  split; [done|]. pose proof Hw as [Ew Rw]. split; [by rewrite Ew|]. split; [by rewrite Ew|]. split; [done|].
  split; [|by split_and!]. intros S W. by apply (scores_settle _ _ (worked_scores _ _ _ S Hw)).
Qed.

(** Steps left from a Q&A node with [q] turns taken. *)
Definition qa_fuel (n : node) (q : Z) : Z :=
  match n with
  | QaAgent => 2 * Z.max 0 (MAX_QA_TURNS - 1 - q) + 1
  | QaTools => 2 * Z.max 0 (MAX_QA_TURNS - 1 - q) + 2
  | _ => 0
  end.

(** C23: The Q&A loop ends: a run entered with [q] turns taken makes at most
    [2 * max 0 (7 - q) + 1] steps, so fifteen for a fresh question, after which it
    can only have ended. *)
Theorem qa_terminates D tid inp w st c' :
  steps D tid inp (QaAgent, w, st) c' ->
  Z.of_nat (length inp) <= 2 * Z.max 0 (MAX_QA_TURNS - 1 - qa_turns (st_loop st)) + 1.
Proof.
  enough (forall c, steps D tid inp c c' -> node_of c = QaAgent \/ node_of c = QaTools ->
    (node_of c = QaTools -> qa_turns (st_loop (state_of_run c)) < MAX_QA_TURNS) ->
    Z.of_nat (length inp) <= qa_fuel (node_of c) (qa_turns (st_loop (state_of_run c)))) as Hg.
  { intros H. by apply (Hg _ H (or_introl eq_refl)). }
  clear w st. intros c H. induction H as [|i inp [[n w] st] c1 c2 H1 H2 IH]; intros Hn Hq.
  - destruct Hn as [->| ->]; cbn; lia.
  - cbn in Hn, Hq. destruct Hn as [->| ->]; cbn [step] in H1; mbind H1; injection H1 as <-.
    + apply qa_node_extends in E as [_ Ht]. unfold qa_should_continue in *.
      destruct (tool_calls (last_message a)); [|destruct (qa_turns (st_loop a) <? MAX_QA_TURNS) eqn:Q].
      * inversion H2; subst; [cbn; lia|done].
      * bools. specialize (IH (or_intror eq_refl) (fun _ => Q)). cbn in *. unfold MAX_QA_TURNS in *. lia.
      * inversion H2; subst; [cbn; lia|done].
    + destruct a as [w1 st1]. apply qa_tool_node_extends in E as (_ & Ht & _). specialize (Hq eq_refl).
      specialize (IH (or_introl eq_refl)). cbn in *. unfold MAX_QA_TURNS in *. rewrite Ht in IH.
      specialize (IH ltac:(done)). lia.
Qed.

(** ** Witnesses *)

Definition demo_inputs : inputs :=
  {| i_now := 100%float; i_later := 101%float; i_response := ai_message (VStr "thinking") [] [];
     i_system := ai_message (VStr "") [] []; i_advocate := ai_message (VStr "") [] []; i_role_response := Raise ValueError;
     i_judge_llm := fun _ => Raise ValueError; i_prompt := []; i_hit := None;
     i_qa_response := fun final => if final : bool then ai_message (VStr "answer") [] []
                                   else ai_message (VStr "") [demo_call "get_candles" "c1" []] [];
     i_run_tools := demo_tools; i_subagent := fun _ _ _ => EmptyString |}.

(** The run a list of inputs gives, while it lasts. *)
Fixpoint run (tid : option string) (inp : list inputs) (c : config) : res config :=
  match inp with
  | [] => Ok c
  | i :: inp' => c' ← step demo_deployment tid i c; run tid inp' c'
  end.

Lemma run_steps tid inp c c' : run tid inp c = Ok c' -> steps demo_deployment tid inp c c'.
Proof.
  revert c. induction inp as [|i inp IH]; intros c H; cbn [run] in H; [injection H as <-; constructor|].
  mbind H. by eapply steps_cons; [|apply IH].
Qed.

(** Tools that score the open trades on the way, as the track record's does. *)
Definition scoring_tools (db : journal) (calls : list val) : res (journal * list val) :=
  ms ← demo_tools db calls;
  Ok ((score_open_trades 0 (fun _ => 10%float) (fun _ => 10%float) (fun _ _ => [num_candle 5000 100 125 95 120]) db VNone).1,
      ms.2).

Definition qa_inputs : inputs :=
  {| i_now := 100%float; i_later := 101%float; i_response := ai_message (VStr "thinking") [] [];
     i_system := ai_message (VStr "") [] []; i_advocate := ai_message (VStr "") [] []; i_role_response := Raise ValueError;
     i_judge_llm := fun _ => Raise ValueError; i_prompt := []; i_hit := None;
     i_qa_response := i_qa_response demo_inputs; i_run_tools := scoring_tools; i_subagent := fun _ _ _ => EmptyString |}.

Lemma scoring_tools_scoring : scoring scoring_tools.
Proof. intros db calls db' out H. injection H as <- _. apply rtc_once. constructor. Qed.

(** A question the model answers only when it has no tools left: fifteen steps, from
    a journal with two open trades. *)
Definition demo_qa : config := (QaAgent, with_journal empty_world two_open, demo_state true []).
Definition demo_qa_end : config := match run None (replicate 15 qa_inputs) demo_qa with Ok c => c | Raise _ => demo_qa end.

Lemma demo_qa_run : run None (replicate 15 qa_inputs) demo_qa = Ok demo_qa_end.
Proof. vm_compute. reflexivity. Qed.

Lemma qa_never_touches_the_trade_witness :
  node_of demo_qa_end = End /\ w_committed (world_of demo_qa_end) = [] /\ st_decision (state_of_run demo_qa_end) = VNone /\
  Forall2 settles (jrows two_open) (jrows (w_journal (world_of demo_qa_end))) /\
  map (fun r => col r "status") (jrows (w_journal (world_of demo_qa_end))) = [VStr "win"; VStr "win"].
Proof.
  destruct (qa_never_touches_the_trade demo_deployment None (replicate 15 qa_inputs) (with_journal empty_world two_open)
              (demo_state true []) (node_of demo_qa_end) (world_of demo_qa_end) (state_of_run demo_qa_end))
    as (_ & Hw & _ & _ & Hj & Hd & _).
  - apply run_steps. transitivity (Ok demo_qa_end : res config); [exact demo_qa_run|by destruct demo_qa_end as [[? ?] ?]].
  - split_and!; [vm_compute; reflexivity|exact Hw|exact Hd| |vm_compute; reflexivity].
    apply Hj; [|exact two_open_wf]. intros i Hi%list_elem_of_In%elem_of_replicate_inv. subst i. exact scoring_tools_scoring.
Defined.

Lemma qa_terminates_witness : Z.of_nat (length (replicate 15 qa_inputs)) <= 15.
Proof.
  apply (qa_terminates demo_deployment None (replicate 15 qa_inputs) (with_journal empty_world two_open)
           (demo_state true []) demo_qa_end).
  apply run_steps, demo_qa_run.
Defined.
