(* ===== verification/GraphRunFacts.v ===== *)
(** * The agent graph: whole analysis runs

    An analysis run writes nothing before it ends but what its tool calls write to the
    journal, and when it ends it has committed exactly one decision, to which the
    run's answer belongs; reasoning-only turns and
    debate rounds are bounded; turns that call tools are not. *)

From stdpp Require Import base list gmap strings.
From Stdlib Require Import ZArith Lia Floats Ascii.
From S2P Require Import Prelude PyFloat PyNum PyVal PyEnv PyJson TradeManager Debate DebateFacts Opportunity JournalTags Journal.
From S2P Require Import Contracts Attribution HashChain GraphMessages GraphEvidence GraphRecord Graph GraphNodes GraphDebate.
From S2P Require Import GraphFlow GraphFacts GraphFlowFacts.

Open Scope Z_scope.
Open Scope res_scope.

(** ** Dictionaries *)

Lemma dict_find_pop k l k' : k' <> k -> dict_find k' (dict_pop k l) = dict_find k' l.
Proof.
  intros N. unfold dict_pop. induction l as [|[key v] l IH]; [done|]. cbn [List.filter fst].
  destruct key; cbn [text_is negb dict_find]; try exact IH.
  destruct (String.eqb_spec s k) as [->|Hs]; cbn [negb dict_find].
  - by rewrite (proj2 (String.eqb_neq _ _) N).
  - destruct (String.eqb k' s); [done|exact IH].
Qed.

Lemma dict_get_pop k l k' : k' <> k -> dict_get (dict_pop k l) k' = dict_get l k'.
Proof. intros N. unfold dict_get. by rewrite dict_find_pop. Qed.

Lemma dict_pop_nonempty k l k' : dict_find k' l <> None -> k' <> k -> dict_pop k l <> [].
Proof. intros H N E. rewrite <- (dict_find_pop k l k' N), E in H. done. Qed.

(** ** Decisions *)

(** The parts of an answer a node may still rewrite after the commit. *)
Definition presentation : list string := ["setup_validation"; "execution_plan"; "_debate"]%string.

(** Two decisions that differ in presentation only. *)
Definition same_trade (d d' : list (val * val)) : Prop :=
  forall k, ~ In k presentation -> dict_get d' k = dict_get d k.

Lemma same_trade_refl d : same_trade d d.
Proof. done. Qed.

Lemma surface_read_same d : same_trade d (surface_read d).
Proof.
  intros k N. assert (k <> "setup_validation" /\ k <> "execution_plan")%string as [N1 N2].
  { split; intros ->; apply N; cbn; tauto. }
  unfold surface_read. destruct (dict_get d "best_current_read"); try done. destruct (dict_get d "setup_validation"); try done.
  destruct (read_bits kvs); [done|]. by rewrite !dict_get_set_ne.
Qed.

Lemma surface_read_nonempty d : d <> [] -> surface_read d <> [].
Proof.
  intros N. unfold surface_read. destruct (dict_get d "best_current_read"); try done. destruct (dict_get d "setup_validation"); try done.
  destruct (read_bits kvs); [done|]. apply dict_set_nonempty.
Qed.

Lemma pop_same d : same_trade d (dict_pop "_debate" d).
Proof. intros k N. apply dict_get_pop. intros ->. apply N. cbn. tauto. Qed.

(** ** The chokepoint *)

Definition TRADE_KEYS : list string := ["action"; "entry"; "stop_loss"; "take_profit"]%string.

Lemma trade_key_ne k k' : In k TRADE_KEYS -> ~ In k' TRADE_KEYS -> k <> k'.
Proof. intros H N ->. done. Qed.

Ltac trade_key := first [done | apply trade_key_ne; [assumption|cbn; intuition discriminate]].

Lemma dict_find_set_eq l k v : dict_find k (dict_set l k v) <> None.
Proof. by rewrite dict_find_set, String.eqb_refl. Qed.

Lemma dict_find_set_keeps l k k' v : dict_find k' l <> None -> dict_find k' (dict_set l k v) <> None.
Proof. rewrite dict_find_set. by destruct (String.eqb k' k). Qed.

Lemma label_degraded_keeps messages d k : In k TRADE_KEYS -> dict_get (label_degraded messages d) k = dict_get d k.
Proof.
  intros H. unfold label_degraded. destruct (_core_acquisition_resolved messages); [done|]. cbv zeta.
  destruct (dict_get (dict_set d "data_degraded" (VBool true)) "defensibility"); rewrite ?dict_get_set_ne by trade_key; done.
Qed.

Lemma label_degraded_record messages d :
  dict_find "defensibility" d <> None -> dict_find "defensibility" (label_degraded messages d) <> None.
Proof.
  intros H. unfold label_degraded. destruct (_core_acquisition_resolved messages); [done|]. cbv zeta.
  destruct (dict_get (dict_set d "data_degraded" (VBool true)) "defensibility"); repeat apply dict_find_set_keeps; done.
Qed.

(** The stamp and the weight map leave the trade itself alone. *)
Lemma stamp_keeps D st d k : In k TRADE_KEYS -> dict_get (stamp_of D st d) k = dict_get d k.
Proof.
  intros H. unfold stamp_of, _stamp_opportunity_tier. destruct (mbind _ _) as [[[ev action] t]|]; [|done]. cbv zeta.
  destruct (size_factor _ _); [|by rewrite dict_get_set_ne by trade_key].
  destruct (String.eqb _ _); [|by rewrite !dict_get_set_ne by trade_key].
  destruct (_best_current_read _ _); [|by rewrite !dict_get_set_ne by trade_key].
  destruct (has_key _ _); by rewrite !dict_get_set_ne by trade_key.
Qed.

Lemma weight_keeps e db symbol d k : In k TRADE_KEYS -> dict_get (_apply_weight_map_to_conviction e db symbol d) k = dict_get d k.
Proof.
  intros H. unfold _apply_weight_map_to_conviction. destruct (negb _); [done|].
  destruct (dict_get d "defensibility"); try done. destruct (derive_setup_tags _); [|done]. cbv zeta.
  destruct (scale_conviction _ _) as [[z|]|]; by rewrite !dict_get_set_ne by trade_key.
Qed.

Lemma weight_keeps_record e db symbol d :
  dict_find "defensibility" d <> None -> dict_find "defensibility" (_apply_weight_map_to_conviction e db symbol d) <> None.
Proof.
  intros H. unfold _apply_weight_map_to_conviction. destruct (negb _); [done|].
  destruct (dict_get d "defensibility"); try done. destruct (derive_setup_tags _); [|done]. cbv zeta.
  destruct (scale_conviction _ _) as [[z|]|]; repeat apply dict_find_set_keeps; try done; apply dict_find_set_eq.
Qed.

Section runs.
Context (D : deployment) (tid : option string).

Lemma finalize_keeps now w st d0 w' d :
  _finalize_decision D now w st d0 tid = Ok (w', d) ->
  dict_find "defensibility" d <> None /\ forall k, In k TRADE_KEYS -> dict_get d k = dict_get d0 k.
Proof.
  unfold _finalize_decision. destruct (match tid with Some _ => _ | None => _ end) as [prior|].
  - intros [= <- <-]. split; [apply dict_find_set_eq|]. intros k H. by rewrite dict_get_set_ne by trade_key.
  - intros H. mbind H. injection H as _ <-. unfold decorate in E. mbind E. injection E as <-. split.
    + apply weight_keeps_record, label_degraded_record, dict_find_set_eq.
    + intros k Hk. rewrite weight_keeps, label_degraded_keeps by done.
      rewrite dict_get_set_ne by trade_key. by apply stamp_keeps.
Qed.

(** The one commit a run makes: what was decided, from which state, and the answer
    that presents it. *)
Definition committed (w w' : world) (answer : list (val * val)) (d0 : list (val * val)) : Prop :=
  exists now st d, _finalize_decision D now w st d0 tid = Ok (w', d) /\ same_trade d answer /\ answer <> [].

Lemma committed_trade w w' answer d0 k :
  committed w w' answer d0 -> In k TRADE_KEYS -> dict_get answer k = dict_get d0 k.
Proof.
  intros (now & st & d & F & S & _) Hk. rewrite S; [by eapply finalize_keeps|].
  intros Hp. apply (trade_key_ne k k) in Hk; [done|]. cbn in Hp |- *. intros Ht.
  destruct Hp as [<-|[<-|[<-|[]]]]; intuition discriminate.
Qed.

Lemma committed_plain now w st d0 w' d : _finalize_decision D now w st d0 tid = Ok (w', d) -> committed w w' d d0.
Proof. intros F. exists now, st, d. split_and!; [done|apply same_trade_refl|]. intros ->. by apply finalize_keeps in F as [? _]. Qed.

(** ** One step *)

Lemma call_model_keeps now sys adv resp st st' : call_model D now sys adv resp st = Ok st' -> st_decision st' = st_decision st.
Proof.
  unfold call_model. intros H. mbind H. mbind H. mbind H. injection H as <-.
  destruct (_ && _); reflexivity.
Qed.

Lemma tool_node_once inp i now w st w' st' :
  In i inp -> tool_node D (i_run_tools i) now tid w st = Ok (w', st') ->
  exists w1, worked inp w w1 /\
  ((w' = w1 /\ st_decision st' = st_decision st) \/
   exists answer d0, st_decision st' = VDict answer /\ committed w1 w' answer d0).
Proof.
  intros Hi H. destruct (tool_node_reads _ _ _ _ _ _ _ _ H) as (g & w1 & executed & h & extra & _ & X & _ & En & _).
  exists w1. split; [by eapply execute_worked|].
  inversion En as [| |w2 d closing Gr Gb Ga C R| | |tc args w2 d Gr Gb Gh Hin Hdc Had Hrj C]; subst; try (by left);
    right; eexists d, _; (split; [done|by eapply committed_plain]).
Qed.

Lemma force_hold_once now w st w' st' :
  force_hold D now tid w st = Ok (w', st') -> exists answer, st_decision st' = VDict answer /\ committed w w' answer forced_hold.
Proof.
  unfold force_hold, commit. intros H. mbind H. destruct a as [w1 d]. rename E into F. mbind H. injection H as <- <-.
  exists (surface_read d). split; [done|]. exists now, st, d. split_and!; [done|apply surface_read_same|].
  apply surface_read_nonempty. intros ->. by apply finalize_keeps in F as [? _].
Qed.

Lemma force_terminal_once now w st w' st' :
  force_terminal D now tid w st = Ok (w', st') ->
  exists answer reason, st_decision st' = VDict answer /\ committed w w' answer (terminal_hold reason).
Proof.
  unfold force_terminal, commit. intros H. mbind H. mbind H. destruct a0 as [w1 d].
  mbind H. injection H as <- <-. eexists d, _. split; [done|by eapply committed_plain].
Qed.

(** The Judge's tools write the journal only. *)
Lemma clarify_writes inp i budget used db calls db' r :
  In i inp -> clarify (i_run_tools i) budget used db calls = Ok (db', r) -> rtc (tool_write inp) db db'.
Proof.
  intros Hi. revert used db r. induction calls as [|c calls IH]; intros used db r H; cbn [clarify] in H.
  - by injection H as <- _.
  - destruct (budget <=? used).
    + mbind H. destruct a as [db1 [out u]]. injection H as <- _. by eapply IH.
    + mbind H. destruct a as [db1 answered]. mbind H. destruct a as [db2 [out u]]. injection H as <- _.
      eapply rtc_l; [|by eapply IH]. exists i; eauto.
Qed.

Lemma judge_turn_writes inp i budget used db response db' r :
  In i inp -> judge_turn (i_run_tools i) budget used db response = Ok (db', r) -> rtc (tool_write inp) db db'.
Proof.
  intros Hi. unfold judge_turn. intros H. mbind H. destruct (List.filter (call_named "declare_trade") _).
  - destruct (List.filter is_readonly _); [by injection H as <- _|]. mbind H. destruct a0 as [db1 [answered u]].
    injection H as <- _. by eapply clarify_writes.
  - mbind H. destruct a0 as [db1 declared]. mbind H. injection H as <- _. apply rtc_once. exists i; eauto.
Qed.

Lemma judge_loop_writes inp i llm iters budget used db msgs db' r :
  In i inp -> judge_loop (i_run_tools i) llm iters budget used db msgs = Ok (db', r) -> rtc (tool_write inp) db db'.
Proof.
  intros Hi. revert used db msgs r. induction iters as [|iters IH]; intros used db msgs r H; cbn [judge_loop] in H.
  - by injection H as <- _.
  - destruct (llm msgs) as [response|]; [|by injection H as <- _]. mbind H. destruct a as [db1 [out v]].
    apply (judge_turn_writes _ _ _ _ _ _ _ _ Hi) in E.
    destruct v; [by injection H as <- _..|]. mbind H. destruct a as [db2 [more d]]. injection H as <- _.
    etransitivity; [exact E|by eapply IH].
Qed.

Lemma judge_node_once inp i now llm prompt w st w' st' :
  In i inp -> judge_node D (i_run_tools i) now tid llm prompt w st = Ok (w', st') ->
  exists w1, worked inp w w1 /\ exists answer d0, st_decision st' = VDict answer /\ committed w1 w' answer d0.
Proof.
  intros Hi. unfold judge_node. intros H. mbind H. destruct a as [consensus conviction].
  mbind H. destruct a as [db [messages decision]]. exists (with_journal w db).
  split; [split; [done|by eapply judge_loop_writes]|].
  mbind H. destruct a as [w1 d]. rename E1 into F.
  assert (forall answer, answer = dict_pop "_debate" d -> committed (with_journal w db) w1 answer
    (dict_set (match decision with Some x => x | None => debate_hold consensus conviction end) "_debate"
       (debate_carrier st consensus conviction))) as C.
  { intros answer ->. exists now, st, d. split_and!; [done|apply pop_same|].
    apply (dict_pop_nonempty _ _ "defensibility"); [by eapply finalize_keeps|done]. }
  destruct decision; [|mbind H]; injection H as <- <-; eexists _, _; (split; [reflexivity|by apply C]).
Qed.

(** ** Runs *)

Definition analysing (n : node) : Prop := n <> QaAgent /\ n <> QaTools /\ n <> End.

(** Where an analysis run entered with the stores [w] stands: its tools have written
    and it has decided nothing, or it has ended on its one commit. *)
Definition standing (inp : list inputs) (w : world) (decision : val) (c : config) : Prop :=
  exists w1, worked inp w w1 /\
  ((analysing (node_of c) /\ world_of c = w1 /\ st_decision (state_of_run c) = decision) \/
   (node_of c = End /\ exists answer d0, st_decision (state_of_run c) = VDict answer /\ committed w1 (world_of c) answer d0)).

Lemma truthy_answer w w' answer d0 : committed w w' answer d0 -> truthy (VDict answer) = true.
Proof. intros (? & ? & ? & _ & _ & N). by destruct answer. Qed.

Lemma standing_step inp w decision i c c' :
  truthy decision = false -> In i inp -> standing inp w decision c -> step D tid i c = Ok c' -> standing inp w decision c'.
Proof.
  intros Hf Hi (w1 & Hk & [((Hqa & Hqt & He) & Hw & Hd)|[He _]]) H; destruct c as [[n w0] st]; cbn in *; subst; [|done].
  assert (analysing Bull /\ analysing Bear /\ analysing Judge /\ analysing Agent /\ analysing Tools /\
          analysing ForceHold /\ analysing ForceTerminal) as (AB & AE & AJ & AA & AT & AH & AF) by done.
  destruct n; try done; cbn [step] in H.
  - mbind H. mbind H. injection H as <-. exists w1. split; [done|]. left. cbn. pose proof (call_model_keeps _ _ _ _ _ _ E) as K. split; [|done].
    destruct a0; try done. unfold should_continue in E0. destruct (tool_calls _).
    + rewrite K, Hf in E0. mbind E0. destruct a0; [done|]. by repeat case_match.
    + destruct (existsb is_watch _); [|done]. mbind E0. by destruct a0.
  - mbind H. destruct a as [w2 st1]. injection H as <-. cbn [fst snd].
    apply (tool_node_once inp) in E as (w3 & Hk' & [[-> E]|(answer & d0 & E & C)]); [..|done];
      (exists w3; split; [by etransitivity|]).
    + left. split; [|by split]. cbn. unfold route_after_tools. rewrite E, Hf. by destruct (phase_is _ _).
    + right. cbn. unfold route_after_tools. rewrite E, (truthy_answer _ _ _ _ C). split; [done|eauto].
  - mbind H. destruct a as [w2 st1]. injection H as <-. apply force_hold_once in E as (answer & E & C).
    exists w1. split; [done|]. right. split; [done|]. eauto.
  - mbind H. destruct a as [w2 st1]. injection H as <-. apply force_terminal_once in E as (answer & reason & E & C).
    exists w1. split; [done|]. right. split; [done|]. eauto.
  - mbind H. injection H as <-. exists w1. split; [done|]. left. split; [done|]. split; [done|]. cbn. unfold bull_node, _run_debate_role in E. mbind E. by injection E as <-.
  - mbind H. injection H as <-. exists w1. split; [done|]. left. split; [cbn; by destruct (route_debate _ _)|]. split; [done|]. cbn.
    unfold bear_node, _run_debate_role in E. mbind E. by injection E as <-.
  - mbind H. destruct a as [w2 st1]. injection H as <-. apply (judge_node_once inp) in E as (w3 & Hk' & answer & d0 & E & C); [|done].
    exists w3. split; [by etransitivity|]. right. split; [done|]. eauto.
Qed.

(** C3: An analysis run commits exactly once, as it ends: entered at the agent with
    no decision, it decides nothing while it runs, and of the stores only the journal
    is written, by the run's own tool calls in sequence; when it ends, the stores hold
    in addition the effect of one pass through the chokepoint, made from what the
    tool calls had left, and the answer agrees with what that pass returned except in
    presentation, its trade being the one handed to the chokepoint. *)
Theorem run_commits_once inp w st n w' st' :
  truthy (st_decision st) = false -> steps D tid inp (Agent, w, st) (n, w', st') ->
  exists w1,
  w_committed w1 = w_committed w /\ w_reco w1 = w_reco w /\ rtc (tool_write inp) (w_journal w) (w_journal w1) /\
  (n <> End -> w' = w1 /\ st_decision st' = st_decision st) /\
  (n = End -> exists answer d0 now st0 d,
     st_decision st' = VDict answer /\ _finalize_decision D now w1 st0 d0 tid = Ok (w', d) /\ same_trade d answer /\
     forall k, In k TRADE_KEYS -> dict_get answer k = dict_get d0 k).
Proof.
  intros Hf H.
  assert (standing inp w (st_decision st) (n, w', st')) as (w1 & [Ew Rw] & S).
  { refine (steps_ind_in D tid (standing inp w (st_decision st)) _ _ _ _ H _).
    - intros i c c' Hi. by apply standing_step.
    - exists w. split; [reflexivity|]. by left. }
  exists w1. split; [by rewrite Ew|]. split; [by rewrite Ew|]. split; [done|].
  destruct S as [((_ & _ & Hn) & Hw & Hd)|[Hn (answer & d0 & Ha & C)]]; cbn in *; (split; [|]; try done).
  intros _. pose proof C as (now & st0 & d & F & Hs & _). exists answer, d0, now, st0, d. split_and!; try done.
  intros k Hk. by eapply committed_trade.
Qed.
End runs.

(** ** The calls of an annotated response *)

Lemma assoc_set_attr k v attrs k' : assoc_str k' (set_attr k v attrs) = if String.eqb k' k then Some v else assoc_str k' attrs.
Proof.
  induction attrs as [|[k0 v0] attrs IH]; cbn; [done|]. destruct (String.eqb_spec k k0) as [<-|N]; cbn.
  - by destruct (String.eqb k' k).
  - destruct (String.eqb_spec k' k0) as [->|N']; [|exact IH]. by rewrite (proj2 (String.eqb_neq k0 k)) by congruence.
Qed.

Lemma annotate_calls resp calls status synthetic :
  extract_tool_calls resp = Ok calls ->
  tool_calls (annotate resp calls status synthetic) =
  map (fun c => call_dict (VStr (ec_name c)) (VStr (ec_id c)) (VDict (default [] (ec_args c)))) calls.
Proof.
  intros H. unfold annotate, tool_calls. destruct resp; try (by injection H as <-).
  cbv zeta. cbn [setattr vattr]. by rewrite !assoc_set_attr.
Qed.

(** ** Bounds *)

Section bounds.
Context (D : deployment) (tid : option string).

(** A run of turns that go from the agent straight back to the agent. *)
Inductive streak : list inputs -> config -> config -> Prop :=
  | streak_nil c : streak [] c c
  | streak_cons i inp w st c c' :
      step D tid i (Agent, w, st) = Ok c -> node_of c = Agent -> streak inp c c' -> streak (i :: inp) (Agent, w, st) c'.

Abbreviation max_reasoning := (resolve_max_reasoning_turns (d_env D)).

Lemma call_model_counts now sys adv resp st st' :
  call_model D now sys adv resp st = Ok st' ->
  exists calls, extract_tool_calls resp = Ok calls /\
    reasoning_turns (st_loop st') = (match calls with [] => reasoning_turns (st_loop st) + 1 | _ => 0 end) /\
    st_request st' = st_request st /\ session_turns (st_hunt st') = session_turns (st_hunt st) + 1 /\
    last_message st' = annotate resp calls ec_status _synthetic_failure_content.
Proof.
  unfold call_model. intros H. mbind H. mbind H. mbind H. injection H as <-. exists a0. split; [done|].
  unfold last_message. destruct (_ && _); cbn [with_phase with_debate with_messages st_messages st_loop st_request st_hunt reasoning_turns session_turns with_hunt with_loop];
    (split_and!; try done; destruct (_should_run_verify_devils_advocate _ _);
     [change [?a; ?b] with ([a] ++ [b]); rewrite app_assoc|]; rewrite last_snoc; done).
Qed.

Lemma reasoning_step i w st c :
  step D tid i (Agent, w, st) = Ok c -> node_of c = Agent ->
  reasoning_turns (st_loop (state_of_run c)) = reasoning_turns (st_loop st) + 1 /\
  reasoning_turns (st_loop (state_of_run c)) < max_reasoning.
Proof.
  cbn [step]. intros H Hn. mbind H. mbind H. injection H as <-. cbn [node_of fst snd state_of_run] in *.
  assert (a0 = RLoopAgent) as -> by (by destruct a0). apply call_model_counts in E as (calls & Hx & Hr & _ & _ & Hl).
  unfold should_continue in E0. rewrite Hl, (annotate_calls _ _ _ _ Hx) in E0.
  destruct calls; [|cbn [map] in E0; destruct (existsb is_watch _); [mbind E0; by destruct a0|done]].
  cbn [map] in E0. destruct (truthy _); [done|]. mbind E0. destruct a0; [done|].
  destruct (reasoning_turns (st_loop a) <? max_reasoning) eqn:B; [|by destruct (name_in _ _)]. by apply Z.ltb_lt in B.
Qed.

(** Reasoning without acting is bounded: however the model answers, the agent
    follows itself at most as many times as the configured reasoning budget has
    turns left. *)
Theorem reasoning_streak_bounded inp w st c :
  streak inp (Agent, w, st) c -> Z.of_nat (length inp) <= Z.max 0 (max_reasoning - 1 - reasoning_turns (st_loop st)).
Proof.
  revert w st. induction inp as [|i inp IH]; intros w st H; inversion H as [|? ? ? ? c1 ? H1 H2 H3]; subst; [cbn; lia|].
  destruct c1 as [[n w1] st1]. pose proof (reasoning_step _ _ _ _ H1 H2) as [Hr Hb]. cbn in *. subst n.
  specialize (IH _ _ H3). lia.
Qed.

(** ** The debate *)

Abbreviation dcfg := (resolve_debate_config (d_env D) (d_model_name D)).

(** The node a debate stands at after its [k]-th turn. *)
Definition debate_node (k : nat) : node :=
  if Nat.even k then (if Z.of_nat k <? 2 * rounds dcfg then Bull else Judge) else Bear.

Definition at_turn (k : nat) (w : world) (c : config) : Prop :=
  node_of c = debate_node k /\ world_of c = w /\ debate_turns (st_debate (state_of_run c)) = Z.of_nat k /\
  (Nat.even k = false -> debate_round (st_debate (state_of_run c)) = Z.of_nat k / 2 + 1).

Lemma odd_half k : Nat.even k = false -> Z.of_nat (S k) / 2 = Z.of_nat k / 2 + 1 /\ Z.of_nat (S k) = 2 * (Z.of_nat k / 2) + 2.
Proof.
  intros H. rewrite <- Nat.negb_odd, negb_false_iff in H. apply Nat.odd_spec in H as [m ->].
  replace (Z.of_nat (2 * m + 1)) with (2 * Z.of_nat m + 1) by lia. replace (Z.of_nat (S (2 * m + 1))) with (2 * (Z.of_nat m + 1)) by lia.
  rewrite Z.mul_comm, Z.div_mul by lia. replace ((2 * Z.of_nat m + 1) / 2) with (Z.of_nat m); [lia|].
  apply Z.div_unique with 1; lia.
Qed.

Lemma debate_step k w i c c' :
  Z.of_nat k < 2 * rounds dcfg -> at_turn k w c -> step D tid i c = Ok c' -> at_turn (S k) w c'.
Proof.
  intros Hk (Hn & Hw & Ht & Hr) H. destruct c as [[n w0] st]. cbn in Hn, Hw, Ht, Hr. subst w0. unfold debate_node in Hn.
  destruct (Nat.even k) eqn:P.
  - rewrite (proj2 (Z.ltb_lt _ _) Hk) in Hn. subst n. cbn [step] in H. mbind H. injection H as <-.
    unfold bull_node, _run_debate_role in E. mbind E. injection E as <-.
    unfold at_turn, debate_node. rewrite Nat.even_succ, <- Nat.negb_even, P. cbn. split; [done|]. split; [done|]. split; [lia|]. intros _.
    rewrite Ht. unfold TURNS_PER_ROUND. apply Nat.even_spec in P as [m ->].
    replace (Z.of_nat (S (2 * m))) with (2 * Z.of_nat m + 1) by lia. replace (Z.of_nat (2 * m)) with (Z.of_nat m * 2) by lia.
    rewrite Z.div_mul by lia. replace ((2 * Z.of_nat m + 1) / 2) with (Z.of_nat m); [done|]. apply Z.div_unique with 1; lia.
  - subst n. cbn [step] in H. mbind H. injection H as <-. unfold bear_node, _run_debate_role in E. mbind E. injection E as <-.
    specialize (Hr eq_refl). destruct (odd_half _ P) as [Hh He].
    unfold at_turn, debate_node. rewrite Nat.even_succ, <- Nat.negb_even, P. node_fields. cbn [node_of world_of state_of_run fst snd negb debate_turns debate_round]. split; [|split; [done|split; [cbn; lia|done]]].
    unfold route_debate. unfold with_debate. cbn [st_debate debate_turns debate_round]. rewrite Ht, Hr. replace (Z.of_nat k + 1) with (Z.of_nat (S k)) by lia.
    pose proof (resolve_debate_config_bounded (d_env D) (d_model_name D)) as (B1 & B2 & _). cbv zeta in B1, B2.
    assert (0 <= Z.of_nat k / 2) by (apply Z.div_pos; lia).
    rewrite (proj2 (Z.eqb_neq _ _)) by lia.
    destruct (Z.ltb_spec (Z.of_nat k / 2 + 1) (rounds dcfg)), (Z.ltb_spec (Z.of_nat (S k)) (2 * rounds dcfg)); cbn [andb];
      try lia; [|done].
    rewrite (proj2 (Z.ltb_lt _ _)) by lia. done.
Qed.

(** A debate lasts exactly its configured rounds: from a fresh debate each step
    plays the next role, Bull and Bear in turn, without touching the stores; after
    twice [rounds] turns the Judge has the floor, and the step after that ends the
    run. *)
Theorem debate_rounds_exact inp w st c :
  debate_turns (st_debate st) = 0 -> steps D tid inp (Bull, w, st) c ->
  Z.of_nat (length inp) <= 2 * rounds dcfg + 1 /\
  (Z.of_nat (length inp) <= 2 * rounds dcfg ->
     node_of c = debate_node (length inp) /\ world_of c = w /\
     debate_turns (st_debate (state_of_run c)) = Z.of_nat (length inp)) /\
  (Z.of_nat (length inp) = 2 * rounds dcfg + 1 -> node_of c = End).
Proof.
  intros Ht H.
  assert (forall k c0, at_turn k w c0 -> Z.of_nat k <= 2 * rounds dcfg -> steps D tid inp c0 c ->
    let n := (k + length inp)%nat in
    Z.of_nat n <= 2 * rounds dcfg + 1 /\ (Z.of_nat n <= 2 * rounds dcfg -> at_turn n w c) /\
    (Z.of_nat n = 2 * rounds dcfg + 1 -> node_of c = End)) as G.
  { clear H Ht. induction inp as [|i inp IH]; intros k c0 A Hk H; inversion H as [|? ? ? c1 ? H3 H5]; subst; cbv zeta; cbn [length].
    - rewrite Nat.add_0_r. split_and!; [lia|done|lia].
    - destruct (Z.ltb_spec (Z.of_nat k) (2 * rounds dcfg)) as [L|L].
      + rewrite <- plus_n_Sm. apply (IH (S k) _ (debate_step _ _ _ _ _ L A H3)); [lia|done].
      + assert (Z.of_nat k = 2 * rounds dcfg) as Ek by lia. destruct A as (Hn & Hw & _).
        assert (Nat.even k = true) as Ev by (apply Nat.even_spec; exists (Z.to_nat (rounds dcfg)); lia).
        unfold debate_node in Hn. rewrite Ev, Ek, Z.ltb_irrefl in Hn. destruct c0 as [[n w0] st0]. cbn in Hn. subst n.
        cbn [step] in H3. mbind H3. injection H3 as <-. inversion H5; subst; [|done]. cbn [length]. split_and!; [lia|lia|done]. }
  pose proof (resolve_debate_config_bounded (d_env D) (d_model_name D)) as (B1 & _). cbv zeta in B1.
  destruct (G O (Bull, w, st)) as (G1 & G2 & G3); [|lia|done|].
  - unfold at_turn, debate_node. change (Z.of_nat 0) with 0. cbn [Nat.even node_of world_of state_of_run fst snd].
    rewrite (proj2 (Z.ltb_lt _ _)) by lia. by rewrite Ht.
  - cbn [Nat.add] in *. split_and!; [done| |done]. intros L. destruct (G2 L) as (? & ? & ? & _). done.
Qed.
End bounds.

(** ** What is not bounded *)

(** Nothing holds a data call back: no declaration gate, post-mortem or debate. *)
Record quiet (st : AgentState) : Prop := {
  quiet_decision : truthy (st_decision st) = false;
  quiet_research : phase_is st "research" = false;
  quiet_debate : phase_is st "debate" = false;
  quiet_mode : String.eqb (mode_name (rq_mode (st_request st))) DEBATE_MODE = false;
  quiet_resume : name_in ["heartbeat"]%string (last_resume_kind (st_hunt st)) = false;
  quiet_postmortem : postmortem_pending (st_hunt st) = false;
}.

(** The model asks for candles, whatever it is shown, and gets them. *)
Definition candles_call : val := demo_call "get_candles" "c1" [].

Definition asking (i : inputs) : Prop :=
  i_response i = ai_message (VStr "") [candles_call] [] /\ i_run_tools i = demo_tools.

Definition asked : val :=
  match extract_tool_calls (ai_message (VStr "") [candles_call] []) with
  | Ok calls => annotate (ai_message (VStr "") [candles_call] []) calls ec_status _synthetic_failure_content
  | Raise _ => VNone
  end.

Section unbounded.
Context (D : deployment) (tid : option string).

Context (limits : Z * nat) (readable : prune_limits (config_obj (d_opportunity D)) = Ok limits).

Lemma prune_messages_total msgs : exists out, prune_messages msgs (config_obj (d_opportunity D)) = Ok out.
Proof. unfold prune_messages. rewrite readable. destruct limits. eexists. reflexivity. Qed.

Lemma asking_turn i w st :
  asking i -> quiet st ->
  exists st', step D tid i (Agent, w, st) = Ok (Tools, w, st') /\ quiet st' /\ last_message st' = asked /\
              session_turns (st_hunt st') = session_turns (st_hunt st) + 1.
Proof.
  intros [Hr _] [Qd Qr Qb Qm Qh Qp]. cbn [step].
  assert (exists st', call_model D (i_now i) (i_system i) (i_advocate i) (i_response i) st = Ok st' /\ quiet st' /\
    last_message st' = asked /\ session_turns (st_hunt st') = session_turns (st_hunt st) + 1) as (st' & C & Q & L & T).
  { unfold call_model. cbv zeta.
    match goal with |- context [prune_messages ?m _] => destruct (prune_messages_total m) as [out ->] end.
    rewrite Hr. cbn [mbind res_bind]. rewrite Qm. cbn [andb].
    change (extract_tool_calls (ai_message (VStr "") [candles_call] [])) with
      (Ok [{| ec_name := "get_candles"; ec_args := Some []; ec_raw_args := "{}"; ec_status := SOk; ec_id := "c1" |}] : res (list ExtractedCall)).
    cbn [mbind res_bind]. eexists. split; [reflexivity|]. split_and!; [by split| |done].
    unfold last_message. cbn [with_messages with_hunt with_loop st_messages].
    destruct (_should_run_verify_devils_advocate _ _);
      [change [?a; ?b] with ([a] ++ [b]); rewrite app_assoc|]; rewrite last_snoc; reflexivity. }
  exists st'. split_and!; try done. rewrite C. cbn [mbind res_bind]. unfold should_continue. rewrite L. reflexivity.
Qed.
Lemma asked_tools i w st :
  asking i -> quiet st -> last_message st = asked ->
  exists st', step D tid i (Tools, w, st) = Ok (Agent, w, st') /\ quiet st' /\ session_turns (st_hunt st') = session_turns (st_hunt st).
Proof.
  intros [_ Ht] [Qd Qr Qb Qm Qh Qp] L. cbn [step]. rewrite Ht.
  assert (gate_calls D (i_now i) st =
          Ok {| g_ok := ok_calls_of asked; g_research := []; g_blocked := []; g_heartbeat := []; g_rearm := [] |}) as G.
  { unfold gate_calls, heartbeat_gate. rewrite Qr, Qh, Qp, L. cbn [andb].
    destruct (market_data_seen (st_loop st)); reflexivity. }
  exists (with_messages st (map (fun tc => tool_message (VStr "{}") (cid tc) (vget tc "name")) (ok_calls_of asked))).
  split; [|by split].
  unfold tool_node. rewrite G, L. cbn [mbind res_bind g_ok g_research g_blocked g_heartbeat g_rearm].
  change (execute demo_tools w (ok_calls_of asked)) with
    (Ok (with_journal w (w_journal w),
         map (fun tc => tool_message (VStr "{}") (cid tc) (vget tc "name")) (ok_calls_of asked)) : res (world * list val)).
  replace (with_journal w (w_journal w)) with w by (by destruct w).
  cbn [mbind res_bind]. change (failed_calls_of asked) with (@nil val). cbn [map answers app]. rewrite app_nil_r.
  unfold resume_bookkeeping. set (out := map _ (ok_calls_of asked)).
  change (resume_of out) with (@None resume). cbn [mbind res_bind].
  change (_decision_from_declare (ok_calls_of asked)) with (Ok None : res (option (list (val * val)))). cbn [mbind res_bind snd fst].
  unfold route_after_tools. node_fields. rewrite Qd. change (phase_is _ "debate") with (phase_is st "debate"). by rewrite Qb.
Qed.

(** Turns that call tools are not bounded by the session budget: whatever its
    limits, a model that keeps asking for data, and gets it, runs for any number of
    rounds without the run ending, its count of session turns going up each time. *)
Theorem tool_turns_escape_the_budget i w st n :
  asking i -> quiet st ->
  exists st', steps D tid (replicate (2 * n) i) (Agent, w, st) (Agent, w, st') /\ quiet st' /\
              session_turns (st_hunt st') = session_turns (st_hunt st) + Z.of_nat n.
Proof.
  intros A. revert st. induction n as [|n IH]; intros st Q.
  - exists st. split_and!; [constructor|done|lia].
  - destruct (asking_turn i w st A Q) as (st1 & S1 & Q1 & L1 & T1). destruct (asked_tools i w st1 A Q1 L1) as (st2 & S2 & Q2 & T2).
    destruct (IH st2 Q2) as (st' & S3 & Q3 & T3). exists st'. split_and!; [|done|lia].
    replace (2 * S n)%nat with (S (S (2 * n))) by lia. cbn [replicate]. by do 2 (eapply steps_cons; [done|]).
Qed.
End unbounded.

(** ** Concrete runs *)

(** The model thinks, asks to declare, and the declaration commits. *)
Definition demo_declaring : inputs :=
  {| i_now := 100%float; i_later := 101%float; i_response := ai_message (VStr "") [demo_declare] [];
     i_system := ai_message (VStr "") [] []; i_advocate := ai_message (VStr "") [] []; i_role_response := Raise ValueError;
     i_judge_llm := fun _ => Raise ValueError; i_prompt := []; i_hit := None;
     i_qa_response := fun _ => ai_message (VStr "") [] []; i_run_tools := demo_tools; i_subagent := fun _ _ _ => EmptyString |}.

Definition demo_script : list inputs := [demo_inputs; demo_declaring; demo_declaring].
Definition demo_begin : AgentState := demo_state true [].

Definition demo_analysis : config :=
  Eval vm_compute in match run (Some "th"%string) demo_script (Agent, empty_world, demo_begin) with
                     | Ok c => c | Raise _ => (Agent, empty_world, demo_begin) end.

Lemma demo_analysis_ok :
  run (Some "th"%string) demo_script (Agent, empty_world, demo_begin) = Ok (End, demo_analysis.1.2, demo_analysis.2).
Proof. vm_compute. reflexivity. Qed.

Lemma run_commits_once_witness :
  exists answer d0, st_decision demo_analysis.2 = VDict answer /\ dict_get answer "action" = dict_get d0 "action".
Proof.
  destruct (run_commits_once demo_deployment (Some "th"%string) demo_script empty_world demo_begin End demo_analysis.1.2
              demo_analysis.2) as (w1 & _ & _ & _ & _ & H).
  - reflexivity.
  - apply run_steps, demo_analysis_ok.
  - destruct (H eq_refl) as (answer & d0 & _ & _ & _ & Ha & _ & _ & Hk). exists answer, d0. split; [exact Ha|].
    apply Hk. left. reflexivity.
Defined.

Definition thinking_once : config :=
  Eval vm_compute in match step demo_deployment None demo_inputs (Agent, empty_world, demo_begin) with
                     | Ok c => c | Raise _ => (End, empty_world, demo_begin) end.

Lemma thinking_once_ok : step demo_deployment None demo_inputs (Agent, empty_world, demo_begin) = Ok thinking_once.
Proof. vm_compute. reflexivity. Qed.

Lemma reasoning_streak_bounded_witness : Z.of_nat (length [demo_inputs]) <= 5.
Proof.
  apply (reasoning_streak_bounded demo_deployment None [demo_inputs] empty_world demo_begin thinking_once).
  eapply streak_cons; [exact thinking_once_ok|reflexivity|constructor].
Defined.

Definition demo_debate : config :=
  Eval vm_compute in match run None (replicate 2 demo_inputs) (Bull, empty_world, demo_begin) with
                     | Ok c => c | Raise _ => (End, empty_world, demo_begin) end.

Lemma demo_debate_ok : run None (replicate 2 demo_inputs) (Bull, empty_world, demo_begin) = Ok demo_debate.
Proof. vm_compute. reflexivity. Qed.

(** One round, with the default configuration. *)
Lemma debate_rounds_exact_witness : Z.of_nat (length (replicate 2 demo_inputs)) <= 2 * 1 + 1.
Proof.
  apply (debate_rounds_exact demo_deployment None (replicate 2 demo_inputs) empty_world demo_begin demo_debate).
  - reflexivity.
  - apply run_steps, demo_debate_ok.
Defined.

Definition demo_asking : inputs :=
  {| i_now := 100%float; i_later := 101%float; i_response := ai_message (VStr "") [candles_call] [];
     i_system := ai_message (VStr "") [] []; i_advocate := ai_message (VStr "") [] []; i_role_response := Raise ValueError;
     i_judge_llm := fun _ => Raise ValueError; i_prompt := []; i_hit := None;
     i_qa_response := fun _ => ai_message (VStr "") [] []; i_run_tools := demo_tools; i_subagent := fun _ _ _ => EmptyString |}.

(** A thousand rounds, past a budget of forty turns. *)
Lemma tool_turns_escape_the_budget_witness :
  exists st', steps demo_deployment None (replicate (2 * 1000) demo_asking) (Agent, empty_world, demo_begin) (Agent, empty_world, st') /\
              session_turns (st_hunt st') = 1001.
Proof.
  destruct (tool_turns_escape_the_budget demo_deployment None
              (match prune_limits (config_obj (d_opportunity demo_deployment)) with Ok l => l | Raise _ => (0, O) end)
              eq_refl demo_asking empty_world demo_begin 1000) as (st' & H & _ & T).
  - split; reflexivity.
  - split; reflexivity.
  - exists st'. split; [exact H|exact T].
Defined.
