(* ===== verification/GraphEvidenceFacts.v ===== *)
(** * The agent graph: the record cites what the tools returned

    No entry is fabricated: a field of an available entry is the tool's own; what a
    record says against a trade is said exactly when the evidence is against it; a
    taken trade is never tagged a stand-aside; the checks a VERIFY run reports agree
    with the validator; and a plan that is not text ends the run instead of the trade. *)

From stdpp Require Import base list strings.
From Stdlib Require Import ZArith Lia Floats Ascii.
From S2P Require Import Prelude PyFloat PyRound PyDiv PyNum PyVal PyEnv PyStats PyJson PyStr PlanText TradeManager Validator.
From S2P Require Import ValidatorFacts.
From S2P Require Import Debate Opportunity Contracts JournalTags Journal Attribution TradeTools HashChain GraphMessages.
From S2P Require Import GraphEvidence GraphRecord Graph GraphNodes GraphFacts.

#[local] Set Warnings "-inexact-float".
Open Scope Z_scope.
Open Scope res_scope.

(** ** Entries *)

Lemma dict_find_copy keys r k : dict_find k (copy keys r) = if str_in k keys then Some (dict_get r k) else None.
Proof.
  unfold copy, str_in. induction keys as [|k' keys IH]; [done|]. cbn [map dict_find existsb].
  destruct (String.eqb_spec k k') as [->|N]; [done|]. by rewrite IH.
Qed.

Lemma dict_find_app k l m : dict_find k (l ++ m) = match dict_find k l with Some v => Some v | None => dict_find k m end.
Proof.
  induction l as [|[key v] l IH]; [done|]. cbn [app dict_find]. destruct key; try exact IH. by destruct (String.eqb k s).
Qed.

(** What an entry reads off its tool: a dictionary the tool returned, not marked
    unavailable. *)
Definition reads (results : list (val * val)) (tool : string) (r : list (val * val)) : Prop :=
  dict_get results tool = VDict r /\ dict_get r "unavailable" <> VBool true.

Lemma tool_entry_cases tool label what results usable copied e :
  tool_entry tool label what results usable copied = Ok e ->
  (exists reason, e = unavailable reason) \/
  (exists r, reads results tool r /\ usable r = Ok true /\ e = VDict ((VStr "available", VBool true) :: copied r)).
Proof.
  unfold tool_entry, reads. intros H. destruct (dict_get results tool) as [| | | | | | | | |r|]; try (injection H as <-; left; eauto).
  destruct (dict_get r "unavailable") as [|[]| | | | | | | | |] eqn:U; try (injection H as <-; left; eauto);
    (mbind H; injection H as <-; destruct a; [right; exists r; split_and!; try done; congruence|left; eauto]).
Qed.

Lemma unavailable_entry reason : available_entry (unavailable reason) = false.
Proof. done. Qed.

Lemma dict_find_carried keys r k : dict_find k (carried keys r) = if str_in k keys then dict_find k r else None.
Proof.
  unfold carried, str_in. induction keys as [|k' keys IH]; [done|]. cbn [omap list_omap existsb].
  destruct (String.eqb_spec k k') as [->|N]; cbn [orb].
  - destruct (dict_find k' r) as [v|] eqn:E; [cbn [dict_find]; by rewrite String.eqb_refl|].
    fold (omap (fun k => match dict_find k r with Some v => Some (VStr k, v) | None => None end) keys).
    rewrite IH. by destruct (existsb _ keys).
  - destruct (dict_find k' r); [cbn [dict_find]; rewrite (proj2 (String.eqb_neq k k') N)|]; exact IH.
Qed.

(** How the record cites one tool: the entry's key, the tool, the fields copied, and
    what it states against a trade. *)
Record citation := {
  ci_key : string; ci_tool : string; ci_entry : list (val * val) -> res val; ci_fields : list string;
  ci_field : string; ci_against : string; ci_statement : string;
}.

Definition CITATIONS : list citation := [
  {| ci_key := "regime"; ci_tool := "get_market_regime"; ci_entry := _regime_entry;
     ci_fields := ["trend_state"; "volatility_state"; "favorability"];
     ci_field := "favorability"; ci_against := "unfavorable"; ci_statement := "trade_opposes_regime" |};
  {| ci_key := "relative_strength"; ci_tool := "get_relative_strength"; ci_entry := _relative_strength_entry;
     ci_fields := ["index_direction"; "relative_strength_state"; "alignment"; "benchmark"];
     ci_field := "alignment"; ci_against := "misaligned"; ci_statement := "trade_opposes_relative_strength" |};
  {| ci_key := "forecast"; ci_tool := "get_forecast"; ci_entry := _forecast_entry;
     ci_fields := ["projected_direction"; "up_probability"; "expected_move_atr"; "forecast_confidence"; "forecast_alignment"];
     ci_field := "forecast_alignment"; ci_against := "misaligned"; ci_statement := "trade_opposes_forecast" |};
  {| ci_key := "session"; ci_tool := "get_session_context"; ci_entry := _session_entry;
     ci_fields := ["session_phase"; "minutes_since_open"; "minutes_until_close"; "time_favorability"];
     ci_field := "time_favorability"; ci_against := "unfavorable"; ci_statement := "trade_in_unfavorable_window" |};
  {| ci_key := "options"; ci_tool := "get_options_analytics"; ci_entry := _options_entry;
     ci_fields := ["pcr_oi"; "pcr_volume"; "max_pain"; "oi_buildup"; "oi_walls"; "iv_skew"; "futures_basis";
                   "options_bias_state"; "alignment"; "chain_context"];
     ci_field := "alignment"; ci_against := "misaligned"; ci_statement := "trade_opposes_options" |};
  {| ci_key := "event"; ci_tool := "get_event_risk"; ci_entry := _event_entry;
     ci_fields := ["event_risk"; "days_until_event"; "event_date"; "event_recommendation"];
     ci_field := "event_risk"; ci_against := "through_event"; ci_statement := "trade_held_through_event" |}]%string.

(** Case analysis over the six citations. *)
Ltac each_citation H := cbn [In CITATIONS] in H; destruct H as [<-|[<-|[<-|[<-|[<-|[<-|[]]]]]]].

(** What an entry as the tool gives it says. *)
Lemma citation_entry c results e :
  In c CITATIONS -> ci_entry c results = Ok e ->
  vget e (ci_statement c) = VNone /\
  (exists d, e = VDict d) /\
  (available_entry e = true ->
   exists r, reads results (ci_tool c) r /\ forall f, In f (ci_fields c) -> vget e f = dict_get r f).
Proof.
  intros Hc H. each_citation Hc; cbn [ci_entry ci_statement ci_tool ci_fields] in *;
    (apply tool_entry_cases in H as [[reason ->]|(r & R & _ & ->)];
     [by split_and!; [|eexists|]|split_and!; [|by eexists|intros _; exists r; split; [exact R|]]];
     [unfold vget, dict_get; cbn [dict_find String.eqb]; rewrite ?dict_find_app, ?dict_find_copy, ?dict_find_carried; reflexivity|
      intros f Hf; repeat destruct Hf as [<-|Hf]; try done; reflexivity]).
Qed.

(** ** The record *)

Section record_facts.
Context (literal_eval : string -> option val) (messages : list val) (mode manual_trade profile : val).
Abbreviation results := (_latest_tool_results literal_eval messages).
Abbreviation built := (build_defensibility_record literal_eval messages mode manual_trade profile).

(** The entry as the record carries it. *)
Definition stated_entry (c : citation) (action e : val) (statement : string) : val :=
  opposed e (ci_field c) (ci_against c) (ci_statement c) action statement.

Lemma record_entry c decision rec :
  In c CITATIONS -> built decision = Ok rec ->
  exists e statement, ci_entry c results = Ok e /\ nonempty statement = true /\
    dict_get rec (ci_key c) = stated_entry c (dict_get rec "action") e statement.
Proof.
  intros Hc H. unfold build_defensibility_record in H. do 3 mbind H. destruct a1 as [action levels].
  do 10 mbind H. injection H as <-.
  each_citation Hc; cbn [ci_entry ci_key]; eexists _, _; (split; [eassumption|]); (split; [|reflexivity]); reflexivity.
Qed.

Lemma opposed_keeps entry field against key action statement k :
  k <> key -> vget (opposed entry field against key action statement) k = vget entry k.
Proof.
  intros N. unfold opposed. destruct entry; try done. destruct (_ && _); [|done]. by apply dict_get_set_ne.
Qed.

Lemma available_opposed entry field against key action statement :
  key <> "available"%string ->
  available_entry (opposed entry field against key action statement) = available_entry entry.
Proof. intros N. unfold available_entry. by rewrite opposed_keeps by congruence. Qed.

(** Nothing in the record is fabricated: an entry the record marks available is
    one the tool named for it returned (its latest usable answer, not marked
    unavailable), and every field the entry cites is the tool's own. *)
Theorem record_cites_tools c decision rec :
  In c CITATIONS -> built decision = Ok rec ->
  available_entry (dict_get rec (ci_key c)) = true ->
  exists r, reads results (ci_tool c) r /\
            forall f, In f (ci_fields c) -> vget (dict_get rec (ci_key c)) f = dict_get r f.
Proof.
  intros Hc H Hav. destruct (record_entry _ _ _ Hc H) as (e & statement & He & _ & Hr). rewrite Hr in *.
  destruct (citation_entry _ _ _ Hc He) as (_ & _ & Hread). unfold stated_entry in *.
  rewrite available_opposed in Hav by (each_citation Hc; done).
  destruct (Hread Hav) as (r & R & Hf). exists r. split; [done|]. intros f Hin. rewrite opposed_keeps; [by apply Hf|].
  clear -Hc Hin. each_citation Hc; cbn [ci_fields ci_statement] in *; repeat destruct Hin as [<-|Hin]; done.
Qed.

(** The record says a trade goes against its evidence exactly when it does: an
    entry carries its opposition statement if and only if it is available, its
    verdict is the adverse one and the recorded action is a BUY or a SELL. *)
Theorem record_states_opposition c decision rec :
  In c CITATIONS -> built decision = Ok rec ->
  let e := dict_get rec (ci_key c) in
  (truthy (vget e (ci_statement c)) = true <->
   available_entry e = true /\ vget e (ci_field c) = VStr (ci_against c) /\ directional (dict_get rec "action") = true).
Proof.
  intros Hc H e. subst e. destruct (record_entry _ _ _ Hc H) as (e & statement & He & Hne & Hr). rewrite Hr.
  destruct (citation_entry _ _ _ Hc He) as (Hnone & (d & ->) & _). unfold stated_entry.
  rewrite available_opposed by (each_citation Hc; done).
  rewrite (opposed_keeps (VDict d) (ci_field c) (ci_against c) (ci_statement c) _ _ (ci_field c))
    by (clear -Hc; each_citation Hc; done).
  assert (truthy (dict_get d "available") = true <-> available_entry (VDict d) = true) as Hav.
  { destruct (ci_entry c results) as [[]|] eqn:E; try done. injection He as ->.
    clear -E Hc. each_citation Hc; cbn [ci_entry] in E; apply tool_entry_cases in E as [[? [= ->]]|(r & _ & _ & [= ->])]; split; done. }
  cbn [opposed].
  assert (name_in [ci_against c] (dict_get d (ci_field c)) = true <-> vget (VDict d) (ci_field c) = VStr (ci_against c)) as Hf.
  { unfold vget, name_in. destruct (dict_get d (ci_field c)); try done. unfold str_in. cbn [existsb].
    rewrite orb_false_r, String.eqb_eq. split; [by intros ->|by intros [= ->]]. }
  destruct (truthy (dict_get d "available") && name_in [ci_against c] (dict_get d (ci_field c)) && directional (dict_get rec "action")) eqn:B.
  - apply andb_true_iff in B as [[Ba Bn]%andb_true_iff Bd]. unfold vget at 1. rewrite dict_get_set_eq. cbn [truthy]. rewrite Hne.
    split; [|done]. intros _. split_and!; [by apply Hav|by apply Hf|done].
  - rewrite Hnone. cbn [truthy]. split; [done|]. intros (Ha & Hv & Hd). apply Hav in Ha. apply Hf in Hv.
    by rewrite Ha, Hv, Hd in B.
Qed.
End record_facts.

(** ** VERIFY agrees with the validator *)

Definition failing (c : val) : bool := name_in ["fail"]%string (vget c "outcome").

Definition bracket (e s t : float) : list (val * val) :=
  [(VStr "entry", VFloat e); (VStr "stop_loss", VFloat s); (VStr "take_profit", VFloat t)].

Definition action_text (a : Action) : string := match a with BUY => "BUY" | SELL => "SELL" | HOLD => "HOLD" end.

Lemma finite_level_bracket e s t :
  finite_level (Some (bracket e s t)) "entry" = (if fin e then Some e else None) /\
  finite_level (Some (bracket e s t)) "stop_loss" = (if fin s then Some s else None) /\
  finite_level (Some (bracket e s t)) "take_profit" = (if fin t then Some t else None).
Proof. done. Qed.

Lemma failing_check name outcome : failing (check name outcome) = String.eqb outcome "fail".
Proof. unfold failing. cbn. by rewrite orb_false_r. Qed.

Lemma failing_check_with name outcome detail : failing (check_with name outcome detail) = String.eqb outcome "fail".
Proof. unfold failing. cbn. by rewrite orb_false_r. Qed.

Lemma pass_or_fail_fails b : String.eqb (pass_or_fail b) "fail" = negb b.
Proof. by destruct b. Qed.

(** A comparison with a limit that is not NaN, read either way. *)
Lemma negb_leb_ltb x y : is_nan x = false -> is_nan y = false -> negb (PrimFloat.leb x y) = PrimFloat.ltb y x.
Proof. intros Nx Ny. rewrite leb_rank, ltb_rank, Nx, Ny. cbn. rewrite Z.leb_antisym, negb_involutive. done. Qed.

Lemma fmul_not_nan x y : fin x = true -> fin y = true -> is_nan (x * y)%float = false.
Proof.
  rewrite !fin_sf, is_nan_sf, mul_spec. intros Fx Fy. unfold SF64mul, SFmul.
  destruct (Prim2SF x), (Prim2SF y); try done. by rewrite sf_nan_sign, binary_round_aux_sign.
Qed.

Lemma stop_check_fails risk atr :
  is_nan risk = false -> failing (stop_check risk (opt_float atr)) = atr_violated risk atr.
Proof.
  intros N. unfold stop_check, atr_violated. destruct atr as [a|]; cbn [opt_float]; [|by rewrite failing_check].
  destruct (fin a) eqn:F; cbn [andb]; [|by rewrite failing_check].
  assert (PrimFloat.ltb 0 a = (0 <? frank a)) as -> by (by rewrite (ltb_fin 0%float a)).
  destruct (0 <? frank a) eqn:P; cbn [andb]; [|by rewrite failing_check].
  rewrite failing_check_with, pass_or_fail_fails. apply negb_leb_ltb; [|done]. by apply fmul_not_nan.
Qed.

Lemma reward_check_fails risk reward m :
  PrimFloat.ltb 0 risk = true -> is_nan (reward / risk) = false -> is_nan m = false ->
  failing (reward_check risk reward m) = PrimFloat.ltb (reward / risk) m.
Proof.
  intros H N Nm. unfold reward_check. rewrite H, failing_check_with, pass_or_fail_fails. by apply negb_leb_ltb.
Qed.

(** The checks a VERIFY run reports agree with the validator: for a BUY or a SELL
    none of them is reported as failed exactly when the trade validator passes the
    trade at the same minimum, short of a reward and a risk that both overflow. *)
Theorem verify_checks_agree env a e s t atr mb m :
  a <> HOLD -> is_nan (PrimFloat.abs (t - e) / PrimFloat.abs (e - s)) = false ->
  (existsb failing (_verify_mode_validator_checks (VStr (action_text a)) (Some (bracket e s t)) (opt_float atr) m) = false <->
   exists rr, validate_trade env a (Some (float_levels e s t)) (opt_float atr) VNone mb (VFloat m) = Ok (Passed rr)).
Proof.
  intros Ha Nrr. change (VFloat m) with (opt_float (Some m)). rewrite validate_trade_refines_spec_aux by done.
  unfold spec_outcome, _verify_mode_validator_checks.
  assert (directional (_normalize_action (VStr (action_text a))) = true) as -> by (by destruct a).
  destruct (finite_level_bracket e s t) as (-> & -> & ->). cbn [negb].
  destruct (fin e) eqn:Fe; [|split; [done|by intros [? ?]]]. destruct (fin s) eqn:Fs; [|split; [done|by intros [? ?]]].
  destruct (fin t) eqn:Ft; [|split; [done|by intros [? ?]]]. cbn [andb negb existsb].
  rewrite !failing_check, pass_or_fail_fails. cbn [String.eqb orb]. rewrite orb_false_r.
  set (dir_ok := if name_in _ _ then _ else _).
  assert (dir_ok = (match a with BUY => (frank s <? frank e) && (frank e <? frank t)
                             | _ => (frank t <? frank e) && (frank e <? frank s) end)) as ->.
  { subst dir_ok. destruct a; cbn; rewrite !ltb_fin by done; done. }
  assert ((let '(lo, hi) := match a with BUY => (s, t) | _ => (t, s) end in (frank lo <? frank e) && (frank e <? frank hi)) =
          (match a with BUY => (frank s <? frank e) && (frank e <? frank t)
                             | _ => (frank t <? frank e) && (frank e <? frank s) end)) as Hd by (by destruct a).
  destruct (match a with BUY => (s, t) | _ => (t, s) end) as [lo hi] eqn:Elh. cbv beta iota zeta in Hd. rewrite Hd.
  destruct (match a with BUY => (frank s <? frank e) && (frank e <? frank t)
                       | _ => (frank t <? frank e) && (frank e <? frank s) end) eqn:Dir; cbn [negb orb]; [|split; [done|by intros [? ?]]].
  assert (frank s < frank e < frank t \/ frank t < frank e < frank s) as B.
  { clear Hd. destruct a; [left| right|done]; bools; lia. }
  destruct (bracket_gaps e s t Fe Fs Ft B) as ((Pr & Nr) & _).
  assert (PrimFloat.ltb 0 (PrimFloat.abs (e - s)) = true) as Hpos.
  { rewrite ltb_rank, Nr. apply Z.ltb_lt. change (frank 0%float) with 0. lia. }
  rewrite stop_check_fails by done.
  change (if PrimFloat.ltb 0 m then m else MIN_RISK_REWARD) with (resolved_minimum (Some m)).
  rewrite reward_check_fails by (done || apply resolved_minimum_not_nan).
  destruct (atr_violated _ _); cbn [orb]; [split; [done|by intros [? ?]]|].
  destruct (PrimFloat.ltb _ (resolved_minimum _)); [split; [done|by intros [? ?]]|]. split; [eauto|done].
Qed.

(** ** Plans that are not text *)

Lemma text_parts_raise v w : truthy v = true -> is_str v = false -> text_parts [v; w] = Raise TypeError.
Proof. intros T S. cbn [text_parts]. rewrite T. by destruct v. Qed.

(** A plan that is not text ends the run, not the trade: a decision without its
    three numeric levels whose execution plan is neither empty nor a string (the
    graph reads it from the raw call) makes the commit raise, so nothing is
    committed, journaled or recorded. *)
Theorem structured_plan_aborts_commit D now w st decision thread_id :
  match thread_id with Some t => committed_record t (w_committed w) | None => None end = None ->
  truthy (rq_manual_trade (st_request st)) = false ->
  (forall levels, numeric_levels vget (VDict decision) LEVEL_KEYS = Ok levels -> length levels <> 3%nat) ->
  truthy (dict_get decision "execution_plan") = true -> is_str (dict_get decision "execution_plan") = false ->
  exists ex, _finalize_decision D now w st decision thread_id = Raise ex.
Proof.
  intros Hg Hm Hl Ht Hs. unfold _finalize_decision. rewrite Hg. unfold decorate.
  enough (exists ex, record_of D st (stamp_of D st decision) = Raise ex) as [ex ->] by (by exists ex).
  assert (forall k, k <> "opportunity_tier" -> k <> "size_factor" -> k <> "best_current_read" ->
            dict_get (stamp_of D st decision) k = dict_get decision k)%string as Hk.
  { intros k N1 N2 N3. unfold stamp_of, _stamp_opportunity_tier. destruct (mbind _ _) as [[[ev action] t]|]; [|done]. cbv zeta.
    destruct (size_factor _ _); [|by rewrite dict_get_set_ne].
    destruct (String.eqb _ _); [|by rewrite !dict_get_set_ne].
    destruct (_best_current_read _ _); [|by rewrite !dict_get_set_ne].
    destruct (has_key _ _); by rewrite !dict_get_set_ne. }
  generalize dependent (stamp_of D st decision). intros d Hk. unfold record_of, build_defensibility_record.
  destruct (record_mode _) as [m|]; cbn [mbind res_bind]; [|eauto].
  destruct (_collect_high_confidence_patterns _ _); cbn [mbind res_bind]; [|eauto].
  enough (exists ex, _resolve_action_and_levels d (VStr m) (rq_manual_trade (st_request st)) = Raise ex) as [ex ->] by (by exists ex).
  unfold _resolve_action_and_levels, verifies. rewrite Hm, andb_false_r. cbv zeta.
  assert (numeric_levels vget (VDict d) LEVEL_KEYS = numeric_levels vget (VDict decision) LEVEL_KEYS) as ->.
  { cbn [numeric_levels LEVEL_KEYS vget]. by rewrite !Hk. }
  destruct (numeric_levels vget (VDict decision) LEVEL_KEYS) as [levels|] eqn:E; cbn [mbind res_bind]; [|eauto].
  rewrite (proj2 (Nat.eqb_neq _ _) (Hl _ eq_refl)).
  rewrite (Hk "execution_plan"%string) by done. rewrite text_parts_raise by done. cbn [mbind res_bind]. eauto.
Qed.

(** ** Concrete records *)

Definition regime_message (favorability : string) : val :=
  tool_message (VDict [(VStr "trend_state", VStr "trending"); (VStr "volatility_state", VStr "high");
                       (VStr "favorability", VStr favorability); (VStr "measures", VDict [])]) (VStr "c1") (VStr "get_market_regime").

Definition demo_decision : list (val * val) :=
  [(VStr "action", VStr "BUY"); (VStr "entry", VFloat 100); (VStr "stop_loss", VFloat 98); (VStr "take_profit", VFloat 106);
   (VStr "execution_plan", VStr "")].

Definition demo_record : list (val * val) :=
  Eval vm_compute in
    match build_defensibility_record (fun _ => None) [regime_message "unfavorable"] VNone VNone VNone demo_decision with
    | Ok r => r | Raise _ => [] end.

Lemma demo_record_ok :
  build_defensibility_record (fun _ => None) [regime_message "unfavorable"] VNone VNone VNone demo_decision = Ok demo_record.
Proof. vm_compute. reflexivity. Qed.

Definition regime_citation : citation := hd
  {| ci_key := ""; ci_tool := ""; ci_entry := fun _ => Ok VNone; ci_fields := []; ci_field := ""; ci_against := ""; ci_statement := "" |}
  CITATIONS.

Lemma record_cites_tools_witness :
  vget (dict_get demo_record "regime") "volatility_state" = VStr "high" /\
  exists r, reads (_latest_tool_results (fun _ => None) [regime_message "unfavorable"]) "get_market_regime" r /\
            vget (dict_get demo_record "regime") "volatility_state" = dict_get r "volatility_state".
Proof.
  split; [reflexivity|].
  destruct (record_cites_tools (fun _ => None) [regime_message "unfavorable"] VNone VNone VNone regime_citation demo_decision demo_record)
    as (r & R & Hf).
  - left. reflexivity.
  - exact demo_record_ok.
  - reflexivity.
  - exists r. split; [exact R|]. apply Hf. right. left. reflexivity.
Defined.

Lemma record_states_opposition_witness : truthy (vget (dict_get demo_record "regime") "trade_opposes_regime") = true.
Proof.
  apply (record_states_opposition (fun _ => None) [regime_message "unfavorable"] VNone VNone VNone regime_citation demo_decision demo_record).
  - left. reflexivity.
  - exact demo_record_ok.
  - split; [reflexivity|split; reflexivity].
Defined.

Lemma verify_checks_agree_witness :
  existsb failing (_verify_mode_validator_checks (VStr "BUY") (Some (bracket 100 98 106)) (opt_float (Some 1%float)) 2) = false.
Proof.
  apply (verify_checks_agree (fun _ => None) BUY 100 98 106 (Some 1%float) VNone 2).
  - discriminate.
  - vm_compute. reflexivity.
  - eexists. vm_compute. reflexivity.
Defined.

(** A HOLD declared with a structured plan. *)
Definition structured_hold : list (val * val) :=
  [(VStr "action", VStr "HOLD"); (VStr "execution_plan", VDict [(VStr "plan", VStr "wait")])].

Lemma structured_plan_aborts_commit_witness :
  exists ex, _finalize_decision demo_deployment 100 empty_world (demo_state true []) structured_hold (Some "th"%string) = Raise ex.
Proof.
  apply (structured_plan_aborts_commit demo_deployment 100 empty_world (demo_state true []) structured_hold (Some "th"%string)).
  - reflexivity.
  - reflexivity.
  - intros levels H. vm_compute in H. injection H as <-. discriminate.
  - reflexivity.
  - reflexivity.
Defined.
