(* ===== verification/TradeToolsFacts.v ===== *)
(** * The trading tools: what a commit and a watch rest on

    The graph reads a declaration's fate from a marker in the tool's answer: for a
    BUY or a SELL the marker is absent exactly when the server validated the trade
    and the management plan, if any, passed; the aliases the graph also understands
    escape that.  A watch suspends the run exactly when a registration attempt was
    accepted, and the text of a resume is classified back by the graph. *)

From stdpp Require Import base list strings relations.
From Stdlib Require Import ZArith Lia Floats Ascii.
From S2P Require Import Prelude PyFloat PyRound PyNum PyVal PyEnv PyJson PyTime TradeManager Validator Debate Opportunity.
From S2P Require Import Contracts TradeTools JournalTags Journal HashChain GraphMessages GraphEvidence GraphRecord Graph GraphNodes.
From S2P Require Import JournalFacts GraphFacts GraphDebate GraphFlow GraphFlowFacts GraphRunFacts.

#[local] Set Warnings "-inexact-float".
Open Scope Z_scope.
Open Scope res_scope.

(** ** Text without a character *)

Lemma starts_with_char c p s : str_contains_char c p = true -> starts_with p s = true -> str_contains_char c s = true.
Proof.
  revert s. induction p as [|d p IH]; [done|]. intros [|e s]; [done|]. cbn.
  intros H [He Hs]%andb_true_iff. apply Ascii.eqb_eq in He as <-.
  apply orb_true_iff in H as [H|H]; [by rewrite H|]. rewrite (IH _ H Hs). by rewrite orb_true_r.
Qed.

(** Text that lacks one of a pattern's characters does not hold the pattern. *)
Lemma lacks_pattern c p s : str_contains_char c p = true -> str_contains_char c s = false -> str_contains p s = false.
Proof.
  intros Hp. induction s as [|d s IH]; intros Hs; cbn [str_contains].
  - rewrite orb_false_r. apply not_true_iff_false. intros H%(starts_with_char c); [|done]. congruence.
  - cbn in Hs. apply orb_false_iff in Hs as [Hd Hs]. rewrite (IH Hs), orb_false_r.
    apply not_true_iff_false. intros H%(starts_with_char c); [|done]. cbn in H. by rewrite Hd, Hs in H.
Qed.

Lemma starts_with_contains p s : starts_with p s = true -> str_contains p s = true.
Proof. destruct s; cbn [str_contains]; intros ->; done. Qed.

(** A character that is no space survives stripping, and casing keeps letters letters. *)
Lemma char_lstrip c s : is_space c = false -> str_contains_char c (lstrip s) = str_contains_char c s.
Proof.
  intros H. induction s as [|d s IH]; [done|]. cbn [lstrip str_contains_char]. destruct (is_space d) eqn:E; [|done].
  rewrite IH. destruct (Ascii.eqb_spec c d) as [->|]; [congruence|done].
Qed.

Lemma char_rstrip c s : is_space c = false -> str_contains_char c (rstrip s) = str_contains_char c s.
Proof.
  intros H. induction s as [|d s IH]; [done|]. cbn [rstrip str_contains_char]. rewrite <- IH.
  destruct (rstrip s) as [|d' s'] eqn:R; [|done]. destruct (is_space d) eqn:E; [|done].
  cbn. destruct (Ascii.eqb_spec c d) as [->|]; [congruence|done].
Qed.

Lemma char_upper c s : upper_char c = c -> str_contains_char c s = true -> str_contains_char c (upper s) = true.
Proof.
  intros Hu. induction s as [|d s IH]; [done|]. cbn [upper str_map str_contains_char].
  intros [->%Ascii.eqb_eq|H]%orb_true_iff; [by rewrite Hu, Ascii.eqb_refl|].
  change (str_map upper_char s) with (upper s). rewrite (IH H). by rewrite orb_true_r.
Qed.

Lemma directional_lacks_J action : _is_directional_action (VStr action) = true -> str_contains_char "J" action = false.
Proof.
  unfold _is_directional_action, str_in. cbn [existsb]. rewrite orb_false_r, orb_true_iff, !String.eqb_eq.
  intros H. apply not_true_iff_false. intros HJ.
  assert (str_contains_char "J" (upper (strip action)) = true) as HU.
  { apply char_upper; [done|]. unfold strip. by rewrite char_rstrip, char_lstrip. }
  destruct H as [H|H]; rewrite H in HU; discriminate HU.
Qed.

(** ** The marker *)

Definition MARKER : string := "TRADE_REJECTED".

(** The tool's answer as the graph receives it. *)
Definition declare_message (text : string) (id : val) : val := tool_message (VStr text) id (VStr "declare_trade").

Lemma rejected_one text id :
  _declare_was_rejected [declare_message text id] = str_contains MARKER text.
Proof. unfold _declare_was_rejected. cbn [existsb]. rewrite orb_false_r. reflexivity. Qed.

Lemma rejections_carry_marker m a d : d <> Declared -> str_contains MARKER (declaration_text m a d) = true.
Proof. intros H. apply starts_with_contains. by destruct d. Qed.

Lemma declared_lacks_marker m a : str_contains_char "J" (da_action a) = false -> str_contains MARKER (declaration_text m a Declared) = false.
Proof.
  intros H. apply (lacks_pattern "J"); [done|]. cbn [declaration_text]. rewrite !char_app, H, Z_str_lacks by done. done.
Qed.

(** ** What a declaration was checked against *)

Section declarations.
Context (e : env) (post : val -> server_reply) (config : val).

Definition run_minimum : float := min_risk_reward_for_profile (profile_of config).

(** The plan, if there is one, was read and passed the validator. *)
Definition plan_cleared (a : declare_args) : Prop :=
  da_management_plan a = VNone \/
  exists p r,
    _coerce_management_plan (da_management_plan a) (VStr (da_action a)) (da_entry a) (da_stop_loss a) (da_atr_14 a)
      = Ok (Some p) /\
    validate_trade e (from_str_lenient (Some (da_action a)))
      (Some {| entry := da_entry a; stop_loss := da_stop_loss a; take_profit := da_take_profit a |})
      (da_atr_14 a) (plan_obj p) (VFloat run_minimum) (VFloat run_minimum) = Ok (Passed r).

(** The server was asked about these very levels, answered, and did not refuse. *)
Definition server_cleared (a : declare_args) : Prop :=
  exists body, post (request_body (profile_of config) a) = Body body /\ body_rejects body = false.

Definition validated (a : declare_args) : Prop := plan_cleared a /\ server_cleared a.

Lemma plan_gate_open a : plan_gate e run_minimum a = Ok None <-> plan_cleared a.
Proof.
  unfold plan_gate, plan_cleared. destruct (da_management_plan a) eqn:M; cbn [is_none];
    try (split; [intros H; mbind H; destruct a0 as [p|]; [|done]; mbind H; destruct a0; [|done];
                 right; exists p, risk_reward; by rewrite <- E0
                |intros [?|(p & r & -> & H)]; [done|]; cbn [mbind res_bind]; by rewrite H]).
  split; [by left|done].
Qed.

Lemma decide_declared a d sent :
  decide_declaration e post (profile_of config) a = Ok (d, sent) ->
  d = Declared <->
  plan_cleared a /\ (server_cleared a \/
    (_is_directional_action (VStr (da_action a)) = false /\
     exists t m, post (request_body (profile_of config) a) = Unreachable t m)).
Proof.
  unfold decide_declaration. intros H. mbind H. change (min_risk_reward_for_profile _) with run_minimum in E.
  destruct a0 as [rej|].
  - injection H as <- <-. split.
    + intros ->. exfalso. revert E. unfold plan_gate. destruct (is_none _); [done|]. intros E. mbind E.
      destruct a0; [|done]. mbind E. by destruct a0.
    + intros [P _]. apply plan_gate_open in P. congruence.
  - apply plan_gate_open in E. injection H as <- <-. unfold read_reply, server_cleared.
    destruct (post (request_body (profile_of config) a)) as [body|t m] eqn:R.
    + destruct (body_rejects body) eqn:B; (split; [|intros H]); try done.
      * destruct H as (_ & [(b & [= <-] & ?)|(_ & ? & ? & ?)]); congruence.
      * intros _. split; [done|left; eauto].
    + destruct (_is_directional_action _) eqn:Dir; (split; [|intros H]); try done.
      * destruct H as (_ & [(b & ? & ?)|(? & _)]); congruence.
      * intros _. split; [done|right; eauto].
Qed.

(** The tool's answer lets the graph commit exactly when the declaration stood. *)
Lemma answer_read a text sent id :
  str_contains_char "J" (da_action a) = false ->
  declare_trade e post config a = Ok (text, sent) ->
  _declare_was_rejected [declare_message text id] = false <->
  decide_declaration e post (profile_of config) a = Ok (Declared, sent).
Proof.
  intros HJ. rewrite rejected_one. unfold declare_trade. intros H. mbind H. destruct a0 as [d s]. injection H as <- <-.
  cbn [fst snd]. rewrite E. split.
  - intros Hm. do 2 f_equal. destruct d; [done|exfalso..]; rewrite rejections_carry_marker in Hm; done.
  - intros [= ->]. by apply declared_lacks_marker.
Qed.

Lemma cleared_iff a text sent id :
  _is_directional_action (VStr (da_action a)) = true ->
  declare_trade e post config a = Ok (text, sent) ->
  _declare_was_rejected [declare_message text id] = false <-> validated a.
Proof.
  intros Hd H. rewrite (answer_read _ _ _ _ (directional_lacks_J _ Hd) H). unfold declare_trade in H. mbind H.
  destruct a0 as [d s]. injection H as <- <-. pose proof (decide_declared _ _ _ E) as D. rewrite E.
  transitivity (d = Declared); [split; [by intros [= ->]|by intros ->]|]. rewrite D, Hd. unfold validated.
  intuition congruence.
Qed.

Lemma sent_iff a text sent : declare_trade e post config a = Ok (text, sent) -> sent = None <-> ~ plan_cleared a.
Proof.
  unfold declare_trade, decide_declaration. intros H. mbind H. mbind E. injection H as <- <-.
  change (min_risk_reward_for_profile _) with run_minimum in E0.
  rewrite <- plan_gate_open, E0. destruct a1; injection E as <-; cbn [fst snd]; intuition congruence.
Qed.

(** A BUY or SELL is let through exactly when it was validated: the answer of
    [declare_trade] lacks the rejection marker the graph looks for if and only if the
    management plan, when there is one, was read and passed the validator at the
    profile's minimum, and the tool server answered the request about these levels
    without refusing it; a plan that does not pass is never sent. *)
Theorem declare_trade_fails_closed a text sent id :
  _is_directional_action (VStr (da_action a)) = true ->
  declare_trade e post config a = Ok (text, sent) ->
  (_declare_was_rejected [declare_message text id] = false <-> validated a) /\
  (sent = None <-> ~ plan_cleared a).
Proof. intros Hd H. split; [by apply (cleared_iff _ _ sent)|by apply (sent_iff _ text)]. Qed.

(** ** The executor *)

(** What the framework does around the tools, as far as the graph sees it: it
    coerces a call's arguments, runs the tool, and answers a call whose arguments
    do not fit with a text of its own.  [get_trade_performance] scores the journal;
    the other tools, none of which writes it, are arbitrary.  The calls are run one
    after the other. *)
Context (coerce : val -> option declare_args) (misfit : val -> string) (other : val -> res val).
Context (expiry_seconds : float) (low_sample_threshold : Z) (shown : exn -> string).
(** What the scoring of a call reads, the symbol it asks for, its result as text. *)
Context (source : val -> scoring_source) (symbol_of : val -> option string) (render : val -> val).

Definition is_performance : val -> bool := call_is "get_trade_performance".

Definition run_call (db : journal) (tc : val) : res (journal * val) :=
  if is_declare tc then
    match coerce (call_args tc) with
    | Some a => r ← declare_trade e post config a; Ok (db, declare_message r.1 (cid tc))
    | None => Ok (db, declare_message (misfit tc) (cid tc))
    end
  else if is_performance tc then
    match symbol_of (call_args tc) with
    | Some s =>
        let '(db, r) := get_trade_performance expiry_seconds low_sample_threshold shown (source tc) db s in
        Ok (db, tool_message (render r) (cid tc) (VStr "get_trade_performance"))
    | None => Ok (db, tool_message (VStr (misfit tc)) (cid tc) (VStr "get_trade_performance"))
    end
  else m ← other tc; Ok (db, m).

Fixpoint executor (db : journal) (calls : list val) : res (journal * list val) :=
  match calls with
  | [] => Ok (db, [])
  | tc :: calls' =>
      '(db, m) ← run_call db tc;
      '(db, ms) ← executor db calls';
      Ok (db, m :: ms)
  end.

Lemma run_call_scores db tc db' m : run_call db tc = Ok (db', m) -> scores db db'.
Proof.
  unfold run_call. intros H. destruct (is_declare tc).
  - destruct (coerce _); [mbind H|]; by injection H as <- _.
  - destruct (is_performance tc); [|mbind H; by injection H as <- _].
    destruct (symbol_of _); [|by injection H as <- _]. injection H as <- _. apply rtc_once. constructor.
Qed.

(** The journal after the calls is the one before, its open trades scored. *)
Lemma executor_scores db calls db' out : executor db calls = Ok (db', out) -> scores db db'.
Proof.
  revert db out. induction calls as [|tc calls IH]; intros db out H; cbn [executor] in H; [by injection H as <- _|].
  mbind H. destruct a as [db1 m]. mbind H. destruct a as [db2 ms]. injection H as <- _.
  etransitivity; [by eapply run_call_scores|by eapply IH].
Qed.

Lemma executor_scoring : scoring executor.
Proof. intros db calls db' out. apply executor_scores. Qed.

Lemma executor_out db calls db' out tc :
  executor db calls = Ok (db', out) -> In tc calls -> exists db1 db2 m, run_call db1 tc = Ok (db2, m) /\ In m out.
Proof.
  revert db out. induction calls as [|c calls IH]; intros db out H Hin; [done|]. cbn [executor] in H.
  mbind H. destruct a as [db1 m]. mbind H. destruct a as [db2 ms]. injection H as <- <-. destruct Hin as [->|Hin].
  - exists db, db1, m. split; [done|by left].
  - destruct (IH _ _ E0 Hin) as (x & y & m' & ? & ?). exists x, y, m'. split; [done|by right].
Qed.

Lemma not_rejected_member ms m : _declare_was_rejected ms = false -> In m ms -> _declare_was_rejected [m] = false.
Proof.
  unfold _declare_was_rejected. intros H Hin. apply not_true_iff_false. intros Ht. apply not_true_iff_false in H.
  apply H. apply existsb_exists. exists m. split; [done|]. cbn [existsb] in Ht. by rewrite orb_false_r in Ht.
Qed.

(** What the graph's commit of one declaration rested on. *)
Definition commit_basis (tc : val) : Prop :=
  match coerce (call_args tc) with
  | Some a => _is_directional_action (VStr (da_action a)) = true -> validated a
  | None => str_contains MARKER (misfit tc) = false
  end.

(** C2: When [tool_node] runs its calls through [declare_trade], the journal the
    calls leave is the one they found with open trades scored, and the committed
    records and the recommendations are not written by them; from there, either
    nothing is committed and the decision stays, or the data-limitation HOLD is
    committed, or some declaration among the pending calls is: if its arguments fit
    the tool and its action reads BUY or SELL, its plan, if any, passed the validator
    and the tool server had not refused its levels; if they do not fit, the
    framework's answer lacks the rejection marker.  (LONG and SHORT, which the graph
    also takes for directions, are not covered.) *)
Theorem committed_direction_was_validated D now thread_id w st w' st' :
  tool_node D executor now thread_id w st = Ok (w', st') ->
  exists db, scores (w_journal w) db /\
  let w1 := with_journal w db in
  (w' = w1 /\ st_decision st' = st_decision st) \/
  (exists d, _finalize_decision D now w1 st data_gating_hold thread_id = Ok (w', d) /\ st_decision st' = VDict d) \/
  exists tc args d,
    is_declare tc = true /\ In tc (ok_calls_of (last_message st)) /\ declared_decision (call_args tc) = Ok args /\
    _finalize_decision D now w1 st args thread_id = Ok (w', d) /\ st_decision st' = VDict d /\ commit_basis tc.
Proof.
  intros H. destruct (tool_node_reads _ _ _ _ _ _ _ _ H) as (g & w1 & executed & h & extra & G & X & _ & En & M & _).
  apply gate_calls_ok in G as [_ _ _ Hd _]. apply execute_journal in X as [Ew X].
  exists (w_journal w1). split; [destruct X as [(_ & -> & _)|X]; [reflexivity|by eapply executor_scores]|].
  cbv zeta. rewrite <- Ew.
  inversion En as [| |w2 d closing Gr Gb Ga C R| | |tc args w2 d Gr Gb Gh Hin Hdc Had Hrj C]; subst; try (by left).
  - right. left. eauto.
  - right. right. exists tc, args, d. destruct (Hd _ Hin Hdc) as (Hp & _). split_and!; try done.
    assert (exists db1 db2 m, run_call db1 tc = Ok (db2, m) /\ In m executed) as (db1 & db2 & m & Hm & Hex).
    { destruct X as [(N & _)|X]; [by rewrite N in Hin|by eapply executor_out]. }
    assert (_declare_was_rejected [m] = false) as Hn.
    { apply (not_rejected_member _ _ Hrj). unfold base_answer. apply in_or_app. by left. }
    unfold run_call in Hm. rewrite Hdc in Hm. unfold commit_basis. destruct (coerce (call_args tc)) as [a|].
    + mbind Hm. destruct a0 as [text sent]. injection Hm as _ <-. intros Dir.
      by apply (cleared_iff a text sent (cid tc)).
    + injection Hm as _ <-. by rewrite rejected_one in Hn.
Qed.

(** ** The aliases *)

Definition is_alias (action : string) : bool := str_in (upper (strip action)) ["LONG"; "SHORT"]%string.

Lemma alias_cases action : is_alias action = true -> upper (strip action) = "LONG"%string \/ upper (strip action) = "SHORT"%string.
Proof. unfold is_alias, str_in. cbn [existsb]. by rewrite orb_false_r, orb_true_iff, !String.eqb_eq. Qed.

Lemma alias_lacks_J action : is_alias action = true -> str_contains_char "J" action = false.
Proof.
  intros H%alias_cases. apply not_true_iff_false. intros HJ.
  assert (str_contains_char "J" (upper (strip action)) = true) as HU.
  { apply char_upper; [done|]. unfold strip. by rewrite char_rstrip, char_lstrip. }
  destruct H as [H|H]; rewrite H in HU; discriminate HU.
Qed.

Lemma alias_normalised action :
  is_alias action = true -> exists side, _normalize_action (VStr action) = VStr side /\ (side = "BUY" \/ side = "SELL")%string.
Proof.
  intros H. pose proof (alias_cases _ H) as C. unfold _normalize_action.
  destruct (truthy (VStr action)) eqn:T.
  - cbn [negb py_str]. change (py_str (VStr action)) with action. destruct C as [-> | ->]; eauto.
  - destruct action; [|done]. by destruct C.
Qed.

(** An alias is not a direction for the tool, nor for the validator. *)
Lemma alias_not_directional action :
  is_alias action = true -> _is_directional_action (VStr action) = false /\ from_str_lenient (Some action) = HOLD.
Proof. intros H%alias_cases. unfold _is_directional_action, from_str_lenient. by destruct H as [-> | ->]. Qed.

Lemma alias_declared a t m :
  is_alias (da_action a) = true -> da_management_plan a = VNone ->
  post (request_body (profile_of config) a) = Unreachable t m ->
  exists text, declare_trade e post config a = Ok (text, Some (request_body (profile_of config) a)) /\
               str_contains MARKER text = false.
Proof.
  intros Ha Hp Hr. eexists. unfold declare_trade, decide_declaration, plan_gate. rewrite Hp. cbn [is_none mbind res_bind].
  unfold read_reply. rewrite Hr, (proj1 (alias_not_directional _ Ha)). split; [reflexivity|].
  cbn [fst]. apply declared_lacks_marker, alias_lacks_J, Ha.
Qed.

Lemma gate_open p calls : gate false p calls = ([], calls).
Proof. done. Qed.

(** The aliases escape the gate: with the validator unreachable, a declaration
    whose action is LONG or SHORT (any case) is answered as declared, and when no
    other gate holds it back [tool_node] commits it; the committed decision's action
    is BUY or SELL, though nothing validated the trade. *)
Theorem alias_commits_unvalidated D now thread_id w st tc a args t m w' d :
  ok_calls_of (last_message st) = [tc] -> failed_calls_of (last_message st) = [] -> is_declare tc = true ->
  coerce (call_args tc) = Some a -> vget (call_args tc) "action" = VStr (da_action a) ->
  is_alias (da_action a) = true -> da_management_plan a = VNone ->
  post (request_body (profile_of config) a) = Unreachable t m ->
  phase_is st "research" = false -> market_data_seen (st_loop st) = true ->
  heartbeat_gate D now st = Ok false -> postmortem_pending (st_hunt st) = false ->
  declared_decision (call_args tc) = Ok args -> _finalize_decision D now w st args thread_id = Ok (w', d) ->
  exists st' side,
    tool_node D executor now thread_id w st = Ok (w', st') /\ st_decision st' = VDict d /\
    dict_get args "action" = VStr side /\ (side = "BUY" \/ side = "SELL")%string.
Proof.
  intros Hok Hfail Hdc Hco Hact Hal Hplan Hpost Hph Hseen Hhb Hpm Hargs F.
  destruct (alias_declared a t m Hal Hplan Hpost) as (text & Htext & Hmark).
  destruct (alias_normalised _ Hal) as (side & Hside & Hbs).
  assert (gate_calls D now st = Ok {| g_ok := [tc]; g_research := []; g_blocked := []; g_heartbeat := []; g_rearm := [] |}) as G.
  { unfold gate_calls. rewrite Hph, Hok, gate_open, Hseen. cbn [negb]. rewrite gate_open, Hhb. cbn [mbind res_bind].
    by rewrite gate_open, Hpm. }
  assert (executor (w_journal w) [tc] = Ok (w_journal w, [declare_message text (cid tc)])) as X.
  { cbn [executor]. unfold run_call. by rewrite Hdc, Hco, Htext. }
  assert (with_journal w (w_journal w) = w) as Ew by (by destruct w).
  exists (with_decision (with_hunt (with_messages st [declare_message text (cid tc)]) (st_hunt st)) (VDict d)), side.
  split_and!; try done.
  - unfold tool_node. rewrite G. cbn [mbind res_bind g_ok g_research g_blocked g_heartbeat g_rearm].
    unfold execute. rewrite X. cbn [mbind res_bind]. rewrite Ew, Hfail. cbn [map answers app].
    unfold resume_bookkeeping, resume_of. cbn [omap list_omap head].
    change (resume_kind (declare_message text (cid tc))) with (@None resume). cbn [head mbind res_bind].
    unfold _decision_from_declare. cbn [List.filter]. change (call_is "declare_trade" tc) with (is_declare tc).
    rewrite Hdc, Hargs. cbn [mbind res_bind]. rewrite rejected_one, Hmark. unfold commit. by rewrite F.
  - unfold declared_decision in Hargs. mbind Hargs. mbind Hargs. mbind Hargs. mbind Hargs. injection Hargs as <-.
    rewrite Hact, Hside. destruct Hbs as [-> | ->]; reflexivity.
Qed.
End declarations.

(** ** Watches *)

(** The retry loop stops at the first reply that is not a transport failure, or
    when its attempts are used up. *)
Lemma register_decisive post attempt more :
  exists k, (k <= more)%nat /\ (forall i, (i < k)%nat -> exists m, post (attempt + i)%nat = PostFailed m) /\
    (register post attempt more).2 = k /\
    match post (attempt + k)%nat with
    | Accepted => (register post attempt more).1 = Registered
    | Status400 body text => (register post attempt more).1 = LevelRejected (rejection_of body text)
    | PostFailed m => k = more /\ (register post attempt more).1 = NotRegistered m
    end.
Proof.
  revert attempt. induction more as [|more IH]; intros attempt; cbn [register].
  - exists O. rewrite Nat.add_0_r. split; [lia|]. split; [lia|]. by destruct (post attempt).
  - destruct (post attempt) as [body text|m|] eqn:P.
    + exists O. rewrite Nat.add_0_r, P. split_and!; try done; lia.
    + destruct (IH (S attempt)) as (k & Hk & Hf & Hn & Hr). destruct (register post (S attempt) more) as [r naps].
      exists (S k). rewrite <- plus_n_Sm. cbn [fst snd] in *. split; [lia|]. split; [|split; [by rewrite Hn|]].
      * intros [|i] Hi; [rewrite Nat.add_0_r; eauto|]. rewrite <- plus_n_Sm. apply (Hf i). lia.
      * cbn [Nat.add] in Hr. destruct (post (S (attempt + k))); try done. destruct Hr as [-> Hr]. done.
    + exists O. rewrite Nat.add_0_r, P. split_and!; try done; lia.
Qed.

(** C24: The watch tool's outcome is decided by the first registration attempt that
    is not a transport failure, of at most [max(1, MAX_ATTEMPTS)]: only an accepted
    one suspends the run, or, when the body runs again after a resume, turns the
    resume value into text; a rejected level and exhausted attempts are answered as
    errors, and the value resumed with is then not looked at. *)
Theorem watch_outcome_exact cfg max_attempts user_id post interrupt config a :
  let outcome := watch_price_condition cfg max_attempts user_id post interrupt config a in
  match config_thread config with
  | inr message => outcome = Answered (registration_failed_answer max_attempts message)
  | inl thread_id =>
      let post := post (watch_payload cfg thread_id user_id a) in
      exists k, (k <= further_attempts max_attempts)%nat /\ (forall i, (i < k)%nat -> exists m, post (S i) = PostFailed m) /\
        match post (S k) with
        | Accepted =>
            outcome = match interrupt with
                      | None => Suspended (suspension thread_id a)
                      | Some resumed => Answered (VStr (resumed_text (wa_symbol a) resumed))
                      end
        | Status400 body text =>
            (forall reason, rejection_of body text = VStr reason -> outcome = Answered (level_rejected_answer reason)) /\
            (is_str (rejection_of body text) = false ->
             exists message, outcome = Answered (registration_failed_answer max_attempts message))
        | PostFailed m =>
            k = further_attempts max_attempts /\ outcome = Answered (registration_failed_answer max_attempts m)
        end
  end.
Proof.
  cbv zeta. unfold watch_price_condition. destruct (config_thread config) as [thread_id|message]; [|done].
  destruct (register_decisive (post (watch_payload cfg thread_id user_id a)) 1 (further_attempts max_attempts))
    as (k & Hk & Hf & _ & Hr).
  exists k. split; [done|]. split; [exact Hf|]. cbn [Nat.add] in Hr.
  destruct (post _ (S k)) as [body text|m|].
  - rewrite Hr. split; [by intros reason ->|]. destruct (rejection_of body text); try done; intros _; eauto.
  - destruct Hr as [-> ->]. done.
  - by rewrite Hr.
Qed.

Lemma classify_cases v : classify_resume v = "target"%string \/ classify_resume v = "invalidation"%string \/ classify_resume v = "heartbeat"%string.
Proof.
  unfold classify_resume. destruct v; try (by left). cbv zeta. generalize (lower (strip s)). clear s. intros t.
  destruct (negb (nonempty t)); [by left|]. destruct (str_in t _TARGET_TOKENS); [by left|].
  destruct (str_in t _INVALIDATION_TOKENS); [by right; left|]. destruct (str_in t _HEARTBEAT_TOKENS); [by right; right|by left].
Qed.

(** The graph reads a resume back from the tool's text: the message the resumed
    tool answers with is classified as an invalidation exactly when the trigger was
    one, as a heartbeat exactly when it was one, and as neither for a target, which is
    also what an untyped or unknown trigger counts as. *)
Theorem resume_read_back symbol resumed id :
  resume_of [tool_message (VStr (resumed_text symbol resumed)) id (VStr "watch_price_condition")] =
  (let kind := classify_resume (resume_parts resumed).2 in
   if String.eqb kind "invalidation" then Some Invalidated
   else if String.eqb kind "heartbeat" then Some Pulse else None).
Proof.
  unfold resumed_text. destruct (resume_parts resumed) as [candle kind]. cbn [snd]. cbv zeta.
  destruct (classify_cases kind) as [-> | [-> | ->]]; reflexivity.
Qed.

(** ** Concrete declarations *)

Definition demo_env : env := fun _ => None.

(** A managed BUY at 100, stop 98, half off at 104 and half at 106. *)
Definition demo_plan : val :=
  let leg (target : float) := VDict [(VStr "target", VFloat target); (VStr "fraction", VFloat 0.5)] in
  VDict [(VStr "legs", VList [leg 104%float; leg 106%float]);
         (VStr "breakeven", VDict [(VStr "price", VFloat 102)])].

Definition demo_args (action : string) (plan : val) : declare_args :=
  {| da_action := action; da_conviction_score := 80; da_setup_validation := VStr "s"; da_execution_plan := VStr "p";
     da_entry := VFloat 100; da_stop_loss := VFloat 98; da_take_profit := VFloat 106; da_atr_14 := VFloat 1;
     da_management_plan := plan |}.

Definition server_up (_ : val) : server_reply := Body (VDict [(VStr "status", VStr "committed")]).
Definition server_down (_ : val) : server_reply := Unreachable "ConnectError" "connection refused".

(** The call's action, with the levels above. *)
Definition demo_coerce (args : val) : option declare_args :=
  match vget args "action" with VStr action => Some (demo_args action (vget args "management_plan")) | _ => None end.

Definition demo_misfit (_ : val) : string := "Error invoking tool".
Definition demo_other (tc : val) : res val := Ok (tool_message (VStr "{}") (cid tc) (vget tc "name")).

Definition demo_text (post : val -> server_reply) (a : declare_args) : string * option val :=
  match declare_trade demo_env post VNone a with Ok r => r | Raise _ => (EmptyString, None) end.

Definition managed_buy : declare_args := demo_args "buy " demo_plan.

Lemma declare_trade_fails_closed_witness : validated demo_env server_up VNone managed_buy.
Proof.
  apply (declare_trade_fails_closed demo_env server_up VNone managed_buy
           (demo_text server_up managed_buy).1 (demo_text server_up managed_buy).2 (VStr "t1")).
  - reflexivity.
  - vm_compute. reflexivity.
  - vm_compute. reflexivity.
Defined.

Definition trade_call (action : string) (plan : val) : val :=
  demo_call "declare_trade" "t1" [(VStr "action", VStr action); (VStr "conviction_score", VInt 80);
    (VStr "entry", VFloat 100); (VStr "stop_loss", VFloat 98); (VStr "take_profit", VFloat 106); (VStr "management_plan", plan)].

(** Scoring with one candle, for the symbol the call names. *)
Definition demo_source (_ : val) : scoring_source :=
  {| so_now := fun _ => 10%float; so_scored_now := fun _ => 10%float;
     so_candles := fun _ _ => [num_candle 5000 100 125 95 120] |}.

Definition demo_symbol (args : val) : option string := match vget args "symbol" with VStr s => Some s | _ => None end.

Definition demo_render (result : val) : val := match dumps dumps_default result with Ok s => VStr s | Raise _ => VStr "" end.

Definition demo_executor (post : val -> server_reply) : tool_executor :=
  executor demo_env post VNone demo_coerce demo_misfit demo_other 0 10 (fun _ => "error"%string) demo_source demo_symbol
    demo_render.

Definition trade_state (action : string) (plan : val) : AgentState := demo_state true [trade_call action plan].

Definition trade_run (post : val -> server_reply) (action : string) (plan : val) : res (world * AgentState) :=
  tool_node demo_deployment (demo_executor post) 100%float (Some "th"%string) empty_world (trade_state action plan).

Definition outcome_of (r : res (world * AgentState)) : world * AgentState :=
  match r with Ok x => x | Raise _ => (empty_world, demo_state true []) end.

(** The model asks for its record, which settles an open trade, and declares. *)
Definition managed_state : AgentState :=
  demo_state true [demo_call "get_trade_performance" "p1" [(VStr "symbol", VStr "A")]; trade_call "BUY" demo_plan].

Definition scored_world : world := with_journal empty_world two_open.

Definition managed_run : world * AgentState :=
  Eval vm_compute in
    outcome_of (tool_node demo_deployment (demo_executor server_up) 100%float (Some "th"%string) scored_world managed_state).

Lemma managed_run_ok :
  tool_node demo_deployment (demo_executor server_up) 100%float (Some "th"%string) scored_world managed_state
    = Ok (managed_run.1, managed_run.2).
Proof. vm_compute. reflexivity. Qed.

(** The tool call settled the trade of its symbol; the other stays open. *)
Example managed_run_scores :
  map (fun r => col r "status") (jrows (w_journal managed_run.1)) = [VStr "win"; VStr "open"; VStr "open"].
Proof. vm_compute. reflexivity. Qed.

Lemma committed_direction_was_validated_witness :
  exists tc args d, is_declare tc = true /\ declared_decision (call_args tc) = Ok args /\
    st_decision managed_run.2 = VDict d /\
    commit_basis demo_env server_up VNone demo_coerce demo_misfit tc.
Proof.
  destruct (committed_direction_was_validated demo_env server_up VNone demo_coerce demo_misfit demo_other 0 10
              (fun _ => "error"%string) demo_source demo_symbol demo_render
              demo_deployment 100%float (Some "th"%string) scored_world managed_state managed_run.1 managed_run.2)
    as (db & _ & [[_ H]|[(d & H & Hd)|(tc & args & d & H1 & _ & H2 & _ & H3 & H4)]]).
  - exact managed_run_ok.
  - discriminate H.
  - exfalso. apply finalize_keeps in H as [_ K].
    assert (dict_get d "action" = VStr "HOLD") as A by (apply (K "action"%string); by left).
    apply (f_equal (fun v => vget v "action")) in Hd.
    change (vget (VDict d) "action") with (dict_get d "action") in Hd. rewrite A in Hd. discriminate Hd.
  - exists tc, args, d. split_and!; [exact H1|exact H2|exact H3|exact H4].
Defined.

(** With the server down, a BUY is refused and a LONG is committed as a BUY. *)
Definition long_args : list (val * val) :=
  match declared_decision (call_args (trade_call "Long" VNone)) with Ok d => d | Raise _ => [] end.

Definition long_commit : world * list (val * val) :=
  Eval vm_compute in
    match _finalize_decision demo_deployment 100%float empty_world (trade_state "Long" VNone) long_args (Some "th"%string) with
    | Ok r => r | Raise _ => (empty_world, []) end.

Lemma alias_commits_unvalidated_witness :
  st_decision (outcome_of (trade_run server_down "BUY" VNone)).2 = VNone /\
  exists st' side,
    tool_node demo_deployment (demo_executor server_down) 100%float
      (Some "th"%string) empty_world (trade_state "Long" VNone) = Ok (long_commit.1, st') /\
    st_decision st' = VDict long_commit.2 /\ (side = "BUY" \/ side = "SELL")%string.
Proof.
  split; [vm_compute; reflexivity|].
  destruct (alias_commits_unvalidated demo_env server_down VNone demo_coerce demo_misfit demo_other 0 10
              (fun _ => "error"%string) demo_source demo_symbol demo_render demo_deployment 100%float
              (Some "th"%string) empty_world (trade_state "Long" VNone) (trade_call "Long" VNone) (demo_args "Long" VNone)
              long_args "ConnectError"%string "connection refused"%string long_commit.1 long_commit.2)
    as (st' & side & H1 & H2 & _ & H3).
  1-14: vm_compute; reflexivity.
  exists st', side. split_and!; [exact H1|exact H2|exact H3].
Defined.
